(* ===== verification/_CoqProject ===== *)
-Q . S2P
Prelude.v
Flags.v
Cpu.v
Movec.v
Mmu.v
MmuAccess.v
MmuWalk.v
MmuFill.v
MmuInv.v
MmuCoh.v
MmuProps.v
MmuTerm.v
MmuRam.v
MmuTtr.v
MmuTop.v
MmuData.v
Cache040.v
CacheBytes.v
CacheView.v
CacheProps.v
CacheTop.v
CacheIns.v
Bitfield.v
EffAddr.v
Cycles.v
Arith.v
Frames.v
Mmu030.v
Mmu030Op.v
Mmu030Spec.v
Mmu030Walk.v
Mmu030Tlb.v
Mmu030Acc.v
Mmu030Sim.v
Mmu030Load.v
Mmu030Log.v
Mmu030Top.v
Sr.v
SrProps.v
Except.v
ExceptProps.v
ExceptTop.v
Mfp.v
MfpProps.v
MfpSim.v
StRam.v
Irq.v
IrqProps.v
IrqTop.v
IrqHbl.v
IrqDemo.v
DiskOrder.v
Acsi.v
AcsiProps.v
AcsiProto.v
AcsiData.v
Blitter.v
BlitProps.v
BlitSafe.v
BlitCopy.v
JitPrefs.v
Fdd.v
Msa.v
Fdc.v
FdcProps.v
FdcData.v
FdcIrq.v
DiskDemo.v
PsTable.v
PsSettings.v
PsCall.v
PsProps.v
PsWire.v
PsFloppy.v
PsCfg.v
DosNames.v
DosDir.v
DosCalls.v
DosProps.v
DosHost.v
