(* ===== verification/Prelude.v ===== *)
(** * PiStorm Atari JIT: verification development

    ** The program

    PiStorm replaces the 68000 of an Atari ST by a Raspberry Pi that emulates
    a 68000-68060 in software, interpreted or JIT-compiled, and adds devices
    the guest reaches through its bus or through NatFeats (host calls).  The
    parts modelled here, in the order of the files:

    - The 68k core's shared routines ([cpu/newcpu_common.cpp]).  The generated
      opcode handlers ([cpu/cpuemu_*.cpp]) call them for everything that is not
      a one-line operation.  Their state is [struct regstruct]
      ([include/newcpu.h]) and the packed flags ([machdep/m68k.h]).
      - Flags: condition codes.   - Cpu: registers and the memory bus.
      - Movec: control registers, with [mmu_set_tc] and [mmu_tt_modified] of
        [cpu/cpummu.cpp].         - Bitfield: BFxxx memory operands.
      - EffAddr: 68020 indexed addressing.  - Cycles: 68000/68010 timing.
      - Arith: DIVx.L, MULx.L and the undefined flags.
      - Frames: exception stack frames.
    - The 68040/060 MMU ([cpu/cpummu.cpp], [include/cpummu.h]).  Mmu: the
      translation cache (ATC), the page shortcuts in front of it, the table
      search, access errors, PFLUSH/PTEST/PLPA; MmuAccess: the accessors the
      handlers use (data, instruction, MOVES, MOVE16, locked, unaligned).
      MmuWalk holds the specification (a table search as a function of
      memory), MmuFill, MmuInv, MmuCoh, MmuProps, MmuTerm, MmuRam, MmuTtr the
      lemmas, MmuTop and MmuData the theorems.
    - The 68030 MMU ([cpu/cpummu30.cpp], [include/cpummu030.h]).  Mmu030: the
      transparent registers, the table search, the 22-entry cache with its
      history bits, the page shortcuts, page faults, every accessor, and the
      log of accesses that lets a faulted instruction be run again; Mmu030Op:
      PMOVE, PTEST, PLOAD, PFLUSH, the decoding of TC and the root pointers,
      reset, and what instructions use: their own words, MOVES, indexed
      addressing.  Mmu030Spec is the reference search and the meaning of a TC
      value; Mmu030Walk the lemmas on the search; Mmu030Tlb the abstract
      translation buffer and the invariant [coherent]; Mmu030Acc and Mmu030Sim
      the accessors and operations against it; Mmu030Load (loading TC, and a
      concrete machine), Mmu030Log (restart) and Mmu030Top the theorems.
    - The 68040/060 caches ([cpu/newcpu.cpp]): Cache040; CacheBytes (lines as
      bytes), CacheView (the memory a program sees), CacheProps, CacheTop and
      CacheIns (theorems).
    - Status register, exceptions and interrupts ([cpu/newcpu.cpp],
      [jit_glue.cpp]).  Sr: packing and unpacking SR, the three stack
      pointers, the special flags; SrProps.  Except: [Exception] and its
      normal, 68030 and 68040/060 variants, the address errors inside them,
      halting; ExceptProps, ExceptTop.  Irq: [intlev], [intlev_ack] and
      [do_interrupt], which call the MFP hub and the exceptions; IrqProps,
      IrqTop, IrqHbl; IrqDemo runs them on a concrete machine.
    - Two devices the bus code calls: the virtual MFP interrupts
      ([platforms/atari/mfp_hub.c]): Mfp, MfpProps, MfpSim; the ST blitter
      ([platforms/atari/st_blitter.c], with its memory hooks of
      [pistorm_natmem.cpp]): Blitter, BlitProps, BlitSafe, BlitCopy.
    - The JIT's preferences ([jit/compemu_prefs.cpp]): JitPrefs.
    - The disks behind the DMA chip.  StRam: copies between devices and the
      image of ST-RAM ([pistorm_natmem.cpp]), the chip's address counter.
      DiskOrder: byte order of hard-disk images ([platforms/atari/disk_order.c]).
      Acsi: emulated hard disks ([platforms/atari/fdd/acsi.c]); AcsiProps (the
      FIFO), AcsiProto (the handshake), AcsiData (transfers).  Fdd: mounting
      floppy images ([platforms/atari/fdd/atari_fdd.c]); Msa: archived images;
      Fdc: the floppy controller, the DMA registers, and the dispatch between
      emulated floppy, emulated ACSI ([Acsi] behind the same port) and real
      devices; FdcProps (the invariant), FdcData (transfers as a driver
      programs them), FdcIrq (the interrupt); DiskDemo runs them on a concrete
      machine.
    - The live settings of the control panel
      ([platforms/atari/psctrl/psctrl_settings.cpp]), which drive the JIT
      preferences and the floppy mounts: PsTable (the descriptor table and the configuration fields),
      PsSettings (getters, setters, the boot shadow, the deferred queue),
      PsCall (strings, actions, the NatFeat entry), PsCfg (keys of the
      configuration file); PsProps, PsWire and PsFloppy hold their theorems.
    - HOSTDOS ([platforms/atari/network/hostdos.cpp]), which serves GEMDOS
      calls from host directories: DosNames (8.3 names, time stamps), DosDir
      (directory maps, path resolution), DosCalls (handles, searches, every
      call, program loading, the entry points), DosProps (theorems), DosHost
      (a concrete host and runs on it).

    ** How the code is modelled

    Integers are [Z] with the C conversions written out ([u8] ... [s64]); a
    routine that mutates globals takes the state and returns it; the calls it
    makes into parts outside the model are recorded, in order, in a log
    ([event] and [kevent] for the core, [ps_event] for the settings).  The MMU code, which
    unwinds by [longjmp], is written in a state and exception monad ([MM], with
    [throw] and [try_catch] for THROW and TRY/CATCH); that of the 68030 in one
    ([M30]) that also tells an index outside an array ([Undefined]), with the
    search's jumps as ways a step of it can end ([wres]).  Code outside the
    repository or behind an operating system call is an argument with laws:
    [Bus]/[BusLaws] (guest memory: bytes at 32-bit wrapping addresses, words
    and longs big-endian), [Phys] (physical memory behind the MMU, which may
    answer with a bus error), [HwIo]/[HwLaws] (the real bus: interrupt level,
    byte reads, the Falcon's DSP; each access returns the hardware after it, so
    answers may change), [DmaHw]/[DmaHwLaws] (the real bus, the clock, file
    writes and memory the disk code asks for), [IFetch] (instruction words), [host] (the settings'
    surroundings), [HostFS]/[HostIO] (POSIX file calls).  Each interface has a
    concrete instance, and every theorem with hypotheses has a witness on it.

    Recursion is structural.  Loops bounded by data carry that bound: the
    divide timing loop has 15 rounds, the mangling loop 99999 names, the
    chunked Fread/Fwrite loops one round per byte, which [fread_rounds] and
    [fwrite_rounds] show to be enough ([power_loop]: five rounds, since the
    code stops at level 6).  [mmu_translate] runs its [goto atc_retry] loop with
    two units of fuel, one more than the single refill [translate_terminates]
    shows it can make; the loop over the tables of a 68030 search has one
    round per index field ([last_table + 1]), and its cache scan one per entry;
    the blitter has one unit per word, which
    [blit_terminates] shows to be exact; [Exception], which calls itself when
    its own stack or vector is odd, has two, which [exception_depth] shows to
    give the result of any larger number; [dma_out] and the copies around real
    transfers have one round per byte, more than their bursts and chunks need
    (the theorems about them state the whole result); the wait for a real
    transfer has 401 rounds of 5 us for its limit of 2 ms; [cpu_invalidate_cache] takes its fuel
    as an argument, and its theorem holds for every value.

    ** What the theorems show

    - Core: the flag tests decide the 68k conditions; MOVEC is privileged,
      total on legal registers, and reads back what it stores; a bit field is
      the bits the manual says and writing one changes no other bit; the five
      addressing routines equal one specification; timings equal closed
      formulas; DIVx.L/MULx.L equal integer division and multiplication with
      the right flags; every stack frame has the documented layout and stays
      in its bytes.
    - MMU: [mmu_translate] with its caches computes what a search of the tables
      in memory computes, faults included, and keeps the caches coherent, as
      do the MMU instructions and a write of TC; it always ends; a translated
      write goes to a page marked modified; the data accessors read and write
      at the address the transparent registers or the tables give.
    - 68030 MMU: the table search equals the recursion of the manual; the
      cache, the shortcuts and the remembered instruction page behave like one
      buffer of search results over any sequence of accesses, flushes, PLOAD
      and PTEST, with memory changed by others in between; after a flush new
      tables take effect; every accessor ends in a coherent state; PMOVE to TC
      accepts exactly the values whose fields make up an address; PTEST only
      looks; an instruction run again after a fault repeats no access it had
      completed.  Two theorems record defects ([root_page_write_undefined],
      [fixup_applied_twice]).
    - Caches: a program that reads, writes and pushes sees one flat memory
      whatever the cache modes; CPUSHA brings memory up to date; instruction
      fetches deliver memory.  Three theorems record defects of the flush
      routines ([cpu_invalidate_cache_inert], [cpush_ins_inert],
      [cinvl_both_misses]).
    - SR, exceptions, interrupts: SR round-trips up to the bits a model has,
      and unpacking it moves no stack pointer; exceptions nest at most once
      and keep the registers well formed; an interrupt saves exactly its frame
      and starts its handler at its level; a level-6 interrupt is always
      vectored; no level latched by the sampler thread during a delivery is
      lost; [intlev] delivers an autovectored interrupt end to end; the two
      recognisers of idle HBL handlers agree.  Four theorems record defects
      ([m060_swaps_stack], [m_interrupt_mmu040], [hbl_probe_overrun],
      [hbl_verdict_stale]).
    - MFP: the bit-mask code refines a 68901 described with sets of channels;
      an acknowledge is atomic against raises of other threads; one theorem
      records a race ([raise_races_ier_write]).
    - Blitter: every blit ends after one round per word, changes only its
      destination words under their endmasks, keeps the registers well
      formed; a skewed line copy is the shifted bit stream of the source.
    - Disks: what a driver writes to an emulated hard disk or floppy, through
      handshake, DMA registers and image file, it reads back, and nothing else
      changes; writes stay in their sectors, protected and absent floppies are
      never changed; the command buffer, the FIFO and the drive arrays are
      accessed in bounds in every reachable state, and no command is seen
      half done; positions in an image neither overflow nor overlap; failed
      transfers say why; a sector command ends with exactly one interrupt; MSA
      archives decode to the tracks they hold; byte order is detected the same
      way for an image and for its swapped copy.  Two theorems record
      surprises ([dma_out_stream]: short replies stay in the FIFO;
      [msa_no_sides]).
    - Settings: what SETINT accepts GETINT reads back, at once or after the
      deferred queue is drained; a rejected value changes nothing; the queue is
      bounded and well formed in every reachable state; DESCRIBE records and
      configuration lines round-trip.  Two theorems record defects: the FPU
      switch that cannot be turned off ([compfpu_stays_on]) and the refused
      mount that closes the old image ([refused_mount_closes]).
    - HOSTDOS: paths stay inside the exported directory; what a listing shows
      can be opened; read-only drives are read-only; handles are allocated and
      released as GEMDOS expects; searches deliver the whole listing; a loaded
      program is relocated correctly and nothing else in memory changes.

    ** Not modelled, and next

    The generated opcode handlers, the JIT code generator, SoftFloat and the
    other vendored code, device I/O and host glue are outside the model.  Of
    the MMUs: the choice of accessors by [mmu_set_funcs] and
    [mmu030_set_funcs], the 68040's instruction restart flag, the 68030's RTE
    from a fault frame and its accessors through the data cache, and the
    debugger's dumps; of the blitter: trace output, the
    write-through to the physical bus and the invalidation of translated code;
    of the caches: the debugger's reads and the validation code; of the
    exceptions: the cycle-exact 68000/010 variant [Exception_ce000], their
    timing, the TRAP hooks and the exception log; of the interrupts: latency
    and count statistics; of the disks: traces and delays.  What would
    come next: RTE from the 68030 fault frames, the run loops and reset of
    [cpu/newcpu.cpp] and its 68030 data cache, and guest-memory mapping
    ([pistorm_natmem.cpp]).

    ** This file

    Fixed-width integers, their notations ([cint_scope]), the [word] tactic and
    the hint databases [cint] and [crange], and lemmas on bits that several
    components share. *)

From Stdlib Require Import ZArith Lia Bool List.
From stdpp Require Import base list gmap numbers.
Open Scope Z_scope.

(** ** Fixed-width integers

    A w-bit C integer is a [Z]; [uN] and [sN] are the conversions to the
    unsigned and signed types of that width (two's complement, as the
    AArch64 target implements them). *)

Definition u8 (z : Z) : Z := z mod 256.
Definition u16 (z : Z) : Z := z mod 65536.
Definition u32 (z : Z) : Z := z mod 4294967296.
Definition u64 (z : Z) : Z := z mod 18446744073709551616.
Definition s8 (z : Z) : Z := (z + 128) mod 256 - 128.
Definition s16 (z : Z) : Z := (z + 32768) mod 65536 - 32768.
Definition s32 (z : Z) : Z := (z + 2147483648) mod 4294967296 - 2147483648.
Definition s64 (z : Z) : Z :=
  (z + 9223372036854775808) mod 18446744073709551616 - 9223372036854775808.

Declare Scope cint_scope.
Delimit Scope cint_scope with cint.
Notation "a << n" := (Z.shiftl a n) (at level 34, left associativity) : cint_scope.
Notation "a >> n" := (Z.shiftr a n) (at level 34, left associativity) : cint_scope.
Notation "a .& b" := (Z.land a b) (at level 36, left associativity) : cint_scope.
Notation "a .| b" := (Z.lor a b) (at level 38, left associativity) : cint_scope.
Notation "a .^ b" := (Z.lxor a b) (at level 37, left associativity) : cint_scope.
Notation "a != b" := (negb (Z.eqb a b)) (at level 70, no associativity) : cint_scope.
Open Scope cint_scope.

(** The C truth value of an integer used as a condition. *)
Definition truth (z : Z) : bool := negb (z =? 0).

(** Ranges of the unsigned types as decidable propositions. *)
Definition is_u8 (z : Z) : Prop := 0 <= z < 256.
Definition is_u16 (z : Z) : Prop := 0 <= z < 65536.
Definition is_u32 (z : Z) : Prop := 0 <= z < 4294967296.
Definition is_s16 (z : Z) : Prop := -32768 <= z < 32768.
Definition is_s32 (z : Z) : Prop := -2147483648 <= z < 2147483648.

#[export] Instance is_u8_dec z : Decision (is_u8 z).
Proof. unfold is_u8; apply _. Defined.
#[export] Instance is_u16_dec z : Decision (is_u16 z).
Proof. unfold is_u16; apply _. Defined.
#[export] Instance is_u32_dec z : Decision (is_u32 z).
Proof. unfold is_u32; apply _. Defined.
#[export] Instance is_s32_dec z : Decision (is_s32 z).
Proof. unfold is_s32; apply _. Defined.

(** *** Automation

    [word] closes linear goals about the conversions; the databases [cint]
    (rewriting) and [crange] (resolution) carry the lemmas below. *)

Create HintDb crange.
Create Rewrite HintDb cint.

Ltac unfold_words :=
  unfold u8, u16, u32, u64, s8, s16, s32, s64, is_u8, is_u16, is_u32, is_s16, is_s32 in *.

Ltac word := intros; unfold_words; Z.div_mod_to_equations; lia.

Lemma u8_range z : is_u8 (u8 z).
Proof. word. Qed.
Lemma u16_range z : is_u16 (u16 z).
Proof. word. Qed.
Lemma u32_range z : is_u32 (u32 z).
Proof. word. Qed.
Lemma s16_range z : is_s16 (s16 z).
Proof. word. Qed.
Lemma s32_range z : is_s32 (s32 z).
Proof. word. Qed.
#[export] Hint Resolve u8_range u16_range u32_range s16_range s32_range : crange.

Lemma u8_small z : is_u8 z -> u8 z = z.
Proof. word. Qed.
Lemma u16_small z : is_u16 z -> u16 z = z.
Proof. word. Qed.
Lemma u32_small z : is_u32 z -> u32 z = z.
Proof. word. Qed.
Lemma s16_small z : is_s16 z -> s16 z = z.
Proof. word. Qed.
Lemma s32_small z : is_s32 z -> s32 z = z.
Proof. word. Qed.
Lemma s64_small z : -9223372036854775808 <= z < 9223372036854775808 -> s64 z = z.
Proof. word. Qed.
Lemma u64_small z : 0 <= z < 18446744073709551616 -> u64 z = z.
Proof. word. Qed.

Lemma u32_u32 z : u32 (u32 z) = u32 z.
Proof. word. Qed.
Lemma u32_s32 z : u32 (s32 z) = u32 z.
Proof. word. Qed.
Lemma s32_u32 z : s32 (u32 z) = s32 z.
Proof. word. Qed.
Lemma s32_s32 z : s32 (s32 z) = s32 z.
Proof. word. Qed.
Lemma u16_u16 z : u16 (u16 z) = u16 z.
Proof. word. Qed.
Lemma u8_u8 z : u8 (u8 z) = u8 z.
Proof. word. Qed.
Lemma u32_add_l a b : u32 (u32 a + b) = u32 (a + b).
Proof. unfold u32. apply Zplus_mod_idemp_l. Qed.
Lemma u32_add_r a b : u32 (a + u32 b) = u32 (a + b).
Proof. unfold u32. apply Zplus_mod_idemp_r. Qed.
Lemma u32_sub_l a b : u32 (u32 a - b) = u32 (a - b).
Proof. unfold u32. apply Zminus_mod_idemp_l. Qed.
#[export] Hint Rewrite u32_u32 u32_s32 s32_u32 s32_s32 u16_u16 u8_u8 u32_add_l u32_add_r
  u32_sub_l : cint.

(** *** Bits *)

Lemma testbit_mod_pow2 z n i : 0 <= n -> Z.testbit (z mod 2 ^ n) i = Z.testbit z i && (i <? n).
Proof.
  intros Hn. destruct (Z.ltb_spec i n).
  - rewrite andb_true_r. destruct (Z.leb_spec 0 i).
    + apply Z.mod_pow2_bits_low; lia.
    + by rewrite !Z.testbit_neg_r by lia.
  - rewrite andb_false_r. apply Z.mod_pow2_bits_high; lia.
Qed.
Lemma testbit_u8 z i : Z.testbit (u8 z) i = Z.testbit z i && (i <? 8).
Proof. by apply (testbit_mod_pow2 z 8). Qed.
Lemma testbit_u16 z i : Z.testbit (u16 z) i = Z.testbit z i && (i <? 16).
Proof. by apply (testbit_mod_pow2 z 16). Qed.
Lemma testbit_u32 z i : Z.testbit (u32 z) i = Z.testbit z i && (i <? 32).
Proof. by apply (testbit_mod_pow2 z 32). Qed.
Lemma testbit_u64 z i : Z.testbit (u64 z) i = Z.testbit z i && (i <? 64).
Proof. by apply (testbit_mod_pow2 z 64). Qed.

Lemma land1_testbit z n : 0 <= n -> (z >> n) .& 1 = Z.b2z (Z.testbit z n).
Proof.
  intros. change 1 with (Z.ones 1). rewrite Z.land_ones by lia.
  change (2 ^ 1) with 2. rewrite <- Z.bit0_mod. by rewrite Z.shiftr_spec, Z.add_0_l.
Qed.

(** A one-bit mask test is a [testbit]. *)
Lemma land_pow2_truth z n : 0 <= n -> truth (z .& 2 ^ n) = Z.testbit z n.
Proof.
  intros. unfold truth. destruct (Z.testbit z n) eqn:E.
  - apply negb_true_iff, Z.eqb_neq. intros H0.
    assert (Z.testbit (z .& 2 ^ n) n = false) by (rewrite H0; apply Z.bits_0).
    rewrite Z.land_spec, E, Z.pow2_bits_true in H1 by lia. done.
  - apply negb_false_iff, Z.eqb_eq. apply Z.bits_inj'. intros i Hi.
    rewrite Z.land_spec, Z.bits_0. destruct (decide (i = n)) as [->|].
    + by rewrite E.
    + rewrite Z.pow2_bits_false by lia. apply andb_false_r.
Qed.

Lemma land_lor_eqb_0 z a b : (z .& (a .| b) =? 0) = (z .& a =? 0) && (z .& b =? 0).
Proof.
  rewrite Z.land_lor_distr_r.
  destruct (Z.eqb_spec (z .& a) 0) as [->|Ha]; cbn.
  - by rewrite Z.lor_0_l.
  - apply Z.eqb_neq. rewrite Z.lor_eq_0_iff. tauto.
Qed.

Lemma land_pow2_eqb z n : 0 <= n -> (z .& 2 ^ n =? 0) = negb (Z.testbit z n).
Proof. intros. rewrite <- land_pow2_truth by done. unfold truth. by rewrite negb_involutive. Qed.

Lemma land_1_odd y : y .& 1 = Z.b2z (Z.odd y).
Proof.
  change 1 with (Z.ones 1) at 1. rewrite Z.land_ones by lia. change (2 ^ 1) with 2.
  apply Zmod_odd.
Qed.

Lemma land7_range z : 0 <= z .& 7 < 8.
Proof. change 7 with (Z.ones 3). rewrite Z.land_ones by lia. apply Z.mod_pos_bound. lia. Qed.

Lemma land15_range z : 0 <= z .& 0xF < 16.
Proof. change 0xF with (Z.ones 4). rewrite Z.land_ones by lia. apply Z.mod_pos_bound. lia. Qed.

(** A mask above bit [k] acts on the shifted value. *)
Lemma land_shl_mask z msk k : 0 <= k -> z .& (msk << k) = ((z >> k) .& msk) << k.
Proof.
  intros. apply Z.bits_inj'. intros i Hi.
  rewrite Z.land_spec, !Z.shiftl_spec by lia.
  destruct (Z.ltb_spec i k).
  - rewrite !(Z.testbit_neg_r _ (i - k)) by lia. apply andb_false_r.
  - rewrite Z.land_spec, Z.shiftr_spec by lia. f_equal. f_equal. lia.
Qed.

(** Extraction of an [n]-bit field at bit [k]. *)
Lemma field_mod z k n : 0 <= k -> 0 <= n -> (z >> k) .& Z.ones n = (z / 2 ^ k) mod 2 ^ n.
Proof. intros. rewrite Z.land_ones, Z.shiftr_div_pow2 by lia. done. Qed.

(** Concatenation of a high part with a [2^k]-bounded low part. *)
Lemma testbit_concat hi lo k i : 0 <= k -> 0 <= lo < 2 ^ k -> 0 <= i ->
  Z.testbit (hi * 2 ^ k + lo) i = if i <? k then Z.testbit lo i else Z.testbit hi (i - k).
Proof.
  intros Hk Hlo Hi. destruct (Z.ltb_spec i k).
  - rewrite <- (Z.mod_pow2_bits_low _ k) by lia.
    rewrite Z.add_comm, Z_mod_plus_full, Z.mod_small by lia. done.
  - replace i with ((i - k) + k) at 1 by lia. rewrite <- Z.div_pow2_bits by lia.
    rewrite Z.div_add_l, Z.div_small, Z.add_0_r by lia. done.
Qed.

Lemma lor_shl_add hi lo k : 0 <= k -> 0 <= lo < 2 ^ k -> lo .| (hi << k) = hi * 2 ^ k + lo.
Proof.
  intros Hk Hl. apply Z.bits_inj'. intros i Hi.
  rewrite testbit_concat, Z.lor_spec, Z.shiftl_spec by lia.
  destruct (Z.ltb_spec i k).
  - rewrite (Z.testbit_neg_r hi) by lia. apply orb_false_r.
  - rewrite <- (Z.mod_small lo (2 ^ k)), Z.mod_pow2_bits_high by lia. done.
Qed.
