(* ===== verification/Flags.v ===== *)
(** * Flags: the 68k condition codes ([machdep/m68k.h], AArch64 variant)

    [struct flag_struct] keeps N, Z, C and V in bits 31..28 of a 64-bit word,
    where the ARM [nzcv] register has them, and X apart. *)

From S2P Require Import Prelude.
From Stdlib Require Import ZArith Lia Bool.
From stdpp Require Import base list.
Open Scope Z_scope.
Open Scope cint_scope.

Record flag_struct := mk_flags { nzcv : Z; xflg : Z }.

Definition FLAGBIT_N := 31.
Definition FLAGBIT_Z := 30.
Definition FLAGBIT_C := 29.
Definition FLAGBIT_V := 28.

(** [1 << FLAGBIT_N] is an [int]: the constant for N is negative. *)
Definition FLAGVAL_N := s32 (1 << FLAGBIT_N).
Definition FLAGVAL_Z := s32 (1 << FLAGBIT_Z).
Definition FLAGVAL_C := s32 (1 << FLAGBIT_C).
Definition FLAGVAL_V := s32 (1 << FLAGBIT_V).

(** [(nzcv & ~FLAGVAL) | ((y & 1) << FLAGBIT)], the [int] operands converted
    to the 64-bit type of the field. *)
Definition set_flag (bit val y : Z) (f : flag_struct) : flag_struct :=
  mk_flags ((nzcv f .& u64 (Z.lnot val)) .| u64 (s32 ((y .& 1) << bit))) (xflg f).

Definition SET_NFLG := set_flag FLAGBIT_N FLAGVAL_N.
Definition SET_ZFLG := set_flag FLAGBIT_Z FLAGVAL_Z.
Definition SET_CFLG := set_flag FLAGBIT_C FLAGVAL_C.
Definition SET_VFLG := set_flag FLAGBIT_V FLAGVAL_V.
Definition SET_XFLG (y : Z) (f : flag_struct) : flag_struct := mk_flags (nzcv f) (y .& 1).

Definition GET_NFLG (f : flag_struct) : Z := (nzcv f >> FLAGBIT_N) .& 1.
Definition GET_ZFLG (f : flag_struct) : Z := (nzcv f >> FLAGBIT_Z) .& 1.
Definition GET_CFLG (f : flag_struct) : Z := (nzcv f >> FLAGBIT_C) .& 1.
Definition GET_VFLG (f : flag_struct) : Z := (nzcv f >> FLAGBIT_V) .& 1.
Definition GET_XFLG (f : flag_struct) : Z := xflg f .& 1.

Definition CLEAR_CZNV (f : flag_struct) : flag_struct := mk_flags 0 (xflg f).
Definition COPY_CARRY (f : flag_struct) : flag_struct :=
  mk_flags (nzcv f) ((nzcv f >> FLAGBIT_C) .& 1).

(** [unsigned int nzcv = regflags.nzcv] and the sixteen conditions. *)
Definition cctrue (cc : Z) (f : flag_struct) : bool :=
  let n := u32 (nzcv f) in
  let m := u32 (FLAGVAL_N .| FLAGVAL_Z .| FLAGVAL_V) in
  let nv z := u32 (u32 (z << (FLAGBIT_N - FLAGBIT_V)) .^ z) in
  match cc with
  | 0 => true
  | 1 => false
  | 2 => n .& (FLAGVAL_C .| FLAGVAL_Z) =? 0
  | 3 => n .& (FLAGVAL_C .| FLAGVAL_Z) != 0
  | 4 => n .& FLAGVAL_C =? 0
  | 5 => n .& FLAGVAL_C != 0
  | 6 => n .& FLAGVAL_Z =? 0
  | 7 => n .& FLAGVAL_Z != 0
  | 8 => n .& FLAGVAL_V =? 0
  | 9 => n .& FLAGVAL_V != 0
  | 10 => n .& u32 FLAGVAL_N =? 0
  | 11 => n .& u32 FLAGVAL_N != 0
  | 12 => nv n .& u32 FLAGVAL_N =? 0
  | 13 => nv n .& u32 FLAGVAL_N != 0
  | 14 => nv (n .& m) .& u32 (FLAGVAL_N .| FLAGVAL_Z) =? 0
  | 15 => nv (n .& m) .& u32 (FLAGVAL_N .| FLAGVAL_Z) != 0
  | _ => false
  end.

(** ** Laws *)

Lemma GET_NFLG_bit f : GET_NFLG f = Z.b2z (Z.testbit (nzcv f) 31).
Proof. by apply land1_testbit. Qed.
Lemma GET_ZFLG_bit f : GET_ZFLG f = Z.b2z (Z.testbit (nzcv f) 30).
Proof. by apply land1_testbit. Qed.
Lemma GET_CFLG_bit f : GET_CFLG f = Z.b2z (Z.testbit (nzcv f) 29).
Proof. by apply land1_testbit. Qed.
Lemma GET_VFLG_bit f : GET_VFLG f = Z.b2z (Z.testbit (nzcv f) 28).
Proof. by apply land1_testbit. Qed.

(** Setting one flag writes its bit and leaves the three others alone. *)
Lemma set_flag_bit bit k y f :
  28 <= bit <= 31 -> 28 <= k <= 31 ->
  Z.testbit (nzcv (set_flag bit (s32 (1 << bit)) y f)) k =
  if k =? bit then Z.odd y else Z.testbit (nzcv f) k.
Proof.
  intros Hb Hk. unfold set_flag; cbn [nzcv].
  rewrite Z.lor_spec, Z.land_spec, land_1_odd.
  assert (bit = 28 \/ bit = 29 \/ bit = 30 \/ bit = 31) as Hb' by lia.
  assert (k = 28 \/ k = 29 \/ k = 30 \/ k = 31) as Hk' by lia. clear Hb Hk.
  destruct Hb' as [->|[->|[->| ->]]], Hk' as [->|[->|[->| ->]]], (Z.odd y);
    vm_compute (Z.testbit (u64 _) _); vm_compute (_ =? _);
    rewrite ?andb_false_r, ?andb_true_r, ?orb_false_r, ?orb_true_r; reflexivity.
Qed.

Create Rewrite HintDb flags.

Ltac flag_law :=
  intros; rewrite ?GET_NFLG_bit, ?GET_ZFLG_bit, ?GET_CFLG_bit, ?GET_VFLG_bit;
  unfold SET_NFLG, SET_ZFLG, SET_CFLG, SET_VFLG, FLAGVAL_N, FLAGVAL_Z, FLAGVAL_C, FLAGVAL_V,
    FLAGBIT_N, FLAGBIT_Z, FLAGBIT_C, FLAGBIT_V;
  rewrite set_flag_bit by lia; rewrite ?land_1_odd; reflexivity.

Lemma GET_SET_NN y f : GET_NFLG (SET_NFLG y f) = y .& 1. Proof. flag_law. Qed.
Lemma GET_SET_NZ y f : GET_NFLG (SET_ZFLG y f) = GET_NFLG f. Proof. flag_law. Qed.
Lemma GET_SET_NC y f : GET_NFLG (SET_CFLG y f) = GET_NFLG f. Proof. flag_law. Qed.
Lemma GET_SET_NV y f : GET_NFLG (SET_VFLG y f) = GET_NFLG f. Proof. flag_law. Qed.
Lemma GET_SET_ZN y f : GET_ZFLG (SET_NFLG y f) = GET_ZFLG f. Proof. flag_law. Qed.
Lemma GET_SET_ZZ y f : GET_ZFLG (SET_ZFLG y f) = y .& 1. Proof. flag_law. Qed.
Lemma GET_SET_ZC y f : GET_ZFLG (SET_CFLG y f) = GET_ZFLG f. Proof. flag_law. Qed.
Lemma GET_SET_ZV y f : GET_ZFLG (SET_VFLG y f) = GET_ZFLG f. Proof. flag_law. Qed.
Lemma GET_SET_CN y f : GET_CFLG (SET_NFLG y f) = GET_CFLG f. Proof. flag_law. Qed.
Lemma GET_SET_CZ y f : GET_CFLG (SET_ZFLG y f) = GET_CFLG f. Proof. flag_law. Qed.
Lemma GET_SET_CC y f : GET_CFLG (SET_CFLG y f) = y .& 1. Proof. flag_law. Qed.
Lemma GET_SET_CV y f : GET_CFLG (SET_VFLG y f) = GET_CFLG f. Proof. flag_law. Qed.
Lemma GET_SET_VN y f : GET_VFLG (SET_NFLG y f) = GET_VFLG f. Proof. flag_law. Qed.
Lemma GET_SET_VZ y f : GET_VFLG (SET_ZFLG y f) = GET_VFLG f. Proof. flag_law. Qed.
Lemma GET_SET_VC y f : GET_VFLG (SET_CFLG y f) = GET_VFLG f. Proof. flag_law. Qed.
Lemma GET_SET_VV y f : GET_VFLG (SET_VFLG y f) = y .& 1. Proof. flag_law. Qed.

Lemma xflg_set_flag b v y f : xflg (set_flag b v y f) = xflg f.
Proof. done. Qed.
Lemma xflg_SET_N y f : xflg (SET_NFLG y f) = xflg f. Proof. done. Qed.
Lemma xflg_SET_Z y f : xflg (SET_ZFLG y f) = xflg f. Proof. done. Qed.
Lemma xflg_SET_C y f : xflg (SET_CFLG y f) = xflg f. Proof. done. Qed.
Lemma xflg_SET_V y f : xflg (SET_VFLG y f) = xflg f. Proof. done. Qed.
Lemma xflg_CLEAR f : xflg (CLEAR_CZNV f) = xflg f. Proof. done. Qed.
Lemma GET_CLEAR_N f : GET_NFLG (CLEAR_CZNV f) = 0. Proof. done. Qed.
Lemma GET_CLEAR_Z f : GET_ZFLG (CLEAR_CZNV f) = 0. Proof. done. Qed.
Lemma GET_CLEAR_C f : GET_CFLG (CLEAR_CZNV f) = 0. Proof. done. Qed.
Lemma GET_CLEAR_V f : GET_VFLG (CLEAR_CZNV f) = 0. Proof. done. Qed.

Lemma b2z_land_1 b : Z.b2z b .& 1 = Z.b2z b.
Proof. by destruct b. Qed.

#[export] Hint Rewrite GET_SET_NN GET_SET_NZ GET_SET_NC GET_SET_NV GET_SET_ZN GET_SET_ZZ
  GET_SET_ZC GET_SET_ZV GET_SET_CN GET_SET_CZ GET_SET_CC GET_SET_CV GET_SET_VN GET_SET_VZ
  GET_SET_VC GET_SET_VV GET_CLEAR_N GET_CLEAR_Z GET_CLEAR_C GET_CLEAR_V b2z_land_1
  xflg_SET_N xflg_SET_Z xflg_SET_C xflg_SET_V xflg_CLEAR : flags.

(** ** The condition tests *)

(** The four flags as booleans. *)
Definition flgN f := Z.testbit (nzcv f) 31.
Definition flgZ f := Z.testbit (nzcv f) 30.
Definition flgC f := Z.testbit (nzcv f) 29.
Definition flgV f := Z.testbit (nzcv f) 28.

(** The condition table of the 68000 manual. *)
Definition cc_spec (cc : Z) (n z v c : bool) : bool :=
  match cc with
  | 0 => true | 1 => false
  | 2 => negb c && negb z | 3 => c || z
  | 4 => negb c | 5 => c | 6 => negb z | 7 => z | 8 => negb v | 9 => v
  | 10 => negb n | 11 => n
  | 12 => Bool.eqb n v | 13 => xorb n v
  | 14 => negb z && Bool.eqb n v | 15 => z || xorb n v
  | _ => false
  end.

Lemma flag_masks :
  FLAGVAL_C = 2 ^ 29 /\ FLAGVAL_Z = 2 ^ 30 /\ FLAGVAL_V = 2 ^ 28 /\
  u32 FLAGVAL_N = 2 ^ 31 /\ u32 (FLAGVAL_N .| FLAGVAL_Z) = (2 ^ 31 .| 2 ^ 30) /\
  u32 (FLAGVAL_N .| FLAGVAL_Z .| FLAGVAL_V) = 3489660928.
Proof. by vm_compute. Qed.

(** The sixteen packed-flag tests of [cctrue] decide the sixteen 68k
    conditions. *)
Lemma cctrue_spec cc f :
  cctrue cc f = cc_spec cc (flgN f) (flgZ f) (flgV f) (flgC f).
Proof.
  unfold cctrue, flgN, flgZ, flgV, flgC.
  destruct flag_masks as (-> & -> & -> & -> & -> & ->).
  destruct (decide (0 <= cc < 16)) as [H|H].
  2:{ destruct cc as [|p|p]; [lia| |done].
      do 4 (destruct p as [p|p|]; try (exfalso; lia)); done. }
  assert (Hcc : In cc [0;1;2;3;4;5;6;7;8;9;10;11;12;13;14;15]) by (cbn; lia). clear H.
  cbn [In] in Hcc.
  repeat (destruct Hcc as [<-|Hcc]; [
    cbn [cc_spec]; rewrite ?land_lor_eqb_0, ?land_pow2_eqb by lia;
    rewrite ?testbit_u32, ?Z.lxor_spec, ?testbit_u32, ?Z.shiftl_spec, ?Z.land_spec, ?testbit_u32 by lia;
    vm_compute (Z.testbit 3489660928 _); vm_compute (Z.sub _ _); vm_compute (Z.ltb _ _);
    repeat match goal with |- context [Z.testbit ?a ?b] => destruct (Z.testbit a b) end;
    reflexivity |]); done.
Qed.
