(* ===== verification/Cpu.v ===== *)
(** * Cpu: the state the 68k core routines work on, and the bus they use

    [struct regstruct] ([include/newcpu.h]) as records, the preferences
    ([currprefs]) the routines of [cpu/newcpu_common.cpp] read, and the memory
    bus behind [get_byte]/[put_long]/... as an interface with laws. *)

From S2P Require Import Prelude Flags.
From Stdlib Require Import ZArith Lia Bool.
From stdpp Require Import base list gmap.
Open Scope Z_scope.
Open Scope cint_scope.

(** ** Preferences: the fields of [currprefs] the routines read *)
Record prefs := mk_prefs {
  cpu_model : Z;
  fpu_model : Z;
  mmu_model : Z;
  mmu_ec : bool;
  int_no_unimplemented : bool }.

(** ** Control registers (the MOVEC set of [struct regstruct]) *)
Record ctl := mk_ctl {
  sfc : Z; dfc : Z; cacr : Z; caar : Z; tcr : Z;
  itt0 : Z; itt1 : Z; dtt0 : Z; dtt1 : Z; buscr : Z;
  usp : Z; vbr : Z; msp : Z; isp : Z;
  mmusr : Z; urp : Z; srp : Z; pcr : Z }.

(** ** The 68040/060 MMU globals set by [mmu_set_tc] and [mmu_tt_modified] *)
Record mmu := mk_mmu {
  mmu_enabled : bool;
  mmu_pagesize_8k : bool;
  mmu_tagmask : Z;
  mmu_pagemask : Z;
  mmu_pagemaski : Z;
  mmu_page_size : Z;
  mmu_pageshift : Z;
  mmu_pageshift1m : Z;
  cache_default_ins : Z;
  cache_default_data : Z;
  mmu_ttr_enabled_ins : bool;
  mmu_ttr_enabled_data : bool;
  mmu_ttr_enabled : bool }.

(** ** Calls into the rest of the core, in the order they are made *)
Inductive event :=
| Exception (nr : Z)
| Exception_cpu_oldpc (nr oldpc : Z)
| op_illg (opcode : Z)
| set_cpu_caches (flush : bool)
| mmu_flush_atc_all (global : bool)
| flush_icache (n : Z).

#[export] Instance event_eq_dec : EqDecision event.
Proof. solve_decision. Defined.

(** ** The register file *)
Record cpu := mk_cpu {
  regs : list Z;          (* D0-D7, A0-A7: [uae_u32 regs[16]] *)
  rflags : flag_struct;
  reg_s : bool;
  reg_m : Z;
  sr : Z;
  rctl : ctl;
  rmmu : mmu;
  trace : list event }.

Definition m68k_dreg (c : cpu) (n : Z) : Z := regs c !!! Z.to_nat n.
Definition m68k_areg (c : cpu) (n : Z) : Z := regs c !!! Z.to_nat (8 + n).

(** Assigning a register stores a [uae_u32]. *)
Definition set_dreg (n v : Z) (c : cpu) : cpu :=
  {| c with regs := <[Z.to_nat n := u32 v]> (regs c) |}.
Definition set_areg (n v : Z) (c : cpu) : cpu :=
  {| c with regs := <[Z.to_nat (8 + n) := u32 v]> (regs c) |}.
Definition set_flags (f : flag_struct) (c : cpu) : cpu := {| c with rflags := f |}.
Definition set_ctl (r : ctl) (c : cpu) : cpu := {| c with rctl := r |}.
Definition emit (e : event) (c : cpu) : cpu := {| c with trace := trace c ++ [e] |}.

(** Well-formedness: sixteen 32-bit registers. *)
Definition cpu_wf (c : cpu) : Prop := length (regs c) = 16%nat /\ Forall is_u32 (regs c).

#[export] Instance cpu_wf_dec c : Decision (cpu_wf c).
Proof. unfold cpu_wf; apply _. Defined.

Lemma dreg_range c n : cpu_wf c -> 0 <= n < 8 -> is_u32 (m68k_dreg c n).
Proof.
  intros [Hl Hf] Hn. unfold m68k_dreg.
  destruct (lookup_lt_is_Some_2 (regs c) (Z.to_nat n)) as [v Hv]; [lia|].
  rewrite (list_lookup_total_correct _ _ _ Hv). by eapply Forall_lookup_1 in Hf.
Qed.

Lemma areg_range c n : cpu_wf c -> 0 <= n < 8 -> is_u32 (m68k_areg c n).
Proof.
  intros [Hl Hf] Hn. unfold m68k_areg.
  destruct (lookup_lt_is_Some_2 (regs c) (Z.to_nat (8 + n))) as [v Hv]; [lia|].
  rewrite (list_lookup_total_correct _ _ _ Hv). by eapply Forall_lookup_1 in Hf.
Qed.

Lemma set_dreg_wf n v c : cpu_wf c -> cpu_wf (set_dreg n v c).
Proof.
  intros [Hl Hf]. split; cbn; [by rewrite length_insert|].
  apply Forall_insert; auto with crange.
Qed.

Lemma set_areg_wf n v c : cpu_wf c -> cpu_wf (set_areg n v c).
Proof.
  intros [Hl Hf]. split; cbn; [by rewrite length_insert|].
  apply Forall_insert; auto with crange.
Qed.

Lemma dreg_set_dreg c n v : cpu_wf c -> 0 <= n < 8 -> m68k_dreg (set_dreg n v c) n = u32 v.
Proof.
  intros [Hl _] Hn. unfold m68k_dreg, set_dreg; cbn.
  apply list_lookup_total_insert_eq. lia.
Qed.

Lemma dreg_set_dreg_ne c n k v : 0 <= n -> 0 <= k -> n <> k ->
  m68k_dreg (set_dreg n v c) k = m68k_dreg c k.
Proof.
  intros. unfold m68k_dreg, set_dreg; cbn. apply list_lookup_total_insert_ne. lia.
Qed.

Lemma areg_set_areg c n v : cpu_wf c -> 0 <= n < 8 -> m68k_areg (set_areg n v c) n = u32 v.
Proof.
  intros [Hl _] Hn. unfold m68k_areg, set_areg; cbn.
  apply list_lookup_total_insert_eq. lia.
Qed.

Lemma areg_set_dreg c n k v : 0 <= n < 8 -> 0 <= k -> m68k_areg (set_dreg n v c) k = m68k_areg c k.
Proof.
  intros. unfold m68k_areg, set_dreg; cbn. apply list_lookup_total_insert_ne. lia.
Qed.

Lemma dreg_set_areg c n k v : 0 <= n -> 0 <= k < 8 -> m68k_dreg (set_areg n v c) k = m68k_dreg c k.
Proof.
  intros. unfold m68k_dreg, set_areg; cbn. apply list_lookup_total_insert_ne. lia.
Qed.

#[export] Hint Resolve set_dreg_wf set_areg_wf : crange.

(** ** The memory bus

    The core reaches memory through byte, word and long accessors
    ([get_byte], [put_word], [x_put_long], ...) that dispatch to the bank of
    the address.  [Bus] states what the core relies on for a bank of plain
    memory: bytes are stored and read back, and words and longs are
    big-endian sequences of bytes at 32-bit wrapping addresses. *)
Class Bus (M : Type) := {
  get_byte : M -> Z -> Z;
  get_word : M -> Z -> Z;
  get_long : M -> Z -> Z;
  put_byte : Z -> Z -> M -> M;
  put_word : Z -> Z -> M -> M;
  put_long : Z -> Z -> M -> M }.

Class BusLaws (M : Type) `{Bus M} := {
  get_byte_range : forall mem a, is_u8 (get_byte mem a);
  get_put_byte : forall mem a b v,
    get_byte (put_byte a v mem) b = if u32 a =? u32 b then u8 v else get_byte mem b;
  get_word_bytes : forall mem a,
    get_word mem a = get_byte mem a * 256 + get_byte mem (a + 1);
  get_long_words : forall mem a,
    get_long mem a = get_word mem a * 65536 + get_word mem (a + 2);
  put_word_bytes : forall mem a v,
    put_word a v mem = put_byte (a + 1) v (put_byte a (v >> 8) mem);
  put_long_words : forall mem a v,
    put_long a v mem = put_word (a + 2) v (put_word a (v >> 16) mem) }.

(** *** The flat big-endian memory discharges the interface *)
Definition ram_byte (r : gmap Z Z) (a : Z) : Z := u8 (default 0 (r !! u32 a)).
Definition ram_put (a v : Z) (r : gmap Z Z) : gmap Z Z := <[u32 a := u8 v]> r.
Definition ram_word (r : gmap Z Z) (a : Z) : Z := ram_byte r a * 256 + ram_byte r (a + 1).

#[export] Instance ram_bus : Bus (gmap Z Z) := {|
  get_byte := ram_byte;
  get_word := ram_word;
  get_long := fun r a => ram_word r a * 65536 + ram_word r (a + 2);
  put_byte := ram_put;
  put_word := fun a v r => ram_put (a + 1) v (ram_put a (v >> 8) r);
  put_long := fun a v r =>
    let r1 := ram_put (a + 1) (v >> 16) (ram_put a ((v >> 16) >> 8) r) in
    ram_put (a + 2 + 1) v (ram_put (a + 2) (v >> 8) r1) |}.

#[export] Instance ram_laws : BusLaws (gmap Z Z).
Proof.
  split; intros; try reflexivity; cbn.
  - apply u8_range.
  - unfold ram_byte, ram_put. rewrite lookup_insert.
    destruct (Z.eqb_spec (u32 a) (u32 b)); case_decide; try done.
    cbn. by rewrite u8_u8.
Qed.

(** A reset register file, for concrete evaluations. *)
Definition ctl0 : ctl := mk_ctl 0 0 0 0 0 0 0 0 0 0 0 0 0 0 0 0 0 0.
Definition mmu0 : mmu := mk_mmu false false 0xFFFF8000 0xFFF 0xFFFFF000 4096 12 11 0xc3 0xc3 false false false.
Definition cpu0 : cpu :=
  mk_cpu (replicate 16 0) (mk_flags 0 0) true 0 0x2700 ctl0 mmu0 [].
