(* ===== verification/Movec.v ===== *)
(** * Movec: control registers ([cpu/newcpu_common.cpp], [cpu/cpummu.cpp])

    MOVEC to and from control registers with the per-model legality table,
    the write masks, the privilege check and the MMU side effects. *)

From S2P Require Import Prelude Flags Cpu.
From Stdlib Require Import ZArith Lia Bool.
From stdpp Require Import base list sets gmap.
Open Scope Z_scope.
Open Scope cint_scope.

Section Movec.
Context (p : prefs).

(** [get_cpu_model] *)
Definition get_cpu_model : Z := cpu_model p.

(** ** Raw access: [val_move2c2], [val_move2c] *)
Definition val_move2c2 (regno val : Z) (c : cpu) : cpu :=
  let r := rctl c in
  match regno with
  | 0 => set_ctl {| r with sfc := val |} c
  | 1 => set_ctl {| r with dfc := val |} c
  | 2 => set_ctl {| r with cacr := val |} c
  | 3 => set_ctl {| r with tcr := val |} c
  | 4 => set_ctl {| r with itt0 := val |} c
  | 5 => set_ctl {| r with itt1 := val |} c
  | 6 => set_ctl {| r with dtt0 := val |} c
  | 7 => set_ctl {| r with dtt1 := val |} c
  | 8 => set_ctl {| r with buscr := val |} c
  | 0x800 => set_ctl {| r with usp := val |} c
  | 0x801 => set_ctl {| r with vbr := val |} c
  | 0x802 => set_ctl {| r with caar := val |} c
  | 0x803 => set_ctl {| r with msp := val |} c
  | 0x804 => set_ctl {| r with isp := val |} c
  | 0x805 => set_ctl {| r with mmusr := val |} c
  | 0x806 => set_ctl {| r with urp := val |} c
  | 0x807 => set_ctl {| r with srp := val |} c
  | 0x808 => set_ctl {| r with pcr := val |} c
  | _ => c
  end.

Definition val_move2c (regno : Z) (c : cpu) : Z :=
  let r := rctl c in
  match regno with
  | 0 => sfc r | 1 => dfc r | 2 => cacr r | 3 => tcr r
  | 4 => itt0 r | 5 => itt1 r | 6 => dtt0 r | 7 => dtt1 r | 8 => buscr r
  | 0x800 => usp r | 0x801 => vbr r | 0x802 => caar r | 0x803 => msp r
  | 0x804 => isp r | 0x805 => mmusr r | 0x806 => urp r | 0x807 => srp r
  | 0x808 => pcr r
  | _ => 0
  end.

(** ** [movec_illg]: which control registers a model has (1 = illegal) *)
Definition movec_illg (regno : Z) : bool :=
  let regno2 := regno .& 0x7ff in
  if cpu_model p =? 68060 then
    if regno <=? 8 then false
    else if (regno =? 0x800) || (regno =? 0x801) || (regno =? 0x806)
         || (regno =? 0x807) || (regno =? 0x808) then false
    else true
  else if cpu_model p =? 68010 then
    if regno2 <? 2 then false else true
  else if cpu_model p =? 68020 then
    if regno =? 3 then true
    else if (regno2 <? 4) || (regno =? 0x804) then false
    else true
  else if cpu_model p =? 68030 then
    if regno2 <=? 2 then false
    else if (regno =? 0x803) || (regno =? 0x804) then false
    else true
  else if cpu_model p =? 68040 then
    if regno =? 0x802 then true
    else if regno2 <? 8 then false
    else true
  else true.

(** ** [mmu_tt_modified] and [mmu_set_tc] *)
Definition MMU_TTR_BIT_ENABLED := 0x8000.
Definition CACHE_ENABLE_COPYBACK := 0x20.
Definition CACHE_ENABLE_ALL := 0xc3.

Definition mmu_tt_modified (c : cpu) : cpu :=
  let r := rctl c in
  let ins := truth ((itt0 r .| itt1 r) .& MMU_TTR_BIT_ENABLED) in
  let data := truth ((dtt0 r .| dtt1 r) .& MMU_TTR_BIT_ENABLED) in
  {| c with rmmu := {| (rmmu c) with mmu_ttr_enabled_ins := ins;
                                   mmu_ttr_enabled_data := data;
                                   mmu_ttr_enabled := ins || data |} |}.

Definition mmu_set_tc (tc : Z) (c : cpu) : Z * cpu :=
  let tc := u16 tc in
  let tc := if mmu_ec p
            then if cpu_model p =? 68040 then 0
                 else tc .& u16 (Z.lnot (0x8000 .| 0x4000))
            else tc in
  let en := truth (tc .& 0x8000) in
  let k8 := truth (tc .& 0x4000) in
  let pagemask := if k8 then 0x1FFF else 0xFFF in
  let pageshift := if k8 then 13 else 12 in
  let dci := (tc >> 3) .& 3 in
  let dcd := (tc >> 8) .& 3 in
  let cdi := if mmu_model p =? 68060
             then if truth (dci .& 2) then 0 else CACHE_ENABLE_ALL
             else CACHE_ENABLE_ALL in
  let cdd := if mmu_model p =? 68060
             then if truth (dcd .& 2) then 0
                  else if truth (dcd .& 1) then CACHE_ENABLE_COPYBACK .| CACHE_ENABLE_ALL
                  else CACHE_ENABLE_ALL
             else CACHE_ENABLE_ALL in
  let mm := {| (rmmu c) with
                 mmu_enabled := en;
                 mmu_pagesize_8k := k8;
                 mmu_tagmask := if k8 then 0xFFFF0000 else 0xFFFF8000;
                 mmu_pagemask := pagemask;
                 mmu_pagemaski := u32 (Z.lnot pagemask);
                 mmu_page_size := if k8 then 8192 else 4096;
                 mmu_pageshift := pageshift;
                 mmu_pageshift1m := pageshift - 1;
                 cache_default_ins := cdi;
                 cache_default_data := cdd |} in
  (tc, emit (mmu_flush_atc_all true) {| c with rmmu := mm |}).

(** ** [m68k_move2c]: MOVEC Rn,Rc *)

Definition cacr_write_mask : Z :=
  if cpu_model p =? 68020 then 0x0000000f
  else if cpu_model p =? 68030 then 0x00003f1f
  else if cpu_model p =? 68040 then 0x80008000
  else if cpu_model p =? 68060 then 0xf8e0e000
  else 0.

Definition cacr_read_mask : Z :=
  if cpu_model p =? 68020 then 0x00000003
  else if cpu_model p =? 68030 then 0x00003313
  else if cpu_model p =? 68040 then 0x80008000
  else if cpu_model p =? 68060 then 0xf880e000
  else 0.

(** The 68060 PCR write: only bits 6, 1 and 0 change, bit 1 is forced
    without an FPU, and a change of bit 1 flushes translated code. *)
Definition write_pcr (v : Z) (c : cpu) : cpu :=
  let opcr := pcr (rctl c) in
  let bits := 0x40 .| 2 .| 1 in
  let n1 := (opcr .& u32 (Z.lnot bits)) .| (v .& bits) in
  let n2 := if fpu_model p <=? 0 then n1 .| 2 else n1 in
  let c' := set_ctl {| (rctl c) with pcr := n2 |} c in
  if (opcr .^ n2) .& 2 =? 2 then emit (flush_icache 3) c' else c'.

(** The switch of [m68k_move2c]; [None] is the [default] case. *)
Definition move2c_switch (regno v : Z) (c : cpu) : option cpu :=
  let r := rctl c in
  let rootmask := if cpu_model p =? 68060 then 0xfffffe00 else 0xffffffff in
  match regno with
  | 0 => Some (set_ctl {| r with sfc := v .& 7 |} c)
  | 1 => Some (set_ctl {| r with dfc := v .& 7 |} c)
  | 2 => Some (emit (set_cpu_caches false)
                 (set_ctl {| r with cacr := v .& cacr_write_mask |} c))
  | 3 => let t := v .& (if cpu_model p =? 68060 then 0xfffe else 0xc000) in
         let c1 := set_ctl {| r with tcr := t |} c in
         Some (if truth (mmu_model p)
               then let '(t', c2) := mmu_set_tc t c1 in
                    set_ctl {| (rctl c2) with tcr := t' |} c2
               else c1)
  | 4 => Some (mmu_tt_modified (set_ctl {| r with itt0 := v .& 0xffffe364 |} c))
  | 5 => Some (mmu_tt_modified (set_ctl {| r with itt1 := v .& 0xffffe364 |} c))
  | 6 => Some (mmu_tt_modified (set_ctl {| r with dtt0 := v .& 0xffffe364 |} c))
  | 7 => Some (mmu_tt_modified (set_ctl {| r with dtt1 := v .& 0xffffe364 |} c))
  | 8 => Some (set_ctl {| r with buscr := (buscr r .& 0x50000000) .| (v .& 0xa0000000) |} c)
  | 0x800 => Some (set_ctl {| r with usp := v |} c)
  | 0x801 => Some (set_ctl {| r with vbr := v |} c)
  | 0x802 => Some (set_ctl {| r with caar := v |} c)
  | 0x803 => let c1 := set_ctl {| r with msp := v |} c in
             Some (if reg_m c1 =? 1 then set_areg 7 v c1 else c1)
  | 0x804 => let c1 := set_ctl {| r with isp := v |} c in
             Some (if reg_m c1 =? 0 then set_areg 7 v c1 else c1)
  | 0x805 => Some (set_ctl {| r with mmusr := v |} c)
  | 0x806 => Some (set_ctl {| r with urp := v .& rootmask |} c)
  | 0x807 => Some (set_ctl {| r with srp := v .& rootmask |} c)
  | 0x808 => Some (write_pcr v c)
  | _ => None
  end.

(** What both MOVEC directions do before the switch: [None] means go on. *)
Definition movec_guard (regno opcode : Z) (c : cpu) : option cpu :=
  if movec_illg regno then
    if (cpu_model p <? 68060) && negb (reg_s c) then Some (emit (Exception 8) c)
    else Some (emit (op_illg opcode) c)
  else if negb (reg_s c) then Some (emit (Exception 8) c)
  else None.

Definition m68k_move2c (regno v : Z) (c : cpu) : bool * cpu :=
  match movec_guard regno 0x4E7B c with
  | Some c' => (false, c')
  | None => match move2c_switch regno v c with
            | Some c' => (true, c')
            | None => (false, emit (op_illg 0x4E7B) c)
            end
  end.

(** ** [m68k_movec2]: MOVEC Rc,Rn; the register pointed to is only written
    on success ([None]: left alone) *)
Definition movec2_switch (regno : Z) (c : cpu) : option Z :=
  let r := rctl c in
  match regno with
  | 0 => Some (sfc r)
  | 1 => Some (dfc r)
  | 2 => Some (cacr r .& cacr_read_mask)
  | 3 => Some (tcr r)
  | 4 => Some (itt0 r) | 5 => Some (itt1 r) | 6 => Some (dtt0 r) | 7 => Some (dtt1 r)
  | 8 => Some (buscr r)
  | 0x800 => Some (usp r)
  | 0x801 => Some (vbr r)
  | 0x802 => Some (caar r)
  | 0x803 => Some (if reg_m c =? 1 then m68k_areg c 7 else msp r)
  | 0x804 => Some (if reg_m c =? 0 then m68k_areg c 7 else isp r)
  | 0x805 => Some (mmusr r)
  | 0x806 => Some (urp r)
  | 0x807 => Some (srp r)
  | 0x808 => Some (pcr r)
  | _ => None
  end.

Definition m68k_movec2 (regno : Z) (c : cpu) : option Z * cpu :=
  match movec_guard regno 0x4E7A c with
  | Some c' => (None, c')
  | None => match movec2_switch regno c with
            | Some v => (Some v, c)
            | None => (None, emit (op_illg 0x4E7A) c)
            end
  end.
End Movec.

(** ** Properties *)

Definition movec_regs : list Z :=
  [0;1;2;3;4;5;6;7;8;0x800;0x801;0x802;0x803;0x804;0x805;0x806;0x807;0x808].

Ltac crunch_regno regno :=
  destruct regno as [|q|q]; [| |discriminate];
  [| do 12 (try (destruct q as [q|q|]; try discriminate))];
  cbn; auto 20.

Lemma movec2_switch_regs p regno c v : movec2_switch p regno c = Some v -> In regno movec_regs.
Proof. intros H. cbv beta delta [movec2_switch] in H. crunch_regno regno. Qed.

Lemma move2c_switch_regs p regno v c c' :
  move2c_switch p regno v c = Some c' -> In regno movec_regs.
Proof. intros H. cbv beta delta [move2c_switch] in H. crunch_regno regno. Qed.

(** Case analysis on the register number of a MOVEC. *)
Ltac movec_cases H :=
  unfold movec_regs in H; cbn [In] in H;
  repeat (destruct H as [<-|H]; [|]); [..|destruct H].

Lemma emit_ctl e c : rctl (emit e c) = rctl c. Proof. done. Qed.

(** A write keeps the supervisor and master bits. *)
Lemma move2c_switch_mode p regno v c c' :
  move2c_switch p regno v c = Some c' -> reg_s c' = reg_s c /\ reg_m c' = reg_m c.
Proof.
  intros H. pose proof (move2c_switch_regs _ _ _ _ _ H) as Hr.
  movec_cases Hr; cbn in H; injection H as <-; try done;
    unfold write_pcr; repeat case_match; done.
Qed.

Lemma move2c_switch_wf p regno v c c' :
  cpu_wf c -> move2c_switch p regno v c = Some c' -> cpu_wf c'.
Proof.
  intros Hwf H. pose proof (move2c_switch_regs _ _ _ _ _ H) as Hr.
  movec_cases Hr; cbn in H; injection H as <-; try done.
  - by destruct (truth (mmu_model p)).
  - case_match; [apply set_areg_wf|]; done.
  - case_match; [apply set_areg_wf|]; done.
  - unfold write_pcr. by case_match.
Qed.

Lemma areg_set_ctl r n v c : cpu_wf c -> is_u32 v -> 0 <= n < 8 ->
  m68k_areg (set_areg n v (set_ctl r c)) n = v.
Proof. intros Hwf Hv Hn. rewrite areg_set_areg by done. by apply u32_small. Qed.

(** The value a register holds after MOVEC wrote [v]: what the chip keeps of
    it, and for CACR what it lets be read back. *)
Definition movec_image (p : prefs) (regno v : Z) (r : ctl) : Z :=
  match regno with
  | 0 | 1 => v .& 7
  | 2 => (v .& cacr_write_mask p) .& cacr_read_mask p
  | 3 => let t := v .& (if cpu_model p =? 68060 then 0xfffe else 0xc000) in
         if truth (mmu_model p) && mmu_ec p
         then if cpu_model p =? 68040 then 0 else u16 t .& 0x3fff
         else if truth (mmu_model p) then u16 t else t
  | 4 | 5 | 6 | 7 => v .& 0xffffe364
  | 8 => (buscr r .& 0x50000000) .| (v .& 0xa0000000)
  | 0x806 | 0x807 => v .& (if cpu_model p =? 68060 then 0xfffffe00 else 0xffffffff)
  | 0x808 => let n := (pcr r .& 0xffffffbc) .| (v .& 0x43) in
             if fpu_model p <=? 0 then n .| 2 else n
  | _ => v
  end.

(** A MOVEC write that succeeds is read back by MOVEC on the same register:
    the read succeeds, changes nothing and yields exactly the bits the model
    keeps ([movec_image]), the active stack pointer included. *)
Theorem movec_roundtrip p regno v c c' :
  cpu_wf c -> is_u32 v -> m68k_move2c p regno v c = (true, c') ->
  m68k_movec2 p regno c' = (Some (movec_image p regno v (rctl c)), c').
Proof.
  intros Hwf Hv H. unfold m68k_move2c in H.
  destruct (movec_guard p regno 0x4E7B c) eqn:G; [done|].
  destruct (move2c_switch p regno v c) as [c1|] eqn:W; [|done].
  injection H as ->. destruct (move2c_switch_mode _ _ _ _ _ W) as [Hs Hm].
  unfold m68k_movec2. unfold movec_guard in *. rewrite Hs.
  destruct (movec_illg p regno); [by destruct (_ && _)|].
  destruct (reg_s c); [cbn in *|done].
  pose proof (move2c_switch_regs _ _ _ _ _ W) as Hr.
  movec_cases Hr; cbn in W; injection W as <-; try reflexivity.
  - (* TCR *) destruct (truth (mmu_model p)) eqn:E; cbn -[Z.land u16]; [|rewrite E; done].
    unfold movec_image, mmu_set_tc. rewrite E. cbn [andb fst].
    destruct (mmu_ec p); [|done]. by destruct (cpu_model p =? 68040).
  - (* MSP *) cbn [movec2_switch movec_image]. destruct (reg_m c =? 1) eqn:E; cbn; rewrite ?E; [|done].
    do 2 f_equal. by apply areg_set_ctl.
  - (* ISP *) cbn [movec2_switch movec_image]. destruct (reg_m c =? 0) eqn:E; cbn; rewrite ?E; [|done].
    do 2 f_equal. by apply areg_set_ctl.
  - (* PCR *) unfold write_pcr. cbn [movec2_switch].
    case_match; cbn; case_match; done.
Qed.

(** MOVEC is privileged: in user mode neither direction succeeds, no
    register, control register or MMU state changes, and the only effect is
    one exception call (privilege violation, or illegal instruction for a
    register a 68060 does not have). *)
Lemma movec_privileged p regno v c :
  reg_s c = false ->
  exists e1 e2, m68k_move2c p regno v c = (false, emit e1 c)
    /\ m68k_movec2 p regno c = (None, emit e2 c)
    /\ e1 ∈ [Exception 8; op_illg 0x4E7B] /\ e2 ∈ [Exception 8; op_illg 0x4E7A]
    /\ (cpu_model p < 68060 -> e1 = Exception 8 /\ e2 = Exception 8).
Proof.
  intros Hs. unfold m68k_move2c, m68k_movec2, movec_guard. rewrite Hs. cbn.
  destruct (movec_illg p regno), (Z.ltb_spec (cpu_model p) 68060); cbn;
    eexists _, _; repeat split; try (by eauto); try set_solver; lia.
Qed.

(** The legality table, checked for every 12-bit register number. *)
Lemma movec_illg_regs_check mdl :
  In mdl [68010; 68020; 68030; 68040; 68060] ->
  forallb (fun n => movec_illg (mk_prefs mdl 0 0 false false) (Z.of_nat n)
                    || bool_decide (Z.of_nat n ∈ movec_regs)) (seq 0 4096) = true.
Proof. intros H. movec_cases H; vm_compute; reflexivity. Qed.

Lemma movec_illg_model p regno :
  movec_illg p regno = movec_illg (mk_prefs (cpu_model p) 0 0 false false) regno.
Proof. done. Qed.

(** Every register number [movec_illg] accepts has a case in both switches:
    a supervisor MOVEC of a legal register always succeeds (the [default]
    cases are unreachable for the 12-bit field of the instruction). *)
Lemma movec_legal_total p regno v c :
  0 <= regno < 4096 -> movec_illg p regno = false -> reg_s c = true ->
  exists c' w, m68k_move2c p regno v c = (true, c') /\ m68k_movec2 p regno c = (Some w, c).
Proof.
  intros Hr Hill Hs. assert (Hin : In regno movec_regs).
  { assert (Hm : In (cpu_model p) [68010; 68020; 68030; 68040; 68060]).
    { unfold movec_illg in Hill. cbn [In].
      repeat (case_match; [rewrite Z.eqb_eq in *; lia|]). done. }
    pose proof (movec_illg_regs_check _ Hm) as Hc. rewrite forallb_forall in Hc.
    specialize (Hc (Z.to_nat regno)). rewrite Z2Nat.id in Hc by lia.
    rewrite <- movec_illg_model, Hill in Hc. cbn [orb] in Hc.
    apply bool_decide_eq_true, list_elem_of_In in Hc; [done|]. apply in_seq. lia. }
  unfold m68k_move2c, m68k_movec2, movec_guard. rewrite Hill, Hs. cbn.
  movec_cases Hin; cbn; eauto.
Qed.

(** The page geometry the MMU globals describe. *)
Definition mmu_geometry_ok (mm : mmu) : Prop :=
  mmu_page_size mm = 2 ^ mmu_pageshift mm /\
  mmu_pagemask mm = mmu_page_size mm - 1 /\
  mmu_pagemaski mm = 4294967296 - mmu_page_size mm /\
  mmu_pageshift1m mm = mmu_pageshift mm - 1 /\
  mmu_tagmask mm = 4294967296 - 8 * mmu_page_size mm.

(** Whatever is written to TC, [mmu_set_tc] leaves consistent page geometry
    (4K or 8K) and flushes the ATC; an EC part can never enable translation. *)
Lemma mmu_set_tc_geometry p tc c :
  let '(tc', c') := mmu_set_tc p tc c in
  mmu_geometry_ok (rmmu c') /\ trace c' = trace c ++ [mmu_flush_atc_all true] /\
  mmu_enabled (rmmu c') = truth (tc' .& 0x8000) /\
  (mmu_page_size (rmmu c') = 8192 <-> Z.testbit tc' 14 = true) /\
  (mmu_ec p = true -> mmu_enabled (rmmu c') = false /\ mmu_pagesize_8k (rmmu c') = false).
Proof.
  unfold mmu_set_tc. cbn -[Z.land u16 u32 Z.lnot Z.testbit]. set (tc' := if mmu_ec p then _ else _).
  change (tc' .& 0x4000) with (tc' .& 2 ^ 14). change (tc' .& 0x8000) with (tc' .& 2 ^ 15).
  rewrite !land_pow2_truth by lia.
  assert (Hec : mmu_ec p = true -> Z.testbit tc' 15 = false /\ Z.testbit tc' 14 = false).
  { intros H. subst tc'. rewrite H. case_match; [done|]. by rewrite !Z.land_spec, !andb_false_r. }
  clearbody tc'. unfold mmu_geometry_ok; cbn -[u32 Z.lnot Z.testbit].
  destruct (Z.testbit tc' 14); split_and!; try tauto; done.
Qed.

Definition prefs_of (mdl : Z) : prefs := mk_prefs mdl 0 0 false false.

Lemma movec_roundtrip_witness :
  let c' := emit (set_cpu_caches false) (set_ctl {| ctl0 with cacr := 0x3f1f |} cpu0) in
  m68k_movec2 (prefs_of 68030) 2 c' = (Some 0x3313, c').
Proof.
  apply (movec_roundtrip (prefs_of 68030) 2 0xffffffff cpu0);
    [apply (bool_decide_unpack _); vm_compute; exact I|word|reflexivity].
Defined.

Lemma movec_privileged_witness :
  exists e1 e2, m68k_move2c (prefs_of 68040) 0x801 5 {| cpu0 with reg_s := false |}
                = (false, emit e1 {| cpu0 with reg_s := false |})
    /\ m68k_movec2 (prefs_of 68040) 0x801 {| cpu0 with reg_s := false |}
       = (None, emit e2 {| cpu0 with reg_s := false |})
    /\ e1 ∈ [Exception 8; op_illg 0x4E7B] /\ e2 ∈ [Exception 8; op_illg 0x4E7A]
    /\ (68040 < 68060 -> e1 = Exception 8 /\ e2 = Exception 8).
Proof. apply (movec_privileged (prefs_of 68040) 0x801 5). reflexivity. Defined.

Lemma movec_legal_total_witness :
  exists c' w, m68k_move2c (prefs_of 68020) 0x804 5 cpu0 = (true, c')
               /\ m68k_movec2 (prefs_of 68020) 0x804 cpu0 = (Some w, cpu0).
Proof. apply (movec_legal_total (prefs_of 68020) 0x804 5); [lia|reflexivity|reflexivity]. Defined.
