(* ===== verification/Mmu.v ===== *)
(** * Mmu: the 68040/060 MMU ([cpu/cpummu.cpp], [include/cpummu.h])

    Transparent translation, the address translation cache (ATC), the table
    search that fills it, the shortcut caches in front of it, and the access
    errors the MMU raises.  [THROW(2)] is a result of the effect monad [MM];
    [TRY]/[CATCH] is [try_catch].  The accessors of [include/cpummu.h] built
    on top are in MmuAccess, the theorems in MmuWalk and MmuProps. *)

From S2P Require Import Prelude Flags Cpu Movec.
From Stdlib Require Import ZArith Lia Bool.
From stdpp Require Import base list gmap.
Open Scope Z_scope.
Open Scope cint_scope.

(** ** Constants of [include/cpummu.h] and [include/mmu_common.h] *)
Definition MMU_TTR_LOGICAL_BASE := 0xff000000.
Definition MMU_TTR_LOGICAL_MASK := 0x00ff0000.
Definition MMU_TTR_BIT_SFIELD_ENABLED := 0x4000.
Definition MMU_TTR_BIT_SFIELD_SUPER := 0x2000.
Definition MMU_TTR_CACHE_DISABLE := 0x40.
Definition MMU_TTR_CACHE_MODE := 0x20.
Definition MMU_TTR_BIT_WRITE_PROTECT := 4.

Definition MMU_DES_WP := 4.
Definition MMU_DES_USED := 8.
Definition MMU_DES_MODIFIED := 16.
Definition MMU_DES_SUPER := 0x80.
Definition MMU_ROOT_PTR_ADDR_MASK := 0xfffffe00.
Definition MMU_PTR_PAGE_ADDR_MASK_8 := 0xffffff80.
Definition MMU_PTR_PAGE_ADDR_MASK_4 := 0xffffff00.
Definition MMU_PAGE_INDIRECT_MASK := 0xfffffffc.

Definition MMU_MMUSR_B := 0x800.
Definition MMU_MMUSR_G := 0x400.
Definition MMU_MMUSR_Ux := 0x300.
Definition MMU_MMUSR_S := 0x80.
Definition MMU_MMUSR_CM := 0x60.
Definition MMU_MMUSR_CM_DISABLE := 0x40.
Definition MMU_MMUSR_CM_MODE := 0x20.
Definition MMU_MMUSR_M := 16.
Definition MMU_MMUSR_W := 4.
Definition MMU_MMUSR_T := 2.
Definition MMU_MMUSR_R := 1.
Definition MMU_TCR_DWO := 0x20.

Definition TTR_NO_MATCH := 0.
Definition TTR_NO_WRITE := 1.
Definition TTR_OK_MATCH := 2.

Definition ATC_WAYS := 4.
Definition ATC_SLOTS := 16.
Definition MMUFASTCACHE_ENTRIES := 256.

Definition MMU_FSLW_MA := 0x08000000.
Definition MMU_FSLW_LK := 0x02000000.
Definition MMU_FSLW_R := 0x01000000.
Definition MMU_FSLW_W := 0x00800000.
Definition MMU_FSLW_SIZE_L := 0.
Definition MMU_FSLW_SIZE_B := 0x00200000.
Definition MMU_FSLW_SIZE_W := 0x00400000.
Definition MMU_FSLW_SIZE_D := 0x00600000.
Definition MMU_FSLW_TT_16 := 0x00080000.
Definition MMU_FSLW_IO := 0x8000.
Definition MMU_FSLW_PTA := 0x1000.
Definition MMU_FSLW_PTB := 0x800.
Definition MMU_FSLW_IL := 0x400.
Definition MMU_FSLW_PF := 0x200.
Definition MMU_FSLW_SP := 0x100.
Definition MMU_FSLW_WP := 0x80.
Definition MMU_FSLW_TWE := 0x40.
Definition MMU_FSLW_TTR := 8.

Definition MMU_SSW_TM := 7.
Definition MMU_SSW_TT1 := 0x10.
Definition MMU_SSW_TT0 := 8.
Definition MMU_SSW_SIZE_B := 0x20.
Definition MMU_SSW_SIZE_W := 0x40.
Definition MMU_SSW_SIZE_L := 0.
Definition MMU_SSW_SIZE_CL := 0x60.
Definition MMU_SSW_RW := 0x100.
Definition MMU_SSW_LK := 0x200.
Definition MMU_SSW_ATC := 0x400.
Definition MMU_SSW_MA := 0x800.
Definition MMU_SSW_CM := 0x1000.
Definition MMU_SSW_CT := 0x2000.

Definition CACHE_DISABLE_ALLOCATE := 8.
Definition CACHE_DISABLE_MMU := 16.

Definition sz_byte := 0.
Definition sz_word := 1.
Definition sz_long := 2.

(** ** State *)

(** [struct mmu_atc_line] *)
Record mmu_atc_line := mk_line {
  l_tag : Z; l_valid : bool; l_status : Z; l_phys : Z }.
#[export] Instance mmu_atc_line_inh : Inhabited mmu_atc_line := populate (mk_line 0 false 0 0).

(** [struct mmufastcache] *)
Record mmufastcache := mk_fast { f_log : Z; f_phys : Z; f_cache_state : Z }.
#[export] Instance mmufastcache_inh : Inhabited mmufastcache := populate (mk_fast 0 0 0).

(** The caches: [mmu_atc_array] (flat, in C's layout: type, slot, way),
    [mmu_atc_ways], [way_random] and the page shortcuts. *)
Record atcst := mk_atcst {
  lines : list mmu_atc_line;
  mmu_atc_ways : list Z;
  way_random : Z;
  atc_last_ins_laddr : Z; atc_last_ins_paddr : Z; atc_last_ins_cache : Z;
  atc_data_cache_read : list mmufastcache;
  atc_data_cache_write : list mmufastcache }.

(** What an access error leaves for the exception frame, and the flags that
    shape it. *)
Record faultst := mk_faultst {
  wb3_status : Z; wb3_data : Z; wb2_status : Z; wb2_address : Z;
  mmu_effective_addr : Z; mmu_ssw : Z; mmu_fslw : Z; mmu_fault_addr : Z;
  instruction_pc : Z; ismoves : bool; rmw_cycle : bool; locked_rmw_cycle : bool;
  mmu040_movem : bool; mmu040_movem_ea : Z; mmu060_state : Z }.

Record mst (M : Type) := mk_mst {
  core : cpu; tlb : atcst; flt : faultst;
  mmu_cache_state : Z; mmu_debugger : bool; pm : M }.
Arguments mk_mst {M}. Arguments core {M}. Arguments tlb {M}. Arguments flt {M}.
Arguments mmu_cache_state {M}. Arguments mmu_debugger {M}. Arguments pm {M}.

(** ** The effect monad *)
Inductive outcome (A : Type) := Ret (a : A) | Throw (prb : Z).
Arguments Ret {A}. Arguments Throw {A}.

Definition MM (M A : Type) : Type := mst M -> outcome A * mst M.
Definition mmret {M A} (a : A) : MM M A := fun s => (Ret a, s).
Definition throw {M A} (prb : Z) : MM M A := fun s => (Throw prb, s).
Definition mmbind {M A B} (m : MM M A) (k : A -> MM M B) : MM M B := fun s =>
  match m s with (Ret a, s') => k a s' | (Throw e, s') => (Throw e, s') end.
Definition try_catch {M A} (m : MM M A) (h : Z -> MM M A) : MM M A := fun s =>
  match m s with (Ret a, s') => (Ret a, s') | (Throw e, s') => h e s' end.
Definition getst {M} : MM M (mst M) := fun s => (Ret s, s).
Definition modst {M} (f : mst M -> mst M) : MM M unit := fun s => (Ret tt, f s).

Declare Scope mm_scope.
Notation "'let!' x := m 'in' k" := (mmbind m (fun x => k))
  (at level 10, x pattern, k at level 200) : mm_scope.
Notation "m ;;; k" := (mmbind m (fun _ => k)) (at level 100, right associativity) : mm_scope.
Open Scope mm_scope.

Definition whenm {M} (b : bool) (m : MM M unit) : MM M unit := if b then m else mmret tt.

(** ** Physical memory

    [x_phys_get_long] and the like reach the bank of the address, which
    either answers or raises a bus error ([None]). *)
Class Phys (M : Type) := {
  phys_get_byte : Z -> M -> option Z;
  phys_get_word : Z -> M -> option Z;
  phys_get_long : Z -> M -> option Z;
  phys_put_byte : Z -> Z -> M -> option M;
  phys_put_word : Z -> Z -> M -> option M;
  phys_put_long : Z -> Z -> M -> option M }.

Section Mmu.
Context {M : Type} `{Phys M} (p : prefs) (ce_cachable : Z -> Z).

Definition set_core (f : cpu -> cpu) : MM M unit := modst (fun s => {| s with core := f (core s) |}).
Definition set_flt (f : faultst -> faultst) : MM M unit := modst (fun s => {| s with flt := f (flt s) |}).
Definition set_tlb (f : atcst -> atcst) : MM M unit := modst (fun s => {| s with tlb := f (tlb s) |}).
Definition set_cache_state (v : Z) : MM M unit := modst (fun s => {| s with mmu_cache_state := v |}).
Definition set_reg_s (b : bool) : MM M unit := set_core (fun c => {| c with reg_s := b |}).

(** ** [mmu_make_transparent_region] *)
Definition transparent_value (baseaddr size : Z) : Z :=
  (baseaddr .& MMU_TTR_LOGICAL_BASE)
    .| ((u32 (baseaddr + size - 1) .& MMU_TTR_LOGICAL_BASE) >> 8) .| MMU_TTR_BIT_ENABLED.

Definition mmu_make_transparent_region (baseaddr size : Z) (datamode : bool) (c : cpu) : cpu :=
  let r := rctl c in
  let v := transparent_value baseaddr size in
  let ttr0 := if datamode then dtt0 r else itt0 r in
  let ttr1 := if datamode then dtt1 r else itt1 r in
  if ttr1 .& MMU_TTR_BIT_ENABLED =? 0 then
    set_ctl (if datamode then {| r with dtt1 := v |} else {| r with itt1 := v |}) c
  else if ttr0 .& MMU_TTR_BIT_ENABLED =? 0 then
    set_ctl (if datamode then {| r with dtt0 := v |} else {| r with itt0 := v |}) c
  else c.

(** ** [flush_shortcut_cache] *)
Definition fast_idx1 (mm : mmu) (addr : Z) (super : bool) : Z :=
  ((addr .& mmu_pagemaski mm) >> mmu_pageshift1m mm) .| Z.b2z super.

Definition fast_flush (idx : Z) (e : mmufastcache) : mmufastcache :=
  if f_log e =? idx then {| e with f_log := 0xffffffff |} else e.

Definition fast_empty : list mmufastcache :=
  replicate (Z.to_nat MMUFASTCACHE_ENTRIES) (mk_fast 0xffffffff 0xffffffff 0xff).

Definition flush_fast (mm : mmu) (addr : Z) (super : bool) (t : atcst) : atcst :=
  let t := {| t with atc_last_ins_laddr := mmu_pagemask mm |} in
  if addr =? 0xffffffff
  then {| t with atc_data_cache_read := fast_empty; atc_data_cache_write := fast_empty |}
  else let f := fast_flush (fast_idx1 mm addr super) in
       {| t with atc_data_cache_read := f <$> atc_data_cache_read t;
                 atc_data_cache_write := f <$> atc_data_cache_write t |}.

Definition flush_shortcut_cache (addr : Z) (super : bool) : MM M unit :=
  let! st := getst in set_tlb (flush_fast (rmmu (core st)) addr super).

(** ** Access errors *)
Definition mmu_get_fc (super data : bool) : Z := (if super then 4 else 0) .| (if data then 1 else 2).

Definition ssw_size (size : Z) : Z :=
  if size =? sz_byte then MMU_SSW_SIZE_B else if size =? sz_word then MMU_SSW_SIZE_W
  else if size =? sz_long then MMU_SSW_SIZE_L else 0.

(** The 68040 half of [mmu_bus_error]: special status word and write-backs. *)
Definition bus_error_040 (r : ctl) (val fc : Z) (write : bool) (size : Z) (nonmmu : bool)
    (f : faultst) : faultst :=
  let fc1 := if write then dfc r else sfc r in
  let '(fc, ssw) :=
    if ismoves f then
      if (fc1 .& 3 =? 0) || (fc1 .& 3 =? 3) then (fc1, MMU_SSW_TT1)
      else if truth (fc1 .& 2) then ((fc1 .& 4) .| 1, 0)
      else (fc1, 0)
    else (fc, 0) in
  let ssw := ssw .| (fc .& MMU_SSW_TM) .| ssw_size size in
  let f := {| f with wb3_status := if write then 0x80 .| (ssw .& 0x7f) else 0;
                     wb3_data := val; wb2_status := 0 |} in
  let ssw := if write then ssw else ssw .| MMU_SSW_RW in
  let '(ssw, f) :=
    if size =? 16 then
      let ssw := ssw .| MMU_SSW_SIZE_CL .| MMU_SSW_TT0 in
      let f := {| f with mmu_effective_addr := mmu_effective_addr f .& 0xfffffff0 |} in
      (ssw, if write
            then {| f with wb3_status := wb3_status f .& u16 (Z.lnot 0x80);
                           wb2_status := 0x80 .| MMU_SSW_SIZE_CL .| (ssw .& 0x1f);
                           wb2_address := mmu_effective_addr f |}
            else f)
    else (ssw, f) in
  let '(ssw, f) :=
    if mmu040_movem f
    then (ssw .| MMU_SSW_CM,
          {| f with mmu_effective_addr := mmu040_movem_ea f; mmu040_movem := false |})
    else (ssw, f) in
  let ssw := if locked_rmw_cycle f then (ssw .| MMU_SSW_LK) .& u16 (Z.lnot MMU_SSW_RW) else ssw in
  {| f with mmu_ssw := if nonmmu then ssw else ssw .| MMU_SSW_ATC |}.

Definition fslw_size (size : Z) : Z :=
  if size =? sz_byte then MMU_FSLW_SIZE_B else if size =? sz_word then MMU_FSLW_SIZE_W
  else if size =? sz_long then MMU_FSLW_SIZE_L
  else if size =? 16 then MMU_FSLW_SIZE_D .| MMU_FSLW_TT_16 else 0.

(** The 68060 half: fault status long word, and the address reported. *)
Definition bus_error_060 (addr fc : Z) (write : bool) (size status060 : Z) (f : faultst)
    : Z * faultst :=
  let fslw := (if write then MMU_FSLW_W else MMU_FSLW_R) .| (fc << 16) .| fslw_size size in
  let addr := if size =? 16 then addr .& 0xfffffff0 else addr in
  let '(addr, fslw) :=
    if fc .& 3 =? 2
    then (instruction_pc f,
          if mmu060_state f =? 0 then fslw .| MMU_FSLW_IO else fslw .| (MMU_FSLW_IO .| MMU_FSLW_MA))
    else (addr, fslw) in
  let fslw := if rmw_cycle f then fslw .| (MMU_FSLW_W .| MMU_FSLW_R) else fslw in
  let fslw := if locked_rmw_cycle f then fslw .| MMU_FSLW_LK else fslw in
  (addr, {| f with mmu_fslw := fslw .| status060 |}).

Definition mmu_bus_error {A} (addr val fc : Z) (write : bool) (size status060 : Z) (nonmmu : bool)
    : MM M A :=
  let! st := getst in
  let '(addr, f) :=
    if mmu_model p =? 68040
    then (addr, bus_error_040 (rctl (core st)) val fc write size nonmmu (flt st))
    else bus_error_060 addr fc write size status060 (flt st) in
  set_flt (fun _ => {| f with ismoves := false; rmw_cycle := false; locked_rmw_cycle := false;
                              mmu_fault_addr := addr |}) ;;;
  set_core (fun c => {| c with rmmu := {| (rmmu c) with
     cache_default_data := cache_default_data (rmmu c) .& u8 (Z.lnot CACHE_DISABLE_ALLOCATE) |} |}) ;;;
  throw 2.

Definition mmu_hardware_bus_error {A} (addr v : Z) (read ins : bool) (size : Z) : MM M A :=
  let! st := getst in
  let r := rctl (core st) in
  let fc := if ismoves (flt st) then if read then sfc r else dfc r
            else (if reg_s (core st) then 4 else 0) .| (if ins then 2 else 1) in
  mmu_bus_error addr v fc (negb read) size 0 true.

Definition mmu_is_super_access (read : bool) (st : mst M) : bool :=
  if negb (ismoves (flt st)) then reg_s (core st)
  else truth ((if read then sfc (rctl (core st)) else dfc (rctl (core st))) .& 4).

(** ** Physical accesses: the bank answers, or [hardware_exception2] raises
    the error with a data access's function code *)
Definition of_phys {A} (read : bool) (addr v size : Z) (o : option A) : MM M A :=
  match o with Some a => mmret a | None => mmu_hardware_bus_error addr v read false size end.

Definition x_phys_get_byte (addr : Z) : MM M Z :=
  let! st := getst in of_phys true addr 0 sz_byte (phys_get_byte addr (pm st)).
Definition x_phys_get_word (addr : Z) : MM M Z :=
  let! st := getst in of_phys true addr 0 sz_word (phys_get_word addr (pm st)).
Definition x_phys_get_long (addr : Z) : MM M Z :=
  let! st := getst in of_phys true addr 0 sz_long (phys_get_long addr (pm st)).

Definition set_pm (m : M) : MM M unit := modst (fun s => {| s with pm := m |}).
Definition x_phys_put_byte (addr v : Z) : MM M unit :=
  let! st := getst in
  let! m := of_phys false addr v sz_byte (phys_put_byte addr v (pm st)) in set_pm m.
Definition x_phys_put_word (addr v : Z) : MM M unit :=
  let! st := getst in
  let! m := of_phys false addr v sz_word (phys_put_word addr v (pm st)) in set_pm m.
Definition x_phys_put_long (addr v : Z) : MM M unit :=
  let! st := getst in
  let! m := of_phys false addr v sz_long (phys_put_long addr v (pm st)) in set_pm m.

(** ** Transparent translation *)
Definition ttr_cache_state (ttr : Z) : Z :=
  if truth (ttr .& MMU_TTR_CACHE_DISABLE) then CACHE_DISABLE_MMU
  else if truth (ttr .& MMU_TTR_CACHE_MODE) then CACHE_ENABLE_ALL .| CACHE_ENABLE_COPYBACK
  else CACHE_ENABLE_ALL.

Definition mmu_do_match_ttr (ttr addr : Z) (super : bool) : MM M Z :=
  if truth (ttr .& MMU_TTR_BIT_ENABLED) then
    let msb := u8 (((addr .^ ttr) .& MMU_TTR_LOGICAL_BASE) >> 24) in
    let mask := u8 ((ttr .& MMU_TTR_LOGICAL_MASK) >> 16) in
    if msb .& Z.lnot mask =? 0 then
      if (ttr .& MMU_TTR_BIT_SFIELD_ENABLED =? 0)
         && negb (Bool.eqb (ttr .& MMU_TTR_BIT_SFIELD_SUPER =? 0) (negb super))
      then mmret TTR_NO_MATCH
      else set_cache_state (ttr_cache_state ttr) ;;;
           mmret (if truth (ttr .& MMU_TTR_BIT_WRITE_PROTECT) then TTR_NO_WRITE else TTR_OK_MATCH)
    else mmret TTR_NO_MATCH
  else mmret TTR_NO_MATCH.

Definition match_two (ttr0 ttr1 addr : Z) (super : bool) : MM M Z :=
  let! res := mmu_do_match_ttr ttr0 addr super in
  if res =? TTR_NO_MATCH then mmu_do_match_ttr ttr1 addr super else mmret res.

Definition mmu_match_ttr_ins (addr : Z) (super : bool) : MM M Z :=
  let! st := getst in
  if negb (mmu_ttr_enabled_ins (rmmu (core st))) then mmret TTR_NO_MATCH
  else match_two (itt0 (rctl (core st))) (itt1 (rctl (core st))) addr super.

Definition mmu_match_ttr (addr : Z) (super data : bool) : MM M Z :=
  let! st := getst in
  let r := rctl (core st) in
  if negb (mmu_ttr_enabled (rmmu (core st))) then mmret TTR_NO_MATCH
  else if data then match_two (dtt0 r) (dtt1 r) addr super
  else match_two (itt0 r) (itt1 r) addr super.

Definition mmu_bus_error_ttr_write_fault {A} (addr : Z) (super data : bool) (val size : Z) : MM M A :=
  mmu_bus_error addr val (mmu_get_fc super data) true size
    (if mmu_model p =? 68060 then MMU_FSLW_TTR else 0) false.

Definition mmu_match_ttr_maybe_write_v (addr : Z) (super data : bool) (val size : Z) (write : bool)
    : MM M Z :=
  let! st := getst in
  let! res := if mmu_ttr_enabled (rmmu (core st)) then mmu_match_ttr addr super data
              else mmret TTR_NO_MATCH in
  if write && ((res =? TTR_NO_WRITE)
               || ((res =? TTR_NO_MATCH) && negb (mmu_enabled (rmmu (core st)))
                   && truth (tcr (rctl (core st)) .& MMU_TCR_DWO)))
  then mmu_bus_error_ttr_write_fault addr super data val size
  else mmret res.

Definition mmu_match_ttr_write (addr : Z) (super data : bool) (val size : Z) : MM M Z :=
  mmu_match_ttr_maybe_write_v addr super data val size true.
Definition mmu_match_ttr_maybe_write (addr : Z) (super data : bool) (size : Z) (write : bool) : MM M Z :=
  mmu_match_ttr_maybe_write_v addr super data 0 size write.

(** ** The table search *)
Definition desc_get_long (addr : Z) : MM M Z :=
  set_cache_state (ce_cachable (addr >> 16) .| CACHE_DISABLE_ALLOCATE) ;;; x_phys_get_long addr.
Definition desc_put_long (addr v : Z) : MM M unit :=
  set_cache_state CACHE_DISABLE_MMU ;;; x_phys_put_long addr v.

Definition root_cell (root addr : Z) : Z := (root .& MMU_ROOT_PTR_ADDR_MASK) .| ((addr >> 23) .& 0x1fc).
Definition ptr_cell (desc addr : Z) : Z := (desc .& MMU_ROOT_PTR_ADDR_MASK) .| ((addr >> 16) .& 0x1fc).
Definition page_cell (k8 : bool) (desc addr : Z) : Z :=
  if k8 then u32 ((desc .& MMU_PTR_PAGE_ADDR_MASK_8) + ((addr >> 11) .& 0x7c))
  else u32 ((desc .& MMU_PTR_PAGE_ADDR_MASK_4) + ((addr >> 10) .& 0xfc)).

(** The update of a resident page descriptor: what is stored ([None]: no
    store) and the descriptor the search goes on with. *)
Definition page_update (write super : bool) (wp desc : Z) : option Z :=
  if write then
    if truth (wp .& MMU_DES_WP) || (truth (desc .& MMU_DES_SUPER) && negb super)
    then if desc .& MMU_DES_USED =? 0 then Some (desc .| MMU_DES_USED) else None
    else if desc .& (MMU_DES_USED .| MMU_DES_MODIFIED) != (MMU_DES_USED .| MMU_DES_MODIFIED)
         then Some (desc .| (MMU_DES_USED .| MMU_DES_MODIFIED)) else None
  else if desc .& MMU_DES_USED =? 0 then Some (desc .| MMU_DES_USED) else None.

(** The search itself: the final descriptor (0 when it fails) and the 68060
    status bits found. *)
Definition fill_search (addr : Z) (super write : bool) (status060 : Z) : MM M (Z * Z) :=
  let! st := getst in
  let live := negb (mmu_debugger st) in
  let k8 := mmu_pagesize_8k (rmmu (core st)) in
  let desc := if super then srp (rctl (core st)) else urp (rctl (core st)) in
  let desc_addr := root_cell desc addr in
  let! desc := desc_get_long desc_addr in
  if desc .& 2 =? 0 then mmret (0, status060 .| MMU_FSLW_PTA) else
  let wp := desc in
  whenm ((desc .& MMU_DES_USED =? 0) && live) (desc_put_long desc_addr (desc .| MMU_DES_USED)) ;;;
  let desc_addr := ptr_cell desc addr in
  let! desc := desc_get_long desc_addr in
  if desc .& 2 =? 0 then mmret (0, status060 .| MMU_FSLW_PTB) else
  let wp := wp .| desc in
  whenm ((desc .& MMU_DES_USED =? 0) && live) (desc_put_long desc_addr (desc .| MMU_DES_USED)) ;;;
  let desc_addr := page_cell k8 desc addr in
  let! desc := desc_get_long desc_addr in
  let! (desc_addr, desc) :=
    if desc .& 3 =? 2
    then let desc_addr := desc .& MMU_PAGE_INDIRECT_MASK in
         let! d := desc_get_long desc_addr in mmret (desc_addr, d)
    else mmret (desc_addr, desc) in
  if desc .& 1 =? 1 then
    let wp := wp .| desc in
    let! desc :=
      match page_update write super wp desc with
      | Some d => whenm live (desc_put_long desc_addr d) ;;; mmret d
      | None => mmret desc
      end in
    mmret (desc .| (wp .& MMU_DES_WP), status060)
  else mmret (0, status060 .| (if desc .& 3 =? 2 then MMU_FSLW_IL else MMU_FSLW_PF)).

Definition status_mask : Z :=
  MMU_MMUSR_G .| MMU_MMUSR_Ux .| MMU_MMUSR_S .| MMU_MMUSR_CM .| MMU_MMUSR_M .| MMU_MMUSR_W .| MMU_MMUSR_R.

Definition set_line (pos : nat) (l : mmu_atc_line) : MM M unit :=
  set_tlb (fun t => {| t with lines := <[pos := l]> (lines t) |}).

Definition fill_finish (super write : bool) (tag : Z) (pos : nat) (desc status060 : Z)
    : MM M (Z * Z) :=
  let! st := getst in
  let status060 :=
    if negb super && truth (desc .& MMU_DES_SUPER) then status060 .| MMU_FSLW_SP
    else if write && truth (desc .& MMU_DES_WP) then status060 .| MMU_FSLW_WP else status060 in
  if (mmu_model p =? 68040) || truth (desc .& MMU_MMUSR_R) then
    let status := desc .& status_mask in
    let phys := desc .& mmu_pagemaski (rmmu (core st)) in
    set_line pos (mk_line tag true status phys) ;;; mmret (phys .| status, status060)
  else mmret (0, status060).

(** [mmu_fill_atc]: the line at [pos] is the pointer [l]; the result is the
    status and the new value of [*status060]. *)
Definition mmu_fill_atc (addr : Z) (super : bool) (tag : Z) (write : bool) (pos : nat)
    (status060 : Z) : MM M (Z * Z) :=
  let! st := getst in
  let old_s := reg_s (core st) in
  set_reg_s true ;;;
  let! r := try_catch
    (let! (desc, st060) := fill_search addr super write status060 in
     fill_finish super write tag pos desc st060)
    (fun _ =>
      whenm (mmu_model p =? 68040) (set_line pos (mk_line tag true 0 0)) ;;;
      mmret (MMU_MMUSR_B, status060 .| (MMU_FSLW_LK .| MMU_FSLW_TWE))) in
  set_reg_s old_s ;;;
  flush_shortcut_cache addr super ;;;
  mmret r.

(** ** [mmu_add_cache] *)
Definition fast_idx2 (idx1 : Z) : Z := idx1 .& (MMUFASTCACHE_ENTRIES - 1).

Definition fast_add (idx1 phys cs : Z) (l : list mmufastcache) : list mmufastcache :=
  if fast_idx2 idx1 <? MMUFASTCACHE_ENTRIES - 1
  then <[Z.to_nat (fast_idx2 idx1) := mk_fast idx1 phys cs]> l else l.

Definition add_fast (mm : mmu) (cs addr phys : Z) (super data write : bool) (t : atcst) : atcst :=
  if negb data
  then {| t with atc_last_ins_laddr := (addr .& mmu_pagemaski mm) .| Z.b2z super;
                 atc_last_ins_paddr := phys; atc_last_ins_cache := cs |}
  else let idx1 := fast_idx1 mm addr super in
       if write
       then {| t with atc_data_cache_write := fast_add idx1 phys cs (atc_data_cache_write t) |}
       else {| t with atc_data_cache_read := fast_add idx1 phys cs (atc_data_cache_read t) |}.

Definition mmu_add_cache (addr phys : Z) (super data write : bool) : MM M unit :=
  let! st := getst in
  set_tlb (add_fast (rmmu (core st)) (mmu_cache_state st) addr phys super data write).

(** ** [mmu_translate] *)
Definition atc_tag (mm : mmu) (addr : Z) (super : bool) : Z :=
  ((if super then 0x80000000 else 0) .| (addr >> 1)) .& mmu_tagmask mm.
Definition atc_index (mm : mmu) (addr : Z) : Z :=
  if mmu_pagesize_8k mm then (addr .& 0x1E000) >> 13 else (addr .& 0xF000) >> 12.
Definition atc_pos (data : bool) (index way : Z) : nat :=
  Z.to_nat (Z.b2z data * (ATC_SLOTS * ATC_WAYS) + index * ATC_WAYS + way).

(** The search loop: [inl] the way that matches, [inr] the way to replace. *)
Fixpoint atc_scan (ls : list mmu_atc_line) (data : bool) (index tag : Z) (n : nat)
    (way way_invalid : Z) : Z + Z :=
  match n with
  | O => inr way_invalid
  | S n =>
      let l := ls !!! atc_pos data index way in
      if l_valid l then
        if tag =? l_tag l then inl way
        else atc_scan ls data index tag n ((way + 1) mod ATC_WAYS) way
      else atc_scan ls data index tag n ((way + 1) mod ATC_WAYS) way_invalid
  end.

Definition status_cache_state (status : Z) : Z :=
  if truth (status .& MMU_MMUSR_CM_DISABLE) then CACHE_DISABLE_MMU
  else if truth (status .& MMU_MMUSR_CM_MODE) then CACHE_ENABLE_ALL .| CACHE_ENABLE_COPYBACK
  else CACHE_ENABLE_ALL.

(** [way_random] is a C int. *)
Definition bump_random : MM M unit := set_tlb (fun t => {| t with way_random := s32 (way_random t + 1) |}).

Section Translate.
Context (addr val : Z) (super data write : bool) (size tag index : Z).

Definition atc_fault (status : Z) : bool :=
  (status .& (MMU_MMUSR_W .| MMU_MMUSR_S .| MMU_MMUSR_R) != MMU_MMUSR_R)
  && ((truth (status .& MMU_MMUSR_W) && write) || (truth (status .& MMU_MMUSR_S) && negb super)
      || negb (truth (status .& MMU_MMUSR_R))).

(** From [atc_retry]: [None] stands for running out of fuel in [refill]. *)
Definition atc_retry (refill : Z -> MM M (option Z)) (way status060 : Z) : MM M (option Z) :=
  let! st := getst in
  let l := lines (tlb st) !!! atc_pos data index way in
  if atc_fault (l_status l) then
    let s1 := if truth (l_status l .& MMU_MMUSR_S) && negb super
              then status060 .| MMU_FSLW_SP else status060 in
    let s2 := if truth (l_status l .& MMU_MMUSR_W) && write then s1 .| MMU_FSLW_WP else s1 in
    mmu_bus_error addr val (mmu_get_fc super data) write size s2 false
  else if negb (truth (l_status l .& MMU_MMUSR_M)) && write then refill way
  else
    set_tlb (fun t => {| t with mmu_atc_ways := <[Z.to_nat (Z.b2z data) := way]> (mmu_atc_ways t) |}) ;;;
    set_cache_state (status_cache_state (l_status l)) ;;;
    mmu_add_cache addr (l_phys l) super data write ;;;
    mmret (Some (l_phys l .| (addr .& mmu_pagemask (rmmu (core st))))).

(** What follows the loop, up to [goto atc_retry]. *)
Fixpoint atc_refill (fuel : nat) (way_invalid status060 : Z) : MM M (option Z) :=
  match fuel with
  | O => mmret None
  | S fuel =>
      set_tlb (fun t => {| t with way_random := Z.rem (way_random t) ATC_WAYS |}) ;;;
      let! st := getst in
      let way := if way_invalid <? ATC_WAYS then way_invalid else way_random (tlb st) in
      let! (_, status060) := mmu_fill_atc addr super tag write (atc_pos data index way) status060 in
      whenm (truth status060 && (mmu_model p =? 68060))
        (mmu_bus_error addr val (mmu_get_fc super data) write size status060 false) ;;;
      bump_random ;;;
      atc_retry (fun w => atc_refill fuel w status060) way status060
  end.
End Translate.

Definition mmu_translate_fuel (fuel : nat) (addr val : Z) (super data write : bool) (size : Z)
    : MM M (option Z) :=
  let! st := getst in
  let mm := rmmu (core st) in
  let tag := atc_tag mm addr super in
  let index := atc_index mm addr in
  bump_random ;;;
  let way := mmu_atc_ways (tlb st) !!! Z.to_nat (Z.b2z data) in
  match atc_scan (lines (tlb st)) data index tag (Z.to_nat ATC_WAYS) way ATC_WAYS with
  | inl way => atc_retry addr val super data write size index
                 (fun w => atc_refill addr val super data write size tag index fuel w 0) way 0
  | inr way_invalid => atc_refill addr val super data write size tag index fuel way_invalid 0
  end.

(** One refill is enough ([translate_fuel_enough] in MmuProps). *)
Definition mmu_translate (addr val : Z) (super data write : bool) (size : Z) : MM M Z :=
  let! r := mmu_translate_fuel 2 addr val super data write size in
  mmret (default 0 r).

(** ** Flushing *)
Definition flush_line (glob : bool) (tag : Z) (l : mmu_atc_line) : mmu_atc_line :=
  if negb glob && truth (l_status l .& MMU_MMUSR_G) then l
  else if (tag =? l_tag l) && l_valid l then {| l with l_valid := false |} else l.

(** The lines of one set: both types, all ways of the slot. *)
Definition in_slot (index : Z) (pos : nat) : bool :=
  (Z.of_nat pos / ATC_WAYS) mod ATC_SLOTS =? index.

Definition mmu_flush_atc (addr : Z) (super glob : bool) : MM M unit :=
  let! st := getst in
  let mm := rmmu (core st) in
  let tag := atc_tag mm addr super in
  let index := atc_index mm addr in
  set_tlb (fun t => {| t with lines :=
    imap (fun pos l => if in_slot index pos then flush_line glob tag l else l) (lines t) |}) ;;;
  flush_shortcut_cache addr super.

Definition mmu_flush_atc_all (glob : bool) : MM M unit :=
  set_tlb (fun t => {| t with lines :=
    (fun l => if negb glob && truth (l_status l .& MMU_MMUSR_G) then l
              else {| l with l_valid := false |}) <$> lines t |}) ;;;
  flush_shortcut_cache 0xffffffff false.

Definition mmu_reset : MM M unit := mmu_flush_atc_all true.

(** [mmu_set_tc] with the flush it ends in carried out. *)
Definition mmu_write_tc (tc : Z) : MM M Z :=
  let! st := getst in
  let '(tc', c) := mmu_set_tc p tc (core st) in
  set_core (fun _ => c) ;;; mmu_flush_atc_all true ;;; mmret tc'.

(** ** PFLUSH, PTEST and PLPA: [mmu_op_real] *)
Fixpoint first_invalid (ls : list mmu_atc_line) (data : bool) (index : Z) (n : nat) (way : Z) : Z :=
  match n with
  | O => way
  | S n => if l_valid (ls !!! atc_pos data index way)
           then first_invalid ls data index n (way + 1) else way
  end.

Definition set_mmusr (v : Z) : MM M unit :=
  set_core (fun c => set_ctl {| (rctl c) with mmusr := v |} c).

Definition op_pflush (opcode : Z) : MM M unit :=
  let! st := getst in
  let glob := truth (opcode .& 8) in
  (if truth (opcode .& 16) then mmu_flush_atc_all glob
   else mmu_flush_atc (m68k_areg (core st) (opcode .& 7)) (truth (dfc (rctl (core st)) .& 4)) glob) ;;;
  set_core (emit (flush_icache 0)).

Definition op_ptest (opcode : Z) : MM M unit :=
  let! st := getst in
  let super := truth (dfc (rctl (core st)) .& 4) in
  let data := dfc (rctl (core st)) .& 3 != 2 in
  let write := opcode .& 32 =? 0 in
  let addr := m68k_areg (core st) (opcode .& 7) in
  mmu_flush_atc addr super true ;;;
  let! ttr_match := mmu_match_ttr addr super data in
  if ttr_match != TTR_NO_MATCH then
    set_mmusr (if (ttr_match =? TTR_NO_WRITE) && write then MMU_MMUSR_B
               else MMU_MMUSR_T .| MMU_MMUSR_R)
  else if mmu_ec p then mmret tt
  else
    let! st := getst in
    let mm := rmmu (core st) in
    let index := atc_index mm addr in
    let w := first_invalid (lines (tlb st)) data index (Z.to_nat ATC_WAYS) 0 in
    let way := if ATC_WAYS <=? w then Z.rem (way_random (tlb st)) ATC_WAYS else w in
    let! (status, _) :=
      mmu_fill_atc addr super (atc_tag mm addr super) write (atc_pos data index way) 0 in
    set_mmusr status.

Definition op_plpa (opcode : Z) : MM M unit :=
  let! st := getst in
  let super := truth (dfc (rctl (core st)) .& 4) in
  let data := dfc (rctl (core st)) .& 3 != 2 in
  let write := opcode .& 0x40 =? 0 in
  let regno := opcode .& 7 in
  let addr := m68k_areg (core st) regno in
  let! ttr := if write then mmu_match_ttr_write addr super data 0 1
              else mmu_match_ttr addr super data in
  if (ttr =? TTR_NO_MATCH) && negb (mmu_ec p) then
    let! pa := mmu_translate addr 0 super data write 1 in
    set_core (set_areg regno pa)
  else mmret tt.

Definition mmu_op_real (opcode : Z) : MM M unit :=
  if opcode .& 0xFE0 =? 0x500 then op_pflush opcode
  else if opcode .& 0xFD8 =? 0x548 then op_ptest opcode
  else if opcode .& 0xFFB8 =? 0xF588 then op_plpa opcode
  else set_core (emit (op_illg opcode)).
End Mmu.
