(* ===== verification/MmuAccess.v ===== *)
(** * MmuAccess: accesses through the MMU ([include/cpummu.h], [cpu/cpummu.cpp])

    The accessors the opcode handlers use when the MMU is on: instruction
    fetches, data accesses, MOVES, MOVE16, locked and plain read-modify-write
    cycles, accesses that cross a page, and the return and call helpers. *)

From S2P Require Import Prelude Flags Cpu Movec Mmu.
From Stdlib Require Import ZArith Lia Bool.
From stdpp Require Import base list gmap.
Open Scope Z_scope.
Open Scope cint_scope.
Open Scope mm_scope.

Section MmuAccess.
Context {M : Type} `{Phys M} (p : prefs) (ce_cachable : Z -> Z).

Abbreviation MMZ := (MM M Z).
Abbreviation translate := (mmu_translate p ce_cachable).

(** ** The address of an access

    The guard every accessor of [include/cpummu.h] starts with: [true] when
    the address still has to be translated. *)
Definition must_translate (ttr_on : mmu -> bool) (ttr : MMZ) : MM M bool :=
  let! st := getst in
  let! miss := if ttr_on (rmmu (core st))
               then let! r := ttr in mmret (r =? TTR_NO_MATCH) else mmret true in
  let! st := getst in
  mmret (miss && mmu_enabled (rmmu (core st))).

(** The head of [mmu_get_ilong] and [mmu_get_iword]. *)
Definition ins_addr (addr size : Z) : MMZ :=
  let! st := getst in
  let s := reg_s (core st) in
  let mm := rmmu (core st) in
  let t := tlb st in
  set_cache_state (cache_default_ins mm) ;;;
  let! tr := must_translate mmu_ttr_enabled_ins (mmu_match_ttr_ins addr s) in
  if tr then
    if (addr .& mmu_pagemaski mm) .| Z.b2z s =? atc_last_ins_laddr t
    then set_cache_state (atc_last_ins_cache t) ;;;
         mmret (atc_last_ins_paddr t .| (addr .& mmu_pagemask mm))
    else translate addr 0 s false false size
  else mmret addr.

Definition fast_entry (l : list mmufastcache) (idx1 : Z) : mmufastcache :=
  l !!! Z.to_nat (fast_idx2 idx1).

(** The head of [mmu_get_long], [mmu_get_user_long] and their siblings. *)
Definition data_read_addr (ttr : MMZ) (addr : Z) (super data write : bool) (size : Z) : MMZ :=
  let! st := getst in
  let mm := rmmu (core st) in
  let idx1 := fast_idx1 mm addr super in
  let e := fast_entry (atc_data_cache_read (tlb st)) idx1 in
  set_cache_state (cache_default_data mm) ;;;
  let! tr := must_translate mmu_ttr_enabled ttr in
  if tr then
    if f_log e =? idx1
    then set_cache_state (f_cache_state e) ;;; mmret (f_phys e .| (addr .& mmu_pagemask mm))
    else translate addr 0 super data write size
  else mmret addr.

(** The head of [mmu_put_long], [mmu_put_user_long] and their siblings: a hit
    takes the address from the write shortcut and the cache state from the
    entry of the read shortcut with the same index, as the code does. *)
Definition data_write_addr (addr val : Z) (super data : bool) (size : Z) : MMZ :=
  let! st := getst in
  let mm := rmmu (core st) in
  let idx1 := fast_idx1 mm addr super in
  let e := fast_entry (atc_data_cache_write (tlb st)) idx1 in
  set_cache_state (cache_default_data mm) ;;;
  let! tr := must_translate mmu_ttr_enabled (mmu_match_ttr_write p addr super data val size) in
  if tr then
    if f_log e =? idx1
    then set_cache_state (f_cache_state (fast_entry (atc_data_cache_read (tlb st)) idx1)) ;;;
         mmret (f_phys e .| (addr .& mmu_pagemask mm))
    else translate addr val super data true size
  else mmret addr.

(** ** Instruction and data accessors *)
Definition cur_s {A} (k : bool -> MM M A) : MM M A := let! st := getst in k (reg_s (core st)).

Definition mmu_get_ilong (addr size : Z) : MMZ :=
  let! a := ins_addr addr size in x_phys_get_long p a.
Definition mmu_get_iword (addr size : Z) : MMZ :=
  let! a := ins_addr addr size in let! v := x_phys_get_word p a in mmret (u16 v).

Definition mmu_get_long (addr : Z) (data : bool) (size : Z) : MMZ :=
  cur_s (fun s => let! a := data_read_addr (mmu_match_ttr addr s data) addr s data false size in
                  x_phys_get_long p a).
Definition mmu_get_word (addr : Z) (data : bool) (size : Z) : MMZ :=
  cur_s (fun s => let! a := data_read_addr (mmu_match_ttr addr s data) addr s data false size in
                  let! v := x_phys_get_word p a in mmret (u16 v)).
Definition mmu_get_byte (addr : Z) (data : bool) (size : Z) : MMZ :=
  cur_s (fun s => let! a := data_read_addr (mmu_match_ttr addr s data) addr s data false size in
                  let! v := x_phys_get_byte p a in mmret (u8 v)).

Definition mmu_put_long (addr val : Z) (data : bool) (size : Z) : MM M unit :=
  cur_s (fun s => let! a := data_write_addr addr val s data size in x_phys_put_long p a val).
Definition mmu_put_word (addr val : Z) (data : bool) (size : Z) : MM M unit :=
  let val := u16 val in
  cur_s (fun s => let! a := data_write_addr addr val s data size in x_phys_put_word p a val).
Definition mmu_put_byte (addr val : Z) (data : bool) (size : Z) : MM M unit :=
  let val := u8 val in
  cur_s (fun s => let! a := data_write_addr addr val s data size in x_phys_put_byte p a val).

(** ** Accessors with an explicit privilege level *)
Definition cache_inhibit (ci : bool) : MM M unit := whenm ci (set_cache_state CACHE_DISABLE_MMU).

Definition user_read_addr (addr : Z) (super write : bool) (size : Z) (ci : bool) : MMZ :=
  let! a := data_read_addr (mmu_match_ttr_maybe_write p addr super true size write)
              addr super true write size in
  cache_inhibit ci ;;; mmret a.
Definition mmu_get_user_long (addr : Z) (super write : bool) (size : Z) (ci : bool) : MMZ :=
  let! a := user_read_addr addr super write size ci in x_phys_get_long p a.
Definition mmu_get_user_word (addr : Z) (super write : bool) (size : Z) (ci : bool) : MMZ :=
  let! a := user_read_addr addr super write size ci in
  let! v := x_phys_get_word p a in mmret (u16 v).
Definition mmu_get_user_byte (addr : Z) (super write : bool) (size : Z) (ci : bool) : MMZ :=
  let! a := user_read_addr addr super write size ci in
  let! v := x_phys_get_byte p a in mmret (u8 v).

Definition user_write_addr (addr val : Z) (super : bool) (size : Z) (ci : bool) : MMZ :=
  let! a := data_write_addr addr val super true size in cache_inhibit ci ;;; mmret a.
Definition mmu_put_user_long (addr val : Z) (super : bool) (size : Z) (ci : bool) : MM M unit :=
  let! a := user_write_addr addr val super size ci in x_phys_put_long p a val.
Definition mmu_put_user_word (addr val : Z) (super : bool) (size : Z) (ci : bool) : MM M unit :=
  let val := u16 val in
  let! a := user_write_addr addr val super size ci in x_phys_put_word p a val.
Definition mmu_put_user_byte (addr val : Z) (super : bool) (size : Z) (ci : bool) : MM M unit :=
  let val := u8 val in
  let! a := user_write_addr addr val super size ci in x_phys_put_byte p a val.

(** ** Accesses that cross a page *)
Definition is_unaligned_page (addr size page_size : Z) : bool :=
  truth (addr .& (size - 1)) && truth ((addr .^ u32 (addr + size - 1)) .& page_size).

(** [if (is_unaligned_page(addr, size)) cross; else whole;] *)
Definition page_split {A} (addr size : Z) (cross whole : MM M A) : MM M A :=
  let! st := getst in
  if is_unaligned_page addr size (mmu_page_size (rmmu (core st))) then cross else whole.

Definition misalignednotfirst (addr : Z) : MM M unit :=
  set_flt (fun f => {| f with mmu_fault_addr := addr; mmu_fslw := mmu_fslw f .| MMU_FSLW_MA;
                              mmu_ssw := mmu_ssw f .| MMU_SSW_MA |}).
Definition misalignednotfirstcheck (addr : Z) : MM M unit :=
  let! st := getst in
  if mmu_fault_addr (flt st) =? addr then mmret tt else misalignednotfirst addr.

(** The handler around the second part of a split read. *)
Definition second_part {A} (addr : Z) (m : MM M A) : MM M A :=
  try_catch m (fun prb => misalignednotfirst addr ;;; throw prb).
(** The handler around a split write. *)
Definition put_guard (addr val : Z) (m : MM M unit) : MM M unit :=
  try_catch m (fun prb => set_flt (fun f => {| f with wb3_data := val |}) ;;;
                          misalignednotfirstcheck addr ;;; throw prb).

Definition get_word_split (gb : Z -> MMZ) (addr : Z) : MMZ :=
  let! b0 := gb addr in
  let res := u16 (b0 << 8) in
  second_part addr (let! b1 := gb (u32 (addr + 1)) in mmret (res .| b1)).

Definition get_long_split (gw gb : Z -> MMZ) (addr : Z) : MMZ :=
  if addr .& 1 =? 0 then
    let! w0 := gw addr in
    let res := u32 (w0 << 16) in
    second_part addr (let! w1 := gw (u32 (addr + 2)) in mmret (res .| w1))
  else
    let! b0 := gb addr in
    let res := u32 (b0 << 8) in
    second_part addr
      (let! b1 := gb (u32 (addr + 1)) in
       let res := u32 ((res .| b1) << 8) in
       let! b2 := gb (u32 (addr + 2)) in
       let res := u32 ((res .| b2) << 8) in
       let! b3 := gb (u32 (addr + 3)) in
       mmret (res .| b3)).

Definition put_word_bytes (pb : Z -> Z -> MM M unit) (addr val : Z) : MM M unit :=
  pb addr (val >> 8) ;;; pb (u32 (addr + 1)) (u8 val).

Definition put_long_parts (pw pb : Z -> Z -> MM M unit) (addr val : Z) : MM M unit :=
  if addr .& 1 =? 0 then pw addr (val >> 16) ;;; pw (u32 (addr + 2)) val
  else pb addr (val >> 24) ;;; pb (u32 (addr + 1)) (val >> 16) ;;;
       pb (u32 (addr + 2)) (val >> 8) ;;; pb (u32 (addr + 3)) val.

Definition mmu_get_word_unaligned (addr : Z) (data : bool) : MMZ :=
  get_word_split (fun a => mmu_get_byte a data sz_word) addr.
Definition mmu_get_long_unaligned (addr : Z) (data : bool) : MMZ :=
  get_long_split (fun a => mmu_get_word a data sz_long) (fun a => mmu_get_byte a data sz_long) addr.
Definition mmu_get_ilong_unaligned (addr : Z) : MMZ :=
  let! w0 := mmu_get_iword addr sz_long in
  let res := u32 (w0 << 16) in
  second_part addr (let! w1 := mmu_get_iword (u32 (addr + 2)) sz_long in mmret (res .| w1)).
Definition mmu_put_word_unaligned (addr val : Z) (data : bool) : MM M unit :=
  let val := u16 val in
  put_guard addr val (put_word_bytes (fun a v => mmu_put_byte a v data sz_word) addr val).
Definition mmu_put_long_unaligned (addr val : Z) (data : bool) : MM M unit :=
  put_guard addr val (put_long_parts (fun a v => mmu_put_word a v data sz_long)
                                     (fun a v => mmu_put_byte a v data sz_long) addr val).

(** The 68040 and 68060 entry points are the same code. *)
Definition uae_mmu_get_ilong (addr : Z) : MMZ :=
  page_split addr 4 (mmu_get_ilong_unaligned addr) (mmu_get_ilong addr sz_long).
Definition uae_mmu_get_iword (addr : Z) : MMZ := mmu_get_iword addr sz_word.
Definition uae_mmu_get_ibyte (addr : Z) : MMZ := mmu_get_byte addr false sz_byte.
Definition uae_mmu_get_long (addr : Z) : MMZ :=
  page_split addr 4 (mmu_get_long_unaligned addr true) (mmu_get_long addr true sz_long).
Definition uae_mmu_get_word (addr : Z) : MMZ :=
  page_split addr 2 (mmu_get_word_unaligned addr true) (mmu_get_word addr true sz_word).
Definition uae_mmu_get_byte (addr : Z) : MMZ := mmu_get_byte addr true sz_byte.
Definition uae_mmu_put_long (addr val : Z) : MM M unit :=
  page_split addr 4 (mmu_put_long_unaligned addr val true) (mmu_put_long addr val true sz_long).
Definition uae_mmu_put_word (addr val : Z) : MM M unit :=
  page_split addr 2 (mmu_put_word_unaligned addr val true) (mmu_put_word addr val true sz_word).
Definition uae_mmu_put_byte (addr val : Z) : MM M unit := mmu_put_byte addr val true sz_byte.

(** ** MOVES: [sfc_get_*] and [dfc_put_*] *)
Definition set_ismoves (b : bool) : MM M unit := set_flt (fun f => {| f with ismoves := b |}).
Definition sfc_super {A} (k : bool -> MM M A) : MM M A :=
  let! st := getst in k (truth (sfc (rctl (core st)) .& 4)).
Definition dfc_super {A} (k : bool -> MM M A) : MM M A :=
  let! st := getst in k (truth (dfc (rctl (core st)) .& 4)).

Definition sfc_get_long (addr : Z) : MMZ := sfc_super (fun super =>
  set_ismoves true ;;;
  let! res := page_split addr 4
    (get_long_split (fun a => mmu_get_user_word a super false sz_long false)
                    (fun a => mmu_get_user_byte a super false sz_long false) addr)
    (mmu_get_user_long addr super false sz_long false) in
  set_ismoves false ;;; mmret res).
Definition sfc_get_word (addr : Z) : MMZ := sfc_super (fun super =>
  set_ismoves true ;;;
  let! res := page_split addr 2
    (get_word_split (fun a => mmu_get_user_byte a super false sz_word false) addr)
    (mmu_get_user_word addr super false sz_word false) in
  set_ismoves false ;;; mmret res).
Definition sfc_get_byte (addr : Z) : MMZ := sfc_super (fun super =>
  set_ismoves true ;;;
  let! res := mmu_get_user_byte addr super false sz_byte false in
  set_ismoves false ;;; mmret res).

Definition dfc_put_long (addr val : Z) : MM M unit := dfc_super (fun super =>
  set_ismoves true ;;;
  put_guard addr val (page_split addr 4
    (put_long_parts (fun a v => mmu_put_user_word a v super sz_long false)
                    (fun a v => mmu_put_user_byte a v super sz_long false) addr val)
    (mmu_put_user_long addr val super sz_long false)) ;;;
  set_ismoves false).
Definition dfc_put_word (addr val : Z) : MM M unit := dfc_super (fun super =>
  let val := u16 val in
  set_ismoves true ;;;
  put_guard addr val (page_split addr 2
    (put_word_bytes (fun a v => mmu_put_user_byte a v super sz_word false) addr val)
    (mmu_put_user_word addr val super sz_word false)) ;;;
  set_ismoves false).
Definition dfc_put_byte (addr val : Z) : MM M unit := dfc_super (fun super =>
  let val := u8 val in
  set_ismoves true ;;;
  try_catch (mmu_put_user_byte addr val super sz_byte false)
    (fun prb => set_flt (fun f => {| f with wb3_data := val |}) ;;; throw prb) ;;;
  set_ismoves false).

(** ** MOVE16 *)
Fixpoint get_longs (addr : Z) (n : nat) : MM M (list Z) :=
  match n with
  | O => mmret []
  | S n => let! v := x_phys_get_long p addr in
           let! vs := get_longs (u32 (addr + 4)) n in mmret (v :: vs)
  end.
Fixpoint put_longs (addr : Z) (vs : list Z) : MM M unit :=
  match vs with
  | [] => mmret tt
  | v :: vs => x_phys_put_long p addr v ;;; put_longs (u32 (addr + 4)) vs
  end.

Definition or_cache_state (v : Z) : MM M unit :=
  modst (fun s => {| s with mmu_cache_state := mmu_cache_state s .| v |}).

Definition mmu_get_move16 (addr : Z) (data : bool) (size : Z) : MM M (list Z) := cur_s (fun s =>
  let addr := addr .& 0xfffffff0 in
  let! tr := must_translate mmu_ttr_enabled (mmu_match_ttr addr s data) in
  let! a := if tr then translate addr 0 s data false size else mmret addr in
  or_cache_state CACHE_DISABLE_ALLOCATE ;;;
  get_longs a 4).
Definition mmu_put_move16 (addr : Z) (val : list Z) (data : bool) (size : Z) : MM M unit :=
  cur_s (fun s =>
  let addr := addr .& 0xfffffff0 in
  let v0 := val !!! 0%nat in
  let! tr := must_translate mmu_ttr_enabled (mmu_match_ttr_write p addr s data v0 size) in
  let! a := if tr then translate addr v0 s data true size else mmret addr in
  set_cache_state CACHE_DISABLE_MMU ;;;
  put_longs a (take 4 val)).

(** ** Locked read-modify-write cycles *)
Definition set_locked (b : bool) : MM M unit := set_flt (fun f => {| f with locked_rmw_cycle := b |}).

Definition uae_mmu_get_lrmw (addr size : Z) : MMZ := cur_s (fun s =>
  set_locked true ;;;
  let! v :=
    if size =? sz_byte then mmu_get_user_byte addr s true sz_byte true
    else if size =? sz_word then
      page_split addr 2
        (get_word_split (fun a => mmu_get_user_byte a s true sz_word true) addr)
        (mmu_get_user_word addr s true sz_word true)
    else
      page_split addr 4
        (get_long_split (fun a => mmu_get_user_word a s true sz_long true)
                        (fun a => mmu_get_user_byte a s true sz_long true) addr)
        (mmu_get_user_long addr s true sz_long true) in
  set_locked false ;;; mmret v).

Definition uae_mmu_put_lrmw (addr v size : Z) : MM M unit := cur_s (fun s =>
  set_locked true ;;;
  (if size =? sz_byte then mmu_put_user_byte addr v s sz_byte true
   else if size =? sz_word then
     page_split addr 2
       (put_guard addr (u16 v)
          (put_word_bytes (fun a v => mmu_put_user_byte a v s sz_word true) addr (u16 v)))
       (mmu_put_user_word addr v s sz_word true)
   else
     page_split addr 4
       (put_guard addr v
          (put_long_parts (fun a v => mmu_put_user_word a v s sz_long true)
                          (fun a v => mmu_put_user_byte a v s sz_long true) addr v))
       (mmu_put_user_long addr v s sz_long true)) ;;;
  set_locked false).

(** ** 68060 read-modify-write cycles and bit fields *)
Definition set_rmw (b : bool) : MM M unit := set_flt (fun f => {| f with rmw_cycle := b |}).
Definition in_rmw {A} (m : MM M A) : MM M A :=
  set_rmw true ;;; let! v := m in set_rmw false ;;; mmret v.

Definition get_rmw_byte_mmu060 (addr : Z) : MMZ := in_rmw (uae_mmu_get_byte addr).
Definition get_rmw_word_mmu060 (addr : Z) : MMZ := in_rmw (uae_mmu_get_word addr).
Definition get_rmw_long_mmu060 (addr : Z) : MMZ := in_rmw (uae_mmu_get_long addr).
Definition put_rmw_byte_mmu060 (addr v : Z) : MM M unit := in_rmw (uae_mmu_put_byte addr v).
Definition put_rmw_word_mmu060 (addr v : Z) : MM M unit := in_rmw (uae_mmu_put_word addr v).
Definition put_rmw_long_mmu060 (addr v : Z) : MM M unit := in_rmw (uae_mmu_put_long addr v).

(** The result is the field, left-aligned, and [bdata]. *)
Definition mmu060_get_rmw_bitfield (src offset width : Z) (bdata : Z * Z) : MM M (Z * (Z * Z)) :=
  let offset := offset .& 7 in
  let mask := u32 (0xffffffff << (32 - width)) in
  let keep t n := t .& u32 (Z.lnot (mask >> n)) in
  match (offset + width + 7) >> 3 with
  | 1 => let! t1 := get_rmw_byte_mmu060 src in
         mmret (u32 (t1 << (24 + offset)), (keep t1 (24 + offset), snd bdata))
  | 2 => let! t1 := get_rmw_word_mmu060 src in
         mmret (u32 (t1 << (16 + offset)), (keep t1 (16 + offset), snd bdata))
  | 3 => let! t1 := get_rmw_word_mmu060 src in
         let! t2 := get_rmw_byte_mmu060 (u32 (src + 2)) in
         mmret (u32 (t1 << (16 + offset)) .| u32 (t2 << (8 + offset)),
                (keep t1 (16 + offset), keep t2 (8 + offset)))
  | 4 => let! t1 := get_rmw_long_mmu060 src in
         mmret (u32 (t1 << offset), (keep t1 offset, snd bdata))
  | 5 => let! t1 := get_rmw_long_mmu060 src in
         let! t2 := get_rmw_byte_mmu060 (u32 (src + 4)) in
         mmret (u32 (t1 << offset) .| (t2 >> (8 - offset)),
                (keep t1 offset, t2 .& u32 (Z.lnot (mask << (8 - offset)))))
  | _ => mmret (0, bdata)
  end.

Definition mmu060_put_rmw_bitfield (dst : Z) (bdata : Z * Z) (val offset width : Z) : MM M unit :=
  let offset := (offset .& 7) + width in
  match (offset + 7) >> 3 with
  | 1 => put_rmw_byte_mmu060 dst (fst bdata .| u32 (val << (8 - offset)))
  | 2 => put_rmw_word_mmu060 dst (fst bdata .| u32 (val << (16 - offset)))
  | 3 => put_rmw_word_mmu060 dst (fst bdata .| (val >> (offset - 16))) ;;;
         put_rmw_byte_mmu060 (u32 (dst + 2)) (snd bdata .| u32 (val << (24 - offset)))
  | 4 => put_rmw_long_mmu060 dst (fst bdata .| u32 (val << (32 - offset)))
  | 5 => put_rmw_long_mmu060 dst (fst bdata .| (val >> (offset - 32))) ;;;
         put_rmw_byte_mmu060 (u32 (dst + 4)) (snd bdata .| u32 (val << (40 - offset)))
  | _ => mmret tt
  end.

(** ** Returns and calls: the value is the new program counter *)
Definition m68k_do_rts_mmu040 : MMZ :=
  let! st := getst in
  let stack := m68k_areg (core st) 7 in
  let! newpc := uae_mmu_get_long stack in
  set_core (fun c => set_areg 7 (m68k_areg c 7 + 4) c) ;;; mmret newpc.

Definition m68k_do_bsr_mmu040 (oldpc offset pc : Z) : MMZ :=
  let! st := getst in
  let newstack := u32 (m68k_areg (core st) 7 - 4) in
  uae_mmu_put_long newstack oldpc ;;;
  set_core (fun c => set_areg 7 (m68k_areg c 7 - 4) c) ;;; mmret (u32 (pc + offset)).

(** The 68040 access-error part of RTE at the frame above [a7]. *)
Definition m68k_do_rte_mmu040 (a7 : Z) : MM M unit :=
  let! ssr := uae_mmu_get_word (u32 (a7 + 8 + 4)) in
  whenm (truth (ssr .& MMU_SSW_CT))
    (let src_a7 := u32 (a7 + 8 - 8) in
     let dst_a7 := u32 (a7 + 8 + 52) in
     let! w := uae_mmu_get_word src_a7 in uae_mmu_put_word dst_a7 w ;;;
     let! l := uae_mmu_get_long (u32 (src_a7 + 2)) in uae_mmu_put_long (u32 (dst_a7 + 2)) l ;;;
     let! l := uae_mmu_get_long (u32 (src_a7 + 8)) in uae_mmu_put_long (u32 (dst_a7 + 8)) l) ;;;
  whenm (truth (ssr .& MMU_SSW_CM))
    (set_flt (fun f => {| f with mmu040_movem := true |}) ;;;
     let! ea := uae_mmu_get_long (u32 (a7 + 8)) in
     set_flt (fun f => {| f with mmu040_movem_ea := ea |})).
End MmuAccess.
