(* ===== verification/MmuWalk.v ===== *)
(** * MmuWalk: the table search as a specification

    A 68040 table search as a pure function of memory ([table_walk]), what
    the descriptor updates of [mmu_fill_atc] may change ([um_ext]: used and
    modified bits only), and that no such change alters a translation. *)

From S2P Require Import Prelude Flags Cpu Movec Mmu.
From Stdlib Require Import ZArith Lia Bool.
From stdpp Require Import base list gmap.
Open Scope Z_scope.
Open Scope cint_scope.
Open Scope mm_scope.

(** ** Memory that can hold translation tables

    Long words at aligned addresses: what can be read can be written, and
    reads give what was written last. *)
Definition cell (a : Z) : Prop := is_u32 a /\ a .& 3 = 0.

Class PhysLaws (M : Type) `{Phys M} := {
  phys_long_range : forall (m : M) a v, phys_get_long a m = Some v -> is_u32 v;
  phys_long_put : forall (m : M) a v w, cell a -> is_u32 w -> phys_get_long a m = Some v ->
    exists m', phys_put_long a w m = Some m' /\
      forall b, cell b -> phys_get_long b m' = if a =? b then Some w else phys_get_long b m }.

(** ** Bit lemmas *)
Lemma land_lor_low v b msk : b .& msk = 0 -> (v .| b) .& msk = v .& msk.
Proof. intros Hb. by rewrite Z.land_lor_distr_l, Hb, Z.lor_0_r. Qed.

Lemma is_u32_iff a : is_u32 a <-> a .& Z.ones 32 = a.
Proof. rewrite Z.land_ones by lia. change (2 ^ 32) with 4294967296. word. Qed.

Lemma is_u32_land_r a msk : is_u32 msk -> is_u32 (a .& msk).
Proof. rewrite !is_u32_iff. intros Hm. by rewrite <- Z.land_assoc, Hm. Qed.

Lemma is_u32_lor a b : is_u32 a -> is_u32 b -> is_u32 (a .| b).
Proof. rewrite !is_u32_iff. intros Ha Hb. by rewrite Z.land_lor_distr_l, Ha, Hb. Qed.

(** ** The cells a search reads are aligned *)
Lemma cell_lor a b : cell a -> cell b -> cell (a .| b).
Proof.
  intros [Ha Ha3] [Hb Hb3]. split; [by apply is_u32_lor|].
  by rewrite Z.land_lor_distr_l, Ha3, Hb3.
Qed.

Lemma cell_land a msk : cell msk -> cell (a .& msk).
Proof.
  intros [Hm Hm3]. split; [by apply is_u32_land_r|].
  by rewrite <- Z.land_assoc, Hm3, Z.land_0_r.
Qed.

Lemma cell_const z : bool_decide (is_u32 z) && (z .& 3 =? 0) = true -> cell z.
Proof. intros [H1 H2%Z.eqb_eq]%andb_prop. split; [by apply bool_decide_eq_true in H1|done]. Qed.

Lemma cell_mod a : cell a <-> is_u32 a /\ a mod 4 = 0.
Proof.
  unfold cell. change 3 with (Z.ones 2). rewrite Z.land_ones by lia. done.
Qed.

Lemma cell_add a b : cell a -> cell b -> cell (u32 (a + b)).
Proof. rewrite !cell_mod. intros [Ha Ha4] [Hb Hb4]. split; [apply u32_range|]. word. Qed.

Ltac const_cell := apply cell_const; reflexivity.

Lemma root_cell_cell root addr : cell (root_cell root addr).
Proof. apply cell_lor; apply cell_land; const_cell. Qed.
Lemma ptr_cell_cell d addr : cell (ptr_cell d addr).
Proof. apply cell_lor; apply cell_land; const_cell. Qed.
Lemma page_cell_cell k8 d addr : cell (page_cell k8 d addr).
Proof. destruct k8; apply cell_add; apply cell_land; const_cell. Qed.
Lemma indirect_cell d : cell (d .& MMU_PAGE_INDIRECT_MASK).
Proof. apply cell_land; const_cell. Qed.

Create HintDb mmu.
#[export] Hint Resolve root_cell_cell ptr_cell_cell page_cell_cell indirect_cell : mmu.

(** ** The search as a function of memory *)
Inductive wres :=
| WErr (code : Z)           (* invalid descriptor, with its 68060 status bit *)
| WBus                      (* bus error while reading a descriptor *)
| WPage (da desc wp : Z).   (* page descriptor, its address, OR of the path *)

Definition page_result (da d wp : Z) : wres :=
  if d .& 1 =? 1 then WPage da d (wp .| d)
  else WErr (if d .& 3 =? 2 then MMU_FSLW_IL else MMU_FSLW_PF).

Section Walk.
Context {M : Type} `{Phys M}.

Definition table_walk (m : M) (k8 : bool) (root addr : Z) : wres :=
  match phys_get_long (root_cell root addr) m with
  | None => WBus
  | Some d1 =>
    if d1 .& 2 =? 0 then WErr MMU_FSLW_PTA else
    match phys_get_long (ptr_cell d1 addr) m with
    | None => WBus
    | Some d2 =>
      if d2 .& 2 =? 0 then WErr MMU_FSLW_PTB else
      match phys_get_long (page_cell k8 d2 addr) m with
      | None => WBus
      | Some d3 =>
        if d3 .& 3 =? 2 then
          match phys_get_long (d3 .& MMU_PAGE_INDIRECT_MASK) m with
          | None => WBus
          | Some d4 => page_result (d3 .& MMU_PAGE_INDIRECT_MASK) d4 (d1 .| d2)
          end
        else page_result (page_cell k8 d2 addr) d3 (d1 .| d2)
      end
    end
  end.

(** ** Changes of used and modified bits *)
Definition um_bits (b : Z) : Prop := b = 0 \/ b = 8 \/ b = 16 \/ b = 24.

Lemma um0 : um_bits 0.
Proof. by left. Qed.
Lemma um8 : um_bits 8.
Proof. by right; left. Qed.
Lemma um24 : um_bits 24.
Proof. by right; right; right. Qed.

Lemma um_lor b c : um_bits b -> um_bits c -> um_bits (b .| c).
Proof. unfold um_bits. intros [-> | [-> | [-> | ->]]] [-> | [-> | [-> | ->]]]; cbn; auto. Qed.

Lemma um_land v b msk : um_bits b -> msk .& 24 = 0 -> (v .| b) .& msk = v .& msk.
Proof.
  intros Hb Hm. apply land_lor_low.
  assert (Hb24 : b = b .& 24) by (destruct Hb as [-> | [-> | [-> | ->]]]; reflexivity).
  rewrite Hb24, <- Z.land_assoc, (Z.land_comm 24), Hm. apply Z.land_0_r.
Qed.

Lemma um_u32 v b : is_u32 v -> um_bits b -> is_u32 (v .| b).
Proof. intros Hv Hb. apply is_u32_lor; [done|]. destruct Hb as [-> | [-> | [-> | ->]]]; done. Qed.

(** [U] marks the root and pointer tables; elsewhere an indirect descriptor
    (type 2) keeps all its bits. *)
Definition um_ext (U : Z -> bool) (m m' : M) : Prop := forall a, cell a ->
  match phys_get_long a m with
  | None => phys_get_long a m' = None
  | Some v => exists b, um_bits b /\ phys_get_long a m' = Some (v .| b) /\
                (U a = false -> v .& 3 = 2 -> b = 0)
  end.

Lemma um_ext_refl U m : um_ext U m m.
Proof.
  intros a _. destruct (phys_get_long a m); [|done]. exists 0.
  rewrite Z.lor_0_r. repeat split; auto. by left.
Qed.

Lemma um_ext_trans U m1 m2 m3 : um_ext U m1 m2 -> um_ext U m2 m3 -> um_ext U m1 m3.
Proof.
  intros H1 H2 a Ha. specialize (H1 a Ha). specialize (H2 a Ha).
  destruct (phys_get_long a m1) as [v|]; [|by rewrite H1 in H2].
  destruct H1 as (b & Hb & E & Hi). rewrite E in H2. destruct H2 as (c & Hc & E' & Hi').
  exists (b .| c). split; [by apply um_lor|]. split; [by rewrite Z.lor_assoc|].
  intros HU H3. rewrite (Hi HU H3). rewrite Hi'; [done|done|]. by rewrite um_land.
Qed.

Lemma um_ext_get U m m' a v : um_ext U m m' -> cell a -> phys_get_long a m = Some v ->
  exists b, um_bits b /\ phys_get_long a m' = Some (v .| b).
Proof. intros He Ha E. specialize (He a Ha). rewrite E in He. destruct He as (b & ? & ? & _). eauto. Qed.

Lemma um_ext_none U m m' a : um_ext U m m' -> cell a -> phys_get_long a m = None ->
  phys_get_long a m' = None.
Proof. intros He Ha E. specialize (He a Ha). by rewrite E in He. Qed.

Context `{!PhysLaws M}.

(** One store of used/modified bits. *)
Lemma um_ext_put U m a v b : cell a -> phys_get_long a m = Some v -> um_bits b ->
  (U a = false -> v .& 3 = 2 -> b = 0) ->
  exists m', phys_put_long a (v .| b) m = Some m' /\ um_ext U m m' /\
             phys_get_long a m' = Some (v .| b).
Proof.
  intros Ha E Hb Hi. pose proof (phys_long_range _ _ _ E) as Hv.
  destruct (phys_long_put m a v (v .| b) Ha) as (m' & Ep & Hg); [by apply um_u32|done|].
  exists m'. split; [done|]. split.
  - intros c Hc. rewrite (Hg _ Hc). destruct (Z.eqb_spec a c) as [<-|].
    + rewrite E. eauto.
    + destruct (phys_get_long c m); [|done]. exists 0. rewrite Z.lor_0_r.
      repeat split; auto. by left.
  - by rewrite (Hg _ Ha), Z.eqb_refl.
Qed.

(** ** Tables laid out sanely: page tables apart from root and pointer tables *)
Record tables_ok (U : Z -> bool) (m : M) (k8 : bool) (root : Z) : Prop := {
  root_in : forall addr, U (root_cell root addr) = true;
  ptr_in : forall addr d1, phys_get_long (root_cell root addr) m = Some d1 ->
    d1 .& 2 <> 0 -> U (ptr_cell d1 addr) = true;
  page_out : forall addr d1 d2, phys_get_long (root_cell root addr) m = Some d1 ->
    d1 .& 2 <> 0 -> phys_get_long (ptr_cell d1 addr) m = Some d2 -> d2 .& 2 <> 0 ->
    U (page_cell k8 d2 addr) = false }.

Lemma ptr_cell_um d b addr : um_bits b -> ptr_cell (d .| b) addr = ptr_cell d addr.
Proof. intros. unfold ptr_cell. by rewrite um_land. Qed.
Lemma page_cell_um k8 d b addr : um_bits b -> page_cell k8 (d .| b) addr = page_cell k8 d addr.
Proof. intros. unfold page_cell. by rewrite !um_land. Qed.

Lemma tables_ok_ext U m m' k8 root : tables_ok U m k8 root -> um_ext U m m' ->
  tables_ok U m' k8 root.
Proof.
  intros Ht He.
  assert (Hback : forall a v', cell a -> phys_get_long a m' = Some v' ->
            exists v b, um_bits b /\ phys_get_long a m = Some v /\ v' = v .| b).
  { intros a v' Ha E'. specialize (He a Ha). destruct (phys_get_long a m) as [v|]; [|congruence].
    destruct He as (b & Hb & E & _). exists v, b. split_and!; [done..|]. congruence. }
  split.
  - apply Ht.
  - intros addr d1 E1 V1. apply Hback in E1 as (v & b & Hb & E1 & ->); [|eauto with mmu].
    rewrite um_land in V1 by done. rewrite ptr_cell_um by done. by eapply Ht.
  - intros addr d1 d2 E1 V1 E2 V2.
    apply Hback in E1 as (v & b & Hb & E1 & ->); [|eauto with mmu].
    rewrite um_land in V1 by done. rewrite ptr_cell_um in E2 by done.
    apply Hback in E2 as (v2 & b2 & Hb2 & E2 & ->); [|eauto with mmu].
    rewrite um_land in V2 by done. rewrite page_cell_um by done. by eapply Ht.
Qed.

(** ** Searches agree up to those bits *)
Definition wres_le (r r' : wres) : Prop :=
  match r, r' with
  | WErr c, WErr c' => c = c'
  | WBus, WBus => True
  | WPage da d wp, WPage da' d' wp' =>
      da = da' /\ (exists b, um_bits b /\ d' = d .| b) /\ wp' .& MMU_DES_WP = wp .& MMU_DES_WP
  | _, _ => False
  end.

Lemma page_result_um da d b wp wp' : um_bits b -> wp' .& MMU_DES_WP = wp .& MMU_DES_WP ->
  wres_le (page_result da d wp) (page_result da (d .| b) wp').
Proof.
  intros Hb Hw. unfold page_result. rewrite !um_land by done.
  destruct (d .& 1 =? 1); [|done]. split; [done|]. split; [eauto|].
  by rewrite (Z.land_lor_distr_l wp'), (Z.land_lor_distr_l wp), um_land, Hw.
Qed.

Lemma walk_ext U m m' k8 root addr : tables_ok U m k8 root -> um_ext U m m' ->
  wres_le (table_walk m k8 root addr) (table_walk m' k8 root addr).
Proof.
  intros Ht He. unfold table_walk.
  destruct (phys_get_long (root_cell root addr) m) as [d1|] eqn:E1;
    [|by rewrite (um_ext_none _ _ _ _ He (root_cell_cell _ _) E1)].
  destruct (um_ext_get _ _ _ _ _ He (root_cell_cell _ _) E1) as (b1 & Hb1 & ->).
  rewrite um_land by done. destruct (Z.eqb_spec (d1 .& 2) 0) as [|V1]; [done|].
  rewrite ptr_cell_um by done.
  destruct (phys_get_long (ptr_cell d1 addr) m) as [d2|] eqn:E2;
    [|by rewrite (um_ext_none _ _ _ _ He (ptr_cell_cell _ _) E2)].
  destruct (um_ext_get _ _ _ _ _ He (ptr_cell_cell _ _) E2) as (b2 & Hb2 & ->).
  rewrite um_land by done. destruct (Z.eqb_spec (d2 .& 2) 0) as [|V2]; [done|].
  rewrite page_cell_um by done.
  assert (Hw : ((d1 .| b1) .| (d2 .| b2)) .& MMU_DES_WP = (d1 .| d2) .& MMU_DES_WP)
    by (by rewrite (Z.land_lor_distr_l (_ .| _)), (Z.land_lor_distr_l d1 d2), !um_land).
  pose proof (page_out _ _ _ _ Ht _ _ _ E1 V1 E2 V2) as HU.
  pose proof (He _ (page_cell_cell k8 d2 addr)) as H3.
  destruct (phys_get_long (page_cell k8 d2 addr) m) as [d3|] eqn:E3; [|by rewrite H3].
  destruct H3 as (b3 & Hb3 & -> & Hi). rewrite um_land by done.
  destruct (Z.eqb_spec (d3 .& 3) 2) as [I|]; [|by apply page_result_um].
  rewrite (Hi HU I), Z.lor_0_r.
  destruct (phys_get_long (d3 .& MMU_PAGE_INDIRECT_MASK) m) as [d4|] eqn:E4;
    [|by rewrite (um_ext_none _ _ _ _ He (indirect_cell _) E4)].
  destruct (um_ext_get _ _ _ _ _ He (indirect_cell _) E4) as (b4 & Hb4 & ->).
  by apply page_result_um.
Qed.
End Walk.
#[export] Hint Resolve um0 um8 um24 um_lor um_ext_refl : mmu.
