(* ===== verification/MmuFill.v ===== *)
(** * MmuFill: [mmu_fill_atc] implements the table search

    A small program logic for the effect monad ([wpm]) and the specification
    of the search: what it returns, what it stores, what it leaves alone. *)

From S2P Require Import Prelude Flags Cpu Movec Mmu MmuWalk.
From Stdlib Require Import ZArith Lia Bool.
From stdpp Require Import base list gmap.
Open Scope Z_scope.
Open Scope cint_scope.
Open Scope mm_scope.

(** ** Weakest preconditions *)
Definition wpm {M A} (m : MM M A) (st : mst M) (Q : outcome A -> mst M -> Prop) : Prop :=
  Q (fst (m st)) (snd (m st)).

Section Wp.
Context {M : Type}.
Implicit Types st : mst M.

Lemma wpm_ret {A} (a : A) st Q : Q (Ret a) st -> wpm (mmret a) st Q.
Proof. done. Qed.
Lemma wpm_throw {A} e st (Q : outcome A -> _ -> Prop) : Q (Throw e) st -> wpm (throw e) st Q.
Proof. done. Qed.
Lemma wpm_get st Q : Q (Ret st) st -> wpm getst st Q.
Proof. done. Qed.
Lemma wpm_mod f st Q : Q (Ret tt) (f st) -> wpm (modst f) st Q.
Proof. done. Qed.
Lemma wpm_bind {A B} (m : MM M A) (k : A -> MM M B) st Q :
  wpm m st (fun o st' => match o with Ret a => wpm (k a) st' Q | Throw e => Q (Throw e) st' end) ->
  wpm (mmbind m k) st Q.
Proof. unfold wpm, mmbind. by destruct (m st) as [[]]. Qed.
Lemma wpm_try {A} (m : MM M A) h st Q :
  wpm m st (fun o st' => match o with Ret a => Q (Ret a) st' | Throw e => wpm (h e) st' Q end) ->
  wpm (try_catch m h) st Q.
Proof. unfold wpm, try_catch. by destruct (m st) as [[]]. Qed.
Lemma wpm_conseq {A} (m : MM M A) st (P Q : outcome A -> mst M -> Prop) :
  wpm m st P -> (forall o st', P o st' -> Q o st') -> wpm m st Q.
Proof. unfold wpm. auto. Qed.
Lemma wpm_run {A} (m : MM M A) st Q : wpm m st Q <-> exists o st', m st = (o, st') /\ Q o st'.
Proof.
  unfold wpm. split.
  - intros HQ. exists (fst (m st)), (snd (m st)). by rewrite <- surjective_pairing.
  - by intros (o & st' & -> & HQ).
Qed.
End Wp.

(** Steps through reads of the state, updates and returns. *)
Ltac wstep := cbn beta iota;
  lazymatch goal with
  | |- wpm (mmbind _ _) _ _ => apply wpm_bind
  | |- wpm getst _ _ => apply wpm_get
  | |- wpm (mmret _) _ _ => apply wpm_ret
  | |- wpm (modst _) _ _ => apply wpm_mod
  | |- wpm (throw _) _ _ => apply wpm_throw
  | |- wpm (try_catch _ _) _ _ => apply wpm_try
  end; cbn beta iota.

(** ** What no operation of this file changes *)
Definition core_ext (c c' : cpu) : Prop := exists x,
  c' = {| c with rmmu := {| (rmmu c) with cache_default_data := x |} |}.

Lemma core_ext_refl c : core_ext c c.
Proof. exists (cache_default_data (rmmu c)). by destruct c as [?????? []]. Qed.
Lemma core_ext_trans c1 c2 c3 : core_ext c1 c2 -> core_ext c2 c3 -> core_ext c1 c3.
Proof. intros [x ->] [y ->]. by exists y. Qed.

Section Frame.
Context {M : Type}.

Record frame (st st' : mst M) : Prop := {
  fr_core : core_ext (core st) (core st');
  fr_tlb : tlb st' = tlb st;
  fr_dbg : mmu_debugger st' = mmu_debugger st }.

Lemma frame_refl st : frame st st.
Proof. split; auto using core_ext_refl. Qed.
Lemma frame_trans s1 s2 s3 : frame s1 s2 -> frame s2 s3 -> frame s1 s3.
Proof.
  intros [] []. split; [eauto using core_ext_trans|congruence..].
Qed.
Lemma frame_cs st v : frame st {| st with mmu_cache_state := v |}.
Proof. split; auto using core_ext_refl. Qed.
End Frame.
#[export] Hint Resolve frame_refl core_ext_refl frame_cs : mmu.

Section Fill.
Context {M : Type} `{Phys M} `{!PhysLaws M} (p : prefs) (ce : Z -> Z).
Implicit Types st : mst M.

Lemma bus_error_wp {A} addr val fc w size s060 nonmmu st (Q : outcome A -> _ -> Prop) :
  (forall st', frame st st' -> pm st' = pm st -> Q (Throw 2) st') ->
  wpm (mmu_bus_error p addr val fc w size s060 nonmmu) st Q.
Proof.
  intros HQ. unfold mmu_bus_error, set_flt, set_core. repeat wstep.
  destruct (if mmu_model p =? 68040 then _ else _) as [ad f]. repeat wstep.
  apply HQ; [|done]. split; cbn; try done. by eexists.
Qed.

Lemma hardware_error_wp {A} addr v rd ins size st (Q : outcome A -> _ -> Prop) :
  (forall st', frame st st' -> pm st' = pm st -> Q (Throw 2) st') ->
  wpm (mmu_hardware_bus_error p addr v rd ins size) st Q.
Proof. intros HQ. unfold mmu_hardware_bus_error. repeat wstep. by apply bus_error_wp. Qed.

Lemma desc_get_wp a st Q :
  (forall v st', phys_get_long a (pm st) = Some v -> frame st st' -> pm st' = pm st -> Q (Ret v) st') ->
  (forall st', phys_get_long a (pm st) = None -> frame st st' -> pm st' = pm st -> Q (Throw 2) st') ->
  wpm (desc_get_long p ce a) st Q.
Proof.
  intros HS HN. unfold desc_get_long, x_phys_get_long, set_cache_state, of_phys. repeat wstep.
  cbn [pm]. destruct (phys_get_long a (pm st)) as [v|] eqn:E.
  - apply wpm_ret. eauto with mmu.
  - apply hardware_error_wp. intros st' Hf Hp. apply HN; [done| |done].
    eapply frame_trans; [|done]. auto with mmu.
Qed.

(** A store of used/modified bits into a descriptor that was just read. *)
Lemma desc_put_wp U a v b st Q :
  cell a -> phys_get_long a (pm st) = Some v -> um_bits b ->
  (U a = false -> v .& 3 = 2 -> b = 0) ->
  (forall st', frame st st' -> um_ext U (pm st) (pm st') ->
     phys_get_long a (pm st') = Some (v .| b) -> Q (Ret tt) st') ->
  wpm (desc_put_long p a (v .| b)) st Q.
Proof.
  intros Ha E Hb Hi HQ. destruct (um_ext_put U _ _ _ _ Ha E Hb Hi) as (m' & Ep & He & Hg).
  unfold desc_put_long, x_phys_put_long, set_cache_state, of_phys, set_pm. repeat wstep.
  cbn [pm]. rewrite Ep. repeat wstep. apply HQ; [|done|done]. split; auto with mmu.
Qed.

Lemma mark_used_wp U a v (c : bool) st Q :
  cell a -> phys_get_long a (pm st) = Some v -> U a = true ->
  (forall st', frame st st' -> um_ext U (pm st) (pm st') -> Q (Ret tt) st') ->
  wpm (whenm c (desc_put_long p a (v .| MMU_DES_USED))) st Q.
Proof.
  intros Ha E HU HQ. destruct c; cbn [whenm].
  - eapply (desc_put_wp U); try done; [by right; left|congruence|auto].
  - apply wpm_ret. apply HQ; auto using um_ext_refl with mmu.
Qed.

(** Whether a write through this descriptor is allowed. *)
Definition write_ok (super : bool) (wp d : Z) : bool :=
  negb (truth (wp .& MMU_DES_WP)) && (negb (truth (d .& MMU_DES_SUPER)) || super).

Lemma used_bit d : (d .& MMU_DES_USED =? 0) = negb (Z.testbit d 3).
Proof. change MMU_DES_USED with (2 ^ 3). by apply land_pow2_eqb. Qed.

Lemma um24_bits d : (d .& (MMU_DES_USED .| MMU_DES_MODIFIED) = MMU_DES_USED .| MMU_DES_MODIFIED) ->
  Z.testbit d 3 = true /\ Z.testbit d 4 = true.
Proof.
  change (d .& 24 = 24 -> Z.testbit d 3 = true /\ Z.testbit d 4 = true). intros E.
  assert (Hb : forall i, Z.testbit 24 i = true -> Z.testbit d i = true).
  { intros i Hi. rewrite <- E, Z.land_spec in Hi. by apply andb_prop in Hi as [? _]. }
  split; by apply Hb.
Qed.

Lemma page_update_spec write super wp d :
  exists b, um_bits b /\ default d (page_update write super wp d) = d .| b /\
    (page_update write super wp d = None -> b = 0) /\
    Z.testbit (d .| b) 3 = true /\
    (write = true -> write_ok super wp d = true -> Z.testbit (d .| b) 4 = true).
Proof.
  assert (Hused : forall q : Prop, (q -> False) ->
    exists b, um_bits b /\
      default d (if d .& MMU_DES_USED =? 0 then Some (d .| MMU_DES_USED) else None) = d .| b /\
      ((if d .& MMU_DES_USED =? 0 then Some (d .| MMU_DES_USED) else None) = None -> b = 0) /\
      Z.testbit (d .| b) 3 = true /\ (q -> Z.testbit (d .| b) 4 = true)).
  { intros q Hq. rewrite used_bit. destruct (Z.testbit d 3) eqn:E; cbn [negb default].
    - exists 0. rewrite Z.lor_0_r. split_and!; auto with mmu; tauto.
    - exists 8. rewrite Z.lor_spec, E. split_and!; auto with mmu; first [discriminate|tauto]. }
  unfold page_update. destruct write.
  - destruct (truth (wp .& MMU_DES_WP) || truth (d .& MMU_DES_SUPER) && negb super) eqn:Eb.
    + destruct (Hused (write_ok super wp d = true)) as (b & ? & ? & ? & ? & ?).
      { unfold write_ok. destruct (truth (wp .& _)), (truth (d .& MMU_DES_SUPER)), super; done. }
      exists b. split_and!; auto.
    + destruct (Z.eqb_spec (d .& (MMU_DES_USED .| MMU_DES_MODIFIED)) (MMU_DES_USED .| MMU_DES_MODIFIED))
        as [E|]; cbn [negb default].
      * exists 0. rewrite Z.lor_0_r. destruct (um24_bits _ E). split_and!; auto with mmu.
      * exists 24. rewrite !Z.lor_spec. split_and!; auto with mmu; first [discriminate|intros; apply orb_true_r].
  - destruct (Hused False) as (b & ? & ? & ? & ? & ?); [done|].
    exists b. split_and!; auto. discriminate.
Qed.

(** ** The search *)
Definition root_of (c : cpu) (super : bool) : Z := if super then srp (rctl c) else urp (rctl c).

Lemma root_of_ext c c' super : core_ext c c' -> root_of c' super = root_of c super.
Proof. by intros [x ->]. Qed.

(** The outcome of [fill_search] for each result of the walk. *)
Definition search_post (super write live : bool) (s060 : Z) (w : wres) (o : outcome (Z * Z))
    (m' : M) : Prop :=
  match w with
  | WBus => o = Throw 2
  | WErr c => o = Ret (0, s060 .| c)
  | WPage da d wp => exists b, um_bits b /\ o = Ret ((d .| b) .| (wp .& MMU_DES_WP), s060) /\
      Z.testbit (d .| b) 3 = true /\
      (write = true -> write_ok super wp d = true -> Z.testbit (d .| b) 4 = true) /\
      (live = true -> phys_get_long da m' = Some (d .| b))
  end.

Lemma write_ok_um super wp wp' d b : um_bits b -> wp' .& MMU_DES_WP = wp .& MMU_DES_WP ->
  write_ok super wp' (d .| b) = write_ok super wp d.
Proof. intros Hb Hw. unfold write_ok. by rewrite Hw, um_land. Qed.

Lemma odd_not_indirect d : d .& 1 = 1 -> d .& 3 <> 2.
Proof.
  intros H1 H3. assert (H0 : d .& 3 .& 1 = 0) by (by rewrite H3).
  rewrite <- Z.land_assoc in H0. change (3 .& 1) with 1 in H0. lia.
Qed.

(** The last part of the search: the page descriptor [d .| c] (with bits [c]
    set earlier in this search) is examined and updated. *)
Lemma fill_page_wp U super write s060 da d c wp0 wp0' m0 st :
  cell da -> um_bits c -> phys_get_long da (pm st) = Some (d .| c) ->
  wp0' .& MMU_DES_WP = wp0 .& MMU_DES_WP -> um_ext U m0 (pm st) ->
  wpm (if (d .| c) .& 1 =? 1 then
         let wp := wp0' .| (d .| c) in
         let! desc :=
           match page_update write super wp (d .| c) with
           | Some d' => whenm (negb (mmu_debugger st)) (desc_put_long p da d') ;;; mmret d'
           | None => mmret (d .| c)
           end in
         mmret (desc .| (wp .& MMU_DES_WP), s060)
       else mmret (0, s060 .| (if (d .| c) .& 3 =? 2 then MMU_FSLW_IL else MMU_FSLW_PF))) st
    (fun o st' => frame st st' /\ um_ext U m0 (pm st') /\
       search_post super write (negb (mmu_debugger st)) s060 (page_result da d wp0) o (pm st')).
Proof.
  intros Ha Hc E Hw He. unfold page_result. rewrite !um_land by done.
  destruct (Z.eqb_spec (d .& 1) 1) as [Hr|];
    [|apply wpm_ret; rewrite um_land by done; cbn [search_post]; auto with mmu].
  set (wp := wp0' .| (d .| c)).
  assert (Hwp : wp .& MMU_DES_WP = (wp0 .| d) .& MMU_DES_WP).
  { unfold wp. by rewrite (Z.land_lor_distr_l wp0'), (Z.land_lor_distr_l wp0), um_land, Hw. }
  destruct (page_update_spec write super wp (d .| c)) as (b & Hb & Hd & Hn & H3 & H4).
  rewrite <- Z.lor_assoc in *. unfold search_post.
  assert (Hpost : (write = true -> write_ok super (wp0 .| d) d = true ->
                   Z.testbit (d .| (c .| b)) 4 = true)).
  { intros W Ok. apply H4; [done|]. by rewrite <- Ok; apply write_ok_um. }
  wstep. destruct (page_update write super wp (d .| c)) as [d'|] eqn:Eu; cbn [from_option id] in Hd.
  - subst d'. wstep. destruct (mmu_debugger st); cbn [negb whenm].
    + repeat wstep. split_and!; auto with mmu. exists (c .| b). rewrite Hwp.
      split_and!; auto using um_lor. discriminate.
    + rewrite Z.lor_assoc. eapply (desc_put_wp U); [done..| |].
      { intros _ Hi. apply odd_not_indirect in Hi as []. by rewrite um_land. }
      intros st' Hf He' Hg. repeat wstep. split_and!; [done|by eapply um_ext_trans|].
      exists (c .| b). rewrite Hwp, Hg, <- (Z.lor_assoc d c b). split_and!; auto using um_lor.
  - rewrite (Hn eq_refl), Z.lor_0_r in *. repeat wstep. split_and!; auto with mmu.
    exists c. rewrite Hwp. split_and!; auto.
Qed.

Ltac search_end := split_and!; [eauto using frame_trans|by eauto with mmu|cbn [search_post]; done].

Lemma frame_dbg_eq st st' : frame st st' -> negb (mmu_debugger st) = negb (mmu_debugger st').
Proof. intros []. congruence. Qed.

Lemma fill_search_wp U addr super write s060 st :
  tables_ok U (pm st) (mmu_pagesize_8k (rmmu (core st))) (root_of (core st) super) ->
  wpm (fill_search p ce addr super write s060) st (fun o st' =>
    frame st st' /\ um_ext U (pm st) (pm st') /\
    search_post super write (negb (mmu_debugger st)) s060
      (table_walk (pm st) (mmu_pagesize_8k (rmmu (core st))) (root_of (core st) super) addr)
      o (pm st')).
Proof.
  intros Ht. unfold fill_search. do 2 wstep. fold (root_of (core st) super).
  set (k8 := mmu_pagesize_8k _) in *. set (root := root_of _ _) in *.
  unfold table_walk. wstep. apply desc_get_wp.
  2: { intros st1 -> F1 P1. rewrite P1. search_end. }
  intros d1 st1 E1 F1 P1. rewrite E1. destruct (Z.eqb_spec (d1 .& 2) 0) as [|V1].
  { apply wpm_ret. rewrite P1. search_end. }
  wstep. apply (mark_used_wp U); [auto with mmu|by rewrite P1|apply Ht|].
  intros st2 F2 X2. rewrite P1 in X2. wstep. apply desc_get_wp.
  2: { intros st3 E2 F3 P3.
       destruct (phys_get_long (ptr_cell d1 addr) (pm st)) as [d2|] eqn:Ed2;
         [destruct (um_ext_get _ _ _ _ _ X2 (ptr_cell_cell _ _) Ed2) as (? & ? & ?); congruence|].
       rewrite P3. search_end. }
  intros d2' st3 E2' F3 P3. assert (F13 : frame st st3) by eauto using frame_trans.
  destruct (phys_get_long (ptr_cell d1 addr) (pm st)) as [d2|] eqn:E2;
    [|by rewrite (um_ext_none _ _ _ _ X2 (ptr_cell_cell _ _) E2) in E2'].
  destruct (um_ext_get _ _ _ _ _ X2 (ptr_cell_cell _ _) E2) as (b2 & Hb2 & Eb2).
  rewrite Eb2 in E2'. injection E2' as <-. rewrite um_land by done.
  destruct (Z.eqb_spec (d2 .& 2) 0) as [|V2].
  { apply wpm_ret. rewrite P3. search_end. }
  wstep. apply (mark_used_wp U); [auto with mmu|by rewrite P3|by eapply (ptr_in _ _ _ _ Ht)|].
  intros st4 F4 X4. rewrite P3 in X4. assert (X : um_ext U (pm st) (pm st4)) by (by eapply um_ext_trans).
  clear X2 X4 Eb2. rewrite page_cell_um by done. wstep. apply desc_get_wp.
  2: { intros st5 E3 F5 P5.
       destruct (phys_get_long (page_cell k8 d2 addr) (pm st)) as [d3|] eqn:Ed3;
         [destruct (um_ext_get _ _ _ _ _ X (page_cell_cell _ _ _) Ed3) as (? & ? & ?); congruence|].
       rewrite P5. search_end. }
  intros d3' st5 E3' F5 P5. assert (F15 : frame st st5) by eauto using frame_trans.
  pose proof (X _ (page_cell_cell k8 d2 addr)) as H3.
  destruct (phys_get_long (page_cell k8 d2 addr) (pm st)) as [d3|] eqn:E3; [|congruence].
  destruct H3 as (b3 & Hb3 & Eb3 & Hi). rewrite Eb3 in E3'. injection E3' as <-.
  rewrite (um_land d3) by done.
  assert (Hw : (d1 .| (d2 .| b2)) .& MMU_DES_WP = (d1 .| d2) .& MMU_DES_WP).
  { by rewrite (Z.land_lor_distr_l d1 (_ .| _)), (Z.land_lor_distr_l d1 d2), um_land. }
  destruct (Z.eqb_spec (d3 .& 3) 2) as [I|NI].
  - rewrite (Hi (page_out _ _ _ _ Ht _ _ _ E1 V1 E2 V2) I), Z.lor_0_r.
    do 2 wstep. apply desc_get_wp.
    2: { intros st6 E4 F6 P6.
         destruct (phys_get_long (d3 .& MMU_PAGE_INDIRECT_MASK) (pm st)) as [d4|] eqn:Ed4;
           [destruct (um_ext_get _ _ _ _ _ X (indirect_cell _) Ed4) as (? & ? & ?); congruence|].
         rewrite P6, P5. search_end. }
    intros d4' st6 E4' F6 P6. rewrite P5 in E4'.
    destruct (phys_get_long (d3 .& MMU_PAGE_INDIRECT_MASK) (pm st)) as [d4|] eqn:E4;
      [|by rewrite (um_ext_none _ _ _ _ X (indirect_cell _) E4) in E4'].
    destruct (um_ext_get _ _ _ _ _ X (indirect_cell _) E4) as (b4 & Hb4 & Eb4).
    rewrite Eb4 in E4'. injection E4' as <-.
    assert (F16 : frame st st6) by eauto using frame_trans. wstep.
    rewrite (frame_dbg_eq _ _ F16). eapply wpm_conseq.
    { eapply (fill_page_wp U); [auto with mmu|exact Hb4|by rewrite P6, P5|exact Hw|by rewrite P6, P5]. }
    intros o st' (F & He & Hp). eauto using frame_trans.
  - wstep. wstep. rewrite (frame_dbg_eq _ _ F15). eapply wpm_conseq.
    { eapply (fill_page_wp U); [auto with mmu|exact Hb3|by rewrite P5|exact Hw|by rewrite P5]. }
    intros o st' (F & He & Hp). eauto using frame_trans.
Qed.
End Fill.
