(* ===== verification/MmuInv.v ===== *)
(** * MmuInv: the invariant that ties the caches to the translation tables

    Tag and index determine the logical page; every valid ATC line and every
    page shortcut agrees with the table search for its page. *)

From S2P Require Import Prelude Flags Cpu Movec Mmu MmuWalk MmuFill.
From Stdlib Require Import ZArith Lia Bool.
From stdpp Require Import base list gmap.
Open Scope Z_scope.
Open Scope cint_scope.
Open Scope mm_scope.

(** ** Page geometry, as [mmu_set_tc] leaves it *)
Definition geo (mm : mmu) : Prop :=
  if mmu_pagesize_8k mm
  then mmu_tagmask mm = 0xFFFF0000 /\ mmu_pagemask mm = 0x1FFF /\ mmu_pagemaski mm = 0xFFFFE000
       /\ mmu_page_size mm = 8192 /\ mmu_pageshift1m mm = 12
  else mmu_tagmask mm = 0xFFFF8000 /\ mmu_pagemask mm = 0xFFF /\ mmu_pagemaski mm = 0xFFFFF000
       /\ mmu_page_size mm = 4096 /\ mmu_pageshift1m mm = 11.

#[export] Instance geo_dec mm : Decision (geo mm).
Proof. unfold geo. destruct (mmu_pagesize_8k mm); apply _. Defined.

Lemma mmu_set_tc_geo p tc c : geo (rmmu (snd (mmu_set_tc p tc c))).
Proof.
  unfold mmu_set_tc, geo. cbn -[Z.land Z.lnot u16].
  destruct (truth _); by vm_compute.
Qed.

Lemma geo_ext c c' : core_ext c c' -> geo (rmmu c) -> geo (rmmu c').
Proof. by intros [x ->]. Qed.

Definition page_no (mm : mmu) (a : Z) : Z := if mmu_pagesize_8k mm then a / 8192 else a / 4096.

Ltac geo_cases HG :=
  unfold geo in HG; destruct (mmu_pagesize_8k _) eqn:?;
  destruct HG as (? & ? & ? & ? & ?).

(** ** Masks as arithmetic *)
Lemma mask_high x k n : 0 <= k -> 0 <= n -> 0 <= x < 2 ^ (k + n) ->
  x .& (Z.ones n << k) = (x / 2 ^ k) * 2 ^ k.
Proof.
  intros Hk Hn Hx. rewrite land_shl_mask, field_mod, Z.shiftl_mul_pow2 by done.
  rewrite Z.mod_small; [done|]. rewrite Z.pow_add_r in Hx by done.
  split; [apply Z.div_pos; lia|]. apply Z.div_lt_upper_bound; lia.
Qed.

Lemma mask_u32 x k n : 0 <= k -> 0 <= n -> k + n = 32 -> is_u32 x ->
  x .& (Z.ones n << k) = (x / 2 ^ k) * 2 ^ k.
Proof. intros Hk Hn E Hx. apply mask_high; [done..|]. rewrite E. exact Hx. Qed.

Lemma mask_mid x k n : 0 <= k -> 0 <= n -> (x .& (Z.ones n << k)) >> k = (x / 2 ^ k) mod 2 ^ n.
Proof.
  intros Hk Hn. rewrite land_shl_mask, field_mod, Z.shiftr_shiftl_l, Z.sub_diag by lia.
  apply Z.shiftl_0_r.
Qed.

Lemma lor_b2z x k s : 0 < k -> (x * 2 ^ k) .| Z.b2z s = x * 2 ^ k + Z.b2z s.
Proof.
  intros Hk. rewrite Z.lor_comm, <- (Z.shiftl_mul_pow2 x) by lia. rewrite lor_shl_add; [|lia|].
  - by rewrite Z.shiftl_mul_pow2 by lia.
  - pose proof (Z.pow_gt_1 2 k). destruct s; cbn; lia.
Qed.

Lemma tag_sum (super : bool) a : is_u32 a ->
  (if super then 0x80000000 else 0) .| (a >> 1) = Z.b2z super * 2147483648 + a / 2.
Proof.
  intros Ha. rewrite Z.lor_comm, Z.shiftr_div_pow2 by lia. change (2 ^ 1) with 2.
  replace (if super then 0x80000000 else 0) with (Z.b2z super << 31) by (by destruct super).
  rewrite lor_shl_add by word. done.
Qed.

Lemma page_no_range mm a : is_u32 a ->
  0 <= page_no mm a < if mmu_pagesize_8k mm then 524288 else 1048576.
Proof. intros. unfold page_no. destruct (mmu_pagesize_8k mm); word. Qed.

Lemma atc_tag_eq mm a super : geo mm -> is_u32 a ->
  atc_tag mm a super = if mmu_pagesize_8k mm then (Z.b2z super * 32768 + page_no mm a / 16) * 65536
                       else (Z.b2z super * 65536 + page_no mm a / 16) * 32768.
Proof.
  intros HG Ha. unfold atc_tag, page_no. rewrite tag_sum by done. geo_cases HG; rewrite H.
  - change 0xFFFF0000 with (Z.ones 16 << 16). rewrite Z.div_div by lia.
    rewrite mask_high; destruct super; cbn -[Z.mul]; word.
  - change 0xFFFF8000 with (Z.ones 17 << 15). rewrite Z.div_div by lia.
    rewrite mask_high; destruct super; cbn -[Z.mul]; word.
Qed.

Lemma atc_index_eq mm a : atc_index mm a = page_no mm a mod 16.
Proof.
  unfold atc_index, page_no. destruct (mmu_pagesize_8k mm).
  - change 0x1E000 with (Z.ones 4 << 13). by rewrite mask_mid.
  - change 0xF000 with (Z.ones 4 << 12). by rewrite mask_mid.
Qed.

Lemma atc_index_range mm a : 0 <= atc_index mm a < 16.
Proof. rewrite atc_index_eq. apply Z.mod_pos_bound. lia. Qed.

(** Tag and index determine the logical page and the privilege level. *)
Lemma tag_index_page mm a a' s s' : geo mm -> is_u32 a -> is_u32 a' ->
  atc_index mm a = atc_index mm a' -> atc_tag mm a s = atc_tag mm a' s' ->
  page_no mm a = page_no mm a' /\ s = s'.
Proof.
  intros HG Ha Ha'. rewrite !atc_index_eq, !atc_tag_eq by done.
  pose proof (page_no_range mm a Ha) as Hq. pose proof (page_no_range mm a' Ha') as Hq'.
  revert Hq Hq'. generalize (page_no mm a), (page_no mm a'). intros q q' Hq Hq'.
  destruct (mmu_pagesize_8k mm), s, s'; cbn -[Z.mul Z.div Z.modulo]; intros;
    first [split; [word|done] | exfalso; word].
Qed.

Lemma fast_idx1_eq mm a s : geo mm -> is_u32 a ->
  fast_idx1 mm a s = page_no mm a * 2 + Z.b2z s.
Proof.
  intros HG Ha. unfold fast_idx1, page_no. geo_cases HG; rewrite H1, H3.
  - change 0xFFFFE000 with (Z.ones 19 << 13). rewrite mask_u32 by done.
    rewrite Z.shiftr_div_pow2 by lia. change (2 ^ 13) with (2 * 2 ^ 12).
    rewrite Z.mul_assoc, Z.div_mul by done. change (2 * 2 ^ 12) with 8192.
    by apply (lor_b2z _ 1).
  - change 0xFFFFF000 with (Z.ones 20 << 12). rewrite mask_u32 by done.
    rewrite Z.shiftr_div_pow2 by lia. change (2 ^ 12) with (2 * 2 ^ 11).
    rewrite Z.mul_assoc, Z.div_mul by done. change (2 * 2 ^ 11) with 4096.
    by apply (lor_b2z _ 1).
Qed.

Lemma fast_idx1_page mm a a' s s' : geo mm -> is_u32 a -> is_u32 a' ->
  fast_idx1 mm a s = fast_idx1 mm a' s' -> page_no mm a = page_no mm a' /\ s = s'.
Proof.
  intros HG Ha Ha'. rewrite !fast_idx1_eq by done. destruct s, s'; cbn -[Z.mul]; intros;
    first [split; [lia|done] | exfalso; lia].
Qed.

(** The key of the instruction shortcut. *)
Definition ins_key (mm : mmu) (a : Z) (s : bool) : Z := (a .& mmu_pagemaski mm) .| Z.b2z s.

Lemma ins_key_eq mm a s : geo mm -> is_u32 a ->
  ins_key mm a s = page_no mm a * mmu_page_size mm + Z.b2z s.
Proof.
  intros HG Ha. unfold ins_key, page_no. geo_cases HG; rewrite H1, H2.
  - change 0xFFFFE000 with (Z.ones 19 << 13). rewrite mask_u32 by done.
    by apply lor_b2z.
  - change 0xFFFFF000 with (Z.ones 20 << 12). rewrite mask_u32 by done.
    by apply lor_b2z.
Qed.

Lemma ins_key_page mm a a' s s' : geo mm -> is_u32 a -> is_u32 a' ->
  ins_key mm a s = ins_key mm a' s' -> page_no mm a = page_no mm a' /\ s = s'.
Proof.
  intros HG Ha Ha'. rewrite !ins_key_eq by done. geo_cases HG; rewrite H2;
    destruct s, s'; cbn -[Z.mul]; intros;
    first [split; [lia|done] | exfalso; lia].
Qed.

(** The value that marks the instruction shortcut empty is no key. *)
Lemma ins_key_empty mm a s : geo mm -> is_u32 a -> ins_key mm a s <> mmu_pagemask mm.
Proof.
  intros HG Ha. rewrite ins_key_eq by done. geo_cases HG; rewrite H2, H0;
    destruct s; cbn -[Z.mul]; lia.
Qed.

(** ** A search depends on the page only *)
Lemma shr_mul a n k : 0 <= n -> 0 <= k -> a >> (n + k) = (a >> n) >> k.
Proof. intros. by rewrite Z.shiftr_shiftr. Qed.

Section PageWalk.
Context {M : Type} `{Phys M}.

Lemma walk_page (m : M) mm root a a' : page_no mm a = page_no mm a' ->
  table_walk m (mmu_pagesize_8k mm) root a = table_walk m (mmu_pagesize_8k mm) root a'.
Proof.
  intros E.
  assert (Hs : forall n, 0 <= n -> a >> ((if mmu_pagesize_8k mm then 13 else 12) + n)
                                   = a' >> ((if mmu_pagesize_8k mm then 13 else 12) + n)).
  { intros n Hn. rewrite !shr_mul by (destruct (mmu_pagesize_8k mm); lia). f_equal.
    unfold page_no in E. by destruct (mmu_pagesize_8k mm); rewrite !Z.shiftr_div_pow2 by lia. }
  assert (E1 : forall r, root_cell r a = root_cell r a').
  { intros r. unfold root_cell. f_equal. f_equal.
    destruct (mmu_pagesize_8k mm); [apply (Hs 10)|apply (Hs 11)]; lia. }
  assert (E2 : forall r, ptr_cell r a = ptr_cell r a').
  { intros r. unfold ptr_cell. f_equal. f_equal.
    destruct (mmu_pagesize_8k mm); [apply (Hs 3)|apply (Hs 4)]; lia. }
  assert (E3 : forall r, page_cell (mmu_pagesize_8k mm) r a = page_cell (mmu_pagesize_8k mm) r a').
  { intros r. unfold page_cell. destruct (mmu_pagesize_8k mm).
    - do 2 f_equal. change 0x7c with (Z.ones 5 << 2). rewrite !land_shl_mask, !Z.shiftr_shiftr by lia.
      do 2 f_equal. apply (Hs 0). lia.
    - do 2 f_equal. change 0xfc with (Z.ones 6 << 2). rewrite !land_shl_mask, !Z.shiftr_shiftr by lia.
      do 2 f_equal. apply (Hs 0). lia. }
  unfold table_walk. rewrite E1. destruct (phys_get_long _ m) as [d1|]; [|done].
  rewrite E2. destruct (d1 .& 2 =? 0); [done|]. destruct (phys_get_long _ m) as [d2|]; [|done].
  by rewrite E3.
Qed.

Lemma walk_err_code (m : M) k8 root a c : table_walk m k8 root a = WErr c -> truth c = true.
Proof.
  unfold table_walk, page_result. repeat case_match; intros [= <-]; done.
Qed.

Lemma page_result_inv da d wp0 da' d' wp : page_result da d wp0 = WPage da' d' wp ->
  da' = da /\ d' = d /\ d .& 1 = 1 /\ (d .& MMU_DES_WP) .| (wp .& MMU_DES_WP) = wp .& MMU_DES_WP.
Proof.
  unfold page_result. destruct (Z.eqb_spec (d .& 1) 1); [|done]. intros [= <- <- <-].
  split_and!; [done..|]. rewrite Z.land_lor_distr_l, Z.lor_assoc, (Z.lor_comm (d .& _)).
  by rewrite <- Z.lor_assoc, Z.lor_diag.
Qed.

(** What a successful search says of the descriptor it found. *)
Lemma walk_page_facts (m : M) k8 root a da d wp : table_walk m k8 root a = WPage da d wp ->
  cell da /\ phys_get_long da m = Some d /\ d .& 1 = 1 /\
  (d .& MMU_DES_WP) .| (wp .& MMU_DES_WP) = wp .& MMU_DES_WP.
Proof.
  unfold table_walk.
  destruct (phys_get_long (root_cell root a) m) as [d1|]; [|done].
  destruct (d1 .& 2 =? 0); [done|].
  destruct (phys_get_long (ptr_cell d1 a) m) as [d2|]; [|done].
  destruct (d2 .& 2 =? 0); [done|].
  destruct (phys_get_long (page_cell k8 d2 a) m) as [d3|] eqn:E3; [|done].
  destruct (d3 .& 3 =? 2).
  - destruct (phys_get_long (d3 .& MMU_PAGE_INDIRECT_MASK) m) as [d4|] eqn:E4; [|done].
    intros (-> & -> & H1 & Hw)%page_result_inv. auto with mmu.
  - intros (-> & -> & H1 & Hw)%page_result_inv. auto with mmu.
Qed.
End PageWalk.

(** ** What a search means for an access *)
Definition access_ok (super write : bool) (w : wres) : bool :=
  match w with
  | WPage _ d wp => (super || negb (truth (d .& MMU_DES_SUPER)))
                    && negb (write && truth (wp .& MMU_DES_WP))
  | _ => false
  end.

(** The translation the tables prescribe; [None] is an access error. *)
Definition walk_addr (mm : mmu) (addr : Z) (super write : bool) (w : wres) : option Z :=
  match w with
  | WPage _ d _ => if access_ok super write w
                   then Some ((d .& mmu_pagemaski mm) .| (addr .& mmu_pagemask mm)) else None
  | _ => None
  end.

(** An ATC line agrees with the search for its page, but for a modified bit
    the line may not have seen. *)
Definition line_ok (mm : mmu) (w : wres) (l : mmu_atc_line) : Prop :=
  match w with
  | WPage _ d wp => l_status l .& 0x7E5 = (d .| (wp .& MMU_DES_WP)) .& 0x7E5
                    /\ l_phys l = d .& mmu_pagemaski mm
                    /\ (Z.testbit (l_status l) 4 = true -> Z.testbit d 4 = true)
  | _ => l_status l = 0
  end.

Lemma geo_pagemaski mm : geo mm -> mmu_pagemaski mm .& 24 = 0 /\ mmu_pagemaski mm .& 4 = 0.
Proof. intros HG. geo_cases HG; by rewrite H1. Qed.

Lemma access_ok_le super write w w' : wres_le w w' ->
  access_ok super write w' = access_ok super write w.
Proof.
  destruct w, w'; try done. intros (_ & (b & Hb & ->) & Hw). cbn.
  by rewrite Hw, um_land.
Qed.

Lemma walk_addr_le mm addr super write w w' : geo mm -> wres_le w w' ->
  walk_addr mm addr super write w' = walk_addr mm addr super write w.
Proof.
  intros HG Hle. unfold walk_addr. rewrite (access_ok_le _ _ _ _ Hle).
  destruct w, w'; try done. destruct Hle as (_ & (b & Hb & ->) & _).
  by rewrite um_land by (done || by apply geo_pagemaski).
Qed.

Lemma line_ok_le mm w w' l : geo mm -> wres_le w w' -> line_ok mm w l -> line_ok mm w' l.
Proof.
  intros HG. destruct w, w'; try done. intros (_ & (b & Hb & ->) & Hw) (Hs & Hp & Hm). cbn [line_ok].
  rewrite Hw. split_and!.
  - rewrite Hs, (Z.land_lor_distr_l desc), (Z.land_lor_distr_l (desc .| b)). by rewrite (um_land desc).
  - rewrite um_land; [done..|]. by apply geo_pagemaski.
  - intros H4. rewrite Z.lor_spec, Hm by done. done.
Qed.

(** ** [mmu_fill_atc] *)
Section FillAtc.
Context {M : Type} `{Phys M} `{!PhysLaws M} (p : prefs) (ce : Z -> Z) (U : Z -> bool).
Context (Hmodel : mmu_model p = 68040 \/ mmu_model p = 68060).
Implicit Types st : mst M.

Definition walk_of st (super : bool) (addr : Z) : wres :=
  table_walk (pm st) (mmu_pagesize_8k (rmmu (core st))) (root_of (core st) super) addr.

(** What a fill leaves: the state it may change, and the line it wrote, or
    (68060 only) no line and a status that reports the error. *)
Record filled (g : atcst -> atcst) (addr : Z) (super write : bool) (tag : Z) (pos : nat) (s060 : Z) st st' : Prop := {
  fi_core : core_ext (core st) (core st');
  fi_dbg : mmu_debugger st' = mmu_debugger st;
  fi_mem : um_ext U (pm st) (pm st');
  fi_err : truth s060 = true -> access_ok super write (walk_of st' super addr) = false;
  fi_line :
    (exists l, l_tag l = tag /\ l_valid l = true /\ line_ok (rmmu (core st)) (walk_of st' super addr) l /\
       (write = true -> access_ok super write (walk_of st' super addr) = true ->
          Z.testbit (l_status l) 4 = true) /\
       tlb st' = g {| (tlb st) with lines := <[pos := l]> (lines (tlb st)) |})
    \/ (mmu_model p = 68060 /\ truth s060 = true /\
        tlb st' = g (tlb st)) }.

Lemma flush_fast_ext c c' addr super t : core_ext c c' ->
  flush_fast (rmmu c') addr super t = flush_fast (rmmu c) addr super t.
Proof. by intros [x ->]. Qed.

Lemma access_write_ok super da d wp :
  access_ok super true (WPage da d wp) = true -> write_ok super wp d = true.
Proof.
  cbn. unfold write_ok. destruct super, (truth (d .& MMU_DES_SUPER)), (truth (wp .& MMU_DES_WP)); done.
Qed.

(** The descriptor the search ends with gives a line that agrees with the
    tables as they are after the search. *)
Lemma new_line_ok mm tag w w' da d wp b dd :
  geo mm -> w = WPage da d wp -> um_bits b ->
  (d .& MMU_DES_WP) .| (wp .& MMU_DES_WP) = wp .& MMU_DES_WP ->
  w' = WPage da (d .| b) dd -> dd .& MMU_DES_WP = wp .& MMU_DES_WP ->
  line_ok mm w' (mk_line tag true (((d .| b) .| (wp .& MMU_DES_WP)) .& status_mask)
                   (((d .| b) .| (wp .& MMU_DES_WP)) .& mmu_pagemaski mm)).
Proof.
  intros HG -> Hb Hwd -> Hdd. cbn [line_ok l_status l_phys]. rewrite Hdd. split_and!.
  - by rewrite <- Z.land_assoc.
  - apply land_lor_low. unfold MMU_DES_WP. rewrite <- Z.land_assoc, (Z.land_comm 4).
    rewrite (proj2 (geo_pagemaski mm HG)). apply Z.land_0_r.
  - rewrite Z.land_spec, Z.lor_spec, Z.land_spec.
    change (Z.testbit MMU_DES_WP 4) with false. change (Z.testbit status_mask 4) with true. by rewrite andb_false_r, orb_false_r, andb_true_r.
Qed.

(** A failed search: a faulting line on the 68040, none on the 68060. *)
Definition error_tlb (tag : Z) (pos : nat) (t : atcst) : atcst :=
  if mmu_model p =? 68040 then {| t with lines := <[pos := mk_line tag true 0 0]> (lines t) |} else t.

Lemma filled_error addr super write tag pos s060 st st2 :
  frame st st2 -> um_ext U (pm st) (pm st2) -> truth s060 = true ->
  (forall da d wp, walk_of st2 super addr <> WPage da d wp) ->
  filled id addr super write tag pos s060 st {| st2 with tlb := error_tlb tag pos (tlb st2) |}.
Proof.
  intros [Fc Ft Fd] He Hs Hw. assert (Hok : access_ok super write (walk_of st2 super addr) = false).
  { by destruct (walk_of st2 super addr) as [| |da d wp]; [..|destruct (Hw da d wp)]. }
  split; cbn; auto. unfold error_tlb. rewrite Ft.
  destruct (Z.eqb_spec (mmu_model p) 68040).
  - left. eexists (mk_line tag true 0 0). split_and!; try done.
    + unfold line_ok. change (walk_of _ super addr) with (walk_of st2 super addr).
      by destruct (walk_of st2 super addr) as [| |da d wp]; [..|destruct (Hw da d wp)].
    + change (walk_of _ super addr) with (walk_of st2 super addr). congruence.
  - right. by destruct Hmodel.
Qed.

Lemma fill_try_wp addr super write tag pos st :
  geo (rmmu (core st)) -> mmu_debugger st = false ->
  tables_ok U (pm st) (mmu_pagesize_8k (rmmu (core st))) (root_of (core st) super) ->
  wpm (try_catch
        (let! (desc, st060) := fill_search p ce addr super write 0 in
         fill_finish p super write tag pos desc st060)
        (fun _ => whenm (mmu_model p =? 68040) (set_line pos (mk_line tag true 0 0)) ;;;
                  mmret (MMU_MMUSR_B, 0 .| (MMU_FSLW_LK .| MMU_FSLW_TWE)))) st
    (fun o st' => exists status s060, o = Ret (status, s060) /\
       filled id addr super write tag pos s060 st st').
Proof.
  intros HG Hdbg Ht. wstep. wstep. eapply wpm_conseq; [by apply (fill_search_wp p ce U)|].
  intros o st2 (F & He & Hp). fold (walk_of st super addr) in Hp. rewrite Hdbg in Hp.
  pose proof (walk_ext _ _ _ _ _ addr Ht He) as Hle.
  fold (walk_of st super addr) in Hle.
  assert (Ew : forall st', core st' = core st2 -> pm st' = pm st2 ->
    table_walk (pm st2) (mmu_pagesize_8k (rmmu (core st))) (root_of (core st) super) addr
    = walk_of st' super addr).
  { intros st' Ec Ep. unfold walk_of. rewrite Ec, Ep. by destruct (fr_core _ _ F) as [x ->]. }
  destruct (walk_of st super addr) as [c| |da d wp] eqn:Ewalk; cbn [search_post] in Hp.
  - (* invalid descriptor *)
    subst o. unfold fill_finish, set_line, set_tlb. repeat wstep.
    rewrite !Z.land_0_l. change (truth 0) with false. rewrite !andb_false_r, orb_false_r.
    assert (Hc : truth (0 .| c) = true).
    { rewrite Z.lor_0_l. apply (walk_err_code (pm st) _ _ _ _ Ewalk). }
    pose proof (filled_error addr super write tag pos _ st st2 F He Hc) as HF.
    unfold error_tlb in HF. destruct (mmu_model p =? 68040); repeat wstep; eexists _, _;
      (split; [done|]); [|destruct st2]; apply HF; rewrite <- Ew by done; intros ??? E; by rewrite E in Hle.
  - (* bus error *)
    subst o. unfold set_line, set_tlb.
    pose proof (filled_error addr super write tag pos (0 .| (MMU_FSLW_LK .| MMU_FSLW_TWE)) st st2 F He eq_refl) as HF.
    unfold error_tlb in HF. destruct (mmu_model p =? 68040); cbn [whenm]; repeat wstep; eexists _, _;
      (split; [done|]); [|destruct st2]; apply HF; rewrite <- Ew by done; intros ??? E; by rewrite E in Hle.
  - (* page *)
    destruct F as [Fc Ft Fd].
    destruct Hp as (b & Hb & -> & H3 & H4 & Hg). specialize (Hg eq_refl).
    destruct (walk_page_facts _ _ _ _ _ _ _ Ewalk) as (_ & _ & Hr & Hwd).
    destruct (table_walk (pm st2) _ _ addr) as [| |da' d' wp'] eqn:Ew2; try done.
    destruct Hle as (<- & _ & Hw').
    destruct (walk_page_facts _ _ _ _ _ _ _ Ew2) as (_ & Hd' & _ & _).
    rewrite Hg in Hd'. injection Hd' as <-.
    unfold fill_finish, set_line, set_tlb. repeat wstep.
    set (D := (d .| b) .| (wp .& MMU_DES_WP)).
    assert (HR : truth (D .& MMU_MMUSR_R) = true).
    { unfold D, MMU_MMUSR_R. rewrite land_lor_low.
      - by rewrite um_land, Hr.
      - rewrite <- Z.land_assoc. apply Z.land_0_r. }
    assert (HS : D .& MMU_DES_SUPER = d .& MMU_DES_SUPER).
    { unfold D. rewrite land_lor_low; [by rewrite um_land|]. rewrite <- Z.land_assoc. apply Z.land_0_r. }
    assert (HW : D .& MMU_DES_WP = wp .& MMU_DES_WP).
    { unfold D. rewrite Z.land_lor_distr_l, um_land, <- Z.land_assoc, Z.land_diag by done. done. }
    rewrite HR, orb_true_r, HS, HW. repeat wstep. eexists _, _. split; [done|]. split; cbn [core mmu_debugger pm]; auto.
    + rewrite <- Ew by done. rewrite Z.lor_0_l. cbn [access_ok]. rewrite Hw', um_land by done.
      destruct super, (truth (d .& MMU_DES_SUPER)), write, (truth (wp .& MMU_DES_WP)); done.
    + left. exists (mk_line tag true (D .& status_mask) (D .& mmu_pagemaski (rmmu (core st)))).
      rewrite <- Ew by done. cbn [tlb]. rewrite Ft.
      assert (HM : mmu_pagemaski (rmmu (core st2)) = mmu_pagemaski (rmmu (core st)))
        by (by destruct Fc as [x ->]). rewrite HM.
      split; [done|]. split; [done|]. split; [|split; [|done]].
      * by eapply (new_line_ok _ tag _ _ da d wp b wp').
      * intros -> Hok. cbn [l_status]. unfold D. rewrite Z.land_spec, Z.lor_spec, H4; [done..|].
        apply access_write_ok with da. cbn [access_ok] in *. by rewrite Hw', um_land in Hok.
Qed.

Lemma core_ext_s c c' : core_ext {| c with reg_s := true |} c' ->
  core_ext c {| c' with reg_s := reg_s c |}.
Proof. intros [x ->]. by exists x. Qed.

Lemma mmu_fill_atc_wp addr super write tag pos st :
  geo (rmmu (core st)) -> mmu_debugger st = false ->
  tables_ok U (pm st) (mmu_pagesize_8k (rmmu (core st))) (root_of (core st) super) ->
  wpm (mmu_fill_atc p ce addr super tag write pos 0) st
    (fun o st' => exists status s060, o = Ret (status, s060) /\
       filled (flush_fast (rmmu (core st)) addr super) addr super write tag pos s060 st st').
Proof.
  intros HG Hdbg Ht. unfold mmu_fill_atc, set_reg_s, set_core, flush_shortcut_cache, set_tlb.
  do 5 wstep. eapply wpm_conseq; [by apply fill_try_wp|].
  intros o st3 (status & s060 & -> & [Fc Fd Fm Fe Fl]). repeat wstep. cbn in Fc, Fd, Fm, Fl.
  apply core_ext_s in Fc as Fc'.
  assert (Ew : forall st', core st' = {| (core st3) with reg_s := reg_s (core st) |} ->
     pm st' = pm st3 -> walk_of st' super addr = walk_of st3 super addr).
  { intros st' Ec Ep. unfold walk_of. by rewrite Ec, Ep. }
  eexists _, _. split; [done|]. split; cbn [core mmu_debugger pm tlb]; try done.
  match goal with |- context [walk_of ?s super addr] => rewrite (Ew s eq_refl eq_refl) end.
  destruct Fl as [(l & Ht' & Hv & Hl & Hm & El)|(Hp & Hs & El)]; [left; exists l|right];
    rewrite (flush_fast_ext _ _ addr super _ Fc'), El; done.
Qed.
End FillAtc.
