(* ===== verification/MmuCoh.v ===== *)
(** * MmuCoh: coherence of the ATC and the page shortcuts with the tables

    [caches_ok] relates every cached translation to the search for its page.
    Each update the MMU makes to its caches keeps it: filling a line,
    flushing, and remembering a hit in a shortcut. *)

From S2P Require Import Prelude Flags Cpu Movec Mmu MmuWalk MmuFill MmuInv.
From Stdlib Require Import ZArith Lia Bool.
From stdpp Require Import base list gmap.
Open Scope Z_scope.
Open Scope cint_scope.

(** ** Positions in the ATC *)
Definition slot_ok (index way : Z) : Prop := 0 <= index < 16 /\ 0 <= way < 4.

Lemma atc_pos_lt data index way : slot_ok index way -> (atc_pos data index way < 128)%nat.
Proof. intros [? ?]. unfold atc_pos, ATC_SLOTS, ATC_WAYS. destruct data; cbn -[Z.mul]; lia. Qed.

Lemma atc_pos_inj data data' index index' way way' : slot_ok index way -> slot_ok index' way' ->
  atc_pos data index way = atc_pos data' index' way' -> data = data' /\ index = index' /\ way = way'.
Proof.
  intros [] []. unfold atc_pos, ATC_SLOTS, ATC_WAYS. destruct data, data'; cbn -[Z.mul]; intros;
    first [split; [done|lia] | exfalso; lia].
Qed.

Definition page_dirty (w : wres) : bool :=
  match w with WPage _ d _ => Z.testbit d 4 | _ => false end.

Lemma page_dirty_le w w' : wres_le w w' -> page_dirty w = true -> page_dirty w' = true.
Proof.
  destruct w, w'; try done. intros (_ & (b & _ & ->) & _) Hd. cbn [page_dirty] in *.
  by rewrite Z.lor_spec, Hd.
Qed.

Lemma fast_idx2_range i : 0 <= i -> 0 <= fast_idx2 i < 256.
Proof.
  intros. unfold fast_idx2, MMUFASTCACHE_ENTRIES. change (256 - 1) with (Z.ones 8).
  rewrite Z.land_ones by lia. apply Z.mod_pos_bound. lia.
Qed.

Definition fast_at (l : list mmufastcache) (idx1 : Z) : mmufastcache := l !!! Z.to_nat (fast_idx2 idx1).

Section Coh.
Context (mm : mmu) (HG : geo mm).

(** The entry a shortcut holds for a page gives the translation of the tables. *)
Definition fast_ok (W : bool -> Z -> wres) (write : bool) (l : list mmufastcache) : Prop :=
  length l = 256%nat /\ forall addr super, is_u32 addr ->
    f_log (fast_at l (fast_idx1 mm addr super)) = fast_idx1 mm addr super ->
    walk_addr mm addr super write (W super addr)
      = Some (f_phys (fast_at l (fast_idx1 mm addr super)) .| (addr .& mmu_pagemask mm))
    /\ (write = true -> page_dirty (W super addr) = true).

Definition lines_ok (W : bool -> Z -> wres) (ls : list mmu_atc_line) : Prop :=
  length ls = 128%nat /\ forall data index way, slot_ok index way ->
    let l := ls !!! atc_pos data index way in l_valid l = true ->
    forall addr super, is_u32 addr -> atc_index mm addr = index -> atc_tag mm addr super = l_tag l ->
    line_ok mm (W super addr) l.

(** At most one valid line of a set carries a tag. *)
Definition lines_unique (ls : list mmu_atc_line) : Prop :=
  forall data index w1 w2, slot_ok index w1 -> slot_ok index w2 ->
    let l1 := ls !!! atc_pos data index w1 in let l2 := ls !!! atc_pos data index w2 in
    l_valid l1 = true -> l_valid l2 = true -> l_tag l1 = l_tag l2 -> w1 = w2.

Definition ins_ok (W : bool -> Z -> wres) (t : atcst) : Prop :=
  forall addr super, is_u32 addr -> ins_key mm addr super = atc_last_ins_laddr t ->
    walk_addr mm addr super false (W super addr)
      = Some (atc_last_ins_paddr t .| (addr .& mmu_pagemask mm)).

Definition ways_ok (t : atcst) : Prop :=
  length (mmu_atc_ways t) = 2%nat /\ Forall (fun w => 0 <= w < 4) (mmu_atc_ways t) /\ 0 <= way_random t.

Record caches_ok (W : bool -> Z -> wres) (t : atcst) : Prop := {
  co_lines : lines_ok W (lines t);
  co_unique : lines_unique (lines t);
  co_ways : ways_ok t;
  co_ins : ins_ok W t;
  co_read : fast_ok W false (atc_data_cache_read t);
  co_write : fast_ok W true (atc_data_cache_write t) }.

(** Searches that differ in used and modified bits only. *)
Lemma caches_ok_le W W' t : (forall s a, wres_le (W s a) (W' s a)) -> caches_ok W t -> caches_ok W' t.
Proof.
  intros Hle [[Ll Hl] Hu Hw Hi [Lr Hr] [Lw Hww]].
  assert (Hf : forall write l, fast_ok W write l -> fast_ok W' write l).
  { intros write l [L Hx]. split; [done|]. intros addr super Ha Hlog.
    destruct (Hx addr super Ha Hlog) as [E D]. rewrite (walk_addr_le mm _ _ _ (W super addr)) by done.
    split; [done|]. intros Hwr. eapply page_dirty_le; [done|auto]. }
  split; try done.
  - split; [done|]. intros data index way Hs l Hv addr super Ha Hix Htag.
    eapply line_ok_le; [done| |by eapply Hl]. done.
  - intros addr super Ha Hk. rewrite (walk_addr_le mm _ _ _ (W super addr)) by done. by apply Hi.
  - by apply Hf.
  - by apply Hf.
Qed.

(** ** Shortcut updates *)
Lemma idx1_range addr super : is_u32 addr -> 0 <= fast_idx1 mm addr super < 0xffffffff.
Proof.
  intros Ha. rewrite fast_idx1_eq by done. pose proof (page_no_range mm addr Ha) as Hp.
  destruct (mmu_pagesize_8k mm), super; cbn -[Z.mul]; lia.
Qed.

Lemma fast_at_lt (l : list mmufastcache) idx : length l = 256%nat -> 0 <= idx -> (Z.to_nat (fast_idx2 idx) < length l)%nat.
Proof. intros. pose proof (fast_idx2_range idx). lia. Qed.

Lemma fast_ok_empty W write : fast_ok W write fast_empty.
Proof.
  split; [done|]. intros addr super Ha Hlog. exfalso. pose proof (idx1_range addr super Ha) as Hr.
  pose proof (fast_idx2_range (fast_idx1 mm addr super)) as H2.
  unfold fast_at, fast_empty in Hlog.
  rewrite lookup_total_replicate_2 in Hlog by (unfold MMUFASTCACHE_ENTRIES; lia). cbn in Hlog. lia.
Qed.

Lemma fast_ok_flush W write idx l : fast_ok W write l -> fast_ok W write (fast_flush idx <$> l).
Proof.
  intros [L Hx]. split; [by rewrite length_fmap|]. intros addr super Ha.
  pose proof (idx1_range addr super Ha) as Hr. unfold fast_at.
  rewrite (list_lookup_total_fmap (fast_flush idx) l) by (apply fast_at_lt; [done|lia]).
  fold (fast_at l (fast_idx1 mm addr super)).
  unfold fast_flush. destruct (f_log (fast_at l _) =? idx); cbn; intros Hlog; [lia|]. by apply Hx.
Qed.

Lemma fast_ok_add W write addr0 super0 phys cs l :
  (forall s a a', page_no mm a = page_no mm a' -> W s a = W s a') ->
  is_u32 addr0 -> fast_ok W write l ->
  walk_addr mm addr0 super0 write (W super0 addr0) = Some (phys .| (addr0 .& mmu_pagemask mm)) ->
  (exists d da wp, W super0 addr0 = WPage da d wp /\ phys = d .& mmu_pagemaski mm) ->
  (write = true -> page_dirty (W super0 addr0) = true) ->
  fast_ok W write (fast_add (fast_idx1 mm addr0 super0) phys cs l).
Proof.
  intros Hpg Ha0 [L Hx] Hw0 (d & da & wp & Ew & ->) Hd0. unfold fast_add.
  destruct (_ <? _); [|done]. split; [by rewrite length_insert|]. intros addr super Ha.
  pose proof (idx1_range addr super Ha). pose proof (idx1_range addr0 super0 Ha0). unfold fast_at.
  destruct (decide (Z.to_nat (fast_idx2 (fast_idx1 mm addr super))
                    = Z.to_nat (fast_idx2 (fast_idx1 mm addr0 super0)))) as [E|E].
  - rewrite E, list_lookup_total_insert_eq by (apply fast_at_lt; [done|lia]). cbn.
    intros Hk. destruct (fast_idx1_page mm _ _ _ _ HG Ha0 Ha Hk) as [Hp ->].
    rewrite <- (Hpg super addr0 addr Hp). split; [|done]. rewrite Ew in Hw0 |- *. cbn in *. by case_match.
  - rewrite list_lookup_total_insert_ne by done. apply (Hx addr super Ha).
Qed.

Lemma caches_flush_fast W addr super t : caches_ok W t -> caches_ok W (flush_fast mm addr super t).
Proof.
  intros [Hl Hu Hw Hi Hr Hww]. unfold flush_fast.
  assert (Hi' : forall t', atc_last_ins_laddr t' = mmu_pagemask mm -> ins_ok W t').
  { intros t' Et addr' super' Ha Hk. rewrite Et in Hk. by apply ins_key_empty in Hk. }
  destruct (addr =? 0xffffffff); split; cbn; auto using fast_ok_empty, fast_ok_flush.
Qed.

Lemma flush_fast_lines m addr super t : lines (flush_fast m addr super t) = lines t
  /\ mmu_atc_ways (flush_fast m addr super t) = mmu_atc_ways t
  /\ way_random (flush_fast m addr super t) = way_random t.
Proof. unfold flush_fast. by destruct (_ =? _). Qed.

(** ** Line updates *)
Lemma caches_set_line W data way addr super l t :
  (forall s a a', page_no mm a = page_no mm a' -> W s a = W s a') ->
  is_u32 addr -> 0 <= way < 4 -> l_tag l = atc_tag mm addr super -> line_ok mm (W super addr) l ->
  (forall w, 0 <= w < 4 -> w <> way -> l_valid (lines t !!! atc_pos data (atc_index mm addr) w) = true ->
     l_tag (lines t !!! atc_pos data (atc_index mm addr) w) <> atc_tag mm addr super) ->
  caches_ok W t ->
  caches_ok W {| t with lines := <[atc_pos data (atc_index mm addr) way := l]> (lines t) |}.
Proof.
  intros Hpg Ha Hway Htag Hok Hno [[Ll Hl] Hu Hw Hi Hr Hww].
  assert (Hs0 : slot_ok (atc_index mm addr) way) by (split; [apply atc_index_range|done]).
  pose proof (atc_pos_lt data _ _ Hs0) as Hlt.
  split; cbn [lines]; try done.
  - split; [by rewrite length_insert|]. intros data' index' way' Hs l'.
    destruct (decide (atc_pos data' index' way' = atc_pos data (atc_index mm addr) way)) as [E|E];
      unfold l'.
    + apply atc_pos_inj in E as (-> & -> & ->); [|done..].
      rewrite list_lookup_total_insert_eq by lia. intros _ addr' super' Ha' Hix Ht'.
      rewrite Htag in Ht'. destruct (tag_index_page mm _ _ _ _ HG Ha' Ha Hix Ht') as [Hp ->].
      by rewrite (Hpg super addr' addr Hp).
    + rewrite list_lookup_total_insert_ne by done. by apply Hl.
  - intros data' index' w1 w2 Hs1 Hs2. cbv zeta.
    destruct (decide (atc_pos data' index' w1 = atc_pos data (atc_index mm addr) way)) as [E1|E1];
      destruct (decide (atc_pos data' index' w2 = atc_pos data (atc_index mm addr) way)) as [E2|E2].
    + apply atc_pos_inj in E1 as (-> & -> & ->); [|done..]. by apply atc_pos_inj in E2 as (_ & _ & ->).
    + apply atc_pos_inj in E1 as (-> & -> & ->); [|done..].
      rewrite list_lookup_total_insert_eq by lia. rewrite list_lookup_total_insert_ne by done.
      intros _ V2 T. destruct (decide (w2 = way)) as [->|Hne]; [done|].
      destruct (Hno w2); [apply Hs2|done..|congruence].
    + apply atc_pos_inj in E2 as (-> & -> & ->); [|done..].
      rewrite list_lookup_total_insert_eq by lia. rewrite list_lookup_total_insert_ne by done.
      intros V1 _ T. destruct (decide (w1 = way)) as [->|Hne]; [done|].
      destruct (Hno w1); [apply Hs1|done..|congruence].
    + rewrite !list_lookup_total_insert_ne by done. by apply Hu.
Qed.

(** Invalidating lines. *)
Lemma caches_invalidate W (f : nat -> mmu_atc_line -> mmu_atc_line) t :
  (forall i l, f i l = l \/ l_valid (f i l) = false) ->
  caches_ok W t -> caches_ok W {| t with lines := imap f (lines t) |}.
Proof.
  intros Hf [[Ll Hl] Hu Hw Hi Hr Hww].
  assert (Hat : forall pos, (pos < 128)%nat -> l_valid (imap f (lines t) !!! pos) = true ->
            imap f (lines t) !!! pos = lines t !!! pos).
  { intros pos Hp. destruct (lookup_lt_is_Some_2 (lines t) pos) as [l E]; [lia|].
    rewrite (list_lookup_total_correct (imap f (lines t)) pos (f pos l)) by (by rewrite list_lookup_imap, E).
    rewrite (list_lookup_total_correct _ _ _ E). destruct (Hf pos l) as [->| ->]; done. }
  split; cbn [lines]; try done.
  - split; [by rewrite length_imap|]. intros data index way Hs l Hv. unfold l in *.
    pose proof (Hat _ (atc_pos_lt data _ _ Hs) Hv) as E. rewrite E in Hv |- *. by apply Hl.
  - intros data index w1 w2 Hs1 Hs2. cbv zeta. intros V1 V2.
    pose proof (Hat _ (atc_pos_lt data _ _ Hs1) V1) as E1.
    pose proof (Hat _ (atc_pos_lt data _ _ Hs2) V2) as E2.
    rewrite E1 in V1 |- *. rewrite E2 in V2 |- *. by apply Hu.
Qed.
End Coh.
