(* ===== verification/MmuProps.v ===== *)
(** * MmuProps: [mmu_translate] implements the translation tables

    With coherent caches, [mmu_translate] returns what the table search
    prescribes and keeps the caches coherent; its retry loop ends after at
    most one refill. *)

From S2P Require Import Prelude Flags Cpu Movec Mmu MmuWalk MmuFill MmuInv MmuCoh.
From Stdlib Require Import ZArith Lia Bool.
From stdpp Require Import base list gmap.
Open Scope Z_scope.
Open Scope cint_scope.
Open Scope mm_scope.

(** ** The search loop over the ways *)
Definition line_hit (ls : list mmu_atc_line) (data : bool) (index tag way : Z) : Prop :=
  l_valid (ls !!! atc_pos data index way) = true /\ l_tag (ls !!! atc_pos data index way) = tag.

Lemma atc_scan_spec ls data index tag n way wi : 0 <= way < 4 ->
  match atc_scan ls data index tag n way wi with
  | inl w => 0 <= w < 4 /\ line_hit ls data index tag w
  | inr w => (w = wi \/ 0 <= w < 4) /\
             forall i, 0 <= i < Z.of_nat n -> ~ line_hit ls data index tag ((way + i) mod 4)
  end.
Proof.
  revert way wi. induction n as [|n IH]; intros way wi Hw; [split; [by left|lia]|].
  assert (Hw' : 0 <= (way + 1) mod 4 < 4) by (apply Z.mod_pos_bound; lia).
  assert (Hstep : ~ line_hit ls data index tag way -> forall w0, (w0 = wi \/ w0 = way) ->
    match atc_scan ls data index tag n ((way + 1) mod 4) w0 with
    | inl w => 0 <= w < 4 /\ line_hit ls data index tag w
    | inr w => (w = wi \/ 0 <= w < 4) /\
               forall i, 0 <= i < Z.of_nat (S n) -> ~ line_hit ls data index tag ((way + i) mod 4)
    end).
  { intros Hno w0 Hw0. specialize (IH ((way + 1) mod 4) w0 Hw').
    destruct (atc_scan _ _ _ _ n _ _) as [w|w]; [done|]. destruct IH as [Hr IH]. split; [lia|].
    intros i Hi. destruct (decide (i = 0)) as [->|].
    - by rewrite Z.add_0_r, Z.mod_small.
    - specialize (IH (i - 1)). rewrite Zplus_mod_idemp_l in IH.
      replace (way + 1 + (i - 1)) with (way + i) in IH by lia. apply IH. lia. }
  cbn [atc_scan]. unfold ATC_WAYS. destruct (l_valid (ls !!! atc_pos data index way)) eqn:V.
  - destruct (Z.eqb_spec tag (l_tag (ls !!! atc_pos data index way))) as [E|E].
    + split; [done|]. by split.
    + apply Hstep; [|by right]. intros [_ ?]. congruence.
  - apply Hstep; [|by left]. intros [? _]. congruence.
Qed.

Lemma atc_scan_all ls data index tag way wi : 0 <= way < 4 ->
  match atc_scan ls data index tag 4 way wi with
  | inl w => 0 <= w < 4 /\ line_hit ls data index tag w
  | inr w => (w = wi \/ 0 <= w < 4) /\ forall w', 0 <= w' < 4 -> ~ line_hit ls data index tag w'
  end.
Proof.
  intros Hw. pose proof (atc_scan_spec ls data index tag 4 way wi Hw) as Hs.
  destruct (atc_scan _ _ _ _ _ _ _) as [w|w]; [done|]. destruct Hs as [? Hs]. split; [done|].
  intros w' Hw'. specialize (Hs ((w' - way) mod 4)).
  rewrite Zplus_mod_idemp_r in Hs. replace (way + (w' - way)) with w' in Hs by lia.
  rewrite (Z.mod_small w') in Hs by lia. apply Hs. apply Z.mod_pos_bound. lia.
Qed.

(** ** The fault test of a line *)
Lemma land_bit (z : Z) k : 0 <= k -> truth (z .& 2 ^ k) = Z.testbit z k.
Proof. apply land_pow2_truth. Qed.

Lemma atc_fault_eq super write status : atc_fault super write status =
  (Z.testbit status 2 && write) || (Z.testbit status 7 && negb super) || negb (Z.testbit status 0).
Proof.
  unfold atc_fault.
  assert (EW : truth (status .& MMU_MMUSR_W) = Z.testbit status 2) by (by apply (land_bit _ 2)).
  assert (ES : truth (status .& MMU_MMUSR_S) = Z.testbit status 7) by (by apply (land_bit _ 7)).
  assert (ER : truth (status .& MMU_MMUSR_R) = Z.testbit status 0) by (by apply (land_bit _ 0)).
  rewrite EW, ES, ER. change (MMU_MMUSR_W .| MMU_MMUSR_S .| MMU_MMUSR_R) with 0x85.
  change MMU_MMUSR_R with 1. destruct (Z.eqb_spec (status .& 0x85) 1) as [E|]; [|done].
  assert (Hb : forall i, Z.testbit 0x85 i = true -> Z.testbit status i = Z.testbit 1 i).
  { intros i Hi. rewrite <- (andb_true_r (Z.testbit status i)), <- Hi, <- Z.land_spec, E. done. }
  by rewrite (Hb 2), (Hb 7), (Hb 0).
Qed.

Lemma line_fault mm w l super write : (forall da d wp, w = WPage da d wp -> d .& 1 = 1 /\
    (d .& MMU_DES_WP) .| (wp .& MMU_DES_WP) = wp .& MMU_DES_WP) ->
  line_ok mm w l -> atc_fault super write (l_status l) = negb (access_ok super write w).
Proof.
  intros Hw Hl. rewrite atc_fault_eq. destruct w as [c| |da d wp]; cbn [line_ok] in Hl;
    [by rewrite Hl, !Z.testbit_0_l, orb_true_r..|].
  destruct Hl as (Hs & _ & _). destruct (Hw da d wp eq_refl) as [H1 H4].
  assert (Hb : forall i, Z.testbit 0x7E5 i = true ->
            Z.testbit (l_status l) i = Z.testbit d i || (Z.testbit wp i && Z.testbit 4 i)).
  { intros i Hi. rewrite <- (andb_true_r (Z.testbit (l_status l) i)), <- Hi, <- Z.land_spec, Hs.
    by rewrite Z.land_spec, Hi, andb_true_r, Z.lor_spec, Z.land_spec. }
  rewrite (Hb 2), (Hb 7), (Hb 0) by done.
  assert (H0 : Z.testbit d 0 = true).
  { rewrite <- land_bit by lia. change (2 ^ 0) with 1. by rewrite H1. }
  assert (H2 : Z.testbit d 2 || Z.testbit wp 2 = Z.testbit wp 2).
  { apply (f_equal (fun z => Z.testbit z 2)) in H4. rewrite Z.lor_spec, !Z.land_spec in H4.
    change (Z.testbit MMU_DES_WP 2) with true in H4. by rewrite !andb_true_r in H4. }
  cbn [access_ok]. change MMU_DES_SUPER with (2 ^ 7). change MMU_DES_WP with (2 ^ 2).
  rewrite !land_bit, H0 by lia. change (Z.testbit 4 2) with true. change (Z.testbit 4 7) with false.
  rewrite !andb_true_r, H2, andb_false_r, orb_false_r.
  destruct (Z.testbit wp 2), (Z.testbit d 7), super, write; done.
Qed.

Section Translate.
Context {M : Type} `{Phys M} `{!PhysLaws M} (p : prefs) (ce : Z -> Z) (U : Z -> bool).
Context (Hmodel : mmu_model p = 68040 \/ mmu_model p = 68060).
Implicit Types st : mst M.

(** ** The invariant *)
Record mmu_inv st : Prop := {
  mi_geo : geo (rmmu (core st));
  mi_dbg : mmu_debugger st = false;
  mi_tables : forall super,
    tables_ok U (pm st) (mmu_pagesize_8k (rmmu (core st))) (root_of (core st) super);
  mi_caches : caches_ok (rmmu (core st)) (walk_of st) (tlb st) }.

(** The state after an operation that may set used and modified bits. *)
Record um_step st st' : Prop := {
  us_core : core_ext (core st) (core st');
  us_mem : um_ext U (pm st) (pm st') }.

Lemma um_step_refl st : um_step st st.
Proof. split; auto with mmu. Qed.
Lemma um_step_trans s1 s2 s3 : um_step s1 s2 -> um_step s2 s3 -> um_step s1 s3.
Proof. intros [] []. split; eauto using core_ext_trans, um_ext_trans. Qed.
Lemma frame_um_step st st' : frame st st' -> pm st' = pm st -> um_step st st'.
Proof. intros [] E. split; [done|]. rewrite E. auto with mmu. Qed.

Lemma walk_of_page st s a a' : page_no (rmmu (core st)) a = page_no (rmmu (core st)) a' ->
  walk_of st s a = walk_of st s a'.
Proof. apply walk_page. Qed.

Lemma walk_of_le st st' : (forall super,
    tables_ok U (pm st) (mmu_pagesize_8k (rmmu (core st))) (root_of (core st) super)) ->
  um_step st st' -> forall s a, wres_le (walk_of st s a) (walk_of st' s a).
Proof.
  intros Ht [[x Ec] He] s a. unfold walk_of. rewrite Ec. eapply walk_ext; [apply Ht|done].
Qed.

Lemma caches_ok_ext c c' W t : core_ext c c' -> caches_ok (rmmu c) W t -> caches_ok (rmmu c') W t.
Proof. by intros [x ->] []. Qed.

(** Everything but the caches follows from a step; what is left is to show
    the caches coherent with the tables as they are now. *)
Lemma mmu_inv_step st st' : mmu_inv st -> um_step st st' -> mmu_debugger st' = false ->
  caches_ok (rmmu (core st)) (walk_of st') (tlb st') -> mmu_inv st'.
Proof.
  intros [HG Hd Ht Hc] Hs Hd' Hc'. destruct Hs as [Ec He]. split; [by eapply geo_ext|done| |].
  - intros super. rewrite (root_of_ext _ _ super Ec). destruct Ec as [x ->]. cbn.
    eapply tables_ok_ext; [apply Ht|done].
  - by eapply caches_ok_ext.
Qed.

Lemma mmu_inv_same_tlb st st' : mmu_inv st -> um_step st st' ->
  mmu_debugger st' = mmu_debugger st -> tlb st' = tlb st -> mmu_inv st'.
Proof.
  intros Hi Hs Hd Et. eapply mmu_inv_step; [done..| |].
  - rewrite Hd. apply Hi.
  - rewrite Et. eapply caches_ok_le; [apply Hi| |apply Hi]. apply walk_of_le; [apply Hi|done].
Qed.

Lemma mmu_inv_facts st super addr da d wp : mmu_inv st -> walk_of st super addr = WPage da d wp ->
  d .& 1 = 1 /\ (d .& MMU_DES_WP) .| (wp .& MMU_DES_WP) = wp .& MMU_DES_WP.
Proof. intros _ E. apply walk_page_facts in E. tauto. Qed.

(** ** What a translation promises *)
Section Access.
Context (addr val : Z) (super data write : bool) (size : Z) (Ha : is_u32 addr).

Definition xlate st : option Z :=
  walk_addr (rmmu (core st)) addr super write (walk_of st super addr).

Definition xlate_post st0 (o : outcome (option Z)) st' : Prop :=
  mmu_inv st' /\ um_step st0 st' /\
  match xlate st0 with
  | Some pa => o = Ret (Some pa) /\ (write = true -> page_dirty (walk_of st' super addr) = true)
  | None => o = Throw 2
  end.

Lemma xlate_le st st' : mmu_inv st -> um_step st st' -> xlate st' = xlate st.
Proof.
  intros Hi Hs. unfold xlate.
  rewrite <- (walk_addr_le (rmmu (core st)) addr super write (walk_of st super addr) (walk_of st' super addr));
    [|apply Hi|apply walk_of_le; [apply Hi|done]].
  destruct Hs as [[x ->] _]. done.
Qed.

Lemma xlate_post_trans st0 st1 o st' : mmu_inv st0 -> um_step st0 st1 -> xlate_post st1 o st' ->
  xlate_post st0 o st'.
Proof.
  intros Hi Hs (Hi' & Hs' & Hm). rewrite (xlate_le _ _ Hi Hs) in Hm.
  split; [done|]. split; [by eapply um_step_trans|done].
Qed.

Lemma xlate_access st : xlate st = None <-> access_ok super write (walk_of st super addr) = false.
Proof.
  unfold xlate, walk_addr. destruct (walk_of st super addr); [done..|].
  by destruct (access_ok _ _ _).
Qed.

(** An access error leaves the invariant. *)
Lemma error_post st st' : mmu_inv st -> xlate st = None -> frame st st' -> pm st' = pm st ->
  xlate_post st (Throw 2) st'.
Proof.
  intros Hi Hn F Ep. pose proof (frame_um_step _ _ F Ep) as Hs.
  destruct F. split; [by eapply mmu_inv_same_tlb|]. by rewrite Hn.
Qed.

(** ** A hit *)
Lemma caches_ways W mm t way : 0 <= way < 4 -> caches_ok mm W t ->
  caches_ok mm W {| t with mmu_atc_ways := <[Z.to_nat (Z.b2z data) := way]> (mmu_atc_ways t) |}.
Proof.
  intros Hw [? ? (Hl & Hf & Hr) ? ? ?]. split; try done. split_and!; cbn; [by rewrite length_insert| |done].
  by apply Forall_insert.
Qed.

Lemma caches_add W mm t cs phys : geo mm ->
  (forall s a a', page_no mm a = page_no mm a' -> W s a = W s a') ->
  walk_addr mm addr super write (W super addr) = Some (phys .| (addr .& mmu_pagemask mm)) ->
  (exists d da wp, W super addr = WPage da d wp /\ phys = d .& mmu_pagemaski mm) ->
  (write = true -> page_dirty (W super addr) = true) ->
  caches_ok mm W t -> caches_ok mm W (add_fast mm cs addr phys super data write t).
Proof.
  intros HG Hpg Hw Hd Hdirty [? ? ? Hi Hr Hww]. unfold add_fast.
  destruct data; cbn [negb].
  - destruct write; split; cbn; try done; by apply fast_ok_add.
  - split; cbn; try done. intros a s Has Hk.
    destruct (ins_key_page mm _ _ _ _ HG Has Ha Hk) as [Hp ->]. rewrite (Hpg super a addr Hp).
    destruct Hd as (d & da & wp & Ew & ->). rewrite Ew in Hw |- *. cbn in *.
    destruct super, (truth (d .& MMU_DES_SUPER)), write, (truth (wp .& MMU_DES_WP)); cbn in *; congruence.
Qed.

Lemma atc_hit_post cs way st l : mmu_inv st -> 0 <= way < 4 ->
  access_ok super write (walk_of st super addr) = true ->
  line_ok (rmmu (core st)) (walk_of st super addr) l ->
  (write = true -> Z.testbit (l_status l) 4 = true) ->
  xlate_post st (Ret (Some (l_phys l .| (addr .& mmu_pagemask (rmmu (core st))))))
    (mk_mst (core st)
       (add_fast (rmmu (core st)) cs addr (l_phys l) super data write
          {| (tlb st) with mmu_atc_ways := <[Z.to_nat (Z.b2z data) := way]> (mmu_atc_ways (tlb st)) |})
       (flt st) cs (mmu_debugger st) (pm st)).
Proof.
  intros Hi Hway Hok Hl HM. assert (Hs : forall t f cs, um_step st (mk_mst (core st) t f cs (mmu_debugger st) (pm st)))
    by (intros; split; cbn; auto with mmu).
  destruct (walk_of st super addr) as [| |da d wp] eqn:Ew; try done.
  destruct Hl as (_ & Hlp & Hld).
  assert (Hx : xlate st = Some (l_phys l .| (addr .& mmu_pagemask (rmmu (core st))))).
  { unfold xlate. rewrite Ew. unfold walk_addr. by rewrite Hok, Hlp. }
  assert (Hd : write = true -> page_dirty (walk_of st super addr) = true).
  { intros W. rewrite Ew. cbn [page_dirty]. auto. }
  split; [|split; [apply Hs|by rewrite Hx]].
  eapply mmu_inv_step; [exact Hi|apply Hs|apply Hi|]. cbn [tlb].
  apply caches_add; [apply Hi|apply (walk_of_page st)|exact Hx|by exists d, da, wp|exact Hd|].
  apply caches_ways; [done|apply Hi].
Qed.

Lemma atc_retry_wp refill index way s060 st :
  mmu_inv st -> 0 <= way < 4 ->
  line_ok (rmmu (core st)) (walk_of st super addr) (lines (tlb st) !!! atc_pos data index way) ->
  (write = true -> access_ok super write (walk_of st super addr) = true ->
   Z.testbit (l_status (lines (tlb st) !!! atc_pos data index way)) 4 = false ->
   wpm (refill way) st (xlate_post st)) ->
  wpm (atc_retry p addr val super data write size index refill way s060) st (xlate_post st).
Proof.
  intros Hi Hway Hl Hre. set (l := lines (tlb st) !!! atc_pos data index way) in *.
  unfold atc_retry, set_tlb, set_cache_state, mmu_add_cache, set_tlb. do 2 wstep. fold l.
  rewrite (line_fault (rmmu (core st)) (walk_of st super addr));
    [|intros; by eapply mmu_inv_facts|done].
  destruct (access_ok super write (walk_of st super addr)) eqn:Hok; cbn [negb].
  2: { apply bus_error_wp. intros st' F Ep. apply error_post; [done| |done..]. by apply xlate_access. }
  change MMU_MMUSR_M with (2 ^ 4). rewrite land_bit by lia.
  destruct (negb (Z.testbit (l_status l) 4) && write) eqn:HM.
  - apply andb_prop in HM as [HM%negb_true_iff Hwr]. auto.
  - repeat wstep. apply (atc_hit_post _ way st l); [done..|]. intros W. rewrite W, andb_true_r in HM.
    by apply negb_false_iff.
Qed.

(** ** A miss *)
Definition with_random (r : Z) st : mst M := {| st with tlb := {| (tlb st) with way_random := r |} |}.

Lemma um_step_random r st : um_step st (with_random r st).
Proof. split; cbn; auto with mmu. Qed.

Lemma mmu_inv_random r st : 0 <= r -> mmu_inv st -> mmu_inv (with_random r st).
Proof.
  intros Hr [HG Hd Ht [? ? (? & ? & _) ? ? ?]]. split; try done.
Qed.

(** The state after a fill that wrote a line, or none because of an error. *)
Lemma filled_inv mm way s060 st st' : mmu_inv st -> mm = rmmu (core st) -> 0 <= way < 4 ->
  (forall w, 0 <= w < 4 -> w <> way -> ~ line_hit (lines (tlb st)) data (atc_index mm addr) (atc_tag mm addr super) w) ->
  filled p U (flush_fast mm addr super) addr super write (atc_tag mm addr super)
    (atc_pos data (atc_index mm addr) way) s060 st st' ->
  mmu_inv st' /\ um_step st st' /\ way_random (tlb st') = way_random (tlb st).
Proof.
  intros Hi -> Hway Hno [Fc Fd Fm _ Fl]. assert (Hs : um_step st st') by done.
  assert (Hle : caches_ok (rmmu (core st)) (walk_of st') (tlb st)).
  { eapply caches_ok_le; [apply Hi| |apply Hi]. apply walk_of_le; [apply Hi|done]. }
  assert (Hpg : forall s a a', page_no (rmmu (core st)) a = page_no (rmmu (core st)) a' ->
            walk_of st' s a = walk_of st' s a').
  { intros s a a' E. apply walk_of_page. by destruct Fc as [x ->]. }
  split; [|split; [done|]].
  - eapply mmu_inv_step; [done..|by rewrite Fd; apply Hi|].
    destruct Fl as [(l & Ht & Hv & Hl & _ & ->)|(_ & _ & ->)]; apply caches_flush_fast; try apply Hi; [|done].
    apply (caches_set_line _ (mi_geo _ Hi) _ _ _ _ super); [done..| |done].
    intros w Hw Hne V E. by apply (Hno w).
  - destruct Fl as [(l & _ & _ & _ & _ & ->)|(_ & _ & ->)];
      by rewrite (proj2 (proj2 (flush_fast_lines _ _ _ _))).
Qed.

Lemma atc_refill_wp fuel way_invalid st :
  let mm := rmmu (core st) in
  mmu_inv st -> (way_invalid = 4 \/ 0 <= way_invalid < 4) ->
  (forall w, 0 <= w < 4 -> line_hit (lines (tlb st)) data (atc_index mm addr) (atc_tag mm addr super) w ->
     w = way_invalid) ->
  wpm (atc_refill p ce addr val super data write size (atc_tag mm addr super) (atc_index mm addr)
         (S fuel) way_invalid 0) st (xlate_post st).
Proof.
  intros mm Hi Hwi Hno. cbn [atc_refill]. unfold set_tlb, bump_random, set_tlb. do 5 wstep.
  pose proof (proj2 (proj2 (co_ways _ _ _ (mi_caches _ Hi)))) as Hr.
  set (r := Z.rem _ _). assert (Hr4 : 0 <= r < 4).
  { unfold r, ATC_WAYS. rewrite Z.rem_mod_nonneg by lia. apply Z.mod_pos_bound. lia. }
  change (mk_mst (core st) _ _ _ _ _) with (with_random r st).
  assert (Hi1 : mmu_inv (with_random r st)) by (by apply mmu_inv_random; [lia|]).
  set (way := if way_invalid <? ATC_WAYS then way_invalid else _).
  assert (Hway : 0 <= way < 4 /\ (way_invalid < 4 -> way = way_invalid)).
  { unfold way, ATC_WAYS. destruct (Z.ltb_spec way_invalid 4); cbn; lia. }
  eapply wpm_conseq; [apply (mmu_fill_atc_wp p ce U Hmodel); apply Hi1|].
  intros o st2 (status & s060 & -> & Hf). change (rmmu (core (with_random r st))) with mm in Hf.
  destruct (filled_inv mm way s060 (with_random r st) st2) as (Hi2 & Hs2 & Er); [done..|apply Hway| |done|].
  { intros w Hw Hne Hh. specialize (Hno w Hw Hh). destruct Hway as [Hw4 Hweq]. destruct Hwi; lia. }
  assert (Hs02 : um_step st st2) by (eapply um_step_trans; [apply (um_step_random r)|done]).
  wstep. destruct (truth s060 && (mmu_model p =? 68060)) eqn:Herr; cbn [whenm].
  - apply andb_prop in Herr as [Hs6 _]. apply bus_error_wp. intros st3 F Ep.
    eapply xlate_post_trans; [done..|]. apply error_post; [done| |done..].
    apply xlate_access. by apply (fi_err _ _ _ _ _ _ _ _ _ _ _ Hf).
  - repeat wstep.
    pose proof (fun r H => mmu_inv_random r _ H Hi2) as Hi3. pose proof (um_step_random (s32 (way_random (tlb st2) + 1)) st2) as Hs3.
    change (mk_mst _ _ _ _ _ _) with (with_random (s32 (way_random (tlb st2) + 1)) st2) in *.
    set (st3 := with_random _ st2) in *.
    assert (Hinv : mmu_inv st3) by (apply Hi3; rewrite Er; cbn; fold r; rewrite s32_small by (unfold is_s32; lia); lia).
    eapply wpm_conseq; [|intros o st' Hp; eapply xlate_post_trans; [done| |exact Hp]; by eapply um_step_trans].
    destruct (fi_line _ _ _ _ _ _ _ _ _ _ _ Hf) as [(l & Htag & Hv & Hl & HM & Et)|(E6 & Es & _)].
    + assert (El : lines (tlb st3) !!! atc_pos data (atc_index mm addr) way = l).
      { cbn. rewrite Et, (proj1 (flush_fast_lines _ _ _ _)). apply list_lookup_total_insert_eq.
        rewrite (proj1 (co_lines _ _ _ (mi_caches _ Hi1))). apply atc_pos_lt. split; [apply atc_index_range|apply Hway]. }
      apply atc_retry_wp; [done|apply Hway|rewrite El|].
      * change (walk_of st3 super addr) with (walk_of st2 super addr). unfold line_ok in *.
        destruct (us_core _ _ Hs2) as [x Ec]. change (core st3) with (core st2). rewrite Ec. exact Hl.
      * rewrite El. intros W Ok HMf. by rewrite HM in HMf.
    + rewrite Es, E6 in Herr. done.
Qed.

(** ** The whole translation *)
Lemma s32_bump r : 0 <= r < 2147483647 -> 0 <= s32 (r + 1).
Proof. intros. rewrite s32_small; [lia|]. unfold is_s32. lia. Qed.

Lemma mmu_translate_fuel_wp fuel st : mmu_inv st -> way_random (tlb st) < 2147483647 ->
  wpm (mmu_translate_fuel p ce (S fuel) addr val super data write size) st (xlate_post st).
Proof.
  intros Hi Hrnd. pose proof (co_ways _ _ _ (mi_caches _ Hi)) as (Hl2 & Hwf & Hr0).
  unfold mmu_translate_fuel, bump_random, set_tlb. do 4 wstep.
  set (st1 := mk_mst _ _ _ _ _ _). set (mm := rmmu (core st)).
  assert (Hi1 : mmu_inv st1).
  { apply (mmu_inv_random (s32 (way_random (tlb st) + 1)) st); [|done]. apply s32_bump. lia. }
  assert (Hs1 : um_step st st1) by apply (um_step_random (s32 (way_random (tlb st) + 1)) st).
  eapply wpm_conseq; [|intros o st' Hp; eapply xlate_post_trans; [done|exact Hs1|exact Hp]].
  set (way := mmu_atc_ways (tlb st) !!! Z.to_nat (Z.b2z data)).
  assert (Hway : 0 <= way < 4).
  { unfold way. destruct (lookup_lt_is_Some_2 (mmu_atc_ways (tlb st)) (Z.to_nat (Z.b2z data))) as [w Ew].
    - rewrite Hl2. destruct data; cbn; lia.
    - rewrite (list_lookup_total_correct _ _ _ Ew). by eapply Forall_lookup_1 in Hwf. }
  pose proof (atc_scan_all (lines (tlb st)) data (atc_index mm addr) (atc_tag mm addr super) way ATC_WAYS Hway)
    as Hsc. change (Z.to_nat ATC_WAYS) with 4%nat.
  destruct (atc_scan _ _ _ _ 4 _ _) as [w|wi].
  - destruct Hsc as [Hw Hh].
    assert (Hso : slot_ok (atc_index mm addr) w) by (split; [apply atc_index_range|done]).
    apply atc_retry_wp; [done..| |].
    + destruct Hh as [V T]. by apply (proj2 (co_lines _ _ _ (mi_caches _ Hi1)) data (atc_index mm addr) w).
    + intros _ _ _. apply atc_refill_wp; [done|by right|]. intros w' Hw' [V' T'].
      destruct Hh as [V T]. eapply (co_unique _ _ _ (mi_caches _ Hi1) data); [|exact Hso|done|done|].
      * split; [apply atc_index_range|done].
      * exact (eq_trans T' (eq_sym T)).
  - destruct Hsc as [Hwi Hno]. apply atc_refill_wp; [done| |].
    + destruct Hwi as [-> |]; [by left|by right].
    + intros w Hw Hh. by apply Hno in Hh.
Qed.
End Access.
End Translate.
