(* ===== verification/MmuTerm.v ===== *)
(** * MmuTerm: the retry loop of [mmu_translate] ends

    Whatever the tables hold, a refill leaves a line that either faults or
    carries the modified bit a write needs, so [goto atc_retry] is taken at
    most once.  No law of memory is used: the tables may alias, lie in ROM or
    raise bus errors. *)

From S2P Require Import Prelude Flags Cpu Movec Mmu MmuWalk MmuFill MmuInv MmuCoh MmuProps.
From Stdlib Require Import ZArith Lia Bool.
From stdpp Require Import base list gmap.
Open Scope Z_scope.
Open Scope cint_scope.
Open Scope mm_scope.

Section Term.
Context {M : Type} `{Phys M} (p : prefs) (ce : Z -> Z).
Context (Hmodel : mmu_model p = 68040 \/ mmu_model p = 68060).
Implicit Types st : mst M.

(** A status that a retry does not send back to the table search. *)
Definition settled (super write : bool) (status : Z) : Prop :=
  atc_fault super write status = true \/ write = false \/ Z.testbit status 4 = true.

Lemma desc_get_any a st Q :
  (forall v st', frame st st' -> Q (Ret v) st') -> (forall e st', frame st st' -> Q (Throw e) st') ->
  wpm (desc_get_long p ce a) st Q.
Proof.
  intros HR HT. unfold desc_get_long, x_phys_get_long, set_cache_state, of_phys. repeat wstep. cbn [pm].
  destruct (phys_get_long a (pm st)); [apply wpm_ret; auto with mmu|].
  apply hardware_error_wp. intros st' F _. apply HT. eapply frame_trans; [|done]. auto with mmu.
Qed.

Lemma desc_put_any (b : bool) a v st Q :
  (forall st', frame st st' -> Q (Ret tt) st') -> (forall e st', frame st st' -> Q (Throw e) st') ->
  wpm (whenm b (desc_put_long p a v)) st Q.
Proof.
  intros HR HT. destruct b; cbn [whenm]; [|apply wpm_ret; auto with mmu].
  unfold desc_put_long, x_phys_put_long, set_cache_state, of_phys, set_pm. repeat wstep. cbn [pm].
  destruct (phys_put_long a v (pm st)); repeat wstep; [apply HR; split; auto with mmu|].
  apply hardware_error_wp. intros st' F _. apply HT. eapply frame_trans; [|done]. auto with mmu.
Qed.

(** The descriptor a search ends with. *)
Definition desc_settled (super write : bool) (D : Z) : Prop := D = 0 \/
  (Z.testbit D 0 = true /\ (write = true -> Z.testbit D 2 = true
     \/ (Z.testbit D 7 = true /\ super = false) \/ Z.testbit D 4 = true)).

Lemma page_update_settled super write wp0 d b : um_bits b -> d .& 1 = 1 ->
  default d (page_update write super (wp0 .| d) d) = d .| b ->
  (write = true -> write_ok super (wp0 .| d) d = true -> Z.testbit (d .| b) 4 = true) ->
  desc_settled super write ((d .| b) .| ((wp0 .| d) .& MMU_DES_WP)).
Proof.
  intros Hb H1 _ HM. right. rewrite !(Z.lor_spec (d .| b)), !Z.land_spec. split.
  - rewrite Z.lor_spec, <- (land_bit d 0) by lia. change (2 ^ 0) with 1. by rewrite H1.
  - intros W. specialize (HM W). unfold write_ok in HM.
    change MMU_DES_WP with (2 ^ 2) in HM. change MMU_DES_SUPER with (2 ^ 7) in HM.
    rewrite !land_bit in HM by lia. change (Z.testbit MMU_DES_WP 2) with true.
    destruct (Z.testbit (wp0 .| d) 2); [left; apply orb_true_r|].
    destruct (Z.testbit d 7) eqn:E7, super; cbn [negb andb orb] in HM.
    + right; right. by rewrite HM.
    + right; left. by rewrite Z.lor_spec, E7.
    + right; right. by rewrite HM.
    + right; right. by rewrite HM.
Qed.

Ltac fr := eauto using frame_trans.

Lemma fill_search_settles addr super write s060 st :
  wpm (fill_search p ce addr super write s060) st (fun o st' => frame st st' /\
    match o with Ret (D, s) => desc_settled super write D /\ (D = 0 -> truth s060 = true \/ truth s = true)
               | Throw _ => True end).
Proof.
  assert (Hbad : forall c, truth c = true -> desc_settled super write 0 /\
            (0 = 0 -> truth s060 = true \/ truth (s060 .| c) = true)).
  { intros c Hc. split; [by left|]. intros _. right. unfold truth in *.
    apply negb_true_iff, Z.eqb_neq. intros E%Z.lor_eq_0_iff. destruct E as [_ ->]. done. }
  unfold fill_search. do 3 wstep. apply desc_get_any; [|auto]. intros d1 st1 F1.
  destruct (d1 .& 2 =? 0); [apply wpm_ret; auto|]. wstep.
  apply desc_put_any; [|fr]. intros st2 F2. wstep. apply desc_get_any; [|fr]. intros d2 st3 F3.
  destruct (d2 .& 2 =? 0); [apply wpm_ret; split; [fr|auto]|]. wstep.
  apply desc_put_any; [|intros; split; [fr|done]]. intros st4 F4. wstep.
  apply desc_get_any; [|intros; split; [fr|done]]. intros d3 st5 F5. wstep.
  assert (F05 : frame st st5) by (eauto 6 using frame_trans). clear F1 F2 F3 F4 F5 st1 st2 st3 st4.
  assert (Hlast : forall da d st6, frame st st6 -> wpm (if d .& 1 =? 1 then
       let wp := d1 .| d2 .| d in
       let! desc := match page_update write super wp d with
         | Some d' => whenm (negb (mmu_debugger st)) (desc_put_long p da d') ;;; mmret d'
         | None => mmret d end in
       mmret (desc .| (wp .& MMU_DES_WP), s060)
     else mmret (0, s060 .| (if d .& 3 =? 2 then MMU_FSLW_IL else MMU_FSLW_PF))) st6
    (fun o st' => frame st st' /\ match o with
       | Ret (D, s) => desc_settled super write D /\ (D = 0 -> truth s060 = true \/ truth s = true)
       | Throw _ => True end)).
  { intros da d st6 F6. destruct (Z.eqb_spec (d .& 1) 1) as [Hd|];
      [|apply wpm_ret; split; [done|]; apply Hbad; by destruct (_ =? 2)].
    destruct (page_update_spec write super (d1 .| d2 .| d) d) as (b & Hb & Hdef & Hn & _ & HM).
    pose proof (page_update_settled super write (d1 .| d2) d b Hb Hd Hdef HM) as Hset.
    assert (Hnz : (d .| b) .| ((d1 .| d2 .| d) .& MMU_DES_WP) <> 0).
    { intros E%Z.lor_eq_0_iff. destruct E as [E%Z.lor_eq_0_iff _]. destruct E as [-> _]. done. }
    cbv zeta. wstep. destruct (page_update write super _ d) as [d'|]; cbn [from_option id] in Hdef.
    - subst d'. wstep. apply desc_put_any; [|fr]. intros st7 F7. repeat wstep. split; [fr|].
      split; [done|]. by intros.
    - rewrite (Hn eq_refl), Z.lor_0_r in *. repeat wstep. split; [done|]. split; [done|]. by intros. }
  destruct (d3 .& 3 =? 2).
  - do 1 wstep. apply desc_get_any; [|intros; split; [fr|done]]. intros d4 st6 F6. wstep. apply Hlast. fr.
  - wstep. by apply Hlast.
Qed.

Lemma desc_settled_status super write D : desc_settled super write D ->
  settled super write (D .& status_mask).
Proof.
  intros HD. unfold settled. rewrite atc_fault_eq, !Z.land_spec.
  change (Z.testbit status_mask 0) with true. change (Z.testbit status_mask 2) with true.
  change (Z.testbit status_mask 4) with true. change (Z.testbit status_mask 7) with true.
  rewrite !andb_true_r. destruct HD as [->|[H0 HW]].
  - left. by rewrite !Z.testbit_0_l, orb_true_r.
  - destruct write; [|by right; left]. rewrite H0.
    destruct HW as [-> | [[-> ->] | ->]]; [done|by left|by left; destruct (Z.testbit D 2)|by right; right].
Qed.

(** The tail of [mmu_fill_atc] touches neither lines nor ways. *)
Lemma mmu_fill_atc_settles addr super tag write pos st : (pos < length (lines (tlb st)))%nat ->
  wpm (mmu_fill_atc p ce addr super tag write pos 0) st (fun o st' => exists status s,
    o = Ret (status, s) /\ length (lines (tlb st')) = length (lines (tlb st)) /\
    way_random (tlb st') = way_random (tlb st) /\
    ((truth s && (mmu_model p =? 68060)) = true \/
     settled super write (l_status (lines (tlb st') !!! pos)))).
Proof.
  intros Hpos. unfold mmu_fill_atc, set_reg_s, set_core, flush_shortcut_cache, set_tlb.
  do 5 wstep. wstep. wstep. eapply wpm_conseq; [apply fill_search_settles|].
  assert (Hfl : forall mm t, lines (flush_fast mm addr super t) = lines t /\
            way_random (flush_fast mm addr super t) = way_random t).
  { intros mm t. split; apply flush_fast_lines. }
  assert (Herr : settled super write 0) by (left; by rewrite atc_fault_eq, !Z.testbit_0_l, orb_true_r).
  assert (H060 : mmu_model p <> 68040 -> (mmu_model p =? 68060) = true)
    by (destruct Hmodel; [done|intros; by apply Z.eqb_eq]).
  intros o st2 [F Ho]. destruct F as [_ Ft _]. cbn in Ft. destruct o as [[D s]|e].
  - destruct Ho as [HD Hz]. unfold fill_finish, set_line, set_tlb. repeat wstep.
    destruct ((mmu_model p =? 68040) || truth (D .& MMU_MMUSR_R)) eqn:Hw; repeat wstep; cbn [tlb core];
      eexists _, _; (split; [done|]); rewrite !(proj1 (Hfl _ _)), !(proj2 (Hfl _ _)), Ft; cbn [lines way_random].
    + rewrite length_insert. split_and!; [done..|]. right.
      rewrite list_lookup_total_insert_eq by done. by apply desc_settled_status.
    + split_and!; [done..|]. left. apply orb_false_iff in Hw as [Hm HR]. apply Z.eqb_neq in Hm.
      rewrite (H060 Hm), andb_true_r. destruct HD as [->|[H0 _]].
      * rewrite !Z.land_0_l. change (truth 0) with false. rewrite !andb_false_r.
        destruct (Hz eq_refl); done.
      * change MMU_MMUSR_R with (2 ^ 0) in HR. by rewrite land_bit, H0 in HR by lia.
  - unfold set_line, set_tlb. destruct (Z.eqb_spec (mmu_model p) 68040) as [|Hm]; cbn [whenm]; repeat wstep;
      cbn [tlb core]; eexists _, _; (split; [done|]);
      rewrite !(proj1 (Hfl _ _)), !(proj2 (Hfl _ _)), Ft; cbn [lines way_random].
    + rewrite length_insert. split_and!; [done..|]. right. by rewrite list_lookup_total_insert_eq.
    + split_and!; [done..|]. left. by rewrite (H060 Hm).
Qed.

Section Loop.
Context (addr val : Z) (super data write : bool) (size : Z).

Lemma bind_congr {A B} (m : MM M A) (k k' : A -> MM M B) st :
  (forall a st', m st = (Ret a, st') -> k a st' = k' a st') -> mmbind m k st = mmbind m k' st.
Proof. intros Hk. unfold mmbind. destruct (m st) as [[]] eqn:E; auto. Qed.

Lemma bind_eq {A B} (m : MM M A) (k : A -> MM M B) st a st' :
  m st = (Ret a, st') -> mmbind m k st = k a st'.
Proof. intros E. unfold mmbind. by rewrite E. Qed.

Lemma atc_retry_settled index refill refill' way s060 st :
  settled super write (l_status (lines (tlb st) !!! atc_pos data index way)) ->
  atc_retry p addr val super data write size index refill way s060 st
    = atc_retry p addr val super data write size index refill' way s060 st /\
  fst (atc_retry p addr val super data write size index refill way s060 st) <> Ret None.
Proof.
  intros Hs. unfold atc_retry. rewrite !(bind_eq getst _ st st st) by done.
  set (l := lines (tlb st) !!! _) in *.
  destruct (atc_fault super write (l_status l)) eqn:Hf.
  - split; [done|]. apply (bus_error_wp p addr val _ _ _ _ _ st (fun o _ => o <> Ret None)). done.
  - assert (Hn : negb (truth (l_status l .& MMU_MMUSR_M)) && write = false).
    { change MMU_MMUSR_M with (2 ^ 4). rewrite land_bit by lia.
      destruct Hs as [Hs|[->| ->]]; [congruence|apply andb_false_r|done]. }
    rewrite Hn. done.
Qed.

(** After the loop: one fill is enough. *)
Lemma atc_refill_once index way_invalid tag n st :
  0 <= index < 16 -> (way_invalid = 4 \/ 0 <= way_invalid < 4) -> 0 <= way_random (tlb st) ->
  length (lines (tlb st)) = 128%nat ->
  atc_refill p ce addr val super data write size tag index (S n) way_invalid 0 st
    = atc_refill p ce addr val super data write size tag index 1 way_invalid 0 st /\
  fst (atc_refill p ce addr val super data write size tag index (S n) way_invalid 0 st) <> Ret None.
Proof.
  intros Hix Hwi Hr Hlen.
  set (r := Z.rem (way_random (tlb st)) ATC_WAYS).
  assert (Hr4 : 0 <= r < 4).
  { unfold r, ATC_WAYS. rewrite Z.rem_mod_nonneg by lia. apply Z.mod_pos_bound. lia. }
  set (way := if way_invalid <? ATC_WAYS then way_invalid else r).
  assert (Hway : 0 <= way < 4) by (unfold way, ATC_WAYS; destruct (Z.ltb_spec way_invalid 4); lia).
  pose proof (atc_pos_lt data index way (conj Hix Hway)) as Hpos.
  pose proof (mmu_fill_atc_settles addr super tag write (atc_pos data index way) (with_random r st)) as Hfill.
  rewrite wpm_run in Hfill. destruct Hfill as (o & st2 & Ef & status & s & -> & Hl2 & _ & Hset).
  { cbn. lia. }
  assert (Hun : forall m, atc_refill p ce addr val super data write size tag index (S m) way_invalid 0 st
    = (whenm (truth s && (mmu_model p =? 68060))
         (mmu_bus_error p addr val (mmu_get_fc super data) write size s false) ;;;
       bump_random ;;;
       atc_retry p addr val super data write size index
         (fun w => atc_refill p ce addr val super data write size tag index m w s) way s) st2).
  { intros m. cbn [atc_refill]. rewrite (bind_eq (set_tlb _) _ st tt (with_random r st)) by done.
    rewrite (bind_eq getst _ _ (with_random r st) (with_random r st)) by done. cbv zeta.
    change (way_random (tlb (with_random r st))) with r. fold way.
    by rewrite (bind_eq _ _ _ _ _ Ef). }
  rewrite !Hun.
  destruct (truth s && (mmu_model p =? 68060)) eqn:Herr; cbn [whenm].
  - split.
    + apply bind_congr. intros a st' E. exfalso.
      pose proof (bus_error_wp (A := unit) p addr val (mmu_get_fc super data) write size s false st2
                    (fun o _ => o = Throw 2) (fun _ _ _ => eq_refl)) as Hb.
      unfold wpm in Hb. by rewrite E in Hb.
    + apply (wpm_bind (mmu_bus_error p addr val (mmu_get_fc super data) write size s false) _ st2
               (fun o _ => o <> Ret None)). by apply bus_error_wp.
  - destruct Hset as [?|Hset]; [congruence|]. rewrite !(bind_eq (mmret tt) _ st2 tt st2) by done.
    rewrite !(bind_eq bump_random _ st2 tt (with_random (s32 (way_random (tlb st2) + 1)) st2)) by done.
    by apply atc_retry_settled.
Qed.
End Loop.
End Term.
