(* ===== verification/MmuRam.v ===== *)
(** * MmuRam: a concrete memory with translation tables

    RAM organised in long words, with a bus error above its end, as an
    instance of the memory interface of the MMU; a small set of tables in
    it; and the state of an MMU that was just enabled on them. *)

From S2P Require Import Prelude Flags Cpu Movec Mmu MmuWalk MmuFill MmuInv MmuCoh MmuProps.
From Stdlib Require Import ZArith Lia Bool.
From stdpp Require Import base list gmap.
Open Scope Z_scope.
Open Scope cint_scope.
Open Scope mm_scope.

Record lram := mk_lram { lsize : Z; lcells : gmap Z Z }.

Definition lram_in (a n : Z) (m : lram) : bool := (0 <=? a) && (a + n <=? lsize m).
Definition lram_long (m : lram) (a : Z) : Z := u32 (default 0 (lcells m !! a)).
Definition lram_byte (m : lram) (a : Z) : Z := (lram_long m (a - a mod 4) >> (24 - 8 * (a mod 4))) .& 255.
Definition lram_set_byte (a v : Z) (m : lram) : lram :=
  let sh := 24 - 8 * (a mod 4) in
  let c := lram_long m (a - a mod 4) in
  mk_lram (lsize m) (<[a - a mod 4 := (c .& Z.lnot (255 << sh)) .| (u8 v << sh)]> (lcells m)).

#[export] Instance lram_phys : Phys lram := {|
  phys_get_byte := fun a m => if lram_in a 1 m then Some (lram_byte m a) else None;
  phys_get_word := fun a m => if lram_in a 2 m
    then Some (lram_byte m a * 256 + lram_byte m (a + 1)) else None;
  phys_get_long := fun a m => if lram_in a 4 m
    then Some (if a mod 4 =? 0 then lram_long m a
               else ((lram_byte m a * 256 + lram_byte m (a + 1)) * 256 + lram_byte m (a + 2)) * 256
                    + lram_byte m (a + 3)) else None;
  phys_put_byte := fun a v m => if lram_in a 1 m then Some (lram_set_byte a v m) else None;
  phys_put_word := fun a v m => if lram_in a 2 m
    then Some (lram_set_byte (a + 1) v (lram_set_byte a (v >> 8) m)) else None;
  phys_put_long := fun a v m => if lram_in a 4 m
    then Some (if a mod 4 =? 0 then mk_lram (lsize m) (<[a := u32 v]> (lcells m))
               else lram_set_byte (a + 3) v (lram_set_byte (a + 2) (v >> 8)
                      (lram_set_byte (a + 1) (v >> 16) (lram_set_byte a (v >> 24) m)))) else None |}.

Lemma lram_byte_range m a : 0 <= lram_byte m a < 256.
Proof.
  unfold lram_byte. change 255 with (Z.ones 8). rewrite Z.land_ones by lia. apply Z.mod_pos_bound. lia.
Qed.

#[export] Instance lram_laws : PhysLaws lram.
Proof.
  split.
  - intros m a v. cbn. destruct (lram_in a 4 m); [|done]. intros [= <-].
    destruct (a mod 4 =? 0); [apply u32_range|].
    pose proof (lram_byte_range m a). pose proof (lram_byte_range m (a + 1)).
    pose proof (lram_byte_range m (a + 2)). pose proof (lram_byte_range m (a + 3)).
    unfold is_u32. lia.
  - intros m a v w [_ Ha]%cell_mod Hw. cbn [phys_get_long phys_put_long lram_phys]. destruct (lram_in a 4 m) eqn:Ei; [|done]. intros _.
    rewrite Ha. eexists. split; [done|]. intros b [_ Hb]%cell_mod. rewrite Hb. change (0 =? 0) with true. cbv iota.
    unfold lram_in, lram_long. cbn [lsize lcells]. rewrite lookup_insert, (u32_small w) by done.
    destruct (Z.eqb_spec a b) as [<-|Hne].
    + unfold lram_in in Ei. rewrite Ei. rewrite decide_True by done. cbn. by rewrite u32_small.
    + by rewrite decide_False.
Qed.

(** ** Tables

    Root table at $1000, one pointer table at $1200, one page table at
    $2000: page 1 is at $5000, page 2 at $6000 and write protected, page 3
    is found through an indirect descriptor, page 4 is for the supervisor,
    the rest of the space is invalid. *)
Definition demo_cells : gmap Z Z := list_to_map
  [(0x1000, 0x1202); (0x1200, 0x2002); (0x2004, 0x5001); (0x2008, 0x6005);
   (0x200C, 0x2402); (0x2010, 0x8081); (0x2400, 0x7001)].
Definition demo_ram : lram := mk_lram 0x100000 demo_cells.
Definition demo_upper (a : Z) : bool := a <? 0x2000.

Lemma demo_cells_check : map_Forall (fun a v =>
    (0x1000 <= a < 0x1200 -> v = 0x1202) /\ (0x1200 <= a < 0x2000 -> v = 0x2002)) demo_cells.
Proof. refine (bool_decide_unpack _ _). vm_compute. exact I. Qed.

Lemma demo_long a : 0x1000 <= a < 0x2000 -> (lram_long demo_ram a) .& 2 <> 0 ->
  (0x1000 <= a < 0x1200 -> lram_long demo_ram a = 0x1202) /\
  (0x1200 <= a < 0x2000 -> lram_long demo_ram a = 0x2002).
Proof.
  intros Ha. unfold lram_long. cbn [lcells demo_ram]. destruct (demo_cells !! a) as [v|] eqn:E.
  - pose proof (demo_cells_check a v E) as [H1 H2]. intros _. cbn [from_option id]. split; intros.
    + by rewrite H1.
    + by rewrite H2.
  - intros H0. by destruct H0.
Qed.

Lemma low_field x k : 0 <= k -> 0 <= ((x >> k) .& 0x1fc) < 0x200.
Proof.
  intros. change 0x1fc with (Z.ones 7 << 2). rewrite land_shl_mask, Z.land_ones, Z.shiftl_mul_pow2 by lia.
  pose proof (Z.mod_pos_bound ((x >> k) >> 2) (2 ^ 7)). lia.
Qed.

Lemma demo_root addr : 0x1000 <= root_cell 0x1000 addr < 0x1200.
Proof.
  unfold root_cell. change (0x1000 .& MMU_ROOT_PTR_ADDR_MASK) with (8 << 9). rewrite Z.lor_comm.
  pose proof (low_field addr 23). rewrite lor_shl_add by lia. lia.
Qed.

Lemma demo_ptr addr : 0x1200 <= ptr_cell 0x1202 addr < 0x1400.
Proof.
  unfold ptr_cell. change (0x1202 .& MMU_ROOT_PTR_ADDR_MASK) with (9 << 9). rewrite Z.lor_comm.
  pose proof (low_field addr 16). rewrite lor_shl_add by lia. lia.
Qed.

Lemma demo_page addr : 0x2000 <= page_cell false 0x2002 addr.
Proof.
  unfold page_cell. change (0x2002 .& MMU_PTR_PAGE_ADDR_MASK_4) with 0x2000.
  change 0xfc with (Z.ones 6 << 2). rewrite land_shl_mask, Z.land_ones, Z.shiftl_mul_pow2 by lia.
  pose proof (Z.mod_pos_bound ((addr >> 10) >> 2) (2 ^ 6)). rewrite u32_small; [|unfold is_u32]; lia.
Qed.

Lemma demo_get a v : cell a -> 0x1000 <= a < 0x2000 -> phys_get_long a demo_ram = Some v ->
  v = lram_long demo_ram a.
Proof.
  intros [_ Ha]%cell_mod Hr. cbn. destruct (lram_in a 4 demo_ram); [|done]. rewrite Ha. by intros [= <-].
Qed.

Lemma demo_tables : tables_ok demo_upper demo_ram false 0x1000.
Proof.
  assert (H1 : forall addr d1, phys_get_long (root_cell 0x1000 addr) demo_ram = Some d1 ->
    d1 .& 2 <> 0 -> d1 = 0x1202).
  { intros addr d1 E V. pose proof (demo_root addr).
    apply demo_get in E as ->; [|auto with mmu|lia]. apply demo_long; [lia|done|lia]. }
  split.
  - intros addr. pose proof (demo_root addr). apply Z.ltb_lt. lia.
  - intros addr d1 E V. rewrite (H1 _ _ E V). pose proof (demo_ptr addr). apply Z.ltb_lt. lia.
  - intros addr d1 d2 E V E2 V2. rewrite (H1 _ _ E V) in E2. pose proof (demo_ptr addr).
    apply demo_get in E2 as ->; [|auto with mmu|lia].
    rewrite (proj2 (demo_long (ptr_cell 0x1202 addr) ltac:(lia) V2)) by lia. pose proof (demo_page addr). apply Z.ltb_ge. lia.
Qed.

(** ** The MMU, enabled with 4K pages on these tables *)
Definition tlb0 : atcst :=
  mk_atcst (replicate 128 (mk_line 0 false 0 0)) [0; 0] 0 0xFFF 0 0 fast_empty fast_empty.
Definition flt0 : faultst := mk_faultst 0 0 0 0 0 0 0 0 0 false false false false 0 0.
Definition demo_prefs (model : Z) : prefs := mk_prefs model 0 model false false.
Definition demo_core : cpu := mk_cpu [0; 0; 0; 0; 0; 0; 0; 0; 0x1234; 0x2000; 0x3000; 0x9000; 0; 0; 0; 0x5000]
  (mk_flags 0 0) true 0 0x2700
  {| ctl0 with urp := 0x1000; srp := 0x1000; dfc := 5; sfc := 5 |}
  {| mmu0 with mmu_enabled := true |} [].
Definition demo_mst : mst lram := mk_mst demo_core tlb0 flt0 0 false demo_ram.
