(* ===== verification/MmuTtr.v ===== *)
(** * MmuTtr: transparent translation

    When a transparent translation register matches, and that matching only
    touches the cache state of the access. *)

From S2P Require Import Prelude Flags Cpu Movec Mmu MmuWalk MmuFill MmuInv MmuCoh MmuProps MmuRam.
From Stdlib Require Import ZArith Lia Bool.
From stdpp Require Import base list gmap.
Open Scope Z_scope.
Open Scope cint_scope.
Open Scope mm_scope.

(** The test of one register as a boolean. *)
Definition ttr_hit (ttr addr : Z) (super : bool) : bool :=
  truth (ttr .& MMU_TTR_BIT_ENABLED)
  && (u8 (((addr .^ ttr) .& MMU_TTR_LOGICAL_BASE) >> 24)
        .& Z.lnot (u8 ((ttr .& MMU_TTR_LOGICAL_MASK) >> 16)) =? 0)
  && negb ((ttr .& MMU_TTR_BIT_SFIELD_ENABLED =? 0)
           && negb (Bool.eqb (ttr .& MMU_TTR_BIT_SFIELD_SUPER =? 0) (negb super))).

Definition ttr_res (ttr addr : Z) (super : bool) : Z :=
  if ttr_hit ttr addr super
  then if truth (ttr .& MMU_TTR_BIT_WRITE_PROTECT) then TTR_NO_WRITE else TTR_OK_MATCH
  else TTR_NO_MATCH.

(** The test of a pair: the first register that matches decides. *)
Definition ttr_pair (ttr0 ttr1 addr : Z) (super : bool) : Z :=
  if ttr_res ttr0 addr super =? TTR_NO_MATCH then ttr_res ttr1 addr super
  else ttr_res ttr0 addr super.

(** What the four registers say of an access. *)
Definition ttr_access (c : cpu) (addr : Z) (super data : bool) : Z :=
  if mmu_ttr_enabled (rmmu c)
  then if data then ttr_pair (dtt0 (rctl c)) (dtt1 (rctl c)) addr super
       else ttr_pair (itt0 (rctl c)) (itt1 (rctl c)) addr super
  else TTR_NO_MATCH.

Definition with_cs {M} (v : Z) (st : mst M) : mst M := {| st with mmu_cache_state := v |}.

Section Ttr.
Context {M : Type} `{Phys M}.
Implicit Types st : mst M.

Lemma do_match_eq ttr addr super st : mmu_do_match_ttr ttr addr super st =
  (Ret (ttr_res ttr addr super),
   if ttr_hit ttr addr super then with_cs (ttr_cache_state ttr) st else st).
Proof.
  unfold mmu_do_match_ttr, ttr_res, ttr_hit. destruct (truth (ttr .& MMU_TTR_BIT_ENABLED)); [|done].
  cbn [andb]. destruct (_ .& Z.lnot _ =? 0); [|done]. cbn [andb].
  by destruct (_ && negb (Bool.eqb _ _)).
Qed.

(** Only the cache state changes. *)
Definition same_but_cs st st' : Prop := exists v, st' = with_cs v st.

Lemma same_but_cs_refl st : same_but_cs st st.
Proof. exists (mmu_cache_state st). by destruct st. Qed.
Lemma same_but_cs_trans s1 s2 s3 : same_but_cs s1 s2 -> same_but_cs s2 s3 -> same_but_cs s1 s3.
Proof. intros [a ->] [b ->]. by exists b. Qed.

Lemma do_match_wp ttr addr super st Q :
  (forall st', same_but_cs st st' -> Q (Ret (ttr_res ttr addr super)) st') ->
  wpm (mmu_do_match_ttr ttr addr super) st Q.
Proof.
  intros HQ. unfold wpm. rewrite do_match_eq. apply HQ.
  destruct (ttr_hit ttr addr super); [by eexists|apply same_but_cs_refl].
Qed.

Lemma match_two_wp t0 t1 addr super st Q :
  (forall st', same_but_cs st st' -> Q (Ret (ttr_pair t0 t1 addr super)) st') ->
  wpm (match_two t0 t1 addr super) st Q.
Proof.
  intros HQ. unfold match_two, ttr_pair in *. wstep. apply do_match_wp. intros st1 H1.
  destruct (_ =? TTR_NO_MATCH).
  - apply do_match_wp. intros st2 H2. apply HQ. by eapply same_but_cs_trans.
  - apply wpm_ret. auto.
Qed.

Lemma mmu_match_ttr_wp addr super data st Q :
  (forall st', same_but_cs st st' -> Q (Ret (ttr_access (core st) addr super data)) st') ->
  wpm (mmu_match_ttr addr super data) st Q.
Proof.
  intros HQ. unfold mmu_match_ttr, ttr_access in *. repeat wstep.
  destruct (mmu_ttr_enabled (rmmu (core st))); cbn [negb].
  - destruct data; by apply match_two_wp.
  - apply wpm_ret. apply HQ. apply same_but_cs_refl.
Qed.

(** A transparent translation register matches exactly when it is enabled,
    every address bit 31-24 not covered by its mask equals its base bit, and
    its S field accepts the privilege level; a match yields its write
    protection and cache mode, and nothing but the access's cache state
    changes. *)
Lemma ttr_match_spec ttr addr super st :
  mmu_do_match_ttr ttr addr super st =
    (Ret (ttr_res ttr addr super),
     if ttr_hit ttr addr super then with_cs (ttr_cache_state ttr) st else st) /\
  (ttr_hit ttr addr super = true <->
     Z.testbit ttr 15 = true /\
     (forall i, 24 <= i < 32 -> Z.testbit ttr (i - 8) = true \/ Z.testbit addr i = Z.testbit ttr i) /\
     (Z.testbit ttr 14 = true \/ Z.testbit ttr 13 = super)).
Proof.
  split; [apply do_match_eq|]. unfold ttr_hit.
  change MMU_TTR_BIT_ENABLED with (2 ^ 15). change MMU_TTR_BIT_SFIELD_ENABLED with (2 ^ 14).
  change MMU_TTR_BIT_SFIELD_SUPER with (2 ^ 13).
  rewrite land_bit, !land_pow2_eqb by lia. rewrite !andb_true_iff.
  assert (Hs : negb (negb (Z.testbit ttr 14) && negb (Bool.eqb (negb (Z.testbit ttr 13)) (negb super))) = true
               <-> Z.testbit ttr 14 = true \/ Z.testbit ttr 13 = super).
  { destruct (Z.testbit ttr 14), (Z.testbit ttr 13), super; cbn; intuition congruence. }
  rewrite Hs. clear Hs.
  assert (Hm : (u8 (((addr .^ ttr) .& MMU_TTR_LOGICAL_BASE) >> 24)
        .& Z.lnot (u8 ((ttr .& MMU_TTR_LOGICAL_MASK) >> 16)) =? 0) = true <->
     (forall i, 24 <= i < 32 -> Z.testbit ttr (i - 8) = true \/ Z.testbit addr i = Z.testbit ttr i)).
  { rewrite Z.eqb_eq. change MMU_TTR_LOGICAL_BASE with (Z.ones 8 << 24).
    change MMU_TTR_LOGICAL_MASK with (Z.ones 8 << 16).
    rewrite !mask_mid by lia. unfold u8. change 256 with (2 ^ 8). rewrite !Z.mod_mod by lia.
    assert (Hb : forall j z k, 0 <= j -> 0 <= k -> Z.testbit ((z / 2 ^ k) mod 2 ^ 8) j = (j <? 8) && Z.testbit z (j + k)).
    { intros j z k Hj Hk. destruct (Z.ltb_spec j 8).
      - rewrite Z.mod_pow2_bits_low, Z.div_pow2_bits by lia. done.
      - by rewrite Z.mod_pow2_bits_high by lia. }
    split.
    - intros E i Hi. apply (f_equal (fun z => Z.testbit z (i - 24))) in E.
      rewrite Z.bits_0, Z.land_spec, Z.lnot_spec, !Hb, Z.lxor_spec in E by lia.
      rewrite (proj2 (Z.ltb_lt (i - 24) 8)) in E by lia.
      replace (i - 24 + 24) with i in E by lia. replace (i - 24 + 16) with (i - 8) in E by lia.
      destruct (Z.testbit ttr (i - 8)), (Z.testbit addr i), (Z.testbit ttr i); cbn in E; auto.
    - intros Hi. apply Z.bits_inj'. intros j Hj.
      rewrite Z.bits_0, Z.land_spec, Z.lnot_spec, !Hb, Z.lxor_spec by lia.
      destruct (Z.ltb_spec j 8); [|done]. specialize (Hi (j + 24) ltac:(lia)).
      replace (j + 24 - 8) with (j + 16) in Hi by lia.
      destruct (Z.testbit ttr (j + 16)), (Z.testbit addr (j + 24)), (Z.testbit ttr (j + 24)); cbn; intuition congruence. }
  rewrite Hm. tauto.
Qed.
End Ttr.
