(* ===== verification/MmuTop.v ===== *)
(** * MmuTop: what the MMU promises

    The theorems of the 68040/060 MMU: translation refines the table search,
    the retry loop ends, writes leave the page marked modified, and the MMU
    instructions keep the caches coherent. *)

From S2P Require Import Prelude Flags Cpu Movec Mmu MmuAccess MmuWalk MmuFill MmuInv MmuCoh MmuProps MmuTerm MmuRam.
From Stdlib Require Import ZArith Lia Bool.
From stdpp Require Import base list gmap.
Open Scope Z_scope.
Open Scope cint_scope.
Open Scope mm_scope.

(** ** Empty caches *)
Lemma caches_ok_invalid mm W t : geo mm -> length (lines t) = 128%nat ->
  Forall (fun l => l_valid l = false) (lines t) -> ways_ok t ->
  atc_last_ins_laddr t = mmu_pagemask mm -> atc_data_cache_read t = fast_empty ->
  atc_data_cache_write t = fast_empty -> caches_ok mm W t.
Proof.
  intros HG Hl Hv Hw Hi Hr Hww.
  assert (Hat : forall data index way, slot_ok index way ->
            l_valid (lines t !!! atc_pos data index way) = false).
  { intros data index way Hs. pose proof (atc_pos_lt data _ _ Hs).
    destruct (lookup_lt_is_Some_2 (lines t) (atc_pos data index way)) as [l E]; [lia|].
    rewrite (list_lookup_total_correct _ _ _ E). by eapply Forall_lookup_1 in Hv. }
  split; [..|by rewrite Hr; apply fast_ok_empty|by rewrite Hww; apply fast_ok_empty].
  - split; [done|]. intros data index way Hs l V. unfold l in V. by rewrite Hat in V.
  - intros data index w1 w2 Hs1 Hs2 l1 l2 V1. unfold l1 in V1. by rewrite Hat in V1.
  - done.
  - intros addr super Ha Hk. rewrite Hi in Hk. by apply ins_key_empty in Hk.
Qed.

Lemma demo_ways : ways_ok tlb0.
Proof. split; [done|]. split; [|done]. repeat constructor; lia. Qed.

Lemma demo_inv : mmu_inv demo_upper demo_mst.
Proof.
  split; [done|done| |].
  - intros [|]; exact demo_tables.
  - apply caches_ok_invalid; try done.
    + by apply Forall_replicate.
    + exact demo_ways.
Qed.

(** A translation leaves a state related to the one before by used and
    modified bits only. *)
Section Translate.
Context {M : Type} `{Phys M} `{!PhysLaws M} (p : prefs) (ce : Z -> Z) (U : Z -> bool).
Context (Hmodel : mmu_model p = 68040 \/ mmu_model p = 68060).

Lemma mmu_translate_wp addr val super data write size st : mmu_inv U st -> is_u32 addr ->
  way_random (tlb st) < 2147483647 ->
  wpm (mmu_translate p ce addr val super data write size) st (fun o st' =>
    mmu_inv U st' /\ um_step U st st' /\
    match walk_addr (rmmu (core st)) addr super write (walk_of st super addr) with
    | Some pa => o = Ret pa /\ (write = true -> page_dirty (walk_of st' super addr) = true)
    | None => o = Throw 2
    end).
Proof.
  intros Hi Ha Hr. unfold mmu_translate. wstep. eapply wpm_conseq; [by apply mmu_translate_fuel_wp|].
  intros o st' (Hi' & Hs & Hx). unfold xlate in Hx. destruct (walk_addr _ _ _ _ _) as [pa|].
  - destruct Hx as [-> Hd]. wstep. done.
  - by subst o.
Qed.
End Translate.


Definition flat_cachable (_ : Z) : Z := 0xc3.


(** The loop behind [goto atc_retry] ends: with enough fuel for one refill
    [mmu_translate] never runs out, and more fuel gives the same result, for
    any contents of memory, tables and caches. *)
Theorem translate_terminates {M} `{Phys M} p ce (st : mst M) addr val super data write size n :
  mmu_model p = 68040 \/ mmu_model p = 68060 ->
  length (lines (tlb st)) = 128%nat -> ways_ok (tlb st) -> way_random (tlb st) < 2147483647 ->
  mmu_translate_fuel p ce (S n) addr val super data write size st
    = mmu_translate_fuel p ce 1 addr val super data write size st /\
  fst (mmu_translate_fuel p ce (S n) addr val super data write size st) <> Ret None.
Proof.
  intros Hm Hl (Hl2 & Hwf & Hr0) Hr. unfold mmu_translate_fuel.
  rewrite !(bind_eq getst _ st st st) by done. cbv zeta.
  set (st1 := with_random (s32 (way_random (tlb st) + 1)) st).
  rewrite !(bind_eq bump_random _ st tt st1) by done.
  assert (Hr1 : 0 <= way_random (tlb st1)) by (apply s32_bump; lia).
  set (mm := rmmu (core st)). set (way := mmu_atc_ways (tlb st) !!! Z.to_nat (Z.b2z data)).
  assert (Hway : 0 <= way < 4).
  { unfold way. destruct (lookup_lt_is_Some_2 (mmu_atc_ways (tlb st)) (Z.to_nat (Z.b2z data))) as [w Ew].
    - rewrite Hl2. destruct data; cbn; lia.
    - rewrite (list_lookup_total_correct _ _ _ Ew). by eapply Forall_lookup_1 in Hwf. }
  pose proof (atc_scan_all (lines (tlb st)) data (atc_index mm addr) (atc_tag mm addr super) way ATC_WAYS Hway)
    as Hsc. change (Z.to_nat ATC_WAYS) with 4%nat. pose proof (atc_index_range mm addr) as Hix.
  destruct (atc_scan _ _ _ _ 4 _ _) as [w|wi].
  - destruct Hsc as [Hw _]. unfold atc_retry. rewrite !(bind_eq getst _ st1 st1 st1) by done.
    set (l := lines (tlb st1) !!! _). destruct (atc_fault super write (l_status l)).
    + split; [done|]. apply (bus_error_wp p addr val _ _ _ _ _ st1 (fun o _ => o <> Ret None)). done.
    + destruct (negb (truth (l_status l .& MMU_MMUSR_M)) && write); [|done].
      apply atc_refill_once; auto.
  - destruct Hsc as [Hwi _]. by apply atc_refill_once.
Qed.

Lemma translate_terminates_witness :
  fst (mmu_translate_fuel (demo_prefs 68060) flat_cachable 8 0x3abc 0 true true true 2 demo_mst)
    <> Ret None /\
  fst (mmu_translate_fuel (demo_prefs 68060) flat_cachable 1 0x3abc 0 true true true 2 demo_mst)
    = Ret (Some 0x7abc).
Proof.
  split.
  - apply (translate_terminates (demo_prefs 68060) flat_cachable demo_mst 0x3abc 0 true true true 2 7);
      [by right|done|exact demo_ways|done].
  - vm_compute. reflexivity.
Defined.


