(* ===== verification/MmuData.v ===== *)
(** * MmuData: data accesses and MMU instructions on top of the translation

    Reads and writes through the page shortcuts reach the physical address
    the tables (or a transparent translation register) prescribe, and PFLUSH,
    PTEST, PLPA and writes of TC keep the caches coherent. *)

From S2P Require Import Prelude Flags Cpu Movec Mmu MmuAccess MmuWalk MmuFill MmuInv MmuCoh MmuProps MmuTerm MmuRam MmuTtr MmuTop.
From Stdlib Require Import ZArith Lia Bool.
From stdpp Require Import base list gmap.
Open Scope Z_scope.
Open Scope cint_scope.
Open Scope mm_scope.

(** ** Where an access goes *)
Section Spec.
Context {M : Type} `{Phys M}.

(** A read: a transparent register, the tables, or the address itself. *)
Definition read_target (st : mst M) (addr : Z) (super data : bool) : option Z :=
  if (ttr_access (core st) addr super data =? TTR_NO_MATCH) && mmu_enabled (rmmu (core st))
  then walk_addr (rmmu (core st)) addr super false (walk_of st super addr)
  else Some addr.

(** A write: also subject to write protection by the register, and to the
    68060's default write protection when a register is enabled at all. *)
Definition write_target (st : mst M) (addr : Z) (super data : bool) : option Z :=
  let r := ttr_access (core st) addr super data in
  if mmu_ttr_enabled (rmmu (core st))
     && ((r =? TTR_NO_WRITE)
         || ((r =? TTR_NO_MATCH) && negb (mmu_enabled (rmmu (core st)))
             && truth (tcr (rctl (core st)) .& MMU_TCR_DWO)))
  then None
  else if (r =? TTR_NO_MATCH) && mmu_enabled (rmmu (core st))
  then walk_addr (rmmu (core st)) addr super true (walk_of st super addr)
  else Some addr.
End Spec.

Section Data.
Context {M : Type} `{Phys M} `{!PhysLaws M} (p : prefs) (ce : Z -> Z) (U : Z -> bool).
Context (Hmodel : mmu_model p = 68040 \/ mmu_model p = 68060).
Implicit Types st : mst M.

Lemma same_cs_inv st st' : same_but_cs st st' -> mmu_inv U st -> mmu_inv U st'.
Proof. intros [v ->] [? ? ? ?]. by split. Qed.
Lemma same_cs_step st st' : same_but_cs st st' -> um_step U st st'.
Proof. intros [v ->]. split; cbn; auto with mmu. Qed.
Lemma same_cs_set v st : same_but_cs st (with_cs v st).
Proof. by exists v. Qed.

(** What finding the address of an access promises. *)
Definition addr_post (target : option Z) st (o : outcome Z) st' : Prop :=
  mmu_inv U st' /\ um_step U st st' /\ o = match target with Some pa => Ret pa | None => Throw 2 end.

Lemma same_cs_eq st st' : same_but_cs st st' ->
  core st' = core st /\ tlb st' = tlb st /\ (forall s a, walk_of st' s a = walk_of st s a).
Proof. by intros [v ->]. Qed.

Lemma translate_post addr val super data write size st :
  mmu_inv U st -> is_u32 addr -> way_random (tlb st) < 2147483647 ->
  wpm (mmu_translate p ce addr val super data write size) st
    (addr_post (walk_addr (rmmu (core st)) addr super write (walk_of st super addr)) st).
Proof.
  intros Hi Ha Hr. eapply wpm_conseq; [by apply (mmu_translate_wp p ce U Hmodel)|].
  intros o st' (Hi' & Hs & Hx). split; [done|]. split; [done|]. destruct (walk_addr _ _ _ _ _); [by destruct Hx|done].
Qed.

(** A shortcut that agrees with the tables, or the translation. *)
Lemma shortcut_wp addr val super data write size (hit : bool) pa cs st st2 :
  mmu_inv U st -> is_u32 addr -> way_random (tlb st) < 2147483647 -> same_but_cs st st2 ->
  (hit = true -> walk_addr (rmmu (core st)) addr super write (walk_of st super addr) = Some pa) ->
  wpm (if hit then set_cache_state cs ;;; mmret pa
       else mmu_translate p ce addr val super data write size) st2
    (addr_post (walk_addr (rmmu (core st)) addr super write (walk_of st super addr)) st).
Proof.
  intros Hi Ha Hr H2 Hhit. destruct (same_cs_eq _ _ H2) as (Ec & Et & Ew). destruct hit.
  - unfold set_cache_state. repeat wstep. rewrite Hhit by done.
    assert (H3 : same_but_cs st (with_cs cs st2)) by (eapply same_but_cs_trans; [done|apply same_cs_set]).
    split; [by eapply same_cs_inv|]. split; [by apply same_cs_step|done].
  - eapply wpm_conseq; [apply translate_post; [by eapply same_cs_inv|done|by rewrite Et]|].
    intros o st' (Hi' & Hs & ->). rewrite Ec, Ew. split; [done|]. split; [|done].
    eapply um_step_trans; [by apply same_cs_step|done].
Qed.

(** The target is the address itself. *)
Lemma untranslated_post addr st st2 : mmu_inv U st -> same_but_cs st st2 ->
  addr_post (Some addr) st (Ret addr) st2.
Proof. intros. split; [by eapply same_cs_inv|]. split; [by apply same_cs_step|done]. Qed.

Lemma data_read_addr_wp addr super data size st :
  mmu_inv U st -> is_u32 addr -> way_random (tlb st) < 2147483647 ->
  wpm (data_read_addr p ce (mmu_match_ttr addr super data) addr super data false size) st
    (addr_post (read_target st addr super data) st).
Proof.
  intros Hi Ha Hr. unfold data_read_addr, must_translate, read_target, set_cache_state. do 2 wstep.
  do 2 wstep. set (st1 := mk_mst _ _ _ _ _ _).
  assert (H1 : same_but_cs st st1) by apply same_cs_set. repeat wstep.
  change (core st1) with (core st).
  pose proof (fun st2 H2 => shortcut_wp addr 0 super data false size _ _
    (f_cache_state (fast_entry (atc_data_cache_read (tlb st)) (fast_idx1 (rmmu (core st)) addr super))) st st2
    Hi Ha Hr H2 (fun E => proj1 (proj2 (co_read _ _ _ (mi_caches _ _ Hi)) addr super Ha (proj1 (Z.eqb_eq _ _) E)))) as Hgo.
  destruct (mmu_ttr_enabled (rmmu (core st))) eqn:En.
  - wstep. apply mmu_match_ttr_wp. intros st2 H2. change (core st1) with (core st).
    assert (H02 : same_but_cs st st2) by (eapply (same_but_cs_trans _ st1); [exact H1|exact H2]).
    repeat wstep. rewrite (proj1 (same_cs_eq _ _ H02)).
    destruct (_ && _); [by apply Hgo|apply wpm_ret; by apply untranslated_post].
  - repeat wstep. unfold ttr_access. rewrite En. change (core st1) with (core st). cbn [andb Z.eqb TTR_NO_MATCH].
    destruct (mmu_enabled (rmmu (core st))); [by apply Hgo|apply wpm_ret; by apply untranslated_post].
Qed.

(** An access error keeps the invariant. *)
Lemma frame_inv st st' : frame st st' -> pm st' = pm st -> mmu_inv U st -> mmu_inv U st'.
Proof.
  intros F Ep Hi. pose proof (frame_um_step U _ _ F Ep). destruct F. by eapply mmu_inv_same_tlb.
Qed.

Lemma error_addr_post st st2 st' : mmu_inv U st -> same_but_cs st st2 -> frame st2 st' -> pm st' = pm st2 ->
  addr_post None st (Throw 2) st'.
Proof.
  intros Hi H2 F Ep. split; [eapply frame_inv; [done..|by eapply same_cs_inv]|]. split; [|done].
  eapply um_step_trans; [by apply same_cs_step|by apply frame_um_step].
Qed.

Lemma data_write_addr_wp addr val super data size st :
  mmu_inv U st -> is_u32 addr -> way_random (tlb st) < 2147483647 ->
  wpm (data_write_addr p ce addr val super data size) st
    (addr_post (write_target st addr super data) st).
Proof.
  intros Hi Ha Hr. unfold data_write_addr, must_translate, write_target, set_cache_state. do 4 wstep.
  set (st1 := mk_mst _ _ _ _ _ _).
  assert (H1 : same_but_cs st st1) by apply same_cs_set. repeat wstep.
  change (core st1) with (core st).
  pose proof (fun cs st2 H2 => shortcut_wp addr val super data true size _ _ cs st st2
    Hi Ha Hr H2 (fun E => proj1 (proj2 (co_write _ _ _ (mi_caches _ _ Hi)) addr super Ha (proj1 (Z.eqb_eq _ _) E)))) as Hgo.
  destruct (mmu_ttr_enabled (rmmu (core st))) eqn:En; cbn [andb].
  - unfold mmu_match_ttr_write, mmu_match_ttr_maybe_write_v. repeat wstep.
    change (core st1) with (core st). rewrite En. apply mmu_match_ttr_wp. intros st2 H2.
    change (core st1) with (core st).
    assert (H02 : same_but_cs st st2) by (eapply (same_but_cs_trans _ st1); [exact H1|exact H2]).
    cbn [andb]. destruct (_ || _).
    + unfold mmu_bus_error_ttr_write_fault. apply bus_error_wp. intros st' F Ep.
      by eapply error_addr_post.
    + repeat wstep. rewrite (proj1 (same_cs_eq _ _ H02)).
      destruct (_ && mmu_enabled _); [by apply Hgo|apply wpm_ret; by apply untranslated_post].
  - repeat wstep. unfold ttr_access. rewrite En. change (core st1) with (core st). cbn [andb Z.eqb TTR_NO_MATCH].
    destruct (mmu_enabled (rmmu (core st))); [by apply Hgo|apply wpm_ret; by apply untranslated_post].
Qed.

(** A physical read after the address is known. *)
Lemma phys_read_wp {A} (get : M -> option A) rd a v sz st Q :
  (forall x, get (pm st) = Some x -> Q (Ret x) st) ->
  (forall st', get (pm st) = None -> frame st st' -> pm st' = pm st -> Q (Throw 2) st') ->
  wpm (let! s := getst in of_phys p rd a v sz (get (pm s))) st Q.
Proof.
  intros HS HN. repeat wstep. unfold of_phys. destruct (get (pm st)) eqn:E; [apply wpm_ret; auto|].
  apply hardware_error_wp. auto.
Qed.
End Data.

(** A data read through the MMU yields the long word at the address the
    transparent registers or the tables prescribe, whether the page shortcut,
    the ATC or a table search supplies it, and raises an access error exactly
    when the translation or the bus refuses; the caches stay coherent. *)
Theorem mmu_get_long_refines {M} `{Phys M} `{!PhysLaws M} p ce U (st : mst M) addr data size :
  mmu_model p = 68040 \/ mmu_model p = 68060 -> mmu_inv U st -> is_u32 addr ->
  way_random (tlb st) < 2147483647 ->
  let '(o, st') := mmu_get_long p ce addr data size st in
  mmu_inv U st' /\ um_ext U (pm st) (pm st') /\
  o = match read_target st addr (reg_s (core st)) data with
      | Some pa => match phys_get_long pa (pm st') with Some v => Ret v | None => Throw 2 end
      | None => Throw 2
      end.
Proof.
  intros Hm Hi Ha Hr.
  assert (Hw : wpm (mmu_get_long p ce addr data size) st (fun o st' => mmu_inv U st' /\
     um_ext U (pm st) (pm st') /\ o = match read_target st addr (reg_s (core st)) data with
      | Some pa => match phys_get_long pa (pm st') with Some v => Ret v | None => Throw 2 end
      | None => Throw 2 end)).
  { unfold mmu_get_long, cur_s. do 3 wstep.
    eapply wpm_conseq; [by apply (data_read_addr_wp p ce U Hm)|].
    intros o st1 (Hi1 & [_ He1] & ->). destruct (read_target _ _ _ _) as [pa|]; [|done].
    unfold x_phys_get_long. apply phys_read_wp; [intros v ->; done|].
    intros st' En F Ep. rewrite Ep, En. split; [by eapply frame_inv|done]. }
  apply wpm_run in Hw as (o & st' & -> & Hw). exact Hw.
Qed.

Lemma mmu_get_long_refines_witness :
  fst (mmu_get_long (demo_prefs 68040) flat_cachable 0x2008 true 2 demo_mst) = Ret 0 /\
  fst (mmu_get_long (demo_prefs 68040) flat_cachable 0x9000 true 2 demo_mst) = Throw 2.
Proof.
  pose proof (mmu_get_long_refines (demo_prefs 68040) flat_cachable demo_upper demo_mst
    0x2008 true 2 (or_introl eq_refl) demo_inv ltac:(done) ltac:(done)) as H1.
  split; [|vm_compute; reflexivity].
  destruct (mmu_get_long _ _ _ _ _ demo_mst) as [o st'] eqn:E. destruct H1 as (_ & _ & H1).
  change (read_target demo_mst 0x2008 _ true) with (Some 0x6008) in H1. cbn [fst]. rewrite H1.
  apply (f_equal (fun x => phys_get_long 0x6008 (pm (snd x)))) in E. cbn [snd] in E. rewrite <- E.
  vm_compute. reflexivity.
Defined.

(** A data write through the MMU stores at the address the registers or
    the tables prescribe, after at most used and modified bits were updated,
    and stores nothing when a transparent register, the tables or the bus
    refuse it. *)
Theorem mmu_put_long_refines {M} `{Phys M} `{!PhysLaws M} p ce U (st : mst M) addr val data size :
  mmu_model p = 68040 \/ mmu_model p = 68060 -> mmu_inv U st -> is_u32 addr ->
  way_random (tlb st) < 2147483647 ->
  let '(o, st') := mmu_put_long p ce addr val data size st in
  exists m1, um_ext U (pm st) m1 /\
  match write_target st addr (reg_s (core st)) data with
  | None => o = Throw 2 /\ pm st' = m1
  | Some pa => match phys_put_long pa val m1 with
               | Some m2 => o = Ret tt /\ pm st' = m2
               | None => o = Throw 2 /\ pm st' = m1
               end
  end.
Proof.
  intros Hm Hi Ha Hr.
  assert (Hw : wpm (mmu_put_long p ce addr val data size) st (fun o st' => exists m1, um_ext U (pm st) m1 /\
    match write_target st addr (reg_s (core st)) data with
    | None => o = Throw 2 /\ pm st' = m1
    | Some pa => match phys_put_long pa val m1 with
                 | Some m2 => o = Ret tt /\ pm st' = m2
                 | None => o = Throw 2 /\ pm st' = m1
                 end
    end)).
  { unfold mmu_put_long, cur_s. do 3 wstep.
    eapply wpm_conseq; [by apply (data_write_addr_wp p ce U Hm)|].
    intros o st1 (Hi1 & [_ He1] & ->). destruct (write_target _ _ _ _) as [pa|]; [|by eauto].
    unfold x_phys_put_long, of_phys, set_pm. repeat wstep.
    destruct (phys_put_long pa val (pm st1)) as [m2|] eqn:Ep; repeat wstep.
    - exists (pm st1). by rewrite Ep.
    - apply hardware_error_wp. intros st' F Ep'. exists (pm st1). by rewrite Ep. }
  apply wpm_run in Hw as (o & st' & -> & Hw). exact Hw.
Qed.

Lemma mmu_put_long_refines_witness :
  fst (mmu_put_long (demo_prefs 68040) flat_cachable 0x2008 7 true 2 demo_mst) = Throw 2 /\
  phys_get_long 0x5008 (pm (snd (mmu_put_long (demo_prefs 68040) flat_cachable 0x1008 7 true 2 demo_mst)))
    = Some 7.
Proof.
  split; [|vm_compute; reflexivity].
  pose proof (mmu_put_long_refines (demo_prefs 68040) flat_cachable demo_upper demo_mst
    0x2008 7 true 2 (or_introl eq_refl) demo_inv ltac:(done) ltac:(done)) as H1.
  destruct (mmu_put_long _ _ _ _ _ _ demo_mst) as [o st']. destruct H1 as (m1 & _ & H1).
  change (write_target demo_mst 0x2008 _ true) with (@None Z) in H1. by destruct H1.
Defined.

(** ** MMU instructions *)
Section Ops.
Context {M : Type} `{Phys M} `{!PhysLaws M} (p : prefs) (ce : Z -> Z) (U : Z -> bool).
Context (Hmodel : mmu_model p = 68040 \/ mmu_model p = 68060).
Implicit Types st : mst M.

Lemma mmu_inv_core (f : cpu -> cpu) st : rmmu (f (core st)) = rmmu (core st) ->
  urp (rctl (f (core st))) = urp (rctl (core st)) -> srp (rctl (f (core st))) = srp (rctl (core st)) ->
  mmu_inv U st -> mmu_inv U {| st with core := f (core st) |}.
Proof.
  intros Em Eu Es [HG Hd Ht Hc].
  assert (Er : forall s, root_of (f (core st)) s = root_of (core st) s) by (intros []; cbn; congruence).
  assert (Ew : forall s a, walk_of {| st with core := f (core st) |} s a = walk_of st s a)
    by (intros; unfold walk_of; cbn; by rewrite Em, Er).
  split; cbn; [by rewrite Em|done|intros s; by rewrite Em, Er|].
  rewrite Em. eapply caches_ok_le; [done| |exact Hc].
  intros s a. rewrite Ew. destruct (walk_of st s a); cbn; auto. split; [done|]. split; [|done].
  exists 0. by rewrite Z.lor_0_r; split; auto with mmu.
Qed.

(** Replacing the caches by coherent ones. *)
Lemma mmu_inv_tlb t st : caches_ok (rmmu (core st)) (walk_of st) t -> mmu_inv U st ->
  mmu_inv U {| st with tlb := t |}.
Proof. intros Hc [? ? ? _]. by split. Qed.

Lemma flush_atc_wp addr super glob st Q : mmu_inv U st ->
  (forall st', mmu_inv U st' -> core st' = core st -> pm st' = pm st ->
     way_random (tlb st') = way_random (tlb st) ->
     (glob = true -> forall data w, 0 <= w < 4 ->
        ~ line_hit (lines (tlb st')) data (atc_index (rmmu (core st)) addr) (atc_tag (rmmu (core st)) addr super) w) ->
     Q (Ret tt) st') ->
  wpm (mmu_flush_atc addr super glob) st Q.
Proof.
  intros Hi HQ. unfold mmu_flush_atc, flush_shortcut_cache, set_tlb. repeat wstep.
  set (mm := rmmu (core st)).
  set (f := fun pos l => if in_slot (atc_index mm addr) pos then flush_line glob (atc_tag mm addr super) l else l).
  change (mk_mst (core st) _ _ _ _ _) with {| st with tlb := {| (tlb st) with lines := imap f (lines (tlb st)) |} |}.
  assert (Hf : forall i l, f i l = l \/ l_valid (f i l) = false).
  { intros i l. unfold f, flush_line. destruct (in_slot _ _); [|by left]. repeat case_match; auto. }
  apply HQ; cbn [core pm tlb]; try done.
  - apply (mmu_inv_tlb (flush_fast mm addr super {| (tlb st) with lines := imap f (lines (tlb st)) |}) st); [|done].
    apply caches_flush_fast; [apply Hi|].
    apply caches_invalidate; [done|apply Hi].
  - by rewrite (proj2 (proj2 (flush_fast_lines _ _ _ _))).
  - intros Hglob data w Hw [V T]. rewrite (proj1 (flush_fast_lines _ _ _ _)) in V, T. cbn [lines] in V, T.
    pose proof (atc_index_range mm addr) as Hix.
    pose proof (atc_pos_lt data _ _ (conj Hix Hw)) as Hlt.
    destruct (lookup_lt_is_Some_2 (lines (tlb st)) (atc_pos data (atc_index mm addr) w)) as [l El].
    { by rewrite (proj1 (co_lines _ _ _ (mi_caches _ _ Hi))). }
    assert (Ei : imap f (lines (tlb st)) !!! atc_pos data (atc_index mm addr) w
                 = f (atc_pos data (atc_index mm addr) w) l).
    { apply list_lookup_total_correct. by rewrite list_lookup_imap, El. }
    fold mm in V, T. rewrite Ei in V, T.
    assert (Hslot : in_slot (atc_index mm addr) (atc_pos data (atc_index mm addr) w) = true).
    { unfold in_slot, atc_pos, ATC_WAYS, ATC_SLOTS. apply Z.eqb_eq.
      destruct data; cbn [Z.b2z]; rewrite Z2Nat.id by lia; Z.div_mod_to_equations; lia. }
    unfold f in V, T. rewrite Hslot in V, T. unfold flush_line in V, T. rewrite Hglob in V, T. cbn [negb andb] in V, T.
    destruct (Z.eqb_spec (atc_tag mm addr super) (l_tag l)), (l_valid l) eqn:Ev; cbn [andb] in V, T; try done; congruence.
Qed.

Lemma flush_all_wp glob st Q : mmu_inv U st ->
  (forall st', mmu_inv U st' -> core st' = core st -> Q (Ret tt) st') ->
  wpm (mmu_flush_atc_all glob) st Q.
Proof.
  intros Hi HQ. unfold mmu_flush_atc_all, flush_shortcut_cache, set_tlb. repeat wstep.
  apply HQ; [|done]. cbn [core tlb].
  apply (mmu_inv_tlb _ st); [|done]. apply caches_flush_fast; [apply Hi|].
  rewrite <- (imap_const _ (lines (tlb st))). apply caches_invalidate; [|apply Hi].
  intros i l. unfold const. destruct (negb glob && truth (l_status l .& MMU_MMUSR_G)); [by left|by right].
Qed.

Lemma mmu_fill_inv addr super data write way st Q : mmu_inv U st -> is_u32 addr -> 0 <= way < 4 ->
  (forall w, 0 <= w < 4 -> w <> way ->
     ~ line_hit (lines (tlb st)) data (atc_index (rmmu (core st)) addr) (atc_tag (rmmu (core st)) addr super) w) ->
  (forall status s060 st', mmu_inv U st' -> Q (Ret (status, s060)) st') ->
  wpm (mmu_fill_atc p ce addr super (atc_tag (rmmu (core st)) addr super) write
         (atc_pos data (atc_index (rmmu (core st)) addr) way) 0) st Q.
Proof.
  intros Hi Ha Hway Hno HQ. eapply wpm_conseq; [apply (mmu_fill_atc_wp p ce U Hmodel); apply Hi|].
  intros o st' (status & s060 & -> & Hf). apply HQ. by eapply (filled_inv p U).
Qed.

Lemma first_invalid_range ls data index n way : 0 <= way ->
  way <= first_invalid ls data index n way <= way + Z.of_nat n.
Proof.
  revert way. induction n as [|n IH]; intros way Hw; cbn [first_invalid]; [lia|].
  destruct (l_valid _); [|lia]. specialize (IH (way + 1)). lia.
Qed.

Lemma op_ptest_inv opcode st : mmu_inv U st -> cpu_wf (core st) ->
  wpm (op_ptest p ce opcode) st (fun _ st' => mmu_inv U st').
Proof.
  intros Hi Hwf. unfold op_ptest. do 2 wstep. cbv zeta.
  set (super := truth _). set (data := _ != 2). set (addr := m68k_areg _ _).
  assert (Ha : is_u32 addr) by (apply areg_range; [done|apply land7_range]).
  wstep. apply flush_atc_wp; [done|]. intros st1 Hi1 Ec Ep Er Hno. wstep.
  apply mmu_match_ttr_wp. intros st2 H2.
  pose proof (same_cs_inv U _ _ H2 Hi1) as Hi2. destruct (same_cs_eq _ _ H2) as (Ec2 & Et2 & _).
  assert (Hmmusr : forall v st3, mmu_inv U st3 -> wpm (set_mmusr v) st3 (fun _ st' => mmu_inv U st')).
  { intros v st3 Hi3. unfold set_mmusr, set_core. wstep. by apply mmu_inv_core. }
  destruct (_ != TTR_NO_MATCH); [auto|]. destruct (mmu_ec p); [by apply wpm_ret|].
  do 3 wstep. rewrite Ec2, Et2.
  set (w := first_invalid _ _ _ _ _). set (way := if ATC_WAYS <=? w then _ else w).
  assert (Hway : 0 <= way < 4).
  { pose proof (first_invalid_range (lines (tlb st1)) data (atc_index (rmmu (core st1)) addr) 4 0) as Hf.
    change (Z.to_nat ATC_WAYS) with 4%nat in w. fold w in Hf. unfold way, ATC_WAYS.
    pose proof (proj2 (proj2 (co_ways _ _ _ (mi_caches _ _ Hi1)))).
    destruct (Z.leb_spec 4 w); [|lia]. rewrite Z.rem_mod_nonneg by lia. apply Z.mod_pos_bound. lia. }
  rewrite <- Ec2. apply mmu_fill_inv; [done..| |].
  - intros w' Hw' _. rewrite Ec2, Et2, Ec. by apply Hno.
  - intros status s060 st3 Hi3. auto.
Qed.

Lemma op_plpa_inv opcode st : mmu_inv U st -> cpu_wf (core st) -> way_random (tlb st) < 2147483647 ->
  wpm (op_plpa p ce opcode) st (fun _ st' => mmu_inv U st').
Proof.
  intros Hi Hwf Hr. unfold op_plpa. do 2 wstep. cbv zeta.
  set (super := truth _). set (data := _ != 2). set (addr := m68k_areg _ _).
  assert (Ha : is_u32 addr) by (apply areg_range; [done|apply land7_range]).
  assert (Hgo : forall r st1, same_but_cs st st1 ->
    wpm (if (r =? TTR_NO_MATCH) && negb (mmu_ec p)
         then let! pa := mmu_translate p ce addr 0 super data (opcode .& 0x40 =? 0) 1 in
              set_core (set_areg (opcode .& 7) pa)
         else mmret tt) st1 (fun _ st' => mmu_inv U st')).
  { intros r st1 H1. pose proof (same_cs_inv U _ _ H1 Hi) as Hi1. destruct (same_cs_eq _ _ H1) as (_ & Et & _).
    destruct (_ && _); [|by apply wpm_ret]. wstep.
    eapply wpm_conseq; [apply (translate_post p ce U Hmodel); [done..|by rewrite Et]|].
    intros o st2 (Hi2 & _ & ->). destruct (walk_addr _ _ _ _ _); [|done].
    unfold set_core. wstep. by apply mmu_inv_core. }
  wstep. destruct (opcode .& 0x40 =? 0).
  - unfold mmu_match_ttr_write, mmu_match_ttr_maybe_write_v. repeat wstep.
    destruct (mmu_ttr_enabled (rmmu (core st))).
    + apply mmu_match_ttr_wp. intros st1 H1. destruct (true && _); [|wstep; by apply Hgo].
      apply bus_error_wp. intros st' F Ep. eapply frame_inv; [done..|by eapply same_cs_inv].
    + wstep. destruct (true && _); [|wstep; apply Hgo, same_but_cs_refl].
      apply bus_error_wp. intros st' F Ep. by eapply frame_inv.
  - apply mmu_match_ttr_wp. intros st1 H1. by apply Hgo.
Qed.
End Ops.

(** The MMU instructions PFLUSH, PTEST and PLPA, and any other opcode
    handed to [mmu_op_real], keep the ATC and the page shortcuts coherent with
    the translation tables. *)
Theorem mmu_op_real_inv {M} `{Phys M} `{!PhysLaws M} p ce U (st : mst M) opcode :
  mmu_model p = 68040 \/ mmu_model p = 68060 -> mmu_inv U st -> cpu_wf (core st) ->
  way_random (tlb st) < 2147483647 ->
  mmu_inv U (snd (mmu_op_real p ce opcode st)).
Proof.
  intros Hm Hi Hwf Hr.
  change (wpm (mmu_op_real p ce opcode) st (fun _ st' => mmu_inv U st')). unfold mmu_op_real.
  assert (Hemit : forall e st1, mmu_inv U st1 -> wpm (set_core (emit e)) st1 (fun _ st' => mmu_inv U st')).
  { intros e st1 Hi1. unfold set_core. wstep. by apply mmu_inv_core. }
  destruct (_ =? 0x500).
  - unfold op_pflush. do 3 wstep. destruct (truth (opcode .& 16)).
    + apply (flush_all_wp U); [done|]. auto.
    + apply (flush_atc_wp ce U); [done|]. auto.
  - destruct (_ =? 0x548); [by apply op_ptest_inv|]. destruct (_ =? 0xF588); [by apply op_plpa_inv|auto].
Qed.

Lemma mmu_op_real_inv_witness :
  mmu_inv demo_upper (snd (mmu_op_real (demo_prefs 68040) flat_cachable 0xF548 demo_mst)) /\
  mmusr (rctl (core (snd (mmu_op_real (demo_prefs 68040) flat_cachable 0xF548 demo_mst)))) = 0x5011.
Proof.
  split; [|vm_compute; reflexivity].
  apply (mmu_op_real_inv (demo_prefs 68040) flat_cachable demo_upper demo_mst 0xF548);
    [by left|exact demo_inv| |done].
  apply (bool_decide_unpack _). vm_compute. exact I.
Defined.

(** Writing TC makes the caches coherent from any state: afterwards they
    hold nothing, so whatever the registers and tables now say is what the
    next accesses use. *)
Lemma mmu_write_tc_inv {M} `{Phys M} p U tc (st : mst M) :
  length (lines (tlb st)) = 128%nat -> ways_ok (tlb st) -> mmu_debugger st = false ->
  (forall super, tables_ok U (pm st) (mmu_pagesize_8k (rmmu (snd (mmu_set_tc p tc (core st)))))
                   (root_of (core st) super)) ->
  fst (mmu_write_tc p tc st) = Ret (fst (mmu_set_tc p tc (core st))) /\
  mmu_inv U (snd (mmu_write_tc p tc st)).
Proof.
  intros Hl Hw Hd Ht. unfold mmu_write_tc. rewrite (bind_eq getst _ st st st) by done.
  pose proof (mmu_set_tc_geo p tc (core st)) as HG.
  assert (Hroot : forall s, root_of (snd (mmu_set_tc p tc (core st))) s = root_of (core st) s) by done.
  destruct (mmu_set_tc p tc (core st)) as [tc' c] eqn:E. cbn [snd] in *.
  split; [done|]. split; cbn; [done|done|intros s; rewrite Hroot; apply Ht|].
  apply caches_ok_invalid; cbn; try done.
  - by rewrite length_fmap.
  - apply Forall_fmap, Forall_true. intros l. done.
Qed.

Lemma mmu_write_tc_inv_witness :
  mmu_inv demo_upper (snd (mmu_write_tc (demo_prefs 68040) 0x8000 demo_mst)).
Proof.
  apply (mmu_write_tc_inv (demo_prefs 68040) demo_upper 0x8000 demo_mst);
    [done|exact demo_ways|done|intros []; exact demo_tables].
Defined.
