(* ===== verification/Cache040.v ===== *)
(** * Cache040: the 68040/060 caches ([cpu/newcpu.cpp])

    Four-way sets of sixteen-byte lines.  The data cache is physically tagged
    and copies back; the instruction cache is read only.  The memory behind
    them ([dcache_lget], [dcache_lput], [icache_fetch], ...: function pointers
    to the bus) is the interface [Bus].

    The five arrays of [struct cache040] are kept as one list of lines: line
    [j] of set [i] is element [4 * i + j]. *)

From S2P Require Import Prelude Flags Cpu Movec Mmu.
From Stdlib Require Import ZArith Lia Bool.
From stdpp Require Import base list gmap.
Open Scope Z_scope.
Open Scope cint_scope.

(** ** Data *)
Definition CACHE_ENABLE_DATA := 0x01.
Definition CACHE_ENABLE_INS := 0x80.
Definition CACHELINES020 := 64.
Definition CACHELINES030 := 16.
Definition CACHESETS040 := 64.
Definition CACHESETS060 := 128.
Definition CACHELINES040 := 4.

Record cline := mk_cline {
  c_data : list Z; c_dirty : list bool; c_gdirty : bool; c_valid : bool; c_tag : Z }.
#[export] Instance cline_inh : Inhabited cline :=
  populate (mk_cline [0; 0; 0; 0] [false; false; false; false] false false 0).

Record cache020 := mk_cache020 { k_data : Z; k_tag : Z; k_valid : bool }.
Record cache030 := mk_cache030 { h_data : list Z; h_valid : list bool; h_tag : Z; h_fc : Z }.

(** The fields of [currprefs] the cache routines read. *)
Record cache_prefs := mk_cache_prefs {
  kp_cpu_model : Z; cpu_data_cache : bool; cpu_compatible : bool;
  cpu_memory_cycle_exact : bool; kp_cachesize : Z }.

(** Calls into the translator. *)
Inductive jit_event := jit_set_cache_state (on : Z) | jit_flush_icache (n : Z).

Record caches (M : Type) := mk_caches {
  dcaches040 : list cline; icaches040 : list cline;
  dcachelinecnt : Z; icachelinecnt : Z; icachehalfline : Z; cache_lastline : Z;
  cacheisets04060 : Z; cacheisets04060mask : Z; cacheitag04060mask : Z;
  cachedsets04060 : Z; cachedsets04060mask : Z; cachedtag04060mask : Z;
  prefetch020addr : Z; prefetch040 : list Z; cacheholdingaddr020 : Z;
  caches020 : list cache020; icaches030 : list cache030; dcaches030 : list cache030;
  kcpu : cpu; jit_log : list jit_event; kmem : M }.
Arguments mk_caches {M}. Arguments dcaches040 {M}. Arguments icaches040 {M}.
Arguments dcachelinecnt {M}. Arguments icachelinecnt {M}. Arguments icachehalfline {M}.
Arguments cache_lastline {M}. Arguments cacheisets04060 {M}. Arguments cacheisets04060mask {M}.
Arguments cacheitag04060mask {M}. Arguments cachedsets04060 {M}. Arguments cachedsets04060mask {M}.
Arguments cachedtag04060mask {M}. Arguments prefetch020addr {M}. Arguments prefetch040 {M}.
Arguments cacheholdingaddr020 {M}. Arguments caches020 {M}. Arguments icaches030 {M}.
Arguments dcaches030 {M}. Arguments kcpu {M}. Arguments jit_log {M}. Arguments kmem {M}.

Section Cache.
Context {M : Type} `{Bus M} (p : cache_prefs) (ce_cachable : Z -> Z).
Implicit Types s : caches M.

Definition k_cacr s : Z := cacr (rctl (kcpu s)).
Definition set_cacr (v : Z) s : caches M :=
  let r := rctl (kcpu s) in {| s with kcpu := set_ctl ({| r with cacr := v |}) (kcpu s) |}.

Definition cpos (index line : Z) : nat := Z.to_nat (CACHELINES040 * index + line).
Definition dline s (index line : Z) : cline := dcaches040 s !!! cpos index line.
Definition set_dline (index line : Z) (l : cline) s : caches M :=
  {| s with dcaches040 := <[cpos index line := l]> (dcaches040 s) |}.
Definition iline s (index line : Z) : cline := icaches040 s !!! cpos index line.
Definition set_iline (index line : Z) (l : cline) s : caches M :=
  {| s with icaches040 := <[cpos index line := l]> (icaches040 s) |}.
Definition clear_valid (l : cline) : cline := {| l with c_valid := false |}.

(** The loops over the four ways. *)
Definition ways : list Z := [0; 1; 2; 3].
Fixpoint find_way (ok : Z -> bool) (ws : list Z) : option Z :=
  match ws with [] => None | w :: r => if ok w then Some w else find_way ok r end.
Definition line_hit (c : Z -> cline) (tag w : Z) : bool := c_valid (c w) && (c_tag (c w) =? tag).

(** [dcache_bget]/[wget]/[lget] and [bput]/[wput]/[lput], by access size. *)
Definition dcache_get (size addr : Z) (m : M) : Z :=
  if size =? 0 then get_byte m addr else if size =? 1 then get_word m addr else get_long m addr.
Definition dcache_put (size addr val : Z) (m : M) : M :=
  if size =? 0 then put_byte addr val m else if size =? 1 then put_word addr val m else put_long addr val m.

(** ** Writing a line back *)
Definition line_addr s (index : Z) (l : cline) : Z := (c_tag l .& cachedtag04060mask s) .| (index << 4).

Definition push_slot (addr : Z) (all : bool) (lm : cline * M) (i : nat) : cline * M :=
  let '(l, m) := lm in
  if (c_dirty l !!! i) || all
  then ({| l with c_dirty := <[i := false]> (c_dirty l) |},
        dcache_put 2 (u32 (addr + Z.of_nat i * 4)) (c_data l !!! i) m)
  else (l, m).

Definition push_slots (addr : Z) (all : bool) (l : cline) (m : M) : cline * M :=
  foldl (push_slot addr all) (l, m) [0; 1; 2; 3]%nat.

Definition dcache040_push_line (index line : Z) (writethrough invalidate : bool) s : caches M :=
  let l := dline s index line in
  let s := if c_gdirty l
           then let '(l', m) := push_slots (line_addr s index l)
                                 (negb writethrough && (kp_cpu_model p =? 68060)) l (kmem s) in
                set_dline index line ({| l' with c_gdirty := false |}) {| s with kmem := m |}
           else s in
  if invalidate then set_dline index line (clear_valid (dline s index line)) s else s.

(** ** Data inside a line *)
Definition size_mask (size : Z) : Z := Z.ones (Z.shiftl 8 size).

Definition dcache040_get_data (addr : Z) (l : cline) (size : Z) : Z :=
  let offset := (addr .& 15) * 8 in
  let offset32 := offset .& 31 in
  let slot := Z.to_nat (offset / 32) in
  let width := 8 << size in
  if offset32 + width <=? 32
  then (c_data l !!! slot >> (32 - (offset32 + width))) .& size_mask size
  else let v := u64 (c_data l !!! slot << 32) .| c_data l !!! S slot in
       (v >> (64 - (offset32 + width))) .& size_mask size.

Definition dcache040_update (addr : Z) (l : cline) (val size : Z) : cline :=
  let offset := (addr .& 15) * 8 in
  let offset32 := offset .& 31 in
  let slot := Z.to_nat (offset / 32) in
  let width := 8 << size in
  let l :=
    if offset32 + width <=? 32
    then let shift := 32 - (offset32 + width) in
         let v := (c_data l !!! slot .& u32 (Z.lnot (u32 (size_mask size << shift)))) .| u32 (val << shift) in
         {| l with c_data := <[slot := v]> (c_data l); c_dirty := <[slot := true]> (c_dirty l) |}
    else let shift := 64 - (offset32 + width) in
         let v := u64 (c_data l !!! slot << 32) .| c_data l !!! S slot in
         let v := (v .& u64 (Z.lnot (u64 (size_mask size << shift)))) .| u64 (val << shift) in
         {| l with c_data := <[S slot := u32 v]> (<[slot := v >> 32]> (c_data l));
                   c_dirty := <[S slot := true]> (<[slot := true]> (c_dirty l)) |} in
  {| l with c_gdirty := true |}.

(** ** A miss *)
Definition dcache040_fill_line (index tag addr : Z) s : Z * caches M :=
  let '(line, s) :=
    match find_way (fun w => negb (c_valid (dline s index w))) ways with
    | None =>
        let line := dcachelinecnt s .& (CACHELINES040 - 1) in
        (line, dcache040_push_line index line false true
                 {| s with dcachelinecnt := s32 (dcachelinecnt s + 1) |})
    | Some line => (line, s)
    end in
  let word k := dcache_get 2 (u32 (addr + k)) (kmem s) in
  (line, set_dline index line
     (mk_cline [word 0; word 4; word 8; word 12] [false; false; false; false] false true tag) s).

Definition d_index s (addr : Z) : Z := (addr >> 4) .& cachedsets04060mask s.
Definition d_tag s (addr : Z) : Z := addr .& cachedtag04060mask s.

(** [cs] as the access sees it: the MMU's cache mode ([mmu_cache_state]),
    unless the bank is not cachable. *)
Definition access_mode (cs addr : Z) : Z :=
  if ce_cachable (addr >> 16) .& CACHE_ENABLE_DATA =? 0 then CACHE_DISABLE_MMU else cs.

Definition bump_dcnt s : caches M := {| s with dcachelinecnt := s32 (dcachelinecnt s + 1) |}.

(** ** Data reads and writes *)
Definition read_dcache040 (mmu_cs addr size : Z) s : Z * caches M :=
  let fetch s := (dcache_get size addr (kmem s), s) in
  if k_cacr s .& 0x80000000 =? 0 then fetch s
  else
    let cs := access_mode mmu_cs addr in
    let base := addr .& u32 (Z.lnot 15) in
    let index := d_index s base in
    let tag := d_tag s base in
    match find_way (line_hit (dline s index) tag) ways with
    | Some line =>
        let s := bump_dcnt s in
        if truth (cs .& CACHE_DISABLE_MMU) then fetch (dcache040_push_line index line false true s)
        else (dcache040_get_data addr (dline s index line) size, s)
    | None =>
        if truth (cs .& CACHE_DISABLE_MMU) || negb (truth (cs .& CACHE_ENABLE_DATA))
           || truth (cs .& CACHE_DISABLE_ALLOCATE) || truth (k_cacr s .& 0x40000000)
        then fetch s
        else let '(line, s) := dcache040_fill_line index tag base s in
             (dcache040_get_data addr (dline s index line) size, s)
    end.

Definition update_dline (index line addr val size : Z) s : caches M :=
  set_dline index line (dcache040_update addr (dline s index line) val size) s.

Definition write_dcache040 (mmu_cs addr val size : Z) s : caches M :=
  let val := val .& size_mask size in
  let store s := {| s with kmem := dcache_put size addr val (kmem s) |} in
  if k_cacr s .& 0x80000000 =? 0 then store s
  else
    let cs := access_mode mmu_cs addr in
    let base := addr .& u32 (Z.lnot 15) in
    let index := d_index s base in
    let tag := d_tag s base in
    match find_way (line_hit (dline s index) tag) ways with
    | Some line =>
        let s := bump_dcnt s in
        if truth (cs .& CACHE_DISABLE_MMU) then store (dcache040_push_line index line false true s)
        else
          let s := update_dline index line addr val size s in
          if cs .& CACHE_ENABLE_COPYBACK =? 0 then dcache040_push_line index line true false s else s
    | None =>
        if negb (truth (cs .& CACHE_ENABLE_DATA)) || truth (cs .& CACHE_DISABLE_MMU)
           || truth (cs .& CACHE_DISABLE_ALLOCATE) || (cs .& CACHE_ENABLE_COPYBACK =? 0)
           || truth (k_cacr s .& 0x40000000)
        then store s
        else let '(line, s) := dcache040_fill_line index tag base s in
             update_dline index line addr val size s
    end.

(** Accesses that cross a line are split. *)
Definition put_long_cache_040 (cs addr v : Z) s : caches M :=
  let offset := addr .& 15 in
  if offset <? 13 then write_dcache040 cs addr v 2 s
  else if (offset =? 13) || (offset =? 15) then
    let s := write_dcache040 cs addr (v >> 24) 0 s in
    let s := write_dcache040 cs (u32 (addr + 1)) (v >> 8) 1 s in
    write_dcache040 cs (u32 (addr + 3)) v 0 s
  else
    let s := write_dcache040 cs addr (v >> 16) 1 s in
    write_dcache040 cs (u32 (addr + 2)) v 1 s.

Definition put_word_cache_040 (cs addr v : Z) s : caches M :=
  if addr .& 15 <? 15 then write_dcache040 cs addr v 1 s
  else write_dcache040 cs (u32 (addr + 1)) v 0 (write_dcache040 cs addr (v >> 8) 0 s).

Definition put_byte_cache_040 (cs addr v : Z) s : caches M := write_dcache040 cs addr v 0 s.

Definition get_long_cache_040 (cs addr : Z) s : Z * caches M :=
  let offset := addr .& 15 in
  if offset <? 13 then read_dcache040 cs addr 2 s
  else if (offset =? 13) || (offset =? 15) then
    let '(a, s) := read_dcache040 cs addr 0 s in
    let '(b, s) := read_dcache040 cs (u32 (addr + 1)) 1 s in
    let '(c, s) := read_dcache040 cs (u32 (addr + 3)) 0 s in
    (u32 (a << 24) .| u32 (b << 8) .| c, s)
  else
    let '(a, s) := read_dcache040 cs addr 1 s in
    let '(b, s) := read_dcache040 cs (u32 (addr + 2)) 1 s in
    (u32 (a << 16) .| b, s).

Definition get_word_cache_040 (cs addr : Z) s : Z * caches M :=
  if addr .& 15 <? 15 then read_dcache040 cs addr 1 s
  else
    let '(a, s) := read_dcache040 cs addr 0 s in
    let '(b, s) := read_dcache040 cs (u32 (addr + 1)) 0 s in
    (u32 (a << 8) .| b, s).

Definition get_byte_cache_040 (cs addr : Z) s : Z * caches M := read_dcache040 cs addr 0 s.

(** ** Instruction fetches *)
(** Fill the four-word prefetch buffer from the line at [addr2]. *)
Definition icache_prefetch (addr2 : Z) s : caches M :=
  let word k := get_long (kmem s) (u32 (addr2 + k)) in
  {| s with prefetch020addr := addr2; prefetch040 := [word 0; word 4; word 8; word 12] |}.

Definition inhibited (cs : Z) : bool :=
  negb (truth (cs .& CACHE_ENABLE_INS)) || truth (cs .& CACHE_DISABLE_MMU).

(** From the label [end]. *)
Definition icache_end (addr2 lws : Z) s : Z * caches M :=
  let s := if prefetch020addr s =? addr2 then s else icache_prefetch addr2 s in
  (prefetch040 s !!! Z.to_nat lws, s).

(** A new half line counts for the replacement. *)
Definition icache_half (lws : Z) s : caches M :=
  if (lws .& 1) != icachehalfline s
  then {| s with icachehalfline := icachehalfline s .^ 1; icachelinecnt := s32 (icachelinecnt s + 1) |}
  else s.

(** The search, starting at the way used last: the hit way, if any. *)
Fixpoint icache_scan (n : nat) (index tag : Z) s : option Z * caches M :=
  match n with
  | O => (None, s)
  | S k =>
      if line_hit (iline s index) tag (cache_lastline s) then (Some (cache_lastline s), s)
      else icache_scan k index tag
             {| s with cache_lastline := (cache_lastline s + 1) .& (CACHELINES040 - 1) |}
  end.

(** The way a new line goes to. *)
Definition icache_victim (index lws : Z) s : Z * caches M :=
  match find_way (fun w => negb (c_valid (iline s index w))) ways with
  | None => (icachelinecnt s .& (CACHELINES040 - 1),
             {| s with icachehalfline := if truth (lws .& 1) then 0 else 1 |})
  | Some line => (line, s)
  end.

Definition fill_icache040 (mmu_cs addr : Z) s : Z * caches M :=
  let addr2 := addr .& u32 (Z.lnot 15) in
  let lws := (addr >> 2) .& 3 in
  if prefetch020addr s =? addr2 then (prefetch040 s !!! Z.to_nat lws, s)
  else if k_cacr s .& 0x8000 =? 0 then icache_end addr2 lws s
  else
    let cs := if ce_cachable (addr >> 16) .& CACHE_ENABLE_INS =? 0 then CACHE_DISABLE_MMU else mmu_cs in
    let index := (addr >> 4) .& cacheisets04060mask s in
    let tag := addr .& cacheitag04060mask s in
    match icache_scan 4 index tag s with
    | (Some line, s) =>
        if inhibited cs
        then icache_end addr2 lws (set_iline index line (clear_valid (iline s index line)) s)
        else let s := icache_half lws s in (c_data (iline s index line) !!! Z.to_nat lws, s)
    | (None, s) =>
        let s := icache_prefetch addr2 s in
        if inhibited cs || truth (k_cacr s .& 0x00004000) then icache_end addr2 lws s
        else
          let '(line, s) := icache_victim index lws s in
          let l := iline s index line in
          let s := set_iline index line
                     ({| l with c_data := prefetch040 s; c_valid := true; c_tag := tag |}) s in
          let s := icache_half lws s in
          (c_data (iline s index line) !!! Z.to_nat lws, s)
    end.

Definition get_word_icache040 (cs addr : Z) s : Z * caches M :=
  let '(v, s) := fill_icache040 cs addr s in (v >> (if truth (addr .& 2) then 0 else 16), s).
Definition get_long_icache040 (cs addr : Z) s : Z * caches M :=
  let '(v1, s) := fill_icache040 cs addr s in
  if addr .& 2 =? 0 then (v1, s)
  else let '(v2, s) := fill_icache040 cs (u32 (addr + 4)) s in ((v2 >> 16) .| u32 (v1 << 16), s).

(** ** Flushing *)
Definition invalidate_lines (c : list cline) : list cline := clear_valid <$> c.
Definition invalidate030 (c : cache030) : cache030 := {| c with h_valid := [false; false; false; false] |}.
Definition invalidate030_slot (addr : Z) (l : list cache030) : list cache030 :=
  alter (fun c => {| c with h_valid := <[Z.to_nat ((addr >> 2) .& 3) := false]> (h_valid c) |})
    (Z.to_nat ((addr >> 4) .& (CACHELINES030 - 1))) l.

Definition invalidate_cpu_data_caches s : caches M :=
  if kp_cpu_model p =? 68030 then {| s with dcaches030 := invalidate030 <$> dcaches030 s |}
  else if 68040 <=? kp_cpu_model p
  then {| s with dcachelinecnt := 0; dcaches040 := invalidate_lines (dcaches040 s) |}
  else s.

(** [if (regs.cacr & bit) || force)]: act, then clear the bit. *)
Definition cacr_bit (bit : Z) (force : bool) (act : caches M -> caches M) s : caches M :=
  if truth (k_cacr s .& bit) || force then set_cacr (k_cacr (act s) .& u32 (Z.lnot bit)) (act s) else s.

Definition flush_cpu_caches (force : bool) s : caches M :=
  let doflush := cpu_compatible p || cpu_memory_cycle_exact p in
  let caddr s := caar (rctl (kcpu s)) in
  if kp_cpu_model p =? 68020 then
    let s := cacr_bit 0x08 force
      (fun s => {| s with caches020 := (fun c => {| c with k_valid := false |}) <$> caches020 s |}) s in
    cacr_bit 0x04 false
      (fun s => {| s with caches020 := alter (fun c => {| c with k_valid := false |})
                      (Z.to_nat ((caddr s >> 2) .& (CACHELINES020 - 1))) (caches020 s) |}) s
  else if kp_cpu_model p =? 68030 then
    let s := cacr_bit 0x08 force
      (fun s => if doflush then {| s with icaches030 := invalidate030 <$> icaches030 s |} else s) s in
    let s := cacr_bit 0x04 false (fun s => {| s with icaches030 := invalidate030_slot (caddr s) (icaches030 s) |}) s in
    let s := cacr_bit 0x800 force
      (fun s => if doflush then {| s with dcaches030 := invalidate030 <$> dcaches030 s |} else s) s in
    cacr_bit 0x400 false (fun s => {| s with dcaches030 := invalidate030_slot (caddr s) (dcaches030 s) |}) s
  else if (68040 <=? kp_cpu_model p) && doflush && force then
    {| s with icachelinecnt := 0; icachehalfline := 0; icaches040 := invalidate_lines (icaches040 s) |}
  else s.

(** One data line of a CINV or CPUSH. *)
Definition flush_dline (push pushinv : bool) s (il : Z * Z) : caches M :=
  let '(i, j) := il in
  if c_valid (dline s i j)
  then if push then dcache040_push_line i j false pushinv s
       else set_dline i j (clear_valid (dline s i j)) s
  else s.

(** The lines of sets [0 .. n - 1]. *)
Definition all_lines (n : Z) : list (Z * Z) :=
  i ← seq 0 (Z.to_nat n); (fun j => (Z.of_nat i, j)) <$> ways.

(** One sixteen-byte step of a line or page flush.  The instruction side
    pushes through the data cache, as the code does. *)
Definition flush_step (k push pushinv : bool) (addr : Z) s (w : Z) : caches M :=
  let index := (addr >> 4) .& (if k then cacheisets04060mask s else cachedsets04060mask s) in
  let tag := addr .& (if k then cacheitag04060mask s else cachedtag04060mask s) in
  let c := if k then iline s index else dline s index in
  if line_hit c tag w
  then if push then dcache040_push_line index w false pushinv s
       else if k then set_iline index w (clear_valid (c w)) s else set_dline index w (clear_valid (c w)) s
  else s.

Fixpoint flush_range (n : nat) (k push pushinv : bool) (addr : Z) s : Z * caches M :=
  match n with
  | O => (addr, s)
  | S n => flush_range n k push pushinv (u32 (addr + 16)) (foldl (flush_step k push pushinv addr) s ways)
  end.

(** The two passes: data ([k = 0]), then instructions; [addr] is carried from
    one to the other. *)
Definition flush_pass (k : bool) (cache scope : Z) (push pushinv : bool) (asx : Z * caches M) : Z * caches M :=
  let '(addr, s) := asx in
  if cache .& (if k then 2 else 1) =? 0 then (addr, s)
  else if scope =? 3 then
    (addr, if k then flush_cpu_caches true s
           else let s := foldl (flush_dline push pushinv) s (all_lines (cachedsets04060 s)) in {| s with dcachelinecnt := 0 |})
  else
    let pagesize := if scope =? 2 then (if mmu_pagesize_8k (rmmu (kcpu s)) then 8192 else 4096) else 16 in
    flush_range (Z.to_nat (pagesize / 16)) k push pushinv (addr .& u32 (Z.lnot (pagesize - 1))) s.

Definition flush_cpu_caches_040_2 (cache scope addr : Z) (push pushinv : bool) s : caches M :=
  let cache := if truth (cache .& 1) && negb (cpu_data_cache p) then cache .& Z.lnot 1 else cache in
  let s := if truth (cache .& 2) then {| s with prefetch020addr := 0xffffffff |} else s in
  snd (flush_pass true cache scope push pushinv (flush_pass false cache scope push pushinv (addr, s))).

Definition flush_cpu_caches_040 (opcode : Z) s : caches M :=
  let cache := (opcode >> 6) .& 3 in
  let scope := (opcode >> 3) .& 3 in
  let addr := m68k_areg (kcpu s) (opcode .& 7) in
  flush_cpu_caches_040_2 cache scope addr (truth (opcode .& 0x20)) (k_cacr s .& 0x01000000 =? 0) s.

(** [while (addr < end)]; one unit of fuel per step. *)
Fixpoint invalidate_loop (fuel : nat) (step : Z) (f : Z -> caches M -> caches M) (addr end_ : Z) s : caches M :=
  match fuel with
  | O => s
  | S n => if addr <? end_ then invalidate_loop n step f (u32 (addr + step)) end_ (f addr s) else s
  end.

Definition cpu_invalidate_cache (fuel : nat) (addr size : Z) s : caches M :=
  if negb (cpu_data_cache p) then s
  else
    let end_ := u32 (addr + size) in
    if kp_cpu_model p =? 68030 then
      invalidate_loop fuel 4 (fun a s => {| s with dcaches030 := invalidate030_slot a (dcaches030 s) |})
        (addr .& u32 (Z.lnot 3)) end_ s
    else if 68040 <=? kp_cpu_model p then
      invalidate_loop fuel 16 (fun a s => flush_cpu_caches_040_2 0 1 a true true s) addr end_ s
    else s.

(** ** [set_cpu_caches]: after CACR was written *)
Definition sets_for (half_bit : Z) s : Z :=
  if (kp_cpu_model p =? 68060) && (k_cacr s .& half_bit =? 0) then CACHESETS060 else CACHESETS040.

Definition set_geometry s : caches M :=
  let isets := sets_for 0x00002000 s in
  let dsets := sets_for 0x08000000 s in
  {| s with cacheisets04060 := isets; cacheisets04060mask := isets - 1;
            cacheitag04060mask := u32 (Z.lnot ((isets << 4) - 1));
            cachedsets04060 := dsets; cachedsets04060mask := dsets - 1;
            cachedtag04060mask := u32 (Z.lnot ((dsets << 4) - 1)); cache_lastline := 0 |}.

Definition set_cpu_caches040 (flush : bool) s : caches M :=
  let c := kcpu s in
  let mm := rmmu c in
  let s := {| s with prefetch020addr := 0xffffffff; cacheholdingaddr020 := 0xffffffff;
    kcpu := {| c with rmmu := {| mm with
      cache_default_data := cache_default_data mm .& u8 (Z.lnot CACHE_DISABLE_ALLOCATE) |} |} |} in
  let s := set_geometry s in
  let log e s := {| s with jit_log := jit_log s ++ [e] |} in
  let s := if kp_cachesize p =? 0 then s
           else if kp_cpu_model p <? 68040 then
             let s := log (jit_set_cache_state (k_cacr s .& 1)) s in
             if truth (k_cacr s .& 0x08) then log (jit_flush_icache 3) s else s
           else log (jit_set_cache_state (if truth (k_cacr s .& 0x8000) then 1 else 0)) s in
  flush_cpu_caches flush s.
End Cache.
