(* ===== verification/CacheBytes.v ===== *)
(** * CacheBytes: a cache line as sixteen bytes

    Big-endian assembly of bytes, and what [dcache040_get_data] and
    [dcache040_update] mean for the bytes of a line. *)

From S2P Require Import Prelude Flags Cpu Cache040.
From Stdlib Require Import ZArith Lia Bool.
From stdpp Require Import base list gmap.
Open Scope Z_scope.
Open Scope cint_scope.

(** ** Big-endian values *)
(** The value whose [n] bytes, most significant first, are [g 0 .. g (n - 1)]. *)
Fixpoint be (n : nat) (g : Z -> Z) : Z :=
  match n with O => 0 | S k => be k g * 256 + g (Z.of_nat k) end.

Lemma be_ext n g h : (forall i, 0 <= i < Z.of_nat n -> g i = h i) -> be n g = be n h.
Proof.
  induction n as [|n IH]; intros Hgh; cbn [be]; [done|]. rewrite IH, (Hgh (Z.of_nat n)); [done|lia|].
  intros i Hi. apply Hgh. lia.
Qed.

Lemma be_bound n g : (forall i, 0 <= i < Z.of_nat n -> is_u8 (g i)) -> 0 <= be n g < 256 ^ Z.of_nat n.
Proof.
  induction n as [|n IH]; intros Hg; cbn [be]; [done|].
  rewrite Nat2Z.inj_succ, Z.pow_succ_r by lia.
  pose proof (IH ltac:(intros; apply Hg; lia)). pose proof (Hg (Z.of_nat n) ltac:(lia)) as Hn. unfold is_u8 in Hn. lia.
Qed.

(** Byte [i] of [x] written with [n] bytes. *)
Definition nth_byte (n : nat) (x i : Z) : Z := u8 (x >> (8 * (Z.of_nat n - 1 - i))).

Lemma be_bytes n x : 0 <= x < 256 ^ Z.of_nat n -> be n (nth_byte n x) = x.
Proof.
  revert x. induction n as [|n IH]; intros x Hx; cbn [be]; [change (256 ^ Z.of_nat 0) with 1 in Hx; lia|].
  rewrite Nat2Z.inj_succ, Z.pow_succ_r in Hx by lia.
  rewrite (be_ext n _ (nth_byte n (x / 256))).
  - rewrite IH by (split; [apply Z.div_pos; lia|apply Z.div_lt_upper_bound; lia]).
    unfold nth_byte. rewrite Nat2Z.inj_succ. replace (Z.succ (Z.of_nat n) - 1 - Z.of_nat n) with 0 by lia.
    rewrite Z.mul_0_r, Z.shiftr_0_r. unfold u8. pose proof (Z.div_mod x 256). lia.
  - intros i Hi. unfold nth_byte. f_equal. change 256 with (2 ^ 8).
    rewrite <- Z.shiftr_div_pow2, Z.shiftr_shiftr by lia. f_equal. lia.
Qed.

Lemma nth_byte_be n g j : (forall i, 0 <= i < Z.of_nat n -> is_u8 (g i)) -> 0 <= j < Z.of_nat n ->
  nth_byte n (be n g) j = g j.
Proof.
  induction n as [|n IH]; intros Hg Hj; [lia|]. unfold nth_byte in *. cbn [be].
  pose proof (Hg (Z.of_nat n) ltac:(lia)) as Hn. unfold is_u8 in Hn. rewrite Nat2Z.inj_succ in *.
  destruct (Z.eq_dec j (Z.of_nat n)) as [-> | ].
  - replace (8 * _) with 0 by lia. rewrite Z.shiftr_0_r. unfold u8. rewrite Z.add_comm, Z.mod_add, Z.mod_small; lia.
  - replace (8 * (Z.succ (Z.of_nat n) - 1 - j)) with (8 + 8 * (Z.of_nat n - 1 - j)) by lia.
    rewrite <- Z.shiftr_shiftr, (Z.shiftr_div_pow2 _ 8) by lia. change (2 ^ 8) with 256.
    rewrite Z.add_comm, Z.div_add, Z.div_small, Z.add_0_l by lia. apply IH; [intros; apply Hg; lia|lia].
Qed.

(** ** Bytes under shifts, masks and insertion *)
Lemma byte_ext x y : (forall i, 0 <= i < 8 -> Z.testbit x i = Z.testbit y i) -> u8 x = u8 y.
Proof.
  intros Hxy. apply Z.bits_inj'. intros i Hi. rewrite !testbit_u8.
  destruct (Z.ltb_spec i 8); [by rewrite Hxy by lia|by rewrite !andb_false_r].
Qed.

Lemma byte_land v w k : 0 <= k -> k + 8 <= w -> u8 ((v .& Z.ones w) >> k) = u8 (v >> k).
Proof.
  intros Hk Hw. apply byte_ext. intros i Hi.
  rewrite !Z.shiftr_spec, Z.land_spec, Z.ones_spec_low by lia. apply andb_true_r.
Qed.

Lemma byte_hi hi lo k : 0 <= lo < 2 ^ 32 -> 32 <= k -> u8 ((hi * 2 ^ 32 + lo) >> k) = u8 (hi >> (k - 32)).
Proof.
  intros Hlo Hk. apply byte_ext. intros i Hi. rewrite !Z.shiftr_spec, testbit_concat by lia.
  rewrite (proj2 (Z.ltb_ge _ _)) by lia. f_equal. lia.
Qed.

Lemma byte_lo hi lo k : 0 <= lo < 2 ^ 32 -> 0 <= k -> k + 8 <= 32 -> u8 ((hi * 2 ^ 32 + lo) >> k) = u8 (lo >> k).
Proof.
  intros Hlo Hk Hk'. apply byte_ext. intros i Hi. rewrite !Z.shiftr_spec, testbit_concat by lia.
  by rewrite (proj2 (Z.ltb_lt _ _)) by lia.
Qed.

(** The insertion of a [w]-bit value at bit [sh] of a [W]-bit word, as C
    writes it. *)
Definition insert_field (W v val sh w : Z) : Z :=
  (v .& (Z.lnot ((Z.ones w << sh) mod 2 ^ W) mod 2 ^ W)) .| ((val << sh) mod 2 ^ W).

Lemma insert_field_bit W v val sh w i : 0 <= w -> 0 <= sh -> sh + w <= W -> 0 <= val < 2 ^ w -> 0 <= i < W ->
  Z.testbit (insert_field W v val sh w) i
    = if (sh <=? i) && (i <? sh + w) then Z.testbit val (i - sh) else Z.testbit v i.
Proof.
  intros Hw Hsh HW Hval Hi. unfold insert_field.
  rewrite Z.lor_spec, Z.land_spec, !testbit_mod_pow2, Z.lnot_spec, testbit_mod_pow2, !Z.shiftl_spec by lia.
  rewrite !(proj2 (Z.ltb_lt i W)), !andb_true_r by lia.
  destruct (Z.leb_spec sh i); cbn [andb].
  - rewrite Z.testbit_ones_nonneg by lia.
    destruct (Z.ltb_spec i (sh + w)), (Z.ltb_spec (i - sh) w); try lia; cbn [negb].
    + by rewrite andb_false_r.
    + rewrite andb_true_r. rewrite <- (Z.mod_small val (2 ^ w)), testbit_mod_pow2 by lia.
      by rewrite (proj2 (Z.ltb_ge (i - sh) w)), andb_false_r, orb_false_r by lia.
  - rewrite !(Z.testbit_neg_r _ (i - sh)) by lia. cbn [negb]. by rewrite andb_true_r, orb_false_r.
Qed.

Lemma insert_field_byte W v val sh w k : 0 <= w -> 0 <= sh -> sh + w <= W -> 0 <= val < 2 ^ w ->
  0 <= k -> k + 8 <= W -> sh <= k /\ k + 8 <= sh + w \/ k + 8 <= sh \/ sh + w <= k ->
  u8 (insert_field W v val sh w >> k) = if (sh <=? k) && (k <? sh + w) then u8 (val >> (k - sh)) else u8 (v >> k).
Proof.
  intros Hw Hsh HW Hval Hk HkW Hc.
  destruct ((sh <=? k) && (k <? sh + w)) eqn:E; apply byte_ext; intros i Hi;
    rewrite !Z.shiftr_spec, insert_field_bit by lia.
  - replace ((sh <=? i + k) && (i + k <? sh + w)) with true by lia. f_equal. lia.
  - by replace ((sh <=? i + k) && (i + k <? sh + w)) with false by lia.
Qed.

Lemma insert_field_range W v val sh w : 0 <= W -> 0 <= insert_field W v val sh w < 2 ^ W.
Proof.
  intros HW. set (z := insert_field W v val sh w).
  enough (z = z mod 2 ^ W) as -> by (apply Z.mod_pos_bound; lia).
  apply Z.bits_inj'. intros i Hi. rewrite testbit_mod_pow2 by lia. unfold z, insert_field.
  rewrite Z.lor_spec, Z.land_spec, !testbit_mod_pow2 by lia.
  by destruct (Z.testbit v i), (Z.testbit (val << sh) i), (Z.testbit (Z.lnot _) i), (i <? W).
Qed.

(** ** The bytes of a line *)
Definition lbyte (l : cline) (o : Z) : Z := u8 (c_data l !!! Z.to_nat (o / 4) >> (8 * (3 - o mod 4))).

Definition wf_line (l : cline) : Prop :=
  length (c_data l) = 4%nat /\ Forall is_u32 (c_data l) /\ length (c_dirty l) = 4%nat.

Lemma wf_data l k : wf_line l -> (k < 4)%nat -> 0 <= c_data l !!! k < 2 ^ 32.
Proof.
  intros (Hl & Hu & _) Hk. destruct (lookup_lt_is_Some_2 (c_data l) k) as [v Hv]; [lia|].
  rewrite (list_lookup_total_correct _ _ _ Hv). exact (Forall_lookup_1 _ _ _ _ Hu Hv).
Qed.

Lemma lbyte_range l o : is_u8 (lbyte l o).
Proof. apply u8_range. Qed.

(** Number of bytes of an access. *)
Definition nbytes (size : Z) : nat := Z.to_nat (2 ^ size).

Lemma size_cases size : 0 <= size <= 2 -> size = 0 \/ size = 1 \/ size = 2.
Proof. lia. Qed.

(** The positions the code computes, without bit operations. *)
Lemma slot_offset o : 0 <= o < 16 -> (o * 8) .& 31 = 8 * (o mod 4) /\ Z.to_nat (o * 8 / 32) = Z.to_nat (o / 4).
Proof.
  intros Ho. change 31 with (Z.ones 5). rewrite Z.land_ones by lia. change (2 ^ 5) with 32.
  split; [|f_equal]; Z.div_mod_to_equations; lia.
Qed.

Lemma land_15 a : a .& 15 = a mod 16.
Proof. change 15 with (Z.ones 4). by rewrite Z.land_ones by lia. Qed.

(** The two-slot window as a number. *)
Lemma window_eq l k : wf_line l -> (S k < 4)%nat ->
  u64 (c_data l !!! k << 32) .| c_data l !!! S k = c_data l !!! k * 2 ^ 32 + c_data l !!! S k.
Proof.
  intros Hl Hk. pose proof (wf_data l k Hl ltac:(lia)). pose proof (wf_data l (S k) Hl Hk).
  rewrite u64_small, Z.lor_comm by (rewrite Z.shiftl_mul_pow2 by lia; change (2 ^ 32) with 4294967296 in *; lia).
  by rewrite lor_shl_add.
Qed.

(** The bytes of one slot and of two neighbouring slots. *)
Lemma slot_byte l (k : nat) j : 0 <= j < 4 -> u8 (c_data l !!! k >> (8 * (3 - j))) = lbyte l (4 * Z.of_nat k + j).
Proof.
  intros Hj. unfold lbyte. replace (Z.to_nat ((4 * Z.of_nat k + j) / 4)) with k by (Z.div_mod_to_equations; lia).
  f_equal. f_equal. Z.div_mod_to_equations; lia.
Qed.

Lemma window_byte l (k : nat) j : wf_line l -> (S k < 4)%nat -> 0 <= j < 8 ->
  u8 ((c_data l !!! k * 2 ^ 32 + c_data l !!! S k) >> (8 * (7 - j))) = lbyte l (4 * Z.of_nat k + j).
Proof.
  intros Hl Hk Hj. pose proof (wf_data l (S k) Hl Hk) as Hd. destruct (Z.ltb_spec j 4).
  - rewrite byte_hi, <- slot_byte by lia. f_equal. f_equal. lia.
  - rewrite byte_lo by lia. replace (4 * Z.of_nat k + j) with (4 * Z.of_nat (S k) + (j - 4)) by lia.
    rewrite <- slot_byte by lia. f_equal. f_equal. lia.
Qed.

(** An offset is a slot and a byte of it. *)
Lemma offset_split o : 0 <= o < 16 -> exists (k : nat) r, o = 4 * Z.of_nat k + r /\ 0 <= r < 4 /\ (k < 4)%nat
  /\ o mod 4 = r /\ Z.to_nat (o / 4) = k.
Proof.
  intros Ho. exists (Z.to_nat (o / 4)), (o mod 4). split_and!; (done || (Z.div_mod_to_equations; lia)).
Qed.

Lemma size_width size : 0 <= size <= 2 -> 8 << size = 8 * Z.of_nat (nbytes size) /\ (1 <= nbytes size <= 4)%nat.
Proof. intros Hs. destruct (size_cases size Hs) as [-> | [-> | ->]]; (split; [reflexivity|vm_compute; lia]). Qed.

Lemma field_bound v k w : 0 <= w -> 0 <= (v >> k) .& Z.ones w < 2 ^ w.
Proof. intros. rewrite Z.land_ones by lia. apply Z.mod_pos_bound. lia. Qed.

Lemma pow_256 n : 256 ^ Z.of_nat n = 2 ^ (8 * Z.of_nat n).
Proof. change 256 with (2 ^ 8). rewrite <- Z.pow_mul_r by lia. done. Qed.

(** A read from a line is the bytes from its offset on. *)
Lemma get_data_spec addr l size : wf_line l -> 0 <= size <= 2 ->
  addr mod 16 + Z.of_nat (nbytes size) <= 16 ->
  dcache040_get_data addr l size = be (nbytes size) (fun i => lbyte l (addr mod 16 + i)).
Proof.
  intros Hl Hs Hfit. unfold dcache040_get_data, size_mask. rewrite land_15.
  pose proof (Z.mod_pos_bound addr 16 ltac:(lia)) as Ho. set (o := addr mod 16) in *.
  destruct (slot_offset o Ho) as [-> ->]. destruct (size_width size Hs) as [-> Hn].
  set (n := nbytes size) in *.
  assert (E : forall v k, 0 <= k -> (v >> k) .& Z.ones (8 * Z.of_nat n)
                        = be n (fun i => u8 (v >> (k + 8 * (Z.of_nat n - 1 - i))))).
  { intros v k Hk. rewrite <- (be_bytes n ((v >> k) .& _)) at 1 by (rewrite pow_256; apply field_bound; lia).
    apply be_ext. intros i Hi. unfold nth_byte. rewrite byte_land, Z.shiftr_shiftr by lia. done. }
  destruct (offset_split o Ho) as (k & r & -> & Hr & Hk & -> & ->).
  destruct (Z.leb_spec (8 * r + 8 * Z.of_nat n) 32).
  - rewrite E by lia. apply be_ext. intros i Hi. rewrite <- Z.add_assoc, <- slot_byte by lia. f_equal. f_equal. lia.
  - rewrite window_eq, E by (done || lia). apply be_ext. intros i Hi.
    rewrite <- Z.add_assoc, <- window_byte by (done || lia). f_equal. f_equal. lia.
Qed.

(** ** Updating a line *)
Lemma insert_field_32 v val sh w :
  (v .& u32 (Z.lnot (u32 (Z.ones w << sh)))) .| u32 (val << sh) = insert_field 32 v val sh w.
Proof. done. Qed.
Lemma insert_field_64 v val sh w :
  (v .& u64 (Z.lnot (u64 (Z.ones w << sh)))) .| u64 (val << sh) = insert_field 64 v val sh w.
Proof. done. Qed.

Lemma lookup_insert_cases {A} `{Inhabited A} (l : list A) (k k' : nat) (v : A) : (k < length l)%nat ->
  <[k := v]> l !!! k' = if decide (k = k') then v else l !!! k'.
Proof.
  intros Hk. case_decide as E; [subst; by apply list_lookup_total_insert_eq|by apply list_lookup_total_insert_ne].
Qed.

(** What an update does, seen from outside. *)
Record updated (l l' : cline) (o : Z) (n : nat) (val : Z) : Prop := mk_updated {
  up_wf : wf_line l';
  up_byte : forall o', 0 <= o' < 16 -> lbyte l' o'
    = if (o <=? o') && (o' <? o + Z.of_nat n) then nth_byte n val (o' - o) else lbyte l o';
  up_dirty : forall o', o <= o' < o + Z.of_nat n -> c_dirty l' !!! Z.to_nat (o' / 4) = true;
  up_clean : forall k, c_dirty l' !!! k = false -> c_dirty l !!! k = false;
  up_tag : c_tag l' = c_tag l; up_valid : c_valid l' = c_valid l }.

Lemma update_one l (k : nat) r n val : wf_line l -> (k < 4)%nat -> 0 <= r -> (1 <= n)%nat ->
  r + Z.of_nat n <= 4 -> 0 <= val < 2 ^ (8 * Z.of_nat n) ->
  let v := insert_field 32 (c_data l !!! k) val (32 - (8 * r + 8 * Z.of_nat n)) (8 * Z.of_nat n) in
  updated l {| l with c_data := <[k := v]> (c_data l); c_dirty := <[k := true]> (c_dirty l); c_gdirty := true |}
    (4 * Z.of_nat k + r) n val.
Proof.
  intros (Hl & Hu & Hd) Hk Hr Hn Hfit Hval v. split; cbn [c_data c_dirty c_tag c_valid]; try done.
  - split_and!; cbn [c_data c_dirty]; rewrite ?length_insert; try done.
    apply Forall_insert; [done|]. apply (insert_field_range 32). lia.
  - intros o' Ho'. destruct (offset_split o' Ho') as (k' & r' & -> & Hr' & Hk' & _).
    rewrite <- !slot_byte by lia. cbn [c_data]. rewrite lookup_insert_cases by lia. case_decide as E.
    + subst k'. unfold v. rewrite insert_field_byte by lia. unfold nth_byte.
      destruct (Z.leb_spec (4 * Z.of_nat k + r) (4 * Z.of_nat k + r')), (Z.ltb_spec (4 * Z.of_nat k + r') (4 * Z.of_nat k + r + Z.of_nat n));
        cbn [andb]; case_match; try lia; try done. f_equal. f_equal. lia.
    + by replace ((4 * Z.of_nat k + r <=? 4 * Z.of_nat k' + r') && _) with false by lia.
  - intros o' Ho'. rewrite lookup_insert_cases by lia. rewrite decide_True; [done|Z.div_mod_to_equations; lia].
  - intros k'. rewrite lookup_insert_cases by lia. by case_decide.
Qed.

Lemma byte_u32 v k : 0 <= k -> k + 8 <= 32 -> u8 (u32 v >> k) = u8 (v >> k).
Proof. intros. rewrite <- (byte_land v 32 k), Z.land_ones by lia. done. Qed.

Lemma update_two l (k : nat) r n val : wf_line l -> (S k < 4)%nat -> 0 <= r < 4 -> (1 <= n <= 4)%nat ->
  4 < r + Z.of_nat n -> 0 <= val < 2 ^ (8 * Z.of_nat n) ->
  let v := insert_field 64 (c_data l !!! k * 2 ^ 32 + c_data l !!! S k) val
             (64 - (8 * r + 8 * Z.of_nat n)) (8 * Z.of_nat n) in
  updated l {| l with c_data := <[S k := u32 v]> (<[k := v >> 32]> (c_data l));
                      c_dirty := <[S k := true]> (<[k := true]> (c_dirty l)); c_gdirty := true |}
    (4 * Z.of_nat k + r) n val.
Proof.
  intros Hwf Hk Hr Hn Hfit Hval v. pose proof Hwf as (Hl & Hu & Hd).
  assert (Hv : 0 <= v < 2 ^ 64) by (apply insert_field_range; lia).
  split; cbn [c_data c_dirty c_tag c_valid]; try done.
  - split_and!; cbn [c_data c_dirty]; rewrite ?length_insert; try done.
    apply Forall_insert; [apply Forall_insert; [done|]|apply u32_range].
    rewrite Z.shiftr_div_pow2 by lia. change (2 ^ 64) with (2 ^ 32 * 2 ^ 32) in Hv.
    split; [apply Z.div_pos; lia|apply Z.div_lt_upper_bound; lia].
  - intros o' Ho'. destruct (offset_split o' Ho') as (k' & r' & -> & Hr' & Hk' & _).
    assert (Hb : forall j, 0 <= j < 8 -> u8 (v >> (8 * (7 - j)))
      = if (4 * Z.of_nat k + r <=? 4 * Z.of_nat k + j) && (4 * Z.of_nat k + j <? 4 * Z.of_nat k + r + Z.of_nat n)
        then nth_byte n val (j - r) else lbyte l (4 * Z.of_nat k + j)).
    { intros j Hj. unfold v. rewrite insert_field_byte, window_byte by (done || lia). unfold nth_byte.
      destruct (Z.leb_spec (4 * Z.of_nat k + r) (4 * Z.of_nat k + j)),
        (Z.ltb_spec (4 * Z.of_nat k + j) (4 * Z.of_nat k + r + Z.of_nat n));
        cbn [andb]; case_match; try lia; try done. f_equal. f_equal. lia. }
    rewrite <- slot_byte by lia. cbn [c_data].
    rewrite !lookup_insert_cases by (rewrite ?length_insert; lia). repeat case_decide; subst.
    + rewrite byte_u32 by lia. replace (8 * (3 - r')) with (8 * (7 - (r' + 4))) by lia. rewrite Hb by lia.
      rewrite Nat2Z.inj_succ. replace (4 * Z.succ (Z.of_nat k) + r') with (4 * Z.of_nat k + (r' + 4)) by lia.
      by replace (4 * Z.of_nat k + (r' + 4) - (4 * Z.of_nat k + r)) with (r' + 4 - r) by lia.
    + rewrite Z.shiftr_shiftr by lia. replace (32 + 8 * (3 - r')) with (8 * (7 - r')) by lia. rewrite Hb by lia.
      by replace (4 * Z.of_nat k' + r' - (4 * Z.of_nat k' + r)) with (r' - r) by lia.
    + rewrite slot_byte by lia. by replace ((4 * Z.of_nat k + r <=? 4 * Z.of_nat k' + r') && _) with false by lia.
  - intros o' Ho'. rewrite !lookup_insert_cases by (rewrite ?length_insert; lia).
    repeat case_decide; try done. exfalso. Z.div_mod_to_equations; lia.
  - intros k'. rewrite !lookup_insert_cases by (rewrite ?length_insert; lia). by repeat case_decide.
Qed.

(** A write into a line sets the bytes from its offset on, marks their slots
    dirty, and leaves the other bytes alone. *)
Lemma update_spec addr l val size : wf_line l -> 0 <= size <= 2 ->
  addr mod 16 + Z.of_nat (nbytes size) <= 16 -> 0 <= val < 2 ^ (8 * Z.of_nat (nbytes size)) ->
  updated l (dcache040_update addr l val size) (addr mod 16) (nbytes size) val
  /\ c_gdirty (dcache040_update addr l val size) = true.
Proof.
  intros Hl Hs Hfit Hval. unfold dcache040_update, size_mask. rewrite land_15.
  pose proof (Z.mod_pos_bound addr 16 ltac:(lia)) as Ho. set (o := addr mod 16) in *.
  destruct (slot_offset o Ho) as [-> ->]. destruct (size_width size Hs) as [-> Hn]. set (n := nbytes size) in *.
  destruct (offset_split o Ho) as (k & r & -> & Hr & Hk & -> & ->).
  rewrite insert_field_32, insert_field_64. destruct (Z.leb_spec (8 * r + 8 * Z.of_nat n) 32).
  - split; [|done]. exact (update_one l k r n val Hl Hk (proj1 Hr) (proj1 Hn) ltac:(lia) Hval).
  - rewrite window_eq by (done || lia). split; [|done]. exact (update_two l k r n val Hl ltac:(lia) Hr Hn ltac:(lia) Hval).
Qed.
