(* ===== verification/CacheView.v ===== *)
(** * CacheView: the memory a cached program sees

    [view] is the byte a read finds: in a line of the data cache that holds the
    address, or in memory.  The invariant [dc_inv] says the lines are where
    lookups expect them, no block is cached twice, and clean words agree with
    memory.  Each internal step of the cache (write a line back, fill a line,
    change a line, store past the cache) is shown to keep the invariant and to
    act on the view as it should. *)

From S2P Require Import Prelude Flags Cpu Cache040 CacheBytes.
From Stdlib Require Import ZArith Lia Bool.
From stdpp Require Import base list gmap.
Open Scope Z_scope.
Open Scope cint_scope.

Section View.
Context {M : Type} `{BusLaws M} (p : cache_prefs).
Implicit Types (s : caches M) (m : M) (l : cline).

(** ** Memory as bytes *)
Lemma dcache_get_be size a m : 0 <= size <= 2 ->
  dcache_get size a m = be (nbytes size) (fun i => get_byte m (a + i)).
Proof.
  intros Hs. unfold dcache_get. destruct (size_cases size Hs) as [-> | [-> | ->]]; cbn [Z.eqb Pos.eqb].
  - change (nbytes 0) with 1%nat. cbn. by rewrite Z.add_0_r.
  - change (nbytes 1) with 2%nat. cbn. rewrite get_word_bytes, Z.add_0_r. done.
  - change (nbytes 2) with 4%nat. cbn [be]. rewrite get_long_words, !get_word_bytes.
    change (Z.of_nat 0) with 0. rewrite Z.add_0_r, <- Z.add_assoc. change (2 + 1) with 3.
    change (Z.of_nat 1) with 1. change (Z.of_nat 2) with 2. change (Z.of_nat 3) with 3. lia.
Qed.

Lemma get_put_u32 m a v b : is_u32 a -> is_u32 b ->
  get_byte (put_byte a v m) b = if a =? b then u8 v else get_byte m b.
Proof. intros. by rewrite get_put_byte, !u32_small by done. Qed.

Lemma dcache_put_byte size a v m b : 0 <= size <= 2 -> is_u32 a -> a + Z.of_nat (nbytes size) <= 2 ^ 32 ->
  is_u32 b -> get_byte (dcache_put size a v m) b
    = if (a <=? b) && (b <? a + Z.of_nat (nbytes size)) then nth_byte (nbytes size) v (b - a) else get_byte m b.
Proof.
  intros Hs Ha Hfit Hb. unfold dcache_put, nth_byte. change (2 ^ 32) with 4294967296 in Hfit. unfold is_u32 in *.
  destruct (size_cases size Hs) as [-> | [-> | ->]]; cbn [Z.eqb Pos.eqb].
  1: change (nbytes 0) with 1%nat in *. 2: change (nbytes 1) with 2%nat in *. 3: change (nbytes 2) with 4%nat in *.
  all: rewrite ?put_long_words, ?put_word_bytes, !get_put_u32 by (unfold is_u32; lia).
  all: repeat case_match; rewrite ?andb_true_iff, ?andb_false_iff, ?Z.leb_le, ?Z.leb_gt, ?Z.ltb_lt, ?Z.ltb_ge in *;
    try lia; try done; rewrite ?Z.shiftr_shiftr by lia; f_equal; rewrite <- (Z.shiftr_0_r v) at 1 || idtac; f_equal; lia.
Qed.

(** ** Geometry *)
Record geom_ok s : Prop := mk_geom {
  g_sets : cachedsets04060 s = 64 \/ cachedsets04060 s = 128;
  g_mask : cachedsets04060mask s = cachedsets04060 s - 1;
  g_tag : cachedtag04060mask s = 2 ^ 32 - 16 * cachedsets04060 s }.

(** The 16-byte block of an address. *)
Definition blk (a : Z) : Z := a - a mod 16.
Definition laddr (i : Z) l : Z := c_tag l + 16 * i.

Lemma land_high a g : 0 <= g <= 32 -> is_u32 a -> a .& (2 ^ 32 - 2 ^ g) = a - a mod 2 ^ g.
Proof.
  intros Hg Ha. replace (2 ^ 32 - 2 ^ g) with (Z.ones (32 - g) << g).
  2: { rewrite Z.shiftl_mul_pow2, Z.ones_equiv by lia. unfold Z.pred.
       rewrite Z.mul_add_distr_r, <- Z.pow_add_r by lia. replace (32 - g + g) with 32; lia. }
  rewrite land_shl_mask, Z.land_ones, Z.shiftl_mul_pow2, Z.shiftr_div_pow2 by lia.
  rewrite Z.mod_small.
  - pose proof (Z.div_mod a (2 ^ g)). lia.
  - unfold is_u32 in Ha. split; [apply Z.div_pos; lia|]. apply Z.div_lt_upper_bound; [lia|].
    rewrite <- Z.pow_add_r by lia. replace (g + (32 - g)) with 32 by lia. lia.
Qed.

Lemma base_block a : is_u32 a -> a .& u32 (Z.lnot 15) = blk a.
Proof. intros Ha. by apply (land_high a 4). Qed.

Lemma d_index_eq s a : geom_ok s -> d_index s a = (a / 16) mod cachedsets04060 s.
Proof.
  intros [Hs Hm _]. unfold d_index. rewrite Hm, Z.shiftr_div_pow2 by lia. change (2 ^ 4) with 16.
  destruct Hs as [-> | ->]; [by apply (Z.land_ones _ 6)|by apply (Z.land_ones _ 7)].
Qed.

Lemma d_tag_eq s a : geom_ok s -> is_u32 a -> d_tag s a = a - a mod (16 * cachedsets04060 s).
Proof.
  intros [Hs _ Ht] Ha. unfold d_tag. rewrite Ht.
  destruct Hs as [-> | ->]; [by apply (land_high a 10)|by apply (land_high a 11)].
Qed.

(** Where a blk belongs. *)
Definition home s (i tag : Z) : Prop :=
  0 <= i < cachedsets04060 s /\ is_u32 tag /\ tag mod (16 * cachedsets04060 s) = 0.

Lemma home_of s a : geom_ok s -> is_u32 a ->
  home s (d_index s a) (d_tag s a) /\ d_tag s a + 16 * d_index s a = blk a.
Proof.
  intros Hg Ha. rewrite d_index_eq, d_tag_eq by done. unfold home, blk, is_u32 in *.
  destruct (g_sets s Hg) as [-> | ->]; Z.div_mod_to_equations; lia.
Qed.

Lemma home_inj s i tag i' tag' : geom_ok s -> home s i tag -> home s i' tag' ->
  tag + 16 * i = tag' + 16 * i' -> i = i' /\ tag = tag'.
Proof.
  intros Hg (Hi & Ht & Hm) (Hi' & Ht' & Hm') E. unfold is_u32 in *.
  destruct (g_sets s Hg) as [Es|Es]; rewrite Es in *; Z.div_mod_to_equations; lia.
Qed.

Lemma home_aligned s i tag : geom_ok s -> home s i tag -> (tag + 16 * i) mod 16 = 0 /\ 0 <= tag + 16 * i <= 2 ^ 32 - 16.
Proof.
  intros Hg (Hi & Ht & Hm). unfold is_u32 in *. change (2 ^ 32) with 4294967296.
  destruct (g_sets s Hg) as [Es|Es]; rewrite Es in *; Z.div_mod_to_equations; lia.
Qed.

Lemma line_addr_eq s i l : geom_ok s -> home s i (c_tag l) -> line_addr s i l = laddr i l.
Proof.
  intros Hg (Hi & Ht & Hm). unfold line_addr. fold (d_tag s (c_tag l)). rewrite d_tag_eq, Hm, Z.sub_0_r by done.
  rewrite Z.lor_comm. unfold laddr. assert (E : forall g, 4 <= g -> 16 * i < 2 ^ g -> c_tag l mod 2 ^ g = 0 ->
    (i << 4) .| c_tag l = c_tag l + 16 * i).
  { intros g Hg4 Hig Hmg. pose proof (Z.div_mod (c_tag l) (2 ^ g)).
    replace (c_tag l) with (c_tag l / 2 ^ g * 2 ^ g) at 1 by lia. rewrite <- Z.shiftl_mul_pow2 by lia.
    rewrite lor_shl_add; [|lia|]; rewrite Z.shiftl_mul_pow2 by lia; change (2 ^ 4) with 16; lia. }
  destruct (g_sets s Hg) as [Es|Es]; rewrite Es in *; [apply (E 10)|apply (E 11)]; (done || lia).
Qed.

(** ** Lines of the cache *)
Lemma dline_set i w l s i' w' : length (dcaches040 s) = 512%nat ->
  0 <= i < 128 -> 0 <= w < 4 -> 0 <= i' < 128 -> 0 <= w' < 4 ->
  dline (set_dline i w l s) i' w' = if (i =? i') && (w =? w') then l else dline s i' w'.
Proof.
  intros Hl Hi Hw Hi' Hw'. unfold dline, set_dline, cpos, CACHELINES040. cbn [dcaches040].
  rewrite lookup_insert_cases by lia. case_decide; case_match; try done; lia.
Qed.

(** Clean words of a line agree with memory. *)
Definition coherent m (A : Z) l : Prop :=
  forall o, 0 <= o < 16 -> c_dirty l !!! Z.to_nat (o / 4) = false -> lbyte l o = get_byte m (A + o).

Record line_inv s (i : Z) l : Prop := mk_line_inv {
  li_wf : wf_line l;
  li_home : c_valid l = true -> home s i (c_tag l);
  li_coh : c_valid l = true -> coherent (kmem s) (laddr i l) l;
  li_gdirty : c_valid l = true -> c_gdirty l = false -> forall k, (k < 4)%nat -> c_dirty l !!! k = false }.

Record dc_inv s : Prop := mk_dc_inv {
  i_geom : geom_ok s;
  i_len : length (dcaches040 s) = 512%nat;
  i_line : forall i w, 0 <= i < 128 -> 0 <= w < 4 -> line_inv s i (dline s i w);
  i_uniq : forall i w w', 0 <= i < 128 -> 0 <= w < 4 -> 0 <= w' < 4 ->
    c_valid (dline s i w) = true -> c_valid (dline s i w') = true ->
    c_tag (dline s i w) = c_tag (dline s i w') -> w = w' }.

(** Line [w] of set [i] holds the block of [b]. *)
Definition holds s (i w b : Z) : Prop :=
  0 <= i < 128 /\ 0 <= w < 4 /\ c_valid (dline s i w) = true /\ laddr i (dline s i w) = blk b.

Lemma sets_le s : geom_ok s -> 64 <= cachedsets04060 s <= 128.
Proof. intros Hg. destruct (g_sets s Hg); lia. Qed.

Lemma holds_uniq s i w i' w' b : dc_inv s -> holds s i w b -> holds s i' w' b -> i = i' /\ w = w'.
Proof.
  intros Hs (Hi & Hw & Hv & E) (Hi' & Hw' & Hv' & E').
  destruct (home_inj s i (c_tag (dline s i w)) i' (c_tag (dline s i' w')) (i_geom s Hs)) as [<- Et].
  1,2: by apply i_line. { unfold laddr in *. lia. }
  split; [done|]. by apply (i_uniq s Hs i).
Qed.

Lemma find_way_some ok w : find_way ok ways = Some w -> 0 <= w < 4 /\ ok w = true.
Proof. unfold find_way, ways. repeat case_match; naive_solver lia. Qed.
Lemma find_way_none ok : find_way ok ways = None -> forall w, 0 <= w < 4 -> ok w = false.
Proof.
  unfold find_way, ways. repeat case_match; try done. intros _ w Hw.
  assert (w = 0 \/ w = 1 \/ w = 2 \/ w = 3) as [-> | [-> | [-> | ->]]] by lia; done.
Qed.

(** The lookup finds exactly the line that holds the address. *)
Lemma hit_holds s b w : dc_inv s -> is_u32 b -> 0 <= w < 4 ->
  line_hit (dline s (d_index s b)) (d_tag s b) w = true <-> holds s (d_index s b) w b.
Proof.
  intros Hs Hb Hw. pose proof (i_geom s Hs) as Hg. destruct (home_of s b Hg Hb) as [Hh Eb].
  pose proof (sets_le s Hg). unfold line_hit, holds. rewrite andb_true_iff, Z.eqb_eq. split.
  - intros [Hv Et]. split_and!; [destruct Hh; lia|destruct Hh; lia|lia|lia|done|]. unfold laddr. lia.
  - intros (_ & _ & Hv & E). split; [done|]. unfold laddr in E. lia.
Qed.

Lemma holds_index s i w b : dc_inv s -> is_u32 b -> holds s i w b -> i = d_index s b.
Proof.
  intros Hs Hb (Hi & Hw & Hv & E). pose proof (i_geom s Hs) as Hg. destruct (home_of s b Hg Hb) as [Hh Eb].
  by apply (home_inj s i (c_tag (dline s i w)) _ (d_tag s b) Hg); [by apply i_line|done|unfold laddr in E; lia].
Qed.

Definition view s (b : Z) : Z :=
  match find_way (line_hit (dline s (d_index s b)) (d_tag s b)) ways with
  | Some w => lbyte (dline s (d_index s b) w) (b mod 16)
  | None => get_byte (kmem s) b
  end.

Lemma lookup_cases s b : dc_inv s -> is_u32 b ->
  match find_way (line_hit (dline s (d_index s b)) (d_tag s b)) ways with
  | Some w => holds s (d_index s b) w b
  | None => forall i w, ~ holds s i w b
  end.
Proof.
  intros Hs Hb. destruct (find_way _ ways) eqn:E.
  - apply find_way_some in E as [Hw E]. by apply hit_holds.
  - intros i w Hh. pose proof Hh as (_ & Hw & _). pose proof (holds_index s i w b Hs Hb Hh) as ->.
    apply hit_holds in Hh; [|done..]. by rewrite (find_way_none _ E w Hw) in Hh.
Qed.

Lemma view_holds s i w b : dc_inv s -> is_u32 b -> holds s i w b -> view s b = lbyte (dline s i w) (b mod 16).
Proof.
  intros Hs Hb Hh. pose proof (lookup_cases s b Hs Hb) as Hc. unfold view. destruct (find_way _ ways) as [w'|].
  - by destruct (holds_uniq s _ _ _ _ b Hs Hc Hh) as [-> ->].
  - by destruct (Hc i w).
Qed.

Lemma view_none s b : dc_inv s -> is_u32 b -> (forall i w, ~ holds s i w b) -> view s b = get_byte (kmem s) b.
Proof.
  intros Hs Hb Hn. pose proof (lookup_cases s b Hs Hb) as Hc. unfold view. destruct (find_way _ ways); [|done].
  by destruct (Hn _ _ Hc).
Qed.

Lemma holds_or_not s b : dc_inv s -> is_u32 b ->
  (exists i w, holds s i w b) \/ (forall i w, ~ holds s i w b).
Proof.
  intros Hs Hb. pose proof (lookup_cases s b Hs Hb) as Hc. destruct (find_way _ ways); [left; eauto|by right].
Qed.

(** ** Steps of the cache *)
Definition same_geom s s' : Prop :=
  cachedsets04060 s' = cachedsets04060 s /\ cachedsets04060mask s' = cachedsets04060mask s
  /\ cachedtag04060mask s' = cachedtag04060mask s.

(** [s'] is [s] with line [w] of set [i] replaced by [l']; memory may differ. *)
Definition replaced s s' (i w : Z) l' : Prop :=
  same_geom s s' /\ dcaches040 s' = <[cpos i w := l']> (dcaches040 s) /\ 0 <= i < 128 /\ 0 <= w < 4.

Lemma same_geom_ok s s' : same_geom s s' -> geom_ok s -> geom_ok s'.
Proof. intros (E1 & E2 & E3) [Hs Hm Ht]. by split; rewrite ?E1, ?E2, ?E3. Qed.

Lemma same_geom_home s s' i tag : same_geom s s' -> home s i tag -> home s' i tag.
Proof. intros (E1 & _ & _). unfold home. by rewrite E1. Qed.

Lemma replaced_line s s' i w l' i' w' : length (dcaches040 s) = 512%nat -> replaced s s' i w l' ->
  0 <= i' < 128 -> 0 <= w' < 4 ->
  dline s' i' w' = if (i =? i') && (w =? w') then l' else dline s i' w'.
Proof. intros Hl (_ & E & Hi & Hw) Hi' Hw'. rewrite <- (dline_set i w l' s i' w') by done. unfold dline. by rewrite E. Qed.

(** How the lines that hold an address change. *)
Lemma replaced_holds s s' i w l' i' w' b : length (dcaches040 s) = 512%nat -> replaced s s' i w l' ->
  holds s' i' w' b <->
  if (i =? i') && (w =? w') then c_valid l' = true /\ laddr i l' = blk b else holds s i' w' b.
Proof.
  intros Hl Hr. split.
  - intros (Hi' & Hw' & Hv & E). rewrite (replaced_line s s' i w l') in Hv, E by done.
    case_match eqn:Eq; [|done]. assert (i = i') as -> by lia. done.
  - intros Hh. pose proof Hr as (_ & _ & Hi & Hw). unfold holds.
    destruct ((i =? i') && (w =? w')) eqn:Eq.
    + assert (i' = i) as -> by lia. assert (w' = w) as -> by lia.
      rewrite (replaced_line s s' i w l') by done. rewrite !Z.eqb_refl. destruct Hh. split_and!; (done || lia).
    + destruct Hh as (Hi' & Hw' & Hv & E). rewrite (replaced_line s s' i w l'), Eq by done. by split_and!; try lia.
Qed.

(** The invariant after a replacement, from its parts: the new line is in
    order, it does not duplicate another, and the other lines still agree with
    memory. *)
Lemma replaced_inv s s' i w l' : dc_inv s -> replaced s s' i w l' -> line_inv s' i l' ->
  (c_valid l' = true -> forall w', 0 <= w' < 4 -> w' <> w -> c_valid (dline s i w') = true ->
     c_tag (dline s i w') <> c_tag l') ->
  (forall i' w' o, ~ (i' = i /\ w' = w) -> holds s i' w' (laddr i' (dline s i' w')) -> 0 <= o < 16 ->
     get_byte (kmem s') (laddr i' (dline s i' w') + o) = get_byte (kmem s) (laddr i' (dline s i' w') + o)) ->
  dc_inv s'.
Proof.
  intros [Hg Hl Hli Hu] Hr Hl' Hd Hm. pose proof Hr as (Hsg & E & Hi & Hw). split.
  - by eapply same_geom_ok.
  - by rewrite E, length_insert.
  - intros i' w' Hi' Hw'. rewrite (replaced_line s s' i w l') by done. case_match eqn:Eq.
    { by assert (i' = i) as -> by lia. }
    destruct (Hli i' w' Hi' Hw') as [Hwf Hh Hc Hgd]. split; [done|intros Hv; by eapply same_geom_home, Hh| |done].
    intros Hv o Ho Hcl. rewrite (Hc Hv o Ho Hcl), Hm; [done|lia| |done].
    split_and!; [lia..|done|]. unfold blk, laddr.
    destruct (home_aligned s i' (c_tag (dline s i' w')) Hg (Hh Hv)) as [-> _]. lia.
  - intros i' w1 w2 Hi' H1 H2. rewrite !(replaced_line s s' i w l') by done. intros Hv1 Hv2 Et.
    destruct (Z.eqb_spec i i') as [<- | ]; cbn [andb] in *; [|by apply (Hu i')].
    destruct (Z.eqb_spec w w1) as [<- | ], (Z.eqb_spec w w2) as [<- | ]; [done| | |by apply (Hu i)].
    + exfalso. apply (Hd Hv1 w2); done || lia.
    + exfalso. apply (Hd Hv2 w1); done || lia.
Qed.

(** Addresses of other blocks. *)
Lemma block_disjoint A b : A mod 16 = 0 -> A <> blk b -> (A <=? b) && (b <? A + 16) = false.
Proof. intros HA Hne. unfold blk in *. Z.div_mod_to_equations. lia. Qed.
Lemma block_in b : (blk b <=? b) && (b <? blk b + 16) = true.
Proof. unfold blk. Z.div_mod_to_equations. lia. Qed.
Lemma block_off b : b - blk b = b mod 16.
Proof. unfold blk. lia. Qed.
Lemma block_block A o : A mod 16 = 0 -> 0 <= o < 16 -> blk (A + o) = A.
Proof. intros. unfold blk. Z.div_mod_to_equations. lia. Qed.

Lemma holds_home s i w b : dc_inv s -> holds s i w b ->
  home s i (c_tag (dline s i w)) /\ blk b mod 16 = 0 /\ 0 <= blk b <= 2 ^ 32 - 16.
Proof.
  intros Hs (Hi & Hw & Hv & <-). assert (Hh : home s i (c_tag (dline s i w))) by by apply (i_line s Hs i w).
  split; [done|]. apply (home_aligned s i); [apply Hs|done].
Qed.

(** *** A line written back: memory takes its bytes, the line is clean and may
    have been dropped *)
Section Clean.
Context (s s' : caches M) (i w : Z) (l' : cline).
Context (Hs : dc_inv s) (Hr : replaced s s' i w l') (Hv : c_valid (dline s i w) = true).
Context (Hwf : wf_line l') (Ed : c_data l' = c_data (dline s i w)) (Et : c_tag l' = c_tag (dline s i w)).
Context (Hcl : forall k, (k < 4)%nat -> c_dirty l' !!! k = false).
Context (Hmem : forall b, is_u32 b -> get_byte (kmem s') b =
     let A := laddr i (dline s i w) in
     if (A <=? b) && (b <? A + 16) then lbyte (dline s i w) (b - A) else get_byte (kmem s) b).

Lemma clean_holds : holds s i w (laddr i (dline s i w)).
Proof.
  destruct Hr as (_ & _ & Hi & Hw). split_and!; [lia..|done|]. unfold blk.
  destruct (home_aligned s i (c_tag (dline s i w)) (i_geom s Hs)) as [E _]; [by apply (i_line s Hs i w)|].
  fold (laddr i (dline s i w)) in E. lia.
Qed.

Lemma clean_byte o : lbyte l' o = lbyte (dline s i w) o.
Proof. unfold lbyte. by rewrite Ed. Qed.
Lemma clean_laddr : laddr i l' = laddr i (dline s i w).
Proof. unfold laddr. by rewrite Et. Qed.

(** Bytes of other held blocks are not touched. *)
Lemma clean_other i' w' o : ~ (i' = i /\ w' = w) -> holds s i' w' (laddr i' (dline s i' w')) -> 0 <= o < 16 ->
  get_byte (kmem s') (laddr i' (dline s i' w') + o) = get_byte (kmem s) (laddr i' (dline s i' w') + o).
Proof.
  intros Hne Hh Ho. destruct (holds_home s i' w' _ Hs Hh) as (_ & HA & HA').
  pose proof Hh as (_ & _ & _ & E). change (2 ^ 32) with 4294967296 in HA'. rewrite <- E in HA, HA'.
  destruct (holds_home s i w _ Hs clean_holds) as (_ & HB & _). pose proof clean_holds as (_ & _ & _ & EB).
  rewrite <- EB in HB. rewrite Hmem by (unfold is_u32; lia). cbn zeta. rewrite block_disjoint; [done|done|].
  rewrite block_block by done. intros EA. apply Hne.
  destruct (holds_uniq s i' w' i w (laddr i (dline s i w)) Hs) as [-> ->]; [by rewrite EA|apply clean_holds|done].
Qed.

Lemma clean_inv : dc_inv s'.
Proof.
  destruct (holds_home s i w _ Hs clean_holds) as (Hh & HA & HA'). pose proof clean_holds as (_ & _ & _ & EA).
  rewrite <- EA in HA, HA'. change (2 ^ 32) with 4294967296 in HA'. pose proof Hr as (Hsg & _ & Hi & Hw).
  apply (replaced_inv s s' i w l'); [done|done| | |apply clean_other].
  - split; [done|intros _; rewrite Et; by eapply same_geom_home| |auto].
    intros _ o Ho _. rewrite clean_byte, clean_laddr, Hmem by (unfold is_u32; lia). cbn zeta.
    replace (_ && _) with true by lia. f_equal. lia.
  - intros _ w' Hw' Hne Hv' E. apply Hne. rewrite Et in E. by apply (i_uniq s Hs i).
Qed.

Lemma clean_view b : is_u32 b -> view s' b = view s b.
Proof.
  intros Hbu. pose proof clean_inv as Hs'. pose proof (i_len s Hs) as Hl.
  destruct (holds_or_not s b Hs Hbu) as [(i' & w' & Hh')|Hn].
  - rewrite (view_holds s i' w' b Hs Hbu Hh'). pose proof Hh' as (Hi' & Hw' & _ & E).
    destruct ((i =? i') && (w =? w')) eqn:Eq.
    + assert (i' = i) as -> by lia. assert (w' = w) as -> by lia. destruct (c_valid l') eqn:Ev.
      * rewrite (view_holds s' i w b Hs' Hbu).
        -- rewrite (replaced_line s s' i w l'), Eq by done. apply clean_byte.
        -- by rewrite (replaced_holds s s' i w l'), Eq, clean_laddr by done.
      * rewrite view_none, Hmem; [|done|done|done|].
        -- cbn zeta. by rewrite E, block_in, block_off.
        -- intros i2 w2. rewrite (replaced_holds s s' i w l') by done. case_match; [rewrite Ev; by intros [? _]|].
           intros Hh2. destruct (holds_uniq s _ _ _ _ b Hs Hh' Hh2). lia.
    + rewrite (view_holds s' i' w' b Hs' Hbu); [by rewrite (replaced_line s s' i w l'), Eq by done|].
      by rewrite (replaced_holds s s' i w l'), Eq by done.
  - assert (Hne : laddr i (dline s i w) <> blk b)
      by (intros E; apply (Hn i w); destruct clean_holds as (? & ? & ? & _); by split_and!; try lia).
    rewrite (view_none s b Hs Hbu Hn), view_none, Hmem; [|done|done|done|].
    + cbn zeta. rewrite block_disjoint; [done| |done].
      destruct (holds_home s i w _ Hs clean_holds) as (_ & HB & _). pose proof clean_holds as (_ & _ & _ & EB). by rewrite <- EB in HB.
    + intros i2 w2. rewrite (replaced_holds s s' i w l') by done. case_match; [|apply Hn].
      rewrite clean_laddr. by intros [_ ?].
Qed.
End Clean.

(** *** Pushing a line *)
(** After the first [n] slots. *)
Record pushed (A : Z) l m (n : nat) (lm : cline * M) : Prop := mk_pushed {
  pu_line : c_data lm.1 = c_data l /\ c_tag lm.1 = c_tag l /\ c_valid lm.1 = c_valid l;
  pu_len : length (c_dirty lm.1) = 4%nat;
  pu_dirty : forall k, (k < 4)%nat -> c_dirty lm.1 !!! k = if bool_decide (k < n)%nat then false else c_dirty l !!! k;
  pu_mem : forall b, is_u32 b -> get_byte lm.2 b
    = if (A <=? b) && (b <? A + 4 * Z.of_nat n) then lbyte l (b - A) else get_byte m b }.

Lemma push_slot_pushed A all l m n lm : wf_line l -> 0 <= A <= 2 ^ 32 - 16 -> coherent m A l -> (n < 4)%nat ->
  pushed A l m n lm -> pushed A l m (S n) (push_slot A all lm n).
Proof.
  intros Hwf HA Hc Hn [(Ed & Et & Ev) Hlen Hd Hm]. destruct lm as [l1 m1]. cbn [fst snd] in *.
  pose proof (Hd n Hn) as Hdn. rewrite bool_decide_eq_false_2 in Hdn by lia.
  change (2 ^ 32) with 4294967296 in HA.
  assert (Hcase : forall b, is_u32 b -> (A <=? b) && (b <? A + 4 * Z.of_nat (S n))
    = ((A <=? b) && (b <? A + 4 * Z.of_nat n)) || ((A + 4 * Z.of_nat n <=? b) && (b <? A + 4 * Z.of_nat n + 4))).
  { intros b _. apply eq_true_iff_eq. rewrite orb_true_iff, !andb_true_iff, !Z.leb_le, !Z.ltb_lt. lia. }
  unfold push_slot. destruct (c_dirty l1 !!! n || all) eqn:E; split; cbn [fst snd c_data c_tag c_valid c_dirty]; try done.
  - by rewrite length_insert.
  - intros k Hk. rewrite lookup_insert_cases by lia. case_decide; case_bool_decide; try lia; try done;
      rewrite Hd by lia; case_bool_decide; (done || lia).
  - intros b Hb. rewrite Hcase by done. rewrite u32_small by (unfold is_u32; lia).
    rewrite dcache_put_byte; [|lia|unfold is_u32; lia|change (nbytes 2) with 4%nat; change (2 ^ 32) with 4294967296; lia|done]. change (nbytes 2) with 4%nat. rewrite Hm, Ed by done.
    rewrite (Z.mul_comm (Z.of_nat n) 4). change (Z.of_nat 4) with 4.
    destruct ((A + 4 * Z.of_nat n <=? b) && (b <? A + 4 * Z.of_nat n + 4)) eqn:Eb;
      [rewrite orb_true_r|by rewrite orb_false_r].
    unfold nth_byte. replace (8 * (Z.of_nat 4 - 1 - (b - (A + 4 * Z.of_nat n)))) with (8 * (3 - (b - A - 4 * Z.of_nat n))) by lia.
    rewrite slot_byte by lia. f_equal. lia.
  - intros k Hk. rewrite Hd by lia. case_bool_decide; case_bool_decide; try done; try lia.
    assert (k = n) as -> by lia. apply orb_false_iff in E as [E _]. congruence.
  - intros b Hb. rewrite Hm, Hcase by done.
    destruct ((A + 4 * Z.of_nat n <=? b) && (b <? A + 4 * Z.of_nat n + 4)) eqn:Eb;
      [rewrite orb_true_r|by rewrite orb_false_r].
    replace ((A <=? b) && (b <? A + 4 * Z.of_nat n)) with false by lia.
    apply orb_false_iff in E as [E _]. rewrite Hc; [f_equal; lia|lia|].
    replace (Z.to_nat ((b - A) / 4)) with n by (Z.div_mod_to_equations; lia). congruence.
Qed.

Lemma push_slots_pushed A all l m : wf_line l -> 0 <= A <= 2 ^ 32 - 16 -> coherent m A l ->
  pushed A l m 4 (push_slots A all l m).
Proof.
  intros Hwf HA Hc. unfold push_slots. cbn [foldl].
  do 4 (apply push_slot_pushed; [done|done|done|lia|]). split; cbn [fst snd]; [done|apply Hwf| |].
  - intros k Hk. by rewrite bool_decide_eq_false_2 by lia.
  - intros b Hb. change (4 * Z.of_nat 0) with 0. case_match; [lia|done].
Qed.

(** The state parts no cache operation touches. *)
Definition same_regs s s' : Prop := kcpu s' = kcpu s.

Lemma push_line_eq i w wt inv s : dc_inv s -> 0 <= i < 128 -> 0 <= w < 4 -> c_valid (dline s i w) = true ->
  exists l', replaced s (dcache040_push_line p i w wt inv s) i w l' /\ wf_line l'
    /\ c_data l' = c_data (dline s i w) /\ c_tag l' = c_tag (dline s i w) /\ c_valid l' = negb inv
    /\ (forall k, (k < 4)%nat -> c_dirty l' !!! k = false)
    /\ forall b, is_u32 b -> get_byte (kmem (dcache040_push_line p i w wt inv s)) b =
         let A := laddr i (dline s i w) in
         if (A <=? b) && (b <? A + 16) then lbyte (dline s i w) (b - A) else get_byte (kmem s) b.
Proof.
  intros Hs Hi Hw Hv. destruct (i_line s Hs i w Hi Hw) as [Hwf Hh Hc Hg]. pose proof Hwf as (Hl1 & Hl2 & _).
  destruct (home_aligned s i _ (i_geom s Hs) (Hh Hv)) as [_ HA]. pose proof (i_len s Hs) as Hlen.
  unfold dcache040_push_line. rewrite line_addr_eq by (exact (i_geom s Hs) || exact (Hh Hv)). destruct (c_gdirty (dline s i w)) eqn:Eg.
  - pose proof (push_slots_pushed (laddr i (dline s i w)) (negb wt && (kp_cpu_model p =? 68060)) (dline s i w) (kmem s)
      Hwf HA (Hc Hv)) as [(Ed & Et & Ev) Hdl Hd Hm].
    destruct (push_slots _ _ _ _) as [l1 m1]. cbn [fst snd] in *.
    set (l2 := {| l1 with c_gdirty := false |}). set (s1 := {| s with kmem := m1 |}).
    assert (Hd' : forall k, (k < 4)%nat -> c_dirty l2 !!! k = false).
    { intros k Hk. unfold l2. cbn [c_dirty]. rewrite Hd by done. by rewrite bool_decide_eq_true_2. }
    exists (if inv then clear_valid l2 else l2).
    assert (E1 : dline (set_dline i w l2 s1) i w = l2).
    { rewrite dline_set by done. by rewrite !Z.eqb_refl. }
    split_and!; [|split_and!; destruct inv; cbn; rewrite ?Ed; done|by destruct inv|by destruct inv| |by destruct inv|].
    + destruct inv; split_and!; try done; try lia. cbn [dcaches040 set_dline]. fold (set_dline i w l2 s1).
      rewrite E1. by rewrite list_insert_insert_eq.
    + destruct inv; cbn [c_valid clear_valid l2 negb]; [done|]. cbn. congruence.
    + intros b Hb. assert (kmem (if inv then set_dline i w (clear_valid (dline (set_dline i w l2 s1) i w)) (set_dline i w l2 s1)
        else set_dline i w l2 s1) = m1) as -> by by destruct inv. by rewrite Hm.
  - exists (if inv then clear_valid (dline s i w) else dline s i w).
    split_and!; [|by destruct inv|by destruct inv|by destruct inv|by destruct inv|destruct inv; by apply Hg|].
    + destruct inv; split_and!; try done; try lia. rewrite list_insert_id; [done|].
      unfold dline. apply list_lookup_lookup_total_lt. rewrite Hlen. unfold cpos, CACHELINES040. lia.
    + intros b Hb. assert (kmem (if inv then set_dline i w (clear_valid (dline s i w)) s else s) = kmem s) as -> by by destruct inv.
      cbn zeta. destruct (_ && _) eqn:Eb; [|done]. rewrite (Hc Hv); [f_equal; lia|lia|].
      apply Hg; [done|done|]. Z.div_mod_to_equations; lia.
Qed.

(** Pushing keeps the view; the line stays, or is dropped. *)
Lemma push_line_ok i w wt inv s : dc_inv s -> 0 <= i < 128 -> 0 <= w < 4 -> c_valid (dline s i w) = true ->
  let s' := dcache040_push_line p i w wt inv s in
  dc_inv s' /\ (forall b, is_u32 b -> view s' b = view s b) /\ c_valid (dline s' i w) = negb inv
  /\ (forall i' w' b, holds s' i' w' b -> holds s i' w' b).
Proof.
  intros Hs Hi Hw Hv s'. destruct (push_line_eq i w wt inv s Hs Hi Hw Hv) as (l' & Hr & Hwf & Ed & Et & Ev & Hcl & Hm).
  fold s' in Hr, Hm. pose proof (i_len s Hs) as Hl.
  split_and!; [by eapply clean_inv|intros b Hb; by eapply clean_view| |].
  - rewrite (replaced_line s s' i w l') by done. by rewrite !Z.eqb_refl.
  - intros i' w' b. rewrite (replaced_holds s s' i w l') by done. case_match; [|done]. intros [_ E].
    assert (i' = i) as -> by lia. assert (w' = w) as -> by lia. split_and!; try lia; [done|].
    unfold laddr in *. congruence.
Qed.

(** *** What depends only on lines, geometry and memory *)
Definition same_cache s s' : Prop :=
  same_geom s s' /\ dcaches040 s' = dcaches040 s /\ kmem s' = kmem s.

Lemma same_cache_ok s s' : same_cache s s' -> dc_inv s ->
  dc_inv s' /\ (forall b, view s' b = view s b) /\ (forall i w b, holds s' i w b <-> holds s i w b).
Proof.
  intros (Hg & El & Em) [Hgeo Hlen Hli Hu]. pose proof Hg as (E1 & E2 & E3).
  assert (Ed : forall i w, dline s' i w = dline s i w) by (intros; unfold dline; by rewrite El).
  split_and!.
  - split; [by eapply same_geom_ok|by rewrite El| |intros i w w'; rewrite !Ed; apply Hu].
    intros i w Hi Hw. rewrite Ed. destruct (Hli i w Hi Hw) as [? Hh ? ?].
    split; [done|intros Hv; by eapply same_geom_home, Hh|by rewrite Em|done].
  - intros b. unfold view, d_index, d_tag. rewrite E2, E3, Em. unfold dline. by rewrite El.
  - intros i w b. unfold holds. by rewrite Ed.
Qed.

(** *** The view after one line was replaced *)
Lemma view_replaced_in s s' i w l' b : dc_inv s -> dc_inv s' -> replaced s s' i w l' -> is_u32 b ->
  c_valid l' = true -> laddr i l' = blk b -> view s' b = lbyte l' (b mod 16).
Proof.
  intros Hs Hs' Hr Hb Hv E. pose proof (i_len s Hs) as Hl. pose proof Hr as (_ & _ & Hi & Hw).
  rewrite (view_holds s' i w b Hs' Hb).
  - by rewrite (replaced_line s s' i w l'), !Z.eqb_refl by done.
  - by rewrite (replaced_holds s s' i w l'), !Z.eqb_refl by done.
Qed.

Lemma view_replaced_out s s' i w l' b : dc_inv s -> dc_inv s' -> replaced s s' i w l' -> is_u32 b ->
  (c_valid l' = true -> laddr i l' <> blk b) -> ~ holds s i w b -> get_byte (kmem s') b = get_byte (kmem s) b ->
  view s' b = view s b.
Proof.
  intros Hs Hs' Hr Hb Hne Hn Em. pose proof (i_len s Hs) as Hl.
  destruct (holds_or_not s b Hs Hb) as [(i' & w' & Hh)|Hnone].
  - assert (Eq : (i =? i') && (w =? w') = false).
    { destruct (_ && _) eqn:Eq; [|done]. exfalso. apply Hn.
      assert (i' = i) as -> by lia. by assert (w' = w) as -> by lia. }
    pose proof Hh as (Hi' & Hw' & _). rewrite (view_holds s i' w' b), (view_holds s' i' w' b); [|done|done| |done..].
    + by rewrite (replaced_line s s' i w l'), Eq by done.
    + by rewrite (replaced_holds s s' i w l'), Eq by done.
  - rewrite (view_none s b), (view_none s' b); [done|done|done| |done..].
    intros i' w'. rewrite (replaced_holds s s' i w l') by done. case_match; [|apply Hnone].
    intros [Hv E]. by apply (Hne Hv).
Qed.

(** *** A fresh line *)
Definition fresh_line (B tag : Z) m : cline :=
  let word k := dcache_get 2 (u32 (B + k)) m in
  mk_cline [word 0; word 4; word 8; word 12] [false; false; false; false] false true tag.

Lemma fresh_word B k m : 0 <= B -> B + k + 4 <= 2 ^ 32 -> 0 <= k ->
  dcache_get 2 (u32 (B + k)) m = be 4 (fun i => get_byte m (B + k + i)).
Proof.
  intros HB Hk Hk'. change (2 ^ 32) with 4294967296 in Hk. rewrite u32_small by (unfold is_u32; lia).
  by rewrite dcache_get_be by lia.
Qed.

Lemma fresh_wf B tag m : 0 <= B <= 2 ^ 32 - 16 -> wf_line (fresh_line B tag m).
Proof.
  intros HB. split_and!; [done| |done]. cbn [c_data fresh_line].
  assert (Hw : forall k, 0 <= k <= 12 -> is_u32 (dcache_get 2 (u32 (B + k)) m)).
  { intros k Hk. rewrite fresh_word by lia. apply (be_bound 4). intros; apply get_byte_range. }
  repeat constructor; apply Hw; lia.
Qed.

Lemma fresh_byte B tag m o : 0 <= B <= 2 ^ 32 - 16 -> 0 <= o < 16 -> lbyte (fresh_line B tag m) o = get_byte m (B + o).
Proof.
  intros HB Ho. destruct (offset_split o Ho) as (k & r & -> & Hr & Hk & _). rewrite <- slot_byte by lia.
  assert (c_data (fresh_line B tag m) !!! k = be 4 (fun i => get_byte m (B + 4 * Z.of_nat k + i))) as ->.
  { rewrite <- fresh_word by lia. by destruct k as [|[|[|[|]]]]; [..|lia]. }
  etransitivity; [apply (nth_byte_be 4); [intros; apply get_byte_range|lia]|]. f_equal. lia.
Qed.

Lemma fresh_ok s i w B : dc_inv s -> is_u32 B -> B mod 16 = 0 -> i = d_index s B -> 0 <= w < 4 ->
  c_valid (dline s i w) = false -> (forall i w, ~ holds s i w B) ->
  let s' := set_dline i w (fresh_line B (d_tag s B) (kmem s)) s in
  dc_inv s' /\ (forall b, is_u32 b -> view s' b = view s b) /\ holds s' i w B.
Proof.
  intros Hs Hu HB -> Hw Hinv Hn s'. pose proof (i_geom s Hs) as Hg. pose proof (i_len s Hs) as Hl.
  destruct (home_of s B Hg Hu) as [Hh EB]. assert (blk B = B) as EbB by (unfold blk; lia). rewrite EbB in EB.
  assert (HB' : 0 <= B <= 2 ^ 32 - 16) by (unfold is_u32 in Hu; change (2 ^ 32) with 4294967296; Z.div_mod_to_equations; lia).
  set (l' := fresh_line B (d_tag s B) (kmem s)) in *. set (i := d_index s B) in *.
  assert (Hi : 0 <= i < 128) by (pose proof (sets_le s Hg); destruct Hh; lia).
  assert (Hr : replaced s s' i w l') by done.
  assert (EA : laddr i l' = B) by (unfold laddr; cbn [c_tag l' fresh_line]; lia).
  assert (Hs' : dc_inv s').
  { apply (replaced_inv s s' i w l'); [done|done| | |done].
    - split; [by apply fresh_wf|done| |].
      + intros _ o Ho _. rewrite EA. by apply fresh_byte.
      + intros _ _ k Hk. by destruct k as [|[|[|[|]]]]; [..|lia].
    - intros _ w' Hw' Hne Hv E. apply (Hn i w'). split_and!; [lia..|done|]. rewrite EbB. unfold laddr. rewrite E. exact EA. }
  split_and!; [done| |].
  - intros b Hb. destruct (Z.eq_dec B (blk b)) as [E|E].
    + assert (Hnb : forall i w, ~ holds s i w b) by (intros i2 w2; specialize (Hn i2 w2); unfold holds in *; by rewrite <- E, <- EbB).
      rewrite (view_replaced_in s s' i w l'), (view_none s b) by (done || by rewrite EA).
      unfold l'. rewrite fresh_byte by (done || (apply Z.mod_pos_bound; lia)). f_equal. rewrite E. unfold blk. lia.
    + apply (view_replaced_out s s' i w l'); try done; [by rewrite EA|]. intros (_ & _ & Hv & _). congruence.
  - rewrite (replaced_holds s s' i w l'), !Z.eqb_refl, EA, EbB by done. done.
Qed.

(** *** The whole of [dcache040_fill_line] *)
Definition keeps s s' : Prop := dc_inv s' /\ (forall b, is_u32 b -> view s' b = view s b) /\ kcpu s' = kcpu s.

Lemma push_line_cpu i w wt inv s : kcpu (dcache040_push_line p i w wt inv s) = kcpu s
  /\ same_geom s (dcache040_push_line p i w wt inv s).
Proof.
  unfold dcache040_push_line. destruct (c_gdirty _); [destruct (push_slots _ _ _ _)|]; by destruct inv.
Qed.

Lemma fill_line_ok s B : dc_inv s -> is_u32 B -> B mod 16 = 0 -> (forall i w, ~ holds s i w B) ->
  let '(line, s') := dcache040_fill_line p (d_index s B) (d_tag s B) B s in
  keeps s s' /\ holds s' (d_index s B) line B.
Proof.
  intros Hs Hu HB Hn. pose proof (i_geom s Hs) as Hg. pose proof (sets_le s Hg).
  assert (Hi : 0 <= d_index s B < 128) by (destruct (home_of s B Hg Hu) as [[? _] _]; lia).
  unfold dcache040_fill_line. destruct (find_way _ ways) as [w|] eqn:E.
  - apply find_way_some in E as [Hw E]. apply negb_true_iff in E.
    destruct (fresh_ok s (d_index s B) w B) as (Hs' & Hv & Hh); [done..|]. by split; [split_and!|].
  - set (s0 := {| s with dcachelinecnt := _ |}).
    destruct (same_cache_ok s s0) as (Hs0 & Hv0 & Hh0); [done..|].
    set (w := dcachelinecnt s .& (CACHELINES040 - 1)).
    assert (Hw : 0 <= w < 4) by (unfold w; change (CACHELINES040 - 1) with (Z.ones 2); rewrite Z.land_ones by lia; apply Z.mod_pos_bound; lia).
    pose proof (find_way_none _ E w Hw) as Hval. apply negb_false_iff in Hval.
    destruct (push_line_ok (d_index s B) w false true s0) as (Hs1 & Hv1 & Hinv & Hh1); [done..|].
    destruct (push_line_cpu (d_index s B) w false true s0) as [Hc1 (_ & Eg1 & Eg2)].
    set (s1 := dcache040_push_line p (d_index s B) w false true s0) in *.
    assert (Ei : d_index s1 B = d_index s B) by (unfold d_index; by rewrite Eg1).
    assert (Et : d_tag s1 B = d_tag s B) by (unfold d_tag; by rewrite Eg2).
    destruct (fresh_ok s1 (d_index s B) w B) as (Hs' & Hv & Hh); [done..| |].
    { intros i' w' Hh'. apply (Hn i' w'), Hh0. by apply Hh1. }
    rewrite Et in *. split; [|done]. split_and!; [done| |done].
    intros b Hb. rewrite Hv, Hv1, Hv0 by done. done.
Qed.

(** *** Writing into a line, and past the cache *)
Definition stored (f : Z -> Z) (a : Z) (n : nat) (val b : Z) : Z :=
  if (a <=? b) && (b <? a + Z.of_nat n) then nth_byte n val (b - a) else f b.

Lemma update_line_ok s i w a val size : dc_inv s -> is_u32 a -> 0 <= size <= 2 ->
  a mod 16 + Z.of_nat (nbytes size) <= 16 -> 0 <= val < 2 ^ (8 * Z.of_nat (nbytes size)) -> holds s i w a ->
  let s' := update_dline i w a val size s in
  dc_inv s' /\ (forall b, is_u32 b -> view s' b = stored (view s) a (nbytes size) val b) /\ holds s' i w a.
Proof.
  intros Hs Ha Hsz Hfit Hval Hh s'. pose proof Hh as (Hi & Hw & Hv & EA).
  destruct (i_line s Hs i w Hi Hw) as [Hwf Hhome Hc Hgd].
  destruct (update_spec a (dline s i w) val size Hwf Hsz Hfit Hval) as [[Uwf Ub Ud Uc Ut Uv] Ug].
  set (l' := dcache040_update a (dline s i w) val size) in *. set (n := nbytes size) in *.
  assert (Hr : replaced s s' i w l') by done.
  assert (EA' : laddr i l' = blk a) by (unfold laddr in *; by rewrite Ut).
  assert (Hs' : dc_inv s').
  { apply (replaced_inv s s' i w l'); [done|done| | |done].
    - split; [done|rewrite Uv, Ut; exact Hhome| |congruence]. rewrite Uv. intros _ o Ho Hcl.
      rewrite Ub by done. destruct ((a mod 16 <=? o) && (o <? a mod 16 + Z.of_nat n)) eqn:E.
      + by rewrite Ud in Hcl by lia.
      + unfold laddr. rewrite Ut. apply Hc; auto.
    - rewrite Uv, Ut. intros _ w' Hw' Hne Hv' E. apply Hne. by apply (i_uniq s Hs i). }
  split_and!; [done| |].
  - intros b Hb. unfold stored. destruct (Z.eq_dec (blk a) (blk b)) as [E|E].
    + rewrite (view_replaced_in s s' i w l') by (done || congruence).
      rewrite Ub by (apply Z.mod_pos_bound; lia).
      rewrite (view_holds s i w b) by (done || (unfold holds; by rewrite <- E)).
      assert (Hab : b - a = b mod 16 - a mod 16) by (unfold blk in E; lia).
      destruct (_ && _) eqn:E1, ((a <=? b) && (b <? a + Z.of_nat n)) eqn:E2; try lia. by rewrite Hab.
    + rewrite (view_replaced_out s s' i w l') by (done || (intros; congruence) || (intros (_ & _ & _ & ?); congruence)).
      destruct (_ && _) eqn:E2; [|done]. exfalso. apply E. unfold blk. Z.div_mod_to_equations; lia.
  - rewrite (replaced_holds s s' i w l'), !Z.eqb_refl by (done || apply Hs). by rewrite Uv.
Qed.

Lemma store_ok s a val size : dc_inv s -> is_u32 a -> 0 <= size <= 2 ->
  a mod 16 + Z.of_nat (nbytes size) <= 16 -> (forall i w, ~ holds s i w a) ->
  let s' := {| s with kmem := dcache_put size a val (kmem s) |} in
  dc_inv s' /\ (forall b, is_u32 b -> view s' b = stored (view s) a (nbytes size) val b).
Proof.
  intros Hs Ha Hsz Hfit Hn s'. assert (Hu : a + Z.of_nat (nbytes size) <= 2 ^ 32)
    by (change (2 ^ 32) with 4294967296; unfold is_u32 in Ha; Z.div_mod_to_equations; lia).
  assert (Hm : forall b, is_u32 b -> get_byte (kmem s') b = stored (get_byte (kmem s)) a (nbytes size) val b)
    by (intros b Hb; by apply dcache_put_byte).
  assert (Hout : forall i w b, holds s i w b -> (a <=? b) && (b <? a + Z.of_nat (nbytes size)) = false).
  { intros i w b Hh. destruct (_ && _) eqn:E; [|done]. exfalso. apply (Hn i w). unfold holds in *.
    assert (blk a = blk b) as -> by (unfold blk; Z.div_mod_to_equations; lia). done. }
  assert (Hs' : dc_inv s').
  { pose proof (i_geom s Hs) as Hg. split; [by destruct Hg|apply Hs| |apply (i_uniq s Hs)].
    intros i w Hi Hw. destruct (i_line s Hs i w Hi Hw) as [Hwf Hh Hc Hgd].
    change (dline s' i w) with (dline s i w). split; [done|exact Hh| |done]. intros Hv o Ho Hcl. rewrite (Hc Hv o Ho Hcl).
    destruct (home_aligned s i _ Hg (Hh Hv)) as [HA HA']. change (2 ^ 32) with 4294967296 in HA'.
    unfold laddr. rewrite Hm by (unfold is_u32; lia). unfold stored. rewrite (Hout i w); [done|].
    split_and!; [lia..|done|]. by rewrite block_block. }
  split; [done|]. intros b Hb. unfold stored.
  destruct (holds_or_not s b Hs Hb) as [(i & w & Hh)|Hnb].
  - rewrite (Hout i w b Hh), (view_holds s i w b), (view_holds s' i w b) by done. done.
  - rewrite (view_none s b), (view_none s' b) by done. by apply Hm.
Qed.

Lemma fetch_ok s a size : dc_inv s -> is_u32 a -> 0 <= size <= 2 ->
  a mod 16 + Z.of_nat (nbytes size) <= 16 -> (forall i w, ~ holds s i w a) ->
  dcache_get size a (kmem s) = be (nbytes size) (fun i => view s (a + i)).
Proof.
  intros Hs Ha Hsz Hfit Hn. rewrite dcache_get_be by done. apply be_ext. intros i Hi.
  assert (blk (a + i) = blk a) as E by (unfold blk; Z.div_mod_to_equations; lia).
  rewrite view_none; [done|done|unfold is_u32 in *; Z.div_mod_to_equations; lia|].
  intros i' w'. unfold holds. rewrite E. apply Hn.
Qed.

Lemma line_read_ok s i w a size : dc_inv s -> is_u32 a -> 0 <= size <= 2 ->
  a mod 16 + Z.of_nat (nbytes size) <= 16 -> holds s i w a ->
  dcache040_get_data a (dline s i w) size = be (nbytes size) (fun k => view s (a + k)).
Proof.
  intros Hs Ha Hsz Hfit Hh. pose proof Hh as (Hi & Hw & _).
  rewrite get_data_spec by (done || by apply i_line). apply be_ext. intros k Hk.
  assert (blk (a + k) = blk a) as E by (unfold blk; Z.div_mod_to_equations; lia).
  rewrite (view_holds s i w); [f_equal; Z.div_mod_to_equations; lia|done| |unfold holds; by rewrite E].
  unfold is_u32 in *. Z.div_mod_to_equations; lia.
Qed.
End View.
