(* ===== verification/CacheProps.v ===== *)
(** * CacheProps: the data cache is transparent

    With the data cache enabled, a program that reads, writes and pushes sees
    one flat memory, whatever cache mode each access has; CPUSHA brings memory
    up to date. *)

From S2P Require Import Prelude Flags Cpu Movec Mmu Cache040 CacheBytes CacheView.
From Stdlib Require Import ZArith Lia Bool.
From stdpp Require Import base list gmap.
Open Scope Z_scope.
Open Scope cint_scope.

Section Props.
Context {M : Type} `{BusLaws M} (p : cache_prefs) (ce_cachable : Z -> Z).
Implicit Types (s : caches M) (f : Z -> Z).

Definition enabled s : Prop := k_cacr s .& 0x80000000 <> 0.

(** Block addresses look up the same line. *)
Lemma block_facts s a : dc_inv s -> is_u32 a ->
  is_u32 (blk a) /\ blk a mod 16 = 0 /\ d_index s (blk a) = d_index s a /\ d_tag s (blk a) = d_tag s a
  /\ forall i w, holds s i w (blk a) <-> holds s i w a.
Proof.
  intros Hs Ha. pose proof (i_geom s Hs) as Hg.
  assert (Hu : is_u32 (blk a)) by (unfold is_u32, blk in *; Z.div_mod_to_equations; lia).
  assert (Hm : blk a mod 16 = 0) by (unfold blk; by rewrite Zminus_mod_idemp_r, Z.sub_diag).
  split_and!; [done|done| | |].
  - rewrite !d_index_eq by done. f_equal. unfold blk. Z.div_mod_to_equations; lia.
  - rewrite !d_tag_eq by done. unfold blk. destruct (g_sets s Hg) as [-> | ->]; Z.div_mod_to_equations; lia.
  - intros i w. unfold holds. assert (blk (blk a) = blk a) as -> by (unfold blk at 1; lia). done.
Qed.

Lemma bump_keeps s : dc_inv s -> keeps s (bump_dcnt s) /\ forall i w b, holds (bump_dcnt s) i w b <-> holds s i w b.
Proof. intros Hs. destruct (same_cache_ok s (bump_dcnt s)) as (? & ? & ?); [done..|]. by split; [split_and!|]. Qed.

Lemma view_keeps_trans s1 s2 s3 : keeps s1 s2 -> keeps s2 s3 -> keeps s1 s3.
Proof.
  intros (_ & Hv & Hc) (Hs & Hv' & Hc'). split_and!; [done| |congruence]. intros b Hb. by rewrite Hv', Hv.
Qed.
Lemma view_keeps_refl s : dc_inv s -> keeps s s.
Proof. done. Qed.

Lemma be_view s s' n a : is_u32 a -> a + Z.of_nat n <= 2 ^ 32 -> (forall b, is_u32 b -> view s' b = view s b) ->
  be n (fun i => view s' (a + i)) = be n (fun i => view s (a + i)).
Proof.
  intros Ha Hn Hv. apply be_ext. intros i Hi. apply Hv. unfold is_u32 in *. change (2 ^ 32) with 4294967296 in Hn. lia.
Qed.

(** ** One access within a line *)
Lemma fit_u32 a size : is_u32 a -> a mod 16 + Z.of_nat (nbytes size) <= 16 -> a + Z.of_nat (nbytes size) <= 2 ^ 32.
Proof. intros Ha Hf. change (2 ^ 32) with 4294967296. unfold is_u32 in *. Z.div_mod_to_equations; lia. Qed.

(** After a hit on an inhibited page the line is gone. *)
Lemma push_out s i w a : dc_inv s -> is_u32 a -> holds s i w a ->
  let s' := dcache040_push_line p i w false true s in
  keeps s s' /\ forall i' w', ~ holds s' i' w' a.
Proof.
  intros Hs Ha Hh s'. pose proof Hh as (Hi & Hw & Hv & _).
  destruct (push_line_ok p i w false true s Hs Hi Hw Hv) as (Hs' & Hvw & Hinv & Hback).
  destruct (push_line_cpu p i w false true s) as [Hc _]. split; [by split_and!|].
  intros i' w' Hh'. destruct (holds_uniq s _ _ _ _ a Hs Hh (Hback _ _ _ Hh')) as [<- <-].
  destruct Hh' as (_ & _ & Hv' & _). unfold s' in Hv'. by rewrite Hinv in Hv'.
Qed.

Lemma read_dcache040_ok cs a size s : dc_inv s -> enabled s -> is_u32 a -> 0 <= size <= 2 ->
  a mod 16 + Z.of_nat (nbytes size) <= 16 ->
  let '(v, s') := read_dcache040 p ce_cachable cs a size s in
  v = be (nbytes size) (fun i => view s (a + i)) /\ keeps s s'.
Proof.
  intros Hs Hen Ha Hsz Hfit. unfold read_dcache040. rewrite (proj2 (Z.eqb_neq _ _) Hen), base_block by done.
  pose proof (fit_u32 a size Ha Hfit) as Hfu.
  destruct (block_facts s a Hs Ha) as (Hbu & Hbm & Ei & Et & Hbh). rewrite Ei, Et.
  destruct (bump_keeps s Hs) as [Hb Hbh']. pose proof Hb as (Hbs & Hbv & _).
  pose proof (lookup_cases s a Hs Ha) as Hc. destruct (find_way _ ways) as [w|] eqn:Ew.
  - destruct (truth (access_mode ce_cachable cs a .& CACHE_DISABLE_MMU)).
    + destruct (push_out (bump_dcnt s) (d_index s a) w a) as [Hk Hn]; [done|done|by apply Hbh'|].
      pose proof Hk as (Hs' & Hv' & _). split; [|exact (view_keeps_trans _ _ _ Hb Hk)].
      rewrite fetch_ok by done. apply be_view; [done|done|]. intros b Hbu'. by rewrite Hv', Hbv.
    + split; [|done]. rewrite (line_read_ok (bump_dcnt s) (d_index s a) w a size Hbs Ha Hsz Hfit (proj2 (Hbh' _ _ _) Hc)).
      by apply be_view.
  - destruct (truth _ || _ || _ || _); [split; [by apply fetch_ok|by apply view_keeps_refl]|].
    pose proof (fill_line_ok p s (blk a) Hs Hbu Hbm) as Hf. rewrite Ei, Et in Hf.
    destruct (dcache040_fill_line p _ _ _ _) as [line s']. destruct Hf as [Hk Hh].
    { intros i w. rewrite Hbh. apply Hc. }
    pose proof Hk as (Hs' & Hv' & _). split; [|done].
    destruct (block_facts s' a Hs' Ha) as (_ & _ & _ & _ & Hbh2). apply Hbh2 in Hh.
    rewrite line_read_ok by done. by apply be_view.
Qed.

(** A byte of the value survives the truncation to the access size. *)
Lemma nth_byte_mask size val i : 0 <= size <= 2 -> 0 <= i < Z.of_nat (nbytes size) ->
  nth_byte (nbytes size) (val .& size_mask size) i = nth_byte (nbytes size) val i.
Proof.
  intros Hs Hi. unfold nth_byte, size_mask. destruct (size_width size Hs) as [-> Hn]. by rewrite byte_land by lia.
Qed.

Lemma size_mask_range size val : 0 <= size <= 2 -> 0 <= val .& size_mask size < 2 ^ (8 * Z.of_nat (nbytes size)).
Proof.
  intros Hs. unfold size_mask. destruct (size_width size Hs) as [-> Hn]. rewrite Z.land_ones by lia.
  apply Z.mod_pos_bound. lia.
Qed.

Lemma stored_mask f a size val b : 0 <= size <= 2 ->
  stored f a (nbytes size) (val .& size_mask size) b = stored f a (nbytes size) val b.
Proof. intros Hs. unfold stored. case_match; [|done]. apply nth_byte_mask; lia. Qed.

(** [s'] is [s] after a store of [n] bytes at [a]. *)
Definition wrote s s' (a : Z) (n : nat) (val : Z) : Prop :=
  dc_inv s' /\ (forall b, is_u32 b -> view s' b = stored (view s) a n val b) /\ kcpu s' = kcpu s.

Lemma wrote_after_keeps s1 s2 s3 a n val : keeps s1 s2 -> wrote s2 s3 a n val -> wrote s1 s3 a n val.
Proof.
  intros (_ & Hv & Hc) (Hs & Hv' & Hc'). split_and!; [done| |congruence].
  intros b Hb. rewrite Hv' by done. unfold stored. by rewrite Hv.
Qed.
Lemma keeps_after_wrote s1 s2 s3 a n val : wrote s1 s2 a n val -> keeps s2 s3 -> wrote s1 s3 a n val.
Proof.
  intros (_ & Hv & Hc) (Hs & Hv' & Hc'). split_and!; [done| |congruence]. intros b Hb. by rewrite Hv', Hv.
Qed.

Lemma write_dcache040_ok cs a val size s : dc_inv s -> enabled s -> is_u32 a -> 0 <= size <= 2 ->
  a mod 16 + Z.of_nat (nbytes size) <= 16 ->
  wrote s (write_dcache040 p ce_cachable cs a val size s) a (nbytes size) val.
Proof.
  intros Hs Hen Ha Hsz Hfit. pose proof (size_mask_range size val Hsz) as Hval.
  enough (Hw : wrote s (write_dcache040 p ce_cachable cs a val size s) a (nbytes size) (val .& size_mask size)).
  { destruct Hw as (? & Hv & ?). split_and!; [done| |done]. intros b Hb. rewrite <- stored_mask by done. by apply Hv. }
  unfold write_dcache040. set (v := val .& size_mask size) in *.
  rewrite (proj2 (Z.eqb_neq _ _) Hen), base_block by done.
  destruct (block_facts s a Hs Ha) as (Hbu & Hbm & Ei & Et & Hbh). rewrite Ei, Et.
  assert (Hst : forall s1, keeps s s1 -> (forall i w, ~ holds s1 i w a) ->
    wrote s {| s1 with kmem := dcache_put size a v (kmem s1) |} a (nbytes size) v).
  { intros s1 Hk Hn. destruct (store_ok s1 a v size) as [Hs2 Hv2]; [by apply Hk|done..|].
    by apply (wrote_after_keeps s s1). }
  assert (Hup : forall s1 i w, keeps s s1 -> holds s1 i w a ->
    wrote s (update_dline i w a v size s1) a (nbytes size) v /\ holds (update_dline i w a v size s1) i w a).
  { intros s1 i w Hk Hh. destruct (update_line_ok s1 i w a v size) as (Hs2 & Hv2 & Hh2); [by apply Hk|done..|].
    split; [|done]. by apply (wrote_after_keeps s s1). }
  destruct (bump_keeps s Hs) as [Hb Hbh'].
  pose proof (lookup_cases s a Hs Ha) as Hc. destruct (find_way _ ways) as [w|] eqn:Ew.
  - apply Hbh' in Hc. destruct (truth _).
    + destruct (push_out (bump_dcnt s) (d_index s a) w a) as [Hk Hn]; [apply Hb|done|done|].
      apply Hst; [exact (view_keeps_trans _ _ _ Hb Hk)|done].
    + destruct (Hup (bump_dcnt s) (d_index s a) w Hb Hc) as [Hw Hh]. case_match; [|done].
      pose proof Hh as (Hi & Hw4 & Hv & _). pose proof Hw as (Hs2 & _).
      destruct (push_line_ok p (d_index s a) w true false _ Hs2 Hi Hw4 Hv) as (Hs3 & Hv3 & _).
      eapply keeps_after_wrote; [exact Hw|]. split_and!; [done|done|]. apply push_line_cpu.
  - destruct (negb _ || _ || _ || _ || _); [by apply Hst|].
    pose proof (fill_line_ok p s (blk a) Hs Hbu Hbm) as Hf. rewrite Ei, Et in Hf.
    destruct (dcache040_fill_line p _ _ _ _) as [line s']. destruct Hf as [Hk Hh].
    { intros i w. rewrite Hbh. apply Hc. }
    pose proof Hk as (Hs' & _). destruct (block_facts s' a Hs' Ha) as (_ & _ & _ & _ & Hbh2). apply Hbh2 in Hh.
    by apply Hup.
Qed.

(** ** A flat memory *)
(** Big-endian accesses to a byte memory with 32-bit addresses. *)
Definition flat_rd f (a : Z) (n : nat) : Z := be n (fun i => f (u32 (a + i))).
Definition flat_wr f (a : Z) (n : nat) (v b : Z) : Z :=
  if u32 (b - a) <? Z.of_nat n then nth_byte n v (u32 (b - a)) else f b.

Lemma flat_rd_ext f g a n : (forall b, is_u32 b -> f b = g b) -> flat_rd f a n = flat_rd g a n.
Proof. intros Hfg. apply be_ext. intros i _. apply Hfg, u32_range. Qed.

Lemma be_flat s a n : is_u32 a -> a + Z.of_nat n <= 2 ^ 32 -> be n (fun i => view s (a + i)) = flat_rd (view s) a n.
Proof.
  intros Ha Hn. change (2 ^ 32) with 4294967296 in Hn. apply be_ext. intros i Hi.
  rewrite u32_small; [done|]. unfold is_u32 in *. lia.
Qed.

Lemma stored_flat f a n v b : is_u32 a -> is_u32 b -> a + Z.of_nat n <= 2 ^ 32 ->
  stored f a n v b = flat_wr f a n v b.
Proof.
  intros Ha Hb Hn. change (2 ^ 32) with 4294967296 in Hn. unfold stored, flat_wr, is_u32 in *.
  destruct (Z.leb_spec a b); cbn [andb].
  - rewrite u32_small by (unfold is_u32; lia). destruct (Z.ltb_spec b (a + Z.of_nat n)), (Z.ltb_spec (b - a) (Z.of_nat n)); done || lia.
  - assert (E : u32 (b - a) = b - a + 4294967296) by word. rewrite E.
    destruct (Z.ltb_spec (b - a + 4294967296) (Z.of_nat n)); [lia|done].
Qed.

Definition reads s s' (a : Z) (n : nat) (v : Z) : Prop := v = flat_rd (view s) a n /\ keeps s s'.
Definition writes s s' (a : Z) (n : nat) (v : Z) : Prop :=
  dc_inv s' /\ (forall b, is_u32 b -> view s' b = flat_wr (view s) a n v b) /\ kcpu s' = kcpu s.

Lemma read_reads cs a size s : dc_inv s -> enabled s -> is_u32 a -> 0 <= size <= 2 ->
  a mod 16 + Z.of_nat (nbytes size) <= 16 ->
  let '(v, s') := read_dcache040 p ce_cachable cs a size s in reads s s' a (nbytes size) v.
Proof.
  intros Hs He Ha Hsz Hf. pose proof (read_dcache040_ok cs a size s Hs He Ha Hsz Hf) as Hr.
  destruct (read_dcache040 _ _ _ _ _ _) as [v s']. destruct Hr as [-> Hk]. split; [|done].
  apply be_flat; [done|]. by apply fit_u32.
Qed.

Lemma write_writes cs a v size s : dc_inv s -> enabled s -> is_u32 a -> 0 <= size <= 2 ->
  a mod 16 + Z.of_nat (nbytes size) <= 16 ->
  writes s (write_dcache040 p ce_cachable cs a v size s) a (nbytes size) v.
Proof.
  intros Hs He Ha Hsz Hf. destruct (write_dcache040_ok cs a v size s Hs He Ha Hsz Hf) as (Hs' & Hv & Hc).
  split_and!; [done| |done]. intros b Hb. rewrite Hv by done. apply stored_flat; [done..|]. by apply fit_u32.
Qed.

(** Reading and writing in pieces. *)
Lemma flat_rd_split f a k n : flat_rd f a (k + n) = flat_rd f a k * 256 ^ Z.of_nat n + flat_rd f (u32 (a + Z.of_nat k)) n.
Proof.
  unfold flat_rd. induction n as [|n IH]; [rewrite Nat.add_0_r; cbn [be]; change (256 ^ Z.of_nat 0) with 1; lia|].
  rewrite Nat.add_succ_r. cbn [be]. rewrite IH, Nat2Z.inj_succ, Z.pow_succ_r by lia.
  rewrite u32_add_l, Nat2Z.inj_add, <- Z.add_assoc. lia.
Qed.

Lemma flat_wr_split f a k n v b : is_u32 a -> is_u32 b -> Z.of_nat (k + n) <= 2 ^ 32 ->
  flat_wr (flat_wr f a k (v >> (8 * Z.of_nat n))) (u32 (a + Z.of_nat k)) n v b = flat_wr f a (k + n) v b.
Proof.
  intros Ha Hb Hn. change (2 ^ 32) with 4294967296 in Hn. unfold flat_wr, nth_byte.
  set (d := u32 (b - a)). pose proof (u32_range (b - a)) as Hd. fold d in Hd. unfold is_u32 in Hd.
  assert (E : u32 (b - u32 (a + Z.of_nat k)) = if d <? Z.of_nat k then d - Z.of_nat k + 4294967296 else d - Z.of_nat k).
  { assert (u32 (b - u32 (a + Z.of_nat k)) = u32 (d - Z.of_nat k)) as -> by (unfold d; word).
    destruct (Z.ltb_spec d (Z.of_nat k)); word. }
  rewrite E. clearbody d. rewrite Nat2Z.inj_add in *.
  destruct (Z.ltb_spec d (Z.of_nat k)).
  - destruct (Z.ltb_spec (d - Z.of_nat k + 4294967296) (Z.of_nat n)); [lia|].
    destruct (Z.ltb_spec d (Z.of_nat k + Z.of_nat n)); [|lia]. rewrite Z.shiftr_shiftr by lia. f_equal. f_equal. lia.
  - destruct (Z.ltb_spec (d - Z.of_nat k) (Z.of_nat n)), (Z.ltb_spec d (Z.of_nat k + Z.of_nat n)); try lia.
    f_equal. f_equal. lia.
Qed.

Lemma flat_wr_ext f g a n v b : f b = g b -> flat_wr f a n v b = flat_wr g a n v b.
Proof. unfold flat_wr. by intros ->. Qed.

Lemma writes_seq s1 s2 s3 a k n v : is_u32 a -> Z.of_nat (k + n) <= 2 ^ 32 ->
  writes s1 s2 a k (v >> (8 * Z.of_nat n)) -> writes s2 s3 (u32 (a + Z.of_nat k)) n v -> writes s1 s3 a (k + n) v.
Proof.
  intros Ha Hn (_ & Hv & Hc) (Hs & Hv' & Hc'). split_and!; [done| |congruence]. intros b Hb.
  rewrite Hv' by done. rewrite (flat_wr_ext _ _ _ _ _ _ (Hv b Hb)). by apply flat_wr_split.
Qed.

Lemma reads_seq s1 s2 s3 a k n v1 v2 : reads s1 s2 a k v1 -> reads s2 s3 (u32 (a + Z.of_nat k)) n v2 ->
  reads s1 s3 a (k + n) (v1 * 256 ^ Z.of_nat n + v2).
Proof.
  intros [-> Hk] [-> Hk']. split; [|exact (view_keeps_trans _ _ _ Hk Hk')].
  rewrite flat_rd_split. f_equal. apply flat_rd_ext. apply Hk.
Qed.

Lemma flat_rd_range s a n : dc_inv s -> 0 <= flat_rd (view s) a n < 256 ^ Z.of_nat n.
Proof.
  intros Hs. apply be_bound. intros i _. unfold view. case_match; [apply lbyte_range|apply get_byte_range].
Qed.

(** ** The accessors, at every alignment *)
Lemma keeps_enabled s s' : keeps s s' -> enabled s -> enabled s'.
Proof. intros (_ & _ & Hc). unfold enabled, k_cacr. by rewrite Hc. Qed.

Lemma bytes_or v1 v2 v3 : is_u8 v1 -> is_u16 v2 -> is_u8 v3 ->
  u32 (v1 << 24) .| u32 (v2 << 8) .| v3 = (v1 * 65536 + v2) * 256 + v3.
Proof.
  intros H1 H2 H3. unfold is_u8, is_u16 in *.
  rewrite !u32_small by (rewrite Z.shiftl_mul_pow2 by lia; unfold is_u32; lia).
  rewrite (Z.lor_comm (v1 << 24)), (lor_shl_add v1 (v2 << 8) 24) by (lia || (rewrite Z.shiftl_mul_pow2 by lia; lia)).
  rewrite (Z.shiftl_mul_pow2 v2) by lia. replace (v1 * 2 ^ 24 + v2 * 2 ^ 8) with ((v1 * 65536 + v2) << 8) by (rewrite Z.shiftl_mul_pow2; lia).
  rewrite Z.lor_comm, lor_shl_add by lia. lia.
Qed.

Lemma words_or v1 v2 k : 0 <= k <= 16 -> 0 <= v1 < 2 ^ (32 - k) -> 0 <= v2 < 2 ^ k -> u32 (v1 << k) .| v2 = v1 * 2 ^ k + v2.
Proof.
  intros Hk H1 H2. rewrite u32_small; [by rewrite Z.lor_comm, lor_shl_add by lia|].
  rewrite Z.shiftl_mul_pow2 by lia. unfold is_u32. assert (2 ^ (32 - k) * 2 ^ k = 2 ^ 32) by (rewrite <- Z.pow_add_r by lia; f_equal; lia).
  change 4294967296 with (2 ^ 32). nia.
Qed.

(** Reads of one or two bytes are in range. *)
Lemma reads_range s s' a n v : dc_inv s -> reads s s' a n v -> 0 <= v < 256 ^ Z.of_nat n.
Proof. intros Hs [-> _]. by apply flat_rd_range. Qed.

Ltac one_read Hr v s' := destruct (read_dcache040 p ce_cachable _ _ _ _) as [v s'] in Hr |- *.

Lemma get_byte_reads cs a s : dc_inv s -> enabled s -> is_u32 a ->
  let '(v, s') := get_byte_cache_040 p ce_cachable cs a s in reads s s' a 1 v.
Proof.
  intros Hs He Ha. apply (read_reads cs a 0); [done|done|done|lia|]. change (nbytes 0) with 1%nat.
  pose proof (Z.mod_pos_bound a 16). lia.
Qed.

Lemma get_word_reads cs a s : dc_inv s -> enabled s -> is_u32 a ->
  let '(v, s') := get_word_cache_040 p ce_cachable cs a s in reads s s' a 2 v.
Proof.
  intros Hs He Ha. unfold get_word_cache_040. rewrite land_15. pose proof (Z.mod_pos_bound a 16).
  destruct (Z.ltb_spec (a mod 16) 15).
  { apply (read_reads cs a 1); [done|done|done|lia|]. change (nbytes 1) with 2%nat. lia. }
  pose proof (get_byte_reads cs a s Hs He Ha) as R1. unfold get_byte_cache_040 in R1. one_read R1 v1 s1.
  pose proof R1 as [_ Hk1]. pose proof Hk1 as (Hs1 & _). pose proof (keeps_enabled _ _ Hk1 He) as He1.
  pose proof (get_byte_reads cs (u32 (a + 1)) s1 Hs1 He1 (u32_range _)) as R2. unfold get_byte_cache_040 in R2. one_read R2 v2 s2.
  pose proof (reads_range _ _ _ _ _ Hs R1). pose proof (reads_range _ _ _ _ _ Hs1 R2).
  rewrite words_or by (lia || done). exact (reads_seq s s1 s2 a 1 1 v1 v2 R1 R2).
Qed.

Lemma get_long_reads cs a s : dc_inv s -> enabled s -> is_u32 a ->
  let '(v, s') := get_long_cache_040 p ce_cachable cs a s in reads s s' a 4 v.
Proof.
  intros Hs He Ha. unfold get_long_cache_040. rewrite land_15. pose proof (Z.mod_pos_bound a 16).
  assert (Hw : forall s1 k, keeps s s1 -> u32 (a + k) mod 16 <= 14 ->
    let '(v, s') := read_dcache040 p ce_cachable cs (u32 (a + k)) 1 s1 in reads s1 s' (u32 (a + k)) 2 v).
  { intros s1 k Hk Hm. apply (read_reads cs _ 1); [apply Hk|by eapply keeps_enabled|apply u32_range|lia|].
    change (nbytes 1) with 2%nat. lia. }
  assert (Hby : forall s1 k, keeps s s1 -> let '(v, s') := read_dcache040 p ce_cachable cs (u32 (a + k)) 0 s1 in
    reads s1 s' (u32 (a + k)) 1 v).
  { intros s1 k Hk. apply (get_byte_reads cs); [apply Hk|by eapply keeps_enabled|apply u32_range]. }
  destruct (Z.ltb_spec (a mod 16) 13).
  { apply (read_reads cs a 2); [done|done|done|lia|]. change (nbytes 2) with 4%nat. lia. }
  unfold is_u32 in Ha. destruct ((a mod 16 =? 13) || (a mod 16 =? 15)) eqn:E.
  - pose proof (get_byte_reads cs a s Hs He Ha) as R1. unfold get_byte_cache_040 in R1. one_read R1 v1 s1.
    pose proof R1 as [_ Hk1]. pose proof Hk1 as (Hs1 & _).
    pose proof (Hw s1 1 Hk1 ltac:(word)) as R2. one_read R2 v2 s2. pose proof R2 as [_ Hk2].
    pose proof (view_keeps_trans _ _ _ Hk1 Hk2) as Hk12. pose proof Hk2 as (Hs2 & _).
    pose proof (Hby s2 3 Hk12) as R3. one_read R3 v3 s3.
    pose proof (reads_range s s1 a 1 v1 Hs R1) as B1. pose proof (reads_range s1 s2 _ 2 v2 Hs1 R2) as B2.
    pose proof (reads_range s2 s3 _ 1 v3 Hs2 R3) as B3. rewrite (bytes_or v1 v2 v3 B1 B2 B3).
    apply (reads_seq s s2 s3 a 3 1 _ v3); [|done]. exact (reads_seq s s1 s2 a 1 2 v1 v2 R1 R2).
  - pose proof (Hw s 0 (view_keeps_refl s Hs)) as R1. rewrite Z.add_0_r, u32_small in R1 by done.
    specialize (R1 ltac:(lia)). one_read R1 v1 s1. pose proof R1 as [_ Hk1]. pose proof Hk1 as (Hs1 & _).
    pose proof (Hw s1 2 Hk1 ltac:(word)) as R2. one_read R2 v2 s2.
    pose proof (reads_range _ _ _ _ _ Hs R1). pose proof (reads_range _ _ _ _ _ Hs1 R2).
    rewrite words_or by (lia || done). exact (reads_seq s s1 s2 a 2 2 v1 v2 R1 R2).
Qed.

Lemma writes_enabled s s' a n v : writes s s' a n v -> enabled s -> enabled s'.
Proof. intros (_ & _ & Hc). unfold enabled, k_cacr. by rewrite Hc. Qed.

Lemma put_byte_writes cs a v s : dc_inv s -> enabled s -> is_u32 a ->
  writes s (put_byte_cache_040 p ce_cachable cs a v s) a 1 v.
Proof.
  intros Hs He Ha. apply (write_writes cs a v 0); [done|done|done|lia|]. change (nbytes 0) with 1%nat.
  pose proof (Z.mod_pos_bound a 16). lia.
Qed.

Lemma put_word_writes cs a v s : dc_inv s -> enabled s -> is_u32 a ->
  writes s (put_word_cache_040 p ce_cachable cs a v s) a 2 v.
Proof.
  intros Hs He Ha. unfold put_word_cache_040. rewrite land_15. pose proof (Z.mod_pos_bound a 16).
  destruct (Z.ltb_spec (a mod 16) 15).
  { apply (write_writes cs a v 1); [done|done|done|lia|]. change (nbytes 1) with 2%nat. lia. }
  pose proof (put_byte_writes cs a (v >> 8) s Hs He Ha) as W1. pose proof W1 as (Hs1 & _).
  pose proof (writes_enabled _ _ _ _ _ W1 He) as He1.
  exact (writes_seq s _ _ a 1 1 v Ha ltac:(done) W1 (put_byte_writes cs (u32 (a + 1)) v _ Hs1 He1 (u32_range _))).
Qed.

Lemma put_long_writes cs a v s : dc_inv s -> enabled s -> is_u32 a ->
  writes s (put_long_cache_040 p ce_cachable cs a v s) a 4 v.
Proof.
  intros Hs He Ha. unfold put_long_cache_040. rewrite land_15. pose proof (Z.mod_pos_bound a 16).
  assert (Hw : forall s1 k v, dc_inv s1 -> enabled s1 -> u32 (a + k) mod 16 <= 14 ->
    writes s1 (write_dcache040 p ce_cachable cs (u32 (a + k)) v 1 s1) (u32 (a + k)) 2 v).
  { intros s1 k v' Hs1 He1 Hm. apply (write_writes cs _ v' 1); [done|done|apply u32_range|lia|].
    change (nbytes 1) with 2%nat. lia. }
  destruct (Z.ltb_spec (a mod 16) 13).
  { apply (write_writes cs a v 2); [done|done|done|lia|]. change (nbytes 2) with 4%nat. lia. }
  unfold is_u32 in Ha. destruct ((a mod 16 =? 13) || (a mod 16 =? 15)) eqn:E.
  - pose proof (put_byte_writes cs a (v >> 24) s Hs He Ha) as W1. pose proof W1 as (Hs1 & _).
    pose proof (writes_enabled _ _ _ _ _ W1 He) as He1.
    pose proof (Hw _ 1 (v >> 8) Hs1 He1 ltac:(word)) as W2. pose proof W2 as (Hs2 & _).
    pose proof (writes_enabled _ _ _ _ _ W2 He1) as He2.
    pose proof (put_byte_writes cs (u32 (a + 3)) v _ Hs2 He2 (u32_range _)) as W3.
    refine (writes_seq s _ _ a 3 1 v Ha _ _ W3); [done|].
    refine (writes_seq s _ _ a 1 2 (v >> 8) Ha _ _ W2); [done|]. rewrite Z.shiftr_shiftr by lia. exact W1.
  - pose proof (Hw s 0 (v >> 16) Hs He) as W1. rewrite Z.add_0_r, u32_small in W1 by done. specialize (W1 ltac:(lia)).
    pose proof W1 as (Hs1 & _). pose proof (writes_enabled _ _ _ _ _ W1 He) as He1.
    exact (writes_seq s _ _ a 2 2 v Ha ltac:(done) W1 (Hw _ 2 v Hs1 He1 ltac:(word))).
Qed.
End Props.
