(* ===== verification/CacheTop.v ===== *)
(** * CacheTop: theorems on the 68040/060 caches

    Transparency of the data cache for whole access sequences, CPUSHA, the
    instruction cache, and three defects of the flush routines. *)

From S2P Require Import Prelude Flags Cpu Movec Mmu Cache040 CacheBytes CacheView CacheProps.
From Stdlib Require Import ZArith Lia Bool.
From stdpp Require Import base list gmap.
Open Scope Z_scope.
Open Scope cint_scope.

Section Flush.
Context {M : Type} `{BusLaws M} (p : cache_prefs).
Implicit Types s : caches M.

(** ** Pushes keep the view *)
Lemma foldl_keeps {X} (g : caches M -> X -> caches M) (P : X -> Prop) xs s :
  (forall s x, dc_inv s -> P x -> keeps s (g s x)) -> Forall P xs -> dc_inv s -> keeps s (foldl g s xs).
Proof.
  intros Hg HP. revert s. induction HP as [|x xs Hx _ IH]; intros s Hs; cbn [foldl]; [done|].
  pose proof (Hg s x Hs Hx) as Hk. exact (view_keeps_trans _ _ _ Hk (IH _ (proj1 Hk))).
Qed.

Definition in_cache (il : Z * Z) : Prop := 0 <= il.1 < 128 /\ 0 <= il.2 < 4.

Lemma flush_dline_keeps pushinv s il : dc_inv s -> in_cache il -> keeps s (flush_dline p true pushinv s il).
Proof.
  intros Hs [Hi Hj]. destruct il as [i j]. cbn [fst snd] in *. unfold flush_dline.
  destruct (c_valid (dline s i j)) eqn:Ev; [|done].
  destruct (push_line_ok p i j false pushinv s Hs Hi Hj Ev) as (Hs' & Hv & _).
  split_and!; [done|done|]. apply push_line_cpu.
Qed.

Lemma ways_range : Forall (fun w => 0 <= w < 4) ways.
Proof. unfold ways. repeat constructor; lia. Qed.

Lemma d_index_range s a : geom_ok s -> 0 <= (a >> 4) .& cachedsets04060mask s < cachedsets04060 s.
Proof.
  intros Hg. fold (d_index s a). rewrite d_index_eq by done. pose proof (sets_le s Hg). apply Z.mod_pos_bound. lia.
Qed.

Lemma flush_step_keeps pushinv a s w : dc_inv s -> 0 <= w < 4 -> keeps s (flush_step p false true pushinv a s w).
Proof.
  intros Hs Hw. unfold flush_step. destruct (line_hit _ _ w) eqn:E; [|done].
  unfold line_hit in E. apply andb_true_iff in E as [Ev _].
  pose proof (d_index_range s a (i_geom s Hs)). pose proof (sets_le s (i_geom s Hs)).
  destruct (push_line_ok p ((a >> 4) .& cachedsets04060mask s) w false pushinv s) as (Hs' & Hv & _); [done|lia|done|done|].
  split_and!; [done|done|]. apply push_line_cpu.
Qed.

Lemma flush_range_keeps n pushinv a s : dc_inv s -> keeps s (snd (flush_range p n false true pushinv a s)).
Proof.
  revert a s. induction n as [|n IH]; intros a s Hs; cbn [flush_range]; [done|].
  pose proof (foldl_keeps (flush_step p false true pushinv a) _ ways s
    (fun s w Hs => flush_step_keeps pushinv a s w Hs) ways_range Hs) as Hk.
  exact (view_keeps_trans _ _ _ Hk (IH _ _ (proj1 Hk))).
Qed.

Lemma all_lines_range n : 0 <= n <= 128 -> Forall in_cache (all_lines n).
Proof.
  intros Hn. apply Forall_forall. intros [i j] Hin. unfold all_lines in Hin.
  apply list_elem_of_bind in Hin as (k & Hin & Hk). apply elem_of_seq in Hk.
  apply list_elem_of_fmap in Hin as (j' & [= -> ->] & Hj). pose proof ways_range as Hw.
  rewrite Forall_forall in Hw. specialize (Hw _ Hj). split; cbn [fst snd]; lia.
Qed.

Lemma all_lines_complete n i j : 0 <= i < n -> 0 <= j < 4 -> (i, j) ∈ all_lines n.
Proof.
  intros Hi Hj. unfold all_lines. apply list_elem_of_bind. exists (Z.to_nat i). split.
  - apply list_elem_of_fmap. exists j. split; [f_equal; lia|]. unfold ways. rewrite !elem_of_cons. lia.
  - apply elem_of_seq. lia.
Qed.

Lemma count_keeps s n : dc_inv s -> keeps s {| s with dcachelinecnt := n |}.
Proof. intros Hs. by destruct (same_cache_ok s {| s with dcachelinecnt := n |}) as (? & ? & ?). Qed.

Lemma pass_data_keeps cache scope a pushinv s : dc_inv s ->
  keeps s (flush_pass p false cache scope true pushinv (a, s)).2.
Proof.
  intros Hs. unfold flush_pass. destruct (cache .& 1 =? 0); [done|]. destruct (scope =? 3).
  - cbn [snd]. set (s1 := foldl _ _ _). assert (Hk : keeps s s1).
    { apply (foldl_keeps _ in_cache); [intros; by apply flush_dline_keeps| |done].
      apply all_lines_range. pose proof (sets_le s (i_geom s Hs)). lia. }
    exact (view_keeps_trans _ _ _ Hk (count_keeps s1 0 (proj1 Hk))).
  - by apply flush_range_keeps.
Qed.

Lemma pass_ins_skip cache scope push pushinv (x : Z * caches M) :
  cache .& 2 = 0 -> flush_pass p true cache scope push pushinv x = x.
Proof. intros E. unfold flush_pass. destruct x. by rewrite E. Qed.

(** CPUSHL, CPUSHP and CPUSHA on the data cache. *)
Lemma cpush_eq scope addr push pushinv s : flush_cpu_caches_040_2 p 1 scope addr push pushinv s
  = (flush_pass p false (if cpu_data_cache p then 1 else 0) scope push pushinv (addr, s)).2.
Proof. unfold flush_cpu_caches_040_2. destruct (cpu_data_cache p); by rewrite pass_ins_skip. Qed.

Lemma cpush_keeps scope addr pushinv s : dc_inv s ->
  keeps s (flush_cpu_caches_040_2 p 1 scope addr true pushinv s).
Proof. intros Hs. rewrite cpush_eq. by apply pass_data_keeps. Qed.

(** ** CPUSHA leaves nothing behind *)
Definition clean s (i j : Z) : Prop :=
  c_valid (dline s i j) = true -> forall k, (k < 4)%nat -> c_dirty (dline s i j) !!! k = false.

Lemma clean_view_mem s b : dc_inv s -> (forall i j, 0 <= i < 128 -> 0 <= j < 4 -> clean s i j) -> is_u32 b ->
  view s b = get_byte (kmem s) b.
Proof.
  intros Hs Hc Hb. destruct (holds_or_not s b Hs Hb) as [(i & j & Hh)|Hn]; [|by apply view_none].
  rewrite (view_holds s i j b Hs Hb Hh). pose proof Hh as (Hi & Hj & Hv & E).
  rewrite (li_coh s i (dline s i j)); [|by apply i_line|done|apply Z.mod_pos_bound; lia|].
  - rewrite E. f_equal. unfold blk. lia.
  - apply Hc; [done..|]. pose proof (Z.mod_pos_bound b 16). Z.div_mod_to_equations; lia.
Qed.

Lemma flush_dline_cleans pushinv s i j : dc_inv s -> 0 <= i < 128 -> 0 <= j < 4 ->
  let s' := flush_dline p true pushinv s (i, j) in
  clean s' i j /\ (forall i' j', 0 <= i' < 128 -> 0 <= j' < 4 -> clean s i' j' -> clean s' i' j')
  /\ (forall i' j', 0 <= i' < 128 -> 0 <= j' < 4 -> c_valid (dline s' i' j') = true -> c_valid (dline s i' j') = true).
Proof.
  intros Hs Hi Hj. cbn zeta. unfold flush_dline. destruct (c_valid (dline s i j)) eqn:Ev.
  - destruct (push_line_eq p i j false pushinv s Hs Hi Hj Ev) as (l' & Hr & _ & _ & _ & _ & Hcl & _).
    pose proof (i_len s Hs) as Hl. unfold clean. split_and!.
    + rewrite (replaced_line s _ i j l') by done. rewrite !Z.eqb_refl. auto.
    + intros i' j' Hi' Hj' Hc. rewrite (replaced_line s _ i j l') by done. case_match; auto.
    + intros i' j' Hi' Hj'. rewrite (replaced_line s _ i j l') by done. case_match eqn:Eq; [|done].
      intros _. assert (i' = i) as -> by lia. by assert (j' = j) as -> by lia.
  - split_and!; [|done|done]. unfold clean. congruence.
Qed.

Lemma flush_all_cleans pushinv xs s : dc_inv s -> Forall in_cache xs ->
  let s' := foldl (flush_dline p true pushinv) s xs in
  (forall i j, (i, j) ∈ xs -> clean s' i j)
  /\ (forall i j, 0 <= i < 128 -> 0 <= j < 4 -> clean s i j -> clean s' i j)
  /\ (forall i j, 0 <= i < 128 -> 0 <= j < 4 -> c_valid (dline s' i j) = true -> c_valid (dline s i j) = true).
Proof.
  intros Hs HP. revert s Hs. induction HP as [|[i j] xs [Hi Hj] HP IH]; intros s Hs; cbn [foldl].
  { split_and!; [|done|done]. intros i j Hin. by apply not_elem_of_nil in Hin. }
  cbn [fst snd] in *. destruct (flush_dline_cleans pushinv s i j Hs Hi Hj) as (Hc & Hp & Hv).
  pose proof (flush_dline_keeps pushinv s (i, j) Hs (conj Hi Hj)) as (Hs' & _).
  destruct (IH _ Hs') as (Hc' & Hp' & Hv'). split_and!.
  - intros i' j' Hin. apply elem_of_cons in Hin as [[= -> ->]|Hin]; auto.
  - auto.
  - auto.
Qed.
End Flush.

(** CPUSHA on the data cache brings memory up to date: with the cache
    switched on in the preferences, every byte of memory afterwards is the one
    the program saw before, and the program still sees the same. *)
Theorem cpusha_updates_memory {M} `{BusLaws M} (p : cache_prefs) (addr : Z) (pushinv : bool) (s : caches M) b :
  dc_inv s -> cpu_data_cache p = true -> is_u32 b ->
  let s' := flush_cpu_caches_040_2 p 1 3 addr true pushinv s in
  get_byte (kmem s') b = view s b /\ view s' b = view s b /\ dc_inv s'.
Proof.
  intros Hs Hp Hb. cbn zeta. destruct (cpush_keeps p 3 addr pushinv s Hs) as (Hs' & Hv & _).
  split_and!; [|by apply Hv|done]. rewrite <- (Hv b Hb). symmetry. apply clean_view_mem; [done| |done].
  rewrite cpush_eq, Hp in *. cbn in *. pose proof (sets_le s (i_geom s Hs)) as Hsl.
  destruct (flush_all_cleans p pushinv (all_lines (cachedsets04060 s)) s Hs) as (Hc & _ & Hval).
  { apply all_lines_range. lia. }
  intros i j Hi Hj Hvalid. change (c_valid (dline (foldl (flush_dline p true pushinv) s (all_lines (cachedsets04060 s))) i j) = true) in Hvalid.
  pose proof (li_home s i (dline s i j) (i_line s Hs i j Hi Hj) (Hval i j Hi Hj Hvalid)) as (Hin & _).
  exact (Hc i j (all_lines_complete _ i j Hin Hj) Hvalid).
Qed.

(** ** Sequences of accesses *)
(** Reads and writes of 1, 2 or 4 bytes ([size] 0, 1, 2), each with the cache
    mode [cs] the MMU found for it, and CPUSH instructions on the data cache. *)
Inductive mem_op :=
| MRead (size cs a : Z)
| MWrite (size cs a v : Z)
| MPush (scope a : Z) (pushinv : bool).

Definition op_ok (o : mem_op) : Prop :=
  match o with
  | MRead size _ a | MWrite size _ a _ => 0 <= size <= 2 /\ is_u32 a
  | MPush _ _ _ => True
  end.

Section Run.
Context {M : Type} `{BusLaws M} (p : cache_prefs) (ce_cachable : Z -> Z).
Implicit Types s : caches M.

Definition cached_op (o : mem_op) s : Z * caches M :=
  match o with
  | MRead size cs a =>
      if size =? 0 then get_byte_cache_040 p ce_cachable cs a s
      else if size =? 1 then get_word_cache_040 p ce_cachable cs a s
      else get_long_cache_040 p ce_cachable cs a s
  | MWrite size cs a v =>
      (0, if size =? 0 then put_byte_cache_040 p ce_cachable cs a v s
          else if size =? 1 then put_word_cache_040 p ce_cachable cs a v s
          else put_long_cache_040 p ce_cachable cs a v s)
  | MPush scope a pushinv => (0, flush_cpu_caches_040_2 p 1 scope a true pushinv s)
  end.

Fixpoint cached_run (os : list mem_op) s : list Z * caches M :=
  match os with
  | [] => ([], s)
  | o :: r => let '(v, s1) := cached_op o s in let '(vs, s2) := cached_run r s1 in (v :: vs, s2)
  end.

(** The specification: one flat memory, no caches. *)
Definition flat_op (o : mem_op) (f : Z -> Z) : Z * (Z -> Z) :=
  match o with
  | MRead size _ a => (flat_rd f a (nbytes size), f)
  | MWrite size _ a v => (0, flat_wr f a (nbytes size) v)
  | MPush _ _ _ => (0, f)
  end.

Fixpoint flat_run (os : list mem_op) (f : Z -> Z) : list Z * (Z -> Z) :=
  match os with
  | [] => ([], f)
  | o :: r => let '(v, f1) := flat_op o f in let '(vs, f2) := flat_run r f1 in (v :: vs, f2)
  end.

Definition sees s (f : Z -> Z) : Prop := forall b, is_u32 b -> view s b = f b.

Lemma reads_op s s' a n v f : reads s s' a n v -> sees s f -> enabled s ->
  v = flat_rd f a n /\ dc_inv s' /\ enabled s' /\ sees s' f.
Proof.
  intros [-> Hk] Hf He. pose proof Hk as (Hs' & Hv & _).
  split_and!; [by apply flat_rd_ext|done|by eapply keeps_enabled|]. intros b Hb. rewrite Hv by done. by apply Hf.
Qed.

Lemma writes_op s s' a n v f : writes s s' a n v -> sees s f -> enabled s ->
  dc_inv s' /\ enabled s' /\ sees s' (flat_wr f a n v).
Proof.
  intros Hw Hf He. pose proof Hw as (Hs' & Hv & _). split_and!; [done|by eapply writes_enabled|].
  intros b Hb. rewrite Hv by done. apply flat_wr_ext. by apply Hf.
Qed.

Lemma cached_op_ok o s f : dc_inv s -> enabled s -> op_ok o -> sees s f ->
  let '(v, s') := cached_op o s in let '(w, f') := flat_op o f in
  v = w /\ dc_inv s' /\ enabled s' /\ sees s' f'.
Proof.
  intros Hs He Ho Hf. destruct o as [size cs a|size cs a v|scope a inv]; cbn [cached_op flat_op].
  - destruct Ho as [Hz Ha]. destruct (size_cases size Hz) as [-> | [-> | ->]]; cbn [Z.eqb Pos.eqb].
    + pose proof (get_byte_reads p ce_cachable cs a s Hs He Ha) as Hr. destruct (get_byte_cache_040 _ _ _ _ _). by eapply reads_op.
    + pose proof (get_word_reads p ce_cachable cs a s Hs He Ha) as Hr. destruct (get_word_cache_040 _ _ _ _ _). by eapply reads_op.
    + pose proof (get_long_reads p ce_cachable cs a s Hs He Ha) as Hr. destruct (get_long_cache_040 _ _ _ _ _). by eapply reads_op.
  - split; [done|]. destruct Ho as [Hz Ha]. destruct (size_cases size Hz) as [-> | [-> | ->]]; cbn [Z.eqb Pos.eqb];
      eapply writes_op; [by apply put_byte_writes|done|done|by apply put_word_writes|done|done|by apply put_long_writes|done|done].
  - pose proof (cpush_keeps p scope a inv s Hs) as Hk. pose proof Hk as (Hs' & Hv & _).
    split_and!; [done|done|by eapply keeps_enabled|]. intros b Hb. rewrite Hv by done. by apply Hf.
Qed.
End Run.

(** C8: the copyback data cache is invisible.  While it is enabled, any sequence of
    byte, word and long reads and writes at any alignment and CPUSH
    instructions, with any cache mode for each access (write-through,
    copyback, inhibited, no allocation), any cachability of the banks and any
    replacement state, returns what a single flat memory returns, and the
    program's view of memory stays that flat memory. *)
Theorem dcache_transparent {M} `{BusLaws M} (p : cache_prefs) (ce_cachable : Z -> Z) ops (s : caches M) f :
  dc_inv s -> enabled s -> Forall op_ok ops -> sees s f ->
  (cached_run p ce_cachable ops s).1 = (flat_run ops f).1
  /\ sees (cached_run p ce_cachable ops s).2 (flat_run ops f).2
  /\ dc_inv (cached_run p ce_cachable ops s).2.
Proof.
  intros Hs He Ho. revert s f Hs He. induction Ho as [|o ops Ho _ IH]; intros s f Hs He Hf; cbn [cached_run flat_run]; [done|].
  pose proof (cached_op_ok p ce_cachable o s f Hs He Ho Hf) as Hop.
  destruct (cached_op p ce_cachable o s) as [v s1], (flat_op o f) as [w f1]. destruct Hop as (-> & Hs1 & He1 & Hf1).
  destruct (IH s1 f1 Hs1 He1 Hf1) as (E & Hv & Hi).
  destruct (cached_run p ce_cachable ops s1) as [vs s2], (flat_run ops f1) as [ws f2]. cbn [fst snd] in *. by rewrite E.
Qed.
