(* ===== verification/CacheIns.v ===== *)
(** * CacheIns: the instruction cache, invalidation, and defects of the flush
    routines *)

From S2P Require Import Prelude Flags Cpu Movec Mmu Cache040 CacheBytes CacheView CacheProps CacheTop.
From Stdlib Require Import ZArith Lia Bool.
From stdpp Require Import base list gmap.
Open Scope Z_scope.
Open Scope cint_scope.

Section Ins.
Context {M : Type} `{BusLaws M} (p : cache_prefs) (ce_cachable : Z -> Z).
Implicit Types s : caches M.

(** The four long words of the block at [A]. *)
Definition block_words (m : M) (A : Z) : list Z :=
  [get_long m (u32 (A + 0)); get_long m (u32 (A + 4)); get_long m (u32 (A + 8)); get_long m (u32 (A + 12))].

Record igeom_ok s : Prop := mk_igeom {
  ig_sets : cacheisets04060 s = 64 \/ cacheisets04060 s = 128;
  ig_mask : cacheisets04060mask s = cacheisets04060 s - 1;
  ig_tag : cacheitag04060mask s = 2 ^ 32 - 16 * cacheisets04060 s }.

(** What instruction fetches rely on: valid lines and the prefetch buffer hold
    what memory holds. *)
Record ic_inv s : Prop := mk_ic_inv {
  ic_geom : igeom_ok s;
  ic_len : length (icaches040 s) = 512%nat;
  ic_last : 0 <= cache_lastline s < 4;
  ic_buf : prefetch020addr s mod 16 = 0 -> prefetch040 s = block_words (kmem s) (prefetch020addr s);
  ic_lines : forall i w, 0 <= i < 128 -> 0 <= w < 4 -> c_valid (iline s i w) = true ->
    c_data (iline s i w) = block_words (kmem s) (c_tag (iline s i w) + 16 * i) }.

(** Memory, registers and geometry are not changed by a fetch. *)
Definition fetched s s' : Prop := ic_inv s' /\ kmem s' = kmem s /\ kcpu s' = kcpu s.

Lemma fetched_trans s1 s2 s3 : fetched s1 s2 -> fetched s2 s3 -> fetched s1 s3.
Proof. intros (_ & ? & ?) (? & ? & ?). split_and!; [done|congruence..]. Qed.

Lemma i_index_tag s a : igeom_ok s -> is_u32 a ->
  0 <= (a >> 4) .& cacheisets04060mask s < 128
  /\ (a .& cacheitag04060mask s) + 16 * ((a >> 4) .& cacheisets04060mask s) = blk a.
Proof.
  clear ce_cachable. intros [Hs Hm Ht] Ha. rewrite Hm, Ht, Z.shiftr_div_pow2 by lia. change (2 ^ 4) with 16.
  destruct Hs as [-> | ->].
  - change (2 ^ 32 - 16 * 64) with (2 ^ 32 - 2 ^ 10). rewrite (land_high a 10) by (done || lia). change (64 - 1) with (Z.ones 6). rewrite Z.land_ones by lia.
    change (2 ^ 6) with 64. change (2 ^ 10) with 1024. unfold blk. Z.div_mod_to_equations; lia.
  - change (2 ^ 32 - 16 * 128) with (2 ^ 32 - 2 ^ 11). rewrite (land_high a 11) by (done || lia). change (128 - 1) with (Z.ones 7). rewrite Z.land_ones by lia.
    change (2 ^ 7) with 128. change (2 ^ 11) with 2048. unfold blk. Z.div_mod_to_equations; lia.
Qed.

Lemma iline_set i w l s i' w' : length (icaches040 s) = 512%nat ->
  0 <= i < 128 -> 0 <= w < 4 -> 0 <= i' < 128 -> 0 <= w' < 4 ->
  iline (set_iline i w l s) i' w' = if (i =? i') && (w =? w') then l else iline s i' w'.
Proof.
  intros Hl Hi Hw Hi' Hw'. unfold iline, set_iline, cpos, CACHELINES040. cbn [icaches040].
  rewrite lookup_insert_cases by lia. case_decide; case_match; try done; lia.
Qed.

(** Storing a line that is invalid or agrees with memory. *)
Lemma set_iline_fetched s i w l : ic_inv s -> 0 <= i < 128 -> 0 <= w < 4 ->
  (c_valid l = true -> c_data l = block_words (kmem s) (c_tag l + 16 * i)) -> fetched s (set_iline i w l s).
Proof.
  intros [Hg Hl Hla Hb Hli] Hi Hw Hd. split_and!; [|done|done].
  split; [by destruct Hg|cbn; by rewrite length_insert|done|done|].
  intros i' w' Hi' Hw'. rewrite iline_set by done. case_match eqn:E; [|by apply Hli].
  intros Hv. assert (i' = i) as -> by lia. by apply Hd.
Qed.

Lemma prefetch_fetched s A : ic_inv s -> fetched s (icache_prefetch A s).
Proof. intros [Hg Hl Hla Hb Hli]. split_and!; [|done|done]. split; [by destruct Hg|done..]. Qed.

Lemma half_fetched s lws : ic_inv s -> fetched s (icache_half lws s) /\ forall i w, iline (icache_half lws s) i w = iline s i w.
Proof.
  intros Hs. unfold icache_half. case_match; [|done]. split; [|done]. destruct Hs as [Hg Hl Hla Hb Hli].
  split_and!; [|done|done]. split; [by destruct Hg|done..].
Qed.

Lemma lws_range a : 0 <= (a >> 2) .& 3 < 4.
Proof. change 3 with (Z.ones 2). rewrite Z.land_ones by lia. apply Z.mod_pos_bound. lia. Qed.

(** The long word of the block a fetch asks for. *)
Definition wanted s (a : Z) : Z := get_long (kmem s) (u32 (blk a + 4 * ((a >> 2) .& 3))).

Lemma block_words_wanted s a : block_words (kmem s) (blk a) !!! Z.to_nat ((a >> 2) .& 3) = wanted s a.
Proof.
  unfold wanted. pose proof (lws_range a) as Hr. set (k := (a >> 2) .& 3) in *.
  assert (k = 0 \/ k = 1 \/ k = 2 \/ k = 3) as [-> | [-> | [-> | ->]]] by lia; done.
Qed.

Lemma blk_mod a : blk a mod 16 = 0.
Proof. unfold blk. by rewrite Zminus_mod_idemp_r, Z.sub_diag. Qed.

Lemma icache_end_ok s a : ic_inv s ->
  let '(v, s') := icache_end (blk a) ((a >> 2) .& 3) s in v = wanted s a /\ fetched s s'.
Proof.
  intros Hs. unfold icache_end. destruct (Z.eqb_spec (prefetch020addr s) (blk a)) as [E|E].
  - split; [|done]. rewrite (ic_buf s Hs), E by (rewrite E; apply blk_mod). apply block_words_wanted.
  - split; [|by apply prefetch_fetched]. apply (block_words_wanted s a).
Qed.

Lemma icache_scan_ok n i tag s : ic_inv s ->
  let '(r, s') := icache_scan n i tag s in
  fetched s s' /\ (forall i w, iline s' i w = iline s i w) /\ cacheisets04060mask s' = cacheisets04060mask s
  /\ prefetch020addr s' = prefetch020addr s
  /\ match r with Some w => 0 <= w < 4 /\ line_hit (iline s i) tag w = true | None => True end.
Proof.
  revert s. induction n as [|n IH]; intros s Hs; cbn [icache_scan]; [done|].
  destruct (line_hit (iline s i) tag (cache_lastline s)) eqn:E; [split_and!; by try apply Hs|].
  set (s1 := {| s with cache_lastline := _ |}).
  assert (H1 : ic_inv s1).
  { destruct Hs as [Hg Hl Hla Hb Hli]. split; [by destruct Hg|done| |done|done]. unfold s1. cbn [cache_lastline].
    change (CACHELINES040 - 1) with (Z.ones 2). rewrite Z.land_ones by lia. apply Z.mod_pos_bound. lia. }
  specialize (IH s1 H1). destruct (icache_scan n i tag s1) as [r s']. destruct IH as (Hf & Hi & Em & Ep & Hr).
  split_and!; [exact (fetched_trans s s1 s' (conj H1 (conj eq_refl eq_refl)) Hf)|done..].
Qed.

Lemma victim_fetched s i lws : ic_inv s ->
  let '(line, s') := icache_victim i lws s in
  fetched s s' /\ 0 <= line < 4 /\ prefetch040 s' = prefetch040 s /\ prefetch020addr s' = prefetch020addr s.
Proof.
  intros Hs. unfold icache_victim. destruct (find_way _ ways) as [w|] eqn:E.
  - apply find_way_some in E as [Hw _]. by split_and!; try lia.
  - pose proof Hs as [Hg Hl Hla Hb Hli]. split; [|split; [|done]].
    + split_and!; [|done|done]. split; [by destruct Hg|done..].
    + change (CACHELINES040 - 1) with (Z.ones 2). rewrite Z.land_ones by lia. apply Z.mod_pos_bound. lia.
Qed.

(** A hit line holds the words of the block. *)
Lemma hit_words s a w : ic_inv s -> is_u32 a -> 0 <= w < 4 ->
  let i := (a >> 4) .& cacheisets04060mask s in
  line_hit (iline s i) (a .& cacheitag04060mask s) w = true -> c_data (iline s i w) = block_words (kmem s) (blk a).
Proof.
  intros Hs Ha Hw i Hh. destruct (i_index_tag s a (ic_geom s Hs) Ha) as [Hi E]. fold i in Hi, E. unfold line_hit in Hh.
  apply andb_true_iff in Hh as [Hv Ht]. apply Z.eqb_eq in Ht. rewrite (ic_lines s Hs i w Hi Hw Hv), Ht. by rewrite E.
Qed.

Lemma wanted_fetched s s' a : fetched s s' -> wanted s' a = wanted s a.
Proof. intros (_ & Em & _). unfold wanted. by rewrite Em. Qed.

Lemma fill_icache040_ok cs a s : ic_inv s -> is_u32 a ->
  let '(v, s') := fill_icache040 ce_cachable cs a s in v = wanted s a /\ fetched s s'.
Proof.
  intros Hs Ha. unfold fill_icache040. rewrite base_block by done.
  destruct (Z.eqb_spec (prefetch020addr s) (blk a)) as [Ep|Ep].
  { split; [|done]. rewrite (ic_buf s Hs), Ep by (rewrite Ep; apply blk_mod). apply block_words_wanted. }
  destruct (k_cacr s .& 0x8000 =? 0); [by apply icache_end_ok|].
  destruct (i_index_tag s a (ic_geom s Hs) Ha) as [Hi Eblk].
  set (cs' := if _ =? 0 then _ else _). set (i := (a >> 4) .& cacheisets04060mask s) in *.
  set (tag := a .& cacheitag04060mask s) in *. pose proof (icache_scan_ok 4 i tag s Hs) as Hsc.
  destruct (icache_scan 4 i tag s) as [[w|] s1]; destruct Hsc as (Hf1 & Hl1 & _ & _ & Hr); pose proof Hf1 as (Hs1 & Em1 & _).
  - destruct Hr as [Hw Hh]. destruct (inhibited cs').
    + pose proof (set_iline_fetched s1 i w (clear_valid (iline s1 i w)) Hs1 Hi Hw ltac:(done)) as Hf2.
      pose proof (icache_end_ok _ a (proj1 Hf2)) as He. destruct (icache_end _ _ _) as [v s3].
      destruct He as [-> Hf3]. split; [|exact (fetched_trans _ _ _ (fetched_trans _ _ _ Hf1 Hf2) Hf3)].
      by rewrite (wanted_fetched s1 _ a Hf2), (wanted_fetched s s1 a Hf1).
    + destruct (half_fetched s1 ((a >> 2) .& 3) Hs1) as [Hf2 Hl2].
      pose proof (hit_words s a w Hs Ha Hw Hh) as Hd. fold i in Hd.
      split; [|exact (fetched_trans _ _ _ Hf1 Hf2)]. rewrite Hl2, Hl1, Hd. apply block_words_wanted.
  - pose proof (prefetch_fetched s1 (blk a) Hs1) as Hf2. set (s2 := icache_prefetch (blk a) s1) in *.
    pose proof (fetched_trans _ _ _ Hf1 Hf2) as Hf12. pose proof Hf12 as (Hs2 & Em2 & _).
    destruct (inhibited cs' || truth _).
    + pose proof (icache_end_ok s2 a Hs2) as He. destruct (icache_end _ _ _) as [v s3]. destruct He as [-> Hf3].
      split; [by apply wanted_fetched|exact (fetched_trans _ _ _ Hf12 Hf3)].
    + pose proof (victim_fetched s2 i ((a >> 2) .& 3) Hs2) as Hv. destruct (icache_victim i _ s2) as [line s3].
      destruct Hv as (Hf3 & Hline & Eb & Ea). pose proof (fetched_trans _ _ _ Hf12 Hf3) as Hf123. pose proof Hf3 as (Hs3 & Em3 & _).
      assert (Eb' : prefetch040 s3 = block_words (kmem s3) (tag + 16 * i)) by (rewrite Eb, Em3, Eblk; done).
      set (l := iline s3 i line). set (l' := {| l with c_data := prefetch040 s3; c_valid := true; c_tag := tag |}).
      pose proof (set_iline_fetched s3 i line l' Hs3 Hi Hline (fun _ => Eb')) as Hf4.
      destruct (half_fetched (set_iline i line l' s3) ((a >> 2) .& 3) (proj1 Hf4)) as [Hf5 Hl5].
      split; [|exact (fetched_trans _ _ _ (fetched_trans _ _ _ Hf123 Hf4) Hf5)].
      rewrite Hl5, iline_set by (done || apply Hs3). rewrite !Z.eqb_refl. cbn [andb c_data l'].
      rewrite Eb', Eblk, block_words_wanted. by apply wanted_fetched.
Qed.

Lemma wanted_aligned s a : is_u32 a -> wanted s a = get_long (kmem s) (a - a mod 4).
Proof.
  intros Ha. unfold wanted. f_equal. rewrite Z.shiftr_div_pow2 by lia. change 3 with (Z.ones 2).
  rewrite Z.land_ones by lia. change (2 ^ 2) with 4. unfold blk, is_u32 in *. word.
Qed.

Lemma get_word_u16 (m : M) a : is_u16 (get_word m a).
Proof.
  rewrite get_word_bytes. pose proof (get_byte_range m a). pose proof (get_byte_range m (a + 1)).
  unfold is_u8, is_u16 in *. lia.
Qed.

Lemma land_2_even a : a mod 2 = 0 -> (a .& 2 =? 0) = (a mod 4 =? 0).
Proof.
  intros Ha. change 2 with (2 ^ 1). rewrite land_pow2_eqb by lia.
  rewrite Z.testbit_eqb by lia. change (2 ^ 1) with 2.
  destruct (Z.eqb_spec ((a / 2) mod 2) 1), (Z.eqb_spec (a mod 4) 0); try done; exfalso; Z.div_mod_to_equations; lia.
Qed.

Lemma icache_long_ok cs a s : ic_inv s -> 0 <= a <= 2 ^ 32 - 4 -> a mod 2 = 0 ->
  let '(v, s') := get_long_icache040 ce_cachable cs a s in v = get_long (kmem s) a /\ fetched s s'.
Proof.
  intros Hs Ha He. change (2 ^ 32) with 4294967296 in Ha.
  assert (Hu : is_u32 a) by (unfold is_u32; lia). unfold get_long_icache040.
  pose proof (fill_icache040_ok cs a s Hs Hu) as H1. destruct (fill_icache040 ce_cachable cs a s) as [v1 s1].
  destruct H1 as [-> Hf1]. rewrite land_2_even by done. rewrite wanted_aligned by done.
  destruct (Z.eqb_spec (a mod 4) 0) as [E|E]; [by rewrite E, Z.sub_0_r|].
  assert (E2 : a mod 4 = 2) by (Z.div_mod_to_equations; lia).
  pose proof (fill_icache040_ok cs (u32 (a + 4)) s1 (proj1 Hf1) (u32_range _)) as H2.
  destruct (fill_icache040 ce_cachable cs (u32 (a + 4)) s1) as [v2 s2]. destruct H2 as [-> Hf2].
  split; [|exact (fetched_trans _ _ _ Hf1 Hf2)].
  rewrite (wanted_fetched s s1 _ Hf1), wanted_aligned by apply u32_range. rewrite u32_small by (unfold is_u32; Z.div_mod_to_equations; lia).
  rewrite E2. replace ((a + 4) mod 4) with 2 by (Z.div_mod_to_equations; lia). replace (a + 4 - 2) with (a + 2) by lia.
  rewrite !get_long_words. replace (a - 2 + 2) with a by lia.
  pose proof (get_word_u16 (kmem s) (a - 2)). pose proof (get_word_u16 (kmem s) a).
  pose proof (get_word_u16 (kmem s) (a + 2)). pose proof (get_word_u16 (kmem s) (a + 2 + 2)). unfold is_u16 in *.
  rewrite Z.shiftr_div_pow2, Z.shiftl_mul_pow2 by lia. change (2 ^ 16) with 65536.
  rewrite Z.div_add_l, Z.div_small, Z.add_0_r by lia.
  replace (u32 _) with (get_word (kmem s) a << 16) by (rewrite Z.shiftl_mul_pow2 by lia; change (2 ^ 16) with 65536; word).
  by rewrite lor_shl_add by lia.
Qed.

Lemma icache_word_ok cs a s : ic_inv s -> is_u32 a -> a mod 2 = 0 ->
  let '(v, s') := get_word_icache040 ce_cachable cs a s in u16 v = get_word (kmem s) a /\ fetched s s'.
Proof.
  intros Hs Hu He. unfold get_word_icache040. pose proof (fill_icache040_ok cs a s Hs Hu) as H1.
  destruct (fill_icache040 ce_cachable cs a s) as [v1 s1]. destruct H1 as [-> Hf1]. split; [|done].
  unfold truth. rewrite land_2_even, wanted_aligned, get_long_words by done.
  pose proof (get_word_u16 (kmem s) (a - a mod 4)). pose proof (get_word_u16 (kmem s) (a - a mod 4 + 2)). unfold is_u16 in *.
  destruct (Z.eqb_spec (a mod 4) 0) as [E|E]; cbn [negb].
  - rewrite E, Z.sub_0_r in *. rewrite Z.shiftr_div_pow2 by lia. change (2 ^ 16) with 65536. word.
  - assert (E2 : a mod 4 = 2) by (Z.div_mod_to_equations; lia). rewrite E2 in *. rewrite Z.shiftr_0_r.
    replace (a - 2 + 2) with a in * by lia. word.
Qed.
End Ins.

(** Instruction fetches through the cache deliver memory.  When the valid
    lines and the prefetch buffer agree with memory, a long fetch at an even
    address returns the long word there and a word fetch the word (in its low
    half), for any cache mode, any CACR and any replacement state; memory is
    not changed and the agreement is kept. *)
Theorem icache_delivers_memory {M} `{BusLaws M} (ce_cachable : Z -> Z) cs a (s : caches M) :
  ic_inv s -> 0 <= a <= 2 ^ 32 - 4 -> a mod 2 = 0 ->
  (let '(v, s') := get_long_icache040 ce_cachable cs a s in
   v = get_long (kmem s) a /\ kmem s' = kmem s /\ ic_inv s')
  /\ (let '(v, s') := get_word_icache040 ce_cachable cs a s in
      u16 v = get_word (kmem s) a /\ kmem s' = kmem s /\ ic_inv s').
Proof.
  intros Hs Ha He. pose proof (icache_long_ok ce_cachable cs a s Hs Ha He) as HL.
  change (2 ^ 32) with 4294967296 in Ha.
  pose proof (icache_word_ok ce_cachable cs a s Hs ltac:(unfold is_u32; lia) He) as HW.
  destruct (get_long_icache040 _ _ _ _), (get_word_icache040 _ _ _ _).
  destruct HL as [-> (? & ? & _)], HW as [-> (? & ? & _)]. done.
Qed.

(** ** After CACR was written, and after invalidation *)
Section Reset.
Context {M : Type} `{BusLaws M} (p : cache_prefs).
Implicit Types s : caches M.

Lemma set_geometry_ok s : geom_ok (set_geometry p s) /\ igeom_ok (set_geometry p s).
Proof.
  unfold set_geometry. split; split; cbn; unfold sets_for; repeat case_match; auto.
Qed.

Lemma iline_list s i w : length (icaches040 s) = 512%nat -> 0 <= i < 128 -> 0 <= w < 4 -> iline s i w ∈ icaches040 s.
Proof.
  intros Hl Hi Hw. unfold iline, cpos, CACHELINES040. apply (list_elem_of_lookup_2 _ (Z.to_nat (4 * i + w))).
  apply list_lookup_lookup_total_lt. lia.
Qed.

(** An invalidated cache is coherent with any memory. *)
Lemma invalidated_ok s : 68040 <= kp_cpu_model p -> geom_ok s -> length (dcaches040 s) = 512%nat ->
  Forall wf_line (dcaches040 s) ->
  let s' := invalidate_cpu_data_caches p s in
  dc_inv s' /\ forall b, is_u32 b -> view s' b = get_byte (kmem s) b.
Proof.
  intros Hp Hg Hl Hwf. cbn zeta. unfold invalidate_cpu_data_caches.
  rewrite (proj2 (Z.eqb_neq (kp_cpu_model p) 68030)), (proj2 (Z.leb_le 68040 _)) by lia.
  set (s' := {| s with dcachelinecnt := _; dcaches040 := _ |}).
  assert (Hd : forall i w, 0 <= i < 128 -> 0 <= w < 4 -> wf_line (dline s' i w) /\ c_valid (dline s' i w) = false).
  { intros i w Hi Hw. unfold dline, cpos, CACHELINES040, s', invalidate_lines. cbn [dcaches040].
    rewrite (list_lookup_total_fmap clear_valid (dcaches040 s)) by lia. split; [|done].
    pose proof (list_lookup_lookup_total_lt (dcaches040 s) (Z.to_nat (4 * i + w)) ltac:(lia)) as Hlk.
    exact (Forall_lookup_1 _ _ _ _ Hwf Hlk). }
  assert (Hs' : dc_inv s').
  { split; [by destruct Hg|cbn; unfold invalidate_lines; by rewrite length_fmap| |].
    - intros i w Hi Hw. destruct (Hd i w Hi Hw) as [? Hv]. split; [done|..]; by rewrite Hv.
    - intros i w w' Hi Hw _. by rewrite (proj2 (Hd i w Hi Hw)). }
  split; [done|]. intros b Hb. change (kmem s) with (kmem s'). apply view_none; [done|done|]. intros i w (Hi & Hw & Hv & _).
  by rewrite (proj2 (Hd i w Hi Hw)) in Hv.
Qed.
End Reset.

(** ** Defects of the flush routines *)
(** On the 68040 and 68060 [cpu_invalidate_cache], called when host devices
    have changed guest memory, does nothing: it passes the cache selector 0,
    which selects neither cache. *)
Theorem cpu_invalidate_cache_inert {M} `{Bus M} (p : cache_prefs) fuel addr size (s : caches M) :
  68040 <= kp_cpu_model p -> cpu_invalidate_cache p fuel addr size s = s.
Proof.
  intros Hp. unfold cpu_invalidate_cache. destruct (cpu_data_cache p); [|done]. cbn [negb].
  rewrite (proj2 (Z.eqb_neq (kp_cpu_model p) 68030)), (proj2 (Z.leb_le 68040 _)) by lia.
  generalize (u32 (addr + size)). intros e. revert addr.
  induction fuel as [|n IH]; intros a; cbn [invalidate_loop]; [done|]. case_match; [|done]. apply IH.
Qed.

Section Defects.
Context {M : Type} `{BusLaws M} (p : cache_prefs).
Implicit Types s : caches M.

(** The parts of the state that belong to instructions. *)
Definition ins_part s := (icaches040 s, cacheisets04060mask s, cacheitag04060mask s).

Lemma push_line_ins i w wt inv s : ins_part (dcache040_push_line p i w wt inv s) = ins_part s.
Proof. unfold dcache040_push_line. destruct (c_gdirty _); [destruct (push_slots _ _ _ _)|]; by destruct inv. Qed.

Lemma foldl_ins {X} (g : caches M -> X -> caches M) xs s :
  (forall s x, ins_part (g s x) = ins_part s) -> ins_part (foldl g s xs) = ins_part s.
Proof. intros Hg. revert s. induction xs as [|x xs IH]; intros s; cbn [foldl]; [done|]. by rewrite IH. Qed.

Lemma flush_step_ins k push pushinv a s w : (k = true -> push = true) -> ins_part (flush_step p k push pushinv a s w) = ins_part s.
Proof.
  intros Hk. unfold flush_step. case_match; [|done]. destruct push; [apply push_line_ins|].
  destruct k; [by discriminate Hk|done].
Qed.

Lemma flush_range_ins n k push pushinv a s : (k = true -> push = true) ->
  ins_part (snd (flush_range p n k push pushinv a s)) = ins_part s.
Proof.
  intros Hk. revert a s. induction n as [|n IH]; intros a s; cbn [flush_range]; [done|].
  rewrite IH. apply foldl_ins. intros; by apply flush_step_ins.
Qed.

Lemma pass_ins k cache scope push pushinv x : scope <> 3 -> (k = true -> push = true) ->
  ins_part (flush_pass p k cache scope push pushinv x).2 = ins_part x.2.
Proof.
  intros Hsc Hk. unfold flush_pass. destruct x as [a s]. destruct (_ =? 0); [done|].
  rewrite (proj2 (Z.eqb_neq scope 3) Hsc). by apply flush_range_ins.
Qed.
End Defects.

(** CPUSHL and CPUSHP on the instruction cache invalidate no instruction
    line: whatever the address and the state, the instruction cache afterwards is
    the one before (the routine pushes a data line at the instruction cache's
    index instead). *)
Theorem cpush_ins_inert {M} `{BusLaws M} (p : cache_prefs) scope addr pushinv (s : caches M) :
  scope <> 3 -> icaches040 (flush_cpu_caches_040_2 p 2 scope addr true pushinv s) = icaches040 s.
Proof.
  intros Hsc. unfold flush_cpu_caches_040_2. cbn [truth Z.land Pos.land Z.eqb negb andb].
  set (s0 := {| s with prefetch020addr := _ |}).
  pose proof (pass_ins p true 2 scope true pushinv (flush_pass p false 2 scope true pushinv (addr, s0)) Hsc ltac:(done)) as E2.
  rewrite (pass_ins p false 2 scope true pushinv (addr, s0) Hsc ltac:(done)) in E2.
  by injection E2.
Qed.

Section Both.
Context {M : Type} `{BusLaws M} (p : cache_prefs).
Implicit Types s : caches M.

(** A step of an instruction-line invalidation touches its own set only. *)
Lemma cinv_step_other pushinv a s w i w' : length (icaches040 s) = 512%nat ->
  0 <= (a >> 4) .& cacheisets04060mask s < 128 -> 0 <= w < 4 ->
  0 <= i < 128 -> 0 <= w' < 4 -> i <> (a >> 4) .& cacheisets04060mask s ->
  let s' := flush_step p true false pushinv a s w in
  iline s' i w' = iline s i w' /\ length (icaches040 s') = 512%nat /\ cacheisets04060mask s' = cacheisets04060mask s.
Proof.
  intros Hl Hx Hw Hi Hw' Hne. cbn zeta. unfold flush_step. case_match; [|done].
  split_and!; [|cbn; by rewrite length_insert|done]. rewrite iline_set by done.
  by rewrite (proj2 (Z.eqb_neq _ _)) by done.
Qed.

Lemma cinv_ways_other pushinv a ws s i w' : Forall (fun w => 0 <= w < 4) ws -> length (icaches040 s) = 512%nat ->
  0 <= (a >> 4) .& cacheisets04060mask s < 128 -> 0 <= i < 128 -> 0 <= w' < 4 -> i <> (a >> 4) .& cacheisets04060mask s ->
  iline (foldl (flush_step p true false pushinv a) s ws) i w' = iline s i w'.
Proof.
  intros Hws. revert s. induction Hws as [|w ws Hw _ IH]; intros s Hl Hx Hi Hw' Hne; cbn [foldl]; [done|].
  destruct (cinv_step_other pushinv a s w i w' Hl Hx Hw Hi Hw' Hne) as (E & Hl' & Em).
  rewrite IH, E by (rewrite ?Em; done). done.
Qed.

(** The data pass leaves the address one line further. *)
Lemma data_pass_addr addr push pushinv s : is_u32 addr ->
  (flush_pass p false 3 1 push pushinv (addr, s)).1 = u32 (blk addr + 16).
Proof. intros Ha. unfold flush_pass. cbn -[u32 Z.lnot]. by rewrite <- (base_block addr). Qed.

Lemma next_set s a : igeom_ok s -> is_u32 a ->
  (a >> 4) .& cacheisets04060mask s <> (u32 (blk a + 16) >> 4) .& cacheisets04060mask s.
Proof.
  intros [Hs Hm _] Ha. rewrite Hm, !Z.shiftr_div_pow2 by lia. change (2 ^ 4) with 16. unfold blk, u32, is_u32 in *.
  destruct Hs as [-> | ->]; [change (64 - 1) with (Z.ones 6)|change (128 - 1) with (Z.ones 7)];
    rewrite !Z.land_ones by lia; [change (2 ^ 6) with 64|change (2 ^ 7) with 128]; Z.div_mod_to_equations; lia.
Qed.
End Both.

(** CINVL and CPUSHL on both caches at once miss the instruction cache: the
    data pass has advanced the address, so the instruction pass works on the next line,
    and a valid instruction line of the address given is still valid
    afterwards. *)
Theorem cinvl_both_misses {M} `{BusLaws M} (p : cache_prefs) addr push pushinv (s : caches M) w :
  cpu_data_cache p = true -> is_u32 addr -> igeom_ok s -> length (icaches040 s) = 512%nat -> 0 <= w < 4 ->
  let i := (addr >> 4) .& cacheisets04060mask s in
  line_hit (iline s i) (addr .& cacheitag04060mask s) w = true ->
  line_hit (iline (flush_cpu_caches_040_2 p 3 1 addr push pushinv s) i) (addr .& cacheitag04060mask s) w = true.
Proof.
  intros Hp Ha Hg Hl Hw i Hh. unfold flush_cpu_caches_040_2. rewrite Hp. cbn [negb andb]. rewrite andb_false_r.
  change (truth (3 .& 2)) with true. cbn iota. set (s0 := {| s with prefetch020addr := _ |}).
  pose proof (pass_ins p false 3 1 push pushinv (addr, s0) ltac:(done) ltac:(done)) as E.
  pose proof (data_pass_addr p addr push pushinv s0 Ha) as Ea.
  destruct (flush_pass p false 3 1 push pushinv (addr, s0)) as [a1 s1]. cbn [fst snd] in *. subst a1.
  injection E as El Em Et. destruct push.
  { pose proof (pass_ins p true 3 1 true pushinv (u32 (blk addr + 16), s1) ltac:(done) ltac:(done)) as E.
    assert (El2 : icaches040 (flush_pass p true 3 1 true pushinv (u32 (blk addr + 16), s1)).2 = icaches040 s1)
      by exact (f_equal (fun x => x.1.1) E).
    unfold line_hit, iline in *. rewrite El2, El. exact Hh. }
  assert (Hg1 : 0 <= i < 128) by apply (i_index_tag s addr Hg Ha).
  pose proof (i_index_tag s (u32 (blk addr + 16)) Hg (u32_range _)) as [Hx _].
  assert (Eb : u32 (blk addr + 16) .& u32 (Z.lnot 15) = u32 (blk addr + 16)).
  { rewrite base_block by apply u32_range. unfold blk, u32, is_u32 in *. Z.div_mod_to_equations; lia. }
  unfold flush_pass. change (3 .& 2 =? 0) with false. change (1 =? 3) with false. change (1 =? 2) with false. cbn iota.
  change (Z.to_nat (16 / 16)) with 1%nat. change (16 - 1) with 15. rewrite Eb. cbn [flush_range snd].
  unfold line_hit in *. rewrite (cinv_ways_other p pushinv _ ways s1 i w ways_range); rewrite ?Em; try done.
  - unfold iline. rewrite El. exact Hh.
  - by rewrite El.
  - by apply next_set.
Qed.

(** ** A small machine *)
(** A 68040 with both caches on and empty, over a little RAM. *)
Definition kprefs : cache_prefs := mk_cache_prefs 68040 true true false 0.
Definition kram : gmap Z Z := put_long 0x1000 0x11223344 (put_long 0x1004 0x55667788 ∅).
Definition kcpu0 : cpu := let r := ctl0 in {| cpu0 with rctl := {| r with cacr := 0x80008000 |} |}.
Definition kempty : caches (gmap Z Z) :=
  mk_caches (replicate 512 inhabitant) (replicate 512 inhabitant) 0 0 0 0 0 0 0 0 0 0
    0xffffffff [0; 0; 0; 0] 0xffffffff [] [] [] kcpu0 [] kram.
Definition kboot : caches (gmap Z Z) := invalidate_cpu_data_caches kprefs (set_geometry kprefs kempty).

Lemma kboot_ok : dc_inv kboot /\ sees kboot (get_byte kram).
Proof.
  apply (invalidated_ok kprefs (set_geometry kprefs kempty)); [done|apply set_geometry_ok|done|].
  cbn [dcaches040 set_geometry]. apply Forall_replicate. split_and!; [done| |done].
  repeat (apply Forall_cons; split; [unfold is_u32; lia|]). by apply Forall_nil.
Qed.

Lemma kboot_enabled : enabled kboot.
Proof. done. Qed.

(** Copyback writes across a line border, read back bytewise, then pushed. *)
Definition kops : list mem_op :=
  [MWrite 2 0xE3 0x100E 0xDEADBEEF; MRead 1 0xE3 0x1010; MRead 2 0x10 0x1002; MPush 3 0 true; MRead 0 0xE3 0x100F].

Lemma dcache_transparent_witness :
  (cached_run kprefs (fun _ => 0xFF) kops kboot).1 = [0; 0xBEEF; 0x33445566; 0; 0xAD].
Proof.
  destruct kboot_ok as [Hi Hv].
  rewrite (proj1 (dcache_transparent kprefs (fun _ => 0xFF) kops kboot (get_byte kram) Hi kboot_enabled
    ltac:(repeat constructor; (lia || done)) Hv)).
  vm_compute. reflexivity.
Defined.

(** After a copyback write memory is stale; CPUSHA updates it. *)
Definition kwritten : caches (gmap Z Z) := put_byte_cache_040 kprefs (fun _ => 0xFF) 0xE3 0x1001 0xAB kboot.

Lemma cpusha_updates_memory_witness :
  get_byte (kmem kwritten) 0x1001 = 0x22 /\
  get_byte (kmem (flush_cpu_caches_040_2 kprefs 1 3 0 true true kwritten)) 0x1001 = 0xAB.
Proof.
  split; [vm_compute; reflexivity|]. destruct kboot_ok as [Hi _].
  destruct (put_byte_writes kprefs (fun _ => 0xFF) 0xE3 0x1001 0xAB kboot Hi kboot_enabled ltac:(done)) as (Hi' & _ & _).
  destruct (cpusha_updates_memory kprefs 0 true kwritten 0x1001 Hi' eq_refl ltac:(done)) as (E & _ & _).
  rewrite E. vm_compute. reflexivity.
Defined.

Lemma kboot_ic : ic_inv kboot.
Proof.
  split; [apply (set_geometry_ok kprefs kempty)|done|done|done|].
  intros i w Hi Hw Hv. exfalso. revert Hv. unfold iline, cpos, CACHELINES040.
  change (icaches040 kboot) with (replicate 512 (inhabitant (A := cline))).
  rewrite lookup_total_replicate_2 by lia. done.
Qed.

Lemma icache_delivers_memory_witness :
  (get_long_icache040 (fun _ => 0xFF) 0xE3 0x1002 kboot).1 = 0x33445566.
Proof.
  pose proof (icache_delivers_memory (fun _ => 0xFF) 0xE3 0x1002 kboot kboot_ic ltac:(lia) eq_refl) as [HL _].
  destruct (get_long_icache040 (fun _ => 0xFF) 0xE3 0x1002 kboot) as [v s']. destruct HL as [-> _].
  vm_compute. reflexivity.
Defined.

Lemma cpu_invalidate_cache_inert_witness : cpu_invalidate_cache kprefs 4 0x1000 32 kwritten = kwritten.
Proof. apply cpu_invalidate_cache_inert. done. Defined.

(** The state after the fetch of $1000, whose line is now cached. *)
Definition kfetched : caches (gmap Z Z) := (fill_icache040 (fun _ => 0xFF) 0xE3 0x1000 kboot).2.

Lemma cpush_ins_inert_witness :
  c_valid (iline (flush_cpu_caches_040_2 kprefs 2 1 0x1000 true true kfetched) 0 0) = true.
Proof. unfold iline. rewrite (cpush_ins_inert kprefs 1 0x1000 true kfetched); [vm_compute; reflexivity|done]. Defined.

Lemma cinvl_both_misses_witness :
  line_hit (iline (flush_cpu_caches_040_2 kprefs 3 1 0x1000 false true kfetched) 0) 0x1000 0 = true.
Proof.
  apply (cinvl_both_misses kprefs 0x1000 false true kfetched 0); [done|done| | |lia|vm_compute; reflexivity].
  - split; [left| |]; vm_compute; reflexivity.
  - vm_compute. reflexivity.
Defined.
