(* ===== verification/Bitfield.v ===== *)
(** * Bitfield: BFxxx memory operands ([get_bitfield], [put_bitfield] and
    their [x_] variants, [cpu/newcpu_common.cpp])

    A field of 1 to 32 bits at any bit offset is read with one or two
    accesses of at most five bytes and returned left-aligned; [bdata] keeps
    the surrounding bits for the write-back.  The specification views memory
    as a string of bits, most significant bit of each byte first. *)

From S2P Require Import Prelude Flags Cpu.
From Stdlib Require Import ZArith Lia Bool.
From stdpp Require Import base list gmap.
Open Scope Z_scope.
Open Scope cint_scope.

Section Bitfield.
Context {M : Type} `{BusLaws M}.

(** ** The code *)

Definition bf_mask (width : Z) : Z := u32 (0xffffffff << (32 - width)).

(** The switch on the number of bytes touched.  The fourth component of the
    case analysis is the [default] branch of the source ([res = 0]). *)
Definition get_bitfield (mem : M) (src : Z) (bdata : Z * Z) (offset width : Z) : Z * (Z * Z) :=
  let offset := offset .& 7 in
  let mask := bf_mask width in
  match (offset + width + 7) >> 3 with
  | 1 =>
    let tmp := get_byte mem src in
    (u32 (tmp << (24 + offset)),
     (tmp .& u32 (Z.lnot (mask >> (24 + offset))), bdata.2))
  | 2 =>
    let tmp := get_word mem src in
    (u32 (tmp << (16 + offset)),
     (tmp .& u32 (Z.lnot (mask >> (16 + offset))), bdata.2))
  | 3 =>
    let tmp := get_word mem src in
    let res := u32 (tmp << (16 + offset)) in
    let b0 := tmp .& u32 (Z.lnot (mask >> (16 + offset))) in
    let tmp := get_byte mem (src + 2) in
    (res .| u32 (tmp << (8 + offset)),
     (b0, tmp .& u32 (Z.lnot (mask >> (8 + offset)))))
  | 4 =>
    let tmp := get_long mem src in
    (u32 (tmp << offset), (tmp .& u32 (Z.lnot (mask >> offset)), bdata.2))
  | 5 =>
    let tmp := get_long mem src in
    let res := u32 (tmp << offset) in
    let b0 := tmp .& u32 (Z.lnot (mask >> offset)) in
    let tmp := get_byte mem (src + 4) in
    (res .| (tmp >> (8 - offset)),
     (b0, tmp .& u32 (Z.lnot (u32 (mask << (8 - offset))))))
  | _ => (0, bdata)
  end.

Definition put_bitfield (dst : Z) (bdata : Z * Z) (val offset width : Z) (mem : M) : M :=
  let offset := (offset .& 7) + width in
  match (offset + 7) >> 3 with
  | 1 => put_byte dst (bdata.1 .| u32 (val << (8 - offset))) mem
  | 2 => put_word dst (bdata.1 .| u32 (val << (16 - offset))) mem
  | 3 =>
    let mem := put_word dst (bdata.1 .| (val >> (offset - 16))) mem in
    put_byte (dst + 2) (bdata.2 .| u32 (val << (24 - offset))) mem
  | 4 => put_long dst (bdata.1 .| u32 (val << (32 - offset))) mem
  | 5 =>
    let mem := put_long dst (bdata.1 .| (val >> (offset - 32))) mem in
    put_byte (dst + 4) (bdata.2 .| u32 (val << (40 - offset))) mem
  | _ => mem
  end.

(** The [x_] variants read both parts before computing; their accessors
    [x_cp_get_word], ... are the same bus. *)
Definition x_get_bitfield (mem : M) (src : Z) (bdata : Z * Z) (offset width : Z) : Z * (Z * Z) :=
  let offset := offset .& 7 in
  let mask := bf_mask width in
  match (offset + width + 7) >> 3 with
  | 1 =>
    let tmp1 := get_byte mem src in
    (u32 (tmp1 << (24 + offset)),
     (tmp1 .& u32 (Z.lnot (mask >> (24 + offset))), bdata.2))
  | 2 =>
    let tmp1 := get_word mem src in
    (u32 (tmp1 << (16 + offset)),
     (tmp1 .& u32 (Z.lnot (mask >> (16 + offset))), bdata.2))
  | 3 =>
    let tmp1 := get_word mem src in
    let tmp2 := get_byte mem (src + 2) in
    (u32 (tmp1 << (16 + offset)) .| u32 (tmp2 << (8 + offset)),
     (tmp1 .& u32 (Z.lnot (mask >> (16 + offset))),
      tmp2 .& u32 (Z.lnot (mask >> (8 + offset)))))
  | 4 =>
    let tmp1 := get_long mem src in
    (u32 (tmp1 << offset), (tmp1 .& u32 (Z.lnot (mask >> offset)), bdata.2))
  | 5 =>
    let tmp1 := get_long mem src in
    let tmp2 := get_byte mem (src + 4) in
    (u32 (tmp1 << offset) .| (tmp2 >> (8 - offset)),
     (tmp1 .& u32 (Z.lnot (mask >> offset)),
      tmp2 .& u32 (Z.lnot (u32 (mask << (8 - offset))))))
  | _ => (0, bdata)
  end.

Definition x_put_bitfield (dst : Z) (bdata : Z * Z) (val offset width : Z) (mem : M) : M :=
  let offset := (offset .& 7) + width in
  match (offset + 7) >> 3 with
  | 1 => put_byte dst (bdata.1 .| u32 (val << (8 - offset))) mem
  | 2 => put_word dst (bdata.1 .| u32 (val << (16 - offset))) mem
  | 3 =>
    let mem := put_word dst (bdata.1 .| (val >> (offset - 16))) mem in
    put_byte (dst + 2) (bdata.2 .| u32 (val << (24 - offset))) mem
  | 4 => put_long dst (bdata.1 .| u32 (val << (32 - offset))) mem
  | 5 =>
    let mem := put_long dst (bdata.1 .| (val >> (offset - 32))) mem in
    put_byte (dst + 4) (bdata.2 .| u32 (val << (40 - offset))) mem
  | _ => mem
  end.

(** ** Memory as a bit string *)

(** Bit [i] of the string that starts at byte address [a]. *)
Definition membit (mem : M) (a i : Z) : bool :=
  Z.testbit (get_byte mem (a + i / 8)) (7 - i mod 8).

Lemma testbit_byte mem a i :
  Z.testbit (get_byte mem a) i = (0 <=? i) && (i <? 8) && membit mem a (7 - i).
Proof.
  destruct (Z.leb_spec 0 i); [|by rewrite Z.testbit_neg_r].
  destruct (Z.ltb_spec i 8); cbn [andb].
  - unfold membit. rewrite Z.div_small, Z.mod_small, Z.add_0_r by lia. f_equal. lia.
  - rewrite <- (u8_small (get_byte mem a)) by apply get_byte_range.
    unfold u8. change 256 with (2 ^ 8). apply Z.mod_pow2_bits_high. lia.
Qed.

Lemma get_word_range mem a : is_u16 (get_word mem a).
Proof.
  rewrite get_word_bytes. pose proof (get_byte_range mem a).
  pose proof (get_byte_range mem (a + 1)). unfold is_u8, is_u16 in *. lia.
Qed.

Lemma membit_shift mem a k i : membit mem (a + k) i = membit mem a (8 * k + i).
Proof.
  unfold membit. replace (8 * k + i) with (i + k * 8) by lia.
  rewrite Z.div_add, Z_mod_plus_full by lia. f_equal. f_equal. lia.
Qed.

Lemma testbit_word mem a i :
  Z.testbit (get_word mem a) i = (0 <=? i) && (i <? 16) && membit mem a (15 - i).
Proof.
  destruct (Z.leb_spec 0 i); [|by rewrite Z.testbit_neg_r].
  rewrite get_word_bytes. change 256 with (2 ^ 8).
  rewrite testbit_concat by (try apply (get_byte_range mem (a + 1)); lia).
  rewrite !testbit_byte, membit_shift.
  destruct (Z.ltb_spec i 8), (Z.ltb_spec i 16), (Z.leb_spec 0 i), (Z.leb_spec 0 (i - 8)),
    (Z.ltb_spec (i - 8) 8); cbn [andb]; try lia; try done; f_equal; lia.
Qed.

Lemma testbit_long mem a i :
  Z.testbit (get_long mem a) i = (0 <=? i) && (i <? 32) && membit mem a (31 - i).
Proof.
  destruct (Z.leb_spec 0 i); [|by rewrite Z.testbit_neg_r].
  rewrite get_long_words. change 65536 with (2 ^ 16).
  rewrite testbit_concat by (try apply (get_word_range mem (a + 2)); lia).
  rewrite !testbit_word, membit_shift.
  destruct (Z.ltb_spec i 16), (Z.ltb_spec i 32), (Z.leb_spec 0 i), (Z.leb_spec 0 (i - 16)),
    (Z.ltb_spec (i - 16) 16); cbn [andb]; try lia; try done; f_equal; lia.
Qed.

(** What a store does to the bit string at base [a] (no address wraps for
    [i < 2^35]). *)
Lemma membit_put_byte mem a k v i : 0 <= k < 2 ^ 32 -> 0 <= i < 2 ^ 35 ->
  membit (put_byte (a + k) v mem) a i =
  if (8 * k <=? i) && (i <? 8 * k + 8) then Z.testbit v (8 * k + 7 - i) else membit mem a i.
Proof.
  intros Hk Hi. unfold membit at 1. rewrite get_put_byte.
  assert (Hm : 0 <= i mod 8 < 8) by (apply Z.mod_pos_bound; lia).
  assert (Hd : i = 8 * (i / 8) + i mod 8) by (apply Z.div_mod; lia).
  assert (Hd2 : 0 <= i / 8 < 2 ^ 32) by (split; [apply Z.div_pos|apply Z.div_lt_upper_bound]; lia).
  destruct (Z.eqb_spec (u32 (a + k)) (u32 (a + i / 8))) as [E|E].
  - assert (k = i / 8) by (unfold u32 in E; Z.div_mod_to_equations; lia).
    destruct (Z.leb_spec (8 * k) i), (Z.ltb_spec i (8 * k + 8)); try lia. cbn [andb].
    unfold u8. change 256 with (2 ^ 8). rewrite Z.mod_pow2_bits_low by lia. f_equal. lia.
  - assert (k <> i / 8) by congruence.
    destruct (Z.leb_spec (8 * k) i), (Z.ltb_spec i (8 * k + 8)); try lia; cbn [andb]; done.
Qed.

Lemma membit_put_word mem a k v i : 0 <= k < 2 ^ 32 - 1 -> 0 <= i < 2 ^ 35 ->
  membit (put_word (a + k) v mem) a i =
  if (8 * k <=? i) && (i <? 8 * k + 16) then Z.testbit v (8 * k + 15 - i) else membit mem a i.
Proof.
  intros Hk Hi. rewrite put_word_bytes, <- Z.add_assoc, !membit_put_byte by lia.
  destruct (Z.leb_spec (8 * (k + 1)) i), (Z.ltb_spec i (8 * (k + 1) + 8)),
    (Z.leb_spec (8 * k) i), (Z.ltb_spec i (8 * k + 8)), (Z.ltb_spec i (8 * k + 16));
    cbn [andb]; try lia; try done; rewrite ?Z.shiftr_spec by lia; f_equal; lia.
Qed.

Lemma membit_put_long mem a k v i : 0 <= k < 2 ^ 32 - 3 -> 0 <= i < 2 ^ 35 ->
  membit (put_long (a + k) v mem) a i =
  if (8 * k <=? i) && (i <? 8 * k + 32) then Z.testbit v (8 * k + 31 - i) else membit mem a i.
Proof.
  intros Hk Hi. rewrite put_long_words, <- Z.add_assoc, !membit_put_word by lia.
  destruct (Z.leb_spec (8 * (k + 2)) i), (Z.ltb_spec i (8 * (k + 2) + 16)),
    (Z.leb_spec (8 * k) i), (Z.ltb_spec i (8 * k + 16)), (Z.ltb_spec i (8 * k + 32));
    cbn [andb]; try lia; try done; rewrite ?Z.shiftr_spec by lia; f_equal; lia.
Qed.

(** ** Correctness *)

Lemma bf_offset_range offset : 0 <= offset .& 7 < 8.
Proof. change 7 with (Z.ones 3). rewrite Z.land_ones by lia. apply Z.mod_pos_bound. lia. Qed.

Lemma testbit_mask width i : 1 <= width <= 32 ->
  Z.testbit (bf_mask width) i = (32 - width <=? i) && (i <? 32).
Proof.
  intros. unfold bf_mask. rewrite testbit_u32. change 0xffffffff with (Z.ones 32).
  destruct (Z.leb_spec 0 i) as [Hi|Hi].
  - rewrite Z.shiftl_spec, Z.testbit_ones by lia.
    destruct (Z.leb_spec 0 (i - (32 - width))), (Z.ltb_spec (i - (32 - width)) 32),
      (Z.leb_spec (32 - width) i), (Z.ltb_spec i 32); cbn; lia || done.
  - rewrite Z.testbit_neg_r by lia. destruct (Z.leb_spec (32 - width) i); [lia|done].
Qed.

(** Reading a bit of a store expression: push [Z.testbit] to the atoms. *)
Ltac push_bits :=
  repeat first
    [ rewrite Z.lor_spec | rewrite Z.land_spec | rewrite testbit_u32
    | rewrite Z.lnot_spec by lia | rewrite Z.shiftl_spec by lia | rewrite Z.shiftr_spec by lia
    | rewrite testbit_mask by lia | rewrite testbit_byte | rewrite testbit_word
    | rewrite testbit_long ].

Ltac split_cmp :=
  repeat match goal with
         | |- context [?a <=? ?b] => destruct (Z.leb_spec a b); try lia
         | |- context [?a <? ?b] => destruct (Z.ltb_spec a b); try lia
         end;
  cbn [andb orb negb]; rewrite ?andb_true_r, ?andb_false_r, ?orb_false_r, ?orb_true_r.

(** The number of bytes a field touches. *)
Lemma bf_bytes_cases off width : 0 <= off < 8 -> 1 <= width <= 32 ->
  let n := (off + width + 7) >> 3 in
  (n = 1 /\ off + width <= 8) \/ (n = 2 /\ 8 < off + width <= 16) \/
  (n = 3 /\ 16 < off + width <= 24) \/ (n = 4 /\ 24 < off + width <= 32) \/
  (n = 5 /\ 32 < off + width <= 39).
Proof.
  intros. subst n. rewrite Z.shiftr_div_pow2 by lia. change (2 ^ 3) with 8.
  Z.div_mod_to_equations. lia.
Qed.

Lemma get_bitfield_bit mem src bdata offset width j :
  1 <= width <= 32 -> 0 <= j < width ->
  Z.testbit (get_bitfield mem src bdata offset width).1 (31 - j)
  = membit mem src ((offset .& 7) + j).
Proof.
  intros Hw Hj. unfold get_bitfield. pose proof (bf_offset_range offset) as Ho.
  set (off := offset .& 7) in *. clearbody off.
  destruct (bf_bytes_cases off width Ho Hw) as [[-> ?]|[[-> ?]|[[-> ?]|[[-> ?]|[-> ?]]]]];
    cbn [fst]; push_bits; rewrite ?membit_shift; split_cmp; f_equal; lia.
Qed.

(** Bits above the field of the value written back. *)
Lemma testbit_val val width i : 0 <= val < 2 ^ width -> 0 <= width -> width <= i ->
  Z.testbit val i = false.
Proof.
  intros Hv Hw Hi. rewrite <- (Z.mod_small val (2 ^ width)) by lia.
  apply Z.mod_pow2_bits_high. lia.
Qed.

Lemma membit_put_byte0 mem a v i : 0 <= i < 2 ^ 35 ->
  membit (put_byte a v mem) a i = if i <? 8 then Z.testbit v (7 - i) else membit mem a i.
Proof.
  intros. pose proof (membit_put_byte mem a 0 v i) as E. rewrite Z.add_0_r in E.
  rewrite E by lia. split_cmp; f_equal; lia.
Qed.
Lemma membit_put_word0 mem a v i : 0 <= i < 2 ^ 35 ->
  membit (put_word a v mem) a i = if i <? 16 then Z.testbit v (15 - i) else membit mem a i.
Proof.
  intros. pose proof (membit_put_word mem a 0 v i) as E. rewrite Z.add_0_r in E.
  rewrite E by lia. split_cmp; f_equal; lia.
Qed.
Lemma membit_put_long0 mem a v i : 0 <= i < 2 ^ 35 ->
  membit (put_long a v mem) a i = if i <? 32 then Z.testbit v (31 - i) else membit mem a i.
Proof.
  intros. pose proof (membit_put_long mem a 0 v i) as E. rewrite Z.add_0_r in E.
  rewrite E by lia. split_cmp; f_equal; lia.
Qed.

Ltac bf_close val width :=
  repeat first [rewrite (Z.testbit_neg_r val) by lia | rewrite (testbit_val val width) by lia];
  rewrite ?orb_false_r, ?orb_false_l; try done; f_equal; lia.

Lemma put_bitfield_bit mem dst bdata val offset width i :
  1 <= width <= 32 -> 0 <= val < 2 ^ width -> 0 <= i < 2 ^ 35 ->
  membit (put_bitfield dst (get_bitfield mem dst bdata offset width).2 val offset width mem) dst i
  = if ((offset .& 7) <=? i) && (i <? (offset .& 7) + width)
    then Z.testbit val ((offset .& 7) + width - 1 - i) else membit mem dst i.
Proof.
  intros Hw Hv Hi. unfold get_bitfield, put_bitfield. pose proof (bf_offset_range offset) as Ho.
  set (off := offset .& 7) in *. clearbody off.
  destruct (bf_bytes_cases off width Ho Hw) as [[-> ?]|[[-> ?]|[[-> ?]|[[-> ?]|[-> ?]]]]];
    cbn [fst snd].
  all: rewrite ?membit_put_byte, ?membit_put_byte0, ?membit_put_word0, ?membit_put_long0 by lia.
  all: split_cmp; push_bits; rewrite ?membit_shift; split_cmp; bf_close val width.
Qed.

Lemma get_bitfield_high mem src bdata offset width i :
  1 <= width <= 32 -> 32 <= i ->
  Z.testbit (get_bitfield mem src bdata offset width).1 i = false.
Proof.
  intros Hw Hi. unfold get_bitfield. pose proof (bf_offset_range offset) as Ho.
  set (off := offset .& 7) in *. clearbody off.
  destruct (bf_bytes_cases off width Ho Hw) as [[-> ?]|[[-> ?]|[[-> ?]|[[-> ?]|[-> ?]]]]];
    cbn [fst]; push_bits; split_cmp; done.
Qed.

(** The [x_] variants compute the same thing. *)
Lemma x_get_bitfield_eq mem src bdata offset width :
  x_get_bitfield mem src bdata offset width = get_bitfield mem src bdata offset width.
Proof. done. Qed.
Lemma x_put_bitfield_eq dst bdata val offset width mem :
  x_put_bitfield dst bdata val offset width mem = put_bitfield dst bdata val offset width mem.
Proof. done. Qed.

(** [get_bitfield] returns the field in the most significant bits: shifted
    down it is the unsigned number whose bits are the [width] bits of memory
    that start [offset & 7] bits into [src], first bit most significant. *)
Lemma get_bitfield_spec mem src bdata offset width i :
  1 <= width <= 32 -> 0 <= i ->
  Z.testbit ((get_bitfield mem src bdata offset width).1 >> (32 - width)) i
  = (i <? width) && membit mem src ((offset .& 7) + (width - 1 - i)).
Proof.
  intros Hw Hi. rewrite Z.shiftr_spec by lia. destruct (Z.ltb_spec i width).
  - rewrite <- (get_bitfield_bit mem src bdata offset width) by lia.
    cbn [andb]. f_equal. lia.
  - apply get_bitfield_high; lia.
Qed.

(** C30: [put_bitfield], given the surrounding bits [get_bitfield] saved,
    replaces exactly the bits of the field by the value and keeps every other
    bit of the whole 32-bit address space. *)
Theorem put_bitfield_spec mem dst bdata val offset width i :
  1 <= width <= 32 -> 0 <= val < 2 ^ width -> 0 <= i < 2 ^ 35 ->
  membit (put_bitfield dst (get_bitfield mem dst bdata offset width).2 val offset width mem) dst i
  = if ((offset .& 7) <=? i) && (i <? (offset .& 7) + width)
    then Z.testbit val ((offset .& 7) + width - 1 - i) else membit mem dst i.
Proof. apply put_bitfield_bit. Qed.

(** A bit field written by [x_put_bitfield] is read back by
    [x_get_bitfield], for every offset and width. *)
Lemma bitfield_roundtrip mem dst bdata bdata' val offset width :
  1 <= width <= 32 -> 0 <= val < 2 ^ width ->
  let mem' := x_put_bitfield dst (x_get_bitfield mem dst bdata offset width).2 val offset width mem in
  (x_get_bitfield mem' dst bdata' offset width).1 >> (32 - width) = val.
Proof.
  intros Hw Hv mem'. subst mem'. rewrite !x_get_bitfield_eq, x_put_bitfield_eq.
  pose proof (bf_offset_range offset) as Ho.
  apply Z.bits_inj'. intros i Hi. rewrite Z.shiftr_spec by lia.
  destruct (Z.ltb_spec i width).
  - replace (i + (32 - width)) with (31 - (width - 1 - i)) by lia.
    rewrite get_bitfield_bit, put_bitfield_bit by lia. split_cmp. f_equal. lia.
  - rewrite get_bitfield_high by lia. symmetry. apply (testbit_val val width); lia.
Qed.
End Bitfield.

(** ** Witnesses *)
Definition bf_ram : gmap Z Z := <[1000 := 0xA5]> (<[1001 := 0x3C]> ∅).

Lemma get_bitfield_spec_witness :
  Z.testbit ((get_bitfield bf_ram 1000 (0, 0) 3 9).1 >> (32 - 9)) 2
  = (2 <? 9) && membit bf_ram 1000 ((3 .& 7) + (9 - 1 - 2)).
Proof. apply (get_bitfield_spec bf_ram 1000 (0, 0) 3 9 2); lia. Defined.

Lemma put_bitfield_spec_witness :
  membit (put_bitfield 1000 (get_bitfield bf_ram 1000 (0, 0) 3 9).2 0x155 3 9 bf_ram) 1000 4
  = if ((3 .& 7) <=? 4) && (4 <? (3 .& 7) + 9)
    then Z.testbit 0x155 ((3 .& 7) + 9 - 1 - 4) else membit bf_ram 1000 4.
Proof. apply (put_bitfield_spec bf_ram 1000 (0, 0) 0x155 3 9 4); lia. Defined.

Lemma bitfield_roundtrip_witness :
  (x_get_bitfield (x_put_bitfield 1000 (x_get_bitfield bf_ram 1000 (0, 0) 7 32).2
     0xDEADBEEF 7 32 bf_ram) 1000 (0, 0) 7 32).1 >> (32 - 32) = 0xDEADBEEF.
Proof. apply (bitfield_roundtrip bf_ram 1000 (0, 0) (0, 0) 0xDEADBEEF 7 32); lia. Defined.
