(* ===== verification/EffAddr.v ===== *)
(** * EffAddr: 68020+ indexed effective addresses
    ([get_disp_ea_020] and its four [x_] variants, [cpu/newcpu_common.cpp])

    The five functions are the same computation over different instruction
    fetch and memory read primitives; [disp_ea] is that computation, and the
    interface [IFetch] the fetch primitives it is given. *)

From S2P Require Import Prelude Flags Cpu.
From Stdlib Require Import ZArith Lia Bool.
From stdpp Require Import base list gmap.
Open Scope Z_scope.
Open Scope cint_scope.

(** ** Instruction fetch *)

(** The fetch primitives of the five cores: [next_diword]/[next_dilong],
    [x_next_iword]/..., [next_iword_030ce]/..., [next_iword_020ce]/...,
    [next_iword_cache040]/... *)
Inductive core := Plain | Indirect | CE030 | CE020 | Cache040.
Class IFetch (S : Type) := {
  next_iword : core -> S -> Z * S;
  next_ilong : core -> S -> Z * S }.

(** Words are 16 bits wide; a long is two words, high word first. *)
Class IFetchLaws (S : Type) `{IFetch S} := {
  next_iword_range : forall k st, is_u16 (next_iword k st).1;
  next_ilong_words : forall k st,
    next_ilong k st = (let '(hi, st1) := next_iword k st in
                       let '(lo, st2) := next_iword k st1 in (hi * 65536 + lo, st2)) }.

(** An instruction stream as the list of the words still to fetch (zeros
    after the end). *)
#[export] Instance list_fetch : IFetch (list Z) := {|
  next_iword := fun _ l => (u16 (hd 0 l), tl l);
  next_ilong := fun _ l => (u16 (hd 0 l) * 65536 + u16 (hd 0 (tl l)), tl (tl l)) |}.

#[export] Instance list_fetch_laws : IFetchLaws (list Z).
Proof. split; intros; cbn; [apply u16_range|done]. Qed.

Section DispEA.
Context {S : Type} `{IFetch S} (k : core).
Context (rd_long : Z -> Z).        (* [get_long] / [x_get_long] *)
Context (rf : Z -> Z).             (* [regs.regs[reg]] *)

(** ** The code *)
Definition disp_ea (base : Z) (st : S) : Z * S :=
  let '(w, st) := next_iword k st in
  let dp := u16 w in
  let reg := (dp >> 12) .& 15 in
  let regd := s32 (rf reg) in
  let regd := if dp .& 0x800 =? 0 then s16 regd else regd in
  let regd := s32 (regd << ((dp >> 9) .& 3)) in
  if truth (dp .& 0x100) then
    let base := if truth (dp .& 0x80) then 0 else base in
    let regd := if truth (dp .& 0x40) then 0 else regd in
    let '(base, st) := if dp .& 0x30 =? 0x20
                       then let '(v, st) := next_iword k st in (u32 (base + s16 v), st)
                       else (base, st) in
    let '(base, st) := if dp .& 0x30 =? 0x30
                       then let '(v, st) := next_ilong k st in (u32 (base + v), st)
                       else (base, st) in
    let '(outer, st) := if dp .& 0x3 =? 0x2
                        then let '(v, st) := next_iword k st in (s16 v, st)
                        else (0, st) in
    let '(outer, st) := if dp .& 0x3 =? 0x3
                        then let '(v, st) := next_ilong k st in (s32 v, st)
                        else (outer, st) in
    let base := if dp .& 0x4 =? 0 then u32 (base + regd) else base in
    let base := if truth (dp .& 0x3) then rd_long base else base in
    let base := if truth (dp .& 0x4) then u32 (base + regd) else base in
    (u32 (base + outer), st)
  else (u32 (base + s8 dp + regd), st).

(** ** Specification: the extension word of the MC68020 manual *)
Record ext := mk_ext {
  x_reg : Z;             (* D/A and register number *)
  x_long : bool;         (* W/L: index is a long *)
  x_scale : Z;           (* log2 of the scale *)
  x_full : bool;
  x_disp8 : Z;
  x_bs : bool; x_is : bool;
  x_bdsize : Z;
  x_iis : Z }.

Definition decode_ext (dp : Z) : ext :=
  mk_ext (dp / 4096) (Z.testbit dp 11) (dp / 512 mod 4) (Z.testbit dp 8)
         (s8 dp) (Z.testbit dp 7) (Z.testbit dp 6) (dp / 16 mod 4) (dp mod 8).

(** The scaled index operand. *)
Definition index_of (e : ext) : Z :=
  (if x_long e then rf (x_reg e) else s16 (rf (x_reg e))) * 2 ^ x_scale e.

(** A displacement of the given size field: null, word or long. *)
Definition fetch_disp (size : Z) (st : S) : Z * S :=
  match size with
  | 2 => let '(v, st) := next_iword k st in (s16 v, st)
  | 3 => next_ilong k st
  | _ => (0, st)
  end.

(** The address an extension word denotes: brief format, or full format with
    no indirection, memory indirect pre-indexed or post-indexed. *)
Definition ea_spec (base : Z) (st : S) : Z * S :=
  let '(w, st) := next_iword k st in
  let e := decode_ext (u16 w) in
  let xn := index_of e in
  if x_full e then
    let b := if x_bs e then 0 else base in
    let xn := if x_is e then 0 else xn in
    let '(bd, st) := fetch_disp (x_bdsize e) st in
    let '(od, st) := fetch_disp (x_iis e mod 4) st in
    let ea :=
      if x_iis e mod 4 =? 0 then b + bd + xn
      else if x_iis e <? 4 then rd_long (u32 (b + bd + xn)) + od
      else rd_long (u32 (b + bd)) + xn + od in
    (u32 ea, st)
  else (u32 (base + x_disp8 e + xn), st).

(** ** Equivalence *)

Lemma ext_fields dp : is_u16 dp ->
  (dp >> 12) .& 15 = dp / 4096 /\ (dp >> 9) .& 3 = dp / 512 mod 4 /\
  dp .& 0x3 = dp mod 4 /\ dp .& 0x30 = 16 * (dp / 16 mod 4).
Proof.
  intros Hd. split_and!.
  - change 15 with (Z.ones 4). rewrite field_mod by lia. apply Z.mod_small.
    change (2 ^ 12) with 4096. change (2 ^ 4) with 16. unfold is_u16 in Hd.
    Z.div_mod_to_equations. lia.
  - change 3 with (Z.ones 2). by rewrite field_mod.
  - change 3 with (Z.ones 2). by rewrite Z.land_ones.
  - change 0x30 with (3 << 4). rewrite land_shl_mask by lia. change 3 with (Z.ones 2).
    rewrite field_mod, Z.shiftl_mul_pow2 by lia. change (2 ^ 4) with 16. change (2 ^ 2) with 4. lia.
Qed.

Lemma testbit_2_mod8 dp : Z.testbit dp 2 = negb (dp mod 8 <? 4).
Proof.
  rewrite Z.testbit_eqb by lia. change (2 ^ 2) with 4.
  destruct (Z.eqb_spec (dp / 4 mod 2) 1), (Z.ltb_spec (dp mod 8) 4); cbn;
    Z.div_mod_to_equations; lia || done.
Qed.

(** The 32-bit index the code computes is the scaled index modulo [2^32]. *)
Lemma index_code (v sc : Z) (l : bool) : 0 <= sc < 4 ->
  u32 (s32 ((if l then s32 v else s16 (s32 v)) << sc)) = u32 ((if l then v else s16 v) * 2 ^ sc).
Proof.
  intros Hsc. rewrite u32_s32, Z.shiftl_mul_pow2 by lia. unfold u32.
  destruct l.
  - rewrite <- Zmult_mod_idemp_l. symmetry. rewrite <- Zmult_mod_idemp_l. f_equal. f_equal.
    unfold s32. Z.div_mod_to_equations. lia.
  - f_equal. f_equal. unfold s16, s32. Z.div_mod_to_equations. lia.
Qed.

Lemma u32_sum_index b d x y : u32 x = u32 y -> u32 (b + d + x) = u32 (b + d + y).
Proof. intros E. rewrite <- (u32_add_r (b + d) x), E, u32_add_r. done. Qed.

(** Equality of wrapped sums, given that the index terms agree modulo [2^32]. *)
Ltac wrap_eq := unfold u32, s32 in *; Z.div_mod_to_equations; lia.

(** The full format after the index has been formed: [x] is the code's 32-bit
    index, [xn] the specification's. *)
Lemma full_format base st dp x xn :
  is_u16 dp -> is_u32 base -> u32 x = u32 xn ->
  (let base := if truth (dp .& 0x80) then 0 else base in
   let regd := if truth (dp .& 0x40) then 0 else x in
   let '(base, st) := if dp .& 0x30 =? 0x20
                      then let '(v, st) := next_iword k st in (u32 (base + s16 v), st)
                      else (base, st) in
   let '(base, st) := if dp .& 0x30 =? 0x30
                      then let '(v, st) := next_ilong k st in (u32 (base + v), st)
                      else (base, st) in
   let '(outer, st) := if dp .& 0x3 =? 0x2
                       then let '(v, st) := next_iword k st in (s16 v, st)
                       else (0, st) in
   let '(outer, st) := if dp .& 0x3 =? 0x3
                       then let '(v, st) := next_ilong k st in (s32 v, st)
                       else (outer, st) in
   let base := if dp .& 0x4 =? 0 then u32 (base + regd) else base in
   let base := if truth (dp .& 0x3) then rd_long base else base in
   let base := if truth (dp .& 0x4) then u32 (base + regd) else base in
   (u32 (base + outer), st)) =
  (let b := if Z.testbit dp 7 then 0 else base in
   let xn := if Z.testbit dp 6 then 0 else xn in
   let '(bd, st) := fetch_disp (dp / 16 mod 4) st in
   let '(od, st) := fetch_disp (dp mod 8 mod 4) st in
   let ea :=
     if dp mod 8 mod 4 =? 0 then b + bd + xn
     else if dp mod 8 <? 4 then rd_long (u32 (b + bd + xn)) + od
     else rd_long (u32 (b + bd)) + xn + od in
   (u32 ea, st)).
Proof.
  intros Hd Hb Hx. destruct (ext_fields dp Hd) as (_ & _ & -> & ->).
  assert (E4 : (dp .& 0x4 =? 0) = (dp mod 8 <? 4))
    by (etransitivity; [by apply (land_pow2_eqb dp 2)|]; by rewrite testbit_2_mod8, negb_involutive).
  assert (T4 : truth (dp .& 0x4) = negb (dp mod 8 <? 4)) by (unfold truth; by rewrite E4).
  assert (T6 : truth (dp .& 0x40) = Z.testbit dp 6) by (by apply (land_pow2_truth dp 6)).
  assert (T7 : truth (dp .& 0x80) = Z.testbit dp 7) by (by apply (land_pow2_truth dp 7)).
  rewrite E4, T4, T6, T7. clear E4 T4 T6 T7.
  replace (dp mod 8 mod 4) with (dp mod 4) by (Z.div_mod_to_equations; lia).
  assert (Hb7 : is_u32 (if Z.testbit dp 7 then 0 else base))
    by (destruct (Z.testbit dp 7); [word|done]).
  set (b := if Z.testbit dp 7 then 0 else base) in *. clearbody b. clear Hb.
  assert (Hx6 : u32 (if Z.testbit dp 6 then 0 else x) = u32 (if Z.testbit dp 6 then 0 else xn))
    by (by destruct (Z.testbit dp 6)).
  set (x' := if Z.testbit dp 6 then 0 else x) in *. set (xn' := if Z.testbit dp 6 then 0 else xn) in *.
  clearbody x' xn'. clear Hx.
  assert (B : dp / 16 mod 4 = 0 \/ dp / 16 mod 4 = 1 \/ dp / 16 mod 4 = 2 \/ dp / 16 mod 4 = 3)
    by (pose proof (Z.mod_pos_bound (dp / 16) 4); lia).
  assert (O : dp mod 4 = 0 \/ dp mod 4 = 1 \/ dp mod 4 = 2 \/ dp mod 4 = 3)
    by (pose proof (Z.mod_pos_bound dp 4); lia).
  unfold is_u32 in Hb7.
  set (pre := dp mod 8 <? 4). clearbody pre.
  destruct B as [B|[B|[B|B]]], O as [O|[O|[O|O]]]; rewrite B, O; clear B O;
    cbv beta iota zeta delta [fetch_disp negb truth Z.mul Z.eqb Pos.eqb Pos.mul Pos.add];
    repeat match goal with
           | |- context [next_iword k ?t] => destruct (next_iword k t)
           | |- context [next_ilong k ?t] => destruct (next_ilong k t)
           end;
    destruct pre; f_equal; clear - Hx6 Hb7; try wrap_eq;
    match goal with
    | |- ?l = ?r => match l with context [rd_long ?a] => match r with context [rd_long ?c] =>
         replace (rd_long a) with (rd_long c) by (f_equal; wrap_eq); generalize (rd_long c) end end
    end; intros; wrap_eq.
Qed.

Lemma disp_ea_ok base st : is_u32 base -> disp_ea base st = ea_spec base st.
Proof.
  intros Hb. unfold disp_ea, ea_spec. destruct (next_iword k st) as [w st1].
  set (dp := u16 w). assert (Hd : is_u16 dp) by apply u16_range. clearbody dp.
  cbv beta zeta delta [decode_ext index_of]. cbn [x_full x_long x_reg x_scale x_bs x_is x_bdsize x_iis x_disp8].
  assert (T8 : truth (dp .& 0x100) = Z.testbit dp 8) by (by apply (land_pow2_truth dp 8)).
  assert (T11 : (dp .& 0x800 =? 0) = negb (Z.testbit dp 11)) by (by apply (land_pow2_eqb dp 11)).
  destruct (ext_fields dp Hd) as (Er & Es & _ & _). rewrite T8, T11, Er, Es.
  assert (Hx : u32 (s32 ((if negb (Z.testbit dp 11) then s16 (s32 (rf (dp / 4096)))
                          else s32 (rf (dp / 4096))) << (dp / 512 mod 4)))
               = u32 ((if Z.testbit dp 11 then rf (dp / 4096) else s16 (rf (dp / 4096)))
                      * 2 ^ (dp / 512 mod 4))).
  { rewrite <- (index_code _ _ (Z.testbit dp 11)) by (apply Z.mod_pos_bound; lia).
    by destruct (Z.testbit dp 11). }
  destruct (Z.testbit dp 8); [by apply full_format|].
  f_equal. by apply u32_sum_index.
Qed.

End DispEA.

(** ** The five entry points

    Each with its own fetch primitives and memory read; [idx] is not used by
    the source. *)
Section Entries.
Context {S : Type} `{IFetch S}.
Context (get_long x_get_long : Z -> Z) (rf : Z -> Z).

Definition get_disp_ea_020 (base idx : Z) : S -> Z * S := disp_ea Plain get_long rf base.
Definition x_get_disp_ea_020 (base idx : Z) : S -> Z * S := disp_ea Indirect x_get_long rf base.
Definition x_get_disp_ea_ce030 (base idx : Z) : S -> Z * S := disp_ea CE030 x_get_long rf base.
Definition x_get_disp_ea_ce020 (base idx : Z) : S -> Z * S := disp_ea CE020 x_get_long rf base.
Definition x_get_disp_ea_040 (base idx : Z) : S -> Z * S := disp_ea Cache040 x_get_long rf base.

(** C35: all five indexed-address routines compute the address the extension
    word denotes (brief, full, pre- and post-indexed memory indirect, with
    scaling and suppressed parts) modulo 2^32, and fetch exactly its words,
    each through the fetch primitives of its own core. *)
Theorem disp_ea_spec base idx st : is_u32 base ->
  get_disp_ea_020 base idx st = ea_spec Plain get_long rf base st /\
  x_get_disp_ea_020 base idx st = ea_spec Indirect x_get_long rf base st /\
  x_get_disp_ea_ce030 base idx st = ea_spec CE030 x_get_long rf base st /\
  x_get_disp_ea_ce020 base idx st = ea_spec CE020 x_get_long rf base st /\
  x_get_disp_ea_040 base idx st = ea_spec Cache040 x_get_long rf base st.
Proof. intros Hb. split_and!; by apply disp_ea_ok. Qed.
End Entries.

Lemma disp_ea_spec_witness :
  let rd := fun a => a + 0x100 in
  let rf := fun r => if r =? 9 then 0x10 else 0 in
  get_disp_ea_020 rd rf 0x1000 0 [0x9D33; 0x0001; 0x0002; 0x0003; 0x0004]
  = ea_spec Plain rd rf 0x1000 [0x9D33; 0x0001; 0x0002; 0x0003; 0x0004].
Proof.
  intros rd rf.
  destruct (disp_ea_spec rd rd rf 0x1000 0 [0x9D33; 0x0001; 0x0002; 0x0003; 0x0004]) as [E _];
    [word|exact E].
Defined.
