(* ===== verification/Cycles.v ===== *)
(** * Cycles: exact multiply and divide timing ([cpu/newcpu_common.cpp])

    [getMulu68kCycles], [getMuls68kCycles], [getDivu68kCycles] and
    [getDivs68kCycles]: the loops of the source as structural recursion on
    their iteration count. *)

From S2P Require Import Prelude Flags Cpu.
From Stdlib Require Import ZArith Lia Bool List.
From stdpp Require Import base list.
Open Scope Z_scope.
Open Scope cint_scope.

Section Cycles.
Context (p : prefs).

(** ** Multiplication *)

(** [for (bits = 0; bits < 16 && src; bits++, src >>= 1)] *)
Fixpoint mulu_loop (n : nat) (src cycles : Z) : Z :=
  match n with
  | O => cycles
  | S n => if truth src
           then mulu_loop n (src >> 1) (if truth (src .& 1) then cycles + 2 else cycles)
           else cycles
  end.

Definition getMulu68kCycles (src : Z) : Z :=
  if cpu_model p =? 68000 then mulu_loop 16 src (38 - 4) else 40 - 4.

Fixpoint muls_loop (n : nat) (usrc cycles : Z) : Z :=
  match n with
  | O => cycles
  | S n => if truth usrc
           then muls_loop n (usrc >> 1)
                  (if (usrc .& 3 =? 1) || (usrc .& 3 =? 2) then cycles + 2 else cycles)
           else cycles
  end.

Definition getMuls68kCycles (src : Z) : Z :=
  if cpu_model p =? 68000 then muls_loop 16 (u32 (src << 1)) (38 - 4)
  else let cycles := 40 - 4 in
       if truth (src .& 0x8000) then cycles + 2 else cycles.

(** ** Unsigned division *)

(** One iteration: new dividend and the cycles it costs, for the 68010
    ([ten = true]) and the 68000. *)
Definition divu_step (ten : bool) (hdivisor dividend : Z) : Z * Z :=
  let temp := dividend in
  let dividend := u32 (dividend << 1) in
  if s32 temp <? 0 then (u32 (dividend - hdivisor), 0)
  else if hdivisor <=? dividend then (u32 (dividend - hdivisor), if ten then 2 else 2 - 1)
  else (dividend, 2).

Fixpoint divu_loop (ten : bool) (n : nat) (hdivisor dividend mcycles : Z) : Z :=
  match n with
  | O => mcycles
  | S n => let '(d, k) := divu_step ten hdivisor dividend in
           divu_loop ten n hdivisor d (mcycles + k)
  end.

Definition getDivu68kCycles (dividend divisor : Z) : Z :=
  if divisor =? 0 then 0
  else if cpu_model p =? 68010 then
    if divisor <=? (dividend >> 16) then 4
    else divu_loop true 15 (u32 (divisor << 16)) dividend 74
  else
    if divisor <=? (dividend >> 16) then 5 * 2 - 4
    else divu_loop false 15 (u32 (divisor << 16)) dividend 38 * 2 - 4.

(** ** Signed division *)

(** [(uae_u32)abs(dividend)] and [(uae_u16)abs(divisor)] *)
Definition abs32 (d : Z) : Z := u32 (Z.abs d).
Definition abs16 (d : Z) : Z := u16 (Z.abs d).

Fixpoint divs_loop (n : nat) (aquot mcycles : Z) : Z :=
  match n with
  | O => mcycles
  | S n => divs_loop n (u32 (aquot << 1)) (if 0 <=? s16 aquot then mcycles + 1 else mcycles)
  end.

(** Result and the value stored through [extra] ([None]: not written). *)
Definition getDivs68kCycles (dividend divisor : Z) : Z * option Z :=
  if divisor =? 0 then (0, None)
  else if cpu_model p =? 68010 then
    if abs16 divisor <=? (abs32 dividend >> 16) then (12, None)
    else if dividend <? 0 then (116 + 2, Some 1) else (116, None)
  else
    let mcycles := 6 in
    let mcycles := if dividend <? 0 then mcycles + 1 else mcycles in
    if abs16 divisor <=? (abs32 dividend >> 16) then ((mcycles + 2) * 2 - 4, None)
    else
      let extra := if (divisor <? 0) && (0 <=? dividend) then 1 else 0 in
      let aquot := abs32 dividend / abs16 divisor in
      let mcycles := mcycles + 55 in
      let mcycles := if 0 <=? divisor
                     then if 0 <=? dividend then mcycles - 1 else mcycles + 1
                     else mcycles in
      (divs_loop 15 aquot mcycles * 2 - 4, Some extra).
End Cycles.

(** ** Counting bits *)

(** Number of [i < n] with [f i]. *)
Fixpoint count_below (f : Z -> bool) (n : nat) : Z :=
  match n with
  | O => 0
  | S n => count_below f n + Z.b2z (f (Z.of_nat n))
  end.

Lemma count_below_range f n : 0 <= count_below f n <= Z.of_nat n.
Proof.
  induction n as [|n IH]; cbn [count_below]; [lia|].
  destruct (f (Z.of_nat n)); cbn [Z.b2z]; lia.
Qed.

Lemma count_below_ext f g n : (forall i, 0 <= i < Z.of_nat n -> f i = g i) ->
  count_below f n = count_below g n.
Proof.
  induction n as [|n IH]; intros E; cbn [count_below]; [done|].
  rewrite IH by (intros; apply E; lia). rewrite E by lia. done.
Qed.

Lemma count_below_S f n :
  count_below f (S n) = Z.b2z (f 0) + count_below (fun i => f (i + 1)) n.
Proof.
  induction n as [|n IH]; [cbn [count_below]; change (Z.of_nat 0) with 0; lia|].
  change (count_below f (S (S n))) with (count_below f (S n) + Z.b2z (f (Z.of_nat (S n)))).
  rewrite IH. cbn [count_below]. replace (Z.of_nat (S n)) with (Z.of_nat n + 1) by lia. lia.
Qed.

Lemma count_below_false f n : (forall i, 0 <= i < Z.of_nat n -> f i = false) ->
  count_below f n = 0.
Proof.
  induction n as [|n IH]; intros E; cbn [count_below]; [done|].
  rewrite IH by (intros; apply E; lia). rewrite E by lia. done.
Qed.

Lemma count_below_negb f n : count_below (fun i => negb (f i)) n = Z.of_nat n - count_below f n.
Proof.
  induction n as [|n IH]; cbn [count_below]; [lia|]. rewrite IH.
  destruct (f (Z.of_nat n)); cbn [Z.b2z negb]; lia.
Qed.

Lemma truth_land_1 z : truth (z .& 1) = Z.testbit z 0.
Proof. apply (land_pow2_truth z 0). lia. Qed.

Lemma testbit_shr1 z i : 0 <= i -> Z.testbit (z >> 1) i = Z.testbit z (i + 1).
Proof. intros. by rewrite Z.shiftr_spec. Qed.

Lemma mulu_loop_count n src cycles :
  mulu_loop n src cycles = cycles + 2 * count_below (Z.testbit src) n.
Proof.
  revert src cycles. induction n as [|n IH]; intros src cycles; [cbn [mulu_loop count_below]; lia|].
  cbn [mulu_loop]. destruct (truth src) eqn:E.
  - rewrite IH, count_below_S, truth_land_1.
    rewrite (count_below_ext _ (fun i => Z.testbit src (i + 1)))
      by (intros; apply testbit_shr1; lia).
    destruct (Z.testbit src 0); cbn [Z.b2z]; lia.
  - unfold truth in E. apply negb_false_iff, Z.eqb_eq in E as ->.
    rewrite count_below_false by (intros; apply Z.testbit_0_l). lia.
Qed.

Lemma muls_loop_count n usrc cycles : 0 <= usrc ->
  muls_loop n usrc cycles
  = cycles + 2 * count_below (fun i => xorb (Z.testbit usrc i) (Z.testbit usrc (i + 1))) n.
Proof.
  revert usrc cycles. induction n as [|n IH]; intros usrc cycles Hu;
    [cbn [muls_loop count_below]; lia|].
  cbn [muls_loop]. destruct (truth usrc) eqn:E.
  - rewrite IH by (by apply Z.shiftr_nonneg). rewrite count_below_S.
    assert (Ec : ((usrc .& 3 =? 1) || (usrc .& 3 =? 2)) = xorb (Z.testbit usrc 0) (Z.testbit usrc 1)).
    { change 3 with (Z.ones 2). rewrite Z.land_ones by lia. change (2 ^ 2) with 4.
      rewrite !Z.testbit_eqb by lia. change (2 ^ 0) with 1. change (2 ^ 1) with 2. rewrite Z.div_1_r.
      destruct (Z.eqb_spec (usrc mod 4) 1), (Z.eqb_spec (usrc mod 4) 2),
        (Z.eqb_spec (usrc mod 2) 1), (Z.eqb_spec (usrc / 2 mod 2) 1); cbn; try done;
        Z.div_mod_to_equations; lia. }
    rewrite Ec, (count_below_ext (fun i => xorb (Z.testbit (usrc >> 1) i) _)
      (fun i => xorb (Z.testbit usrc (i + 1)) (Z.testbit usrc (i + 1 + 1))))
      by (intros; by rewrite !testbit_shr1 by lia).
    change (0 + 1) with 1. destruct (xorb (Z.testbit usrc 0) (Z.testbit usrc 1)); cbn [Z.b2z]; lia.
  - unfold truth in E. apply negb_false_iff, Z.eqb_eq in E as ->.
    rewrite count_below_false by (intros; by rewrite !Z.testbit_0_l). lia.
Qed.

(** Multiply timing on the 68000: MULU takes 38 cycles plus 2 per set bit
    of the source, MULS 38 plus 2 per 01 or 10 transition in the source
    extended by a zero bit on the right (4 prefetch cycles not counted). *)
Lemma mul_cycles_spec p src : is_u16 src -> cpu_model p = 68000 ->
  getMulu68kCycles p src = 38 - 4 + 2 * count_below (Z.testbit src) 16 /\
  getMuls68kCycles p src = 38 - 4 + 2 * count_below
    (fun i => xorb (Z.testbit src i) ((0 <? i) && Z.testbit src (i - 1))) 16.
Proof.
  intros Hs Hp. unfold getMulu68kCycles, getMuls68kCycles. rewrite Hp. cbn [Z.eqb Pos.eqb].
  rewrite mulu_loop_count. split; [done|].
  assert (Hsh : u32 (src << 1) = 2 * src)
    by (rewrite Z.shiftl_mul_pow2 by lia; change (2 ^ 1) with 2; unfold is_u16 in Hs; unfold u32;
        rewrite Z.mod_small; lia).
  rewrite Hsh, muls_loop_count by (unfold is_u16 in Hs; lia).
  f_equal. f_equal. apply count_below_ext. intros i Hi.
  rewrite xorb_comm. f_equal.
  - change (i + 1) with (Z.succ i). by rewrite Z.testbit_even_succ by lia.
  - destruct (Z.ltb_spec 0 i); cbn [andb].
    + replace i with (Z.succ (i - 1)) at 1 by lia. by rewrite Z.testbit_even_succ by lia.
    + replace i with 0 by lia. by rewrite Z.testbit_even_0.
Qed.

Lemma mul_cycles_spec_witness :
  getMulu68kCycles (mk_prefs 68000 0 0 false false) 0xF00F = 38 - 4 + 2 * count_below (Z.testbit 0xF00F) 16 /\
  getMuls68kCycles (mk_prefs 68000 0 0 false false) 0xF00F = 38 - 4 + 2 * count_below
    (fun i => xorb (Z.testbit 0xF00F i) ((0 <? i) && Z.testbit 0xF00F (i - 1))) 16.
Proof. apply (mul_cycles_spec (mk_prefs 68000 0 0 false false)); [word|reflexivity]. Defined.

(** ** Division timing *)

(** One iteration of the loop is one step of restoring division: the
    invariant keeps the partial remainder below the aligned divisor. *)
Lemma divu_step_spec ten h d : 0 < h < 2 ^ 32 -> 0 <= d < h ->
  let '(d', k) := divu_step ten h d in
  d' = (if h <=? 2 * d then 2 * d - h else 2 * d) /\ 0 <= d' < h /\
  k = (if 2 ^ 32 <=? 2 * d then 0 else if h <=? 2 * d then if ten then 2 else 1 else 2).
Proof.
  intros Hh Hd. unfold divu_step. rewrite Z.shiftl_mul_pow2 by lia. change (2 ^ 1) with 2.
  change (2 ^ 32) with 4294967296 in *.
  assert (Es : (s32 d <? 0) = (2147483648 <=? d)).
  { destruct (Z.ltb_spec (s32 d) 0), (Z.leb_spec 2147483648 d); try done; word. }
  rewrite Es. unfold u32. destruct (Z.leb_spec 2147483648 d).
  - replace ((d * 2) mod 4294967296) with (d * 2 - 4294967296) by (Z.div_mod_to_equations; lia).
    replace ((d * 2 - 4294967296 - h) mod 4294967296) with (2 * d - h) by (Z.div_mod_to_equations; lia).
    destruct (Z.leb_spec h (2 * d)), (Z.leb_spec 4294967296 (2 * d)); lia.
  - rewrite !(Z.mod_small (d * 2)) by lia.
    destruct (Z.leb_spec h (d * 2)), (Z.leb_spec h (2 * d)), (Z.leb_spec 4294967296 (2 * d)); try lia.
    rewrite Z.mod_small by lia. destruct ten; lia.
Qed.

Lemma divu_loop_range ten n h d mc : 0 < h < 2 ^ 32 -> 0 <= d < h ->
  mc <= divu_loop ten n h d mc <= mc + 2 * Z.of_nat n.
Proof.
  intros Hh. revert d mc. induction n as [|n IH]; intros d mc Hd; cbn [divu_loop]; [lia|].
  pose proof (divu_step_spec ten h d Hh Hd) as Hs. destruct (divu_step ten h d) as [d' k].
  destruct Hs as (_ & Hd' & Hk). specialize (IH d' (mc + k) Hd').
  assert (0 <= k <= 2) by (subst k; repeat case_match; lia). lia.
Qed.

(** With an aligned divisor of at most [2^31] no carry leaves the shift, and
    the cost counts the zero bits of the quotient. *)
Lemma divu_loop_quot n h d mc : 0 < h <= 2 ^ 31 -> 0 <= d < h ->
  divu_loop false n h d mc
  = mc + 2 * Z.of_nat n - count_below (Z.testbit (2 ^ Z.of_nat n * d / h)) n.
Proof.
  intros Hh. revert d mc. induction n as [|n IH]; intros d mc Hd.
  { cbn [divu_loop count_below]. lia. }
  cbn [divu_loop]. pose proof (divu_step_spec false h d) as Hs.
  destruct (divu_step false h d) as [d' k]. destruct Hs as (Ed & Hd' & Hk); [lia|lia|].
  rewrite IH by done. cbn [count_below].
  set (b := h <=? 2 * d) in *.
  assert (Ediv : 2 ^ Z.of_nat (S n) * d / h = Z.b2z b * 2 ^ Z.of_nat n + 2 ^ Z.of_nat n * d' / h).
  { rewrite Nat2Z.inj_succ, Z.pow_succ_r by lia. subst d' b.
    destruct (Z.leb_spec h (2 * d)); cbn [Z.b2z].
    - rewrite <- Z.div_add_l by lia. f_equal. lia.
    - rewrite Z.mul_0_l, Z.add_0_l. f_equal. lia. }
  assert (Hq : 0 <= 2 ^ Z.of_nat n * d' / h < 2 ^ Z.of_nat n).
  { split; [apply Z.div_pos; nia|apply Z.div_lt_upper_bound; nia]. }
  rewrite Ediv.
  assert (Etop : Z.testbit (Z.b2z b * 2 ^ Z.of_nat n + 2 ^ Z.of_nat n * d' / h) (Z.of_nat n) = b).
  { rewrite Z.testbit_eqb by lia. rewrite Z.div_add_l, Z.div_small, Z.add_0_r by lia. by destruct b. }
  rewrite Etop.
  rewrite (count_below_ext (Z.testbit (Z.b2z b * _ + _)) (Z.testbit (2 ^ Z.of_nat n * d' / h))).
  2:{ intros i Hi. rewrite <- (Z.mod_pow2_bits_low _ (Z.of_nat n)) by lia.
      rewrite Z.add_comm, Z_mod_plus_full, Z.mod_small by lia. done. }
  assert (Ek : k = 2 - Z.b2z b).
  { rewrite Hk. change (2 ^ 32) with 4294967296 in *. change (2 ^ 31) with 2147483648 in *.
    destruct (Z.leb_spec 4294967296 (2 * d)); [lia|]. by destruct b. }
  rewrite Ek. lia.
Qed.

Lemma shl16_small v : is_u16 v -> u32 (v << 16) = v * 65536.
Proof.
  intros Hv. rewrite Z.shiftl_mul_pow2 by lia. change (2 ^ 16) with 65536.
  apply u32_small. unfold is_u16, is_u32 in *. lia.
Qed.

Lemma divu_no_overflow dividend divisor : is_u16 divisor -> is_u32 dividend ->
  divisor <> 0 -> (divisor <=? (dividend >> 16)) = false -> 0 <= dividend < divisor * 65536.
Proof.
  intros Hv Hd Hz Ho. rewrite Z.shiftr_div_pow2 in Ho by lia. change (2 ^ 16) with 65536 in Ho.
  apply Z.leb_gt in Ho. unfold is_u16, is_u32 in *. Z.div_mod_to_equations. lia.
Qed.

(** DIVU timing stays within the published range of each model: without
    overflow 76 to 136 cycles on the 68000 and 78 to 108 on the 68010 (the 4
    prefetch cycles are not part of the result), a fixed 10 or 8 cycles on
    overflow, 0 for a zero divisor. *)
Lemma divu_cycles_range p dividend divisor :
  is_u32 dividend -> is_u16 divisor ->
  let cyc := getDivu68kCycles p dividend divisor in
  let ten := cpu_model p =? 68010 in
  if divisor =? 0 then cyc = 0
  else if divisor <=? (dividend >> 16) then cyc + 4 = if ten then 8 else 10
  else if ten then 78 <= cyc + 4 <= 108 else 76 <= cyc + 4 <= 136.
Proof.
  intros Hd Hv cyc ten. subst cyc ten. unfold getDivu68kCycles.
  destruct (Z.eqb_spec divisor 0) as [|Hz]; [done|].
  destruct (divisor <=? (dividend >> 16)) eqn:Ho; [by destruct (cpu_model p =? 68010)|].
  pose proof (divu_no_overflow _ _ Hv Hd Hz Ho) as Hn. unfold is_u16 in Hv.
  rewrite shl16_small by (unfold is_u16; lia).
  destruct (cpu_model p =? 68010).
  - pose proof (divu_loop_range true 15 (divisor * 65536) dividend 74). lia.
  - pose proof (divu_loop_range false 15 (divisor * 65536) dividend 38). lia.
Qed.

Lemma divu_cycles_range_witness :
  76 <= getDivu68kCycles (mk_prefs 68000 0 0 false false) 0xFFFE0001 0xFFFF + 4 <= 136.
Proof.
  apply (divu_cycles_range (mk_prefs 68000 0 0 false false) 0xFFFE0001 0xFFFF); word.
Defined.

(** For a divisor below 0x8000 the 68000 DIVU time is 136 cycles minus 2
    for every 1 among the upper fifteen bits of the 16-bit quotient: the loop
    is a restoring division whose branches are the quotient bits. *)
Lemma divu_cycles_quotient p dividend divisor :
  is_u32 dividend -> 0 < divisor < 0x8000 -> (dividend >> 16) < divisor ->
  cpu_model p <> 68010 ->
  getDivu68kCycles p dividend divisor + 4
  = 136 - 2 * count_below (fun i => Z.testbit (dividend / divisor) (i + 1)) 15.
Proof.
  intros Hd Hv Ho Hp. unfold getDivu68kCycles.
  destruct (Z.eqb_spec divisor 0); [lia|]. destruct (Z.eqb_spec (cpu_model p) 68010); [done|].
  destruct (divisor <=? (dividend >> 16)) eqn:El; [apply Z.leb_le in El; lia|].
  pose proof (divu_no_overflow dividend divisor ltac:(unfold is_u16; lia) Hd ltac:(lia) El) as Hn.
  rewrite shl16_small by (unfold is_u16; lia).
  rewrite divu_loop_quot by lia. change (Z.of_nat 15) with 15.
  rewrite (count_below_ext _ (fun i => Z.testbit (dividend / divisor) (i + 1))); [lia|].
  intros i Hi.
  replace (2 ^ 15 * dividend / (divisor * 65536)) with (dividend / divisor / 2).
  - change 2 with (2 ^ 1) at 1. by rewrite Z.div_pow2_bits by lia.
  - replace (divisor * 65536) with (2 ^ 15 * (divisor * 2)) by lia.
    rewrite Z.div_mul_cancel_l by lia. by rewrite Z.div_div by lia.
Qed.

Lemma divu_cycles_quotient_witness :
  getDivu68kCycles (mk_prefs 68000 0 0 false false) 0x12345678 0x2345 + 4
  = 136 - 2 * count_below (fun i => Z.testbit (0x12345678 / 0x2345) (i + 1)) 15.
Proof.
  apply (divu_cycles_quotient (mk_prefs 68000 0 0 false false) 0x12345678 0x2345);
    [word|lia|reflexivity|discriminate].
Defined.

Lemma s16_sign a : (0 <=? s16 a) = negb (Z.testbit a 15).
Proof.
  rewrite Z.testbit_eqb by lia. change (2 ^ 15) with 32768.
  destruct (Z.leb_spec 0 (s16 a)), (Z.eqb_spec (a / 32768 mod 2) 1); cbn; try done;
    unfold s16 in *; Z.div_mod_to_equations; lia.
Qed.

Lemma divs_loop_count n a mc : (n <= 16)%nat ->
  divs_loop n a mc = mc + count_below (fun i => negb (Z.testbit a (15 - i))) n.
Proof.
  revert a mc. induction n as [|n IH]; intros a mc Hn; [cbn [divs_loop count_below]; lia|].
  cbn [divs_loop]. rewrite IH by lia. rewrite count_below_S, s16_sign.
  rewrite (count_below_ext _ (fun i => negb (Z.testbit a (15 - (i + 1))))).
  2:{ intros i Hi. f_equal. rewrite testbit_u32, Z.shiftl_spec by lia.
      destruct (Z.ltb_spec (15 - i) 32); [|lia]. rewrite andb_true_r. f_equal. lia. }
  change (15 - 0) with 15. destruct (Z.testbit a 15); cbn [negb Z.b2z]; lia.
Qed.

(** DIVS timing on the 68000 without overflow of the absolute quotient:
    from 120 cycles (122 when the quotient fits in 15 bits) to 156, and each
    0 among the upper fifteen bits of the absolute quotient costs 2. *)
Theorem divs_cycles_spec p dividend divisor :
  is_s32 dividend -> is_s16 divisor -> divisor <> 0 -> cpu_model p <> 68010 ->
  (abs32 dividend >> 16) < abs16 divisor ->
  let q := Z.abs dividend / Z.abs divisor in
  let '(cyc, extra) := getDivs68kCycles p dividend divisor in
  extra = Some (if (divisor <? 0) && (0 <=? dividend) then 1 else 0) /\
  cyc + 4 = 2 * (61 + Z.b2z (dividend <? 0)
                 + (if 0 <=? divisor then if 0 <=? dividend then -1 else 1 else 0)
                 + (15 - count_below (fun i => Z.testbit q (15 - i)) 15)) /\
  120 <= cyc + 4 <= 156 /\ (q < 0x8000 -> 122 <= cyc + 4).
Proof.
  intros Hd Hv Hz Hp Ho q. unfold getDivs68kCycles.
  destruct (Z.eqb_spec divisor 0); [done|]. destruct (Z.eqb_spec (cpu_model p) 68010); [done|].
  destruct (Z.leb_spec (abs16 divisor) (abs32 dividend >> 16)); [lia|].
  assert (Ea : abs32 dividend / abs16 divisor = q).
  { subst q. unfold abs32, abs16. unfold is_s32, is_s16 in *.
    rewrite u32_small, u16_small by (unfold is_u32, is_u16; lia). done. }
  rewrite Ea, divs_loop_count, count_below_negb by lia. change (Z.of_nat 15) with 15.
  pose proof (count_below_range (fun i => Z.testbit q (15 - i)) 15) as Hc.
  change (Z.of_nat 15) with 15 in Hc.
  split; [done|]. split; [|split].
  - destruct (Z.ltb_spec dividend 0), (Z.leb_spec 0 dividend), (Z.leb_spec 0 divisor); cbn [Z.b2z]; lia.
  - destruct (Z.ltb_spec dividend 0), (Z.leb_spec 0 dividend), (Z.leb_spec 0 divisor); lia.
  - intros Hq. assert (Hq0 : 0 <= q) by (subst q; apply Z.div_pos; lia).
    assert (Ht : Z.testbit q 15 = false).
    { rewrite Z.testbit_eqb by lia. change (2 ^ 15) with 32768.
      rewrite Z.div_small by lia. done. }
    rewrite count_below_S in *. change (15 - 0) with 15 in *. rewrite Ht in *. cbn [Z.b2z] in *.
    pose proof (count_below_range (fun i => Z.testbit q (15 - (i + 1))) 14) as Hc'.
    change (Z.of_nat 14) with 14 in Hc'.
    destruct (Z.ltb_spec dividend 0), (Z.leb_spec 0 dividend), (Z.leb_spec 0 divisor); lia.
Qed.

Lemma divs_cycles_spec_witness :
  let '(cyc, extra) := getDivs68kCycles (mk_prefs 68000 0 0 false false) (-1000000) 37 in
  extra = Some 0 /\
  cyc + 4 = 2 * (61 + 1 + 1 + (15 - count_below (fun i => Z.testbit (1000000 / 37) (15 - i)) 15)) /\
  120 <= cyc + 4 <= 156 /\ (1000000 / 37 < 0x8000 -> 122 <= cyc + 4).
Proof.
  apply (divs_cycles_spec (mk_prefs 68000 0 0 false false) (-1000000) 37);
    [word|word|discriminate|discriminate|reflexivity].
Defined.
