(* ===== verification/Arith.v ===== *)
(** * Arith: long multiplication and division, undefined-flag emulation
    ([cpu/newcpu_common.cpp]) *)

From S2P Require Import Prelude Flags Cpu Cycles.
From Stdlib Require Import ZArith Lia Bool.
From stdpp Require Import base list.
Open Scope Z_scope.
Open Scope cint_scope.

Section Arith.
Context (p : prefs).

(** ** DIVU.W / DIVS.W flags *)

Definition divbyzero_special (issigned : bool) (dst : Z) (f : flag_struct) : flag_struct :=
  if (cpu_model p =? 68020) || (cpu_model p =? 68030) then
    let f := CLEAR_CZNV f in
    if issigned then SET_ZFLG 1 f
    else
      let d := s16 (dst >> 16) in
      let f := if d <? 0 then SET_NFLG 1 f else if d =? 0 then SET_ZFLG 1 f else f in
      SET_VFLG 1 f
  else if cpu_model p =? 68040 then SET_CFLG 0 f
  else if cpu_model p =? 68060 then SET_CFLG 0 f
  else
    let f := CLEAR_CZNV f in
    if issigned then SET_ZFLG 1 f
    else
      let d := s16 (dst >> 16) in
      if d <? 0 then SET_NFLG 1 f else if d =? 0 then SET_ZFLG 1 f else f.

Definition setdivuflags (dividend divisor : Z) (f : flag_struct) : flag_struct :=
  if cpu_model p =? 68060 then SET_CFLG 0 (SET_VFLG 1 f)
  else if cpu_model p =? 68040 then SET_CFLG 0 (SET_VFLG 1 f)
  else if 68020 <=? cpu_model p then
    let f := SET_VFLG 1 f in
    if s32 dividend <? 0 then SET_NFLG 1 f else f
  else if cpu_model p =? 68010 then
    let f := SET_VFLG 1 f in
    let f := if (s32 dividend <? 0) && (s16 divisor <? 0) then SET_NFLG 0 f else SET_NFLG 1 f in
    SET_CFLG 0 (SET_ZFLG 0 f)
  else SET_CFLG 0 (SET_ZFLG 0 (SET_NFLG 1 (SET_VFLG 1 f))).

Definition setdivsflags (dividend divisor : Z) (f : flag_struct) : flag_struct :=
  if cpu_model p =? 68060 then SET_CFLG 0 (SET_VFLG 1 f)
  else if cpu_model p =? 68040 then SET_CFLG 0 (SET_VFLG 1 f)
  else if 68020 <=? cpu_model p then
    let f := SET_VFLG 1 (CLEAR_CZNV f) in
    if abs16 divisor <=? (abs32 dividend >> 16) then f
    else
      let aquot := abs32 dividend / abs16 divisor in
      let f := if s8 aquot =? 0 then SET_ZFLG 1 f else f in
      if s8 aquot <? 0 then SET_NFLG 1 f else f
  else if cpu_model p =? 68010 then SET_NFLG 1 (SET_VFLG 1 (CLEAR_CZNV f))
  else SET_NFLG 1 (SET_VFLG 1 (CLEAR_CZNV f)).

(** ** CHK and CHK2/CMP2 flags *)

Definition setchkundefinedflags (src dst : Z) (szword : bool) (f : flag_struct) : flag_struct :=
  if cpu_model p <? 68020 then
    let f := CLEAR_CZNV f in
    let f := if dst =? 0 then SET_ZFLG 1 f else f in
    if dst <? 0 then SET_NFLG 1 f
    else if src <? dst then SET_NFLG 0 f else f
  else if (cpu_model p =? 68020) || (cpu_model p =? 68030) then
    let f := CLEAR_CZNV f in
    let f := if dst =? 0 then SET_ZFLG 1 f else f in
    let f := SET_NFLG (Z.b2z (dst <? 0)) f in
    if (dst <? 0) || (src <? dst) then
      let f :=
        if szword then
          let flgs := Z.b2z (s16 dst <? 0) in
          let flgo := Z.b2z (s16 src <? 0) in
          let val := s16 (s16 src - s16 dst) in
          let flgn := Z.b2z (val <? 0) in
          SET_VFLG ((flgs .^ flgo) .& (flgn .^ flgo)) f
        else
          let flgs := Z.b2z (dst <? 0) in
          let flgo := Z.b2z (src <? 0) in
          let val := s32 (src - dst) in
          let flgn := Z.b2z (val <? 0) in
          SET_VFLG ((flgs .^ flgo) .& (flgn .^ flgo)) f in
      if dst <? 0 then SET_CFLG (Z.b2z ((src <? dst) || (0 <=? src))) f
      else SET_CFLG (Z.b2z (0 <=? src)) f
    else f
  else if cpu_model p =? 68040 then
    let f := SET_CFLG 0 f in
    let f := if (dst <? 0) || (src <? dst) then
               if (dst <? 0) && (0 <=? src) then SET_CFLG 1 f
               else if (0 <=? src) && (src <=? dst) then SET_CFLG 1 f
               else if (dst <? 0) && (src <? dst) then SET_CFLG 1 f
               else f
             else f in
    SET_NFLG (Z.b2z (dst <? 0)) f
  else if cpu_model p =? 68060 then
    let f := SET_NFLG 0 f in
    if (dst <? 0) || (src <? dst) then SET_NFLG (Z.b2z (dst <? 0)) f else f
  else f.

(** [lower - val] and the like are [int] subtractions (wrapping). *)
Definition setchk2undefinedflags (lower upper val : Z) (f : flag_struct) : flag_struct :=
  let onN (c : bool) f := if c then SET_NFLG 1 f else f in
  if cpu_model p =? 68060 then SET_NFLG (Z.b2z (val <? 0)) (SET_VFLG 0 f)
  else if cpu_model p =? 68040 then f
  else
  let f := SET_VFLG 0 (SET_NFLG 0 f) in
  if (val =? lower) || (val =? upper) then f
  else if (lower <? 0) && (0 <=? upper) then
    let f := onN (val <? lower) f in
    let f := onN ((0 <=? val) && (val <? upper)) f in
    if (0 <=? val) && (0 <=? s32 (lower - val)) then
      onN (upper <? val) (SET_NFLG 0 (SET_VFLG 1 f))
    else f
  else if (0 <=? lower) && (upper <? 0) then
    let f := onN (0 <=? val) f in
    let f := onN (upper <? val) f in
    if (lower <? val) && (0 <=? s32 (upper - val)) then SET_NFLG 0 (SET_VFLG 1 f) else f
  else if (0 <=? lower) && (0 <=? upper) && (upper <? lower) then
    let f := onN ((upper <? val) && (val <? lower)) f in
    let f := if (val <? 0) && (s32 (lower - val) <? 0) then SET_VFLG 1 f else f in
    onN ((val <? 0) && (0 <=? s32 (lower - val))) f
  else if (0 <=? lower) && (0 <=? upper) && (lower <=? upper) then
    let f := onN ((0 <=? val) && (val <? lower)) f in
    let f := onN (upper <? val) f in
    if (val <? 0) && (s32 (upper - val) <? 0) then SET_NFLG 1 (SET_VFLG 1 f) else f
  else if (lower <? 0) && (upper <? 0) && (upper <? lower) then
    let f := onN (0 <=? val) f in
    let f := onN ((upper <? val) && (val <? lower)) f in
    if (0 <=? val) && (s32 (val - lower) <? 0) then SET_VFLG 1 (SET_NFLG 0 f) else f
  else if (lower <? 0) && (upper <? 0) && (lower <=? upper) then
    let f := onN (val <? lower) f in
    let f := onN ((val <? 0) && (upper <? val)) f in
    if (0 <=? val) && (s32 (val - lower) <? 0) then SET_VFLG 1 (SET_NFLG 1 f) else f
  else f.

(** ** DIVS.L / DIVU.L *)

Definition divsl_overflow (extra a divider : Z) (f : flag_struct) : flag_struct :=
  if 68040 <=? cpu_model p then SET_CFLG 0 (SET_VFLG 1 f)
  else
    let a32 := s32 a in
    let neg64 := a <? 0 in
    let neg32 := a32 <? 0 in
    let f := SET_VFLG 1 f in
    let f :=
      if truth (extra .& 0x400) then
        let ahigh := s32 (a >> 32) in
        if ahigh =? 0 then SET_NFLG 0 (SET_ZFLG 1 f)
        else if (ahigh <? 0) && (divider <? 0) && (divider <? ahigh)
             then SET_NFLG 0 (SET_ZFLG 0 f)
        else if a32 =? 0 then SET_NFLG 0 (SET_ZFLG 1 f)
        else SET_NFLG (Z.b2z (xorb neg32 neg64)) (SET_ZFLG 0 f)
      else if a32 =? 0 then SET_NFLG 0 (SET_ZFLG 1 f)
      else SET_ZFLG 0 (SET_NFLG (Z.b2z neg32) f) in
    SET_CFLG 0 f.

Definition divul_overflow (extra a : Z) (f : flag_struct) : flag_struct :=
  if 68040 <=? cpu_model p then SET_CFLG 0 (SET_VFLG 1 f)
  else
    let a32 := s32 a in
    SET_CFLG 0 (SET_ZFLG (Z.b2z (a32 =? 0)) (SET_NFLG (Z.b2z (a32 <? 0)) (SET_VFLG 1 f))).

Definition divsl_divbyzero (extra a oldpc : Z) (c : cpu) : cpu :=
  let f := rflags c in
  let f := if 68040 <=? cpu_model p then SET_CFLG 0 f
           else SET_CFLG 0 (SET_ZFLG 1 (SET_NFLG 0 f)) in
  emit (Exception_cpu_oldpc 5 oldpc) (set_flags f c).

Definition divul_divbyzero (extra a oldpc : Z) (c : cpu) : cpu :=
  let f := rflags c in
  let f := if 68040 <=? cpu_model p then SET_CFLG 0 f
           else let a32 := s32 a in
                SET_CFLG 0 (SET_VFLG 1 (SET_ZFLG (Z.b2z (a32 =? 0)) (SET_NFLG (Z.b2z (a32 <? 0)) f))) in
  emit (Exception_cpu_oldpc 5 oldpc) (set_flags f c).

Definition UVAL64_SIGN33 := 0xffffffff80000000.

(** The quotient and remainder are stored and the flags set from the
    quotient. *)
Definition div_store (extra quot rem : Z) (c : cpu) : cpu :=
  let f := rflags c in
  let f := SET_NFLG (Z.b2z (s32 quot <? 0))
             (SET_ZFLG (Z.b2z (s32 quot =? 0)) (SET_CFLG 0 (SET_VFLG 0 f))) in
  set_dreg ((extra >> 12) .& 7) quot (set_dreg (extra .& 7) rem (set_flags f c)).

Definition m68k_divl (opcode src extra oldpc : Z) (c : cpu) : Z * cpu :=
  if truth (extra .& 0x400) && int_no_unimplemented p && (cpu_model p =? 68060) then (-1, c)
  else if truth (extra .& 0x800) then
    (* signed variant *)
    let a := s32 (m68k_dreg c ((extra >> 12) .& 7)) in
    let a := if truth (extra .& 0x400)
             then s64 ((a .& 0xffffffff) .| s64 (m68k_dreg c (extra .& 7) << 32))
             else a in
    if src =? 0 then (0, divsl_divbyzero extra a oldpc c)
    else if (u64 a =? 0x8000000000000000) && (src =? 0xffffffff)
         then (1, set_flags (divsl_overflow extra a (s32 src) (rflags c)) c)
    else
      let rem := Z.rem a (s32 src) in
      let quot := Z.quot a (s32 src) in
      if ((u64 quot .& UVAL64_SIGN33) != 0) && ((u64 quot .& UVAL64_SIGN33) != UVAL64_SIGN33)
      then (1, set_flags (divsl_overflow extra a (s32 src) (rflags c)) c)
      else
        let rem := if negb (Bool.eqb (s32 rem <? 0) (a <? 0)) then - rem else rem in
        (1, div_store extra quot rem c)
  else
    (* unsigned *)
    let a := u32 (m68k_dreg c ((extra >> 12) .& 7)) in
    let a := if truth (extra .& 0x400)
             then (a .& 0xffffffff) .| u64 (m68k_dreg c (extra .& 7) << 32)
             else a in
    if src =? 0 then (0, divul_divbyzero extra (s64 a) oldpc c)
    else
      let rem := a mod src in
      let quot := a / src in
      if 0xffffffff <? quot then (1, set_flags (divul_overflow extra (s64 a) (rflags c)) c)
      else (1, div_store extra quot rem c).

(** ** MULS.L / MULU.L *)

(** The two halves of a 64-bit product; the order of the stores decides which
    one survives when both name the same register. *)
Definition mul_store64 (extra a : Z) (c : cpu) : cpu :=
  if 68040 <=? cpu_model p
  then set_dreg ((extra >> 12) .& 7) a (set_dreg (extra .& 7) (a >> 32) c)
  else set_dreg (extra .& 7) (a >> 32) (set_dreg ((extra >> 12) .& 7) a c).

Definition m68k_mull (opcode src extra : Z) (c : cpu) : Z * cpu :=
  if truth (extra .& 0x400) && int_no_unimplemented p && (cpu_model p =? 68060) then (-1, c)
  else
  let f := rflags c in
  let f := SET_CFLG 0 (SET_VFLG 0 f) in
  if truth (extra .& 0x800) then
    let a := s64 (s32 (m68k_dreg c ((extra >> 12) .& 7)) * s32 src) in
    if truth (extra .& 0x400) then
      let c := mul_store64 extra a c in
      (1, set_flags (SET_NFLG (Z.b2z (a <? 0)) (SET_ZFLG (Z.b2z (a =? 0)) f)) c)
    else
      let b := s32 a in
      let c := set_dreg ((extra >> 12) .& 7) a c in
      let f := if ((u64 a .& UVAL64_SIGN33) != 0) && ((u64 a .& UVAL64_SIGN33) != UVAL64_SIGN33)
               then SET_VFLG 1 f else f in
      (1, set_flags (SET_NFLG (Z.b2z (b <? 0)) (SET_ZFLG (Z.b2z (b =? 0)) f)) c)
  else
    let a := u64 (u32 (m68k_dreg c ((extra >> 12) .& 7)) * src) in
    if truth (extra .& 0x400) then
      let c := mul_store64 extra a c in
      (1, set_flags (SET_NFLG (Z.b2z (s64 a <? 0)) (SET_ZFLG (Z.b2z (a =? 0)) f)) c)
    else
      let b := s32 a in
      let c := set_dreg ((extra >> 12) .& 7) a c in
      let f := if (a .& 0xffffffff00000000) != 0 then SET_VFLG 1 f else f in
      (1, set_flags (SET_NFLG (Z.b2z (b <? 0)) (SET_ZFLG (Z.b2z (b =? 0)) f)) c).

(** ** Flags of an address-erroring 68000 move, register halves *)

Definition ccr_68000_long_move_ae_LZN (src : Z) (f : flag_struct) : flag_struct :=
  let f := CLEAR_CZNV f in
  let vsrc := s16 (src .& 0xffff) in
  SET_NFLG (Z.b2z (vsrc <? 0)) (SET_ZFLG (Z.b2z (vsrc =? 0)) f).

Definition ccr_68000_long_move_ae_LN (src : Z) (f : flag_struct) : flag_struct :=
  let f := CLEAR_CZNV f in
  let vsrc := s16 (src .& 0xffff) in
  SET_NFLG (Z.b2z (vsrc <? 0)) f.

Definition ccr_68000_long_move_ae_HNZ (src : Z) (f : flag_struct) : flag_struct :=
  let vsrc := s16 (src >> 16) in
  if vsrc <? 0 then SET_ZFLG 0 (SET_NFLG 1 f)
  else if truth vsrc then SET_ZFLG 0 (SET_NFLG 0 f)
  else SET_NFLG 0 f.

Definition ccr_68000_long_move_ae_normal (src : Z) (f : flag_struct) : flag_struct :=
  SET_NFLG (Z.b2z (src <? 0)) (SET_ZFLG (Z.b2z (src =? 0)) (CLEAR_CZNV f)).

Definition ccr_68000_word_move_ae_normal (src : Z) (f : flag_struct) : flag_struct :=
  SET_NFLG (Z.b2z (src <? 0)) (SET_ZFLG (Z.b2z (src =? 0)) (CLEAR_CZNV f)).

Definition dreg_68000_long_replace_low (reg v : Z) (c : cpu) : cpu :=
  set_dreg reg ((m68k_dreg c reg .& 0xffff0000) .| v) c.

Definition areg_68000_long_replace_low (reg v : Z) (c : cpu) : cpu :=
  set_areg reg ((m68k_areg c reg .& 0xffff0000) .| v) c.
End Arith.

(** ** Properties of long division *)

(** The dividend the instruction names: Dq, or the pair Dr:Dq. *)
Definition qreg (extra : Z) : Z := (extra >> 12) .& 7.
Definition rreg (extra : Z) : Z := extra .& 7.
Definition sdividend (extra : Z) (c : cpu) : Z :=
  if Z.testbit extra 10
  then s32 (m68k_dreg c (rreg extra)) * 4294967296 + m68k_dreg c (qreg extra)
  else s32 (m68k_dreg c (qreg extra)).
Definition udividend (extra : Z) (c : cpu) : Z :=
  if Z.testbit extra 10
  then m68k_dreg c (rreg extra) * 4294967296 + m68k_dreg c (qreg extra)
  else m68k_dreg c (qreg extra).

(** The instruction is the 64-bit form a 68060 leaves to software. *)
Definition unimplemented060 (p : prefs) (extra : Z) : bool :=
  Z.testbit extra 10 && int_no_unimplemented p && (cpu_model p =? 68060).

Lemma land_ffffffff z : z .& 0xffffffff = u32 z.
Proof. change 0xffffffff with (Z.ones 32). by rewrite Z.land_ones. Qed.

(** The 64-bit mask test of the source is the 32-bit range test. *)
Lemma sign33_test q : -9223372036854775808 <= q < 9223372036854775808 ->
  ((u64 q .& UVAL64_SIGN33) != 0) && ((u64 q .& UVAL64_SIGN33) != UVAL64_SIGN33)
  = negb ((-2147483648 <=? q) && (q <? 2147483648)).
Proof.
  intros Hq. change UVAL64_SIGN33 with (Z.ones 33 << 31) at 1 2.
  assert (E : u64 q .& (Z.ones 33 << 31) = u64 q / 2147483648 * 2147483648).
  { rewrite land_shl_mask, field_mod, Z.shiftl_mul_pow2 by lia.
    change (2 ^ 31) with 2147483648. rewrite Z.mod_small; [done|].
    change (2 ^ 33) with 8589934592. unfold u64. Z.div_mod_to_equations. lia. }
  rewrite E. unfold UVAL64_SIGN33.
  destruct (Z.eqb_spec (u64 q / 2147483648 * 2147483648) 0),
    (Z.eqb_spec (u64 q / 2147483648 * 2147483648) 0xffffffff80000000),
    (Z.leb_spec (-2147483648) q), (Z.ltb_spec q 2147483648); cbn; try done;
    unfold u64 in *; Z.div_mod_to_equations; lia.
Qed.

Lemma dividend64_signed hi lo : is_u32 hi -> is_u32 lo ->
  s64 ((s32 lo .& 0xffffffff) .| s64 (hi << 32)) = s32 hi * 4294967296 + lo.
Proof.
  intros Hh Hl. rewrite land_ffffffff, u32_s32, u32_small by done.
  assert (E : s64 (hi << 32) = s32 hi << 32).
  { rewrite !Z.shiftl_mul_pow2 by lia. change (2 ^ 32) with 4294967296. word. }
  rewrite E, lor_shl_add by (try exact Hl; lia). change (2 ^ 32) with 4294967296.
  apply s64_small. pose proof (s32_range hi). unfold is_s32, is_u32 in *. lia.
Qed.

Lemma dividend64_unsigned hi lo : is_u32 hi -> is_u32 lo ->
  (u32 lo .& 0xffffffff) .| u64 (hi << 32) = hi * 4294967296 + lo.
Proof.
  intros Hh Hl. rewrite land_ffffffff, u32_u32, u32_small by done.
  rewrite u64_small; [|rewrite Z.shiftl_mul_pow2 by lia; change (2 ^ 32) with 4294967296;
                        unfold is_u32 in *; lia].
  rewrite lor_shl_add by (try exact Hl; lia). done.
Qed.

Lemma extra_bits extra :
  truth (extra .& 0x400) = Z.testbit extra 10 /\ truth (extra .& 0x800) = Z.testbit extra 11.
Proof. split; [apply (land_pow2_truth extra 10)|apply (land_pow2_truth extra 11)]; lia. Qed.

Lemma qreg_range extra : 0 <= qreg extra < 8.
Proof. apply land7_range. Qed.
Lemma rreg_range extra : 0 <= rreg extra < 8.
Proof. apply land7_range. Qed.

(** Signed division, reduced to integer quotient and remainder. *)
Lemma divl_signed_eq p opcode src extra oldpc c :
  cpu_wf c -> is_u32 src -> src <> 0 -> Z.testbit extra 11 = true ->
  unimplemented060 p extra = false ->
  let a := sdividend extra c in
  let q := Z.quot a (s32 src) in
  m68k_divl p opcode src extra oldpc c =
  (1, if (-2147483648 <=? q) && (q <? 2147483648) then div_store extra q (Z.rem a (s32 src)) c
      else set_flags (divsl_overflow p extra a (s32 src) (rflags c)) c).
Proof.
  intros Hwf Hs Hz Hsg Hu a q. unfold m68k_divl.
  destruct (extra_bits extra) as [-> ->]. unfold unimplemented060 in Hu. rewrite Hu, Hsg.
  fold (qreg extra) (rreg extra).
  pose proof (dreg_range c _ Hwf (qreg_range extra)) as Hq.
  pose proof (dreg_range c _ Hwf (rreg_range extra)) as Hr.
  rewrite dividend64_signed by done.
  change (if Z.testbit extra 10 then _ else _) with a.
  assert (Ha : -9223372036854775808 <= a < 9223372036854775808).
  { subst a. unfold sdividend. pose proof (s32_range (m68k_dreg c (rreg extra))).
    pose proof (s32_range (m68k_dreg c (qreg extra))). unfold is_s32, is_u32 in *.
    case_match; lia. }
  clearbody a. destruct (Z.eqb_spec src 0); [done|].
  pose proof (s32_range src) as Hss.
  assert (Hs0 : s32 src <> 0) by (unfold is_u32, s32 in *; Z.div_mod_to_equations; lia).
  destruct ((u64 a =? 0x8000000000000000) && (src =? 0xffffffff)) eqn:E.
  { apply andb_true_iff in E as [E1 E2]. apply Z.eqb_eq in E1, E2. subst src.
    assert (a = -9223372036854775808) as -> by (unfold u64 in E1; Z.div_mod_to_equations; lia).
    done. }
  assert (Hqr : -9223372036854775808 <= q < 9223372036854775808).
  { subst q. apply andb_false_iff in E. rewrite !Z.eqb_neq in E.
    pose proof (Z.quot_rem' a (s32 src)) as Eq. pose proof (Z.rem_bound_abs a (s32 src) Hs0) as Hb.
    assert (Habs : Z.abs (Z.quot a (s32 src)) <= Z.abs a / Z.abs (s32 src))
      by (rewrite <- Z.quot_div_nonneg, <- Z.quot_abs by lia; lia).
    destruct (decide (Z.abs (s32 src) = 1)) as [E1|E1].
    - rewrite E1, Z.div_1_r in Habs.
      destruct (decide (a = -9223372036854775808)); [|lia]. subst a.
      assert (s32 src = 1 \/ s32 src = -1) as [Es|Es] by lia; rewrite Es; [vm_compute; done|].
      exfalso. destruct E as [E|E]; apply E; [reflexivity|].
      unfold is_u32, s32 in *; Z.div_mod_to_equations; lia.
    - assert (Z.abs a / Z.abs (s32 src) <= Z.abs a / 2)
        by (apply Z.div_le_compat_l; lia).
      Z.div_mod_to_equations; lia. }
  rewrite sign33_test by done. fold q.
  destruct ((-2147483648 <=? q) && (q <? 2147483648)); [|done]. cbn [negb].
  do 2 f_equal. pose proof (Z.rem_bound_abs a (s32 src) Hs0) as Hb.
  pose proof (Z.rem_sign_nz a (s32 src) Hs0) as Hsgn. unfold is_s32 in Hss.
  rewrite s32_small by (unfold is_s32; lia).
  destruct (Z.ltb_spec (Z.rem a (s32 src)) 0), (Z.ltb_spec a 0); cbn; try done; lia.
Qed.

(** Unsigned division. *)
Lemma divl_unsigned_eq p opcode src extra oldpc c :
  cpu_wf c -> is_u32 src -> src <> 0 -> Z.testbit extra 11 = false ->
  unimplemented060 p extra = false ->
  let a := udividend extra c in
  m68k_divl p opcode src extra oldpc c =
  (1, if a / src <? 4294967296 then div_store extra (a / src) (a mod src) c
      else set_flags (divul_overflow p extra (s64 a) (rflags c)) c).
Proof.
  intros Hwf Hs Hz Hsg Hu a. unfold m68k_divl.
  destruct (extra_bits extra) as [-> ->]. unfold unimplemented060 in Hu. rewrite Hu, Hsg.
  fold (qreg extra) (rreg extra).
  pose proof (dreg_range c _ Hwf (qreg_range extra)) as Hq.
  pose proof (dreg_range c _ Hwf (rreg_range extra)) as Hr.
  rewrite dividend64_unsigned, u32_small by done.
  change (if Z.testbit extra 10 then _ else _) with a. clearbody a.
  destruct (Z.eqb_spec src 0); [done|].
  destruct (Z.ltb_spec 0xffffffff (a / src)), (Z.ltb_spec (a / src) 4294967296); lia || done.
Qed.

(** What storing quotient and remainder does to the machine. *)
Definition div_result (extra q r : Z) (c c' : cpu) : Prop :=
  m68k_dreg c' (qreg extra) = u32 q /\
  (rreg extra <> qreg extra -> m68k_dreg c' (rreg extra) = u32 r) /\
  (forall k, 0 <= k < 8 -> k <> qreg extra -> k <> rreg extra -> m68k_dreg c' k = m68k_dreg c k) /\
  (forall k, 0 <= k < 8 -> m68k_areg c' k = m68k_areg c k) /\
  GET_VFLG (rflags c') = 0 /\ GET_CFLG (rflags c') = 0 /\
  GET_ZFLG (rflags c') = Z.b2z (s32 q =? 0) /\ GET_NFLG (rflags c') = Z.b2z (s32 q <? 0) /\
  xflg (rflags c') = xflg (rflags c) /\ trace c' = trace c.

Lemma div_store_result extra q r c : cpu_wf c -> div_result extra q r c (div_store extra q r c).
Proof.
  intros Hwf. unfold div_store. fold (qreg extra) (rreg extra).
  pose proof (qreg_range extra). pose proof (rreg_range extra).
  set (c0 := set_flags _ c). assert (Hwf0 : cpu_wf c0) by done.
  assert (Hwf1 : cpu_wf (set_dreg (rreg extra) r c0)) by auto with crange.
  unfold div_result. split_and!; try (subst c0; cbn [set_dreg set_flags rflags]; autorewrite with flags; done).
  - by apply dreg_set_dreg.
  - intros. rewrite dreg_set_dreg_ne by lia. by apply dreg_set_dreg.
  - intros. by rewrite !dreg_set_dreg_ne by lia.
  - intros. by rewrite !areg_set_dreg by lia.
Qed.

Lemma divsl_overflow_VC p extra a d f :
  GET_VFLG (divsl_overflow p extra a d f) = 1 /\ GET_CFLG (divsl_overflow p extra a d f) = 0.
Proof. unfold divsl_overflow. repeat case_match; autorewrite with flags; done. Qed.

Lemma divul_overflow_VC p extra a f :
  GET_VFLG (divul_overflow p extra a f) = 1 /\ GET_CFLG (divul_overflow p extra a f) = 0.
Proof. unfold divul_overflow. repeat case_match; autorewrite with flags; done. Qed.

(** An overflow leaves every register alone and reports V. *)
Definition div_overflowed (c c' : cpu) : Prop :=
  regs c' = regs c /\ GET_VFLG (rflags c') = 1 /\ GET_CFLG (rflags c') = 0 /\ trace c' = trace c.

(** C28: DIVS.L with a nonzero divisor stores the truncated quotient and the
    remainder with the dividend's sign exactly when the quotient fits in 32
    signed bits, with the flags of the quotient; otherwise it changes no
    register and sets V.  Both the 32-bit and the 64-bit dividend forms. *)
Theorem divsl_correct p opcode src extra oldpc c :
  cpu_wf c -> is_u32 src -> src <> 0 -> Z.testbit extra 11 = true ->
  unimplemented060 p extra = false ->
  let a := sdividend extra c in
  let q := Z.quot a (s32 src) in
  let '(rc, c') := m68k_divl p opcode src extra oldpc c in
  rc = 1 /\
  (-2147483648 <= q < 2147483648 -> div_result extra q (Z.rem a (s32 src)) c c') /\
  (~ (-2147483648 <= q < 2147483648) -> div_overflowed c c') /\
  a = q * s32 src + Z.rem a (s32 src) /\ Z.abs (Z.rem a (s32 src)) < Z.abs (s32 src).
Proof.
  intros Hwf Hs Hz Hsg Hu a q. rewrite divl_signed_eq by done. fold a. fold q.
  assert (Hs0 : s32 src <> 0) by (unfold is_u32, s32 in *; Z.div_mod_to_equations; lia).
  split; [done|]. split; [|split; [|split]].
  - intros Hr. destruct (Z.leb_spec (-2147483648) q), (Z.ltb_spec q 2147483648); try lia.
    by apply div_store_result.
  - intros Hr. destruct (Z.leb_spec (-2147483648) q), (Z.ltb_spec q 2147483648); try lia;
      cbn [andb]; (split; [done|]); destruct (divsl_overflow_VC p extra a (s32 src) (rflags c)); done.
  - subst q. rewrite (Z.quot_rem' a (s32 src)) at 1. lia.
  - by apply Z.rem_bound_abs.
Qed.

Definition cpu_d (l : list Z) : cpu := {| cpu0 with regs := l |}.
Definition regs_ex : list Z := [7; 0xFFFFFFFF; 0xFFFFFF00; 3; 4; 5; 6; 7; 0; 0; 0; 0; 0; 0; 0; 0].

Lemma divsl_correct_witness :
  let c := cpu_d regs_ex in
  let '(rc, c') := m68k_divl (mk_prefs 68020 0 0 false false) 0 7 0x2C01 0 c in
  rc = 1 /\
  (-2147483648 <= Z.quot (-256) 7 < 2147483648 -> div_result 0x2C01 (Z.quot (-256) 7) (Z.rem (-256) 7) c c') /\
  (~ (-2147483648 <= Z.quot (-256) 7 < 2147483648) -> div_overflowed c c') /\
  -256 = Z.quot (-256) 7 * 7 + Z.rem (-256) 7 /\ Z.abs (Z.rem (-256) 7) < Z.abs 7.
Proof.
  apply (divsl_correct (mk_prefs 68020 0 0 false false) 0 7 0x2C01 0 (cpu_d regs_ex));
    [apply (bool_decide_unpack _); vm_compute; exact I|word|discriminate|reflexivity|reflexivity].
Defined.

(** DIVU.L with a nonzero divisor stores quotient and remainder exactly
    when the quotient fits in 32 bits, and otherwise changes no register and
    sets V. *)
Lemma divul_correct p opcode src extra oldpc c :
  cpu_wf c -> is_u32 src -> src <> 0 -> Z.testbit extra 11 = false ->
  unimplemented060 p extra = false ->
  let a := udividend extra c in
  let '(rc, c') := m68k_divl p opcode src extra oldpc c in
  rc = 1 /\
  (a / src < 4294967296 -> div_result extra (a / src) (a mod src) c c') /\
  (4294967296 <= a / src -> div_overflowed c c') /\
  a = a / src * src + a mod src /\ 0 <= a mod src < src.
Proof.
  intros Hwf Hs Hz Hsg Hu a. rewrite divl_unsigned_eq by done. fold a. unfold is_u32 in Hs.
  split; [done|]. split; [|split; [|split]].
  - intros Hr. destruct (Z.ltb_spec (a / src) 4294967296); [|lia]. by apply div_store_result.
  - intros Hr. destruct (Z.ltb_spec (a / src) 4294967296); [lia|]. split; [done|].
    destruct (divul_overflow_VC p extra (s64 a) (rflags c)); done.
  - pose proof (Z.div_mod a src). lia.
  - apply Z.mod_pos_bound. lia.
Qed.

Lemma divul_correct_witness :
  let c := cpu_d regs_ex in
  let '(rc, c') := m68k_divl (mk_prefs 68020 0 0 false false) 0 7 0x2003 0 c in
  rc = 1 /\
  (0xFFFFFF00 / 7 < 4294967296 -> div_result 0x2003 (0xFFFFFF00 / 7) (0xFFFFFF00 mod 7) c c') /\
  (4294967296 <= 0xFFFFFF00 / 7 -> div_overflowed c c') /\
  0xFFFFFF00 = 0xFFFFFF00 / 7 * 7 + 0xFFFFFF00 mod 7 /\ 0 <= 0xFFFFFF00 mod 7 < 7.
Proof.
  apply (divul_correct (mk_prefs 68020 0 0 false false) 0 7 0x2003 0 (cpu_d regs_ex));
    [apply (bool_decide_unpack _); vm_compute; exact I|word|discriminate|reflexivity|reflexivity].
Defined.

(** A zero divisor takes the divide-by-zero exception: DIVS.L and DIVU.L
    return 0, raise exactly one vector-5 exception with the old PC and leave
    every register unchanged, on every model. *)
Lemma divl_by_zero p opcode extra oldpc c :
  unimplemented060 p extra = false ->
  let '(rc, c') := m68k_divl p opcode 0 extra oldpc c in
  rc = 0 /\ regs c' = regs c /\ trace c' = trace c ++ [Exception_cpu_oldpc 5 oldpc] /\
  GET_CFLG (rflags c') = 0 /\ rctl c' = rctl c /\ xflg (rflags c') = xflg (rflags c).
Proof.
  intros Hu. unfold m68k_divl. destruct (extra_bits extra) as [-> ->].
  unfold unimplemented060 in Hu. rewrite Hu. cbn [Z.eqb].
  destruct (Z.testbit extra 11); cbn; unfold divsl_divbyzero, divul_divbyzero; cbn;
    destruct (68040 <=? cpu_model p); autorewrite with flags; done.
Qed.

Lemma divl_by_zero_witness :
  let c := cpu_d regs_ex in
  let '(rc, c') := m68k_divl (mk_prefs 68030 0 0 false false) 0 0 0x2801 0x1234 c in
  rc = 0 /\ regs c' = regs c /\ trace c' = trace c ++ [Exception_cpu_oldpc 5 0x1234] /\
  GET_CFLG (rflags c') = 0 /\ rctl c' = rctl c /\ xflg (rflags c') = xflg (rflags c).
Proof.
  apply (divl_by_zero (mk_prefs 68030 0 0 false false) 0 0x2801 0x1234 (cpu_d regs_ex)). reflexivity.
Defined.

(** ** Properties of long multiplication *)

(** The exact product, signed or unsigned as bit 11 of the extension word says. *)
Definition mull_product (extra src : Z) (c : cpu) : Z :=
  if Z.testbit extra 11 then s32 (m68k_dreg c (qreg extra)) * s32 src
  else m68k_dreg c (qreg extra) * src.

(** The product is representable in a 32-bit register of that signedness. *)
Definition fits32 (extra P : Z) : bool :=
  if Z.testbit extra 11 then (-2147483648 <=? P) && (P <? 2147483648) else P <? 4294967296.

(** The whole effect of a long multiplication, as a specification. *)
Definition mull_result (p : prefs) (extra P : Z) (c c' : cpu) : Prop :=
  (if Z.testbit extra 10 then
     (rreg extra <> qreg extra ->
        m68k_dreg c' (qreg extra) = u32 P /\ m68k_dreg c' (rreg extra) = u32 (P / 4294967296)) /\
     (rreg extra = qreg extra ->
        m68k_dreg c' (qreg extra) = if 68040 <=? cpu_model p then u32 P else u32 (P / 4294967296)) /\
     GET_VFLG (rflags c') = 0 /\
     GET_ZFLG (rflags c') = Z.b2z (P =? 0) /\ GET_NFLG (rflags c') = Z.b2z (Z.testbit P 63)
   else
     m68k_dreg c' (qreg extra) = u32 P /\
     (rreg extra <> qreg extra -> m68k_dreg c' (rreg extra) = m68k_dreg c (rreg extra)) /\
     GET_VFLG (rflags c') = Z.b2z (negb (fits32 extra P)) /\
     GET_ZFLG (rflags c') = Z.b2z (u32 P =? 0) /\ GET_NFLG (rflags c') = Z.b2z (Z.testbit P 31)) /\
  (forall k, 0 <= k < 8 -> k <> qreg extra -> k <> rreg extra -> m68k_dreg c' k = m68k_dreg c k) /\
  (forall k, 0 <= k < 8 -> m68k_areg c' k = m68k_areg c k) /\
  GET_CFLG (rflags c') = 0 /\ xflg (rflags c') = xflg (rflags c) /\ trace c' = trace c.

Lemma s32_neg_testbit a : (s32 a <? 0) = Z.testbit a 31.
Proof.
  rewrite Z.testbit_eqb by lia. change (2 ^ 31) with 2147483648.
  destruct (Z.ltb_spec (s32 a) 0), (Z.eqb_spec ((a / 2147483648) mod 2) 1); try done;
    exfalso; unfold s32 in *; Z.div_mod_to_equations; lia.
Qed.

Lemma s64_neg_testbit a : (s64 a <? 0) = Z.testbit a 63.
Proof.
  rewrite Z.testbit_eqb by lia. change (2 ^ 63) with 9223372036854775808.
  destruct (Z.ltb_spec (s64 a) 0), (Z.eqb_spec ((a / 9223372036854775808) mod 2) 1); try done;
    exfalso; unfold s64 in *; Z.div_mod_to_equations; lia.
Qed.

Lemma s32_zero_u32 a : (s32 a =? 0) = (u32 a =? 0).
Proof.
  destruct (Z.eqb_spec (s32 a) 0), (Z.eqb_spec (u32 a) 0); try done;
    exfalso; unfold s32, u32 in *; Z.div_mod_to_equations; lia.
Qed.

Lemma high32_test a : 0 <= a < 18446744073709551616 ->
  ((a .& 0xffffffff00000000) != 0) = negb (a <? 4294967296).
Proof.
  intros Ha. change 0xffffffff00000000 with (Z.ones 32 << 32).
  rewrite land_shl_mask, field_mod, Z.shiftl_mul_pow2 by lia.
  change (2 ^ 32) with 4294967296.
  destruct (Z.eqb_spec (a / 4294967296 mod 4294967296 * 4294967296) 0), (Z.ltb_spec a 4294967296);
    try done; exfalso; Z.div_mod_to_equations; lia.
Qed.

Lemma mull_product_range extra src c : cpu_wf c -> is_u32 src ->
  let P := mull_product extra src c in
  if Z.testbit extra 11 then -9223372036854775808 <= P < 9223372036854775808
  else 0 <= P < 18446744073709551616.
Proof.
  intros Hwf Hs P. subst P. unfold mull_product.
  pose proof (dreg_range c _ Hwf (qreg_range extra)) as Hd.
  pose proof (s32_range src). pose proof (s32_range (m68k_dreg c (qreg extra))).
  unfold is_u32, is_s32 in *. destruct (Z.testbit extra 11); nia.
Qed.

Lemma dreg_set_flags f c k : m68k_dreg (set_flags f c) k = m68k_dreg c k.
Proof. done. Qed.
Lemma areg_set_flags f c k : m68k_areg (set_flags f c) k = m68k_areg c k.
Proof. done. Qed.

Lemma mul_store64_regs p extra P c : cpu_wf c ->
  let c' := mul_store64 p extra P c in
  (rreg extra <> qreg extra ->
     m68k_dreg c' (qreg extra) = u32 P /\ m68k_dreg c' (rreg extra) = u32 (P / 4294967296)) /\
  (rreg extra = qreg extra ->
     m68k_dreg c' (qreg extra) = if 68040 <=? cpu_model p then u32 P else u32 (P / 4294967296)) /\
  (forall k, 0 <= k < 8 -> k <> qreg extra -> k <> rreg extra -> m68k_dreg c' k = m68k_dreg c k) /\
  (forall k, 0 <= k < 8 -> m68k_areg c' k = m68k_areg c k).
Proof.
  intros Hwf. unfold mul_store64. fold (qreg extra) (rreg extra).
  rewrite Z.shiftr_div_pow2 by lia. change (2 ^ 32) with 4294967296.
  pose proof (qreg_range extra). pose proof (rreg_range extra).
  destruct (68040 <=? cpu_model p); cbn zeta; split_and!; intros;
    try (rewrite !areg_set_dreg by lia; done); try (rewrite !dreg_set_dreg_ne by lia; done).
  - split; [|rewrite dreg_set_dreg_ne by lia]; apply dreg_set_dreg; auto with crange.
  - apply dreg_set_dreg; auto with crange.
  - split; [rewrite dreg_set_dreg_ne by lia|]; apply dreg_set_dreg; auto with crange.
  - match goal with E : rreg extra = qreg extra |- _ => rewrite E end.
    apply dreg_set_dreg; auto with crange.
Qed.

(** MULS.L and MULU.L store the exact product: the 64-bit form puts its
    halves in Dh:Dl (when both name one register the low half survives on a
    68040/060 and the high half on a 68020/030), the 32-bit form its low half
    with V set exactly when the product does not fit; N and Z follow the result,
    X and every other register are unchanged. *)
Theorem mull_correct p opcode src extra c :
  cpu_wf c -> is_u32 src -> unimplemented060 p extra = false ->
  let '(rc, c') := m68k_mull p opcode src extra c in
  rc = 1 /\ mull_result p extra (mull_product extra src c) c c'.
Proof.
  intros Hwf Hs Hu. pose proof (mull_product_range extra src c Hwf Hs) as HP.
  unfold m68k_mull, mull_result, fits32. destruct (extra_bits extra) as [-> ->].
  unfold unimplemented060 in Hu. rewrite Hu.
  unfold mull_product in *. fold (qreg extra) in *.
  pose proof (dreg_range c _ Hwf (qreg_range extra)) as Hd. rewrite (u32_small _ Hd).
  destruct (Z.testbit extra 11); cbn zeta in HP |- *;
    set (P := _ * _) in *; clearbody P; [rewrite (s64_small P) by exact HP|rewrite (u64_small P) by exact HP].
  all: destruct (mul_store64_regs p extra P c Hwf) as (M1 & M2 & M3 & M4).
  all: pose proof (qreg_range extra); pose proof (rreg_range extra).
  all: destruct (Z.testbit extra 10); split; try done.
  all: cbn [set_flags set_dreg rflags trace]; autorewrite with flags.
  all: rewrite ?sign33_test, ?high32_test, ?s32_neg_testbit, ?s64_neg_testbit, ?s32_zero_u32 by exact HP.
  all: split_and!; try apply M1; try apply M2; try apply M3; try apply M4; try done.
  all: intros; rewrite ?dreg_set_flags, ?areg_set_flags;
    rewrite ?dreg_set_dreg_ne, ?areg_set_dreg, ?dreg_set_dreg by (lia || done); try done.
  all: try (unfold mul_store64; by case_match).
  all: try (by rewrite <- s64_neg_testbit, (s64_small P HP)).
  all: match goal with |- context [negb ?b] => destruct b end; cbn [negb];
    autorewrite with flags; done.
Qed.

Lemma mull_correct_witness :
  let c := cpu_d regs_ex in
  let '(rc, c') := m68k_mull (mk_prefs 68030 0 0 false false) 0 0x80000001 0x2C03 c in
  rc = 1 /\ mull_result (mk_prefs 68030 0 0 false false) 0x2C03 (-256 * -2147483647) c c'.
Proof.
  apply (mull_correct (mk_prefs 68030 0 0 false false) 0 0x80000001 0x2C03 (cpu_d regs_ex));
    [apply (bool_decide_unpack _); vm_compute; exact I|word|reflexivity].
Defined.
