(* ===== verification/Frames.v ===== *)
(** * Frames: exception stack frames ([cpu/newcpu_common.cpp])

    [Exception_build_stack_frame] pushes the frame of a given format on the
    supervisor stack, [Exception_build_stack_frame_common] picks the format
    from the exception number.  The pushes go through the [Bus] interface; the
    theorems compare the memory they leave with the frame layouts of the
    processor manuals, written lowest address first. *)

From S2P Require Import Prelude Flags Cpu.
From Stdlib Require Import ZArith Lia Bool.
From stdpp Require Import base list gmap.
Open Scope Z_scope.
Open Scope cint_scope.

(** The fields of [struct regstruct] and the MMU globals a frame is made of. *)
Record fault := mk_fault {
  instruction_pc : Z; trace_pc : Z; cur_pc : Z;
  irc : Z; write_buffer : Z; read_buffer : Z;
  fp_opword : Z; fp_ea : Z; fp_unimp_pend : Z; fpu_exp_pre : bool; fp_unimp_ins : bool;
  mmu_fault_addr : Z; mmu_effective_addr : Z; mmu_ssw : Z;
  wb2_address : Z; wb3_data : Z; wb3_status : Z; wb2_status : Z;
  prefetch020 : list Z; prefetch020_valid : list Z;
  pipeline_pos : Z; pipeline_r8 : list Z; pipeline_stop : Z;
  mmu040_move16 : list Z;
  mmu030_ad : list Z; mmu030_idx : Z; mmu030_idx_done : Z;
  mmu030_state : list Z; mmu030_fmovem_store : list Z; mmu030_disp_store : list Z;
  mmu030_opcode : Z; mm030_stageb_address : Z }.

Definition MAX_MMU030_ACCESS : nat := 9.
Definition MMU030_SSW_RW := 0x0040.
Definition MMU030_STATEFLAG1_FMOVEM := 0x2000.

(** The program state: registers, memory, fault information. *)
Record xstate (M : Type) := mk_x { xc : cpu; xm : M; xf : fault }.
Arguments mk_x {M}. Arguments xc {M}. Arguments xm {M}. Arguments xf {M}.

Definition exception_pc (nr : Z) (f : fault) : Z :=
  if (nr =? 2) || (nr =? 3) || (nr =? 4) || (nr =? 8) || (nr =? 10) || (nr =? 11)
  then instruction_pc f else cur_pc f.

Section Frames.
Context {M : Type} `{Bus M} (p : prefs).
Implicit Types (x : xstate M).

Definition A7 x : Z := m68k_areg (xc x) 7.

(** [m68k_areg(regs, 7) -= n]. *)
Definition drop (n : Z) x : xstate M := {| x with xc := set_areg 7 (A7 x - n) (xc x) |}.
(** The two pushes: decrement A7, then [x_put_long] or [x_put_word] at it. *)
Definition pushl (v : Z) x : xstate M :=
  let x := drop 4 x in {| x with xm := put_long (A7 x) v (xm x) |}.
Definition pushw (v : Z) x : xstate M :=
  let x := drop 2 x in {| x with xm := put_word (A7 x) v (xm x) |}.
Definition set_fault (g : fault -> fault) x : xstate M := {| x with xf := g (xf x) |}.

Definition nth (l : list Z) (i : nat) : Z := l !!! i.

Definition frame_2 (oldpc : Z) x : xstate M := pushl oldpc x.
Definition frame_3 x : xstate M := pushl (fp_ea (xf x)) x.
Definition frame_4 (oldpc ssw : Z) x : xstate M := pushl oldpc (pushl ssw x).

(** 68040 access error: the loop pushes [mmu040_move16[3..0]]. *)
Definition frame_7 (ssw : Z) x : xstate M :=
  let f := xf x in
  let x := fold_left (fun x i => pushl (nth (mmu040_move16 f) i) x) [3; 2; 1; 0]%nat x in
  let x := pushl 0 x in
  let x := pushl 0 x in
  let x := pushl (wb2_address f) x in
  let x := pushl (wb3_data f) x in
  let x := pushl (mmu_fault_addr f) x in
  let x := pushl (mmu_fault_addr f) x in
  let x := pushw 0 x in
  let x := pushw (wb2_status f) x in
  let x := set_fault (fun f => {| f with wb2_status := 0 |}) x in
  let x := pushw (wb3_status f) x in
  let x := set_fault (fun f => {| f with wb3_status := 0 |}) x in
  let x := pushw ssw x in
  pushl (mmu_effective_addr f) x.

(** 68010 bus/address error: three of the words are skipped, not written. *)
Definition frame_8 (ssw : Z) x : xstate M :=
  let f := xf x in
  let inb := read_buffer f in
  let out := write_buffer f in
  let x := Nat.iter 15 (pushw 0) x in
  let x := pushw 0x0000 x in
  let x := pushw (irc f) x in
  let x := drop 2 x in
  let x := pushw inb x in
  let x := drop 2 x in
  let x := pushw out x in
  let x := drop 2 x in
  let x := pushw (mmu_fault_addr f) x in
  let x := pushw (mmu_fault_addr f >> 16) x in
  pushw ssw x.

Definition frame_9 (oldpc : Z) x : xstate M :=
  let f := xf x in
  let x := pushl (fp_ea f) x in
  let x := pushl (fp_opword f) x in
  pushl oldpc x.

(** The prefetch and pipeline state saved in the two 68030 frames. *)
Definition pipeline_word (f : fault) : Z :=
  let v i := truth (nth (prefetch020_valid f) i) in
  let ps := (if v 0%nat then 1 else 0) .| (if v 1%nat then 2 else 0) .| (if v 2%nat then 4 else 0) in
  let ps := ps .| ((nth (pipeline_r8 f) 0 .& 7) << 8) in
  let ps := ps .| ((nth (pipeline_r8 f) 1 .& 7) << 11) in
  let ps := ps .| ((pipeline_pos f .& 15) << 16) in
  ps .| ((pipeline_stop f .& 15) << 20).

(** [for (i = 0; i < mmu030_idx_done + 1; i++)] then
    [while (i < MAX_MMU030_ACCESS)]: the access log and its padding. *)
Definition ad_pad (f : fault) (i : nat) : Z :=
  if truth (nth (mmu030_state f) 1 .& MMU030_STATEFLAG1_FMOVEM) then
    if Nat.eqb i (MAX_MMU030_ACCESS - 2) then nth (mmu030_fmovem_store f) 0
    else if Nat.eqb i (MAX_MMU030_ACCESS - 1) then nth (mmu030_fmovem_store f) 1
    else 0
  else 0.

Definition push_ad x : xstate M :=
  let n := Z.to_nat (mmu030_idx_done (xf x) + 1) in
  let x := fold_left (fun x i => pushl (nth (mmu030_ad (xf x)) i) x) (seq 0 n) x in
  fold_left (fun x i => pushl (ad_pad (xf x) i) x) (seq n (MAX_MMU030_ACCESS - n)) x.

(** The part of the long frame (0xB) above the short one. *)
Definition frame_B_high (ssw : Z) x : xstate M :=
  let x := if negb (truth (ssw .& MMU030_SSW_RW))
           then set_fault (fun f => {| f with mmu030_ad :=
                  <[Z.to_nat (mmu030_idx_done f) := wb3_data f]> (mmu030_ad f) |}) x
           else x in
  let x := push_ad x in
  let f := xf x in
  let x := pushw ((mmu030_idx f .& 0xf) .| ((mmu030_idx_done f .& 0xf) << 4) .| (wb2_status f << 8)) x in
  let x := pushw (nth (mmu030_state f) 2 .| (wb3_status f << 8)) x in
  let x := pushw (wb2_address f) x in
  let x := pushw (nth (mmu030_state f) 0) x in
  let x := pushl (mmu_fault_addr f) x in
  let ps := pipeline_word f in
  let ps := if mmu030_opcode f =? -1 then ps .| 0x80000000 else ps in
  let x := pushl ps x in
  let x := pushl (mm030_stageb_address f) x in
  pushl (nth (mmu030_disp_store f) 1) x.

(** The common part of 0xA and 0xB ([case 0xA], reached by fall-through). *)
Definition frame_A (ssw format : Z) x : xstate M :=
  let f := xf x in
  let x := pushl (if format =? 0xb then nth (mmu030_disp_store f) 0 else pipeline_word f) x in
  let x := pushl (wb3_data f) x in
  let x := pushl (if format =? 0xb
                  then (mmu030_opcode f .& 0xffff) .| (nth (prefetch020 f) 0 << 16)
                  else irc f .| (nth (prefetch020 f) 0 << 16)) x in
  let x := pushl (mmu_fault_addr f) x in
  let x := pushw (nth (prefetch020 f) 2) x in
  let x := pushw (nth (prefetch020 f) 1) x in
  let x := pushw ssw x in
  pushw (wb2_address f) x.

(** The words every frame ends with. *)
Definition frame_end (currpc nr format : Z) x : xstate M :=
  let x := pushw ((format << 12) .| (nr * 4)) x in
  let x := pushl currpc x in
  pushw (sr (xc x)) x.

Definition Exception_build_stack_frame (oldpc currpc ssw nr format : Z) x : xstate M :=
  match format with
  | 0x0 | 0x1 => frame_end currpc nr format x
  | 0x2 => frame_end currpc nr format (frame_2 oldpc x)
  | 0x3 => frame_end currpc nr format (frame_3 x)
  | 0x4 => frame_end currpc nr format (frame_4 oldpc ssw x)
  | 0x7 => frame_end currpc nr format (frame_7 ssw x)
  | 0x8 => frame_end currpc nr format (frame_8 ssw x)
  | 0x9 => frame_end currpc nr format (frame_9 oldpc x)
  | 0xB => frame_end currpc nr format (frame_A ssw format (frame_B_high ssw x))
  | 0xA => frame_end currpc nr format (frame_A ssw format x)
  | _ => x
  end.

Definition is_interrupt_frame_vector (nr : Z) : bool :=
  ((24 <=? nr) && (nr <? 24 + 8)) || ((0x40 <=? nr) && (nr <=? 0x4f)).

Definition Exception_build_stack_frame_common (oldpc currpc ssw nr vector_nr : Z) x : xstate M :=
  let f := xf x in
  if is_interrupt_frame_vector nr then
    Exception_build_stack_frame oldpc currpc (mmu_ssw f) vector_nr 0x0 x
  else if (nr =? 5) || (nr =? 6) || (nr =? 7) || (nr =? 9) then
    let oldpc := if nr =? 9 then trace_pc f else oldpc in
    if cpu_model p <=? 68010
    then Exception_build_stack_frame oldpc currpc (mmu_ssw f) vector_nr 0x0 x
    else Exception_build_stack_frame oldpc currpc (mmu_ssw f) vector_nr 0x2 x
  else if (nr =? 60) || (nr =? 61) then
    Exception_build_stack_frame oldpc (instruction_pc f) (mmu_ssw f) vector_nr 0x0 x
  else if (48 <=? nr) && (nr <=? 55) then
    let packed := (cpu_model p =? 68060) && (nr =? 55) && (fp_unimp_pend f =? 2) in
    if fpu_exp_pre f then
      if packed then Exception_build_stack_frame (fp_ea f) (instruction_pc f) 0 vector_nr 0x2 x
      else Exception_build_stack_frame oldpc (instruction_pc f) 0 vector_nr 0x0 x
    else
      if packed then Exception_build_stack_frame (fp_ea f) currpc 0 vector_nr 0x2 x
      else Exception_build_stack_frame oldpc currpc 0 vector_nr 0x3 x
  else if (nr =? 11) && fp_unimp_ins f then
    let x := set_fault (fun f => {| f with fp_unimp_ins := false |}) x in
    if ((cpu_model p =? 68060) && ((fpu_model p =? 0) || truth (pcr (rctl (xc x)) .& 2)))
       || ((cpu_model p =? 68040) && (fpu_model p =? 0))
    then Exception_build_stack_frame (fp_ea f) currpc (instruction_pc f) vector_nr 0x4 x
    else Exception_build_stack_frame (fp_ea f) currpc (mmu_ssw f) vector_nr 0x2 x
  else Exception_build_stack_frame oldpc currpc (mmu_ssw f) vector_nr 0x0 x.

Definition Exception_build_68000_address_error_stack_frame
    (mode opcode fault_addr pc : Z) x : xstate M :=
  let mode := mode .| (opcode .& Z.lnot 31) in
  let x := drop 14 x in
  let m := xm x in
  let m := put_word (A7 x + 0) mode m in
  let m := put_long (A7 x + 2) fault_addr m in
  let m := put_word (A7 x + 6) opcode m in
  let m := put_word (A7 x + 8) (sr (xc x)) m in
  let m := put_long (A7 x + 10) pc m in
  {| x with xm := m |}.
End Frames.

(** ** Register fix-up, privilege tests *)

(** [struct mmufixup]: a register to roll back when an access faults. *)
Record mmufixup := mk_fix { fx_reg : Z; fx_value : Z }.

Definition restore_one (m : mmufixup) (c : cpu) : mmufixup * cpu :=
  if 0 <=? fx_reg m then ({| m with fx_reg := -1 |}, set_areg (fx_reg m .& 15) (fx_value m) c)
  else (m, c).

Definition cpu_restore_fixup (m : mmufixup * mmufixup) (c : cpu) : (mmufixup * mmufixup) * cpu :=
  let '(m0, c) := restore_one m.1 c in
  let '(m1, c) := restore_one m.2 c in
  ((m0, m1), c).

Definition privileged_copro_instruction (p : prefs) (opcode : Z) (c : cpu) : bool :=
  if (68020 <=? cpu_model p) && negb (reg_s c) then
    let reg := opcode .& 7 in
    let mode := (opcode >> 3) .& 7 in
    let id := (opcode >> 9) .& 7 in
    let modelok := (cpu_model p <? 68040) || ((68040 <=? cpu_model p) && (id =? 1)) in
    if (opcode .& 0xf1c0) =? 0xf100 then
      ((mode =? 2) || ((4 <=? mode) && (mode <=? 6)) || ((mode =? 7) && ((reg =? 0) || (reg =? 1))))
      && modelok
    else if (opcode .& 0xf1c0) =? 0xf140 then
      ((mode =? 2) || (mode =? 3) || ((5 <=? mode) && (mode <=? 6)) || ((mode =? 7) && (reg <=? 3)))
      && modelok
    else false
  else false.

(** The three fields of [struct instr] the test reads; [table68k] is the
    decoded instruction table the core builds at start-up. *)
Record instr := mk_instr { is_ILLG : bool; plev : Z; is_sz_word : bool }.

Definition generates_group1_exception (p : prefs) (table68k : Z -> instr) (opcode : Z) (c : cpu) : bool :=
  let t := table68k opcode in
  if is_ILLG t then true
  else if negb (reg_s c) then
    if (plev t =? 1) && (68000 <? cpu_model p) then true
    else if plev t =? 2 then true
    else (plev t =? 3) && is_sz_word t
  else false.

(** ** Frame layouts, lowest address first

    [None] is a word the processor reserves without writing it. *)
Definition W (v : Z) : list (option Z) := [Some v].
Definition L (v : Z) : list (option Z) := [Some (v >> 16); Some v].

(** The access log of a long 68030 frame: the logged values, the faulting
    write's data in the last slot, then padding up to nine entries. *)
Definition ad_log (ssw : Z) (f : fault) : list Z :=
  let n := Z.to_nat (mmu030_idx_done f) in
  let ad := if Z.testbit ssw 6 then mmu030_ad f else <[n := wb3_data f]> (mmu030_ad f) in
  take (S n) ad ++ map (ad_pad f) (seq (S n) (MAX_MMU030_ACCESS - S n)).

Definition frame_layout (srv oldpc currpc ssw nr format : Z) (f : fault) : option (list (option Z)) :=
  let head := W srv ++ L currpc ++ W ((format << 12) .| (nr * 4)) in
  let short first ibuf :=
    W (wb2_address f) ++ W ssw ++ W (nth (prefetch020 f) 1) ++ W (nth (prefetch020 f) 2) ++
    L (mmu_fault_addr f) ++ L (ibuf .| (nth (prefetch020 f) 0 << 16)) ++ L (wb3_data f) ++ L first in
  match format with
  | 0x0 | 0x1 => Some head
  | 0x2 => Some (head ++ L oldpc)
  | 0x3 => Some (head ++ L (fp_ea f))
  | 0x4 => Some (head ++ L oldpc ++ L ssw)
  | 0x7 => Some (head ++ L (mmu_effective_addr f) ++ W ssw ++ W (wb3_status f) ++ W (wb2_status f) ++
                 W 0 ++ L (mmu_fault_addr f) ++ L (mmu_fault_addr f) ++ L (wb3_data f) ++
                 L (wb2_address f) ++ L 0 ++ L 0 ++
                 L (nth (mmu040_move16 f) 0) ++ L (nth (mmu040_move16 f) 1) ++
                 L (nth (mmu040_move16 f) 2) ++ L (nth (mmu040_move16 f) 3))
  | 0x8 => Some (head ++ W ssw ++ W (mmu_fault_addr f >> 16) ++ W (mmu_fault_addr f) ++ [None] ++
                 W (write_buffer f) ++ [None] ++ W (read_buffer f) ++ [None] ++ W (irc f) ++
                 replicate 16 (Some 0))
  | 0x9 => Some (head ++ L oldpc ++ L (fp_opword f) ++ L (fp_ea f))
  | 0xA => Some (head ++ short (pipeline_word f) (irc f))
  | 0xB => Some (head ++ short (nth (mmu030_disp_store f) 0) (mmu030_opcode f .& 0xffff) ++
                 L (nth (mmu030_disp_store f) 1) ++ L (mm030_stageb_address f) ++
                 L (if mmu030_opcode f =? -1 then pipeline_word f .| 0x80000000 else pipeline_word f) ++
                 L (mmu_fault_addr f) ++ W (nth (mmu030_state f) 0) ++ W (wb2_address f) ++
                 W (nth (mmu030_state f) 2 .| (wb3_status f << 8)) ++
                 W ((mmu030_idx f .& 0xf) .| ((mmu030_idx_done f .& 0xf) << 4) .| (wb2_status f << 8)) ++
                 concat (map L (reverse (ad_log ssw f))))
  | _ => None
  end.

(** The length in words of each format, as the manuals give it. *)
Definition frame_words (format : Z) : nat :=
  match format with
  | 0 | 1 => 4 | 2 | 3 => 6 | 4 => 8 | 7 => 30 | 8 => 29 | 9 => 10 | 10 => 16 | 11 => 46 | _ => 0
  end.

Section Layout.
Context {M : Type} `{BusLaws M}.
Implicit Types (x : xstate M) (ws : list (option Z)).

(** The byte at [b] after the words [ws] have been laid out from [a] up over
    the memory [m0]. *)
Fixpoint frame_byte (m0 : M) (a : Z) ws (b : Z) : Z :=
  match ws with
  | [] => get_byte m0 b
  | w :: ws =>
    match w with
    | Some v => if u32 b =? u32 a then u8 (v >> 8)
                else if u32 b =? u32 (a + 1) then u8 v else frame_byte m0 (a + 2) ws b
    | None => frame_byte m0 (a + 2) ws b
    end
  end.

(** [x] is [x0] with the words [ws] pushed. *)
Definition pushed (x0 : xstate M) ws x : Prop :=
  xc x = set_areg 7 (A7 x0 - 2 * Z.of_nat (length ws)) (xc x0) /\
  forall b, get_byte (xm x) b = frame_byte (xm x0) (A7 x) ws b.

Lemma u32_eqb_add a a' b k : u32 a = u32 a' -> (u32 b =? u32 (a + k)) = (u32 b =? u32 (a' + k)).
Proof. intros E. replace (u32 (a' + k)) with (u32 (a + k)); [done|]. word. Qed.

Lemma frame_byte_ext m0 ws b : forall a a', u32 a = u32 a' -> frame_byte m0 a ws b = frame_byte m0 a' ws b.
Proof.
  induction ws as [|[v|] ws IH]; intros a a' E; cbn; [done| |].
  - rewrite (u32_eqb_add a a' b 1), E by done. by rewrite (IH (a + 2) (a' + 2)) by word.
  - apply IH. word.
Qed.

Lemma areg7_set c v : cpu_wf c -> m68k_areg (set_areg 7 v c) 7 = u32 v.
Proof. intros. apply areg_set_areg; [done|lia]. Qed.

Lemma set_areg_twice n v w c : set_areg n v (set_areg n w c) = set_areg n v c.
Proof. unfold set_areg. cbn. by rewrite list_insert_insert_eq. Qed.

Lemma pushed_A7 x0 ws x : cpu_wf (xc x0) -> pushed x0 ws x -> A7 x = u32 (A7 x0 - 2 * Z.of_nat (length ws)).
Proof. intros Hwf [E _]. unfold A7 at 1. rewrite E. by apply areg7_set. Qed.

Lemma set_areg_u32 n v w c : u32 v = u32 w -> set_areg n v c = set_areg n w c.
Proof. intros E. unfold set_areg. by rewrite E. Qed.

Lemma pushed_nil x0 : cpu_wf (xc x0) -> pushed x0 [] x0.
Proof.
  intros [Hl Hf]. split; [|done]. unfold set_areg, A7, m68k_areg. cbn.
  assert (exists v, regs (xc x0) !! 15%nat = Some v) as [v Hv] by (apply lookup_lt_is_Some_2; lia).
  change (Z.to_nat (8 + 7)) with 15%nat.
  rewrite (list_lookup_total_correct _ _ _ Hv), Z.sub_0_r, u32_small by (by eapply Forall_lookup_1 in Hf).
  rewrite list_insert_id by done. by destruct (xc x0).
Qed.

Lemma pushed_set_fault x0 ws x g : pushed x0 ws x -> pushed x0 ws (set_fault g x).
Proof. done. Qed.

Lemma drop_pushed k x0 ws ws' x : cpu_wf (xc x0) -> pushed x0 ws x ->
  k = 2 * (Z.of_nat (length ws') - Z.of_nat (length ws)) ->
  xc (drop k x) = set_areg 7 (A7 x0 - 2 * Z.of_nat (length ws')) (xc x0).
Proof.
  intros Hwf Hp Hk. unfold drop. cbn [xc]. rewrite (pushed_A7 _ _ _ Hwf Hp).
  destruct Hp as [E _]. rewrite E, set_areg_twice. apply set_areg_u32. word.
Qed.

Lemma A7_drop k x0 x ws : cpu_wf (xc x0) -> pushed x0 ws x -> A7 (drop k x) = u32 (A7 x - k).
Proof.
  intros Hwf [E _]. unfold A7 at 1, drop. cbn [xc]. apply areg7_set. rewrite E. auto with crange.
Qed.

Lemma pushed_skip x0 ws x : cpu_wf (xc x0) -> pushed x0 ws x -> pushed x0 (None :: ws) (drop 2 x).
Proof.
  intros Hwf Hp. split; [apply (drop_pushed 2 x0 ws); auto; cbn; lia|].
  intros b. cbn. rewrite (A7_drop 2 x0 x ws) by done. destruct Hp as [_ ->].
  apply frame_byte_ext. word.
Qed.

Lemma pushed_word v x0 ws x : cpu_wf (xc x0) -> pushed x0 ws x -> pushed x0 (W v ++ ws) (pushw v x).
Proof.
  intros Hwf Hp. split; [apply (drop_pushed 2 x0 ws); auto; cbn; lia|].
  intros b. unfold pushw. cbn [xm frame_byte W app].
  change (A7 {| xc := _; xm := _; xf := _ |}) with (A7 (drop 2 x)). cbn [drop xm].
  rewrite put_word_bytes, !get_put_byte. rewrite (A7_drop 2 x0 x ws) by done.
  rewrite (Z.eqb_sym (u32 b)), (Z.eqb_sym (u32 b)).
  destruct Hp as [_ Hm]. rewrite Hm.
  destruct (Z.eqb_spec (u32 (u32 (A7 x - 2) + 1)) (u32 b)) as [E1|E1],
    (Z.eqb_spec (u32 (u32 (A7 x - 2))) (u32 b)) as [E2|E2]; try done.
  - exfalso. word.
  - apply frame_byte_ext. word.
Qed.

Lemma pushed_long v x0 ws x : cpu_wf (xc x0) -> pushed x0 ws x -> pushed x0 (L v ++ ws) (pushl v x).
Proof.
  intros Hwf Hp. split; [apply (drop_pushed 4 x0 ws); auto; cbn [app length L]; lia|].
  intros b. unfold pushl. cbn [xm frame_byte L app].
  change (A7 {| xc := _; xm := _; xf := _ |}) with (A7 (drop 4 x)). cbn [drop xm].
  rewrite put_long_words, !put_word_bytes, !get_put_byte. rewrite (A7_drop 4 x0 x ws) by done.
  destruct Hp as [_ Hm]. rewrite Hm. set (a := u32 (A7 x - 4)).
  rewrite !(Z.eqb_sym (u32 b)).
  destruct (Z.eqb_spec (u32 (a + 2 + 1)) (u32 b)), (Z.eqb_spec (u32 (a + 2)) (u32 b)),
    (Z.eqb_spec (u32 (a + 1)) (u32 b)), (Z.eqb_spec (u32 a) (u32 b)); try done; try (exfalso; word).
  apply frame_byte_ext. subst a. word.
Qed.

(** Pushing a list of longs whose values come from the fault record. *)
Lemma pushed_fold (g : fault -> nat -> Z) (l : list nat) : forall x0 ws x, cpu_wf (xc x0) -> pushed x0 ws x ->
  pushed x0 (concat (map L (reverse (map (g (xf x)) l))) ++ ws)
         (fold_left (fun x i => pushl (g (xf x) i) x) l x) /\
  xf (fold_left (fun x i => pushl (g (xf x) i) x) l x) = xf x.
Proof.
  induction l as [|i l IH]; intros x0 ws x Hwf Hp; [done|]. cbn [fold_left map].
  destruct (IH x0 _ (pushl (g (xf x) i) x) Hwf (pushed_long _ _ _ _ Hwf Hp)) as [Hp' Hx].
  split; [|by rewrite Hx]. rewrite reverse_cons, map_app, concat_app, <- app_assoc. cbn [map concat app].
  exact Hp'.
Qed.

Lemma map_seq_take (l : list Z) n : (n <= length l)%nat -> map (nth l) (seq 0 n) = take n l.
Proof.
  intros Hn. apply list_eq. intros i. rewrite list_lookup_fmap.
  destruct (decide (i < n)%nat).
  - rewrite lookup_seq_lt, lookup_take_lt by lia. cbn. unfold nth.
    destruct (lookup_lt_is_Some_2 l i) as [v Hv]; [lia|]. by rewrite Hv, (list_lookup_total_correct _ _ _ Hv).
  - rewrite lookup_seq_ge, lookup_take_ge by lia. done.
Qed.

(** The access log ends up above the rest of the long frame. *)
Definition log_ok (f : fault) : Prop :=
  0 <= mmu030_idx_done f < Z.of_nat MAX_MMU030_ACCESS /\ length (mmu030_ad f) = S MAX_MMU030_ACCESS.

Lemma pushed_ad x0 ws x : cpu_wf (xc x0) -> pushed x0 ws x -> log_ok (xf x) ->
  let n := Z.to_nat (mmu030_idx_done (xf x)) in
  pushed x0 (concat (map L (reverse (take (S n) (mmu030_ad (xf x)) ++
                map (ad_pad (xf x)) (seq (S n) (MAX_MMU030_ACCESS - S n))))) ++ ws) (push_ad x) /\
  xf (push_ad x) = xf x.
Proof.
  intros Hwf Hp [Hi Hl] n. unfold push_ad.
  replace (Z.to_nat (mmu030_idx_done (xf x) + 1)) with (S n) by lia.
  destruct (pushed_fold (fun f => nth (mmu030_ad f)) (seq 0 (S n)) x0 ws x Hwf Hp) as [Hp1 Hx1].
  destruct (pushed_fold ad_pad (seq (S n) (MAX_MMU030_ACCESS - S n)) x0 _ _ Hwf Hp1) as [Hp2 Hx2].
  split; [|by rewrite Hx2, Hx1].
  rewrite map_seq_take in Hp2 by (unfold MAX_MMU030_ACCESS in *; lia).
  rewrite Hx1 in Hp2. rewrite reverse_app, map_app, concat_app, <- app_assoc. exact Hp2.
Qed.

Lemma ad_log_length ssw f : log_ok f -> length (ad_log ssw f) = MAX_MMU030_ACCESS.
Proof.
  intros [Hi Hl]. unfold ad_log. rewrite length_app, length_map, length_seq, length_take.
  destruct (Z.testbit ssw 6); rewrite ?length_insert, Hl; unfold MAX_MMU030_ACCESS in *; lia.
Qed.

(** Peel the pushes of a frame off the goal, last one first. *)
Ltac pushes :=
  cbv zeta;
  repeat lazymatch goal with
  | |- pushed _ (_ ++ _) (pushw _ _) => apply pushed_word; [assumption|]
  | |- pushed _ (_ ++ _) (pushl _ _) => apply pushed_long; [assumption|]
  | |- pushed _ (_ ++ _) (drop 2 _) => apply pushed_skip; [assumption|]
  | |- pushed _ _ (set_fault _ _) => apply pushed_set_fault
  end.

Lemma pushed_frame_A ssw format x0 ws x : cpu_wf (xc x0) -> pushed x0 ws x ->
  let f := xf x in
  pushed x0 ((W (wb2_address f) ++ W ssw ++ W (nth (prefetch020 f) 1) ++ W (nth (prefetch020 f) 2) ++
    L (mmu_fault_addr f) ++
    L (if format =? 0xb then (mmu030_opcode f .& 0xffff) .| (nth (prefetch020 f) 0 << 16)
       else irc f .| (nth (prefetch020 f) 0 << 16)) ++
    L (wb3_data f) ++
    L (if format =? 0xb then nth (mmu030_disp_store f) 0 else pipeline_word f)) ++ ws)
    (frame_A ssw format x).
Proof.
  intros Hwf Hp f. unfold frame_A. rewrite <- ?app_assoc.
  pushes. exact Hp.
Qed.

Lemma pushed_frame_B_high ssw x0 x : cpu_wf (xc x0) -> pushed x0 [] x -> log_ok (xf x) ->
  let f := xf x in
  pushed x0 (L (nth (mmu030_disp_store f) 1) ++ L (mm030_stageb_address f) ++
    L (if mmu030_opcode f =? -1 then pipeline_word f .| 0x80000000 else pipeline_word f) ++
    L (mmu_fault_addr f) ++ W (nth (mmu030_state f) 0) ++ W (wb2_address f) ++
    W (nth (mmu030_state f) 2 .| (wb3_status f << 8)) ++
    W ((mmu030_idx f .& 0xf) .| ((mmu030_idx_done f .& 0xf) << 4) .| (wb2_status f << 8)) ++
    concat (map L (reverse (ad_log ssw f)))) (frame_B_high ssw x) /\
  exists ad, xf (frame_B_high ssw x) = {| f with mmu030_ad := ad |}.
Proof.
  intros Hwf Hp Hlog f. unfold frame_B_high.
  set (x1 := if negb _ then _ else x).
  assert (Hx1 : pushed x0 [] x1 /\ log_ok (xf x1) /\
    xf x1 = {| f with mmu030_ad := if Z.testbit ssw 6 then mmu030_ad f
                                   else <[Z.to_nat (mmu030_idx_done f) := wb3_data f]> (mmu030_ad f) |}).
  { subst x1. change MMU030_SSW_RW with (2 ^ 6). rewrite land_pow2_truth by lia.
    destruct (Z.testbit ssw 6); cbn [negb].
    - split_and!; try done. subst f. by destruct (xf x).
    - split_and!; try done; apply Hlog || (split; [apply Hlog|]). cbn. rewrite length_insert. apply Hlog. }
  clearbody x1. destruct Hx1 as (Hp1 & Hlog1 & Hf1).
  destruct (pushed_ad x0 [] x1 Hwf Hp1 Hlog1) as [Hp2 Hf2]. rewrite Hf2, app_nil_r in *.
  split; [|eexists; exact (eq_trans Hf2 Hf1)].
  rewrite Hf1 in Hp2 |- *. unfold ad_log. pushes. exact Hp2.
Qed.

Lemma pushed_frame_7 ssw x : cpu_wf (xc x) -> let f := xf x in
  pushed x (L (mmu_effective_addr f) ++ W ssw ++ W (wb3_status f) ++ W (wb2_status f) ++
    W 0 ++ L (mmu_fault_addr f) ++ L (mmu_fault_addr f) ++ L (wb3_data f) ++
    L (wb2_address f) ++ L 0 ++ L 0 ++
    L (nth (mmu040_move16 f) 0) ++ L (nth (mmu040_move16 f) 1) ++
    L (nth (mmu040_move16 f) 2) ++ L (nth (mmu040_move16 f) 3)) (frame_7 ssw x).
Proof.
  intros Hwf f. unfold frame_7. rewrite <- (app_nil_r (L (nth _ 3))). cbn [fold_left].
  pushes. by apply pushed_nil.
Qed.

Lemma pushed_iter n v x0 ws x : cpu_wf (xc x0) -> pushed x0 ws x ->
  pushed x0 (replicate n (Some v) ++ ws) (Nat.iter n (pushw v) x) /\ xf (Nat.iter n (pushw v) x) = xf x.
Proof.
  intros Hwf Hp. induction n as [|n [IH1 IH2]]; [done|]. cbn.
  split; [by apply pushed_word|exact IH2].
Qed.

Lemma pushed_frame_8 ssw x : cpu_wf (xc x) -> let f := xf x in
  pushed x (W ssw ++ W (mmu_fault_addr f >> 16) ++ W (mmu_fault_addr f) ++ [None] ++
    W (write_buffer f) ++ [None] ++ W (read_buffer f) ++ [None] ++ W (irc f) ++
    replicate 16 (Some 0)) (frame_8 ssw x).
Proof.
  intros Hwf f. unfold frame_8.
  destruct (pushed_iter 15 0 x [] x Hwf (pushed_nil x Hwf)) as [Hp _]. rewrite app_nil_r in Hp.
  change (replicate 16 (Some 0)) with (W 0 ++ replicate 15 (Some 0)).
  set (y := Nat.iter 15 (pushw 0) x) in *. clearbody y. pushes. exact Hp.
Qed.

Lemma layout_formats srv oldpc currpc ssw nr format f ws :
  frame_layout srv oldpc currpc ssw nr format f = Some ws -> In format [0;1;2;3;4;7;8;9;0xA;0xB].
Proof.
  unfold frame_layout. destruct format as [|q|q]; [cbn; lia| |done].
  do 4 (destruct q as [q|q|]; try done; try (cbn; lia)).
Qed.

(** The frame every format builds is the one of its layout. *)
Lemma frame_pushed oldpc currpc ssw nr format x ws :
  cpu_wf (xc x) -> (format = 0xB -> log_ok (xf x)) ->
  frame_layout (sr (xc x)) oldpc currpc ssw nr format (xf x) = Some ws ->
  pushed x ws (Exception_build_stack_frame oldpc currpc ssw nr format x).
Proof.
  intros Hwf Hlog E. pose proof (pushed_nil x Hwf) as Hp.
  assert (Hend : forall y ws', pushed x ws' y ->
    pushed x ((W (sr (xc x)) ++ L currpc ++ W ((format << 12) .| (nr * 4))) ++ ws') (frame_end currpc nr format y)).
  { intros y ws' Hy. unfold frame_end. cbn zeta.
    replace (sr (xc (pushl _ _))) with (sr (xc x)) by (destruct Hy as [Hy _]; cbn; rewrite Hy; done).
    rewrite <- !app_assoc. pushes. exact Hy. }
  pose proof (layout_formats _ _ _ _ _ _ _ _ E) as Hf. cbn [In] in Hf.
  assert (Hlong : forall v y ws', pushed x ws' y -> pushed x (L v ++ ws') (pushl v y)) by (intros; by apply pushed_long).
  repeat (destruct Hf as [<-|Hf]); try done; cbn [frame_layout] in E; injection E as <-;
    cbn [Exception_build_stack_frame]; try (apply Hend).
  - exact Hp.
  - exact Hp.
  - exact (Hlong _ _ [] Hp).
  - exact (Hlong _ _ [] Hp).
  - exact (Hlong _ _ _ (Hlong ssw _ [] Hp)).
  - by apply pushed_frame_7.
  - by apply pushed_frame_8.
  - exact (Hlong _ _ _ (Hlong (fp_opword _) _ _ (Hlong (fp_ea _) _ [] Hp))).
  - pose proof (pushed_frame_A ssw 0xA x [] x Hwf Hp) as HA. exact HA.
  - destruct (pushed_frame_B_high ssw x x Hwf Hp (Hlog eq_refl)) as [HB [ad Hf2]].
    pose proof (pushed_frame_A ssw 0xB x _ _ Hwf HB) as HA. rewrite Hf2 in HA. exact HA.
Qed.

(** Reading the frame back. *)
Lemma frame_byte_word m0 ws : forall a i w,
  2 * Z.of_nat (length ws) <= 4294967296 -> ws !! i = Some (Some w) ->
  frame_byte m0 a ws (a + 2 * Z.of_nat i) = u8 (w >> 8) /\
  frame_byte m0 a ws (a + 2 * Z.of_nat i + 1) = u8 w.
Proof.
  induction ws as [|o ws IH]; intros a [|i] w Hl E; try done; cbn [length] in Hl.
  - injection E as ->. cbn [frame_byte]. rewrite Z.add_0_r.
    rewrite !Z.eqb_refl. destruct (Z.eqb_spec (u32 (a + 1)) (u32 a)); [exfalso; word|done].
  - cbn [lookup list_lookup] in E.
    replace (a + 2 * Z.of_nat (S i)) with (a + 2 + 2 * Z.of_nat i) by lia.
    assert (Hi : (i < length ws)%nat) by (by eapply lookup_lt_Some).
    destruct (IH (a + 2) i w ltac:(lia) E) as [E1 E2].
    destruct o as [v|]; cbn [frame_byte]; [|done].
    repeat match goal with |- context [u32 ?s =? u32 ?t] =>
      destruct (Z.eqb_spec (u32 s) (u32 t)); [exfalso; word|] end.
    done.
Qed.

Lemma frame_byte_outside m0 ws : forall a b,
  2 * Z.of_nat (length ws) <= 4294967296 ->
  2 * Z.of_nat (length ws) <= u32 (b - a) \/ ws !! Z.to_nat (u32 (b - a) / 2) = Some None ->
  frame_byte m0 a ws b = get_byte m0 b.
Proof.
  induction ws as [|o ws IH]; intros a b Hl Hb; [done|]. cbn [frame_byte length] in *.
  destruct (decide (2 <= u32 (b - a))) as [Hk|Hk].
  - assert (E2 : u32 (b - (a + 2)) = u32 (b - a) - 2) by word.
    assert (IHb : frame_byte m0 (a + 2) ws b = get_byte m0 b).
    { apply IH; [lia|]. rewrite E2. destruct Hb as [Hb|Hb]; [left; lia|right].
      rewrite <- Hb. replace (u32 (b - a) / 2) with (Z.succ ((u32 (b - a) - 2) / 2)) by (Z.div_mod_to_equations; lia).
      rewrite Z2Nat.inj_succ by (Z.div_mod_to_equations; lia). done. }
    destruct o; [|exact IHb].
    destruct (Z.eqb_spec (u32 b) (u32 a)); [exfalso; word|].
    destruct (Z.eqb_spec (u32 b) (u32 (a + 1))); [exfalso; word|done].
  - pose proof (u32_range (b - a)) as Hr. unfold is_u32 in Hr.
    destruct Hb as [Hb|Hb]; [lia|].
    assert (E0 : u32 (b - a) / 2 = 0) by (Z.div_mod_to_equations; lia).
    rewrite E0 in Hb. injection Hb as ->. apply IH; [lia|left]. word.
Qed.

Lemma concat_L_length l : length (concat (map L l)) = (2 * length l)%nat.
Proof. induction l as [|v l IH]; [done|]. cbn [map concat]. rewrite length_app, IH. cbn. lia. Qed.

Lemma layout_length srv oldpc currpc ssw nr format f ws :
  (format = 0xB -> log_ok f) ->
  frame_layout srv oldpc currpc ssw nr format f = Some ws -> length ws = frame_words format.
Proof.
  intros Hlog E. pose proof (layout_formats _ _ _ _ _ _ _ _ E) as Hf. cbn [In] in Hf.
  repeat (destruct Hf as [<-|Hf]); try done; cbn [frame_layout] in E; injection E as <-; try done.
  cbn [length app W L]. rewrite concat_L_length, length_reverse, ad_log_length by (by apply Hlog). done.
Qed.

Lemma frame_words_small format : (frame_words format <= 46)%nat.
Proof. unfold frame_words. repeat case_match; lia. Qed.

Lemma u16_halves w : u8 (w >> 8) * 256 + u8 w = u16 w.
Proof. rewrite Z.shiftr_div_pow2 by lia. change (2 ^ 8) with 256. word. Qed.

(** A pushed word reads back through the bus. *)
Lemma pushed_read x0 ws x i w : (length ws <= 46)%nat -> pushed x0 ws x -> ws !! i = Some (Some w) ->
  get_word (xm x) (A7 x + 2 * Z.of_nat i) = u16 w.
Proof.
  intros Hl [_ Hb] E. rewrite get_word_bytes, !Hb.
  destruct (frame_byte_word (xm x0) ws (A7 x) i w) as [-> ->]; [lia|done|]. apply u16_halves.
Qed.

(** C29: for every known format, [Exception_build_stack_frame] leaves on the
    stack exactly the frame of the processor manual: A7 drops by the length of
    the frame, each word of the layout reads back at its offset from the new
    A7, every byte outside the frame (and in the words the 68010 frame only
    reserves) is unchanged, and so is every other register. *)
Theorem stack_frame_layout oldpc currpc ssw nr format x ws :
  cpu_wf (xc x) -> (format = 0xB -> log_ok (xf x)) ->
  frame_layout (sr (xc x)) oldpc currpc ssw nr format (xf x) = Some ws ->
  let x' := Exception_build_stack_frame oldpc currpc ssw nr format x in
  let n := Z.of_nat (frame_words format) in
  length ws = frame_words format /\
  A7 x' = u32 (A7 x - 2 * n) /\ xc x' = set_areg 7 (A7 x - 2 * n) (xc x) /\
  (forall i w, ws !! i = Some (Some w) -> get_word (xm x') (A7 x' + 2 * Z.of_nat i) = u16 w) /\
  (forall b, 2 * n <= u32 (b - A7 x') \/ ws !! Z.to_nat (u32 (b - A7 x') / 2) = Some None ->
             get_byte (xm x') b = get_byte (xm x) b).
Proof.
  intros Hwf Hlog E x' n. pose proof (frame_pushed _ _ _ _ _ _ _ Hwf Hlog E) as Hp. fold x' in Hp.
  pose proof (layout_length _ _ _ _ _ _ _ _ Hlog E) as Hl.
  pose proof (frame_words_small format) as Hs. subst n. rewrite <- Hl in *.
  split_and!; [done|by apply pushed_A7|apply Hp| |].
  - intros i w Hi. by eapply pushed_read.
  - intros b Hb. destruct Hp as [_ ->]. apply frame_byte_outside; [lia|done].
Qed.

(** ** The format the common builder picks *)

Definition packed_real (p : prefs) (nr : Z) (f : fault) : bool :=
  (cpu_model p =? 68060) && (nr =? 55) && (fp_unimp_pend f =? 2).
Definition no_fpu (p : prefs) (c : cpu) : bool :=
  ((cpu_model p =? 68060) && ((fpu_model p =? 0) || Z.testbit (pcr (rctl c)) 1))
  || ((cpu_model p =? 68040) && (fpu_model p =? 0)).

Definition common_format (p : prefs) (nr : Z) (f : fault) (c : cpu) : Z :=
  if (nr =? 5) || (nr =? 6) || (nr =? 7) || (nr =? 9) then if cpu_model p <=? 68010 then 0 else 2
  else if (48 <=? nr) && (nr <=? 55) then
    if packed_real p nr f then 2 else if fpu_exp_pre f then 0 else 3
  else if (nr =? 11) && fp_unimp_ins f then if no_fpu p c then 4 else 2
  else 0.

Definition common_pc (currpc nr : Z) (f : fault) : Z :=
  if (nr =? 60) || (nr =? 61) || ((48 <=? nr) && (nr <=? 55) && fpu_exp_pre f)
  then instruction_pc f else currpc.

(** What the processor finds at the top of the frame. *)
Definition frame_head (srv pc nr format : Z) x : Prop :=
  get_word (xm x) (A7 x) = u16 srv /\ get_long (xm x) (A7 x + 2) = u32 pc /\
  get_word (xm x) (A7 x + 6) = format * 4096 + nr * 4.

Lemma build_head oldpc currpc ssw nr format x :
  cpu_wf (xc x) -> In format [0; 2; 3; 4] -> 0 <= nr < 1024 ->
  let x' := Exception_build_stack_frame oldpc currpc ssw nr format x in
  frame_head (sr (xc x)) currpc nr format x' /\
  A7 x' = u32 (A7 x - 2 * Z.of_nat (frame_words format)).
Proof.
  intros Hwf Hf Hn x'.
  assert (Hlog : format = 0xB -> log_ok (xf x)) by (intros ->; cbn in Hf; lia).
  assert (exists ws, frame_layout (sr (xc x)) oldpc currpc ssw nr format (xf x) =
     Some (W (sr (xc x)) ++ L currpc ++ W ((format << 12) .| (nr * 4)) ++ ws)) as [ws E].
  { cbn [In] in Hf. repeat (destruct Hf as [<-|Hf]); [..|done]; cbn [frame_layout]; rewrite <- ?app_assoc;
      [by exists []|by eexists..]. }
  pose proof (frame_pushed _ _ _ _ _ _ _ Hwf Hlog E) as Hp. fold x' in Hp.
  pose proof (layout_length _ _ _ _ _ _ _ _ Hlog E) as Hl.
  pose proof (frame_words_small format) as Hs.
  rewrite <- Hl in Hs. pose proof (fun i w => pushed_read x _ x' i w Hs Hp) as Hr.
  split; [|rewrite <- Hl; by apply pushed_A7].
  split_and!.
  - rewrite <- (Hr 0%nat (sr (xc x))) by done. f_equal. lia.
  - rewrite get_long_words.
    replace (get_word (xm x') (A7 x' + 2)) with (u16 (currpc >> 16))
      by (by rewrite <- (Hr 1%nat (currpc >> 16))).
    replace (A7 x' + 2 + 2) with (A7 x' + 2 * Z.of_nat 2) by lia. rewrite (Hr 2%nat currpc eq_refl).
    rewrite Z.shiftr_div_pow2 by lia. change (2 ^ 16) with 65536. word.
  - replace (A7 x' + 6) with (A7 x' + 2 * Z.of_nat 3) by lia.
    rewrite (Hr 3%nat _ eq_refl), Z.lor_comm, lor_shl_add by lia.
    change (2 ^ 12) with 4096. rewrite u16_small; [lia|]. cbn in Hf. unfold is_u16. lia.
Qed.

(** [Exception_build_stack_frame_common] builds, for every exception
    number and processor, a frame whose top holds SR, the PC the exception
    returns to (the faulting instruction for unimplemented integer and
    pre-instruction FPU exceptions, the next one otherwise) and the
    format/vector word with the format the processor uses for that exception. *)
Lemma common_frame_head p oldpc currpc ssw nr vector_nr x :
  cpu_wf (xc x) -> 0 <= vector_nr < 1024 ->
  let x' := Exception_build_stack_frame_common p oldpc currpc ssw nr vector_nr x in
  let format := common_format p nr (xf x) (xc x) in
  frame_head (sr (xc x)) (common_pc currpc nr (xf x)) vector_nr format x' /\
  A7 x' = u32 (A7 x - 2 * Z.of_nat (frame_words format)) /\
  (nr = 11 -> fp_unimp_ins (xf x') = false).
Proof.
  intros Hwf Hv.
  assert (HB : forall oldpc currpc ssw format y, xc y = xc x -> In format [0; 2; 3; 4] ->
    let x' := Exception_build_stack_frame oldpc currpc ssw vector_nr format y in
    (nr = 11 -> fp_unimp_ins (xf y) = false) ->
    frame_head (sr (xc x)) currpc vector_nr format x' /\
    A7 x' = u32 (A7 x - 2 * Z.of_nat (frame_words format)) /\
    (nr = 11 -> fp_unimp_ins (xf x') = false)).
  { intros o cu ss fo y Ey Hf x' Hy. unfold A7 at 2. rewrite <- Ey in *.
    destruct (build_head o cu ss vector_nr fo y Hwf Hf Hv) as [H1 H2].
    split_and!; [exact H1|exact H2|].
    cbn [In] in Hf. repeat (destruct Hf as [<-|Hf]); done. }
  unfold Exception_build_stack_frame_common, common_format, common_pc, packed_real, no_fpu.
  destruct (is_interrupt_frame_vector nr) eqn:EI.
  { assert (24 <= nr < 32 \/ 64 <= nr <= 79) as Hi
      by (unfold is_interrupt_frame_vector in EI; lia).
    rewrite !(proj2 (Z.eqb_neq nr _)) by lia. cbn [orb andb].
    assert ((48 <=? nr) && (nr <=? 55) = false) as -> by lia.
    apply HB; [done|cbn; auto|lia]. }
  destruct ((nr =? 5) || (nr =? 6) || (nr =? 7) || (nr =? 9)) eqn:E5.
  { rewrite !(proj2 (Z.eqb_neq nr _)) by lia. cbn [orb].
    assert ((48 <=? nr) && (nr <=? 55) = false) as -> by lia. cbn [andb].
    destruct (cpu_model p <=? 68010); apply HB; try done; try (cbn; auto; fail); lia. }
  destruct ((nr =? 60) || (nr =? 61)) eqn:E60.
  { assert ((48 <=? nr) && (nr <=? 55) = false) as -> by lia.
    rewrite !(proj2 (Z.eqb_neq nr _)) by lia. cbn [orb andb]. apply HB; [done|cbn; auto|lia]. }
  destruct ((48 <=? nr) && (nr <=? 55)) eqn:E48.
  { cbn [orb andb].
    destruct (fpu_exp_pre (xf x)), ((cpu_model p =? 68060) && _ && _); apply HB;
      try done; try (cbn; auto; fail); lia. }
  cbn [orb andb]. destruct ((nr =? 11) && fp_unimp_ins (xf x)) eqn:E11.
  { cbn zeta. set (y := set_fault _ x). change (rctl (xc y)) with (rctl (xc x)).
    rewrite (land_pow2_truth (pcr (rctl (xc x))) 1 ltac:(lia) : truth (_ .& 2) = _).
    match goal with |- context [if ?c then _ else _] => destruct c end;
      apply HB; try done; cbn; auto. }
  apply HB; [done|cbn; auto|]. intros ->. by destruct (fp_unimp_ins (xf x)).
Qed.

(** Comparing addresses through their offset from a base. *)
Lemma u32_off_eqb a b k : 0 <= k < 4294967296 -> (u32 (a + k) =? u32 b) = (k =? u32 (b - a)).
Proof.
  intros Hk. destruct (Z.eqb_spec k (u32 (b - a))); [apply Z.eqb_eq|apply Z.eqb_neq]; word.
Qed.
Lemma u32_base_eqb a b : (u32 a =? u32 b) = (0 =? u32 (b - a)).
Proof. rewrite <- (u32_off_eqb a b 0) by lia. by rewrite Z.add_0_r. Qed.

(** The 68000 bus/address error frame: fourteen bytes, lowest first the
    access word (function code and direction, with the upper bits of the opcode
    in its undocumented bits), the fault address, the opcode, SR and PC;
    nothing else in memory changes. *)
Lemma address_error_frame mode opcode fault_addr pc x :
  cpu_wf (xc x) ->
  let x' := Exception_build_68000_address_error_stack_frame mode opcode fault_addr pc x in
  A7 x' = u32 (A7 x - 14) /\
  forall b, get_byte (xm x') b =
    frame_byte (xm x) (A7 x') (W (mode .| (opcode .& Z.lnot 31)) ++ L fault_addr ++ W opcode ++
                               W (sr (xc x)) ++ L pc) b.
Proof.
  intros Hwf x'. assert (E : A7 x' = u32 (A7 x - 14)) by (by apply areg7_set).
  split; [done|]. intros b. subst x'. unfold Exception_build_68000_address_error_stack_frame in *.
  cbn [xm xc] in *. change (A7 {| xc := _; xm := _; xf := _ |}) with (A7 (drop 14 x)) in *.
  rewrite !put_long_words, !put_word_bytes, !get_put_byte. cbn [W L app frame_byte drop xm].
  set (a := A7 (drop 14 x)) in *. clearbody a.
  rewrite <- ?Z.add_assoc, !(Z.eqb_sym (u32 b)). cbn [Z.add Pos.add Pos.succ].
  rewrite !u32_off_eqb, !u32_base_eqb by lia. generalize (u32 (b - a)). intros k.
  repeat match goal with |- context [?j =? k] =>
    destruct (Z.eqb_spec j k) as [<-|]; [reflexivity|] end.
  rewrite !(proj2 (Z.eqb_neq _ k)) by lia. reflexivity.
Qed.
End Layout.

(** ** Concrete frames *)

Definition fault_ex : fault :=
  mk_fault 0x1000 0x0FFE 0x1004 0x4E71 0xAAAA 0xBBBB 0xF200 0x2468 0 false true
    0x00DFF00C 0x00123456 0x0145 0x00020001 0xDEADBEEF 0x85 0x05
    [1; 2; 3; 4] [1; 0; 1; 0] 2 [3; 0] 1 [10; 11; 12; 13]
    [100; 101; 102; 103; 104; 105; 106; 107; 108; 109] 3 2 [7; 0x2000; 9] [0x11111111; 0x22222222] [0x33333333; 0x44444444]
    0x4E75 0x00777777.

Definition x_ex : xstate (gmap Z Z) := mk_x (set_areg 7 0x10000 cpu0) ∅ fault_ex.

Lemma stack_frame_layout_witness :
  exists ws, frame_layout 0x2700 0x1000 0x1004 0x0105 2 0xB fault_ex = Some ws /\
  let x' := Exception_build_stack_frame 0x1000 0x1004 0x0105 2 0xB x_ex in
  length ws = 46%nat /\ A7 x' = 0x10000 - 92 /\ xc x' = set_areg 7 (0x10000 - 92) (xc x_ex) /\
  (forall i w, ws !! i = Some (Some w) -> get_word (xm x') (A7 x' + 2 * Z.of_nat i) = u16 w) /\
  (forall b, 2 * 46 <= u32 (b - A7 x') \/ ws !! Z.to_nat (u32 (b - A7 x') / 2) = Some None ->
             get_byte (xm x') b = get_byte (xm x_ex) b).
Proof.
  eexists. split; [reflexivity|].
  apply (stack_frame_layout 0x1000 0x1004 0x0105 2 0xB x_ex).
  - apply (bool_decide_unpack _). vm_compute. exact I.
  - intros _. split; [vm_compute; split; [discriminate|reflexivity]|reflexivity].
  - reflexivity.
Defined.

Lemma common_frame_head_witness :
  let p := mk_prefs 68040 0 68040 false false in
  let x' := Exception_build_stack_frame_common p 0x1000 0x1004 0 11 11 x_ex in
  frame_head 0x2700 0x1004 11 4 x' /\ A7 x' = 0x10000 - 16 /\
  (11 = 11 -> fp_unimp_ins (xf x') = false).
Proof.
  apply (common_frame_head (mk_prefs 68040 0 68040 false false) 0x1000 0x1004 0 11 11 x_ex).
  - apply (bool_decide_unpack _). vm_compute. exact I.
  - lia.
Defined.

Lemma address_error_frame_witness :
  let x' := Exception_build_68000_address_error_stack_frame 0x15 0x3010 0x00001001 0x1002 x_ex in
  A7 x' = 0x10000 - 14 /\
  forall b, get_byte (xm x') b =
    frame_byte ∅ (A7 x') (W (0x15 .| (0x3010 .& Z.lnot 31)) ++ L 0x1001 ++ W 0x3010 ++
                          W 0x2700 ++ L 0x1002) b.
Proof.
  apply (address_error_frame 0x15 0x3010 0x00001001 0x1002 x_ex).
  apply (bool_decide_unpack _). vm_compute. exact I.
Defined.

(** ** Rolling back a faulted instruction *)

Lemma restore_one_done m c : fx_reg (restore_one m c).1 < 0.
Proof. unfold restore_one. destruct (Z.leb_spec 0 (fx_reg m)); cbn; lia. Qed.

Lemma restore_one_neg m c : fx_reg m < 0 -> restore_one m c = (m, c).
Proof. intros. unfold restore_one. destruct (Z.leb_spec 0 (fx_reg m)); [lia|done]. Qed.

Lemma restore_one_areg m c k : cpu_wf c -> fx_reg m < 8 -> 0 <= k < 8 ->
  m68k_areg (restore_one m c).2 k = if fx_reg m =? k then u32 (fx_value m) else m68k_areg c k.
Proof.
  intros Hwf Hm Hk. unfold restore_one.
  destruct (Z.leb_spec 0 (fx_reg m)) as [Hr|Hr]; cbn [snd];
    [|by rewrite (proj2 (Z.eqb_neq _ _)) by lia].
  assert (fx_reg m .& 15 = fx_reg m) as ->
    by (change 15 with (Z.ones 4); rewrite Z.land_ones by lia; apply Z.mod_small; lia).
  destruct (Z.eqb_spec (fx_reg m) k) as [->|Hne]; [by apply areg_set_areg|].
  unfold m68k_areg, set_areg. cbn. apply list_lookup_total_insert_ne. lia.
Qed.

(** [cpu_restore_fixup] puts back the address registers recorded in the
    armed slots (slot 1 after slot 0, so it wins when both name one register),
    changes no other address register, disarms both slots, and is idempotent. *)
Lemma restore_fixup_spec m c :
  cpu_wf c -> fx_reg m.1 < 8 -> fx_reg m.2 < 8 ->
  let '(m', c') := cpu_restore_fixup m c in
  fx_reg m'.1 < 0 /\ fx_reg m'.2 < 0 /\ cpu_restore_fixup m' c' = (m', c') /\
  forall k, 0 <= k < 8 ->
    m68k_areg c' k = if fx_reg m.2 =? k then u32 (fx_value m.2)
                     else if fx_reg m.1 =? k then u32 (fx_value m.1) else m68k_areg c k.
Proof.
  destruct m as [m0 m1]. cbn [fst snd]. intros Hwf H0 H1. unfold cpu_restore_fixup. cbn [fst snd].
  pose proof (restore_one_done m0 c) as D0. pose proof (fun k => restore_one_areg m0 c k Hwf H0) as A0.
  assert (Hwf0 : cpu_wf (restore_one m0 c).2) by (unfold restore_one; case_match; cbn; auto with crange).
  destruct (restore_one m0 c) as [m0' c0]. cbn [fst snd] in *.
  pose proof (restore_one_done m1 c0) as D1. pose proof (fun k => restore_one_areg m1 c0 k Hwf0 H1) as A1.
  destruct (restore_one m1 c0) as [m1' c1]. cbn [fst snd] in *.
  split_and!; [done|done|by rewrite !restore_one_neg|].
  intros k Hk. by rewrite A1, A0.
Qed.

Lemma restore_fixup_spec_witness :
  let '(m', c') := cpu_restore_fixup (mk_fix 3 0x2000, mk_fix 7 0x3000) cpu0 in
  fx_reg m'.1 < 0 /\ fx_reg m'.2 < 0 /\ cpu_restore_fixup m' c' = (m', c') /\
  forall k, 0 <= k < 8 ->
    m68k_areg c' k = if 7 =? k then 0x3000 else if 3 =? k then 0x2000 else m68k_areg cpu0 k.
Proof.
  apply (restore_fixup_spec (mk_fix 3 0x2000, mk_fix 7 0x3000) cpu0);
    [apply (bool_decide_unpack _); vm_compute; exact I|cbn; lia|cbn; lia].
Defined.
