(* ===== verification/Mmu030.v ===== *)
(** * Mmu030: the 68030 MMU ([cpu/cpummu30.cpp], [include/cpummu030.h])

    Transparent translation, the translation control register, the 22-entry
    translation cache (ATC) with its history bits, the table search that fills
    it, the page shortcuts in front of it, the faults it raises, the accessors
    of the opcode handlers (aligned, unaligned, locked, restarted) and the MMU
    instructions.  The code throws C++ exceptions and, in places, indexes an
    array with [-1]; both are results of the monad [M30] ([Thrown],
    [Undefined]).  The preprocessor switches are those of the sources:
    [MMU_DPAGECACHE030], [MMU_IPAGECACHE030] and [MMU030_REG_FIXUP] set,
    [MMU_DIRECT_ACCESS] unset; the physical accessors are the ones
    [mmu030_set_funcs] installs without cycle-exact memory.  The theorems are
    in Mmu030Spec, Mmu030Walk and Mmu030Tlb. *)

From S2P Require Import Prelude Flags Cpu Movec Mmu Frames.
From Stdlib Require Import ZArith Lia Bool.
From stdpp Require Import base list.
Open Scope Z_scope.
Open Scope cint_scope.

(** ** Constants *)
Definition TT_FC_MASK := 0x00000007.
Definition TT_FC_BASE := 0x00000070.
Definition TT_RWM := 0x00000100.
Definition TT_RW := 0x00000200.
Definition TT_CI := 0x00000400.
Definition TT_ENABLE := 0x00008000.
Definition TT_ADDR_MASK := 0x00FF0000.
Definition TT_ADDR_BASE := 0xFF000000.
Definition TT_NO_MATCH := 0x1.
Definition TT_OK_MATCH := 0x2.
Definition TT_NO_READ := 0x4.
Definition TT_NO_WRITE := 0x8.

Definition MMUSR_BUS_ERROR := 0x8000.
Definition MMUSR_LIMIT_VIOLATION := 0x4000.
Definition MMUSR_SUPER_VIOLATION := 0x2000.
Definition MMUSR_WRITE_PROTECTED := 0x0800.
Definition MMUSR_INVALID := 0x0400.
Definition MMUSR_MODIFIED := 0x0200.
Definition MMUSR_TRANSP_ACCESS := 0x0040.
Definition MMUSR_NUM_LEVELS_MASK := 0x0007.

Definition TC_ENABLE_TRANSLATION := 0x80000000.
Definition TC_ENABLE_SUPERVISOR := 0x02000000.
Definition TC_ENABLE_FCL := 0x01000000.
Definition TC_PS_MASK := 0x00F00000.
Definition TC_IS_MASK := 0x000F0000.

Definition RP_DESCR_MASK := 0x0000000300000000.
Definition RP_ZERO_BITS := 0x0000FFFC.

Definition DESCR_TYPE_MASK := 3.
Definition DESCR_TYPE_INVALID := 0.
Definition DESCR_TYPE_EARLY_TERM := 1.
Definition DESCR_TYPE_PAGE := 1.
Definition DESCR_TYPE_VALID4 := 2.
Definition DESCR_TYPE_VALID8 := 3.
Definition DESCR_WP := 0x00000004.
Definition DESCR_U := 0x00000008.
Definition DESCR_M := 0x00000010.
Definition DESCR_CI := 0x00000040.
Definition DESCR_S := 0x00000100.
Definition DESCR_TD_ADDR_MASK := 0xFFFFFFF0.
Definition DESCR_PD_ADDR_MASK := 0xFFFFFF00.
Definition DESCR_ID_ADDR_MASK := 0xFFFFFFFC.
Definition DESCR_LIMIT_MASK := 0x7FFF0000.
Definition DESCR_LOWER_MASK := 0x80000000.

Definition MMU030_SSW_FC := 0x8000.
Definition MMU030_SSW_FB := 0x4000.
Definition MMU030_SSW_RC := 0x2000.
Definition MMU030_SSW_RB := 0x1000.
Definition MMU030_SSW_DF := 0x0100.
Definition MMU030_SSW_RM := 0x0080.
Definition MMU030_SSW_SIZE_B := 0x0010.
Definition MMU030_SSW_SIZE_W := 0x0020.
Definition MMU030_SSW_SIZE_L := 0x0000.
Definition MMU030_SSW_FC_MASK := 0x0007.
Definition MMU030_STATEFLAG1_LASTWRITE := 0x0100.
Definition MMU030_STATEFLAG1_SUBACCESS0 := 0x0004.
Definition MMU030_STATEFLAG1_SUBACCESS1 := 0x0008.
Definition MMU030_STATEFLAG1_SUBACCESS2 := 0x0010.
Definition MMU030_STATEFLAG1_SUBACCESS3 := 0x0020.
Definition MMU030_STATEFLAG1_SUBACCESSX := 0x0040.
Definition MMU030_STATEFLAG1_SUBACCESSL := 0x0080.
Definition MMU030_STATEFLAG1_SUBACCESS_SHIFT := 2.

Definition ATC030_NUM_ENTRIES : nat := 22.
Definition MMUFASTCACHE_ENTRIES030 := 256.

(** ** State *)

(** [MMU030_ATC_LINE]: the physical part, the logical part, the history bit. *)
Record MMU030_ATC_LINE := mk_atc {
  p_addr : Z; p_modified : bool; p_write_protect : bool; p_cache_inhibit : Z;
  p_bus_error : bool;
  g_addr : Z; g_fc : Z; g_valid : bool;
  mru : bool }.
#[export] Instance atc_line030_inh : Inhabited MMU030_ATC_LINE :=
  populate (mk_atc 0 false false 0 false 0 0 false false).

Record TT_info := mk_tt { addr_base : Z; addr_mask : Z; fc_base : Z; fc_mask : Z }.
Record tindex := mk_tindex { t_mask : Z; t_shift : Z }.

(** [struct mmu030.translation] *)
Record translation030 := mk_tr {
  table : list tindex;
  page_mask : Z; page_imask : Z; page_size : Z; page_size3m : Z;
  init_shift : Z; last_table : Z }.

Record mmufastcache030 := mk_fast030 { c_log : Z; c_phys : Z; c_cs : Z }.
#[export] Instance mmufastcache030_inh : Inhabited mmufastcache030 := populate (mk_fast030 0 0 0).

(** [static struct mmu030] with the shortcut arrays, [atcindextable] and
    [tt_enabled] that belong to it. *)
Record mmu030 := mk_mmu030 {
  translation : translation030;
  tt0 : TT_info; tt1 : TT_info;
  atc : list MMU030_ATC_LINE;
  enabled : bool;
  status : Z;
  ins_cache_state : Z; last_physical_address : Z; last_logical_address : Z;
  data_read : list mmufastcache030; data_write : list mmufastcache030;
  atcindextable : list nat;
  tt_enabled : bool }.

(** The MMU's programmer-visible registers. *)
Record mregs030 := mk_mregs {
  srp_030 : Z; crp_030 : Z; tt0_030 : Z; tt1_030 : Z; tc_030 : Z; mmusr_030 : Z }.

(** What a fault leaves for the stack frame, and the state that lets the
    faulted instruction be restarted. *)
Record fault030 := mk_fault030 {
  ssw30 : Z; fault_addr30 : Z; wb2_status30 : Z; wb3_status30 : Z; wb3_data30 : Z;
  wb2_address30 : Z; stageb_address30 : Z;
  bBusErrorReadWrite : bool;
  state1 : Z;                     (* [mmu030_state[1]] *)
  data_buffer_out : Z;
  ismoves030 : bool; islrmw030 : bool;
  fixups : list mmufixup;         (* [struct mmufixup mmufixup[2]] *)
  idx30 : Z; idx_done30 : Z; ad30 : list Z;
  fake_prefetch : Z; fake_prefetch_addr : Z;
  state2 : Z; disp_store : list Z }.   (* [mmu030_state[2]], [mmu030_disp_store[2]] *)

Record st030 (M : Type) := mk_st030 {
  cpu30 : cpu; pci30 : Z; rg30 : mregs030; mm30 : mmu030; fl30 : fault030;
  cache_state30 : Z; debugger30 : bool; pm30 : M }.
Arguments mk_st030 {M}. Arguments cpu30 {M}. Arguments pci30 {M}. Arguments rg30 {M}.
Arguments mm30 {M}. Arguments fl30 {M}. Arguments cache_state30 {M}.
Arguments debugger30 {M}. Arguments pm30 {M}.

(** ** The effect monad: a value, a C++ exception, or an access outside an array *)
Inductive res030 (A : Type) := Ok (a : A) | Thrown (prb : Z) | Undefined.
Arguments Ok {A}. Arguments Thrown {A}. Arguments Undefined {A}.

Definition M30 (M A : Type) : Type := st030 M -> res030 A * st030 M.
Definition ret30 {M A} (a : A) : M30 M A := fun s => (Ok a, s).
Definition throw30 {M A} (prb : Z) : M30 M A := fun s => (Thrown prb, s).
Definition undef30 {M A} : M30 M A := fun s => (Undefined, s).
Definition bind30 {M A B} (m : M30 M A) (k : A -> M30 M B) : M30 M B := fun s =>
  match m s with
  | (Ok a, s') => k a s' | (Thrown e, s') => (Thrown e, s') | (Undefined, s') => (Undefined, s')
  end.
Definition try30 {M A} (m : M30 M A) (h : Z -> M30 M A) : M30 M A := fun s =>
  match m s with (Thrown e, s') => h e s' | r => r end.
Definition get30 {M} : M30 M (st030 M) := fun s => (Ok s, s).
Definition mod30 {M} (f : st030 M -> st030 M) : M30 M unit := fun s => (Ok tt, f s).

Declare Scope m30_scope.
Notation "'let!' x := m 'in' k" := (bind30 m (fun x => k))
  (at level 10, x pattern, k at level 200) : m30_scope.
Notation "m ;;; k" := (bind30 m (fun _ => k)) (at level 100, right associativity) : m30_scope.
Open Scope m30_scope.
Definition when30 {M} (b : bool) (m : M30 M unit) : M30 M unit := if b then m else ret30 tt.

Section Mmu030.
Context {M : Type} `{Phys M} (p : prefs) (cpu_compatible : bool) (ce_cachable : Z -> Z).

Definition set_cpu30 (f : cpu -> cpu) : M30 M unit := mod30 (fun s => {| s with cpu30 := f (cpu30 s) |}).
Definition set_rg30 (f : mregs030 -> mregs030) : M30 M unit :=
  mod30 (fun s => {| s with rg30 := f (rg30 s) |}).
Definition set_mm30 (f : mmu030 -> mmu030) : M30 M unit := mod30 (fun s => {| s with mm30 := f (mm30 s) |}).
Definition set_fl30 (f : fault030 -> fault030) : M30 M unit :=
  mod30 (fun s => {| s with fl30 := f (fl30 s) |}).
Definition set_cs30 (v : Z) : M30 M unit := mod30 (fun s => {| s with cache_state30 := v |}).

(** ** Flushing *)
Definition fast_none : list mmufastcache030 :=
  replicate (Z.to_nat MMUFASTCACHE_ENTRIES030) (mk_fast030 0xffffffff 0xffffffff 0xff).

Definition fast_drop (idx : Z) (e : mmufastcache030) : mmufastcache030 :=
  if c_log e .| 7 =? idx then {| e with c_log := 0xffffffff |} else e.

Definition mmu030_flush_cache (addr : Z) (m : mmu030) : mmu030 :=
  let m := {| m with last_logical_address := 0xffffffff |} in
  if addr =? 0xffffffff then {| m with data_read := fast_none; data_write := fast_none |}
  else
    let tr := translation m in
    let idx := ((addr .& page_imask tr) >> page_size3m tr) .| 7 in
    {| m with data_read := fast_drop idx <$> data_read m;
              data_write := fast_drop idx <$> data_write m |}.

(** Invalidate the entries that satisfy a test. *)
Definition atc_drop (q : MMU030_ATC_LINE -> bool) (l : list MMU030_ATC_LINE) : list MMU030_ATC_LINE :=
  (fun e => if q e && g_valid e then {| e with g_valid := false |} else e) <$> l.

Definition mmu030_flush_atc_fc (fcb fcm : Z) (m : mmu030) : mmu030 :=
  mmu030_flush_cache 0xffffffff
    {| m with atc := atc_drop (fun e => fcb .& fcm =? g_fc e .& fcm) (atc m) |}.

Definition mmu030_flush_atc_page_fc (logical_addr fcb fcm : Z) (m : mmu030) : mmu030 :=
  let logical_addr := logical_addr .& page_imask (translation m) in
  mmu030_flush_cache logical_addr
    {| m with atc := atc_drop (fun e => (fcb .& fcm =? g_fc e .& fcm) && (g_addr e =? logical_addr))
                       (atc m) |}.

Definition mmu030_flush_atc_page (logical_addr : Z) (m : mmu030) : mmu030 :=
  let logical_addr := logical_addr .& page_imask (translation m) in
  mmu030_flush_cache logical_addr
    {| m with atc := atc_drop (fun e => g_addr e =? logical_addr) (atc m) |}.

Definition mmu030_flush_atc_all (m : mmu030) : mmu030 :=
  mmu030_flush_cache 0xffffffff
    {| m with atc := (fun e => {| e with g_valid := false |}) <$> atc m |}.

(** ** Faults *)

(** [mmu030fixupreg]: the update a faulted [-(An)] or [(An)+] has made. *)
Definition mmu030fixupreg (m : mmufixup) : Z :=
  if fx_reg m <? 0 then 0
  else if fx_reg m .& 0x300 =? 0 then 0
  else ((fx_reg m .& 7) .| (((fx_reg m >> 10) .& 3) << 3)
        .| (if truth (fx_reg m .& 0x200) then 1 << 5 else 0)) .| (1 << 6).

Definition fixup_adj (data : Z) (dir : bool) : Z :=
  let adj := if truth (data .& (1 << 5)) then -1 else 1 in
  (if dir then - adj else adj) << ((data >> 3) .& 3).

Definition fixup_value (idx : option nat) (adj : Z) (l : list mmufixup) : list mmufixup :=
  match idx with
  | Some i => alter (fun m => {| m with fx_value := u32 (fx_value m + adj) |}) i l
  | None => l
  end.

Definition mmu030fixupmod (data : Z) (dir : bool) (idx : option nat) : M30 M unit :=
  when30 (truth data)
    (let reg := data .& 7 in
     let adj := fixup_adj data dir in
     set_cpu30 (fun c => set_areg reg (m68k_areg c reg + adj) c) ;;;
     set_fl30 (fun f => {| f with fixups := fixup_value idx adj (fixups f) |})).

Definition fixup_get (i : nat) (f : fault030) : Z :=
  match fixups f !! i with Some m => mmu030fixupreg m | None => 0 end.

Definition page_fault_fixups : M30 M unit :=
  set_fl30 (fun f => {| f with wb2_status30 := fixup_get 0 f |}) ;;;
  let! s := get30 in
  when30 (negb (debugger30 s)) (mmu030fixupmod (wb2_status30 (fl30 s)) false (Some 0%nat)) ;;;
  set_fl30 (fun f => {| f with wb3_status30 := fixup_get 1 f |}) ;;;
  let! s := get30 in
  when30 (negb (debugger30 s)) (mmu030fixupmod (wb3_status30 (fl30 s)) false (Some 1%nat)).

Definition SSW_KEEP : Z :=
  Z.lnot (MMU030_SSW_FC .| MMU030_SSW_RC .| MMU030_SSW_FB .| MMU030_SSW_RB .| MMU030_SSW_RW .| 7).

(** What the frame is built from. *)
Definition fault_record (addr : Z) (read : bool) (flags fc : Z) (f : fault030) : fault030 :=
  {| f with ssw30 := (ssw30 f .| (if read then MMU030_SSW_RW else 0) .| flags .| fc)
                       .| (if islrmw030 f then MMU030_SSW_RM else 0);
            fault_addr30 := addr;
            wb3_data30 := data_buffer_out f;
            wb2_address30 := state1 f;
            bBusErrorReadWrite := read;
            stageb_address30 := addr;
            ismoves030 := false; islrmw030 := false |}.

Definition mmu030_page_fault {A} (addr : Z) (read : bool) (flags fc : Z) : M30 M A :=
  let! s := get30 in
  let ssw := ssw30 (fl30 s) in
  let '(read, fc, flags) :=
    if flags <? 0 then (truth (ssw .& MMU030_SSW_RW), ssw .& MMU030_SSW_FC_MASK, ssw .& SSW_KEEP)
    else (read, fc, flags) in
  set_fl30 (fun f => {| f with wb3_status30 := 0; wb2_status30 := 0 |}) ;;;
  (if truth (fc .& 1) then
     set_fl30 (fun f => {| f with ssw30 := MMU030_SSW_DF .| (MMU030_SSW_DF << 1) |}) ;;;
     when30 (negb (truth (state1 (fl30 s) .& MMU030_STATEFLAG1_LASTWRITE))) page_fault_fixups
   else
     when30 cpu_compatible page_fault_fixups ;;;
     set_fl30 (fun f => {| f with ssw30 := MMU030_SSW_FB .| MMU030_SSW_RB |})) ;;;
  let flags := if truth (fc .& 1) then flags else MMU030_SSW_SIZE_W in
  set_fl30 (fault_record addr read flags fc) ;;;
  throw30 2.

Definition ssw_size30 (size : Z) : Z :=
  if size =? sz_byte then MMU030_SSW_SIZE_B
  else if size =? sz_word then MMU030_SSW_SIZE_W else MMU030_SSW_SIZE_L.

Definition mmu030_hardware_bus_error {A} (addr v : Z) (read ins : bool) (size : Z) : M30 M A :=
  let! s := get30 in
  let r := rctl (cpu30 s) in
  let fc := if ismoves030 (fl30 s) then if read then sfc r else dfc r
            else (if reg_s (cpu30 s) then 4 else 0) .| (if ins then 2 else 1) in
  when30 (negb read) (set_fl30 (fun f => {| f with data_buffer_out := v |})) ;;;
  mmu030_page_fault addr read (ssw_size30 size .| (if read then MMU030_SSW_RW else 0)) fc.

Definition mmu030_is_super_access (read : bool) (s : st030 M) : bool :=
  if negb (ismoves030 (fl30 s)) then reg_s (cpu30 s)
  else truth ((if read then sfc (rctl (cpu30 s)) else dfc (rctl (cpu30 s))) .& 4).

(** ** Physical accesses: the bank answers, or [hardware_exception2] raises
    the error with a data access's function code *)
Definition phys30 {A} (read : bool) (addr v size : Z) (o : option A) : M30 M A :=
  match o with Some a => ret30 a | None => mmu030_hardware_bus_error addr v read false size end.

Definition get_phys30 (size addr : Z) : M30 M Z :=
  let! s := get30 in
  phys30 true addr 0 size
    (if size =? sz_byte then phys_get_byte addr (pm30 s)
     else if size =? sz_word then phys_get_word addr (pm30 s)
     else phys_get_long addr (pm30 s)).

Definition put_phys30 (size addr v : Z) : M30 M unit :=
  let! s := get30 in
  let! m := phys30 false addr v size
    (if size =? sz_byte then phys_put_byte addr v (pm30 s)
     else if size =? sz_word then phys_put_word addr v (pm30 s)
     else phys_put_long addr v (pm30 s)) in
  mod30 (fun s => {| s with pm30 := m |}).

(** ** Transparent translation *)
Definition mmu030_decode_tt (TT : Z) : TT_info :=
  {| fc_mask := u32 (Z.lnot ((TT .& TT_FC_MASK) .| 0xFFFFFFF8));
     fc_base := (TT .& TT_FC_BASE) >> 4;
     addr_base := TT .& TT_ADDR_BASE;
     addr_mask := u32 (Z.lnot (u32 ((TT .& TT_ADDR_MASK) << 8) .| 0x00FFFFFF)) |}.

Definition mmu030_do_match_ttr (tt : Z) (comp : TT_info) (addr fc : Z) (write : bool) : Z :=
  if truth (tt .& TT_ENABLE) && (fc_base comp .& fc_mask comp =? fc .& fc_mask comp)
     && (addr_base comp .& addr_mask comp =? addr .& addr_mask comp)
  then if truth (tt .& TT_RWM) then TT_OK_MATCH
       else if truth (tt .& TT_RW) then if write then TT_NO_WRITE else TT_OK_MATCH
       else if write then TT_OK_MATCH else TT_NO_READ
  else TT_NO_MATCH.

Definition mmu030_do_match_lrmw_ttr (tt : Z) (comp : TT_info) (addr fc : Z) : Z :=
  if truth (tt .& TT_ENABLE) && truth (tt .& TT_RWM)
     && (fc_base comp .& fc_mask comp =? fc .& fc_mask comp)
     && (addr_base comp .& addr_mask comp =? addr .& addr_mask comp)
  then TT_OK_MATCH else TT_NO_MATCH.

Definition mmu030_match_ttr (addr fc : Z) (write : bool) : M30 M Z :=
  let! s := get30 in
  let r := rg30 s in
  let m0 := mmu030_do_match_ttr (tt0_030 r) (tt0 (mm30 s)) addr fc write in
  when30 (truth (m0 .& TT_OK_MATCH) && truth (tt0_030 r .& TT_CI)) (set_cs30 CACHE_DISABLE_MMU) ;;;
  let m1 := mmu030_do_match_ttr (tt1_030 r) (tt1 (mm30 s)) addr fc write in
  when30 (truth (m1 .& TT_OK_MATCH) && truth (tt1_030 r .& TT_CI)) (set_cs30 CACHE_DISABLE_MMU) ;;;
  ret30 (m0 .| m1).

Definition mmu030_match_ttr_access (addr fc : Z) (write : bool) (s : st030 M) : Z :=
  if negb (tt_enabled (mm30 s)) then 0
  else (mmu030_do_match_ttr (tt0_030 (rg30 s)) (tt0 (mm30 s)) addr fc write
        .| mmu030_do_match_ttr (tt1_030 (rg30 s)) (tt1 (mm30 s)) addr fc write) .& TT_OK_MATCH.

Definition mmu030_match_lrmw_ttr_access (addr fc : Z) (s : st030 M) : Z :=
  if negb (tt_enabled (mm30 s)) then 0
  else (mmu030_do_match_lrmw_ttr (tt0_030 (rg30 s)) (tt0 (mm30 s)) addr fc
        .| mmu030_do_match_lrmw_ttr (tt1_030 (rg30 s)) (tt1 (mm30 s)) addr fc) .& TT_OK_MATCH.

(** ** The table search *)

(** The local variables of [mmu030_table_search]; they outlive an exception
    caught by the search itself. *)
Record walk := mk_walk {
  descr0 : Z; descr1 : Z;
  descr_addr : list Z;       (* [uaecptr descr_addr[7]] *)
  descr_num : Z; descr_size : Z; next_size : Z; t : Z;
  early_termination : bool; super_violation : bool; write_protected : bool;
  cache_inhibit : Z; page_addr : Z }.

Definition walk0 : walk := {|
  descr0 := 0; descr1 := 0; descr_addr := replicate 7 0;
  descr_num := 0; descr_size := 8; next_size := 0; t := 0;
  early_termination := false; super_violation := false; write_protected := false;
  cache_inhibit := CACHE_ENABLE_ALL; page_addr := 0 |}.

(** How a piece of the search ends: it falls through, jumps to
    [handle_page_descriptor] or [stop_search], reaches the [CATCH], or leaves
    an array. *)
Inductive wres := WGo | WPage | WStop | WCatch | WUndef.
Definition wstep : Type := walk -> st030 M -> wres * walk * st030 M.

Definition wseq (f g : wstep) : wstep := fun w s =>
  match f w s with (WGo, w', s') => g w' s' | r => r end.
Definition wlift {A} (m : M30 M A) (k : A -> wstep) : wstep := fun w s =>
  match m s with
  | (Ok a, s') => k a w s' | (Thrown _, s') => (WCatch, w, s') | (Undefined, s') => (WUndef, w, s')
  end.
Definition wend (r : wres) : wstep := fun w s => (r, w, s).
Definition wmod (f : walk -> walk) : wstep := fun w s => (WGo, f w, s).
Definition wstat (v : Z) : wstep := fun w s =>
  (WGo, w, {| s with mm30 := {| (mm30 s) with status := status (mm30 s) .| v |} |}).

(** [descr[addr_position]] *)
Definition descr_ptr (w : walk) : Z := if descr_size w =? 4 then descr0 w else descr1 w.
Definition is_super (fc : Z) : bool := truth (fc .& 4).

(** [table[t].mask] and [.shift] applied to the address. *)
Definition tindex_of (ti : tindex) (addr : Z) : Z := (addr .& t_mask ti) >> t_shift ti.

(** Fetch the next descriptor: [desc_get_long] or [desc_get_quad]. *)
Definition wfetch (a : Z) : wstep := fun w s =>
  let n := descr_num w + 1 in
  if n <? 7 then
    let w := {| w with descr_num := n; descr_addr := <[Z.to_nat n := a]> (descr_addr w) |} in
    if next_size w =? 4
    then wlift (get_phys30 sz_long a)
           (fun d0 => wmod (fun w => {| w with descr0 := d0; descr_size := next_size w |})) w s
    else wlift (get_phys30 sz_long a)
           (fun d0 => wseq (wmod (fun w => {| w with descr0 := d0 |}))
             (wlift (get_phys30 sz_long (u32 (a + 4)))
               (fun d1 => wmod (fun w => {| w with descr1 := d1; descr_size := next_size w |})))) w s
  else (WUndef, w, s).

(** The [switch] on the descriptor type. *)
Definition wtype (early : walk -> bool) : wstep := fun w s =>
  let ty := descr0 w .& DESCR_TYPE_MASK in
  if ty =? DESCR_TYPE_INVALID then wseq (wstat MMUSR_INVALID) (wend WStop) w s
  else if ty =? DESCR_TYPE_EARLY_TERM
  then (WPage, {| w with early_termination := early_termination w || early w |}, s)
  else (WGo, {| w with next_size := if ty =? DESCR_TYPE_VALID4 then 4 else 8 |}, s).

Definition wroot (fc : Z) : wstep := fun w s =>
  let r := rg30 s in
  let rp := if truth (tc_030 r .& TC_ENABLE_SUPERVISOR) && is_super fc then srp_030 r else crp_030 r in
  let d0 := (rp >> 32) .& 0xFFFFFFFF in
  let d0 := if truth (d0 .& RP_ZERO_BITS) then d0 .& Z.lnot RP_ZERO_BITS else d0 in
  wtype (fun _ => true) {| w with descr0 := d0; descr1 := rp .& 0xFFFFFFFF |} s.

Definition wfcl (fc : Z) : wstep := fun w s =>
  if truth (tc_030 (rg30 s) .& TC_ENABLE_FCL) then
    let table_addr := descr_ptr w .& DESCR_TD_ADDR_MASK in
    wseq (wfetch (u32 (table_addr + fc * next_size w))) (wtype (fun _ => true)) w s
  else (WGo, w, s).

(** The protection bits of the current descriptor. *)
Definition wprotect (fc : Z) : wstep := wmod (fun w =>
  {| w with
     super_violation := super_violation w
       || ((descr_size w =? 8) && truth (descr0 w .& DESCR_S) && negb (is_super fc));
     write_protected := write_protected w || truth (descr0 w .& DESCR_WP) |}).

(** [desc_put_long(descr_addr[descr_num], descr[0])], unless a debugger looks. *)
Definition wstore : wstep := fun w s =>
  if debugger30 s then (WGo, w, s)
  else wlift (put_phys30 sz_long (descr_addr w !!! Z.to_nat (descr_num w)) (descr0 w))
         (fun _ => wend WGo) w s.

Definition wreport : wstep := fun w s =>
  wstat ((if super_violation w then MMUSR_SUPER_VIOLATION else 0)
         .| (if write_protected w then MMUSR_WRITE_PROTECTED else 0)) w s.

Definition wlevel (level : Z) : wstep := fun w s =>
  (if truth level && (level =? descr_num w) then WStop else WGo, w, s).

(** The limit field of a long descriptor. *)
Definition limit_violation (d0 table_index : Z) : bool :=
  let limit := (d0 .& DESCR_LIMIT_MASK) >> 16 in
  if truth (d0 .& DESCR_LOWER_MASK) then table_index <? limit else limit <? table_index.

Definition wlimit (table_index : Z) : wstep := fun w s =>
  if (descr_size w =? 8) && limit_violation (descr0 w) table_index
  then wseq (wstat (MMUSR_LIMIT_VIOLATION .| MMUSR_INVALID)) (wend WStop) w s
  else (WGo, w, s).

Definition wused (level : Z) : wstep := fun w s =>
  if (level =? 0) && negb (truth (descr0 w .& DESCR_U)) && negb (super_violation w)
  then wseq (wmod (fun w => {| w with descr0 := descr0 w .| DESCR_U |})) wstore w s
  else (WGo, w, s).

(** One round of the loop over the upper tables: the current descriptor, unless
    it is the root pointer, then the one its index selects. *)
Definition wenter (fc level : Z) : wstep := fun w s =>
  if truth (descr_num w)
  then wseq (wprotect fc) (wseq (wused level) (wseq wreport (wlevel level))) w s
  else (WGo, w, s).

Definition wdescend (addr : Z) : wstep := fun w s =>
  match table (translation (mm30 s)) !! Z.to_nat (t w) with
  | None => (WUndef, w, s)
  | Some ti =>
      let table_addr := descr_ptr w .& DESCR_TD_ADDR_MASK in
      let table_index := tindex_of ti addr in
      let last := last_table (translation (mm30 s)) in
      wseq (wmod (fun w => {| w with t := t w + 1 |}))
      (wseq (wlimit table_index)
      (wseq (wfetch (u32 (table_addr + table_index * next_size w)))
            (wtype (fun w => t w <=? last)))) w s
  end.

Definition wtable (addr fc level : Z) : wstep := wseq (wenter fc level) (wdescend addr).

(** [do ... while (t <= last_table)] with [t] starting at 0. *)
Fixpoint wtables (n : nat) (addr fc level : Z) : wstep :=
  match n with
  | O => wend WGo
  | S n => wseq (wtable addr fc level) (wtables n addr fc level)
  end.

Definition windirect (level : Z) : wstep :=
  wseq (wlevel level)
  (wseq (fun w => wfetch (descr_ptr w .& DESCR_ID_ADDR_MASK) w)
  (fun w s =>
    if descr0 w .& DESCR_TYPE_MASK =? DESCR_TYPE_PAGE then (WPage, w, s)
    else wseq (wstat MMUSR_INVALID) (wend WStop) w s)).

(** The modified and used bits of the page descriptor. *)
Definition page_bits (write : bool) (w : walk) : Z :=
  (descr0 w .| (if write && negb (write_protected w) then DESCR_M else 0)) .| DESCR_U.

Definition wmark (write : bool) (level : Z) : wstep := fun w s =>
  if (level =? 0) && negb (super_violation w) then
    let d := page_bits write w in
    if d =? descr0 w then (WGo, w, s)
    else wseq (wmod (fun w => {| w with descr0 := d |})) wstore w s
  else (WGo, w, s).

(** [do { mask |= table[t].mask; t++; } while (t <= last_table)] *)
Definition unused_fields_mask (w : walk) (tr : translation030) : option Z :=
  if t w <? Z.of_nat (length (table tr)) then
    Some (foldr (fun ti acc => t_mask ti .| acc) 0
           (take (Z.to_nat (Z.max 1 (last_table tr + 1 - t w))) (drop (Z.to_nat (t w)) (table tr))))
  else None.

Definition wearly (addr : Z) : wstep := fun w s =>
  if early_termination w then
    match table (translation (mm30 s)) !! Z.to_nat (t w), unused_fields_mask w (translation (mm30 s)) with
    | Some ti, Some msk =>
        wseq (if truth (descr_num w) || negb (truth (tc_030 (rg30 s) .& TC_ENABLE_FCL))
              then wlimit (tindex_of ti addr) else wend WGo)
             (wmod (fun w => {| w with page_addr := addr .& msk |})) w s
    | _, _ => (WUndef, w, s)
    end
  else (WGo, w, s).

(** [handle_page_descriptor]: protection and history, unless it is the root
    pointer; then the page address. *)
Definition wpage_bits (fc : Z) (write : bool) (level : Z) : wstep := fun w s =>
  if truth (descr_num w) then
    wseq (wprotect fc) (wseq (wmark write level) (wseq wreport
    (fun w s =>
      wseq (wmod (fun w => {| w with cache_inhibit :=
                    if truth (descr0 w .& DESCR_CI) then CACHE_DISABLE_MMU else CACHE_ENABLE_ALL |}))
           (wstat (if truth (descr0 w .& DESCR_M) then MMUSR_MODIFIED else 0)) w s))) w s
  else (WGo, w, s).

Definition wfinish (addr : Z) : wstep :=
  wseq (wearly addr)
  (wmod (fun w => {| w with page_addr := u32 (page_addr w + (descr_ptr w .& DESCR_PD_ADDR_MASK)) |})).

Definition wpage (addr fc : Z) (write : bool) (level : Z) : wstep :=
  wseq (wpage_bits fc write level) (wfinish addr).

(** The body of the [TRY] block. *)
Definition wbody (addr fc : Z) (write : bool) (level : Z) : wstep := fun w s =>
  let n := Z.to_nat (last_table (translation (mm30 s)) + 1) in
  match wseq (wroot fc) (wseq (wfcl fc) (wseq (wtables n addr fc level) (windirect level))) w s with
  | (WPage, w, s) => wpage addr fc write level w s
  | r => r
  end.

(** ** The translation cache *)
Definition mmu030_atc_handle_history_bit (i : nat) (l : list MMU030_ATC_LINE) : list MMU030_ATC_LINE :=
  let l := alter (fun e => {| e with mru := true |}) i l in
  if forallb mru l
  then alter (fun e => {| e with mru := true |}) i ((fun e => {| e with mru := false |}) <$> l)
  else l.

(** The first index that satisfies [q], or the length. *)
Fixpoint first_index {A} (q : A -> bool) (l : list A) : nat :=
  match l with
  | [] => O
  | x :: l => if q x then O else S (first_index q l)
  end.

(** The entry to replace: an invalid one, else one without its history bit. *)
Definition atc_victim (l : list MMU030_ATC_LINE) : nat :=
  let i := first_index (fun e => negb (g_valid e)) l in
  let i := if Nat.eqb i ATC030_NUM_ENTRIES then first_index (fun e => negb (mru e)) l else i in
  if Nat.leb ATC030_NUM_ENTRIES i then O else i.

Definition atc_entry (addr fc : Z) (imask stat : Z) (w : walk) (e : MMU030_ATC_LINE) : MMU030_ATC_LINE :=
  {| e with
     g_addr := addr .& imask; g_fc := fc; g_valid := true;
     p_addr := page_addr w .& imask;
     p_bus_error := truth (stat .& MMUSR_INVALID) || truth (stat .& MMUSR_SUPER_VIOLATION);
     p_cache_inhibit := cache_inhibit w;
     p_modified := truth (stat .& MMUSR_MODIFIED);
     p_write_protect := truth (stat .& MMUSR_WRITE_PROTECTED) |}.

Definition atc_fill (addr fc : Z) (w : walk) (m : mmu030) : mmu030 :=
  let i := atc_victim (atc m) in
  let imask := page_imask (translation m) in
  mmu030_flush_cache (addr .& imask)
    {| m with atc := alter (atc_entry addr fc imask (status m) w) i
                       (mmu030_atc_handle_history_bit i (atc m)) |}.

Definition set_status30 (v : Z) : M30 M unit := set_mm30 (fun m => {| m with status := v |}).
Definition set_s30 (b : bool) : M30 M unit := set_cpu30 (fun c => {| c with reg_s := b |}).

(** The [TRY]/[CATCH] block as a whole. *)
Definition wsearch (addr fc : Z) (write : bool) (level : Z) : M30 M walk := fun s =>
  match wbody addr fc write level walk0 s with
  | (WUndef, _, s) => (Undefined, s)
  | (WCatch, w, s) =>
      let w := if bBusErrorReadWrite (fl30 s) then {| w with descr_num := descr_num w - 1 |} else w in
      (Ok w, {| s with mm30 := {| (mm30 s) with status :=
                  status (mm30 s) .| (MMUSR_BUS_ERROR .| MMUSR_INVALID) |} |})
  | (_, w, s) => (Ok w, s)
  end.

Definition mmu030_table_search (addr fc : Z) (write : bool) (level : Z) : M30 M Z :=
  set_status30 0 ;;;
  let! s0 := get30 in
  set_s30 true ;;;
  let! w := wsearch addr fc write level in
  set_s30 (reg_s (cpu30 s0)) ;;;
  if truth level then
    set_mm30 (fun m => {| m with status :=
      (status m .& Z.lnot MMUSR_NUM_LEVELS_MASK) .| descr_num w |}) ;;;
    ret30 (if truth (descr_num w) then descr_addr w !!! Z.to_nat (descr_num w) else 0)
  else
    set_mm30 (atc_fill addr fc w) ;;; ret30 0.

(** PTEST level 0 looks only at the transparent registers and the cache. *)
Definition mmu030_ptest_atc_search (logical_addr fc : Z) (write : bool) : M30 M unit :=
  set_status30 0 ;;;
  let! mt := mmu030_match_ttr logical_addr fc write in
  if truth (mt .& TT_OK_MATCH) then set_mm30 (fun m => {| m with status := status m .| MMUSR_TRANSP_ACCESS |})
  else
    let! s := get30 in
    match list_find (fun e => (g_fc e =? fc) && (g_addr e =? logical_addr) && g_valid e) (atc (mm30 s)) with
    | None => set_mm30 (fun m => {| m with status := status m .| MMUSR_INVALID |})
    | Some (_, e) =>
        set_mm30 (fun m => {| m with status :=
          (status m .| (if p_bus_error e then MMUSR_BUS_ERROR .| MMUSR_INVALID else 0))
            .| (if p_write_protect e then MMUSR_WRITE_PROTECTED else 0)
            .| (if p_modified e then MMUSR_MODIFIED else 0) |})
    end.

(** *** Looking up: from the remembered index, once around the cache *)
Definition atc_match (maddr imask fc : Z) (e : MMU030_ATC_LINE) : bool :=
  (maddr =? g_addr e .& imask) && (g_fc e =? fc) && g_valid e.

Definition atc_usable (write : bool) (e : MMU030_ATC_LINE) : bool :=
  negb write || p_modified e || p_write_protect e || p_bus_error e.

Definition next_index (i : nat) : nat := if Nat.leb ATC030_NUM_ENTRIES (S i) then O else S i.

Fixpoint atc_scan (n i : nat) (maddr imask fc : Z) (write : bool) (l : list MMU030_ATC_LINE)
    : option nat * list MMU030_ATC_LINE :=
  match n with
  | O => (None, l)
  | S n =>
      let e := l !!! i in
      if atc_match maddr imask fc e then
        if atc_usable write e then (Some i, l)
        else atc_scan n (next_index i) maddr imask fc write
               (alter (fun e => {| e with g_valid := false |}) i l)
      else atc_scan n (next_index i) maddr imask fc write l
  end.

Definition atc_offset (tr : translation030) (maddr : Z) : nat :=
  Z.to_nat ((maddr >> page_size tr) .& 0x1f).

Definition logical_is_in_atc (addr fc : Z) (write : bool) (m : mmu030) : option nat * mmu030 :=
  let tr := translation m in
  let maddr := addr .& page_imask tr in
  let offset := atc_offset tr maddr in
  match atc_scan ATC030_NUM_ENTRIES (atcindextable m !!! offset) maddr (page_imask tr) fc write (atc m) with
  | (Some i, l) => (Some i, {| m with atc := mmu030_atc_handle_history_bit i l;
                                      atcindextable := <[offset := i]> (atcindextable m) |})
  | (None, l) => (None, {| m with atc := l |})
  end.

Definition mmu030_logical_is_in_atc (addr fc : Z) (write : bool) : M30 M (option nat) := fun s =>
  let '(r, m) := logical_is_in_atc addr fc write (mm30 s) in (Ok r, {| s with mm30 := m |}).

(** *** The page shortcuts *)
Definition fast_idx (tr : translation030) (addr fc : Z) : Z :=
  ((addr .& page_imask tr) >> page_size3m tr) .| fc.

Definition fast_add (tr : translation030) (addr phys fc cs : Z) (l : list mmufastcache030)
    : list mmufastcache030 :=
  let idx1 := fast_idx tr addr fc in
  let idx2 := idx1 .& (MMUFASTCACHE_ENTRIES030 - 1) in
  if idx2 <? MMUFASTCACHE_ENTRIES030 - 1
  then <[Z.to_nat idx2 := mk_fast030 idx1 phys cs]> l else l.

Definition mmu030_add_data_read_cache (addr phys fc : Z) : M30 M unit :=
  mod30 (fun s => {| s with mm30 := {| (mm30 s) with data_read :=
    fast_add (translation (mm30 s)) addr phys fc (cache_state30 s) (data_read (mm30 s)) |} |}).
Definition mmu030_add_data_write_cache (addr phys fc : Z) : M30 M unit :=
  mod30 (fun s => {| s with mm30 := {| (mm30 s) with data_write :=
    fast_add (translation (mm30 s)) addr phys fc (cache_state30 s) (data_write (mm30 s)) |} |}).

(** *** Using an entry; [None] is the index [-1] *)
Definition atc_line (l : option nat) : M30 M MMU030_ATC_LINE :=
  let! s := get30 in
  match l with
  | Some i => match atc (mm30 s) !! i with Some e => ret30 e | None => undef30 end
  | None => undef30
  end.

Definition page_addr_of (s : st030 M) (e : MMU030_ATC_LINE) : Z := p_addr e .& page_imask (translation (mm30 s)).
Definition page_index_of (s : st030 M) (addr : Z) : Z := addr .& page_mask (translation (mm30 s)).

Definition mmu030_put_atc (addr : Z) (l : option nat) (fc size : Z) : M30 M Z :=
  let! e := atc_line l in
  let! s := get30 in
  if p_bus_error e || p_write_protect e then mmu030_page_fault addr false size fc
  else
    set_cs30 (p_cache_inhibit e) ;;;
    mmu030_add_data_write_cache addr (page_addr_of s e) fc ;;;
    ret30 (u32 (page_addr_of s e + page_index_of s addr)).

Definition mmu030_get_atc (addr : Z) (l : option nat) (fc size : Z) : M30 M Z :=
  let! e := atc_line l in
  let! s := get30 in
  if p_bus_error e then mmu030_page_fault addr true size fc
  else
    set_cs30 (p_cache_inhibit e) ;;;
    mmu030_add_data_read_cache addr (page_addr_of s e) fc ;;;
    ret30 (u32 (page_addr_of s e + page_index_of s addr)).

Definition mmu030_get_i_atc (addr : Z) (l : option nat) (fc size : Z) : M30 M Z :=
  let! e := atc_line l in
  let! s := get30 in
  if p_bus_error e then mmu030_page_fault addr true size fc
  else
    set_mm30 (fun m => {| m with ins_cache_state := p_cache_inhibit e;
                                 last_physical_address := page_addr_of s e;
                                 last_logical_address := (addr .& page_imask (translation m)) .| fc |}) ;;;
    set_cs30 (p_cache_inhibit e) ;;;
    ret30 (u32 (page_addr_of s e + page_index_of s addr)).

Definition mmu030_put_atc_generic (addr : Z) (l : option nat) (fc flags : Z) : M30 M Z :=
  let! e := atc_line l in
  let! s := get30 in
  if p_write_protect e || p_bus_error e then mmu030_page_fault addr false flags fc
  else
    mmu030_add_data_write_cache addr (page_addr_of s e) fc ;;;
    ret30 (u32 (page_addr_of s e + page_index_of s addr)).

Definition mmu030_get_atc_generic (addr : Z) (l : option nat) (fc flags : Z) (checkwrite : bool) : M30 M Z :=
  let! e := atc_line l in
  let! s := get30 in
  if p_bus_error e || (checkwrite && p_write_protect e) then mmu030_page_fault addr true flags fc
  else
    mmu030_add_data_read_cache addr (page_addr_of s e) fc ;;;
    ret30 (u32 (page_addr_of s e + page_index_of s addr)).

(** ** Accessors *)
Definition cacheablecheck (addr : Z) : M30 M unit :=
  let! s := get30 in
  when30 (cache_state30 s =? CACHE_ENABLE_ALL) (set_cs30 (ce_cachable (addr >> 16))).

(** [fc != 7 && (!tt_enabled || !match) && mmu030.enabled] *)
Definition through_atc (fc tt : Z) (s : st030 M) : bool :=
  negb (fc =? 7) && (negb (tt_enabled (mm30 s)) || (tt =? 0)) && enabled (mm30 s).

(** Look up; on a miss search the tables and look up again. *)
Definition atc_lookup {A} (addr fc : Z) (write : bool) (use : option nat -> M30 M A) : M30 M A :=
  let! l := mmu030_logical_is_in_atc addr fc write in
  match l with
  | Some _ => use l
  | None =>
      let! _ := mmu030_table_search addr fc write 0 in
      let! l := mmu030_logical_is_in_atc addr fc write in
      use l
  end.

(** The translation at the start of [mmu030_put_long], [_word] and [_byte]
    ([size] is the size field of the fault status). *)
Definition put_translate (addr fc size : Z) : M30 M Z :=
  set_cs30 CACHE_ENABLE_ALL ;;;
  let! s := get30 in
  if through_atc fc (mmu030_match_ttr_access addr fc true s) s then
    let idx1 := fast_idx (translation (mm30 s)) addr fc in
    let e := data_write (mm30 s) !!! Z.to_nat (idx1 .& (MMUFASTCACHE_ENTRIES030 - 1)) in
    if c_log e =? idx1 then set_cs30 (c_cs e) ;;; ret30 (c_phys e .| page_index_of s addr)
    else atc_lookup addr fc true (fun l => mmu030_put_atc addr l fc size)
  else ret30 addr.

(** ... and of [mmu030_get_long], [_word] and [_byte]. *)
Definition get_translate (addr fc size : Z) : M30 M Z :=
  set_cs30 CACHE_ENABLE_ALL ;;;
  let! s := get30 in
  if through_atc fc (mmu030_match_ttr_access addr fc false s) s then
    let idx1 := fast_idx (translation (mm30 s)) addr fc in
    let e := data_read (mm30 s) !!! Z.to_nat (idx1 .& (MMUFASTCACHE_ENTRIES030 - 1)) in
    if c_log e =? idx1 then set_cs30 (c_cs e) ;;; ret30 (c_phys e .| page_index_of s addr)
    else atc_lookup addr fc false (fun l => mmu030_get_atc addr l fc size)
  else ret30 addr.

Definition mmu030_put_long (addr val fc : Z) : M30 M unit :=
  let! a := put_translate addr fc MMU030_SSW_SIZE_L in cacheablecheck a ;;; put_phys30 sz_long a val.
Definition mmu030_put_word (addr val fc : Z) : M30 M unit :=
  let! a := put_translate addr fc MMU030_SSW_SIZE_W in cacheablecheck a ;;; put_phys30 sz_word a val.
Definition mmu030_put_byte (addr val fc : Z) : M30 M unit :=
  let! a := put_translate addr fc MMU030_SSW_SIZE_B in cacheablecheck a ;;; put_phys30 sz_byte a val.
Definition mmu030_get_long (addr fc : Z) : M30 M Z :=
  let! a := get_translate addr fc MMU030_SSW_SIZE_L in cacheablecheck a ;;; get_phys30 sz_long a.
Definition mmu030_get_word (addr fc : Z) : M30 M Z :=
  let! a := get_translate addr fc MMU030_SSW_SIZE_W in cacheablecheck a ;;; get_phys30 sz_word a.
Definition mmu030_get_byte (addr fc : Z) : M30 M Z :=
  let! a := get_translate addr fc MMU030_SSW_SIZE_B in cacheablecheck a ;;; get_phys30 sz_byte a.

(** Instruction fetches remember the last page instead. *)
Definition get_itranslate (addr fc ssize size : Z) : M30 M Z :=
  let! s := get30 in
  let m := mm30 s in
  if (addr .& page_imask (translation m)) .| fc =? last_logical_address m then
    set_cs30 (ins_cache_state m) ;;;
    get_phys30 size (u32 (last_physical_address m + page_index_of s addr))
  else
    set_mm30 (fun m => {| m with last_logical_address := 0xffffffff |}) ;;;
    set_cs30 CACHE_ENABLE_ALL ;;;
    let! s := get30 in
    let! a := (if through_atc fc (mmu030_match_ttr_access addr fc false s) s
               then atc_lookup addr fc false (fun l => mmu030_get_i_atc addr l fc ssize)
               else ret30 addr) in
    cacheablecheck a ;;; get_phys30 size a.

Definition mmu030_get_ilong (addr fc : Z) : M30 M Z := get_itranslate addr fc MMU030_SSW_SIZE_L sz_long.
Definition mmu030_get_iword (addr fc : Z) : M30 M Z := get_itranslate addr fc MMU030_SSW_SIZE_W sz_word.

(** *** Generic accessors, the path of unaligned, locked and restarted accesses *)
Definition put_generic_at (tt : st030 M -> Z) (addr fc flags : Z) : M30 M Z :=
  set_cs30 CACHE_ENABLE_ALL ;;;
  let! s := get30 in
  if through_atc fc (tt s) s
  then atc_lookup addr fc true (fun l => mmu030_put_atc_generic addr l fc flags)
  else ret30 addr.

Definition get_generic_at (tt : st030 M -> Z) (addr fc flags : Z) (write : bool) : M30 M Z :=
  set_cs30 CACHE_ENABLE_ALL ;;;
  let! s := get30 in
  if through_atc fc (tt s) s
  then atc_lookup addr fc write (fun l => mmu030_get_atc_generic addr l fc flags write)
  else ret30 addr.

Definition mmu030_put_generic_lrmw (addr val fc size flags : Z) : M30 M unit :=
  let! a := put_generic_at (mmu030_match_lrmw_ttr_access addr fc) addr fc flags in
  cacheablecheck a ;;; put_phys30 size a val.

Definition mmu030_put_generic (addr val fc size flags : Z) : M30 M unit :=
  if truth (flags .& MMU030_SSW_RM) then mmu030_put_generic_lrmw addr val fc size flags
  else
    let! a := put_generic_at (mmu030_match_ttr_access addr fc true) addr fc flags in
    cacheablecheck a ;;; put_phys30 size a val.

Definition mmu030_get_generic_lrmw (addr fc size flags : Z) : M30 M Z :=
  let! a := get_generic_at (mmu030_match_lrmw_ttr_access addr fc) addr fc flags true in
  cacheablecheck a ;;; get_phys30 size a.

Definition mmu030_get_generic (addr fc size flags : Z) : M30 M Z :=
  if truth (flags .& MMU030_SSW_RM) then mmu030_get_generic_lrmw addr fc size flags
  else
    let! a := get_generic_at (mmu030_match_ttr_access addr fc false) addr fc flags false in
    cacheablecheck a ;;; get_phys30 size a.

(** [uae_mmu030_check_fc]: after a search the write check is dropped. *)
Definition uae_mmu030_check_fc (fc addr : Z) (write : bool) (size : Z) : M30 M Z :=
  set_cs30 CACHE_ENABLE_ALL ;;;
  let! s := get30 in
  let! a :=
    (if through_atc fc (mmu030_match_ttr_access addr fc write s) s then
       let flags := ssw_size30 size in
       let! l := mmu030_logical_is_in_atc addr fc write in
       match l with
       | Some _ => mmu030_get_atc_generic addr l fc flags write
       | None =>
           let! _ := mmu030_table_search addr fc write 0 in
           let! l := mmu030_logical_is_in_atc addr fc write in
           mmu030_get_atc_generic addr l fc flags false
       end
     else ret30 addr) in
  let! s := get30 in
  ret30 (if cache_state30 s =? CACHE_ENABLE_ALL then ce_cachable (a >> 16) else cache_state30 s).

(** *** Translation without an access *)
Definition mmu030_get_addr_atc (addr : Z) (l : option nat) (fc : Z) (write : bool) : M30 M Z :=
  let! e := atc_line l in
  let! s := get30 in
  if p_bus_error e || (write && p_write_protect e)
  then mmu030_page_fault addr (negb write) MMU030_SSW_SIZE_B fc
  else ret30 (u32 (page_addr_of s e + page_index_of s addr)).

Definition mmu030_translate (addr : Z) (super data write : bool) : M30 M Z :=
  let fc := (if super then 4 else 0) .| (if data then 1 else 2) in
  if fc =? 7 then ret30 addr
  else
    let! mt := mmu030_match_ttr addr fc write in
    let! s := get30 in
    if truth (mt .& TT_OK_MATCH) || negb (enabled (mm30 s)) then ret30 addr
    else
      let! l := mmu030_logical_is_in_atc addr fc write in
      match l with
      | Some _ => mmu030_get_addr_atc addr l fc write
      | None =>
          let! _ := mmu030_table_search addr fc false 0 in
          let! l := mmu030_logical_is_in_atc addr fc write in
          mmu030_get_addr_atc addr l fc write
      end.

(** ** Unaligned accesses: in parts, each recorded in [mmu030_state[1]] *)
Definition set_state1 (f : Z -> Z) : M30 M unit := set_fl30 (fun fl => {| fl with state1 := f (state1 fl) |}).
Definition set_buffer (f : Z -> Z) : M30 M unit :=
  set_fl30 (fun fl => {| fl with data_buffer_out := u32 (f (data_buffer_out fl)) |}).

Definition SUBACCESS_ALL : Z :=
  MMU030_STATEFLAG1_SUBACCESSL .| MMU030_STATEFLAG1_SUBACCESSX .| MMU030_STATEFLAG1_SUBACCESS0
    .| MMU030_STATEFLAG1_SUBACCESS1 .| MMU030_STATEFLAG1_SUBACCESS2 .| MMU030_STATEFLAG1_SUBACCESS3.

Definition unalign_init (l l2 : bool) : M30 M unit :=
  set_state1 (fun v => v .| (if l2 then MMU030_STATEFLAG1_SUBACCESSX else 0)
                         .| (if l then MMU030_STATEFLAG1_SUBACCESSL else 0)
                         .| MMU030_STATEFLAG1_SUBACCESS0).
Definition unalign_set (state : Z) : M30 M unit :=
  set_state1 (fun v => v .| ((1 << state) << (MMU030_STATEFLAG1_SUBACCESS_SHIFT + 1))).
Definition unalign_clear : M30 M unit := set_state1 (fun v => v .& Z.lnot SUBACCESS_ALL).

Definition buffer30 : M30 M Z := let! s := get30 in ret30 (data_buffer_out (fl30 s)).

Definition mmu030_get_word_unaligned (addr fc flags : Z) : M30 M Z :=
  unalign_init false false ;;;
  let! v := mmu030_get_generic addr fc sz_byte (flags .| MMU030_SSW_SIZE_W) in
  set_buffer (fun _ => v << 8) ;;;
  unalign_set 0 ;;;
  let! v := mmu030_get_generic (u32 (addr + 1)) fc sz_byte (flags .| MMU030_SSW_SIZE_B) in
  set_buffer (fun b => b .| v) ;;;
  unalign_clear ;;;
  let! b := buffer30 in ret30 (u16 b).

Definition mmu030_get_long_unaligned (addr fc flags : Z) : M30 M Z :=
  (if addr .& 1 =? 0 then
     unalign_init true false ;;;
     let! v := mmu030_get_generic addr fc sz_word (flags .| MMU030_SSW_SIZE_L) in
     set_buffer (fun _ => v << 16) ;;;
     unalign_set 0 ;;;
     let! v := mmu030_get_generic (u32 (addr + 2)) fc sz_word (flags .| MMU030_SSW_SIZE_W) in
     set_buffer (fun b => b .| v)
   else
     unalign_init true true ;;;
     let! v := mmu030_get_generic addr fc sz_byte (flags .| MMU030_SSW_SIZE_L) in
     set_buffer (fun _ => v << 24) ;;;
     unalign_set 0 ;;;
     let! v := mmu030_get_generic (u32 (addr + 1)) fc sz_word (flags .| MMU030_SSW_SIZE_W) in
     set_buffer (fun b => b .| (v << 8)) ;;;
     unalign_set 1 ;;;
     let! v := mmu030_get_generic (u32 (addr + 3)) fc sz_byte (flags .| MMU030_SSW_SIZE_B) in
     set_buffer (fun b => b .| v)) ;;;
  unalign_clear ;;;
  buffer30.

Definition mmu030_put_long_unaligned (addr val fc flags : Z) : M30 M unit :=
  (if addr .& 1 =? 0 then
     unalign_init true false ;;;
     mmu030_put_generic addr (val >> 16) fc sz_word (flags .| MMU030_SSW_SIZE_L) ;;;
     unalign_set 0 ;;;
     mmu030_put_generic (u32 (addr + 2)) val fc sz_word (flags .| MMU030_SSW_SIZE_W)
   else
     unalign_init true true ;;;
     mmu030_put_generic addr (val >> 24) fc sz_byte (flags .| MMU030_SSW_SIZE_L) ;;;
     unalign_set 0 ;;;
     mmu030_put_generic (u32 (addr + 1)) (val >> 8) fc sz_word (flags .| MMU030_SSW_SIZE_W) ;;;
     unalign_set 1 ;;;
     mmu030_put_generic (u32 (addr + 3)) val fc sz_byte (flags .| MMU030_SSW_SIZE_B)) ;;;
  unalign_clear.

Definition mmu030_put_word_unaligned (addr val fc flags : Z) : M30 M unit :=
  unalign_init false false ;;;
  mmu030_put_generic addr (val >> 8) fc sz_byte (flags .| MMU030_SSW_SIZE_W) ;;;
  unalign_set 0 ;;;
  mmu030_put_generic (u32 (addr + 1)) val fc sz_byte (flags .| MMU030_SSW_SIZE_B) ;;;
  unalign_clear.

(** Two instruction words; a fault in the second is thrown on. *)
Definition mmu030_get_ilong_unaligned (addr fc : Z) : M30 M Z :=
  let! hi := mmu030_get_iword addr fc in
  let! lo := mmu030_get_iword (u32 (addr + 2)) fc in
  ret30 ((hi << 16) .| lo).

(** *** Resuming one that faulted: the parts not yet done *)
Record part := mk_part {
  pt_flag : Z; pt_size : Z; pt_ssw : Z; pt_shift : Z; pt_keep : Z; pt_adv : Z }.

Definition unaligned_parts (st : Z) : list part :=
  if truth (st .& MMU030_STATEFLAG1_SUBACCESSL) then
    if truth (st .& MMU030_STATEFLAG1_SUBACCESSX) then
      [ mk_part MMU030_STATEFLAG1_SUBACCESS1 sz_byte MMU030_SSW_SIZE_L 24 0x00ffffff 1;
        mk_part MMU030_STATEFLAG1_SUBACCESS2 sz_word MMU030_SSW_SIZE_W 8 0xff0000ff 2;
        mk_part MMU030_STATEFLAG1_SUBACCESS3 sz_byte MMU030_SSW_SIZE_B 0 0xffffff00 1 ]
    else
      [ mk_part MMU030_STATEFLAG1_SUBACCESS1 sz_word MMU030_SSW_SIZE_L 16 0x0000ffff 2;
        mk_part MMU030_STATEFLAG1_SUBACCESS2 sz_word MMU030_SSW_SIZE_W 0 0xffff0000 2 ]
  else
    [ mk_part MMU030_STATEFLAG1_SUBACCESS1 sz_byte MMU030_SSW_SIZE_W 8 0x00ff 1;
      mk_part MMU030_STATEFLAG1_SUBACCESS2 sz_byte MMU030_SSW_SIZE_B 0 0xff00 1 ].

Fixpoint read_parts (ps : list part) (func : Z -> Z -> Z -> Z -> M30 M Z) (addr fc st : Z) : M30 M unit :=
  match ps with
  | [] => ret30 tt
  | q :: ps =>
      if st .& pt_flag q =? 0 then
        set_buffer (fun b => b .& pt_keep q) ;;;
        let! v := func addr fc (pt_size q) (pt_ssw q) in
        set_buffer (fun b => b .| (v << pt_shift q)) ;;;
        set_state1 (fun _ => st .| pt_flag q) ;;;
        read_parts ps func (u32 (addr + pt_adv q)) fc (st .| pt_flag q)
      else read_parts ps func addr fc st
  end.

Fixpoint write_parts (ps : list part) (func : Z -> Z -> Z -> Z -> Z -> M30 M unit) (addr fc st : Z)
    : M30 M unit :=
  match ps with
  | [] => ret30 tt
  | q :: ps =>
      if st .& pt_flag q =? 0 then
        let! b := buffer30 in
        func addr (b >> pt_shift q) fc (pt_size q) (pt_ssw q) ;;;
        set_state1 (fun _ => st .| pt_flag q) ;;;
        write_parts ps func (u32 (addr + pt_adv q)) fc (st .| pt_flag q)
      else write_parts ps func addr fc st
  end.

Definition mmu030_unaligned_read_continue (addr fc : Z) (func : Z -> Z -> Z -> Z -> M30 M Z) : M30 M unit :=
  let! s := get30 in
  let st := state1 (fl30 s) in
  read_parts (unaligned_parts st) func addr fc st ;;; unalign_clear.

Definition mmu030_unaligned_write_continue (addr fc : Z) (func : Z -> Z -> Z -> Z -> Z -> M30 M unit)
    : M30 M unit :=
  let! s := get30 in
  let st := state1 (fl30 s) in
  write_parts (unaligned_parts st) func addr fc st ;;; unalign_clear.

(** *** Locked read-modify-write *)
Definition is_unaligned_bus (addr size : Z) : bool := truth (addr .& (size - 1)).
Definition fc_data (s : st030 M) : Z := (if reg_s (cpu30 s) then 4 else 0) .| 1.
Definition fc_code (s : st030 M) : Z := (if reg_s (cpu30 s) then 4 else 0) .| 2.

Definition uae_mmu030_get_lrmw_fcx (addr size fc : Z) : M30 M Z :=
  if size =? sz_byte then mmu030_get_generic addr fc size (MMU030_SSW_RM .| MMU030_SSW_SIZE_B)
  else if size =? sz_word then
    if is_unaligned_bus addr 2 then mmu030_get_word_unaligned addr fc MMU030_SSW_RM
    else mmu030_get_generic addr fc size (MMU030_SSW_RM .| MMU030_SSW_SIZE_W)
  else if is_unaligned_bus addr 4 then mmu030_get_long_unaligned addr fc MMU030_SSW_RM
  else mmu030_get_generic addr fc size (MMU030_SSW_RM .| MMU030_SSW_SIZE_L).

Definition set_lrmw (b : bool) : M30 M unit := set_fl30 (fun f => {| f with islrmw030 := b |}).

Definition uae_mmu030_get_lrmw (addr size : Z) : M30 M Z :=
  let! s := get30 in
  set_lrmw true ;;;
  let! v := uae_mmu030_get_lrmw_fcx addr size (fc_data s) in
  set_lrmw false ;;; ret30 v.

Definition uae_mmu030_put_lrmw_fcx (addr val size fc : Z) : M30 M unit :=
  if size =? sz_byte then mmu030_put_generic addr val fc size (MMU030_SSW_RM .| MMU030_SSW_SIZE_B)
  else if size =? sz_word then
    if is_unaligned_bus addr 2 then mmu030_put_word_unaligned addr (u16 val) fc MMU030_SSW_RM
    else mmu030_put_generic addr val fc size (MMU030_SSW_RM .| MMU030_SSW_SIZE_W)
  else if is_unaligned_bus addr 4 then mmu030_put_long_unaligned addr val fc MMU030_SSW_RM
  else mmu030_put_generic addr val fc size (MMU030_SSW_RM .| MMU030_SSW_SIZE_L).

Definition uae_mmu030_put_lrmw (addr val size : Z) : M30 M unit :=
  let! s := get30 in
  set_lrmw true ;;;
  uae_mmu030_put_lrmw_fcx addr val size (fc_data s) ;;;
  set_lrmw false.

(** ** The accessors of the handlers *)
Definition uae_mmu030_get_long_fcx (addr fc : Z) : M30 M Z :=
  if is_unaligned_bus addr 4 then mmu030_get_long_unaligned addr fc 0 else mmu030_get_long addr fc.
Definition uae_mmu030_get_word_fcx (addr fc : Z) : M30 M Z :=
  if is_unaligned_bus addr 2 then mmu030_get_word_unaligned addr fc 0 else mmu030_get_word addr fc.
Definition uae_mmu030_get_byte_fcx (addr fc : Z) : M30 M Z := mmu030_get_byte addr fc.
Definition uae_mmu030_put_long_fcx (addr val fc : Z) : M30 M unit :=
  if is_unaligned_bus addr 4 then mmu030_put_long_unaligned addr val fc 0 else mmu030_put_long addr val fc.
Definition uae_mmu030_put_word_fcx (addr val fc : Z) : M30 M unit :=
  if is_unaligned_bus addr 2 then mmu030_put_word_unaligned addr (u16 val) fc 0
  else mmu030_put_word addr (u16 val) fc.
Definition uae_mmu030_put_byte_fcx (addr val fc : Z) : M30 M unit := mmu030_put_byte addr (u8 val) fc.

Definition uae_mmu030_get_long (addr : Z) : M30 M Z := let! s := get30 in uae_mmu030_get_long_fcx addr (fc_data s).
Definition uae_mmu030_get_word (addr : Z) : M30 M Z := let! s := get30 in uae_mmu030_get_word_fcx addr (fc_data s).
Definition uae_mmu030_get_byte (addr : Z) : M30 M Z := let! s := get30 in mmu030_get_byte addr (fc_data s).
Definition uae_mmu030_put_long (addr v : Z) : M30 M unit := let! s := get30 in uae_mmu030_put_long_fcx addr v (fc_data s).
Definition uae_mmu030_put_word (addr v : Z) : M30 M unit := let! s := get30 in uae_mmu030_put_word_fcx addr v (fc_data s).
Definition uae_mmu030_put_byte (addr v : Z) : M30 M unit := let! s := get30 in uae_mmu030_put_byte_fcx addr v (fc_data s).
Definition uae_mmu030_get_iword (addr : Z) : M30 M Z := let! s := get30 in mmu030_get_iword addr (fc_code s).
Definition uae_mmu030_get_ilong (addr : Z) : M30 M Z :=
  let! s := get30 in
  if is_unaligned_bus addr 4 then mmu030_get_ilong_unaligned addr (fc_code s)
  else mmu030_get_ilong addr (fc_code s).

(** *** The access log of a restartable instruction

    [ACCESS_CHECK_GET]/[ACCESS_EXIT_GET] and the [PUT] macros: an access
    already done before the fault is answered from [mmu030_ad]. *)
Definition next_idx : M30 M bool :=
  let! s := get30 in
  set_fl30 (fun f => {| f with idx30 := idx30 f + 1 |}) ;;;
  ret30 (idx30 (fl30 s) <? idx_done30 (fl30 s)).

Definition logged_value : M30 M Z :=
  let! s := get30 in
  match ad30 (fl30 s) !! Z.to_nat (idx30 (fl30 s) - 1) with Some v => ret30 v | None => undef30 end.

Definition log_value (v : Z) : M30 M unit :=
  let! s := get30 in
  let i := idx_done30 (fl30 s) in
  if i <? Z.of_nat (length (ad30 (fl30 s))) then
    set_fl30 (fun f => {| f with ad30 := <[Z.to_nat i := v]> (ad30 f); idx_done30 := i + 1 |})
  else undef30.

Definition access_get (m : M30 M Z) : M30 M Z :=
  let! done := next_idx in
  if done then logged_value else let! v := m in log_value v ;;; ret30 v.

Definition access_put (v : Z) (m : M30 M unit) : M30 M unit :=
  let! done := next_idx in
  if done then ret30 tt
  else
    set_buffer (fun _ => v) ;;; m ;;; let! b := buffer30 in log_value b.

Definition get_long_mmu030_state (addr : Z) : M30 M Z := access_get (uae_mmu030_get_long addr).
Definition get_word_mmu030_state (addr : Z) : M30 M Z := access_get (uae_mmu030_get_word addr).
Definition get_byte_mmu030_state (addr : Z) : M30 M Z := access_get (uae_mmu030_get_byte addr).
Definition put_long_mmu030_state (addr v : Z) : M30 M unit := access_put v (uae_mmu030_put_long addr v).
Definition put_word_mmu030_state (addr v : Z) : M30 M unit := access_put v (uae_mmu030_put_word addr v).
Definition put_byte_mmu030_state (addr v : Z) : M30 M unit := access_put v (uae_mmu030_put_byte addr v).
Definition get_lrmw_mmu030_state (addr size : Z) : M30 M Z := access_get (uae_mmu030_get_lrmw addr size).
Definition put_lrmw_mmu030_state (addr v size : Z) : M30 M unit := access_put v (uae_mmu030_put_lrmw addr v size).
End Mmu030.
