(* ===== verification/Mmu030Op.v ===== *)
(** * Mmu030Op: configuring the 68030 MMU ([cpu/cpummu30.cpp])

    Decoding the translation control and root pointer registers, the
    instructions PMOVE, PTEST, PLOAD and PFLUSH, and reset.  [Exception(56)]
    (MMU configuration error) is recorded in the core's event log; [x_prefetch],
    [x_get_long] and the like are the accessors installed for the 68030
    without its data cache.

    Then what instructions use to reach memory: every access of an instruction
    is numbered and its value kept, so that an instruction that faulted can be
    run again without repeating the accesses it had completed. *)

From S2P Require Import Prelude Flags Cpu Movec Mmu Frames Mmu030.
From Stdlib Require Import ZArith Lia Bool.
From stdpp Require Import base list.
Open Scope Z_scope.
Open Scope cint_scope.
Open Scope m30_scope.

Section Mmu030Op.
Context {M : Type} `{Phys M} (p : prefs) (cpu_compatible : bool) (ce_cachable : Z -> Z).
Abbreviation M30 := (M30 M).
Abbreviation uae_mmu030_get_iword := (uae_mmu030_get_iword cpu_compatible ce_cachable).
Abbreviation uae_mmu030_get_long := (uae_mmu030_get_long cpu_compatible ce_cachable).
Abbreviation uae_mmu030_get_word := (uae_mmu030_get_word cpu_compatible ce_cachable).
Abbreviation uae_mmu030_put_long := (uae_mmu030_put_long cpu_compatible ce_cachable).
Abbreviation uae_mmu030_put_word := (uae_mmu030_put_word cpu_compatible ce_cachable).
Abbreviation mmu030_translate := (mmu030_translate cpu_compatible).
Abbreviation mmu030_table_search := (mmu030_table_search cpu_compatible).

(** ** Translation control *)

(** The opcode after the one that switches the MMU is fetched first. *)
Definition set_prefetch (v : Z) : M30 unit := set_fl30 (fun f => {| f with fake_prefetch := v |}).

Definition mmu030_do_fake_prefetch : M30 unit :=
  if cpu_compatible then ret30 tt
  else
    try30
      (let! s := get30 in
       let pc := pci30 s in
       set_prefetch (-1) ;;;
       let! a := mmu030_translate pc (reg_s (cpu30 s)) false false in
       set_fl30 (fun f => {| f with fake_prefetch_addr := a |}) ;;;
       let! v := uae_mmu030_get_iword pc in
       set_prefetch v ;;;
       if v =? 0x4e71
       then let! v := uae_mmu030_get_iword (u32 (pc + 2)) in set_prefetch v
       else ret30 tt)
      (fun _ => set_prefetch (-1)).

(** [TI_bits[i]] *)
Definition TI_bits (TC : Z) (i : nat) : Z := (TC >> ((3 - Z.of_nat i) * 4)) .& 0xF.

(** [for (j = 0; j < bits; j++) mask |= 1 << (shift + j)] *)
Definition field_mask (shift bits : Z) : Z :=
  fold_left (fun msk j => msk .| u32 (1 << (shift + Z.of_nat j))) (seq 0 (Z.to_nat bits)) 0.

(** The loop over the index fields: stops at the first empty one.  Returns the
    fields found, and the shift left over. *)
Fixpoint tc_fields (js : list nat) (TC shift : Z) : list tindex * Z :=
  match js with
  | [] => ([], shift)
  | i :: js =>
      let bits := TI_bits TC i in
      if bits =? 0 then ([], shift)
      else
        let shift := u8 (shift - bits) in
        let '(l, sh) := tc_fields js TC shift in
        (mk_tindex (field_mask shift bits) shift :: l, sh)
  end.

(** [for (i = 0; i < 4; i++) table[i] = {0, 0}], then the fields found. *)
Definition table4 (l : list tindex) : list tindex := take 4 (l ++ replicate 4 (mk_tindex 0 0)).

Definition mmu_config_error : M30 bool := set_cpu30 (emit (Exception 56)) ;;; ret30 true.

Definition set_tr30 (f : translation030 -> translation030) : M30 unit :=
  set_mm30 (fun m => {| m with translation := f (translation m) |}).

(** The page size is checked, then the index fields. *)
Definition decode_fields (TC size ishift : Z) : M30 bool :=
  if size <? 8 then mmu_config_error
  else
    let '(l, shift) := tc_fields [0; 1; 2; 3]%nat TC (32 - ishift) in
    set_tr30 (fun tr => {| tr with page_mask := (1 << size) - 1;
                                   page_imask := u32 (Z.lnot ((1 << size) - 1));
                                   table := table4 l;
                                   last_table := Z.of_nat (Nat.pred (length l)) |}) ;;;
    if shift =? size then ret30 false else mmu_config_error.

Definition mmu030_decode_tc (TC : Z) (check : bool) : M30 bool :=
  set_mm30 (fun m => {| m with last_logical_address := 0xffffffff |}) ;;;
  let TC := if mmu_ec p then TC .& Z.lnot TC_ENABLE_TRANSLATION else TC in
  let! s := get30 in
  if truth (TC .& TC_ENABLE_TRANSLATION) then
    when30 (negb (enabled (mm30 s)) && check) mmu030_do_fake_prefetch ;;;
    let size := (TC .& TC_PS_MASK) >> 20 in
    let ishift := (TC .& TC_IS_MASK) >> 16 in
    set_mm30 (fun m => {| m with enabled := true |}) ;;;
    set_tr30 (fun tr => {| tr with table := table4 []; page_size := size; page_size3m := u32 (size - 3);
                                   init_shift := ishift |}) ;;;
    set_cpu30 (fun c => {| c with rmmu := {| (rmmu c) with mmu_page_size := 1 << size |} |}) ;;;
    decode_fields TC size ishift
  else
    when30 (enabled (mm30 s)) mmu030_do_fake_prefetch ;;;
    set_mm30 (fun m => {| m with enabled := false |}) ;;;
    ret30 false.

Definition mmu030_decode_rp (RP : Z) : M30 bool :=
  let descriptor_type := u8 ((RP .& RP_DESCR_MASK) >> 32) in
  if descriptor_type =? 0 then mmu_config_error else ret30 false.

(** ** MMU instructions *)

(** The function code operand; [None] for a bad encoding. *)
Definition mmu_op30_helper_get_fc (next : Z) (c : cpu) : option Z :=
  let k := next .& 0x0018 in
  if k =? 0x0010 then Some (next .& 7)
  else if k =? 0x0008 then Some (m68k_dreg c (next .& 7) .& 7)
  else if k =? 0 then Some (if truth (next .& 1) then dfc (rctl c) else sfc (rctl c))
  else None.

Definition mmu_op30_invea (opcode : Z) : bool :=
  let eamode := (opcode >> 3) .& 7 in
  let rreg := opcode .& 7 in
  (eamode =? 0) || (eamode =? 1) || (eamode =? 3) || (eamode =? 4) || ((eamode =? 7) && (1 <? rreg)).

(** A 64-bit root pointer from memory, assigned in two steps, and to memory. *)
Definition get_rp (extra : Z) (set : Z -> mregs030 -> mregs030) : M30 Z :=
  let! hi := uae_mmu030_get_long extra in
  set_rg30 (set (hi << 32)) ;;;
  let! lo := uae_mmu030_get_long (u32 (extra + 4)) in
  set_rg30 (set ((hi << 32) .| lo)) ;;;
  ret30 ((hi << 32) .| lo).
Definition put_rp (extra v : Z) : M30 unit :=
  uae_mmu030_put_long extra (v >> 32) ;;; uae_mmu030_put_long (u32 (extra + 4)) (u32 v).

Definition tt_on (m : mregs030) : bool := truth (tt0_030 m .& TT_ENABLE) || truth (tt1_030 m .& TT_ENABLE).

(** The end of PMOVE: flush unless the flush-disable bit is set. *)
Definition pmove_end (flush : bool) : M30 Z :=
  when30 flush (set_mm30 mmu030_flush_atc_all) ;;;
  mod30 (fun s => {| s with mm30 := {| (mm30 s) with tt_enabled := tt_on (rg30 s) |} |}) ;;;
  ret30 0.

(** 0: done; 1: illegal; -1: configuration error. *)
Definition mmu_op30_pmove (opcode next extra : Z) : M30 Z :=
  let preg := (next >> 10) .& 31 in
  let rw := truth ((next >> 9) .& 1) in
  let fd := truth ((next >> 8) .& 1) in
  if mmu_op30_invea opcode || truth (next .& 0xff) || (rw && fd) then ret30 1
  else
    let! s := get30 in
    let r := rg30 s in
    let fin := pmove_end (negb fd && negb rw && negb (preg =? 0x18)) in
    let cfg (e : bool) := if e then ret30 (-1) else fin in
    if preg =? 0x10 then
      if rw then uae_mmu030_put_long extra (tc_030 r) ;;; fin
      else
        let! v := uae_mmu030_get_long extra in
        set_rg30 (fun r => {| r with tc_030 := v |}) ;;;
        let! e := mmu030_decode_tc v true in cfg e
    else if preg =? 0x12 then
      if rw then put_rp extra (srp_030 r) ;;; fin
      else
        let! v := get_rp extra (fun v r => {| r with srp_030 := v |}) in
        let! e := mmu030_decode_rp v in cfg e
    else if preg =? 0x13 then
      if rw then put_rp extra (crp_030 r) ;;; fin
      else
        let! v := get_rp extra (fun v r => {| r with crp_030 := v |}) in
        let! e := mmu030_decode_rp v in cfg e
    else if preg =? 0x18 then
      if fd then ret30 1
      else if rw then uae_mmu030_put_word extra (mmusr_030 r) ;;; fin
      else
        let! v := uae_mmu030_get_word extra in
        set_rg30 (fun r => {| r with mmusr_030 := v |}) ;;; fin
    else if preg =? 0x02 then
      if rw then uae_mmu030_put_long extra (tt0_030 r) ;;; fin
      else
        let! v := uae_mmu030_get_long extra in
        set_rg30 (fun r => {| r with tt0_030 := v |}) ;;;
        set_mm30 (fun m => {| m with tt0 := mmu030_decode_tt v |}) ;;; fin
    else if preg =? 0x03 then
      if rw then uae_mmu030_put_long extra (tt1_030 r) ;;; fin
      else
        let! v := uae_mmu030_get_long extra in
        set_rg30 (fun r => {| r with tt1_030 := v |}) ;;;
        set_mm30 (fun m => {| m with tt1 := mmu030_decode_tt v |}) ;;; fin
    else ret30 1.

(** [true]: illegal. *)
Definition mmu_op30_ptest (opcode next extra : Z) : M30 bool :=
  set_mm30 (fun m => {| m with status := 0 |}) ;;;
  set_rg30 (fun r => {| r with mmusr_030 := 0 |}) ;;;
  let level := (next .& 0x1C00) >> 10 in
  let a := truth ((next >> 8) .& 1) in
  let areg := (next .& 0xE0) >> 5 in
  let write := negb (truth ((next >> 9) .& 1)) in
  let! s := get30 in
  if mmu_op30_invea opcode then ret30 true
  else match mmu_op30_helper_get_fc next (cpu30 s) with
  | None => ret30 true
  | Some fc =>
      if (level =? 0) && a then ret30 true
      else
        (if level =? 0 then mmu030_ptest_atc_search extra fc write
         else
           let! ret := mmu030_table_search extra fc write level in
           when30 a (set_cpu30 (set_areg areg ret))) ;;;
        mod30 (fun s => {| s with rg30 := {| (rg30 s) with mmusr_030 := status (mm30 s) |} |}) ;;;
        ret30 false
  end.

Definition mmu_op30_pload (opcode next extra : Z) : M30 bool :=
  let write := negb (truth ((next >> 9) .& 1)) in
  if mmu_op30_invea opcode || truth (next .& (0x100 .| 0x80 .| 0x40 .| 0x20)) then ret30 true
  else
    let! s := get30 in
    match mmu_op30_helper_get_fc next (cpu30 s) with
    | None => ret30 true
    | Some fc =>
        set_mm30 (mmu030_flush_atc_page extra) ;;;
        let! _ := mmu030_table_search extra fc write 0 in
        ret30 false
    end.

Definition mmu_op30_pflush (opcode next extra : Z) : M30 bool :=
  let mode := (next >> 8) .& 31 in
  let fcm := (next .& 0x00E0) >> 5 in
  let! s := get30 in
  let with_fc (k : Z -> mmu030 -> mmu030) : M30 bool :=
    match mmu_op30_helper_get_fc next (cpu30 s) with
    | None => ret30 true
    | Some fcb => set_mm30 (k fcb) ;;; ret30 false
    end in
  if (mode =? 0) || (mode =? 2) then mmu_op30_pload opcode next extra
  else if mode =? 4 then
    if truth (next .& 0x7f) then ret30 true
    else set_mm30 mmu030_flush_atc_all ;;; ret30 false
  else if mode =? 0x10 then with_fc (fun fcb => mmu030_flush_atc_fc fcb fcm)
  else if mode =? 0x18 then
    if mmu_op30_invea opcode then ret30 true
    else with_fc (fun fcb => mmu030_flush_atc_page_fc extra fcb fcm)
  else ret30 true.

(** ** Reset ([savestate_state] clear) *)
Definition mmu030_reset (hardreset : Z) : M30 unit :=
  set_mm30 (fun m => {| m with enabled := false; last_logical_address := 0xffffffff |}) ;;;
  set_cpu30 (fun c => {| c with rmmu := {| (rmmu c) with mmu_page_size := 0 |} |}) ;;;
  when30 (0 <=? hardreset)
    (set_rg30 (fun r => {| r with tc_030 := tc_030 r .& Z.lnot TC_ENABLE_TRANSLATION;
                                  tt0_030 := tt0_030 r .& Z.lnot TT_ENABLE;
                                  tt1_030 := tt1_030 r .& Z.lnot TT_ENABLE |})) ;;;
  when30 (0 <? hardreset)
    (set_rg30 (fun r => mk_mregs 0 0 0 0 0 0) ;;; set_mm30 mmu030_flush_atc_all).
End Mmu030Op.

(** * The accesses of an instruction: its own words, MOVES, the indexed
    addressing mode, whose result is kept as a whole, RTS and BSR *)

Section Ins.
Context {M : Type} `{Phys M} (cpu_compatible : bool) (ce_cachable : Z -> Z).
Abbreviation M30 := (M30 M).
Abbreviation uae_mmu030_get_iword := (uae_mmu030_get_iword cpu_compatible ce_cachable).
Abbreviation uae_mmu030_get_ilong := (uae_mmu030_get_ilong cpu_compatible ce_cachable).
Abbreviation get_long_mmu030_state := (get_long_mmu030_state cpu_compatible ce_cachable).
Abbreviation put_long_mmu030_state := (put_long_mmu030_state cpu_compatible ce_cachable).

(** ** The instruction stream

    [regs.pc]; the host pointer beside it is not part of this model. *)
Definition m68k_incpci (o : Z) : M30 unit := mod30 (fun s => {| s with pci30 := u32 (pci30 s + o) |}).
Definition m68k_setpc (v : Z) : M30 unit := mod30 (fun s => {| s with pci30 := u32 v |}).

(** [ACCESS_CHECK_GET_PC]: a fetch already done still moves the PC. *)
Definition access_get_pc (n : Z) (m : M30 Z) : M30 Z :=
  let! done := next_idx in
  if done then let! v := logged_value in m68k_incpci n ;;; ret30 v
  else let! v := m in m68k_incpci n ;;; log_value v ;;; ret30 v.

Definition next_iword_mmu030_state : M30 Z :=
  let! s := get30 in access_get_pc 2 (uae_mmu030_get_iword (pci30 s)).
Definition next_ilong_mmu030_state : M30 Z :=
  let! s := get30 in access_get_pc 4 (uae_mmu030_get_ilong (pci30 s)).
Definition get_iword_mmu030_state (o : Z) : M30 Z :=
  let! s := get30 in access_get (uae_mmu030_get_iword (u32 (pci30 s + o))).
Definition get_ilong_mmu030_state (o : Z) : M30 Z :=
  let! s := get30 in access_get (uae_mmu030_get_ilong (u32 (pci30 s + o))).

(** A value that is not an access but must survive a restart. *)
Definition state_store_mmu030 (v : Z) : M30 Z :=
  let! done := next_idx in
  if done then logged_value else log_value v ;;; ret30 v.

(** ** MOVES: the function code comes from SFC or DFC *)
Definition sfc30 : M30 Z := let! s := get30 in ret30 (sfc (rctl (cpu30 s))).
Definition dfc30 : M30 Z := let! s := get30 in ret30 (dfc (rctl (cpu30 s))).
Definition set_moves (b : bool) : M30 unit := set_fl30 (fun f => {| f with ismoves030 := b |}).

Definition sfc030_get_long (addr : Z) : M30 Z :=
  let! fc := sfc30 in uae_mmu030_get_long_fcx cpu_compatible ce_cachable addr fc.
Definition sfc030_get_word (addr : Z) : M30 Z :=
  let! fc := sfc30 in uae_mmu030_get_word_fcx cpu_compatible ce_cachable addr fc.
Definition sfc030_get_byte (addr : Z) : M30 Z :=
  let! fc := sfc30 in mmu030_get_byte cpu_compatible ce_cachable addr fc.
Definition dfc030_put_long (addr v : Z) : M30 unit :=
  let! fc := dfc30 in uae_mmu030_put_long_fcx cpu_compatible ce_cachable addr v fc.
Definition dfc030_put_word (addr v : Z) : M30 unit :=
  let! fc := dfc30 in uae_mmu030_put_word_fcx cpu_compatible ce_cachable addr v fc.
Definition dfc030_put_byte (addr v : Z) : M30 unit :=
  let! fc := dfc30 in uae_mmu030_put_byte_fcx cpu_compatible ce_cachable addr v fc.

Definition moves_get (m : M30 Z) : M30 Z :=
  access_get (set_moves true ;;; let! v := m in set_moves false ;;; ret30 v).
Definition moves_put (v : Z) (m : M30 unit) : M30 unit :=
  access_put v (set_moves true ;;; m ;;; set_moves false).
Definition sfc030_get_long_state (addr : Z) : M30 Z := moves_get (sfc030_get_long addr).
Definition sfc030_get_word_state (addr : Z) : M30 Z := moves_get (sfc030_get_word addr).
Definition sfc030_get_byte_state (addr : Z) : M30 Z := moves_get (sfc030_get_byte addr).
Definition dfc030_put_long_state (addr v : Z) : M30 unit := moves_put v (dfc030_put_long addr v).
Definition dfc030_put_word_state (addr v : Z) : M30 unit := moves_put v (dfc030_put_word addr v).
Definition dfc030_put_byte_state (addr v : Z) : M30 unit := moves_put v (dfc030_put_byte addr v).

(** ** Indexed addressing *)

(** A displacement of no, one or two words, and how many words it took. *)
Definition disp30 (size : Z) : M30 (Z * Z) :=
  if size =? 2 then let! v := next_iword_mmu030_state in ret30 (s16 v, 1)
  else if size =? 3 then let! v := next_ilong_mmu030_state in ret30 (v, 2)
  else ret30 (0, 0).

(** The address an extension word denotes, and the words it took. *)
Definition disp_ea30 (base : Z) : M30 (Z * Z) :=
  let! w := next_iword_mmu030_state in
  let dp := u16 w in
  let! s := get30 in
  let regd := s32 (regs (cpu30 s) !!! Z.to_nat ((dp >> 12) .& 15)) in
  let regd := if dp .& 0x800 =? 0 then s16 regd else regd in
  let regd := s32 (regd << ((dp >> 9) .& 3)) in
  if truth (dp .& 0x100) then
    let base := if truth (dp .& 0x80) then 0 else base in
    let regd := if truth (dp .& 0x40) then 0 else regd in
    let! (bd, n) := disp30 ((dp .& 0x30) >> 4) in
    let base := u32 (base + bd) in
    let! (outer, n') := disp30 (dp .& 0x3) in
    let base := if dp .& 0x4 =? 0 then u32 (base + regd) else base in
    let! base := (if truth (dp .& 0x3) then get_long_mmu030_state base else ret30 base) in
    let base := if truth (dp .& 0x4) then u32 (base + regd) else base in
    ret30 (u32 (base + outer), 1 + n + n')
  else ret30 (u32 (base + s8 dp + regd), 1).

(** Once computed, the address and the length of its extension words are kept
    in [mmu030_disp_store] and [mmu030_state]; the log starts over. *)
Definition get_disp_ea_020_mmu030 (base : Z) (idx : nat) : M30 Z :=
  let! s := get30 in
  let f := fl30 s in
  if truth (state1 f .& (1 << Z.of_nat idx)) then
    m68k_incpci (((state2 f >> (Z.of_nat idx * 4)) .& 15) * 2) ;;;
    ret30 (disp_store f !!! idx)
  else
    let! (v, pcadd) := disp_ea30 base in
    set_fl30 (fun g => {| g with state1 := state1 g .| (1 << Z.of_nat idx);
                                 state2 := state2 g .| u16 (pcadd << (Z.of_nat idx * 4));
                                 disp_store := <[idx := v]> (disp_store g);
                                 idx30 := idx30 f; idx_done30 := idx30 f |}) ;;;
    ret30 v.

(** ** RTS and BSR *)
Definition add_a7 (n : Z) : M30 unit := set_cpu30 (fun c => set_areg 7 (m68k_areg c 7 + n) c).
Definition m68k_do_rts_mmu030 : M30 unit :=
  let! s := get30 in
  let! v := get_long_mmu030_state (m68k_areg (cpu30 s) 7) in
  m68k_setpc v ;;; add_a7 4.
Definition m68k_do_bsr_mmu030 (oldpc offset : Z) : M30 unit :=
  let! s := get30 in
  put_long_mmu030_state (u32 (m68k_areg (cpu30 s) 7 - 4)) oldpc ;;;
  add_a7 (-4) ;;; m68k_incpci offset.
End Ins.
