(* ===== verification/Mmu030Spec.v ===== *)
(** * Mmu030Spec: a 68030 table search, as the manual describes it

    One recursion over the index fields of the logical address.  It threads
    the memory (descriptors are marked used and modified on the way) and knows
    nothing of the translation cache, of exceptions or of the array of
    descriptor addresses.  [Mmu030Walk] shows that [mmu030_table_search]
    computes it.

    Before it, what a translation control value means: the index fields
    [mmu030_decode_tc] extracts cut every logical address into the ignored
    high bits, one index per table and the offset in the page, with nothing
    lost or counted twice, exactly when the value passes the configuration
    check. *)

From S2P Require Import Prelude Flags Cpu Movec Mmu Frames Mmu030 Mmu030Op.
From Stdlib Require Import ZArith Lia Bool.
From stdpp Require Import base list.
Open Scope Z_scope.
Open Scope cint_scope.

(** * Translation control *)

(** The page size and initial shift fields, and the table index fields up to
    the first empty one. *)
Definition tc_ps (TC : Z) : Z := (TC .& TC_PS_MASK) >> 20.
Definition tc_is (TC : Z) : Z := (TC .& TC_IS_MASK) >> 16.
Fixpoint ti_used (l : list Z) : list Z :=
  match l with [] => [] | b :: l => if b =? 0 then [] else b :: ti_used l end.
Definition tc_ti (js : list nat) (TC : Z) : list Z := ti_used (TI_bits TC <$> js).
Definition Zsum (l : list Z) : Z := foldr Z.add 0 l.

(** A legal value: pages of at least 256 bytes, fields that add up to 32. *)
Definition tc_legal (TC : Z) : bool :=
  (8 <=? tc_ps TC) && (tc_is TC + tc_ps TC + Zsum (tc_ti [0; 1; 2; 3]%nat TC) =? 32).

(** An address put together from its table indices. *)
Definition recompose (l : list tindex) (addr : Z) : Z :=
  Zsum ((fun ti => tindex_of ti addr * 2 ^ t_shift ti) <$> l).

(** ** Fields *)
Lemma Zsum_cons b l : Zsum (b :: l) = b + Zsum l.
Proof. done. Qed.

Lemma TI_bits_range TC i : 0 <= TI_bits TC i < 16.
Proof. apply land15_range. Qed.

Lemma tc_ps_range TC : 0 <= tc_ps TC < 16.
Proof.
  unfold tc_ps, TC_PS_MASK. change 0xF00000 with (0xF << 20). rewrite land_shl_mask by lia.
  rewrite Z.shiftr_shiftl_l by lia. rewrite Z.sub_diag, Z.shiftl_0_r. apply land15_range.
Qed.
Lemma tc_is_range TC : 0 <= tc_is TC < 16.
Proof.
  unfold tc_is, TC_IS_MASK. change 0xF0000 with (0xF << 16). rewrite land_shl_mask by lia.
  rewrite Z.shiftr_shiftl_l by lia. rewrite Z.sub_diag, Z.shiftl_0_r. apply land15_range.
Qed.

Lemma ti_used_bounds l : Forall (fun b => 0 <= b < 16) l ->
  0 <= Zsum (ti_used l) <= 15 * Z.of_nat (length l).
Proof.
  induction 1 as [|b l Hb Hl IH]; cbn [ti_used length]; [cbn; lia|].
  rewrite Nat2Z.inj_succ. destruct (b =? 0); [cbn; lia|].
  rewrite Zsum_cons. lia.
Qed.

Lemma tc_ti_bounds js TC : 0 <= Zsum (tc_ti js TC) <= 15 * Z.of_nat (length js).
Proof.
  unfold tc_ti. rewrite <- (length_fmap (TI_bits TC) js). apply ti_used_bounds.
  apply Forall_fmap, Forall_true. intros i; apply TI_bits_range.
Qed.

(** ** Masks *)
Lemma field_mask_testbit shift bits i : 0 <= shift -> 0 <= bits -> shift + bits <= 32 -> 0 <= i ->
  Z.testbit (field_mask shift bits) i = (shift <=? i) && (i <? shift + bits).
Proof.
  intros Hs Hb0 Hb Hi. unfold field_mask.
  assert (G : forall n k acc, shift + Z.of_nat (k + n) <= 32 ->
    Z.testbit (fold_left (fun msk j => msk .| u32 (1 << (shift + Z.of_nat j))) (seq k n) acc) i
    = Z.testbit acc i || ((shift + Z.of_nat k <=? i) && (i <? shift + Z.of_nat (k + n)))).
  { induction n as [|n IH]; intros k acc Hk; cbn [seq fold_left].
    - rewrite Nat.add_0_r. destruct (Z.leb_spec (shift + Z.of_nat k) i), (Z.ltb_spec i (shift + Z.of_nat k));
        try lia; by rewrite orb_false_r.
    - rewrite IH by lia. rewrite Z.lor_spec, testbit_u32, Z.shiftl_spec by lia.
      rewrite <- orb_assoc. f_equal.
      change 1 with (2 ^ 0). rewrite Z.pow2_bits_eqb by lia.
      destruct (Z.eqb_spec 0 (i - (shift + Z.of_nat k))),
        (Z.ltb_spec i 32), (Z.leb_spec (shift + Z.of_nat (S k)) i), (Z.leb_spec (shift + Z.of_nat k) i),
        (Z.ltb_spec i (shift + Z.of_nat (S k + n))), (Z.ltb_spec i (shift + Z.of_nat (k + S n)));
        try done; exfalso; lia. }
  rewrite G by lia. rewrite Z.bits_0. cbn [orb].
  replace (Z.of_nat (0 + Z.to_nat bits)) with bits by lia. by rewrite Z.add_0_r.
Qed.

Lemma tindex_field shift bits addr : 0 <= shift -> 0 <= bits -> shift + bits <= 32 ->
  tindex_of (mk_tindex (field_mask shift bits) shift) addr = (addr / 2 ^ shift) mod 2 ^ bits.
Proof.
  intros Hs Hb Hsb. unfold tindex_of; cbn [t_mask t_shift].
  rewrite <- Z.shiftr_div_pow2, <- Z.land_ones by lia.
  apply Z.bits_inj'. intros i Hi.
  rewrite Z.shiftr_spec, !Z.land_spec, Z.shiftr_spec, field_mask_testbit, Z.testbit_ones by lia.
  f_equal. destruct (Z.leb_spec shift (i + shift)), (Z.ltb_spec (i + shift) (shift + bits)),
    (Z.leb_spec 0 i), (Z.ltb_spec i bits); try done; exfalso; lia.
Qed.

(** ** The loop over the fields *)
Lemma tc_fields_shift js TC sh : is_u8 sh ->
  (tc_fields js TC sh).2 = u8 (sh - Zsum (tc_ti js TC)).
Proof.
  revert sh. induction js as [|i js IH]; intros sh Hsh; unfold tc_ti; cbn [tc_fields fmap list_fmap ti_used].
  - cbn. rewrite Z.sub_0_r. by rewrite u8_small.
  - destruct (TI_bits TC i =? 0) eqn:E; [cbn; rewrite Z.sub_0_r; by rewrite u8_small|].
    specialize (IH (u8 (sh - TI_bits TC i)) (u8_range _)).
    destruct (tc_fields js TC (u8 (sh - TI_bits TC i))) as [l sh'] eqn:El.
    cbn [snd] in *. rewrite IH. unfold tc_ti.
    rewrite Zsum_cons. generalize (Zsum (ti_used (TI_bits TC <$> js))). word.
Qed.

Lemma tc_fields_length js TC sh : (length (tc_fields js TC sh).1 <= length js)%nat.
Proof.
  revert sh. induction js as [|i js IH]; intros sh; cbn [tc_fields]; [done|].
  destruct (_ =? 0); [cbn; lia|].
  specialize (IH (u8 (sh - TI_bits TC i))). destruct (tc_fields js TC _) as [l sh']. cbn in *. lia.
Qed.

(** Each field is in its place and the rest of the address is left over. *)
Lemma tc_fields_recompose js TC sh addr : sh <= 32 -> 0 <= sh - Zsum (tc_ti js TC) ->
  recompose (tc_fields js TC sh).1 addr + addr mod 2 ^ (sh - Zsum (tc_ti js TC)) = addr mod 2 ^ sh.
Proof.
  revert sh. induction js as [|i js IH]; intros sh Hsh H0;
    unfold tc_ti, recompose in *; cbn [tc_fields fmap list_fmap ti_used] in *.
  - cbn. by rewrite Z.sub_0_r.
  - pose proof (TI_bits_range TC i) as Hb. pose proof (tc_ti_bounds js TC) as Hjs. unfold tc_ti in Hjs.
    destruct (TI_bits TC i =? 0) eqn:E; [cbn; by rewrite Z.sub_0_r|]. rewrite Zsum_cons in *.
    assert (Hu : u8 (sh - TI_bits TC i) = sh - TI_bits TC i) by (apply u8_small; unfold is_u8; lia).
    rewrite Hu. specialize (IH (sh - TI_bits TC i)).
    destruct (tc_fields js TC (sh - TI_bits TC i)) as [l sh'] eqn:El.
    cbn [fst] in *. rewrite fmap_cons, Zsum_cons, tindex_field by lia. cbn [t_shift].
    replace (sh - (TI_bits TC i + Zsum (ti_used (TI_bits TC <$> js))))
      with (sh - TI_bits TC i - Zsum (ti_used (TI_bits TC <$> js))) by lia.
    rewrite <- Z.add_assoc, IH by lia.
    rewrite Z.add_comm. replace sh with (sh - TI_bits TC i + TI_bits TC i) at 4 by lia.
    rewrite Z.pow_add_r by lia. rewrite Z.rem_mul_r by lia. lia.
Qed.

Lemma page_mask_mod ps addr : 0 <= ps -> addr .& ((1 << ps) - 1) = addr mod 2 ^ ps.
Proof.
  intros. replace ((1 << ps) - 1) with (Z.ones ps); [by rewrite Z.land_ones|].
  rewrite Z.ones_equiv, Z.shiftl_1_l. lia.
Qed.

(** * The search *)

(** A descriptor: short or long. *)
Record sdesc := mk_sd { sd_long : bool; sd0 : Z; sd1 : Z }.
Definition sd_ptr (d : sdesc) : Z := if sd_long d then sd1 d else sd0 d.
Definition sd_type (d : sdesc) : Z := sd0 d .& DESCR_TYPE_MASK.

(** An index field: the function code, or a field of the address. *)
Inductive sidx := IxFc (fc : Z) | IxTab (ti : tindex).
Definition ix_val (addr : Z) (x : sidx) : Z :=
  match x with IxFc fc => fc | IxTab ti => tindex_of ti addr end.
Definition ix_mask (x : sidx) : Z := match x with IxFc _ => 0 | IxTab ti => t_mask ti end.

(** The limit of a long descriptor bounds the next field of the address. *)
Definition ix_limit (addr : Z) (d : sdesc) (x : sidx) : bool :=
  match x with
  | IxFc _ => false
  | IxTab ti => sd_long d && limit_violation (sd0 d) (tindex_of ti addr)
  end.

(** What the search has gathered: descriptors fetched, the address of the last
    one, the protection met so far. *)
Record sacc := mk_sacc { a_num : Z; a_last : Z; a_sv : bool; a_wp : bool }.

(** Its result: the same, plus the bits of the page and an error (0: none). *)
Record sresult := mk_sr {
  r_num : Z; r_last : Z; r_sv : bool; r_wp : bool;
  r_mod : bool; r_ci : Z; r_err : Z; r_page : Z }.

Definition sr_fail (a : sacc) (err : Z) : sresult :=
  mk_sr (a_num a) (a_last a) (a_sv a) (a_wp a) false CACHE_ENABLE_ALL err 0.

Definition flag_bits (sv wp : bool) : Z :=
  (if sv then MMUSR_SUPER_VIOLATION else 0) .| (if wp then MMUSR_WRITE_PROTECTED else 0).

(** The MMU status register of a result. *)
Definition sr_status (r : sresult) : Z :=
  flag_bits (r_sv r) (r_wp r) .| (if r_mod r then MMUSR_MODIFIED else 0) .| r_err r.

Section Spec.
Context {M : Type} `{Phys M}.
(** The search: logical address, function code, kind of access, PTEST level
    (0: a real search), and whether a debugger forbids writes. *)
Variables (addr fc : Z) (write : bool) (level : Z) (dbg : bool).

Definition BUS_ERR : Z := MMUSR_BUS_ERROR .| MMUSR_INVALID.
Definition LIMIT_ERR : Z := MMUSR_LIMIT_VIOLATION .| MMUSR_INVALID.

Definition sfetch (size a : Z) (m : M) : option sdesc :=
  if size =? 4 then d0 ← phys_get_long a m; Some (mk_sd false d0 0)
  else d0 ← phys_get_long a m; d1 ← phys_get_long (u32 (a + 4)) m; Some (mk_sd true d0 d1).

Definition sprotect (d : sdesc) (a : sacc) : sacc :=
  mk_sacc (a_num a) (a_last a)
    (a_sv a || (sd_long d && truth (sd0 d .& DESCR_S) && negb (is_super fc)))
    (a_wp a || truth (sd0 d .& DESCR_WP)).

(** Write a descriptor back when its bits changed. *)
Definition sstore (a old new : Z) (m : M) : option M :=
  if (new =? old) || dbg then Some m else phys_put_long a new m.

Definition at_level (a : sacc) : bool := truth level && (level =? a_num a).

(** A page descriptor; [xs] are the index fields not used to reach it. *)
Definition spage (xs : list sidx) (d : sdesc) (a : sacc) (m : M) : sresult * M :=
  let '(a', d', st) :=
    if a_num a =? 0 then (a, sd0 d, Some m)
    else
      let a' := sprotect d a in
      let d' := if (level =? 0) && negb (a_sv a')
                then (sd0 d .| (if write && negb (a_wp a') then DESCR_M else 0)) .| DESCR_U else sd0 d in
      (a', d', sstore (a_last a) (sd0 d) d' m) in
  match st with
  | None => (sr_fail a BUS_ERR, m)
  | Some m =>
      let md := negb (a_num a =? 0) && truth (d' .& DESCR_M) in
      let ci := if negb (a_num a =? 0) && truth (d' .& DESCR_CI) then CACHE_DISABLE_MMU
                else CACHE_ENABLE_ALL in
      let d := mk_sd (sd_long d) d' (sd1 d) in
      let lim := match xs with [] => false | x :: _ => ix_limit addr d x end in
      (mk_sr (a_num a') (a_last a') (a_sv a') (a_wp a') md ci
         (if lim then LIMIT_ERR else 0)
         (if lim then 0
          else u32 ((addr .& foldr (fun x acc => ix_mask x .| acc) 0 xs)
                    + (sd_ptr d .& DESCR_PD_ADDR_MASK))), m)
  end.

(** A descriptor just fetched is invalid, a page, or leads on. *)
Definition sclass (xs : list sidx) (k : sdesc -> sacc -> M -> sresult * M)
    (d : sdesc) (a : sacc) (m : M) : sresult * M :=
  if sd_type d =? DESCR_TYPE_INVALID then (sr_fail a MMUSR_INVALID, m)
  else if sd_type d =? DESCR_TYPE_PAGE then spage xs d a m
  else k d a m.

Definition next_sz (d : sdesc) : Z := if sd_type d =? DESCR_TYPE_VALID4 then 4 else 8.

(** A valid table descriptor [d] with the fields [xs] still to use; without
    fields left it is indirect. *)
Fixpoint swalk (xs : list sidx) (d : sdesc) (a : sacc) (m : M) : sresult * M :=
  match xs with
  | [] =>
      if at_level a then (sr_fail a 0, m)
      else
        let addr' := sd_ptr d .& DESCR_ID_ADDR_MASK in
        match sfetch (next_sz d) addr' m with
        | None => (sr_fail a BUS_ERR, m)
        | Some d' =>
            let a := mk_sacc (a_num a + 1) addr' (a_sv a) (a_wp a) in
            if sd_type d' =? DESCR_TYPE_PAGE then spage [] d' a m else (sr_fail a MMUSR_INVALID, m)
        end
  | x :: xs =>
      let a' := if a_num a =? 0 then a else sprotect d a in
      let d' := if negb (a_num a =? 0) && (level =? 0) && negb (a_sv a') then sd0 d .| DESCR_U else sd0 d in
      match sstore (a_last a) (sd0 d) d' m with
      | None => (sr_fail a BUS_ERR, m)
      | Some m =>
          let du := mk_sd (sd_long d) d' (sd1 d) in
          if negb (a_num a =? 0) && at_level a then (sr_fail a' 0, m)
          else if ix_limit addr du x then (sr_fail a' LIMIT_ERR, m)
          else
            let next := u32 ((sd_ptr du .& DESCR_TD_ADDR_MASK) + ix_val addr x * next_sz d) in
            match sfetch (next_sz d) next m with
            | None => (sr_fail a' BUS_ERR, m)
            | Some d'' =>
                sclass xs (swalk xs) d'' (mk_sacc (a_num a' + 1) next (a_sv a') (a_wp a')) m
            end
      end
  end.

(** The root pointer is a long descriptor that is not in memory. *)
Definition root_descr (r : mregs030) : sdesc :=
  let rp := if truth (tc_030 r .& TC_ENABLE_SUPERVISOR) && is_super fc then srp_030 r else crp_030 r in
  mk_sd true (((rp >> 32) .& 0xFFFFFFFF) .& Z.lnot RP_ZERO_BITS) (rp .& 0xFFFFFFFF).

Definition index_fields (r : mregs030) (tr : translation030) : list sidx :=
  (if truth (tc_030 r .& TC_ENABLE_FCL) then [IxFc fc] else [])
    ++ (IxTab <$> take (Z.to_nat (last_table tr + 1)) (table tr)).

Definition ssearch (r : mregs030) (tr : translation030) (m : M) : sresult * M :=
  let xs := index_fields r tr in
  sclass xs (swalk xs) (root_descr r) (mk_sacc 0 0 false false) m.
End Spec.
