(* ===== verification/Mmu030Walk.v ===== *)
(** * Mmu030Walk: the table search computes its specification

    [table_search_spec]: [mmu030_table_search] never leaves an array, and its
    status, its memory updates, the address PTEST returns and the entry it
    makes are those of [ssearch] ([Mmu030Spec]). *)

From S2P Require Import Prelude Flags Cpu Movec Mmu Frames Mmu030 Mmu030Op Mmu030Spec.
From Stdlib Require Import ZArith Lia Bool.
From stdpp Require Import base list.
Open Scope Z_scope.
Open Scope cint_scope.
Open Scope m30_scope.

#[local] Arguments Z.land : simpl never.
#[local] Arguments Z.lor : simpl never.
#[local] Arguments Z.shiftl : simpl never.
#[local] Arguments Z.shiftr : simpl never.

Section Walk.
Context {M : Type} `{Phys M} (cpu_compatible : bool).
Implicit Types (s : st030 M) (w : walk).

(** ** What a fault leaves alone: everything but the fault record and the
    registers it rolls back *)
Record fault_only (s s' : st030 M) : Prop := mk_fo {
  fo_rg : rg30 s' = rg30 s; fo_mm : mm30 s' = mm30 s; fo_pm : pm30 s' = pm30 s;
  fo_dbg : debugger30 s' = debugger30 s; fo_pci : pci30 s' = pci30 s;
  fo_cs : cache_state30 s' = cache_state30 s;
  fo_s : reg_s (cpu30 s') = reg_s (cpu30 s) }.

#[local] Instance fault_only_pre : PreOrder fault_only.
Proof.
  split; [by constructor|]. intros s1 s2 s3 [] []. constructor; congruence.
Qed.

(** A computation that only records a fault and goes on. *)
Definition quiet (m : M30 M unit) : Prop := forall s, exists s', m s = (Ok tt, s') /\ fault_only s s'.

Lemma quiet_bind (m k : M30 M unit) : quiet m -> quiet k -> quiet (m ;;; k).
Proof.
  intros Hm Hk s. destruct (Hm s) as (s1 & E1 & F1), (Hk s1) as (s2 & E2 & F2).
  exists s2. unfold bind30. rewrite E1, E2. split; [done|]. by transitivity s1.
Qed.
Lemma quiet_get (k : st030 M -> M30 M unit) : (forall s, quiet (k s)) -> quiet (bind30 get30 k).
Proof. intros Hk s. apply Hk. Qed.
Lemma quiet_when b (m : M30 M unit) : quiet m -> quiet (when30 b m).
Proof. intros Hm. destruct b; [done|]. intros s. by exists s. Qed.
Lemma quiet_fl f : quiet (set_fl30 f).
Proof. intros s. eexists. split; [done|]. by constructor. Qed.
Lemma quiet_areg n (f : cpu -> Z) : quiet (set_cpu30 (fun c => set_areg n (f c) c)).
Proof. intros s. eexists. split; [done|]. by constructor. Qed.
Lemma quiet_ret : quiet (ret30 tt).
Proof. intros s. by exists s. Qed.

Lemma quiet_then {A} (m : M30 M unit) : quiet m -> forall (k : M30 M A) s,
  exists s', fault_only s s' /\ (m ;;; k) s = k s'.
Proof. intros Hm k s. destruct (Hm s) as (s' & E & F). exists s'. unfold bind30. by rewrite E. Qed.

Ltac quiet := repeat lazymatch goal with
  | |- quiet (bind30 get30 _) => apply quiet_get; intros ?
  | |- quiet (bind30 _ _) => apply quiet_bind
  | |- quiet (when30 _ _) => apply quiet_when
  | |- quiet (set_fl30 _) => apply quiet_fl
  | |- quiet (set_cpu30 _) => apply quiet_areg
  | |- quiet (ret30 tt) => apply quiet_ret
  end.

Lemma quiet_fixups : quiet page_fault_fixups.
Proof. unfold page_fault_fixups, mmu030fixupmod. quiet. Qed.

(** Every fault is thrown as exception 2 and names its direction. *)
Lemma page_fault_throws {A} addr read flags fc s : exists s',
  @mmu030_page_fault M cpu_compatible A addr read flags fc s = (Thrown 2, s') /\ fault_only s s' /\
  (0 <= flags -> bBusErrorReadWrite (fl30 s') = read).
Proof.
  unfold mmu030_page_fault. cbn [bind30 get30].
  set (trip := if flags <? 0 then _ else _).
  assert (Ht : 0 <= flags -> trip.1.1 = read)
    by (intros; subst trip; destruct (Z.ltb_spec flags 0); [lia|done]).
  destruct trip as [[rd fc'] fl']. cbn [fst] in Ht.
  set (q := if truth (fc' .& 1) then _ else _).
  assert (Hq : quiet q).
  { unfold q. destruct (truth _); quiet; apply quiet_fixups. }
  set (fin := fault_record addr rd _ fc').
  destruct (quiet_then _ (quiet_fl (fun f => {| f with wb3_status30 := 0; wb2_status30 := 0 |}))
    (q ;;; set_fl30 fin ;;; @throw30 M A 2) s) as (s1 & F1 & E1).
  destruct (quiet_then q Hq (set_fl30 fin ;;; @throw30 M A 2) s1) as (s2 & F2 & E2).
  exists {| s2 with fl30 := fin (fl30 s2) |}. split; [etransitivity; [exact E1|exact E2]|]. split.
  - etransitivity; [exact F1|]. etransitivity; [exact F2|]. by constructor.
  - intros; cbn; auto.
Qed.

(** ** Physical accesses to descriptors *)
Lemma get_long_some a s v : phys_get_long a (pm30 s) = Some v ->
  get_phys30 cpu_compatible sz_long a s = (Ok v, s).
Proof. intros E. unfold get_phys30, bind30, get30. change (sz_long =? sz_byte) with false; change (sz_long =? sz_word) with false; cbn iota. by rewrite E. Qed.

Lemma get_long_none a s : phys_get_long a (pm30 s) = None -> exists s',
  get_phys30 cpu_compatible sz_long a s = (Thrown 2, s') /\ fault_only s s' /\
  bBusErrorReadWrite (fl30 s') = true.
Proof.
  intros E. unfold get_phys30, bind30, get30. change (sz_long =? sz_byte) with false; change (sz_long =? sz_word) with false; cbn iota. rewrite E.
  unfold phys30, mmu030_hardware_bus_error, bind30, get30, when30. cbn [negb ret30].
  cbn beta. match goal with |- context [mmu030_page_fault _ _ _ _ ?fc] =>
    destruct (@page_fault_throws Z a true (ssw_size30 sz_long .| MMU030_SSW_RW) fc s) as (s' & E' & F & B) end.
  exists s'. split; [exact E'|]. split; [done|]. apply B. done.
Qed.

Lemma put_long_some a v s m : phys_put_long a v (pm30 s) = Some m ->
  put_phys30 cpu_compatible sz_long a v s = (Ok tt, {| s with pm30 := m |}).
Proof. intros E. unfold put_phys30, bind30, get30. change (sz_long =? sz_byte) with false; change (sz_long =? sz_word) with false; cbn iota. by rewrite E. Qed.

Lemma put_long_none a v s : phys_put_long a v (pm30 s) = None -> exists s',
  put_phys30 cpu_compatible sz_long a v s = (Thrown 2, s') /\ fault_only s s' /\
  bBusErrorReadWrite (fl30 s') = false.
Proof.
  intros E. unfold put_phys30, bind30, get30. change (sz_long =? sz_byte) with false; change (sz_long =? sz_word) with false; cbn iota. rewrite E.
  unfold phys30, mmu030_hardware_bus_error, bind30, get30, when30. cbn [negb].
  set (s1 := {| s with fl30 := {| (fl30 s) with data_buffer_out := v |} |}).
  cbn beta. match goal with |- context [mmu030_page_fault _ _ _ _ ?fc] =>
    destruct (@page_fault_throws M a false (ssw_size30 sz_long .| 0) fc s1) as (s' & E' & F & B) end.
  exists s'. split; [unfold set_fl30, mod30; fold s1; by rewrite E'|].
  split; [|apply B; done]. transitivity s1; [by constructor|done].
Qed.

(** ** What the search leaves alone *)
Record same_env (s s' : st030 M) : Prop := mk_se {
  se_rg : rg30 s' = rg30 s; se_dbg : debugger30 s' = debugger30 s; se_pci : pci30 s' = pci30 s;
  se_cs : cache_state30 s' = cache_state30 s; se_s : reg_s (cpu30 s') = reg_s (cpu30 s);
  se_mm : {| (mm30 s') with status := 0 |} = {| (mm30 s) with status := 0 |} }.

#[local] Instance same_env_pre : PreOrder same_env.
Proof.
  split; [by constructor|]. intros s1 s2 s3 [] []. constructor; by etransitivity.
Qed.
Lemma fault_only_env s s' : fault_only s s' -> same_env s s'.
Proof. intros []. constructor; try assumption. by rewrite fo_mm0. Qed.

Definition set_st (v : Z) (s : st030 M) : st030 M :=
  {| s with mm30 := {| (mm30 s) with status := v |} |}.
Lemma set_st_env v s s' : same_env s s' -> same_env s (set_st v s').
Proof. intros []. by constructor. Qed.
Lemma set_pm_env m s s' : same_env s s' -> same_env s {| s' with pm30 := m |}.
Proof. intros []. by constructor. Qed.
Lemma env_translation s s' : same_env s s' -> translation (mm30 s') = translation (mm30 s).
Proof. intros [? ? ? ? ? E]. by injection E. Qed.

(** ** The state of the search against the state of its specification *)
Record wrel (w : walk) (s : st030 M) (d : sdesc) (a : sacc) (m : M) : Prop := mk_wrel {
  wr_d0 : descr0 w = sd0 d;
  wr_d1 : sd_long d = true -> descr1 w = sd1 d;
  wr_size : descr_size w = if sd_long d then 8 else 4;
  wr_num : descr_num w = a_num a;
  wr_pos : 0 <= a_num a;
  wr_last : a_num a <> 0 -> descr_addr w !!! Z.to_nat (a_num a) = a_last a;
  wr_len : length (descr_addr w) = 7%nat;
  wr_sv : super_violation w = a_sv a;
  wr_wp : write_protected w = a_wp a;
  wr_ci : cache_inhibit w = CACHE_ENABLE_ALL;
  wr_page : page_addr w = 0;
  wr_pm : pm30 s = m;
  wr_st : status (mm30 s) = flag_bits (a_sv a) (a_wp a) }.

(** The end of the [TRY] block with its [CATCH], against a result. *)
Definition caught (o : wres * walk * st030 M) : walk * st030 M :=
  match o with
  | (WCatch, w, s) =>
      (if bBusErrorReadWrite (fl30 s) then {| w with descr_num := descr_num w - 1 |} else w,
       set_st (status (mm30 s) .| BUS_ERR) s)
  | (_, w, s) => (w, s)
  end.

Record wdone (s0 : st030 M) (rm : sresult * M) (o : wres * walk * st030 M) : Prop := mk_wdone {
  wd_def : o.1.1 <> WUndef;
  wd_num : descr_num (caught o).1 = r_num rm.1;
  wd_pos : 0 <= r_num rm.1 <= 6;
  wd_last : r_num rm.1 <> 0 -> descr_addr (caught o).1 !!! Z.to_nat (r_num rm.1) = r_last rm.1;
  wd_page : page_addr (caught o).1 = r_page rm.1;
  wd_ci : cache_inhibit (caught o).1 = r_ci rm.1;
  wd_st : status (mm30 (caught o).2) = sr_status rm.1;
  wd_pm : pm30 (caught o).2 = rm.2;
  wd_env : same_env s0 (caught o).2 }.

Lemma flag_lor sv wp err : flag_bits sv wp .| err = sr_status (mk_sr 0 0 sv wp false 0 err 0).
Proof. unfold sr_status; cbn. by rewrite Z.lor_0_r. Qed.

(** A search that stops with error bits. *)
Lemma done_stop s0 w s d a m err r : wrel w s d a m -> same_env s0 s -> a_num a <= 6 ->
  r = WStop \/ r = WGo ->
  wdone s0 (sr_fail a err, m) (r, w, set_st (status (mm30 s) .| err) s).
Proof.
  intros [] Henv Hn Hr. destruct Hr as [->| ->]; constructor; cbn; try done; try lia;
    try (by rewrite wr_st0, flag_lor); by apply set_st_env.
Qed.

(** A read of a descriptor fails. *)
Lemma done_read_error s0 w w' s s' d a m : wrel w s d a m -> same_env s0 s -> a_num a <= 6 ->
  fault_only s s' -> bBusErrorReadWrite (fl30 s') = true ->
  descr_num w' = a_num a + 1 -> descr_addr w' !!! Z.to_nat (a_num a) = descr_addr w !!! Z.to_nat (a_num a) ->
  page_addr w' = page_addr w -> cache_inhibit w' = cache_inhibit w ->
  wdone s0 (sr_fail a BUS_ERR, m) (WCatch, w', s').
Proof.
  intros [] Henv Hn [] Hb En Ea Ep Ec.
  constructor; cbn; rewrite ?Hb; cbn; try done; try congruence; try lia.
  { by rewrite fo_mm0, wr_st0, flag_lor. }
  apply set_st_env. etransitivity; [exact Henv|]. apply fault_only_env. by constructor.
Qed.

(** A write of a descriptor fails: nothing of it is reported. *)
Lemma done_write_error s0 w w' s s' d a m : wrel w s d a m -> same_env s0 s -> a_num a <= 6 ->
  fault_only s s' -> bBusErrorReadWrite (fl30 s') = false ->
  descr_num w' = a_num a -> descr_addr w' = descr_addr w ->
  page_addr w' = page_addr w -> cache_inhibit w' = cache_inhibit w ->
  wdone s0 (sr_fail a BUS_ERR, m) (WCatch, w', s').
Proof.
  intros [] Henv Hn [] Hb En Ea Ep Ec.
  constructor; cbn; rewrite ?Hb; cbn; try done; try congruence; try lia.
  { rewrite Ea. by apply wr_last0. }
  { by rewrite fo_mm0, wr_st0, flag_lor. }
  apply set_st_env. etransitivity; [exact Henv|]. apply fault_only_env. by constructor.
Qed.

(** ** Fetching *)
Lemma wfetch_ok s0 w s d a m x : wrel w s d a m -> same_env s0 s -> a_num a < 6 ->
  next_size w = 4 \/ next_size w = 8 ->
  match sfetch (next_size w) x m with
  | Some d' => exists w', wfetch cpu_compatible x w s = (WGo, w', s) /\
      wrel w' s d' (mk_sacc (a_num a + 1) x (a_sv a) (a_wp a)) m /\
      t w' = t w /\ early_termination w' = early_termination w
  | None => exists w' s', wfetch cpu_compatible x w s = (WCatch, w', s') /\
      wdone s0 (sr_fail a BUS_ERR, m) (WCatch, w', s')
  end.
Proof.
  intros HR Henv Hn Hsz. pose proof HR as [].
  unfold sfetch, wfetch. destruct (Z.ltb_spec (descr_num w + 1) 7); [|lia]. cbn [next_size].
  assert (Hi : forall n, descr_num w = n -> 0 <= n -> (<[Z.to_nat (n + 1) := x]> (descr_addr w)) !!! Z.to_nat n
    = descr_addr w !!! Z.to_nat n) by (intros; apply list_lookup_total_insert_ne; lia).
  assert (Hn1 : (<[Z.to_nat (a_num a + 1) := x]> (descr_addr w)) !!! Z.to_nat (a_num a + 1) = x)
    by (apply list_lookup_total_insert_eq; lia).
  destruct (next_size w =? 4) eqn:E4; unfold wlift; cbn [mbind option_bind];
    destruct (phys_get_long x m) as [d0|] eqn:E0.
  - rewrite (get_long_some x s d0) by congruence. eexists. split; [done|]. split; [|done].
    constructor; cbn; try done; try lia; try congruence.
    by rewrite length_insert.
  - destruct (get_long_none x s) as (s' & -> & F & B); [congruence|].
    eexists _, s'. split; [done|]. eapply done_read_error; eauto; cbn; try lia. by rewrite wr_num0, Hi.
  - rewrite (get_long_some x s d0) by congruence.
    destruct (phys_get_long (u32 (x + 4)) m) as [d1|] eqn:E1.
    + unfold wseq, wmod, wlift. rewrite (get_long_some (u32 (x + 4)) s d1) by congruence.
      eexists. split; [done|]. split; [|done].
      constructor; cbn; try done; try lia; try congruence.
      by rewrite length_insert.
    + unfold wseq, wmod, wlift. destruct (get_long_none (u32 (x + 4)) s) as (s' & -> & F & B); [congruence|].
      eexists _, s'. split; [done|]. eapply done_read_error; eauto; cbn; try lia. by rewrite wr_num0, Hi.
  - destruct (get_long_none x s) as (s' & -> & F & B); [congruence|].
    eexists _, s'. split; [done|]. eapply done_read_error; eauto; cbn; try lia. by rewrite wr_num0, Hi.
Qed.

(** ** Protection and history bits of a table descriptor *)
Lemma lor_pow2_eqb z k : 0 <= k -> (z .| 2 ^ k =? z) = Z.testbit z k.
Proof.
  intros Hk. destruct (Z.testbit z k) eqn:E.
  - apply Z.eqb_eq, Z.bits_inj'. intros i Hi. rewrite Z.lor_spec, Z.pow2_bits_eqb by lia.
    destruct (Z.eqb_spec k i); [subst; by rewrite E|]. apply orb_false_r.
  - apply Z.eqb_neq. intros Hz. rewrite <- Hz, Z.lor_spec, Z.pow2_bits_true in E by lia.
    by rewrite orb_true_r in E.
Qed.
Lemma lor_used z : (z .| DESCR_U =? z) = truth (z .& DESCR_U).
Proof. change DESCR_U with (2 ^ 3). by rewrite lor_pow2_eqb, land_pow2_truth. Qed.

Lemma flag_bits_grow sv wp x y : flag_bits sv wp .| flag_bits (sv || x) (wp || y) = flag_bits (sv || x) (wp || y).
Proof. by destruct sv, wp, x, y. Qed.

Variables (addr fc : Z) (write : bool) (level : Z).

(** Changing the current descriptor and writing it back if it changed. *)
Definition wupdate (new : Z) : wstep := fun w s =>
  if new =? descr0 w then (WGo, w, s)
  else wseq (wmod (fun w => {| w with descr0 := new |})) (wstore cpu_compatible) w s.

Lemma wupdate_ok w s al new : descr_addr w !!! Z.to_nat (descr_num w) = al ->
  match sstore (debugger30 s) al (descr0 w) new (pm30 s) with
  | Some m' => wupdate new w s = (WGo, {| w with descr0 := new |}, {| s with pm30 := m' |})
  | None => exists s', wupdate new w s = (WCatch, {| w with descr0 := new |}, s') /\
      fault_only s s' /\ bBusErrorReadWrite (fl30 s') = false
  end.
Proof.
  intros Ha. unfold sstore, wupdate. destruct (Z.eqb_spec new (descr0 w)) as [->|Hne]; cbn [orb].
  { by destruct w, s. }
  unfold wseq, wmod, wstore. destruct s as [c pc rg mm fl cs [] pm]; [done|]. cbn [debugger30 pm30].
  set (s := mk_st030 c pc rg mm fl cs false pm). change pm with (pm30 s).
  unfold wlift. cbn [descr_addr descr_num descr0]. rewrite Ha.
  destruct (phys_put_long al new (pm30 s)) as [m'|] eqn:E.
  - by rewrite (put_long_some _ _ _ _ E).
  - destruct (put_long_none _ _ _ E) as (s' & -> & F & B). by exists s'.
Qed.

(** The descriptor with its used bit, as the specification updates it. *)
Definition used_bits (d : sdesc) (a : sacc) : Z :=
  if (level =? 0) && negb (a_sv (sprotect fc d a)) then sd0 d .| DESCR_U else sd0 d.

Lemma wused_update w s :
  wused cpu_compatible level w s =
  wupdate (if (level =? 0) && negb (super_violation w) then descr0 w .| DESCR_U else descr0 w) w s.
Proof.
  unfold wused, wupdate. destruct (level =? 0), (super_violation w); cbn [negb andb];
    rewrite ?Z.eqb_refl, ?andb_false_r, ?andb_true_r; try done.
  rewrite lor_used. by destruct (truth _).
Qed.

Definition wguard : wstep := wseq (wprotect fc) (wseq (wused cpu_compatible level) (wseq wreport (wlevel level))).

Lemma wguard_ok s0 w s d a m : wrel w s d a m -> same_env s0 s -> 0 < a_num a <= 6 ->
  match sstore (debugger30 s) (a_last a) (sd0 d) (used_bits d a) m with
  | None => exists w' s', wguard w s = (WCatch, w', s') /\
      wdone s0 (sr_fail a BUS_ERR, m) (WCatch, w', s')
  | Some m' => exists w' s',
      wguard w s = (if at_level level a then WStop else WGo, w', s') /\
      wrel w' s' (mk_sd (sd_long d) (used_bits d a) (sd1 d)) (sprotect fc d a) m' /\
      same_env s0 s' /\ t w' = t w /\ next_size w' = next_size w /\
      early_termination w' = early_termination w
  end.
Proof.
  intros HR Henv Hn. pose proof HR as [].
  destruct w as [d0 d1 da n sz nsz tn et sv wp ci pa], d as [lg e0 e1], a as [an al asv awp]; cbn in *; subst.
  assert (Hsz : ((if lg then 8 else 4) =? 8) = lg) by (by destruct lg).
  unfold wguard. unfold wseq at 1. unfold wprotect, wmod. cbn [descr_size descr0 super_violation write_protected].
  rewrite Hsz. unfold wseq. rewrite !wused_update. cbn [super_violation descr0].
  unfold used_bits, sprotect; cbn [a_sv a_wp a_num a_last sd0 sd_long].
  set (sv' := asv || _). set (wp' := awp || _).
  set (new := if (level =? 0) && negb sv' then e0 .| DESCR_U else e0).
  set (w1 := mk_walk e0 d1 da an _ nsz tn et sv' wp' CACHE_ENABLE_ALL 0).
  pose proof (wupdate_ok w1 s al new) as HU. cbn [descr_addr descr_num descr0 w1] in HU.
  specialize (HU (wr_last0 ltac:(lia))).
  destruct (sstore _ _ _ _ _) as [m'|].
  - rewrite HU. eexists _, (set_st _ {| s with pm30 := m' |}). split; [done|].
    split; [|split; [by apply set_st_env, set_pm_env|done]].
    constructor; cbn; try done; try lia. rewrite wr_st0. apply flag_bits_grow.
  - destruct HU as (s' & -> & F & B). eexists _, s'. split; [done|].
    eapply done_write_error; eauto; try done; cbn; lia.
Qed.

(** ** The index fields not yet used *)
Definition tr_shape (tr : translation030) : Prop :=
  length (table tr) = 4%nat /\ 0 <= last_table tr <= 3.

Definition tabs (tr : translation030) (k : Z) : list sidx :=
  IxTab <$> take (Z.to_nat (last_table tr + 1 - k)) (drop (Z.to_nat k) (table tr)).

Lemma tabs_nil tr : tabs tr (last_table tr + 1) = [].
Proof. unfold tabs. by rewrite Z.sub_diag. Qed.
Lemma tabs_cons tr k : tr_shape tr -> 0 <= k <= last_table tr -> exists ti,
  table tr !! Z.to_nat k = Some ti /\ tabs tr k = IxTab ti :: tabs tr (k + 1).
Proof.
  intros [Hl Ht] Hk. destruct (lookup_lt_is_Some_2 (table tr) (Z.to_nat k)) as [ti Hti]; [lia|].
  exists ti. split; [done|]. unfold tabs.
  rewrite (drop_S _ _ _ Hti).
  replace (Z.to_nat (last_table tr + 1 - k)) with (S (Z.to_nat (last_table tr + 1 - (k + 1)))) by lia.
  cbn [take]. by replace (Z.to_nat (k + 1)) with (S (Z.to_nat k)) by lia.
Qed.

Lemma unused_tabs w tr : tr_shape tr -> 0 <= t w <= last_table tr ->
  unused_fields_mask w tr = Some (foldr (fun x acc => ix_mask x .| acc) 0 (tabs tr (t w))).
Proof.
  intros [Hl Ht] Hk. unfold unused_fields_mask. destruct (Z.ltb_spec (t w) (Z.of_nat (length (table tr)))); [|lia].
  f_equal. unfold tabs. replace (Z.max 1 (last_table tr + 1 - t w)) with (last_table tr + 1 - t w) by lia.
  generalize (take (Z.to_nat (last_table tr + 1 - t w)) (drop (Z.to_nat (t w)) (table tr))).
  induction l as [|ti l IH]; cbn; [done|]. by rewrite IH.
Qed.

(** The fields left when a descriptor has been reached with [t w] tables used;
    the function code is left only at the root. *)
Inductive left_ok (s : st030 M) (w : walk) (a : sacc) : list sidx -> Prop :=
| left_tabs : 0 <= t w <= last_table (translation (mm30 s)) + 1 ->
    a_num a <> 0 \/ truth (tc_030 (rg30 s) .& TC_ENABLE_FCL) = false ->
    left_ok s w a (tabs (translation (mm30 s)) (t w))
| left_fc : t w = 0 -> a_num a = 0 -> truth (tc_030 (rg30 s) .& TC_ENABLE_FCL) = true ->
    left_ok s w a (IxFc fc :: tabs (translation (mm30 s)) 0).

Lemma left_ok_ext s s' w w' a a' xs : left_ok s w a xs ->
  translation (mm30 s') = translation (mm30 s) -> rg30 s' = rg30 s -> t w' = t w -> a_num a' = a_num a ->
  left_ok s' w' a' xs.
Proof.
  intros HL Et Er Ew Ea. destruct HL as [Hk Hor|Ht Hn Hf].
  - rewrite <- Et, <- Ew. apply left_tabs; [by rewrite Et, Ew|by rewrite Er, Ea].
  - rewrite <- Et. apply left_fc; congruence.
Qed.

Definition nonempty {A} (l : list A) : bool := match l with [] => false | _ => true end.

(** *** The end of [handle_page_descriptor]: limit and page address *)
Definition lim_of (d : sdesc) (xs : list sidx) : bool :=
  match xs with [] => false | x :: _ => ix_limit addr d x end.

Lemma wfinish_ok w s d a xs : tr_shape (translation (mm30 s)) -> left_ok s w a xs ->
  early_termination w = nonempty xs -> descr_num w = a_num a ->
  descr0 w = sd0 d -> (sd_long d = true -> descr1 w = sd1 d) ->
  descr_size w = (if sd_long d then 8 else 4) -> page_addr w = 0 ->
  wfinish addr w s =
    if lim_of d xs then (WStop, w, set_st (status (mm30 s) .| LIMIT_ERR) s)
    else (WGo, {| w with page_addr := u32 ((addr .& foldr (fun x acc => ix_mask x .| acc) 0 xs)
                                           + (sd_ptr d .& DESCR_PD_ADDR_MASK)) |}, s).
Proof.
  intros Hsh HL He Hn H0 H1 Hsz Hp.
  assert (Hptr : descr_ptr w = sd_ptr d).
  { unfold descr_ptr, sd_ptr. rewrite Hsz. destruct (sd_long d); [by rewrite H1|done]. }
  assert (Hlim : forall i, wlimit i w s =
    if sd_long d && limit_violation (sd0 d) i then (WStop, w, set_st (status (mm30 s) .| LIMIT_ERR) s)
    else (WGo, w, s)).
  { intros i. unfold wlimit. rewrite Hsz, H0. by destruct (sd_long d). }
  assert (Hfin : forall msk, wmod (fun w => {| w with page_addr := addr .& msk |}) w s
      = (WGo, {| w with page_addr := addr .& msk |}, s)) by done.
  unfold wfinish, wseq at 1, wearly.
  destruct HL as [Hk Hor|Ht Hn0 Hf].
  - destruct (decide (t w = last_table (translation (mm30 s)) + 1)) as [E|E].
    + assert (Et : tabs (translation (mm30 s)) (t w) = []) by (rewrite E; apply tabs_nil).
      rewrite Et in *. cbn [nonempty lim_of foldr] in *.
      replace (if early_termination w then _ else _) with (WGo, w, s) by (by rewrite He).
      unfold wmod. by rewrite Z.land_0_r, Hptr, Hp.
    + destruct (tabs_cons _ (t w) Hsh ltac:(lia)) as (ti & Eti & Etabs).
      rewrite (unused_tabs _ _ Hsh) by lia. rewrite Etabs in *. cbn [nonempty lim_of ix_limit] in *. rewrite Eti.
      assert (Hc : truth (descr_num w) || negb (truth (tc_030 (rg30 s) .& TC_ENABLE_FCL)) = true).
      { rewrite Hn. destruct Hor as [Hx| ->]; [|by rewrite orb_true_r].
        unfold truth at 1. by rewrite (proj2 (Z.eqb_neq _ _) Hx). }
      rewrite Hc. unfold wseq. rewrite Hlim.
      destruct (sd_long d && limit_violation (sd0 d) (tindex_of ti addr)).
      { by destruct (early_termination w). }
      unfold wmod. cbn [page_addr]. rewrite <- Hptr. destruct (early_termination w) eqn:Ee; done.
  - assert (Hc : truth (descr_num w) || negb (truth (tc_030 (rg30 s) .& TC_ENABLE_FCL)) = false)
      by (by rewrite Hn, Hn0, Hf).
    rewrite Hc. cbn [nonempty lim_of ix_limit] in *.
    destruct (tabs_cons _ 0 Hsh ltac:(destruct Hsh; lia)) as (ti & Eti & _). rewrite <- Ht in Eti.
    rewrite Eti, (unused_tabs _ _ Hsh) by (destruct Hsh; lia).
    replace (tabs (translation (mm30 s)) (t w)) with (tabs (translation (mm30 s)) 0) by (by rewrite Ht).
    unfold wseq, wend, wmod. cbn [page_addr foldr ix_mask]. rewrite Z.lor_0_l, <- Hptr.
    destruct (early_termination w) eqn:Ee; done.
Qed.

(** *** The page descriptor *)
Lemma wmark_update w s :
  wmark cpu_compatible write level w s =
  wupdate (if (level =? 0) && negb (super_violation w) then page_bits write w else descr0 w) w s.
Proof. unfold wmark, wupdate. destruct ((level =? 0) && _); [done|]. by rewrite Z.eqb_refl. Qed.

Lemma done_page s0 w s d a (md : bool) ci xs m : pm30 s = m ->
  tr_shape (translation (mm30 s)) -> same_env s0 s -> left_ok s w a xs -> 0 <= a_num a <= 6 ->
  early_termination w = nonempty xs -> descr_num w = a_num a ->
  (a_num a <> 0 -> descr_addr w !!! Z.to_nat (a_num a) = a_last a) ->
  descr0 w = sd0 d -> (sd_long d = true -> descr1 w = sd1 d) ->
  descr_size w = (if sd_long d then 8 else 4) -> page_addr w = 0 -> cache_inhibit w = ci ->
  status (mm30 s) = flag_bits (a_sv a) (a_wp a) .| (if md then MMUSR_MODIFIED else 0) ->
  wdone s0 (mk_sr (a_num a) (a_last a) (a_sv a) (a_wp a) md ci
     (if lim_of d xs then LIMIT_ERR else 0)
     (if lim_of d xs then 0
      else u32 ((addr .& foldr (fun x acc => ix_mask x .| acc) 0 xs)
                + (sd_ptr d .& DESCR_PD_ADDR_MASK))), m) (wfinish addr w s).
Proof.
  intros <- Hsh Henv HL Hn He Hnum Hla H0 H1 Hsz Hp Hci Hst.
  rewrite (wfinish_ok w s d a xs) by done.
  destruct (lim_of d xs); constructor; cbn; try done.
  - unfold sr_status; cbn. by rewrite Hst.
  - by apply set_st_env.
  - unfold sr_status; cbn. by rewrite Z.lor_0_r.
Qed.

Lemma wpage_ok s0 w s d a m xs :
  wrel w s d a m -> tr_shape (translation (mm30 s)) -> same_env s0 s -> left_ok s w a xs -> a_num a <= 6 ->
  early_termination w = nonempty xs ->
  wdone s0 (spage addr fc write level (debugger30 s) xs d a m) (wpage cpu_compatible addr fc write level w s).
Proof.
  intros HR Hsh Henv HL Hn He. pose proof HR as []. unfold spage.
  unfold wpage. unfold wseq at 1. unfold wpage_bits.
  replace (truth (descr_num w)) with (negb (a_num a =? 0)) by (by rewrite wr_num0).
  destruct (a_num a =? 0) eqn:E0; cbn [negb andb].
  - destruct d as [lg e0 e1]; cbn [sd_long sd0 sd1]. subst m.
    apply done_page; try done. by rewrite Z.lor_0_r.
  - apply Z.eqb_neq in E0.
    destruct w as [d0 d1 da n sz nsz tn et sv wp ci pa], d as [lg e0 e1], a as [an al asv awp]; cbn in *; subst.
    assert (Hsz : ((if lg then 8 else 4) =? 8) = lg) by (by destruct lg).
    unfold wseq, wprotect, wmod. cbn [descr_size descr0 super_violation write_protected].
    rewrite Hsz. rewrite !wmark_update. cbn [super_violation descr0]. unfold page_bits.
    cbn [write_protected descr0].
    set (sv' := asv || _). set (wp' := awp || _).
    set (new := if (level =? 0) && negb sv' then _ else e0).
    set (w1 := mk_walk e0 d1 da an _ nsz tn _ sv' wp' CACHE_ENABLE_ALL 0).
    pose proof (wupdate_ok w1 s al new) as HU. cbn [descr_addr descr_num descr0 w1] in HU.
    specialize (HU (wr_last0 E0)).
    destruct (sstore _ _ _ _ _) as [m'|].
    + rewrite HU. cbn [wreport wstat].
      eapply (done_page s0 _ _ (mk_sd lg new e1) (mk_sacc an al sv' wp')); cbn; try done; try lia.
      * destruct Henv. by constructor.
      * by eapply left_ok_ext.
      * rewrite wr_st0. f_equal. apply flag_bits_grow.
    + destruct HU as (s' & -> & F & B). eapply done_write_error; eauto; done.
Qed.

(** ** The loop *)

(** A part of the search, up to [handle_page_descriptor]. *)
Definition wrest (f : wstep) : wstep := fun w s =>
  match f w s with
  | (WPage, w, s) => wpage cpu_compatible addr fc write level w s
  | r => r
  end.

Lemma wrest_seq f g w s : wrest (wseq f g) w s =
  match f w s with
  | (WGo, w', s') => wrest g w' s'
  | (WPage, w', s') => wpage cpu_compatible addr fc write level w' s'
  | r => r
  end.
Proof. unfold wrest, wseq. by destruct (f w s) as [[[] w'] s']. Qed.

Lemma wrest_assoc f g h w s : wrest (wseq (wseq f g) h) w s = wrest (wseq f (wseq g h)) w s.
Proof. rewrite !wrest_seq. unfold wseq at 1. destruct (f w s) as [[[] w'] s']; try done. by rewrite wrest_seq. Qed.

Abbreviation sclass' s := (sclass addr fc write level (debugger30 s)).
Abbreviation swalk' s := (swalk addr fc write level (debugger30 s)).

(** PTEST has reached its level. *)
Lemma done_level s0 w s d a m : wrel w s d a m -> same_env s0 s -> a_num a <= 6 ->
  wdone s0 (sr_fail a 0, m) (WStop, w, s).
Proof.
  intros [] Henv Hn. constructor; cbn; try done. by rewrite wr_st0, <- (Z.lor_0_r (flag_bits _ _)), flag_lor.
Qed.

Lemma wrel_ptr w s d a m : wrel w s d a m -> descr_ptr w = sd_ptr d.
Proof.
  intros []. unfold descr_ptr, sd_ptr. rewrite wr_size0. destruct (sd_long d); [by rewrite wr_d3|done].
Qed.

(** A fetched descriptor is dispatched on its type. *)
Lemma class_ok s0 w s d a m xs e g k :
  wrel w s d a m -> tr_shape (translation (mm30 s)) -> same_env s0 s -> left_ok s w a xs -> a_num a <= 6 ->
  early_termination w = false -> e w = nonempty xs ->
  (sd_type d <> DESCR_TYPE_PAGE ->
   wdone s0 (k d a m) (wrest g {| w with next_size := next_sz d |} s)) ->
  wdone s0 (sclass' s xs k d a m) (wrest (wseq (wtype e) g) w s).
Proof.
  intros HR Hsh Henv HL Hn He Hex Hk. pose proof HR as [].
  rewrite wrest_seq. unfold wtype, sclass.
  replace (descr0 w .& DESCR_TYPE_MASK) with (sd_type d) by (by unfold sd_type; rewrite wr_d2).
  destruct (sd_type d =? DESCR_TYPE_INVALID) eqn:E0.
  { unfold wseq, wstat, wend. eapply done_stop; eauto. }
  change DESCR_TYPE_EARLY_TERM with DESCR_TYPE_PAGE. destruct (sd_type d =? DESCR_TYPE_PAGE) eqn:E1.
  - apply wpage_ok; try done; [by eapply left_ok_ext|]. cbn. by rewrite He, Hex.
  - cbn beta iota. apply Hk. by apply Z.eqb_neq.
Qed.

Lemma next_sz_cases d : next_sz d = 4 \/ next_sz d = 8.
Proof. unfold next_sz. destruct (_ =? _); auto. Qed.

(** Fetch the descriptor that an index selects, and dispatch. *)
Lemma wfetch_then_ok s0 w s d a m x xs e g k :
  wrel w s d a m -> tr_shape (translation (mm30 s)) -> same_env s0 s -> a_num a < 6 ->
  next_size w = 4 \/ next_size w = 8 ->
  early_termination w = false ->
  (forall w', t w' = t w -> left_ok s w' (mk_sacc (a_num a + 1) x (a_sv a) (a_wp a)) xs /\ e w' = nonempty xs) ->
  (forall w' d' a', wrel w' s d' a' m -> next_size w' = next_sz d' -> t w' = t w ->
     early_termination w' = false -> a_num a' = a_num a + 1 ->
     wdone s0 (k d' a' m) (wrest g w' s)) ->
  wdone s0 (match sfetch (next_size w) x m with
            | None => (sr_fail a BUS_ERR, m)
            | Some d' => sclass' s xs k d' (mk_sacc (a_num a + 1) x (a_sv a) (a_wp a)) m
            end) (wrest (wseq (wfetch cpu_compatible x) (wseq (wtype e) g)) w s).
Proof.
  intros HR Hsh Henv Hn Hsz He HL Hk. rewrite wrest_seq.
  pose proof (wfetch_ok s0 w s d a m x HR Henv Hn Hsz) as HF.
  destruct (sfetch (next_size w) x m) as [d'|].
  - destruct HF as (w' & -> & HR' & Ht & He'). destruct (HL w' Ht) as [HL' Hex].
    rewrite He in He'. eapply class_ok; eauto; [cbn; lia|]. intros _.
    apply Hk; try done; destruct HR'; by constructor.
  - by destruct HF as (w' & s' & -> & HF).
Qed.

Lemma wlevel_at w s d a m : wrel w s d a m ->
  wlevel level w s = (if at_level level a then WStop else WGo, w, s).
Proof. intros []. unfold wlevel, at_level. by rewrite wr_num0. Qed.

Lemma windirect_ok s0 w s d a m :
  wrel w s d a m -> tr_shape (translation (mm30 s)) -> same_env s0 s -> a_num a < 6 ->
  0 < a_num a + 1 -> t w = last_table (translation (mm30 s)) + 1 -> next_size w = next_sz d ->
  early_termination w = false ->
  wdone s0 (swalk' s [] d a m) (wrest (windirect cpu_compatible level) w s).
Proof.
  intros HR Hsh Henv Hn Hpos Ht Hsz He. unfold windirect. rewrite wrest_seq, (wlevel_at _ _ _ _ _ HR).
  cbn [swalk]. destruct (at_level level a).
  { eapply done_level; eauto; lia. }
  rewrite wrest_seq, (wrel_ptr _ _ _ _ _ HR), <- Hsz.
  pose proof (wfetch_ok s0 w s d a m (sd_ptr d .& DESCR_ID_ADDR_MASK) HR Henv Hn) as HF.
  destruct (sfetch _ _ _) as [d'|].
  - destruct HF as (w' & -> & HR' & Ht' & He'); [rewrite Hsz; apply next_sz_cases|].
    pose proof HR' as []. unfold wrest.
    replace (descr0 w' .& DESCR_TYPE_MASK) with (sd_type d') by (by unfold sd_type; rewrite wr_d2).
    destruct (sd_type d' =? DESCR_TYPE_PAGE).
    + apply wpage_ok; try done; [|cbn; lia|by rewrite He', He].
      rewrite <- (tabs_nil (translation (mm30 s))), <- Ht, <- Ht'.
      apply left_tabs; [destruct Hsh; lia|]. left. cbn. lia.
    + unfold wseq, wstat, wend. eapply done_stop; eauto. cbn; lia.
  - destruct HF as (w' & s' & -> & HF); [rewrite Hsz; apply next_sz_cases|done].
Qed.

(** The protection part of a round, which the root pointer skips. *)
Lemma round_guard s0 w s d a m : wrel w s d a m -> same_env s0 s -> a_num a <= 6 ->
  let a' := if a_num a =? 0 then a else sprotect fc d a in
  let d' := if negb (a_num a =? 0) && (level =? 0) && negb (a_sv a') then sd0 d .| DESCR_U else sd0 d in
  let g := wenter cpu_compatible fc level w s in
  match sstore (debugger30 s) (a_last a) (sd0 d) d' m with
  | None => exists w' s', g = (WCatch, w', s') /\ wdone s0 (sr_fail a BUS_ERR, m) (WCatch, w', s')
  | Some m' => exists w' s',
      g = (if negb (a_num a =? 0) && at_level level a then WStop else WGo, w', s') /\
      wrel w' s' (mk_sd (sd_long d) d' (sd1 d)) a' m' /\
      same_env s0 s' /\ t w' = t w /\ next_size w' = next_size w /\
      early_termination w' = early_termination w
  end.
Proof.
  intros HR Henv Hn. pose proof HR as []. cbn zeta. unfold wenter.
  replace (truth (descr_num w)) with (negb (a_num a =? 0)) by (by rewrite wr_num0).
  destruct (Z.eqb_spec (a_num a) 0) as [E|E]; cbn [negb andb].
  - unfold sstore. rewrite Z.eqb_refl. cbn [orb]. exists w, s. split; [done|]. split; [|done].
    by destruct d.
  - apply wguard_ok; try done; lia.
Qed.

(** Selecting the next descriptor, step by step. *)
Lemma descend_eq g w s ti : table (translation (mm30 s)) !! Z.to_nat (t w) = Some ti ->
  let w1 := {| w with t := t w + 1 |} in
  wrest (wseq (wdescend cpu_compatible addr) g) w s =
  match wlimit (tindex_of ti addr) w1 s with
  | (WGo, w2, s2) =>
      wrest (wseq (wfetch cpu_compatible
                     (u32 ((descr_ptr w .& DESCR_TD_ADDR_MASK) + tindex_of ti addr * next_size w)))
            (wseq (wtype (fun w => t w <=? last_table (translation (mm30 s)))) g)) w2 s2
  | (WPage, w', s') => wpage cpu_compatible addr fc write level w' s'
  | r => r
  end.
Proof.
  intros E w1. unfold wrest, wseq at 1, wdescend. rewrite E. unfold wseq, wmod. fold w1.
  destruct (wlimit _ w1 s) as [[[] w2] s2]; try done.
  by destruct (wfetch _ _ w2 s2) as [[[] w3] s3].
Qed.

Lemma wtables_ok n : forall s0 w s d a m,
  wrel w s d a m -> tr_shape (translation (mm30 s)) -> same_env s0 s ->
  t w + Z.of_nat n = last_table (translation (mm30 s)) + 1 -> 0 <= t w -> a_num a + Z.of_nat n < 6 ->
  a_num a <> 0 \/ truth (tc_030 (rg30 s) .& TC_ENABLE_FCL) = false ->
  next_size w = next_sz d -> early_termination w = false ->
  wdone s0 (swalk' s (tabs (translation (mm30 s)) (t w)) d a m)
    (wrest (wseq (wtables cpu_compatible n addr fc level) (windirect cpu_compatible level)) w s).
Proof.
  induction n as [|n IH]; intros s0 w s d a m HR Hsh Henv Ht Ht0 Hn Hor Hsz He.
  - rewrite wrest_seq. cbn [wtables wend]. unfold wend.
    replace (t w) with (last_table (translation (mm30 s)) + 1) by lia. rewrite tabs_nil.
    pose proof (wr_pos _ _ _ _ _ HR). apply windirect_ok; try done; lia.
  - cbn [wtables]. unfold wtable. rewrite !wrest_assoc, wrest_seq.
    destruct (tabs_cons _ (t w) Hsh ltac:(lia)) as (ti & Eti & Etabs). rewrite Etabs.
    cbn [swalk].
    pose proof (round_guard s0 w s d a m HR Henv ltac:(lia)) as HG. cbn zeta in HG.
    set (a' := if a_num a =? 0 then a else _) in *.
    set (d' := if negb (a_num a =? 0) && _ && _ then _ else _) in *.
    destruct (sstore _ _ _ _ _) as [m'|].
    2: { by destruct HG as (w' & s' & -> & HG). }
    destruct HG as (w' & s' & -> & HR' & Henv' & Ht' & Hsz' & He').
    assert (Ha' : a_num a' = a_num a) by (subst a'; by destruct (a_num a =? 0)).
    destruct (negb (a_num a =? 0) && at_level level a).
    { eapply done_level; eauto. lia. }
    assert (Etr : translation (mm30 s') = translation (mm30 s)).
    { rewrite (env_translation _ _ Henv'). symmetry. by apply env_translation. }
    assert (Erg : rg30 s' = rg30 s) by (by rewrite (se_rg _ _ Henv'), (se_rg _ _ Henv)).
    assert (Ed : debugger30 s' = debugger30 s) by (by rewrite (se_dbg _ _ Henv'), (se_dbg _ _ Henv)).
    rewrite (descend_eq _ _ _ ti) by (by rewrite Etr, Ht').
    assert (HR1 : wrel {| w' with t := t w' + 1 |} s' (mk_sd (sd_long d) d' (sd1 d)) a' m')
      by (destruct HR'; by constructor).
    set (w1 := {| w' with t := t w' + 1 |}) in *.
    assert (Ht1 : t w1 = t w + 1) by (cbn; by rewrite Ht').
    assert (Hs1 : next_size w1 = next_sz d) by (cbn; congruence).
    assert (He1 : early_termination w1 = false) by (cbn; congruence).
    rewrite (wrel_ptr _ _ _ _ _ HR'), Hsz', Hsz, Etr. clearbody w1.
    unfold wlimit. pose proof HR1 as []. rewrite wr_size0, wr_d2. cbn [sd_long sd0 ix_limit ix_val].
    replace ((if sd_long d then 8 else 4) =? 8) with (sd_long d) by (by destruct (sd_long d)).
    destruct (sd_long d && limit_violation d' (tindex_of ti addr)).
    { unfold wseq, wstat, wend. eapply done_stop; eauto. lia. }
    rewrite <- Hs1, <- Ed, <- Ht1.
    eapply wfetch_then_ok; eauto.
    + by rewrite Etr.
    + lia.
    + rewrite Hs1. apply next_sz_cases.
    + intros w2 Hw2. split.
      * rewrite <- Hw2, <- Etr. apply left_tabs; [rewrite Etr; lia|]. left. cbn. lia.
      * rewrite Hw2. destruct (Z.leb_spec (t w1) (last_table (translation (mm30 s)))) as [Hle|Hgt].
        -- destruct (tabs_cons _ (t w1) Hsh ltac:(lia)) as (ti2 & _ & ->). done.
        -- replace (t w1) with (last_table (translation (mm30 s)) + 1) by lia. by rewrite tabs_nil.
    + intros w2 d2 a2 HR2 Hs2 Ht2 He2 Ha2. rewrite <- Etr, <- Ht2.
      apply IH; try done; rewrite ?Etr; try done; try lia.
Qed.

(** ** The whole search *)
Lemma root_bits d0 : (if truth (d0 .& RP_ZERO_BITS) then d0 .& Z.lnot RP_ZERO_BITS else d0)
  = d0 .& Z.lnot RP_ZERO_BITS.
Proof.
  unfold truth. destruct (Z.eqb_spec (d0 .& RP_ZERO_BITS) 0) as [E|E]; [|done]. cbn [negb].
  apply Z.bits_inj'. intros i Hi. rewrite Z.land_spec, Z.lnot_spec by lia.
  apply (f_equal (fun z => Z.testbit z i)) in E. rewrite Z.land_spec, Z.bits_0 in E.
  by destruct (Z.testbit d0 i), (Z.testbit RP_ZERO_BITS i).
Qed.

Lemma index_fields_eq s : index_fields fc (rg30 s) (translation (mm30 s)) =
  if truth (tc_030 (rg30 s) .& TC_ENABLE_FCL)
  then IxFc fc :: tabs (translation (mm30 s)) 0 else tabs (translation (mm30 s)) 0.
Proof. unfold index_fields, tabs. rewrite Z.sub_0_r. by destruct (truth _). Qed.

Lemma fcl_ok s0 w s d a m n :
  wrel w s d a m -> tr_shape (translation (mm30 s)) -> same_env s0 s -> a_num a = 0 ->
  Z.of_nat n = last_table (translation (mm30 s)) + 1 ->
  t w = 0 -> next_size w = next_sz d -> early_termination w = false ->
  wdone s0 (swalk' s (index_fields fc (rg30 s) (translation (mm30 s))) d a m)
    (wrest (wseq (wfcl cpu_compatible fc)
             (wseq (wtables cpu_compatible n addr fc level) (windirect cpu_compatible level))) w s).
Proof.
  intros HR Hsh Henv Ha Hn Ht Hsz He. rewrite index_fields_eq. rewrite wrest_seq. unfold wfcl.
  destruct (truth (tc_030 (rg30 s) .& TC_ENABLE_FCL)) eqn:Ef.
  - rewrite <- (wrest_seq (wseq (wfetch cpu_compatible _) (wtype _)) _ w s), wrest_assoc.
    cbn [swalk]. rewrite (proj2 (Z.eqb_eq _ _) Ha). cbn [negb andb]. unfold sstore. rewrite Z.eqb_refl. cbn [orb ix_limit ix_val].
    replace (mk_sd (sd_long d) (sd0 d) (sd1 d)) with d by (by destruct d).
    rewrite (wrel_ptr _ _ _ _ _ HR), <- Hsz.
    destruct (tabs_cons _ 0 Hsh ltac:(destruct Hsh; lia)) as (ti & _ & Etabs).
    eapply wfetch_then_ok; eauto; [lia|rewrite Hsz; apply next_sz_cases| |].
    + intros w' Hw'. split; [|by rewrite Etabs].
      rewrite <- Ht, <- Hw'. apply left_tabs; [destruct Hsh; lia|]. left. cbn. lia.
    + intros w' d' a' HR' Hs' Ht' He' Ha'. rewrite <- Ht, <- Ht'.
      apply wtables_ok; try done; try (destruct Hsh; lia).
  - rewrite <- Ht. apply wtables_ok; try done; try (destruct Hsh; lia). by right.
Qed.

Theorem wbody_spec s : tr_shape (translation (mm30 s)) -> status (mm30 s) = 0 ->
  wdone s (ssearch addr fc write level (debugger30 s) (rg30 s) (translation (mm30 s)) (pm30 s))
    (wbody cpu_compatible addr fc write level walk0 s).
Proof.
  intros Hsh Hst. unfold ssearch.
  set (n := Z.to_nat (last_table (translation (mm30 s)) + 1)).
  change (wbody cpu_compatible addr fc write level walk0 s) with
    (wrest (wseq (wroot fc) (wseq (wfcl cpu_compatible fc)
      (wseq (wtables cpu_compatible n addr fc level) (windirect cpu_compatible level)))) walk0 s).
  rewrite wrest_seq. unfold wroot. rewrite root_bits.
  fold (root_descr fc (rg30 s)).
  set (w := {| walk0 with descr0 := _; descr1 := _ |}).
  rewrite <- (wrest_seq (wtype (fun _ => true)) _ w s).
  assert (HR : wrel w s (root_descr fc (rg30 s)) (mk_sacc 0 0 false false) (pm30 s)) by (by constructor).
  assert (He : early_termination w = false) by done. assert (Ht : t w = 0) by done. clearbody w.
  apply class_ok; try done.
  - rewrite index_fields_eq. destruct (truth (tc_030 (rg30 s) .& TC_ENABLE_FCL)) eqn:Ef.
    + by apply left_fc.
    + rewrite <- Ht. apply left_tabs; [destruct Hsh; lia|by right].
  - rewrite index_fields_eq. destruct (tabs_cons _ 0 Hsh ltac:(destruct Hsh; lia)) as (ti & _ & ->).
    by destruct (truth _).
  - intros _. apply fcl_ok; try done; [destruct HR; by constructor|]. subst n. destruct Hsh; lia.
Qed.
End Walk.

(** ** What the search leaves behind *)

(** The cache entry of a result. *)
Definition entry_of (addr fc imask : Z) (r : sresult) (e : MMU030_ATC_LINE) : MMU030_ATC_LINE :=
  {| e with
     g_addr := addr .& imask; g_fc := fc; g_valid := true;
     p_addr := r_page r .& imask;
     p_bus_error := negb (r_err r =? 0) || r_sv r;
     p_cache_inhibit := r_ci r; p_modified := r_mod r; p_write_protect := r_wp r |}.

Definition atc_made (addr fc : Z) (r : sresult) (m : mmu030) : mmu030 :=
  let i := atc_victim (atc m) in
  let imask := page_imask (translation m) in
  mmu030_flush_cache (addr .& imask)
    {| m with status := sr_status r;
              atc := alter (entry_of addr fc imask r) i (mmu030_atc_handle_history_bit i (atc m)) |}.

(** The errors a search reports. *)
Definition err_ok (r : sresult) : Prop :=
  r_err r = 0 \/ r_err r = MMUSR_INVALID \/ r_err r = BUS_ERR \/ r_err r = LIMIT_ERR.

Section Errors.
Context {M : Type} `{Phys M} (addr fc : Z) (write : bool) (level : Z) (dbg : bool).

Lemma spage_err xs d a (m : M) : err_ok (spage addr fc write level dbg xs d a m).1.
Proof.
  unfold spage, err_ok. destruct (if a_num a =? 0 then _ else _) as [[a' d'] [m'|]]; cbn; [|tauto].
  destruct xs as [|x xs]; cbn; [tauto|]. destruct (ix_limit _ _ _); tauto.
Qed.

Lemma sclass_err xs k d a (m : M) : (forall d a m, err_ok (k d a m).1) ->
  err_ok (sclass addr fc write level dbg xs k d a m).1.
Proof.
  intros Hk. unfold sclass. destruct (_ =? _); [unfold err_ok; cbn; tauto|].
  destruct (_ =? _); [apply spage_err|apply Hk].
Qed.

Lemma swalk_err xs : forall d a (m : M), err_ok (swalk addr fc write level dbg xs d a m).1.
Proof.
  induction xs as [|x xs IH]; intros d a m; cbn [swalk].
  - destruct (at_level level a); [unfold err_ok; cbn; tauto|].
    destruct (sfetch _ _ _); [|unfold err_ok; cbn; tauto].
    destruct (_ =? _); [apply spage_err|unfold err_ok; cbn; tauto].
  - destruct (sstore _ _ _ _ _); [|unfold err_ok; cbn; tauto].
    destruct (_ && _); [unfold err_ok; cbn; tauto|].
    destruct (ix_limit _ _ _); [unfold err_ok; cbn; tauto|].
    destruct (sfetch _ _ _); [|unfold err_ok; cbn; tauto]. by apply sclass_err.
Qed.

Lemma ssearch_err r tr (m : M) : err_ok (ssearch addr fc write level dbg r tr m).1.
Proof. apply sclass_err, swalk_err. Qed.
End Errors.

Lemma status_invalid r : err_ok r ->
  truth (sr_status r .& MMUSR_INVALID) || truth (sr_status r .& MMUSR_SUPER_VIOLATION)
  = negb (r_err r =? 0) || r_sv r.
Proof. intros [E|[E|[E|E]]]; unfold sr_status; rewrite E; by destruct (r_sv r), (r_wp r), (r_mod r). Qed.
Lemma status_modified r : err_ok r -> truth (sr_status r .& MMUSR_MODIFIED) = r_mod r.
Proof. intros [E|[E|[E|E]]]; unfold sr_status; rewrite E; by destruct (r_sv r), (r_wp r), (r_mod r). Qed.
Lemma status_protected r : err_ok r -> truth (sr_status r .& MMUSR_WRITE_PROTECTED) = r_wp r.
Proof. intros [E|[E|[E|E]]]; unfold sr_status; rewrite E; by destruct (r_sv r), (r_wp r), (r_mod r). Qed.

Lemma atc_fill_made addr fc w r m : err_ok r -> page_addr w = r_page r -> cache_inhibit w = r_ci r ->
  status m = sr_status r -> atc_fill addr fc w m = atc_made addr fc r m.
Proof.
  intros Hr Hp Hc Hs. unfold atc_fill, atc_made. rewrite <- Hs. f_equal.
  assert (E : atc_entry addr fc (page_imask (translation m)) (status m) w
            = entry_of addr fc (page_imask (translation m)) r).
  { unfold atc_entry, entry_of.
    by rewrite Hs, status_invalid, status_modified, status_protected, Hp, Hc. }
  rewrite E. by destruct m.
Qed.

Section Search.
Context {M : Type} `{Phys M} (cpu_compatible : bool).

Lemma table_search_ok addr fc write level (s : st030 M) : tr_shape (translation (mm30 s)) ->
  let '(r, m) := ssearch addr fc write level (debugger30 s) (rg30 s) (translation (mm30 s)) (pm30 s) in
  exists s', mmu030_table_search cpu_compatible addr fc write level s
      = (Ok (if level =? 0 then 0 else if r_num r =? 0 then 0 else r_last r), s') /\
    pm30 s' = m /\ rg30 s' = rg30 s /\ debugger30 s' = debugger30 s /\ pci30 s' = pci30 s /\
    cache_state30 s' = cache_state30 s /\ reg_s (cpu30 s') = reg_s (cpu30 s) /\ 0 <= r_num r <= 6 /\
    mm30 s' = if level =? 0 then atc_made addr fc r (mm30 s)
              else {| (mm30 s) with status := (sr_status r .& Z.lnot MMUSR_NUM_LEVELS_MASK) .| r_num r |}.
Proof.
  intros Hsh.
  set (s1 := {| (set_st 0 s) with cpu30 := {| (cpu30 s) with reg_s := true |} |}).
  pose proof (wbody_spec cpu_compatible addr fc write level s1 Hsh eq_refl) as [].
  change (ssearch _ _ _ _ (debugger30 s1) (rg30 s1) (translation (mm30 s1)) (pm30 s1))
    with (ssearch addr fc write level (debugger30 s) (rg30 s) (translation (mm30 s)) (pm30 s)) in *.
  pose proof (ssearch_err addr fc write level (debugger30 s) (rg30 s) (translation (mm30 s)) (pm30 s)) as Herr.
  destruct (ssearch _ _ _ _ _ _ _ _) as [r m]. cbn [fst snd] in *.
  assert (Ew : wsearch cpu_compatible addr fc write level s1 =
    (Ok (caught (wbody cpu_compatible addr fc write level walk0 s1)).1,
     (caught (wbody cpu_compatible addr fc write level walk0 s1)).2)).
  { unfold wsearch. destruct (wbody _ _ _ _ _ _ s1) as [[[] w'] s']; done. }
  set (c := caught _) in *. destruct c as [w s2]. cbn [fst snd] in *.
  assert (E2 : mmu030_table_search cpu_compatible addr fc write level s =
    (set_s30 (reg_s (cpu30 s)) ;;;
     if truth level then
       set_mm30 (fun m => {| m with status :=
         (status m .& Z.lnot MMUSR_NUM_LEVELS_MASK) .| descr_num w |}) ;;;
       ret30 (if truth (descr_num w) then descr_addr w !!! Z.to_nat (descr_num w) else 0)
     else set_mm30 (atc_fill addr fc w) ;;; ret30 0) s2).
  { transitivity (match wsearch cpu_compatible addr fc write level s1 with
      | (Ok w, s2) => (set_s30 (reg_s (cpu30 s)) ;;;
         if truth level then
           set_mm30 (fun m => {| m with status :=
             (status m .& Z.lnot MMUSR_NUM_LEVELS_MASK) .| descr_num w |}) ;;;
           ret30 (if truth (descr_num w) then descr_addr w !!! Z.to_nat (descr_num w) else 0)
         else set_mm30 (atc_fill addr fc w) ;;; ret30 0) s2
      | (Thrown e, s2) => (Thrown e, s2) | (Undefined, s2) => (Undefined, s2) end); [done|].
    by rewrite Ew. }
  rewrite E2. clear E2 Ew.
  assert (Emm : mm30 s2 = {| (mm30 s) with status := sr_status r |}).
  { pose proof (se_mm _ _ wd_env0) as E. rewrite <- wd_st0.
    change (mm30 s1) with {| (mm30 s) with status := 0 |} in E.
    destruct (mm30 s2) as [], (mm30 s) as []. cbn in *. by injection E as -> -> -> -> -> -> -> -> -> -> -> ->. }
  unfold truth. destruct (level =? 0) eqn:El; cbn [negb].
  - eexists. split; [done|]. destruct wd_env0. cbn in *. repeat (split; [done|]).
    rewrite (atc_fill_made _ _ _ r); try done. rewrite Emm. reflexivity.
  - eexists. split; [|].
    { cbv [bind30 set_s30 set_cpu30 set_mm30 mod30 ret30]. f_equal. f_equal. rewrite wd_num0.
      destruct (Z.eqb_spec (r_num r) 0) as [E|E]; cbn [negb]; [done|by apply wd_last0]. }
    destruct wd_env0. cbn in *. repeat (split; [done|]). rewrite Emm, wd_num0. reflexivity.
Qed.
End Search.
