(* ===== verification/Mmu030Tlb.v ===== *)
(** * Mmu030Tlb: the translation buffer the 68030 MMU implements

    The 22-entry cache, the two arrays of data-page shortcuts and the
    remembered instruction page together behave like one unbounded buffer of
    search results: an access uses the result the buffer holds for its page
    and function code, or searches the tables and puts the result there; a
    flush forgets.  [coherent] relates the code's state to the buffer. *)

From S2P Require Import Prelude Flags Cpu Movec Mmu Frames Mmu030 Mmu030Op Mmu030Spec Mmu030Walk.
From Stdlib Require Import ZArith Lia Bool.
From stdpp Require Import base list gmap.
Open Scope Z_scope.
Open Scope cint_scope.
Open Scope m30_scope.

(** ** The buffer *)
Record tline := mk_tline {
  tl_phys : Z; tl_mod : bool; tl_wp : bool; tl_ci : Z; tl_berr : bool }.
Abbreviation tbuf := (gmap (Z * Z) tline).

(** A result usable for an access: a write needs the modified bit, unless it
    will fault anyway. *)
Definition tl_usable (write : bool) (l : tline) : bool :=
  negb write || tl_mod l || tl_wp l || tl_berr l.

Definition line_of (imask : Z) (e : MMU030_ATC_LINE) : tline :=
  mk_tline (p_addr e .& imask) (p_modified e) (p_write_protect e) (p_cache_inhibit e) (p_bus_error e).

Definition result_line (imask : Z) (r : sresult) : tline :=
  mk_tline (r_page r .& imask) (r_mod r) (r_wp r) (r_ci r) (negb (r_err r =? 0) || r_sv r).

(** The physical address a result gives. *)
Definition xlate (tr : translation030) (l : tline) (addr : Z) : Z := tl_phys l + (addr .& page_mask tr).

(** ** Page arithmetic *)
Record tr_ok (tr : translation030) : Prop := mk_tr_ok {
  tr_size : 8 <= page_size tr <= 15;
  tr_mask : page_mask tr = (1 << page_size tr) - 1;
  tr_imask : page_imask tr = u32 (Z.lnot ((1 << page_size tr) - 1));
  tr_size3m : page_size3m tr = u32 (page_size tr - 3);
  tr_tables : tr_shape tr }.

Section Pages.
Variable tr : translation030.
Hypothesis Htr : tr_ok tr.

Lemma page_bit i : 0 <= i -> Z.testbit (page_imask tr) i = (page_size tr <=? i) && (i <? 32).
Proof.
  intros Hi. rewrite (tr_imask _ Htr), testbit_u32, Z.lnot_spec by lia.
  replace ((1 << page_size tr) - 1) with (Z.ones (page_size tr))
    by (rewrite Z.ones_equiv, Z.shiftl_1_l; lia).
  pose proof (tr_size _ Htr). rewrite Z.testbit_ones by lia.
  f_equal. destruct (Z.leb_spec 0 i), (Z.ltb_spec i (page_size tr)), (Z.leb_spec (page_size tr) i); try done; lia.
Qed.

Lemma page_div a : is_u32 a -> a .& page_imask tr = (a / 2 ^ page_size tr) * 2 ^ page_size tr.
Proof.
  intros Ha. pose proof (tr_size _ Htr).
  rewrite <- Z.shiftr_div_pow2, <- Z.shiftl_mul_pow2, <- Z.ldiff_ones_r by lia.
  apply Z.bits_inj'. intros i Hi. rewrite Z.land_spec, Z.ldiff_spec, page_bit, Z.testbit_ones by lia.
  destruct (Z.ltb_spec i 32).
  - rewrite andb_true_r. f_equal.
    destruct (Z.leb_spec 0 i), (Z.ltb_spec i (page_size tr)), (Z.leb_spec (page_size tr) i); try done; lia.
  - replace (Z.testbit a i) with false; [done|]. symmetry.
    rewrite <- (u32_small a Ha), testbit_u32. destruct (Z.ltb_spec i 32); [lia|]. apply andb_false_r.
Qed.

Lemma page_offset a : a .& page_mask tr = a mod 2 ^ page_size tr.
Proof. rewrite (tr_mask _ Htr). apply page_mask_mod. pose proof (tr_size _ Htr). lia. Qed.

Lemma page_idem a : (a .& page_imask tr) .& page_imask tr = a .& page_imask tr.
Proof. by rewrite <- Z.land_assoc, Z.land_diag. Qed.

Lemma page_range a : is_u32 (a .& page_imask tr).
Proof.
  assert (Hi : is_u32 (page_imask tr)) by (rewrite (tr_imask _ Htr); apply u32_range).
  split; [apply Z.land_nonneg; right; apply Hi|].
  assert (E : u32 (a .& page_imask tr) = a .& page_imask tr); [|rewrite <- E; apply u32_range].
  apply Z.bits_inj'. intros i Hi0. rewrite testbit_u32, Z.land_spec, page_bit by lia.
  destruct (Z.ltb_spec i 32); by rewrite ?andb_false_r, ?andb_true_r.
Qed.

(** A page and an offset in it do not overlap: [+] and [|] agree. *)
Lemma page_or p a : (p .& page_imask tr) .| (a .& page_mask tr) = (p .& page_imask tr) + (a .& page_mask tr).
Proof.
  rewrite page_offset. pose proof (tr_size _ Htr). pose proof (page_range p) as Hr.
  rewrite <- (page_idem p), (page_div _ Hr). set (q := _ / _).
  rewrite <- Z.shiftl_mul_pow2 by lia. rewrite Z.lor_comm, lor_shl_add; [|lia|apply Z.mod_pos_bound; lia].
  rewrite Z.shiftl_mul_pow2 by lia. done.
Qed.

Lemma page_sum_u32 p a : is_u32 ((p .& page_imask tr) + (a .& page_mask tr)).
Proof.
  rewrite page_offset. pose proof (tr_size _ Htr). pose proof (page_range p) as Hr.
  rewrite <- (page_idem p), (page_div _ Hr). set (x := p .& page_imask tr) in *.
  pose proof (Z.mod_pos_bound a (2 ^ page_size tr)).
  assert (4294967296 = 2 ^ (32 - page_size tr) * 2 ^ page_size tr) by (rewrite <- Z.pow_add_r by lia; by replace (32 - page_size tr + page_size tr) with 32 by lia).
  assert (x / 2 ^ page_size tr < 2 ^ (32 - page_size tr)) by (apply Z.div_lt_upper_bound; unfold is_u32 in Hr; lia).
  assert (0 <= x / 2 ^ page_size tr) by (apply Z.div_pos; unfold is_u32 in Hr; lia).
  unfold is_u32. nia.
Qed.

(** The tag of a page shortcut holds the page number and the function code. *)
Lemma fast_idx_eq a fc : is_u32 a -> 0 <= fc < 8 -> fast_idx tr a fc = (a / 2 ^ page_size tr) * 8 + fc.
Proof.
  intros Ha Hf. unfold fast_idx. rewrite page_div by done. pose proof (tr_size _ Htr).
  rewrite (tr_size3m _ Htr), u32_small by (unfold is_u32; lia).
  rewrite Z.shiftr_div_pow2 by lia.
  replace (2 ^ page_size tr) with (8 * 2 ^ (page_size tr - 3)) at 2
    by (change 8 with (2 ^ 3); rewrite <- Z.pow_add_r by lia; f_equal; lia).
  rewrite Z.mul_assoc, Z.div_mul by lia.
  change 8 with (2 ^ 3) at 1. rewrite Z.lor_comm, <- Z.shiftl_mul_pow2 by lia. apply lor_shl_add; [lia|done].
Qed.

Lemma page_num_bound a : is_u32 a -> 0 <= a / 2 ^ page_size tr < 2 ^ 24.
Proof.
  intros Ha. pose proof (tr_size _ Htr). split; [apply Z.div_pos; unfold is_u32 in Ha; lia|].
  apply Z.div_lt_upper_bound; [lia|].
  assert (2 ^ 8 <= 2 ^ page_size tr) by (apply Z.pow_le_mono_r; lia).
  change (2 ^ 24) with 16777216. change (2 ^ 8) with 256 in *. unfold is_u32 in Ha. nia.
Qed.

Lemma fast_idx_inj a b fc fc' : is_u32 a -> is_u32 b -> 0 <= fc < 8 -> 0 <= fc' < 8 ->
  fast_idx tr a fc = fast_idx tr b fc' -> a .& page_imask tr = b .& page_imask tr /\ fc = fc'.
Proof.
  intros Ha Hb Hf Hf'. rewrite !fast_idx_eq by done. intros E.
  assert (a / 2 ^ page_size tr = b / 2 ^ page_size tr) as Eq by lia.
  rewrite !page_div, Eq by done. split; [done|lia].
Qed.

Lemma fast_idx_live a fc : is_u32 a -> 0 <= fc < 8 -> fast_idx tr a fc <> 0xffffffff.
Proof. intros Ha Hf. rewrite fast_idx_eq by done. pose proof (page_num_bound a Ha). lia. Qed.

Lemma fast_idx_7 a fc : is_u32 a -> 0 <= fc < 8 ->
  fast_idx tr a fc .| 7 = ((a .& page_imask tr) >> page_size3m tr) .| 7.
Proof.
  intros Ha Hf. unfold fast_idx. rewrite <- Z.lor_assoc. f_equal.
  assert (fc = 0 \/ fc = 1 \/ fc = 2 \/ fc = 3 \/ fc = 4 \/ fc = 5 \/ fc = 6 \/ fc = 7) as Hc by lia.
  by repeat (destruct Hc as [->|Hc]; [done|]); subst.
Qed.

(** The tag of the instruction page likewise. *)
Lemma ins_tag_eq a fc : 0 <= fc < 8 -> (a .& page_imask tr) .| fc = (a .& page_imask tr) + fc.
Proof.
  intros Hf. pose proof (page_range a) as Hr. pose proof (tr_size _ Htr).
  rewrite <- (page_idem a), (page_div _ Hr). set (q := _ / _).
  rewrite <- Z.shiftl_mul_pow2 by lia. rewrite Z.lor_comm, lor_shl_add, Z.shiftl_mul_pow2; try lia.
  assert (2 ^ 3 <= 2 ^ page_size tr) by (apply Z.pow_le_mono_r; lia). change (2 ^ 3) with 8 in *. lia.
Qed.
Lemma ins_tag_inj a b fc fc' : 0 <= fc < 8 -> 0 <= fc' < 8 ->
  (a .& page_imask tr) .| fc = (b .& page_imask tr) .| fc' -> a .& page_imask tr = b .& page_imask tr /\ fc = fc'.
Proof.
  intros Hf Hf'. rewrite !ins_tag_eq by done. pose proof (page_range a) as Ha. pose proof (page_range b) as Hb.
  pose proof (tr_size _ Htr). rewrite <- (page_idem a), <- (page_idem b), (page_div _ Ha), (page_div _ Hb).
  generalize ((a .& page_imask tr) / 2 ^ page_size tr), ((b .& page_imask tr) / 2 ^ page_size tr). intros q q'.
  replace (2 ^ page_size tr) with (8 * 2 ^ (page_size tr - 3))
    by (change 8 with (2 ^ 3); rewrite <- Z.pow_add_r by lia; f_equal; lia).
  intros E. set (z := 2 ^ (page_size tr - 3)) in *.
  assert (fc = fc') by (apply (f_equal (fun z => z mod 8)) in E;
    rewrite !(Z.mul_comm 8), !Z.mul_assoc, !(Z.add_comm (_ * 8)), !Z_mod_plus_full, !Z.mod_small in E by lia; done).
  split; [nia|done].
Qed.
Lemma ins_tag_live a fc : 0 <= fc < 8 -> (a .& page_imask tr) .| fc <> 0xffffffff.
Proof.
  intros Hf E. pose proof (tr_size _ Htr).
  assert (E7 : Z.testbit ((a .& page_imask tr) .| fc) 7 = true) by (by rewrite E).
  rewrite Z.lor_spec, Z.land_spec, page_bit in E7 by lia.
  destruct (Z.leb_spec (page_size tr) 7); [lia|]. rewrite andb_false_r in E7. cbn [orb] in E7.
  assert (fc = 0 \/ fc = 1 \/ fc = 2 \/ fc = 3 \/ fc = 4 \/ fc = 5 \/ fc = 6 \/ fc = 7) as Hc by lia.
  by repeat (destruct Hc as [->|Hc]; [done|]); subst.
Qed.
End Pages.

(** ** Coherence *)
Definition key_of (tr : translation030) (addr fc : Z) : Z * Z := (addr .& page_imask tr, fc).

(** The sizes of the arrays, and the remembered indices. *)
Record tlb_wf (m : mmu030) : Prop := mk_wf {
  wf_atc : length (atc m) = ATC030_NUM_ENTRIES;
  wf_read : length (data_read m) = 256%nat;
  wf_write : length (data_write m) = 256%nat;
  wf_index : length (atcindextable m) = 32%nat /\ Forall (fun i => i < ATC030_NUM_ENTRIES)%nat (atcindextable m);
  wf_tr : tr_ok (translation m) }.

Definition atc_ok (tr : translation030) (l : list MMU030_ATC_LINE) (T : tbuf) : Prop :=
  forall j e, l !! j = Some e -> g_valid e = true ->
    g_addr e .& page_imask tr = g_addr e /\ T !! (g_addr e, g_fc e) = Some (line_of (page_imask tr) e).

(** A shortcut array holds results that pass the test [q]. *)
Definition short_ok (tr : translation030) (q : tline -> bool) (l : list mmufastcache030) (T : tbuf) : Prop :=
  forall j e a fc, l !! j = Some e -> is_u32 a -> 0 <= fc < 8 -> c_log e = fast_idx tr a fc ->
    exists x, T !! key_of tr a fc = Some x /\ q x = true /\ c_phys e = tl_phys x.

Definition ins_ok (m : mmu030) (T : tbuf) : Prop :=
  forall a fc, 0 <= fc < 8 -> (a .& page_imask (translation m)) .| fc = last_logical_address m ->
    exists x, T !! key_of (translation m) a fc = Some x /\ tl_berr x = false /\
      last_physical_address m = tl_phys x /\ ins_cache_state m = tl_ci x.

Definition readable (l : tline) : bool := negb (tl_berr l).
Definition writable (l : tline) : bool := negb (tl_berr l) && negb (tl_wp l) && tl_mod l.

Record coherent (m : mmu030) (T : tbuf) : Prop := mk_co {
  co_wf : tlb_wf m;
  co_phys : forall k x, T !! k = Some x -> tl_phys x .& page_imask (translation m) = tl_phys x;
  co_atc : atc_ok (translation m) (atc m) T;
  co_read : short_ok (translation m) readable (data_read m) T;
  co_write : short_ok (translation m) writable (data_write m) T;
  co_ins : ins_ok m T }.

(** ** Flushing the shortcuts *)
Lemma short_none tr q T : tr_ok tr -> short_ok tr q fast_none T.
Proof.
  intros Htr j e a fc Hj Ha Hf Hc. apply lookup_replicate in Hj as [-> _]. cbn in Hc.
  by destruct (fast_idx_live tr Htr a fc Ha Hf).
Qed.

(** Buffers that differ at one page only. *)
Definition same_off (p : Z) (T T' : tbuf) : Prop := forall a fc, a <> p -> T' !! (a, fc) = T !! (a, fc).

Lemma short_drop tr q l T T' p : tr_ok tr -> short_ok tr q l T -> same_off (p .& page_imask tr) T T' ->
  short_ok tr q (fast_drop ((((p .& page_imask tr) .& page_imask tr) >> page_size3m tr) .| 7) <$> l) T'.
Proof.
  intros Htr Hl HT j e a fc Hj Ha Hf Hc. rewrite page_idem in Hj.
  apply list_lookup_fmap_Some in Hj as (e0 & -> & Hj). unfold fast_drop in *.
  destruct (Z.eqb_spec (c_log e0 .| 7) (((p .& page_imask tr) >> page_size3m tr) .| 7)) as [E|E].
  { cbn in Hc. by destruct (fast_idx_live tr Htr a fc Ha Hf). }
  destruct (Hl j e0 a fc Hj Ha Hf Hc) as (x & Hx & Hq & Hp). exists x. split; [|done].
  unfold key_of in *. rewrite HT; [done|]. intros Ep. apply E. rewrite Hc, fast_idx_7 by done. by rewrite Ep.
Qed.

Lemma flush_page_cache m T T' p : tlb_wf m ->
  short_ok (translation m) readable (data_read m) T -> short_ok (translation m) writable (data_write m) T ->
  same_off (p .& page_imask (translation m)) T T' ->
  let m' := mmu030_flush_cache (p .& page_imask (translation m)) m in
  tlb_wf m' /\ short_ok (translation m) readable (data_read m') T' /\
  short_ok (translation m) writable (data_write m') T' /\ ins_ok m' T'.
Proof.
  intros [] Hr Hw HT. unfold mmu030_flush_cache.
  assert (Hne : (p .& page_imask (translation m) =? 0xffffffff) = false).
  { apply Z.eqb_neq. pose proof (ins_tag_live _ wf_tr0 p 0 ltac:(lia)). by rewrite Z.lor_0_r in H. }
  rewrite Hne. cbn -[Z.land Z.lor Z.shiftr]. split; [|split; [|split]].
  - constructor; cbn -[Z.land Z.lor Z.shiftr]; try done; by rewrite length_fmap.
  - by eapply short_drop.
  - by eapply short_drop.
  - intros a fc Hf Hl. cbn in Hl. by destruct (ins_tag_live _ wf_tr0 a fc Hf).
Qed.

Lemma flush_all_cache m T' : tlb_wf m ->
  let m' := mmu030_flush_cache 0xffffffff m in
  tlb_wf m' /\ short_ok (translation m) readable (data_read m') T' /\
  short_ok (translation m) writable (data_write m') T' /\ ins_ok m' T'.
Proof.
  intros []. unfold mmu030_flush_cache. cbn -[Z.land Z.lor Z.shiftr fast_none]. split; [|split; [|split]].
  - constructor; cbn -[fast_none]; try done; by rewrite length_replicate.
  - by apply short_none.
  - by apply short_none.
  - intros a fc Hf Hl. cbn in Hl. by destruct (ins_tag_live _ wf_tr0 a fc Hf).
Qed.

(** ** Cache contents, up to history bits and invalidation *)
Definition core_of (e : MMU030_ATC_LINE) : MMU030_ATC_LINE := {| e with mru := false |}.
Definition weaker (l l' : list MMU030_ATC_LINE) : Prop :=
  length l' = length l /\
  forall j e', l' !! j = Some e' -> g_valid e' = true -> exists e, l !! j = Some e /\ core_of e = core_of e'.

Lemma weaker_refl l : weaker l l.
Proof. split; [done|]. intros j e' Hj _. by exists e'. Qed.
Lemma core_valid e e' : core_of e = core_of e' -> g_valid e = g_valid e'.
Proof. intros E. by apply (f_equal g_valid) in E. Qed.
Lemma core_fields e e' : core_of e = core_of e' ->
  g_addr e' = g_addr e /\ g_fc e' = g_fc e /\ (forall wr, atc_usable wr e' = atc_usable wr e) /\
  (forall imask, line_of imask e' = line_of imask e) /\
  (forall a imask fc, atc_match a imask fc e' = atc_match a imask fc e).
Proof. destruct e, e'. unfold core_of. cbn. by intros [= -> -> -> -> -> -> -> ->]. Qed.
Lemma weaker_trans l1 l2 l3 : weaker l1 l2 -> weaker l2 l3 -> weaker l1 l3.
Proof.
  intros [L1 H1] [L2 H2]. split; [congruence|]. intros j e' Hj Hv.
  destruct (H2 j e' Hj Hv) as (e2 & Hj2 & E2).
  destruct (H1 j e2 Hj2) as (e1 & Hj1 & E1); [by rewrite (core_valid _ _ E2)|].
  exists e1. split; [done|congruence].
Qed.

Lemma weaker_fmap f l : (forall e, g_valid (f e) = true -> core_of e = core_of (f e)) -> weaker l (f <$> l).
Proof.
  intros Hf. split; [by rewrite length_fmap|]. intros j e' Hj Hv.
  apply list_lookup_fmap_Some in Hj as (e & -> & Hj). exists e. auto.
Qed.
Lemma weaker_alter f i l : (forall e, g_valid (f e) = true -> core_of e = core_of (f e)) -> weaker l (alter f i l).
Proof.
  intros Hf. split; [by rewrite length_alter|]. intros j e' Hj Hv.
  rewrite list_lookup_alter in Hj. destruct (decide (i = j)) as [->|Hne]; [|by exists e'].
  destruct (l !! j) as [e|]; [|done]. cbn in Hj. injection Hj as <-. exists e. auto.
Qed.

(** The history bits change nothing else. *)
Lemma core_alter f (i : nat) (l : list MMU030_ATC_LINE) : (forall e, core_of (f e) = core_of e) -> core_of <$> alter f i l = core_of <$> l.
Proof.
  intros Hf. apply list_eq. intros j. rewrite !list_lookup_fmap, list_lookup_alter.
  destruct (decide (i = j)) as [->|]; [|done]. destruct (l !! j) as [x|]; [|done].
  change (Some (core_of (f x)) = Some (core_of x)). by rewrite Hf.
Qed.
Lemma core_history i l : core_of <$> mmu030_atc_handle_history_bit i l = core_of <$> l.
Proof.
  unfold mmu030_atc_handle_history_bit. destruct (forallb _ _); [|by apply core_alter].
  rewrite core_alter, <- list_fmap_compose by done. by apply (core_alter (fun e => {| e with mru := true |})).
Qed.
Lemma history_lookup i l j e' : mmu030_atc_handle_history_bit i l !! j = Some e' ->
  exists e, l !! j = Some e /\ core_of e = core_of e'.
Proof.
  intros Hj. pose proof (core_history i l) as E. apply (f_equal (lookup j)) in E.
  rewrite !list_lookup_fmap, Hj in E. destruct (l !! j) as [e|]; [|done].
  exists e. split; [done|]. change (Some (core_of e') = Some (core_of e)) in E. by apply Some_inj in E.
Qed.
Lemma length_history i l : length (mmu030_atc_handle_history_bit i l) = length l.
Proof. rewrite <- (length_fmap core_of), core_history. apply length_fmap. Qed.
Lemma weaker_history i l : weaker l (mmu030_atc_handle_history_bit i l).
Proof. split; [apply length_history|]. intros j e' Hj _. by eapply history_lookup. Qed.

Lemma weaker_drop q l : weaker l (atc_drop q l).
Proof. apply weaker_fmap. intros e. by destruct (q e && g_valid e). Qed.

Lemma atc_ok_weaker tr l l' T : weaker l l' -> atc_ok tr l T -> atc_ok tr l' T.
Proof.
  intros [_ Hw] Hl j e' Hj Hv. destruct (Hw j e' Hj Hv) as (e & Hj0 & E).
  destruct (Hl j e Hj0) as [Ha HT]; [by rewrite (core_valid _ _ E)|].
  destruct (core_fields _ _ E) as (-> & -> & _ & -> & _). done.
Qed.

(** ** Scanning the cache *)

(** Twenty-two steps from any index visit every entry. *)
Lemma next_index_covers i x : (i < ATC030_NUM_ENTRIES)%nat -> (x < ATC030_NUM_ENTRIES)%nat ->
  exists j, (j < ATC030_NUM_ENTRIES)%nat /\ Nat.iter j next_index i = x.
Proof.
  intros Hi Hx.
  assert (H : forallb (fun i => forallb (fun x => existsb (fun j => Nat.eqb (Nat.iter j next_index i) x)
    (seq 0 ATC030_NUM_ENTRIES)) (seq 0 ATC030_NUM_ENTRIES)) (seq 0 ATC030_NUM_ENTRIES) = true)
    by (vm_compute; reflexivity).
  rewrite forallb_forall in H. specialize (H i (proj2 (in_seq ATC030_NUM_ENTRIES 0 i) ltac:(lia))).
  rewrite forallb_forall in H. specialize (H x (proj2 (in_seq ATC030_NUM_ENTRIES 0 x) ltac:(lia))).
  apply existsb_exists in H as (j & Hj & E). apply in_seq in Hj. exists j.
  split; [lia|by apply Nat.eqb_eq].
Qed.

Lemma next_index_lt i : (next_index i < ATC030_NUM_ENTRIES)%nat.
Proof.
  unfold next_index. destruct (Nat.leb_spec ATC030_NUM_ENTRIES (S i)); [unfold ATC030_NUM_ENTRIES; lia|lia].
Qed.

Definition unset_valid (e : MMU030_ATC_LINE) : MMU030_ATC_LINE := {| e with g_valid := false |}.

(** What a scan does: it only invalidates matching entries that are not
    usable; it stops at a usable match, or leaves none. *)
Lemma atc_scan030_spec n : forall i maddr imask fc write l r l',
  (i < length l)%nat -> length l = ATC030_NUM_ENTRIES ->
  atc_scan n i maddr imask fc write l = (r, l') ->
  weaker l l' /\
  (forall j e, l !! j = Some e -> g_valid e = true -> atc_match maddr imask fc e = false \/ atc_usable write e = true ->
     l' !! j = Some e) /\
  match r with
  | Some k => exists e, l' !! k = Some e /\ atc_match maddr imask fc e = true /\ atc_usable write e = true
  | None => forall k e, (k < n)%nat -> l' !! (Nat.iter k next_index i) = Some e -> atc_match maddr imask fc e = false
  end.
Proof.
  induction n as [|n IH]; intros i maddr imask fc write l r l' Hi Hl E; cbn [atc_scan] in E.
  { injection E as <- <-. split; [apply weaker_refl|]. split; [done|]. intros; lia. }
  destruct (lookup_lt_is_Some_2 l i Hi) as [e He].
  rewrite (list_lookup_total_correct _ _ _ He) in E.
  pose proof (next_index_lt i) as Hn.
  destruct (atc_match maddr imask fc e) eqn:Em; [destruct (atc_usable write e) eqn:Eu|].
  - injection E as <- <-. split; [apply weaker_refl|]. split; [done|]. by exists e.
  - set (l1 := alter unset_valid i l) in *.
    assert (Hl1 : length l1 = ATC030_NUM_ENTRIES) by (by unfold l1; rewrite length_alter).
    destruct (IH (next_index i) maddr imask fc write l1 r l' ltac:(lia) Hl1 E) as (Hw & Hk & Hr).
    split; [|split].
    + eapply weaker_trans; [|exact Hw]. by apply weaker_alter.
    + intros j e' Hj Hv Hor. apply Hk; try done. unfold l1. rewrite list_lookup_alter.
      destruct (decide (i = j)) as [->|]; [|done].
      rewrite He in Hj. apply Some_inj in Hj. subst e'. destruct Hor as [Hor|Hor]; [by rewrite Hor in Em|by rewrite Hor in Eu].
    + destruct r as [k|]; [done|]. intros k e' Hk0 Hj. destruct k as [|k]; cbn [Nat.iter] in Hj.
      * destruct (g_valid e') eqn:Hv; [|unfold atc_match; rewrite Hv; apply andb_false_r].
        destruct Hw as [_ Hw]. destruct (Hw i e' Hj Hv) as (e1 & He1 & Ec).
        unfold l1 in He1. rewrite list_lookup_alter, decide_True in He1 by done. rewrite He in He1. cbn in He1.
        injection He1 as <-. apply core_valid in Ec. cbn in Ec. congruence.
      * apply (Hr k); [lia|]. by rewrite <- Nat.iter_succ_r.
  - destruct (IH (next_index i) maddr imask fc write l r l' ltac:(lia) Hl E) as (Hw & Hk & Hr).
    split; [done|]. split; [done|]. destruct r as [k|]; [done|].
    intros k e' Hk0 Hj. destruct k as [|k]; cbn [Nat.iter] in Hj.
    + destruct (g_valid e') eqn:Hv; [|unfold atc_match; rewrite Hv; apply andb_false_r].
      destruct Hw as [_ Hw]. destruct (Hw i e' Hj Hv) as (e1 & He1 & Ec).
      rewrite He in He1. apply Some_inj in He1. subst e1. by rewrite (proj2 (proj2 (proj2 (proj2 (core_fields _ _ Ec))))).
    + apply (Hr k); [lia|]. by rewrite <- Nat.iter_succ_r.
Qed.

#[local] Opaque atc_scan mmu030_atc_handle_history_bit ATC030_NUM_ENTRIES.

(** The parts of the MMU a lookup does not touch. *)
Record same_cfg (m m' : mmu030) : Prop := mk_sc {
  sc_tr : translation m' = translation m; sc_en : enabled m' = enabled m;
  sc_tt0 : tt0 m' = tt0 m; sc_tt1 : tt1 m' = tt1 m; sc_tt : tt_enabled m' = tt_enabled m }.
#[export] Instance same_cfg_pre : PreOrder same_cfg.
Proof. split; [by constructor|]. intros ??? [] []. constructor; congruence. Qed.

Lemma atc_offset_lt tr a : (atc_offset tr a < 32)%nat.
Proof.
  unfold atc_offset. change 0x1f with (Z.ones 5). rewrite Z.land_ones by lia.
  pose proof (Z.mod_pos_bound (a >> page_size tr) (2 ^ 5)). change (2 ^ 5) with 32 in *. lia.
Qed.

Lemma lookup030_coherent m T addr fc write r m' : coherent m T ->
  logical_is_in_atc addr fc write m = (r, m') ->
  coherent m' T /\ same_cfg m m' /\
  match r with
  | Some i => exists e, atc m' !! i = Some e /\
      T !! key_of (translation m) addr fc = Some (line_of (page_imask (translation m)) e) /\
      tl_usable write (line_of (page_imask (translation m)) e) = true
  | None =>
      (forall j e, atc m' !! j = Some e -> g_valid e = true -> (g_addr e, g_fc e) <> key_of (translation m) addr fc) /\
      (forall j e, atc m !! j = Some e -> g_valid e = true -> (g_addr e, g_fc e) = key_of (translation m) addr fc ->
         tl_usable write (line_of (page_imask (translation m)) e) = false)
  end.
Proof.
  intros [Hwf Hph Ha Hr Hw Hi] E. pose proof Hwf as [La Lr Lw [Lx Fx] Htr]. unfold logical_is_in_atc in E.
  set (tr := translation m) in *. set (maddr := addr .& page_imask tr) in *.
  set (off := atc_offset tr maddr) in *. pose proof (atc_offset_lt tr maddr) as Hoff. fold off in Hoff.
  assert (Hst : (atcindextable m !!! off < ATC030_NUM_ENTRIES)%nat).
  { destruct (lookup_lt_is_Some_2 (atcindextable m) off) as [v Hv]; [lia|].
    rewrite (list_lookup_total_correct _ _ _ Hv). by eapply (Forall_lookup_1 _ _ _ _ Fx). }
  destruct (atc_scan ATC030_NUM_ENTRIES (atcindextable m !!! off) maddr (page_imask tr) fc write (atc m))
    as [r0 l0] eqn:Es.
  destruct (atc_scan030_spec _ _ _ _ _ _ _ _ _ ltac:(by rewrite La) La Es) as (Hwk & Hkeep & Hres).
  destruct r0 as [i|]; injection E as <- <-.
  - destruct Hres as (e & He & Hm & Hu). apply andb_prop in Hm as [Hm Hv]. apply andb_prop in Hm as [Hm Hf].
    apply Z.eqb_eq in Hm, Hf.
    pose proof (weaker_history i l0) as Hwh. pose proof (weaker_trans _ _ _ Hwk Hwh) as Hww.
    assert (Hok : atc_ok tr (mmu030_atc_handle_history_bit i l0) T) by (by eapply atc_ok_weaker).
    split; [|split; [by constructor|]].
    + constructor; cbn; try done.
      constructor; cbn; try done; [by rewrite (proj1 Hww)|]. rewrite length_insert. split; [done|].
      apply Forall_insert; [done|]. apply lookup_lt_Some in He. rewrite (proj1 Hwk) in He. lia.
    + cbn. destruct (lookup_lt_is_Some_2 (mmu030_atc_handle_history_bit i l0) i) as [e2 He2].
      { rewrite (proj1 Hwh). by eapply lookup_lt_Some. }
      exists e2. split; [done|]. destruct (history_lookup _ _ _ _ He2) as (e1 & He1 & Ec).
      rewrite He in He1. apply Some_inj in He1. subst e1.
      destruct (Hok i e2 He2) as [Hg HT]; [by rewrite <- (core_valid _ _ Ec)|].
      destruct (core_fields _ _ Ec) as (Eg & Ef & Eu & _).
      split; [|by rewrite <- Hu, <- Eu].
      rewrite <- HT. unfold key_of. f_equal. f_equal; [|by rewrite Ef]. fold maddr. rewrite Hm, <- Eg. by symmetry.
  - split; [|split; [by constructor|]]; [|split].
    + constructor; cbn; try done; [constructor; cbn; try done; by rewrite (proj1 Hwk)|]. by eapply atc_ok_weaker.
    + cbn. intros j e Hj Hv Hkey.
      assert (Hjl : (j < ATC030_NUM_ENTRIES)%nat).
      { rewrite <- La, <- (proj1 Hwk). by eapply lookup_lt_Some. }
      destruct (next_index_covers _ j Hst Hjl) as (k & Hk & Ek). rewrite <- Ek in Hj.
      specialize (Hres k e Hk Hj). injection Hkey as Eg Ef. unfold atc_match in Hres.
      rewrite Hv, Eg, Ef, page_idem, !Z.eqb_refl in Hres. done.
    + intros j e Hj Hv Hkey. destruct (tl_usable write (line_of (page_imask tr) e)) eqn:Eu; [|done]. exfalso.
      pose proof (Hkeep j e Hj Hv (or_intror Eu)) as Hj'.
      assert (Hjl : (j < ATC030_NUM_ENTRIES)%nat) by (rewrite <- La; by eapply lookup_lt_Some).
      destruct (next_index_covers _ j Hst Hjl) as (k & Hk & Ek). rewrite <- Ek in Hj'.
      specialize (Hres k e Hk Hj'). injection Hkey as Eg Ef. unfold atc_match in Hres.
      rewrite Hv, Eg, Ef, page_idem, !Z.eqb_refl in Hres. done.
Qed.

(** ** Filling an entry *)
Lemma atc_victim_lt l : (atc_victim l < ATC030_NUM_ENTRIES)%nat.
Proof.
  unfold atc_victim. destruct (Nat.leb_spec ATC030_NUM_ENTRIES
    (if Nat.eqb (first_index (fun e => negb (g_valid e)) l) ATC030_NUM_ENTRIES
     then first_index (fun e => negb (mru e)) l else first_index (fun e => negb (g_valid e)) l)); [|done].
  Transparent ATC030_NUM_ENTRIES. unfold ATC030_NUM_ENTRIES. lia.
Qed.
#[local] Opaque ATC030_NUM_ENTRIES atc_victim.

Lemma result_line_of imask r addr fc e : line_of imask (entry_of addr fc imask r e) = result_line imask r.
Proof. unfold line_of, result_line, entry_of. cbn -[Z.land]. by rewrite <- Z.land_assoc, Z.land_diag. Qed.

Lemma made_coherent m T addr fc r : coherent m T ->
  (forall j e, atc m !! j = Some e -> g_valid e = true -> (g_addr e, g_fc e) <> key_of (translation m) addr fc) ->
  let T' := <[key_of (translation m) addr fc := result_line (page_imask (translation m)) r]> T in
  coherent (atc_made addr fc r m) T' /\ same_cfg m (atc_made addr fc r m) /\
  exists j e, atc (atc_made addr fc r m) !! j = Some e /\ g_valid e = true /\
    (g_addr e, g_fc e) = key_of (translation m) addr fc /\
    line_of (page_imask (translation m)) e = result_line (page_imask (translation m)) r.
Proof.
  intros [Hwf Hph Ha Hr Hw Hi] Hno T'. pose proof Hwf as [La Lr Lw Lx Htr].
  set (tr := translation m) in *. set (imask := page_imask tr) in *.
  set (i := atc_victim (atc m)). pose proof (atc_victim_lt (atc m)) as Hv. fold i in Hv.
  set (l := alter (entry_of addr fc imask r) i (mmu030_atc_handle_history_bit i (atc m))).
  set (m1 := {| m with status := sr_status r; atc := l |}).
  change (atc_made addr fc r m) with (mmu030_flush_cache (addr .& imask) m1).
  assert (Ll : length l = ATC030_NUM_ENTRIES) by (unfold l; by rewrite length_alter, length_history).
  assert (Hwf1 : tlb_wf m1) by (by constructor).
  assert (HT : same_off (addr .& imask) T T').
  { intros a f Hne. unfold T', key_of. apply lookup_insert_ne. intros [= E _]. by apply Hne. }
  destruct (flush_page_cache m1 T T' addr Hwf1 Hr Hw HT) as (Hwf2 & Hr2 & Hw2 & Hi2).
  assert (Hm : forall P : mmu030 -> Prop, P {| (mmu030_flush_cache (addr .& imask) m1) with atc := l |} ->
    P (mmu030_flush_cache (addr .& imask) m1)) by (unfold mmu030_flush_cache; by destruct (_ =? _)).
  assert (Etr : translation (mmu030_flush_cache (addr .& imask) m1) = tr)
    by (unfold mmu030_flush_cache; by destruct (_ =? _)).
  assert (Eatc : atc (mmu030_flush_cache (addr .& imask) m1) = l)
    by (unfold mmu030_flush_cache; by destruct (_ =? _)).
  split; [|split].
  - constructor; rewrite ?Etr, ?Eatc; try done.
    + intros k x. unfold T'. destruct (decide (k = key_of tr addr fc)) as [->|Hne].
      * rewrite lookup_insert_eq. intros [= <-]. cbn -[Z.land]. by rewrite <- Z.land_assoc, Z.land_diag.
      * rewrite lookup_insert_ne by done. apply Hph.
    + intros j e Hj Hval. unfold l in Hj. rewrite list_lookup_alter in Hj.
      destruct (decide (i = j)) as [<-|Hne].
      * destruct (mmu030_atc_handle_history_bit i (atc m) !! i) as [e0|]; [|done].
        apply Some_inj in Hj. subst e. rewrite result_line_of. cbn -[Z.land]. split; [apply page_idem|].
        unfold T', key_of. by rewrite lookup_insert_eq.
      * destruct (history_lookup _ _ _ _ Hj) as (e0 & He0 & Ec).
        destruct (core_fields _ _ Ec) as (-> & -> & _ & -> & _).
        assert (Hval0 : g_valid e0 = true) by (by rewrite (core_valid _ _ Ec)).
        destruct (Ha j e0 He0 Hval0) as [Hg HTe]. split; [done|]. unfold T'.
        rewrite lookup_insert_ne; [done|]. intros Ek. by apply (Hno j e0 He0 Hval0).
  - unfold mmu030_flush_cache. destruct (_ =? _); by constructor.
  - destruct (lookup_lt_is_Some_2 (mmu030_atc_handle_history_bit i (atc m)) i) as [e0 He0].
    { by rewrite length_history, La. }
    exists i, (entry_of addr fc imask r e0). rewrite Eatc. split; [|split; [done|split; [done|]]].
    + unfold l. by rewrite list_lookup_alter, decide_True, He0 by done.
    + apply result_line_of.
Qed.

(** ** Results of a search for a write *)
Section Usable.
Context {M : Type} `{Phys M} (addr fc : Z) (dbg : bool).

Definition write_usable (r : sresult) : Prop :=
  r_err r = 0 -> r_sv r = false -> r_wp r = false -> r_mod r = true.

Lemma spage_usable xs d a (m : M) : a_num a <> 0 -> write_usable (spage addr fc true 0 dbg xs d a m).1.
Proof.
  intros Ha. unfold spage. rewrite (proj2 (Z.eqb_neq _ _) Ha).
  destruct (sstore _ _ _ _ _); [|by intros E].
  intros _. cbn -[Z.land Z.lor]. intros Hsv Hwp. rewrite Hsv, Hwp. cbn -[Z.land Z.lor].
  rewrite !Z.land_lor_distr_l. change (DESCR_U .& DESCR_M) with 0. rewrite Z.lor_0_r.
  change (DESCR_M .& DESCR_M) with (2 ^ 4). unfold truth. apply negb_true_iff, Z.eqb_neq.
  intros E. apply Z.lor_eq_0_iff in E as [_ E]. done.
Qed.

Lemma sclass_usable xs k d a (m : M) : a_num a <> 0 ->
  write_usable (k d a m).1 -> write_usable (sclass addr fc true 0 dbg xs k d a m).1.
Proof.
  intros Ha Hk. unfold sclass. destruct (_ =? _); [by intros E|]. destruct (_ =? _); [by apply spage_usable|done].
Qed.

Lemma swalk_usable xs : forall d a (m : M), 0 <= a_num a -> write_usable (swalk addr fc true 0 dbg xs d a m).1.
Proof.
  induction xs as [|x xs IH]; intros d a m Ha; cbn [swalk].
  - change (at_level 0 a) with false. cbn iota. destruct (sfetch _ _ _); [|by intros E].
    destruct (_ =? _); [|by intros E]. apply spage_usable. cbn. lia.
  - destruct (sstore _ _ _ _ _); [|by intros E].
    change (at_level 0 a) with false. rewrite andb_false_r. cbn iota.
    destruct (ix_limit _ _ _); [by intros E|].
    destruct (sfetch _ _ _); [|by intros E].
    assert (Ha' : a_num (if a_num a =? 0 then a else sprotect fc d a) = a_num a) by (by destruct (a_num a =? 0)).
    apply sclass_usable; cbn; rewrite Ha'; [lia|]. apply IH. cbn. lia.
Qed.

(** A search for a write finds a page it may write, marked modified, or one
    that faults; unless the root pointer itself is a page descriptor. *)
Lemma ssearch_usable r tr (m : M) : sd_type (root_descr fc r) <> DESCR_TYPE_PAGE ->
  tl_usable true (result_line (page_imask tr) (ssearch addr fc true 0 dbg r tr m).1) = true.
Proof.
  intros Hroot.
  assert (Hu : write_usable (ssearch addr fc true 0 dbg r tr m).1).
  { unfold ssearch, sclass. destruct (_ =? _); [by intros E|].
    rewrite (proj2 (Z.eqb_neq _ _) Hroot). by apply swalk_usable. }
  destruct (ssearch addr fc true 0 dbg r tr m) as [x m']. cbn [fst] in *. unfold write_usable in Hu.
  unfold tl_usable, result_line; cbn.
  destruct (Z.eqb_spec (r_err x) 0), (r_sv x), (r_wp x), (r_mod x); cbn in *; try done. by rewrite Hu.
Qed.
End Usable.
