(* ===== verification/Mmu030Acc.v ===== *)
(** * Mmu030Acc: accesses through the 68030 MMU refine the translation buffer

    Every accessor of [Mmu030] performs one access of the buffer of
    [Mmu030Tlb] and goes to the address its result gives, or faults when the
    result forbids the access; the caches stay coherent. *)

From S2P Require Import Prelude Flags Cpu Movec Mmu Frames Mmu030 Mmu030Op Mmu030Spec Mmu030Walk Mmu030Tlb.
From Stdlib Require Import ZArith Lia Bool.
From stdpp Require Import base list gmap.
Open Scope Z_scope.
Open Scope cint_scope.
Open Scope m30_scope.

#[local] Opaque atc_scan mmu030_atc_handle_history_bit ATC030_NUM_ENTRIES atc_victim.

(** An access of the abstract buffer: a usable result it holds, or a new
    search of the tables, whose result it then holds. *)
Inductive tb_access {M} `{Phys M} (dbg : bool) (rg : mregs030) (tr : translation030) (addr fc : Z) (write : bool)
    : tbuf -> M -> tline -> tbuf -> M -> Prop :=
| tb_hit T m l :
    T !! key_of tr addr fc = Some l -> tl_usable write l = true ->
    tb_access dbg rg tr addr fc write T m l T m
| tb_search T m r m' :
    ssearch addr fc write 0 dbg rg tr m = (r, m') ->
    let l := result_line (page_imask tr) r in
    tb_access dbg rg tr addr fc write T m l (<[key_of tr addr fc := l]> T) m'.

Section Acc.
Context {M : Type} `{Phys M} (cpu_compatible : bool) (ce_cachable : Z -> Z).
Implicit Types (s : st030 M) (T : tbuf).

(** What an access leaves alone. *)
Record acc_env s s' : Prop := mk_ae {
  ae_rg : rg30 s' = rg30 s; ae_dbg : debugger30 s' = debugger30 s; ae_pci : pci30 s' = pci30 s;
  ae_s : reg_s (cpu30 s') = reg_s (cpu30 s); ae_cfg : same_cfg (mm30 s) (mm30 s') }.
#[export] Instance acc_env_pre : PreOrder acc_env.
Proof.
  split; [by constructor|]. intros s1 s2 s3 [] [].
  constructor; try (by etransitivity). 
Qed.
Lemma fault_only_acc s s' : fault_only s s' -> acc_env s s'.
Proof. intros []. constructor; try done. by rewrite fo_mm. Qed.

(** ** Looking up with one search *)
Lemma atc_lookup_ok {A} addr fc write (use : option nat -> M30 M A) s T :
  coherent (mm30 s) T -> (write = true -> sd_type (root_descr fc (rg30 s)) <> DESCR_TYPE_PAGE) ->
  exists i e s1 T1,
    atc_lookup cpu_compatible addr fc write use s = use (Some i) s1 /\
    atc (mm30 s1) !! i = Some e /\ coherent (mm30 s1) T1 /\ acc_env s s1 /\
    cache_state30 s1 = cache_state30 s /\
    let l := line_of (page_imask (translation (mm30 s))) e in
    T1 !! key_of (translation (mm30 s)) addr fc = Some l /\ tl_usable write l = true /\
    tb_access (debugger30 s) (rg30 s) (translation (mm30 s)) addr fc write T (pm30 s) l T1 (pm30 s1).
Proof.
  intros Hco Hroot. unfold atc_lookup, bind30, mmu030_logical_is_in_atc.
  destruct (logical_is_in_atc addr fc write (mm30 s)) as [r m1] eqn:E1.
  destruct (lookup030_coherent _ _ _ _ _ _ _ Hco E1) as (Hco1 & Hcfg1 & Hr).
  set (s1 := {| s with mm30 := m1 |}).
  destruct r as [i|].
  - destruct Hr as (e & He & HT & Hu).
    exists i, e, s1, T. split; [done|]. split; [done|]. split; [done|]. split; [by constructor|].
    split; [done|]. split; [done|]. split; [done|]. by apply tb_hit.
  - destruct Hr as [Hno _].
    assert (Etr : translation m1 = translation (mm30 s)) by (by destruct Hcfg1).
    assert (Hsh : tr_shape (translation (mm30 s1))).
    { cbn. apply tr_tables, wf_tr, co_wf with (T := T). done. }
    pose proof (table_search_ok cpu_compatible addr fc write 0 s1 Hsh) as Hts.
    change (debugger30 s1) with (debugger30 s) in Hts. change (rg30 s1) with (rg30 s) in Hts.
    change (pm30 s1) with (pm30 s) in Hts. change (mm30 s1) with m1 in Hts. rewrite Etr in Hts.
    destruct (ssearch addr fc write 0 (debugger30 s) (rg30 s) (translation (mm30 s)) (pm30 s)) as [r m'] eqn:Es.
    destruct Hts as (s2 & E2 & Hpm2 & Hrg2 & Hd2 & Hp2 & Hc2 & Hs2 & _ & Hm2). cbn [Z.eqb] in E2, Hm2.
    destruct (made_coherent m1 T addr fc r Hco1) as (Hco2 & Hcfg2 & (j & ej & Hj & Hvj & Hkj & Hlj)).
    { intros j e Hj Hv. rewrite Etr. by eapply Hno. }
    rewrite E2. rewrite <- Hm2 in Hco2, Hcfg2, Hj. rewrite Etr in *.
    set (l := result_line (page_imask (translation (mm30 s))) r) in *.
    set (T1 := <[key_of (translation (mm30 s)) addr fc := l]> T) in *.
    destruct (logical_is_in_atc addr fc write (mm30 s2)) as [r3 m3] eqn:E3.
    assert (Etr2 : translation (mm30 s2) = translation (mm30 s)) by (destruct Hcfg2; congruence).
    destruct (lookup030_coherent _ _ _ _ _ _ _ Hco2 E3) as (Hco3 & Hcfg3 & Hr3). rewrite Etr2 in Hr3.
    assert (Hus : tl_usable write l = true).
    { destruct write; [|done]. unfold l.
      pose proof (ssearch_usable addr fc (debugger30 s) (rg30 s) (translation (mm30 s)) (pm30 s) (Hroot eq_refl)) as Hu.
      by rewrite Es in Hu. }
    destruct r3 as [i|].
    + destruct Hr3 as (e & He & HT & Hu).
      exists i, e, {| s2 with mm30 := m3 |}, T1. split; [done|]. split; [done|]. split; [done|].
      split; [constructor; cbn; try done; by transitivity m1; [|transitivity (mm30 s2)]|].
      split; [done|]. split; [done|]. split; [done|].
      assert (El : line_of (page_imask (translation (mm30 s))) e = l).
      { unfold T1 in HT. rewrite lookup_insert_eq in HT. by apply Some_inj in HT. }
      rewrite El. cbn [pm30]. rewrite Hpm2. by apply tb_search.
    + destruct Hr3 as [_ Hnu]. specialize (Hnu j ej Hj Hvj Hkj). rewrite Hlj in Hnu. congruence.
Qed.

(** ** Using an entry *)
Lemma short_add tr q l T a fc x cs : tr_ok tr -> short_ok tr q l T -> is_u32 a -> 0 <= fc < 8 ->
  T !! key_of tr a fc = Some x -> q x = true ->
  short_ok tr q (fast_add tr a (tl_phys x) fc cs l) T.
Proof.
  intros Htr Hl Ha Hf HT Hq. unfold fast_add. destruct (_ <? _); [|done].
  intros j e b fc' Hj Hb Hf' Hc.
  apply list_lookup_insert_Some in Hj as [(<- & <- & _)|[Hne Hj]]; [|by eapply Hl].
  cbn in Hc. destruct (fast_idx_inj tr Htr a b fc fc' Ha Hb Hf Hf' Hc) as [Ep ->].
  exists x. split; [|done]. unfold key_of in *. by rewrite <- Ep.
Qed.
Lemma length_fast_add tr a ph fc cs l : length (fast_add tr a ph fc cs l) = length l.
Proof. unfold fast_add. destruct (_ <? _); [apply length_insert|done]. Qed.

Lemma co_add_read m T a fc x cs : coherent m T -> is_u32 a -> 0 <= fc < 8 ->
  T !! key_of (translation m) a fc = Some x -> readable x = true ->
  coherent {| m with data_read := fast_add (translation m) a (tl_phys x) fc cs (data_read m) |} T.
Proof.
  intros [[] ? ? ? ? ?] Ha Hf HT Hq. constructor; try done.
  - constructor; try done. cbn. by rewrite length_fast_add.
  - by apply short_add.
Qed.
Lemma co_add_write m T a fc x cs : coherent m T -> is_u32 a -> 0 <= fc < 8 ->
  T !! key_of (translation m) a fc = Some x -> writable x = true ->
  coherent {| m with data_write := fast_add (translation m) a (tl_phys x) fc cs (data_write m) |} T.
Proof.
  intros [[] ? ? ? ? ?] Ha Hf HT Hq. constructor; try done.
  - constructor; try done. cbn. by rewrite length_fast_add.
  - by apply short_add.
Qed.
Lemma co_set_ins m T a fc x : coherent m T -> 0 <= fc < 8 ->
  T !! key_of (translation m) a fc = Some x -> tl_berr x = false ->
  coherent {| m with ins_cache_state := tl_ci x; last_physical_address := tl_phys x;
                     last_logical_address := (a .& page_imask (translation m)) .| fc |} T.
Proof.
  intros [Hwf ? ? ? ? ?] Hf HT Hq. pose proof Hwf as [? ? ? ? Htr]. constructor; try done.
  intros b fc' Hf' Hl. cbn -[Z.land Z.lor] in Hl.
  destruct (ins_tag_inj _ Htr _ _ _ _ Hf' Hf Hl) as [Ep ->].
  exists x. split; [|done]. cbn -[Z.land]. unfold key_of in *. by rewrite Ep.
Qed.
Lemma co_ins_none m T : coherent m T -> coherent {| m with last_logical_address := 0xffffffff |} T.
Proof.
  intros [Hwf ? ? ? ? ?]. pose proof Hwf as [? ? ? ? Htr]. constructor; try done.
  intros b fc' Hf' Hl. cbn -[Z.land Z.lor] in Hl. by destruct (ins_tag_live _ Htr b fc' Hf').
Qed.

(** The states after a fault, and after a use of an entry. *)
Definition used_ok (s s' : st030 M) T : Prop :=
  coherent (mm30 s') T /\ acc_env s s' /\ pm30 s' = pm30 s.

Section Use.
Variables (s : st030 M) (T : tbuf) (addr fc : Z) (i : nat) (e : MMU030_ATC_LINE).
Let tr := translation (mm30 s).
Let l := line_of (page_imask tr) e.
Hypothesis Hco : coherent (mm30 s) T.
Hypothesis Ha : is_u32 addr.
Hypothesis Hf : 0 <= fc < 8.
Hypothesis He : atc (mm30 s) !! i = Some e.
Hypothesis HT : T !! key_of tr addr fc = Some l.

Lemma atc_line_ok : atc_line (Some i) s = (Ok e, s).
Proof. unfold atc_line, bind30, get30. by rewrite He. Qed.

Lemma xlate_sum : u32 (page_addr_of s e + page_index_of s addr) = xlate tr l addr.
Proof.
  unfold page_addr_of, page_index_of, xlate, l. cbn [tl_phys line_of]. apply u32_small.
  apply page_sum_u32. apply wf_tr, co_wf with (T := T). done.
Qed.

Lemma fault_used {A} read flags : exists s',
  @mmu030_page_fault M cpu_compatible A addr read flags fc s = (Thrown 2, s') /\ used_ok s s' T.
Proof.
  destruct (page_fault_throws cpu_compatible (A := A) addr read flags fc s) as (s' & E & F & _).
  exists s'. split; [done|]. split; [|split].
  - by rewrite (fo_mm _ _ F).
  - by apply fault_only_acc.
  - apply F.
Qed.

Lemma get_atc_ok size : exists s',
  mmu030_get_atc cpu_compatible addr (Some i) fc size s =
    (if tl_berr l then Thrown 2 else Ok (xlate tr l addr), s') /\ used_ok s s' T /\
  (tl_berr l = false -> cache_state30 s' = tl_ci l).
Proof.
  unfold mmu030_get_atc. unfold bind30 at 1. rewrite atc_line_ok. unfold bind30 at 1, get30 at 1.
  change (p_bus_error e) with (tl_berr l). destruct (tl_berr l) eqn:Eb.
  - destruct (fault_used (A := Z) true size) as (s' & E & U). exists s'. split; [done|]. by split.
  - eexists. split; [unfold bind30; cbn -[u32 page_addr_of page_index_of]; by rewrite <- xlate_sum|].
    split; [|done]. split; [|split; [by constructor|done]].
    apply (co_add_read (mm30 s) T addr fc l (p_cache_inhibit e)); try done. unfold readable. by rewrite Eb.
Qed.

Lemma put_atc_ok size : tl_usable true l = true -> exists s',
  mmu030_put_atc cpu_compatible addr (Some i) fc size s =
    (if tl_berr l || tl_wp l then Thrown 2 else Ok (xlate tr l addr), s') /\ used_ok s s' T /\
  (tl_berr l || tl_wp l = false -> cache_state30 s' = tl_ci l).
Proof.
  intros Hu. unfold mmu030_put_atc. unfold bind30 at 1. rewrite atc_line_ok. unfold bind30 at 1, get30 at 1.
  change (p_bus_error e || p_write_protect e) with (tl_berr l || tl_wp l).
  destruct (tl_berr l || tl_wp l) eqn:Eb.
  - destruct (fault_used (A := Z) false size) as (s' & E & U). exists s'. split; [done|]. by split.
  - apply orb_false_iff in Eb as [Eb Ew].
    eexists. split; [unfold bind30; cbn -[u32 page_addr_of page_index_of]; by rewrite <- xlate_sum|].
    split; [|done]. split; [|split; [by constructor|done]].
    apply (co_add_write (mm30 s) T addr fc l (p_cache_inhibit e)); try done.
    unfold writable, tl_usable in *. rewrite Eb, Ew in *. cbn [negb orb andb] in *. by rewrite !orb_false_r in Hu.
Qed.

Lemma get_i_atc_ok size : exists s',
  mmu030_get_i_atc cpu_compatible addr (Some i) fc size s =
    (if tl_berr l then Thrown 2 else Ok (xlate tr l addr), s') /\ used_ok s s' T.
Proof.
  unfold mmu030_get_i_atc. unfold bind30 at 1. rewrite atc_line_ok. unfold bind30 at 1, get30 at 1.
  change (p_bus_error e) with (tl_berr l). destruct (tl_berr l) eqn:Eb.
  - apply fault_used.
  - eexists. split; [unfold bind30; cbn -[u32 page_addr_of page_index_of]; by rewrite <- xlate_sum|].
    split; [|split; [by constructor|done]].
    apply (co_set_ins (mm30 s) T addr fc l); done.
Qed.

Lemma put_generic_ok flags : tl_usable true l = true -> exists s',
  mmu030_put_atc_generic cpu_compatible addr (Some i) fc flags s =
    (if tl_berr l || tl_wp l then Thrown 2 else Ok (xlate tr l addr), s') /\ used_ok s s' T.
Proof.
  intros Hu. unfold mmu030_put_atc_generic. unfold bind30 at 1. rewrite atc_line_ok. unfold bind30 at 1, get30 at 1.
  rewrite orb_comm. change (p_bus_error e || p_write_protect e) with (tl_berr l || tl_wp l).
  destruct (tl_berr l || tl_wp l) eqn:Eb.
  - apply fault_used.
  - apply orb_false_iff in Eb as [Eb Ew].
    eexists. split; [unfold bind30; cbn -[u32 page_addr_of page_index_of]; by rewrite <- xlate_sum|].
    split; [|split; [by constructor|done]].
    apply (co_add_write (mm30 s) T addr fc l (cache_state30 s)); try done.
    unfold writable, tl_usable in *. rewrite Eb, Ew in *. cbn [negb orb andb] in *. by rewrite !orb_false_r in Hu.
Qed.

Lemma get_generic_ok flags checkwrite : exists s',
  mmu030_get_atc_generic cpu_compatible addr (Some i) fc flags checkwrite s =
    (if tl_berr l || (checkwrite && tl_wp l) then Thrown 2 else Ok (xlate tr l addr), s') /\ used_ok s s' T.
Proof.
  unfold mmu030_get_atc_generic. unfold bind30 at 1. rewrite atc_line_ok. unfold bind30 at 1, get30 at 1.
  change (p_bus_error e || checkwrite && p_write_protect e) with (tl_berr l || checkwrite && tl_wp l).
  destruct (tl_berr l || checkwrite && tl_wp l) eqn:Eb.
  - apply fault_used.
  - apply orb_false_iff in Eb as [Eb Ew].
    eexists. split; [unfold bind30; cbn -[u32 page_addr_of page_index_of]; by rewrite <- xlate_sum|].
    split; [|split; [by constructor|done]].
    apply (co_add_read (mm30 s) T addr fc l (cache_state30 s)); try done. unfold readable. by rewrite Eb.
Qed.
End Use.

(** ** Translating *)
Lemma fast_lookup (q : list mmufastcache030) z : length q = 256%nat ->
  q !! Z.to_nat (z .& (MMUFASTCACHE_ENTRIES030 - 1)) = Some (q !!! Z.to_nat (z .& (MMUFASTCACHE_ENTRIES030 - 1))).
Proof.
  intros Hl. apply list_lookup_lookup_total_lt. rewrite Hl.
  change (MMUFASTCACHE_ENTRIES030 - 1) with (Z.ones 8). rewrite Z.land_ones by lia.
  pose proof (Z.mod_pos_bound z (2 ^ 8)). change (2 ^ 8) with 256 in *. lia.
Qed.

(** The result of an access that faults on [bad] results. *)
Definition accessed (addr fc : Z) (write : bool) (bad : tline -> bool) s T (o : res030 Z * st030 M) : Prop :=
  exists l T' s',
    tb_access (debugger30 s) (rg30 s) (translation (mm30 s)) addr fc write T (pm30 s) l T' (pm30 s') /\
    coherent (mm30 s') T' /\ acc_env s s' /\
    o = (if bad l then Thrown 2 else Ok (xlate (translation (mm30 s)) l addr), s').

Definition read_bad (l : tline) : bool := tl_berr l.
Definition write_bad (l : tline) : bool := tl_berr l || tl_wp l.

Lemma set_cs_env s v : acc_env s {| s with cache_state30 := v |}.
Proof. by constructor. Qed.

(** An access through the cache. *)
Lemma accessed_lookup addr fc write (bad : tline -> bool) (use : option nat -> M30 M Z) s T :
  coherent (mm30 s) T -> (write = true -> sd_type (root_descr fc (rg30 s)) <> DESCR_TYPE_PAGE) ->
  (forall i e s1 T1, coherent (mm30 s1) T1 -> atc (mm30 s1) !! i = Some e ->
     let l := line_of (page_imask (translation (mm30 s1))) e in
     T1 !! key_of (translation (mm30 s1)) addr fc = Some l -> tl_usable write l = true ->
     exists s', use (Some i) s1 = (if bad l then Thrown 2 else Ok (xlate (translation (mm30 s1)) l addr), s') /\
       used_ok s1 s' T1) ->
  accessed addr fc write bad s T (atc_lookup cpu_compatible addr fc write use s).
Proof.
  intros Hco Hroot Huse.
  destruct (atc_lookup_ok addr fc write use s T Hco Hroot) as (i & e & s1 & T1 & E & He & Hco1 & Henv & _ & HT & Hu & Hacc).
  pose proof (sc_tr _ _ (ae_cfg _ _ Henv)) as Etr. rewrite <- Etr in HT, Hu.
  destruct (Huse i e s1 T1 Hco1 He HT Hu) as (s' & E' & Hco' & Henv' & Hpm'). rewrite Etr in *.
  eexists _, T1, s'. rewrite Hpm'. split; [exact Hacc|]. split; [done|]. split; [by transitivity s1|].
  by rewrite E.
Qed.

Lemma accessed_hit addr fc write (bad : tline -> bool) s T x s' : coherent (mm30 s) T -> acc_env s s' -> mm30 s' = mm30 s ->
  pm30 s' = pm30 s -> T !! key_of (translation (mm30 s)) addr fc = Some x -> tl_usable write x = true ->
  bad x = false ->
  accessed addr fc write bad s T (Ok (xlate (translation (mm30 s)) x addr), s').
Proof.
  intros Hco Henv Em Ep HT Hu Hb. exists x, T, s'. rewrite Ep, Em, Hb.
  split; [by apply tb_hit|]. done.
Qed.

Lemma shortcut_xlate m T tr x ph addr : coherent m T -> translation m = tr -> ph = tl_phys x ->
  (exists k, T !! k = Some x) -> ph .| (addr .& page_mask tr) = xlate tr x addr.
Proof.
  intros Hco <- -> [k Hk]. unfold xlate. rewrite <- (co_phys _ _ Hco k x Hk). apply page_or.
  apply wf_tr, co_wf with (T := T). done.
Qed.

Lemma put_translate_ok addr fc size s T : coherent (mm30 s) T -> is_u32 addr -> 0 <= fc < 8 ->
  sd_type (root_descr fc (rg30 s)) <> DESCR_TYPE_PAGE ->
  through_atc fc (mmu030_match_ttr_access addr fc true s) s = true ->
  accessed addr fc true write_bad s T (put_translate cpu_compatible addr fc size s).
Proof.
  intros Hco Ha Hf Hroot Hth. unfold put_translate. unfold bind30 at 1, set_cs30 at 1, mod30 at 1.
  set (s0 := {| s with cache_state30 := CACHE_ENABLE_ALL |}).
  unfold bind30 at 1, get30 at 1.
  change (through_atc fc (mmu030_match_ttr_access addr fc true s0) s0)
    with (through_atc fc (mmu030_match_ttr_access addr fc true s) s). rewrite Hth.
  change (mm30 s0) with (mm30 s).
  set (idx1 := fast_idx (translation (mm30 s)) addr fc).
  set (c := data_write (mm30 s) !!! Z.to_nat (idx1 .& (MMUFASTCACHE_ENTRIES030 - 1))).
  destruct (Z.eqb_spec (c_log c) idx1) as [Ec|Ec].
  - pose proof (fast_lookup (data_write (mm30 s)) idx1 ltac:(by destruct Hco as [[]])) as Hl.
    destruct (co_write _ _ Hco _ _ _ _ Hl Ha Hf Ec) as (x & Hx & Hq & Hp).
    unfold writable in Hq. apply andb_prop in Hq as [Hq Hm]. apply andb_prop in Hq as [Hb Hw].
    apply negb_true_iff in Hb, Hw.
    assert (Ex : c_phys c .| page_index_of s0 addr = xlate (translation (mm30 s)) x addr)
      by (eapply (shortcut_xlate (mm30 s) T); eauto).
    unfold bind30, set_cs30, mod30, ret30. rewrite Ex.
    apply accessed_hit; try done; [unfold tl_usable; by rewrite Hm|unfold write_bad; by rewrite Hb, Hw].
  - assert (HA : accessed addr fc true write_bad s0 T
      (atc_lookup cpu_compatible addr fc true (fun l => mmu030_put_atc cpu_compatible addr l fc size) s0)).
    { apply accessed_lookup; [done|done|]. intros i e s1 T1 Hco1 He l HT Hu.
      destruct (put_atc_ok s1 T1 addr fc i e Hco1 Ha Hf He HT size Hu) as (s' & E' & U & _). by exists s'. }
    destruct HA as (l & T' & s' & H1 & H2 & H3 & H4). exists l, T', s'. split; [exact H1|]. split; [done|].
    split; [|exact H4]. by transitivity s0.
Qed.

Lemma get_translate_ok addr fc size s T : coherent (mm30 s) T -> is_u32 addr -> 0 <= fc < 8 ->
  through_atc fc (mmu030_match_ttr_access addr fc false s) s = true ->
  accessed addr fc false read_bad s T (get_translate cpu_compatible addr fc size s).
Proof.
  intros Hco Ha Hf Hth. unfold get_translate. unfold bind30 at 1, set_cs30 at 1, mod30 at 1.
  set (s0 := {| s with cache_state30 := CACHE_ENABLE_ALL |}).
  unfold bind30 at 1, get30 at 1.
  change (through_atc fc (mmu030_match_ttr_access addr fc false s0) s0)
    with (through_atc fc (mmu030_match_ttr_access addr fc false s) s). rewrite Hth.
  change (mm30 s0) with (mm30 s).
  set (idx1 := fast_idx (translation (mm30 s)) addr fc).
  set (c := data_read (mm30 s) !!! Z.to_nat (idx1 .& (MMUFASTCACHE_ENTRIES030 - 1))).
  destruct (Z.eqb_spec (c_log c) idx1) as [Ec|Ec].
  - pose proof (fast_lookup (data_read (mm30 s)) idx1 ltac:(by destruct Hco as [[]])) as Hl.
    destruct (co_read _ _ Hco _ _ _ _ Hl Ha Hf Ec) as (x & Hx & Hq & Hp).
    apply negb_true_iff in Hq.
    assert (Ex : c_phys c .| page_index_of s0 addr = xlate (translation (mm30 s)) x addr)
      by (eapply (shortcut_xlate (mm30 s) T); eauto).
    unfold bind30, set_cs30, mod30, ret30. rewrite Ex. by apply accessed_hit.
  - assert (HA : accessed addr fc false read_bad s0 T
      (atc_lookup cpu_compatible addr fc false (fun l => mmu030_get_atc cpu_compatible addr l fc size) s0)).
    { apply accessed_lookup; [done|done|]. intros i e s1 T1 Hco1 He l HT Hu.
      destruct (get_atc_ok s1 T1 addr fc i e Hco1 Ha Hf He HT size) as (s' & E' & U & _). by exists s'. }
    destruct HA as (l & T' & s' & H1 & H2 & H3 & H4). exists l, T', s'. split; [exact H1|]. split; [done|].
    split; [|exact H4]. by transitivity s0.
Qed.

(** *** The generic accessors *)
Lemma accessed_from s0 s addr fc write (bad : tline -> bool) T o :
  acc_env s s0 -> mm30 s0 = mm30 s -> pm30 s0 = pm30 s ->
  accessed addr fc write bad s0 T o -> accessed addr fc write bad s T o.
Proof.
  intros Henv Em Ep (l & T' & s' & H1 & H2 & H3 & H4). exists l, T', s'.
  rewrite Em, Ep, (ae_dbg _ _ Henv), (ae_rg _ _ Henv) in H1. rewrite Em in H4.
  split; [done|]. split; [done|]. split; [by transitivity s0|done].
Qed.

Lemma put_generic_at_ok tt addr fc flags s T : coherent (mm30 s) T -> is_u32 addr -> 0 <= fc < 8 ->
  sd_type (root_descr fc (rg30 s)) <> DESCR_TYPE_PAGE ->
  (forall v, tt {| s with cache_state30 := v |} = tt s) ->
  through_atc fc (tt s) s = true ->
  accessed addr fc true write_bad s T (put_generic_at cpu_compatible tt addr fc flags s).
Proof.
  intros Hco Ha Hf Hroot Htt Hth. unfold put_generic_at. unfold bind30 at 1, set_cs30 at 1, mod30 at 1.
  unfold bind30 at 1, get30 at 1. rewrite Htt.
  set (s0 := {| s with cache_state30 := CACHE_ENABLE_ALL |}).
  change (through_atc fc (tt s) s0) with (through_atc fc (tt s) s). rewrite Hth.
  apply (accessed_from s0); try done.
  apply accessed_lookup; [done|done|]. intros i e s1 T1 Hco1 He l HT Hu.
  by apply (put_generic_ok s1 T1 addr fc i e).
Qed.

Lemma get_generic_at_ok tt addr fc flags write s T : coherent (mm30 s) T -> is_u32 addr -> 0 <= fc < 8 ->
  (write = true -> sd_type (root_descr fc (rg30 s)) <> DESCR_TYPE_PAGE) ->
  (forall v, tt {| s with cache_state30 := v |} = tt s) ->
  through_atc fc (tt s) s = true ->
  accessed addr fc write (fun l => tl_berr l || (write && tl_wp l)) s T
    (get_generic_at cpu_compatible tt addr fc flags write s).
Proof.
  intros Hco Ha Hf Hroot Htt Hth. unfold get_generic_at. unfold bind30 at 1, set_cs30 at 1, mod30 at 1.
  unfold bind30 at 1, get30 at 1. rewrite Htt.
  set (s0 := {| s with cache_state30 := CACHE_ENABLE_ALL |}).
  change (through_atc fc (tt s) s0) with (through_atc fc (tt s) s). rewrite Hth.
  apply (accessed_from s0); try done.
  apply accessed_lookup; [done|done|]. intros i e s1 T1 Hco1 He l HT Hu.
  by apply (get_generic_ok s1 T1 addr fc i e).
Qed.

(** ** Reaching memory *)
Definition phys_get (size a : Z) (m : M) : option Z :=
  if size =? sz_byte then phys_get_byte a m else if size =? sz_word then phys_get_word a m else phys_get_long a m.
Definition phys_put (size a v : Z) (m : M) : option M :=
  if size =? sz_byte then phys_put_byte a v m else if size =? sz_word then phys_put_word a v m else phys_put_long a v m.

(** A read or write that reaches physical address [a], or faults there. *)
Definition end_get (size a : Z) : M30 M Z := cacheablecheck ce_cachable a ;;; get_phys30 cpu_compatible size a.
Definition end_put (size a v : Z) : M30 M unit := cacheablecheck ce_cachable a ;;; put_phys30 cpu_compatible size a v.

Lemma ssw_size_pos size (b : bool) : 0 <= ssw_size30 size .| (if b then MMU030_SSW_RW else 0).
Proof. unfold ssw_size30. destruct (size =? sz_byte), (size =? sz_word), b; done. Qed.

Lemma cacheable_env a s : exists s', cacheablecheck ce_cachable a s = (Ok tt, s') /\ acc_env s s' /\
  mm30 s' = mm30 s /\ pm30 s' = pm30 s.
Proof.
  unfold cacheablecheck, bind30, get30, when30. destruct (_ =? _); [|by exists s].
  eexists. split; [done|]. by split; [constructor|].
Qed.

Lemma hw_error_env {A} a v read size s : exists s',
  @mmu030_hardware_bus_error M cpu_compatible A a v read false size s = (Thrown 2, s') /\ acc_env s s' /\
  mm30 s' = mm30 s /\ pm30 s' = pm30 s.
Proof.
  unfold mmu030_hardware_bus_error. unfold bind30 at 1, get30 at 1.
  set (s0 := if read then s else {| s with fl30 := {| (fl30 s) with data_buffer_out := v |} |}).
  match goal with |- context [mmu030_page_fault _ _ _ ?fl ?fc] =>
    destruct (page_fault_throws cpu_compatible (A := A) a read fl fc s0) as (s' & E & F & _) end.
  exists s'. split.
  - unfold bind30, when30. rewrite <- E. by destruct read.
  - assert (Hs0 : acc_env s s0 /\ mm30 s0 = mm30 s /\ pm30 s0 = pm30 s) by (by destruct read; repeat split).
    destruct Hs0 as (H1 & H2 & H3). split; [by transitivity s0; [|apply fault_only_acc]|].
    by rewrite (fo_mm _ _ F), (fo_pm _ _ F).
Qed.

Lemma end_get_ok size a s : exists s',
  end_get size a s = (match phys_get size a (pm30 s) with Some v => Ok v | None => Thrown 2 end, s') /\
  acc_env s s' /\ mm30 s' = mm30 s /\ pm30 s' = pm30 s.
Proof.
  unfold end_get. destruct (cacheable_env a s) as (s1 & E1 & H1 & M1 & P1). unfold bind30 at 1. rewrite E1.
  unfold get_phys30, bind30, get30. fold (phys_get size a (pm30 s1)). rewrite P1.
  destruct (phys_get size a (pm30 s)) as [v|]; [by exists s1|].
  destruct (hw_error_env (A := Z) a 0 true size s1) as (s2 & E2 & H2 & M2 & P2).
  exists s2. split; [done|]. split; [by transitivity s1|]. by rewrite M2, P2.
Qed.

Lemma end_put_ok size a v s : exists s',
  end_put size a v s = (if phys_put size a v (pm30 s) then Ok tt else Thrown 2, s') /\
  acc_env s s' /\ mm30 s' = mm30 s /\ pm30 s' = default (pm30 s) (phys_put size a v (pm30 s)).
Proof.
  unfold end_put. destruct (cacheable_env a s) as (s1 & E1 & H1 & M1 & P1). unfold bind30 at 1. rewrite E1.
  unfold put_phys30, bind30, get30. fold (phys_put size a v (pm30 s1)). rewrite P1.
  destruct (phys_put size a v (pm30 s)) as [m|].
  - eexists. split; [done|]. split; [|done]. transitivity s1; [done|]. by constructor.
  - destruct (hw_error_env (A := M) a v false size s1) as (s2 & E2 & H2 & M2 & P2). cbn [phys30]. rewrite E2.
    exists s2. split; [done|]. split; [by transitivity s1|]. by rewrite M2, P2.
Qed.
End Acc.
