(* ===== verification/Mmu030Sim.v ===== *)
(** * Mmu030Sim: sequences of accesses, flushes and table changes

    Every operation of the 68030 MMU simulates one step of the translation
    buffer, including flushes, PLOAD, PTEST and changes of memory by others.

    Then the accessors that work in parts (unaligned, locked): whatever faults
    on the way, the caches stay coherent and no array is read outside its
    bounds. *)

From S2P Require Import Prelude Flags Cpu Movec Mmu Frames Mmu030 Mmu030Op Mmu030Spec Mmu030Walk Mmu030Tlb Mmu030Acc.
From Stdlib Require Import ZArith Lia Bool.
From stdpp Require Import base list gmap.
Open Scope Z_scope.
Open Scope cint_scope.
Open Scope m30_scope.

#[local] Opaque atc_scan mmu030_atc_handle_history_bit ATC030_NUM_ENTRIES atc_victim.

(** ** Flushing *)

(** The entries of a buffer that a test of the key keeps. *)
Definition keep (q : Z * Z -> bool) (T : tbuf) : tbuf := filter (fun kx => q kx.1 = false) T.

Lemma keep_lookup q T k : keep q T !! k = if q k then None else T !! k.
Proof.
  unfold keep. destruct (q k) eqn:E.
  - apply map_lookup_filter_None_2. right. intros x _. cbn. congruence.
  - destruct (T !! k) as [x|] eqn:Ex.
    + apply map_lookup_filter_Some_2; done.
    + by apply map_lookup_filter_None_2; left.
Qed.

Lemma atc_ok_drop tr q (f : MMU030_ATC_LINE -> bool) l T :
  (forall e, f e = q (g_addr e, g_fc e)) -> atc_ok tr l T -> atc_ok tr (atc_drop f l) (keep q T).
Proof.
  intros Hf Hl j e Hj Hv. unfold atc_drop in Hj. apply list_lookup_fmap_Some in Hj as (e0 & -> & Hj).
  destruct (f e0 && g_valid e0) eqn:Eq; [done|].
  destruct (Hl j e0 Hj Hv) as [Hg HT]. split; [done|].
  rewrite keep_lookup, <- Hf. rewrite Hv, andb_true_r in Eq. by rewrite Eq.
Qed.

Lemma keep_phys tr q T : (forall k x, T !! k = Some x -> tl_phys x .& page_imask tr = tl_phys x) ->
  forall k x, keep q T !! k = Some x -> tl_phys x .& page_imask tr = tl_phys x.
Proof. intros HT k x. rewrite keep_lookup. destruct (q k); [done|]. apply HT. Qed.

Lemma flush_cache_atc a m : atc (mmu030_flush_cache a m) = atc m /\
  translation (mmu030_flush_cache a m) = translation m /\ same_cfg m (mmu030_flush_cache a m).
Proof. unfold mmu030_flush_cache. by destruct (_ =? _). Qed.

Lemma flush_cfg a m l : same_cfg m (mmu030_flush_cache a {| m with atc := l |}).
Proof. unfold mmu030_flush_cache. by destruct (_ =? _). Qed.

(** A flush that drops the entries whose key satisfies [q], and all shortcuts. *)
Lemma flush_all_coherent m T l T' : coherent m T -> atc_ok (translation m) l T' ->
  length l = length (atc m) -> (forall k x, T' !! k = Some x -> tl_phys x .& page_imask (translation m) = tl_phys x) ->
  coherent (mmu030_flush_cache 0xffffffff {| m with atc := l |}) T'.
Proof.
  intros [Hwf Hph Ha Hr Hw Hi] Hl Hlen HT. set (m1 := {| m with atc := l |}).
  assert (Hwf1 : tlb_wf m1) by (destruct Hwf; constructor; try done; cbn; by rewrite Hlen).
  destruct (flush_all_cache m1 T' Hwf1) as (H1 & H2 & H3 & H4).
  destruct (flush_cache_atc 0xffffffff m1) as (E1 & E2 & _).
  constructor; rewrite ?E1, ?E2; done.
Qed.

(** A flush of one page. *)
Lemma flush_page_coherent m T l T' p : coherent m T -> atc_ok (translation m) l T' ->
  length l = length (atc m) -> (forall k x, T' !! k = Some x -> tl_phys x .& page_imask (translation m) = tl_phys x) ->
  same_off (p .& page_imask (translation m)) T T' ->
  coherent (mmu030_flush_cache (p .& page_imask (translation m)) {| m with atc := l |}) T'.
Proof.
  intros [Hwf Hph Ha Hr Hw Hi] Hl Hlen HT Hoff. set (m1 := {| m with atc := l |}).
  assert (Hwf1 : tlb_wf m1) by (destruct Hwf; constructor; try done; cbn; by rewrite Hlen).
  destruct (flush_page_cache m1 T T' p Hwf1 Hr Hw Hoff) as (H1 & H2 & H3 & H4).
  destruct (flush_cache_atc (p .& page_imask (translation m)) m1) as (E1 & E2 & _).
  constructor; rewrite ?E1, ?E2; done.
Qed.

Lemma length_drop_atc f l : length (atc_drop f l) = length l.
Proof. apply length_fmap. Qed.

Lemma flush_atc_all_ok m T : coherent m T -> coherent (mmu030_flush_atc_all m) ∅.
Proof.
  intros Hco. apply (flush_all_coherent m T); [done| |by rewrite length_fmap|].
  - intros j e Hj Hv. apply list_lookup_fmap_Some in Hj as (e0 & -> & _). done.
  - intros k x. by rewrite lookup_empty.
Qed.

Definition fc_hit (fcb fcm : Z) (k : Z * Z) : bool := fcb .& fcm =? k.2 .& fcm.
Definition page_hit (p : Z) (k : Z * Z) : bool := k.1 =? p.

Lemma flush_atc_fc_ok m T fcb fcm : coherent m T ->
  coherent (mmu030_flush_atc_fc fcb fcm m) (keep (fc_hit fcb fcm) T).
Proof.
  intros Hco. apply (flush_all_coherent m T); [done| |by rewrite length_drop_atc|].
  - apply atc_ok_drop; [done|apply Hco].
  - apply keep_phys, Hco.
Qed.

Lemma same_off_keep q p T : (forall a fc, q (a, fc) = true -> a = p) -> same_off p T (keep q T).
Proof.
  intros Hq a fc Hne. rewrite keep_lookup. destruct (q (a, fc)) eqn:E; [|done]. by apply Hq in E.
Qed.

Lemma flush_atc_page_ok m T a : coherent m T ->
  coherent (mmu030_flush_atc_page a m) (keep (page_hit (a .& page_imask (translation m))) T).
Proof.
  intros Hco. apply (flush_page_coherent m T); [done| |by rewrite length_drop_atc| |].
  - apply atc_ok_drop; [done|apply Hco].
  - apply keep_phys, Hco.
  - apply same_off_keep. intros x fc. apply Z.eqb_eq.
Qed.

Lemma flush_atc_page_fc_ok m T a fcb fcm : coherent m T ->
  coherent (mmu030_flush_atc_page_fc a fcb fcm m)
    (keep (fun k => fc_hit fcb fcm k && page_hit (a .& page_imask (translation m)) k) T).
Proof.
  intros Hco. apply (flush_page_coherent m T); [done| |by rewrite length_drop_atc| |].
  - apply atc_ok_drop; [done|apply Hco].
  - apply keep_phys, Hco.
  - apply same_off_keep. intros x fc. intros E. apply andb_prop in E as [_ E]. by apply Z.eqb_eq in E.
Qed.

Lemma coherent_status m T v : coherent m T -> coherent {| m with status := v |} T.
Proof. intros [[] ? ? ? ? ?]. by constructor. Qed.

(** ** Operations and what they answer *)
Inductive mop (M : Type) :=
| MGet (size addr fc : Z)                 (* [mmu030_get_byte] and the like *)
| MPut (size addr v fc : Z)
| MFetch (size addr fc : Z)               (* [mmu030_get_iword], [mmu030_get_ilong] *)
| MFlushAll | MFlushFc (fcb fcm : Z) | MFlushPage (addr fcb fcm : Z)   (* PFLUSHA, PFLUSH *)
| MPload (addr fc : Z) (write : bool)
| MPtest (addr fc : Z) (write : bool) (level : Z)
| MOther (m : M).                         (* something else changes memory *)
Arguments MGet {M}. Arguments MPut {M}. Arguments MFetch {M}. Arguments MFlushAll {M}. Arguments MFlushFc {M}.
Arguments MFlushPage {M}. Arguments MPload {M}. Arguments MPtest {M}. Arguments MOther {M}.

(** A value, completion, an MMU status, or a fault. *)
Inductive mout := OVal (v : Z) | ODone | OStatus (v : Z) | OFault.

Section Sim.
Context {M : Type} `{Phys M} (cpu_compatible : bool) (ce_cachable : Z -> Z).
Implicit Types (s : st030 M) (T : tbuf).

Definition get_size (size addr fc : Z) : M30 M Z :=
  if size =? sz_byte then mmu030_get_byte cpu_compatible ce_cachable addr fc
  else if size =? sz_word then mmu030_get_word cpu_compatible ce_cachable addr fc
  else mmu030_get_long cpu_compatible ce_cachable addr fc.
Definition put_size (size addr v fc : Z) : M30 M unit :=
  if size =? sz_byte then mmu030_put_byte cpu_compatible ce_cachable addr v fc
  else if size =? sz_word then mmu030_put_word cpu_compatible ce_cachable addr v fc
  else mmu030_put_long cpu_compatible ce_cachable addr v fc.
Definition fetch_size (size addr fc : Z) : M30 M Z :=
  if size =? sz_word then mmu030_get_iword cpu_compatible ce_cachable addr fc
  else mmu030_get_ilong cpu_compatible ce_cachable addr fc.

Definition answer {A} (f : A -> mout) (m : M30 M A) (s : st030 M) : option mout * st030 M :=
  match m s with
  | (Ok a, s') => (Some (f a), s') | (Thrown _, s') => (Some OFault, s') | (Undefined, s') => (None, s')
  end.

(** The code's operation; [None] is undefined behaviour. *)
Definition run_op (o : mop M) (s : st030 M) : option mout * st030 M :=
  match o with
  | MGet size addr fc => answer OVal (get_size size addr fc) s
  | MPut size addr v fc => answer (fun _ => ODone) (put_size size addr v fc) s
  | MFetch size addr fc => answer OVal (fetch_size size addr fc) s
  | MFlushAll => answer (fun _ => ODone) (set_mm30 mmu030_flush_atc_all) s
  | MFlushFc fcb fcm => answer (fun _ => ODone) (set_mm30 (mmu030_flush_atc_fc fcb fcm)) s
  | MFlushPage addr fcb fcm => answer (fun _ => ODone) (set_mm30 (mmu030_flush_atc_page_fc addr fcb fcm)) s
  | MPload addr fc write =>
      answer (fun _ => ODone)
        (set_mm30 (mmu030_flush_atc_page addr) ;;; mmu030_table_search cpu_compatible addr fc write 0) s
  | MPtest addr fc write level =>
      answer OStatus
        (let! _ := mmu030_table_search cpu_compatible addr fc write level in
         let! s := get30 in ret30 (status (mm30 s))) s
  | MOther m => (Some ODone, {| s with pm30 := m |})
  end.

(** The configuration an abstract step depends on. *)
Record cfg := mk_cfg { cf_dbg : bool; cf_rg : mregs030; cf_tr : translation030;
                       cf_through : Z -> Z -> bool -> bool }.
Definition cfg_of s : cfg :=
  mk_cfg (debugger30 s) (rg30 s) (translation (mm30 s))
    (fun addr fc write => through_atc fc (mmu030_match_ttr_access addr fc write s) s).

Abbreviation abs_access c := (tb_access (M := M) (cf_dbg c) (cf_rg c) (cf_tr c)).

Definition fetch_get (size a : Z) (m : M) : option Z := if size =? sz_word then phys_get_word a m else phys_get_long a m.

(** One step of the buffer and the memory.  A fetch from the page of the last
    fetch uses the result held for it before transparent translation is
    considered. *)
Inductive tb_step (c : cfg) : mop M -> tbuf * M -> mout -> tbuf * M -> Prop :=
| ts_get_direct size addr fc T m :
    cf_through c addr fc false = false ->
    tb_step c (MGet size addr fc) (T, m) (if phys_get size addr m is Some v then OVal v else OFault) (T, m)
| ts_get size addr fc T m l T' m' :
    cf_through c addr fc false = true ->
    abs_access c addr fc false T m l T' m' ->
    tb_step c (MGet size addr fc) (T, m)
      (if tl_berr l then OFault
       else if phys_get size (xlate (cf_tr c) l addr) m' is Some v then OVal v else OFault) (T', m')
| ts_put_direct size addr v fc T m :
    cf_through c addr fc true = false ->
    tb_step c (MPut size addr v fc) (T, m)
      (if phys_put size addr v m is Some _ then ODone else OFault) (T, default m (phys_put size addr v m))
| ts_put_fault size addr v fc T m l T' m' :
    cf_through c addr fc true = true ->
    abs_access c addr fc true T m l T' m' -> tl_berr l || tl_wp l = true ->
    tb_step c (MPut size addr v fc) (T, m) OFault (T', m')
| ts_put size addr v fc T m l T' m' :
    cf_through c addr fc true = true ->
    abs_access c addr fc true T m l T' m' -> tl_berr l = false -> tl_wp l = false -> tl_mod l = true ->
    let r := phys_put size (xlate (cf_tr c) l addr) v m' in
    tb_step c (MPut size addr v fc) (T, m) (if r is Some _ then ODone else OFault) (T', default m' r)
| ts_fetch_direct size addr fc T m :
    cf_through c addr fc false = false ->
    tb_step c (MFetch size addr fc) (T, m) (if fetch_get size addr m is Some v then OVal v else OFault) (T, m)
| ts_fetch_held size addr fc T m l :
    T !! key_of (cf_tr c) addr fc = Some l -> tl_berr l = false ->
    tb_step c (MFetch size addr fc) (T, m)
      (if fetch_get size (xlate (cf_tr c) l addr) m is Some v then OVal v else OFault) (T, m)
| ts_fetch size addr fc T m l T' m' :
    cf_through c addr fc false = true ->
    abs_access c addr fc false T m l T' m' ->
    tb_step c (MFetch size addr fc) (T, m)
      (if tl_berr l then OFault
       else if fetch_get size (xlate (cf_tr c) l addr) m' is Some v then OVal v else OFault) (T', m')
| ts_flush_all T m : tb_step c MFlushAll (T, m) ODone (∅, m)
| ts_flush_fc fcb fcm T m : tb_step c (MFlushFc fcb fcm) (T, m) ODone (keep (fc_hit fcb fcm) T, m)
| ts_flush_page addr fcb fcm T m :
    tb_step c (MFlushPage addr fcb fcm) (T, m) ODone
      (keep (fun k => fc_hit fcb fcm k && page_hit (addr .& page_imask (cf_tr c)) k) T, m)
| ts_pload addr fc write T m r m' :
    ssearch addr fc write 0 (cf_dbg c) (cf_rg c) (cf_tr c) m = (r, m') ->
    tb_step c (MPload addr fc write) (T, m) ODone
      (<[key_of (cf_tr c) addr fc := result_line (page_imask (cf_tr c)) r]>
         (keep (page_hit (addr .& page_imask (cf_tr c))) T), m')
| ts_ptest addr fc write level T m r m' :
    ssearch addr fc write level (cf_dbg c) (cf_rg c) (cf_tr c) m = (r, m') ->
    tb_step c (MPtest addr fc write level) (T, m)
      (OStatus ((sr_status r .& Z.lnot MMUSR_NUM_LEVELS_MASK) .| r_num r)) (T, m')
| ts_other m' T m : tb_step c (MOther m') (T, m) ODone (T, m').

(** Operands are 32-bit addresses and 3-bit function codes; PTEST has a level;
    and a write does not meet a root pointer that is a page descriptor. *)
Definition op_ok (s : st030 M) (o : mop M) : Prop :=
  match o with
  | MGet _ addr fc | MFetch _ addr fc => is_u32 addr /\ 0 <= fc < 8
  | MPut _ addr _ fc => is_u32 addr /\ 0 <= fc < 8 /\ sd_type (root_descr fc (rg30 s)) <> DESCR_TYPE_PAGE
  | MPtest _ _ _ level => level <> 0
  | _ => True
  end.

(** ** Each operation *)
Lemma get_direct addr fc ss s : through_atc fc (mmu030_match_ttr_access addr fc false s) s = false ->
  get_translate cpu_compatible addr fc ss s = (Ok addr, {| s with cache_state30 := CACHE_ENABLE_ALL |}).
Proof.
  intros Hth. unfold get_translate, bind30, set_cs30, mod30, get30.
  set (s0 := {| s with cache_state30 := CACHE_ENABLE_ALL |}).
  change (through_atc fc (mmu030_match_ttr_access addr fc false s0) s0)
    with (through_atc fc (mmu030_match_ttr_access addr fc false s) s). by rewrite Hth.
Qed.
Lemma put_direct addr fc ss s : through_atc fc (mmu030_match_ttr_access addr fc true s) s = false ->
  put_translate cpu_compatible addr fc ss s = (Ok addr, {| s with cache_state30 := CACHE_ENABLE_ALL |}).
Proof.
  intros Hth. unfold put_translate, bind30, set_cs30, mod30, get30.
  set (s0 := {| s with cache_state30 := CACHE_ENABLE_ALL |}).
  change (through_atc fc (mmu030_match_ttr_access addr fc true s0) s0)
    with (through_atc fc (mmu030_match_ttr_access addr fc true s) s). by rewrite Hth.
Qed.

Lemma access_usable dbg rg tr addr fc T (m : M) l T' m' :
  tb_access dbg rg tr addr fc true T m l T' m' -> sd_type (root_descr fc rg) <> DESCR_TYPE_PAGE ->
  tl_usable true l = true.
Proof.
  intros [T0 m0 l0 Hk Hu|T0 m0 r m1 Es l0] Hroot; [done|].
  pose proof (ssearch_usable addr fc dbg rg tr m0 Hroot) as Hu. by rewrite Es in Hu.
Qed.

Definition simulates s T (o : mop M) (r : option mout * st030 M) : Prop :=
  exists out s' T', r = (Some out, s') /\ tb_step (cfg_of s) o (T, pm30 s) out (T', pm30 s') /\
    coherent (mm30 s') T' /\ acc_env s s'.

Lemma get_simulates size size' addr fc ss s T : coherent (mm30 s) T -> is_u32 addr -> 0 <= fc < 8 ->
  (forall a m, phys_get (M := M) size' a m = phys_get size a m) ->
  simulates s T (MGet size addr fc)
    (answer OVal (let! a := get_translate cpu_compatible addr fc ss in end_get cpu_compatible ce_cachable size' a) s).
Proof.
  intros Hco Ha Hf Hsz. unfold answer, bind30.
  destruct (through_atc fc (mmu030_match_ttr_access addr fc false s) s) eqn:Hth.
  - destruct (get_translate_ok cpu_compatible addr fc ss s T Hco Ha Hf Hth) as (l & T' & s1 & Hacc & Hco1 & Henv & E).
    rewrite E. unfold read_bad in *.
    pose proof (ts_get (cfg_of s) size addr fc T (pm30 s) l T' (pm30 s1) Hth Hacc) as Hst.
    destruct (tl_berr l) eqn:Eb; [by exists OFault, s1, T'|]. cbn [cf_tr cfg_of] in Hst.
    destruct (end_get_ok cpu_compatible ce_cachable size' (xlate (translation (mm30 s)) l addr) s1)
      as (s2 & E2 & H2 & M2 & P2). rewrite E2, Hsz.
    destruct (phys_get size _ (pm30 s1)) as [v|]; eexists _, s2, T'; rewrite P2, M2;
      (split; [done|]; split; [exact Hst|]; split; [done|by transitivity s1]).
  - rewrite (get_direct _ _ _ _ Hth).
    pose proof (ts_get_direct (cfg_of s) size addr fc T (pm30 s) Hth) as Hst.
    set (s1 := {| s with cache_state30 := CACHE_ENABLE_ALL |}).
    destruct (end_get_ok cpu_compatible ce_cachable size' addr s1) as (s2 & E2 & H2 & M2 & P2).
    rewrite E2, Hsz. change (pm30 s1) with (pm30 s) in *.
    destruct (phys_get size addr (pm30 s)) as [v|]; eexists _, s2, T; rewrite P2, M2;
      (split; [done|]; split; [exact Hst|]; split; [done|by transitivity s1; [apply set_cs_env|]]).
Qed.

Lemma put_simulates size size' addr v fc ss s T : coherent (mm30 s) T -> is_u32 addr -> 0 <= fc < 8 ->
  sd_type (root_descr fc (rg30 s)) <> DESCR_TYPE_PAGE ->
  (forall a m, phys_put (M := M) size' a v m = phys_put size a v m) ->
  simulates s T (MPut size addr v fc)
    (answer (fun _ => ODone)
       (let! a := put_translate cpu_compatible addr fc ss in end_put cpu_compatible ce_cachable size' a v) s).
Proof.
  intros Hco Ha Hf Hroot Hsz. unfold answer, bind30.
  destruct (through_atc fc (mmu030_match_ttr_access addr fc true s) s) eqn:Hth.
  - destruct (put_translate_ok cpu_compatible addr fc ss s T Hco Ha Hf Hroot Hth)
      as (l & T' & s1 & Hacc & Hco1 & Henv & E). rewrite E.
    destruct (write_bad l) eqn:Eb.
    + exists OFault, s1, T'. split; [done|]. split; [|done]. by eapply ts_put_fault.
    + apply orb_false_iff in Eb as [Eb Ew].
      assert (Em : tl_mod l = true).
      { pose proof (access_usable _ _ _ _ _ _ _ _ _ _ Hacc Hroot) as Hu.
        unfold tl_usable in Hu. rewrite Eb, Ew in Hu. by rewrite !orb_false_r in Hu. }
      pose proof (ts_put (cfg_of s) size addr v fc T (pm30 s) l T' (pm30 s1) Hth Hacc Eb Ew Em) as Hst.
      cbn [cf_tr cfg_of] in Hst. cbn zeta in Hst.
      destruct (end_put_ok cpu_compatible ce_cachable size' (xlate (translation (mm30 s)) l addr) v s1)
        as (s2 & E2 & H2 & M2 & P2). rewrite E2, Hsz. rewrite Hsz in P2.
      destruct (phys_put size _ v (pm30 s1)) as [m|]; eexists _, s2, T'; rewrite P2, M2;
        (split; [done|]; split; [exact Hst|]; split; [done|by transitivity s1]).
  - rewrite (put_direct _ _ _ _ Hth).
    pose proof (ts_put_direct (cfg_of s) size addr v fc T (pm30 s) Hth) as Hst.
    set (s1 := {| s with cache_state30 := CACHE_ENABLE_ALL |}).
    destruct (end_put_ok cpu_compatible ce_cachable size' addr v s1) as (s2 & E2 & H2 & M2 & P2).
    rewrite E2, Hsz. rewrite Hsz in P2. change (pm30 s1) with (pm30 s) in *.
    destruct (phys_put size addr v (pm30 s)) as [m|]; eexists _, s2, T; rewrite P2, M2;
      (split; [done|]; split; [exact Hst|]; split; [done|by transitivity s1; [apply set_cs_env|]]).
Qed.

Lemma end_get_phys size a s : exists s',
  get_phys30 cpu_compatible size a s = (match phys_get size a (pm30 s) with Some v => Ok v | None => Thrown 2 end, s') /\
  acc_env s s' /\ mm30 s' = mm30 s /\ pm30 s' = pm30 s.
Proof.
  unfold get_phys30, bind30, get30. fold (phys_get size a (pm30 s)).
  destruct (phys_get size a (pm30 s)) as [v|]; [by exists s|].
  apply (hw_error_env cpu_compatible (A := Z) a 0 true size s).
Qed.

Lemma fetch_simulates size size' addr fc ss s T : coherent (mm30 s) T -> is_u32 addr -> 0 <= fc < 8 ->
  (forall a m, phys_get (M := M) size' a m = fetch_get size a m) ->
  simulates s T (MFetch size addr fc)
    (answer OVal (get_itranslate cpu_compatible ce_cachable addr fc ss size') s).
Proof.
  intros Hco Ha Hf Hsz. unfold answer, get_itranslate. unfold bind30 at 1, get30 at 1.
  destruct (Z.eqb_spec ((addr .& page_imask (translation (mm30 s))) .| fc) (last_logical_address (mm30 s))) as [E|E].
  - destruct (co_ins _ _ Hco addr fc Hf E) as (l & Hl & Hb & Hp & _).
    set (s0 := {| s with cache_state30 := ins_cache_state (mm30 s) |}).
    unfold bind30 at 1, set_cs30 at 1, mod30 at 1. fold s0.
    assert (Ex : u32 (last_physical_address (mm30 s) + page_index_of s addr) = xlate (translation (mm30 s)) l addr).
    { rewrite Hp. unfold xlate. apply u32_small. rewrite <- (co_phys _ _ Hco _ _ Hl).
      apply page_sum_u32. apply wf_tr, co_wf with (T := T). done. }
    rewrite Ex. destruct (end_get_phys size' (xlate (translation (mm30 s)) l addr) s0) as (s2 & E2 & H2 & M2 & P2).
    rewrite E2, Hsz. change (pm30 s0) with (pm30 s) in *.
    pose proof (ts_fetch_held (cfg_of s) size addr fc T (pm30 s) l Hl Hb) as Hst. cbn [cf_tr cfg_of] in Hst.
    destruct (fetch_get size _ (pm30 s)) as [v|]; eexists _, s2, T; rewrite P2, M2;
      (split; [done|]; split; [exact Hst|]; split; [done|by transitivity s0; [apply set_cs_env|]]).
  - set (s0 := {| s with mm30 := {| (mm30 s) with last_logical_address := 0xffffffff |};
                         cache_state30 := CACHE_ENABLE_ALL |}).
    unfold bind30 at 1, set_mm30 at 1, mod30 at 1. unfold bind30 at 1, set_cs30 at 1, mod30 at 1.
    unfold bind30 at 1, get30 at 1. cbn [mm30 cpu30 pci30 rg30 fl30 cache_state30 debugger30 pm30]. fold s0.
    assert (Hco0 : coherent (mm30 s0) T) by (by apply co_ins_none).
    assert (Henv0 : acc_env s s0) by (by constructor).
    change (through_atc fc (mmu030_match_ttr_access addr fc false s0) s0) with (cf_through (cfg_of s) addr fc false).
    destruct (cf_through (cfg_of s) addr fc false) eqn:Hth.
    + assert (HA : accessed addr fc false read_bad s0 T
        (atc_lookup cpu_compatible addr fc false (fun l => mmu030_get_i_atc cpu_compatible addr l fc ss) s0)).
      { apply accessed_lookup; [done|done|]. intros i e s1 T1 Hco1 He l HT Hu.
        by apply (get_i_atc_ok cpu_compatible s1 T1 addr fc i e). }
      destruct HA as (l & T' & s1 & Hacc & Hco1 & Henv & E1). unfold bind30 at 1. rewrite E1. unfold read_bad in *.
      pose proof (ts_fetch (cfg_of s) size addr fc T (pm30 s) l T' (pm30 s1) Hth Hacc) as Hst.
      destruct (tl_berr l) eqn:Eb; [exists OFault, s1, T'; split; [done|]; split; [done|]; split; [done|by transitivity s0]|].
      cbn [cf_tr cfg_of] in Hst. change (translation (mm30 s0)) with (translation (mm30 s)).
      destruct (end_get_ok cpu_compatible ce_cachable size' (xlate (translation (mm30 s)) l addr) s1)
        as (s2 & E2 & H2 & M2 & P2). unfold end_get in E2. rewrite E2, Hsz.
      destruct (fetch_get size _ (pm30 s1)) as [v|]; eexists _, s2, T'; rewrite P2, M2;
        (split; [done|]; split; [exact Hst|]; split; [done|by transitivity s0; [|transitivity s1]]).
    + unfold bind30 at 1, ret30 at 1.
      pose proof (ts_fetch_direct (cfg_of s) size addr fc T (pm30 s) Hth) as Hst.
      destruct (end_get_ok cpu_compatible ce_cachable size' addr s0) as (s2 & E2 & H2 & M2 & P2).
      unfold end_get in E2. rewrite E2, Hsz. change (pm30 s0) with (pm30 s) in *.
      destruct (fetch_get size addr (pm30 s)) as [v|]; eexists _, s2, T; rewrite P2, M2;
        (split; [done|]; split; [exact Hst|]; split; [done|by transitivity s0]).
Qed.

Lemma mm_simulates s T o T' f : coherent (f (mm30 s)) T' -> same_cfg (mm30 s) (f (mm30 s)) ->
  tb_step (cfg_of s) o (T, pm30 s) ODone (T', pm30 s) ->
  simulates s T o (answer (fun _ => ODone) (set_mm30 f) s).
Proof.
  intros Hco Hcfg Hst. exists ODone, {| s with mm30 := f (mm30 s) |}, T'. split; [done|].
  split; [done|]. split; [done|]. by constructor.
Qed.

Lemma pload_simulates s T addr fc write : coherent (mm30 s) T ->
  simulates s T (MPload addr fc write) (run_op (MPload addr fc write) s).
Proof.
  intros Hco. cbn [run_op]. unfold answer, bind30, set_mm30, mod30.
  pose proof (flush_atc_page_ok _ _ addr Hco) as Hco1.
  set (m1 := mmu030_flush_atc_page addr (mm30 s)) in *. set (s1 := {| s with mm30 := m1 |}).
  assert (Hcfg1 : same_cfg (mm30 s) m1) by (apply flush_cfg).
  pose proof (sc_tr _ _ Hcfg1) as Etr.
  assert (Hsh : tr_shape (translation (mm30 s1))) by (cbn; eapply tr_tables, wf_tr, co_wf; done).
  pose proof (table_search_ok cpu_compatible addr fc write 0 s1 Hsh) as Hts.
  change (debugger30 s1) with (debugger30 s) in Hts. change (rg30 s1) with (rg30 s) in Hts.
  change (pm30 s1) with (pm30 s) in Hts. change (mm30 s1) with m1 in Hts. rewrite Etr in Hts.
  destruct (ssearch addr fc write 0 (debugger30 s) (rg30 s) (translation (mm30 s)) (pm30 s)) as [r m'] eqn:Es.
  destruct Hts as (s2 & -> & Hpm2 & Hrg2 & Hd2 & Hp2 & Hc2 & Hs2 & _ & Hm2). cbn [Z.eqb] in Hm2.
  destruct (made_coherent m1 _ addr fc r Hco1) as (Hco2 & Hcfg2 & _).
  { intros j e Hj Hv Ek. destruct (co_atc _ _ Hco1 j e Hj Hv) as [_ HT]. rewrite Ek, keep_lookup, Etr in HT.
    unfold page_hit, key_of in HT. cbn in HT. by rewrite Z.eqb_refl in HT. }
  rewrite <- Hm2, Etr in *. eexists ODone, s2, _. split; [done|].
  split; [rewrite Hpm2; by apply (ts_pload (cfg_of s))|]. split; [done|].
  constructor; try done. by transitivity m1.
Qed.

Lemma ptest_simulates s T addr fc write level : coherent (mm30 s) T -> level <> 0 ->
  simulates s T (MPtest addr fc write level) (run_op (MPtest addr fc write level) s).
Proof.
  intros Hco Hl. cbn [run_op]. unfold answer, bind30, get30, ret30.
  assert (Hsh : tr_shape (translation (mm30 s))) by (eapply tr_tables, wf_tr, co_wf; done).
  pose proof (table_search_ok cpu_compatible addr fc write level s Hsh) as Hts.
  destruct (ssearch addr fc write level (debugger30 s) (rg30 s) (translation (mm30 s)) (pm30 s)) as [r m'] eqn:Es.
  destruct Hts as (s2 & -> & Hpm2 & Hrg2 & Hd2 & Hp2 & Hc2 & Hs2 & _ & Hm2).
  rewrite (proj2 (Z.eqb_neq _ _) Hl) in Hm2.
  eexists _, s2, T. split; [done|]. rewrite Hm2. cbn [status]. split; [|split].
  - rewrite Hpm2. by apply (ts_ptest (cfg_of s)).
  - by apply coherent_status.
  - constructor; try done. rewrite Hm2. by constructor.
Qed.

Lemma op_simulates s T o : coherent (mm30 s) T -> op_ok s o -> simulates s T o (run_op o s).
Proof.
  intros Hco Hok. destruct o as [size addr fc|size addr v fc|size addr fc| |fcb fcm|addr fcb fcm|addr fc write|addr fc write level|m];
    cbn [op_ok] in Hok.
  - destruct Hok as [Ha Hf]. cbn [run_op]. unfold get_size.
    destruct (size =? sz_byte) eqn:E1; [|destruct (size =? sz_word) eqn:E2];
      apply get_simulates; try done; intros a m; unfold phys_get; by rewrite ?E1, ?E2.
  - destruct Hok as (Ha & Hf & Hroot). cbn [run_op]. unfold put_size.
    destruct (size =? sz_byte) eqn:E1; [|destruct (size =? sz_word) eqn:E2];
      apply put_simulates; try done; intros a m; unfold phys_put; by rewrite ?E1, ?E2.
  - destruct Hok as [Ha Hf]. cbn [run_op]. unfold fetch_size.
    destruct (size =? sz_word) eqn:E1; apply fetch_simulates; try done;
      intros a m; unfold phys_get, fetch_get; by rewrite E1.
  - eapply mm_simulates; [by eapply flush_atc_all_ok| |apply ts_flush_all].
    apply flush_cfg.
  - eapply mm_simulates; [by eapply flush_atc_fc_ok| |apply ts_flush_fc].
    apply flush_cfg.
  - eapply mm_simulates; [by eapply flush_atc_page_fc_ok| |apply (ts_flush_page (cfg_of s))].
    apply flush_cfg.
  - by apply pload_simulates.
  - by apply ptest_simulates.
  - exists ODone, {| s with pm30 := m |}, T. split; [done|]. split; [apply ts_other|]. split; [done|]. by constructor.
Qed.
End Sim.

(** * Accesses in parts *)
Create HintDb m30.

Section Keeps.
Context {M : Type} `{Phys M} (cpu_compatible : bool) (ce_cachable : Z -> Z).
Implicit Types (s : st030 M) (T : tbuf).

(** Root pointers that are not page descriptors. *)
Definition roots_ok (r : mregs030) : Prop := forall fc, sd_type (root_descr fc r) <> DESCR_TYPE_PAGE.

(** A computation that ends, with a value or a fault, in a coherent state. *)
Definition keeps {A} (m : M30 M A) : Prop := forall s T,
  coherent (mm30 s) T -> roots_ok (rg30 s) ->
  match m s with
  | (Undefined, _) => False
  | (_, s') => acc_env s s' /\ exists T', coherent (mm30 s') T'
  end.

Lemma keeps_bind {A B} (m : M30 M A) (k : A -> M30 M B) : keeps m -> (forall a, keeps (k a)) -> keeps (bind30 m k).
Proof.
  intros Hm Hk s T Hco Hr. specialize (Hm s T Hco Hr). unfold bind30.
  destruct (m s) as [[a|e|] s1]; [|done|done]. destruct Hm as [He [T1 Hco1]].
  specialize (Hk a s1 T1 Hco1 ltac:(by rewrite (ae_rg _ _ He))).
  destruct (k a s1) as [[] s2]; [| |done]; destruct Hk as [He2 Hco2]; (split; [by transitivity s1|done]).
Qed.
Lemma keeps_ret {A} (a : A) : keeps (ret30 a).
Proof. intros s T Hco _. split; [done|by exists T]. Qed.
Lemma keeps_fl f : keeps (set_fl30 f).
Proof. intros s T Hco _. split; [by constructor|by exists T]. Qed.
Lemma keeps_buffer : keeps buffer30.
Proof. intros s T Hco _. split; [done|by exists T]. Qed.
Lemma keeps_cs v : keeps (set_cs30 v).
Proof. intros s T Hco _. split; [by constructor|by exists T]. Qed.
Lemma keeps_get {B} (k : st030 M -> M30 M B) : (forall s, keeps (k s)) -> keeps (bind30 get30 k).
Proof. intros Hk s T Hco Hr. exact (Hk s s T Hco Hr). Qed.
Lemma keeps_state f : keeps (set_state1 f).
Proof. apply keeps_fl. Qed.
Lemma keeps_set_buffer f : keeps (set_buffer f).
Proof. apply keeps_fl. Qed.

Lemma keeps_accessed addr fc write bad s T o : accessed addr fc write bad s T o ->
  match o with (Undefined, _) => False | (_, s') => acc_env s s' /\ exists T', coherent (mm30 s') T' end.
Proof. intros (l & T' & s' & _ & Hco & He & ->). destruct (bad l); (split; [done|by exists T']). Qed.

Lemma keeps_end_get size a : keeps (end_get cpu_compatible ce_cachable size a).
Proof.
  intros s T Hco _. destruct (end_get_ok cpu_compatible ce_cachable size a s) as (s' & -> & He & Em & _).
  destruct (phys_get _ _ _); (split; [done|exists T; by rewrite Em]).
Qed.
Lemma keeps_end_put size a v : keeps (end_put cpu_compatible ce_cachable size a v).
Proof.
  intros s T Hco _. destruct (end_put_ok cpu_compatible ce_cachable size a v s) as (s' & -> & He & Em & _).
  destruct (phys_put _ _ _ _); (split; [done|exists T; by rewrite Em]).
Qed.

Section At.
Variables (addr fc : Z).
Hypothesis Ha : is_u32 addr.
Hypothesis Hf : 0 <= fc < 8.

Lemma keeps_get_at tt flags write : (forall s v, tt {| s with cache_state30 := v |} = tt s) ->
  keeps (get_generic_at (M := M) cpu_compatible tt addr fc flags write).
Proof.
  intros Htt s T Hco Hr. destruct (through_atc fc (tt s) s) eqn:Hth.
  - eapply keeps_accessed. apply (get_generic_at_ok cpu_compatible tt addr fc flags write s T); try done.
  - unfold get_generic_at, bind30, set_cs30, mod30, get30. rewrite Htt.
    set (s0 := {| s with cache_state30 := CACHE_ENABLE_ALL |}).
    change (through_atc fc (tt s) s0) with (through_atc fc (tt s) s). rewrite Hth.
    split; [by constructor|by exists T].
Qed.
Lemma keeps_put_at tt flags : (forall s v, tt {| s with cache_state30 := v |} = tt s) ->
  keeps (put_generic_at (M := M) cpu_compatible tt addr fc flags).
Proof.
  intros Htt s T Hco Hr. destruct (through_atc fc (tt s) s) eqn:Hth.
  - eapply keeps_accessed. by apply (put_generic_at_ok cpu_compatible tt addr fc flags s T).
  - unfold put_generic_at, bind30, set_cs30, mod30, get30. rewrite Htt.
    set (s0 := {| s with cache_state30 := CACHE_ENABLE_ALL |}).
    change (through_atc fc (tt s) s0) with (through_atc fc (tt s) s). rewrite Hth.
    split; [by constructor|by exists T].
Qed.

Lemma keeps_get_generic size flags : keeps (mmu030_get_generic cpu_compatible ce_cachable addr fc size flags).
Proof.
  unfold mmu030_get_generic, mmu030_get_generic_lrmw.
  destruct (truth _); (apply keeps_bind; [by apply keeps_get_at|intros a; apply keeps_end_get]).
Qed.
Lemma keeps_put_generic v size flags : keeps (mmu030_put_generic cpu_compatible ce_cachable addr v fc size flags).
Proof.
  unfold mmu030_put_generic, mmu030_put_generic_lrmw.
  destruct (truth _); (apply keeps_bind; [by apply keeps_put_at|intros a; apply keeps_end_put]).
Qed.
End At.

Lemma keeps_translate_get addr fc ss size : is_u32 addr -> 0 <= fc < 8 ->
  keeps (let! a := get_translate cpu_compatible addr fc ss in end_get cpu_compatible ce_cachable size a).
Proof.
  intros Ha Hf. apply keeps_bind; [|intros; apply keeps_end_get]. intros s T Hco Hr.
  destruct (through_atc fc (mmu030_match_ttr_access addr fc false s) s) eqn:Hth.
  - eapply keeps_accessed. by apply (get_translate_ok cpu_compatible addr fc ss s T).
  - rewrite (get_direct cpu_compatible _ _ _ _ Hth). split; [apply set_cs_env|by exists T].
Qed.
Lemma keeps_translate_put addr fc ss size v : is_u32 addr -> 0 <= fc < 8 ->
  keeps (let! a := put_translate cpu_compatible addr fc ss in end_put cpu_compatible ce_cachable size a v).
Proof.
  intros Ha Hf. apply keeps_bind; [|intros; apply keeps_end_put]. intros s T Hco Hr.
  destruct (through_atc fc (mmu030_match_ttr_access addr fc true s) s) eqn:Hth.
  - eapply keeps_accessed. by apply (put_translate_ok cpu_compatible addr fc ss s T).
  - rewrite (put_direct cpu_compatible _ _ _ _ Hth). split; [apply set_cs_env|by exists T].
Qed.
Lemma keeps_fetch addr fc ss size : is_u32 addr -> 0 <= fc < 8 -> size = sz_word \/ size = sz_long ->
  keeps (get_itranslate cpu_compatible ce_cachable addr fc ss size).
Proof.
  intros Ha Hf Hsz s T Hco _.
  destruct (fetch_simulates cpu_compatible ce_cachable size size addr fc ss s T Hco Ha Hf)
    as (out & s' & T' & E & _ & Hco' & He); [by destruct Hsz as [->| ->]|].
  unfold answer in E. destruct (get_itranslate _ _ _ _ _ _ s) as [[] s1]; injection E as <- <- || done;
    (split; [done|by exists T']).
Qed.

Lemma fc_data_range s : 0 <= fc_data s < 8.
Proof. unfold fc_data. by destruct (reg_s _). Qed.
Lemma fc_code_range s : 0 <= fc_code s < 8.
Proof. unfold fc_code. by destruct (reg_s _). Qed.

#[local] Hint Resolve u32_range fc_data_range fc_code_range : m30.

Ltac keeps_step :=
  match goal with
  | |- keeps (bind30 get30 _) => apply keeps_get; intros ?
  | |- keeps (bind30 _ _) => apply keeps_bind; [|intros ?]
  | |- keeps (if ?b then _ else _) => destruct b
  | |- keeps (ret30 _) => apply keeps_ret
  | |- keeps buffer30 => apply keeps_buffer
  | |- keeps (mmu030_get_generic _ _ _ _ _ _) => apply keeps_get_generic; auto with m30
  | |- keeps (mmu030_put_generic _ _ _ _ _ _ _) => apply keeps_put_generic; auto with m30
  | |- keeps (mmu030_get_iword _ _ _ _) => apply keeps_fetch; auto with m30
  | |- keeps (mmu030_get_ilong _ _ _ _) => apply keeps_fetch; auto with m30
  | |- keeps _ => apply keeps_fl
  end.
Ltac keeps30 := repeat keeps_step.

Lemma keeps_mmu_get addr fc : is_u32 addr -> 0 <= fc < 8 ->
  keeps (mmu030_get_long cpu_compatible ce_cachable addr fc) /\
  keeps (mmu030_get_word cpu_compatible ce_cachable addr fc) /\
  keeps (mmu030_get_byte cpu_compatible ce_cachable addr fc).
Proof. intros Ha Hf. split; [|split]; by apply keeps_translate_get. Qed.
Lemma keeps_mmu_put addr v fc : is_u32 addr -> 0 <= fc < 8 ->
  keeps (mmu030_put_long cpu_compatible ce_cachable addr v fc) /\
  keeps (mmu030_put_word cpu_compatible ce_cachable addr v fc) /\
  keeps (mmu030_put_byte cpu_compatible ce_cachable addr v fc).
Proof. intros Ha Hf. split; [|split]; by apply keeps_translate_put. Qed.

Lemma keeps_unaligned addr v fc flags : is_u32 addr -> 0 <= fc < 8 ->
  keeps (mmu030_get_long_unaligned cpu_compatible ce_cachable addr fc flags) /\
  keeps (mmu030_get_word_unaligned cpu_compatible ce_cachable addr fc flags) /\
  keeps (mmu030_put_long_unaligned cpu_compatible ce_cachable addr v fc flags) /\
  keeps (mmu030_put_word_unaligned cpu_compatible ce_cachable addr v fc flags) /\
  keeps (mmu030_get_ilong_unaligned cpu_compatible ce_cachable addr fc).
Proof.
  intros Ha Hf. unfold mmu030_get_long_unaligned, mmu030_get_word_unaligned, mmu030_put_long_unaligned,
    mmu030_put_word_unaligned, mmu030_get_ilong_unaligned.
  split; [|split; [|split; [|split]]]; keeps30.
Qed.

(** Every accessor, at any size and alignment. *)
Lemma keeps_accessors addr v size : is_u32 addr ->
  keeps (uae_mmu030_get_long cpu_compatible ce_cachable addr) /\
  keeps (uae_mmu030_get_word cpu_compatible ce_cachable addr) /\
  keeps (uae_mmu030_get_byte cpu_compatible ce_cachable addr) /\
  keeps (uae_mmu030_put_long cpu_compatible ce_cachable addr v) /\
  keeps (uae_mmu030_put_word cpu_compatible ce_cachable addr v) /\
  keeps (uae_mmu030_put_byte cpu_compatible ce_cachable addr v) /\
  keeps (uae_mmu030_get_iword cpu_compatible ce_cachable addr) /\
  keeps (uae_mmu030_get_ilong cpu_compatible ce_cachable addr) /\
  keeps (uae_mmu030_get_lrmw cpu_compatible ce_cachable addr size) /\
  keeps (uae_mmu030_put_lrmw cpu_compatible ce_cachable addr v size).
Proof.
  intros Ha.
  assert (Hg := fun fc => keeps_mmu_get addr fc Ha). assert (Hp := fun v fc => keeps_mmu_put addr v fc Ha).
  assert (Hu := fun v fc flags => keeps_unaligned addr v fc flags Ha).
  unfold uae_mmu030_get_long, uae_mmu030_get_word, uae_mmu030_get_byte, uae_mmu030_put_long, uae_mmu030_put_word,
    uae_mmu030_put_byte, uae_mmu030_get_iword, uae_mmu030_get_ilong, uae_mmu030_get_lrmw, uae_mmu030_put_lrmw,
    uae_mmu030_get_long_fcx, uae_mmu030_get_word_fcx, uae_mmu030_put_long_fcx, uae_mmu030_put_word_fcx,
    uae_mmu030_put_byte_fcx, uae_mmu030_get_lrmw_fcx, uae_mmu030_put_lrmw_fcx.
  repeat apply conj; repeat first [apply Hg | apply Hp | eapply (Hu v) | apply Hu | keeps_step | by auto with m30].
Qed.
End Keeps.
