(* ===== verification/Mmu030Load.v ===== *)
(** * Mmu030Load: loading the translation control register

    A legal value cuts every address into its table indices and page offset,
    and the flush that ends PMOVE leaves an empty, coherent buffer; an illegal
    one raises the configuration exception.  At the end, a
    concrete machine with tables in memory, for the examples. *)

From S2P Require Import Prelude Flags Cpu Movec Mmu Frames Mmu030 Mmu030Op Mmu030Spec Mmu030Walk Mmu030Tlb Mmu030Acc Mmu030Sim MmuRam.
From Stdlib Require Import ZArith Lia Bool.
From stdpp Require Import base list gmap.
Open Scope Z_scope.
Open Scope cint_scope.
Open Scope m30_scope.

Section Load.
Context {M : Type} `{Phys M} (p : prefs) (cpu_compatible : bool) (ce_cachable : Z -> Z).
Implicit Types (s : st030 M) (T : tbuf).

(** ** Accesses that leave the MMU alone *)

(** A computation that cannot reach an array out of bounds and changes neither
    the MMU nor its registers nor memory. *)
Definition leaves {A} (s : st030 M) (r : res030 A * st030 M) : Prop :=
  r.1 <> Undefined /\ acc_env s r.2 /\ mm30 r.2 = mm30 s /\ pm30 r.2 = pm30 s.

Lemma leaves_bind {A B} (m : M30 M A) (k : A -> M30 M B) s :
  leaves s (m s) -> (forall a s', acc_env s s' -> mm30 s' = mm30 s -> pm30 s' = pm30 s -> leaves s' (k a s')) ->
  leaves s ((let! a := m in k a) s).
Proof.
  intros (H1 & H2 & H3 & H4) Hk. unfold bind30. destruct (m s) as [[a|e|] s']; cbn [fst snd] in *; [|by split|done].
  destruct (Hk a s' H2 H3 H4) as (K1 & K2 & K3 & K4). split; [done|]. split; [by transitivity s'|].
  by rewrite K3, K4.
Qed.

Lemma leaves_phys size a s : leaves s (get_phys30 cpu_compatible size a s).
Proof.
  destruct (end_get_phys cpu_compatible size a s) as (s' & E & H1 & H2 & H3). rewrite E.
  split; [by destruct (phys_get _ _ _)|done].
Qed.
Lemma leaves_end size a s : leaves s (end_get cpu_compatible ce_cachable size a s).
Proof.
  destruct (end_get_ok cpu_compatible ce_cachable size a s) as (s' & E & H1 & H2 & H3). rewrite E.
  split; [by destruct (phys_get _ _ _)|done].
Qed.
Lemma leaves_fl f s : leaves s (set_fl30 f s).
Proof. by split; [|split; [constructor|]]. Qed.
Lemma leaves_ret {A} (a : A) s : leaves s (ret30 a s).
Proof. by split. Qed.

(** With translation off, an instruction is fetched from its own address. *)
Lemma leaves_fetch addr fc ss size s : enabled (mm30 s) = false -> last_logical_address (mm30 s) = 0xffffffff ->
  leaves s (get_itranslate cpu_compatible ce_cachable addr fc ss size s).
Proof.
  intros Hen Hll. unfold get_itranslate. unfold bind30 at 1, get30 at 1.
  destruct (_ =? last_logical_address (mm30 s)).
  - apply leaves_bind; [by split; [|split; [constructor|]]|]. intros _ s' _ _ _. apply leaves_phys.
  - set (m := {| (mm30 s) with last_logical_address := 0xffffffff |}).
    assert (Em : m = mm30 s) by (unfold m; rewrite <- Hll; by destruct (mm30 s)).
    apply leaves_bind; [by split; [|split; [constructor; cbn [mm30]; fold m; rewrite ?Em|]]|]. intros _ s0 _ E0 _.
    apply leaves_bind; [by split; [|split; [constructor|]]|]. intros _ s' _ E _. rewrite E0 in E.
    unfold bind30 at 1, get30 at 1. replace (through_atc fc _ s') with false
      by (unfold through_atc; by rewrite E, Hen, andb_false_r).
    apply leaves_end.
Qed.

Lemma leaves_match addr fc write s : leaves s (mmu030_match_ttr addr fc write s).
Proof.
  unfold mmu030_match_ttr. unfold bind30 at 1, get30 at 1.
  assert (Hw : forall b s0, leaves s0 (when30 b (set_cs30 CACHE_DISABLE_MMU) s0))
    by (intros [] s0; by split; [|split; [constructor|]]).
  apply leaves_bind; [apply Hw|]. intros _ s1 _ _ _. apply leaves_bind; [apply Hw|]. intros. apply leaves_ret.
Qed.

Lemma leaves_translate addr super data write s : enabled (mm30 s) = false ->
  leaves s (mmu030_translate cpu_compatible addr super data write s).
Proof.
  intros Hen. unfold mmu030_translate. destruct (_ =? 7); [apply leaves_ret|].
  apply leaves_bind; [apply leaves_match|]. intros mt s' _ E _. unfold bind30 at 1, get30 at 1.
  rewrite E, Hen, orb_true_r. apply leaves_ret.
Qed.

Lemma leaves_prefetch s : enabled (mm30 s) = false -> last_logical_address (mm30 s) = 0xffffffff ->
  exists s', mmu030_do_fake_prefetch cpu_compatible ce_cachable s = (Ok tt, s') /\
    acc_env s s' /\ mm30 s' = mm30 s /\ pm30 s' = pm30 s.
Proof.
  intros Hen Hll. unfold mmu030_do_fake_prefetch.
  match goal with |- context [try30 ?m _] => assert (Hl : leaves s (m s)) end.
  { unfold bind30 at 1, get30 at 1. apply leaves_bind; [apply leaves_fl|]. intros _ s1 _ E1 _.
    apply leaves_bind; [apply leaves_translate; by rewrite E1|]. intros a s2 _ E2 _.
    apply leaves_bind; [apply leaves_fl|]. intros _ s3 _ E3 _.
    apply leaves_bind; [apply (leaves_fetch _ (fc_code s3)); by rewrite E3, E2, E1|].
    intros v s4 _ E4 _. apply leaves_bind; [apply leaves_fl|]. intros _ s5 _ E5 _.
    destruct (v =? 0x4e71); [|apply leaves_ret].
    apply leaves_bind; [apply (leaves_fetch _ (fc_code s5)); by rewrite E5, E4, E3, E2, E1|].
    intros. apply leaves_fl. }
  destruct cpu_compatible; [by exists s|]. unfold try30. destruct Hl as (H1 & H2 & H3 & H4).
  match type of H1 with (?x).1 <> _ => destruct x as [[[]|e|] s'] end; cbn [fst snd] in *; [by exists s'| |done].
  eexists. split; [done|]. split; [|done]. transitivity s'; [done|]. by constructor.
Qed.

(** ** Decoding *)

(** The translation a legal value sets up. *)
Definition tr_fields (TC : Z) : list tindex := (tc_fields [0; 1; 2; 3]%nat TC (32 - tc_is TC)).1.

Record tr_loaded (TC : Z) (tr : translation030) : Prop := mk_tl {
  tl_ok : tr_ok tr;
  tl_size : page_size tr = tc_ps TC;
  tl_tabs : take (Z.to_nat (last_table tr + 1)) (table tr) = tr_fields TC }.

Lemma legal_sum TC : tc_legal TC = true ->
  8 <= tc_ps TC /\ tc_is TC + tc_ps TC + Zsum (tc_ti [0; 1; 2; 3]%nat TC) = 32.
Proof. unfold tc_legal. intros E. apply andb_prop in E as [E1 E2]. by apply Z.leb_le in E1; apply Z.eqb_eq in E2. Qed.

Lemma is_range8 TC : is_u8 (32 - tc_is TC).
Proof. pose proof (tc_is_range TC). unfold is_u8. lia. Qed.

(** The shift left after the fields is the page size exactly when they add up. *)
Lemma legal_shift TC : 8 <= tc_ps TC ->
  ((tc_fields [0; 1; 2; 3]%nat TC (32 - tc_is TC)).2 =? tc_ps TC) = tc_legal TC.
Proof.
  intros H8. rewrite tc_fields_shift by apply is_range8. unfold tc_legal.
  pose proof (tc_ps_range TC). pose proof (tc_is_range TC). pose proof (tc_ti_bounds [0; 1; 2; 3]%nat TC) as Hb.
  change (15 * Z.of_nat (length [0; 1; 2; 3]%nat)) with 60 in Hb.
  set (S := Zsum _) in *. rewrite (proj2 (Z.leb_le _ _) H8). cbn [andb].
  destruct (Z.eqb_spec (tc_is TC + tc_ps TC + S) 32) as [E|E].
  - apply Z.eqb_eq. replace (32 - tc_is TC - S) with (tc_ps TC) by lia. apply u8_small. unfold is_u8. lia.
  - apply Z.eqb_neq. intros Hu. apply E. unfold u8 in Hu.
    destruct (Z_le_gt_dec 0 (32 - tc_is TC - S)).
    + rewrite Z.mod_small in Hu by lia. lia.
    + rewrite <- (Z.mod_add _ 1) in Hu by lia. rewrite Z.mod_small in Hu by lia. lia.
Qed.

Lemma fields_some i js TC sh : TI_bits TC i <> 0 -> (1 <= length (tc_fields (i :: js) TC sh).1)%nat.
Proof.
  intros E%Z.eqb_neq. cbn [tc_fields]. rewrite E. destruct (tc_fields js TC _) as [l sh'] eqn:El. cbn. lia.
Qed.

(** A legal value has an index field, since the other two reach 30 at most. *)
Lemma legal_fields TC : tc_legal TC = true -> (1 <= length (tr_fields TC) <= 4)%nat.
Proof.
  intros [H8 Hs]%legal_sum. split; [|apply (tc_fields_length [0; 1; 2; 3]%nat)].
  pose proof (tc_ps_range TC). pose proof (tc_is_range TC).
  destruct (Z.eqb_spec (TI_bits TC 0) 0) as [E|E]; [|by apply fields_some].
  exfalso. unfold tc_ti in Hs. cbn [fmap list_fmap ti_used] in Hs. rewrite E in Hs. cbn in Hs. lia.
Qed.

Lemma tables_loaded l : (1 <= length l <= 4)%nat ->
  length (table4 l) = 4%nat /\ take (Z.to_nat (Z.of_nat (Nat.pred (length l)) + 1)) (table4 l) = l.
Proof.
  intros Hl. unfold table4. split; [rewrite length_take, length_app, length_replicate; lia|].
  rewrite take_take. replace (Z.to_nat _ `min` 4)%nat with (length l) by lia. by rewrite take_app_length.
Qed.

(** What a value of TC with the enable bit set leaves. *)
Record decoded (TC : Z) (s s' : st030 M) : Prop := mk_dec {
  dc_rg : rg30 s' = rg30 s; dc_pm : pm30 s' = pm30 s;
  dc_mm : exists tr, mm30 s' = {| (mm30 s) with last_logical_address := 0xffffffff; enabled := true;
                                               translation := tr |} /\
    (tc_legal TC = true -> tr_loaded TC tr);
  dc_err : tc_legal TC = false -> exists c, cpu30 s' = emit (Exception 56) c }.

Lemma set_mm_step {B} f (k : M30 M B) s : exists s',
  (set_mm30 f ;;; k) s = k s' /\ mm30 s' = f (mm30 s) /\ rg30 s' = rg30 s /\ pm30 s' = pm30 s.
Proof. by eexists. Qed.
Lemma set_cpu_step {B} f (k : M30 M B) s : exists s',
  (set_cpu30 f ;;; k) s = k s' /\ mm30 s' = mm30 s /\ rg30 s' = rg30 s /\ pm30 s' = pm30 s.
Proof. by eexists. Qed.
Lemma config_error_step s : exists s', mmu_config_error s = (Ok true, s') /\
  mm30 s' = mm30 s /\ rg30 s' = rg30 s /\ pm30 s' = pm30 s /\ cpu30 s' = emit (Exception 56) (cpu30 s).
Proof. by eexists. Qed.

Ltac step30 s' Hm Hr Hp :=
  let E := fresh "E" in
  match goal with
  | |- context [bind30 (set_mm30 ?f) ?k ?s] =>
      destruct (set_mm_step f (k tt) s) as (s' & E & Hm & Hr & Hp); cbv beta in E; rewrite E; clear E
  | |- context [bind30 (set_cpu30 ?f) ?k ?s] =>
      destruct (set_cpu_step f (k tt) s) as (s' & E & Hm & Hr & Hp); cbv beta in E; rewrite E; clear E
  end.

Lemma decode_fields_ok TC s s4 :
  mm30 s4 = {| (mm30 s) with last_logical_address := 0xffffffff; enabled := true; translation := translation (mm30 s4) |} ->
  rg30 s4 = rg30 s -> pm30 s4 = pm30 s ->
  page_size (translation (mm30 s4)) = tc_ps TC /\ page_size3m (translation (mm30 s4)) = u32 (tc_ps TC - 3) ->
  exists s', decode_fields TC (tc_ps TC) (tc_is TC) s4 = (Ok (negb (tc_legal TC)), s') /\ decoded TC s s'.
Proof.
  intros Hmm Hrg Hpm Htr. pose proof (tc_ps_range TC) as Hps. unfold decode_fields, set_tr30.
  destruct (Z.ltb_spec (tc_ps TC) 8) as [Hlt|Hge].
  - destruct (config_error_step s4) as (s5 & -> & Hm5 & Hr5 & Hp5 & Hc5).
    assert (El : tc_legal TC = false) by (unfold tc_legal; rewrite (proj2 (Z.leb_gt _ _) Hlt); done).
    rewrite El. exists s5. split; [done|]. constructor; [by rewrite Hr5|by rewrite Hp5| |by eexists].
    rewrite Hm5, El. by exists (translation (mm30 s4)).
  - pose proof (legal_shift TC ltac:(lia)) as Hsh. pose proof (legal_fields TC) as Hf.
    unfold tr_fields in Hf. destruct (tc_fields [0; 1; 2; 3]%nat TC (32 - tc_is TC)) as [l sh] eqn:Efl.
    cbn [fst snd] in *. step30 s5 Hm5 Hr5 Hp5. rewrite Hsh.
    assert (Hmm5 : mm30 s5 = {| (mm30 s) with last_logical_address := 0xffffffff; enabled := true;
      translation := translation (mm30 s5) |}) by (rewrite Hm5, Hmm; reflexivity).
    destruct (tc_legal TC) eqn:El.
    + exists s5. split; [done|]. constructor; [by rewrite Hr5|by rewrite Hp5| |by rewrite El].
      exists (translation (mm30 s5)). split; [done|]. intros _. specialize (Hf eq_refl).
      destruct (tables_loaded l Hf) as [Hl4 Htk], Htr as [Hsz Hsz3]. rewrite Hm5.
      constructor; [constructor|..]; cbn [translation table last_table page_size page_size3m page_mask page_imask];
        rewrite ?Hsz; try done; [lia|by split; cbn [table last_table]; [|lia]|].
      unfold tr_fields. by rewrite Efl.
    + destruct (config_error_step s5) as (s6 & -> & Hm6 & Hr6 & Hp6 & Hc6).
      exists s6. split; [done|]. constructor; [by rewrite Hr6, Hr5|by rewrite Hp6, Hp5| |by eexists].
      rewrite Hm6, El. by exists (translation (mm30 s5)).
Qed.

Lemma decode_tc_ok TC check s : mmu_ec p = false -> truth (TC .& TC_ENABLE_TRANSLATION) = true ->
  exists s', mmu030_decode_tc p cpu_compatible ce_cachable TC check s = (Ok (negb (tc_legal TC)), s') /\ decoded TC s s'.
Proof.
  intros Hec Hen. unfold mmu030_decode_tc. unfold bind30 at 1, set_mm30 at 1, mod30 at 1.
  set (s0 := {| s with mm30 := {| (mm30 s) with last_logical_address := 0xffffffff |} |}).
  rewrite Hec. unfold bind30 at 1, get30 at 1. rewrite Hen.
  assert (Hpre : exists s1, when30 (negb (enabled (mm30 s0)) && check)
      (mmu030_do_fake_prefetch cpu_compatible ce_cachable) s0 = (Ok tt, s1) /\
    acc_env s0 s1 /\ mm30 s1 = mm30 s0 /\ pm30 s1 = pm30 s0).
  { destruct (enabled (mm30 s0)) eqn:Een, check; try (by exists s0). by apply leaves_prefetch. }
  destruct Hpre as (s1 & E1 & Henv & Em & Ep). unfold bind30 at 1. rewrite E1.
  unfold set_tr30. fold (tc_ps TC). fold (tc_is TC).
  step30 s2 Hm2 Hr2 Hp2. step30 s3 Hm3 Hr3 Hp3. step30 s4 Hm4 Hr4 Hp4.
  assert (Hmm : mm30 s4 = {| (mm30 s) with last_logical_address := 0xffffffff; enabled := true;
      translation := translation (mm30 s4) |}) by (rewrite Hm4, Hm3, Hm2, Em; reflexivity).
  assert (Hrg : rg30 s4 = rg30 s) by (rewrite Hr4, Hr3, Hr2; apply (ae_rg _ _ Henv)).
  assert (Hpm : pm30 s4 = pm30 s) by (rewrite Hp4, Hp3, Hp2; exact Ep).
  assert (Htr : page_size (translation (mm30 s4)) = tc_ps TC /\
    page_size3m (translation (mm30 s4)) = u32 (tc_ps TC - 3)) by (rewrite Hm4, Hm3; done).
  by apply decode_fields_ok.
Qed.

(** The fields and the offset make up the address below the initial shift. *)
Lemma loaded_recompose TC tr addr : tc_legal TC = true -> tr_loaded TC tr ->
  recompose (take (Z.to_nat (last_table tr + 1)) (table tr)) addr + (addr .& page_mask tr)
  = addr mod 2 ^ (32 - tc_is TC).
Proof.
  intros Hle [Hok Hsz ->]. destruct (legal_sum TC Hle) as [H8 Hs].
  rewrite (page_offset tr Hok), Hsz. unfold tr_fields. pose proof (tc_is_range TC).
  replace (tc_ps TC) with (32 - tc_is TC - Zsum (tc_ti [0; 1; 2; 3]%nat TC)) by lia.
  apply tc_fields_recompose; lia.
Qed.

(** ** A flush after it *)
Record tlb_sizes (m : mmu030) : Prop := mk_sizes {
  sz_atc : length (atc m) = ATC030_NUM_ENTRIES;
  sz_read : length (data_read m) = 256%nat;
  sz_write : length (data_write m) = 256%nat;
  sz_index : length (atcindextable m) = 32%nat /\ Forall (fun i => i < ATC030_NUM_ENTRIES)%nat (atcindextable m) }.

Lemma flushed_coherent m : tlb_sizes m -> tr_ok (translation m) -> coherent (mmu030_flush_atc_all m) ∅.
Proof.
  intros [] Htr. unfold mmu030_flush_atc_all. set (m1 := {| m with atc := _ |}).
  assert (Hwf : tlb_wf m1) by (constructor; try done; cbn; by rewrite length_fmap).
  destruct (flush_all_cache m1 ∅ Hwf) as (H1 & H2 & H3 & H4).
  destruct (flush_cache_atc 0xffffffff m1) as (E1 & E2 & _).
  constructor; rewrite ?E1, ?E2; try done.
  intros j e Hj Hv. apply list_lookup_fmap_Some in Hj as (e0 & -> & _). done.
Qed.

(** ** PMOVE to TC with translation off *)
Lemma leaves_cs v s : leaves s (set_cs30 v s).
Proof. by split; [|split; [constructor|]]. Qed.

Lemma through_off fc x s : enabled (mm30 s) = false -> through_atc fc x s = false.
Proof. intros E. unfold through_atc. by rewrite E, andb_false_r. Qed.

Lemma leaves_translate_off addr fc ss size s : enabled (mm30 s) = false ->
  leaves s ((let! a := get_translate cpu_compatible addr fc ss in end_get cpu_compatible ce_cachable size a) s).
Proof.
  intros Hen. apply leaves_bind; [|intros; apply leaves_end]. unfold get_translate.
  apply leaves_bind; [apply leaves_cs|]. intros _ s1 _ E _. unfold bind30 at 1, get30 at 1.
  rewrite through_off by (by rewrite E). apply leaves_ret.
Qed.

Lemma leaves_generic_off addr fc size flags s : enabled (mm30 s) = false ->
  leaves s (mmu030_get_generic cpu_compatible ce_cachable addr fc size flags s).
Proof.
  intros Hen. unfold mmu030_get_generic, mmu030_get_generic_lrmw.
  destruct (truth _); (apply leaves_bind; [|intros; apply leaves_end]); unfold get_generic_at;
    (apply leaves_bind; [apply leaves_cs|]; intros _ s1 _ E _; unfold bind30 at 1, get30 at 1;
     rewrite through_off by (by rewrite E); apply leaves_ret).
Qed.

Lemma leaves_buffer s : leaves s (buffer30 s).
Proof. by split. Qed.

Create HintDb leaves.
#[local] Hint Resolve leaves_fl leaves_ret leaves_buffer : leaves.
Ltac leaves30 :=
  repeat first
    [ apply leaves_generic_off; congruence
    | solve [auto with leaves] | apply leaves_fl
    | apply leaves_bind; [| intros ? ? _ ? _] ].

Lemma leaves_get_long_off addr s : enabled (mm30 s) = false ->
  leaves s (uae_mmu030_get_long cpu_compatible ce_cachable addr s).
Proof.
  intros Hen. unfold uae_mmu030_get_long, uae_mmu030_get_long_fcx. unfold bind30 at 1, get30 at 1.
  destruct (is_unaligned_bus _ _); [|by apply leaves_translate_off].
  unfold mmu030_get_long_unaligned. destruct (_ =? 0); leaves30.
Qed.

(** PMOVE (ea),TC with the flush it ends with: a legal value leaves translation
    on with an empty coherent buffer. *)
Definition pmove_tc (opcode next : Z) : bool :=
  negb (mmu_op30_invea opcode) && negb (truth (next .& 0xff)) && negb (truth ((next >> 9) .& 1))
  && negb (truth ((next >> 8) .& 1)) && ((next >> 10) .& 31 =? 0x10).

Lemma pmove_tc_ok opcode next extra s v s0 :
  mmu_ec p = false -> enabled (mm30 s) = false -> tlb_sizes (mm30 s) -> pmove_tc opcode next = true ->
  uae_mmu030_get_long cpu_compatible ce_cachable extra s = (Ok v, s0) ->
  truth (v .& TC_ENABLE_TRANSLATION) = true ->
  exists s', mmu_op30_pmove p cpu_compatible ce_cachable opcode next extra s = (Ok (if tc_legal v then 0 else -1), s') /\
    tc_030 (rg30 s') = v /\ enabled (mm30 s') = true /\ pm30 s' = pm30 s /\
    (tc_legal v = true -> coherent (mm30 s') ∅ /\ tr_loaded v (translation (mm30 s'))) /\
    (tc_legal v = false -> exists c, cpu30 s' = emit (Exception 56) c).
Proof.
  intros Hec Hoff Hsz Hop Hget Hen. unfold pmove_tc in Hop.
  apply andb_prop in Hop as [Hop Hreg]. apply andb_prop in Hop as [Hop Hfd%negb_true_iff].
  apply andb_prop in Hop as [Hop Hrw%negb_true_iff]. apply andb_prop in Hop as [Hea%negb_true_iff Hlow%negb_true_iff].
  unfold mmu_op30_pmove. rewrite Hea, Hlow, Hrw, Hfd, Hreg. cbn [orb andb negb].
  apply Z.eqb_eq in Hreg. rewrite Hreg. change (0x10 =? 0x18) with false. cbn [negb].
  unfold bind30 at 1, get30 at 1. unfold bind30 at 1. rewrite Hget.
  pose proof (leaves_get_long_off extra s Hoff) as (_ & Henv & Em & Ep). rewrite Hget in Henv, Em, Ep. cbn [snd] in *.
  unfold bind30 at 1, set_rg30 at 1, mod30 at 1. set (s1 := {| s0 with rg30 := _ |}).
  destruct (decode_tc_ok v true s1 Hec Hen) as (s2 & E2 & [Hrg2 Hpm2 (tr & Hm2 & Hld) Herr]).
  unfold bind30 at 1. rewrite E2. change (mm30 s1) with (mm30 s0) in Hm2. rewrite Em in Hm2.
  assert (Htc : tc_030 (rg30 s2) = v) by (by rewrite Hrg2).
  assert (Hpm : pm30 s2 = pm30 s) by (by rewrite Hpm2).
  clear E2 Hrg2 Hpm2 Hget Henv Em Ep. clearbody s1.
  destruct (tc_legal v); cbn [negb].
  - unfold pmove_end, when30. unfold bind30, set_mm30, mod30, ret30. eexists. split; [reflexivity|].
    cbn [rg30 pm30 mm30 enabled translation]. split; [done|].
    assert (Hco : coherent (mmu030_flush_atc_all (mm30 s2)) ∅).
    { rewrite Hm2. apply flushed_coherent; [by destruct Hsz|]. apply (tl_ok _ _ (Hld eq_refl)). }
    assert (Etr : translation (mmu030_flush_atc_all (mm30 s2)) = tr) by (by rewrite Hm2).
    split; [by rewrite Hm2|]. split; [done|]. split; [|done]. intros _.
    split; [destruct Hco as [[] ? ? ? ? ?]; by constructor|]. rewrite Etr. by apply Hld.
  - exists s2. split; [done|]. split; [done|]. split; [by rewrite Hm2|]. split; [done|]. split; [done|]. done.
Qed.
End Load.

(** ** A machine: 4K pages, two levels of 10 bits

    Root table at $1000, page table at $2000: page 1 is at $5000, page 2 at
    $6000 and write protected, the rest of the first 4 MB is invalid. *)
Definition TC_4K : Z := 0x80C0AA00.
Definition ram_4K : lram := mk_lram 0x100000 (list_to_map
  [(0x1000, 0x2002); (0x2004, 0x5001); (0x2008, 0x6005); (0x3000, TC_4K); (0x5010, 0xCAFE)]).
Definition regs_4K : mregs030 := mk_mregs 0 ((0x7FFF0002 << 32) .| 0x1000) 0 0 TC_4K 0.
Definition tr_4K : translation030 :=
  mk_tr [mk_tindex 0xFFC00000 22; mk_tindex 0x3FF000 12; mk_tindex 0 0; mk_tindex 0 0] 0xFFF 0xFFFFF000 12 9 0 1.
Definition mmu_4K : mmu030 := mk_mmu030 tr_4K (mk_tt 0 0 0 0) (mk_tt 0 0 0 0)
  (replicate ATC030_NUM_ENTRIES (mk_atc 0 false false 0 false 0 0 false false)) true 0 0 0 0xffffffff
  fast_none fast_none (replicate 32 0%nat) false.
Definition fl_none : fault030 :=
  mk_fault030 0 0 0 0 0 0 0 false 0 0 false false [] 0 0 (replicate 10 0) 0 0 0 [0; 0].
Definition st_4K : st030 lram := mk_st030 demo_core 0 regs_4K mmu_4K fl_none 0 false ram_4K.

Lemma tr_4K_ok : tr_ok tr_4K.
Proof. constructor; try reflexivity; [cbn; lia|]. split; [reflexivity|cbn; lia]. Qed.
Lemma mmu_4K_sizes : tlb_sizes mmu_4K.
Proof.
  constructor; try reflexivity. split; [reflexivity|].
  apply Forall_replicate. unfold ATC030_NUM_ENTRIES. lia.
Qed.
Definition st_4K_flushed : st030 lram := {| st_4K with mm30 := mmu030_flush_atc_all mmu_4K |}.
Lemma st_4K_coherent : coherent (mm30 st_4K_flushed) ∅.
Proof. apply (flushed_coherent mmu_4K mmu_4K_sizes tr_4K_ok). Qed.
