(* ===== verification/Mmu030Log.v ===== *)
(** * Mmu030Log: restarting a 68030 instruction

    An instruction is run as a sequence of logged accesses.  When one of them
    faults, the log holds the values of those before it; running the
    instruction again with that log repeats none of them and goes on at the
    access that faulted. *)

From S2P Require Import Prelude Flags Cpu Movec Mmu Frames Mmu030 Mmu030Op MmuRam Mmu030Load.
From Stdlib Require Import ZArith Lia Bool.
From stdpp Require Import base list gmap.
Open Scope Z_scope.
Open Scope cint_scope.
Open Scope m30_scope.

Section Aside.
Context {M : Type} `{Phys M} (cpu_compatible : bool) (ce_cachable : Z -> Z).
Implicit Types (s : st030 M).

(** ** Accesses keep the log *)

(** The program counter and the log. *)
Definition ilog s : Z * (Z * Z * list Z) :=
  (pci30 s, (idx30 (fl30 s), idx_done30 (fl30 s), ad30 (fl30 s))).
Definition aside {A} (m : M30 M A) : Prop := forall s, ilog (m s).2 = ilog s.
Definition waside (f : wstep (M := M)) : Prop := forall w s, ilog (f w s).2 = ilog s.

Lemma aside_ret {A} (a : A) : aside (ret30 a).
Proof. done. Qed.
Lemma aside_throw {A} e : aside (throw30 (A := A) e).
Proof. done. Qed.
Lemma aside_undef {A} : aside (undef30 (A := A)).
Proof. done. Qed.
Lemma aside_bind {A B} (m : M30 M A) (k : A -> M30 M B) : aside m -> (forall a, aside (k a)) -> aside (bind30 m k).
Proof.
  intros Hm Hk s. specialize (Hm s). unfold bind30. destruct (m s) as [[a|e|] s']; cbn [snd] in *; [|done|done].
  by rewrite (Hk a s').
Qed.
Lemma aside_get {B} (k : st030 M -> M30 M B) : (forall s, aside (k s)) -> aside (bind30 get30 k).
Proof. intros Hk s. apply (Hk s s). Qed.
Lemma aside_mod f : (forall s, ilog (f s) = ilog s) -> aside (mod30 f).
Proof. intros Hf s. apply Hf. Qed.
Lemma aside_fl f : (forall g, idx30 (f g) = idx30 g /\ idx_done30 (f g) = idx_done30 g /\ ad30 (f g) = ad30 g) ->
  aside (set_fl30 f).
Proof. intros Hf s. destruct (Hf (fl30 s)) as (E1 & E2 & E3). unfold ilog. cbn. by rewrite E1, E2, E3. Qed.
Lemma aside_when b (m : M30 M unit) : aside m -> aside (when30 b m).
Proof. by destruct b. Qed.

Ltac aside_step :=
  lazymatch goal with
  | |- aside (bind30 get30 _) => apply aside_get; intros ?
  | |- aside (bind30 _ _) => apply aside_bind; [|intros ?]
  | |- aside (ret30 _) => apply aside_ret
  | |- aside (throw30 _) => apply aside_throw
  | |- aside undef30 => apply aside_undef
  | |- aside (when30 _ _) => apply aside_when
  | |- aside (set_fl30 _) => apply aside_fl; intros ?; repeat split
  | |- aside (if ?b then _ else _) => destruct b
  | |- aside (match ?x with _ => _ end) => destruct x
  | |- aside (let '(_, _) := ?x in _) => destruct x
  | |- aside _ => first [apply aside_mod; intros ?; reflexivity]
  end.
Ltac asides := repeat aside_step.

Lemma aside_fixups : aside page_fault_fixups.
Proof. unfold page_fault_fixups, mmu030fixupmod. asides. Qed.
Lemma aside_page_fault {A} addr read flags fc : aside (@mmu030_page_fault M cpu_compatible A addr read flags fc).
Proof.
  unfold mmu030_page_fault. apply aside_get; intros s0. destruct (if flags <? 0 then _ else _) as [[r f] g].
  apply aside_bind; [asides|intros _]. apply aside_bind; [|intros _; asides].
  destruct (truth _); asides; apply aside_fixups.
Qed.

Lemma aside_hw {A} addr v read ins size : aside (@mmu030_hardware_bus_error M cpu_compatible A addr v read ins size).
Proof. unfold mmu030_hardware_bus_error. do 2 aside_step; [asides|apply aside_page_fault]. Qed.
Lemma aside_phys {A} read addr v size (o : option A) : aside (@phys30 M cpu_compatible A read addr v size o).
Proof. unfold phys30. destruct o; [apply aside_ret|apply aside_hw]. Qed.
Lemma aside_get_phys size a : aside (get_phys30 (M := M) cpu_compatible size a).
Proof. unfold get_phys30. aside_step. apply aside_phys. Qed.
Lemma aside_put_phys size a v : aside (put_phys30 (M := M) cpu_compatible size a v).
Proof. unfold put_phys30. do 2 aside_step; [apply aside_phys|asides]. Qed.

(** *** The table search *)
Lemma waside_seq f g : waside f -> waside g -> waside (wseq f g).
Proof.
  intros Hf Hg w s. specialize (Hf w s). unfold wseq. destruct (f w s) as [[[] w'] s']; cbn [snd] in *; try done.
  by rewrite (Hg w' s').
Qed.
Lemma waside_lift {A} (m : M30 M A) k : aside m -> (forall a, waside (k a)) -> waside (wlift m k).
Proof.
  intros Hm Hk w s. specialize (Hm s). unfold wlift. destruct (m s) as [[a|e|] s']; cbn [snd] in *; try done.
  by rewrite (Hk a w s').
Qed.
Lemma waside_end r : waside (wend r).
Proof. done. Qed.
Lemma waside_mod f : waside (wmod f).
Proof. done. Qed.
Lemma waside_stat v : waside (wstat v).
Proof. done. Qed.

(** A step that looks at the state before it chooses what to do. *)
Lemma waside_look (f : walk -> st030 M -> wstep) : (forall w s, waside (f w s)) -> waside (fun w s => f w s w s).
Proof. intros Hf w s. apply Hf. Qed.

Lemma waside_fetch a : waside (wfetch cpu_compatible a).
Proof.
  intros w s. unfold wfetch. destruct (_ <? 7); [|done].
  match goal with |- context [if _ then wlift _ _ ?w0 s else _] => generalize w0 end. intros w0.
  destruct (_ =? 4); apply waside_lift; try apply aside_get_phys; intros d0; [apply waside_mod|].
  apply waside_seq; [apply waside_mod|]. apply waside_lift; [apply aside_get_phys|]. intros d1. apply waside_mod.
Qed.
Lemma waside_type early : waside (wtype early).
Proof. intros w s. unfold wtype. repeat (destruct (_ =? _)); done. Qed.
Lemma waside_root fc : waside (wroot fc).
Proof. intros w s. apply waside_type. Qed.
Lemma waside_fcl fc : waside (wfcl cpu_compatible fc).
Proof.
  intros w s. unfold wfcl. destruct (truth _); [|done].
  apply (waside_seq _ _ (waside_fetch _) (waside_type _)).
Qed.
Lemma waside_store : waside (wstore cpu_compatible).
Proof.
  intros w s. unfold wstore. destruct (debugger30 s); [done|].
  apply waside_lift; [apply aside_put_phys|]. intros _. apply waside_end.
Qed.
Lemma waside_limit i : waside (wlimit i).
Proof. intros w s. unfold wlimit. by destruct (_ && _). Qed.
Lemma waside_used level : waside (wused cpu_compatible level).
Proof.
  intros w s. unfold wused. destruct (_ && _); [|done]. apply (waside_seq _ _ (waside_mod _) waside_store).
Qed.
Lemma waside_report : waside wreport.
Proof. intros w s. apply waside_stat. Qed.
Lemma waside_level level : waside (wlevel level).
Proof. done. Qed.
Lemma waside_table addr fc level : waside (wtable cpu_compatible addr fc level).
Proof.
  apply waside_seq; intros w s.
  - unfold wenter. destruct (truth _); [|done]. revert w s. change (waside (wseq (wprotect fc)
      (wseq (wused cpu_compatible level) (wseq wreport (wlevel level))))).
    repeat apply waside_seq; auto using waside_mod, waside_used, waside_report, waside_level.
  - unfold wdescend. destruct (table _ !! _) as [ti|]; [|done]. cbv zeta.
    apply waside_seq; [apply waside_mod|]. apply waside_seq; [apply waside_limit|].
    apply waside_seq; [apply waside_fetch|apply waside_type].
Qed.
Lemma waside_tables n addr fc level : waside (wtables cpu_compatible n addr fc level).
Proof. induction n as [|n IH]; [apply waside_end|]. apply (waside_seq _ _ (waside_table _ _ _) IH). Qed.
Lemma waside_indirect level : waside (windirect cpu_compatible level).
Proof.
  apply waside_seq; [apply waside_level|]. apply waside_seq; [intros w s; apply waside_fetch|].
  intros w s. by destruct (_ =? _).
Qed.
Lemma waside_page addr fc write level : waside (wpage cpu_compatible addr fc write level).
Proof.
  assert (Hmark : waside (wmark cpu_compatible write level)).
  { intros w s. unfold wmark. destruct (_ && _); [|done]. cbv zeta. destruct (_ =? _); [done|].
    apply (waside_seq _ _ (waside_mod _) waside_store). }
  apply waside_seq; [|apply waside_seq; [|apply waside_mod]]; intros w s.
  - unfold wpage_bits. destruct (truth _); [|done].
    apply waside_seq; [apply waside_mod|]. apply waside_seq; [done|]. apply waside_seq; [apply waside_report|done].
  - unfold wearly. destruct (early_termination w); [|done]. destruct (table _ !! _) as [ti|]; [|done].
    destruct (unused_fields_mask _ _); [|done]. apply waside_seq; [|apply waside_mod].
    destruct (_ || _); [apply waside_limit|apply waside_end].
Qed.
Lemma aside_search addr fc write level : aside (wsearch cpu_compatible addr fc write level).
Proof.
  intros s. unfold wsearch.
  assert (Hb : waside (wbody cpu_compatible addr fc write level)).
  { intros w s0. unfold wbody. set (f := wseq _ _).
    assert (Hf : waside f) by (exact (waside_seq _ _ (waside_root _) (waside_seq _ _ (waside_fcl _)
      (waside_seq _ _ (waside_tables _ _ _ _) (waside_indirect _))))).
    specialize (Hf w s0). destruct (f w s0) as [[[] w1] s1]; try done. rewrite <- Hf. apply waside_page. }
  specialize (Hb walk0 s). by destruct (wbody _ _ _ _ _ _ _) as [[[] w1] s1].
Qed.
Lemma aside_table_search addr fc write level : aside (mmu030_table_search cpu_compatible addr fc write level).
Proof.
  unfold mmu030_table_search. aside_step; [asides|]. aside_step. aside_step; [asides|].
  aside_step; [apply aside_search|]. asides.
Qed.

(** *** The accessors *)
Lemma aside_is_in_atc addr fc write : aside (mmu030_logical_is_in_atc addr fc write).
Proof. intros s. unfold mmu030_logical_is_in_atc. by destruct (logical_is_in_atc _ _ _ _). Qed.
Lemma aside_atc_line l : aside (atc_line l).
Proof. unfold atc_line. asides. Qed.
Lemma aside_lookup {A} addr fc write (use : option nat -> M30 M A) : (forall l, aside (use l)) ->
  aside (atc_lookup cpu_compatible addr fc write use).
Proof.
  intros Hu. unfold atc_lookup. aside_step; [apply aside_is_in_atc|]. destruct a; [apply Hu|].
  aside_step; [apply aside_table_search|]. aside_step; [apply aside_is_in_atc|apply Hu].
Qed.
Ltac aside_use :=
  aside_step; [apply aside_atc_line|]; aside_step;
  match goal with |- aside (if ?b then _ else _) => destruct b end; [apply aside_page_fault|asides].
Lemma aside_get_atc addr fc size l : aside (mmu030_get_atc cpu_compatible addr l fc size).
Proof. unfold mmu030_get_atc. aside_use. Qed.
Lemma aside_put_atc addr fc size l : aside (mmu030_put_atc cpu_compatible addr l fc size).
Proof. unfold mmu030_put_atc. aside_use. Qed.
Lemma aside_get_i_atc addr fc size l : aside (mmu030_get_i_atc cpu_compatible addr l fc size).
Proof. unfold mmu030_get_i_atc. aside_use. Qed.
Lemma aside_get_atc_generic addr fc flags w l : aside (mmu030_get_atc_generic cpu_compatible addr l fc flags w).
Proof. unfold mmu030_get_atc_generic. aside_use. Qed.
Lemma aside_put_atc_generic addr fc flags l : aside (mmu030_put_atc_generic cpu_compatible addr l fc flags).
Proof. unfold mmu030_put_atc_generic. aside_use. Qed.
Lemma aside_cacheable a : aside (cacheablecheck (M := M) ce_cachable a).
Proof. unfold cacheablecheck. asides. Qed.

Lemma aside_end_get size a : aside (cacheablecheck ce_cachable a ;;; get_phys30 cpu_compatible size a).
Proof. aside_step; [apply aside_cacheable|apply aside_get_phys]. Qed.
Lemma aside_end_put size a v : aside (cacheablecheck ce_cachable a ;;; put_phys30 cpu_compatible size a v).
Proof. aside_step; [apply aside_cacheable|apply aside_put_phys]. Qed.

Lemma aside_translate_get addr fc ss size :
  aside (let! a := get_translate cpu_compatible addr fc ss in cacheablecheck ce_cachable a ;;; get_phys30 cpu_compatible size a).
Proof.
  aside_step; [|apply aside_end_get]. unfold get_translate. aside_step; [asides|]. aside_step.
  destruct (through_atc _ _ _); [|asides]. destruct (_ =? _); [asides|].
  apply aside_lookup. intros l. apply aside_get_atc.
Qed.
Lemma aside_translate_put addr fc ss size v :
  aside (let! a := put_translate cpu_compatible addr fc ss in cacheablecheck ce_cachable a ;;; put_phys30 cpu_compatible size a v).
Proof.
  aside_step; [|apply aside_end_put]. unfold put_translate. aside_step; [asides|]. aside_step.
  destruct (through_atc _ _ _); [|asides]. destruct (_ =? _); [asides|].
  apply aside_lookup. intros l. apply aside_put_atc.
Qed.
Lemma aside_fetch addr fc ss size : aside (get_itranslate cpu_compatible ce_cachable addr fc ss size).
Proof.
  unfold get_itranslate. aside_step. destruct (_ =? _).
  - aside_step; [asides|apply aside_get_phys].
  - aside_step; [asides|]. aside_step; [asides|]. aside_step. aside_step; [|apply aside_end_get].
    destruct (through_atc _ _ _); [|asides]. apply aside_lookup. intros l. apply aside_get_i_atc.
Qed.
Lemma aside_get_generic addr fc size flags : aside (mmu030_get_generic cpu_compatible ce_cachable addr fc size flags).
Proof.
  unfold mmu030_get_generic, mmu030_get_generic_lrmw. destruct (truth _); (aside_step; [|apply aside_end_get]);
    unfold get_generic_at; (aside_step; [asides|]); aside_step; (destruct (through_atc _ _ _); [|asides]);
    apply aside_lookup; intros l; apply aside_get_atc_generic.
Qed.
Lemma aside_put_generic addr v fc size flags : aside (mmu030_put_generic cpu_compatible ce_cachable addr v fc size flags).
Proof.
  unfold mmu030_put_generic, mmu030_put_generic_lrmw. destruct (truth _); (aside_step; [|apply aside_end_put]);
    unfold put_generic_at; (aside_step; [asides|]); aside_step; (destruct (through_atc _ _ _); [|asides]);
    apply aside_lookup; intros l; apply aside_put_atc_generic.
Qed.

Ltac aside_acc := repeat
  lazymatch goal with
  | |- aside (mmu030_get_generic _ _ _ _ _ _) => apply aside_get_generic
  | |- aside (mmu030_put_generic _ _ _ _ _ _ _) => apply aside_put_generic
  | |- aside (mmu030_get_long _ _ _ _) => apply aside_translate_get
  | |- aside (mmu030_get_word _ _ _ _) => apply aside_translate_get
  | |- aside (mmu030_get_byte _ _ _ _) => apply aside_translate_get
  | |- aside (mmu030_put_long _ _ _ _ _) => apply aside_translate_put
  | |- aside (mmu030_put_word _ _ _ _ _) => apply aside_translate_put
  | |- aside (mmu030_put_byte _ _ _ _ _) => apply aside_translate_put
  | |- aside (mmu030_get_iword _ _ _ _) => apply aside_fetch
  | |- aside (mmu030_get_ilong _ _ _ _) => apply aside_fetch
  | |- aside (set_buffer _) => apply aside_fl; intros ?; repeat split
  | |- aside (set_state1 _) => apply aside_fl; intros ?; repeat split
  | |- aside (unalign_init _ _) => apply aside_fl; intros ?; repeat split
  | |- aside (unalign_set _) => apply aside_fl; intros ?; repeat split
  | |- aside unalign_clear => apply aside_fl; intros ?; repeat split
  | |- aside buffer30 => intros ?; reflexivity
  | |- _ => aside_step
  end.

Lemma aside_unaligned_get addr fc flags :
  aside (mmu030_get_long_unaligned cpu_compatible ce_cachable addr fc flags) /\
  aside (mmu030_get_word_unaligned cpu_compatible ce_cachable addr fc flags) /\
  aside (mmu030_get_ilong_unaligned cpu_compatible ce_cachable addr fc).
Proof.
  unfold mmu030_get_long_unaligned, mmu030_get_word_unaligned, mmu030_get_ilong_unaligned.
  split; [|split]; aside_acc.
Qed.
Lemma aside_unaligned_put addr v fc flags :
  aside (mmu030_put_long_unaligned cpu_compatible ce_cachable addr v fc flags) /\
  aside (mmu030_put_word_unaligned cpu_compatible ce_cachable addr v fc flags).
Proof. unfold mmu030_put_long_unaligned, mmu030_put_word_unaligned. split; aside_acc. Qed.

Lemma aside_fcx addr v fc :
  aside (uae_mmu030_get_long_fcx cpu_compatible ce_cachable addr fc) /\
  aside (uae_mmu030_get_word_fcx cpu_compatible ce_cachable addr fc) /\
  aside (uae_mmu030_put_long_fcx cpu_compatible ce_cachable addr v fc) /\
  aside (uae_mmu030_put_word_fcx cpu_compatible ce_cachable addr v fc) /\
  aside (uae_mmu030_put_byte_fcx cpu_compatible ce_cachable addr v fc).
Proof.
  unfold uae_mmu030_get_long_fcx, uae_mmu030_get_word_fcx, uae_mmu030_put_long_fcx, uae_mmu030_put_word_fcx,
    uae_mmu030_put_byte_fcx.
  destruct (is_unaligned_bus addr 4), (is_unaligned_bus addr 2); repeat apply conj;
    first [apply aside_unaligned_get | apply aside_unaligned_put | aside_acc].
Qed.

Lemma aside_lrmw addr v size :
  aside (uae_mmu030_get_lrmw cpu_compatible ce_cachable addr size) /\
  aside (uae_mmu030_put_lrmw cpu_compatible ce_cachable addr v size).
Proof.
  unfold uae_mmu030_get_lrmw, uae_mmu030_put_lrmw, uae_mmu030_get_lrmw_fcx, uae_mmu030_put_lrmw_fcx, set_lrmw.
  split; aside_acc; first [apply aside_unaligned_get | apply aside_unaligned_put].
Qed.
End Aside.

(** ** Instructions as sequences of logged accesses *)
Inductive access :=
| AGet (size addr : Z) | APut (size addr v : Z)          (* data *)
| ALocked (size addr : Z) | AUnlock (size addr v : Z)    (* read-modify-write *)
| ASfc (size addr : Z) | ADfc (size addr v : Z)          (* MOVES *)
| ANextW | ANextL                                        (* the next word or long of the instruction *)
| AStore (v : Z).                                        (* a value kept over a restart *)

Section Restart.
Context {M : Type} `{Phys M} (cpu_compatible : bool) (ce_cachable : Z -> Z).
Implicit Types (s : st030 M).

Definition by_size {A} (size : Z) (b w l : A) : A := if size =? sz_byte then b else if size =? sz_word then w else l.

Definition run_access (x : access) : M30 M Z :=
  match x with
  | AGet size a => by_size size (get_byte_mmu030_state cpu_compatible ce_cachable a)
      (get_word_mmu030_state cpu_compatible ce_cachable a) (get_long_mmu030_state cpu_compatible ce_cachable a)
  | APut size a v => by_size size (put_byte_mmu030_state cpu_compatible ce_cachable a v)
      (put_word_mmu030_state cpu_compatible ce_cachable a v) (put_long_mmu030_state cpu_compatible ce_cachable a v) ;;; ret30 0
  | ALocked size a => get_lrmw_mmu030_state cpu_compatible ce_cachable a size
  | AUnlock size a v => put_lrmw_mmu030_state cpu_compatible ce_cachable a v size ;;; ret30 0
  | ASfc size a => by_size size (sfc030_get_byte_state cpu_compatible ce_cachable a)
      (sfc030_get_word_state cpu_compatible ce_cachable a) (sfc030_get_long_state cpu_compatible ce_cachable a)
  | ADfc size a v => by_size size (dfc030_put_byte_state cpu_compatible ce_cachable a v)
      (dfc030_put_word_state cpu_compatible ce_cachable a v) (dfc030_put_long_state cpu_compatible ce_cachable a v) ;;; ret30 0
  | ANextW => next_iword_mmu030_state cpu_compatible ce_cachable
  | ANextL => next_ilong_mmu030_state cpu_compatible ce_cachable
  | AStore v => state_store_mmu030 v
  end.

(** An instruction: it ends with a result, or does an access and goes on with
    its value. *)
Inductive iprog (A : Type) := IEnd (a : A) | IAcc (x : access) (k : Z -> iprog A).
Arguments IEnd {A}. Arguments IAcc {A}.

Fixpoint irun {A} (p : iprog A) : M30 M A :=
  match p with IEnd a => ret30 a | IAcc x k => let! v := run_access x in irun (k v) end.

(** Running an instruction up to one of its accesses. *)
Inductive ireach {A} : iprog A -> st030 M -> iprog A -> st030 M -> Prop :=
| ir_here p s : ireach p s p s
| ir_next x k s v s1 q s2 :
    run_access x s = (Ok v, s1) -> ireach (k v) s1 q s2 -> ireach (IAcc x k) s q s2.

Lemma ireach_irun {A} (p q : iprog A) s s' : ireach p s q s' -> irun p s = irun q s'.
Proof. induction 1 as [|x k s v s1 q s2 E Hr IH]; [done|]. cbn. unfold bind30. by rewrite E. Qed.

(** What an access does with the log: [reply] is what the instruction gets of
    a logged value, [adv] how far the program counter moves. *)
Definition moved (adv pc : Z) : Z := if adv =? 0 then pc else u32 (pc + adv).
Definition log_is s (pc i n : Z) (l : list Z) : Prop := ilog s = (pc, (i, n, l)).
Definition machine s : cpu * mregs030 * mmu030 * M := (cpu30 s, rg30 s, mm30 s, pm30 s).

Record acc_spec (r : M30 M Z) (reply : Z -> Z) (adv : Z) : Prop := mk_as {
  as_replay : forall s pc i n l v, log_is s pc i n l -> 0 <= i < n -> l !! Z.to_nat i = Some v ->
    exists s', r s = (Ok (reply v), s') /\ machine s' = machine s /\ log_is s' (moved adv pc) (i + 1) n l;
  as_fresh : forall s pc n l, log_is s pc n n l -> 0 <= n ->
    match r s with
    | (Ok a, s') => exists v, a = reply v /\ n < Z.of_nat (length l) /\
        log_is s' (moved adv pc) (n + 1) (n + 1) (<[Z.to_nat n := v]> l)
    | (Thrown _, s') => log_is s' pc (n + 1) n l
    | (Undefined, _) => True
    end }.

Lemma next_idx_ok s pc i n l : log_is s pc i n l -> exists s',
  next_idx s = (Ok (i <? n), s') /\ machine s' = machine s /\ log_is s' pc (i + 1) n l.
Proof.
  unfold log_is, ilog. intros E. injection E as E1 E2 E3 E4. eexists. split; [unfold next_idx, bind30, get30, ret30; by rewrite E2, E3|].
  split; [done|]. cbn. by rewrite E1, E2, E3, E4.
Qed.
Lemma logged_ok s pc i n l v : log_is s pc (i + 1) n l -> l !! Z.to_nat i = Some v -> logged_value s = (Ok v, s).
Proof.
  unfold log_is, ilog. intros E Hl. injection E as E1 E2 E3 E4. unfold logged_value, bind30, get30.
  rewrite E2, E4. replace (i + 1 - 1) with i by lia. by rewrite Hl.
Qed.
Lemma log_ok s pc i n l v : log_is s pc i n l -> n < Z.of_nat (length l) -> exists s',
  log_value v s = (Ok tt, s') /\ log_is s' pc i (n + 1) (<[Z.to_nat n := v]> l).
Proof.
  unfold log_is, ilog. intros E Hn. injection E as E1 E2 E3 E4. unfold log_value, bind30, get30.
  rewrite E3, E4. destruct (Z.ltb_spec n (Z.of_nat (length l))); [|lia].
  eexists. split; [done|]. cbn. by rewrite E1, E2, E4.
Qed.
Lemma log_full s pc i n l v : log_is s pc i n l -> Z.of_nat (length l) <= n -> log_value v s = (Undefined, s).
Proof.
  unfold log_is, ilog. intros E Hn. injection E as E1 E2 E3 E4. unfold log_value, bind30, get30.
  rewrite E3, E4. destruct (Z.ltb_spec n (Z.of_nat (length l))); [lia|done].
Qed.

Lemma aside_log {A} (m : M30 M A) s pc i n l : aside m -> log_is s pc i n l -> log_is (m s).2 pc i n l.
Proof. intros Hm E. unfold log_is. by rewrite Hm. Qed.

(** The value of an access that was done, logged. *)
Lemma log_end {A} s pc i n l v (r : A) : log_is s pc i n l ->
  match (log_value v ;;; ret30 r) s with
  | (Ok a, s') => a = r /\ n < Z.of_nat (length l) /\ log_is s' pc i (n + 1) (<[Z.to_nat n := v]> l)
  | (Thrown _, _) => False
  | (Undefined, _) => True
  end.
Proof.
  intros E. unfold bind30. destruct (Z_lt_le_dec n (Z.of_nat (length l))) as [Hn|Hn].
  - by destruct (log_ok _ _ _ _ _ v E Hn) as (s' & -> & E').
  - by rewrite (log_full _ _ _ _ _ v E Hn).
Qed.

Lemma spec_pc adv (m : M30 M Z) : adv <> 0 -> aside m -> acc_spec (access_get_pc adv m) id adv.
Proof.
  intros Ha%Z.eqb_neq Hm. split.
  - intros s pc i n l v E Hi Hl. destruct (next_idx_ok _ _ _ _ _ E) as (s1 & E1 & Hs1 & L1).
    unfold access_get_pc. unfold bind30 at 1. rewrite E1. destruct (Z.ltb_spec i n); [|lia].
    unfold bind30 at 1. rewrite (logged_ok _ _ _ _ _ _ L1 Hl). eexists. split; [reflexivity|]. split; [exact Hs1|].
    unfold log_is, ilog in *. cbn. injection L1 as -> -> -> ->. unfold moved. by rewrite Ha.
  - intros s pc n l E Hn. destruct (next_idx_ok _ _ _ _ _ E) as (s1 & E1 & Hs1 & L1).
    unfold access_get_pc. unfold bind30 at 1. rewrite E1, Z.ltb_irrefl. unfold bind30 at 1.
    pose proof (aside_log m s1 _ _ _ _ Hm L1) as L2. destruct (m s1) as [[v|e|] s2]; cbn [snd] in L2; [|done|done].
    unfold bind30 at 1, m68k_incpci, mod30. set (s3 := {| s2 with pci30 := _ |}).
    assert (L3 : log_is s3 (moved adv pc) (n + 1) n l).
    { unfold log_is, ilog in *. cbn. injection L2 as -> -> -> ->. unfold moved. by rewrite Ha. }
    pose proof (log_end s3 _ _ _ _ v v L3) as Hl. destruct ((log_value v ;;; ret30 v) s3) as [[a|e|] s4]; try done.
    destruct Hl as (-> & Hlt & L4). by exists v.
Qed.

Lemma spec_get (m : M30 M Z) : aside m -> acc_spec (access_get m) id 0.
Proof.
  intros Hm. split.
  - intros s pc i n l v E Hi Hl. destruct (next_idx_ok _ _ _ _ _ E) as (s1 & E1 & Hs1 & L1).
    unfold access_get, bind30. rewrite E1. destruct (Z.ltb_spec i n); [|lia].
    exists s1. by rewrite (logged_ok _ _ _ _ _ _ L1 Hl).
  - intros s pc n l E Hn. destruct (next_idx_ok _ _ _ _ _ E) as (s1 & E1 & Hs1 & L1).
    unfold access_get. unfold bind30 at 1. rewrite E1, Z.ltb_irrefl. unfold bind30 at 1.
    pose proof (aside_log m s1 _ _ _ _ Hm L1) as L2. destruct (m s1) as [[v|e|] s2]; cbn [snd] in L2; [|done|done].
    pose proof (log_end s2 _ _ _ _ v v L2) as Hl. destruct ((log_value v ;;; ret30 v) s2) as [[a|e|] s4]; try done.
    destruct Hl as (-> & Hlt & L4). by exists v.
Qed.

Lemma spec_store v : acc_spec (state_store_mmu030 v) id 0.
Proof.
  split.
  - intros s pc i n l w E Hi Hl. destruct (next_idx_ok _ _ _ _ _ E) as (s1 & E1 & Hs1 & L1).
    unfold state_store_mmu030, bind30. rewrite E1. destruct (Z.ltb_spec i n); [|lia].
    exists s1. by rewrite (logged_ok _ _ _ _ _ _ L1 Hl).
  - intros s pc n l E Hn. destruct (next_idx_ok _ _ _ _ _ E) as (s1 & E1 & Hs1 & L1).
    unfold state_store_mmu030. unfold bind30 at 1. rewrite E1, Z.ltb_irrefl.
    pose proof (log_end s1 _ _ _ _ v v L1) as Hl. destruct ((log_value v ;;; ret30 v) s1) as [[a|e|] s4]; try done.
    destruct Hl as (-> & Hlt & L4). by exists v.
Qed.

Lemma spec_put v (m : M30 M unit) : aside m -> acc_spec (access_put v m ;;; ret30 0) (fun _ => 0) 0.
Proof.
  intros Hm. split.
  - intros s pc i n l w E Hi Hl. destruct (next_idx_ok _ _ _ _ _ E) as (s1 & E1 & Hs1 & L1).
    unfold access_put, bind30. rewrite E1. destruct (Z.ltb_spec i n); [|lia]. by exists s1.
  - intros s pc n l E Hn. destruct (next_idx_ok _ _ _ _ _ E) as (s1 & E1 & Hs1 & L1).
    unfold access_put. unfold bind30 at 1, bind30 at 1. rewrite E1, Z.ltb_irrefl.
    unfold bind30 at 1, set_buffer at 1, set_fl30 at 1, mod30 at 1.
    set (s2 := {| s1 with fl30 := _ |}). assert (L2 : log_is s2 pc (n + 1) n l) by exact L1.
    unfold bind30 at 1. pose proof (aside_log m s2 _ _ _ _ Hm L2) as L3.
    destruct (m s2) as [[[]|e|] s3]; cbn [snd] in L3; [|done|done].
    unfold bind30 at 1, buffer30, bind30 at 1, get30, ret30 at 1.
    pose proof (log_end s3 _ _ _ _ (data_buffer_out (fl30 s3)) 0 L3) as Hl. unfold bind30 in Hl.
    destruct (log_value _ s3) as [[a|e|] s4]; try done. destruct Hl as (_ & Hlt & L4). by eexists.
Qed.

Lemma spec_look (k : st030 M -> M30 M Z) reply adv : (forall s, acc_spec (k s) reply adv) -> acc_spec (bind30 get30 k) reply adv.
Proof. intros Hk. split; intros s; [apply (as_replay _ _ _ (Hk s) s)|apply (as_fresh _ _ _ (Hk s) s)]. Qed.

Definition reply_of (x : access) (v : Z) : Z :=
  match x with APut _ _ _ | AUnlock _ _ _ | ADfc _ _ _ => 0 | _ => v end.
Definition adv_of (x : access) : Z := match x with ANextW => 2 | ANextL => 4 | _ => 0 end.

Lemma aside_uae_get a : aside (uae_mmu030_get_long cpu_compatible ce_cachable a) /\
  aside (uae_mmu030_get_word cpu_compatible ce_cachable a) /\ aside (uae_mmu030_get_byte cpu_compatible ce_cachable a) /\
  aside (uae_mmu030_get_iword cpu_compatible ce_cachable a) /\ aside (uae_mmu030_get_ilong cpu_compatible ce_cachable a).
Proof.
  assert (Hf := fun fc => aside_fcx cpu_compatible ce_cachable a 0 fc).
  repeat apply conj; apply aside_get; intros s.
  - apply Hf.
  - apply Hf.
  - apply aside_translate_get.
  - apply aside_fetch.
  - destruct (is_unaligned_bus a 4); [apply (aside_unaligned_get _ _ a _ 0)|apply aside_fetch].
Qed.
Lemma aside_uae_put a v : aside (uae_mmu030_put_long cpu_compatible ce_cachable a v) /\
  aside (uae_mmu030_put_word cpu_compatible ce_cachable a v) /\ aside (uae_mmu030_put_byte cpu_compatible ce_cachable a v).
Proof.
  assert (Hf := fun fc => aside_fcx cpu_compatible ce_cachable a v fc).
  repeat apply conj; apply aside_get; intros s; apply Hf.
Qed.

Lemma aside_moves_flag b : aside (set_moves (M := M) b).
Proof. by apply aside_fl. Qed.
Lemma spec_moves_get (m : M30 M Z) : aside m -> acc_spec (moves_get m) id 0.
Proof.
  intros Hm. apply spec_get. apply aside_bind; [apply aside_moves_flag|]. intros _. apply aside_bind; [done|].
  intros v. apply aside_bind; [apply aside_moves_flag|]. intros _. apply aside_ret.
Qed.
Lemma spec_moves_put v (m : M30 M unit) : aside m -> acc_spec (moves_put v m ;;; ret30 0) (fun _ => 0) 0.
Proof.
  intros Hm. apply spec_put. apply aside_bind; [apply aside_moves_flag|]. intros _. apply aside_bind; [done|].
  intros _. apply aside_moves_flag.
Qed.

Lemma run_access_ok x : acc_spec (run_access x) (reply_of x) (adv_of x).
Proof.
  assert (Hfc : aside (M := M) sfc30 /\ aside (M := M) dfc30) by (split; intros s; reflexivity).
  destruct x as [size a|size a v|size a|size a v|size a|size a v| | |v]; cbn [run_access]; unfold by_size.
  - destruct (size =? sz_byte); [|destruct (size =? sz_word)]; apply spec_get; apply aside_uae_get.
  - destruct (size =? sz_byte); [|destruct (size =? sz_word)]; apply spec_put; apply aside_uae_put.
  - apply spec_get, (aside_lrmw _ _ a 0 size).
  - apply spec_put, (aside_lrmw _ _ a v size).
  - destruct (size =? sz_byte); [|destruct (size =? sz_word)]; apply spec_moves_get, aside_bind; try apply Hfc; intros fc.
    + apply aside_translate_get.
    + apply (aside_fcx _ _ a 0).
    + apply (aside_fcx _ _ a 0).
  - destruct (size =? sz_byte); [|destruct (size =? sz_word)]; apply spec_moves_put, aside_bind; try apply Hfc;
      intros fc; apply (aside_fcx _ _ a v).
  - apply spec_look. intros s. apply spec_pc; [done|]. apply aside_uae_get.
  - apply spec_look. intros s. apply spec_pc; [done|]. apply aside_uae_get.
  - apply spec_store.
Qed.

(** ** Restart *)

(** A run that stops at a fault: the access that faulted, the log so far, and
    what any run that starts with this log does. *)
Lemma run_faults {A} (p : iprog A) s e s1 pc n l : irun p s = (Thrown e, s1) -> log_is s pc n n l -> 0 <= n ->
  exists x k s0 n1 l1 pc1, ireach p s (IAcc x k) s0 /\ run_access x s0 = (Thrown e, s1) /\ n <= n1 /\
    log_is s0 pc1 n1 n1 l1 /\ log_is s1 pc1 (n1 + 1) n1 l1 /\
    (forall i, 0 <= i < n -> l1 !! Z.to_nat i = l !! Z.to_nat i) /\
    forall s2, log_is s2 pc n n1 l1 -> exists s3, ireach p s2 (IAcc x k) s3 /\
      machine s3 = machine s2 /\ log_is s3 pc1 n1 n1 l1.
Proof.
  revert s pc n l. induction p as [a|x k IH]; intros s pc n l E L Hn; [done|].
  pose proof (as_fresh _ _ _ (run_access_ok x) s pc n l L Hn) as Hf. cbn [irun] in E. unfold bind30 in E.
  destruct (run_access x s) as [[v|e'|] s'] eqn:Ex; [|injection E as -> ->|done].
  - destruct Hf as (w & -> & Hlt & L').
    destruct (IH _ s' _ _ _ E L' ltac:(lia)) as (y & k' & s0 & n1 & l1 & pc1 & Hr & Ey & Hle & L0 & L1 & Hi & Hre).
    exists y, k', s0, n1, l1, pc1. split; [by econstructor|]. split; [done|]. split; [lia|]. split; [done|].
    split; [done|]. split; [intros i Hin; rewrite Hi by lia; apply list_lookup_insert_ne; lia|].
    intros s2 L2. assert (Hw : l1 !! Z.to_nat n = Some w) by (rewrite Hi by lia; apply list_lookup_insert_eq; lia).
    destruct (as_replay _ _ _ (run_access_ok x) s2 pc n n1 l1 w L2 ltac:(lia) Hw) as (s2' & E2 & Hm & L2').
    destruct (Hre s2' L2') as (s3 & Hr3 & Hm3 & L3). exists s3. split; [by econstructor|]. by rewrite Hm3.
  - exists x, k, s, n, l, pc. split; [constructor|]. split; [done|]. split; [lia|]. split; [done|]. split; [done|].
    split; [done|]. intros s2 L2. exists s2. split; [constructor|done].
Qed.

(** C4: a 68030 instruction that faults can be run again.  Whatever its
    accesses (data, locked, MOVES, instruction words), the log it leaves makes a
    second run, with memory, tables and caches changed in any way, come to the
    access that faulted with the values of the first run, with the program
    counter where it stood at the fault, and without performing any of the
    accesses before it a second time: registers, MMU and memory are untouched
    until then. *)
Theorem instruction_restarts {A} (p : iprog A) s e s1 s2 :
  irun p s = (Thrown e, s1) -> idx30 (fl30 s) = 0 -> idx_done30 (fl30 s) = 0 ->
  pci30 s2 = pci30 s -> idx30 (fl30 s2) = 0 ->
  idx_done30 (fl30 s2) = idx_done30 (fl30 s1) -> ad30 (fl30 s2) = ad30 (fl30 s1) ->
  exists x k s0 s3, ireach p s (IAcc x k) s0 /\ run_access x s0 = (Thrown e, s1) /\
    ireach p s2 (IAcc x k) s3 /\ irun p s2 = irun (IAcc x k) s3 /\
    machine s3 = machine s2 /\ pci30 s3 = pci30 s1 /\ idx30 (fl30 s3) = idx_done30 (fl30 s3).
Proof.
  intros E Hi Hd Hpc Hi2 Hd2 Ha2.
  assert (L : log_is s (pci30 s) 0 0 (ad30 (fl30 s))) by (unfold log_is, ilog; by rewrite Hi, Hd).
  destruct (run_faults p s e s1 _ 0 _ E L ltac:(lia)) as (x & k & s0 & n1 & l1 & pc1 & Hr & Ex & _ & _ & L1 & _ & Hre).
  unfold log_is, ilog in L1. injection L1 as E1 E2 E3 E4.
  destruct (Hre s2) as (s3 & Hr3 & Hm3 & L3); [unfold log_is, ilog; by rewrite Hpc, Hi2, Hd2, Ha2, E3, E4|].
  unfold log_is, ilog in L3. injection L3 as F1 F2 F3 F4.
  exists x, k, s0, s3. split; [done|]. split; [done|]. split; [done|]. split; [by apply ireach_irun|].
  split; [done|]. by rewrite F1, F2, F3, E1.
Qed.
End Restart.

(** ** An instruction whose second operand is on a page not there yet *)
Definition two_reads : iprog Z :=
  IAcc Z ANextW (fun w => IAcc Z (AGet sz_long 0x1010) (fun a => IAcc Z (AGet sz_long 0x3010) (fun b => IEnd Z (w + a + b)))).
Definition st_two : st030 lram := {| st_4K_flushed with pci30 := 0x1020 |}.
Definition st_faulted : st030 lram := (irun false (fun _ => 0) two_reads st_two).2.
Definition ram_paged_in : lram := mk_lram 0x100000 (list_to_map
  [(0x1000, 0x2002); (0x2004, 0x5001); (0x200C, 0x7001); (0x5010, 0x1111); (0x7010, 0xBEEF)]).
Definition st_again : st030 lram :=
  {| st_faulted with pm30 := ram_paged_in; pci30 := 0x1020; mm30 := mmu030_flush_atc_all (mm30 st_faulted);
                     fl30 := {| (fl30 st_faulted) with idx30 := 0 |} |}.

Lemma instruction_restarts_witness :
  fst (irun false (fun _ => 0) two_reads st_again) = Ok (0xCAFE + 0xBEEF) /\
  exists x k s3, irun false (fun _ => 0) two_reads st_again = irun false (fun _ => 0) (IAcc Z x k) s3 /\
    machine s3 = machine st_again.
Proof.
  split; [vm_compute; reflexivity|].
  assert (E : irun false (fun _ => 0) two_reads st_two = (Thrown 2, st_faulted)).
  { unfold st_faulted. assert (E1 : fst (irun false (fun _ => 0) two_reads st_two) = Thrown 2) by (vm_compute; reflexivity).
    rewrite <- E1. apply surjective_pairing. }
  assert (Hd : idx_done30 (fl30 st_again) = idx_done30 (fl30 st_faulted)) by (vm_compute; reflexivity).
  assert (Ha : ad30 (fl30 st_again) = ad30 (fl30 st_faulted)) by (vm_compute; reflexivity).
  destruct (instruction_restarts false (fun _ => 0) two_reads st_two 2 st_faulted st_again E eq_refl eq_refl eq_refl
    eq_refl Hd Ha) as (x & k & s0 & s3 & _ & _ & _ & Er & Hm & _).
  exists x, k, s3. split; [exact Er|exact Hm].
Defined.
