(* ===== verification/Mmu030Top.v ===== *)
(** * Mmu030Top: the 68030 MMU as a whole

    Sequences of accesses, fetches, flushes, PLOAD, PTEST and changes of
    memory from outside refine runs of the translation buffer; the table
    search equals its reference; what a flush, a PTEST and a translation
    control value do. *)

From S2P Require Import Prelude Flags Cpu Movec Mmu Frames Mmu030 Mmu030Op Mmu030Spec Mmu030Walk Mmu030Tlb Mmu030Acc Mmu030Sim Mmu030Load MmuRam.
From Stdlib Require Import ZArith Lia Bool.
From stdpp Require Import base list gmap.
Open Scope Z_scope.
Open Scope cint_scope.
Open Scope m30_scope.

#[local] Opaque atc_scan mmu030_atc_handle_history_bit ATC030_NUM_ENTRIES atc_victim.

Section Top.
Context {M : Type} `{Phys M} (cpu_compatible : bool) (ce_cachable : Z -> Z).
Implicit Types (s : st030 M) (T : tbuf).

(** ** Runs *)
Fixpoint run_ops (os : list (mop M)) s : option (list mout) * st030 M :=
  match os with
  | [] => (Some [], s)
  | o :: os =>
      match run_op cpu_compatible ce_cachable o s with
      | (Some out, s') => let '(outs, s'') := run_ops os s' in (cons out <$> outs, s'')
      | (None, s') => (None, s')
      end
  end.

Inductive tb_run (c : cfg) : list (mop M) -> tbuf * M -> list mout -> tbuf * M -> Prop :=
| tr_nil x : tb_run c [] x [] x
| tr_cons o os x out y outs z :
    tb_step c o x out y -> tb_run c os y outs z -> tb_run c (o :: os) x (out :: outs) z.

(** Configurations that agree pointwise are the same to the buffer. *)
#[local] Instance cfg_equiv : Equiv cfg := fun c c' =>
  cf_dbg c = cf_dbg c' /\ cf_rg c = cf_rg c' /\ cf_tr c = cf_tr c' /\
  forall addr fc write, cf_through c addr fc write = cf_through c' addr fc write.
#[local] Instance cfg_equivalence : Equivalence (≡@{cfg}).
Proof.
  split; [by intros c; repeat split|by intros c c' (? & ? & ? & ?); repeat split|].
  intros c1 c2 c3 (? & ? & ? & Ht) (? & ? & ? & Ht'). repeat split; try (by etransitivity).
  intros. by rewrite Ht, Ht'.
Qed.
#[local] Instance tb_step_proper : Proper ((≡) ==> (=) ==> (=) ==> (=) ==> (=) ==> impl) tb_step.
Proof.
  intros [d r t th] [d' r' t' th'] (E1 & E2 & E3 & Eth) o ? <- x ? <- out ? <- y ? <-.
  cbn in E1, E2, E3, Eth. subst d' r' t'. intros Hst. destruct Hst; cbn [cf_dbg cf_rg cf_tr cf_through] in *;
    rewrite ?Eth in *; eauto using tb_step.
Qed.
#[local] Instance tb_run_proper : Proper ((≡) ==> (=) ==> (=) ==> (=) ==> (=) ==> impl) tb_run.
Proof.
  intros c c' Hc os ? <- x ? <- outs ? <- y ? <-. induction 1 as [x|o os x out y outs z Hst Hr IH]; [constructor|].
  apply (tr_cons c' o os x out y outs z); [by rewrite <- Hc|exact IH].
Qed.

Lemma cfg_of_env s s' : acc_env s s' -> cfg_of s' ≡ cfg_of s.
Proof.
  intros [E1 E2 E3 E4 [E5 E6 E7 E8 E9]]. unfold cfg_of. repeat split; cbn; try done.
  intros addr fc write. unfold through_atc, mmu030_match_ttr_access. by rewrite E1, E6, E7, E8, E9.
Qed.

Lemma op_ok_env s s' o : acc_env s s' -> op_ok s o -> op_ok s' o.
Proof. intros [E _ _ _ _]. destruct o; cbn; by rewrite ?E. Qed.

Lemma run_ops_sim os s T : coherent (mm30 s) T -> Forall (op_ok s) os ->
  exists outs s' T', run_ops os s = (Some outs, s') /\
    tb_run (cfg_of s) os (T, pm30 s) outs (T', pm30 s') /\ coherent (mm30 s') T' /\ acc_env s s'.
Proof.
  revert s T. induction os as [|o os IH]; intros s T Hco Hok; cbn [run_ops].
  { exists [], s, T. split; [done|]. split; [constructor|]. done. }
  apply Forall_cons in Hok as [Ho Hos].
  destruct (op_simulates cpu_compatible ce_cachable s T o Hco Ho) as (out & s1 & T1 & -> & Hst & Hco1 & He1).
  assert (Hos1 : Forall (op_ok s1) os) by (eapply Forall_impl; [exact Hos|]; intros; by eapply op_ok_env).
  destruct (IH s1 T1 Hco1 Hos1) as (outs & s2 & T2 & -> & Hr & Hco2 & He2).
  exists (out :: outs), s2, T2. split; [done|]. split; [|split; [done|by transitivity s1]].
  apply (tr_cons _ _ _ _ _ (T1, pm30 s1)); [exact Hst|]. by rewrite <- (cfg_of_env _ _ He1).
Qed.

(** ** Flushes *)

(** A flush of everything, of the function code, or of the page. *)
Definition flushes (o : mop M) (tr : translation030) (addr fc : Z) : bool :=
  match o with
  | MFlushAll => true
  | MFlushFc fcb fcm => fc_hit fcb fcm (key_of tr addr fc)
  | MFlushPage a fcb fcm => fc_hit fcb fcm (key_of tr addr fc) && page_hit (a .& page_imask tr) (key_of tr addr fc)
  | _ => false
  end.

Lemma flush_forgets c o addr fc x out y : flushes o (cf_tr c) addr fc = true -> tb_step c o x out y ->
  x.2 = y.2 /\ y.1 !! key_of (cf_tr c) addr fc = None.
Proof.
  intros Hfl Hst. destruct Hst; try done; cbn [flushes] in Hfl; cbn [fst snd]; split; try done.
  - by rewrite keep_lookup, Hfl.
  - by rewrite keep_lookup, Hfl.
Qed.

(** ** PTEST looks only *)
Lemma sstore_same dbg a v (m : M) : sstore dbg a v v m = Some m.
Proof. unfold sstore. by rewrite Z.eqb_refl. Qed.

Lemma spage_look addr fc write level dbg xs d a (m : M) : level <> 0 ->
  snd (spage addr fc write level dbg xs d a m) = m.
Proof.
  intros Hl%Z.eqb_neq. unfold spage. rewrite Hl. cbn [andb].
  destruct (a_num a =? 0); [done|]. by rewrite sstore_same.
Qed.
Lemma swalk_look addr fc write level dbg xs d a (m : M) : level <> 0 ->
  snd (swalk addr fc write level dbg xs d a m) = m.
Proof.
  intros Hl. pose proof (proj2 (Z.eqb_neq _ _) Hl) as El. revert d a. induction xs as [|x xs IH]; intros d a; cbn [swalk].
  - destruct (at_level _ _); [done|]. destruct (sfetch _ _ _); [|done].
    destruct (sd_type _ =? DESCR_TYPE_PAGE); [|done]. by apply spage_look.
  - rewrite El, andb_false_r. cbn [andb]. rewrite sstore_same.
    match goal with |- context [if ?b then (sr_fail _ 0, m) else _] => destruct b end; [done|].
    destruct (ix_limit _ _ _); [done|]. destruct (sfetch _ _ _) as [d'|]; [|done].
    unfold sclass. destruct (sd_type _ =? DESCR_TYPE_INVALID); [done|].
    destruct (sd_type _ =? DESCR_TYPE_PAGE); [by apply spage_look|apply IH].
Qed.
Lemma ssearch_look addr fc write level dbg rg tr (m : M) : level <> 0 ->
  snd (ssearch addr fc write level dbg rg tr m) = m.
Proof.
  intros Hl. unfold ssearch, sclass. destruct (sd_type _ =? DESCR_TYPE_INVALID); [done|].
  destruct (sd_type _ =? DESCR_TYPE_PAGE); [by apply spage_look|by apply swalk_look].
Qed.
End Top.

(** ** The theorems *)
Section Theorems.
Context {M : Type} `{Phys M} (p : prefs) (cpu_compatible : bool) (ce_cachable : Z -> Z).
Implicit Types (s : st030 M) (T : tbuf).


(** C3: [mmu030_table_search] computes the search of the manual (the recursion
    of [Mmu030Spec]): the same memory with the same used and modified bits, the
    address of the last descriptor for PTEST, and either one new cache entry
    made from the result (a real search) or the result's status word (PTEST).
    It fetches at most six descriptors, always returns, and leaves registers and
    privilege as they were. *)
Theorem table_search_spec addr fc write level s : tr_shape (translation (mm30 s)) ->
  let '(r, m) := ssearch addr fc write level (debugger30 s) (rg30 s) (translation (mm30 s)) (pm30 s) in
  exists s', mmu030_table_search cpu_compatible addr fc write level s
      = (Ok (if level =? 0 then 0 else if r_num r =? 0 then 0 else r_last r), s') /\
    pm30 s' = m /\ rg30 s' = rg30 s /\ reg_s (cpu30 s') = reg_s (cpu30 s) /\ 0 <= r_num r <= 6 /\
    mm30 s' = if level =? 0 then atc_made addr fc r (mm30 s)
              else {| (mm30 s) with status := (sr_status r .& Z.lnot MMUSR_NUM_LEVELS_MASK) .| r_num r |}.
Proof.
  intros Hsh. pose proof (table_search_ok cpu_compatible addr fc write level s Hsh) as Hts.
  destruct (ssearch _ _ _ _ _ _ _ _) as [r m]. destruct Hts as (s' & E & Hp & Hr & _ & _ & _ & Hs & Hn & Hm).
  by exists s'.
Qed.



(** C19: PTEST with a level searches the tables and looks only: no byte of
    memory and no cached translation changes, the status register gets the
    status of the reference search, and the address register, when one is
    named, the address of the last descriptor. *)
Theorem ptest_looks opcode next extra s T fc : coherent (mm30 s) T ->
  mmu_op30_invea opcode = false -> mmu_op30_helper_get_fc next (cpu30 s) = Some fc ->
  let level := (next .& 0x1C00) >> 10 in
  level <> 0 ->
  let write := negb (truth ((next >> 9) .& 1)) in
  let r := fst (ssearch extra fc write level (debugger30 s) {| (rg30 s) with mmusr_030 := 0 |}
                  (translation (mm30 s)) (pm30 s)) in
  let st := (sr_status r .& Z.lnot MMUSR_NUM_LEVELS_MASK) .| r_num r in
  exists s' c, mmu_op30_ptest cpu_compatible opcode next extra s = (Ok false, s') /\
    pm30 s' = pm30 s /\ coherent (mm30 s') T /\ mm30 s' = {| (mm30 s) with status := st |} /\
    rg30 s' = {| (rg30 s) with mmusr_030 := st |} /\
    cpu30 s' = if truth ((next >> 8) .& 1)
               then set_areg ((next .& 0xE0) >> 5) (if r_num r =? 0 then 0 else r_last r) c else c.
Proof.
  intros Hco Hea Hfc level Hl write r st. unfold mmu_op30_ptest. fold level. fold write.
  unfold bind30 at 1, set_mm30 at 1, mod30 at 1. unfold bind30 at 1, set_rg30 at 1, mod30 at 1.
  set (s1 := {| s with mm30 := {| (mm30 s) with status := 0 |}; rg30 := {| (rg30 s) with mmusr_030 := 0 |} |}).
  match goal with |- context [bind30 get30 _ ?x] => change x with s1 end.
  unfold bind30 at 1, get30 at 1. change (cpu30 s1) with (cpu30 s). rewrite Hea, Hfc.
  rewrite (proj2 (Z.eqb_neq level 0) Hl). cbn [andb].
  assert (Hsh : tr_shape (translation (mm30 s1))) by (eapply (tr_tables (translation (mm30 s))), wf_tr, co_wf, Hco).
  pose proof (table_search_ok cpu_compatible extra fc write level s1 Hsh) as Hts.
  pose proof (ssearch_look extra fc write level (debugger30 s) (rg30 s1) (translation (mm30 s)) (pm30 s) Hl) as Hlook.
  change (ssearch _ _ _ _ (debugger30 s1) (rg30 s1) (translation (mm30 s1)) (pm30 s1))
    with (ssearch extra fc write level (debugger30 s) (rg30 s1) (translation (mm30 s)) (pm30 s)) in Hts.
  change r with (fst (ssearch extra fc write level (debugger30 s) (rg30 s1) (translation (mm30 s)) (pm30 s))) in st.
  subst r. destruct (ssearch _ _ _ _ _ _ _ _) as [r m]. cbn [fst snd] in *. subst m.
  destruct Hts as (s2 & E2 & Hp & Hr & _ & _ & _ & _ & _ & Hm). rewrite (proj2 (Z.eqb_neq level 0) Hl) in E2, Hm.
  change (mm30 s1) with {| (mm30 s) with status := 0 |} in Hm. fold st in Hm.
  change (rg30 s1) with {| (rg30 s) with mmusr_030 := 0 |} in Hr.
  unfold bind30 at 1. unfold bind30 at 1. rewrite E2. clear E2 Hsh. clearbody s1.
  assert (Hco' : coherent (mm30 s2) T) by (rewrite Hm; by apply (coherent_status (mm30 s))).
  unfold when30. destruct (truth ((next >> 8) .& 1)); eexists _, (cpu30 s2); (split; [reflexivity|]);
    cbn [pm30 mm30 rg30 cpu30 set_cpu30]; rewrite Hr, Hm; cbn [status]; by rewrite <- Hm.
Qed.

End Theorems.

(** ** On the machine of [Mmu030Load] *)
Definition ops_4K : list (mop lram) :=
  [MGet sz_long 0x1010 5; MPut sz_word 0x2004 7 5; MPut sz_long 0x1010 9 5; MGet sz_long 0x1010 5;
   MFetch sz_word 0x1010 6; MGet sz_long 0x3010 5; MPtest 0x1010 5 false 7; MFlushAll; MPload 0x1010 5 true].


Lemma table_search_spec_witness :
  exists s', mmu030_table_search false 0x1010 5 true 0 st_4K = (Ok 0, s') /\
    phys_get_long 0x2004 (pm30 s') = Some 0x5019.
Proof.
  pose proof (table_search_spec false 0x1010 5 true 0 st_4K ltac:(split; cbn; [reflexivity|lia])) as Hs.
  destruct (ssearch _ _ _ _ _ _ _ _) as [r m] eqn:E. destruct Hs as (s' & Es & Ep & _).
  exists s'. split; [exact Es|]. rewrite Ep.
  apply (f_equal snd) in E. cbn [snd] in E. rewrite <- E. vm_compute. reflexivity.
Defined.

(** Page 1 moves to $7000. *)
Definition ram_moved : lram := mk_lram 0x100000 (list_to_map [(0x1000, 0x2002); (0x2004, 0x7001); (0x7010, 0xBEEF)]).

Definition st_off : st030 lram := {| st_4K with mm30 := {| mmu_4K with enabled := false |} |}.

Lemma ptest_looks_witness : exists s' c,
  mmu_op30_ptest false 0xF010 0x9F35 0x1010 st_4K_flushed = (Ok false, s') /\ pm30 s' = ram_4K /\
  cpu30 s' = set_areg 1 0x2004 c.
Proof.
  destruct (ptest_looks false 0xF010 0x9F35 0x1010 st_4K_flushed ∅ 5 st_4K_coherent eq_refl eq_refl
    ltac:(discriminate)) as (s' & c & E & Ep & _ & _ & _ & Ec).
  exists s', c. split; [exact E|]. split; [exact Ep|]. rewrite Ec. vm_compute. reflexivity.
Defined.

Lemma st_4K_roots : roots_ok regs_4K.
Proof. intros fc. unfold root_descr. change (truth _) with false. vm_compute. discriminate. Qed.


(** A root pointer that is itself a page descriptor: reads go to the page, but
    the first write leaves the modified bit clear, finds no entry after its
    search and indexes the cache at -1. *)
Definition st_root_page : st030 lram := {| st_4K with rg30 := {| regs_4K with crp_030 := 0x7FFF0001 << 32 |} |}.
Lemma root_page_write_undefined :
  fst (run_ops false (fun _ => 0) [MGet sz_long 0x5010 5] st_root_page) = Some [OVal 0xCAFE] /\
  fst (mmu030_put_long false (fun _ => 0) 0x5010 1 5 st_root_page) = Undefined.
Proof. split; vm_compute; reflexivity. Qed.

(** A bus error inside a search is caught there, but [mmu030_page_fault] has
    applied the register fixup of the instruction by then, and applies it again
    when the access itself faults: after [(A0)+] on a long, A0 is off by 8 when
    the table is outside memory, and by 4 when its entry is invalid. *)
Definition st_postinc (crp : Z) : st030 lram :=
  {| st_4K with rg30 := {| regs_4K with crp_030 := (0x7FFF0002 << 32) .| crp |};
                fl30 := {| fl_none with fixups := [mk_fix 0x900 0x1234; mk_fix (-1) 0] |} |}.
Lemma fixup_applied_twice :
  m68k_areg (cpu30 (mmu030_get_long false (fun _ => 0) 0x10 5 (st_postinc 0x1000)).2) 0 = 0x1234 + 4 /\
  m68k_areg (cpu30 (mmu030_get_long false (fun _ => 0) 0x10 5 (st_postinc 0x800000)).2) 0 = 0x1234 + 8.
Proof. split; vm_compute; reflexivity. Qed.
