(* ===== verification/Sr.v ===== *)
(** * Sr: the status register and the stack pointers ([cpu/newcpu.cpp])

    The interpreter's state around the register file, the special flags, and
    the two routines that pack and unpack SR: [MakeSR] and [MakeFromSR_x],
    which also switches between the user, interrupt and master stacks, arms
    trace and asks compiled code to stop. *)

From S2P Require Import Prelude Flags Cpu Frames.
From Stdlib Require Import ZArith Lia Bool.
From stdpp Require Import base list gmap.
Open Scope Z_scope.
Open Scope cint_scope.

(** ** State *)

(** The preferences read besides those of [prefs]. *)
Record core_prefs := mk_kp {
  kp : prefs;
  cachesize : Z;
  cpu_compatible : bool;
  cpu_cycle_exact : bool;
  crash_auto_reset : bool }.

(** What the last address error was about: [last_*_for_exception_3]. *)
Record exc3 := mk_e3 {
  last_op : Z; last_addr : Z; last_fault : Z; last_writeaccess : bool; last_size : bool;
  last_fc : Z; last_di : Z; last_notinstruction : bool; last_sr : Z }.

(** Calls that leave the model, in order. *)
Inductive kevent :=
| mmu_set_super (super : bool)
| fill_prefetch
| uae_reset (hard keyboard : bool)
| pistorm_xbios_trace
| pistorm_gemdos_hook
| pistorm_bad_opcode_dump (nr : Z)
| Exception_ce000 (nr : Z).

#[export] Instance kevent_eq_dec : EqDecision kevent.
Proof. solve_decision. Defined.

(** [struct regstruct] beyond [cpu] and [fault], and the interrupt globals. *)
Record core (M : Type) := mk_core {
  kx : xstate M;
  t1 : Z; t0 : Z; intmask : Z; ipl_pin : Z; ipl_0 : Z; ipl_1 : Z;
  stopped : Z; halted : Z; spcflags : Z; pissoff : Z;
  ir : Z; mmu_fslw : Z; mmu030_data_buffer_out : Z;
  reg_exception : Z; loop_mode : Z; instruction_pc_user_exception : Z;
  e3 : exc3; exception_in_exception : Z;
  g_irq : Z; g_irq_mask : Z;
  pistorm_iack_vector : Z; pistorm_iack_dsp : bool; pistorm_spurious_interrupt_level : Z;
  klog : list kevent }.
Arguments mk_core {M}. Arguments kx {M}. Arguments t1 {M}. Arguments t0 {M}.
Arguments intmask {M}. Arguments ipl_pin {M}. Arguments ipl_0 {M}. Arguments ipl_1 {M}.
Arguments stopped {M}. Arguments halted {M}. Arguments spcflags {M}. Arguments pissoff {M}.
Arguments ir {M}. Arguments mmu_fslw {M}. Arguments mmu030_data_buffer_out {M}.
Arguments reg_exception {M}. Arguments loop_mode {M}. Arguments instruction_pc_user_exception {M}.
Arguments e3 {M}. Arguments exception_in_exception {M}. Arguments g_irq {M}. Arguments g_irq_mask {M}.
Arguments pistorm_iack_vector {M}. Arguments pistorm_iack_dsp {M}.
Arguments pistorm_spurious_interrupt_level {M}. Arguments klog {M}.

Definition SPCFLAG_INT := 8.
Definition SPCFLAG_BRK := 16.
Definition SPCFLAG_TRACE := 64.
Definition SPCFLAG_DOTRACE := 128.
Definition SPCFLAG_DOINT := 256.
Definition SPCFLAG_MODE_CHANGE := 8192.
Definition SPCFLAG_END_COMPILE := 16384.
Definition SPCFLAG_CHECK := 32768.

Section Sr.
Context {M : Type} (p : core_prefs).
Implicit Types (k : core M).

Definition kc k : cpu := xc (kx k).
Definition on_x (f : xstate M -> xstate M) k : core M := {| k with kx := f (kx k) |}.
Definition on_c (f : cpu -> cpu) k : core M := on_x (fun x => {| x with xc := f (xc x) |}) k.
Definition on_ctl (f : ctl -> ctl) k : core M := on_c (fun c => set_ctl (f (rctl c)) c) k.
Definition log (e : kevent) k : core M := {| k with klog := klog k ++ [e] |}.

(** ** Special flags ([include/newcpu.h], [include/events.h]) *)
Definition cycles_do_special k : core M :=
  if truth (cachesize p)
  then if 0 <=? pissoff k then {| k with pissoff := -1 |} else k
  else {| k with pissoff := 0 |}.
Definition set_special (f : Z) k : core M := cycles_do_special {| k with spcflags := spcflags k .| f |}.
Definition unset_special (f : Z) k : core M := {| k with spcflags := spcflags k .& u32 (Z.lnot f) |}.

Definition activate_trace k : core M := set_special SPCFLAG_DOTRACE (unset_special SPCFLAG_TRACE k).

(** ** Packing *)
Definition MakeSR k : core M :=
  let f := rflags (kc k) in
  on_c (fun c => {| c with sr := u16 ((t1 k << 15) .| (t0 k << 14) .| (Z.b2z (reg_s c) << 13)
    .| (reg_m c << 12) .| (intmask k << 8) .| (GET_XFLG f << 4) .| (GET_NFLG f << 3)
    .| (GET_ZFLG f << 2) .| (GET_VFLG f << 1) .| GET_CFLG f) |}) k.

(** The five condition codes of [regs.sr]. *)
Definition ccr_from_sr (v : Z) (f : flag_struct) : flag_struct :=
  SET_CFLG (v .& 1) (SET_VFLG ((v >> 1) .& 1) (SET_ZFLG ((v >> 2) .& 1)
    (SET_NFLG ((v >> 3) .& 1) (SET_XFLG ((v >> 4) .& 1) f)))).

Definition SetSR (v : Z) k : core M :=
  on_c (fun c => let s := (sr c .& 0xff00) .| v in
                 set_flags (ccr_from_sr s (rflags c)) {| c with sr := s |}) k.

(** ** Unpacking *)

(** The mask came down past a latched interrupt: ask compiled code to stop. *)
Definition set_intmask (newimask : Z) k : core M :=
  if intmask k =? newimask then k
  else
    let k := if (newimask <? intmask k) && (newimask <? g_irq k) then set_special SPCFLAG_BRK k else k in
    {| k with intmask := newimask; g_irq_mask := newimask |}.

Definition get_a7 k : Z := m68k_areg (kc k) 7.
Definition set_a7 (v : Z) k : core M := on_c (set_areg 7 v) k.
Definition set_usp (v : Z) : core M -> core M := on_ctl (fun r => {| r with usp := v |}).
Definition set_isp (v : Z) : core M -> core M := on_ctl (fun r => {| r with isp := v |}).
Definition set_msp (v : Z) : core M -> core M := on_ctl (fun r => {| r with msp := v |}).
Definition set_m (v : Z) : core M -> core M := on_c (fun c => {| c with reg_m := v |}).
Definition set_s (v : bool) : core M -> core M := on_c (fun c => {| c with reg_s := v |}).
Definition k_ctl k : ctl := rctl (kc k).

(** 68020 and later: three stacks. *)
Definition switch_stack_020 (olds : bool) (oldm : Z) k : core M :=
  let s := reg_s (kc k) in
  let m := reg_m (kc k) in
  if negb (Bool.eqb olds s) then
    if olds then
      let k := if truth oldm then set_msp (get_a7 k) k else set_isp (get_a7 k) k in
      set_a7 (usp (k_ctl k)) k
    else
      let k := set_usp (get_a7 k) k in
      set_a7 (if truth m then msp (k_ctl k) else isp (k_ctl k)) k
  else if olds && (oldm != m) then
    if truth oldm then
      let k := set_msp (get_a7 k) k in set_a7 (isp (k_ctl k)) k
    else
      let k := set_isp (get_a7 k) k in set_a7 (msp (k_ctl k)) k
  else k.

(** 68000 and 68010: two stacks. *)
Definition switch_stack_000 (olds : bool) k : core M :=
  if negb (Bool.eqb olds (reg_s (kc k))) then
    if olds then
      let k := set_isp (get_a7 k) k in set_a7 (usp (k_ctl k)) k
    else
      let k := set_usp (get_a7 k) k in set_a7 (isp (k_ctl k)) k
  else k.

Definition clear_t0 k : core M := {| k with t0 := 0 |}.

Definition switch_stack (olds : bool) (oldm : Z) k : core M :=
  let model := cpu_model (kp p) in
  if 68020 <=? model then
    let k := if 68060 <=? model then set_msp (isp (k_ctl k)) k else k in
    let k := switch_stack_020 olds oldm k in
    if 68060 <=? model then clear_t0 k else k
  else
    switch_stack_000 olds (clear_t0 (set_m 0 k)).

(** Trace: [SPCFLAG_TRACE] follows the T bits; an instruction that ran with a
    T bit set is traced even if it cleared the bit. *)
Definition update_trace (t0trace oldt0 oldt1 : Z) k : core M :=
  let k := if truth (t1 k) || truth (t0 k) then set_special SPCFLAG_TRACE k
           else unset_special SPCFLAG_TRACE k in
  if negb (truth (stopped k)) &&
     ((truth oldt0 && truth t0trace && (68020 <=? cpu_model (kp p))) || truth oldt1)
  then activate_trace k else k.

(** The upper byte of SR, without the mask. *)
Definition store_upper (v : Z) k : core M :=
  set_m ((v >> 12) .& 1) (set_s (truth ((v >> 13) .& 1))
    {| k with t1 := (v >> 15) .& 1; t0 := (v >> 14) .& 1 |}).
Definition store_ccr (v : Z) k : core M := on_c (fun c => set_flags (ccr_from_sr v (rflags c)) c) k.

Definition notify_mmu k : core M :=
  if truth (mmu_model (kp p)) then log (mmu_set_super (reg_s (kc k))) k else k.

(** If the JIT is on and T1, T0 or M changed: end the compiled block. *)
Definition end_compile (oldt0 oldt1 oldm : Z) k : core M :=
  if truth (cachesize p) && ((oldt0 != t0 k) || (oldt1 != t1 k) || (oldm != reg_m (kc k)))
  then set_special SPCFLAG_END_COMPILE k else k.

Definition upper_unchanged (v : Z) k : bool :=
  (t1 k =? (v >> 15) .& 1) && (t0 k =? (v >> 14) .& 1) && (Z.b2z (reg_s (kc k)) =? (v >> 13) .& 1)
  && (reg_m (kc k) =? (v >> 12) .& 1) && (intmask k =? (v >> 8) .& 7).

Definition MakeFromSR_x (t0trace : Z) k : core M :=
  let oldm := reg_m (kc k) in
  let olds := reg_s (kc k) in
  let oldt0 := t0 k in
  let oldt1 := t1 k in
  let v := sr (kc k) in
  let k := store_ccr v k in
  if upper_unchanged v k then k
  else
    let k := store_upper v k in
    let k := set_intmask ((v >> 8) .& 7) k in
    let k := switch_stack olds oldm k in
    let k := notify_mmu k in
    let k := end_compile oldt0 oldt1 oldm k in
    update_trace t0trace oldt0 oldt1 k.

Definition MakeFromSR_T0 := MakeFromSR_x 1.
Definition MakeFromSR := MakeFromSR_x 0.
Definition MakeFromSR_STOP := MakeFromSR_x (-1).

(** SR as a restored state file has it. *)
Definition m68k_reset_sr k : core M :=
  let v := sr (kc k) in
  let k := store_upper v (store_ccr v k) in
  let k := {| k with intmask := (v >> 8) .& 7; g_irq_mask := (v >> 8) .& 7 |} in
  set_a7 (if reg_s (kc k) then isp (k_ctl k) else usp (k_ctl k)) k.

(** ** Requests from other threads *)
Definition atari_request_irq_level (level : Z) k : core M :=
  if (level =? 0) || (7 <? level) then k
  else
    let k := if g_irq k <? level then {| k with g_irq := level |} else k in
    set_special SPCFLAG_BRK {| k with ipl_pin := g_irq k; ipl_0 := g_irq k |}.
End Sr.
