(* ===== verification/SrProps.v ===== *)
(** * SrProps: SR round trips and the stack pointers

    Packing what was unpacked gives the implemented bits of SR; changing SR
    changes which of the three stack pointers A7 is and none of their values
    (up to the 68040); and what a 68060 does with the M bit. *)

From S2P Require Import Prelude Flags Cpu Frames Sr.
From Stdlib Require Import ZArith Lia Bool.
From stdpp Require Import base list gmap.
Open Scope Z_scope.
Open Scope cint_scope.

(** ** The bits of SR a model implements *)
Definition sr_mask (model : Z) : Z :=
  if model <? 68020 then 0xA71F else if model <? 68060 then 0xF71F else 0xB71F.

Section SrProps.
Context {M : Type} (p : core_prefs).
Implicit Types (k : core M).
Abbreviation model := (cpu_model (kp p)).

(** Well-formed SR state: the fields have the width of their bits, and the
    bits a model does not have are zero. *)
Record sr_inv k : Prop := {
  inv_wf : cpu_wf (kc k);
  inv_usp : is_u32 (usp (k_ctl k)); inv_isp : is_u32 (isp (k_ctl k)); inv_msp : is_u32 (msp (k_ctl k));
  inv_t1 : 0 <= t1 k < 2; inv_t0 : 0 <= t0 k < 2; inv_m : 0 <= reg_m (kc k) < 2;
  inv_mask : 0 <= intmask k < 8;
  inv_000 : model < 68020 -> t0 k = 0 /\ reg_m (kc k) = 0;
  inv_060 : 68060 <= model -> t0 k = 0 }.

(** The fields SR is packed from. *)
Definition sr_fields k := (t1 k, t0 k, reg_s (kc k), reg_m (kc k), intmask k, rflags (kc k)).

(** The three stack pointers, wherever they are kept. *)
Definition usp_view k : Z := if reg_s (kc k) then usp (k_ctl k) else get_a7 k.
Definition isp_view k : Z := if reg_s (kc k) && (reg_m (kc k) =? 0) then get_a7 k else isp (k_ctl k).
Definition msp_view k : Z := if reg_s (kc k) && (reg_m (kc k) != 0) then get_a7 k else msp (k_ctl k).

(** ** Special flags touch nothing else *)
Lemma special_kx f k : kx (set_special p f k) = kx k.
Proof. unfold set_special, cycles_do_special. repeat case_match; done. Qed.
Lemma special_fields f k : sr_fields (set_special p f k) = sr_fields k.
Proof. unfold set_special, cycles_do_special. repeat case_match; done. Qed.
Lemma trace_kx t o0 o1 k : kx (update_trace p t o0 o1 k) = kx k.
Proof.
  unfold update_trace, activate_trace.
  repeat match goal with |- context [if ?c then _ else _] => destruct c end;
    rewrite ?special_kx; cbn [unset_special kx]; by rewrite ?special_kx.
Qed.
Lemma trace_fields t o0 o1 k : sr_fields (update_trace p t o0 o1 k) = sr_fields k.
Proof.
  unfold update_trace, activate_trace.
  repeat match goal with |- context [if ?c then _ else _] => destruct c end; rewrite ?special_fields;
    try (change (sr_fields (unset_special ?f ?x)) with (sr_fields x)); by rewrite ?special_fields.
Qed.

Lemma intmask_kx n k : kx (set_intmask p n k) = kx k.
Proof. unfold set_intmask. repeat (case_match; cbn [kx]; rewrite ?special_kx; try done). Qed.

Lemma intmask_fields n k :
  sr_fields (set_intmask p n k) = (t1 k, t0 k, reg_s (kc k), reg_m (kc k), n, rflags (kc k)).
Proof.
  unfold set_intmask. destruct (Z.eqb_spec (intmask k) n) as [<-|_]; [done|].
  unfold set_special, cycles_do_special. repeat case_match; done.
Qed.

(** The upper half of SR after the stack switch: what [MakeFromSR_x] stored,
    less the bits the model lacks. *)
Definition model_t0 (v : Z) : Z := if (model <? 68020) || (68060 <=? model) then 0 else (v >> 14) .& 1.
Definition model_m (v : Z) : Z := if model <? 68020 then 0 else (v >> 12) .& 1.

Lemma switch_fields olds oldm k :
  sr_fields (switch_stack p olds oldm k) =
  let '(vt1, vt0, vs, vm, vi, vf) := sr_fields k in
  (vt1, (if (model <? 68020) || (68060 <=? model) then 0 else vt0), vs,
   (if model <? 68020 then 0 else vm), vi, vf).
Proof.
  unfold sr_fields at 2. cbv iota. unfold switch_stack. rewrite !(Z.leb_antisym).
  destruct (Z.ltb_spec model 68020), (Z.ltb_spec model 68060); cbn [negb orb]; try lia;
    unfold switch_stack_020, switch_stack_000; repeat case_match; done.
Qed.

Lemma notify_fields k : sr_fields (notify_mmu p k) = sr_fields k.
Proof. unfold notify_mmu. by case_match. Qed.
Lemma end_fields o0 o1 om k : sr_fields (end_compile p o0 o1 om k) = sr_fields k.
Proof. unfold end_compile. case_match; [apply special_fields|done]. Qed.

(** ** What [MakeFromSR_x] leaves in the SR fields *)
Lemma bit_eq v n : ((v >> n) .& 1 = 0 \/ (v >> n) .& 1 = 1).
Proof. rewrite land_1_odd. destruct (Z.odd _); cbn; lia. Qed.

Lemma sr_truth_bit v n : Z.b2z (truth ((v >> n) .& 1)) = (v >> n) .& 1.
Proof. by destruct (bit_eq v n) as [-> | ->]. Qed.

Lemma from_sr_fields t0trace k : sr_inv k ->
  let v := sr (kc k) in
  sr_fields (MakeFromSR_x p t0trace k) =
  ((v >> 15) .& 1, model_t0 v, truth ((v >> 13) .& 1), model_m v, (v >> 8) .& 7,
   ccr_from_sr v (rflags (kc k))).
Proof.
  intros Hi v. unfold MakeFromSR_x. fold v. cbv zeta.
  destruct (upper_unchanged v _) eqn:E.
  - unfold upper_unchanged in E. rewrite !andb_true_iff, !Z.eqb_eq in E.
    change (t1 _) with (t1 k) in E. change (t0 _) with (t0 k) in E.
    change (reg_s _) with (reg_s (kc k)) in E. change (reg_m _) with (reg_m (kc k)) in E.
    change (intmask _) with (intmask k) in E. destruct E as [[[[E1 E0] Es] Em] Ei].
    change (sr_fields _) with
      (t1 k, t0 k, reg_s (kc k), reg_m (kc k), intmask k, ccr_from_sr v (rflags (kc k))).
    assert (t0 k = model_t0 v) as ->.
    { unfold model_t0. destruct (Z.ltb_spec model 68020), (Z.leb_spec 68060 model); cbn [orb];
        [lia|by apply (inv_000 _ Hi)|by apply (inv_060 _ Hi)|done]. }
    assert (reg_m (kc k) = model_m v) as ->.
    { unfold model_m. destruct (Z.ltb_spec model 68020); [by apply (inv_000 _ Hi)|done]. }
    rewrite E1, Ei, <- Es. by destruct (reg_s (kc k)).
  - rewrite trace_fields, end_fields, notify_fields, switch_fields, intmask_fields. done.
Qed.

(** ** Packing the fields *)
Lemma pack_bits v a b :
  (v .& a) .| (v .& b) = v .& (a .| b).
Proof. by rewrite Z.land_lor_distr_r. Qed.

Lemma bit_back v n : 0 <= n -> ((v >> n) .& 1) << n = v .& (1 << n).
Proof. intros. by rewrite land_shl_mask. Qed.

Lemma ccr_flags v f :
  GET_XFLG (ccr_from_sr v f) = (v >> 4) .& 1 /\ GET_NFLG (ccr_from_sr v f) = (v >> 3) .& 1 /\
  GET_ZFLG (ccr_from_sr v f) = (v >> 2) .& 1 /\ GET_VFLG (ccr_from_sr v f) = (v >> 1) .& 1 /\
  GET_CFLG (ccr_from_sr v f) = v .& 1.
Proof.
  assert (Hi : forall z, z .& 1 .& 1 = z .& 1) by (intros; by rewrite <- Z.land_assoc).
  unfold ccr_from_sr, GET_XFLG. autorewrite with flags. cbn [xflg SET_XFLG]. by rewrite !Hi.
Qed.

Lemma b2z_truth_bit v n : Z.b2z (truth ((v >> n) .& 1)) << n = ((v >> n) .& 1) << n.
Proof. by rewrite sr_truth_bit. Qed.

Lemma u16_land v c : is_u16 v -> u16 (v .& c) = v .& c.
Proof.
  intros Hv. unfold u16. change 65536 with (2 ^ 16).
  rewrite <- Z.land_ones, <- Z.land_assoc, (Z.land_comm c), Z.land_assoc, Z.land_ones by lia.
  f_equal. by apply Z.mod_small.
Qed.

(** Packing fields that came from [v]. *)
Lemma make_sr_value k v (h0 hm : bool) f :
  is_u16 v -> sr_fields k = ((v >> 15) .& 1, (if h0 then (v >> 14) .& 1 else 0), truth ((v >> 13) .& 1),
                             (if hm then (v >> 12) .& 1 else 0), (v >> 8) .& 7, ccr_from_sr v f) ->
  sr (kc (MakeSR k)) = v .& (0xA71F .| (if h0 then 0x4000 else 0) .| (if hm then 0x1000 else 0)).
Proof.
  intros Hv Ef. unfold sr_fields in Ef. injection Ef as E1 E2 E3 E4 E5 E6.
  unfold MakeSR, kc, on_c, on_x in *. cbn [xc kx sr] in *. rewrite E1, E2, E3, E4, E5, E6.
  destruct (ccr_flags v f) as (-> & -> & -> & -> & ->). rewrite b2z_truth_bit.
  assert (Hb : forall (h : bool) n, 0 <= n ->
    (if h then (v >> n) .& 1 else 0) << n = v .& (if h then 1 << n else 0)).
  { intros [] n Hn; [by apply bit_back|by rewrite Z.shiftl_0_l, Z.land_0_r]. }
  rewrite (Hb h0 14), (Hb hm 12), !bit_back by lia. rewrite <- (land_shl_mask v 7 8) by lia.
  rewrite !pack_bits, u16_land by done. f_equal. by destruct h0, hm.
Qed.

(** C27: unpacking SR with any of the three [MakeFromSR] routines and packing
    it again gives back exactly the bits of SR the processor model
    implements: T1, S, the mask and the condition codes on every model, T0 and
    M on the 68020-68040, M but not T0 on the 68060. *)
Theorem sr_roundtrip t0trace k : sr_inv k -> is_u16 (sr (kc k)) ->
  sr (kc (MakeSR (MakeFromSR_x p t0trace k))) = sr (kc k) .& sr_mask model.
Proof.
  intros Hi Hv.
  rewrite (make_sr_value _ (sr (kc k)) (negb ((model <? 68020) || (68060 <=? model)))
    (negb (model <? 68020)) (rflags (kc k))) by (done || (rewrite from_sr_fields by done;
      unfold model_t0, model_m; by repeat case_match)).
  unfold sr_mask. f_equal. rewrite Z.leb_antisym.
  destruct (Z.ltb_spec model 68020), (Z.ltb_spec model 68060); try done; lia.
Qed.

(** ** Stack pointers *)

Lemma get_set_a7 v k : cpu_wf (kc k) -> is_u32 v -> get_a7 (set_a7 v k) = v.
Proof. intros Hw Hv. unfold get_a7. cbn. rewrite areg7_set by done. by apply u32_small. Qed.

(** The views as functions of what selects them. *)
Definition stacks (s : bool) (m a : Z) (r : ctl) : Z * Z * Z :=
  (if s then usp r else a, if s && (m =? 0) then a else isp r, if s && (m != 0) then a else msp r).
Definition stacks_of k : Z * Z * Z := stacks (reg_s (kc k)) (reg_m (kc k)) (get_a7 k) (k_ctl k).

Lemma stacks_kx k k' : kx k' = kx k -> stacks_of k' = stacks_of k.
Proof. unfold stacks_of, get_a7, k_ctl, kc. by intros ->. Qed.

Lemma clear_t0_stacks k : stacks_of (clear_t0 k) = stacks_of k.
Proof. by apply stacks_kx. Qed.

Lemma switch_020_stacks olds oldm k : cpu_wf (kc k) -> 0 <= oldm < 2 -> 0 <= reg_m (kc k) < 2 ->
  is_u32 (usp (k_ctl k)) -> is_u32 (isp (k_ctl k)) -> is_u32 (msp (k_ctl k)) ->
  stacks_of (switch_stack_020 olds oldm k) = stacks olds oldm (get_a7 k) (k_ctl k).
Proof.
  intros Hw Ho Hm Hu Hi Hms. unfold switch_stack_020, stacks_of.
  assert (oldm = 0 \/ oldm = 1) as [-> | ->] by lia;
  (assert (reg_m (kc k) = 0 \/ reg_m (kc k) = 1) as [Em | Em] by lia);
  destruct olds, (reg_s (kc k)) eqn:Es; rewrite ?Em; cbn [negb Bool.eqb truth Z.eqb andb];
  rewrite ?get_set_a7 by done; cbn; fold (kc k); rewrite ?Es, ?Em; done.
Qed.

Lemma switch_000_stacks olds k : cpu_wf (kc k) -> reg_m (kc k) = 0 ->
  is_u32 (usp (k_ctl k)) -> is_u32 (isp (k_ctl k)) ->
  stacks_of (switch_stack_000 olds k) = stacks olds 0 (get_a7 k) (k_ctl k).
Proof.
  intros Hw Em Hu Hi. unfold switch_stack_000, stacks_of.
  destruct olds, (reg_s (kc k)) eqn:Es; cbn [negb Bool.eqb];
  rewrite ?get_set_a7 by done; cbn; fold (kc k); rewrite ?Es, ?Em; done.
Qed.

(** The registers the stack switch starts from. *)
Lemma intmask_stack n v k :
  let k' := set_intmask p n (store_upper v (store_ccr v k)) in
  k_ctl k' = k_ctl k /\ get_a7 k' = get_a7 k /\ (cpu_wf (kc k) -> cpu_wf (kc k')) /\
  reg_s (kc k') = truth ((v >> 13) .& 1) /\ reg_m (kc k') = (v >> 12) .& 1.
Proof. unfold get_a7, k_ctl, kc. cbv zeta. by rewrite intmask_kx. Qed.

Lemma tail_kx k o0 o1 om t :
  kx (update_trace p t o0 o1 (end_compile p o0 o1 om (notify_mmu p k))) = kx k.
Proof.
  rewrite trace_kx. unfold end_compile, notify_mmu.
  repeat (case_match; rewrite ?special_kx); done.
Qed.

(** What the switch needs of the state before it. *)
Definition switch_ready (oldm : Z) k : Prop :=
  cpu_wf (kc k) /\ 0 <= oldm < 2 /\ 0 <= reg_m (kc k) < 2 /\ (model < 68020 -> oldm = 0) /\
  is_u32 (usp (k_ctl k)) /\ is_u32 (isp (k_ctl k)) /\ is_u32 (msp (k_ctl k)).

Lemma switch_stacks olds oldm k : switch_ready oldm k -> model < 68060 ->
  stacks_of (switch_stack p olds oldm k) = stacks olds oldm (get_a7 k) (k_ctl k).
Proof.
  intros (Hw & Ho & Hm & H0 & Hu & Hi & Hms) Hmod. unfold switch_stack.
  rewrite (proj2 (Z.leb_gt 68060 model)) by lia. destruct (Z.leb_spec 68020 model).
  - by apply switch_020_stacks.
  - rewrite H0 by lia. by apply (switch_000_stacks olds (clear_t0 (set_m 0 k))).
Qed.

Lemma switch_stacks_060 olds oldm k : switch_ready oldm k -> 68060 <= model ->
  stacks_of (switch_stack p olds oldm k) =
  stacks olds oldm (get_a7 k) {| (k_ctl k) with msp := isp (k_ctl k) |}.
Proof.
  intros (Hw & Ho & Hm & H0 & Hu & Hi & Hms) Hmod. unfold switch_stack.
  rewrite (proj2 (Z.leb_le 68060 model)), (proj2 (Z.leb_le 68020 model)) by lia.
  rewrite clear_t0_stacks. by apply (switch_020_stacks olds oldm (set_msp (isp (k_ctl k)) k)).
Qed.

(** The state the switch runs in, and where its result ends up. *)
Lemma from_sr_stacks t0trace k : sr_inv k ->
  upper_unchanged (sr (kc k)) k = true /\ stacks_of (MakeFromSR_x p t0trace k) = stacks_of k \/
  exists k1, switch_ready (reg_m (kc k)) k1 /\ k_ctl k1 = k_ctl k /\ get_a7 k1 = get_a7 k /\
    reg_s (kc k1) = truth ((sr (kc k) >> 13) .& 1) /\ reg_m (kc k1) = (sr (kc k) >> 12) .& 1 /\
    kx (MakeFromSR_x p t0trace k) = kx (switch_stack p (reg_s (kc k)) (reg_m (kc k)) k1).
Proof.
  intros Hi. unfold MakeFromSR_x. cbv zeta. destruct (upper_unchanged _ _) eqn:E; [by left|right].
  exists (set_intmask p ((sr (kc k) >> 8) .& 7) (store_upper (sr (kc k)) (store_ccr (sr (kc k)) k))).
  destruct (intmask_stack ((sr (kc k) >> 8) .& 7) (sr (kc k)) k) as (Hc & Ha & Hw & Hs & Hm).
  split_and!; [|done|done|done|done|apply tail_kx].
  unfold switch_ready. rewrite Hc, Hm. destruct Hi, (bit_eq (sr (kc k)) 12); split_and!; auto; lia.
Qed.

(** C26: unpacking SR changes which stack pointer A7 is, and never the value of
    a stack pointer: on the 68000-68040 the user, interrupt and master stack
    pointers (each in A7 when selected by S and M, in its own register
    otherwise) are the same before and after; so are the user and interrupt
    stack pointers on the 68060. *)
Theorem stacks_preserved t0trace k : sr_inv k ->
  let k' := MakeFromSR_x p t0trace k in
  (model < 68060 -> stacks_of k' = stacks_of k) /\ (68060 <= model -> (stacks_of k').1 = (stacks_of k).1).
Proof.
  intros Hi k'. subst k'.
  destruct (from_sr_stacks t0trace k Hi) as [[_ ->]|(k1 & Hr & Hc & Ha & Hs & Hm & Ek)]; [done|].
  rewrite (stacks_kx _ _ Ek). unfold stacks_of at 2 4. rewrite <- Hc, <- Ha.
  split; intros Hmod; [by apply switch_stacks|by rewrite switch_stacks_060].
Qed.

(** A 68060 has one supervisor stack, but its M bit switches stacks here:
    setting M in supervisor mode loads A7 with whatever the ISP register was
    left holding, and the supervisor stack pointer moves into that register. *)
Theorem m060_swaps_stack t0trace k : sr_inv k -> 68060 <= model ->
  reg_s (kc k) = true -> reg_m (kc k) = 0 ->
  (sr (kc k) >> 13) .& 1 = 1 -> (sr (kc k) >> 12) .& 1 = 1 ->
  let k' := MakeFromSR_x p t0trace k in
  get_a7 k' = isp (k_ctl k) /\ isp (k_ctl k') = get_a7 k.
Proof.
  intros Hi Hmod Es Em Hs Hm k'.
  pose proof (from_sr_fields t0trace k Hi) as Ef. cbv zeta in Ef. fold k' in Ef.
  unfold sr_fields in Ef. injection Ef as _ _ Es' Em' _ _.
  unfold model_m in Em'. rewrite (proj2 (Z.ltb_ge model 68020)) in Em' by lia. rewrite Hs in Es'. rewrite Hm in Em'.
  assert (Hst : stacks_of k' = stacks true 0 (get_a7 k) {| (k_ctl k) with msp := isp (k_ctl k) |}).
  { destruct (from_sr_stacks t0trace k Hi) as [E|(k1 & Hr & Hc & Ha & _ & _ & Ek)].
    - destruct E as [E _]. unfold upper_unchanged in E. rewrite Em, Hm, andb_false_r in E. done.
    - fold k' in Ek. rewrite (stacks_kx _ _ Ek), switch_stacks_060, Es, Em, Hc, Ha; done. }
  unfold stacks_of, stacks in Hst. rewrite Es', Em' in Hst. cbn in Hst. by injection Hst as _ -> ->.
Qed.

End SrProps.
