(* ===== verification/Except.v ===== *)
(** * Except: taking an exception ([cpu/newcpu.cpp])

    From [Exception] to the first instruction of the handler: the vector, the
    switch to the supervisor stack, the stack frame (built by Frames), the
    interrupt mask, trace, and what happens when the stack or the vector is
    odd: an address error, or a halt.  Cycle counts and diagnostics are left
    out. *)

From S2P Require Import Prelude Flags Cpu Frames Sr.
From Stdlib Require Import ZArith Lia Bool.
From stdpp Require Import base list gmap.
Open Scope Z_scope.
Open Scope cint_scope.

Definition CACHE_DISABLE_ALLOCATE := 0x08.
Definition CPU_HALT_DOUBLE_FAULT := 2.
Definition CPU_HALT_SSP_IN_NON_EXISTING_ADDRESS := 10.
Definition MMU030_SSW_SIZE_W := 0x0020.
Definition MMU030_STATEFLAG1_LASTWRITE := 0x100.
Definition sz_word := 1.

(** ** Vectors *)
Definition internalexception (nr : Z) : bool :=
  (nr =? 5) || (nr =? 6) || (nr =? 7) || ((32 <=? nr) && (nr <=? 47)).
Definition is_interrupt_exception_vector (nr : Z) : bool := (24 <=? nr) && (nr <? 24 + 8).
Definition is_interrupt_level_vector (nr : Z) : bool := (24 <? nr) && (nr <? 24 + 8).

Section Vectors.
Context {M : Type} (p : core_prefs).
Implicit Types (k : core M).

Definition interrupt_level_from_vector (nr : Z) k : Z :=
  if nr =? 24 then pistorm_spurious_interrupt_level k
  else if is_interrupt_level_vector nr then nr - 24 else 0.

Definition set_interrupt_mask_from_vector (nr : Z) k : core M :=
  let level := interrupt_level_from_vector nr k in
  if level =? 0 then k
  else on_c (fun c => {| c with sr := (sr c .& Z.lnot 0x0700) .| (level << 8) |})
            {| k with intmask := level; g_irq_mask := level |}.

Definition atari_iack_vector_is_valid (level bus_vector : Z) k : bool :=
  if (level =? 6) && pistorm_iack_dsp k then (0 <=? bus_vector) && (bus_vector <=? 0xff)
  else (level =? 6) && (0x40 <=? bus_vector) && (bus_vector <=? 0x4f).

Definition effective_interrupt_vector (nr vector_nr : Z) k : Z :=
  let level := interrupt_level_from_vector nr k in
  let bus_vector := pistorm_iack_vector k .& 0xFF in
  if negb (is_interrupt_exception_vector nr) then vector_nr
  else if pistorm_iack_vector k =? 0xFFFE then vector_nr
  else if pistorm_iack_vector k =? 0xFFFF then vector_nr
  else if atari_iack_vector_is_valid level bus_vector k then bus_vector
  else vector_nr.

(** ** Trace, halt, stop *)
Definition clear_trace k : core M := {| k with t1 := 0; t0 := 0 |}.

Definition exception_check_trace (nr : Z) k : core M :=
  let k := unset_special (SPCFLAG_TRACE .| SPCFLAG_DOTRACE) k in
  let k := if truth (t1 k) then
             let k := if (cpu_model (kp p) <? 68040) && internalexception nr
                      then set_special p SPCFLAG_DOTRACE k else k in
             if (nr =? 14) && (cpu_model (kp p) =? 68010) then set_special p SPCFLAG_DOTRACE k else k
           else k in
  clear_trace k.

Definition set_halted (id : Z) k : core M := {| k with halted := id |}.
Definition mask_all k : core M := {| k with intmask := 7 |}.

Definition cpu_halt (id : Z) k : core M :=
  if halted k =? 0 then
    if crash_auto_reset p
    then set_special p (SPCFLAG_BRK .| SPCFLAG_MODE_CHANGE) (log (uae_reset true false) k)
    else
      let k := set_halted id k in
      let k := if 0 <=? id then MakeSR (mask_all k) else k in
      set_special p SPCFLAG_CHECK k
  else set_special p SPCFLAG_CHECK k.

Definition on_f (f : fault -> fault) : core M -> core M := on_x (set_fault f).
Definition m68k_getpc k : Z := cur_pc (xf (kx k)).
(** [m68k_setpc] and [m68k_setpci]: the PC and the start of the instruction. *)
Definition m68k_setpc (pc : Z) : core M -> core M :=
  on_f (fun f => {| f with cur_pc := u32 pc; instruction_pc := u32 pc |}).
Definition m68k_incpci (n : Z) : core M -> core M :=
  on_f (fun f => {| f with cur_pc := u32 (cur_pc f + n) |}).

Definition clear_stopped k : core M := {| k with stopped := 0 |}.
Definition m68k_resumestopped k : core M :=
  if stopped k =? 0 then k
  else
    let k := if stopped k =? 1 then m68k_incpci 4 k
             else if stopped k =? 2 then m68k_incpci 6 k else k in
    clear_stopped k.

Definition ipl_fetch_now k : core M := {| k with ipl_0 := ipl_pin k; ipl_1 := 0 |}.

Definition disable_allocate (on : bool) k : core M :=
  on_c (fun c => {| c with rmmu := {| (rmmu c) with cache_default_data :=
    if on then cache_default_data (rmmu c) .| CACHE_DISABLE_ALLOCATE
    else cache_default_data (rmmu c) .& Z.lnot CACHE_DISABLE_ALLOCATE |} |}) k.

(** ** Into supervisor mode *)
Definition enter_super k : core M :=
  if reg_s (kc k) then k
  else
    let model := cpu_model (kp p) in
    let k := set_usp (get_a7 k) k in
    let k := if (68020 <=? model) && (model <? 68060)
             then set_a7 (if truth (reg_m (kc k)) then msp (k_ctl k) else isp (k_ctl k)) k
             else set_a7 (isp (k_ctl k)) k in
    notify_mmu p (set_s true k).

(** The same step of [Exception_mmu030]. *)
Definition enter_super_030 k : core M :=
  if reg_s (kc k) then k
  else
    let k := set_usp (get_a7 k) k in
    let k := set_a7 (if truth (reg_m (kc k)) then msp (k_ctl k) else isp (k_ctl k)) k in
    log (mmu_set_super true) (set_s true k).
End Vectors.

Section Except.
Context {M : Type} `{Bus M} (p : core_prefs).
(** The decoded instruction table, and the memory map's answer to "is the bank
    of this address missing, the dummy bank or I/O". *)
Context (table68k : Z -> instr) (bad_stack_bank : Z -> bool).
Implicit Types (k : core M).
Abbreviation model := (cpu_model (kp p)).

Definition k_pushl (v : Z) : core M -> core M := on_x (pushl v).
Definition k_pushw (v : Z) : core M -> core M := on_x (pushw v).
Definition k_frame (oldpc currpc ssw nr format : Z) : core M -> core M :=
  on_x (Exception_build_stack_frame oldpc currpc ssw nr format).
Definition k_frame_common (oldpc currpc ssw nr vector_nr : Z) : core M -> core M :=
  on_x (Exception_build_stack_frame_common (kp p) oldpc currpc ssw nr vector_nr).
Definition vector_at (vector_nr : Z) k : Z := get_long (xm (kx k)) (u32 (vbr (k_ctl k) + 4 * vector_nr)).
Definition k_fault k : fault := xf (kx k).

(** ** Address errors: they record what happened and raise exception 3.
    [exc] is [Exception]. *)
Section Exc.
Context (exc : Z -> core M -> core M).

Definition set_e3 (e : exc3) k : core M := {| k with e3 := e |}.

Definition exception3f (opcode addr : Z) (writeaccess instructionaccess notinstruction : bool)
    (pc : option Z) (size fc secondarysr : Z) k : core M :=
  let addr := if 68040 <=? model then addr .& u32 (Z.lnot 1) else addr in
  let last := match pc with
              | Some pc => pc
              | None => if 68020 <=? model then instruction_pc (k_fault k) else m68k_getpc k
              end in
  exc 3 (set_e3 (mk_e3 opcode last addr writeaccess (truth size)
    (if 0 <=? fc then fc else if instructionaccess then 2 else 1)
    (last_di (e3 k)) notinstruction secondarysr) k).

Definition set_di (d : Z) k : core M := set_e3 {| (e3 k) with last_di := d |} k.

Definition exception3_notinstruction (opcode addr : Z) k : core M :=
  exception3f opcode addr true false true None 1 (-1) 0 (set_di 1 k).
Definition exception3_read_special (opcode addr size fc : Z) k : core M :=
  exception3f opcode addr false false false None size fc 0 k.

Definition exception3_read (opcode addr size fc : Z) k : core M :=
  let compat := (model =? 68000) && cpu_compatible p in
  let grp := generates_group1_exception (kp p) table68k (ir k) (kc k) && negb (truth (opcode .& 0x20000)) in
  let ni := compat && (grp || truth (opcode .& 0x10000)) in
  let ia := compat && truth (opcode .& 0x40000) in
  let fc := if compat && grp then -1 else fc in
  let opcode := if compat then ir k else opcode in
  exception3f opcode addr false ia ni None (size .& 15) fc 0 (set_di 1 k).
Definition exception3_read_access := exception3_read.

(** ** The end of [Exception_normal]: the handler's address *)
Definition set_ir (v : Z) k : core M := {| k with ir := v |}.
Definition set_t1 (v : Z) k : core M := {| k with t1 := v |}.
Definition set_nesting (v : Z) k : core M := {| k with exception_in_exception := v |}.

(** The address error of a vector read, with the marks the 68000 frame needs. *)
Definition vector_fault (marks newpc : Z) k : core M :=
  exception3_read_access (ir k .| marks) newpc sz_word 2 k.

Definition load_buffers (vector_nr newpc : Z) : core M -> core M :=
  on_f (fun f => {| f with write_buffer := u16 (4 * vector_nr); read_buffer := u16 newpc;
                           irc := u16 newpc |}).

Definition odd_vector (nr vector_nr newpc : Z) (interrupt g1 : bool) k : core M :=
  if (nr =? 2) || (nr =? 3) then cpu_halt p CPU_HALT_DOUBLE_FAULT k
  else if model =? 68000 then
    let k := MakeSR (set_t1 0 k) in
    let k := m68k_setpc (vbr (k_ctl k) + 4 * vector_nr) k in
    if interrupt then
      vector_fault (0x20000 .| 0x10000) newpc (set_ir (interrupt_level_from_vector nr k) k)
    else vector_fault (0x40000 .| 0x20000 .| (if g1 then 0x10000 else 0)) newpc k
  else if model =? 68010 then
    vector_fault 0 newpc (load_buffers vector_nr newpc (MakeSR (set_t1 0 k)))
  else exception3_notinstruction (ir k) newpc (exception_check_trace p nr k).

Definition jit_end_compile k : core M :=
  if truth (cachesize p) then set_special p SPCFLAG_END_COMPILE k else k.

Definition enter_handler (nr newpc : Z) k : core M :=
  let k := m68k_setpc newpc k in
  let k := disable_allocate false k in
  let k := jit_end_compile k in
  exception_check_trace p nr (log fill_prefetch (ipl_fetch_now k)).

Definition goto_vector (nr vector_nr newpc : Z) (interrupt g1 : bool) k : core M :=
  if Z.odd newpc then odd_vector nr vector_nr newpc interrupt g1 k else enter_handler nr newpc k.

Definition fetch_vector (nr vector_nr : Z) (interrupt g1 : bool) k : core M :=
  goto_vector nr vector_nr (vector_at vector_nr k) interrupt g1 (set_nesting 0 k).

Definition kludge_me_do (nr vector_nr : Z) (interrupt g1 : bool) k : core M :=
  if Z.odd (vbr (k_ctl k)) && (model <=? 68010) then cpu_halt p CPU_HALT_DOUBLE_FAULT k
  else fetch_vector nr vector_nr interrupt g1
         (if interrupt then set_interrupt_mask_from_vector nr k else k).

(** Between the frame and the vector. *)
Definition push_pc_sr (nextpc : Z) k : core M := k_pushw (sr (kc k)) (k_pushl nextpc k).
Definition patch_040_sr (nr : Z) k : core M :=
  if (model =? 68040) && (nr =? 3) && truth (last_op (e3 k) .& 0x10000)
  then on_x (fun x => {| x with xm := put_word (A7 x) (last_sr (e3 k)) (xm x) |}) k else k.

Definition finish_frame (used : bool) (nextpc nr : Z) (interrupt : bool) k : core M :=
  let k := if used then k else push_pc_sr nextpc k in
  patch_040_sr nr (if (model =? 68060) && interrupt then set_m 0 k else k).

Definition after_frame (used : bool) (nextpc nr vector_nr : Z) (interrupt g1 : bool) k : core M :=
  kludge_me_do nr vector_nr interrupt g1 (finish_frame used nextpc nr interrupt k).

(** ** Frames [Exception_normal] writes itself *)

(** 68040/060 bus error with an MMU. *)
Definition frame_040_mmu (vector_nr : Z) k : core M :=
  let f := k_fault k in
  let k := Nat.iter 7 (k_pushl 0) k in
  let k := k_pushl (mmu_fault_addr f) (k_pushl (mmu_fault_addr f) (k_pushl (wb3_data f) k)) in
  let k := k_pushw (wb3_status f) (k_pushw 0 (k_pushw 0 k)) in
  let k := on_f (fun f => {| f with wb3_status := 0 |}) k in
  let k := k_pushl (mmu_fault_addr f) (k_pushw (mmu_ssw f) k) in
  let k := k_pushl (instruction_pc f) (k_pushw (0x7000 + vector_nr * 4) k) in
  k_pushw (sr (kc k)) k.

Definition mmu_goto (nr newpc : Z) k : core M :=
  if Z.odd newpc then
    if (nr =? 2) || (nr =? 3) then cpu_halt p CPU_HALT_DOUBLE_FAULT k
    else exception3_read_special (ir k) newpc 2 1 k
  else exception_check_trace p nr (jit_end_compile (m68k_setpc newpc k)).

Definition bus_error_040_mmu (nr vector_nr : Z) k : core M :=
  let k := frame_040_mmu vector_nr k in mmu_goto nr (vector_at vector_nr k) k.

(** 68040 bus error without one. *)
Definition bus_error_040 (sv : bool) (vector_nr : Z) k : core M :=
  let f := k_fault k in
  let k := Nat.iter 18 (k_pushw 0) k in
  let k := k_pushl (last_fault (e3 k)) k in
  let k := k_pushw 0 (k_pushw 0 (k_pushw 0 k)) in
  let k := k_pushw (0x0140 .| (if sv then 6 else 2)) k in
  let k := k_pushl (last_addr (e3 k)) k in
  let k := k_pushl (instruction_pc f) (k_pushw (0x7000 + vector_nr * 4) k) in
  k_pushw (sr (kc k)) k.

Definition ssw_010 (sv : bool) (e : exc3) : Z :=
  let ssw := (if sv then 4 else 0) .| last_fc e in
  let ssw := ssw .| (if 0 <? last_di e then 0 else if last_di e <? 0 then 0x2000 .| 0x1000 else 0x2000) in
  let ssw := ssw .| (if negb (last_writeaccess e) && truth (last_di e) then 0x1000 else 0) in
  let ssw := ssw .| (if truth (last_op e .& 0x10000) then 0x0400 else 0) in
  let ssw := ssw .| (if negb (last_size e) then 0x0200 else 0) in
  let ssw := ssw .| (if last_writeaccess e then 0 else 0x0100) in
  if truth (last_op e .& 0x20000) then ssw .& 0x00ff else ssw.

Definition clear_030_state k : core M :=
  on_f (fun f => {| f with mmu030_state := <[1%nat := 0]> (<[0%nat := 0]> (mmu030_state f)) |})
    {| k with mmu030_data_buffer_out := 0 |}.
Definition set_fault_addr (a : Z) : core M -> core M := on_f (fun f => {| f with mmu_fault_addr := a |}).

Definition or_sr_s k : core M := on_c (fun c => {| c with sr := sr c .| (1 << 13) |}) k.

(** An interrupt taken with M set: the frame goes to the master stack, a
    throw-away frame (format 1) to the interrupt stack. *)
Definition m_interrupt (vector_nr currpc : Z) k : core M :=
  let k := k_pushw (vector_nr * 4) k in
  if model <? 68060 then
    let k := k_pushw (sr (kc k)) (k_pushl currpc k) in
    let k := or_sr_s k in
    let k := set_m 0 (set_msp (get_a7 k) k) in
    k_pushw (0x1000 + vector_nr * 4) (set_a7 (isp (k_ctl k)) k)
  else k.

(** ** [Exception_normal]: the frame, by model and exception *)
Definition build_frame (nr vector_nr currpc : Z) (sv interrupt g1 : bool) k : core M :=
  let e := e3 k in
  if 68000 <? model then
    let oldpc := instruction_pc (k_fault k) in
    let nextpc := exception_pc nr (k_fault k) in
    let after used := after_frame used nextpc nr vector_nr interrupt g1 in
    if (nr =? 2) || (nr =? 3) then
      if 68040 <=? model then
        if nr =? 2 then
          if truth (mmu_model (kp p)) then bus_error_040_mmu nr vector_nr k
          else kludge_me_do nr vector_nr interrupt g1 (bus_error_040 sv vector_nr k)
        else after true (k_frame (last_fault e) currpc 0 vector_nr 0x02 k)
      else if 68020 <=? model then
        let ssw := (if sv then 4 else 0) .| last_fc e .| MMU030_SSW_RW .| MMU030_SSW_SIZE_W in
        let k := clear_030_state (set_fault_addr (last_fault e) k) in
        after true (k_frame (last_fault e) currpc ssw vector_nr 0x0b k)
      else
        after true (k_frame oldpc currpc (ssw_010 sv e) vector_nr 0x08 (set_fault_addr (last_fault e) k))
    else if truth (reg_m (kc k)) && interrupt then after false (m_interrupt vector_nr currpc k)
    else after true (k_frame_common oldpc currpc (mmu_ssw (k_fault k)) nr vector_nr k)
  else if (nr =? 2) || (nr =? 3) then
    let mode := (if sv then 4 else 0) .| last_fc e .| (if last_writeaccess e then 0 else 16)
                .| (if last_notinstruction e then 8 else 0) in
    let k := set_nesting (-1) k in
    kludge_me_do nr vector_nr interrupt g1
      (on_x (Exception_build_68000_address_error_stack_frame mode (last_op e) (last_fault e) (last_addr e)) k)
  else after_frame false (m68k_getpc k) nr vector_nr interrupt g1 k.

Definition Exception_checked (nr vector_nr currpc : Z) (sv interrupt g1 : bool) k : core M :=
  if Z.odd (get_a7 k) && (model <? 68020) then
    if (nr =? 2) || (nr =? 3) then cpu_halt p CPU_HALT_DOUBLE_FAULT k
    else exception3_notinstruction (ir k) (get_a7 k) k
  else if ((nr =? 2) || (nr =? 3)) && (exception_in_exception k <? 0) then
    cpu_halt p CPU_HALT_DOUBLE_FAULT k
  else if negb (cpu_compatible p) && bad_stack_bank (u32 (get_a7 k - 4)) then
    cpu_halt p CPU_HALT_SSP_IN_NON_EXISTING_ADDRESS k
  else build_frame nr vector_nr currpc sv interrupt g1 k.

(** The vector, after [MakeSR]. *)
Definition vector_of (nr : Z) k : Z :=
  if is_interrupt_exception_vector nr then effective_interrupt_vector nr nr k else nr.

Definition Exception_normal (nr : Z) k : core M :=
  let currpc := m68k_getpc k in
  let sv := reg_s (kc k) in
  let interrupt := is_interrupt_exception_vector nr in
  let g1 := (model <=? 68010) && generates_group1_exception (kp p) table68k (ir k) (kc k) in
  let k := MakeSR (disable_allocate true k) in
  Exception_checked nr (vector_of nr k) currpc sv interrupt g1 (enter_super p k).

(** ** With an MMU *)
Definition mmu_odd_vector (nr newpc size : Z) k : core M :=
  if (nr =? 2) || (nr =? 3) then cpu_halt p CPU_HALT_DOUBLE_FAULT k
  else exception3_read_special (ir k) newpc size 1 k.

(** 68040/060: the frame. *)
Definition mmu_frame (nr oldpc currpc vector_nr : Z) (interrupt : bool) k : core M :=
  let ssw := mmu_ssw (k_fault k) in
  if nr =? 2 then
    if mmu_model (kp p) =? 68040 then k_frame oldpc currpc ssw vector_nr 0x7 k
    else k_frame (mmu_fault_addr (k_fault k)) currpc (mmu_fslw k) vector_nr 0x4 k
  else if nr =? 3 then k_frame (last_fault (e3 k)) currpc 0 vector_nr 0x2 k
  else if truth (reg_m (kc k)) && interrupt then
    let k := set_m 0 (MakeSR (k_frame oldpc currpc ssw vector_nr 0x0 k)) in
    if model <? 68060 then k_frame oldpc currpc ssw vector_nr 0x1 (set_msp (get_a7 k) k) else k
  else k_frame_common oldpc currpc ssw nr vector_nr k.

Definition mmu_enter (nr newpc : Z) (interrupt : bool) k : core M :=
  if Z.odd newpc then mmu_odd_vector nr newpc 2 k
  else
    let k := m68k_setpc newpc (disable_allocate false k) in
    let k := if interrupt then set_interrupt_mask_from_vector nr k else k in
    exception_check_trace p nr (log fill_prefetch k).

Definition mmu_take (nr oldpc currpc vector_nr : Z) (interrupt : bool) k : core M :=
  mmu_enter nr (vector_at vector_nr k) interrupt (mmu_frame nr oldpc currpc vector_nr interrupt k).

Definition Exception_mmu (nr oldpc : Z) k : core M :=
  let currpc := m68k_getpc k in
  let k := MakeSR (disable_allocate true k) in
  mmu_take nr oldpc currpc (vector_of nr k) (is_interrupt_exception_vector nr) (enter_super p k).

(** 68030: the frame. *)
Definition mmu030_frame (nr oldpc currpc vector_nr : Z) (interrupt : bool) k : core M :=
  let ssw := mmu_ssw (k_fault k) in
  if truth (reg_m (kc k)) && interrupt then
    let k := set_m 0 (MakeSR (k_frame oldpc currpc ssw vector_nr 0x0 k)) in
    let k := set_msp (get_a7 k) k in
    k_frame oldpc currpc ssw vector_nr 0x1 (set_a7 (isp (k_ctl k)) k)
  else if nr =? 2 then
    if truth (Frames.nth (mmu030_state (k_fault k)) 1 .& MMU030_STATEFLAG1_LASTWRITE)
    then k_frame oldpc currpc ssw vector_nr 0xA k
    else k_frame oldpc currpc ssw vector_nr 0xB k
  else if nr =? 3 then
    let k := clear_030_state (set_fault_addr (last_fault (e3 k)) k) in
    k_frame (last_fault (e3 k)) currpc
      (MMU030_SSW_RW .| MMU030_SSW_SIZE_W .| (if reg_s (kc k) then 6 else 2)) vector_nr 0xB k
  else k_frame_common oldpc currpc ssw nr vector_nr k.

Definition mmu030_enter (nr newpc : Z) (interrupt : bool) k : core M :=
  if Z.odd newpc then mmu_odd_vector nr newpc 1 k
  else
    let k := if interrupt then set_interrupt_mask_from_vector nr k else k in
    exception_check_trace p nr (log fill_prefetch (m68k_setpc newpc k)).

Definition mmu030_take (nr oldpc currpc vector_nr : Z) (interrupt : bool) k : core M :=
  mmu030_enter nr (vector_at vector_nr k) interrupt (mmu030_frame nr oldpc currpc vector_nr interrupt k).

Definition Exception_mmu030 (nr oldpc : Z) k : core M :=
  let currpc := m68k_getpc k in
  let k := MakeSR k in
  mmu030_take nr oldpc currpc (vector_of nr k) (is_interrupt_exception_vector nr) (enter_super_030 k).

(** ** The dispatcher *)
Definition exception_hook (nr : Z) k : core M :=
  if nr =? 46 then log pistorm_xbios_trace k
  else if nr =? 33 then log pistorm_gemdos_hook k else k.

Definition begin_exception (nr : Z) k : core M :=
  {| k with reg_exception := nr; loop_mode := 0;
            instruction_pc_user_exception :=
              if reg_s (kc k) then instruction_pc_user_exception k else m68k_getpc k |}.

Definition set_instruction_pc (oldpc : option Z) k : core M :=
  match oldpc with
  | Some oldpc => on_f (fun f => {| f with instruction_pc := oldpc |}) k
  | None => k
  end.

Definition start_exception (nr : Z) (oldpc : option Z) k : core M :=
  m68k_resumestopped (set_instruction_pc oldpc (begin_exception nr (exception_hook nr k))).

Definition set_exception (nr : Z) k : core M := {| k with reg_exception := nr |}.

(** The 68060 bus control register: the lock bits move to their shadows. *)
Definition shadow_buscr k : core M :=
  if model =? 68060
  then on_ctl (fun r => let b := buscr r .& 0xa0000000 in {| r with buscr := b .| (b >> 1) |}) k
  else k.

Definition dispatch_exception (nr : Z) k : core M :=
  if truth (mmu_model (kp p)) then
    if model =? 68030 then Exception_mmu030 nr (m68k_getpc k) k
    else Exception_mmu nr (m68k_getpc k) k
  else Exception_normal nr k.

Definition run_exception (nr : Z) k : core M :=
  if cpu_cycle_exact p && (model <=? 68010) then log (Exception_ce000 nr) k
  else dispatch_exception nr (shadow_buscr k).

Definition ExceptionX (nr : Z) (oldpc : option Z) k : core M :=
  set_exception 0 (run_exception nr (start_exception nr oldpc k)).
End Exc.

(** [Exception] calls itself through an address error; [fuel] is the number of
    exceptions in progress it may reach. *)
Fixpoint Exception_fuel (fuel : nat) (nr : Z) k : core M :=
  match fuel with
  | O => k
  | S fuel =>
    let k := if nr =? 4 then log (pistorm_bad_opcode_dump nr) k else k in
    ExceptionX (Exception_fuel fuel) nr None k
  end.

(** Two levels are enough ([exception_depth]). *)
Definition take_exception : Z -> core M -> core M := Exception_fuel 2.

Definition take_exception_cpu_oldpc (nr : Z) (oldpc : option Z) k : core M :=
  let t := (68020 <=? model) && truth (t0 k) && negb (truth (t1 k)) in
  let k := ExceptionX (Exception_fuel 1) nr oldpc k in
  if (nr != 14) && negb ((68040 <=? model) && internalexception nr) && t then activate_trace p k else k.
End Except.
