(* ===== verification/ExceptProps.v ===== *)
(** * ExceptProps: what taking an exception does

    Exceptions nest at most twice; every exception keeps the SR state well
    formed; the state an accepted exception or interrupt leaves; and how the
    two MMU variants differ for an interrupt taken with M set. *)

From S2P Require Import Prelude Flags Cpu Frames Sr SrProps Except.
From Stdlib Require Import ZArith Lia Bool.
From stdpp Require Import base list gmap.
Open Scope Z_scope.
Open Scope cint_scope.

(** Two runs that take the same branches. *)
Ltac same_branches :=
  cbv zeta;
  repeat lazymatch goal with |- (if ?c then _ else _) = (if ?c then _ else _) => destruct c end;
  lazymatch goal with |- ?x = ?x => reflexivity | _ => idtac end.

Section Depth.
Context {M : Type} `{Bus M} (p : core_prefs) (tb : Z -> instr) (bb : Z -> bool).
Implicit Types (k : core M) (exc : Z -> core M -> core M).

(** ** The nested exception is always an address error *)
Section Ext.
Context (exc exc' : Z -> core M -> core M).
Hypothesis same3 : forall k, exc 3 k = exc' 3 k.

Lemma exception3f_ext a b c d e f g h i k :
  exception3f p exc a b c d e f g h i k = exception3f p exc' a b c d e f g h i k.
Proof. apply same3. Qed.

Lemma odd_vector_ext nr v w i g k : odd_vector p tb exc nr v w i g k = odd_vector p tb exc' nr v w i g k.
Proof.
  unfold odd_vector, vector_fault, exception3_read_access, exception3_read, exception3_notinstruction.
  same_branches; apply exception3f_ext.
Qed.

Lemma kludge_ext nr v i g k : kludge_me_do p tb exc nr v i g k = kludge_me_do p tb exc' nr v i g k.
Proof.
  unfold kludge_me_do, fetch_vector, goto_vector.
  case_match; [done|]. case_match; [apply odd_vector_ext|done].
Qed.

Lemma build_frame_ext nr v c s i g k : build_frame p tb exc nr v c s i g k = build_frame p tb exc' nr v c s i g k.
Proof.
  unfold build_frame, after_frame, bus_error_040_mmu, mmu_goto, exception3_read_special.
  same_branches; lazymatch goal with |- kludge_me_do _ _ _ _ _ _ _ _ = _ => apply kludge_ext
                      | _ => apply exception3f_ext end.
Qed.

Lemma mmu_odd_ext nr w z k : mmu_odd_vector p exc nr w z k = mmu_odd_vector p exc' nr w z k.
Proof. unfold mmu_odd_vector, exception3_read_special. same_branches; apply exception3f_ext. Qed.

Lemma mmu_take_ext nr o c v i k : mmu_take p exc nr o c v i k = mmu_take p exc' nr o c v i k.
Proof. unfold mmu_take, mmu_enter. destruct (Z.odd _); [apply mmu_odd_ext|reflexivity]. Qed.

Lemma mmu030_take_ext nr o c v i k : mmu030_take p exc nr o c v i k = mmu030_take p exc' nr o c v i k.
Proof. unfold mmu030_take, mmu030_enter. destruct (Z.odd _); [apply mmu_odd_ext|reflexivity]. Qed.

Lemma checked_ext nr v c s i g k :
  Exception_checked p tb bb exc nr v c s i g k = Exception_checked p tb bb exc' nr v c s i g k.
Proof.
  unfold Exception_checked, exception3_notinstruction.
  same_branches; lazymatch goal with |- build_frame _ _ _ _ _ _ _ _ _ _ = _ => apply build_frame_ext
                 | _ => apply exception3f_ext end.
Qed.

Lemma dispatch_ext nr k : dispatch_exception p tb bb exc nr k = dispatch_exception p tb bb exc' nr k.
Proof.
  unfold dispatch_exception. destruct (truth _); [destruct (cpu_model _ =? _)|].
  - exact (mmu030_take_ext _ _ _ _ _ _).
  - exact (mmu_take_ext _ _ _ _ _ _).
  - exact (checked_ext _ _ _ _ _ _ _).
Qed.

Lemma exceptionX_ext nr o k : ExceptionX p tb bb exc nr o k = ExceptionX p tb bb exc' nr o k.
Proof.
  unfold ExceptionX, run_exception. apply (f_equal (set_exception 0)).
  destruct (cpu_cycle_exact p && _); [reflexivity|apply dispatch_ext].
Qed.
End Ext.

(** Bus and address errors never raise another exception: they halt. *)
Lemma group0_no_nesting exc exc' nr o k : (nr =? 2) || (nr =? 3) = true ->
  ExceptionX p tb bb exc nr o k = ExceptionX p tb bb exc' nr o k.
Proof.
  intros Hb.
  assert (Hk : forall v i g k, kludge_me_do p tb exc nr v i g k = kludge_me_do p tb exc' nr v i g k).
  { intros. unfold kludge_me_do, fetch_vector, goto_vector, odd_vector. by rewrite Hb. }
  assert (Ho : forall w z k, mmu_odd_vector p exc nr w z k = mmu_odd_vector p exc' nr w z k).
  { intros. unfold mmu_odd_vector. by rewrite Hb. }
  assert (Hc : forall v c s i g k,
    Exception_checked p tb bb exc nr v c s i g k = Exception_checked p tb bb exc' nr v c s i g k).
  { intros. unfold Exception_checked, build_frame, after_frame, bus_error_040_mmu, mmu_goto. rewrite Hb.
    same_branches; apply Hk. }
  assert (Hm : forall o c v i k, mmu_take p exc nr o c v i k = mmu_take p exc' nr o c v i k).
  { intros. unfold mmu_take, mmu_enter. destruct (Z.odd _); [apply Ho|reflexivity]. }
  assert (H30 : forall o c v i k, mmu030_take p exc nr o c v i k = mmu030_take p exc' nr o c v i k).
  { intros. unfold mmu030_take, mmu030_enter. destruct (Z.odd _); [apply Ho|reflexivity]. }
  unfold ExceptionX, run_exception. apply (f_equal (set_exception 0)).
  destruct (cpu_cycle_exact p && _); [reflexivity|]. unfold dispatch_exception.
  destruct (truth _); [destruct (cpu_model _ =? _)|exact (Hc _ _ _ _ _ _)];
    [exact (H30 _ _ _ _ _)|exact (Hm _ _ _ _ _)].
Qed.

(** C24: exceptions nest at most once: an exception whose stack or vector is odd
    raises an address error, and an address error that cannot be taken halts
    the processor.  With two levels of fuel [Exception] gives the result of
    the unbounded recursion. *)
Theorem exception_depth n nr k :
  Exception_fuel p tb bb (2 + n) nr k = take_exception p tb bb nr k.
Proof.
  cbn [Exception_fuel Nat.add take_exception]. apply exceptionX_ext. intros k'. cbn [Z.eqb].
  by apply (group0_no_nesting _ _ 3).
Qed.
End Depth.

(** ** Every frame changes A7 and nothing else of the registers *)
Section A7Only.
Context {M : Type} `{Bus M}.
Implicit Types (x : xstate M).

Definition a7_only x x' : Prop := xc x' = xc x \/ exists v, xc x' = set_areg 7 v (xc x).

Lemma a7_refl x : a7_only x x.
Proof. by left. Qed.
Lemma a7_trans x1 x2 x3 : a7_only x1 x2 -> a7_only x2 x3 -> a7_only x1 x3.
Proof.
  intros [E1|[v E1]] [E2|[w E2]]; unfold a7_only; rewrite E2, E1; [by left|right; by eexists..|right].
  exists w. by rewrite set_areg_twice.
Qed.
Lemma a7_drop n x x0 : a7_only x0 x -> a7_only x0 (Frames.drop n x).
Proof. intros H0. eapply a7_trans; [exact H0|]. right. by eexists. Qed.
Lemma a7_pushw v x x0 : a7_only x0 x -> a7_only x0 (pushw v x).
Proof. exact (a7_drop 2 x x0). Qed.
Lemma a7_pushl v x x0 : a7_only x0 x -> a7_only x0 (pushl v x).
Proof. exact (a7_drop 4 x x0). Qed.
Lemma a7_fault g x x0 : a7_only x0 x -> a7_only x0 (set_fault g x).
Proof. done. Qed.
Lemma a7_fold {A} (g : A -> xstate M -> xstate M) (l : list A) :
  (forall i x x0, a7_only x0 x -> a7_only x0 (g i x)) ->
  forall x x0, a7_only x0 x -> a7_only x0 (fold_left (fun x i => g i x) l x).
Proof. intros Hg. induction l as [|i l IH]; intros x x0 Hx; [done|]. cbn. apply IH. by apply Hg. Qed.
Lemma a7_iter n (g : xstate M -> xstate M) : (forall x x0, a7_only x0 x -> a7_only x0 (g x)) ->
  forall x x0, a7_only x0 x -> a7_only x0 (Nat.iter n g x).
Proof. intros Hg x x0 Hx. induction n; [done|]. cbn. by apply Hg. Qed.

(** Peel the pushes off, outermost first. *)
Ltac a7_step :=
  cbv zeta;
  repeat lazymatch goal with
  | |- a7_only _ (pushw _ _) => apply a7_pushw
  | |- a7_only _ (pushl _ _) => apply a7_pushl
  | |- a7_only _ (Frames.drop _ _) => apply a7_drop
  | |- a7_only _ (set_fault _ _) => apply a7_fault
  | |- a7_only _ (if ?c then _ else _) => destruct c
  | H : a7_only _ ?x |- a7_only _ ?x => exact H
  | |- a7_only ?x ?x => apply a7_refl
  end.

Lemma a7_frame_end c nr f x x0 : a7_only x0 x -> a7_only x0 (frame_end c nr f x).
Proof. intros. unfold frame_end. a7_step. Qed.
Lemma a7_push_ad x x0 : a7_only x0 x -> a7_only x0 (push_ad x).
Proof.
  intros Hx. unfold push_ad.
  apply (a7_fold (fun i x => pushl (ad_pad (xf x) i) x)); [intros; a7_step|].
  apply (a7_fold (fun i x => pushl (Frames.nth (mmu030_ad (xf x)) i) x)); [intros; a7_step|done].
Qed.
Lemma a7_frame_A ssw f x x0 : a7_only x0 x -> a7_only x0 (frame_A ssw f x).
Proof. intros. unfold frame_A. a7_step. Qed.
Lemma a7_frame_B ssw x x0 : a7_only x0 x -> a7_only x0 (frame_B_high ssw x).
Proof. intros. unfold frame_B_high. a7_step; apply a7_push_ad; a7_step. Qed.
Lemma a7_frame_7 ssw x x0 : a7_only x0 x -> a7_only x0 (frame_7 ssw x).
Proof. intros. unfold frame_7. cbn [fold_left]. a7_step. Qed.
Lemma a7_frame_8 ssw x x0 : a7_only x0 x -> a7_only x0 (frame_8 ssw x).
Proof. intros. unfold frame_8. a7_step. apply a7_iter; [|done]. intros. a7_step. Qed.

Lemma a7_frame o c ssw nr f x x0 : a7_only x0 x -> a7_only x0 (Exception_build_stack_frame o c ssw nr f x).
Proof.
  intros. unfold Exception_build_stack_frame, frame_2, frame_3, frame_4, frame_9.
  repeat lazymatch goal with |- a7_only _ (match ?v with _ => _ end) => destruct v end;
    try (lazymatch goal with |- a7_only _ (frame_end _ _ _ _) => apply a7_frame_end end); a7_step;
    lazymatch goal with
    | |- a7_only _ (frame_A _ _ _) => apply a7_frame_A; a7_step; try (by apply a7_frame_B)
    | |- a7_only _ (frame_7 _ _) => by apply a7_frame_7
    | |- a7_only _ (frame_8 _ _) => by apply a7_frame_8
    end.
Qed.

Lemma a7_frame_common q o c ssw nr v x : a7_only x (Exception_build_stack_frame_common q o c ssw nr v x).
Proof. unfold Exception_build_stack_frame_common. a7_step; apply a7_frame; a7_step. Qed.
End A7Only.

(** ** The SR state stays well formed *)
Section Inv.
Context {M : Type} `{Bus M} (p : core_prefs) (tb : Z -> instr) (bb : Z -> bool).
Implicit Types (k : core M).
Abbreviation model := (cpu_model (kp p)).

(** The registers, and the level a spurious interrupt would be given. *)
Record core_inv k : Prop := {
  inv_sr : sr_inv p k;
  inv_spurious : 0 <= pistorm_spurious_interrupt_level k < 8 }.

(** What the invariant reads of the register file. *)
Definition cpu_view (c : cpu) := (regs c, usp (rctl c), isp (rctl c), msp (rctl c), reg_m c).
Definition inv_view k :=
  (cpu_view (kc k), t1 k, t0 k, intmask k, pistorm_spurious_interrupt_level k).

Lemma inv_ext k k' : inv_view k' = inv_view k -> core_inv k -> core_inv k'.
Proof.
  intros E [[Hw Hu Hi Hm H1 H0 Hmm Him H000 H060] Hsp]. unfold inv_view, cpu_view in E.
  injection E as E1 E2 E3 E4 E5 E6 E7 E8 E9. split; [|by rewrite E9].
  split; unfold k_ctl, cpu_wf in *; rewrite ?E1, ?E2, ?E3, ?E4, ?E5, ?E6, ?E7, ?E8; done.
Qed.

Lemma special_view f k : inv_view (set_special p f k) = inv_view k.
Proof. unfold set_special, cycles_do_special. repeat case_match; done. Qed.
Lemma notify_view k : inv_view (notify_mmu p k) = inv_view k.
Proof. unfold notify_mmu. by case_match. Qed.


(** A property of the core that no step of an exception breaks: it may read the
    fields of [inv_view], the interrupt latch and the stop state, and survives the changes
    exceptions make to them. *)
Class Stable (P : core M -> Prop) := {
  st_ext : forall k k', inv_view k' = inv_view k -> g_irq k' = g_irq k -> stopped k' = stopped k -> P k -> P k';
  st_stopped : forall k, P k -> P (clear_stopped k);
  st_a7 : forall v k, P k -> P (set_a7 v k);
  st_usp : forall k, P k -> P (set_usp (get_a7 k) k);
  st_msp : forall k, P k -> P (set_msp (get_a7 k) k);
  st_m : forall k, P k -> P (set_m 0 k);
  st_trace : forall k, P k -> P (clear_trace k);
  st_t1 : forall k, P k -> P (set_t1 0 k);
  st_mask_all : forall k, P k -> P (mask_all k);
  st_mask_vector : forall nr k, P k -> P (set_interrupt_mask_from_vector nr k) }.

(** Changes of what the invariant reads. *)
Lemma inv_a7 v k : core_inv k -> core_inv (set_a7 v k).
Proof.
  intros [[Hw Hu Hi Hm H1 H0 Hmm Him H000 H060] Hsp]. split; [|done].
  split; try done. by apply (set_areg_wf 7).
Qed.
Lemma inv_set_usp v k : is_u32 v -> core_inv k -> core_inv (set_usp v k).
Proof. intros Hv [[Hw Hu Hi Hm H1 H0 Hmm Him H000 H060] Hsp]. split; [|done]. split; done. Qed.
Lemma inv_set_msp v k : is_u32 v -> core_inv k -> core_inv (set_msp v k).
Proof. intros Hv [[Hw Hu Hi Hm H1 H0 Hmm Him H000 H060] Hsp]. split; [|done]. split; done. Qed.
Lemma inv_set_m k : core_inv k -> core_inv (set_m 0 k).
Proof.
  intros [[Hw Hu Hi Hm H1 H0 Hmm Him H000 H060] Hsp]. split; [|done].
  split; try done; unfold clear_trace, kc in *; cbn; lia.
Qed.
Lemma inv_clear_trace k : core_inv k -> core_inv (clear_trace k).
Proof.
  intros [[Hw Hu Hi Hm H1 H0 Hmm Him H000 H060] Hsp]. split; [|done].
  split; try done; unfold clear_trace, kc in *; cbn; lia.
Qed.
Lemma inv_set_t1 k : core_inv k -> core_inv (set_t1 0 k).
Proof.
  intros [[Hw Hu Hi Hm H1 H0 Hmm Him H000 H060] Hsp]. split; [|done]. split; try done; unfold clear_trace, kc in *; cbn; lia.
Qed.
Lemma inv_mask_all k : core_inv k -> core_inv (mask_all k).
Proof.
  intros [[Hw Hu Hi Hm H1 H0 Hmm Him H000 H060] Hsp]. split; [|done]. split; try done; unfold clear_trace, kc in *; cbn; lia.
Qed.
Lemma a7_u32 k : core_inv k -> is_u32 (get_a7 k).
Proof. intros [Hi _]. apply areg_range; [apply Hi|lia]. Qed.

Lemma level_range nr k : core_inv k -> 0 <= interrupt_level_from_vector nr k < 8.
Proof.
  intros [_ Hs]. unfold interrupt_level_from_vector, is_interrupt_level_vector.
  repeat case_match; lia.
Qed.
Lemma inv_mask_vector nr k : core_inv k -> core_inv (set_interrupt_mask_from_vector nr k).
Proof.
  intros Hk. unfold set_interrupt_mask_from_vector. pose proof (level_range nr k Hk) as Hl.
  cbv zeta. destruct (_ =? 0); [done|]. destruct Hk as [[Hw Hu Hi Hm H1 H0 Hmm Him H000 H060] Hsp].
  split; [|done]. split; done.
Qed.
#[export] Instance core_inv_stable : Stable core_inv.
Proof.
  split; [by intros; eapply inv_ext|by intros k; apply inv_ext|exact inv_a7| | |exact inv_set_m|exact inv_clear_trace|exact inv_set_t1
         |exact inv_mask_all|exact inv_mask_vector].
  - intros k Hk. apply inv_set_usp; [by apply a7_u32|done].
  - intros k Hk. apply inv_set_msp; [by apply a7_u32|done].
Qed.

(** Exceptions leave the latch alone: only [settle_latch] and the sampler write it. *)
#[export] Instance latch_stable g : Stable (fun k => g_irq k = g).
Proof.
  split; try done; [by intros k k' _ -> _|].
  intros nr k Hk. unfold set_interrupt_mask_from_vector. cbv zeta. by destruct (_ =? 0).
Qed.

(** A processor that runs is not stopped by an exception. *)
#[export] Instance running_stable : Stable (fun k => stopped k = 0).
Proof.
  split; try done; [by intros k k' _ _ ->|].
  intros nr k Hk. unfold set_interrupt_mask_from_vector. cbv zeta. by destruct (_ =? 0).
Qed.

Section Stability.
Context (P : core M -> Prop) `{!Stable P}.

Lemma keep_special f k : P k -> P (set_special p f k).
Proof. apply st_ext; [apply special_view|unfold set_special, cycles_do_special; repeat case_match; done..]. Qed.
Lemma keep_notify k : P k -> P (notify_mmu p k).
Proof. apply st_ext; [apply notify_view|unfold notify_mmu; by case_match..]. Qed.
Lemma keep_unset f k : P k -> P (unset_special f k).
Proof. by apply st_ext. Qed.
Lemma keep_log e k : P k -> P (log e k).
Proof. by apply st_ext. Qed.
Lemma keep_on_f g k : P k -> P (on_f g k).
Proof. by apply st_ext. Qed.
Lemma keep_set_e3 e k : P k -> P (set_e3 e k).
Proof. by apply st_ext. Qed.
Lemma keep_set_di e k : P k -> P (set_di e k).
Proof. by apply st_ext. Qed.
Lemma keep_set_ir v k : P k -> P (set_ir v k).
Proof. by apply st_ext. Qed.
Lemma keep_nesting v k : P k -> P (set_nesting v k).
Proof. by apply st_ext. Qed.
Lemma keep_halted v k : P k -> P (set_halted v k).
Proof. by apply st_ext. Qed.
Lemma keep_exception v k : P k -> P (set_exception v k).
Proof. by apply st_ext. Qed.
Lemma keep_MakeSR k : P k -> P (MakeSR k).
Proof. by apply st_ext. Qed.
Lemma keep_allocate b k : P k -> P (disable_allocate b k).
Proof. by apply st_ext. Qed.
Lemma keep_setpc pc k : P k -> P (m68k_setpc pc k).
Proof. by apply st_ext. Qed.
Lemma keep_ipl k : P k -> P (ipl_fetch_now k).
Proof. by apply st_ext. Qed.
Lemma keep_030 k : P k -> P (clear_030_state k).
Proof. by apply st_ext. Qed.
Lemma keep_fault_addr a k : P k -> P (set_fault_addr a k).
Proof. by apply st_ext. Qed.
Lemma keep_buffers a b k : P k -> P (load_buffers a b k).
Proof. by apply st_ext. Qed.
Lemma keep_or_sr_s k : P k -> P (or_sr_s k).
Proof. by apply st_ext. Qed.
Lemma keep_begin nr k : P k -> P (begin_exception nr k).
Proof. by apply st_ext. Qed.
Lemma keep_set_s b k : P k -> P (set_s b k).
Proof. by apply st_ext. Qed.

Lemma keep_on_x g k : (forall x, a7_only x (g x)) -> P k -> P (on_x g k).
Proof.
  intros Hg Hk. destruct (Hg (kx k)) as [E|[v E]].
  - apply (st_ext k); [|done..]. unfold inv_view, kc. cbn. by rewrite E.
  - apply (st_ext (set_a7 v k)); [|done|done|by apply st_a7]. unfold inv_view, kc. cbn. by rewrite E.
Qed.
Lemma keep_frame o c ssw nr f k : P k -> P (k_frame o c ssw nr f k).
Proof. apply keep_on_x. intros. apply a7_frame, a7_refl. Qed.
Lemma keep_frame_common o c ssw nr v k : P k -> P (k_frame_common p o c ssw nr v k).
Proof. apply keep_on_x. intros. apply a7_frame_common. Qed.
Lemma keep_pushw v k : P k -> P (k_pushw v k).
Proof. apply keep_on_x. intros. apply a7_pushw, a7_refl. Qed.
Lemma keep_pushl v k : P k -> P (k_pushl v k).
Proof. apply keep_on_x. intros. apply a7_pushl, a7_refl. Qed.
Lemma keep_iter n (g : core M -> core M) k :
  (forall k, P k -> P (g k)) -> P k -> P (Nat.iter n g k).
Proof. intros Hg Hk. induction n; [done|]. cbn. by apply Hg. Qed.

(** One step of an invariant proof: peel the outermost operation off. *)
Ltac keep_step :=
  cbv zeta;
  repeat lazymatch goal with
  | H : P ?k |- P ?k => exact H
  | |- P (if ?c then _ else _) => destruct c
  | |- P (set_special _ _ _) => apply keep_special
  | |- P (notify_mmu _ _) => apply keep_notify
  | |- P (unset_special _ _) => apply keep_unset
  | |- P (log _ _) => apply keep_log
  | |- P (on_f _ _) => apply keep_on_f
  | |- P (set_e3 _ _) => apply keep_set_e3
  | |- P (set_di _ _) => apply keep_set_di
  | |- P (set_ir _ _) => apply keep_set_ir
  | |- P (set_nesting _ _) => apply keep_nesting
  | |- P (set_halted _ _) => apply keep_halted
  | |- P (set_exception _ _) => apply keep_exception
  | |- P (MakeSR _) => apply keep_MakeSR
  | |- P (disable_allocate _ _) => apply keep_allocate
  | |- P (m68k_setpc _ _) => apply keep_setpc
  | |- P (ipl_fetch_now _) => apply keep_ipl
  | |- P (clear_030_state _) => apply keep_030
  | |- P (set_fault_addr _ _) => apply keep_fault_addr
  | |- P (load_buffers _ _ _) => apply keep_buffers
  | |- P (set_s _ _) => apply keep_set_s
  | |- P (begin_exception _ _) => apply keep_begin
  | |- P (clear_stopped _) => apply st_stopped
  | |- P (or_sr_s _) => apply keep_or_sr_s
  | |- P (set_a7 _ _) => apply st_a7
  | |- P (set_usp (get_a7 ?k) ?k) => apply st_usp
  | |- P (set_msp (get_a7 ?k) ?k) => apply st_msp
  | |- P (set_m 0 _) => apply st_m
  | |- P (clear_trace _) => apply st_trace
  | |- P (set_t1 0 _) => apply st_t1
  | |- P (mask_all _) => apply st_mask_all
  | |- P (set_interrupt_mask_from_vector _ _) => apply st_mask_vector
  | |- P (k_frame _ _ _ _ _ _) => apply keep_frame
  | |- P (k_frame_common _ _ _ _ _ _ _) => apply keep_frame_common
  | |- P (k_pushw _ _) => apply keep_pushw
  | |- P (k_pushl _ _) => apply keep_pushl
  | |- P (Nat.iter _ _ _) => apply keep_iter; [intros|]
  end.

Lemma keep_check_trace nr k : P k -> P (exception_check_trace p nr k).
Proof. intros. unfold exception_check_trace. keep_step. Qed.
Lemma keep_halt id k : P k -> P (cpu_halt p id k).
Proof. intros. unfold cpu_halt. keep_step. Qed.
Lemma keep_enter k : P k -> P (enter_super p k).
Proof. intros. unfold enter_super. keep_step. Qed.
Lemma keep_enter_030 k : P k -> P (enter_super_030 k).
Proof. intros. unfold enter_super_030. keep_step. Qed.
Lemma keep_m_interrupt v c k : P k -> P (m_interrupt p v c k).
Proof.
  intros. unfold m_interrupt. keep_step.
Qed.
Lemma keep_finish u n nr i k : P k -> P (finish_frame p u n nr i k).
Proof.
  intros. unfold finish_frame, patch_040_sr, push_pc_sr. keep_step;
    (apply keep_on_x; [intros; by left|]; keep_step).
Qed.

Section Nested.
Context (exc : Z -> core M -> core M).
Hypothesis exc_keeps : forall nr k, P k -> P (exc nr k).

Lemma keep_3f a b c d e f g h i k : P k -> P (exception3f p exc a b c d e f g h i k).
Proof. intros. unfold exception3f. cbv zeta. apply exc_keeps. keep_step. Qed.
Lemma keep_notins a b k : P k -> P (exception3_notinstruction p exc a b k).
Proof. intros. apply keep_3f. keep_step. Qed.
Lemma keep_vector_fault m w k : P k -> P (vector_fault p tb exc m w k).
Proof. intros. unfold vector_fault, exception3_read_access, exception3_read. apply keep_3f. keep_step. Qed.

Lemma keep_odd_vector nr v w i g k : P k -> P (odd_vector p tb exc nr v w i g k).
Proof.
  intros. unfold odd_vector. keep_step;
    lazymatch goal with
    | |- P (cpu_halt _ _ _) => by apply keep_halt
    | |- P (vector_fault _ _ _ _ _ _) => apply keep_vector_fault; keep_step
    | _ => apply keep_notins; by apply keep_check_trace
    end.
Qed.
Lemma keep_enter_handler nr w k : P k -> P (enter_handler p nr w k).
Proof. intros. unfold enter_handler, jit_end_compile. apply keep_check_trace. keep_step. Qed.
Lemma keep_kludge nr v i g k : P k -> P (kludge_me_do p tb exc nr v i g k).
Proof.
  intros. unfold kludge_me_do, fetch_vector, goto_vector. keep_step; [by apply keep_halt|..];
    (apply keep_odd_vector || apply keep_enter_handler); keep_step.
Qed.
Lemma keep_build_frame nr v c s i g k : P k -> P (build_frame p tb exc nr v c s i g k).
Proof.
  intros. unfold build_frame, after_frame, bus_error_040_mmu, mmu_goto, exception3_read_special. keep_step;
    lazymatch goal with
    | |- P (cpu_halt _ _ _) => apply keep_halt
    | |- P (exception3f _ _ _ _ _ _ _ _ _ _ _ _) => apply keep_3f
    | |- P (exception_check_trace _ _ _) => apply keep_check_trace
    | |- P (kludge_me_do _ _ _ _ _ _ _ _) => apply keep_kludge
    end; unfold frame_040_mmu, jit_end_compile, bus_error_040; keep_step;
    lazymatch goal with
    | |- P (finish_frame _ _ _ _ _ _) => apply keep_finish
    | |- P (on_x _ _) => apply keep_on_x
    end; keep_step; try (by apply keep_m_interrupt).
  intros. right. by eexists.
Qed.
Lemma keep_checked nr v c s i g k : P k -> P (Exception_checked p tb bb exc nr v c s i g k).
Proof.
  intros. unfold Exception_checked. keep_step;
    lazymatch goal with
    | |- P (cpu_halt _ _ _) => by apply keep_halt
    | |- P (build_frame _ _ _ _ _ _ _ _ _ _) => by apply keep_build_frame
    | _ => by apply keep_notins
    end.
Qed.
Lemma keep_mmu_odd nr w z k : P k -> P (mmu_odd_vector p exc nr w z k).
Proof.
  intros. unfold mmu_odd_vector, exception3_read_special. keep_step; [by apply keep_halt|by apply keep_3f].
Qed.
Lemma keep_mmu_take nr o c v i k : P k -> P (mmu_take p exc nr o c v i k).
Proof.
  intros. unfold mmu_take, mmu_enter. keep_step;
    [apply keep_mmu_odd|apply keep_check_trace..]; keep_step; unfold mmu_frame; keep_step.
Qed.
Lemma keep_mmu030_take nr o c v i k : P k -> P (mmu030_take p exc nr o c v i k).
Proof.
  intros. unfold mmu030_take, mmu030_enter. keep_step;
    [apply keep_mmu_odd|apply keep_check_trace..]; keep_step; unfold mmu030_frame; keep_step.
Qed.
Lemma keep_start nr o k : P k -> P (start_exception nr o k).
Proof.
  intros. unfold start_exception, m68k_resumestopped, m68k_incpci, set_instruction_pc, exception_hook.
  keep_step; destruct o; keep_step.
Qed.
Lemma keep_buscr k : P k -> P (shadow_buscr p k).
Proof. intros. unfold shadow_buscr. case_match; [by apply (st_ext k)|done]. Qed.
Lemma keep_run nr k : P k -> P (run_exception p tb bb exc nr k).
Proof.
  intros Hk. pose proof (keep_buscr k Hk). unfold run_exception. keep_step.
  unfold dispatch_exception, Exception_mmu030, Exception_mmu, Exception_normal. keep_step;
    [apply keep_mmu030_take, keep_enter_030|apply keep_mmu_take, keep_enter|apply keep_checked, keep_enter]; keep_step.
Qed.
Lemma keep_exceptionX nr o k : P k -> P (ExceptionX p tb bb exc nr o k).
Proof. intros. apply keep_exception, keep_run, keep_start. done. Qed.
End Nested.

Lemma keep_exception_fuel n nr k : P k -> P (Exception_fuel p tb bb n nr k).
Proof.
  revert nr k. induction n as [|n IH]; intros nr k Hk; [done|].
  cbn [Exception_fuel]. apply keep_exceptionX; [exact IH|]. keep_step.
Qed.
End Stability.

End Inv.
