(* ===== verification/ExceptTop.v ===== *)
(** * ExceptTop: accepting an interrupt, and the M bit with an MMU

    The state in which an interrupt's handler starts, on every model without
    an MMU; and the stack an MMU machine runs it on when M was set. *)

From S2P Require Import Prelude Flags Cpu Frames Sr SrProps Except ExceptProps.
From Stdlib Require Import ZArith Lia Bool.
From stdpp Require Import base list gmap.
Open Scope Z_scope.
Open Scope cint_scope.

Section Entry.
Context {M : Type} `{BusLaws M} (p : core_prefs) (tb : Z -> instr) (bb : Z -> bool).
Implicit Types (k : core M).
Abbreviation model := (cpu_model (kp p)).

(** The supervisor stack an exception from [k] uses. *)
Definition ssp k : Z :=
  if reg_s (kc k) then get_a7 k
  else if (68020 <=? model) && (model <? 68060) && truth (reg_m (kc k)) then msp (k_ctl k)
  else isp (k_ctl k).

(** SR as it is stacked. *)
Definition packed_sr k : Z := sr (kc (MakeSR k)).

(** What the handler's entry changes of [k], [x] being the machine with the
    frame on its stack. *)
Record entered k (x : xstate M) (pc level : Z) k' : Prop := {
  ent_mem : xm (kx k') = xm x;
  ent_a7 : get_a7 k' = A7 x;
  ent_s : reg_s (kc k') = true;
  ent_ctl : usp (k_ctl k') = usp (rctl (xc x));
  ent_pc : m68k_getpc k' = pc;
  ent_trace : t1 k' = 0 /\ t0 k' = 0;
  ent_mask : intmask k' = level /\ g_irq_mask k' = level }.

(** ** Small steps *)
Lemma check_trace_kx nr k : kx (exception_check_trace p nr k) = kx k.
Proof.
  unfold exception_check_trace. cbn [clear_trace kx].
  repeat match goal with |- context [if ?c then _ else _] => destruct c end; by rewrite ?special_kx.
Qed.
Lemma special_mask f k : intmask (set_special p f k) = intmask k /\ g_irq_mask (set_special p f k) = g_irq_mask k.
Proof. unfold set_special, cycles_do_special. repeat case_match; done. Qed.
Lemma check_trace_mask nr k : intmask (exception_check_trace p nr k) = intmask k /\
  g_irq_mask (exception_check_trace p nr k) = g_irq_mask k.
Proof.
  unfold exception_check_trace. cbn [clear_trace intmask g_irq_mask].
  repeat match goal with |- context [if ?c then _ else _] => destruct c end;
    repeat (match goal with |- context [set_special p ?f ?y] => destruct (special_mask f y) as [-> ->] end);
    done.
Qed.
Lemma end_compile_kx k : kx (jit_end_compile p k) = kx k.
Proof. unfold jit_end_compile. case_match; [apply special_kx|done]. Qed.
Lemma end_compile_mask k : intmask (jit_end_compile p k) = intmask k /\ g_irq_mask (jit_end_compile p k) = g_irq_mask k.
Proof. unfold jit_end_compile. case_match; [apply special_mask|done]. Qed.

Lemma handler_entered k x pc level nr :
  kx k = x -> reg_s (kc k) = true -> intmask k = level -> g_irq_mask k = level ->
  entered k x (u32 pc) level (enter_handler p nr pc k).
Proof.
  intros Ex Es Ei Eg. unfold enter_handler. cbv zeta.
  set (k1 := jit_end_compile p _).
  assert (Ek : kx k1 = kx (disable_allocate false (m68k_setpc pc k))) by apply end_compile_kx.
  assert (intmask k1 = level /\ g_irq_mask k1 = level) as [E1 E2].
  { destruct (end_compile_mask (disable_allocate false (m68k_setpc pc k))) as [E1 E2].
    fold k1 in E1, E2. rewrite E1, E2. done. }
  clearbody k1.
  destruct (check_trace_mask nr (log fill_prefetch (ipl_fetch_now k1))) as [F1 F2].
  pose proof (check_trace_kx nr (log fill_prefetch (ipl_fetch_now k1))) as F0.
  assert (F : kx (exception_check_trace p nr (log fill_prefetch (ipl_fetch_now k1))) =
              kx (disable_allocate false (m68k_setpc pc k))) by (rewrite F0; exact Ek).
  split; unfold get_a7, k_ctl, kc, m68k_getpc; rewrite ?F, ?F1, ?F2; subst x; done.
Qed.
(** ** Supervisor mode *)
Lemma notify_kx k : kx (notify_mmu p k) = kx k.
Proof. unfold notify_mmu. by case_match. Qed.

Lemma enter_super_kx k : core_inv p k ->
  let x := kx (enter_super p k) in
  A7 x = ssp k /\ reg_s (xc x) = true /\ reg_m (xc x) = reg_m (kc k) /\ sr (xc x) = sr (kc k) /\
  usp (rctl (xc x)) = usp_view k /\ vbr (rctl (xc x)) = vbr (k_ctl k) /\
  xm x = xm (kx k) /\ xf x = xf (kx k).
Proof.
  intros Hk. cbv zeta. unfold enter_super, ssp, usp_view. destruct (reg_s (kc k)) eqn:Es; [done|].
  pose proof (inv_sr _ _ Hk) as Hi. pose proof (inv_wf _ _ Hi) as Hw.
  pose proof (inv_isp _ _ Hi) as Hip. pose proof (inv_msp _ _ Hi) as Hmp.
  cbv zeta. rewrite notify_kx.
  change (truth (reg_m (kc (set_usp (get_a7 k) k)))) with (truth (reg_m (kc k))).
  destruct ((68020 <=? model) && (model <? 68060)); cbn [andb]; [destruct (truth (reg_m (kc k)))|];
    (split_and!; [|done..]);
    [apply (get_set_a7 (msp (k_ctl k)) (set_usp (get_a7 k) k))
    |apply (get_set_a7 (isp (k_ctl k)) (set_usp (get_a7 k) k))..]; done.
Qed.
(** ** The frame of an interrupt *)

(** Lowest address first: SR, PC and, from the 68010 on, the vector offset. *)
Definition interrupt_words (srv pc v : Z) : list (option Z) :=
  W srv ++ L pc ++ (if 68000 <? model then W (v * 4) else []).

Lemma set_m_id k : reg_m (kc k) = 0 -> kx (set_m 0 k) = kx k.
Proof. unfold kc. destruct k as [[[] ? ?]]. cbn. by intros ->. Qed.

Lemma finish_interrupt used nextpc nr k : nr <> 3 -> reg_m (kc k) = 0 ->
  kx (finish_frame p used nextpc nr true k) = kx (if used then k else push_pc_sr nextpc k).
Proof.
  intros Hnr Hm. unfold finish_frame, patch_040_sr. cbv zeta. rewrite (proj2 (Z.eqb_neq nr 3)) by done.
  rewrite andb_false_r. cbn [andb]. destruct (model =? 68060); [|done].
  apply set_m_id. by destruct used.
Qed.

Lemma frame_common_m o c ssw nr v k : reg_m (kc (k_frame_common p o c ssw nr v k)) = reg_m (kc k).
Proof.
  unfold kc, k_frame_common, on_x. cbn [kx].
  by destruct (a7_frame_common (kp p) o c ssw nr v (kx k)) as [->|[w ->]].
Qed.

Lemma interrupt_frame exc nr v pc sv g k :
  cpu_wf (kc k) -> 25 <= nr <= 31 -> reg_m (kc k) = 0 -> m68k_getpc k = pc ->
  exists kf, build_frame p tb exc nr v pc sv true g k = kludge_me_do p tb exc nr v true g kf /\
    pushed (kx k) (interrupt_words (sr (kc k)) pc v) (kx kf).
Proof.
  intros Hw Hnr Hm Hpc. unfold build_frame, interrupt_words. cbv zeta.
  assert ((nr =? 2) || (nr =? 3) = false) as -> by lia. rewrite Hm. cbn [truth Z.eqb negb andb].
  destruct (68000 <? model); (eexists; split; [reflexivity|]);
    rewrite finish_interrupt by (lia || done || by rewrite frame_common_m).
  - unfold k_frame_common, on_x. cbn [kx]. unfold Exception_build_stack_frame_common.
    assert (is_interrupt_frame_vector nr = true) as -> by (unfold is_interrupt_frame_vector; lia).
    apply frame_pushed; done.
  - rewrite Hpc. unfold push_pc_sr, k_pushw, k_pushl, on_x. cbn [kx app].
    change (sr (kc k)) with (sr (xc (kx k))).
    apply (pushed_word _ (kx k) (L pc ++ [])); [done|].
    apply (pushed_long _ (kx k) []); [done|by apply pushed_nil].
Qed.
(** ** From the frame to the handler *)
Lemma level_of_vector nr k : 25 <= nr <= 31 -> interrupt_level_from_vector nr k = nr - 24.
Proof.
  intros Hnr. unfold interrupt_level_from_vector, is_interrupt_level_vector.
  rewrite (proj2 (Z.eqb_neq nr 24)) by lia. by assert ((24 <? nr) && (nr <? 24 + 8) = true) as -> by lia.
Qed.

Lemma kludge_entered exc nr v g k :
  25 <= nr <= 31 -> (model <= 68010 -> Z.odd (vbr (k_ctl k)) = false) ->
  Z.odd (vector_at v k) = false -> reg_s (kc k) = true ->
  entered k (kx k) (u32 (vector_at v k)) (nr - 24) (kludge_me_do p tb exc nr v true g k).
Proof.
  intros Hnr Hv Ho Hs. unfold kludge_me_do.
  assert (Z.odd (vbr (k_ctl k)) && (model <=? 68010) = false) as ->.
  { destruct (Z.leb_spec model 68010); [by rewrite Hv|apply andb_false_r]. }
  unfold set_interrupt_mask_from_vector. cbv zeta. rewrite level_of_vector by done.
  rewrite (proj2 (Z.eqb_neq (nr - 24) 0)) by lia.
  set (k1 := on_c _ _). unfold fetch_vector, goto_vector.
  change (vector_at v k1) with (vector_at v k). rewrite Ho.
  assert (entered (set_nesting 0 k1) (kx k1) (u32 (vector_at v k)) (nr - 24)
    (enter_handler p nr (vector_at v k) (set_nesting 0 k1))) as [F1 F2 F3 F4 F5 F6 F7]
    by (by apply handler_entered).
  split; [exact F1|exact F2|exact F3|exact F4|exact F5|exact F6|exact F7].
Qed.

Lemma long_range (m : M) a : is_u32 (get_long m a).
Proof.
  rewrite get_long_words, !get_word_bytes. unfold is_u32.
  pose proof (get_byte_range m a). pose proof (get_byte_range m (a + 1)).
  pose proof (get_byte_range m (a + 2)). pose proof (get_byte_range m (a + 2 + 1)).
  unfold is_u8 in *. lia.
Qed.

Lemma long_outside x0 ws x a : cpu_wf (xc x0) -> (length ws <= 46)%nat -> pushed x0 ws x ->
  (forall i, 0 <= i < 4 -> 2 * Z.of_nat (length ws) <= u32 (a + i - (A7 x0 - 2 * Z.of_nat (length ws)))) ->
  get_long (xm x) a = get_long (xm x0) a.
Proof.
  intros Hw Hl Hp Ha. pose proof (pushed_A7 _ _ _ Hw Hp) as E7. destruct Hp as [_ Hb].
  assert (Hg : forall i, 0 <= i < 4 -> get_byte (xm x) (a + i) = get_byte (xm x0) (a + i)).
  { intros i Hi. rewrite Hb. apply frame_byte_outside; [lia|left]. rewrite E7.
    specialize (Ha i Hi). replace (u32 (a + i - u32 (A7 x0 - 2 * Z.of_nat (length ws))))
      with (u32 (a + i - (A7 x0 - 2 * Z.of_nat (length ws)))) by word. done. }
  pose proof (Hg 0 ltac:(lia)) as G0. rewrite Z.add_0_r in G0.
  rewrite !get_long_words, !get_word_bytes. replace (a + 2 + 1) with (a + 3) by lia.
  by rewrite G0, !Hg by lia.
Qed.

Lemma words_small srv pc v : (length (interrupt_words srv pc v) <= 4)%nat.
Proof. unfold interrupt_words. case_match; cbn; lia. Qed.

(** The checks an acceptable interrupt passes. *)
Lemma accept_branch exc nr k : core_inv p k -> 25 <= nr <= 31 ->
  (model < 68020 -> Z.odd (ssp k) = false) -> (cpu_compatible p = false -> bb (u32 (ssp k - 4)) = false) ->
  exists g, Exception_normal p tb bb exc nr k =
    build_frame p tb exc nr (vector_of nr k) (m68k_getpc k) (reg_s (kc k)) true g
      (enter_super p (MakeSR (disable_allocate true k))).
Proof.
  intros Hk Hnr Hodd Hbank. eexists. unfold Exception_normal. cbv zeta.
  set (k0 := MakeSR (disable_allocate true k)).
  assert (Hk0 : core_inv p k0) by (by apply (keep_MakeSR (core_inv p)), (keep_allocate (core_inv p))).
  destruct (enter_super_kx k0 Hk0) as (E7 & _). set (k1 := enter_super p k0) in *.
  assert (is_interrupt_exception_vector nr = true) as -> by (unfold is_interrupt_exception_vector; lia).
  unfold Exception_checked. change (get_a7 k1) with (A7 (kx k1)). rewrite E7.
  change (ssp k0) with (ssp k).
  assert (Z.odd (ssp k) && (model <? 68020) = false) as ->
    by (destruct (Z.ltb_spec model 68020); [by rewrite Hodd|apply andb_false_r]).
  assert ((nr =? 2) || (nr =? 3) = false) as -> by lia. cbn [andb].
  assert (negb (cpu_compatible p) && bb (u32 (ssp k - 4)) = false) as ->
    by (destruct (cpu_compatible p); [done|by rewrite Hbank]).
  reflexivity.
Qed.

End Entry.

(** ** An interrupt with M set, on the machines with an MMU *)
Section MBit.
Context {M : Type} `{BusLaws M} (p : core_prefs).
Implicit Types (k : core M).
Abbreviation model := (cpu_model (kp p)).

Lemma k_frame_xc o c ssw v f k : cpu_wf (kc k) -> f = 0 \/ f = 1 ->
  kc (k_frame o c ssw v f k) = set_areg 7 (get_a7 k - 8) (kc k).
Proof.
  intros Hw Hf. destruct (frame_pushed o c ssw v f (kx k)
    (W (sr (kc k)) ++ L c ++ W ((f << 12) .| (v * 4)))) as [E _]; [done|by destruct Hf as [-> | ->]| |exact E].
  by destruct Hf as [-> | ->].
Qed.

Lemma k_frame_a7 o c ssw v f k : cpu_wf (kc k) -> f = 0 \/ f = 1 ->
  get_a7 (k_frame o c ssw v f k) = u32 (get_a7 k - 8).
Proof. intros Hw Hf. unfold get_a7 at 1. rewrite k_frame_xc by done. by apply areg7_set. Qed.

(** The four registers the two MMU variants differ in. *)
Definition stack_regs k := (get_a7 k, isp (k_ctl k), msp (k_ctl k), reg_m (kc k)).

Lemma stack_regs_kx k k' : kx k' = kx k -> stack_regs k' = stack_regs k.
Proof. unfold stack_regs, get_a7, k_ctl, kc. by intros ->. Qed.

Lemma mmu_enter_regs exc nr w i k : Z.odd w = false ->
  stack_regs (mmu_enter p exc nr w i k) = stack_regs k /\
  stack_regs (mmu030_enter p exc nr w i k) = stack_regs k.
Proof.
  intros Hw. unfold mmu_enter, mmu030_enter. rewrite Hw. cbv zeta.
  split; rewrite (stack_regs_kx _ _ (check_trace_kx _ _ _)); destruct i; try done;
    unfold set_interrupt_mask_from_vector; cbv zeta; by destruct (_ =? 0).
Qed.

Lemma frame_1_regs o c ssw v k : cpu_wf (kc k) ->
  stack_regs (k_frame o c ssw v 1 k) = (u32 (get_a7 k - 8), isp (k_ctl k), msp (k_ctl k), reg_m (kc k)).
Proof.
  intros Hw. unfold stack_regs, k_ctl. rewrite k_frame_a7, k_frame_xc by (done || by right). done.
Qed.

(** The state in which the first frame has been pushed and M cleared. *)
Lemma m_first_frame o c ssw v k : core_inv p k ->
  let k1 := set_m 0 (MakeSR (k_frame o c ssw v 0 k)) in
  core_inv p k1 /\ get_a7 k1 = u32 (get_a7 k - 8) /\ isp (k_ctl k1) = isp (k_ctl k) /\ reg_m (kc k1) = 0.
Proof.
  intros Hk. cbv zeta. split; [by apply inv_set_m, (keep_MakeSR (core_inv p)), (keep_frame (core_inv p))|].
  assert (Hw : cpu_wf (kc k)) by apply (inv_wf _ _ (inv_sr _ _ Hk)).
  split_and!; [| |done].
  - transitivity (get_a7 (k_frame o c ssw v 0 k)); [done|]. apply k_frame_a7; [done|by left].
  - transitivity (isp (rctl (kc (k_frame o c ssw v 0 k)))); [done|]. by rewrite k_frame_xc by (done || by left).
Qed.

Lemma master_frame_regs o c ssw v k : core_inv p k ->
  stack_regs (k_frame o c ssw v 1 (set_msp (get_a7 k) k)) =
  (u32 (get_a7 k - 8), isp (k_ctl k), get_a7 k, reg_m (kc k)).
Proof.
  intros Hk. assert (Hk2 : core_inv p (set_msp (get_a7 k) k)) by (apply inv_set_msp; [by eapply a7_u32|done]).
  by rewrite frame_1_regs by apply (inv_wf _ _ (inv_sr _ _ Hk2)).
Qed.

Lemma interrupt_frame_regs o c ssw v k : core_inv p k ->
  stack_regs (k_frame o c ssw v 1 (set_a7 (isp (k_ctl (set_msp (get_a7 k) k))) (set_msp (get_a7 k) k))) =
  (u32 (isp (k_ctl k) - 8), isp (k_ctl k), get_a7 k, reg_m (kc k)).
Proof.
  intros Hk. assert (Hk2 : core_inv p (set_msp (get_a7 k) k)) by (apply inv_set_msp; [by eapply a7_u32|done]).
  change (isp (k_ctl (set_msp (get_a7 k) k))) with (isp (k_ctl k)).
  rewrite frame_1_regs by apply (inv_wf _ _ (inv_sr _ _ (inv_a7 _ (isp (k_ctl k)) _ Hk2))).
  rewrite get_set_a7; [done|apply (inv_wf _ _ (inv_sr _ _ Hk2))|apply (inv_isp _ _ (inv_sr _ _ Hk))].
Qed.

(** The branches an interrupt with M set takes. *)
Lemma mmu_frame_m nr o c v k : nr <> 2 -> nr <> 3 -> reg_m (kc k) = 1 -> model < 68060 ->
  mmu_frame p nr o c v true k =
  let k1 := set_m 0 (MakeSR (k_frame o c (mmu_ssw (k_fault k)) v 0 k)) in
  k_frame o c (mmu_ssw (k_fault k)) v 1 (set_msp (get_a7 k1) k1).
Proof.
  intros H2 H3 Hm Hmod. unfold mmu_frame. rewrite !(proj2 (Z.eqb_neq nr _)) by done.
  rewrite Hm. cbn [truth Z.eqb negb andb]. by rewrite (proj2 (Z.ltb_lt model 68060)) by done.
Qed.

Lemma mmu030_frame_m nr o c v k : reg_m (kc k) = 1 ->
  mmu030_frame p nr o c v true k =
  let k1 := set_m 0 (MakeSR (k_frame o c (mmu_ssw (k_fault k)) v 0 k)) in
  k_frame o c (mmu_ssw (k_fault k)) v 1 (set_a7 (isp (k_ctl (set_msp (get_a7 k1) k1))) (set_msp (get_a7 k1) k1)).
Proof. intros Hm. unfold mmu030_frame. rewrite Hm. cbn [truth Z.eqb negb andb]. reflexivity. Qed.

(** An interrupt taken on a 68040 with its MMU and M set ends on the wrong
    stack: M is cleared and the throw-away frame is pushed, but A7 is not
    switched to the interrupt stack, so the handler runs below the master
    stack's frame and the interrupt stack pointer is lost (the 68030 variant
    of the same routine, [m_interrupt_mmu030], switches). *)
Theorem m_interrupt_mmu040 exc nr oldpc currpc v k :
  core_inv p k -> model < 68060 -> nr <> 2 -> nr <> 3 -> reg_m (kc k) = 1 -> reg_s (kc k) = true ->
  Z.odd (vector_at v k) = false ->
  let k' := mmu_take p exc nr oldpc currpc v true k in
  stack_regs k' = (u32 (get_a7 k - 16), isp (k_ctl k), u32 (get_a7 k - 8), 0).
Proof.
  intros Hk Hmod H2 H3 Hm Hs Ho k'. subst k'. unfold mmu_take.
  rewrite (proj1 (mmu_enter_regs _ _ _ _ _ Ho)), mmu_frame_m by done.
  destruct (m_first_frame oldpc currpc (mmu_ssw (k_fault k)) v k Hk) as (Hk1 & E7 & Ei & Em).
  rewrite master_frame_regs by done. rewrite E7, Ei, Em. do 3 f_equal. word.
Qed.

Lemma m_interrupt_mmu030 exc nr oldpc currpc v k :
  core_inv p k -> reg_m (kc k) = 1 -> Z.odd (vector_at v k) = false ->
  let k' := mmu030_take p exc nr oldpc currpc v true k in
  stack_regs k' = (u32 (isp (k_ctl k) - 8), isp (k_ctl k), u32 (get_a7 k - 8), 0).
Proof.
  intros Hk Hm Ho k'. subst k'. unfold mmu030_take.
  rewrite (proj2 (mmu_enter_regs _ _ _ _ _ Ho)), mmu030_frame_m by done.
  destruct (m_first_frame oldpc currpc (mmu_ssw (k_fault k)) v k Hk) as (Hk1 & E7 & Ei & Em).
  rewrite interrupt_frame_regs by done. by rewrite E7, Ei, Em.
Qed.
End MBit.
