(* ===== verification/Mfp.v ===== *)
(** * Mfp: virtual MFP interrupts ([platforms/atari/mfp_hub.c])

    The interrupt state the emulator keeps for the channels it synthesises:
    the guest's register writes are snooped, sources raise or hold channels,
    and arbitration and acknowledge follow the 68901.  Bit [n] of a mask is
    channel [n]. *)

From S2P Require Import Prelude.
From Stdlib Require Import ZArith Lia Bool.
From stdpp Require Import base list.
Open Scope Z_scope.
Open Scope cint_scope.

(** ** State: the [g_*] globals *)
Record mfp := mk_mfp {
  g_ier : Z; g_imr : Z; g_vpend : Z; g_visr : Z; g_vr : Z;
  g_tacr : Z; g_tadr : Z; g_tacnt : Z;
  g_level_poll : list bool;     (* a poll function is registered *)
  g_iacks : list Z;
  kbd_notes : Z }.              (* calls of [kbd_usb_note_iack] *)

Definition mfp_boot : mfp :=
  mk_mfp 0xFFFF 0xFFFF 0 0 0x48 0 256 256 (replicate 16 false) (replicate 16 0) 0.

Definition mfp_hub_register_level (ch : Z) (poll : bool) (s : mfp) : mfp :=
  if (0 <=? ch) && (ch <? 16)
  then {| s with g_level_poll := <[Z.to_nat ch := poll]> (g_level_poll s) |} else s.

(** ** Guest writes *)
Definition write_ier (ier : Z) (s : mfp) : mfp :=
  {| s with g_ier := ier; g_vpend := g_vpend s .& ier |}.

Definition reg_write (a b : Z) (s : mfp) : mfp :=
  match a with
  | 0x00FFFA07 => write_ier (u16 ((g_ier s .& 0xFF) .| (b << 8))) s
  | 0x00FFFA09 => write_ier (u16 ((g_ier s .& 0xFF00) .| b)) s
  | 0x00FFFA0B => {| s with g_vpend := g_vpend s .& u16 ((b << 8) .| 0xFF) |}
  | 0x00FFFA0D => {| s with g_vpend := g_vpend s .& u16 (0xFF00 .| b) |}
  | 0x00FFFA0F => {| s with g_visr := g_visr s .& u16 ((b << 8) .| 0xFF) |}
  | 0x00FFFA11 => {| s with g_visr := g_visr s .& u16 (0xFF00 .| b) |}
  | 0x00FFFA13 => {| s with g_imr := u16 ((g_imr s .& 0xFF) .| (b << 8)) |}
  | 0x00FFFA15 => {| s with g_imr := u16 ((g_imr s .& 0xFF00) .| b) |}
  | 0x00FFFA17 => let s := {| s with g_vr := b |} in
                  if b .& 8 =? 0 then {| s with g_visr := 0 |} else s
  | 0x00FFFA19 => {| s with g_tacr := b .& 0xF; g_tacnt := g_tadr s |}
  | 0x00FFFA1F => let v := if truth b then b else 256 in {| s with g_tadr := v; g_tacnt := v |}
  | _ => s
  end.

Definition mfp_hub_write_snoop (addr value : Z) (is_word : bool) (s : mfp) : mfp :=
  let a := addr .& 0xFFFFFF in
  if (a <? 0xFFFA00) || (0xFFFA2F <? a) then s
  else reg_write (if is_word then a .| 1 else a) (value .& 0xFF) s.

(** ** Pending channels

    [asserts ch] is what the poll function of channel [ch] returns. *)
Fixpoint level_bits (n : nat) (reg : list bool) (asserts : Z -> bool) : Z :=
  match n with
  | O => 0
  | S k => let m := level_bits k reg asserts in
           if (reg !!! k) && asserts (Z.of_nat k) then m .| (1 << Z.of_nat k) else m
  end.

Definition pending_now (asserts : Z -> bool) (s : mfp) : Z :=
  u16 (g_vpend s .| level_bits 16 (g_level_poll s) asserts) .& g_ier s.

Definition mfp_hub_read_shim (asserts : Z -> bool) (addr real : Z) (s : mfp) : Z :=
  match addr .& 0xFFFFFF with
  | 0x00FFFA0B => u8 (real .| (pending_now asserts s >> 8))
  | 0x00FFFA0D => u8 (real .| (pending_now asserts s .& 0xFF))
  | 0x00FFFA0F => u8 (real .| (g_visr s >> 8))
  | 0x00FFFA11 => u8 (real .| (g_visr s .& 0xFF))
  | _ => real
  end.

(** ** Sources *)
Definition mfp_hub_raise (ch : Z) (s : mfp) : mfp :=
  if (ch <? 0) || (15 <? ch) then s
  else let bit := u16 (1 << ch) in
       if truth (g_ier s .& bit) then {| s with g_vpend := g_vpend s .| bit |} else s.

Definition mfp_hub_timer_a_event (s : mfp) : mfp :=
  if g_tacr s != 8 then s
  else if g_tacnt s <=? 1 then mfp_hub_raise 13 {| s with g_tacnt := g_tadr s |}
  else {| s with g_tacnt := g_tacnt s - 1 |}.

(** ** Arbitration *)
(** [int top = n-1; while (top >= 0 && !(v & (1u << top))) top--;] *)
Fixpoint top_bit (n : nat) (v : Z) : Z :=
  match n with
  | O => -1
  | S k => if truth (v .& (1 << Z.of_nat k)) then Z.of_nat k else top_bit k v
  end.

(** The channels of [pend] that may interrupt: unmasked and above every
    channel in service. *)
Definition arbitrate (pend : Z) (s : mfp) : Z :=
  let pend := pend .& g_imr s in
  if pend =? 0 then 0
  else if truth (g_visr s)
       then pend .& u16 (Z.lnot ((1 << (top_bit 16 (g_visr s) + 1)) - 1))
       else pend.

Definition deliverable (asserts : Z -> bool) (s : mfp) : Z := arbitrate (pending_now asserts s) s.

Definition mfp_hub_irq_wanted (asserts : Z -> bool) (s : mfp) : bool := deliverable asserts s != 0.

Definition mfp_hub_top_wanted (asserts : Z -> bool) (s : mfp) : Z :=
  let pend := deliverable asserts s in if pend =? 0 then -1 else top_bit 16 pend.

Definition mfp_hub_iacks (ch : Z) (s : mfp) : Z :=
  if (0 <=? ch) && (ch <? 16) then g_iacks s !!! Z.to_nat ch else 0.

(** ** Acknowledge: what follows the arbitration *)
Definition iack_take (pend : Z) (s : mfp) : Z * mfp :=
  if pend =? 0 then (-1, s)
  else
    let ch := top_bit 16 pend in
    let bit := u16 (1 << ch) in
    let s := {| s with
      g_vpend := g_vpend s .& u16 (Z.lnot bit);
      g_iacks := <[Z.to_nat ch := u32 (g_iacks s !!! Z.to_nat ch + 1)]> (g_iacks s);
      kbd_notes := if ch =? 6 then kbd_notes s + 1 else kbd_notes s |} in
    let s := if truth (g_vr s .& 8) then {| s with g_visr := g_visr s .| bit |} else s in
    ((g_vr s .& 0xF0) .| ch, s).

Definition mfp_hub_iack (asserts : Z -> bool) (s : mfp) : Z * mfp := iack_take (deliverable asserts s) s.

Definition mfp_hub_snapshot (asserts : Z -> bool) (s : mfp) : Z * Z * Z * Z * Z :=
  (g_ier s, g_imr s, pending_now asserts s, g_visr s, g_vr s).

Definition mfp_hub_reset (s : mfp) : mfp :=
  {| s with g_vpend := 0; g_visr := 0; g_ier := 0xFFFF; g_imr := 0xFFFF; g_vr := 0x48;
            g_tacr := 0; g_tadr := 256; g_tacnt := 256 |}.

(** ** Well-formedness *)
Record mfp_wf (s : mfp) : Prop := {
  wf_ier : is_u16 (g_ier s); wf_imr : is_u16 (g_imr s); wf_vpend : is_u16 (g_vpend s);
  wf_visr : is_u16 (g_visr s); wf_vr : is_u8 (g_vr s);
  wf_tacr : 0 <= g_tacr s < 16; wf_tadr : 1 <= g_tadr s <= 256; wf_tacnt : 1 <= g_tacnt s <= 256;
  wf_polls : length (g_level_poll s) = 16%nat; wf_iacks : length (g_iacks s) = 16%nat;
  wf_pend_en : g_vpend s .& g_ier s = g_vpend s;        (* only enabled channels latch *)
  wf_auto : Z.testbit (g_vr s) 3 = false -> g_visr s = 0 }. (* auto-EOI holds nothing *)
