(* ===== verification/MfpProps.v ===== *)
(** * MfpProps: the hub behaves as the 68901 it stands in for

    An abstract 68901 with one flag per channel, and that every operation of
    the hub is the corresponding operation of the chip; acknowledging is
    atomic with respect to concurrent raises, a write of an enable register
    is not. *)

From S2P Require Import Prelude Mfp.
From Stdlib Require Import ZArith Lia Bool Setoid Morphisms.
From stdpp Require Import base list.
Open Scope Z_scope.
Open Scope cint_scope.

(** ** Bits of 16-bit masks *)
Lemma is_u16_iff z : is_u16 z <-> z .& Z.ones 16 = z.
Proof. rewrite Z.land_ones by lia. change (2 ^ 16) with 65536. word. Qed.

Lemma is_u16_land_l a b : is_u16 a -> is_u16 (a .& b).
Proof.
  rewrite !is_u16_iff. intros Ha. by rewrite (Z.land_comm a b), <- Z.land_assoc, Ha.
Qed.

Lemma is_u16_lor a b : is_u16 a -> is_u16 b -> is_u16 (a .| b).
Proof. rewrite !is_u16_iff. intros Ha Hb. by rewrite Z.land_lor_distr_l, Ha, Hb. Qed.

Lemma u16_high z i : is_u16 z -> 16 <= i -> Z.testbit z i = false.
Proof.
  intros Hz Hi. rewrite <- (u16_small z Hz), testbit_u16.
  rewrite (proj2 (Z.ltb_ge i 16)) by lia. apply andb_false_r.
Qed.

(** Two 16-bit masks are equal when their channels agree. *)
Lemma u16_ext a b : is_u16 a -> is_u16 b -> (forall i, 0 <= i < 16 -> Z.testbit a i = Z.testbit b i) -> a = b.
Proof.
  intros Ha Hb Hab. apply Z.bits_inj'. intros i Hi. destruct (Z.ltb_spec i 16); [by apply Hab|].
  by rewrite !u16_high.
Qed.

Lemma bit_testbit k i : 0 <= k -> Z.testbit (1 << k) i = (i =? k).
Proof.
  intros Hk. rewrite Z.shiftl_1_l. destruct (Z.eqb_spec i k) as [->|]; [by apply Z.pow2_bits_true|].
  by apply Z.pow2_bits_false.
Qed.

Lemma truth_bit v k : 0 <= k -> truth (v .& (1 << k)) = Z.testbit v k.
Proof. intros. rewrite Z.shiftl_1_l. by apply land_pow2_truth. Qed.

(** ** The highest set bit *)
Lemma top_bit_spec n v :
  (top_bit n v = -1 /\ forall i, 0 <= i < Z.of_nat n -> Z.testbit v i = false) \/
  (0 <= top_bit n v < Z.of_nat n /\ Z.testbit v (top_bit n v) = true /\
   forall i, top_bit n v < i < Z.of_nat n -> Z.testbit v i = false).
Proof.
  induction n as [|n IH]; cbn [top_bit]; [left; split; [done|lia]|].
  rewrite truth_bit by lia. destruct (Z.testbit v (Z.of_nat n)) eqn:E.
  - right. split; [lia|]. split; [done|]. intros i Hi. lia.
  - assert (Hn : forall i, Z.of_nat n <= i < Z.of_nat (S n) -> Z.testbit v i = false).
    { intros i Hi. by replace i with (Z.of_nat n) by lia. }
    destruct IH as [[-> Hz]|(Hr & Ht & Hz)]; [left|right].
    + split; [done|]. intros i Hi. destruct (Z.ltb_spec i (Z.of_nat n)); [apply Hz|apply Hn]; lia.
    + split; [lia|]. split; [done|]. intros i Hi.
      destruct (Z.ltb_spec i (Z.of_nat n)); [apply Hz|apply Hn]; lia.
Qed.

Lemma top_bit_nonzero v : is_u16 v -> v <> 0 ->
  0 <= top_bit 16 v < 16 /\ Z.testbit v (top_bit 16 v) = true /\
  forall i, top_bit 16 v < i < 16 -> Z.testbit v i = false.
Proof.
  intros Hv Hnz. destruct (top_bit_spec 16 v) as [[_ Hz]|Hs]; [|exact Hs].
  exfalso. apply Hnz. apply (u16_ext v 0 Hv); [done|]. intros i Hi. by rewrite Hz, Z.bits_0.
Qed.

Lemma level_bits_spec n reg asserts i : 0 <= i ->
  Z.testbit (level_bits n reg asserts) i
    = (i <? Z.of_nat n) && (reg !!! Z.to_nat i) && asserts i.
Proof.
  intros Hi. induction n as [|n IH]; cbn [level_bits].
  - rewrite Z.bits_0, (proj2 (Z.ltb_ge i (Z.of_nat 0))) by lia. done.
  - assert (Hlt : (i <? Z.of_nat (S n)) = (i =? Z.of_nat n) || (i <? Z.of_nat n)).
    { destruct (Z.eqb_spec i (Z.of_nat n)); [apply Z.ltb_lt; lia|].
      destruct (Z.ltb_spec i (Z.of_nat n)); [apply Z.ltb_lt|apply Z.ltb_ge]; lia. }
    rewrite Hlt. destruct (reg !!! n && asserts (Z.of_nat n)) eqn:E.
    + rewrite Z.lor_spec, IH, bit_testbit by lia. destruct (Z.eqb_spec i (Z.of_nat n)) as [->|]; cbn [orb].
      * rewrite Nat2Z.id. cbn [andb]. rewrite E. apply orb_true_r.
      * apply orb_false_r.
    + rewrite IH. destruct (Z.eqb_spec i (Z.of_nat n)) as [->|]; cbn [orb]; [|done].
      rewrite Nat2Z.id, (proj2 (Z.ltb_ge _ _)) by lia. cbn [andb]. by rewrite E.
Qed.

(** ** The abstract 68901: one flag per channel *)
Record chip := mk_chip {
  c_en : Z -> bool; c_pend : Z -> bool; c_mask : Z -> bool; c_svc : Z -> bool;
  c_vec : Z; c_sei : bool }.

(** Chips are compared on their sixteen channels. *)
Definition chan_eq (f g : Z -> bool) : Prop := forall i, 0 <= i < 16 -> f i = g i.
Definition chip_eq (a b : chip) : Prop :=
  chan_eq (c_en a) (c_en b) /\ chan_eq (c_pend a) (c_pend b) /\ chan_eq (c_mask a) (c_mask b)
  /\ chan_eq (c_svc a) (c_svc b) /\ c_vec a = c_vec b /\ c_sei a = c_sei b.

#[export] Instance chan_eq_equiv : Equivalence chan_eq.
Proof.
  split; [by intros ? ?|by intros f g H i Hi; rewrite H|].
  intros f g h H1 H2 i Hi. by rewrite H1, H2.
Qed.
#[export] Instance chip_eq_equiv : Equivalence chip_eq.
Proof.
  split.
  - intros a. by repeat split.
  - intros a b (? & ? & ? & ? & ? & ?). by repeat split; symmetry.
  - intros a b c (? & ? & ? & ? & ? & ?) (? & ? & ? & ? & ? & ?).
    repeat split; try congruence; etransitivity; eauto.
Qed.

Definition abs (s : mfp) : chip :=
  mk_chip (Z.testbit (g_ier s)) (Z.testbit (g_vpend s)) (Z.testbit (g_imr s)) (Z.testbit (g_visr s))
    (g_vr s .& 0xF0) (Z.testbit (g_vr s) 3).

(** The half of the channels a register byte covers. *)
Definition set_half (hi : bool) (b : Z) (f : Z -> bool) : Z -> bool := fun i =>
  if hi then if 8 <=? i then Z.testbit b (i - 8) else f i
  else if 8 <=? i then f i else Z.testbit b i.

Inductive chip_reg := R_IER (hi : bool) | R_IPR (hi : bool) | R_ISR (hi : bool) | R_IMR (hi : bool) | R_VR.

Definition chip_write (r : chip_reg) (b : Z) (c : chip) : chip :=
  match r with
  | R_IER hi => let en := set_half hi b (c_en c) in
                {| c with c_en := en; c_pend := fun i => c_pend c i && en i |}
  | R_IPR hi => {| c with c_pend := fun i => c_pend c i && set_half hi b (fun _ => true) i |}
  | R_ISR hi => {| c with c_svc := fun i => c_svc c i && set_half hi b (fun _ => true) i |}
  | R_IMR hi => {| c with c_mask := set_half hi b (c_mask c) |}
  | R_VR => {| c with c_vec := b .& 0xF0; c_sei := Z.testbit b 3;
                      c_svc := fun i => c_svc c i && Z.testbit b 3 |}
  end.

Definition reg_addr (r : chip_reg) : Z :=
  match r with
  | R_IER hi => if hi then 0xFFFA07 else 0xFFFA09
  | R_IPR hi => if hi then 0xFFFA0B else 0xFFFA0D
  | R_ISR hi => if hi then 0xFFFA0F else 0xFFFA11
  | R_IMR hi => if hi then 0xFFFA13 else 0xFFFA15
  | R_VR => 0xFFFA17
  end.

Definition chip_raise (ch : Z) (c : chip) : chip :=
  {| c with c_pend := fun i => c_pend c i || ((i =? ch) && c_en c i) |}.

(** The delivery rule of the 68901. *)
Definition chip_wants (line : Z -> bool) (c : chip) (ch : Z) : Prop :=
  0 <= ch < 16 /\ c_en c ch = true /\ (c_pend c ch || line ch) = true /\ c_mask c ch = true /\
  forall j, 0 <= j < 16 -> c_svc c j = true -> j < ch.

Definition chip_taken (ch : Z) (c : chip) : chip :=
  {| c with c_pend := fun i => c_pend c i && negb (i =? ch);
            c_svc := fun i => c_svc c i || ((i =? ch) && c_sei c) |}.

(** Acknowledge: the highest channel that wants service, or none. *)
Inductive chip_iack (line : Z -> bool) (c : chip) : Z -> chip -> Prop :=
| iack_none : (forall ch, ~ chip_wants line c ch) -> chip_iack line c (-1) c
| iack_take_ch ch : chip_wants line c ch -> (forall j, ch < j -> ~ chip_wants line c j) ->
    chip_iack line c (c_vec c .| ch) (chip_taken ch c).

Lemma half_hi old b i : is_u8 b -> 0 <= i < 16 ->
  Z.testbit (u16 ((old .& 0xFF) .| (b << 8))) i = set_half true b (Z.testbit old) i.
Proof.
  intros Hb Hi. rewrite testbit_u16, (proj2 (Z.ltb_lt i 16)), andb_true_r, Z.lor_spec, Z.land_spec by lia.
  rewrite Z.shiftl_spec by lia. change 0xFF with (Z.ones 8). unfold set_half.
  destruct (Z.leb_spec 8 i).
  - by rewrite Z.ones_spec_high, andb_false_r by lia.
  - by rewrite Z.ones_spec_low, andb_true_r, (Z.testbit_neg_r b), orb_false_r by lia.
Qed.

Lemma half_lo old b i : is_u8 b -> 0 <= i < 16 ->
  Z.testbit (u16 ((old .& 0xFF00) .| b)) i = set_half false b (Z.testbit old) i.
Proof.
  intros Hb Hi. rewrite testbit_u16, (proj2 (Z.ltb_lt i 16)), andb_true_r, Z.lor_spec, Z.land_spec by lia.
  change 0xFF00 with (Z.ones 8 << 8). rewrite Z.shiftl_spec by lia. unfold set_half.
  destruct (Z.leb_spec 8 i).
  - rewrite Z.ones_spec_low, andb_true_r by lia.
    rewrite <- (Z.mod_small b (2 ^ 8)) by (exact Hb). rewrite Z.mod_pow2_bits_high by lia. apply orb_false_r.
  - by rewrite (Z.testbit_neg_r (Z.ones 8)), andb_false_r by lia.
Qed.

Lemma keep_hi b i : is_u8 b -> 0 <= i < 16 ->
  Z.testbit (u16 ((b << 8) .| 0xFF)) i = set_half true b (fun _ => true) i.
Proof.
  intros Hb Hi. change 0xFF with (0xFF .& 0xFF). rewrite Z.lor_comm, half_hi by done. unfold set_half.
  destruct (Z.leb_spec 8 i); [done|]. by rewrite (Z.ones_spec_low 8) by lia.
Qed.

Lemma keep_lo b i : is_u8 b -> 0 <= i < 16 ->
  Z.testbit (u16 (0xFF00 .| b)) i = set_half false b (fun _ => true) i.
Proof.
  intros Hb Hi. change (0xFF00 .| b) with ((0xFF00 .& 0xFF00) .| b). rewrite half_lo by done. unfold set_half.
  destruct (Z.leb_spec 8 i); [|done]. change 0xFF00 with (Z.ones 8 << 8).
  by rewrite Z.shiftl_spec, Z.ones_spec_low by lia.
Qed.

Lemma abs_write r b s : is_u8 b -> chip_eq (abs (reg_write (reg_addr r) b s)) (chip_write r b (abs s)).
Proof.
  intros Hb. destruct r as [[]|[]|[]|[]|]; cbn [reg_addr].
  9: { cbv beta iota delta [reg_write]. change 8 with (2 ^ 3). rewrite land_pow2_eqb by lia.
       unfold abs, chip_write. cbn [c_en c_pend c_mask c_svc c_vec c_sei].
       destruct (Z.testbit b 3) eqn:E3; cbn [negb]; repeat split; try done; intros i Hi.
       - cbn [c_svc g_visr]. by rewrite andb_true_r.
       - cbn [c_svc g_visr]. by rewrite Z.bits_0, andb_false_r. }
  all: cbv beta iota delta [reg_write write_ier]; unfold abs, chip_write; repeat split; try done; intros i Hi;
     cbn [g_ier g_vpend g_imr g_visr g_vr c_en c_pend c_mask c_svc c_vec c_sei];
     rewrite ?Z.land_spec, ?half_hi, ?half_lo, ?keep_hi, ?keep_lo by done; done.
Qed.

Lemma bit_u16 ch : 0 <= ch < 16 -> u16 (1 << ch) = 1 << ch /\ is_u16 (1 << ch).
Proof.
  intros Hc. assert (Hu : is_u16 (1 << ch)).
  { rewrite Z.shiftl_1_l. unfold is_u16. split; [apply Z.pow_nonneg; lia|].
    change 65536 with (2 ^ 16). apply Z.pow_lt_mono_r; lia. }
  split; [by apply u16_small|done].
Qed.

Lemma abs_raise ch s : chip_eq (abs (mfp_hub_raise ch s)) (chip_raise ch (abs s)).
Proof.
  unfold mfp_hub_raise, chip_raise. destruct ((ch <? 0) || (15 <? ch)) eqn:E.
  - repeat split; try done; intros i Hi. cbn [abs c_pend]. apply orb_prop in E.
    assert (Hne : (i =? ch) = false).
    { apply Z.eqb_neq. intros ->. destruct E as [E%Z.ltb_lt|E%Z.ltb_lt]; lia. }
    by rewrite Hne, orb_false_r.
  - apply orb_false_iff in E as [E1%Z.ltb_ge E2%Z.ltb_ge].
    assert (Hb : forall i, 0 <= i < 16 -> Z.testbit (u16 (1 << ch)) i = (i =? ch)).
    { intros i Hi. by rewrite testbit_u16, (proj2 (Z.ltb_lt i 16)), andb_true_r, bit_testbit by lia. }
    rewrite (proj1 (bit_u16 ch ltac:(lia))) in *. rewrite truth_bit by lia.
    destruct (Z.testbit (g_ier s) ch) eqn:Een; repeat split; try done; intros i Hi; cbn [abs c_pend c_en g_vpend].
    + rewrite Z.lor_spec, Hb by done. f_equal. destruct (Z.eqb_spec i ch) as [->|]; [|done]. by rewrite Een.
    + destruct (Z.eqb_spec i ch) as [->|]; cbn [andb]; [rewrite Een|]; by rewrite orb_false_r.
Qed.

(** ** Arbitration *)
Definition line_of (reg : list bool) (asserts : Z -> bool) : Z -> bool :=
  fun i => (reg !!! Z.to_nat i) && asserts i.

Lemma pending_spec asserts s i : 0 <= i < 16 ->
  Z.testbit (pending_now asserts s) i
    = (Z.testbit (g_vpend s) i || line_of (g_level_poll s) asserts i) && Z.testbit (g_ier s) i.
Proof.
  intros Hi. unfold pending_now, line_of.
  rewrite Z.land_spec, testbit_u16, Z.lor_spec, level_bits_spec, (proj2 (Z.ltb_lt i 16)) by lia.
  rewrite (proj2 (Z.ltb_lt i (Z.of_nat 16))), andb_true_r by lia. done.
Qed.

Lemma pending_u16 asserts s : is_u16 (pending_now asserts s).
Proof. apply is_u16_land_l, u16_range. Qed.

Lemma arbitrate_u16 pend s : is_u16 pend -> is_u16 (arbitrate pend s).
Proof.
  intros Hp. unfold arbitrate. destruct (_ =? 0); [done|].
  destruct (truth _); [apply is_u16_land_l|]; by apply is_u16_land_l.
Qed.

Lemma arbitrate_spec pend s i : is_u16 (g_visr s) -> 0 <= i < 16 ->
  Z.testbit (arbitrate pend s) i = true <->
  Z.testbit pend i = true /\ Z.testbit (g_imr s) i = true /\
  forall j, 0 <= j < 16 -> Z.testbit (g_visr s) j = true -> j < i.
Proof.
  intros Hv Hi. unfold arbitrate. destruct (Z.eqb_spec (pend .& g_imr s) 0) as [E|_].
  - rewrite Z.bits_0. split; [done|]. intros (H1 & H2 & _).
    assert (Z.testbit (pend .& g_imr s) i = true) by (by rewrite Z.land_spec, H1, H2).
    by rewrite E, Z.bits_0 in H.
  - unfold truth. destruct (Z.eqb_spec (g_visr s) 0) as [E0|Hnz]; cbn [negb].
    + rewrite Z.land_spec, andb_true_iff. split; [|tauto]. intros [H1 H2]. split_and!; [done..|].
      intros j Hj. rewrite E0, Z.bits_0. done.
    + destruct (top_bit_nonzero _ Hv Hnz) as (Ht & Htb & Hhi). set (t := top_bit 16 (g_visr s)) in *.
      rewrite Z.shiftl_1_l, Z.sub_1_r, <- Z.ones_equiv, !Z.land_spec, testbit_u16, Z.lnot_spec by lia.
      rewrite (proj2 (Z.ltb_lt i 16)), andb_true_r, !andb_true_iff by lia.
      assert (Hm : negb (Z.testbit (Z.ones (t + 1)) i) = true <->
                   forall j, 0 <= j < 16 -> Z.testbit (g_visr s) j = true -> j < i).
      { split.
        - intros Hn j Hj Hs. apply negb_true_iff in Hn. destruct (Z.ltb_spec i (t + 1)).
          { by rewrite Z.ones_spec_low in Hn by lia. }
          destruct (Z.ltb_spec t j); [|lia]. by rewrite Hhi in Hs by lia.
        - intros Hall. specialize (Hall t ltac:(lia) Htb). by rewrite Z.ones_spec_high by lia. }
      rewrite Hm. tauto.
Qed.

(** The hub's arbitration is the chip's delivery rule. *)
Lemma deliverable_wants asserts s i : mfp_wf s -> 0 <= i < 16 ->
  Z.testbit (deliverable asserts s) i = true
  <-> chip_wants (line_of (g_level_poll s) asserts) (abs s) i.
Proof.
  intros Hwf Hi. unfold deliverable, chip_wants. rewrite arbitrate_spec by (done || apply Hwf).
  rewrite pending_spec, andb_true_iff by done. cbn [abs c_en c_pend c_mask c_svc]. tauto.
Qed.

Lemma not_bit ch i : 0 <= ch < 16 -> 0 <= i < 16 ->
  Z.testbit (u16 (Z.lnot (u16 (1 << ch)))) i = negb (i =? ch).
Proof.
  intros Hc Hi. rewrite (proj1 (bit_u16 ch Hc)), testbit_u16, Z.lnot_spec, bit_testbit by lia.
  by rewrite (proj2 (Z.ltb_lt i 16)), andb_true_r by lia.
Qed.

Lemma abs_taken pend s : is_u16 pend -> pend <> 0 ->
  let ch := top_bit 16 pend in
  chip_eq (abs (snd (iack_take pend s))) (chip_taken ch (abs s)) /\
  fst (iack_take pend s) = (g_vr s .& 0xF0) .| ch.
Proof.
  intros Hp Hnz ch. destruct (top_bit_nonzero _ Hp Hnz) as (Hc & _ & _). fold ch in Hc.
  unfold iack_take. rewrite (proj2 (Z.eqb_neq pend 0) Hnz). fold ch. cbn zeta.
  assert (E8 : truth (g_vr s .& 8) = Z.testbit (g_vr s) 3).
  { change 8 with (2 ^ 3). by apply land_pow2_truth. }
  cbn [g_vr]. rewrite E8. split; [|by destruct (Z.testbit (g_vr s) 3)].
  destruct (Z.testbit (g_vr s) 3) eqn:Es; repeat split; try done; intros i Hi;
    cbn [snd abs chip_taken c_pend c_svc c_sei g_vpend g_visr g_vr]; rewrite ?Es.
  - by rewrite Z.land_spec, not_bit.
  - rewrite Z.lor_spec, (proj1 (bit_u16 ch Hc)), bit_testbit by lia. by rewrite andb_true_r.
  - by rewrite Z.land_spec, not_bit.
  - by rewrite andb_false_r, orb_false_r.
Qed.

(** ** The chip's operations respect the comparison of chips *)
#[export] Instance chip_write_proper r b : Proper (chip_eq ==> chip_eq) (chip_write r b).
Proof.
  intros c d (He & Hp & Hm & Hs & Hv & Hi).
  assert (Hh : forall hi f g, chan_eq f g -> chan_eq (set_half hi b f) (set_half hi b g)).
  { intros hi f g E i Hi'. unfold set_half. rewrite E by done. done. }
  destruct r; repeat split; try done; intros i Hr; cbn [chip_write c_en c_pend c_mask c_svc];
    rewrite ?(Hp i Hr), ?(Hs i Hr); try done; try (by apply Hh).
  f_equal. by apply Hh.
Qed.

#[export] Instance chip_raise_proper ch : Proper (chip_eq ==> chip_eq) (chip_raise ch).
Proof.
  intros c d (He & Hp & Hm & Hs & Hv & Hi). repeat split; try done. intros i Hr. cbn [chip_raise c_pend].
  by rewrite (Hp i Hr), (He i Hr).
Qed.

#[export] Instance chip_taken_proper ch : Proper (chip_eq ==> chip_eq) (chip_taken ch).
Proof.
  intros c d (He & Hp & Hm & Hs & Hv & Hi). repeat split; try done; intros i Hr; cbn [chip_taken c_pend c_svc].
  - by rewrite (Hp i Hr).
  - by rewrite (Hs i Hr), Hi.
Qed.

#[export] Instance chip_wants_proper line : Proper (chip_eq ==> eq ==> iff) (chip_wants line).
Proof.
  assert (Himp : forall c d ch, chip_eq c d -> chip_wants line c ch -> chip_wants line d ch).
  { intros c d ch (He & Hp & Hm & Hs & _ & _) (Hr & H1 & H2 & H3 & H4).
    repeat split; try lia; rewrite <- ?(He ch Hr), <- ?(Hp ch Hr), <- ?(Hm ch Hr); try done.
    intros j Hj Hsv. apply H4; [done|]. by rewrite (Hs j Hj). }
  intros c d Hcd ch ? <-. split; apply Himp; [done|by symmetry].
Qed.

(** ** Every operation keeps the state well formed *)
Lemma wf_write_ier ier s : mfp_wf s -> is_u16 ier -> mfp_wf (write_ier ier s).
Proof.
  intros [] Hi. split; cbn; try done; [by apply is_u16_land_l|].
  by rewrite <- Z.land_assoc, Z.land_diag.
Qed.

Lemma sub_pend a b e : a .& e = a -> (a .& b) .& e = a .& b.
Proof. intros E. by rewrite <- Z.land_assoc, (Z.land_comm b e), Z.land_assoc, E. Qed.

Ltac mfp_simpl :=
  cbn [g_ier g_imr g_vpend g_visr g_vr g_tacr g_tadr g_tacnt g_level_poll g_iacks kbd_notes].

Lemma truth_u8 b : is_u8 b -> truth b = true -> 1 <= b <= 256.
Proof. unfold truth, is_u8. rewrite negb_true_iff, Z.eqb_neq. lia. Qed.

Lemma reg_write_wf a b s : mfp_wf s -> is_u8 b -> mfp_wf (reg_write a b s).
Proof.
  intros Hwf Hb. unfold reg_write. repeat case_match; try done;
    try (apply wf_write_ier; [done|apply u16_range]).
  all: destruct Hwf as [Hw1 Hw2 Hw3 Hw4 Hw5 Hw6 Hw7 Hw8 Hw9 Hw10 Hpe Hau]; split; mfp_simpl;
    auto using is_u16_land_l, sub_pend, u16_range, truth_u8, land15_range; try lia; try done.
  all: intros E; try (by rewrite Hau, Z.land_0_l).
  match goal with H : (b .& 8 =? 0) = false |- _ => change 8 with (2 ^ 3) in H; rewrite land_pow2_eqb in H by lia end.
  by rewrite E in *.
Qed.

Lemma raise_wf ch s : mfp_wf s -> mfp_wf (mfp_hub_raise ch s).
Proof.
  intros Hwf. unfold mfp_hub_raise. destruct (_ || _) eqn:E; [done|].
  apply orb_false_iff in E as [E1%Z.ltb_ge E2%Z.ltb_ge].
  destruct (bit_u16 ch ltac:(lia)) as [-> Hu]. rewrite truth_bit by lia.
  destruct (Z.testbit (g_ier s) ch) eqn:Een; [|done].
  destruct Hwf as [Hw1 Hw2 Hw3 Hw4 Hw5 Hw6 Hw7 Hw8 Hw9 Hw10 Hpe Hau]; split; mfp_simpl; auto using is_u16_lor.
  rewrite Z.land_lor_distr_l, Hpe. f_equal. apply Z.bits_inj'. intros i Hi.
  rewrite Z.land_spec, bit_testbit by lia. by destruct (Z.eqb_spec i ch) as [->|].
Qed.

Lemma take_wf pend s : mfp_wf s -> is_u16 pend -> mfp_wf (snd (iack_take pend s)).
Proof.
  intros Hwf Hp. unfold iack_take. destruct (Z.eqb_spec pend 0) as [|Hnz]; [done|].
  destruct (top_bit_nonzero _ Hp Hnz) as (Hc & _ & _). destruct (bit_u16 _ Hc) as [Eb Hu].
  cbn zeta. mfp_simpl. change 8 with (2 ^ 3). rewrite land_pow2_truth by lia. rewrite Eb.
  destruct (Z.testbit (g_vr s) 3) eqn:Es; cbn [snd]; destruct Hwf; split; mfp_simpl;
    rewrite ?length_insert; auto using is_u16_land_l, is_u16_lor, sub_pend. congruence.
Qed.

Lemma timer_wf s : mfp_wf s -> mfp_wf (mfp_hub_timer_a_event s).
Proof.
  intros Hwf. unfold mfp_hub_timer_a_event. destruct (_ != 8); [done|].
  destruct (Z.leb_spec (g_tacnt s) 1).
  - apply raise_wf. destruct Hwf; by split.
  - destruct Hwf; split; mfp_simpl; auto. lia.
Qed.

Lemma reset_wf s : mfp_wf s -> mfp_wf (mfp_hub_reset s).
Proof. intros []. split; mfp_simpl; auto; try done; lia. Qed.

Lemma boot_wf : mfp_wf mfp_boot.
Proof. split; try done; cbn; lia. Qed.

(** ** Acknowledge refines the chip's acknowledge *)
Lemma iack_refines asserts s : mfp_wf s ->
  exists c', chip_iack (line_of (g_level_poll s) asserts) (abs s) (fst (mfp_hub_iack asserts s)) c' /\
             chip_eq (abs (snd (mfp_hub_iack asserts s))) c'.
Proof.
  intros Hwf. unfold mfp_hub_iack. set (d := deliverable asserts s).
  assert (Hd : is_u16 d) by (apply arbitrate_u16, pending_u16).
  destruct (Z.eq_dec d 0) as [E|Hnz].
  - rewrite E. exists (abs s). split; [|reflexivity]. constructor. intros ch Hw.
    assert (Hc : 0 <= ch < 16) by apply Hw. apply (deliverable_wants asserts s ch Hwf Hc) in Hw.
    fold d in Hw. by rewrite E, Z.bits_0 in Hw.
  - destruct (top_bit_nonzero d Hd Hnz) as (Hc & Ht & Hhi).
    destruct (abs_taken d s Hd Hnz) as [Ha Hr]. exists (chip_taken (top_bit 16 d) (abs s)).
    split; [|exact Ha]. rewrite Hr. apply (iack_take_ch _ (abs s)).
    + by apply deliverable_wants.
    + intros j Hj Hw. assert (Hj16 : 0 <= j < 16) by apply Hw.
      apply (deliverable_wants asserts s j Hwf Hj16) in Hw. fold d in Hw. by rewrite Hhi in Hw by lia.
Qed.
