(* ===== verification/MfpSim.v ===== *)
(** * MfpSim: the hub as an implementation of the 68901

    Any sequence of operations on the hub is a run of the abstract chip with
    the same answers; an acknowledge may be interleaved with raises without
    being noticed, a write of an enable register may not. *)

From S2P Require Import Prelude Mfp MfpProps.
From Stdlib Require Import ZArith Lia Bool Setoid Morphisms.
From stdpp Require Import base list.
Open Scope Z_scope.
Open Scope cint_scope.

(** ** Operations *)
Inductive hub_op :=
| OSnoop (addr value : Z) (is_word : bool)
| ORaise (ch : Z)
| OTimer
| OTop (asserts : Z -> bool)
| OIack (asserts : Z -> bool)
| OReset.

Definition hub_step (op : hub_op) (s : mfp) : Z * mfp :=
  match op with
  | OSnoop a v w => (0, mfp_hub_write_snoop a v w s)
  | ORaise ch => (0, mfp_hub_raise ch s)
  | OTimer => (0, mfp_hub_timer_a_event s)
  | OTop asserts => (mfp_hub_top_wanted asserts s, s)
  | OIack asserts => mfp_hub_iack asserts s
  | OReset => (0, mfp_hub_reset s)
  end.

Fixpoint hub_run (ops : list hub_op) (s : mfp) : list Z * mfp :=
  match ops with
  | [] => ([], s)
  | op :: ops => let '(r, s1) := hub_step op s in
                 let '(rs, s2) := hub_run ops s1 in (r :: rs, s2)
  end.

(** The chip register at an address of the $FFFAxx page. *)
Definition reg_of (a : Z) : option chip_reg :=
  if a =? 0xFFFA07 then Some (R_IER true) else if a =? 0xFFFA09 then Some (R_IER false)
  else if a =? 0xFFFA0B then Some (R_IPR true) else if a =? 0xFFFA0D then Some (R_IPR false)
  else if a =? 0xFFFA0F then Some (R_ISR true) else if a =? 0xFFFA11 then Some (R_ISR false)
  else if a =? 0xFFFA13 then Some (R_IMR true) else if a =? 0xFFFA15 then Some (R_IMR false)
  else if a =? 0xFFFA17 then Some R_VR else None.

(** The register a guest write reaches: the odd byte of a word write. *)
Definition target_reg (addr : Z) (is_word : bool) : option chip_reg :=
  let a := addr .& 0xFFFFFF in reg_of (if is_word then a .| 1 else a).

Definition chip_reset : chip :=
  mk_chip (fun _ => true) (fun _ => false) (fun _ => true) (fun _ => false) 0x40 true.

Inductive chip_step (reg : list bool) : hub_op -> chip -> Z -> chip -> Prop :=
| cs_write a v w c r : target_reg a w = Some r ->
    chip_step reg (OSnoop a v w) c 0 (chip_write r (v .& 0xFF) c)
| cs_other a v w c : target_reg a w = None -> chip_step reg (OSnoop a v w) c 0 c
| cs_raise ch c : chip_step reg (ORaise ch) c 0 (chip_raise ch c)
| cs_tick c : chip_step reg OTimer c 0 c
| cs_expire c : chip_step reg OTimer c 0 (chip_raise 13 c)
| cs_idle asserts c : (forall ch, ~ chip_wants (line_of reg asserts) c ch) ->
    chip_step reg (OTop asserts) c (-1) c
| cs_top asserts c ch : chip_wants (line_of reg asserts) c ch ->
    (forall j, ch < j -> ~ chip_wants (line_of reg asserts) c j) ->
    chip_step reg (OTop asserts) c ch c
| cs_iack asserts c v c' : chip_iack (line_of reg asserts) c v c' ->
    chip_step reg (OIack asserts) c v c'
| cs_reset c : chip_step reg OReset c 0 chip_reset.

Inductive chip_run (reg : list bool) : list hub_op -> chip -> list Z -> chip -> Prop :=
| cr_nil c c' : chip_eq c c' -> chip_run reg [] c [] c'
| cr_cons op ops c r c1 c1' rs c2 : chip_step reg op c r c1 -> chip_eq c1 c1' ->
    chip_run reg ops c1' rs c2 -> chip_run reg (op :: ops) c (r :: rs) c2.

(** ** The simulation *)
Lemma byte_range v : is_u8 (v .& 0xFF).
Proof. change 0xFF with (Z.ones 8). rewrite Z.land_ones by lia. apply Z.mod_pos_bound. lia. Qed.

Lemma reg_of_some a r : reg_of a = Some r -> a = reg_addr r.
Proof.
  unfold reg_of. intros E. repeat (case_match; [injection E as <-; by apply Z.eqb_eq|]). done.
Qed.

Lemma reg_write_none a b s : reg_of a = None -> abs (reg_write a b s) = abs s.
Proof.
  intros Hn. unfold reg_write. repeat case_match; try done; subst; discriminate Hn.
Qed.

Lemma page_reg a r : reg_of a = Some r -> 0xFFFA07 <= a <= 0xFFFA17.
Proof. intros ->%reg_of_some. destruct r as [[]|[]|[]|[]|]; cbn; lia. Qed.

Lemma lor_1_range a : a <= a .| 1 <= a + 1.
Proof.
  pose proof (Z.add_lor_land a 1) as E. rewrite land_1_odd in E. destruct (Z.odd a); cbn [Z.b2z] in E; lia.
Qed.

Lemma snoop_abs a v w s : chip_eq (abs (mfp_hub_write_snoop a v w s))
  (match target_reg a w with Some r => chip_write r (v .& 0xFF) (abs s) | None => abs s end).
Proof.
  unfold mfp_hub_write_snoop, target_reg. set (a' := a .& 0xFFFFFF).
  set (x := if w then a' .| 1 else a').
  assert (Hx : a' <= x <= a' + 1) by (unfold x; destruct w; [apply lor_1_range|lia]).
  destruct ((a' <? 0xFFFA00) || (0xFFFA2F <? a')) eqn:Eout.
  - destruct (reg_of x) as [r|] eqn:E; [|reflexivity]. apply page_reg in E.
    apply orb_prop in Eout as [H1%Z.ltb_lt|H1%Z.ltb_lt]; lia.
  - destruct (reg_of x) as [r|] eqn:E.
    + apply reg_of_some in E as ->. apply abs_write, byte_range.
    + rewrite reg_write_none by done. reflexivity.
Qed.

Lemma step_polls op s : g_level_poll (snd (hub_step op s)) = g_level_poll s.
Proof.
  assert (Hr : forall ch s, g_level_poll (mfp_hub_raise ch s) = g_level_poll s)
    by (intros; unfold mfp_hub_raise; repeat case_match; done).
  destruct op; cbn [hub_step snd]; try done.
  - unfold mfp_hub_write_snoop. destruct (_ || _); [done|]. unfold reg_write. repeat case_match; done.
  - unfold mfp_hub_timer_a_event. repeat case_match; try done. by rewrite Hr.
  - unfold mfp_hub_iack, iack_take. repeat case_match; done.
Qed.

Lemma step_wf op s : mfp_wf s -> mfp_wf (snd (hub_step op s)).
Proof.
  intros Hwf. destruct op; cbn [hub_step snd]; auto using raise_wf, timer_wf, reset_wf.
  - unfold mfp_hub_write_snoop. destruct (_ || _); [done|]. apply reg_write_wf; [done|apply byte_range].
  - apply take_wf; [done|]. apply arbitrate_u16, pending_u16.
Qed.

Lemma top_wanted_step asserts s : mfp_wf s ->
  chip_step (g_level_poll s) (OTop asserts) (abs s) (mfp_hub_top_wanted asserts s) (abs s).
Proof.
  intros Hwf. unfold mfp_hub_top_wanted. set (d := deliverable asserts s).
  assert (Hd : is_u16 d) by (apply arbitrate_u16, pending_u16).
  assert (Hw : forall ch, chip_wants (line_of (g_level_poll s) asserts) (abs s) ch ->
            0 <= ch < 16 /\ Z.testbit d ch = true).
  { intros ch Hw. assert (Hc : 0 <= ch < 16) by apply Hw. split; [done|]. by apply deliverable_wants. }
  destruct (Z.eqb_spec d 0) as [E|Hnz].
  - constructor. intros ch [_ Hb]%Hw. by rewrite E, Z.bits_0 in Hb.
  - destruct (top_bit_nonzero d Hd Hnz) as (Hc & Ht & Hhi). constructor.
    + by apply deliverable_wants.
    + intros j Hj [Hr Hb]%Hw. by rewrite Hhi in Hb by lia.
Qed.

Lemma step_simulates op s : mfp_wf s -> exists c',
  chip_step (g_level_poll s) op (abs s) (fst (hub_step op s)) c' /\ chip_eq (abs (snd (hub_step op s))) c'.
Proof.
  intros Hwf. destruct op as [a v w|ch| |asserts|asserts|]; cbn [hub_step fst snd].
  - pose proof (snoop_abs a v w s) as Ha.
    destruct (target_reg a w) as [r|] eqn:E; eexists; (split; [|exact Ha]); by constructor.
  - eexists. split; [constructor|apply abs_raise].
  - unfold mfp_hub_timer_a_event. destruct (_ != 8); [eexists; split; [apply cs_tick|reflexivity]|].
    destruct (_ <=? 1); [|eexists; split; [apply cs_tick|reflexivity]].
    eexists. split; [apply cs_expire|]. rewrite abs_raise. apply chip_raise_proper. reflexivity.
  - eexists. split; [by apply top_wanted_step|reflexivity].
  - destruct (iack_refines asserts s Hwf) as (c' & Hc & He). exists c'. split; [by constructor|exact He].
  - eexists. split; [constructor|]. repeat split; try done; intros i Hi;
      cbn [abs mfp_hub_reset c_en c_pend c_mask c_svc g_ier g_vpend g_imr g_visr chip_reset];
      try apply Z.bits_0; change 0xFFFF with (Z.ones 16); by rewrite Z.ones_spec_low by lia.
Qed.

(** Chip steps move along the comparison of chips. *)
Lemma chip_step_eq reg op c d r c' : chip_eq c d -> chip_step reg op c r c' ->
  exists d', chip_step reg op d r d' /\ chip_eq c' d'.
Proof.
  intros Hcd Hs.
  assert (Hw : forall line ch, chip_wants line c ch <-> chip_wants line d ch)
    by (intros line ch; by rewrite Hcd).
  inversion Hs as [a v w ? reg' E|a v w ? E|ch ?|?|?|asserts ? Hno|asserts ? ch Hc Hno|asserts ? v ? Hi|?]; subst.
  - eexists. split; [by constructor|by rewrite Hcd].
  - eexists. split; [by constructor|done].
  - eexists. split; [by constructor|by rewrite Hcd].
  - eexists. split; [by apply cs_tick|done].
  - eexists. split; [by apply cs_expire|by rewrite Hcd].
  - eexists. split; [|done]. constructor. intros ch. rewrite <- Hw. apply Hno.
  - eexists. split; [|done]. constructor; [by apply Hw|]. intros j Hj. rewrite <- Hw. by apply Hno.
  - destruct Hi as [Hno|ch Hc Hno].
    + exists d. split; [|done]. constructor. constructor. intros ch. rewrite <- Hw. apply Hno.
    + exists (chip_taken ch d). split; [|by rewrite Hcd]. constructor.
      assert (Ev : c_vec c = c_vec d) by apply Hcd. rewrite Ev.
      constructor; [by apply Hw|]. intros j Hj. rewrite <- Hw. by apply Hno.
  - eexists. split; [by constructor|done].
Qed.

Lemma run_simulates ops : forall s c, mfp_wf s -> chip_eq (abs s) c ->
  exists c', chip_run (g_level_poll s) ops c (fst (hub_run ops s)) c' /\
             chip_eq (abs (snd (hub_run ops s))) c' /\ mfp_wf (snd (hub_run ops s)).
Proof.
  induction ops as [|op ops IH]; intros s c Hwf Hc; cbn [hub_run].
  - exists c. split; [by constructor|done].
  - destruct (step_simulates op s Hwf) as (c1 & Hs & He).
    destruct (chip_step_eq _ _ _ _ _ _ Hc Hs) as (d1 & Hs' & Hd).
    pose proof (step_wf op s Hwf) as Hwf1. pose proof (step_polls op s) as Hp.
    destruct (hub_step op s) as [r s1]. cbn [fst snd] in *.
    destruct (IH s1 d1 Hwf1) as (c2 & Hr & He2 & Hwf2); [by rewrite He|].
    destruct (hub_run ops s1) as [rs s2]. cbn [fst snd] in *. rewrite Hp in Hr.
    exists c2. split; [|done]. econstructor; [exact Hs'|reflexivity|exact Hr].
Qed.

(** C7: the hub implements the 68901: any sequence of snooped register
    writes, raised channels, timer events, arbitration queries, acknowledges
    and resets on a well-formed hub is a run of the abstract chip (one flag
    per channel, delivery iff enabled, pending, unmasked and above everything
    in service, highest first) that gives the same answers and ends in the
    matching state. *)
Theorem mfp_hub_refines_68901 ops s :
  mfp_wf s ->
  let '(rs, s') := hub_run ops s in
  mfp_wf s' /\ exists c', chip_run (g_level_poll s) ops (abs s) rs c' /\ chip_eq (abs s') c'.
Proof.
  intros Hwf. destruct (run_simulates ops s (abs s) Hwf) as (c' & Hr & He & Hwf'); [reflexivity|].
  destruct (hub_run ops s) as [rs s']. split; [done|]. by exists c'.
Qed.

Lemma mfp_hub_refines_68901_witness :
  fst (hub_run [OSnoop 0xFFFA17 0x48 false; ORaise 13; ORaise 15; OIack (fun _ => false);
                OIack (fun _ => false); OSnoop 0xFFFA0E 0x7F true; OIack (fun _ => false)] mfp_boot)
    = [0; 0; 0; 0x4F; -1; 0; 0x4D] /\
  exists c', chip_run (replicate 16 false)
     [OSnoop 0xFFFA17 0x48 false; ORaise 13; ORaise 15; OIack (fun _ => false);
      OIack (fun _ => false); OSnoop 0xFFFA0E 0x7F true; OIack (fun _ => false)] (abs mfp_boot)
     [0; 0; 0; 0x4F; -1; 0; 0x4D] c'.
Proof.
  split; [vm_compute; reflexivity|].
  pose proof (mfp_hub_refines_68901
    [OSnoop 0xFFFA17 0x48 false; ORaise 13; ORaise 15; OIack (fun _ => false);
     OIack (fun _ => false); OSnoop 0xFFFA0E 0x7F true; OIack (fun _ => false)] mfp_boot boot_wf) as H.
  destruct (hub_run _ mfp_boot) as [rs s'] eqn:E. apply (f_equal fst) in E. vm_compute in E.
  destruct H as (_ & c' & Hr & _). exists c'. cbn [fst] in E. rewrite <- E in Hr. exact Hr.
Defined.

(** ** Interleaving

    The CPU thread writes registers and acknowledges; the interrupt thread
    raises channels.  Each access to a global is atomic, a whole operation is
    not: raises may land between the loads of an acknowledge and the clearing
    of the pending latch, and a raise loads IER before it sets the latch. *)
Definition raise_all (chs : list Z) (s : mfp) : mfp := foldl (fun s ch => mfp_hub_raise ch s) s chs.

(** An acknowledge whose arbitration saw [s] while [raised] arrived before it
    took the channel. *)
Definition iack_interleaved (asserts : Z -> bool) (raised : list Z) (s : mfp) : Z * mfp :=
  iack_take (deliverable asserts s) (raise_all raised s).

Fixpoint raise_bits (ier : Z) (chs : list Z) : Z :=
  match chs with
  | [] => 0
  | ch :: chs => (if (0 <=? ch) && (ch <? 16) && Z.testbit ier ch then 1 << ch else 0) .| raise_bits ier chs
  end.

Lemma raise_eq ch s : mfp_hub_raise ch s = {| s with g_vpend := g_vpend s .| raise_bits (g_ier s) [ch] |}.
Proof.
  unfold mfp_hub_raise. cbn [raise_bits]. rewrite Z.lor_0_r.
  destruct (Z.ltb_spec ch 0), (Z.ltb_spec 15 ch), (Z.leb_spec 0 ch), (Z.ltb_spec ch 16); try lia; cbn [orb andb];
    try (by rewrite Z.lor_0_r; destruct s).
  rewrite (proj1 (bit_u16 ch ltac:(lia))), truth_bit by lia.
  destruct (Z.testbit (g_ier s) ch); [done|]. rewrite Z.lor_0_r. by destruct s.
Qed.

Lemma raise_all_eq chs s : raise_all chs s = {| s with g_vpend := g_vpend s .| raise_bits (g_ier s) chs |}.
Proof.
  revert s. induction chs as [|ch chs IH]; intros s.
  - cbn. rewrite Z.lor_0_r. by destruct s.
  - cbn [raise_all foldl]. fold (raise_all chs (mfp_hub_raise ch s)). rewrite IH, raise_eq. cbn [g_vpend g_ier].
    f_equal. cbn [raise_bits]. by rewrite Z.lor_0_r, Z.lor_assoc.
Qed.

Lemma raise_bits_spec ier chs i : 0 <= i < 16 ->
  Z.testbit (raise_bits ier chs) i = existsb (Z.eqb i) chs && Z.testbit ier i.
Proof.
  intros Hi. induction chs as [|ch chs IH]; cbn [raise_bits existsb]; [apply Z.bits_0|].
  rewrite Z.lor_spec, IH. destruct (Z.eqb_spec i ch) as [->|Hne]; cbn [orb].
  - rewrite (proj2 (Z.leb_le 0 ch)), (proj2 (Z.ltb_lt ch 16)) by lia. cbn [andb].
    destruct (Z.testbit ier ch) eqn:E; [|by rewrite Z.bits_0, andb_false_r].
    by rewrite bit_testbit, Z.eqb_refl by lia.
  - destruct (_ && Z.testbit ier ch) eqn:E; [|by rewrite Z.bits_0].
    apply andb_prop in E as [[H0%Z.leb_le _]%andb_prop _].
    by rewrite bit_testbit, (proj2 (Z.eqb_neq i ch)) by lia.
Qed.

Lemma raise_bits_u16 ier chs : is_u16 (raise_bits ier chs).
Proof.
  induction chs as [|ch chs IH]; cbn [raise_bits]; [done|]. apply is_u16_lor; [|done].
  destruct (_ && Z.testbit ier ch) eqn:E; [|done]. apply andb_prop in E as [[H0%Z.leb_le H1%Z.ltb_lt]%andb_prop _].
  apply bit_u16. lia.
Qed.

Lemma existsb_filter_eq i ch (chs : list Z) :
  existsb (Z.eqb i) (filter (fun x => x = ch) chs) = existsb (Z.eqb i) chs && (i =? ch).
Proof.
  induction chs as [|x chs IH]; [done|]. rewrite filter_cons. cbn [existsb]. destruct (decide (x = ch)) as [->|Hne]; cbn [existsb].
  - rewrite IH. destruct (Z.eqb_spec i ch); cbn [orb]; by rewrite ?andb_true_r, ?andb_false_r, ?orb_true_r.
  - rewrite IH. destruct (Z.eqb_spec i x) as [->|]; cbn [orb]; [|done].
    by rewrite (proj2 (Z.eqb_neq x ch)), andb_false_r.
Qed.

Lemma existsb_filter_ne i ch (chs : list Z) :
  existsb (Z.eqb i) (filter (fun x => x <> ch) chs) = existsb (Z.eqb i) chs && negb (i =? ch).
Proof.
  induction chs as [|x chs IH]; [done|]. rewrite filter_cons. cbn [existsb]. destruct (decide (x <> ch)) as [Hne|He]; cbn [existsb].
  - rewrite IH. destruct (Z.eqb_spec i x) as [->|]; cbn [orb]; [|done].
    by rewrite (proj2 (Z.eqb_neq x ch)).
  - assert (x = ch) as -> by (by destruct (Z.eq_dec x ch)). rewrite IH.
    destruct (Z.eqb_spec i ch); cbn [orb negb]; by rewrite ?andb_true_r, ?andb_false_r, ?orb_false_r.
Qed.

(** Raising a channel that is already deliverable changes nothing of what
    the arbitration sees. *)
Lemma deliverable_raise asserts ch n s : mfp_wf s -> 0 <= ch < 16 ->
  Z.testbit (deliverable asserts s) ch = true ->
  deliverable asserts (raise_all (filter (fun x => x = ch) n) s) = deliverable asserts s.
Proof.
  intros Hwf Hc Hd. unfold deliverable in *.
  assert (Ep : pending_now asserts (raise_all (filter (fun x => x = ch) n) s) = pending_now asserts s).
  { apply u16_ext; [apply pending_u16..|]. intros i Hi. rewrite !pending_spec by done.
    rewrite raise_all_eq. cbn [g_vpend g_level_poll g_ier]. rewrite Z.lor_spec, raise_bits_spec by done.
    rewrite existsb_filter_eq. destruct (Z.eqb_spec i ch) as [->|]; [|by rewrite andb_false_r, orb_false_r].
    apply arbitrate_spec in Hd as [Hp _]; [|apply Hwf|done]. rewrite pending_spec in Hp by done.
    apply andb_prop in Hp as [Hp ->]. rewrite !andb_true_r. revert Hp.
    by destruct (Z.testbit (g_vpend s) ch), (line_of _ _ ch), (existsb _ n). }
  rewrite Ep. by rewrite raise_all_eq.
Qed.

(** An acknowledge is atomic: with any channels raised while it runs, it
    answers and leaves the hub as if those raises happened, each once, either
    before or after it. *)
Theorem iack_linearizable asserts raised s :
  mfp_wf s ->
  exists before after, Permutation (before ++ after) raised /\
    iack_interleaved asserts raised s =
      (let '(v, s1) := mfp_hub_iack asserts (raise_all before s) in (v, raise_all after s1)).
Proof.
  intros Hwf. unfold iack_interleaved, mfp_hub_iack. set (d := deliverable asserts s).
  assert (Hd : is_u16 d) by (apply arbitrate_u16, pending_u16).
  destruct (Z.eq_dec d 0) as [E|Hnz].
  - exists [], raised. split; [done|]. cbn [raise_all foldl]. fold d. by rewrite E.
  - destruct (top_bit_nonzero d Hd Hnz) as (Hc & Ht & _). set (ch := top_bit 16 d) in *.
    exists (filter (fun x => x = ch) raised), (filter (fun x => x <> ch) raised). split.
    { apply filter_app_complement. }
    rewrite (deliverable_raise asserts ch raised s Hwf Hc Ht). fold d.
    unfold iack_take. rewrite (proj2 (Z.eqb_neq d 0) Hnz). fold ch. cbn zeta. rewrite !raise_all_eq.
    cbn [g_vr g_vpend g_iacks g_visr kbd_notes g_ier g_imr g_tacr g_tadr g_tacnt g_level_poll].
    assert (Ev : (g_vpend s .| raise_bits (g_ier s) raised) .& u16 (Z.lnot (u16 (1 << ch)))
      = ((g_vpend s .| raise_bits (g_ier s) (filter (fun x => x = ch) raised)) .& u16 (Z.lnot (u16 (1 << ch))))
        .| raise_bits (g_ier s) (filter (fun x => x <> ch) raised)).
    { apply u16_ext; auto using is_u16_land_l, is_u16_lor, raise_bits_u16, wf_vpend.
      intros i Hi. rewrite !Z.lor_spec, !Z.land_spec, !Z.lor_spec, not_bit, !raise_bits_spec by done.
      rewrite existsb_filter_eq, existsb_filter_ne.
      destruct (i =? ch), (Z.testbit (g_vpend s) i), (existsb (Z.eqb i) raised), (Z.testbit (g_ier s) i); done. }
    rewrite Ev. by destruct (truth (g_vr s .& 8)).
Qed.

Lemma iack_linearizable_witness : exists before after,
  Permutation (before ++ after) [15; 13] /\
  iack_interleaved (fun _ => false) [15; 13] (mfp_hub_raise 13 mfp_boot) =
    (let '(v, s1) := mfp_hub_iack (fun _ => false) (raise_all before (mfp_hub_raise 13 mfp_boot)) in
     (v, raise_all after s1)).
Proof. apply iack_linearizable. apply raise_wf, boot_wf. Defined.

(** The two accesses of a raise: the test of IER, and the latch. *)
Definition raise_test (ch : Z) (s : mfp) : bool := truth (g_ier s .& u16 (1 << ch)).
Definition raise_latch (ch : Z) (s : mfp) : mfp := {| s with g_vpend := g_vpend s .| u16 (1 << ch) |}.

(** A raise that tested IER before the guest cleared the channel latches
    it afterwards: the disabled channel is left pending, which no order of the
    two operations gives, and enabling it again delivers an interrupt although
    nothing was raised since. *)
Theorem raise_races_ier_write :
  let quiet := fun _ : Z => false in
  let off := mfp_hub_write_snoop 0xFFFA07 0 false in
  let on := mfp_hub_write_snoop 0xFFFA07 0x20 false in
  let raced := raise_latch 13 (off mfp_boot) in
  raise_test 13 mfp_boot = true /\
  g_vpend raced = 0x2000 /\ g_ier raced = 0x00FF /\
  g_vpend (off (mfp_hub_raise 13 mfp_boot)) = 0 /\ g_vpend (mfp_hub_raise 13 (off mfp_boot)) = 0 /\
  fst (mfp_hub_iack quiet (on raced)) = 0x4D /\
  fst (mfp_hub_iack quiet (on (off (mfp_hub_raise 13 mfp_boot)))) = -1.
Proof. vm_compute. repeat split. Qed.
