(* ===== verification/StRam.v ===== *)
(** * StRam: DMA into ST-RAM, and image files

    What the disk emulations share: the emulator's copy of ST-RAM with the
    invalidation of translated code ([pistorm_natmem.cpp]), the address
    counter and status of the DMA chip with its copy services
    ([platforms/atari/fdd/atari_fdd.c]), and reads and writes of image files.
    The real bus and the host are the interface [DmaHw]. *)

From S2P Require Import Prelude.
From Stdlib Require Import ZArith Lia Bool List.
From stdpp Require Import base list numbers.
Open Scope Z_scope.
Open Scope cint_scope.

(** ** The real bus and the host *)
Class DmaHw (H : Type) := {
  ps_read_8 : Z -> H -> Z * H;
  ps_read_16 : Z -> H -> Z * H;
  ps_write_8 : Z -> Z -> H -> H;
  ps_write_16 : Z -> Z -> H -> H;
  ht_now_us : H -> Z * H;
  busy_wait : Z -> H -> H;                 (* microseconds *)
  pwrite_n : Z -> Z -> Z -> H -> Z * H;    (* unit, offset, length: bytes written, or -1 *)
  malloc_ok : Z -> H -> bool;
  fresh_bytes : Z -> H -> list Z }.        (* an uninitialised buffer *)

Class DmaHwLaws (H : Type) `{DmaHw H} := {
  bus8_range : forall a h, is_u8 (ps_read_8 a h).1;
  bus16_range : forall a h, is_u16 (ps_read_16 a h).1;
  pwrite_range : forall u o n h, 0 <= n -> -1 <= (pwrite_n u o n h).1 <= n;
  fresh_length : forall n h, 0 <= n -> Z.of_nat (length (fresh_bytes n h)) = n }.

(** ** Blocks of bytes in memory *)
Definition block_get (m : Z -> Z) (a n : Z) : list Z := map (fun i => m (a + i)) (seqZ 0 n).
Definition block_put (m : Z -> Z) (a : Z) (l : list Z) : Z -> Z :=
  fun x => if a <=? x then default (m x) (l !! Z.to_nat (x - a)) else m x.

(** ** The copy of ST-RAM *)
Definition GUEST_RESERVE := 0x11000000.
Definition PAGE_SHIFT := 12.

(** [code_page]: the pages that hold translated code; [jit_flushes] counts the
    calls of [cache_invalidate]. *)
Record stram := mk_stram {
  mirror : Z -> Z; stram_top : Z; code_page : Z -> bool; jit_flushes : Z }.

Definition cache_invalidate (r : stram) : stram := {| r with jit_flushes := jit_flushes r + 1 |}.

Definition pistorm_smc (addr sz : Z) (r : stram) : stram :=
  if GUEST_RESERVE <=? addr then r
  else
    let first_page := addr >> PAGE_SHIFT in
    if code_page r first_page then cache_invalidate r
    else
      let last_page := u32 (addr + sz - 1) >> PAGE_SHIFT in
      if (last_page != first_page) && code_page r last_page then cache_invalidate r else r.

Definition in_stram (addr n : Z) (r : stram) : bool := (addr <? stram_top r) && (n <=? stram_top r - addr).

(** [dst] is what the buffer held before. *)
Definition pistorm_dma_from_stram (addr : Z) (dst : list Z) (r : stram) : list Z :=
  let n := Z.of_nat (length dst) in
  if in_stram addr n r then block_get (mirror r) addr n else dst.

Definition pistorm_dma_to_stram (addr : Z) (src : list Z) (r : stram) : stram :=
  let n := Z.of_nat (length src) in
  pistorm_smc addr n
    (if in_stram addr n r then {| r with mirror := block_put (mirror r) addr src |} else r).

(** ** The DMA chip *)
Definition DMA_STATUS_OK := 1.
Definition DMA_STATUS_SCZERO := 2.

Record chip (H : Type) := mk_chip { hw : H; ram : stram; dma_addr : Z; dma_status : Z }.
Arguments mk_chip {H}. Arguments hw {H}. Arguments ram {H}. Arguments dma_addr {H}. Arguments dma_status {H}.

Section Chip.
Context {H : Type} `{DmaHw H}.
Implicit Types (c : chip H).

Definition on_hw (f : H -> H) c : chip H := {| c with hw := f (hw c) |}.

(** Real ST-RAM ends at 4 MB. *)
Fixpoint real_writes (addr : Z) (buf : list Z) (h : H) : H :=
  match buf with
  | [] => h
  | b :: buf => if addr <? 0x400000 then real_writes (addr + 1) buf (ps_write_8 addr b h) else h
  end.

Definition dma_copy_to_ram (addr : Z) (buf : list Z) c : chip H :=
  let c := on_hw (real_writes addr buf) c in
  {| c with ram := pistorm_dma_to_stram addr buf (ram c) |}.

Definition dma_copy_from_ram (addr : Z) (buf : list Z) c : list Z := pistorm_dma_from_stram addr buf (ram c).

Definition fdd_dma_base_advance (n : Z) c : chip H := {| c with dma_addr := u32 (dma_addr c + n) |}.
Definition fdd_dma_note_ok (count_zero : bool) c : chip H :=
  {| c with dma_status := DMA_STATUS_OK .| (if count_zero then DMA_STATUS_SCZERO else 0) |}.

(** ** Image files *)
Definition pread (img : list Z) (off n : Z) : list Z := take (Z.to_nat n) (drop (Z.to_nat off) img).

(** A write behind the end fills the gap with zeros. *)
Definition img_put (img : list Z) (off : Z) (l : list Z) : list Z :=
  let o := Z.to_nat off in
  take o (img ++ replicate (o - length img) 0) ++ l ++ drop (o + length l) img.

Definition pwrite (unit : Z) (img : list Z) (off : Z) (l : list Z) c : Z * list Z * chip H :=
  let '(n, h) := pwrite_n unit off (Z.of_nat (length l)) (hw c) in
  (n, if 0 <? n then img_put img off (take (Z.to_nat n) l) else img, {| c with hw := h |}).
End Chip.

(** ** Lemmas *)
Lemma block_get_length m a n : 0 <= n -> Z.of_nat (length (block_get m a n)) = n.
Proof. intros. unfold block_get. rewrite length_map, length_seqZ. lia. Qed.

Lemma block_get_lookup m a n i : 0 <= i < n -> block_get m a n !! Z.to_nat i = Some (m (a + i)).
Proof.
  intros. unfold block_get. rewrite list_lookup_fmap, lookup_seqZ_lt by lia. cbn. do 3 f_equal. lia.
Qed.

Lemma block_put_in m a l x : a <= x < a + Z.of_nat (length l) ->
  Some (block_put m a l x) = l !! Z.to_nat (x - a).
Proof.
  intros Hx. unfold block_put. rewrite (proj2 (Z.leb_le _ _)) by lia.
  destruct (lookup_lt_is_Some_2 l (Z.to_nat (x - a))) as [v E]; [lia|]. by rewrite E.
Qed.

Lemma block_put_out m a l x : x < a \/ a + Z.of_nat (length l) <= x -> block_put m a l x = m x.
Proof.
  intros Hx. unfold block_put. destruct (Z.leb_spec a x); [|done].
  by rewrite lookup_ge_None_2 by lia.
Qed.

Lemma block_put_nil m a x : block_put m a [] x = m x.
Proof. apply block_put_out. cbn. lia. Qed.

(** Two adjacent blocks are one. *)
Lemma block_put_app m a l1 l2 x :
  block_put (block_put m a l1) (a + Z.of_nat (length l1)) l2 x = block_put m a (l1 ++ l2) x.
Proof.
  destruct (decide (a <= x < a + Z.of_nat (length l1) + Z.of_nat (length l2))) as [Hx|Hx].
  - apply (inj Some). rewrite (block_put_in m a (l1 ++ l2)) by (rewrite length_app; lia).
    destruct (decide (x < a + Z.of_nat (length l1))).
    + rewrite block_put_out by lia. rewrite block_put_in, lookup_app_l by lia. done.
    + rewrite block_put_in, lookup_app_r by lia. f_equal. lia.
  - rewrite !block_put_out; [done|rewrite ?length_app; lia..].
Qed.

Lemma block_get_put m a l : block_get (block_put m a l) a (Z.of_nat (length l)) = l.
Proof.
  apply list_eq. intros i. destruct (decide (i < length l)%nat).
  - replace i with (Z.to_nat (Z.of_nat i)) by lia. rewrite block_get_lookup by lia.
    rewrite block_put_in by lia. f_equal. lia.
  - rewrite !lookup_ge_None_2; [done|lia|].
    unfold block_get. rewrite length_map, length_seqZ. lia.
Qed.

Lemma block_get_ext m m' a n : (forall x, a <= x < a + n -> m x = m' x) -> block_get m a n = block_get m' a n.
Proof.
  intros E. unfold block_get. apply list_fmap_ext. intros i x Hx.
  apply lookup_seqZ in Hx. apply E. lia.
Qed.

Lemma block_get_app m a n1 n2 : 0 <= n1 -> 0 <= n2 ->
  block_get m a (n1 + n2) = block_get m a n1 ++ block_get m (a + n1) n2.
Proof.
  intros. unfold block_get. rewrite (seqZ_app 0 n1 n2), map_app by lia. f_equal.
  rewrite Z.add_0_l. replace (seqZ n1 n2) with (Z.add n1 <$> seqZ 0 n2) by (rewrite fmap_add_seqZ; f_equal; lia).
  rewrite map_map. apply map_ext. intros. f_equal. lia.
Qed.

Lemma smc_mirror a n r : mirror (pistorm_smc a n r) = mirror r /\ stram_top (pistorm_smc a n r) = stram_top r.
Proof. unfold pistorm_smc. repeat case_match; done. Qed.

(** A DMA write inside ST-RAM changes its block of the copy and nothing else. *)
Lemma to_stram_in a l r : 0 <= a -> a + Z.of_nat (length l) <= stram_top r -> l <> [] ->
  mirror (pistorm_dma_to_stram a l r) = block_put (mirror r) a l /\
  stram_top (pistorm_dma_to_stram a l r) = stram_top r.
Proof.
  intros H0 H1 Hl. assert (0 < Z.of_nat (length l)) by (destruct l; [done|cbn; lia]).
  unfold pistorm_dma_to_stram, in_stram. rewrite !(proj1 (smc_mirror _ _ _)), !(proj2 (smc_mirror _ _ _)).
  rewrite (proj2 (Z.ltb_lt _ _)), (proj2 (Z.leb_le _ _)) by lia. done.
Qed.

Lemma from_stram_in a buf r : 0 <= a -> a + Z.of_nat (length buf) <= stram_top r -> buf <> [] ->
  pistorm_dma_from_stram a buf r = block_get (mirror r) a (Z.of_nat (length buf)).
Proof.
  intros H0 H1 Hl. assert (0 < Z.of_nat (length buf)) by (destruct buf; [done|cbn; lia]).
  unfold pistorm_dma_from_stram, in_stram.
  rewrite (proj2 (Z.ltb_lt _ _)), (proj2 (Z.leb_le _ _)) by lia. done.
Qed.

(** *** Files *)
Lemma pread_length img off n : 0 <= off -> 0 <= n -> off + n <= Z.of_nat (length img) ->
  Z.of_nat (length (pread img off n)) = n.
Proof. intros. unfold pread. rewrite length_take, length_drop. lia. Qed.

Lemma pread_lookup img off n i : 0 <= off -> (i < Z.to_nat n)%nat ->
  pread img off n !! i = img !! (Z.to_nat off + i)%nat.
Proof. intros. unfold pread. by rewrite lookup_take_lt, lookup_drop by lia. Qed.

Lemma img_put_lookup img off l i : 0 <= off -> off <= Z.of_nat (length img) ->
  img_put img off l !! i =
    if decide (Z.to_nat off <= i < Z.to_nat off + length l)%nat then l !! (i - Z.to_nat off)%nat else img !! i.
Proof.
  intros H0 H1. unfold img_put. set (o := Z.to_nat off) in *.
  replace (o - length img)%nat with O by lia. cbn [replicate]. rewrite app_nil_r.
  assert (length (take o img) = o) as Lo by (rewrite length_take; lia).
  case_decide as Hi.
  - rewrite lookup_app_r, Lo by lia. by rewrite lookup_app_l by lia.
  - destruct (decide (i < o)%nat).
    + rewrite lookup_app_l by lia. by rewrite lookup_take_lt.
    + rewrite lookup_app_r, Lo by lia. rewrite lookup_app_r by lia. rewrite lookup_drop. f_equal. lia.
Qed.

Lemma img_put_length img off l : 0 <= off -> off + Z.of_nat (length l) <= Z.of_nat (length img) ->
  length (img_put img off l) = length img.
Proof. intros. unfold img_put. rewrite !length_app, length_take, length_app, length_drop, length_replicate. lia. Qed.

(** What was written is read back, and other places are as before. *)
Lemma pread_put_same img off l : 0 <= off -> off <= Z.of_nat (length img) ->
  pread (img_put img off l) off (Z.of_nat (length l)) = l.
Proof.
  intros. apply list_eq. intros i. destruct (decide (i < length l)%nat).
  - rewrite pread_lookup, img_put_lookup by lia. rewrite decide_True by lia. f_equal. lia.
  - rewrite !lookup_ge_None_2; [done|lia|]. unfold pread. rewrite length_take. lia.
Qed.

Lemma pread_put_other img off l o n : 0 <= off -> 0 <= o -> off <= Z.of_nat (length img) ->
  o + n <= off \/ off + Z.of_nat (length l) <= o ->
  pread (img_put img off l) o n = pread img o n.
Proof.
  intros H0 H1 H2 Hd. apply list_eq. intros i. destruct (decide (i < Z.to_nat n)%nat).
  - rewrite !pread_lookup, img_put_lookup by lia. by rewrite decide_False by lia.
  - rewrite !lookup_ge_None_2; [done|unfold pread; rewrite length_take; lia..].
Qed.
