(* ===== verification/Irq.v ===== *)
(** * Irq: interrupt delivery ([cpu/newcpu.cpp], [jit_glue.cpp])

    The path from a latched interrupt level to the exception: [intlev]
    compares the latch with the mask, [intlev_ack] acknowledges it (virtual MFP,
    Falcon DSP or a bus cycle), [do_interrupt] suppresses idle HBL handlers,
    repairs failed MFP acknowledges, takes the exception and clears the latch.
    Diagnostics and statistics are left out. *)

From S2P Require Import Prelude Flags Cpu Frames Sr Except Mfp.
From Stdlib Require Import ZArith Lia Bool.
From stdpp Require Import base list gmap.
Open Scope Z_scope.
Open Scope cint_scope.

(** ** The hardware and its settings *)

(** Accesses to the real bus may answer differently every time, so each
    returns the hardware that follows it. *)
Class HwIo (H : Type) := {
  ps_read_ipl : H -> Z * H;
  ps_read_8_fc : Z -> Z -> H -> Z * bool * H;     (* value, bus error *)
  falcon_hreq : H -> bool;
  falcon_ivr : H -> Z;
  poll_asserts : H -> Z -> bool }.                (* the level sources of the MFP hub *)

(** Documented ranges of what they return. *)
Class HwLaws (H : Type) `{HwIo H} := {
  ipl_range : forall h, 0 <= (ps_read_ipl h).1 < 256;
  read8_range : forall a fc h, is_u8 (ps_read_8_fc a fc h).1.1;
  ivr_range : forall h, is_u8 (falcon_ivr h) }.

Record irq_cfg := mk_icfg {
  DMA_Sound_enabled : bool; KBD_USB_enabled : bool; pst_fdd_mfp_irq : bool;
  isr_fast : bool;           (* PISTORM_IACK_ISRFAST, or the board *)
  iack_check : bool }.       (* PISTORM_IACK_CHECK, or the board *)

(** ** State: the core, the MFP hub, and the statics of the two functions *)
Record irq (M H : Type) := mk_irq {
  ik : core M; imfp : mfp; ihw : H;
  noack_retries : Z; noack_candidate_vec : Z;
  hbl_fp_vec : Z; hbl_fp_kind : Z;
  g_buserr : bool; g_intmask : Z;
  pistorm_mfp_iack_counts : list Z; pistorm_mfp_last_iack_vector : Z; virtual_iacks : Z }.
Arguments mk_irq {M H}. Arguments ik {M H}. Arguments imfp {M H}. Arguments ihw {M H}.
Arguments noack_retries {M H}. Arguments noack_candidate_vec {M H}.
Arguments hbl_fp_vec {M H}. Arguments hbl_fp_kind {M H}. Arguments g_buserr {M H}.
Arguments g_intmask {M H}. Arguments pistorm_mfp_iack_counts {M H}.
Arguments pistorm_mfp_last_iack_vector {M H}. Arguments virtual_iacks {M H}.

(** ** The sampler's verdict on the HBL handler

    [natmem] is the host copy of guest memory; the first component lists the
    offsets read, in order. *)
Definition LOWLIM := 0x01000000.

Definition be_word (natmem : Z -> Z) (a : Z) : Z := (natmem a << 8) .| natmem (a + 1).
Definition int_hbl_code : list Z := [0x3f00; 0x302f; 0x0002; 0x0240; 0x0700; 0x6606].

Definition pistorm_hbl_handler_is_rte (natmem : Z -> Z) (stopped vbr : Z) : list Z * bool :=
  if truth stopped then ([], false)
  else
    let vecaddr := u32 (vbr + 0x68) in
    if LOWLIM <? u32 (vecaddr + 4) then ([], false)
    else
      let r1 := [vecaddr; vecaddr + 1; vecaddr + 2; vecaddr + 3] in
      let h := (natmem vecaddr << 24) .| (natmem (vecaddr + 1) << 16)
               .| (natmem (vecaddr + 2) << 8) .| natmem (vecaddr + 3) in
      if (h =? 0) || truth (h .& 1) || (LOWLIM <? u32 (h + 12)) then (r1, false)
      else
        let w i := be_word natmem (h + 2 * i) in
        (r1 ++ map (fun i => h + Z.of_nat i) (seq 0 12),
         if w 0 =? 0x4e73 then true else bool_decide (map w [0; 1; 2; 3; 4; 5] = int_hbl_code)).

Section Irq.
Context {M H : Type} `{Bus M} `{HwIo H} (p : core_prefs) (cfg : irq_cfg).
Context (table68k : Z -> instr) (bad_stack_bank : Z -> bool).
Implicit Types (s : irq M H).

Definition on_k (f : core M -> core M) s : irq M H := {| s with ik := f (ik s) |}.
Definition set_hw (h : H) s : irq M H := {| s with ihw := h |}.
Definition set_iack (v : Z) : irq M H -> irq M H := on_k (fun k => {| k with pistorm_iack_vector := v |}).
Definition set_dsp (b : bool) : irq M H -> irq M H := on_k (fun k => {| k with pistorm_iack_dsp := b |}).
Definition clear_berr s : irq M H := {| s with g_buserr := false |}.
Definition set_retries (n : Z) s : irq M H := {| s with noack_retries := n; noack_candidate_vec := 0 |}.
Definition iack_of s : Z := pistorm_iack_vector (ik s).

Definition atari_live_ipl_level s : Z * irq M H :=
  let '(ipl, h) := ps_read_ipl (ihw s) in (ipl, set_hw h s).

Definition bus_read (a fc : Z) s : Z * bool * irq M H :=
  let '(v, berr, h) := ps_read_8_fc a fc (ihw s) in (v, berr, set_hw h s).

(** The vector of the channel the MFP has in service: ISRA, then ISRB. *)
Definition atari_recover_mfp_vector_from_isrb s : Z * irq M H :=
  let '(isra, berr, s) := bus_read 0x00FFFA0F 5 s in
  if berr then (0, clear_berr s)
  else if 0 <=? top_bit 8 isra then (0x48 + top_bit 8 isra, s)
  else
    let '(isrb, berr, s) := bus_read 0x00FFFA11 5 s in
    if berr then (0, clear_berr s)
    else if 0 <=? top_bit 8 isrb then (0x40 + top_bit 8 isrb, s) else (0, s).

(** ** [intlev_ack] *)

(** The virtual MFP channels; [true] when one answered. *)
Definition ack_virtual s : bool * irq M H :=
  let vtop := mfp_hub_top_wanted (poll_asserts (ihw s)) (imfp s) in
  if (DMA_Sound_enabled cfg || KBD_USB_enabled cfg || pst_fdd_mfp_irq cfg) && (0 <=? vtop) then
    let '(live, s) := atari_live_ipl_level s in
    if (live <? 6) || (6 <? vtop) then
      let '(vec, m) := mfp_hub_iack (poll_asserts (ihw s)) (imfp s) in
      let s := {| s with imfp := m |} in
      if 0 <=? vec then
        (true, set_iack (u16 vec) {| s with pistorm_mfp_last_iack_vector := u8 vec;
           pistorm_mfp_iack_counts :=
             <[6%nat := u32 (pistorm_mfp_iack_counts s !!! 6%nat + 1)]> (pistorm_mfp_iack_counts s);
           virtual_iacks := virtual_iacks s + 1 |})
      else (false, s)
    else (false, s)
  else (false, s).

(** The Falcon DSP's host port. *)
Definition ack_dsp s : bool * irq M H :=
  if falcon_hreq (ihw s) then
    let '(live, s) := atari_live_ipl_level s in
    if live <? 6 then (true, set_dsp true (set_iack (falcon_ivr (ihw s)) s)) else (false, s)
  else (false, s).

Definition mfp_block (v : Z) : bool := (0x40 <=? v) && (v <=? 0x4F).

(** The bus cycle. *)
Definition bus_iack (nr : Z) s : irq M H :=
  let '(vector, berr, s) := bus_read (0x00FFFFF1 .| (nr << 1)) 7 s in
  if berr then clear_berr (set_iack 0xFFFE s)
  else
    let s := set_iack vector s in
    if (nr =? 6) && mfp_block (vector .& 0xFF) then
      let i := Z.to_nat (vector .& 0x0F) in
      {| s with pistorm_mfp_last_iack_vector := vector .& 0xFF;
         pistorm_mfp_iack_counts :=
           <[i := u32 (pistorm_mfp_iack_counts s !!! i + 1)]> (pistorm_mfp_iack_counts s) |}
    else s.

Definition ack_bus (nr : Z) s : irq M H :=
  if iack_check cfg && (6 <=? nr) then
    let '(live, s) := atari_live_ipl_level s in
    if live <? nr then clear_berr (set_iack 0xFFFE s) else bus_iack nr s
  else bus_iack nr s.

Definition intlev_ack (nr : Z) s : irq M H :=
  let s := set_dsp false s in
  if nr =? 6 then
    let '(done, s) := ack_virtual s in
    if done then s
    else let '(done, s) := ack_dsp s in if done then s else ack_bus nr s
  else ack_bus nr s.

(** ** HBL suppression *)
Definition k_word (a : Z) s : Z := get_word (xm (kx (ik s))) (u32 a).

(** The verdict, cached by vector value. *)
Definition hbl_verdict s : irq M H :=
  let hblvec := get_long (xm (kx (ik s))) (u32 (vbr (k_ctl (ik s)) + 0x68)) in
  if hblvec =? hbl_fp_vec s then s
  else
    let kind :=
      if (hblvec != 0) && (hblvec .& 1 =? 0) then
        if k_word hblvec s =? 0x4e73 then 1
        else if bool_decide (map (fun i => k_word (hblvec + 2 * i) s) [0; 1; 2; 3; 4; 5] = int_hbl_code) then 2
        else 0
      else 0 in
    {| s with hbl_fp_vec := hblvec; hbl_fp_kind := kind |}.

Definition raise_mask_3 (k : core M) : core M :=
  on_c (fun c => {| c with sr := (sr c .& Z.lnot 0x0700) .| 0x0300 |})
    {| k with intmask := 3; g_irq_mask := 3 |}.

(** [true]: the interrupt is taken. *)
Definition hbl_suppress s : bool * irq M H :=
  let s := hbl_verdict s in
  if truth (stopped (ik s)) then (true, s)
  else if hbl_fp_kind s =? 1 then (false, s)
  else if hbl_fp_kind s =? 2 then
    (false, if intmask (ik s) =? 0 then on_k raise_mask_3 s else s)
  else (true, s).

(** ** Repair of a failed MFP acknowledge: taken, clear the latch *)
Definition mfp_noack (nr : Z) s : bool * bool * irq M H :=
  let '(early, s) := if isr_fast cfg then atari_recover_mfp_vector_from_isrb s else (0, s) in
  if isr_fast cfg && mfp_block early then (true, true, set_retries 0 (set_iack early s))
  else
    let s := {| s with noack_retries := u32 (noack_retries s + 1) |} in
    if noack_retries s <? 2 then (false, false, set_iack 0xFFFF s)
    else if mfp_block (noack_candidate_vec s) then
      (true, true, set_retries 0 (set_iack (noack_candidate_vec s) s))
    else
      let '(isr_vector, s) := atari_recover_mfp_vector_from_isrb s in
      if mfp_block isr_vector then (true, true, set_retries 0 (set_iack isr_vector s))
      else
        let '(live_ipl, s) := atari_live_ipl_level s in
        let s := set_iack 0xFFFF s in
        if (live_ipl =? nr) || (live_ipl =? 0xff)
        then (false, false, set_retries (noack_retries s) s)
        else (false, true, set_retries 0 s).

Definition mfp_repair (nr : Z) s : bool * bool * irq M H :=
  let vec := iack_of s .& 0xff in
  if iack_of s =? 0xFFFE then mfp_noack nr s
  else if negb (mfp_block vec) then
    let '(isr_vector, s) := atari_recover_mfp_vector_from_isrb s in
    let s := set_retries 0 s in
    if mfp_block isr_vector then (true, true, set_iack isr_vector s) else (false, false, s)
  else (true, true, set_retries 0 s).

(** ** The latch, shared with the sampler thread *)
Definition cas_clear (nr g : Z) : Z := if g =? nr then 0 else g.
Definition cas_raise (nr g : Z) : Z := if g <? nr then nr else g.

Definition settle_latch (nr : Z) (clear : bool) (k : core M) : core M :=
  if clear then {| k with g_irq := cas_clear nr (g_irq k); ipl_pin := 0 |}
  else set_special p SPCFLAG_BRK {| k with g_irq := cas_raise nr (g_irq k); ipl_pin := nr |}.

(** ** [do_interrupt]: up to the latch, and all of it *)
Definition clear_spurious (k : core M) : core M := {| k with pistorm_spurious_interrupt_level := 0 |}.

Definition decide_interrupt (nr : Z) s : bool * bool * irq M H :=
  let s := intlev_ack nr (on_k clear_spurious s) in
  let '(taken, s) := if nr =? 2 then hbl_suppress s else (true, s) in
  if (nr =? 6) && negb (pistorm_iack_dsp (ik s)) then mfp_repair nr s else (taken, true, s).

Definition deliver (nr : Z) s : bool * irq M H :=
  let '(taken, clear, s) := decide_interrupt nr s in
  (clear, if taken then on_k (take_exception p table68k bad_stack_bank (nr + 24)) s else s).

Definition do_interrupt (nr : Z) s : irq M H :=
  let '(clear, s) := deliver nr s in on_k (settle_latch nr clear) s.

Definition intlev s : Z * irq M H :=
  let ipl := g_irq (ik s) in
  if intmask (ik s) <? ipl
  then (ipl, do_interrupt ipl {| s with g_intmask := intmask (ik s) |})
  else (0, s).

Definition NMI s : irq M H := do_interrupt 7 s.
End Irq.
