(* ===== verification/IrqProps.v ===== *)
(** * IrqProps: what interrupt delivery promises

    A level-6 interrupt never goes through the autovector; the latch is
    cleared of the level that was delivered and of nothing else, whatever the
    sampler thread raises meanwhile; the sampler and [do_interrupt] agree on
    idle HBL handlers, with two exceptions. *)

From S2P Require Import Prelude Flags Cpu Frames Sr SrProps Except ExceptProps ExceptTop Mfp Irq.
From Stdlib Require Import ZArith Lia Bool.
From stdpp Require Import base list gmap.
Open Scope Z_scope.
Open Scope cint_scope.

Section Props.
Context {M H : Type} `{Bus M} `{HwLaws H} (p : core_prefs) (cfg : irq_cfg) (tb : Z -> instr) (bb : Z -> bool).
Implicit Types (s : irq M H).

(** ** Vectors *)

(** A vector of the MFP's block is used as it is. *)
Lemma mfp_vector_used (k : core M) : mfp_block (pistorm_iack_vector k .& 0xFF) = true ->
  vector_of 30 k = pistorm_iack_vector k .& 0xFF.
Proof.
  intros Hb. unfold vector_of, effective_interrupt_vector. cbn [is_interrupt_exception_vector].
  change (is_interrupt_exception_vector 30) with true. cbn [negb].
  destruct (Z.eqb_spec (pistorm_iack_vector k) 0xFFFE) as [E|_]; [rewrite E in Hb; done|].
  destruct (Z.eqb_spec (pistorm_iack_vector k) 0xFFFF) as [E|_]; [rewrite E in Hb; done|].
  unfold atari_iack_vector_is_valid. change (interrupt_level_from_vector 30 k) with 6. cbn [Z.eqb Pos.eqb andb].
  unfold mfp_block in Hb. destruct (pistorm_iack_dsp k).
  - assert ((0 <=? pistorm_iack_vector k .& 255) && (pistorm_iack_vector k .& 255 <=? 255) = true) as -> by lia.
    done.
  - by rewrite Hb.
Qed.

Lemma block_byte v : mfp_block v = true -> v .& 0xFF = v.
Proof.
  unfold mfp_block. intros Hb. change 0xFF with (Z.ones 8). rewrite Z.land_ones by lia. apply Z.mod_small. lia.
Qed.

(** The recovered vector is in the block, or is zero. *)
Definition vectored s : Prop := mfp_block (iack_of s .& 0xFF) = true.

Lemma set_iack_vectored v s n : mfp_block v = true -> vectored (set_retries n (set_iack v s)).
Proof. intros Hb. unfold vectored, iack_of. cbn. by rewrite block_byte. Qed.

Lemma noack_vectored nr s c s' : mfp_noack cfg nr s = (true, c, s') -> vectored s'.
Proof.
  unfold mfp_noack. destruct (if isr_fast cfg then _ else _) as [early s1].
  destruct (isr_fast cfg && mfp_block early) eqn:E1.
  { intros [= <- <-]. apply andb_true_iff in E1 as [_ E1]. by apply set_iack_vectored. }
  cbv zeta. destruct (_ <? 2); [done|]. destruct (mfp_block (noack_candidate_vec _)) eqn:E2.
  { intros [= <- <-]. by apply set_iack_vectored. }
  destruct (atari_recover_mfp_vector_from_isrb _) as [iv s2]. destruct (mfp_block iv) eqn:E3.
  { intros [= <- <-]. by apply set_iack_vectored. }
  destruct (atari_live_ipl_level s2). destruct (_ || _); done.
Qed.

Lemma repair_vectored nr s c s' : mfp_repair cfg nr s = (true, c, s') -> vectored s'.
Proof.
  unfold mfp_repair. cbv zeta. destruct (_ =? 0xFFFE); [apply noack_vectored|].
  destruct (mfp_block (iack_of s .& 0xff)) eqn:E; cbn [negb].
  - intros [= <- <-]. exact E.
  - destruct (atari_recover_mfp_vector_from_isrb s) as [iv s2]. destruct (mfp_block iv) eqn:E3; [|done].
    intros [= <- <-]. unfold vectored, iack_of. cbn. by rewrite block_byte.
Qed.
(** The DSP flag is set only with a vector of the DSP's. *)
Lemma live_ik s : ik (atari_live_ipl_level s).2 = ik s.
Proof. unfold atari_live_ipl_level. by destruct (ps_read_ipl _). Qed.
Lemma read_ik a fc s : ik (bus_read a fc s).2 = ik s.
Proof. unfold bus_read. by destruct (ps_read_8_fc _ _ _) as [[] ?]. Qed.

Lemma recover_ik s : ik (atari_recover_mfp_vector_from_isrb s).2 = ik s.
Proof.
  unfold atari_recover_mfp_vector_from_isrb.
  pose proof (read_ik 0x00FFFA0F 5 s) as E1. destruct (bus_read _ _ s) as [[v1 b1] s1]. cbn [snd] in E1.
  destruct b1; [done|]. destruct (0 <=? _); [done|].
  pose proof (read_ik 0x00FFFA11 5 s1) as E2. destruct (bus_read _ _ s1) as [[v2 b2] s2]. cbn [snd] in E2.
  rewrite E1 in E2. destruct b2; [done|]. by destruct (0 <=? _).
Qed.

Lemma bus_iack_dsp nr s : pistorm_iack_dsp (ik (bus_iack nr s)) = pistorm_iack_dsp (ik s).
Proof.
  unfold bus_iack. pose proof (read_ik (0x00FFFFF1 .| (nr << 1)) 7 s) as E.
  destruct (bus_read _ _ _) as [[v b] s1]. cbn [snd] in E. rewrite <- E.
  destruct b; [done|]. cbv zeta. by destruct (_ && _).
Qed.
Lemma ack_bus_dsp nr s : pistorm_iack_dsp (ik (ack_bus cfg nr s)) = pistorm_iack_dsp (ik s).
Proof.
  unfold ack_bus. destruct (_ && _); [|apply bus_iack_dsp].
  pose proof (live_ik s) as E. destruct (atari_live_ipl_level s) as [l s1]. cbn [snd] in E. rewrite <- E.
  destruct (l <? nr); [done|apply bus_iack_dsp].
Qed.
Lemma ack_virtual_dsp s : pistorm_iack_dsp (ik (ack_virtual cfg s).2) = pistorm_iack_dsp (ik s).
Proof.
  unfold ack_virtual. cbv zeta. destruct (_ && _); [|done].
  pose proof (live_ik s) as E. destruct (atari_live_ipl_level s) as [l s1]. cbn [snd] in E. rewrite <- E.
  destruct (_ || _); [|done]. destruct (mfp_hub_iack _ _) as [v m]. by destruct (0 <=? v).
Qed.

Lemma ack_dsp_vector s :
  let '(d, s') := ack_dsp s in
  if d then is_u8 (iack_of s') else pistorm_iack_dsp (ik s') = pistorm_iack_dsp (ik s).
Proof.
  unfold ack_dsp. destruct (falcon_hreq _); [|done].
  pose proof (live_ik s) as E. destruct (atari_live_ipl_level s) as [l s1]. cbn [snd] in E.
  destruct (l <? 6); [apply ivr_range|by rewrite E].
Qed.

Lemma intlev_ack_dsp nr s : pistorm_iack_dsp (ik (intlev_ack cfg nr s)) = true ->
  is_u8 (iack_of (intlev_ack cfg nr s)).
Proof.
  unfold intlev_ack. cbv zeta. set (s0 := set_dsp false s).
  destruct (nr =? 6); [|by rewrite ack_bus_dsp].
  pose proof (ack_virtual_dsp s0) as Ev. destruct (ack_virtual cfg s0) as [d1 s1]. cbn [snd] in Ev.
  destruct d1; [by rewrite Ev|]. pose proof (ack_dsp_vector s1) as Ed. destruct (ack_dsp s1) as [d2 s2].
  destruct d2; [done|]. by rewrite ack_bus_dsp, Ed, Ev.
Qed.

Lemma dsp_vector_used (k : core M) : pistorm_iack_dsp k = true -> is_u8 (pistorm_iack_vector k) ->
  vector_of 30 k = pistorm_iack_vector k.
Proof.
  intros Hd Hv. unfold is_u8 in Hv. unfold vector_of, effective_interrupt_vector.
  change (is_interrupt_exception_vector 30) with true. cbn [negb].
  rewrite !(proj2 (Z.eqb_neq (pistorm_iack_vector k) _)) by lia.
  change 0xFF with (Z.ones 8). rewrite Z.land_ones, Z.mod_small by lia.
  unfold atari_iack_vector_is_valid. change (interrupt_level_from_vector 30 k) with 6. rewrite Hd. cbn [Z.eqb Pos.eqb andb].
  by assert ((0 <=? pistorm_iack_vector k) && (pistorm_iack_vector k <=? 255) = true) as -> by lia.
Qed.

(** C25: a level-6 interrupt that is taken goes through the vector its source
    supplied, whatever happened to the acknowledge cycle: the vector is in the
    MFP's block 0x40-0x4F, or it is the byte the Falcon's DSP put in its
    interrupt vector register.  The level-6 autovector is never used. *)
Theorem level6_vectored s c s' : decide_interrupt cfg 6 s = (true, c, s') ->
  let v := vector_of 30 (ik s') in
  0x40 <= v <= 0x4F \/ (pistorm_iack_dsp (ik s') = true /\ v = pistorm_iack_vector (ik s') /\ is_u8 v).
Proof.
  unfold decide_interrupt. cbn [Z.eqb Pos.eqb andb].
  pose proof (intlev_ack_dsp 6 (on_k clear_spurious s)) as Hd. set (s1 := intlev_ack _ _ _) in *. clearbody s1.
  destruct (pistorm_iack_dsp (ik s1)) eqn:Ed; cbn [negb].
  - intros [= <- <-]. right. specialize (Hd eq_refl). by rewrite dsp_vector_used.
  - intros E. left. apply repair_vectored in E. unfold vectored in E. rewrite mfp_vector_used by done.
    unfold mfp_block in E. unfold iack_of in E. lia.
Qed.
(** ** What acknowledging changes of the core: the vector and its origin *)
Definition with_iack (v : Z) (d : bool) (k : core M) : core M :=
  {| k with pistorm_iack_vector := v; pistorm_iack_dsp := d |}.
Definition iack_only s s' : Prop := exists v d, ik s' = with_iack v d (ik s).

Lemma io_refl s : iack_only s s.
Proof. exists (pistorm_iack_vector (ik s)), (pistorm_iack_dsp (ik s)). by destruct (ik s). Qed.
Lemma io_eq s s1 s2 : ik s2 = ik s1 -> iack_only s s1 -> iack_only s s2.
Proof. unfold iack_only. by intros ->. Qed.
Lemma io_iack s s1 v : iack_only s s1 -> iack_only s (set_iack v s1).
Proof. intros (w & d & E). exists v, d. cbn. by rewrite E. Qed.
Lemma io_dsp s s1 b : iack_only s s1 -> iack_only s (set_dsp b s1).
Proof. intros (w & d & E). exists w, b. cbn. by rewrite E. Qed.
Lemma io_live s s1 : iack_only s s1 -> iack_only s (atari_live_ipl_level s1).2.
Proof. apply io_eq, live_ik. Qed.
Lemma io_read s s1 a fc : iack_only s s1 -> iack_only s (bus_read a fc s1).2.
Proof. apply io_eq, read_ik. Qed.
Lemma io_recover s s1 : iack_only s s1 -> iack_only s (atari_recover_mfp_vector_from_isrb s1).2.
Proof. apply io_eq, recover_ik. Qed.

Lemma io_bus_iack s s1 nr : iack_only s s1 -> iack_only s (bus_iack nr s1).
Proof.
  intros Hs. unfold bus_iack. pose proof (io_read s s1 (0x00FFFFF1 .| (nr << 1)) 7 Hs) as E.
  destruct (bus_read _ _ _) as [[v b] s2]. cbn [snd] in E.
  destruct b; [by apply (io_iack s s2)|]. cbv zeta. destruct (_ && _); by apply (io_iack s s2).
Qed.
Lemma io_ack_bus s s1 nr : iack_only s s1 -> iack_only s (ack_bus cfg nr s1).
Proof.
  intros Hs. unfold ack_bus. destruct (_ && _); [|by apply io_bus_iack].
  pose proof (io_live s s1 Hs) as E. destruct (atari_live_ipl_level s1) as [l s2]. cbn [snd] in E.
  destruct (l <? nr); [by apply (io_iack s s2)|by apply io_bus_iack].
Qed.
Lemma io_ack_virtual s s1 : iack_only s s1 -> iack_only s (ack_virtual cfg s1).2.
Proof.
  intros Hs. unfold ack_virtual. cbv zeta. destruct (_ && _); [|done].
  pose proof (io_live s s1 Hs) as E. destruct (atari_live_ipl_level s1) as [l s2]. cbn [snd] in E.
  destruct (_ || _); [|done]. destruct (mfp_hub_iack _ _) as [v m].
  destruct (0 <=? v); [by apply (io_iack s s2)|done].
Qed.
Lemma io_ack_dsp s s1 : iack_only s s1 -> iack_only s (ack_dsp s1).2.
Proof.
  intros Hs. unfold ack_dsp. destruct (falcon_hreq _); [|done].
  pose proof (io_live s s1 Hs) as E. destruct (atari_live_ipl_level s1) as [l s2]. cbn [snd] in E.
  destruct (l <? 6); [by apply io_dsp, io_iack|done].
Qed.
Lemma io_intlev_ack s nr : iack_only s (intlev_ack cfg nr s).
Proof.
  unfold intlev_ack. cbv zeta. pose proof (io_dsp s s false (io_refl s)) as Hz. set (s0 := set_dsp false s) in *.
  destruct (nr =? 6); [|by apply io_ack_bus].
  pose proof (io_ack_virtual s s0 Hz) as E1. destruct (ack_virtual cfg s0) as [[] s1]; [done|].
  pose proof (io_ack_dsp s s1 E1) as E2. destruct (ack_dsp s1) as [[] s2]; [done|]. by apply io_ack_bus.
Qed.

Lemma io_noack s s1 nr : iack_only s s1 -> iack_only s (mfp_noack cfg nr s1).2.
Proof.
  intros Hs. unfold mfp_noack.
  assert (E0 : iack_only s (if isr_fast cfg then atari_recover_mfp_vector_from_isrb s1 else (0, s1)).2)
    by (destruct (isr_fast cfg); [by apply io_recover|done]).
  destruct (if isr_fast cfg then _ else _) as [early s2]. cbn [snd] in E0.
  destruct (_ && _); [by apply (io_iack s s2)|]. cbv zeta.
  destruct (_ <? 2); [by apply (io_iack s s2)|]. destruct (mfp_block _); [by apply (io_iack s s2)|].
  set (s3 := {| s2 with noack_retries := _ |}).
  pose proof (io_recover s s3 E0) as E1. destruct (atari_recover_mfp_vector_from_isrb s3) as [iv s4]. cbn [snd] in E1.
  destruct (mfp_block iv); [by apply (io_iack s s4)|].
  pose proof (io_live s s4 E1) as E2. destruct (atari_live_ipl_level s4) as [l s5]. cbn [snd] in E2.
  destruct (_ || _); by apply (io_iack s s5).
Qed.
Lemma io_repair s s1 nr : iack_only s s1 -> iack_only s (mfp_repair cfg nr s1).2.
Proof.
  intros Hs. unfold mfp_repair. cbv zeta. destruct (_ =? 0xFFFE); [by apply io_noack|].
  destruct (negb _); [|done].
  pose proof (io_recover s s1 Hs) as E1. destruct (atari_recover_mfp_vector_from_isrb s1) as [iv s2]. cbn [snd] in E1.
  destruct (mfp_block iv); [by apply (io_iack s s2)|done].
Qed.

Lemma io_latch s s' : iack_only s s' -> g_irq (ik s') = g_irq (ik s).
Proof. by intros (v & d & ->). Qed.

Lemma hbl_verdict_ik s : ik (hbl_verdict s) = ik s.
Proof. unfold hbl_verdict. cbv zeta. by destruct (_ =? hbl_fp_vec s). Qed.

Lemma hbl_suppress_latch s : g_irq (ik (hbl_suppress s).2) = g_irq (ik s).
Proof.
  unfold hbl_suppress. cbv zeta. rewrite <- (hbl_verdict_ik s). generalize (hbl_verdict s). intros s1.
  destruct (truth _); [done|]. destruct (_ =? 1); [done|]. destruct (_ =? 2); [|done].
  cbn [snd]. by destruct (_ =? 0).
Qed.

Lemma decide_latch nr s : g_irq (ik (decide_interrupt cfg nr s).2) = g_irq (ik s).
Proof.
  unfold decide_interrupt. cbv zeta.
  pose proof (io_latch _ _ (io_intlev_ack (on_k clear_spurious s) nr)) as E.
  set (s1 := intlev_ack _ _ _) in *. clearbody s1. change (g_irq (ik (on_k clear_spurious s))) with (g_irq (ik s)) in E.
  destruct (nr =? 2).
  - assert (E2 : g_irq (ik (hbl_suppress s1).2) = g_irq (ik s)).
    { by rewrite hbl_suppress_latch. }
    destruct (hbl_suppress s1) as [t s2]. cbn [snd] in E2.
    destruct (_ && _); [by rewrite (io_latch s2 _ (io_repair s2 s2 nr (io_refl s2)))|done].
  - destruct (_ && _); [by rewrite (io_latch s1 _ (io_repair s1 s1 nr (io_refl s1)))|done].
Qed.

Lemma deliver_latch nr s : g_irq (ik (deliver p cfg tb bb nr s).2) = g_irq (ik s).
Proof.
  unfold deliver. pose proof (decide_latch nr s) as E. destruct (decide_interrupt cfg nr s) as [[t c] s1].
  cbn [snd] in *. destruct t; [|done]. cbn [on_k ik].
  by apply (keep_exception_fuel p tb bb (fun k => g_irq k = g_irq (ik s)) 2).
Qed.

(** ** The latch and the sampler thread *)

(** The sampler latches a level only above the one latched. *)
Definition latch_raise (g l : Z) : Z := if g <? l then l else g.

Lemma raises_spec rs : forall g, g <= fold_left latch_raise rs g /\
  (forall l, In l rs -> l <= fold_left latch_raise rs g) /\
  (fold_left latch_raise rs g = g \/ In (fold_left latch_raise rs g) rs).
Proof.
  induction rs as [|l rs IH]; intros g; cbn; [split_and!; [lia|done|by left]|].
  destruct (IH (latch_raise g l)) as (H1' & H2' & H3').
  assert (g <= latch_raise g l /\ l <= latch_raise g l /\ (latch_raise g l = g \/ latch_raise g l = l))
    as (Ha & Hb & Hc) by (unfold latch_raise; destruct (Z.ltb_spec g l); lia).
  split_and!; [lia| |].
  - intros x [<-|Hx]; [lia|by apply H2'].
  - destruct H3' as [E|E]; [|by right; right]. rewrite E. destruct Hc as [-> | ->]; [by left|by right; left].
Qed.

Lemma special_latch f (k : core M) : g_irq (set_special p f k) = g_irq k.
Proof. unfold set_special, cycles_do_special. destruct (truth _); [by destruct (0 <=? _)|done]. Qed.

Lemma settle_latch_value nr clear (k : core M) :
  g_irq (settle_latch p nr clear k) = if clear then cas_clear nr (g_irq k) else cas_raise nr (g_irq k).
Proof. unfold settle_latch. destruct clear; [done|]. by rewrite special_latch. Qed.

(** C13: delivering an interrupt never loses another one.  Whatever levels [rs]
    the sampler thread latches between the moment [intlev] read the latch and
    the moment [do_interrupt] settles it, afterwards the latch holds the
    highest level above the delivered one, if there was any; otherwise it is
    empty, or still holds the delivered level if that has to be retried. *)
Theorem latch_not_lost nr s rs : 0 < nr -> g_irq (ik s) = nr ->
  let '(clear, s1) := deliver p cfg tb bb nr s in
  let g := fold_left latch_raise rs (g_irq (ik s1)) in
  let g' := g_irq (settle_latch p nr clear {| (ik s1) with g_irq := g |}) in
  (forall l, In l rs -> nr < l -> l <= g') /\ (nr < g' -> In g' rs) /\
  ((forall l, In l rs -> l <= nr) -> g' = if clear then 0 else nr).
Proof.
  intros Hpos Hg. pose proof (deliver_latch nr s) as Ed. destruct (deliver p cfg tb bb nr s) as [clear s1].
  cbn [snd] in Ed. rewrite Ed, Hg. cbv zeta. destruct (raises_spec rs nr) as (H1' & H2' & H3').
  set (g := fold_left latch_raise rs nr) in *. clearbody g.
  rewrite settle_latch_value. cbn [g_irq]. unfold cas_clear, cas_raise. split_and!.
  - intros l Hl Hn. specialize (H2' l Hl). destruct clear; [rewrite (proj2 (Z.eqb_neq g nr)) by lia; lia|].
    rewrite (proj2 (Z.ltb_ge g nr)) by lia. lia.
  - destruct clear; [destruct (Z.eqb_spec g nr)|destruct (Z.ltb_spec g nr)]; intros Hn; try lia;
      (destruct H3' as [E|E]; [lia|done]).
  - intros Hall. assert (g = nr) as ->.
    { destruct H3' as [E|E]; [done|]. specialize (Hall g E). lia. }
    rewrite Z.eqb_refl, Z.ltb_irrefl. done.
Qed.
End Props.
