(* ===== verification/IrqTop.v ===== *)
(** * IrqTop: from the latch to the handler

    Autovectored interrupts end to end, from [intlev] through the acknowledge,
    the exception and its stack frame to the first instruction of the handler;
    and the two HBL shortcuts compared. *)

From S2P Require Import Prelude Flags Cpu Frames Sr SrProps Except ExceptProps ExceptTop Mfp Irq IrqProps.
From Stdlib Require Import ZArith Lia Bool.
From stdpp Require Import base list gmap.
Open Scope Z_scope.
Open Scope cint_scope.

Section Delivery.
Context {M H : Type} `{BusLaws M} `{HwLaws H}.
Context (p : core_prefs) (cfg : irq_cfg) (tb : Z -> instr) (bb : Z -> bool).
Implicit Types (s : irq M H) (k : core M).
Abbreviation model := (cpu_model (kp p)).

(** The address execution resumes at: past the STOP or LPSTOP it slept in. *)
Definition resume_pc k : Z :=
  if stopped k =? 1 then u32 (m68k_getpc k + 4)
  else if stopped k =? 2 then u32 (m68k_getpc k + 6) else m68k_getpc k.

(** The core as [Exception_normal] finds it. *)
Definition prepared (nr v : Z) (d : bool) k : core M :=
  shadow_buscr p (start_exception nr None (with_iack v d (clear_spurious k))).

(** What the exception's preamble keeps. *)
Record same_machine k k' : Prop := {
  sm_regs : regs (kc k') = regs (kc k); sm_flags : rflags (kc k') = rflags (kc k);
  sm_s : reg_s (kc k') = reg_s (kc k); sm_m : reg_m (kc k') = reg_m (kc k);
  sm_usp : usp (k_ctl k') = usp (k_ctl k); sm_isp : isp (k_ctl k') = isp (k_ctl k);
  sm_msp : msp (k_ctl k') = msp (k_ctl k); sm_vbr : vbr (k_ctl k') = vbr (k_ctl k);
  sm_mem : xm (kx k') = xm (kx k); sm_t : t1 k' = t1 k /\ t0 k' = t0 k; sm_mask : intmask k' = intmask k }.

Lemma sm_buscr k : same_machine k (shadow_buscr p k) /\ m68k_getpc (shadow_buscr p k) = m68k_getpc k /\
  pistorm_iack_vector (shadow_buscr p k) = pistorm_iack_vector k /\
  pistorm_iack_dsp (shadow_buscr p k) = pistorm_iack_dsp k.
Proof. unfold shadow_buscr. destruct (model =? 68060); by split_and!. Qed.

Lemma sm_resume k : same_machine k (m68k_resumestopped k) /\ m68k_getpc (m68k_resumestopped k) = resume_pc k /\
  stopped (m68k_resumestopped k) = 0.
Proof.
  unfold m68k_resumestopped, resume_pc. destruct (Z.eqb_spec (stopped k) 0) as [E|E].
  - rewrite E. by split_and!.
  - cbv zeta. destruct (stopped k =? 1); [by split_and!|]. destruct (stopped k =? 2); by split_and!.
Qed.
Lemma sm_trans k1 k2 k3 : same_machine k1 k2 -> same_machine k2 k3 -> same_machine k1 k3.
Proof.
  intros [A1 A2 A3 A4 A5 A6 A7' A8 A9 [A10 A10'] A11] [B1 B2 B3 B4 B5 B6 B7 B8 B9 [B10 B10'] B11].
  split; try congruence. split; congruence.
Qed.

Lemma prepared_spec nr v d k : 25 <= nr <= 31 ->
  same_machine k (prepared nr v d k) /\ m68k_getpc (prepared nr v d k) = resume_pc k /\
  pistorm_iack_vector (prepared nr v d k) = v /\ pistorm_iack_dsp (prepared nr v d k) = d /\
  stopped (start_exception nr None (with_iack v d (clear_spurious k))) = 0.
Proof.
  intros Hnr. unfold prepared, start_exception, exception_hook, set_instruction_pc.
  rewrite (proj2 (Z.eqb_neq nr 46)), (proj2 (Z.eqb_neq nr 33)) by lia.
  set (k1 := begin_exception nr _).
  destruct (sm_resume k1) as (S1 & P1 & T1). set (k2 := m68k_resumestopped k1) in *.
  destruct (sm_buscr k2) as (S2 & P2 & V2 & D2).
  split_and!; [| |rewrite V2|rewrite D2|done].
  - eapply sm_trans; [|exact S2]. eapply sm_trans; [|exact S1]. by split.
  - rewrite P2, P1. done.
  - unfold k2, m68k_resumestopped. destruct (_ =? 0); [done|]. cbv zeta. by repeat case_match.
  - unfold k2, m68k_resumestopped. destruct (_ =? 0); [done|]. cbv zeta. by repeat case_match.
Qed.

(** Every level but 6 is autovectored. *)
Lemma autovector_used nr k : 25 <= nr <= 31 -> nr <> 30 -> vector_of nr k = nr.
Proof.
  intros Hnr H30. unfold vector_of, effective_interrupt_vector.
  destruct (is_interrupt_exception_vector nr); [|done]. cbn [negb].
  destruct (_ =? 0xFFFE); [done|]. destruct (_ =? 0xFFFF); [done|].
  unfold atari_iack_vector_is_valid. rewrite level_of_vector by done.
  by rewrite (proj2 (Z.eqb_neq (nr - 24) 6)) by lia.
Qed.

(** Nothing but the acknowledge happens before an autovectored exception. *)
Lemma decide_autovector nr s : nr <> 2 -> nr <> 6 ->
  exists v d s1, decide_interrupt cfg nr s = (true, true, s1) /\ ik s1 = with_iack v d (clear_spurious (ik s)).
Proof.
  intros Hn2 Hn6. unfold decide_interrupt. cbv zeta.
  rewrite (proj2 (Z.eqb_neq nr 2)), (proj2 (Z.eqb_neq nr 6)) by done. cbn [andb].
  destruct (io_intlev_ack cfg (on_k clear_spurious s) nr) as (v & d & E). by exists v, d, (intlev_ack cfg nr (on_k clear_spurious s)).
Qed.

(** The views of ExceptTop depend on the kept machine only. *)
Lemma sm_views k k' : same_machine k k' ->
  ssp p k' = ssp p k /\ usp_view k' = usp_view k /\ packed_sr k' = packed_sr k.
Proof.
  intros [A1 A2 A3 A4 A5 A6 A7' A8 A9 [A10 A10'] A11].
  unfold ssp, usp_view, packed_sr, get_a7, m68k_areg. rewrite A1, A3, A4, A5, A6, A7'.
  split_and!; [done|done|]. unfold MakeSR, kc in *. cbn. by rewrite A2, A3, A4, A10, A10', A11.
Qed.
(** The exception an interrupt becomes, without an MMU. *)
Lemma take_interrupt nr k : 25 <= nr <= 31 -> truth (mmu_model (kp p)) = false -> cpu_cycle_exact p = false ->
  take_exception p tb bb nr k =
  set_exception 0 (Exception_normal p tb bb (Exception_fuel p tb bb 1) nr (shadow_buscr p (start_exception nr None k))).
Proof.
  intros Hnr Hm Hc. unfold take_exception. cbn [Exception_fuel]. rewrite (proj2 (Z.eqb_neq nr 4)) by lia.
  unfold ExceptionX, run_exception, dispatch_exception. by rewrite Hc, Hm.
Qed.

Lemma prepared_inv nr v d k : core_inv p k -> core_inv p (prepared nr v d k).
Proof.
  intros Hk. unfold prepared. apply (keep_buscr p (core_inv p)), (keep_start (core_inv p)).
  destruct Hk as [[] Hs]. split; [done|]. cbn. lia.
Qed.

(** A stopped processor runs again. *)
Lemma interrupt_woken nr v d k : 25 <= nr <= 31 -> truth (mmu_model (kp p)) = false -> cpu_cycle_exact p = false ->
  stopped (Exception_normal p tb bb (Exception_fuel p tb bb 1) nr (prepared nr v d k)) = 0.
Proof.
  intros Hnr Hmmu Hce. destruct (prepared_spec nr v d k Hnr) as (_ & _ & _ & _ & Est).
  pose proof (keep_run p tb bb (fun k => stopped k = 0) (Exception_fuel p tb bb 1)
    (fun nr k => keep_exception_fuel p tb bb (fun k => stopped k = 0) 1 nr k) nr _ Est) as E.
  unfold run_exception, dispatch_exception in E. by rewrite Hce, Hmmu in E.
Qed.

Lemma do_autovector nr s : 0 < nr < 8 -> nr <> 2 -> nr <> 6 ->
  truth (mmu_model (kp p)) = false -> cpu_cycle_exact p = false ->
  exists v d, let ke := Exception_normal p tb bb (Exception_fuel p tb bb 1) (nr + 24) (prepared (nr + 24) v d (ik s)) in
    ik (do_interrupt p cfg tb bb nr s) = settle_latch p nr true (set_exception 0 ke) /\
    g_irq (set_exception 0 ke) = g_irq (ik s).
Proof.
  intros Hnr Hn2 Hn6 Hmmu Hce. destruct (decide_autovector nr s Hn2 Hn6) as (v & d & s1 & Ed & Ek).
  exists v, d. cbv zeta. pose proof (deliver_latch p cfg tb bb nr s) as El.
  unfold do_interrupt, deliver in *. rewrite Ed in *. cbn [snd on_k ik] in *. rewrite Ek in *.
  by rewrite take_interrupt in * by (done || lia).
Qed.

(** The state in which a handler starts. *)
Record started (level pc us a7 : Z) (ws : list (option Z)) k : Prop := {
  started_pc : m68k_getpc k = pc;
  started_s : reg_s (kc k) = true;
  started_trace : t1 k = 0 /\ t0 k = 0;
  started_mask : intmask k = level;
  started_run : stopped k = 0;
  started_usp : usp (k_ctl k) = us;
  started_a7 : get_a7 k = a7;
  started_frame : forall i w, ws !! i = Some (Some w) ->
    get_word (xm (kx k)) (get_a7 k + 2 * Z.of_nat i) = u16 w }.

Lemma started_settle level pc us a7 ws nr k : started level pc us a7 ws k ->
  started level pc us a7 ws (settle_latch p nr true (set_exception 0 k)).
Proof. by intros []. Qed.

(** The latch is empty, so the next look at it finds nothing. *)
Lemma settled nr ke s' pc us a7 ws : 0 < nr -> ik s' = settle_latch p nr true (set_exception 0 ke) ->
  g_irq (set_exception 0 ke) = nr -> started nr pc us a7 ws ke ->
  nr = nr /\ started nr pc us a7 ws (ik s') /\ g_irq (ik s') = 0 /\ intlev p cfg tb bb s' = (0, s').
Proof.
  intros Hn Ei El Hs. assert (Ef : g_irq (ik s') = 0).
  { rewrite Ei, settle_latch_value, El. unfold cas_clear. by rewrite Z.eqb_refl. }
  apply (started_settle _ _ _ _ _ nr) in Hs. rewrite <- Ei in Hs. split_and!; [done|done|done|].
  unfold intlev. rewrite Ef, (started_mask _ _ _ _ _ _ Hs). by rewrite (proj2 (Z.ltb_ge nr 0)) by lia.
Qed.

End Delivery.
