(* ===== verification/IrqHbl.v ===== *)
(** * IrqHbl: the two shortcuts for idle HBL handlers

    The sampler thread ([pistorm_hbl_handler_is_rte]) and [do_interrupt] both
    look at the level-2 handler's code to skip handlers that do nothing.  They
    agree on what they look at; the sampler's bounds check misses the top of
    the address space, and [do_interrupt] remembers its verdict too long. *)

From S2P Require Import Prelude Flags Cpu Frames Sr SrProps Except ExceptProps ExceptTop Mfp StRam Irq IrqProps.
From Stdlib Require Import ZArith Lia Bool.
From stdpp Require Import base list gmap.
Open Scope Z_scope.
Open Scope cint_scope.

Section Hbl.
Context {M H : Type} `{BusLaws M} `{HwLaws H}.
Implicit Types (s : irq M H) (natmem : Z -> Z).

Definition s_mem s : M := xm (kx (ik s)).
Definition slot s : Z := u32 (vbr (k_ctl (ik s)) + 0x68).
Definition hblvec s : Z := get_long (s_mem s) (slot s).

(** The host copy holds the bytes of guest memory below 16 MB. *)
Definition mirrors natmem s : Prop := forall a, 0 <= a < LOWLIM -> natmem a = get_byte (s_mem s) a.

(** ** Reading through the copy *)
Lemma be_word_mirror natmem s a : mirrors natmem s -> 0 <= a -> a + 2 <= LOWLIM ->
  be_word natmem a = get_word (s_mem s) a.
Proof.
  intros Hm Ha Hb. unfold be_word. rewrite !Hm by lia. rewrite get_word_bytes, Z.lor_comm.
  rewrite lor_shl_add; [done|lia|apply get_byte_range].
Qed.

Lemma lor_bytes a b c d : is_u8 b -> is_u8 c -> is_u8 d ->
  (a << 24) .| (b << 16) .| (c << 8) .| d = ((a * 256 + b) * 65536) + (c * 256 + d).
Proof.
  unfold is_u8. intros Hb Hc Hd.
  rewrite <- !Z.lor_assoc, (Z.lor_comm (c << 8) d), lor_shl_add by lia.
  rewrite (Z.lor_comm (b << 16)), lor_shl_add by lia. rewrite Z.lor_comm, lor_shl_add by lia. lia.
Qed.

Lemma vector_mirror natmem s a : mirrors natmem s -> 0 <= a -> a + 4 <= LOWLIM ->
  (natmem a << 24) .| (natmem (a + 1) << 16) .| (natmem (a + 2) << 8) .| natmem (a + 3) = get_long (s_mem s) a.
Proof.
  intros Hm Ha Hb. rewrite !Hm by lia. rewrite lor_bytes by apply get_byte_range.
  rewrite get_long_words, !get_word_bytes. by replace (a + 2 + 1) with (a + 3) by lia.
Qed.

Lemma even_land1 z : truth (z .& 1) = Z.odd z.
Proof. rewrite land_1_odd. by destruct (Z.odd z). Qed.

(** ** Agreement *)

(** For a handler in the low 16 MB the sampler drops the HBL exactly when
    [do_interrupt], looking at the handler for the first time, would suppress
    it: both recognise a bare RTE and the EmuTOS handler and nothing else. *)
Theorem hbl_shortcuts_agree natmem s :
  mirrors natmem s -> stopped (ik s) = 0 -> slot s + 4 <= LOWLIM -> hblvec s + 12 <= LOWLIM ->
  hblvec s <> hbl_fp_vec s ->
  (pistorm_hbl_handler_is_rte natmem (stopped (ik s)) (vbr (k_ctl (ik s)))).2 =
  negb (hbl_suppress s).1.
Proof.
  intros Hm Hst Hs Hh Hne. unfold pistorm_hbl_handler_is_rte. rewrite Hst. cbn [truth Z.eqb negb]. cbv zeta.
  fold (slot s). pose proof (u32_range (vbr (k_ctl (ik s)) + 0x68)) as Hr. fold (slot s) in Hr.
  pose proof (long_range (s_mem s) (slot s)) as Hv. fold (hblvec s) in Hv. unfold is_u32, LOWLIM in *.
  rewrite (u32_small (slot s + 4)) by (unfold is_u32; lia).
  rewrite (proj2 (Z.ltb_ge 16777216 (slot s + 4))) by lia.
  rewrite (vector_mirror natmem s) by (done || lia). fold (hblvec s).
  rewrite (u32_small (hblvec s + 12)) by (unfold is_u32; lia).
  rewrite (proj2 (Z.ltb_ge 16777216 (hblvec s + 12))), even_land1, orb_false_r by lia.
  unfold hbl_suppress, hbl_verdict. cbv zeta.
  change (get_long _ (u32 _)) with (hblvec s). rewrite (proj2 (Z.eqb_neq (hblvec s) (hbl_fp_vec s))) by done.
  cbn [ik stopped hbl_fp_kind]. rewrite Hst. cbn [truth Z.eqb negb].
  assert (Hw : forall i, 0 <= i <= 5 -> be_word natmem (hblvec s + 2 * i) = k_word (hblvec s + 2 * i) s).
  { intros i Hi. unfold k_word. rewrite u32_small by (unfold is_u32; lia). apply be_word_mirror; [done|lia|unfold LOWLIM; lia]. }
  assert ((hblvec s .& 1 =? 0) = negb (Z.odd (hblvec s))) as ->
    by (rewrite <- even_land1; unfold truth; by rewrite negb_involutive).
  destruct (hblvec s =? 0), (Z.odd (hblvec s)); cbn [orb negb andb snd]; try done.
  cbn [map]. rewrite !Hw by lia. rewrite Z.mul_0_r, Z.add_0_r.
  destruct (k_word (hblvec s) s =? 0x4e73); [done|]. by case_bool_decide.
Qed.

(** ** Bounds *)

(** The sampler reads the host copy only below 16 MB, or, because its
    bounds checks wrap at 32 bits, in the last sixteen bytes of the 4 GB space,
    far behind the end of the mapping. *)
Theorem hbl_probe_bounds natmem st vbr a :
  (forall b, is_u8 (natmem b)) ->
  In a (pistorm_hbl_handler_is_rte natmem st vbr).1 ->
  0 <= a < LOWLIM \/ 0xFFFFFFF4 <= a.
Proof.
  intros Hn. unfold pistorm_hbl_handler_is_rte. destruct (truth st); [done|]. cbv zeta.
  pose proof (u32_range (vbr + 0x68)) as Hr. set (va := u32 (vbr + 0x68)) in *. unfold is_u32, LOWLIM in *.
  destruct (Z.ltb_spec 16777216 (u32 (va + 4))) as [|Hv]; [done|].
  assert (Hva : va + 4 <= 16777216 \/ 0xFFFFFFFC <= va) by (revert Hv; word).
  assert (Hlow : In a [va; va + 1; va + 2; va + 3] -> 0 <= a < 16777216 \/ 0xFFFFFFF4 <= a) by (cbn; lia).
  rewrite lor_bytes by apply Hn. pose proof (Hn va). pose proof (Hn (va + 1)).
  pose proof (Hn (va + 2)). pose proof (Hn (va + 3)). unfold is_u8 in *.
  set (h := _ * 65536 + _) in *. assert (Hh : 0 <= h < 4294967296) by lia. clearbody h.
  destruct ((h =? 0) || truth (h .& 1)); cbn [orb]; [exact Hlow|].
  destruct (Z.ltb_spec 16777216 (u32 (h + 12))) as [|Hb]; [exact Hlow|].
  cbn [fst]. rewrite in_app_iff, in_map_iff. intros [Ha|(i & <- & Hi)]; [by apply Hlow|].
  apply in_seq in Hi. assert (h + 12 <= 16777216 \/ 0xFFFFFFF4 <= h) by (revert Hb; word). lia.
Qed.

(** And it does read there: a guest whose level-2 vector holds one of the
    last even addresses makes the sampler thread read behind the 272 MB the
    host copy has. *)
Theorem hbl_probe_overrun natmem vbr h :
  let va := u32 (vbr + 0x68) in
  va + 4 <= LOWLIM -> 0xFFFFFFF4 <= h < 4294967296 -> Z.odd h = false ->
  (natmem va << 24) .| (natmem (va + 1) << 16) .| (natmem (va + 2) << 8) .| natmem (va + 3) = h ->
  In h (pistorm_hbl_handler_is_rte natmem 0 vbr).1 /\ GUEST_RESERVE <= h.
Proof.
  intros va Hva Hh Ho E. unfold GUEST_RESERVE. split; [|lia].
  unfold pistorm_hbl_handler_is_rte. cbn [truth Z.eqb negb]. cbv zeta. fold va. rewrite E.
  pose proof (u32_range (vbr + 0x68)) as Hr. fold va in Hr. unfold is_u32, LOWLIM in *.
  rewrite (u32_small (va + 4)) by (unfold is_u32; lia). rewrite (proj2 (Z.ltb_ge 16777216 (va + 4))) by lia.
  rewrite even_land1, Ho, (proj2 (Z.eqb_neq h 0)) by lia. cbn [orb].
  assert (u32 (h + 12) < 16) by word. rewrite (proj2 (Z.ltb_ge 16777216 (u32 (h + 12)))) by lia.
  cbn [fst]. apply in_or_app. right. cbn. left. lia.
Qed.

(** ** The remembered verdict *)
Definition with_mem (m : M) s : irq M H :=
  on_k (fun k => on_x (fun x => {| x with xm := m |}) k) s.

(** [do_interrupt] remembers its verdict by the vector's value alone: once
    it has seen an RTE there, a program that loads a real handler at the same
    address gets no HBL interrupts. *)
Theorem hbl_verdict_stale s m :
  stopped (ik s) = 0 -> hblvec s <> hbl_fp_vec s -> hblvec s <> 0 -> Z.odd (hblvec s) = false ->
  k_word (hblvec s) s = 0x4e73 -> get_long m (slot s) = hblvec s ->
  (hbl_suppress (with_mem m (hbl_suppress s).2)).1 = false.
Proof.
  intros Hst Hne Hz Ho Hw Hm.
  assert (E : hbl_suppress s = (false, {| s with hbl_fp_vec := hblvec s; hbl_fp_kind := 1 |})).
  { unfold hbl_suppress, hbl_verdict. cbv zeta. change (get_long _ (u32 _)) with (hblvec s).
    rewrite (proj2 (Z.eqb_neq (hblvec s) (hbl_fp_vec s))), (proj2 (Z.eqb_neq (hblvec s) 0)) by done.
    assert ((hblvec s .& 1 =? 0) = true) as -> by (rewrite land_1_odd, Ho; done).
    cbn [negb andb]. rewrite Hw. cbn [Z.eqb Pos.eqb ik hbl_fp_kind]. by rewrite Hst. }
  rewrite E. cbn [snd]. unfold hbl_suppress, hbl_verdict. cbv zeta.
  change (get_long _ (u32 _)) with (get_long m (slot s)). rewrite Hm.
  change (hbl_fp_vec (with_mem m _)) with (hblvec s). rewrite Z.eqb_refl.
  cbn [with_mem on_k ik]. change (stopped (on_x _ _)) with (stopped (ik s)). by rewrite Hst.
Qed.
End Hbl.
