(* ===== verification/IrqDemo.v ===== *)
(** * IrqDemo: concrete machines for SR, exceptions and interrupts

    A core with RAM, an interrupt table and a stack, a toy bus that answers
    acknowledge cycles, and the theorems of Sr, Except and Irq applied to them. *)

From S2P Require Import Prelude Flags Cpu Frames Sr SrProps Except ExceptProps ExceptTop Mfp Irq IrqProps IrqTop IrqHbl.
From Stdlib Require Import ZArith Lia Bool.
From stdpp Require Import base list gmap.
Open Scope Z_scope.
Open Scope cint_scope.

(** ** A machine *)
Definition demo_prefs (m : Z) : core_prefs := mk_kp (mk_prefs m 0 0 false false) 0 false false false.
Definition demo_e3 : exc3 := mk_e3 0 0 0 false false 0 0 false 0.

(** Autovectors 2 and 4 point to code; the HBL handler is a bare RTE. *)
Definition demo_mem : gmap Z Z :=
  put_word 0x4000 0x4e73 (put_long 0x68 0x4000 (put_long 0x70 0x5000 (∅ : gmap Z Z))).

Definition demo_cpu (s : bool) (m srv : Z) : cpu :=
  {| (set_areg 7 0x10000 cpu0) with reg_s := s; reg_m := m; sr := srv;
     rctl := {| ctl0 with usp := 0x20000; isp := 0x30000; msp := 0x40000 |} |}.

Definition demo_core (s : bool) (m srv irq : Z) : core (gmap Z Z) :=
  mk_core (mk_x (demo_cpu s m srv) demo_mem fault_ex) 0 0 0 0 0 0 0 0 0 0 0 0 0 0 0 0 demo_e3 0
    irq 0 0xFFFF false 0 [].

Lemma demo_core_inv md s m srv irq : In md [68000; 68010; 68020; 68030; 68040; 68060] ->
  m = 0 \/ (m = 1 /\ 68020 <= md) -> core_inv (demo_prefs md) (demo_core s m srv irq).
Proof.
  intros _ Hm. split; [split|]; cbn; unfold is_u32; try lia.
  apply (bool_decide_unpack _). vm_compute. exact I.
Qed.

(** ** A bus: the IPL lines, what an acknowledge reads, and the MFP's ISRs *)
Record toy_bus := mk_toy { toy_ipl : Z; toy_vector : Z; toy_berr : bool; toy_isra : Z }.

#[export] Instance toy_io : HwIo toy_bus := {|
  ps_read_ipl := fun h => (u8 (toy_ipl h), h);
  ps_read_8_fc := fun a fc h =>
    if fc =? 7 then (u8 (toy_vector h), toy_berr h, h)
    else if a =? 0x00FFFA0F then (u8 (toy_isra h), false, h) else (0, false, h);
  falcon_hreq := fun _ => false;
  falcon_ivr := fun _ => 0xFF;
  poll_asserts := fun _ _ => false |}.

#[export] Instance toy_laws : HwLaws toy_bus.
Proof.
  split; intros; cbn; [apply u8_range| |unfold is_u8; lia].
  destruct (fc =? 7); [apply u8_range|]. destruct (_ =? _); [apply u8_range|unfold is_u8; cbn; lia].
Qed.

Definition demo_irq (k : core (gmap Z Z)) (h : toy_bus) : irq (gmap Z Z) toy_bus :=
  mk_irq k mfp_boot h 0 0 0xFFFFFFFF 0 false 0 (replicate 16 0) 0 0.

Definition demo_cfg : irq_cfg := mk_icfg true true false true true.
Definition demo_tb (op : Z) : instr := mk_instr false 0 false.
Definition demo_bb (a : Z) : bool := 0x01000000 <=? a.

(** ** SR *)

Lemma sr_roundtrip_witness :
  sr (kc (MakeSR (MakeFromSR_x (demo_prefs 68060) 0 (demo_core true 0 0xF71F 0)))) = 0xB71F.
Proof.
  rewrite (sr_roundtrip (demo_prefs 68060) 0 (demo_core true 0 0xF71F 0));
    [reflexivity|apply demo_core_inv; [cbn; auto 10|by left]|unfold is_u16; cbn; lia].
Defined.

Lemma stacks_preserved_witness :
  stacks_of (MakeFromSR_x (demo_prefs 68040) 0 (demo_core true 1 0x0000 0)) = (0x20000, 0x30000, 0x10000).
Proof.
  destruct (stacks_preserved (demo_prefs 68040) 0 (demo_core true 1 0x0000 0)) as [E _];
    [apply demo_core_inv; [cbn; auto 10|right; cbn; lia]|].
  rewrite E; [vm_compute; reflexivity|cbn; lia].
Defined.

Lemma m060_swaps_stack_witness :
  get_a7 (demo_core true 0 0x3000 0) = 0x10000 /\
  get_a7 (MakeFromSR_x (demo_prefs 68060) 0 (demo_core true 0 0x3000 0)) = 0x30000.
Proof.
  split; [reflexivity|].
  destruct (m060_swaps_stack (demo_prefs 68060) 0 (demo_core true 0 0x3000 0)) as [E _]; try done.
  apply demo_core_inv; [cbn; auto 10|by left].
Defined.

(** ** Exceptions *)



Lemma m_interrupt_mmu040_witness :
  stack_regs (mmu_take (demo_prefs 68040) (fun _ k => k) 28 0x1000 0x1004 28 true (demo_core true 1 0x3000 4)) =
  (0x10000 - 16, 0x30000, 0x10000 - 8, 0).
Proof.
  exact (m_interrupt_mmu040 (demo_prefs 68040) (fun _ k => k) 28 0x1000 0x1004 28 (demo_core true 1 0x3000 4)
    (demo_core_inv 68040 true 1 0x3000 4 ltac:(cbn; auto 10) ltac:(right; lia)) ltac:(cbn; lia) ltac:(lia) ltac:(lia)
    eq_refl eq_refl ltac:(vm_compute; reflexivity)).
Defined.

(** ** Interrupts *)

(** The acknowledge cycle fails, but the MFP has Timer A in service. *)
Lemma level6_vectored_witness :
  exists c s', decide_interrupt demo_cfg 6 (demo_irq (demo_core true 0 0x2000 6) (mk_toy 6 0 true 0x20)) = (true, c, s') /\
  vector_of 30 (ik s') = 0x4D.
Proof.
  eexists _, _. split; [vm_compute; reflexivity|].
  match goal with |- vector_of 30 (ik ?s) = _ =>
    destruct (level6_vectored demo_cfg (demo_irq (demo_core true 0 0x2000 6) (mk_toy 6 0 true 0x20)) true s) as [Hb|[E _]] end;
    [vm_compute; reflexivity|vm_compute; reflexivity|vm_compute in E; discriminate].
Defined.

(** A VBL is delivered while the sampler latches an MFP interrupt. *)
Lemma latch_not_lost_witness :
  let s := demo_irq (demo_core true 0 0x2000 4) (mk_toy 4 0x1C false 0) in
  let '(clear, s1) := deliver (demo_prefs 68000) demo_cfg demo_tb demo_bb 4 s in
  6 <= g_irq (settle_latch (demo_prefs 68000) 4 clear
               {| (ik s1) with g_irq := fold_left latch_raise [2; 6] (g_irq (ik s1)) |}).
Proof.
  pose proof (latch_not_lost (demo_prefs 68000) demo_cfg demo_tb demo_bb 4
    (demo_irq (demo_core true 0 0x2000 4) (mk_toy 4 0x1C false 0)) [2; 6] ltac:(lia) eq_refl) as E.
  cbv zeta. destruct (deliver _ _ _ _ _ _) as [clear s1]. destruct E as [E _].
  apply (E 6); [cbn; auto|lia].
Defined.


(** ** HBL shortcuts *)
Definition demo_hbl : irq (gmap Z Z) toy_bus := demo_irq (demo_core true 0 0x2000 2) (mk_toy 2 0x1A false 0).

Lemma hbl_shortcuts_agree_witness :
  (pistorm_hbl_handler_is_rte (ram_byte demo_mem) 0 0).2 = true /\ (hbl_suppress demo_hbl).1 = false.
Proof.
  pose proof (hbl_shortcuts_agree (ram_byte demo_mem) demo_hbl (fun a _ => eq_refl) eq_refl
    ltac:(vm_compute; discriminate) ltac:(vm_compute; discriminate) ltac:(vm_compute; discriminate)) as E.
  split; [|vm_compute; reflexivity]. change (stopped (ik demo_hbl)) with 0 in E.
  change (vbr (k_ctl (ik demo_hbl))) with 0 in E. rewrite E. vm_compute. reflexivity.
Defined.

Lemma hbl_probe_bounds_witness :
  In 0x4000 (pistorm_hbl_handler_is_rte (ram_byte demo_mem) 0 0).1 /\ (0 <= 0x4000 < LOWLIM \/ 0xFFFFFFF4 <= 0x4000).
Proof.
  assert (Hin : In 0x4000 (pistorm_hbl_handler_is_rte (ram_byte demo_mem) 0 0).1) by (vm_compute; tauto).
  split; [exact Hin|]. apply (hbl_probe_bounds (ram_byte demo_mem) 0 0 0x4000); [intros b; apply u8_range|exact Hin].
Defined.

Lemma hbl_probe_overrun_witness :
  In 0xFFFFFFF4 (pistorm_hbl_handler_is_rte (ram_byte (put_long 0x68 0xFFFFFFF4 (∅ : gmap Z Z))) 0 0).1.
Proof.
  apply (hbl_probe_overrun (ram_byte (put_long 0x68 0xFFFFFFF4 (∅ : gmap Z Z))) 0 0xFFFFFFF4);
    [vm_compute; discriminate|lia|reflexivity|vm_compute; reflexivity].
Defined.

(** A real handler (clr.w $1234.w; rte) replaces the bare RTE. *)
Definition new_handler : gmap Z Z := put_long 0x4000 0x42781234 (put_word 0x4004 0x4e73 demo_mem).

Lemma hbl_verdict_stale_witness :
  k_word 0x4000 (with_mem new_handler demo_hbl) = 0x4278 /\
  (hbl_suppress (with_mem new_handler (hbl_suppress demo_hbl).2)).1 = false.
Proof.
  split; [vm_compute; reflexivity|].
  apply (hbl_verdict_stale demo_hbl new_handler); try (vm_compute; (reflexivity || discriminate)).
Defined.
