(* ===== verification/DiskOrder.v ===== *)
(** * DiskOrder: byte order of hard-disk images ([platforms/atari/disk_order.c])

    Some images are stored with the two bytes of every word exchanged.
    [disk_order_detect] scores sector 0 both ways round; [disk_order_resolve]
    applies the configured override. *)

From S2P Require Import Prelude StRam.
From Stdlib Require Import ZArith Lia Bool List String Ascii.
From stdpp Require Import base list numbers.
Open Scope Z_scope.
Open Scope cint_scope.

Definition DISK_ORDER_AUTO := 0.
Definition DISK_ORDER_NATIVE := 1.
Definition DISK_ORDER_SWAPPED := 2.
Definition DISK_ORDER_BOOTSWAP := 3.

Fixpoint disk_swap512 (b : list Z) : list Z :=
  match b with
  | x :: y :: b => y :: x :: disk_swap512 b
  | b => b
  end.

(** ** [disk_order_parse_mode] *)
Definition lower_ascii (c : ascii) : ascii :=
  let n := nat_of_ascii c in if Nat.leb 65 n && Nat.leb n 90 then ascii_of_nat (n + 32) else c.

(** [strncasecmp (s, p, strlen (p)) == 0]. *)
Fixpoint has_prefix_ci (p s : string) : bool :=
  match p, s with
  | EmptyString, _ => true
  | String a p, String b s => Ascii.eqb (lower_ascii a) (lower_ascii b) && has_prefix_ci p s
  | _, _ => false
  end.

Fixpoint skip_blanks (s : string) : string :=
  match s with
  | String c s' => if Ascii.eqb c " " || Ascii.eqb c "009" then skip_blanks s' else s
  | EmptyString => s
  end.

Definition disk_order_parse_mode (s : string) : Z :=
  let s := skip_blanks s in
  if has_prefix_ci "auto" s then DISK_ORDER_AUTO
  else if has_prefix_ci "native" s then DISK_ORDER_NATIVE
  else if has_prefix_ci "swapped" s then DISK_ORDER_SWAPPED
  else if has_prefix_ci "bootswap" s then DISK_ORDER_BOOTSWAP
  else -1.

Definition disk_order_mode_name (m : Z) : string :=
  if m =? DISK_ORDER_NATIVE then "native" else if m =? DISK_ORDER_SWAPPED then "swapped"
  else if m =? DISK_ORDER_BOOTSWAP then "bootswap" else "auto".

(** The configured overrides, for eight slots and eight IDs. *)
Record order_cfg := mk_order { hdd_mode : list Z; acsi_mode : list Z }.
Definition slot (s : Z) : bool := (0 <=? s) && (s <? 8).
Definition disk_order_set_hdd (s m : Z) (c : order_cfg) : order_cfg :=
  if slot s then {| c with hdd_mode := <[Z.to_nat s := m]> (hdd_mode c) |} else c.
Definition disk_order_set_acsi (s m : Z) (c : order_cfg) : order_cfg :=
  if slot s then {| c with acsi_mode := <[Z.to_nat s := m]> (acsi_mode c) |} else c.
Definition disk_order_get_hdd (s : Z) (c : order_cfg) : Z := if slot s then hdd_mode c !!! Z.to_nat s else 0.
Definition disk_order_get_acsi (s : Z) (c : order_cfg) : Z := if slot s then acsi_mode c !!! Z.to_nat s else 0.

(** ** [score]: how much sector 0 looks like a boot sector *)
Definition chars (s : string) : list Z := map (fun c => Z.of_nat (nat_of_ascii c)) (list_ascii_of_string s).
Definition ahdi_ids : list (list Z) :=
  map chars ["GEM"; "BGM"; "XGM"; "RAW"; "LNX"; "MIX"; "BSD"; "UNX"; "F32"; "MAC"; "SWP"; "QWA"]%string.
Definition dos_types : list Z := [0x01; 0x04; 0x06; 0x0B; 0x0C; 0x0E; 0x82; 0x83; 0xA3].

Section Score.
Context (s : list Z).
Definition at_ (i : nat) : Z := s !!! i.

Definition ahdi_entry (i : nat) : bool :=
  let e := (0x1C6 + 12 * i)%nat in
  truth (at_ e .& 1) &&
  existsb (fun id => bool_decide ([at_ (e + 1); at_ (e + 2); at_ (e + 3)] = id)) ahdi_ids.
Definition dos_entry (i : nat) : bool :=
  let e := (0x1BE + 16 * i)%nat in
  ((at_ e =? 0x00) || (at_ e =? 0x80)) && existsb (Z.eqb (at_ (e + 4))) dos_types.

Definition count (f : nat -> bool) : Z := Z.of_nat (length (filter (fun i => f i = true) (seq 0 4))).
Definition mbr_sig : bool := (at_ 510 =? 0x55) && (at_ 511 =? 0xAA).
Definition fat_bpb : bool :=
  let bps := at_ 11 .| (at_ 12 << 8) in
  let spc := at_ 13 in
  existsb (Z.eqb bps) [512; 1024; 2048; 4096; 8192; 16384] && truth spc && negb (truth (spc .& (spc - 1))).
Definition bra_s : bool := (at_ 0 =? 0x60) && truth (at_ 1) && negb (truth (at_ 1 .& 1)).

Definition score : Z :=
  (if mbr_sig then 3 else 0) + 2 * count ahdi_entry + (if mbr_sig then count dos_entry else 0)
  + (if fat_bpb then 1 else 0) + (if bra_s then 1 else 0).
End Score.

Definition disk_order_detect (img : list Z) : Z :=
  let raw := pread img 0 512 in
  if Z.of_nat (length raw) =? 512 then
    let sw := disk_swap512 raw in
    let a := score raw in
    let b := score sw in
    if (3 <=? b) && (a <? b) then 1
    else if (3 <=? a) && (b <? a) then if bra_s sw && negb (bra_s raw) then 2 else 0
    else -1
  else -1.

Definition disk_order_resolve (img : list Z) (mode : Z) : Z :=
  if mode != DISK_ORDER_AUTO then
    if mode =? DISK_ORDER_SWAPPED then 1 else if mode =? DISK_ORDER_BOOTSWAP then 2 else 0
  else let r := disk_order_detect img in if r <? 0 then 0 else r.

(** ** Lemmas *)
Lemma pairs_ind (P : list Z -> Prop) :
  P [] -> (forall x, P [x]) -> (forall x y l, P l -> P (x :: y :: l)) -> forall l, P l.
Proof.
  intros H0 H1 H2. fix IH 1. intros [|x [|y l]]; [exact H0|apply H1|apply H2, IH].
Qed.

Lemma swap_involutive b : disk_swap512 (disk_swap512 b) = b.
Proof. induction b using pairs_ind; cbn; congruence. Qed.

Lemma swap_length b : length (disk_swap512 b) = length b.
Proof. induction b using pairs_ind; cbn; congruence. Qed.

Lemma swap_app b1 b2 : Nat.even (length b1) = true ->
  disk_swap512 (b1 ++ b2) = disk_swap512 b1 ++ disk_swap512 b2.
Proof. induction b1 using pairs_ind; cbn; [done|done|]. intros. by rewrite IHb1. Qed.

Lemma swap_take n b : Nat.even n = true -> take n (disk_swap512 b) = disk_swap512 (take n b).
Proof.
  revert n. induction b using pairs_ind; intros n Hn; [by destruct n|destruct n as [|[|n]]; done|].
  destruct n as [|[|n]]; cbn; [done|done|]. by rewrite IHb.
Qed.

Lemma swap_drop n b : Nat.even n = true -> drop n (disk_swap512 b) = disk_swap512 (drop n b).
Proof.
  revert n. induction b using pairs_ind; intros n Hn; [by destruct n|destruct n as [|[|n]]; done|].
  destruct n as [|[|n]]; cbn; [done|done|]. by rewrite IHb.
Qed.

Lemma even_to_nat n : Z.even n = true -> 0 <= n -> Nat.even (Z.to_nat n) = true.
Proof. intros [k ->]%Z.even_spec ?. apply Nat.even_spec. exists (Z.to_nat k). lia. Qed.

(** A sector of a swapped file is the swapped sector. *)
Lemma swap_pread img off n : Z.even off = true -> Z.even n = true -> 0 <= off -> 0 <= n ->
  pread (disk_swap512 img) off n = disk_swap512 (pread img off n).
Proof. intros. unfold pread. by rewrite swap_drop, swap_take by (by apply even_to_nat). Qed.

(** What the detection says of the same disk stored the other way round. *)
Definition other_order (r : Z) (r' : Z) : Prop :=
  match r with
  | 1 => r' = 0 \/ r' = 2
  | -1 => r' = -1
  | _ => r' = 1
  end.

(** Detection does not favour a byte order: an image and the same image
    with every word swapped are judged symmetrically (swapped against
    native, undecided against undecided), so that reading either through
    its verdict gives the same bytes. *)
Theorem detect_symmetric img : other_order (disk_order_detect img) (disk_order_detect (disk_swap512 img)).
Proof.
  unfold disk_order_detect. rewrite swap_pread by done. rewrite swap_length, swap_involutive.
  set (raw := pread img 0 512). destruct (Z.of_nat (length raw) =? 512); [|done].
  generalize (score raw) (score (disk_swap512 raw)). intros a b.
  destruct (Z.leb_spec 3 b), (Z.ltb_spec a b), (Z.leb_spec 3 a), (Z.ltb_spec b a); cbn [andb]; try lia; try done.
  - destruct (_ && _); cbn; auto.
  - destruct (_ && _); cbn; auto.
  - destruct (_ && _); done.
  - destruct (_ && _); done.
Qed.
