(* ===== verification/Acsi.v ===== *)
(** * Acsi: emulated ACSI hard disks ([platforms/atari/fdd/acsi.c])

    Image files as targets on the DMA port: attaching, sector access (bare HFS
    volumes get a synthesized root sector, byte-swapped files are presented
    unswapped), the DMA chip's FIFO, every command, and the handshake that
    collects a command byte by byte.  Log lines are left out. *)

From S2P Require Import Prelude StRam DiskOrder.
From Stdlib Require Import ZArith Lia Bool List String Ascii.
From stdpp Require Import base list numbers.
Open Scope Z_scope.
Open Scope cint_scope.

Definition ACSI_MAX_TARGETS := 8.
Definition SENSE_NONE := 0x00.
Definition SENSE_INVALID_OP := 0x20.
Definition SENSE_INVALID_LBA := 0x21.
Definition SENSE_INVALID_CDB := 0x24.
Definition SENSE_INVALID_LUN := 0x25.

(** [acsi_target_t]; the descriptor is the contents of the file. *)
Record target := mk_target {
  t_fd : option (list Z); hfs : bool; total_lba : Z; root : list Z;
  sense : Z; sense_lba : Z; probed : bool; swapped : bool }.

Inductive acsi_phase_t := PH_IDLE | PH_CDB | PH_STATUS.
#[export] Instance acsi_phase_dec : EqDecision acsi_phase_t.
Proof. solve_decision. Defined.

(** The file-scope variables; [dma_fifo] is the part of the FIFO in use. *)
Record acsi := mk_acsi {
  tgt : list target; n_targets : Z;
  phase : acsi_phase_t; cur_id : Z;
  cdb : list Z; cdb_len : Z; cdb_got : Z; icd : bool;
  status_byte : Z; a_irq : bool; owns : bool; status_valid : bool; residual : Z;
  dma_fifo : list Z }.

Definition no_target : target := mk_target None false 0 (replicate 512 0) 0 0 false false.
Definition acsi0 : acsi :=
  mk_acsi (replicate 8 no_target) 0 PH_IDLE (-1) (replicate 16 0) 0 0 false 0 false false false 0 [].
#[export] Instance target_inhabited : Inhabited target := populate no_target.

Definition acsi_enabled (a : acsi) : bool := 0 <? n_targets a.
Definition acsi_owns_dma (a : acsi) : bool := owns a.
Definition acsi_irq_active (a : acsi) : bool := a_irq a.
Definition acsi_residual_count (a : acsi) : Z := residual a.
Definition acsi_release (a : acsi) : acsi := {| a with owns := false; a_irq := false; phase := PH_IDLE |}.
Definition acsi_dma_fifo_reset (a : acsi) : acsi := {| a with dma_fifo := [] |}.

(** ** Images *)
Definition be4 (v : Z) : list Z := [u8 (v >> 24); u8 (v >> 16); u8 (v >> 8); u8 v].

(** An AHDI root sector with one MAC partition that starts at sector 1. *)
Definition synth_root (hfs_sectors : Z) : list Z :=
  replicate 0x1C2 0 ++ be4 (u32 (hfs_sectors + 1)) ++ [0x01] ++ chars "MAC" ++ [0; 0; 0; 1]
  ++ be4 hfs_sectors ++ replicate (512 - 0x1D2) 0.

(** [strrchr (path, '.')]. *)
Fixpoint last_dot (s : string) : option string :=
  match s with
  | EmptyString => None
  | String c s' => match last_dot s' with
                   | Some d => Some d
                   | None => if Ascii.eqb c "." then Some s else None
                   end
  end.
Definition is_hfs_path (path : string) : bool :=
  match last_dot path with
  | Some d => Nat.eqb (String.length d) 4 && has_prefix_ci ".hfs" d
  | None => false
  end.

Fixpoint first_free (l : list target) (i : Z) : Z :=
  match l with
  | [] => i
  | t :: l => match t_fd t with Some _ => first_free l (i + 1) | None => i end
  end.

Section Attach.
Context (open_rw : string -> option (list Z)) (disk_order_get_acsi : Z -> Z).

Definition new_target (id : Z) (path : string) (img : list Z) (t : target) : target :=
  let file_sectors := u32 (Z.of_nat (length img) / 512) in
  let t := {| t with hfs := is_hfs_path path; swapped := false; t_fd := Some img; sense := 0 |} in
  if hfs t then {| t with total_lba := u32 (file_sectors + 1); root := synth_root file_sectors |}
  else {| t with total_lba := file_sectors;
          swapped := disk_order_resolve img (disk_order_get_acsi id) =? 1 |}.

Definition acsi_attach_at (id : Z) (path : string) (a : acsi) : Z * acsi :=
  let id := if id <? 0 then first_free (tgt a) 0 else id in
  if ACSI_MAX_TARGETS <=? id then (-1, a)
  else
    let t := tgt a !!! Z.to_nat id in
    match t_fd t, open_rw path with
    | Some _, _ => (-1, a)
    | None, None => (-1, a)
    | None, Some img =>
      if Z.of_nat (length img) <? 512 then (-1, a)
      else (id, {| a with tgt := <[Z.to_nat id := new_target id path img t]> (tgt a);
                          n_targets := n_targets a + 1 |})
    end.

Definition blank (c : ascii) : bool := Ascii.eqb c " " || Ascii.eqb c "009".

Definition acsi_attach (path : string) (a : acsi) : Z * acsi :=
  match path with
  | String c0 (String c1 rest) =>
    let n := Z.of_nat (nat_of_ascii c0) - 48 in
    if (0 <=? n) && (n <=? 7) && (Ascii.eqb c1 ":" || blank c1)
    then acsi_attach_at n (skip_blanks rest) a
    else acsi_attach_at (-1) path a
  | _ => acsi_attach_at (-1) path a
  end.
End Attach.

Definition read_lba (t : target) (lba : Z) : option (list Z) :=
  match t_fd t with
  | None => None
  | Some img =>
    if hfs t then
      if lba =? 0 then Some (root t)
      else let b := pread img ((lba - 1) * 512) 512 in
           if Nat.eqb (length b) 512 then Some b else None
    else
      let b := pread img (lba * 512) 512 in
      if Nat.eqb (length b) 512 then Some (if swapped t then disk_swap512 b else b) else None
  end.

(** ** The port: targets and DMA chip *)
Record port (H : Type) := mk_port { ac : acsi; dc : chip H }.
Arguments mk_port {H}. Arguments ac {H}. Arguments dc {H}.

Section Acsi.
Context {H : Type} `{DmaHw H}.
Implicit Types (p : port H).

Definition on_ac (f : acsi -> acsi) p : port H := {| p with ac := f (ac p) |}.
Definition on_dc (f : chip H -> chip H) p : port H := {| p with dc := f (dc p) |}.
Definition cur_tgt (a : acsi) : target := tgt a !!! Z.to_nat (cur_id a).
Definition set_cur (t : target) (a : acsi) : acsi := {| a with tgt := <[Z.to_nat (cur_id a) := t]> (tgt a) |}.
Definition set_residual (n : Z) : port H -> port H := on_ac (fun a => {| a with residual := n |}).

Definition write_lba (lba : Z) (buf : list Z) p : bool * port H :=
  let t := cur_tgt (ac p) in
  match t_fd t with
  | None => (false, p)
  | Some img =>
    let put off l :=
      let '(n, img, c) := pwrite (2 + cur_id (ac p)) img off l (dc p) in
      (n =? 512, mk_port (set_cur {| t with t_fd := Some img |} (ac p)) c) in
    if hfs t then if lba =? 0 then (true, p) else put ((lba - 1) * 512) buf
    else put (lba * 512) (if swapped t then disk_swap512 buf else buf)
  end.

(** ** Completion *)
Definition finish (st sn lba : Z) p : port H :=
  let a := ac p in
  let a := set_cur {| (cur_tgt a) with sense := sn; sense_lba := lba |} a in
  mk_port {| a with status_byte := st; phase := PH_STATUS; status_valid := true; a_irq := true |}
          (fdd_dma_note_ok (residual a =? 0) (dc p)).
Definition finish_good p : port H := finish 0x00 SENSE_NONE 0 p.
Definition finish_check (sn lba : Z) p : port H := finish 0x02 sn lba p.
Definition done_good p : port H := finish_good (set_residual 0 p).

(** ** Data *)
Definition burst (buf : list Z) p : port H :=
  on_dc (fun c => fdd_dma_base_advance (Z.of_nat (length buf)) (dma_copy_to_ram (dma_addr c) buf c)) p.
Definition set_fifo (l : list Z) : port H -> port H := on_ac (fun a => {| a with dma_fifo := l |}).

(** Device to RAM, in bursts of sixteen bytes; one round per burst or byte. *)
Fixpoint dma_out_loop (fuel : nat) (buf : list Z) p : port H :=
  match fuel, buf with
  | S fuel, b :: rest =>
    if (Nat.eqb (length (dma_fifo (ac p))) 0) && Nat.leb 16 (length buf) then
      let n := Z.to_nat (Z.of_nat (length buf) .& Z.lnot 15) in
      dma_out_loop fuel (drop n buf) (burst (take n buf) p)
    else
      let f := dma_fifo (ac p) ++ [b] in
      dma_out_loop fuel rest
        (if Nat.eqb (length f) 16 then set_fifo [] (burst f p) else set_fifo f p)
  | _, _ => p
  end.
Definition dma_out (buf : list Z) p : port H := dma_out_loop (length buf) buf p.

(** RAM to device; [buf] is what the buffer held before. *)
Definition dma_in (buf : list Z) p : list Z * port H :=
  if Nat.eqb (length buf) 0 then (buf, p)
  else (dma_copy_from_ram (dma_addr (dc p)) buf (dc p),
        on_dc (fdd_dma_base_advance (Z.of_nat (length buf))) p).

(** ** Commands *)
Fixpoint read_blocks (n : nat) (lba : Z) p : port H :=
  match n with
  | O => done_good p
  | S n' =>
    match read_lba (cur_tgt (ac p)) lba with
    | None => finish_check SENSE_INVALID_LBA lba (set_residual (u16 (Z.of_nat n)) p)
    | Some buf => read_blocks n' (u32 (lba + 1)) (dma_out buf p)
    end
  end.

Definition bad_range (t : target) (lba blocks : Z) : bool :=
  (total_lba t <? u32 (lba + blocks)) || (u32 (lba + blocks) <? lba).

Definition exec_read (lba blocks : Z) p : port H :=
  if bad_range (cur_tgt (ac p)) lba blocks then finish_check SENSE_INVALID_LBA lba p
  else read_blocks (Z.to_nat blocks) lba p.

Fixpoint write_blocks (n : nat) (lba : Z) (buf : list Z) p : port H :=
  match n with
  | O => done_good p
  | S n' =>
    let '(buf, p) := dma_in buf p in
    let '(ok, p) := write_lba lba buf p in
    if ok then write_blocks n' (u32 (lba + 1)) buf p
    else finish_check SENSE_INVALID_LBA lba (set_residual (u16 (Z.of_nat n)) p)
  end.

Definition exec_write (lba blocks : Z) p : port H :=
  if bad_range (cur_tgt (ac p)) lba blocks then finish_check SENSE_INVALID_LBA lba p
  else write_blocks (Z.to_nat blocks) lba (fresh_bytes 512 (hw (dc p))) p.

Definition inquiry_data (t : target) (pdt : Z) : list Z :=
  [pdt; 0x00; 0x02; 0x02; 31; 0; 0; 0] ++ chars "PiStorm "
  ++ chars (if hfs t then "ACSI HFS DISK   " else "ACSI DISK       ") ++ chars "1.0 " ++ replicate 12 0.
Definition exec_inquiry (alloc pdt : Z) p : port H :=
  done_good (dma_out (take (Z.to_nat (Z.min alloc 48)) (inquiry_data (cur_tgt (ac p)) pdt)) p).

Definition sense_data (t : target) : list Z :=
  [sense t; u8 ((sense_lba t >> 16) .& 0x1F); u8 (sense_lba t >> 8); u8 (sense_lba t)] ++ replicate 12 0.
Definition clear_sense : port H -> port H :=
  on_ac (fun a => set_cur {| (cur_tgt a) with sense := SENSE_NONE |} a).
Definition exec_request_sense (alloc : Z) p : port H :=
  let alloc := Z.min (Z.max alloc 4) 16 in
  done_good (clear_sense (dma_out (take (Z.to_nat alloc) (sense_data (cur_tgt (ac p)))) p)).

(** Pages 0 (header and block descriptor) and 4 (geometry). *)
Definition mode_page (blocks page : Z) : option (list Z) :=
  if page =? 0x00 then
    Some [0; 0; 0; 8; 0; u8 (blocks >> 16); u8 (blocks >> 8); u8 blocks; 0; 0; 2; 0]
  else if page =? 0x04 then
    let cyl := blocks / (16 * 32) in
    let cyl := if cyl =? 0 then 1 else cyl in
    Some ([22; 0; 0; 0; 0x04; 0x12; u8 (cyl >> 16); u8 (cyl >> 8); u8 cyl; 16] ++ replicate 14 0)
  else None.
Definition exec_mode_sense (page alloc : Z) p : port H :=
  match mode_page (total_lba (cur_tgt (ac p))) page with
  | None => finish_check SENSE_INVALID_CDB 0 p
  | Some d =>
    let n := Z.of_nat (length d) in
    let n := if truth alloc && (alloc <? n) then alloc else n in
    done_good (dma_out (take (Z.to_nat n) d) p)
  end.

Definition exec_mode_select (n : Z) p : port H :=
  done_good (dma_in (fresh_bytes n (hw (dc p))) p).2.

Definition capacity_data (t : target) : list Z := be4 (u32 (total_lba t - 1)) ++ [0; 0; 2; 0].
Definition luns_data : list Z := [0; 0; 0; 8] ++ replicate 12 0.

(** The command in [cdb]; [c i] is its byte [i] behind an ICD escape. *)
Definition c_byte (a : acsi) (i : nat) : Z := cdb a !!! (if icd a then S i else i).
Definition set_probed : port H -> port H :=
  on_ac (fun a => set_cur {| (cur_tgt a) with probed := true |} a).

Definition exec_op (op : Z) (c : nat -> Z) (ic : bool) p : port H :=
  let t := cur_tgt (ac p) in
  let lba6 := ((c 1%nat .& 0x1F) << 16) .| (c 2%nat << 8) .| c 3%nat in
  let len6 := if truth (c 4%nat) then c 4%nat else 256 in
  let or_else d := if truth (c 4%nat) then c 4%nat else d in
  match op with
  | 0x00 | 0x01 | 0x04 => done_good p
  | 0x03 => exec_request_sense (or_else 4) p
  | 0x08 => exec_read lba6 len6 p
  | 0x0A => exec_write lba6 len6 p
  | 0x0B => if lba6 <? total_lba t then done_good p else finish_check SENSE_INVALID_LBA lba6 p
  | 0x12 => exec_inquiry (or_else 5) 0x00 p
  | 0x15 => exec_mode_select (c 4%nat) p
  | 0x1A => exec_mode_sense (c 2%nat .& 0x3F) (c 4%nat) p
  | 0x25 => if ic then done_good (dma_out (capacity_data t) p) else finish_check SENSE_INVALID_OP 0 p
  | 0xA0 =>
    if negb ic then finish_check SENSE_INVALID_OP 0 p
    else
      let alloc := (c 6%nat << 24) .| (c 7%nat << 16) .| (c 8%nat << 8) .| c 9%nat in
      done_good (dma_out (take (Z.to_nat (Z.min alloc 16)) luns_data) p)
  | 0x28 | 0x2A =>
    if negb ic then finish_check SENSE_INVALID_OP 0 p
    else
      let lba10 := (c 2%nat << 24) .| (c 3%nat << 16) .| (c 4%nat << 8) .| c 5%nat in
      let len10 := (c 7%nat << 8) .| c 8%nat in
      if op =? 0x28 then exec_read lba10 len10 p else exec_write lba10 len10 p
  | _ => finish_check SENSE_INVALID_OP 0 p
  end.

Definition exec_command p : port H :=
  let a := ac p in
  let c := c_byte a in
  let op := if icd a then c 0%nat else c 0%nat .& 0x1F in
  let lun := c 1%nat >> 5 in
  let p := set_probed p in
  if negb (icd a) && truth lun then
    if op =? 0x12 then exec_inquiry (if truth (c 4%nat) then c 4%nat else 5) 0x7F p
    else finish_check SENSE_INVALID_LUN 0 p
  else exec_op op c (icd a) p.

(** ** The handshake *)
Definition icd_cdb_len (scsi_op : Z) : Z :=
  match scsi_op >> 5 with
  | 0 => 1 + 6
  | 1 | 2 => 1 + 10
  | 5 => 1 + 12
  | _ => 1 + 6
  end.

Definition push_cdb (v : Z) (a : acsi) : acsi :=
  {| a with cdb := <[Z.to_nat (cdb_got a) := v]> (cdb a); cdb_got := cdb_got a + 1 |}.

Definition start_cdb (v : Z) (a : acsi) : acsi :=
  let ic := v .& 0x1F =? 0x1F in
  {| (push_cdb (v .& 0x1F) {| a with cdb_got := 0 |}) with
     cur_id := (v >> 5) .& 7; owns := true; phase := PH_CDB; status_valid := false; icd := ic;
     cdb_len := if ic then 2 else 6; residual := 0; a_irq := true |}.

Definition in_cdb (a : acsi) : bool :=
  owns a && bool_decide (phase a = PH_CDB) && (0 <? cdb_got a) && (cdb_got a <? cdb_len a).

Definition next_cdb (v : Z) (a : acsi) : acsi :=
  let a := push_cdb v a in
  if icd a && (cdb_got a =? 2) then {| a with cdb_len := icd_cdb_len v |} else a.

Definition set_irq (b : bool) (a : acsi) : acsi := {| a with a_irq := b |}.

(** [true]: an emulated target consumed the byte. *)
Definition acsi_cmd_byte (v : Z) (first_byte : bool) p : bool * port H :=
  let a := ac p in
  if negb (acsi_enabled a) then (false, p)
  else if first_byte && negb (in_cdb a) then
    match t_fd (tgt a !!! Z.to_nat ((v >> 5) .& 7)) with
    | None => (false, on_ac acsi_release p)
    | Some _ => (true, on_ac (start_cdb v) p)
    end
  else if negb (owns a) || negb (bool_decide (phase a = PH_CDB)) then (false, p)
  else
    let p := on_ac (next_cdb v) p in
    if cdb_got (ac p) <? cdb_len (ac p) then (true, on_ac (set_irq true) p)
    else (true, exec_command (on_ac (set_irq false) p)).

Definition acsi_status_read (a : acsi) : Z * acsi :=
  let a := set_irq false a in
  if negb (status_valid a) then
    let a := if (0 <=? cur_id a) && (cur_id a <? ACSI_MAX_TARGETS) then
               match t_fd (cur_tgt a) with
               | Some _ => set_cur {| (cur_tgt a) with sense := SENSE_INVALID_CDB |} a
               | None => a
               end
             else a in
    (0x02, {| a with status_byte := 0x02; status_valid := true; phase := PH_IDLE |})
  else (status_byte a, if bool_decide (phase a = PH_STATUS) then {| a with phase := PH_IDLE |} else a).
End Acsi.
