(* ===== verification/AcsiProps.v ===== *)
(** * AcsiProps: the ACSI targets keep their protocol and their data *)

From S2P Require Import Prelude StRam DiskOrder Acsi.
From Stdlib Require Import ZArith Lia Bool List.
From stdpp Require Import base list numbers.
Open Scope Z_scope.
Open Scope cint_scope.

Section AcsiProps.
Context {H : Type} `{DmaHw H}.
Implicit Types (p : port H).

(** ** The FIFO *)

(** The bytes that leave a stream of [n] in whole bursts. *)
Definition bursts (n : nat) : nat := (16 * (n / 16))%nat.

Lemma bursts_le n : (bursts n <= n)%nat.
Proof. unfold bursts. pose proof (Nat.div_mod_eq n 16). lia. Qed.
Lemma bursts_rest n : (n - bursts n < 16)%nat.
Proof. unfold bursts. pose proof (Nat.div_mod_eq n 16). pose proof (Nat.mod_upper_bound n 16). lia. Qed.
Lemma bursts_small n : (n < 16)%nat -> bursts n = O.
Proof. intros. unfold bursts. rewrite Nat.div_small by lia. lia. Qed.
Lemma bursts_add n : bursts (16 + n) = (16 + bursts n)%nat.
Proof. unfold bursts. replace (16 + n)%nat with (1 * 16 + n)%nat by lia. rewrite Nat.div_add_l by lia. lia. Qed.

Lemma burst_count (buf : list Z) : Z.to_nat (Z.of_nat (length buf) .& Z.lnot 15) = bursts (length buf).
Proof.
  unfold bursts. change 15 with (Z.ones 4). rewrite <- Z.ldiff_land, Z.ldiff_ones_r by lia.
  rewrite Z.shiftl_mul_pow2, Z.shiftr_div_pow2 by lia. change (2 ^ 4) with 16.
  rewrite <- (Nat2Z.id (16 * _)). f_equal. rewrite Nat2Z.inj_mul, Nat2Z.inj_div. lia.
Qed.

Definition sent (p : port H) (buf : list Z) : list Z :=
  let l := dma_fifo (ac p) ++ buf in take (bursts (length l)) l.
Definition held (p : port H) (buf : list Z) : list Z :=
  let l := dma_fifo (ac p) ++ buf in drop (bursts (length l)) l.

Lemma dma_out_loop_ac fuel : forall buf p, (length buf <= fuel)%nat -> (length (dma_fifo (ac p)) < 16)%nat ->
  ac (dma_out_loop fuel buf p) = {| (ac p) with dma_fifo := held p buf |}.
Proof.
  induction fuel as [|fuel IH]; intros buf p Hf Hs.
  - destruct buf; [|cbn in Hf; lia]. unfold held. cbn [dma_out_loop].
    rewrite app_nil_r, bursts_small by done. by destruct (ac p).
  - destruct buf as [|b rest]; cbn [dma_out_loop].
    { unfold held. rewrite app_nil_r, bursts_small by done. by destruct (ac p). }
    destruct (Nat.eqb_spec (length (dma_fifo (ac p))) 0) as [E|E]; cbn [andb].
    + apply nil_length_inv in E.
      destruct (Nat.leb_spec 16 (length (b :: rest))) as [L|L].
      * rewrite burst_count. pose proof (bursts_le (length (b :: rest))).
        assert (16 <= bursts (length (b :: rest)))%nat.
        { replace (length (b :: rest)) with (16 + (length (b :: rest) - 16))%nat by lia. rewrite bursts_add. lia. }
        rewrite IH; [|rewrite length_drop; cbn in *; lia|cbn; rewrite E; cbn; lia].
        unfold held. cbn [burst on_dc ac]. rewrite E. cbn [app].
        rewrite (bursts_small (length (drop _ _))) by (rewrite length_drop; apply bursts_rest). done.
      * rewrite E. cbn [app length Nat.eqb]. rewrite IH by (cbn in *; lia).
        unfold held. cbn. by rewrite E.
    + rewrite length_app. cbn [length]. destruct (Nat.eqb_spec (length (dma_fifo (ac p)) + 1) 16) as [L|L].
      * rewrite IH by (cbn in *; lia). unfold held. cbn [set_fifo on_ac ac dma_fifo app].
        rewrite length_app. cbn [length burst on_dc ac].
        replace (length (dma_fifo (ac p)) + S (length rest))%nat with (16 + length rest)%nat by lia.
        rewrite bursts_add. f_equal. rewrite (cons_middle b _ rest), app_assoc.
        rewrite drop_app_ge by (rewrite length_app; cbn; lia). rewrite length_app. cbn [length].
        f_equal. lia.
      * rewrite IH by (rewrite ?length_app; cbn in *; rewrite ?length_app; cbn; lia).
        unfold held. cbn. by rewrite <- app_assoc.
Qed.

(** Whole bursts in front, less than a burst kept. *)
Lemma dma_out_ac buf p : (length (dma_fifo (ac p)) < 16)%nat ->
  ac (dma_out buf p) = {| (ac p) with dma_fifo := held p buf |}.
Proof. intros. unfold dma_out. by apply dma_out_loop_ac. Qed.

Lemma held_short p buf : (length (held p buf) < 16)%nat.
Proof. unfold held. cbn zeta. rewrite length_drop. apply bursts_rest. Qed.

(** *** What reaches memory *)
Definition addr_of p : Z := dma_addr (dc p).
Definition mir p : Z -> Z := mirror (ram (dc p)).
Definition top_of p : Z := stram_top (ram (dc p)).

(** The window of [n] bytes at the counter lies in ST-RAM (at most 16 MB). *)
Definition window p (n : Z) : Prop := 0 <= addr_of p /\ addr_of p + n <= top_of p /\ top_of p <= 0x1000000.

Record stored p (l : list Z) p' : Prop := mk_stored {
  st_addr : addr_of p' = addr_of p + Z.of_nat (length l);
  st_top : top_of p' = top_of p;
  st_mir : forall x, mir p' x = block_put (mir p) (addr_of p) l x }.

Lemma stored_nil p p' : addr_of p' = addr_of p -> top_of p' = top_of p -> mir p' = mir p -> stored p [] p'.
Proof. intros E1 E2 E3. split; [cbn; lia|done|]. intros. by rewrite block_put_nil, E3. Qed.

Lemma stored_app p q r l1 l2 : stored p l1 q -> stored q l2 r -> stored p (l1 ++ l2) r.
Proof.
  intros [A1 T1 M1] [A2 T2 M2]. split; [rewrite length_app; lia|congruence|].
  intros x. rewrite M2, A1, <- block_put_app. unfold block_put at 1 3. by rewrite M1.
Qed.

Lemma burst_stored l p : window p (Z.of_nat (length l)) -> l <> [] -> stored p l (burst l p).
Proof.
  intros (B0 & B1 & B2) Hl. unfold burst, on_dc, addr_of, mir, top_of in *. cbn.
  destruct (to_stram_in (dma_addr (dc p)) l (ram (dc p)) B0 B1 Hl) as [E1 E2].
  split; unfold addr_of, mir, top_of; cbn; [|done|by rewrite E1].
  rewrite u32_small; [done|]. unfold is_u32. lia.
Qed.

Lemma window_stored p l p' n : stored p l p' -> 0 <= n -> window p (Z.of_nat (length l) + n) -> window p' n.
Proof. intros [A T _] ? (B0 & B1 & B2). unfold window. rewrite A, T. lia. Qed.

Lemma window_le p n m : n <= m -> window p m -> window p n.
Proof. unfold window. lia. Qed.

Lemma dma_out_loop_stored fuel : forall buf p, (length buf <= fuel)%nat -> (length (dma_fifo (ac p)) < 16)%nat ->
  window p (Z.of_nat (length (sent p buf))) -> stored p (sent p buf) (dma_out_loop fuel buf p).
Proof.
  induction fuel as [|fuel IH]; intros buf p Hf Hs Hw.
  - destruct buf; [|cbn in Hf; lia]. unfold sent. rewrite app_nil_r, bursts_small by done. by apply stored_nil.
  - destruct buf as [|b rest]; cbn [dma_out_loop].
    { unfold sent. rewrite app_nil_r, bursts_small by done. by apply stored_nil. }
    destruct (Nat.eqb_spec (length (dma_fifo (ac p))) 0) as [E|E]; cbn [andb].
    + apply nil_length_inv in E.
      destruct (Nat.leb_spec 16 (length (b :: rest))) as [L|L].
      * rewrite burst_count. pose proof (bursts_le (length (b :: rest))) as Bl1.
        assert (16 <= bursts (length (b :: rest)))%nat as Bl2.
        { replace (length (b :: rest)) with (16 + (length (b :: rest) - 16))%nat by lia. rewrite bursts_add. lia. }
        set (n := bursts (length (b :: rest))) in *.
        assert (sent p (b :: rest) = take n (b :: rest)) as Es by (unfold sent; by rewrite E).
        rewrite Es in *. set (p1 := burst _ p).
        assert (stored p (take n (b :: rest)) p1) as St by (apply burst_stored; [done|destruct n; [lia|done]]).
        assert (sent p1 (drop n (b :: rest)) = []) as S1.
        { unfold sent, p1. cbn [burst on_dc ac]. rewrite E. cbn [app].
          by rewrite bursts_small by (rewrite length_drop; apply bursts_rest). }
        pose proof (IH (drop n (b :: rest)) p1) as IH'. rewrite S1 in IH'.
        rewrite <- (app_nil_r (take n (b :: rest))). eapply stored_app; [exact St|]. apply IH'.
        -- rewrite length_drop. cbn in *. lia.
        -- unfold p1. cbn. rewrite E. cbn. lia.
        -- eapply window_stored; [exact St|cbn; lia|]. cbn [length]. by rewrite Z.add_0_r.
      * rewrite E in *. cbn [app length Nat.eqb].
        replace (sent p (b :: rest)) with (sent (set_fifo [b] p) rest) in * by (unfold sent; cbn; by rewrite E).
        pose proof (IH rest (set_fifo [b] p)) as IH'. destruct IH' as [A T M]; cbn in *; [lia|lia|done|].
        by split.
    + set (f := dma_fifo (ac p) ++ [b]).
      assert (length f = S (length (dma_fifo (ac p)))) as Lf by (unfold f; rewrite length_app; cbn; lia).
      destruct (Nat.eqb_spec (length f) 16) as [L|L].
      * assert (sent p (b :: rest) = f ++ sent (set_fifo [] (burst f p)) rest) as Es.
        { unfold sent. cbn [set_fifo on_ac ac dma_fifo app burst on_dc].
          rewrite (cons_middle b _ rest), app_assoc. fold f. rewrite length_app, L.
          rewrite bursts_add, take_app_ge by lia. rewrite L. do 2 f_equal. lia. }
        rewrite Es in *. eapply stored_app; [apply burst_stored|].
        -- eapply window_le; [|exact Hw]. rewrite length_app. lia.
        -- intros ->. cbn in L. lia.
        -- set (p1 := set_fifo [] (burst f p)) in *.
           assert (stored p f p1) as S1.
           { destruct (burst_stored f p) as [A T M]; [|intros ->; cbn in L; lia|by split].
             eapply window_le; [|exact Hw]. rewrite length_app. lia. }
           destruct (IH rest p1) as [A T M]; [cbn in *; lia|cbn; lia| |by split].
           eapply window_stored; [exact S1|lia|]. eapply window_le; [|exact Hw]. rewrite length_app. lia.
      * assert (sent p (b :: rest) = sent (set_fifo f p) rest) as Es.
        { unfold sent, f. cbn. by rewrite <- app_assoc. }
        rewrite Es in *. destruct (IH rest (set_fifo f p)) as [A T M]; cbn in *; [lia|lia|done|]. by split.
Qed.

(** A device reply goes through the DMA chip's FIFO as a stream: with the
    bytes still held from before in front, whole bursts of sixteen are stored
    at the address counter, which advances by what was stored, and a tail of
    less than sixteen bytes stays in the FIFO. *)
Theorem dma_out_stream buf p :
  (length (dma_fifo (ac p)) < 16)%nat -> window p (Z.of_nat (length (sent p buf))) ->
  let p' := dma_out buf p in
  sent p buf ++ dma_fifo (ac p') = dma_fifo (ac p) ++ buf /\
  (length (dma_fifo (ac p')) < 16)%nat /\ (length (sent p buf) mod 16 = 0)%nat /\
  addr_of p' = addr_of p + Z.of_nat (length (sent p buf)) /\
  (forall x, mir p' x = block_put (mir p) (addr_of p) (sent p buf) x).
Proof.
  intros Hs Hw. cbv zeta. rewrite (dma_out_ac _ _ Hs). cbn [dma_fifo].
  destruct (dma_out_loop_stored (length buf) buf p) as [A _ M]; [done..|].
  split_and!; [|apply held_short| |exact A|exact M].
  - unfold sent, held. cbv zeta. apply take_drop.
  - unfold sent. cbv zeta. rewrite length_take, Nat.min_l by apply bursts_le.
    unfold bursts. rewrite Nat.mul_comm. apply Nat.Div0.mod_mul.
Qed.
End AcsiProps.
