(* ===== verification/AcsiProto.v ===== *)
(** * AcsiProto: the command handshake of the ACSI targets *)

From S2P Require Import Prelude StRam DiskOrder Acsi AcsiProps.
From Stdlib Require Import ZArith Lia Bool List String.
From stdpp Require Import base list numbers relations.
Open Scope Z_scope.
Open Scope cint_scope.

Record wf (a : acsi) : Prop := mk_wf {
  wf_tgt : length (tgt a) = 8%nat;
  wf_cdb : length (cdb a) = 16%nat;
  wf_id : -1 <= cur_id a < 8;
  wf_fifo : (length (dma_fifo a) < 16)%nat }.

(** A command is being collected: its target has an image, and the next byte
    has a place in [cdb]. *)
Record collecting (a : acsi) : Prop := mk_coll {
  co_id : 0 <= cur_id a;
  co_img : is_Some (t_fd (cur_tgt a));
  co_got : 0 < cdb_got a < cdb_len a;
  co_len : if icd a then (cdb_got a = 1 /\ cdb_len a = 2) \/ (2 <= cdb_got a /\ cdb_len a <= 13)
           else cdb_len a = 6;
  co_status : status_valid a = false }.

Definition acsi_inv (a : acsi) : Prop := wf a /\ (owns a = true -> phase a = PH_CDB -> collecting a).

(** A command has been executed and its status awaits the guest. *)
Record finished (a : acsi) : Prop := mk_fin {
  fin_wf : wf a; fin_phase : phase a = PH_STATUS; fin_irq : a_irq a = true; fin_valid : status_valid a = true }.

Lemma finished_inv a : finished a -> acsi_inv a.
Proof. intros [Hw Hp _ _]. split; [done|]. intros _. congruence. Qed.

Lemma acsi_eq (a b : acsi) :
  tgt a = tgt b -> n_targets a = n_targets b -> phase a = phase b -> cur_id a = cur_id b -> cdb a = cdb b ->
  cdb_len a = cdb_len b -> cdb_got a = cdb_got b -> icd a = icd b -> status_byte a = status_byte b ->
  a_irq a = a_irq b -> owns a = owns b -> status_valid a = status_valid b -> residual a = residual b ->
  dma_fifo a = dma_fifo b -> a = b.
Proof. destruct a, b. cbn. by intros; subst. Qed.

Create HintDb acsi.

Section Keep.
Context {H : Type} `{DmaHw H}.
Implicit Types (p : port H).

Lemma wf_set_cur t a : wf a -> wf (set_cur t a).
Proof. intros []. by split; cbn; rewrite ?length_insert. Qed.
Lemma wf_residual n p : wf (ac p) -> wf (ac (set_residual n p)).
Proof. intros []. by split. Qed.
Lemma wf_dma_out buf p : wf (ac p) -> wf (ac (dma_out buf p)).
Proof. intros []. rewrite dma_out_ac by done. split; cbn; try done. apply held_short. Qed.
Lemma wf_dma_in buf p : wf (ac p) -> wf (ac (dma_in buf p).2).
Proof. unfold dma_in. by case_match. Qed.
Lemma wf_write_lba lba buf p : wf (ac p) -> wf (ac (write_lba lba buf p).2).
Proof.
  intros Hw. unfold write_lba. destruct (t_fd _) as [img|]; [|done].
  assert (forall off l, wf (ac (let '(n, img, c) := pwrite (2 + cur_id (ac p)) img off l (dc p) in
    (n =? 512, mk_port (set_cur {| (cur_tgt (ac p)) with t_fd := Some img |} (ac p)) c)).2)) as Hp.
  { intros. destruct (pwrite _ _ _ _ _) as [[n i] c]. cbn. by apply wf_set_cur. }
  destruct (hfs _); [destruct (lba =? 0); [done|apply Hp]|apply Hp].
Qed.
#[local] Hint Resolve wf_set_cur wf_residual wf_dma_out wf_dma_in wf_write_lba : acsi.

Lemma finish_finished st sn lba p : wf (ac p) -> finished (ac (finish st sn lba p)).
Proof.
  intros Hw. split; [|done..]. unfold finish. cbn.
  destruct (wf_set_cur {| (cur_tgt (ac p)) with sense := sn; sense_lba := lba |} (ac p) Hw). by split.
Qed.
Lemma good_finished p : wf (ac p) -> finished (ac (done_good p)).
Proof. intros. apply finish_finished. auto with acsi. Qed.
Lemma check_finished sn lba p : wf (ac p) -> finished (ac (finish_check sn lba p)).
Proof. apply finish_finished. Qed.
#[local] Hint Resolve good_finished check_finished : acsi.

Lemma read_blocks_finished n : forall lba p, wf (ac p) -> finished (ac (read_blocks n lba p)).
Proof.
  induction n as [|n IH]; intros lba p Hw; cbn [read_blocks]; [auto with acsi|].
  destruct (read_lba _ _); auto with acsi.
Qed.
Lemma write_blocks_finished n : forall lba buf p, wf (ac p) -> finished (ac (write_blocks n lba buf p)).
Proof.
  induction n as [|n IH]; intros lba buf p Hw; cbn [write_blocks]; [auto with acsi|].
  destruct (dma_in buf p) as [b1 p1] eqn:E1. pose proof (wf_dma_in buf p Hw) as W1. rewrite E1 in W1.
  destruct (write_lba lba b1 p1) as [ok p2] eqn:E2. pose proof (wf_write_lba lba b1 p1 W1) as W2.
  rewrite E2 in W2. destruct ok; auto with acsi.
Qed.
#[local] Hint Resolve read_blocks_finished write_blocks_finished : acsi.

Lemma wf_clear_sense p : wf (ac p) -> wf (ac (clear_sense p)).
Proof. intros. by apply wf_set_cur. Qed.
Lemma wf_set_probed p : wf (ac p) -> wf (ac (set_probed p)).
Proof. intros. by apply wf_set_cur. Qed.
#[local] Hint Resolve wf_clear_sense wf_set_probed : acsi.

Lemma exec_op_finished op c ic p : wf (ac p) -> finished (ac (exec_op op c ic p)).
Proof.
  intros Hw. unfold exec_op, exec_read, exec_write, exec_inquiry, exec_request_sense, exec_mode_sense,
    exec_mode_select.
  repeat case_match; auto with acsi.
Qed.

(** Every command ends with a status and an interrupt. *)
Lemma exec_command_finished p : wf (ac p) -> finished (ac (exec_command p)).
Proof.
  intros Hw. unfold exec_command. cbv zeta.
  unfold exec_inquiry. case_match; [case_match|]; auto using exec_op_finished with acsi.
Qed.
End Keep.

(** ** Reachable states *)
Section Proto.
Context {H : Type} `{DmaHw H} (open_rw : string -> option (list Z)) (order : Z -> Z).
Implicit Types (p : port H).

(** What the rest of the emulator does to the targets; [step_env]: anything may
    happen to the DMA chip, to memory and to the hardware in between. *)
Inductive acsi_step : port H -> port H -> Prop :=
| step_byte p v f : is_u8 v -> acsi_step p (acsi_cmd_byte v f p).2
| step_status p : acsi_step p (on_ac (fun a => (acsi_status_read a).2) p)
| step_release p : acsi_step p (on_ac acsi_release p)
| step_fifo p : acsi_step p (on_ac acsi_dma_fifo_reset p)
| step_attach p path : acsi_step p (on_ac (fun a => (acsi_attach open_rw order path a).2) p)
| step_env p c : acsi_step p (mk_port (ac p) c).

Lemma id_range v : 0 <= (v >> 5) .& 7 < 8.
Proof. change 7 with (Z.ones 3). rewrite Z.land_ones by lia. apply Z.mod_pos_bound. lia. Qed.

Lemma icd_len_range v : 7 <= icd_cdb_len v <= 13.
Proof. unfold icd_cdb_len. repeat case_match; lia. Qed.

Lemma start_cdb_inv v a : wf a -> is_Some (t_fd (tgt a !!! Z.to_nat ((v >> 5) .& 7))) -> acsi_inv (start_cdb v a).
Proof.
  intros [] Hi. pose proof (id_range v). unfold start_cdb, push_cdb. cbn.
  split; [split; cbn; rewrite ?length_insert; try done; lia|].
  intros _ _. split; cbn; [lia|done|by case_match; lia| |done].
  by case_match; [left|].
Qed.

Lemma in_cdb_inv a : acsi_inv a -> owns a = true -> phase a = PH_CDB -> in_cdb a = true.
Proof.
  intros [_ Hc] Ho Hp. destruct (Hc Ho Hp) as [_ _ ? _ _]. unfold in_cdb.
  rewrite Ho, bool_decide_true by done. cbn. lia.
Qed.

Lemma push_cdb_wf v a : wf a -> wf (push_cdb v a).
Proof. intros []. split; cbn; rewrite ?length_insert; done. Qed.
Lemma next_cdb_wf v a : wf a -> wf (next_cdb v a).
Proof. intros Hw. destruct (push_cdb_wf v a Hw). unfold next_cdb. by case_match; split. Qed.

Lemma next_cdb_coll v a : collecting a ->
  cdb_got (next_cdb v a) < cdb_len (next_cdb v a) -> collecting (set_irq true (next_cdb v a)).
Proof.
  intros [Hid Him Hg Hl Hs]. unfold next_cdb, push_cdb. cbn. pose proof (icd_len_range v).
  destruct (icd a) eqn:Ei; cbn [andb]; [|].
  - destruct (Z.eqb_spec (cdb_got a + 1) 2); cbn; intros Hlt; split; cbn; rewrite ?Ei; try done; lia.
  - cbn. intros Hlt. split; cbn; rewrite ?Ei; try done; lia.
Qed.

Lemma cmd_byte_inv v f p : acsi_inv (ac p) -> acsi_inv (ac (acsi_cmd_byte v f p).2).
Proof.
  intros Hi. pose proof Hi as [Hw Hc]. unfold acsi_cmd_byte. destruct (acsi_enabled _); cbn [negb]; [|done].
  destruct (f && negb (in_cdb (ac p))) eqn:Ef.
  - destruct (t_fd _) eqn:Et; cbn.
    + apply start_cdb_inv; [done|]. by rewrite Et.
    + destruct Hw. by split; [split|].
  - destruct (owns (ac p)) eqn:Eo; cbn [negb orb]; [|done].
    destruct (decide (phase (ac p) = PH_CDB)) as [Ep|Ep]; [rewrite bool_decide_true by done|rewrite bool_decide_false by done];
      cbn [negb]; [|done].
    specialize (Hc eq_refl Ep).
    destruct (Z.ltb_spec (cdb_got (ac (on_ac (next_cdb v) p))) (cdb_len (ac (on_ac (next_cdb v) p)))) as [Hlt|Hlt].
    + cbn in Hlt |- *. split; [destruct (next_cdb_wf v _ Hw); by split|]. intros _ _. apply next_cdb_coll; auto.
    + cbn [snd]. apply finished_inv, exec_command_finished. cbn. destruct (next_cdb_wf v _ Hw). by split.
Qed.

Lemma status_read_inv a : acsi_inv a -> acsi_inv (acsi_status_read a).2.
Proof.
  intros [Hw Hc]. unfold acsi_status_read. cbn. destruct (status_valid a) eqn:Es; cbn [negb snd].
  - destruct Hw. case_bool_decide; split; try by split.
    cbn. intros Ho Hp. destruct (Hc Ho Hp). congruence.
  - assert (forall b, wf b -> acsi_inv {| b with status_byte := 2; status_valid := true; phase := PH_IDLE |}) as Hb
      by (intros ? []; by split; [split|]).
    apply Hb. assert (wf (set_irq false a)) by (destruct Hw; by split).
    repeat case_match; auto using wf_set_cur.
Qed.

Lemma attach_inv path a : acsi_inv a -> acsi_inv (acsi_attach open_rw order path a).2.
Proof.
  intros Ha. assert (forall id path, acsi_inv (acsi_attach_at open_rw order id path a).2) as Hk.
  { clear path. intros id path. unfold acsi_attach_at. set (i := if id <? 0 then _ else id).
    destruct (Z.leb_spec ACSI_MAX_TARGETS i); [done|].
    destruct (t_fd (tgt a !!! Z.to_nat i)) eqn:Et; [done|]. destruct (open_rw path) as [img|]; [|done].
    case_match; [done|]. destruct Ha as [[] Hc]. split; [split; cbn; rewrite ?length_insert; done|].
    cbn. intros Ho Hp. destruct (Hc Ho Hp) as [? Hi ? ? ?]. split; cbn; try done.
    unfold cur_tgt in *. cbn. rewrite list_lookup_total_insert_ne; [done|].
    intros E. rewrite E in Et. rewrite Et in Hi. by destruct Hi. }
  unfold acsi_attach. repeat case_match; apply Hk.
Qed.

Lemma acsi_step_inv p q : acsi_step p q -> acsi_inv (ac p) -> acsi_inv (ac q).
Proof.
  intros [] Hi; cbn; auto using cmd_byte_inv, status_read_inv, attach_inv.
  - destruct Hi as [[] _]. by split; [split|].
  - destruct Hi as [[] Hc]. split; [split; cbn; try done; lia|]. cbn. intros Ho Hp. destruct (Hc Ho Hp). by split.
Qed.

Lemma acsi0_inv : acsi_inv acsi0.
Proof. split; [split; cbn; lia|done]. Qed.

(** ** A whole command *)

Fixpoint feed (bs : list (Z * bool)) p : list bool * port H :=
  match bs with
  | [] => ([], p)
  | (v, f) :: bs =>
    let '(r, p) := acsi_cmd_byte v f p in
    let '(rs, p) := feed bs p in (r :: rs, p)
  end.

(** The length of the command that starts with [v] and goes on with [w]. *)
Definition cdb_size (v w : Z) : Z := if v .& 0x1F =? 0x1F then icd_cdb_len w else 6.

Fixpoint put_bytes (i : nat) (bs l : list Z) : list Z :=
  match bs with
  | [] => l
  | v :: bs => put_bytes (S i) bs (<[i := v]> l)
  end.

Lemma put_bytes_take bs : forall i l, (i + length bs <= length l)%nat ->
  take (i + length bs) (put_bytes i bs l) = take i l ++ bs /\ length (put_bytes i bs l) = length l.
Proof.
  induction bs as [|v bs IH]; intros i l Hl; cbn [put_bytes length] in *.
  - by rewrite Nat.add_0_r, app_nil_r.
  - destruct (IH (S i) (<[i := v]> l)) as [E1 E2]; [rewrite length_insert; lia|].
    rewrite length_insert in E2. split; [|done]. rewrite Nat.add_succ_r, <- Nat.add_succ_l, E1.
    rewrite (take_S_r _ i v) by (rewrite list_lookup_insert_eq by lia; done).
    by rewrite take_insert_ge, <- app_assoc by lia.
Qed.

Definition pushes (bs : list Z) (a : acsi) : acsi :=
  {| a with cdb := put_bytes (Z.to_nat (cdb_got a)) bs (cdb a); cdb_got := cdb_got a + Z.of_nat (length bs) |}.

Lemma pushes_cons v bs b a : 0 <= cdb_got a ->
  set_irq false (pushes bs (set_irq b (push_cdb v a))) = set_irq false (pushes (v :: bs) a).
Proof.
  intros. apply acsi_eq; cbn; try done; [|lia].
  rewrite Z2Nat.inj_add by lia. f_equal. lia.
Qed.

Record busy (a : acsi) : Prop := mk_busy {
  bz_inv : acsi_inv a; bz_owns : owns a = true; bz_phase : phase a = PH_CDB; bz_on : acsi_enabled a = true }.

Lemma busy_byte v f p : busy (ac p) ->
  acsi_cmd_byte v f p =
    let p1 := on_ac (next_cdb v) p in
    if cdb_got (ac p1) <? cdb_len (ac p1) then (true, on_ac (set_irq true) p1)
    else (true, exec_command (on_ac (set_irq false) p1)).
Proof.
  intros [Hi Ho Hp He]. unfold acsi_cmd_byte. rewrite He, (in_cdb_inv _ Hi Ho Hp), Ho, bool_decide_true by done.
  by rewrite andb_false_r.
Qed.

Lemma busy_next v p : busy (ac p) -> let p1 := on_ac (next_cdb v) p in
  cdb_got (ac p1) < cdb_len (ac p1) -> busy (set_irq true (ac p1)).
Proof.
  intros Hb p1 Hlt. pose proof (cmd_byte_inv v false p (bz_inv _ Hb)) as Hi. rewrite busy_byte in Hi by done.
  cbv zeta in Hi. fold p1 in Hi. rewrite (proj2 (Z.ltb_lt _ _) Hlt) in Hi. destruct Hb as [_ Ho Hp He].
  split; [exact Hi|..]; unfold p1, next_cdb; cbn; case_match; done.
Qed.

Lemma feed_rest bs : forall flags p, busy (ac p) -> length bs = length flags -> bs <> [] ->
  (icd (ac p) = true -> 2 <= cdb_got (ac p)) -> cdb_got (ac p) + Z.of_nat (length bs) = cdb_len (ac p) ->
  feed (combine bs flags) p =
    (replicate (length bs) true, exec_command (on_ac (fun a => set_irq false (pushes bs a)) p)).
Proof.
  induction bs as [|v bs IH]; intros [|f flags] p Hb Hl Hn Hic Hlen; cbn in Hl; try done; try lia.
  cbn [combine feed]. rewrite busy_byte by done. cbv zeta.
  assert (next_cdb v (ac p) = push_cdb v (ac p)) as En.
  { unfold next_cdb. cbn. destruct (icd (ac p)) eqn:Ei; [|done].
    rewrite (proj2 (Z.eqb_neq _ _)); [done|]. specialize (Hic eq_refl). lia. }
  assert (0 <= cdb_got (ac p)) as Hg.
  { destruct Hb as [[_ Hc] Ho Hp _]. destruct (Hc Ho Hp). lia. }
  pose proof (busy_next v p Hb) as Hb'. cbv zeta in Hb'. cbn [on_ac ac] in Hb' |- *. rewrite En in *.
  cbn [length] in Hlen. destruct bs as [|w bs].
  - rewrite (proj2 (Z.ltb_ge _ _)) by (cbn in Hlen |- *; lia). destruct flags; [|done]. cbn [combine feed length replicate].
    do 2 f_equal. unfold on_ac. cbn [ac dc]. by rewrite En.
  - assert (cdb_got (push_cdb v (ac p)) < cdb_len (push_cdb v (ac p))) as Hlt by (cbn in Hlen |- *; lia).
    rewrite (proj2 (Z.ltb_lt _ _) Hlt).
    change (on_ac (set_irq true) (on_ac (next_cdb v) p)) with (mk_port (set_irq true (next_cdb v (ac p))) (dc p)).
    rewrite En.
    rewrite (IH flags (mk_port (set_irq true (push_cdb v (ac p))) (dc p))); try done; try lia; cycle 1.
    + apply Hb', Hlt.
    + cbn. intros E. specialize (Hic E). lia.
    + cbn in Hlen |- *. lia.
    + cbn [length replicate]. do 2 f_equal. unfold on_ac. cbn [ac dc]. by rewrite pushes_cons.
Qed.

(** The state when [bs] completes the command started by [v]. *)
Definition collected (v : Z) (n : Z) (cd : list Z) (a : acsi) : acsi :=
  {| (start_cdb v a) with cdb := cd; cdb_got := n; cdb_len := n; a_irq := false |}.

Lemma start_busy v a : acsi_inv a -> acsi_enabled a = true ->
  is_Some (t_fd (tgt a !!! Z.to_nat ((v >> 5) .& 7))) -> busy (start_cdb v a).
Proof. intros Hi He Him. split; [apply start_cdb_inv; [apply Hi|done]|done..]. Qed.

Lemma collected_6 v bs a : v .& 0x1F <> 0x1F -> length bs = 5%nat ->
  set_irq false (pushes bs (start_cdb v a)) = collected v 6 (put_bytes 1 bs (<[0%nat := v .& 0x1F]> (cdb a))) a.
Proof. intros Hv%Z.eqb_neq Hl. apply acsi_eq; cbn; rewrite ?Hl, ?Hv; done. Qed.

Definition icd_start (v w : Z) (a : acsi) : acsi :=
  {| (push_cdb w (start_cdb v a)) with cdb_len := icd_cdb_len w |}.

Lemma next_icd v w a : v .& 0x1F = 0x1F -> next_cdb w (start_cdb v a) = icd_start v w a.
Proof.
  intros Hv. unfold next_cdb. set (b := push_cdb w (start_cdb v a)).
  assert (icd b && (cdb_got b =? 2) = true) as -> by (cbn; by rewrite Hv). reflexivity.
Qed.

Lemma collected_icd v w bs a : icd_cdb_len w = 2 + Z.of_nat (length bs) ->
  set_irq false (pushes bs (set_irq true (icd_start v w a))) =
  collected v (icd_cdb_len w) (put_bytes 2 bs (<[1%nat := w]> (<[0%nat := v .& 0x1F]> (cdb a)))) a.
Proof. intros Hl. apply acsi_eq; cbn; rewrite ?Hl; done. Qed.

Lemma take_first (x : Z) l : (0 < length l)%nat -> take 1 (<[0%nat := x]> l) = [x].
Proof. by destruct l as [|y [|z l]]; cbn; [lia|..]. Qed.

Lemma first_byte v p : acsi_enabled (ac p) = true -> in_cdb (ac p) = false ->
  is_Some (t_fd (tgt (ac p) !!! Z.to_nat ((v >> 5) .& 7))) ->
  acsi_cmd_byte v true p = (true, mk_port (start_cdb v (ac p)) (dc p)).
Proof. intros He Hn [img Him]. unfold acsi_cmd_byte. rewrite He, Hn. cbn [negb andb]. by rewrite Him. Qed.

Lemma second_icd v w f p : busy (start_cdb v (ac p)) -> v .& 0x1F = 0x1F ->
  acsi_cmd_byte w f (mk_port (start_cdb v (ac p)) (dc p)) =
    (true, mk_port (set_irq true (icd_start v w (ac p))) (dc p)) /\
  busy (set_irq true (icd_start v w (ac p))).
Proof.
  intros Hb Hv. pose proof (icd_len_range w). rewrite busy_byte by done.
  pose proof (busy_next w (mk_port (start_cdb v (ac p)) (dc p)) Hb) as Hb1.
  unfold on_ac in *. cbn [ac dc] in *. rewrite next_icd in * by done.
  assert (cdb_got (icd_start v w (ac p)) < cdb_len (icd_start v w (ac p))) as Hlt by (cbn; lia).
  rewrite (proj2 (Z.ltb_lt _ _) Hlt). by split; [|apply Hb1].
Qed.

(** The handshake.  A command for an attached target is executed exactly
    when its last byte arrives, with all its bytes in place; every byte is
    consumed, and none is taken for the start of another command whatever the
    A1 line (the flags) does meanwhile.  This holds for the 6-byte commands
    and for the 6, 10 and 12-byte ones behind the ICD escape. *)
Theorem command_protocol v bs flags p :
  acsi_inv (ac p) -> acsi_enabled (ac p) = true -> in_cdb (ac p) = false ->
  is_Some (t_fd (tgt (ac p) !!! Z.to_nat ((v >> 5) .& 7))) ->
  length flags = length bs -> 1 + Z.of_nat (length bs) = cdb_size v (bs !!! 0%nat) ->
  exists cd, take (S (length bs)) cd = (v .& 0x1F) :: bs /\ length cd = 16%nat /\
    feed ((v, true) :: combine bs flags) p =
      (replicate (S (length bs)) true,
       exec_command (mk_port (collected v (1 + Z.of_nat (length bs)) cd (ac p)) (dc p))).
Proof.
  intros Hi He Hn Him Hfl Hlen. pose proof (start_busy v (ac p) Hi He Him) as Hb.
  assert (length (cdb (ac p)) = 16%nat) as L0 by apply Hi.
  cbn [feed]. rewrite (first_byte v p He Hn Him). unfold cdb_size in Hlen.
  destruct (Z.eqb_spec (v .& 0x1F) 0x1F) as [Ei|Ei].
  - pose proof (icd_len_range (bs !!! 0%nat)) as Hr.
    destruct bs as [|w bs]; [rewrite <- Hlen in Hr; cbn in Hr; lia|].
    destruct flags as [|f flags]; [done|]. change ((w :: bs) !!! 0%nat) with w in *. cbn [length] in *.
    cbn [combine feed]. destruct (second_icd v w f p Hb Ei) as [E Hb1]. rewrite E.
    set (l := <[1%nat := w]> (<[0%nat := v .& 0x1F]> (cdb (ac p)))).
    assert (length l = 16%nat) as Ll by (unfold l; by rewrite !length_insert).
    destruct (put_bytes_take bs 2 l) as [E1 E2]; [lia|].
    exists (put_bytes 2 bs l). split_and!; [|lia|].
    + change (S (S (length bs))) with (2 + length bs)%nat. rewrite E1. unfold l.
      rewrite (take_S_r _ 1 w) by (rewrite list_lookup_insert_eq by (rewrite length_insert; lia); done).
      rewrite take_insert_ge, take_first by lia. done.
    + rewrite (feed_rest bs flags); [|done|lia|intros ->; cbn in *; lia|cbn; lia|cbn; lia].
      cbn [length replicate]. do 2 f_equal. unfold on_ac. cbn [ac dc]. f_equal.
      rewrite collected_icd by lia. fold l. f_equal. lia.
  - destruct (put_bytes_take bs 1 (<[0%nat := v .& 0x1F]> (cdb (ac p)))) as [E1 E2]; [rewrite length_insert; lia|].
    rewrite length_insert in E2. rewrite take_first in E1 by lia.
    exists (put_bytes 1 bs (<[0%nat := v .& 0x1F]> (cdb (ac p)))). split_and!; [done|lia|].
    apply Z.eqb_neq in Ei. rewrite (feed_rest bs flags); cbn [ac];
      [|done|done|intros ->; cbn in Hlen; lia|unfold start_cdb; cbn; by rewrite Ei|unfold start_cdb; cbn; rewrite Ei; lia].
    cbn [replicate]. do 2 f_equal. unfold on_ac. cbn [ac dc]. apply Z.eqb_neq in Ei.
    rewrite collected_6 by (done || lia). do 2 f_equal. lia.
Qed.

(** C33: in every state the targets can get into, whatever bytes the guest
    sends in whatever phase: the next command byte has a place in the 16-byte
    buffer, the FIFO holds less than a burst, the selected target exists, and
    as long as a command is incomplete a status read answers CHECK CONDITION,
    never the status of the command before. *)
Theorem acsi_reachable c0 p : rtc acsi_step (mk_port acsi0 c0) p ->
  let a := ac p in
  length (tgt a) = 8%nat /\ (length (dma_fifo a) < 16)%nat /\
  (owns a = true -> phase a = PH_CDB ->
   0 <= cdb_got a < 16 /\ cdb_got a < cdb_len a /\ 0 <= cur_id a < 8 /\ is_Some (t_fd (cur_tgt a)) /\
   (acsi_status_read a).1 = 0x02).
Proof.
  intros Hr. assert (acsi_inv (ac p)) as [Hw Hc].
  { remember (mk_port acsi0 c0) as s eqn:Es. assert (acsi_inv (ac s)) as Hs by (subst; apply acsi0_inv).
    clear Es. induction Hr; [done|]. apply IHHr. by eapply acsi_step_inv. }
  destruct Hw. cbv zeta. split_and!; [done|done|]. intros Ho Hp. destruct (Hc Ho Hp) as [? ? ? Hl Hs].
  split_and!; try done; try lia.
  - destruct (icd (ac p)); lia.
  - unfold acsi_status_read. cbn. by rewrite Hs.
Qed.
End Proto.
