(* ===== verification/AcsiData.v ===== *)
(** * AcsiData: what the ACSI commands move *)

From S2P Require Import Prelude StRam DiskOrder Acsi AcsiProps AcsiProto.
From Stdlib Require Import ZArith Lia Bool List.
From stdpp Require Import base list numbers.
Open Scope Z_scope.
Open Scope cint_scope.

(** ** The disk a target presents *)

(** A target as [acsi_attach_at] makes it: the file holds its sectors. *)
Record target_ok (t : target) : Prop := mk_tok {
  tok_img : exists img, t_fd t = Some img /\
    (total_lba t - (if hfs t then 1 else 0)) * 512 <= Z.of_nat (length img);
  tok_root : length (root t) = 512%nat;
  tok_lba : 0 <= total_lba t < 4294967296 }.

Definition sector (t : target) (i : Z) : list Z := default [] (read_lba t i).

Lemma sector_ok t i : target_ok t -> 0 <= i < total_lba t ->
  read_lba t i = Some (sector t i) /\ length (sector t i) = 512%nat.
Proof.
  intros [(img & Hi & Hl) Hr Ht] Hb. unfold sector, read_lba. rewrite Hi.
  destruct (hfs t); [destruct (Z.eqb_spec i 0); [done|]|].
  - pose proof (pread_length img ((i - 1) * 512) 512) as L.
    rewrite (proj2 (Nat.eqb_eq _ _)) by lia. cbn. split; [done|lia].
  - pose proof (pread_length img (i * 512) 512) as L.
    rewrite (proj2 (Nat.eqb_eq _ _)) by lia. cbn. split; [done|]. case_match; rewrite ?swap_length; lia.
Qed.

(** Attaching an image gives such a target. *)
Lemma new_target_ok order id path img t : length (root t) = 512%nat -> Z.of_nat (length img) < 2 ^ 40 ->
  target_ok (new_target order id path img t).
Proof.
  intros Hr Hs. set (n := Z.of_nat (length img)) in *.
  assert (0 <= n / 512 /\ n / 512 * 512 <= n /\ n / 512 < 2147483648) as (? & ? & ?).
  { change (2 ^ 40) with 1099511627776 in Hs. Z.div_mod_to_equations. lia. }
  unfold new_target. fold n. cbn [hfs]. rewrite (u32_small (n / 512)) by (unfold is_u32; lia).
  destruct (is_hfs_path path) eqn:Ep; split; cbn; try done; rewrite ?Ep.
  - eexists. split; [done|]. rewrite u32_small by (unfold is_u32; lia). fold n. lia.
  - apply u32_range.
  - eexists. split; [done|]. fold n. lia.
  - lia.
Qed.

Section AcsiData.
Context {H : Type} `{DmaHw H}.
Implicit Types (p : port H).

Definition here p : target := cur_tgt (ac p).

(** ** Reading *)

(** A whole sector passes an empty FIFO. *)
Lemma sector_sent p (buf : list Z) : dma_fifo (ac p) = [] -> length buf = 512%nat ->
  sent p buf = buf /\ held p buf = [].
Proof.
  intros Hf Hl. unfold sent, held. rewrite Hf. cbn [app]. rewrite Hl. change (bursts 512) with 512%nat.
  rewrite <- Hl. split; [apply firstn_all|apply drop_all].
Qed.

Lemma out_sector p buf : dma_fifo (ac p) = [] -> length buf = 512%nat -> window p 512 ->
  ac (dma_out buf p) = ac p /\ stored p buf (dma_out buf p).
Proof.
  intros Hf Hl Hw. destruct (sector_sent p buf Hf Hl) as [Es Eh]. split.
  - rewrite dma_out_ac, Eh by (rewrite Hf; cbn; lia). apply acsi_eq; cbn; done.
  - pose proof (dma_out_loop_stored (length buf) buf p) as Hs. rewrite Es in Hs.
    apply Hs; [done|rewrite Hf; cbn; lia|by rewrite Hl].
Qed.

Definition sectors (t : target) (lba : Z) (n : nat) : list Z := concat (map (sector t) (seqZ lba (Z.of_nat n))).

Lemma sectors_S t lba n : sectors t lba (S n) = sector t lba ++ sectors t (lba + 1) n.
Proof. unfold sectors. rewrite Nat2Z.inj_succ, seqZ_cons by lia. cbn. do 4 f_equal; lia. Qed.

Lemma sectors_length t lba n : target_ok t -> 0 <= lba -> lba + Z.of_nat n <= total_lba t ->
  length (sectors t lba n) = (n * 512)%nat.
Proof.
  intros Ht. revert lba. induction n as [|n IH]; intros lba B1 B2; [done|].
  rewrite sectors_S, length_app, (proj2 (sector_ok t lba Ht ltac:(lia))), IH by lia. lia.
Qed.

Lemma finish_stored st sn lba p q l : stored p l q -> stored p l (finish st sn lba q).
Proof. intros []. by split. Qed.
Lemma good_stored p q l : stored p l q -> stored p l (done_good q).
Proof. intros []. by split. Qed.

Lemma read_blocks_good n : forall lba p, wf (ac p) -> dma_fifo (ac p) = [] -> target_ok (here p) ->
  0 <= lba -> lba + Z.of_nat n <= total_lba (here p) -> window p (Z.of_nat n * 512) ->
  read_blocks n lba p = done_good (mk_port (ac p) (dc (read_blocks n lba p))) /\
  stored p (sectors (here p) lba n) (read_blocks n lba p).
Proof.
  induction n as [|n IH]; intros lba p Hwf Hf Ht B0 B1 Hw; cbn [read_blocks].
  - split; [|apply good_stored; by apply stored_nil]. by destruct p as [a c].
  - destruct (sector_ok (here p) lba Ht) as [Es El]; [lia|]. fold (here p). rewrite Es.
    destruct (out_sector p (sector (here p) lba) Hf El) as [Ea Est]; [eapply window_le; [|exact Hw]; lia|].
    set (q := dma_out _ p) in *. rewrite u32_small by (unfold is_u32; destruct Ht; lia).
    assert (here q = here p) as Eh by (unfold here; by rewrite Ea).
    destruct (IH (lba + 1) q) as [E1 E2]; try (rewrite ?Ea, ?Eh; done || lia).
    { eapply window_stored; [exact Est|lia|]. eapply window_le; [|exact Hw]. lia. }
    rewrite Ea in E1. split; [exact E1|]. rewrite sectors_S, <- Eh. eapply stored_app; [|exact E2]. by rewrite Eh.
Qed.

Lemma in_range t lba n : target_ok t -> 0 <= lba -> 0 <= n -> lba + n <= total_lba t -> bad_range t lba n = false.
Proof.
  intros [_ _ Ht] ? ? ?. unfold bad_range. rewrite u32_small by (unfold is_u32; lia). lia.
Qed.

(** READ.  When the sectors are on the disk and the window is in
    ST-RAM, the command ends with good status and no residual, memory at the
    address counter holds exactly the sectors, no other byte of memory has
    changed, and the counter points behind them. *)
Theorem read_delivers lba n p :
  wf (ac p) -> dma_fifo (ac p) = [] -> 0 <= cur_id (ac p) -> target_ok (here p) ->
  0 <= lba -> 0 <= n -> lba + n <= total_lba (here p) -> window p (n * 512) ->
  let p' := exec_read lba n p in
  status_byte (ac p') = 0x00 /\ residual (ac p') = 0 /\ sense (here p') = SENSE_NONE /\
  addr_of p' = addr_of p + n * 512 /\
  block_get (mir p') (addr_of p) (n * 512) = sectors (here p) lba (Z.to_nat n) /\
  (forall x, x < addr_of p \/ addr_of p + n * 512 <= x -> mir p' x = mir p x).
Proof.
  intros Hwf Hf Hid Ht B0 B1 B2 Hw. cbv zeta. unfold exec_read. rewrite in_range by done.
  destruct (read_blocks_good (Z.to_nat n) lba p) as [E [A T M]]; try done; try (rewrite Z2Nat.id by lia; done).
  set (p' := read_blocks _ lba p) in *.
  pose proof (sectors_length (here p) lba (Z.to_nat n) Ht B0 ltac:(lia)) as Hl.
  split_and!.
  - by rewrite E.
  - by rewrite E.
  - rewrite E. unfold here, cur_tgt. cbn. rewrite list_lookup_total_insert_eq; [done|]. destruct Hwf. lia.
  - rewrite A, Hl. lia.
  - transitivity (block_get (block_put (mir p) (addr_of p) (sectors (here p) lba (Z.to_nat n))) (addr_of p) (n * 512)).
    { apply block_get_ext. intros. apply M. }
    replace (n * 512) with (Z.of_nat (length (sectors (here p) lba (Z.to_nat n)))) by lia. apply block_get_put.
  - intros x Hx. rewrite M. apply block_put_out. lia.
Qed.

(** ** Writing *)

(** [t'] is [t] with at most the sectors [lba .. lba + n - 1] changed. *)
Record changed (t : target) (lba n : Z) (t' : target) : Prop := mk_chg {
  ch_ok : target_ok t';
  ch_total : total_lba t' = total_lba t;
  ch_hfs : hfs t' = hfs t;
  ch_root : root t' = root t;
  ch_rest : forall j, 0 <= j < total_lba t -> j < lba \/ lba + n <= j -> sector t' j = sector t j }.

Lemma changed_refl t lba n : target_ok t -> changed t lba n t.
Proof. by split. Qed.

Lemma changed_trans t1 t2 t3 lba n m : 0 <= n -> 0 <= m ->
  changed t1 lba n t2 -> changed t2 (lba + n) m t3 -> changed t1 lba (n + m) t3.
Proof.
  intros ? ? [O1 T1 F1 Q1 R1] [O2 T2 F2 Q2 R2]. split; [done|congruence..|].
  intros j Hj Ho. rewrite R2, R1 by lia. done.
Qed.

Lemma changed_sense t lba n t' sn sl : changed t lba n t' ->
  changed t lba n {| t' with sense := sn; sense_lba := sl |}.
Proof. intros [[I Ro Tl] T F Q R]. split; [by split|done..]. Qed.

(** One file write, of [l] at the place of sector [lba]. *)
Lemma file_write_changed t img l lba sh :
  t_fd t = Some img -> target_ok t -> 0 <= lba < total_lba t -> (length l <= 512)%nat ->
  sh = (if hfs t then 1 else 0) -> sh <= lba ->
  changed t lba 1 {| t with t_fd := Some (img_put img ((lba - sh) * 512) l) |} /\
  (length l = 512%nat -> sector {| t with t_fd := Some (img_put img ((lba - sh) * 512) l) |} lba =
                           if hfs t then l else if swapped t then disk_swap512 l else l).
Proof.
  intros Hi Ht Hl Hn Hs Hsl. destruct Ht as [(img' & Hi' & Hlen) Hr Htl]. rewrite Hi in Hi'. injection Hi' as <-.
  rewrite <- Hs in Hlen.
  set (o := (lba - sh) * 512) in *. assert (0 <= o /\ o + 512 <= Z.of_nat (length img)) as [Ho1 Ho2] by (unfold o; lia).
  split.
  - split; [|done|done|done|].
    + split; cbn; [|done|done]. eexists. split; [done|]. rewrite img_put_length by lia. by rewrite <- Hs.
    + intros j Hj Hd. unfold sector, read_lba. cbn. rewrite Hi. unfold o.
      destruct (hfs t); subst sh; [destruct (Z.eqb_spec j 0); [done|]|];
        rewrite pread_put_other by lia; done.
  - intros L. unfold sector, read_lba. cbn.
    assert (pread (img_put img o l) o 512 = l) as E.
    { replace 512 with (Z.of_nat (length l)) by lia. apply pread_put_same; lia. }
    unfold o in *. destruct (hfs t); subst sh.
    + rewrite (proj2 (Z.eqb_neq _ _)) by lia. rewrite E, L. done.
    + rewrite Z.sub_0_r in *. rewrite E, L. done.
Qed.

Lemma set_cur_id a t : wf a -> 0 <= cur_id a -> cur_tgt (set_cur t a) = t.
Proof. intros [] ?. unfold cur_tgt, set_cur. cbn. rewrite list_lookup_total_insert_eq; [done|lia]. Qed.
Lemma set_cur_same a : wf a -> 0 <= cur_id a -> set_cur (cur_tgt a) a = a.
Proof.
  intros [] ?. apply acsi_eq; try done. cbn. unfold cur_tgt. apply list_insert_id.
  apply list_lookup_lookup_total_lt. lia.
Qed.

Context `{!DmaHwLaws H}.

Lemma write_lba_spec lba buf p : wf (ac p) -> 0 <= cur_id (ac p) -> target_ok (here p) ->
  0 <= lba < total_lba (here p) -> length buf = 512%nat ->
  exists ok t' c, write_lba lba buf p = (ok, mk_port (set_cur t' (ac p)) c) /\
    ram c = ram (dc p) /\ dma_addr c = dma_addr (dc p) /\ changed (here p) lba 1 t' /\
    (ok = true -> (hfs (here p) = true -> lba <> 0) -> sector t' lba = buf) /\
    ((forall u o n h, (pwrite_n u o n h).1 = n) -> ok = true).
Proof.
  intros Hwf Hid Ht Hl Hb. pose proof Ht as [(img & Hi & _) _ _]. unfold here in *.
  unfold write_lba. rewrite Hi.
  assert (forall l sh, length l = 512%nat -> sh = (if hfs (cur_tgt (ac p)) then 1 else 0) -> sh <= lba ->
    (if hfs (cur_tgt (ac p)) then l else if swapped (cur_tgt (ac p)) then disk_swap512 l else l) = buf ->
    exists ok t' c, (let '(n, img', c) := pwrite (2 + cur_id (ac p)) img ((lba - sh) * 512) l (dc p) in
        (n =? 512, mk_port (set_cur {| (cur_tgt (ac p)) with t_fd := Some img' |} (ac p)) c)) =
        (ok, mk_port (set_cur t' (ac p)) c) /\
      ram c = ram (dc p) /\ dma_addr c = dma_addr (dc p) /\ changed (cur_tgt (ac p)) lba 1 t' /\
      (ok = true -> (hfs (cur_tgt (ac p)) = true -> lba <> 0) -> sector t' lba = buf) /\
      ((forall u o n h, (pwrite_n u o n h).1 = n) -> ok = true)) as Hput.
  { intros l sh Ll Hs Hsl Hbuf. unfold pwrite. set (u := 2 + _). set (o := (lba - sh) * 512).
    pose proof (pwrite_range u o (Z.of_nat (length l)) (hw (dc p)) ltac:(lia)) as Hr.
    assert ((forall u o n h, (pwrite_n u o n h).1 = n) -> (pwrite_n u o (Z.of_nat (length l)) (hw (dc p))).1 = 512) as Hok
      by (intros E; rewrite E; lia).
    destruct (pwrite_n u o (Z.of_nat (length l)) (hw (dc p))) as [n h]. cbn in Hr, Hok.
    do 3 eexists. split; [done|]. split; [done|]. split; [done|].
    destruct (file_write_changed (cur_tgt (ac p)) img (take (Z.to_nat n) l) lba sh) as [C1 C2]; try done.
    { rewrite length_take. lia. }
    fold o in C1, C2. destruct (Z.ltb_spec 0 n).
    - split_and!; [exact C1| |intros E; specialize (Hok E); lia].
      intros E _. rewrite C2, <- Hbuf by (rewrite length_take; lia). by rewrite firstn_all2 by lia.
    - split_and!; [|lia|intros E; specialize (Hok E); lia].
      replace {| (cur_tgt (ac p)) with t_fd := Some img |} with (cur_tgt (ac p)); [by apply changed_refl|].
      destruct (cur_tgt (ac p)). cbn in *. by rewrite Hi. }
  destruct (hfs (cur_tgt (ac p))) eqn:Eh.
  - destruct (Z.eqb_spec lba 0) as [E0|E0].
    + exists true, (cur_tgt (ac p)), (dc p). rewrite set_cur_same by done. split_and!; try done; [by destruct p|].
      intros _ E. by destruct (E eq_refl).
    + apply (Hput buf 1); done || lia.
  - replace (lba * 512) with ((lba - 0) * 512) by lia.
    apply (Hput _ 0); [by case_match; rewrite ?swap_length|done|lia|]. case_match; [apply swap_involutive|done].
Qed.

Lemma dma_in_length buf p : length (dma_in buf p).1 = length buf.
Proof.
  unfold dma_in. case_match; [done|]. cbn. unfold dma_copy_from_ram, pistorm_dma_from_stram.
  case_match; [|done]. pose proof (block_get_length (mirror (ram (dc p))) (dma_addr (dc p)) (Z.of_nat (length buf))). lia.
Qed.
Lemma dma_in_ac buf p : ac (dma_in buf p).2 = ac p /\ ram (dc (dma_in buf p).2) = ram (dc p).
Proof. unfold dma_in. by case_match. Qed.
Lemma dma_in_window buf p : buf <> [] -> window p (Z.of_nat (length buf)) ->
  (dma_in buf p).1 = block_get (mir p) (addr_of p) (Z.of_nat (length buf)) /\
  addr_of (dma_in buf p).2 = addr_of p + Z.of_nat (length buf).
Proof.
  intros Hn (B0 & B1 & B2). unfold dma_in. destruct (Nat.eqb_spec (length buf) 0) as [E|E]; [by destruct buf|].
  cbn. split; [by apply from_stram_in|]. unfold addr_of in *. cbn. rewrite u32_small; [done|]. unfold is_u32. lia.
Qed.

(** What a write leaves alone. *)
Record write_frame (lba n : Z) p p' : Prop := mk_wfr {
  wr_wf : wf (ac p');
  wr_id : cur_id (ac p') = cur_id (ac p);
  wr_n : n_targets (ac p') = n_targets (ac p);
  wr_fifo : dma_fifo (ac p') = dma_fifo (ac p);
  wr_ram : ram (dc p') = ram (dc p);
  wr_others : forall i, i <> Z.to_nat (cur_id (ac p)) -> tgt (ac p') !!! i = tgt (ac p) !!! i;
  wr_disk : changed (here p) lba n (here p') }.

Lemma frame_set_cur t' c p lba n : wf (ac p) -> 0 <= cur_id (ac p) -> ram c = ram (dc p) ->
  changed (here p) lba n t' -> write_frame lba n p (mk_port (set_cur t' (ac p)) c).
Proof.
  intros Hw Hi Hr Hc. split; try done; cbn.
  - by apply wf_set_cur.
  - intros i Hne. by rewrite list_lookup_total_insert_ne by done.
  - unfold here. cbn. by rewrite set_cur_id.
Qed.

Lemma here_finish st sn sl p : wf (ac p) -> 0 <= cur_id (ac p) ->
  here (finish st sn sl p) = {| (here p) with sense := sn; sense_lba := sl |}.
Proof. intros [] ?. unfold here, cur_tgt, finish. cbn. rewrite list_lookup_total_insert_eq; [done|lia]. Qed.

Lemma frame_finish lba n st sn sl p p' : 0 <= cur_id (ac p) ->
  write_frame lba n p p' -> write_frame lba n p (finish st sn sl p').
Proof.
  intros Hi [W I Nt F R O D]. split; try done; cbn.
  - apply finish_finished. done.
  - intros i Hne. rewrite list_lookup_total_insert_ne by congruence. by apply O.
  - rewrite here_finish by (done || lia). by apply changed_sense.
Qed.
Lemma frame_residual lba n r p p' : write_frame lba n p p' -> write_frame lba n p (set_residual r p').
Proof. intros [W I Nt F R O D]. split; try done. by apply wf_residual. Qed.

Lemma write_frame_trans lba n m p q r : 0 <= n -> 0 <= m ->
  write_frame lba n p q -> write_frame (lba + n) m q r -> write_frame lba (n + m) p r.
Proof.
  intros ? ? [W I Nt F R O D] [W' I' Nt' F' R' O' D']. split; try congruence; try done.
  - intros i Hne. rewrite O', O by congruence. done.
  - by apply (changed_trans _ (here q)).
Qed.

Lemma write_blocks_frame n : forall lba buf p, wf (ac p) -> 0 <= cur_id (ac p) -> target_ok (here p) ->
  0 <= lba -> lba + Z.of_nat n <= total_lba (here p) -> length buf = 512%nat ->
  write_frame lba (Z.of_nat n) p (write_blocks n lba buf p).
Proof.
  induction n as [|n IH]; intros lba buf p Hw Hi Ht B0 B1 Hb.
  - cbn [write_blocks]. apply frame_finish; [done|]. apply frame_residual. split; try done; by apply changed_refl.
  - cbn [write_blocks]. pose proof (dma_in_length buf p) as Lb. destruct (dma_in_ac buf p) as [Ea Er].
    destruct (dma_in buf p) as [b1 p1]. cbn in Lb, Ea, Er.
    assert (here p1 = here p) as Eh by (unfold here; by rewrite Ea).
    destruct (write_lba_spec lba b1 p1) as (ok & t' & c & E & Hr & _ & Hc & _ & _); rewrite ?Ea, ?Eh; try done; try lia.
    rewrite E. rewrite Ea in *. rewrite Eh in Hc.
    assert (write_frame lba 1 p (mk_port (set_cur t' (ac p)) c)) as Hf by (apply frame_set_cur; congruence || done).
    pose proof (wr_disk _ _ _ _ Hf) as [Ct Cn _ _ _]. rewrite Nat2Z.inj_succ, <- Z.add_1_l.
    destruct ok.
    + rewrite u32_small by (unfold is_u32; destruct Ht; lia). eapply write_frame_trans; [lia|lia|exact Hf|].
      apply IH; try done; try lia; apply Hf.
    + apply (write_frame_trans _ _ _ _ (mk_port (set_cur t' (ac p)) c)); [lia|lia|done|].
      apply frame_finish; [done|]. apply frame_residual. split; try done; try apply Hf; by apply changed_refl.
Qed.

(** C20: WRITE changes nothing else: whatever the host does (refused and
    partial writes included) and whatever the address counter is, only the
    addressed sectors of the selected disk can differ afterwards; its other
    sectors, the synthesized root sector of an HFS volume, every other disk
    and ST-RAM are as before. *)
Theorem write_confined lba n p :
  wf (ac p) -> 0 <= cur_id (ac p) -> target_ok (here p) -> 0 <= lba < 4294967296 -> 0 <= n <= 65536 ->
  let p' := exec_write lba n p in
  (forall j, 0 <= j < total_lba (here p) -> j < lba \/ lba + n <= j \/ (hfs (here p) = true /\ j = 0) ->
     sector (here p') j = sector (here p) j) /\
  (forall i, i <> Z.to_nat (cur_id (ac p)) -> tgt (ac p') !!! i = tgt (ac p) !!! i) /\
  mirror (ram (dc p')) = mirror (ram (dc p)).
Proof.
  intros Hw Hi Ht Hl Hn. cbv zeta. assert (write_frame lba n p (exec_write lba n p)) as [W I Nt F R O D].
  { unfold exec_write. destruct (bad_range _ _ _) eqn:Eb.
    - apply frame_finish; [done|]. split; try done; by apply changed_refl.
    - unfold bad_range in Eb. apply orb_false_iff in Eb as [E1 E2].
      destruct Ht as [Hti Htr Htl] eqn:Et. fold (here p) in *.
      assert (lba + n <= total_lba (here p)) as Hle.
      { unfold u32 in *. Z.div_mod_to_equations. lia. }
      rewrite <- (Z2Nat.id n) at 1 by lia. apply write_blocks_frame; try done; try lia.
      pose proof (fresh_length 512 (hw (dc p))). lia. }
  split_and!; [|done|by rewrite R].
  intros j Hj Ho. destruct (decide (j < lba \/ lba + n <= j)) as [Hd|Hd]; [by apply D|].
  destruct Ho as [?|[?|[Hh ->]]]; [lia|lia|].
  unfold sector, read_lba. destruct (ch_ok _ _ _ _ D) as [(img' & E' & _) _ _], Ht as [(img & E & _) _ _].
  by rewrite E, E', (ch_hfs _ _ _ _ D), (ch_root _ _ _ _ D), Hh.
Qed.

Context (host_writes : forall u o n (h : H), (pwrite_n u o n h).1 = n).

Lemma write_blocks_data n : forall lba buf p, wf (ac p) -> 0 <= cur_id (ac p) -> target_ok (here p) ->
  0 <= lba -> lba + Z.of_nat n <= total_lba (here p) -> (hfs (here p) = true -> 1 <= lba) ->
  length buf = 512%nat -> window p (Z.of_nat n * 512) ->
  status_byte (ac (write_blocks n lba buf p)) = 0x00 /\
  sectors (here (write_blocks n lba buf p)) lba n = block_get (mir p) (addr_of p) (Z.of_nat n * 512).
Proof.
  induction n as [|n IH]; intros lba buf p Hw Hi Ht B0 B1 Hh Hb Hwin; [done|].
  cbn [write_blocks]. pose proof (dma_in_length buf p) as Lb. destruct (dma_in_ac buf p) as [Ea Er].
  destruct (dma_in_window buf p) as [Ew Eaddr]; [by destruct buf|eapply window_le; [|exact Hwin]; lia|].
  rewrite Hb in Ew, Eaddr. destruct (dma_in buf p) as [b1 p1]. cbn [fst snd] in *.
  assert (here p1 = here p) as Eh by (unfold here; by rewrite Ea).
  destruct (write_lba_spec lba b1 p1) as (ok & t' & c & E & Hr & Had & Hc & Hs & Hok); rewrite ?Ea, ?Eh; try done; try lia.
  rewrite E, (Hok host_writes) in *. rewrite Ea, Eh in *. set (q := mk_port (set_cur t' (ac p)) c).
  assert (write_frame lba 1 p q) as Hf by (apply frame_set_cur; congruence || done).
  pose proof (wr_disk _ _ _ _ Hf) as [Ct Cn Ch _ _].
  assert (here q = t') as Et by (unfold here, q; cbn; by apply set_cur_id).
  rewrite u32_small by (unfold is_u32; destruct Ht; lia).
  assert (mir q = mir p /\ addr_of q = addr_of p + 512 /\ top_of q = top_of p) as (Em & Eaq & Etq).
  { unfold mir, addr_of, top_of, q in *. cbn. rewrite Hr, Er, Had. split_and!; done || lia. }
  destruct (IH (lba + 1) b1 q) as [I1 I2]; try done; try lia; try apply Hf.
  { unfold window in *. rewrite Eaq, Etq. lia. }
  split; [exact I1|]. rewrite sectors_S, I2, Em, Eaq.
  pose proof (write_blocks_frame n (lba + 1) b1 q) as [_ _ _ _ _ _ D]; try done; try lia; try apply Hf.
  rewrite (ch_rest _ _ _ _ D) by lia.
  assert (sector t' lba = b1) as Es by (apply Hs; [done|intros Hhf; specialize (Hh Hhf); lia]).
  rewrite Et, Es.
  rewrite Ew. replace (Z.of_nat (S n) * 512) with (512 + Z.of_nat n * 512) by lia.
  by rewrite block_get_app by lia.
Qed.
End AcsiData.

(** ** Commands *)

(** READ(6) and WRITE(6) for target [id]: first byte, and the others. *)
Definition cdb6_head (op id : Z) : Z := (id << 5) .| op.
Definition cdb6_rest (lba n : Z) : list Z := [lba >> 16; u8 (lba >> 8); u8 lba; u8 n; 0].

Lemma cdb6_head_id op id : 0 <= op < 32 -> 0 <= id < 8 ->
  (cdb6_head op id >> 5) .& 7 = id /\ cdb6_head op id .& 0x1F = op.
Proof.
  intros Ho Hi. unfold cdb6_head. rewrite Z.lor_comm, lor_shl_add by (change (2 ^ 5) with 32; lia).
  change 7 with (Z.ones 3). change 0x1F with (Z.ones 5). rewrite !Z.land_ones, Z.shiftr_div_pow2 by lia.
  change (2 ^ 5) with 32. change (2 ^ 3) with 8. Z.div_mod_to_equations. lia.
Qed.

Lemma cdb6_lba lba : 0 <= lba < 2 ^ 21 ->
  (((lba >> 16) .& 0x1F) << 16) .| (u8 (lba >> 8) << 8) .| u8 lba = lba /\ (lba >> 16) >> 5 = 0.
Proof.
  intros Hl. change (2 ^ 21) with 2097152 in Hl. change 0x1F with (Z.ones 5). rewrite Z.land_ones by lia.
  rewrite !Z.shiftr_div_pow2 by lia. change (2 ^ 5) with 32. change (2 ^ 16) with 65536. change (2 ^ 8) with 256.
  assert (0 <= u8 lba < 256) as U0 by apply u8_range.
  assert (0 <= u8 (lba / 256) < 256) as U1 by apply u8_range.
  rewrite <- Z.lor_assoc, (Z.lor_comm (u8 (lba / 256) << 8)), (lor_shl_add (u8 (lba / 256)) (u8 lba) 8) by (done || lia).
  change (2 ^ 8) with 256. rewrite Z.lor_comm, lor_shl_add by (change (2 ^ 16) with 65536; lia).
  change (2 ^ 16) with 65536. split; [|Z.div_mod_to_equations; lia].
  unfold u8. Z.div_mod_to_equations. lia.
Qed.

Section Commands.
Context {H : Type} `{DmaHw H} `{!DmaHwLaws H}.
Context (host_writes : forall u o n (h : H), (pwrite_n u o n h).1 = n).
Implicit Types (p : port H).

Lemma cdb_byte (cd l : list Z) k i : take k cd = l -> (i < k)%nat -> (i < length cd)%nat -> cd !!! i = l !!! i.
Proof.
  intros <- Hk Hl. rewrite !list_lookup_total_alt, lookup_take_lt by done. done.
Qed.

Lemma exec_rw6 op lba n p : op = 0x08 \/ op = 0x0A -> icd (ac p) = false ->
  take 6 (cdb (ac p)) = op :: cdb6_rest lba n -> length (cdb (ac p)) = 16%nat ->
  0 <= lba < 2 ^ 21 -> 1 <= n <= 256 ->
  exec_command p = (if op =? 0x08 then exec_read lba n else exec_write lba n) (set_probed p).
Proof.
  intros Hop Hi Ht Hl Hlba Hn. unfold exec_command. cbv zeta. rewrite Hi. cbn [negb andb].
  assert (forall i, (i < 6)%nat -> c_byte (ac p) i = (op :: cdb6_rest lba n) !!! i) as Hc.
  { intros i Hlt. unfold c_byte. rewrite Hi. apply (cdb_byte _ _ 6); [done|done|lia]. }
  rewrite !Hc by lia. destruct (cdb6_lba lba Hlba) as [E1 E2].
  change ((op :: cdb6_rest lba n) !!! 1%nat) with (lba >> 16).
  change ((op :: cdb6_rest lba n) !!! 0%nat) with op. rewrite E2. cbn [truth negb Z.eqb].
  unfold exec_op. rewrite !Hc by lia.
  change ((op :: cdb6_rest lba n) !!! 1%nat) with (lba >> 16).
  change ((op :: cdb6_rest lba n) !!! 2%nat) with (u8 (lba >> 8)).
  change ((op :: cdb6_rest lba n) !!! 3%nat) with (u8 lba).
  change ((op :: cdb6_rest lba n) !!! 4%nat) with (u8 n). rewrite E1.
  assert ((if truth (u8 n) then u8 n else 256) = n) as En.
  { unfold truth, u8. destruct (Z.eqb_spec (n mod 256) 0); cbn [negb]; Z.div_mod_to_equations; lia. }
  rewrite En. by destruct Hop as [-> | ->].
Qed.

(** The guest sets the address counter. *)
Definition at_addr (b : Z) : port H -> port H := on_dc (fun c => {| c with dma_addr := b |}).

Lemma send6 op id lba n flags p : op = 0x08 \/ op = 0x0A -> 0 <= id < 8 ->
  acsi_inv (ac p) -> acsi_enabled (ac p) = true -> in_cdb (ac p) = false ->
  target_ok (tgt (ac p) !!! Z.to_nat id) -> length flags = 5%nat -> 0 <= lba < 2 ^ 21 -> 1 <= n <= 256 ->
  exists q, (feed ((cdb6_head op id, true) :: combine (cdb6_rest lba n) flags) p).2 =
      (if op =? 0x08 then exec_read lba n else exec_write lba n) q /\
    dc q = dc p /\ wf (ac q) /\ cur_id (ac q) = id /\ dma_fifo (ac q) = dma_fifo (ac p) /\
    n_targets (ac q) = n_targets (ac p) /\
    here q = {| (tgt (ac p) !!! Z.to_nat id) with probed := true |}.
Proof.
  intros Hop Hid Hi He Hn Ht Hfl Hl Hb. assert (0 <= op < 32) as Hor by lia.
  destruct (cdb6_head_id op id Hor Hid) as [E1 E2].
  destruct (command_protocol (cdb6_head op id) (cdb6_rest lba n) flags p) as (cd & C1 & C2 & C3); try done.
  { rewrite E1. destruct Ht as [(img & -> & _) _ _]. done. }
  { unfold cdb_size. rewrite E2. by destruct Hop as [-> | ->]. }
  rewrite C3. cbn [snd length cdb6_rest] in C1 |- *. rewrite E2 in C1.
  set (r := mk_port (collected _ _ cd (ac p)) (dc p)).
  assert (icd (ac r) = false) as Er by (cbn; rewrite E2; by destruct Hop as [-> | ->]).
  assert (wf (ac r)) as Wr.
  { destruct Hi as [[] _]. pose proof (id_range (cdb6_head op id)). split; cbn; try done. lia. }
  exists (set_probed r). split; [by apply exec_rw6|].
  assert (cur_id (ac r) = id) as Ei by done. split_and!; try done; [by apply wf_set_cur|].
  unfold here, set_probed. cbn [on_ac ac]. rewrite set_cur_id by (done || lia).
  unfold cur_tgt. rewrite Ei. done.
Qed.

Lemma rw_target_ok t : target_ok t -> target_ok {| t with probed := true |}.
Proof. intros []. by split. Qed.

(** C15: a disk remembers.  [n] sectors sent with WRITE(6) from anywhere in
    ST-RAM come back with READ(6) at any other place, byte for byte, and both
    commands end with good status: through the handshake, the DMA chip and the
    image file, whether the file is a plain, a byte-swapped or an HFS image. *)
Theorem acsi_write_read id lba n flags flags' b p :
  acsi_inv (ac p) -> acsi_enabled (ac p) = true -> in_cdb (ac p) = false -> 0 <= id < 8 ->
  target_ok (tgt (ac p) !!! Z.to_nat id) -> dma_fifo (ac p) = [] -> length flags = 5%nat -> length flags' = 5%nat ->
  0 <= lba < 2 ^ 21 -> 1 <= n <= 256 -> lba + n <= total_lba (tgt (ac p) !!! Z.to_nat id) ->
  (hfs (tgt (ac p) !!! Z.to_nat id) = true -> 1 <= lba) ->
  window p (n * 512) -> window (at_addr b p) (n * 512) ->
  let p1 := (feed ((cdb6_head 0x0A id, true) :: combine (cdb6_rest lba n) flags) p).2 in
  let '(st1, a1) := acsi_status_read (ac p1) in
  let p2 := at_addr b (mk_port a1 (dc p1)) in
  let p3 := (feed ((cdb6_head 0x08 id, true) :: combine (cdb6_rest lba n) flags') p2).2 in
  st1 = 0x00 /\ (acsi_status_read (ac p3)).1 = 0x00 /\
  block_get (mir p3) b (n * 512) = block_get (mir p) (addr_of p) (n * 512).
Proof.
  intros Hi He Hn Hid Ht Hf Hl1 Hl2 Hlba Hnb Htot Hh Hw1 Hw2. cbv zeta.
  destruct (send6 0x0A id lba n flags p) as (q & E & Ed & Wq & Iq & Fq & Nq & Tq); try done; [by right|]. rewrite E. clear E.
  change (0x0A =? 0x08) with false. cbv iota. set (t := tgt (ac p) !!! Z.to_nat id) in *.
  assert (target_ok (here q)) as Htq by (rewrite Tq; by apply rw_target_ok).
  assert (total_lba (here q) = total_lba t /\ hfs (here q) = hfs t) as [Et Eh] by (by rewrite Tq).
  set (buf := fresh_bytes 512 (hw (dc q))).
  assert (exec_write lba n q = write_blocks (Z.to_nat n) lba buf q) as ->
    by (unfold exec_write; fold (here q); by rewrite in_range by (done || lia)).
  assert (length buf = 512%nat) as Hb by (pose proof (fresh_length 512 (hw (dc q))); unfold buf; lia).
  assert (window q (Z.of_nat (Z.to_nat n) * 512)) as Hwq.
  { rewrite Z2Nat.id by lia. unfold window, addr_of, top_of in *. by rewrite Ed. }
  pose proof (write_blocks_frame (Z.to_nat n) lba buf q Wq ltac:(lia) Htq ltac:(lia) ltac:(lia) Hb) as [W I Nt F R O D].
  pose proof (write_blocks_data host_writes (Z.to_nat n) lba buf q Wq ltac:(lia) Htq ltac:(lia) ltac:(lia) ltac:(rewrite Eh; auto) Hb Hwq) as [S1 S2].
  pose proof (write_blocks_finished (Z.to_nat n) lba buf q Wq) as Fin.
  set (p1 := write_blocks _ lba buf q) in *. clearbody p1.
  unfold acsi_status_read at 1. cbn [set_irq status_valid]. rewrite (fin_valid _ Fin). cbn [negb].
  rewrite bool_decide_true by apply Fin.
  match goal with |- context [mk_port ?a (dc p1)] => set (a1 := a) end.
  set (p2 := at_addr b (mk_port a1 (dc p1))).
  assert (tgt (ac p2) !!! Z.to_nat id = here p1) as Tp2 by (unfold here, cur_tgt; by rewrite I, Iq).
  destruct (send6 0x08 id lba n flags' p2) as (r & E & Er & Wr & Ir & Fr & Nr & Tr); try done.
  { by left. }
  { split; [destruct W; by split|done]. }
  { unfold acsi_enabled in *. cbn. by rewrite Nt, Nq. }
  { cbn. unfold in_cdb. cbn. by rewrite andb_false_r. }
  { rewrite Tp2. apply D. }
  rewrite E. change (0x08 =? 0x08) with true. cbv iota. rewrite Tp2 in Tr.
  assert (addr_of r = b /\ mir r = mir p /\ top_of r = top_of p) as (Ab & Mb & Tb).
  { unfold addr_of, mir, top_of. rewrite Er. cbn. rewrite R, Ed. done. }
  destruct (read_delivers lba n r) as (D1 & _ & _ & _ & D5 & _); try done; try lia.
  { rewrite Fr. cbn. by rewrite F, Fq. }
  { rewrite Tr. apply rw_target_ok, D. }
  { rewrite Tr. cbn. rewrite (ch_total _ _ _ _ D). lia. }
  { unfold window in *. rewrite Ab, Tb. exact Hw2. }
  split_and!; [exact S1| |].
  - assert (finished (ac (exec_read lba n r))) as Fi.
    { unfold exec_read. destruct (bad_range _ _ _); [by apply check_finished|by apply read_blocks_finished]. }
    unfold acsi_status_read. cbn [set_irq status_valid]. rewrite (fin_valid _ Fi). exact D1.
  - rewrite Ab in D5. rewrite D5, Tr. change (sectors {| (here p1) with probed := true |}) with (sectors (here p1)).
    rewrite S2, Z2Nat.id by lia. unfold mir, addr_of. by rewrite Ed.
Qed.
End Commands.
