(* ===== verification/Blitter.v ===== *)
(** * Blitter: the emulated ST BLiTTER ([platforms/atari/st_blitter.c])

    The register file, the word engine with its source FIFO, skew, halftone,
    logic operations and endmasks, and the guest's register accesses.  The
    engine reaches memory through [pistorm_blit_read16]/[write16]
    ([pistorm_natmem.cpp]), modelled over the memory interface [Bus]. *)

From S2P Require Import Prelude Flags Cpu.
From Stdlib Require Import ZArith Lia Bool.
From stdpp Require Import base list gmap.
Open Scope Z_scope.
Open Scope cint_scope.

(** ** State and surroundings *)
Record blitter := mk_blitter {
  R : list Z;                 (* uint8_t R[0x40], big-endian *)
  g_fifo : Z; g_bus_word : Z; g_busy_until : Z; g_accesses : Z }.

Record blit_env := mk_blit_env {
  tt_ram_available : bool; tt_ram_size : Z; g_stram_top : Z;
  pst_blit_timed_ns : Z;
  now_ns : Z }.               (* blit_now_ns() at this call *)

Definition BLIT_TT_BASE := 0x01000000.

Section Blitter.
Context {M : Type} `{Bus M} (env : blit_env).

Definition blit_is_tt (a : Z) : bool :=
  tt_ram_available env && (BLIT_TT_BASE <=? a) && (a - BLIT_TT_BASE <? tt_ram_size env).
Definition blit_addr_mask (a : Z) : Z := if blit_is_tt a then 0xFFFFFFFE else 0x00FFFFFE.

Definition blit_timing_cfg : Z :=
  let ns := pst_blit_timed_ns env in if (ns <? 0) || (100000 <? ns) then 0 else ns.

(** ** Memory ([pistorm_natmem.cpp]): TT-RAM or the 24-bit space, where only
    ST-RAM can be written.  The write-through to the machine's bus and the
    invalidation of translated code are not part of the model. *)
Definition blit_tt (a : Z) : bool :=
  tt_ram_available env && (BLIT_TT_BASE <=? a) && (a - BLIT_TT_BASE <? u32 (tt_ram_size env - 1)).
Definition pistorm_blit_read16 (a : Z) (m : M) : Z :=
  if blit_tt a then get_word m (a .& 0xFFFFFFFE) else get_word m (a .& 0x00FFFFFE).
Definition pistorm_blit_write16 (a v : Z) (m : M) : M :=
  if blit_tt a then put_word (a .& 0xFFFFFFFE) v m
  else let a := a .& 0x00FFFFFE in if g_stram_top env <=? a then m else put_word a v m.

(** ** Register file *)
Definition rb (r : list Z) (off : Z) : Z := r !!! Z.to_nat off.
Definition wb (off v : Z) (r : list Z) : list Z := <[Z.to_nat off := u8 v]> r.
Definition rd16 (r : list Z) (off : Z) : Z := u16 ((rb r off << 8) .| rb r (off + 1)).
Definition wr16 (off v : Z) (r : list Z) : list Z := wb (off + 1) v (wb off (v >> 8) r).
Definition rd32 (r : list Z) (off : Z) : Z := (rd16 r off << 16) .| rd16 r (off + 2).
Definition wr32 (off v : Z) (r : list Z) : list Z := wr16 (off + 2) (u16 v) (wr16 off (u16 (v >> 16)) r).

Definition and_reg (off msk : Z) (r : list Z) : list Z := wb off (rb r off .& msk) r.

(** The don't-care bits, in the order the code clears them. *)
Definition sanitize_masks : list (Z * Z) :=
  [(0x21, 0xFE); (0x23, 0xFE); (0x2F, 0xFE); (0x31, 0xFE); (0x27, 0xFE); (0x35, 0xFE);
   (0x3A, 0x03); (0x3B, 0x0F); (0x3C, 0xEF); (0x3D, 0xCF)].
Definition sanitize (r : list Z) : list Z :=
  foldl (fun r '(off, msk) => and_reg off msk r) r sanitize_masks.

(** ** The sixteen logic operations *)
Definition blit_op (op s d : Z) : Z :=
  match op .& 0xF with
  | 0 => 0
  | 1 => s .& d
  | 2 => u16 (s .& Z.lnot d)
  | 3 => s
  | 4 => u16 (Z.lnot s .& d)
  | 5 => d
  | 6 => s .^ d
  | 7 => s .| d
  | 8 => u16 (Z.lnot s .& Z.lnot d)
  | 9 => u16 (Z.lnot (s .^ d))
  | 10 => u16 (Z.lnot d)
  | 11 => u16 (s .| Z.lnot d)
  | 12 => u16 (Z.lnot s)
  | 13 => u16 (Z.lnot s .| d)
  | 14 => u16 (Z.lnot s .| Z.lnot d)
  | _ => 0xFFFF
  end.

Definition lop_src (op : Z) : bool := negb ((op =? 0) || (op =? 5) || (op =? 10) || (op =? 15)).
Definition lop_dst (op : Z) : bool := negb ((op =? 0) || (op =? 3) || (op =? 12) || (op =? 15)).

(** ** One blit: the constants read from the registers, and what the loop
    changes *)
Record blit_cfg := mk_cfg {
  smask : Z; dmask : Z; sxi : Z; syi : Z; dxi : Z; dyi : Z; em1 : Z; em2 : Z; em3 : Z;
  xc : Z; hop : Z; op : Z; smudge : bool; fxsr : bool; nfsr : bool; skew : Z;
  halftone : list Z }.        (* the register file, for the halftone words *)

Record blit_st := mk_bst {
  src : Z; dst : Z; x : Z; yc : Z; line : Z; buf : Z; bus_word : Z; accesses : Z;
  have_fxsr : bool; st_fxsr : bool; st_nfsr : bool; mem : M }.

Definition desc (c : blit_cfg) : bool := sxi c <? 0.
Definition fifo_shift (c : blit_cfg) (b : Z) : Z := if desc c then b >> 16 else u32 (b << 16).
Definition fifo_insert (c : blit_cfg) (w b : Z) : Z := b .| (if desc c then u32 (w << 16) else w).
Definition fifo_push (c : blit_cfg) (w b : Z) : Z := fifo_insert c w (fifo_shift c b).

(** A source fetch: FIFO, bus latch, access count. *)
Definition fetch (c : blit_cfg) (s : blit_st) : blit_st :=
  let w := pistorm_blit_read16 (src s) (mem s) in
  {| s with bus_word := w; buf := fifo_push c w (buf s); accesses := u32 (accesses s + 1) |}.

Definition word_mask (c : blit_cfg) (x : Z) : Z :=
  if (x =? xc c) || (xc c =? 1) then em1 c else if x =? 1 then em3 c else em2 c.

Definition need_src (c : blit_cfg) : bool :=
  lop_src (op c) && (truth (hop c .& 2) || ((hop c =? 1) && smudge c)).
Definition need_dst (c : blit_cfg) (mask : Z) : bool := lop_dst (op c) || (mask != 0xFFFF).

(** The source operand after skew, halftone and HOP. *)
Definition source_word (c : blit_cfg) (buf line : Z) : Z :=
  let sw := u16 (buf >> skew c) in
  let ht := rd16 (halftone c) ((if smudge c then sw .& 0xF else line) * 2) in
  match hop c with
  | 0 => 0xFFFF
  | 1 => ht
  | 2 => sw
  | _ => sw .& ht
  end.

Definition out_word (c : blit_cfg) (mask sdata dst_word : Z) : Z :=
  if mask != 0xFFFF
  then u16 ((blit_op (op c) sdata dst_word .& mask) .| (dst_word .& Z.lnot mask))
  else blit_op (op c) sdata dst_word.

(** *** One iteration of the [while (yc)] loop, in the code's order *)
(** the flags of a new line *)
Definition word_begin (c : blit_cfg) (s : blit_st) : blit_st :=
  if x s =? xc c then {| s with st_nfsr := false; st_fxsr := fxsr c |} else s.

(** the extra fetch FXSR forces at the start of a line *)
Definition word_prefetch (c : blit_cfg) (s : blit_st) : blit_st :=
  if st_fxsr s && negb (have_fxsr s) && need_src c
  then let s := fetch c s in
       {| s with src := u32 (src s + sxi c) .& smask c; have_fxsr := true |}
  else s.

Definition fetches (c : blit_cfg) (s : blit_st) : bool := need_src c && negb (st_nfsr s).

Definition word_dest (c : blit_cfg) (mask : Z) (s : blit_st) : Z * blit_st :=
  if need_dst c mask
  then let w := pistorm_blit_read16 (dst s) (mem s) in
       (w, {| s with bus_word := w; accesses := u32 (accesses s + 1) |})
  else (0, s).

(** NFSR's pseudo-fetch of the word last seen on the bus *)
Definition word_nfsr (c : blit_cfg) (s : blit_st) : blit_st :=
  if nfsr c && (x s =? 1) && need_src c
  then {| s with buf := fifo_push c (bus_word s) (buf s) |} else s.

Definition word_store (out : Z) (s : blit_st) : blit_st :=
  {| s with mem := pistorm_blit_write16 (dst s) out (mem s); bus_word := out;
            accesses := u32 (accesses s + 1) |}.

(** the updates after the word *)
Definition word_advance (c : blit_cfg) (fetch_src : bool) (s : blit_st) : blit_st :=
  let s := if (x s =? 2) && nfsr c then {| s with st_nfsr := true |} else s in
  let s := if fetch_src
           then {| s with src := u32 (src s + (if (x s =? 1) || st_nfsr s then syi c else sxi c)) .& smask c |}
           else s in
  if x s =? 1
  then {| s with have_fxsr := false; yc := yc s - 1; x := xc c;
                 dst := u32 (dst s + dyi c) .& dmask c;
                 line := (line s + (if 0 <=? dyi c then 1 else -1)) .& 0xF |}
  else {| s with x := x s - 1; dst := u32 (dst s + dxi c) .& dmask c |}.

Definition blit_word (c : blit_cfg) (s : blit_st) : blit_st :=
  let mask := word_mask c (x s) in
  let s := word_prefetch c (word_begin c s) in
  let fetch_src := fetches c s in
  let s := if fetch_src then fetch c s else s in
  let '(dst_word, s) := word_dest c mask s in
  let s := word_nfsr c s in
  let out := out_word c mask (source_word c (buf s) (line s)) dst_word in
  word_advance c fetch_src (word_nfsr c (word_store out s)).

(** [while (yc)]; one unit of fuel per word. *)
Fixpoint blit_loop (fuel : nat) (c : blit_cfg) (s : blit_st) : blit_st :=
  if yc s =? 0 then s
  else match fuel with O => s | S n => blit_loop n c (blit_word c s) end.

Definition blit_config (r : list Z) : blit_cfg :=
  let xc := rd16 r 0x36 in
  mk_cfg (blit_addr_mask (rd32 r 0x24)) (blit_addr_mask (rd32 r 0x32))
    (s16 (rd16 r 0x20)) (s16 (rd16 r 0x22)) (s16 (rd16 r 0x2E)) (s16 (rd16 r 0x30))
    (rd16 r 0x28) (rd16 r 0x2A) (rd16 r 0x2C) (if xc =? 0 then 65536 else xc)
    (rb r 0x3A .& 3) (rb r 0x3B .& 0xF) (truth (rb r 0x3C .& 0x20)) (truth (rb r 0x3D .& 0x80))
    (truth (rb r 0x3D .& 0x40)) (rb r 0x3D .& 0xF) r.

Definition blit_start (b : blitter) (m : M) : blit_st :=
  let r := R b in
  let c := blit_config r in
  mk_bst (rd32 r 0x24 .& smask c) (rd32 r 0x32 .& dmask c) (xc c) (rd16 r 0x38)
    (rb r 0x3C .& 0xF) (g_fifo b) (g_bus_word b) 0 false false false m.

Definition blit_run (b : blitter) (m : M) : blitter * M :=
  let c := blit_config (R b) in
  let s0 := blit_start b m in
  if yc s0 =? 0 then ({| b with R := and_reg 0x3C 0x7F (R b) |}, m)
  else
    let s := blit_loop (Z.to_nat (yc s0 * xc c)) c s0 in
    let ns := blit_timing_cfg in
    let busy := if truth ns
                then let dur := u64 (accesses s * ns) in
                     u64 (now_ns env + (if truth (rb (R b) 0x3C .& 0x40) then dur else u64 (dur * 2)))
                else g_busy_until b in
    let r := wr16 0x38 0 (wr32 0x32 (dst s .& dmask c) (wr32 0x24 (src s .& smask c) (R b))) in
    (mk_blitter (wb 0x3C ((rb r 0x3C .& 0x60) .| line s) r) (buf s) (bus_word s) busy (accesses s), mem s).

(** ** Guest accesses *)
Definition read_reg_byte (b : blitter) (o : Z) : Z :=
  let v := if ((o =? 0x24) && negb (blit_is_tt (rd32 (R b) 0x24)))
              || ((o =? 0x32) && negb (blit_is_tt (rd32 (R b) 0x32))) then 0 else rb (R b) o in
  if (o =? 0x3C) && truth (g_busy_until b) && (now_ns env <? g_busy_until b) then v .| 0x80 else v.

Fixpoint reg_read_loop (n : nat) (off : Z) (b : blitter) (v : Z) : Z :=
  match n with
  | O => v
  | S k => reg_read_loop k (off + 1) b (u32 (v << 8) .| read_reg_byte b (off .& 0x3F))
  end.
Definition st_blitter_reg_read (addr size : Z) (b : blitter) : Z :=
  reg_read_loop (Z.to_nat size) (addr .& 0x3F) b 0.

(** The bytes of [val], the most significant of [size] first. *)
Fixpoint reg_write_loop (n : nat) (off val : Z) (r : list Z) : list Z :=
  match n with
  | O => r
  | S k => reg_write_loop k (off + 1) val (wb (off .& 0x3F) (val >> (8 * Z.of_nat k)) r)
  end.
Definition st_blitter_reg_write (addr val size : Z) (b : blitter) (m : M) : blitter * M :=
  let off := addr .& 0x3F in
  let b := {| b with R := sanitize (reg_write_loop (Z.to_nat size) off val (R b)) |} in
  if (off <=? 0x3C) && (0x3C <? off + size) && truth (rb (R b) 0x3C .& 0x80) then blit_run b m else (b, m).

Definition st_blitter_reset (b : blitter) : blitter := mk_blitter (replicate 64 0) 0 0 0 (g_accesses b).
End Blitter.
