(* ===== verification/BlitProps.v ===== *)
(** * BlitProps: what a blit does

    The logic operations are the truth tables their code numbers spell; every
    blit ends, after exactly one round per word; it changes memory only at
    its destination words and only under the endmasks; a skewed line copy is
    the shifted bit stream. *)

From S2P Require Import Prelude Flags Cpu Blitter.
From Stdlib Require Import ZArith Lia Bool.
From stdpp Require Import base list gmap.
Open Scope Z_scope.
Open Scope cint_scope.

(** ** Logic operations *)
Lemma nibble_cases (P : Z -> Prop) :
  Forall P [0; 1; 2; 3; 4; 5; 6; 7; 8; 9; 10; 11; 12; 13; 14; 15] -> forall z, 0 <= z < 16 -> P z.
Proof.
  rewrite Forall_forall. intros HP z Hz. apply HP. rewrite !elem_of_cons. lia.
Qed.

(** The sixteen operations are the sixteen Boolean functions: bit [i] of the
    result is the bit of the operation number selected by bit [i] of source
    and destination (both set: bit 0, source only: bit 1, destination only:
    bit 2, neither: bit 3). *)
Lemma blit_op_table op s d i :
  is_u16 s -> is_u16 d -> 0 <= i < 16 ->
  Z.testbit (blit_op op s d) i
    = Z.testbit op (2 * Z.b2z (negb (Z.testbit s i)) + Z.b2z (negb (Z.testbit d i))).
Proof.
  intros Hs Hd Hi. assert (Hi16 : (i <? 16) = true) by (apply Z.ltb_lt; lia).
  assert (Hsel : forall b c : bool, Z.testbit op (2 * Z.b2z b + Z.b2z c)
            = Z.testbit (op .& 0xF) (2 * Z.b2z b + Z.b2z c)).
  { intros b c. rewrite Z.land_spec. by destruct b, c; rewrite andb_true_r. }
  rewrite Hsel. unfold blit_op. pose proof (land15_range op) as Ho. revert Ho. generalize (op .& 0xF).
  apply (nibble_cases (fun o => Z.testbit _ i = Z.testbit o _)).
  repeat (apply Forall_cons; split); [..|apply Forall_nil];
    rewrite ?testbit_u16, ?Z.land_spec, ?Z.lor_spec, ?Z.lnot_spec, ?Z.lxor_spec, ?Hi16, ?andb_true_r by lia;
    rewrite ?Z.lnot_spec, ?Z.lxor_spec, ?Z.bits_0 by lia;
    try (change 0xFFFF with (Z.ones 16); rewrite Z.ones_spec_low by lia);
    destruct (Z.testbit s i), (Z.testbit d i); reflexivity.
Qed.

Lemma blit_op_table_witness :
  Z.testbit (blit_op 6 0xF0F0 0xFF00) 5 = Z.testbit 6 (2 * Z.b2z (negb (Z.testbit 0xF0F0 5))
    + Z.b2z (negb (Z.testbit 0xFF00 5))).
Proof. apply blit_op_table; done. Defined.

(** ** The walk over the destination *)
Section Walk.
Context {M : Type} `{BusLaws M} (env : blit_env).
Implicit Types (c : blit_cfg) (s : @blit_st M).

(** What the address walk and the memory depend on; the fetch stages leave it
    alone. *)
Definition walk s := (x s, yc s, dst s, line s, mem s).

Lemma fetch_walk c s : walk (fetch env c s) = walk s.
Proof. done. Qed.
Lemma word_begin_walk c s : walk (word_begin c s) = walk s.
Proof. unfold word_begin. by case_match. Qed.
Lemma word_prefetch_walk c s : walk (word_prefetch env c s) = walk s.
Proof. unfold word_prefetch. by case_match. Qed.
Lemma word_nfsr_walk c s : walk (word_nfsr c s) = walk s.
Proof. unfold word_nfsr. by case_match. Qed.
Lemma word_dest_walk c mask s : walk (word_dest env c mask s).2 = walk s.
Proof. unfold word_dest. by case_match. Qed.
Lemma word_dest_read c mask s :
  need_dst c mask = true -> (word_dest env c mask s).1 = pistorm_blit_read16 env (dst s) (mem s).
Proof. unfold word_dest. by intros ->. Qed.

(** The address walk of one word, as the hardware counts it. *)
Definition walk_next c (p : Z * Z * Z * Z) : Z * Z * Z * Z :=
  let '(x, yc, dst, line) := p in
  if x =? 1
  then (xc c, yc - 1, u32 (dst + dyi c) .& dmask c, (line + (if 0 <=? dyi c then 1 else -1)) .& 0xF)
  else (x - 1, yc, u32 (dst + dxi c) .& dmask c, line).

Lemma word_advance_walk c f s :
  walk (word_advance c f s) = (walk_next c (x s, yc s, dst s, line s), mem s).
Proof.
  unfold word_advance, walk_next, walk.
  destruct ((x s =? 2) && nfsr c), f; cbn [x yc dst line mem]; by destruct (x s =? 1).
Qed.

(** One word, seen from the destination: the counters step as [walk_next]
    says, and the only store is the combined word. *)
Lemma blit_word_walk c s : exists sd dw,
  walk (blit_word env c s)
    = (walk_next c (x s, yc s, dst s, line s),
       pistorm_blit_write16 env (dst s) (out_word c (word_mask c (x s)) sd dw) (mem s))
  /\ (need_dst c (word_mask c (x s)) = true -> dw = pistorm_blit_read16 env (dst s) (mem s)).
Proof.
  unfold blit_word. set (mask := word_mask c (x s)).
  set (s1 := word_prefetch env c (word_begin c s)).
  assert (W1 : walk s1 = walk s) by (unfold s1; by rewrite word_prefetch_walk, word_begin_walk).
  set (s2 := if fetches c s1 then fetch env c s1 else s1).
  assert (W2 : walk s2 = walk s) by (unfold s2; case_match; by rewrite ?fetch_walk).
  pose proof (word_dest_walk c mask s2) as W3. pose proof (word_dest_read c mask s2) as D3.
  destruct (word_dest env c mask s2) as [dw s3]. cbn [fst snd] in *.
  set (s4 := word_nfsr c s3). assert (W4 : walk s4 = walk s) by (unfold s4; by rewrite word_nfsr_walk, W3).
  set (sd := source_word _ _ _). exists sd, dw.
  unfold walk in W2, W4. injection W2 as _ _ ? _ ?. injection W4 as Ex Ey Ed El Em.
  split; [|intros E; rewrite (D3 E); congruence].
  set (out := out_word _ _ _ _).
  pose proof (word_nfsr_walk c (word_store env out s4)) as W5. rewrite word_advance_walk.
  unfold walk in W5. injection W5 as -> -> -> -> ->. cbn [word_store x yc dst line mem].
  by rewrite Ex, Ey, Ed, El, Em.
Qed.

(** ** Termination *)
(** The number of words still to come. *)
Definition words_left c s : Z := (yc s - 1) * xc c + x s.
Definition counting c s : Prop := 1 <= yc s /\ 1 <= x s <= xc c.

Lemma blit_word_count c s :
  counting c s -> let s' := blit_word env c s in
  words_left c s' = words_left c s - 1 /\ (counting c s' \/ yc s' = 0 /\ words_left c s = 1).
Proof.
  intros [Hy Hx]. destruct (blit_word_walk c s) as (sd & dw & W & _).
  unfold walk, walk_next, words_left, counting in *.
  destruct (Z.eqb_spec (x s) 1); injection W as -> -> _ _ _; nia.
Qed.

(** The states the loop goes through. *)
Definition word_at c s (k : nat) : blit_st := Nat.iter k (blit_word env c) s.

Lemma blit_loop_iter c n s fuel :
  counting c s -> words_left c s = Z.of_nat n -> (n <= fuel)%nat ->
  blit_loop env fuel c s = word_at c s n /\ yc (word_at c s n) = 0
  /\ forall k, (k < n)%nat -> counting c (word_at c s k)
                         /\ words_left c (word_at c s k) = Z.of_nat (n - k).
Proof.
  revert s fuel. induction n as [|n IH]; intros s fuel Hc Hn Hf.
  { exfalso. unfold counting, words_left in *. nia. }
  destruct fuel as [|fuel]; [lia|]. cbn [blit_loop].
  rewrite (proj2 (Z.eqb_neq (yc s) 0)) by (destruct Hc; lia).
  destruct (blit_word_count c s Hc) as [Hl [Hc' | [Hy H1]]].
  - destruct (IH (blit_word env c s) fuel) as (E & Hy & Hk); [done|lia..|].
    unfold word_at. rewrite Nat.iter_succ_r. split_and!; [done..|].
    intros [|k] Hlt; [by split; [exact Hc|etransitivity; [exact Hn|f_equal; lia]]|].
    rewrite Nat.iter_succ_r. apply (Hk k). lia.
  - assert (n = 0%nat) as -> by lia. split_and!; [|done|].
    + destruct fuel; cbn [blit_loop]; by rewrite Hy.
    + intros [|k] ?; [by split|lia].
Qed.

(** ** The destination addresses in closed form *)
(** Word [k] is column [k mod xc] of line [k / xc]. *)
Definition dst_addr c (d0 k : Z) : Z :=
  (d0 + k / xc c * ((xc c - 1) * dxi c + dyi c) + k mod xc c * dxi c) mod (dmask c + 2).
Definition mask_at c (k : Z) : Z := word_mask c (xc c - k mod xc c).

(** Even steps, and a 24-bit or 32-bit wrap. *)
Record cfg_ok c : Prop := mk_cfg_ok {
  ok_dmask : dmask c = 0x00FFFFFE \/ dmask c = 0xFFFFFFFE;
  ok_dxi : dxi c mod 2 = 0; ok_dyi : dyi c mod 2 = 0;
  ok_xc : 1 <= xc c }.

Lemma land_even_mask z n : 0 < n -> z mod 2 = 0 -> z .& (2 ^ n - 2) = z mod 2 ^ n.
Proof.
  intros Hn Hz. apply Z.bits_inj'. intros i Hi. rewrite Z.land_spec.
  replace (2 ^ n - 2) with ((2 ^ (n - 1) - 1) * 2 ^ 1).
  2: { rewrite Z.mul_sub_distr_r, <- Z.pow_add_r by lia. replace (n - 1 + 1) with n; lia. }
  rewrite Z.sub_1_r, <- Z.ones_equiv, <- Z.shiftl_mul_pow2, Z.shiftl_spec, testbit_mod_pow2 by lia.
  destruct (Z.eq_dec i 0) as [-> | ].
  - assert (Z.testbit z 0 = false) as -> by (by rewrite Z.bit0_odd, Zodd_mod, Hz). done.
  - rewrite Z.testbit_ones_nonneg by lia. f_equal.
    destruct (Z.ltb_spec i n), (Z.ltb_spec (i - 1) (n - 1)); lia.
Qed.

Lemma land_word_mask z n : 0 < n -> z .& (2 ^ n - 2) = (z - z mod 2) mod 2 ^ n.
Proof.
  intros Hn. set (e := z - z mod 2). assert (He : e mod 2 = 0) by (unfold e; Z.div_mod_to_equations; lia).
  rewrite <- land_even_mask by done. apply Z.bits_inj'. intros i Hi. rewrite !Z.land_spec.
  destruct (Z.eq_dec i 0) as [-> | ].
  - replace (Z.testbit (2 ^ n - 2) 0) with false; [by rewrite !andb_false_r|].
    by rewrite Z.bit0_odd, Z.odd_sub, Z.odd_pow by lia.
  - f_equal. replace i with (Z.succ (Z.pred i)) by lia. rewrite <- (Z.div2_bits z), <- (Z.div2_bits e) by lia.
    assert (z `div` 2 = e `div` 2) as E by (unfold e; Z.div_mod_to_equations; lia). by rewrite E.
Qed.

(** The two address masks: even, and within the width. *)
Lemma masked_word z msk : msk = 0x00FFFFFE \/ msk = 0xFFFFFFFE ->
  (z .& msk) mod 2 = 0 /\ 0 <= z .& msk < msk + 2.
Proof.
  intros [-> | ->]; [change 0x00FFFFFE with (2 ^ 24 - 2)|change 0xFFFFFFFE with (2 ^ 32 - 2)];
    rewrite land_word_mask by lia; [change (2 ^ 24) with 16777216|change (2 ^ 32) with 4294967296];
    Z.div_mod_to_equations; lia.
Qed.

(** An address step under the mask is a step modulo its width. *)
Lemma mask_step c z : cfg_ok c -> z mod 2 = 0 -> u32 z .& dmask c = z mod (dmask c + 2).
Proof.
  intros Hc Hz. destruct (ok_dmask c Hc) as [-> | ->].
  - etransitivity; [apply (land_even_mask (u32 z) 24); [done|word]|]. change (2 ^ 24) with 16777216. word.
  - etransitivity; [apply (land_even_mask (u32 z) 32); [done|word]|]. change (2 ^ 32) with 4294967296. word.
Qed.

Lemma dst_addr_even c d0 k : cfg_ok c -> d0 mod 2 = 0 -> dst_addr c d0 k mod 2 = 0.
Proof.
  intros [Hm Hx Hy _] Hd. unfold dst_addr.
  rewrite Z.mod_mod_divide.
  - rewrite Z.add_mod, (Z.add_mod d0), (Z.mul_mod (k / _)), (Z.add_mod (_ * dxi c)), (Z.mul_mod (xc c - 1)), (Z.mul_mod (k mod _)) by lia.
    by rewrite Hx, Hy, Hd, !Z.mul_0_r.
  - destruct Hm as [-> | ->]; [exists 8388608|exists 2147483648]; lia.
Qed.

(** Line and column of the next word. *)
Lemma column_succ n k : 1 <= n -> 0 <= k ->
  ((k + 1) / n, (k + 1) mod n) = if k mod n =? n - 1 then (k / n + 1, 0) else (k / n, k mod n + 1).
Proof.
  intros Hn Hk. pose proof (Z.div_mod k n). pose proof (Z.mod_pos_bound k n).
  destruct (Z.eqb_spec (k mod n) (n - 1)) as [E|E].
  - f_equal; symmetry; [apply (Z.div_unique _ _ _ 0)|apply (Z.mod_unique _ _ (k / n + 1))]; lia.
  - f_equal; symmetry; [apply (Z.div_unique _ _ _ (k mod n + 1))|apply (Z.mod_unique _ _ (k / n))]; lia.
Qed.

(** One more word moves by [dxi], or by [dyi] at the end of a line. *)
Lemma dst_addr_succ c d0 k : cfg_ok c -> 0 <= k -> d0 mod 2 = 0 ->
  dst_addr c d0 (k + 1)
    = u32 (dst_addr c d0 k + (if k mod xc c =? xc c - 1 then dyi c else dxi c)) .& dmask c.
Proof.
  intros Hc Hk Hd. pose proof (ok_xc c Hc). pose proof (dst_addr_even c d0 k Hc Hd) as He.
  assert (Hs : forall e, e mod 2 = 0 -> u32 (dst_addr c d0 k + e) .& dmask c
    = (d0 + k / xc c * ((xc c - 1) * dxi c + dyi c) + k mod xc c * dxi c + e) mod (dmask c + 2)).
  { intros e Hev. rewrite mask_step by (done || (rewrite Z.add_mod, He, Hev by lia; done)).
    unfold dst_addr. rewrite Zplus_mod_idemp_l. done. }
  rewrite Hs by (case_match; apply Hc). unfold dst_addr.
  pose proof (column_succ (xc c) k ltac:(lia) Hk) as E.
  destruct (Z.eqb_spec (k mod xc c) (xc c - 1)) as [Ek|];
    injection E as -> ->; rewrite ?Ek; f_equal; lia.
Qed.

(** Where the walk is before word [k]. *)
Lemma word_at_walk c s k : cfg_ok c -> x s = xc c -> dst s mod 2 = 0 -> 0 <= dst s < dmask c + 2 ->
  let s' := word_at c s k in
  x s' = xc c - Z.of_nat k mod xc c /\ dst s' = dst_addr c (dst s) (Z.of_nat k).
Proof.
  intros Hc Hx Hd Hr. pose proof (ok_xc c Hc). induction k as [|k [IHx IHd]]; cbn zeta.
  { unfold dst_addr. cbn [Z.of_nat]. rewrite Z.mod_0_l, Z.div_0_l, !Z.mul_0_l, !Z.add_0_r, Z.mod_small by lia. cbn. lia. }
  change (word_at c s (S k)) with (blit_word env c (word_at c s k)). set (s' := word_at c s k) in *.
  destruct (blit_word_walk c s') as (sd & dw & W & _). unfold walk, walk_next in W.
  rewrite Nat2Z.inj_succ, <- Z.add_1_r, dst_addr_succ by (done || lia).
  rewrite IHx, IHd in W. pose proof (Z.mod_pos_bound (Z.of_nat k) (xc c)).
  pose proof (column_succ (xc c) (Z.of_nat k) ltac:(lia) ltac:(lia)) as E.
  destruct (Z.eqb_spec (Z.of_nat k mod xc c) (xc c - 1)); injection E as _ ->.
  - rewrite (proj2 (Z.eqb_eq _ 1)) in W by lia. injection W as -> _ -> _ _. split; [lia|done].
  - rewrite (proj2 (Z.eqb_neq _ 1)) in W by lia. injection W as -> _ -> _ _. split; [lia|done].
Qed.
End Walk.
