(* ===== verification/BlitSafe.v ===== *)
(** * BlitSafe: the blitter's registers and the memory it can reach

    The register file keeps the form [sanitize] gives it; a blit terminates
    after one round per word; a bit of memory outside the destination words,
    or inside them but outside the endmasks, is never changed. *)

From S2P Require Import Prelude Flags Cpu Blitter BlitProps.
From Stdlib Require Import ZArith Lia Bool.
From stdpp Require Import base list gmap.
Open Scope Z_scope.
Open Scope cint_scope.

(** ** Registers *)
Lemma rb_wb o v o' r : length r = 64%nat -> 0 <= o < 64 -> 0 <= o' < 64 ->
  rb (wb o v r) o' = if o =? o' then u8 v else rb r o'.
Proof.
  intros Hl Ho Ho'. unfold rb, wb. destruct (Z.eqb_spec o o') as [-> | ].
  - apply list_lookup_total_insert_eq. lia.
  - apply list_lookup_total_insert_ne. lia.
Qed.

Lemma length_wb o v r : length (wb o v r) = length r.
Proof. apply length_insert. Qed.
Lemma length_wr16 o v r : length (wr16 o v r) = length r.
Proof. unfold wr16. by rewrite !length_wb. Qed.
Lemma length_wr32 o v r : length (wr32 o v r) = length r.
Proof. unfold wr32. by rewrite !length_wr16. Qed.
Lemma length_sanitize r : length (sanitize r) = length r.
Proof. unfold sanitize, sanitize_masks, and_reg. cbn [foldl]. by rewrite !length_wb. Qed.

(** Sixty-four bytes, with the don't-care bits clear. *)
Definition cares (o v : Z) : Prop := Forall (fun p => p.1 = o -> v .& p.2 = v) sanitize_masks.
Definition regs_ok (r : list Z) : Prop :=
  length r = 64%nat /\ Forall is_u8 r /\ forall o, 0 <= o < 64 -> cares o (rb r o).

Lemma is_u8_wb o v r : Forall is_u8 r -> Forall is_u8 (wb o v r).
Proof. intros. apply Forall_insert; [done|apply u8_range]. Qed.

Lemma regs_ok_wb o v r : 0 <= o < 64 -> regs_ok r -> cares o (u8 v) -> regs_ok (wb o v r).
Proof.
  intros Ho (Hl & Hu & Hc) Hv. split_and!; [by rewrite length_wb|by apply is_u8_wb|].
  intros o' Ho'. rewrite rb_wb by done. destruct (Z.eqb_spec o o') as [<- | ]; auto.
Qed.

Lemma u8_land_same z m : u8 (z .& m) .& m = u8 (z .& m).
Proof.
  apply Z.bits_inj'. intros i Hi. rewrite Z.land_spec, testbit_u8, Z.land_spec.
  by destruct (Z.testbit z i), (Z.testbit m i), (i <? 8).
Qed.

(** A byte whose register has no don't-care bits. *)
Ltac free_reg := unfold cares, sanitize_masks; repeat constructor; cbn [fst snd]; lia.
(** Settle a question about registers at literal offsets. *)
Ltac regs := repeat (rewrite rb_wb by (rewrite ?length_wb; (done || lia)); cbn [Z.eqb Pos.eqb]).

Lemma blit_sanitize_ok r : length r = 64%nat -> Forall is_u8 r -> regs_ok (sanitize r).
Proof.
  intros Hl Hu. split_and!; [by rewrite length_sanitize| |].
  - unfold sanitize, sanitize_masks, and_reg. cbn [foldl]. by repeat apply is_u8_wb.
  - intros o Ho. unfold cares, sanitize_masks. repeat constructor; cbn [fst snd]; intros <-;
      unfold sanitize, sanitize_masks, and_reg; cbn [foldl]; regs; apply u8_land_same.
Qed.

Lemma reg_write_loop_ok n off val r :
  length r = 64%nat -> Forall is_u8 r ->
  length (reg_write_loop n off val r) = 64%nat /\ Forall is_u8 (reg_write_loop n off val r).
Proof.
  revert off r. induction n as [|n IH]; intros off r Hl Hu; cbn [reg_write_loop]; [done|].
  apply IH; [by rewrite length_wb|by apply is_u8_wb].
Qed.

Section Run.
Context {M : Type} `{BusLaws M} (env : blit_env).
Implicit Types (b : blitter) (m : M) (s : @blit_st M).

Lemma addr_mask_cases a :
  blit_addr_mask env a = 0x00FFFFFE \/ blit_addr_mask env a = 0xFFFFFFFE.
Proof. unfold blit_addr_mask. case_match; auto. Qed.

(** A masked address has an even low byte. *)
Lemma masked_even z a : let v := u8 (u16 (z .& blit_addr_mask env a)) in v .& 0xFE = v.
Proof.
  cbn zeta. apply Z.bits_inj'. intros i Hi. rewrite Z.land_spec, testbit_u8, testbit_u16, Z.land_spec.
  destruct (Z.ltb_spec i 8); [|by rewrite !andb_false_r].
  assert (Z.testbit (blit_addr_mask env a) i = Z.testbit 0xFE i) as ->.
  { assert (Hin : i = 0 \/ i = 1 \/ i = 2 \/ i = 3 \/ i = 4 \/ i = 5 \/ i = 6 \/ i = 7) by lia.
    destruct (addr_mask_cases a) as [-> | ->]; by repeat destruct Hin as [-> | Hin]; subst. }
  by destruct (Z.testbit z i), (Z.testbit 0xFE i), (i <? 16).
Qed.

Lemma walk_line c s : 0 <= line s < 16 -> 0 <= line (blit_word env c s) < 16.
Proof.
  intros Hl. destruct (blit_word_walk env c s) as (sd & dw & W & _). unfold walk, walk_next in W.
  destruct (x s =? 1); injection W as _ _ _ -> _; [apply land15_range|done].
Qed.

Lemma loop_line c s n : 0 <= line s < 16 -> 0 <= line (blit_loop env n c s) < 16.
Proof.
  revert s. induction n as [|n IH]; intros s Hl; cbn [blit_loop]; case_match; auto using walk_line.
Qed.

Lemma line_cares z l : 0 <= l < 16 -> cares 0x3C (u8 ((z .& 0x60) .| l)).
Proof.
  intros Hl. unfold cares, sanitize_masks. repeat constructor; cbn [fst snd]; try lia. intros _.
  assert (E : forall w, w .& 0xEF = w -> u8 w .& 0xEF = u8 w) by (intros w <-; apply u8_land_same).
  apply E. rewrite Z.land_lor_distr_l, <- Z.land_assoc. f_equal.
  revert l Hl. apply (nibble_cases (fun l => l .& 0xEF = l)). by repeat constructor.
Qed.

Lemma blit_run_ok b m : regs_ok (R b) -> regs_ok (R (blit_run env b m).1).
Proof.
  intros HR. unfold blit_run. case_match; cbn [fst R].
  - apply regs_ok_wb; [lia|done|]. unfold cares, sanitize_masks.
    repeat constructor; cbn [fst snd]; try lia. intros _.
    destruct HR as (_ & _ & HR). specialize (HR 0x3C ltac:(lia)).
    unfold cares, sanitize_masks in HR. rewrite !Forall_cons in HR.
    destruct HR as (_ & _ & _ & _ & _ & _ & _ & _ & HR & _). cbn [fst snd] in HR.
    rewrite <- (HR eq_refl) at 1 2. rewrite <- Z.land_assoc, (Z.land_comm 0xEF), Z.land_assoc. apply u8_land_same.
  - apply regs_ok_wb; [lia| |apply line_cares, loop_line, land15_range].
    unfold wr32, wr16. repeat apply regs_ok_wb; try lia; try done; try (free_reg);
    unfold cares, sanitize_masks; repeat constructor; cbn [fst snd]; try lia; intros _; apply masked_even.
Qed.

(** ** Termination *)
Lemma blit_start_counting b m : rd16 (R b) 0x38 <> 0 ->
  let c := blit_config env (R b) in let s := blit_start env b m in
  counting c s /\ words_left c s = yc s * xc c.
Proof.
  intros Hy. pose proof (u16_range ((rb (R b) 0x38 << 8) .| rb (R b) (0x38 + 1))) as Hr.
  pose proof (u16_range ((rb (R b) 0x36 << 8) .| rb (R b) (0x36 + 1))) as Hx.
  unfold counting, words_left, is_u16 in *. cbn [blit_start x yc blit_config xc].
  fold (rd16 (R b) 0x38) in Hr. fold (rd16 (R b) 0x36) in Hx. destruct (Z.eqb_spec (rd16 (R b) 0x36) 0); lia.
Qed.

(** The [while (yc)] loop ends: a blit makes exactly [Y count * X count]
    rounds (an X count of 0 standing for 65536), the last one leaves [yc] at
    0, and every larger bound on the number of rounds gives the same result. *)
Theorem blit_terminates b m fuel :
  let c := blit_config env (R b) in
  let s := blit_start env b m in
  let n := Z.to_nat (yc s * xc c) in
  (n <= fuel)%nat ->
  blit_loop env fuel c s = Nat.iter n (blit_word env c) s
  /\ yc (Nat.iter n (blit_word env c) s) = 0
  /\ forall k, (k < n)%nat -> yc (Nat.iter k (blit_word env c) s) <> 0.
Proof.
  cbn zeta. set (c := blit_config env (R b)). set (s := blit_start env b m). intros Hf.
  destruct (Z.eq_dec (yc s) 0) as [E|E].
  { rewrite E in *. cbn. split_and!; [|done|lia]. destruct fuel; cbn [blit_loop]; by rewrite E. }
  destruct (blit_start_counting b m E) as [Hc Hl]. fold c s in Hc, Hl.
  destruct (blit_loop_iter env c (Z.to_nat (yc s * xc c)) s fuel) as (HL & H0' & Hk); [done| |done|].
  { unfold counting in Hc. nia. }
  unfold word_at in *. split_and!; [done..|]. intros k Hlt. destruct (Hk k Hlt) as [[? _] _]. lia.
Qed.

(** ** Register invariant *)
Lemma reg_write_loop_other n off val r o :
  length r = 64%nat -> 0 <= o < 64 ->
  (forall k, 0 <= k < Z.of_nat n -> (off + k) .& 0x3F <> o) ->
  rb (reg_write_loop n off val r) o = rb r o.
Proof.
  revert off r. induction n as [|n IH]; intros off r Hl Ho Hk; cbn [reg_write_loop]; [done|].
  assert (Ho' : 0 <= off .& 0x3F < 64).
  { change 0x3F with (Z.ones 6). rewrite Z.land_ones by lia. apply Z.mod_pos_bound. lia. }
  rewrite IH; [|by rewrite length_wb|done|].
  - rewrite rb_wb by done. specialize (Hk 0 ltac:(lia)). rewrite Z.add_0_r in Hk.
    by rewrite (proj2 (Z.eqb_neq _ _) Hk).
  - intros k Hkn. replace (off + 1 + k) with (off + (k + 1)) by lia. apply Hk. lia.
Qed.

(** The stored BUSY bit: clear whenever the guest is not writing. *)
Definition idle (r : list Z) : Prop := Z.testbit (rb r 0x3C) 7 = false.

Lemma blit_run_idle b m : length (R b) = 64%nat -> idle (R (blit_run env b m).1).
Proof.
  intros Hl. unfold blit_run, idle, and_reg. case_match; cbn [fst R].
  - rewrite rb_wb by (done || lia). cbn [Z.eqb Pos.eqb]. rewrite testbit_u8, Z.land_spec. by rewrite andb_false_r.
  - rewrite rb_wb by (rewrite ?length_wr16, ?length_wr32; (done || lia)). cbn [Z.eqb Pos.eqb].
    set (s := blit_loop _ _ _ _). assert (Hs : 0 <= line s < 16) by apply loop_line, land15_range.
    rewrite testbit_u8, Z.lor_spec, Z.land_spec, andb_false_r. revert Hs. generalize (line s).
    apply nibble_cases. by repeat constructor.
Qed.

Lemma sanitize_0x3C r : length r = 64%nat -> rb (sanitize r) 0x3C = u8 (rb r 0x3C .& 0xEF).
Proof. intros Hl. unfold sanitize, sanitize_masks, and_reg. cbn [foldl]. by regs. Qed.

Definition blitter_inv b : Prop := regs_ok (R b) /\ idle (R b).

Lemma reset_inv b : blitter_inv (st_blitter_reset b).
Proof.
  split; [split_and!|]; cbn [R st_blitter_reset].
  - done.
  - by apply Forall_replicate.
  - intros o Ho. unfold rb. rewrite lookup_total_replicate_2 by lia. repeat constructor.
  - done.
Qed.

Lemma land_3F_small k : 0 <= k < 64 -> k .& 0x3F = k.
Proof. intros. change 0x3F with (Z.ones 6). rewrite Z.land_ones by lia. by apply Z.mod_small. Qed.
Lemma land_3F_wrap k : 64 <= k < 128 -> k .& 0x3F = k - 64.
Proof.
  intros. change 0x3F with (Z.ones 6). rewrite Z.land_ones by lia. change (2 ^ 6) with 64. Z.div_mod_to_equations. lia.
Qed.

Lemma reg_write_inv addr val size b m : 1 <= size <= 4 ->
  blitter_inv b -> blitter_inv (st_blitter_reg_write env addr val size b m).1.
Proof.
  intros Hs [(Hl & Hu & Hc) Hi]. unfold st_blitter_reg_write.
  set (off := addr .& 0x3F). set (r := reg_write_loop _ _ _ _).
  destruct (reg_write_loop_ok (Z.to_nat size) off val (R b) Hl Hu) as [Hl' Hu']. fold r in Hl', Hu'.
  pose proof (blit_sanitize_ok r Hl' Hu') as Hok.
  destruct ((off <=? 0x3C) && (0x3C <? off + size)) eqn:Ecov; cbn [andb fst R].
  - destruct (truth (rb (sanitize r) 0x3C .& 0x80)) eqn:E; cbn [fst R].
    + split; [by apply blit_run_ok|apply blit_run_idle; apply Hok].
    + split; [done|]. unfold idle. rewrite <- (land_pow2_truth _ 7) by lia. exact E.
  - split; [done|]. unfold idle. cbn [R]. rewrite sanitize_0x3C, testbit_u8, Z.land_spec by done.
    assert (rb r 0x3C = rb (R b) 0x3C) as ->; [|by rewrite Hi].
    apply reg_write_loop_other; [done|lia|]. intros k Hk.
    assert (0 <= off < 64).
    { unfold off. change 0x3F with (Z.ones 6). rewrite Z.land_ones by lia. apply Z.mod_pos_bound. lia. }
    apply andb_false_iff in Ecov. rewrite Z.leb_gt, Z.ltb_ge in Ecov.
    destruct (Z.ltb_spec (off + k) 64); [rewrite land_3F_small|rewrite land_3F_wrap]; lia.
Qed.
End Run.

(** What a guest can do to the blitter: reset it, or write its registers. *)
Inductive blit_reach {M} `{Bus M} : blitter -> M -> Prop :=
| reach_reset b m : blit_reach (st_blitter_reset b) m
| reach_write env addr val size b m m' : blit_reach b m' -> 1 <= size <= 4 ->
    blit_reach (st_blitter_reg_write env addr val size b m).1 (st_blitter_reg_write env addr val size b m).2.

(** Whatever the guest writes, with whatever memory, clock and settings,
    the register file stays sixty-four bytes with every don't-care bit clear
    (increments and addresses even, HOP, OP, control and skew within their
    fields), and BUSY is never left set: the only BUSY a guest reads back is the
    timed one. *)
Theorem blit_regs_invariant {M} `{BusLaws M} (b : blitter) (m : M) : blit_reach b m -> blitter_inv b.
Proof. induction 1; [apply reset_inv|by apply reg_write_inv]. Qed.

(** ** Confinement *)
Section Confined.
Context {M : Type} `{BusLaws M} (env : blit_env).
Implicit Types (c : blit_cfg) (s : @blit_st M) (m : M).

(** The cell an engine address reaches, and whether a store gets there. *)
Definition bus_addr (a : Z) : Z := if blit_tt env a then a .& 0xFFFFFFFE else a .& 0x00FFFFFE.
Definition writable (a : Z) : bool := blit_tt env a || (bus_addr a <? g_stram_top env).

Lemma blit_read_eq a m : pistorm_blit_read16 env a m = get_word m (bus_addr a).
Proof. unfold pistorm_blit_read16, bus_addr. by case_match. Qed.

Lemma blit_write_eq a v m :
  pistorm_blit_write16 env a v m = if writable a then put_word (bus_addr a) v m else m.
Proof.
  unfold pistorm_blit_write16, writable, bus_addr. destruct (blit_tt env a); cbn [orb]; [done|].
  rewrite Z.ltb_antisym. by case_match.
Qed.

Lemma bus_addr_even a : is_u32 (bus_addr a) /\ bus_addr a mod 2 = 0.
Proof.
  unfold bus_addr, is_u32. destruct (blit_tt env a).
  - destruct (masked_word a 0xFFFFFFFE); auto with lia.
  - destruct (masked_word a 0x00FFFFFE); auto with lia.
Qed.

(** A byte after a word store at an even address. *)
Lemma get_byte_put_word m p v a : is_u32 p -> p mod 2 = 0 -> is_u32 a ->
  get_byte (put_word p v m) a = if a =? p then u8 (v >> 8) else if a =? p + 1 then u8 v else get_byte m a.
Proof.
  intros Hp He Ha. rewrite put_word_bytes, !get_put_byte.
  rewrite (u32_small p), (u32_small a), (u32_small (p + 1)) by (done || (unfold is_u32 in *; Z.div_mod_to_equations; lia)).
  rewrite (Z.eqb_sym a p), (Z.eqb_sym a (p + 1)).
  destruct (Z.eqb_spec (p + 1) a), (Z.eqb_spec p a); done || lia.
Qed.

(** The combined word keeps the destination outside the mask. *)
Lemma out_word_keeps c mask sd dw j : 0 <= j < 16 -> is_u16 mask ->
  Z.testbit mask j = false -> need_dst c mask = true /\ Z.testbit (out_word c mask sd dw) j = Z.testbit dw j.
Proof.
  intros Hj Hm Hb. assert (E : (mask != 0xFFFF) = true).
  { destruct (Z.eqb_spec mask 0xFFFF) as [-> | ]; [|done]. change 0xFFFF with (Z.ones 16) in Hb.
    by rewrite Z.ones_spec_low in Hb. }
  unfold need_dst, out_word. rewrite E, orb_true_r. split; [done|].
  rewrite testbit_u16, Z.lor_spec, !Z.land_spec, Z.lnot_spec, Hb by lia.
  by rewrite andb_false_r, andb_true_r, (proj2 (Z.ltb_lt j 16)), andb_true_r by lia.
Qed.

(** Store [k] of a blit from [d0] may change bit [i] of the byte at [a]. *)
Definition store_covers (d mask a i : Z) : Prop :=
  writable d = true /\
  (a = bus_addr d /\ Z.testbit mask (i + 8) = true \/ a = bus_addr d + 1 /\ Z.testbit mask i = true).

Lemma word_bits m p i : 0 <= i < 8 ->
  Z.testbit (get_word m p) (i + 8) = Z.testbit (get_byte m p) i
  /\ Z.testbit (get_word m p) i = Z.testbit (get_byte m (p + 1)) i.
Proof.
  intros Hi. rewrite get_word_bytes. pose proof (get_byte_range m (p + 1)) as Hr.
  change 256 with (2 ^ 8). rewrite !testbit_concat by (done || lia).
  rewrite (proj2 (Z.ltb_ge (i + 8) 8)), (proj2 (Z.ltb_lt i 8)) by lia. split; [f_equal; lia|done].
Qed.

Lemma blit_word_keeps c s a i :
  is_u32 a -> 0 <= i < 8 -> is_u16 (word_mask c (x s)) ->
  ~ store_covers (dst s) (word_mask c (x s)) a i ->
  Z.testbit (get_byte (mem (blit_word env c s)) a) i = Z.testbit (get_byte (mem s) a) i.
Proof.
  intros Ha Hi Hm Hn. destruct (blit_word_walk env c s) as (sd & dw & W & Hdw).
  unfold walk in W. injection W as _ ->. rewrite blit_write_eq. unfold store_covers in Hn.
  destruct (writable (dst s)); [|done]. destruct (bus_addr_even (dst s)) as [Hu He].
  destruct (word_bits (mem s) (bus_addr (dst s)) i Hi) as [B1 B2].
  rewrite get_byte_put_word by done. rewrite blit_read_eq in Hdw.
  destruct (Z.eqb_spec a (bus_addr (dst s))) as [-> | ].
  - destruct (out_word_keeps c (word_mask c (x s)) sd dw (i + 8)) as [Hn' E]; [lia|done|destruct (Z.testbit _ (i + 8)); tauto|].
    rewrite testbit_u8, Z.shiftr_spec, E, (Hdw Hn'), B1, (proj2 (Z.ltb_lt i 8)) by lia. apply andb_true_r.
  - destruct (Z.eqb_spec a (bus_addr (dst s) + 1)) as [-> | ]; [|done].
    destruct (out_word_keeps c (word_mask c (x s)) sd dw i) as [Hn' E]; [lia|done|destruct (Z.testbit _ i); tauto|].
    rewrite testbit_u8, E, (Hdw Hn'), B2, (proj2 (Z.ltb_lt i 8)) by lia. apply andb_true_r.
Qed.

Lemma word_at_keeps c s a i n :
  (forall k, (k < n)%nat -> is_u16 (word_mask c (x (word_at env c s k)))
     /\ ~ store_covers (dst (word_at env c s k)) (word_mask c (x (word_at env c s k))) a i) ->
  is_u32 a -> 0 <= i < 8 ->
  Z.testbit (get_byte (mem (word_at env c s n)) a) i = Z.testbit (get_byte (mem s) a) i.
Proof.
  intros Hk Ha Hi. induction n as [|n IH]; [done|]. rewrite <- IH by (intros; apply Hk; lia).
  destruct (Hk n) as [? ?]; [lia|]. by apply blit_word_keeps.
Qed.

(** *** Configurations of a well-formed register file *)
Lemma rd16_even r o : regs_ok r -> 0 <= o -> o + 1 < 64 ->
  (o + 1, 0xFE) ∈ sanitize_masks -> s16 (rd16 r o) mod 2 = 0.
Proof.
  intros (_ & _ & Hc) Ho Ho' Hin. specialize (Hc (o + 1) ltac:(lia)). unfold cares in Hc.
  rewrite Forall_forall in Hc. specialize (Hc _ Hin eq_refl). cbn [fst snd] in Hc.
  assert (E : Z.testbit (rd16 r o) 0 = false).
  { unfold rd16. rewrite testbit_u16, Z.lor_spec, Z.shiftl_spec, <- Hc, Z.land_spec by lia.
    rewrite (Z.testbit_neg_r _ (0 - 8)) by lia. by rewrite andb_false_r. }
  rewrite Z.bit0_odd, Zodd_mod in E. unfold s16. revert E. generalize (rd16 r o). intros z E.
  assert (z mod 2 = 0) by (destruct (Z.eqb_spec (z mod 2) 1); [done|Z.div_mod_to_equations; lia]).
  Z.div_mod_to_equations. lia.
Qed.

Lemma blit_config_ok r : regs_ok r -> cfg_ok (blit_config env r).
Proof.
  intros Hr. split; cbn [blit_config dmask dxi dyi xc].
  - apply addr_mask_cases.
  - apply rd16_even; [done|lia..|]. by repeat constructor.
  - apply rd16_even; [done|lia..|]. by repeat constructor.
  - pose proof (u16_range ((rb r 0x36 << 8) .| rb r (0x36 + 1))) as Hx. fold (rd16 r 0x36) in Hx.
    unfold is_u16 in Hx. destruct (Z.eqb_spec (rd16 r 0x36) 0); lia.
Qed.

Lemma config_mask_u16 r k : is_u16 (word_mask (blit_config env r) k).
Proof. unfold word_mask. cbn [blit_config em1 em2 em3]. repeat case_match; apply u16_range. Qed.

End Confined.

(** ** A small machine *)
(** 4 MB of ST-RAM, no TT-RAM, untimed; two words copied from $1000 to $2000
    with a skew of 4 and the first four pixels of the line masked out by
    [em1]. *)
Definition demo_env : blit_env := mk_blit_env false 0 0x400000 0 0.
Definition demo_regs (em : Z) : list Z :=
  sanitize (wb 0x3D 0x84 (wb 0x3B 3 (wb 0x3A 2 (wr16 0x38 1 (wr16 0x36 2 (wr32 0x32 0x2000
    (wr16 0x2E 2 (wr16 0x2C 0xFFFF (wr16 0x2A 0xFFFF (wr16 0x28 em (wr32 0x24 0x1000 (wr16 0x20 2 (replicate 64 0))))))))))))).
Definition demo_blitter (em : Z) : blitter := mk_blitter (demo_regs em) 0 0 0 0.
Definition demo_ram : gmap Z Z := put_long 0x1000 0x12345678 (put_word 0x1004 0x9ABC (put_long 0x2000 0xFFFFFFFF ∅)).

Lemma blit_demo_inv em : blitter_inv (demo_blitter em).
Proof.
  split; cbn [R demo_blitter].
  - apply blit_sanitize_ok.
    + rewrite !length_wb. unfold wr32, wr16. rewrite !length_wb. done.
    + unfold wr32, wr16. repeat apply is_u8_wb. by apply Forall_replicate.
  - unfold idle, demo_regs. rewrite sanitize_0x3C; [|unfold wr32, wr16; rewrite !length_wb; done].
    unfold wr32, wr16. regs. done.
Qed.

Lemma blit_terminates_witness :
  let c := blit_config demo_env (demo_regs 0xFFFF) in
  let s := blit_start demo_env (demo_blitter 0xFFFF) demo_ram in
  blit_loop demo_env 7 c s = Nat.iter 2 (blit_word demo_env c) s.
Proof. apply (blit_terminates demo_env (demo_blitter 0xFFFF) demo_ram 7). vm_compute. lia. Defined.

Lemma blit_regs_invariant_witness :
  blitter_inv (st_blitter_reg_write demo_env 0xFF8A3C 0xFFFF 2 (st_blitter_reset (demo_blitter 0)) demo_ram).1.
Proof.
  apply (blit_regs_invariant _
    (st_blitter_reg_write demo_env 0xFF8A3C 0xFFFF 2 (st_blitter_reset (demo_blitter 0)) demo_ram).2).
  eapply reach_write; [apply reach_reset|lia].
  Unshelve. exact demo_ram.
Defined.

