(* ===== verification/BlitCopy.v ===== *)
(** * BlitCopy: a skewed line copy is a shifted bit stream

    The common use of the chip: source replaces destination, whole words, an
    extra fetch at the start of the line (FXSR) and a skew.  The FIFO then
    makes each output word out of two neighbouring source words. *)

From S2P Require Import Prelude Flags Cpu Blitter BlitProps BlitSafe.
From Stdlib Require Import ZArith Lia Bool.
From stdpp Require Import base list gmap.
Open Scope Z_scope.
Open Scope cint_scope.

Section Copy.
Context {M : Type} `{BusLaws M} (env : blit_env).
Implicit Types (c : blit_cfg) (s : @blit_st M) (m : M).

(** Source replaces destination, no halftone, full masks, FXSR, no NFSR,
    ascending. *)
Record copy_cfg c : Prop := mk_copy_cfg {
  copy_op : op c = 3; copy_hop : hop c = 2;
  copy_em : em1 c = 0xFFFF /\ em2 c = 0xFFFF /\ em3 c = 0xFFFF;
  copy_fxsr : fxsr c = true; copy_nfsr : nfsr c = false;
  copy_asc : 0 <= sxi c }.

(** The source walk, the words it would read in [m], and two neighbouring
    words through the skew. *)
Definition src_next c (a : Z) : Z := u32 (a + sxi c) .& smask c.
Definition src_at c (a : Z) (j : nat) : Z := Nat.iter j (src_next c) a.
Definition stream c (a : Z) m (j : nat) : Z := pistorm_blit_read16 env (src_at c a j) m.
Definition shifted c (a : Z) m (j : nat) : Z :=
  u16 ((stream c a m j * 65536 + stream c a m (S j)) >> skew c).

(** The specification: the words of the shifted stream, all taken from the
    memory before the blit, stored one after the other. *)
Definition copy_stores c (a d : Z) m (n : nat) : M :=
  foldl (fun m' j => pistorm_blit_write16 env (dst_addr c d (Z.of_nat j)) (shifted c a m j) m') m (seq 0 n).

Lemma copy_mask c k : copy_cfg c -> word_mask c k = 0xFFFF.
Proof. intros Hc. destruct (copy_em c Hc) as (E1 & E2 & E3). unfold word_mask. by repeat case_match. Qed.
Lemma copy_need_src c : copy_cfg c -> need_src c = true.
Proof. intros Hc. unfold need_src. by rewrite (copy_op c Hc), (copy_hop c Hc). Qed.
Lemma copy_need_dst c : copy_cfg c -> need_dst c 0xFFFF = false.
Proof. intros Hc. unfold need_dst. by rewrite (copy_op c Hc). Qed.

Lemma read16_range a m : is_u16 (pistorm_blit_read16 env a m).
Proof.
  rewrite blit_read_eq, get_word_bytes. pose proof (get_byte_range m (bus_addr env a)).
  pose proof (get_byte_range m (bus_addr env a + 1)). unfold is_u8, is_u16 in *. lia.
Qed.

Lemma u16_low v w : is_u16 w -> u16 (v * 65536 + w) = w.
Proof. intros Hw. unfold is_u16 in Hw. word. Qed.

(** The FIFO after a fetch: the last two words. *)
Lemma fifo_push_asc c w b : copy_cfg c -> is_u16 w -> fifo_push c w b = u16 b * 65536 + w.
Proof.
  intros Hc Hw. unfold fifo_push, fifo_insert, fifo_shift, desc.
  rewrite (proj2 (Z.ltb_ge (sxi c) 0)) by apply Hc.
  replace (u32 (b << 16)) with (u16 b << 16); [by rewrite Z.lor_comm, (lor_shl_add (u16 b) w 16)|].
  rewrite !Z.shiftl_mul_pow2 by lia. change (2 ^ 16) with 65536. word.
Qed.

Lemma copy_out c s : copy_cfg c ->
  out_word c 0xFFFF (source_word c (buf s) (line s)) 0 = u16 (buf s >> skew c).
Proof. intros Hc. unfold out_word, source_word. by rewrite (copy_hop c Hc), (copy_op c Hc). Qed.

(** One word of a copy, once the fetch has been made. *)
Definition copy_store c s : blit_st :=
  word_advance c true (word_store env (u16 (buf s >> skew c)) s).

Lemma copy_nfsr_id c s : copy_cfg c -> word_nfsr c s = s.
Proof. intros Hc. unfold word_nfsr. by rewrite (copy_nfsr c Hc). Qed.

Lemma copy_word c s : copy_cfg c ->
  let s1 := word_prefetch env c (word_begin c s) in
  st_nfsr s1 = false -> blit_word env c s = copy_store c (fetch env c s1).
Proof.
  intros Hc s1 Hn. unfold blit_word. fold s1. unfold fetches.
  rewrite copy_need_src, Hn, copy_mask by done. cbn [negb andb].
  unfold word_dest. rewrite copy_need_dst by done. rewrite !copy_nfsr_id by done.
  rewrite copy_out by done. exact eq_refl.
Qed.

(** A store elsewhere does not change what is read. *)
Lemma read_after_write a d v m : bus_addr env a <> bus_addr env d ->
  pistorm_blit_read16 env a (pistorm_blit_write16 env d v m) = pistorm_blit_read16 env a m.
Proof.
  intros Hne. rewrite blit_write_eq. case_match; [|done]. rewrite !blit_read_eq, !get_word_bytes.
  destruct (bus_addr_even env a) as [Hau Hae], (bus_addr_even env d) as [Hdu Hde].
  rewrite !get_byte_put_word by (done || (unfold is_u32 in *; Z.div_mod_to_equations; lia)).
  rewrite !(proj2 (Z.eqb_neq _ _)) by (done || (Z.div_mod_to_equations; lia)). done.
Qed.

Lemma copy_stores_succ c a d m n : copy_stores c a d m (S n)
  = pistorm_blit_write16 env (dst_addr c d (Z.of_nat n)) (shifted c a m n) (copy_stores c a d m n).
Proof. unfold copy_stores. by rewrite seq_S, foldl_app. Qed.

Lemma stream_stores c a d m n l :
  (forall i, (i < n)%nat -> bus_addr env (src_at c a l) <> bus_addr env (dst_addr c d (Z.of_nat i))) ->
  pistorm_blit_read16 env (src_at c a l) (copy_stores c a d m n) = stream c a m l.
Proof.
  induction n as [|n IH]; intros Hk; [done|]. rewrite copy_stores_succ, read_after_write by (apply Hk; lia).
  apply IH. intros i Hi. apply Hk. lia.
Qed.

(** What holds after [j] words of the line. *)
Record copied c (s0 s : @blit_st M) (j : nat) : Prop := mk_copied {
  cp_buf : buf s = stream c (src s0) (mem s0) (j - 1) * 65536 + stream c (src s0) (mem s0) j;
  cp_mem : mem s = copy_stores c (src s0) (dst s0) (mem s0) j;
  cp_next : Z.of_nat j < xc c -> src s = src_at c (src s0) (S j) /\ have_fxsr s = true /\ st_nfsr s = false }.

(** The store that follows the fetch of word [S j]. *)
Lemma copy_store_copied c s0 s j : copy_cfg c ->
  buf s = stream c (src s0) (mem s0) j * 65536 + stream c (src s0) (mem s0) (S j) ->
  mem s = copy_stores c (src s0) (dst s0) (mem s0) j ->
  src s = src_at c (src s0) (S j) -> have_fxsr s = true -> st_nfsr s = false ->
  x s = xc c - Z.of_nat j -> dst s = dst_addr c (dst s0) (Z.of_nat j) ->
  copied c s0 (copy_store c s) (S j).
Proof.
  intros Hc Hb Hm Hs Hf Hn Hx Hd. unfold copy_store, word_advance.
  rewrite (copy_nfsr c Hc), andb_false_r. unfold word_store. cbn [x st_nfsr src].
  rewrite Hn, orb_false_r.
  split; [| |intros Hj]; destruct (Z.eqb_spec (x s) 1); cbn [buf mem src have_fxsr st_nfsr];
    try lia; rewrite ?Nat.sub_succ, ?Nat.sub_0_r, ?copy_stores_succ; try done.
  1,2: by rewrite Hm, Hd, Hb.
  split_and!; [|done..]. by rewrite Hs.
Qed.

Section Line.
Context (c : blit_cfg) (s0 : @blit_st M) (Hc : copy_cfg c) (Hok : cfg_ok c)
  (Hx : x s0 = xc c) (Hf : have_fxsr s0 = false)
  (Hd : dst s0 mod 2 = 0 /\ 0 <= dst s0 < dmask c + 2)
  (Hdis : forall i l, (i + 1 < l)%nat -> Z.of_nat l <= xc c ->
     bus_addr env (src_at c (src s0) l) <> bus_addr env (dst_addr c (dst s0) (Z.of_nat i))).

Lemma copy_first : copied c s0 (blit_word env c s0) 1.
Proof.
  pose proof (copy_need_src c Hc) as Hn.
  rewrite copy_word; [|done|unfold word_prefetch, word_begin; rewrite Hx, Z.eqb_refl; by case_match].
  unfold word_prefetch, word_begin. rewrite Hx, Z.eqb_refl. cbn [st_fxsr have_fxsr].
  rewrite Hn, Hf, (copy_fxsr c Hc). cbn [negb andb].
  apply copy_store_copied; unfold fetch; cbn [buf mem src dst x have_fxsr st_nfsr]; try done; try lia.
  - rewrite !fifo_push_asc by (done || apply read16_range). unfold stream, src_at. cbn [Nat.iter].
    by rewrite u16_low by apply read16_range.
  - destruct Hd as [He Hr]. by destruct (word_at_walk env c s0 0 Hok Hx He Hr).
Qed.

Lemma copy_next s j : (1 <= j)%nat -> Z.of_nat j < xc c ->
  x s = xc c - Z.of_nat j -> dst s = dst_addr c (dst s0) (Z.of_nat j) ->
  copied c s0 s j -> copied c s0 (blit_word env c s) (S j).
Proof.
  intros Hj Hlt Hxs Hds [Hb Hm Hn]. destruct (Hn Hlt) as (Hs & Hfx & Hnf).
  assert (E : word_prefetch env c (word_begin c s) = s).
  { unfold word_begin. rewrite (proj2 (Z.eqb_neq (x s) (xc c))) by lia.
    unfold word_prefetch. by rewrite Hfx, andb_false_r. }
  rewrite copy_word; rewrite ?E; [|done..].
  apply copy_store_copied; unfold fetch; cbn [buf mem src dst x have_fxsr st_nfsr]; try done.
  rewrite fifo_push_asc, Hb by (done || apply read16_range). rewrite Hs, Hm, stream_stores.
  - by rewrite u16_low by apply read16_range.
  - intros i Hi. apply Hdis; lia.
Qed.

Lemma copy_line j : (1 <= j)%nat -> Z.of_nat j <= xc c -> copied c s0 (word_at env c s0 j) j.
Proof.
  induction j as [|[|j] IH]; intros H1 Hle; [lia|apply copy_first|].
  destruct Hd as [He Hr]. destruct (word_at_walk env c s0 (S j) Hok Hx He Hr) as [Ex Ed].
  change (word_at env c s0 (S (S j))) with (blit_word env c (word_at env c s0 (S j))).
  apply copy_next; [lia|lia| |exact Ed|apply IH; lia].
  rewrite Ex, Z.mod_small by lia. done.
Qed.
End Line.

End Copy.

