(* ===== verification/JitPrefs.v ===== *)
(** * JitPrefs: applying changed JIT preferences ([jit/compemu_prefs.cpp]) *)

From S2P Require Import Prelude.
From Stdlib Require Import ZArith Lia Bool.
From stdpp Require Import base list.
Open Scope Z_scope.
Open Scope cint_scope.

(** The JIT fields of [struct uae_prefs]. *)
Record jitprefs := mk_jp {
  cachesize : Z;
  comptrustbyte : Z; comptrustword : Z; comptrustlong : Z; comptrustnaddr : Z;
  compnf : bool; comp_hardflush : bool; comp_constjump : bool; compfpu : bool;
  fpu_strict : bool; illegal_mem : bool }.

#[export] Instance jitprefs_eq_dec : EqDecision jitprefs.
Proof. solve_decision. Defined.

(** The two copies of the preferences, the statics of the routine and the
    cache sizes [alloc_cache] was called with, in order. *)
Record jitstate := mk_js {
  currprefs : jitprefs;
  changed_prefs : jitprefs;
  cachesize_prev : Z; comptrust_prev : Z; canbang_prev : bool;
  canbang : bool;
  special_mem_default : Z;
  alloc_cache_log : list Z }.

Definition S_RWN : Z := 1 .| 2 .| 4.

Definition set_trust (v : Z) (p : jitprefs) : jitprefs :=
  {| p with comptrustbyte := v; comptrustword := v; comptrustlong := v; comptrustnaddr := v |}.

(** The comparison that decides whether anything has changed. *)
Definition prefs_differ (a b : jitprefs) : bool :=
  (comptrustbyte a != comptrustbyte b) || (comptrustword a != comptrustword b) ||
  (comptrustlong a != comptrustlong b) || (comptrustnaddr a != comptrustnaddr b) ||
  xorb (compnf a) (compnf b) || xorb (comp_hardflush a) (comp_hardflush b) ||
  xorb (comp_constjump a) (comp_constjump b) || xorb (compfpu a) (compfpu b) ||
  xorb (fpu_strict a) (fpu_strict b) || (cachesize a != cachesize b).

(** The unconditional copies. *)
Definition prefs_copy (j : jitstate) : jitstate :=
  let ch := changed_prefs j in
  {| j with currprefs := {| (currprefs j) with
      comptrustbyte := comptrustbyte ch; comptrustword := comptrustword ch;
      comptrustlong := comptrustlong ch; comptrustnaddr := comptrustnaddr ch;
      compnf := compnf ch; comp_hardflush := comp_hardflush ch;
      comp_constjump := comp_constjump ch; compfpu := compfpu ch; fpu_strict := fpu_strict ch |} |}.

(** A new cache size: remember or restore the trust settings, reallocate. *)
Definition prefs_cache (changed : bool) (j : jitstate) : bool * jitstate :=
  if cachesize (currprefs j) != cachesize (changed_prefs j) then
    let j :=
      if truth (cachesize (currprefs j)) && negb (truth (cachesize (changed_prefs j))) then
        {| j with cachesize_prev := cachesize (currprefs j);
                  comptrust_prev := comptrustbyte (currprefs j);
                  canbang_prev := canbang j |}
      else if negb (truth (cachesize (currprefs j))) &&
              (cachesize (changed_prefs j) =? cachesize_prev j) then
        {| j with changed_prefs := set_trust (comptrust_prev j) (changed_prefs j);
                  currprefs := set_trust (comptrust_prev j) (currprefs j) |}
      else j in
    let j := {| j with currprefs := {| (currprefs j) with cachesize := cachesize (changed_prefs j) |} |} in
    (true, {| j with alloc_cache_log := (alloc_cache_log j ++ [cachesize (currprefs j)])%list |})
  else (changed, j).

(** JIT on: the FPU is translated as well ([AMIBERRY] is defined). *)
Definition prefs_fpu (j : jitstate) : jitstate :=
  if truth (cachesize (currprefs j)) then
    {| j with currprefs := {| (currprefs j) with illegal_mem := illegal_mem (changed_prefs j); compfpu := true |};
              changed_prefs := {| (changed_prefs j) with compfpu := true |} |}
  else j.

(** Indirect accesses when direct ones are not possible. *)
Definition prefs_trust (changed : bool) (j : jitstate) : bool * jitstate :=
  if (negb (canbang j) || negb (truth (cachesize (currprefs j)))) && (comptrustbyte (currprefs j) != 1) then
    (true, {| j with currprefs := set_trust 1 (currprefs j); changed_prefs := set_trust 1 (changed_prefs j) |})
  else (changed, j).

Definition check_prefs_changed_comp (checkonly : bool) (j : jitstate) : bool * jitstate :=
  let j := {| j with special_mem_default :=
                if truth (comptrustbyte (currprefs j)) then S_RWN else 0 |} in
  let changed := prefs_differ (currprefs j) (changed_prefs j) in
  if checkonly then (changed, j)
  else
    let j := prefs_copy j in
    let '(changed, j) := prefs_cache changed j in
    let j := prefs_fpu j in
    prefs_trust changed j.

(** The fields of interest: cache size and the three translation switches. *)
Definition switches (p : jitprefs) : Z * bool * bool * bool :=
  (cachesize p, compnf p, comp_constjump p, compfpu p).

Lemma prefs_cache_switches b j :
  let j' := (prefs_cache b j).2 in
  switches (currprefs j') = (cachesize (changed_prefs j), compnf (currprefs j),
                             comp_constjump (currprefs j), compfpu (currprefs j)) /\
  switches (changed_prefs j') = switches (changed_prefs j).
Proof.
  unfold prefs_cache. destruct (_ != _) eqn:E; cbn [snd].
  - repeat case_match; done.
  - apply negb_false_iff, Z.eqb_eq in E. unfold switches. by rewrite E.
Qed.

Lemma prefs_trust_switches b j :
  let j' := (prefs_trust b j).2 in
  switches (currprefs j') = switches (currprefs j) /\
  switches (changed_prefs j') = switches (changed_prefs j).
Proof. unfold prefs_trust. case_match; done. Qed.

(** Applying the preferences makes the requested cache size and switches
    current, except that a running JIT always translates the FPU. *)
Lemma check_prefs_switches j :
  let j' := (check_prefs_changed_comp false j).2 in
  let c := changed_prefs j in
  let want := (cachesize c, compnf c, comp_constjump c, truth (cachesize c) || compfpu c) in
  switches (currprefs j') = want /\ switches (changed_prefs j') = want.
Proof.
  unfold check_prefs_changed_comp. cbn zeta iota.
  set (j0 := {| j with special_mem_default := _ |}). change (changed_prefs j) with (changed_prefs j0).
  set (b := prefs_differ _ _). clearbody b j0. clear j.
  destruct (prefs_cache_switches b (prefs_copy j0)) as [E1 E2].
  destruct (prefs_cache b (prefs_copy j0)) as [b1 j1]. cbn [snd] in *.
  destruct (prefs_trust_switches b1 (prefs_fpu j1)) as [-> ->].
  unfold switches in E1, E2. cbn in E1, E2. injection E1 as C1 C2 C3 C4. injection E2 as D1 D2 D3 D4.
  unfold prefs_fpu, switches. rewrite C1.
  destruct (truth (cachesize (changed_prefs j0))); cbn; rewrite ?C1, ?C2, ?C3, ?C4, ?D1, ?D2, ?D3, ?D4; done.
Qed.
