(* ===== verification/Fdd.v ===== *)
(** * Fdd: mounting floppy images ([platforms/atari/fdd/atari_fdd.c])

    The host-side interface of the floppy controller the settings use: mount,
    eject, query, write protection, and the media-change pulse.  A file
    descriptor is the image it reads; opening a host file and decoding an MSA
    archive are arguments. *)

From S2P Require Import Prelude.
From Stdlib Require Import ZArith Lia Bool String.
From stdpp Require Import base list.
Open Scope Z_scope.
Open Scope cint_scope.

Inductive fdd_type_t := FDD_TYPE_NONE | FDD_TYPE_DD | FDD_TYPE_HD.

Definition FDD_SECTOR_SIZE := 512.
Definition FDD_TRACKS_80 := 80.
Definition FDD_DD_SECTORS := 9.
Definition FDD_HD_SECTORS := 18.
Definition FDD_IMAGE_SIZE_SS := 80 * 1 * 9 * 512.
Definition FDD_IMAGE_SIZE_DD := 80 * 2 * 9 * 512.

(** [fdd_drive_t]; [fd = None] is a closed descriptor ([fd < 0]). *)
Record fdd_drive := mk_drive {
  fd : option (list Z);
  image_path : string;
  write_protected : bool;
  disk_inserted : bool;
  media_changed : bool;
  dtype : fdd_type_t;
  sectors_per_track : Z;
  num_tracks : Z;
  num_sides : Z;
  image_size : Z;
  reserved_sectors : Z }.

(** The two drives and the controller's BUSY bit. *)
Record fdc := mk_fdc { drive_a : fdd_drive; drive_b : fdd_drive; fdc_busy : bool }.

Definition get_drive (d : Z) (f : fdc) : fdd_drive := if d =? 0 then drive_a f else drive_b f.
Definition set_drive (d : Z) (v : fdd_drive) (f : fdc) : fdc :=
  if d =? 0 then {| f with drive_a := v |} else {| f with drive_b := v |}.
Definition bad_drive (d : Z) : bool := (d <? 0) || (2 <=? d).

(** Result of trying to decode an image as an MSA archive. *)
Inductive msa_result := MsaBroken | NotMsa | Msa (img : list Z).

(** [boot[i] | (boot[i+1] << 8)]. *)
Definition le16 (l : list Z) (i : nat) : Z := u16 ((l !!! i) .| ((l !!! S i) << 8)).

(** The FAT scan: the first sector below [lim] that looks like a FAT. *)
Fixpoint fat_scan (img : list Z) (s : Z) (n : nat) : option Z :=
  match n with
  | O => None
  | S n =>
    let o := Z.to_nat (s * 512) in
    if (s * 512 + 4 <=? Z.of_nat (length img)) &&
       (img !!! (o + 1)%nat =? 0xFF) && (img !!! (o + 2)%nat =? 0xFF) && (0xF8 <=? img !!! o)
    then Some s else fat_scan img (s + 1) n
  end.

(** Geometry: from the BPB when it is sane, else from the size. *)
Definition fdd_geometry (img : list Z) (d : fdd_drive) : fdd_drive :=
  let bps := le16 img 0x0B in
  let spt := le16 img 0x18 in
  let sides := le16 img 0x1A in
  let total := le16 img 0x13 in
  if (512 <=? Z.of_nat (length img)) &&
     ((bps =? 512) && (1 <=? spt) && (spt <=? 18) && (1 <=? sides) && (sides <=? 2) && (0 <? total)) then
    let bpb_res := le16 img 0x0E in
    {| d with sectors_per_track := spt; num_tracks := total / (spt * sides); num_sides := sides;
              dtype := if 9 <? spt then FDD_TYPE_HD else FDD_TYPE_DD;
              reserved_sectors := default bpb_res (fat_scan img 1 (Z.to_nat (spt * 2 - 1))) |}
  else if image_size d <=? FDD_IMAGE_SIZE_SS then
    {| d with dtype := FDD_TYPE_DD; sectors_per_track := FDD_DD_SECTORS; num_sides := 1;
              num_tracks := image_size d / (FDD_SECTOR_SIZE * FDD_DD_SECTORS); reserved_sectors := 1 |}
  else if image_size d <=? FDD_IMAGE_SIZE_DD then
    {| d with dtype := FDD_TYPE_DD; sectors_per_track := FDD_DD_SECTORS; num_sides := 2;
              num_tracks := FDD_TRACKS_80; reserved_sectors := 1 |}
  else
    {| d with dtype := FDD_TYPE_HD; sectors_per_track := FDD_HD_SECTORS; num_sides := 2;
              num_tracks := FDD_TRACKS_80 |}.

Section Fdd.
Context (open_image : string -> bool -> option (list Z))   (* open(path, read-only?) *)
        (msa_open_decoded : string -> msa_result).

Definition fdd_insert_disk (drive : Z) (path : string) (wp : bool) (f : fdc) : Z * fdc :=
  if bad_drive drive then (-1, f)
  else
    let d := {| (get_drive drive f) with fd := None |} in
    let mount img wp :=
      let d := {| d with image_size := u32 (Z.of_nat (length img)); fd := Some img |} in
      let d := fdd_geometry img d in
      let d := {| d with write_protected := wp; disk_inserted := true; media_changed := false;
                         image_path := substring 0 255 path |} in
      (0, set_drive drive d f) in
    match msa_open_decoded path with
    | MsaBroken => (-1, set_drive drive d f)
    | Msa img => mount img true
    | NotMsa =>
      match open_image path wp with
      | None => (-1, set_drive drive d f)
      | Some img => mount img wp
      end
    end.
End Fdd.

Definition fdd_eject_disk (drive : Z) (f : fdc) : fdc :=
  if bad_drive drive then f
  else set_drive drive {| (get_drive drive f) with fd := None; disk_inserted := false;
         media_changed := true; write_protected := false; num_sides := 2 |} f.

(** Returns the presence code, the path (of an inserted disk), the
    write-protect flag and the BUSY bit. *)
Definition fdd_query (drive : Z) (f : fdc) : Z * string * bool * bool :=
  if bad_drive drive then (-1, EmptyString, false, false)
  else let d := get_drive drive f in
       (Z.b2z (disk_inserted d), if disk_inserted d then image_path d else EmptyString,
        write_protected d, fdc_busy f).

Definition fdd_pulse_media (drive : Z) (f : fdc) : fdc :=
  if bad_drive drive then f
  else set_drive drive {| (get_drive drive f) with media_changed := true |} f.

Definition fdd_set_write_protect (drive : Z) (wp : bool) (f : fdc) : fdc :=
  if bad_drive drive then f
  else set_drive drive {| (get_drive drive f) with write_protected := wp |} f.

Definition drive0 : fdd_drive := mk_drive None EmptyString false false false FDD_TYPE_NONE 0 0 2 0 1.
Definition fdc0 : fdc := mk_fdc drive0 drive0 false.
