(* ===== verification/Msa.v ===== *)
(** * Msa: archived floppy images ([msa_open_decoded] in [atari_fdd.c])

    An archive has a header of five big-endian words (magic, sectors per
    track, sides - 1, first and last track), then per track and side a length
    and that many bytes: the track itself, or its run-length code.  The
    decoded image goes to a temporary file. *)

From S2P Require Import Prelude Fdd.
From Stdlib Require Import ZArith Lia Bool List String.
From stdpp Require Import base list numbers.
Open Scope Z_scope.
Open Scope cint_scope.

Definition be16 (l : list Z) (i : nat) : Z := ((l !!! i) << 8) .| (l !!! S i).

(** ** One track: at most [room] bytes; [None] is a run cut short *)
Fixpoint rle (room : nat) (l : list Z) {struct l} : option (list Z) :=
  match l, room with
  | [], _ => Some []
  | _, O => Some []
  | b :: l', S r =>
    if b != 0xE5 then o ← rle r l'; Some (b :: o)
    else
      match l' with
      | v :: h :: lo :: l'' =>
        let n := Nat.min (Z.to_nat ((h << 8) .| lo)) room in
        o ← rle (room - n) l''; Some (replicate n v ++ o)
      | _ => None
      end
  end.

(** The part of the image that the code does not reach is zero. *)
Definition track (tlen : nat) (data : list Z) : option (list Z) :=
  if Nat.eqb (length data) tlen then Some data
  else o ← rle tlen data; Some (o ++ replicate (tlen - length o) 0).

(** [n] tracks from the rest [l] of the file. *)
Fixpoint msa_tracks (n : nat) (tlen : nat) (l : list Z) : option (list Z) :=
  match n with
  | O => Some []
  | S n =>
    match l with
    | h :: lo :: l =>
      let dlen := Z.to_nat ((h << 8) .| lo) in
      if Nat.ltb (length l) dlen then None
      else
        t ← track tlen (take dlen l);
        rest ← msa_tracks n tlen (drop dlen l);
        Some (t ++ rest)
    | _ => None
    end
  end.

(** [file] is the archive, if it opens; [host_ok]: memory and a temporary file
    are to be had. *)
Definition msa_open_decoded (host_ok : bool) (file : option (list Z)) : msa_result :=
  match file with
  | None => NotMsa
  | Some raw =>
    let fsz := Z.of_nat (length raw) in
    if (fsz <? 2) || negb (raw !!! 0%nat =? 0x0E) || negb (raw !!! 1%nat =? 0x0F) then NotMsa
    else if (fsz <? 12) || (2 * 1024 * 1024 <? fsz) then MsaBroken
    else
      let spt := be16 raw 2 in
      let sides := u16 (be16 raw 4 + 1) in
      let tstart := be16 raw 6 in
      let tend := be16 raw 8 in
      let tlen := 512 * spt in
      let total := u32 (u32 (tlen * sides) * u32 (tend - tstart + 1)) in
      if (spt =? 0) || (12 <? spt) || (2 <? sides) || (tend <? tstart) || (2048 * 1024 <? total) || negb host_ok
      then MsaBroken
      else
        match msa_tracks (Z.to_nat ((tend - tstart + 1) * sides)) (Z.to_nat tlen) (drop 10 raw) with
        | Some img => Msa img
        | None => MsaBroken
        end
  end.

(** ** Archives *)

(** The run-length code: every byte as itself or in a run; the marker only in
    a run. *)
Inductive encodes : list Z -> list Z -> Prop :=
| enc_nil : encodes [] []
| enc_byte b l o : b <> 0xE5 -> encodes l o -> encodes (b :: l) (b :: o)
| enc_run v n l o : is_u16 n -> encodes l o -> encodes (0xE5 :: v :: n / 256 :: n mod 256 :: l) (replicate (Z.to_nat n) v ++ o).

Lemma word_bytes n : is_u16 n -> ((n / 256) << 8) .| (n mod 256) = n.
Proof.
  intros Hn. rewrite Z.lor_comm, lor_shl_add by (try lia; change (2 ^ 8) with 256; apply Z.mod_pos_bound; lia).
  change (2 ^ 8) with 256. Z.div_mod_to_equations. lia.
Qed.

Lemma rle_decodes l o : encodes l o -> rle (length o) l = Some o.
Proof.
  induction 1 as [|b l o Hb _ IH|v n l o Hn _ IH]; [done|..].
  - cbn [rle length]. rewrite (proj2 (Z.eqb_neq _ _) Hb). cbn [negb]. by rewrite IH.
  - rewrite length_app, length_replicate. cbn [rle]. change (0xE5 != 0xE5) with false. rewrite word_bytes by done.
    destruct (Z.to_nat n + length o)%nat as [|r] eqn:E.
    + destruct o; [|cbn in E; lia]. by replace (Z.to_nat n) with O by lia.
    + rewrite <- E. replace (Nat.min (Z.to_nat n) (Z.to_nat n + length o)) with (Z.to_nat n) by lia.
      replace (Z.to_nat n + length o - Z.to_nat n)%nat with (length o) by lia. by rewrite IH.
Qed.

(** How a track may be stored: as it is, or coded, where the code has another
    length. *)
Definition stored_as (data t : list Z) : Prop := data = t \/ (length data <> length t /\ encodes data t).

Lemma track_stored data t : stored_as data t -> track (length t) data = Some t.
Proof.
  unfold track. intros [-> |[Hl He]]; [by rewrite Nat.eqb_refl|].
  rewrite (proj2 (Nat.eqb_neq _ _) Hl), (rle_decodes _ _ He). cbn. by rewrite Nat.sub_diag, app_nil_r.
Qed.

Definition block (data : list Z) : list Z :=
  Z.of_nat (length data) / 256 :: Z.of_nat (length data) mod 256 :: data.

Lemma tracks_stored tlen datas ts rest : Forall2 stored_as datas ts ->
  Forall (fun t => length t = tlen) ts -> Forall (fun d => (Z.of_nat (length d)) < 65536) datas ->
  msa_tracks (length ts) tlen (concat (map block datas) ++ rest) = Some (concat ts).
Proof.
  intros Hs. induction Hs as [|d t ds ts Hd _ IH]; intros Ht Hl; [done|].
  apply Forall_cons_1 in Ht as [<- Ht]. apply Forall_cons_1 in Hl as [L Hl]. cbn [length msa_tracks map concat block].
  unfold block at 1. cbn [app]. rewrite word_bytes by (unfold is_u16; lia). rewrite Nat2Z.id, <- app_assoc.
  rewrite (proj2 (Nat.ltb_ge _ _)) by (rewrite length_app; lia).
  rewrite take_app_length, drop_app_length. rewrite (track_stored _ _ Hd). cbn. by rewrite IH.
Qed.

(** The archive of a disk. *)
Definition word (n : Z) : list Z := [n / 256; n mod 256].
Definition archive (spt sides tstart tend : Z) (datas : list (list Z)) : list Z :=
  [0x0E; 0x0F] ++ word spt ++ word (sides - 1) ++ word tstart ++ word tend ++ concat (map block datas).

Lemma word_be16 n l1 l2 : is_u16 n -> be16 (l1 ++ word n ++ l2) (length l1) = n.
Proof.
  intros Hn. unfold be16, word. rewrite !list_lookup_total_alt.
  rewrite (lookup_app_r _ _ (length l1)), (lookup_app_r _ _ (S (length l1))) by lia.
  replace (S (length l1) - length l1)%nat with 1%nat by lia. rewrite Nat.sub_diag. cbn. by apply word_bytes.
Qed.

Lemma geometry_fd img d : fd (fdd_geometry img d) = fd d.
Proof. unfold fdd_geometry. cbv zeta. by repeat case_match. Qed.
Lemma get_set_same i d f : get_drive i (set_drive i d f) = d.
Proof. unfold get_drive, set_drive. by destruct (i =? 0). Qed.

(** C34: an archive mounts as the disk it holds.  For every archive with a
    sane header whose tracks are stored plainly or with the run-length code,
    [fdd_insert_disk] finds exactly the tracks, one after the other, and the
    drive is write-protected whatever the caller asked for. *)
Theorem msa_mounts spt sides tstart tend datas ts open_image path i wp f :
  1 <= spt <= 12 -> 1 <= sides <= 2 -> is_u16 tstart -> is_u16 tend -> tstart <= tend ->
  Z.of_nat (length ts) = (tend - tstart + 1) * sides -> 512 * spt * Z.of_nat (length ts) <= 2048 * 1024 ->
  Forall (fun t => Z.of_nat (length t) = 512 * spt) ts -> Forall2 stored_as datas ts ->
  Forall (fun d => Z.of_nat (length d) < 65536) datas ->
  let raw := archive spt sides tstart tend datas in
  Z.of_nat (length raw) <= 2 * 1024 * 1024 -> bad_drive i = false ->
  let '(r, f') := fdd_insert_disk open_image (fun _ => msa_open_decoded true (Some raw)) i path wp f in
  r = 0 /\ fd (get_drive i f') = Some (concat ts) /\ write_protected (get_drive i f') = true /\
  disk_inserted (get_drive i f') = true.
Proof.
  intros Hspt Hsides Hts Hte Hle Hn Htot Hlen Hst Hd raw Hsize Hi.
  assert (be16 raw 2 = spt /\ be16 raw 4 = sides - 1 /\ be16 raw 6 = tstart /\ be16 raw 8 = tend) as (E1 & E2 & E3 & E4).
  { unfold raw, archive. split_and!.
    - apply (word_be16 spt [0x0E; 0x0F]). unfold is_u16; lia.
    - apply (word_be16 (sides - 1) ([0x0E; 0x0F] ++ word spt)). unfold is_u16; lia.
    - by apply (word_be16 tstart ([0x0E; 0x0F] ++ word spt ++ word (sides - 1))).
    - by apply (word_be16 tend ([0x0E; 0x0F] ++ word spt ++ word (sides - 1) ++ word tstart)). }
  assert (12 <= length raw)%nat as L.
  { destruct datas as [|d ds]; [apply Forall2_length in Hst; cbn in Hst; rewrite <- Hst in Hn; cbn in Hn; nia|].
    unfold raw, archive, block. cbn. lia. }
  assert (msa_open_decoded true (Some raw) = Msa (concat ts)) as E.
  { unfold msa_open_decoded. cbv zeta. rewrite E1, E2, E3, E4.
    replace (sides - 1 + 1) with sides by lia. rewrite (u16_small sides) by (unfold is_u16; lia).
    assert (u32 (u32 (512 * spt * sides) * u32 (tend - tstart + 1)) = 512 * spt * Z.of_nat (length ts)) as ->.
    { unfold is_u16 in *. rewrite Hn in Htot |- *.
      assert (0 <= 512 * spt * sides <= 12288) by nia.
      assert (0 <= 512 * spt * sides * (tend - tstart + 1)) by (apply Z.mul_nonneg_nonneg; lia).
      replace (512 * spt * ((tend - tstart + 1) * sides)) with (512 * spt * sides * (tend - tstart + 1)) in * by ring.
      rewrite (u32_small (512 * spt * sides)), (u32_small (tend - tstart + 1)) by (unfold is_u32; lia).
      apply u32_small. unfold is_u32. lia. }
    change (raw !!! 0%nat) with 0x0E. change (raw !!! 1%nat) with 0x0F. cbn [negb].
    assert ((spt =? 0) = false) as -> by lia.
    rewrite !(proj2 (Z.ltb_ge _ _)) by lia. cbn [orb negb Z.eqb Pos.eqb].
    rewrite <- Hn, Nat2Z.id. change (drop 10 raw) with (concat (map block datas)).
    rewrite <- (app_nil_r (concat (map block datas))). rewrite tracks_stored; [done|done| |done].
    revert Hlen. apply Forall_impl. intros t Ht. lia. }
  unfold fdd_insert_disk. rewrite Hi, E. cbv zeta iota.
  set (d := {| _ with image_size := _; fd := Some _ |}). pose proof (geometry_fd (concat ts) d) as G.
  change (fd d) with (Some (concat ts)) in G. generalize dependent (fdd_geometry (concat ts) d). intros g G.
  rewrite get_set_same. by cbn.
Qed.

(** A header that claims 65536 sides passes the checks, because their number
    wraps to zero, and decodes to an empty disk. *)
Lemma msa_no_sides : msa_open_decoded true (Some [0x0E; 0x0F; 0; 9; 0xFF; 0xFF; 0; 0; 0; 0; 0; 0]) = Msa [].
Proof. reflexivity. Qed.
