(* ===== verification/Fdc.v ===== *)
(** * Fdc: the floppy controller ([platforms/atari/fdd/atari_fdd.c])

    The emulated WD1772 behind the DMA chip: drive and side select through the
    PSG, the DMA registers, the controller's registers and commands, sector
    access to the images; the routing of the shared port between emulated
    floppy, emulated ACSI targets ([Acsi]) and real devices, with the copies
    that keep the emulator's RAM and real RAM in step around real transfers.
    Mounting is in [Fdd].  Traces and delays are left out. *)

From S2P Require Import Prelude StRam DiskOrder Acsi Fdd.
From Stdlib Require Import ZArith Lia Bool List String.
From stdpp Require Import base list numbers.
Open Scope Z_scope.
Open Scope cint_scope.

(** ** Registers ([atari_fdd.h]) *)
Definition FDC_DATA_REG := 0xFF8604.
Definition DMA_MODE_REG := 0xFF8606.
Definition DMA_BASE_HIGH := 0xFF8609.
Definition DMA_BASE_MID := 0xFF860B.
Definition DMA_BASE_LOW := 0xFF860D.
Definition PSG_REG_SELECT := 0xFF8800.
Definition PSG_REG_WRITE := 0xFF8802.
Definition PSG_PORT_A_REG := 14.
Definition DMA_MODE_A0 := 1 << 1.
Definition DMA_MODE_A1 := 1 << 2.
Definition DMA_MODE_FDC_HDC := 1 << 3.
Definition DMA_MODE_SCREG := 1 << 4.
Definition DMA_MODE_RW := 1 << 8.
Definition PSG_SIDE_SEL := 1 << 0.
Definition PSG_DRIVE_A_SEL := 1 << 1.
Definition PSG_DRIVE_B_SEL := 1 << 2.
Definition FDC_CMD_READ_ADDR := 0xC0.
Definition FDC_CMD_FORCE_INT := 0xD0.
Definition FDC_CMD_READ_TRACK := 0xE0.
Definition FDC_CMD_WRITE_SEC := 0xA0.
Definition FDC_CMD_WRITE_TRACK := 0xF0.
Definition FDC_STATUS_BUSY := 1 << 0.
Definition FDC_STATUS_INDEX := 1 << 1.
Definition FDC_STATUS_TRACK0 := 1 << 2.
Definition FDC_STATUS_LOSTDATA := 1 << 2.
Definition FDC_STATUS_CRCERR := 1 << 3.
Definition FDC_STATUS_SEEKERR := 1 << 4.
Definition FDC_STATUS_RECNF := 1 << 4.
Definition FDC_STATUS_WRTPROT := 1 << 6.
Definition FDC_STATUS_MOTORON := 1 << 7.
Definition FDD_MAX_DRIVES := 2.
Definition MOTOR_OFF_TICKS := 90.
Definition HDC_MAX_SYNC_SECTORS := 256.

(** ** State *)

(** A read command given to a real controller: [rfdc]. *)
Record rfdc_t := mk_rfdc { r_armed : bool; r_base : Z; r_count : Z; r_t_cmd : Z }.

(** [fdc_controller_t] and the file's statics.  The address counter and the
    status of the DMA chip are in [prt]; [tracks] are the drives'
    [current_track]. *)
Record ctrl (H : Type) := mk_ctrl {
  prt : port H;
  status : Z; command : Z; track_reg : Z; sector_reg : Z; data_reg : Z;
  dma_mode : Z; dma_sector_count : Z; dma_base_addr : Z;
  hdc_base : Z; hdc_count : Z; hdc_pending : bool;
  psg_porta : Z; psg_reg_sel : Z; selected_drive : Z; selected_side : Z;
  irq_pending : bool; irq_ready : bool;
  drives : list fdd_drive; tracks : list Z; motor_ticks : list Z; last_wp : list bool;
  hdc_active : bool; hdc_count_fresh : bool;
  prepush_base : Z; prepush_count : Z; prepushed : bool;
  rfdc : rfdc_t }.
Arguments mk_ctrl {H}. Arguments prt {H}. Arguments status {H}. Arguments command {H}.
Arguments track_reg {H}. Arguments sector_reg {H}. Arguments data_reg {H}. Arguments dma_mode {H}.
Arguments dma_sector_count {H}. Arguments dma_base_addr {H}. Arguments hdc_base {H}. Arguments hdc_count {H}.
Arguments hdc_pending {H}. Arguments psg_porta {H}. Arguments psg_reg_sel {H}. Arguments selected_drive {H}.
Arguments selected_side {H}. Arguments irq_pending {H}. Arguments irq_ready {H}. Arguments drives {H}.
Arguments tracks {H}. Arguments motor_ticks {H}. Arguments last_wp {H}. Arguments hdc_active {H}.
Arguments hdc_count_fresh {H}. Arguments prepush_base {H}. Arguments prepush_count {H}. Arguments prepushed {H}.
Arguments rfdc {H}.
#[export] Instance drive_inhabited : Inhabited fdd_drive := populate drive0.

Section Fdc.
Context {H : Type} `{DmaHw H}.
(** The configuration: is the floppy emulated, do real devices pass through,
    may the controller raise MFP interrupts; the end of the board's RAM. *)
Context (FDD_enabled fdd_passthrough pst_fdd_mfp_irq : bool) (pistorm_stram_phys_top : Z).
Implicit Types (s : ctrl H).

Definition on_prt (f : port H -> port H) s : ctrl H := {| s with prt := f (prt s) |}.
Definition on_chip (f : chip H -> chip H) : ctrl H -> ctrl H := on_prt (on_dc f).
Definition on_bus (f : H -> H) : ctrl H -> ctrl H := on_chip (on_hw f).
Definition on_acsi (f : acsi -> acsi) : ctrl H -> ctrl H := on_prt (on_ac f).
Definition chip_of s : chip H := dc (prt s).
Definition acsi_of s : acsi := ac (prt s).
Definition set_dma_addr (a : Z) : ctrl H -> ctrl H := on_chip (fun c => {| c with dma_addr := a |}).
Definition set_dma_status (v : Z) : ctrl H -> ctrl H := on_chip (fun c => {| c with dma_status := v |}).
Definition set_status (v : Z) s : ctrl H := {| s with status := v |}.
Definition drive_of (i : Z) s : fdd_drive := drives s !!! Z.to_nat i.
Definition track_of (i : Z) s : Z := tracks s !!! Z.to_nat i.
Definition set_drv (i : Z) (d : fdd_drive) s : ctrl H := {| s with drives := <[Z.to_nat i := d]> (drives s) |}.
Definition set_track (i t : Z) s : ctrl H := {| s with tracks := <[Z.to_nat i := t]> (tracks s) |}.
Definition no_drive (d : Z) : bool := (d <? 0) || (FDD_MAX_DRIVES <=? d).

(** [v &= ~m] on a status byte. *)
Definition clr (m v : Z) : Z := v .& u8 (Z.lnot m).

(** ** The interrupt *)
Definition fdc_raise_irq_immediate s : ctrl H := {| s with irq_pending := true; irq_ready := true |}.
Definition fdc_raise_irq_latched s : ctrl H := {| s with irq_pending := true; irq_ready := false |}.
Definition fdc_clear_irq s : ctrl H := {| s with irq_pending := false; irq_ready := false |}.

Definition fdd_irq_active s : bool * ctrl H :=
  if negb (irq_pending s) then (false, s)
  else if negb (irq_ready s) then (false, {| s with irq_ready := true |})
  else (true, s).

(** ** Images *)
Definition sides_of (d : fdd_drive) : Z := if truth (num_sides d) then num_sides d else 2.

Definition sector_offset (d : fdd_drive) (track side sector : Z) : Z :=
  let bytes_per_track := s32 (FDD_SECTOR_SIZE * sectors_per_track d) in
  let offset := s32 (bytes_per_track * side) in
  let offset := s32 (offset + s32 (s32 (bytes_per_track * sides_of d) * track)) in
  s32 (offset + s32 (FDD_SECTOR_SIZE * (sector - 1))).

Definition out_of_range (d : fdd_drive) (track side sector cnt : Z) : bool :=
  (track <? 0) || (num_tracks d <=? track) || (side <? 0) || (sides_of d <=? side)
  || (sector <? 1) || (sectors_per_track d <? sector + cnt - 1).

Definition fdd_image_read (drive track side sector cnt : Z) s : option (list Z) :=
  let d := drive_of drive s in
  match fd d with
  | Some img =>
    if negb (disk_inserted d) || out_of_range d track side sector cnt then None
    else
      let b := pread img (sector_offset d track side sector) (cnt * FDD_SECTOR_SIZE) in
      if Z.of_nat (length b) =? cnt * FDD_SECTOR_SIZE then Some b else None
  | None => None
  end.

Definition fdd_image_write (drive track side sector cnt : Z) (buf : list Z) s : bool * ctrl H :=
  let d := drive_of drive s in
  match fd d with
  | Some img =>
    if negb (disk_inserted d) || write_protected d || out_of_range d track side sector cnt then (false, s)
    else
      let '(n, img, c) := pwrite drive img (sector_offset d track side sector) buf (chip_of s) in
      (n =? cnt * FDD_SECTOR_SIZE, set_drv drive {| d with fd := Some img |} (on_chip (fun _ => c) s))
  | None => (false, s)
  end.

(** ** Commands *)
Definition fail_latched (bit : Z) s : ctrl H :=
  fdc_raise_irq_latched (set_dma_status 0 (set_status (clr FDC_STATUS_BUSY (status s .| bit)) s)).

Definition ok_latched s : ctrl H :=
  let s := set_dma_status (DMA_STATUS_OK .| DMA_STATUS_SCZERO) {| s with dma_sector_count := 0 |} in
  fdc_raise_irq_latched (set_status (clr FDC_STATUS_BUSY (status s)) s).

Definition no_disk (drv : Z) s : bool := no_drive drv || negb (disk_inserted (drive_of drv s)).
Definition xfer_count s : Z := if truth (dma_sector_count s) then dma_sector_count s else 1.

Definition fdc_do_read_sectors s : ctrl H :=
  let s := set_dma_status DMA_STATUS_OK s in
  let drv := selected_drive s in
  let cnt := xfer_count s in
  if no_disk drv s then fail_latched FDC_STATUS_RECNF s
  else if negb (malloc_ok (cnt * FDD_SECTOR_SIZE) (hw (chip_of s))) then fail_latched FDC_STATUS_LOSTDATA s
  else
    match fdd_image_read drv (track_of drv s) (selected_side s) (sector_reg s) cnt s with
    | None => fail_latched FDC_STATUS_RECNF s
    | Some buf => ok_latched (on_chip (fun c => dma_copy_to_ram (dma_addr c) buf c) s)
    end.

Definition fdc_do_write_sectors s : ctrl H :=
  let s := set_dma_status DMA_STATUS_OK s in
  let drv := selected_drive s in
  let cnt := xfer_count s in
  if no_disk drv s then fail_latched FDC_STATUS_RECNF s
  else if write_protected (drive_of drv s) then fail_latched FDC_STATUS_WRTPROT s
  else if negb (malloc_ok (cnt * FDD_SECTOR_SIZE) (hw (chip_of s))) then fail_latched FDC_STATUS_LOSTDATA s
  else
    let buf := fresh_bytes (cnt * FDD_SECTOR_SIZE) (hw (chip_of s)) in
    let buf := dma_copy_from_ram (dma_addr (chip_of s)) buf (chip_of s) in
    let '(ok, s) := fdd_image_write drv (track_of drv s) (selected_side s) (sector_reg s) cnt buf s in
    if ok then ok_latched s else fail_latched FDC_STATUS_RECNF s.

Definition finish_now (v : Z) s : ctrl H := fdc_raise_irq_immediate (set_status v s).

(** The ID field: track, side, sector, size code, CRC. *)
Definition id_field (track side sector : Z) : list Z := [u8 track; u8 side; sector; 2; 0; 0].

Definition fdc_do_read_address s : ctrl H :=
  let drv := selected_drive s in
  if no_disk drv s then finish_now (clr FDC_STATUS_BUSY (status s .| FDC_STATUS_RECNF)) s
  else
    let track := track_of drv s in
    let sector := if truth (sector_reg s) then sector_reg s else 1 in
    let s := on_chip (fun c => dma_copy_to_ram (dma_addr c) (id_field track (selected_side s) sector) c) s in
    let s := {| s with track_reg := u8 track; sector_reg := sector |} in
    finish_now (clr FDC_STATUS_BUSY (status s)) s.

(** Restore, Seek, Step, Step In, Step Out. *)
Definition seek_to (drv target max_tracks : Z) s : ctrl H :=
  if (target <? 0) || (max_tracks <=? target) then set_status (status s .| FDC_STATUS_SEEKERR) s
  else {| (set_track drv target s) with track_reg := u8 target |}.

Definition step_to (cmd drv t : Z) s : ctrl H :=
  let s := set_track drv t s in
  if truth (cmd .& 0x10) then {| s with track_reg := u8 t |} else s.

Definition move_head (cmd drv max_tracks : Z) s : ctrl H :=
  let t := track_of drv s in
  if cmd .& 0xF0 =? 0x00 then {| (set_track drv 0 s) with track_reg := 0 |}
  else if cmd .& 0xF0 =? 0x10 then seek_to drv (data_reg s) max_tracks s
  else if cmd .& 0xE0 =? 0x20 then s
  else if cmd .& 0xE0 =? 0x40 then step_to cmd drv (if t <? max_tracks - 1 then t + 1 else t) s
  else if cmd .& 0xE0 =? 0x60 then step_to cmd drv (if 0 <? t then t - 1 else t) s
  else s.

Definition fdc_do_type1 (cmd : Z) s : ctrl H :=
  let drv := selected_drive s in
  if no_drive drv then finish_now (clr FDC_STATUS_BUSY (status s) .| FDC_STATUS_SEEKERR) s
  else
    let d := drive_of drv s in
    let s := move_head cmd drv (if disk_inserted d then num_tracks d else FDD_TRACKS_80) s in
    let v := if track_of drv s =? 0 then status s .| FDC_STATUS_TRACK0 else clr FDC_STATUS_TRACK0 (status s) in
    finish_now (clr FDC_STATUS_BUSY v) s.

Definition start_status (v : Z) : Z :=
  clr (FDC_STATUS_INDEX .| FDC_STATUS_CRCERR .| FDC_STATUS_SEEKERR .| FDC_STATUS_WRTPROT .| FDC_STATUS_LOSTDATA)
      (v .| FDC_STATUS_BUSY).

Definition fdc_exec_command (cmd : Z) s : ctrl H :=
  let s := fdc_clear_irq {| s with command := cmd; status := start_status (status s) |} in
  let top4 := cmd .& 0xF0 in
  let top3 := cmd .& 0xE0 in
  if top4 =? 0xD0 then
    let s := set_status (clr FDC_STATUS_BUSY (status s)) s in
    if truth (cmd .& 0x08) then fdc_raise_irq_immediate s else s
  else if (top4 =? 0x00) || (top4 =? 0x10) || (top3 =? 0x20) || (top3 =? 0x40) || (top3 =? 0x60)
  then fdc_do_type1 cmd s
  else if top3 =? 0x80 then fdc_do_read_sectors s
  else if top3 =? 0xA0 then fdc_do_write_sectors s
  else if top4 =? 0xC0 then fdc_do_read_address s
  else if (top4 =? 0xE0) || (top4 =? 0xF0)
  then finish_now (clr FDC_STATUS_BUSY (status s .| FDC_STATUS_RECNF)) s
  else finish_now (clr FDC_STATUS_BUSY (status s)) s.

(** ** The controller's registers ($FF8604) *)
Definition fdc_reg_index s : Z := (dma_mode s >> 1) .& 0x03.

(** Bit 6 of a Type I status is the live write-protect sensor; one read after
    a disk change shows it inverted. *)
Definition live_status s : Z * ctrl H :=
  let v := status s in
  let drv := selected_drive s in
  if (command s .& 0x80 =? 0) && negb (no_drive drv) then
    let d := drive_of drv s in
    let v := if negb (disk_inserted d) || write_protected d then v .| FDC_STATUS_WRTPROT
             else clr FDC_STATUS_WRTPROT v in
    if media_changed d then (v .^ FDC_STATUS_WRTPROT, set_drv drv {| d with media_changed := false |} s)
    else (v, s)
  else (v, s).

Definition fdc_read_addr s : Z * ctrl H :=
  if truth (dma_mode s .& DMA_MODE_SCREG) then (dma_sector_count s, s)
  else
    match fdc_reg_index s with
    | 0 => let '(v, s) := live_status s in (v, fdc_clear_irq s)
    | 1 => (track_reg s, s)
    | 2 => (sector_reg s, s)
    | _ => (data_reg s, s)
    end.

Definition start_motor s : ctrl H :=
  let d := selected_drive s in
  if no_drive d then s
  else {| s with motor_ticks := <[Z.to_nat d := MOTOR_OFF_TICKS]> (motor_ticks s);
                 status := status s .| FDC_STATUS_MOTORON |}.

Definition fdc_write_addr (val : Z) s : ctrl H :=
  let v := val .& 0xFF in
  if truth (dma_mode s .& DMA_MODE_SCREG) then set_dma_addr (dma_base_addr s) {| s with dma_sector_count := v |}
  else
    match fdc_reg_index s with
    | 0 => fdc_exec_command v (start_motor s)
    | 1 => {| s with track_reg := v |}
    | 2 => {| s with sector_reg := v |}
    | _ => {| s with data_reg := v |}
    end.

(** ** The DMA chip's registers *)
Definition dma_hi_mask s : Z := if 0x400000 <? stram_top (ram (chip_of s)) then 0xFF else 0x3F.

Definition dma_read_addr (addr : Z) s : Z :=
  let a := dma_addr (chip_of s) in
  if addr =? DMA_MODE_REG then dma_status (chip_of s)
  else if addr =? DMA_BASE_HIGH then (a >> 16) .& dma_hi_mask s
  else if addr =? DMA_BASE_MID then (a >> 8) .& 0xFF
  else if addr =? DMA_BASE_LOW then a .& 0xFF
  else 0xFF.

Definition put_base (f : Z -> Z) s : ctrl H :=
  set_dma_addr (f (dma_addr (chip_of s))) {| s with dma_base_addr := f (dma_base_addr s) |}.

Definition dma_write_addr (addr val : Z) s : ctrl H :=
  let v16 := val .& 0xFFFF in
  let v8 := val .& 0xFF in
  if addr =? DMA_MODE_REG then
    let s := if truth ((dma_mode s .^ v16) .& DMA_MODE_RW) then on_acsi acsi_dma_fifo_reset s else s in
    {| s with dma_mode := v16 |}
  else if addr =? DMA_BASE_HIGH then put_base (fun a => (a .& 0x00FFFF) .| ((v8 .& dma_hi_mask s) << 16)) s
  else if addr =? DMA_BASE_MID then put_base (fun a => (a .& 0xFF00FF) .| (v8 << 8)) s
  else if addr =? DMA_BASE_LOW then put_base (fun a => (a .& 0xFFFF00) .| v8) s
  else s.

(** ** Real bus accesses, and the PSG *)
Definition bus_get (addr size : Z) s : Z * ctrl H :=
  let '(v, h) := if size =? 2 then ps_read_16 addr (hw (chip_of s)) else ps_read_8 addr (hw (chip_of s)) in
  (v, on_bus (fun _ => h) s).
Definition bus_put (addr val size : Z) : ctrl H -> ctrl H :=
  on_bus (if size =? 2 then ps_write_16 addr (u16 val) else ps_write_8 addr (u8 val)).

Definition psg_served_bits s : Z :=
  (if disk_inserted (drive_of 0 s) then PSG_DRIVE_A_SEL else 0)
  .| (if disk_inserted (drive_of 1 s) then PSG_DRIVE_B_SEL else 0).

Definition psg_read_addr (addr size : Z) s : Z * ctrl H :=
  let '(real, s) := bus_get addr size s in
  let m := psg_served_bits s in
  if (addr =? PSG_REG_SELECT) && (psg_reg_sel s =? PSG_PORT_A_REG) && truth m then
    let hi := u8 (if size =? 2 then real >> 8 else real) in
    let hi := u8 ((hi .& u8 (Z.lnot m)) .| (psg_porta s .& m)) in
    (if size =? 2 then (hi << 8) .| (real .& 0xFF) else hi, s)
  else (real, s).

Definition fdc_decode_drive_side s : ctrl H :=
  let p := psg_porta s in
  {| s with selected_side := if truth (p .& PSG_SIDE_SEL) then 0 else 1;
            selected_drive := if negb (truth (p .& PSG_DRIVE_A_SEL)) then 0
                              else if negb (truth (p .& PSG_DRIVE_B_SEL)) then 1 else -1 |}.

Definition psg_write_addr (addr val size : Z) s : ctrl H :=
  let v := u8 (if size =? 2 then val >> 8 else val) in
  if addr =? PSG_REG_SELECT then bus_put addr val size {| s with psg_reg_sel := u8 (v .& 0x0F) |}
  else if (addr =? PSG_REG_WRITE) && (psg_reg_sel s =? PSG_PORT_A_REG) then
    let v' := u8 (v .| psg_served_bits s) in
    bus_put addr (if size =? 2 then (v' << 8) .| (val .& 0xFF) else v') size
      (fdc_decode_drive_side {| s with psg_porta := v |})
  else bus_put addr val size s.

(** ** Real devices: keeping the two copies of RAM in step *)
Definition hdc_window_ok (base len : Z) : bool :=
  let e := u32 (base + len) in
  negb ((len =? 0) || (0x400000 <=? base) || (0x400000 <? e))
  && negb (truth pistorm_stram_phys_top && (pistorm_stram_phys_top <? e)).

Definition hdc_clamp (base len : Z) : Z :=
  let top := pistorm_stram_phys_top in
  let e := if truth top && (top <? 0x400000) then top else 0x400000 in
  if e <=? base then 0 else if e - base <? len then e - base else len.

Definition bus8 (addr : Z) (h : H) : Z * H := ps_read_8 addr h.

Definition hdc_dma_counter (h : H) : Z * H :=
  let '(a, h) := bus8 0xFF8609 h in
  let '(b, h) := bus8 0xFF860B h in
  let '(c, h) := bus8 0xFF860D h in
  ((a << 16) .| (b << 8) .| c, h).

(** Waits until the counter reaches [e] or has rested for three samples; every
    round takes five microseconds or more, so the limit of 2 ms is reached
    within [fuel] = 401 rounds. *)
Fixpoint wait_loop (fuel : nat) (e t0 prev still : Z) (h : H) : H :=
  match fuel with
  | O => h
  | S fuel =>
    if prev =? e then h
    else
      let '(now, h) := hdc_dma_counter (busy_wait 5 h) in
      let still := if now =? prev then still + 1 else 0 in
      if (now =? prev) && (3 <=? still) then h
      else
        let '(t, h) := ht_now_us h in
        if 2000 <? t - t0 then h else wait_loop fuel e t0 now still h
  end.

Definition hdc_wait_dma_done (base len : Z) (h : H) : H :=
  let '(t0, h) := ht_now_us h in
  let '(prev, h) := hdc_dma_counter h in
  wait_loop 401 (u32 (base + len)) t0 prev 0 h.

Fixpoint real_reads (n : nat) (addr : Z) (h : H) : list Z * H :=
  match n with
  | O => ([], h)
  | S n => let '(b, h) := ps_read_8 addr h in let '(l, h) := real_reads n (addr + 1) h in (b :: l, h)
  end.

(** Real RAM to the emulator's, 512 bytes at a time. *)
Fixpoint pull_chunks (fuel : nat) (base len : Z) (c : chip H) : chip H :=
  match fuel with
  | O => c
  | S fuel =>
    if len <=? 0 then c
    else
      let n := Z.min len 512 in
      let '(buf, h) := real_reads (Z.to_nat n) base (hw c) in
      pull_chunks fuel (base + 512) (len - 512)
        {| c with hw := h; ram := pistorm_dma_to_stram base buf (ram c) |}
  end.
Definition pull (base len : Z) (c : chip H) : chip H := pull_chunks (Z.to_nat len) base len c.

(** The emulator's RAM to real RAM. *)
Fixpoint real_push (addr : Z) (buf : list Z) (h : H) : H :=
  match buf with
  | [] => h
  | b :: buf => real_push (addr + 1) buf (ps_write_8 addr b h)
  end.
Fixpoint push_chunks (fuel : nat) (base len : Z) (c : chip H) : chip H :=
  match fuel with
  | O => c
  | S fuel =>
    if len <=? 0 then c
    else
      let n := Z.min len 512 in
      let buf := pistorm_dma_from_stram base (fresh_bytes n (hw c)) (ram c) in
      push_chunks fuel (base + 512) (len - 512) (on_hw (real_push base buf) c)
  end.

Definition hdc_sync_pull s : ctrl H :=
  let s := {| s with hdc_pending := false |} in
  let base := hdc_base s in
  let want := hdc_clamp base (hdc_count s * 512) in
  if (want =? 0) || negb (hdc_window_ok base want) then s
  else
    let s := on_bus (hdc_wait_dma_done base want) s in
    let '(now, h) := hdc_dma_counter (hw (chip_of s)) in
    let moved := u32 (now - base) .& 0xFFFFFF in
    on_chip (fun c => pull base (Z.min moved want) {| c with hw := h |}) s.

Definition hdc_push_window (base cnt : Z) s : ctrl H :=
  let len := hdc_clamp base (u32 (cnt * 512)) in
  if (len =? 0) || negb (hdc_window_ok base len) then s
  else on_chip (push_chunks (Z.to_nat len) base len) s.

Definition hdc_sync_push s : ctrl H :=
  if prepushed s && (prepush_base s =? hdc_base s) && (hdc_count s <=? prepush_count s)
  then {| s with prepushed := false |}
  else hdc_push_window (hdc_base s) (hdc_count s) {| s with prepushed := false |}.

Definition hdc_note_sector_count (val : Z) s : ctrl H :=
  let n := Z.min (val .& 0xFF) HDC_MAX_SYNC_SECTORS in
  let s := {| s with hdc_count := n; hdc_count_fresh := true; prepushed := false |} in
  if truth (dma_mode s .& DMA_MODE_RW) && truth n then
    {| (hdc_push_window (dma_base_addr s) n s) with
       prepush_base := dma_base_addr s; prepush_count := n; prepushed := true |}
  else s.

Definition hdc_claim_count (first : bool) s : ctrl H :=
  let s := {| s with hdc_active := true |} in
  if negb (hdc_count_fresh s) then
    if first && negb (truth (dma_mode s .& DMA_MODE_RW)) then
      let '(now, h) := hdc_dma_counter (hw (chip_of s)) in
      {| (on_bus (fun _ => h) s) with hdc_base := now;
         hdc_count := if truth (hdc_count s) then hdc_count s else 1; hdc_pending := true |}
    else s
  else
    let s := {| s with hdc_count_fresh := false; hdc_base := dma_base_addr s |} in
    if truth (dma_mode s .& DMA_MODE_RW) then {| (hdc_sync_push s) with hdc_pending := false |}
    else {| s with hdc_pending := truth (hdc_count s) |}.

Definition RFDC_SETTLE_US := 200.

Definition rfdc_settled s : bool * ctrl H :=
  let '(t, h) := ht_now_us (hw (chip_of s)) in
  (RFDC_SETTLE_US <=? t - r_t_cmd (rfdc s), on_bus (fun _ => h) s).

Definition rfdc_pull s : ctrl H :=
  let r := rfdc s in
  let s := {| s with rfdc := {| r with r_armed := false |} |} in
  let want := u32 (r_count r * 512) in
  let s := on_bus (hdc_wait_dma_done (r_base r) want) s in
  let '(now, h) := hdc_dma_counter (hw (chip_of s)) in
  let s := on_bus (fun _ => h) s in
  let moved := u32 (now - r_base r) .& 0xFFFFFF in
  let len := if truth want && (want <? moved) then want else moved in
  let len := Z.min len (HDC_MAX_SYNC_SECTORS * 512) in
  if hdc_window_ok (r_base r) len then on_chip (pull (r_base r) len) s else s.

Definition rfdc_command (cmd : Z) s : ctrl H :=
  let t := cmd .& 0xF0 in
  let s := {| s with hdc_count_fresh := false; hdc_pending := false |} in
  if t =? FDC_CMD_FORCE_INT then s
  else
    let s := {| s with rfdc := {| (rfdc s) with r_armed := false |} |} in
    let s :=
      if (t =? 0x80) || (t =? 0x90) || (t =? FDC_CMD_READ_ADDR) || (t =? FDC_CMD_READ_TRACK) then
        let '(now, h) := ht_now_us (hw (chip_of s)) in
        {| (on_bus (fun _ => h) s) with rfdc := mk_rfdc true (dma_base_addr s) (hdc_count s) now |}
      else if (t =? FDC_CMD_WRITE_SEC) || (t =? 0xB0) || (t =? FDC_CMD_WRITE_TRACK) then
        if prepushed s && (prepush_base s =? dma_base_addr s) && (hdc_count s <=? prepush_count s) then s
        else hdc_push_window (dma_base_addr s) (hdc_count s) s
      else s in
    {| s with prepushed := false |}.

Definition mode_a s : Z := dma_mode s .& (DMA_MODE_A0 .| DMA_MODE_A1).

Definition rfdc_status_read (val : Z) s : ctrl H :=
  if r_armed (rfdc s) && (mode_a s =? 0) && negb (truth (val .& FDC_STATUS_BUSY)) then
    let '(ok, s) := rfdc_settled s in if ok then rfdc_pull s else s
  else s.

Definition rfdc_gpip (gpip : Z) s : ctrl H :=
  if r_armed (rfdc s) && negb (truth (gpip .& (1 << 5))) then
    let '(ok, s) := rfdc_settled s in if ok then rfdc_pull s else s
  else s.

(** ** The dispatch *)
Definition hdc_selected s : bool := truth (dma_mode s .& DMA_MODE_FDC_HDC).
Definition screg s : bool := truth (dma_mode s .& DMA_MODE_SCREG).
Definition in_dma (addr : Z) : bool := (0xFF8600 <=? addr) && (addr <=? 0xFF860F).
Definition in_psg (addr : Z) : bool := (0xFF8800 <=? addr) && (addr <=? 0xFF8803).
Definition shared_reg (addr : Z) : bool :=
  (addr =? DMA_MODE_REG) || (addr =? DMA_BASE_HIGH) || (addr =? DMA_BASE_MID) || (addr =? DMA_BASE_LOW).

Definition read_status_real (addr size : Z) s : Z * ctrl H :=
  let '(val, s) := bus_get addr size s in
  (val, if hdc_pending s then
          if truth (val .& 0x1E) then {| s with hdc_pending := false |} else hdc_sync_pull s
        else s).

Definition read_data_reg (addr size : Z) s : Z * ctrl H :=
  if screg s then
    if acsi_owns_dma (acsi_of s) then (acsi_residual_count (acsi_of s), s)
    else if hdc_active s then bus_get addr size s else fdc_read_addr s
  else if hdc_selected s then
    if acsi_owns_dma (acsi_of s) then
      let '(v, a) := acsi_status_read (acsi_of s) in (v, on_acsi (fun _ => a) s)
    else read_status_real addr size s
  else if FDD_enabled then fdc_read_addr s
  else let '(val, s) := bus_get addr size s in (val, rfdc_status_read val s).

Definition io_read (addr size : Z) s : Z * ctrl H :=
  if in_dma addr then
    if addr =? FDC_DATA_REG then read_data_reg addr size s
    else if shared_reg addr && hdc_active s && negb (acsi_owns_dma (acsi_of s)) then bus_get addr size s
    else (dma_read_addr addr s, s)
  else if in_psg addr then psg_read_addr addr size s
  else (0xFF, s).

Definition fdd_io_read (addr size : Z) s : Z * ctrl H :=
  if size =? 4 then
    let '(hi, s) := io_read addr 2 s in
    let '(lo, s) := io_read (u32 (addr + 2)) 2 s in (u32 (hi << 16) .| lo, s)
  else io_read addr size s.

Definition acsi_byte (addr val size : Z) s : ctrl H :=
  let first := mode_a s =? 0 in
  let '(taken, p) := acsi_cmd_byte (u8 val) first (prt s) in
  let s := {| s with prt := p |} in
  if taken then {| s with hdc_count_fresh := false; hdc_pending := false |}
  else bus_put addr val size (hdc_claim_count first s).

Definition write_data_reg (addr val size : Z) s : ctrl H :=
  if screg s then bus_put addr val size (fdc_write_addr val (hdc_note_sector_count val s))
  else if hdc_selected s then acsi_byte addr val size s
  else if negb FDD_enabled then
    let s := {| (on_acsi acsi_release s) with hdc_active := true |} in
    bus_put addr val size (if mode_a s =? 0 then rfdc_command (u8 val) s else s)
  else
    fdc_write_addr val {| (on_acsi acsi_release s) with
      hdc_active := false; hdc_count_fresh := false; hdc_pending := false |}.

Definition io_write (addr val size : Z) s : ctrl H :=
  if in_dma addr then
    if shared_reg addr then bus_put addr val size (dma_write_addr addr val s)
    else if addr =? FDC_DATA_REG then write_data_reg addr val size s
    else bus_put addr val size s
  else if in_psg addr then psg_write_addr addr val size s
  else s.

Definition fdd_io_write (addr val size : Z) s : ctrl H :=
  if size =? 4 then io_write (u32 (addr + 2)) (val .& 0xFFFF) 2 (io_write addr ((val >> 16) .& 0xFFFF) 2 s)
  else io_write addr val size s.

Definition fdd_owns_address (addr : Z) : bool := in_dma addr || in_psg addr.
Definition fdd_route_address (addr : Z) (a : acsi) : bool :=
  if FDD_enabled then fdd_owns_address addr
  else if acsi_enabled a || fdd_passthrough then in_dma addr else false.
Definition fdd_dma_routed (a : acsi) : bool := FDD_enabled || acsi_enabled a || fdd_passthrough.

(** ** What the MFP sees, and the clock *)
Definition served s : bool := (0 <=? selected_drive s) && disk_inserted (drive_of (selected_drive s) s).

Definition fdd_gpip (other_gpip : Z) s : Z * ctrl H :=
  let low := other_gpip .& u8 (Z.lnot (1 << 5)) in
  if acsi_irq_active (acsi_of s) then (low, s)
  else
    let '(active, s) := if served s then fdd_irq_active s else (false, s) in
    if active then (low, s)
    else (other_gpip, if FDD_enabled then s else rfdc_gpip other_gpip s).

Definition fdd_mfp_level_poll s : bool :=
  pst_fdd_mfp_irq && (acsi_irq_active (acsi_of s) || (served s && irq_pending s && irq_ready s)).

Definition vbl_drive (i : Z) s : ctrl H :=
  let t := motor_ticks s !!! Z.to_nat i in
  if 0 <? t then
    let s := {| s with motor_ticks := <[Z.to_nat i := t - 1]> (motor_ticks s) |} in
    if (t - 1 =? 0) && (selected_drive s =? i) then set_status (clr FDC_STATUS_MOTORON (status s)) s else s
  else s.
Definition fdd_vbl s : ctrl H := vbl_drive 1 (vbl_drive 0 s).

(** ** Mounting, as seen by the whole controller *)
Definition as_fdc s : Fdd.fdc := Fdd.mk_fdc (drive_of 0 s) (drive_of 1 s) (truth (status s .& FDC_STATUS_BUSY)).
Definition on_mount (f : Fdd.fdc -> Fdd.fdc) s : ctrl H :=
  let m := f (as_fdc s) in {| s with drives := [Fdd.drive_a m; Fdd.drive_b m] |}.

(** The eject key: eject, or mount the same image again. *)
Definition fdd_toggle_disk (open_image : string -> bool -> option (list Z)) (msa : string -> msa_result)
    (drive : Z) s : ctrl H :=
  if no_drive drive then s
  else
    let d := drive_of drive s in
    if disk_inserted d then
      on_mount (fdd_eject_disk drive)
        {| s with last_wp := <[Z.to_nat drive := write_protected d]> (last_wp s) |}
    else if String.eqb (image_path d) EmptyString then s
    else on_mount (fun f => (fdd_insert_disk open_image msa drive (image_path d)
                               (last_wp s !!! Z.to_nat drive) f).2) s.

(** ** Start *)
Definition reset_drive : fdd_drive := {| drive0 with num_sides := 2; reserved_sectors := 0 |}.
Definition fdd_init (no_intrq_clear : bool) (a : acsi) (r : stram) (h : H) : ctrl H :=
  let s := mk_ctrl (mk_port a (mk_chip h r 0 DMA_STATUS_OK)) 0 0 0 1 0 0 0 0 0 0 false 0xFF 0 (-1) 0 false false
    [reset_drive; reset_drive] [0; 0] [0; 0] [false; false] false false 0 0 false (mk_rfdc false 0 0 0) in
  if no_intrq_clear then s
  else
    let s := bus_put DMA_MODE_REG 0x0080 2 s in
    let s := (bus_get FDC_DATA_REG 2 s).2 in
    bus_put DMA_MODE_REG 0x0080 2 s.

(** With real devices only: the flag [fdd_passthrough] is set too. *)
Definition fdd_init_passthrough (no_intrq_clear : bool) (a : acsi) (r : stram) (h : H) : bool * ctrl H :=
  (true, fdd_init no_intrq_clear a r h).

Definition fdd_shutdown s : ctrl H :=
  {| s with drives := map (fun d => {| d with fd := None |}) (drives s) |}.
Definition fdd_dma_dir_is_write s : bool := truth (dma_mode s .& DMA_MODE_RW).
End Fdc.
