(* ===== verification/FdcProps.v ===== *)
(** * FdcProps: what holds of the floppy controller at every moment *)

From S2P Require Import Prelude StRam DiskOrder Acsi AcsiProps AcsiProto Fdd Fdc.
From Stdlib Require Import ZArith Lia Bool List String.
From stdpp Require Import base list numbers relations.
Open Scope Z_scope.
Open Scope cint_scope.

(** ** The invariant *)

(** The geometry mounting gives a drive. *)
Record geometry_ok (d : fdd_drive) : Prop := mk_geo {
  geo_spt : 0 <= sectors_per_track d <= 18;
  geo_sides : 0 <= num_sides d <= 2;
  geo_tracks : 0 <= num_tracks d <= 65535 }.

(** What guest accesses leave alone in a drive. *)
Record same_medium (d d' : fdd_drive) : Prop := mk_medium {
  med_path : image_path d' = image_path d;
  med_wp : write_protected d' = write_protected d;
  med_ins : disk_inserted d' = disk_inserted d;
  med_spt : sectors_per_track d' = sectors_per_track d;
  med_tracks : num_tracks d' = num_tracks d;
  med_sides : num_sides d' = num_sides d;
  med_open : fd d = None -> fd d' = None;
  med_image : write_protected d = true \/ disk_inserted d = false -> fd d' = fd d }.

#[export] Instance same_medium_refl : Reflexive same_medium.
Proof. by split. Qed.
#[export] Instance same_medium_trans : Transitive same_medium.
Proof.
  intros a b c [] []. split; try congruence; [auto|]. intros Hp. rewrite med_image1, med_image0; [done|done|].
  by rewrite med_wp0, med_ins0.
Qed.

(** [b]: no command is being executed. *)
Record fdc_ok {H} (b : bool) (s : ctrl H) : Prop := mk_ok {
  ok_drives : length (drives s) = 2%nat;
  ok_geo : Forall geometry_ok (drives s);
  ok_tracks : length (tracks s) = 2%nat;
  ok_heads : Forall (fun t => 0 <= t) (tracks s);
  ok_ticks : length (motor_ticks s) = 2%nat;
  ok_wps : length (last_wp s) = 2%nat;
  ok_sel : -1 <= selected_drive s <= 1;
  ok_side : 0 <= selected_side s <= 1;
  ok_busy : b = true -> Z.testbit (status s) 0 = false;
  ok_count : is_u8 (dma_sector_count s);
  ok_sector : is_u8 (sector_reg s);
  ok_data : is_u8 (data_reg s);
  ok_base : 0 <= dma_base_addr s < 2 ^ 24;
  ok_acsi : acsi_inv (ac (prt s)) }.

(** The invariant, and the disks of [s0] are still there. *)
Definition keeps {H} (b : bool) (s0 s : ctrl H) : Prop :=
  fdc_ok b s /\ Forall2 same_medium (drives s0) (drives s).

#[local] Arguments Z.testbit : simpl never.
Create HintDb fdc.

(** A changed field at a time: the goals left are about the new values. *)
Ltac upd := intros [[] ?]; split; [split; cbn; rewrite ?length_insert; try done|cbn; try done].
Ltac kcase := match goal with |- keeps _ _ (if ?b then _ else _) => destruct b eqn:? end.

(** ** Fields of an address *)
Lemma bits_below x n : 0 <= n -> 0 <= x -> (forall i, n <= i -> Z.testbit x i = false) -> 0 <= x < 2 ^ n.
Proof.
  intros Hn Hx Hb. assert (x = x mod 2 ^ n) as ->.
  { apply Z.bits_inj'. intros i Hi. rewrite testbit_mod_pow2 by done.
    destruct (Z.ltb_spec i n); [by rewrite andb_true_r|]. by rewrite andb_false_r, Hb. }
  apply Z.mod_pos_bound. lia.
Qed.
Lemma below_bits x n i : 0 <= x < 2 ^ n -> n <= i -> Z.testbit x i = false.
Proof.
  intros Hx Hi. destruct (decide (n < 0)); [rewrite Z.pow_neg_r in Hx by done; lia|].
  rewrite <- (Z.mod_small x (2 ^ n)) by done. rewrite testbit_mod_pow2 by lia.
  rewrite (proj2 (Z.ltb_ge _ _)) by lia. apply andb_false_r.
Qed.
Lemma below_lor a b n : 0 <= n -> 0 <= a < 2 ^ n -> 0 <= b < 2 ^ n -> 0 <= a .| b < 2 ^ n.
Proof.
  intros Hn Ha Hb. apply bits_below; [done|apply Z.lor_nonneg; lia|].
  intros i Hi. by rewrite Z.lor_spec, (below_bits a n), (below_bits b n).
Qed.
Lemma below_land a b n : 0 <= n -> 0 <= b < 2 ^ n -> 0 <= a .& b < 2 ^ n.
Proof.
  intros Hn Hb. apply bits_below; [done|apply Z.land_nonneg; lia|].
  intros i Hi. by rewrite Z.land_spec, (below_bits b n), andb_false_r.
Qed.
Lemma below_shl a k n : 0 <= k <= n -> 0 <= a < 2 ^ (n - k) -> 0 <= a << k < 2 ^ n.
Proof.
  intros Hk Ha. rewrite Z.shiftl_mul_pow2 by lia. replace n with (n - k + k) by lia.
  rewrite Z.pow_add_r by lia. nia.
Qed.
Lemma low_byte v : is_u8 (v .& 0xFF).
Proof. apply (below_land v 0xFF 8); lia. Qed.

Lemma clr_busy v : Z.testbit (clr FDC_STATUS_BUSY v) 0 = false.
Proof. unfold clr. rewrite Z.land_spec. apply andb_false_r. Qed.
#[export] Hint Resolve clr_busy low_byte : fdc.

Section Keeps.
Context {H : Type} `{DmaHw H}.
Context (FDD_enabled fdd_passthrough pst_fdd_mfp_irq : bool) (pistorm_stram_phys_top : Z).
Implicit Types (s : ctrl H).

(** ** Changes of one field *)
Lemma k_prt b s0 s p : acsi_inv (ac p) -> keeps b s0 s -> keeps b s0 {| s with prt := p |}.
Proof. intros ?. upd. Qed.
Lemma k_dc b s0 s f : keeps b s0 s -> keeps b s0 (on_prt (on_dc f) s).
Proof. intros K. apply k_prt; [apply K|done]. Qed.
Lemma k_acsi b s0 s f : (acsi_inv (acsi_of s) -> acsi_inv (f (acsi_of s))) -> keeps b s0 s -> keeps b s0 (on_acsi f s).
Proof. intros Hf K. apply k_prt; [apply Hf, K|done]. Qed.
Lemma k_status b s0 s v : (b = true -> Z.testbit v 0 = false) -> keeps false s0 s -> keeps b s0 (set_status v s).
Proof. intros ?. upd. Qed.
Lemma k_irq b s0 s x y : keeps b s0 s -> keeps b s0 {| s with irq_pending := x; irq_ready := y |}.
Proof. upd. Qed.
Lemma k_weaken b s0 s : keeps b s0 s -> keeps false s0 s.
Proof. upd. Qed.
Lemma k_count b s0 s n : is_u8 n -> keeps b s0 s -> keeps b s0 {| s with dma_sector_count := n |}.
Proof. intros ?. upd. Qed.
Lemma k_sector b s0 s n m : is_u8 n -> keeps b s0 s -> keeps b s0 {| s with track_reg := m; sector_reg := n |}.
Proof. intros ?. upd. Qed.
Lemma k_track b s0 s n m i : 0 <= n -> keeps b s0 s -> keeps b s0 {| (set_track i n s) with track_reg := m |}.
Proof. intros ?. upd. by apply Forall_insert. Qed.
Lemma k_head b s0 s n i : 0 <= n -> keeps b s0 s -> keeps b s0 (set_track i n s).
Proof. intros ?. upd. by apply Forall_insert. Qed.
Lemma k_treg b s0 s m : keeps b s0 s -> keeps b s0 {| s with track_reg := m |}.
Proof. upd. Qed.

(** A drive may get another image of the same disk. *)
Lemma k_drive b s0 s i d' : 0 <= i < 2 -> same_medium (drive_of i s) d' -> keeps b s0 s -> keeps b s0 (set_drv i d' s).
Proof.
  intros Hi Hm [K M]. pose proof (ok_drives _ _ K) as L.
  destruct (lookup_lt_is_Some_2 (drives s) (Z.to_nat i)) as [d Hd]; [lia|].
  assert (drive_of i s = d) as E by (unfold drive_of; by apply list_lookup_total_correct). rewrite E in Hm.
  split.
  - destruct K. split; cbn; rewrite ?length_insert; try done. apply Forall_insert; [done|].
    pose proof (Forall_lookup_1 _ _ _ _ ok_geo0 Hd) as []. destruct Hm. split; congruence.
  - cbn. apply Forall2_same_length_lookup. split; [rewrite length_insert; by apply Forall2_length in M|].
    intros k x y Hx Hy. apply list_lookup_insert_Some in Hy as [(<- & <- & _)|[_ Hy]].
    + destruct (Forall2_lookup_l _ _ _ _ _ M Hx) as (d0 & Hd0 & Hs). rewrite Hd in Hd0. injection Hd0 as <-.
      by transitivity d.
    + by eapply Forall2_lookup_lr.
Qed.
#[local] Hint Resolve k_dc k_acsi k_status k_irq k_weaken k_count k_sector k_track k_head k_treg : fdc.

(** ** Commands *)
Lemma fail_k b s0 s bit : keeps false s0 s -> keeps b s0 (fail_latched bit s).
Proof. intros K. apply k_irq, k_dc. auto with fdc. Qed.
Lemma ok_k b s0 s : keeps false s0 s -> keeps b s0 (ok_latched s).
Proof.
  intros K. unfold ok_latched. apply k_irq, k_status; [auto with fdc|]. apply k_dc, k_count; [done|done].
Qed.
Lemma finish_k b s0 s v : (b = true -> Z.testbit v 0 = false) -> keeps false s0 s -> keeps b s0 (finish_now v s).
Proof. intros Hv K. apply k_irq, k_status; done. Qed.
#[local] Hint Resolve fail_k ok_k finish_k : fdc.

Lemma sel_drive b s0 s : keeps b s0 s -> no_drive (selected_drive s) = false -> 0 <= selected_drive s < 2.
Proof. intros [[] _]. unfold no_drive, FDD_MAX_DRIVES. lia. Qed.

Lemma image_write_k b s0 s i t sd sc n buf : 0 <= i < 2 -> keeps b s0 s ->
  keeps b s0 (fdd_image_write i t sd sc n buf s).2.
Proof.
  intros Hi K. unfold fdd_image_write. destruct (fd (drive_of i s)) as [img|] eqn:Ef; [|done].
  destruct (negb _ || _ || _) eqn:Ec; [done|]. apply orb_false_iff in Ec as [[Ei Ew]%orb_false_iff _].
  destruct (pwrite _ _ _ _ _) as [[k img'] c]. cbn [snd]. apply k_drive; [done| |by apply k_dc].
  change (same_medium (drive_of i s) {| (drive_of i s) with fd := Some img' |}).
  split; cbn; try done; [congruence|]. intros [E|E]; [congruence|]. by rewrite E in Ei.
Qed.

Lemma read_sectors_k b s0 s : keeps false s0 s -> keeps b s0 (fdc_do_read_sectors s).
Proof.
  intros K. unfold fdc_do_read_sectors. set (s1 := set_dma_status _ s).
  assert (keeps false s0 s1) as K1 by by apply k_dc.
  clearbody s1. cbv zeta. destruct (no_disk _ _); [auto with fdc|]. destruct (negb _); [auto with fdc|].
  destruct (fdd_image_read _ _ _ _ _ _); auto with fdc. by apply ok_k, k_dc.
Qed.

Lemma write_sectors_k b s0 s : keeps false s0 s -> keeps b s0 (fdc_do_write_sectors s).
Proof.
  intros K. unfold fdc_do_write_sectors. set (s1 := set_dma_status _ s).
  assert (keeps false s0 s1) as K1 by by apply k_dc.
  clearbody s1. cbv zeta. destruct (no_disk (selected_drive s1) s1) eqn:En; [auto with fdc|].
  destruct (write_protected _); [auto with fdc|]. destruct (negb _); [auto with fdc|].
  apply orb_false_iff in En as [En _].
  match goal with |- context [fdd_image_write ?a ?b ?c ?d ?e ?f ?g] =>
    pose proof (image_write_k false s0 g a b c d e f (sel_drive _ _ _ K1 En) K1) as K2;
    destruct (fdd_image_write a b c d e f g) as [[] s2] end; cbn in K2; auto with fdc.
Qed.

Lemma read_address_k b s0 s : keeps false s0 s -> keeps b s0 (fdc_do_read_address s).
Proof.
  intros K. unfold fdc_do_read_address. destruct (no_disk _ _); [auto with fdc|].
  set (sec := if truth (sector_reg s) then _ else _). assert (is_u8 sec) as Hs.
  { unfold sec. destruct K as [[] _]. case_match; [done|unfold is_u8; lia]. }
  cbv zeta. clearbody sec. set (s1 := on_chip _ s). assert (keeps false s0 s1) as K1 by by apply k_dc.
  clearbody s1. apply finish_k; [auto with fdc|]. by apply k_sector.
Qed.

Lemma track_nonneg b s0 s i : keeps b s0 s -> 0 <= track_of i s.
Proof.
  intros [[] _]. unfold track_of. destruct (lookup_lt_is_Some (tracks s) (Z.to_nat i)) as [_ Hl].
  destruct (decide (Z.to_nat i < length (tracks s))%nat) as [Hlt|Hge].
  - destruct (Hl Hlt) as [x Hx]. rewrite (list_lookup_total_correct _ _ _ Hx). by eapply Forall_lookup_1 in ok_heads0.
  - rewrite list_lookup_total_alt, lookup_ge_None_2 by lia. done.
Qed.

Lemma move_head_k s0 s cmd i m : keeps false s0 s -> keeps false s0 (move_head cmd i m s).
Proof.
  intros K. pose proof (track_nonneg _ _ _ i K) as Ht. unfold move_head, seek_to, step_to. cbv zeta.
  assert (0 <= data_reg s) by (destruct K as [[] _]; unfold is_u8 in *; lia).
  repeat kcase; first [done | by apply k_status | apply k_track; [repeat case_match; lia|done]
                      | apply k_head; [repeat case_match; lia|done]].
Qed.

Lemma type1_k b s0 s cmd : keeps false s0 s -> keeps b s0 (fdc_do_type1 cmd s).
Proof.
  intros K. unfold fdc_do_type1. cbv zeta. kcase.
  - apply finish_k; [|done]. intros _. rewrite Z.lor_spec, clr_busy. done.
  - pose proof (move_head_k s0 s cmd (selected_drive s)
      (if disk_inserted (drive_of (selected_drive s) s) then num_tracks (drive_of (selected_drive s) s) else FDD_TRACKS_80) K) as K1.
    revert K1. generalize (move_head cmd (selected_drive s)
      (if disk_inserted (drive_of (selected_drive s) s) then num_tracks (drive_of (selected_drive s) s) else FDD_TRACKS_80) s).
    intros s1 K1. apply finish_k; [auto with fdc|done].
Qed.

Lemma start_k b s0 s cmd : keeps b s0 s -> keeps false s0 {| s with command := cmd; status := start_status (status s) |}.
Proof. upd. Qed.

(** Every command is over when the write of the command register returns. *)
Lemma exec_command_k b c s0 s cmd : keeps c s0 s -> keeps b s0 (fdc_exec_command cmd s).
Proof.
  intros K. unfold fdc_exec_command. set (s1 := fdc_clear_irq _).
  assert (keeps false s0 s1) as K1 by (eapply k_irq, start_k, K). clearbody s1. cbv zeta.
  repeat kcase; auto using type1_k, read_sectors_k, write_sectors_k, read_address_k with fdc.
  apply k_irq. auto with fdc.
Qed.

(** ** Registers *)

(** The fields the invariant is about. *)
Definition core s :=
  (drives s, tracks s, motor_ticks s, last_wp s, selected_drive s, selected_side s, status s,
   dma_sector_count s, sector_reg s, data_reg s, dma_base_addr s, ac (prt s)).

Lemma k_core b s0 s s' : core s' = core s -> keeps b s0 s -> keeps b s0 s'.
Proof.
  unfold core. intros [= E1 E2 E3 E4 E5 E6 E7 E8 E9 E10 E11 E12] [[] ?].
  by split; [split|]; rewrite ?E1, ?E2, ?E3, ?E4, ?E5, ?E6, ?E7, ?E8, ?E9, ?E10, ?E11, ?E12.
Qed.
Ltac kcore X := apply (k_core _ _ X); [reflexivity|].

Lemma live_status_k b s0 s : keeps b s0 s -> keeps b s0 (live_status s).2.
Proof.
  intros K. unfold live_status. cbv zeta. destruct (_ && _) eqn:E; [|done].
  apply andb_true_iff in E as [_ E%negb_true_iff]. destruct (media_changed _); cbn [snd]; [|done].
  apply k_drive; [by eapply sel_drive| |done]. by split.
Qed.

Lemma read_addr_k b s0 s : keeps b s0 s -> keeps b s0 (fdc_read_addr s).2.
Proof.
  intros K. unfold fdc_read_addr. destruct (truth _); [done|].
  pose proof (live_status_k b s0 s K) as K1. destruct (live_status s) as [v s1]. cbn in K1.
  repeat case_match; cbn [snd]; try done; by apply k_irq.
Qed.

Lemma start_motor_k s0 s : keeps true s0 s -> keeps true s0 (start_motor s).
Proof.
  intros K. unfold start_motor. cbv zeta. kcase; [done|]. revert K. upd.
  intros _. by rewrite Z.lor_spec, ok_busy0.
Qed.

Lemma write_addr_k s0 s v : keeps true s0 s -> keeps true s0 (fdc_write_addr v s).
Proof.
  intros K. unfold fdc_write_addr. cbv zeta. kcase.
  - apply k_dc, k_count; auto with fdc.
  - destruct (fdc_reg_index s) as [|[?|[]|]|]; try (revert K; by upd; apply low_byte).
    all: try (eapply exec_command_k, start_motor_k, K). all: revert K; by upd.
Qed.

Lemma write_dma_k b s0 s a v : keeps b s0 s -> keeps b s0 (dma_write_addr a v s).
Proof.
  intros K. unfold dma_write_addr. cbv zeta.
  assert (forall f, (0 <= dma_base_addr s < 2 ^ 24 -> 0 <= f (dma_base_addr s) < 2 ^ 24) -> keeps b s0 (put_base f s)) as Hp.
  { intros f Hf. unfold put_base. apply k_dc. destruct K as [[] ?].
    split; [split; cbn; try done; by apply Hf|done]. }
  repeat kcase; try done.
  - destruct (truth _); [|by kcore s]. kcore (on_acsi acsi_dma_fifo_reset s).
    apply k_acsi; [|done]. intros [[] Hc]. split; [by split; cbn; try lia|].
    intros Ho Hf. destruct (Hc Ho Hf). by split.
  - apply Hp. intros Hb. apply below_lor; [lia|apply below_land; lia|].
    apply below_shl; [lia|]. apply below_land; [lia|]. unfold dma_hi_mask. case_match; lia.
  - apply Hp. intros Hb. apply below_lor; [lia|apply below_land; lia|].
    apply below_shl; [lia|]. pose proof (low_byte v) as []. lia.
  - apply Hp. intros Hb. apply below_lor; [lia|apply below_land; lia|].
    pose proof (low_byte v) as []. lia.
Qed.

Lemma bus_get_k b s0 s a n : keeps b s0 s -> keeps b s0 (bus_get a n s).2.
Proof. intros K. unfold bus_get. destruct (if n =? 2 then _ else _). by apply k_dc. Qed.
Lemma bus_put_k b s0 s a v n : keeps b s0 s -> keeps b s0 (bus_put a v n s).
Proof. intros K. by apply k_dc. Qed.
#[local] Hint Resolve bus_get_k bus_put_k read_addr_k write_addr_k write_dma_k : fdc.

Lemma psg_read_k b s0 s a n : keeps b s0 s -> keeps b s0 (psg_read_addr a n s).2.
Proof.
  intros K. unfold psg_read_addr. pose proof (bus_get_k b s0 s a n K) as K1.
  destruct (bus_get a n s) as [v s1]. cbn in K1. cbv zeta. by case_match.
Qed.

Lemma decode_k b s0 s v : keeps b s0 s -> keeps b s0 (fdc_decode_drive_side {| s with psg_porta := v |}).
Proof. upd; repeat case_match; lia. Qed.

Lemma psg_write_k b s0 s a v n : keeps b s0 s -> keeps b s0 (psg_write_addr a v n s).
Proof.
  intros K. unfold psg_write_addr. cbv zeta. repeat kcase; apply bus_put_k; [by kcore s|by apply decode_k|done].
Qed.
#[local] Hint Resolve psg_read_k psg_write_k : fdc.

(** ** Real devices *)
Lemma sync_pull_k b s0 s : keeps b s0 s -> keeps b s0 (hdc_sync_pull pistorm_stram_phys_top s).
Proof.
  intros K. unfold hdc_sync_pull. cbv zeta. set (s1 := {| s with hdc_pending := false |}).
  assert (keeps b s0 s1) as K0 by by kcore s. clearbody s1. kcase; [done|].
  set (s2 := on_bus _ s1). assert (keeps b s0 s2) as K2 by by apply k_dc. clearbody s2. destruct (hdc_dma_counter _). by apply k_dc.
Qed.

Lemma push_window_k b s0 s base n : keeps b s0 s -> keeps b s0 (hdc_push_window pistorm_stram_phys_top base n s).
Proof. intros K. unfold hdc_push_window. cbv zeta. kcase; [done|by apply k_dc]. Qed.

Lemma sync_push_k b s0 s : keeps b s0 s -> keeps b s0 (hdc_sync_push pistorm_stram_phys_top s).
Proof. intros K. unfold hdc_sync_push. kcase; [by kcore s|]. apply push_window_k. by kcore s. Qed.

Lemma note_count_k b s0 s v : keeps b s0 s -> keeps b s0 (hdc_note_sector_count pistorm_stram_phys_top v s).
Proof.
  intros K. unfold hdc_note_sector_count. cbv zeta.
  set (s1 := {| s with hdc_count := _; hdc_count_fresh := _; prepushed := _ |}).
  assert (keeps b s0 s1) as K1 by by kcore s. clearbody s1. kcase; [|done].
  kcore (hdc_push_window pistorm_stram_phys_top (dma_base_addr s1) (Z.min (v .& 255) HDC_MAX_SYNC_SECTORS) s1).
  by apply push_window_k.
Qed.

Lemma claim_k b s0 s f : keeps b s0 s -> keeps b s0 (hdc_claim_count pistorm_stram_phys_top f s).
Proof.
  intros K. unfold hdc_claim_count. cbv zeta. set (s1 := {| s with hdc_active := true |}).
  assert (keeps b s0 s1) as K1 by by kcore s. clearbody s1. kcase.
  - kcase; [|done]. destruct (hdc_dma_counter _) as [now h]. kcore (on_bus (fun _ => h) s1). by apply k_dc.
  - set (s2 := {| s1 with hdc_count_fresh := _; hdc_base := _ |}).
    assert (keeps b s0 s2) as K2 by by kcore s1. clearbody s2. kcase; [|by kcore s2].
    kcore (hdc_sync_push pistorm_stram_phys_top s2). by apply sync_push_k.
Qed.

Lemma rfdc_pull_k b s0 s : keeps b s0 s -> keeps b s0 (rfdc_pull pistorm_stram_phys_top s).
Proof.
  intros K. unfold rfdc_pull. cbv zeta. set (s1 := {| s with rfdc := _ |}).
  assert (keeps b s0 s1) as K1 by by kcore s. clearbody s1.
  set (s2 := on_bus _ s1). assert (keeps b s0 s2) as K2 by by apply k_dc. clearbody s2.
  destruct (hdc_dma_counter _) as [now h]. assert (keeps b s0 (on_bus (fun _ => h) s2)) as K3 by by apply k_dc.
  kcase; [by apply k_dc|done].
Qed.

Lemma rfdc_when_k b s0 s : keeps b s0 s ->
  keeps b s0 (let '(ok, s) := rfdc_settled s in if ok then rfdc_pull pistorm_stram_phys_top s else s).
Proof.
  intros K. unfold rfdc_settled. destruct (ht_now_us _) as [t h].
  assert (keeps b s0 (on_bus (fun _ => h) s)) as K1 by by apply k_dc. kcase; [by apply rfdc_pull_k|done].
Qed.

Lemma rfdc_command_k b s0 s c : keeps b s0 s -> keeps b s0 (rfdc_command pistorm_stram_phys_top c s).
Proof.
  intros K. unfold rfdc_command. cbv zeta. set (s1 := {| s with hdc_count_fresh := _; hdc_pending := _ |}).
  assert (keeps b s0 s1) as K1 by by kcore s. clearbody s1. kcase; [done|].
  set (s2 := {| s1 with rfdc := _ |}). assert (keeps b s0 s2) as K2 by by kcore s1. clearbody s2.
  match goal with |- keeps _ _ {| ?x with prepushed := false |} => kcore x end.
  repeat kcase; try done; [|by apply push_window_k].
  destruct (ht_now_us _) as [t h]. kcore (on_bus (fun _ => h) s2). by apply k_dc.
Qed.

Lemma rfdc_status_k b s0 s v : keeps b s0 s -> keeps b s0 (rfdc_status_read pistorm_stram_phys_top v s).
Proof. intros K. unfold rfdc_status_read. kcase; [by apply rfdc_when_k|done]. Qed.
Lemma rfdc_gpip_k b s0 s v : keeps b s0 s -> keeps b s0 (rfdc_gpip pistorm_stram_phys_top v s).
Proof. intros K. unfold rfdc_gpip. kcase; [by apply rfdc_when_k|done]. Qed.

(** ** The dispatch *)
#[local] Abbreviation top := pistorm_stram_phys_top.

Lemma read_data_k b s0 s a n : keeps b s0 s -> keeps b s0 (read_data_reg FDD_enabled top a n s).2.
Proof.
  intros K. pose proof (bus_get_k b s0 s a n K) as K1. unfold read_data_reg, read_status_real.
  repeat match goal with |- keeps _ _ (if ?c then _ else _).2 => destruct c end; auto with fdc.
  - pose proof (status_read_inv (acsi_of s)) as Hi. destruct (acsi_status_read _) as [v a']. cbn in Hi |- *.
    by apply k_acsi.
  - destruct (bus_get a n s) as [v s1]. cbn in K1 |- *. repeat kcase; [by kcore s1|by apply sync_pull_k|done].
  - destruct (bus_get a n s) as [v s1]. cbn in K1 |- *. by apply rfdc_status_k.
Qed.

Lemma io_read_k b s0 s a n : keeps b s0 s -> keeps b s0 (io_read FDD_enabled top a n s).2.
Proof.
  intros K. unfold io_read.
  repeat match goal with |- keeps _ _ (if ?c then _ else _).2 => destruct c end; auto using read_data_k with fdc.
Qed.

Lemma fdd_io_read_k b s0 s a n : keeps b s0 s -> keeps b s0 (fdd_io_read FDD_enabled top a n s).2.
Proof.
  intros K. unfold fdd_io_read. destruct (n =? 4); [|by apply io_read_k].
  pose proof (io_read_k b s0 s a 2 K) as K1. destruct (io_read _ _ a 2 s) as [hi s1]. cbn in K1.
  pose proof (io_read_k b s0 s1 (u32 (a + 2)) 2 K1) as K2. by destruct (io_read _ _ _ 2 s1) as [lo s2].
Qed.

Lemma acsi_byte_k b s0 s a v n : keeps b s0 s -> keeps b s0 (acsi_byte top a v n s).
Proof.
  intros K. unfold acsi_byte. cbv zeta.
  pose proof (cmd_byte_inv (u8 v) (mode_a s =? 0) (prt s) (ok_acsi _ _ (proj1 K))) as Hi.
  destruct (acsi_cmd_byte _ _ _) as [t p]. cbn in Hi. pose proof (k_prt b s0 s p Hi K) as K1.
  kcase; [by kcore {| s with prt := p |}|]. by apply bus_put_k, claim_k.
Qed.

Lemma release_k b s0 s x y z : keeps b s0 s ->
  keeps b s0 {| (on_acsi acsi_release s) with hdc_active := x; hdc_count_fresh := y; hdc_pending := z |}.
Proof.
  intros K. kcore (on_acsi acsi_release s). apply k_acsi; [|done]. intros [[] Hc]. split; [by split|done].
Qed.

Lemma write_data_k s0 s a v n : keeps true s0 s -> keeps true s0 (write_data_reg FDD_enabled top a v n s).
Proof.
  intros K. unfold write_data_reg. cbv zeta. repeat kcase.
  - by apply bus_put_k, write_addr_k, note_count_k.
  - by apply acsi_byte_k.
  - pose proof (release_k true s0 s true (hdc_count_fresh s) (hdc_pending s) K) as K1.
    apply bus_put_k. kcase; [by apply rfdc_command_k|done].
  - by apply write_addr_k, release_k.
Qed.

Lemma io_write_k s0 s a v n : keeps true s0 s -> keeps true s0 (io_write FDD_enabled top a v n s).
Proof.
  intros K. unfold io_write. repeat kcase; auto using write_data_k with fdc.
Qed.

Lemma fdd_io_write_k s0 s a v n : keeps true s0 s -> keeps true s0 (fdd_io_write FDD_enabled top a v n s).
Proof. intros K. unfold fdd_io_write. kcase; auto using io_write_k. Qed.

Lemma gpip_k b s0 s g : keeps b s0 s -> keeps b s0 (fdd_gpip FDD_enabled top g s).2.
Proof.
  intros K. unfold fdd_gpip. cbv zeta. destruct (acsi_irq_active _); [done|].
  assert (keeps b s0 (if served s then fdd_irq_active s else (false, s)).2) as K1.
  { unfold fdd_irq_active. repeat case_match; cbn [snd]; try done. by kcore s. }
  destruct (if served s then _ else _) as [[] s1]; cbn in K1 |- *; [done|].
  kcase; [done|by apply rfdc_gpip_k].
Qed.

Lemma vbl_drive_k s0 s i : keeps true s0 s -> keeps true s0 (vbl_drive i s).
Proof.
  intros K. unfold vbl_drive. cbv zeta. kcase; [|done].
  set (s1 := {| s with motor_ticks := _ |}). assert (keeps true s0 s1) as K1 by (revert K; by upd).
  clearbody s1. kcase; [|done]. apply k_status; [|by eapply k_weaken].
  intros _. unfold clr. rewrite Z.land_spec, (ok_busy _ _ (proj1 K1)) by done. done.
Qed.

(** ** Every step *)

(** What the machine does to the controller: accesses of the guest, reads of
    the MFP's input port, the vertical blank. *)
Inductive guest_step : ctrl H -> ctrl H -> Prop :=
| guest_read a n s : guest_step s (fdd_io_read FDD_enabled top a n s).2
| guest_write a v n s : guest_step s (fdd_io_write FDD_enabled top a v n s)
| guest_gpip g s : guest_step s (fdd_gpip FDD_enabled top g s).2
| guest_vbl s : guest_step s (fdd_vbl s).

Lemma guest_step_k s0 s s' : guest_step s s' -> keeps true s0 s -> keeps true s0 s'.
Proof.
  intros [] K; [by apply fdd_io_read_k|by apply fdd_io_write_k|by apply gpip_k|].
  by apply vbl_drive_k, vbl_drive_k.
Qed.

(** What the user does to the drives. *)
Context (open_image : string -> bool -> option (list Z)) (msa : string -> msa_result).
Inductive host_step : ctrl H -> ctrl H -> Prop :=
| host_insert i p wp s : host_step s (on_mount (fun f => (fdd_insert_disk open_image msa i p wp f).2) s)
| host_eject i s : host_step s (on_mount (fdd_eject_disk i) s)
| host_protect i wp s : host_step s (on_mount (fdd_set_write_protect i wp) s)
| host_pulse i s : host_step s (on_mount (fdd_pulse_media i) s)
| host_toggle i s : host_step s (fdd_toggle_disk open_image msa i s).

Definition drives_ok (f : Fdd.fdc) : Prop := geometry_ok (drive_a f) /\ geometry_ok (drive_b f).

Lemma geometry_sound img d : is_u32 (image_size d) -> geometry_ok (fdd_geometry img d).
Proof.
  intros Hs. assert (forall i, is_u16 (le16 img i)) as Hu by (intros; apply u16_range).
  unfold fdd_geometry. cbv zeta. unfold is_u16 in Hu. pose proof (Hu 0x13%nat) as Ht.
  destruct (_ && _) eqn:E.
  - set (spt := le16 img 0x18) in *. set (sd := le16 img 0x1A) in *. set (tot := le16 img 0x13) in *.
    assert (1 <= spt <= 18 /\ 1 <= sd <= 2) as [? ?] by lia.
    split; cbn; [lia|lia|]. pose proof (Z.div_le_upper_bound tot (spt * sd) 65535 ltac:(nia) ltac:(nia)).
    split; [apply Z.div_pos; nia|done].
  - unfold FDD_IMAGE_SIZE_SS, FDD_IMAGE_SIZE_DD, FDD_SECTOR_SIZE, FDD_DD_SECTORS, FDD_HD_SECTORS, FDD_TRACKS_80, is_u32 in *.
    destruct (Z.leb_spec (image_size d) (80 * 1 * 9 * 512)); [|destruct (image_size d <=? _)]; split; cbn; try lia.
    split; [apply Z.div_pos; lia|]. apply Z.div_le_upper_bound; lia.
Qed.

Lemma set_drive_ok i d f : drives_ok f -> geometry_ok d -> drives_ok (set_drive i d f).
Proof. intros [] ?. unfold set_drive. by case_match; split. Qed.
Lemma get_drive_ok i f : drives_ok f -> geometry_ok (get_drive i f).
Proof. intros []. unfold get_drive. by case_match. Qed.

Lemma insert_ok i p wp f : drives_ok f -> drives_ok (fdd_insert_disk open_image msa i p wp f).2.
Proof.
  intros Hf. pose proof (get_drive_ok i f Hf) as [].
  assert (forall img wp, drives_ok (set_drive i
    {| (fdd_geometry img {| (get_drive i f) with fd := Some img; image_size := u32 (Z.of_nat (length img)) |}) with
       write_protected := wp; disk_inserted := true; media_changed := false; image_path := substring 0 255 p |} f)) as Hm.
  { intros img w. apply set_drive_ok; [done|]. edestruct (geometry_sound img) as [G1 G2 G3]; [|by split; [apply G1|apply G2|apply G3]].
    apply u32_range. }
  unfold fdd_insert_disk. cbv zeta. destruct (bad_drive i); [done|].
  repeat case_match; cbn [snd]; try (by apply set_drive_ok); apply Hm.
Qed.

Lemma mount_k s f : fdc_ok true s -> (drives_ok (as_fdc s) -> drives_ok (f (as_fdc s))) -> fdc_ok true (on_mount f s).
Proof.
  intros [] Hf. assert (drives_ok (as_fdc s)) as Hd.
  { unfold as_fdc, drive_of, drives_ok. destruct (drives s) as [|x [|y []]]; try done.
    rewrite !Forall_cons in ok_geo0. by destruct ok_geo0 as (? & ? & _). }
  destruct (Hf Hd). split; try done. cbn. repeat apply Forall_cons_2; done || apply Forall_nil_2.
Qed.

Lemma eject_ok i f : drives_ok f -> drives_ok (fdd_eject_disk i f).
Proof.
  intros Hf. pose proof (get_drive_ok i f Hf) as []. unfold fdd_eject_disk. case_match; [done|].
  apply set_drive_ok; [done|]. by split; cbn; try lia.
Qed.

Lemma host_step_ok s s' : host_step s s' -> fdc_ok true s -> fdc_ok true s'.
Proof.
  assert (forall s l, length l = 2%nat -> fdc_ok true s -> fdc_ok true {| s with last_wp := l |}) as Hl
    by (intros ??? []; by split).
  intros [] K.
  - apply mount_k; [done|apply insert_ok].
  - apply mount_k; [done|apply eject_ok].
  - apply mount_k; [done|]. intros Hf. unfold fdd_set_write_protect. case_match; [done|].
    apply set_drive_ok; [done|]. by destruct (get_drive_ok i _ Hf).
  - apply mount_k; [done|]. intros Hf. unfold fdd_pulse_media. case_match; [done|].
    apply set_drive_ok; [done|]. by destruct (get_drive_ok i _ Hf).
  - unfold fdd_toggle_disk. cbv zeta. destruct (no_drive i); [done|]. destruct (disk_inserted _).
    + apply mount_k; [|apply eject_ok]. apply Hl; [rewrite length_insert; apply K|done].
    + destruct (String.eqb _ _); [done|]. apply mount_k; [done|apply insert_ok].
Qed.

Lemma k_refl s : fdc_ok true s -> keeps true s s.
Proof. intros K. split; [done|]. by apply Forall_Forall2_diag, Forall_true. Qed.

Definition fdc_step s s' : Prop := guest_step s s' \/ host_step s s'.

Lemma fdc_step_ok s s' : fdc_step s s' -> fdc_ok true s -> fdc_ok true s'.
Proof. intros [Hs|Hs] K; [|by eapply host_step_ok]. by apply (guest_step_k s _ _ Hs), k_refl. Qed.

Lemma init_ok nic a r (h : H) : acsi_inv a -> fdc_ok true (fdd_init nic a r h).
Proof.
  intros Ha. unfold fdd_init.
  match goal with |- context [if nic then ?x else _] => assert (fdc_ok true x) as K end.
  { split; cbn; unfold is_u8; try done; try lia. by repeat constructor; cbn. by repeat constructor. }
  destruct nic; [done|].
  match goal with |- context [bus_put _ _ _ ?x] => pose proof (k_refl x K) end.
  eapply proj1. by apply bus_put_k, bus_get_k, bus_put_k.
Qed.

Lemma reachable_ok nic a r h s : acsi_inv a -> rtc fdc_step (fdd_init nic a r h) s -> fdc_ok true s.
Proof.
  intros Ha Hr. pose proof (init_ok nic a r h Ha) as K. revert K. induction Hr; [done|].
  intros K. by eapply IHHr, fdc_step_ok.
Qed.


(** C17: the guest cannot change a disk it may not change.  However it
    programs the controller, and as long as the user leaves the drives alone,
    a write-protected image and the image of an empty drive keep every byte,
    and no disk changes its geometry, its protection or its place. *)
Theorem media_safe s s' i : fdc_ok true s -> rtc guest_step s s' -> 0 <= i < 2 ->
  let d := drive_of i s in
  let d' := drive_of i s' in
  (write_protected d = true \/ disk_inserted d = false -> fd d' = fd d) /\
  (fd d = None -> fd d' = None) /\
  image_path d' = image_path d /\ write_protected d' = write_protected d /\ disk_inserted d' = disk_inserted d /\
  num_tracks d' = num_tracks d /\ num_sides d' = num_sides d /\ sectors_per_track d' = sectors_per_track d.
Proof.
  intros K Hr Hi. assert (keeps true s s') as [K' M].
  { pose proof (k_refl s K) as Hk. revert Hk. generalize s at 1 3. induction Hr; [done|].
    intros s0 Hk. by eapply IHHr; [eapply fdc_step_ok; [by left|]|eapply guest_step_k]. }
  cbv zeta. destruct (lookup_lt_is_Some_2 (drives s) (Z.to_nat i)) as [d Hd]; [destruct K; lia|].
  destruct (Forall2_lookup_l _ _ _ _ _ M Hd) as (d' & Hd' & []). unfold drive_of.
  rewrite (list_lookup_total_correct _ _ _ Hd), (list_lookup_total_correct _ _ _ Hd'). by split_and!.
Qed.
End Keeps.

(** ** The layout of an image *)
Definition block_no (d : fdd_drive) (track side sector : Z) : Z :=
  (track * sides_of d + side) * sectors_per_track d + (sector - 1).

Lemma sides_ok d : geometry_ok d -> 1 <= sides_of d <= 2.
Proof. intros []. unfold sides_of, truth. destruct (Z.eqb_spec (num_sides d) 0); cbn; lia. Qed.

Lemma in_image d t sd sc n : geometry_ok d -> out_of_range d t sd sc n = false ->
  0 <= t < num_tracks d /\ 0 <= sd < sides_of d /\ 1 <= sc /\ sc + n - 1 <= sectors_per_track d.
Proof. unfold out_of_range. lia. Qed.

Lemma block_bound t tr sd sides k spt n : 0 <= t < tr -> 0 <= sd < sides -> 0 <= k -> 1 <= n -> k + n <= spt ->
  0 <= (t * sides + sd) * spt + k /\ (t * sides + sd) * spt + k + n <= tr * sides * spt.
Proof.
  intros Ht Hs Hk Hn Hle. assert (0 <= t * sides + sd /\ t * sides + sd + 1 <= tr * sides) as [? ?] by nia. nia.
Qed.

(** The 32-bit arithmetic is exact. *)
Lemma offset_exact d t sd sc n : geometry_ok d -> out_of_range d t sd sc n = false -> 1 <= n ->
  sector_offset d t sd sc = 512 * block_no d t sd sc /\
  0 <= block_no d t sd sc /\
  block_no d t sd sc + n <= num_tracks d * sides_of d * sectors_per_track d /\
  512 * (num_tracks d * sides_of d * sectors_per_track d) <= 2147483648.
Proof.
  intros Hg Ho Hn. pose proof (sides_ok d Hg). destruct (in_image _ _ _ _ _ Hg Ho) as (B1 & B2 & B3 & B4).
  destruct Hg as [G1 G2 G3]. destruct (block_bound t (num_tracks d) sd (sides_of d) (sc - 1) (sectors_per_track d) n)
    as [C1 C2]; try lia.
  assert (0 <= num_tracks d * sides_of d <= 131070) by nia.
  assert (num_tracks d * sides_of d * sectors_per_track d <= 131070 * 18) as C3 by (apply Z.mul_le_mono_nonneg; lia).
  unfold block_no. split_and!; try done; [|lia]. unfold sector_offset, FDD_SECTOR_SIZE.
  set (spt := sectors_per_track d) in *. set (sides := sides_of d) in *.
  assert (0 <= sd * spt <= 36 /\ 0 <= sides * spt <= 36) as [? ?] by nia.
  assert (0 <= t * (sides * spt) <= 65535 * 36) by nia.
  replace ((t * sides + sd) * spt) with (t * (sides * spt) + sd * spt) in * by ring.
  rewrite (s32_small (512 * spt)) by (unfold is_s32; lia).
  replace (512 * spt * sd) with (512 * (sd * spt)) by ring.
  replace (512 * spt * sides) with (512 * (sides * spt)) by ring.
  rewrite (s32_small (512 * (sides * spt))) by (unfold is_s32; lia).
  replace (512 * (sides * spt) * t) with (512 * (t * (sides * spt))) by ring.
  rewrite (s32_small (512 * (sd * spt))), (s32_small (512 * (t * (sides * spt)))) by (unfold is_s32; lia).
  rewrite (s32_small (512 * (sd * spt) + _)), (s32_small (512 * (sc - 1))) by (unfold is_s32; lia).
  rewrite s32_small by (unfold is_s32; lia). lia.
Qed.

Lemma block_unique d t sd sc t' sd' sc' n n' : geometry_ok d ->
  out_of_range d t sd sc n = false -> out_of_range d t' sd' sc' n' = false -> 1 <= n -> 1 <= n' ->
  (t, sd) <> (t', sd') ->
  block_no d t sd sc + n <= block_no d t' sd' sc' \/ block_no d t' sd' sc' + n' <= block_no d t sd sc.
Proof.
  intros Hg Ho Ho' Hn Hn' Hne. destruct (in_image _ _ _ _ _ Hg Ho) as (B1 & B2 & B3 & B4).
  destruct (in_image _ _ _ _ _ Hg Ho') as (C1 & C2 & C3 & C4). unfold block_no.
  set (spt := sectors_per_track d) in *. set (sides := sides_of d) in *.
  assert (t * sides + sd <> t' * sides + sd') as E.
  { intros E. apply Hne. assert (t = t') as -> by nia. f_equal. lia. }
  set (x := t * sides + sd) in *. set (y := t' * sides + sd') in *. clearbody x y spt sides.
  destruct (decide (x < y)); [left|right].
  - assert ((x + 1) * spt <= y * spt) by (apply Z.mul_le_mono_nonneg_r; lia). lia.
  - assert ((y + 1) * spt <= x * spt) by (apply Z.mul_le_mono_nonneg_r; lia). lia.
Qed.

(** C32: in every reachable state, whatever image is mounted: the position of
    an admitted transfer is computed without overflow, it lies inside the
    disk, and transfers on different tracks or sides, or of different sectors,
    never touch the same byte of the file. *)
Theorem image_layout {H} `{DmaHw H} fe ph oi msa nic a r h (s : ctrl H) i t sd sc n t' sd' sc' n' :
  acsi_inv a -> rtc (fdc_step fe ph oi msa) (fdd_init nic a r h) s -> 0 <= i < 2 ->
  let d := drive_of i s in
  out_of_range d t sd sc n = false -> out_of_range d t' sd' sc' n' = false -> 1 <= n -> 1 <= n' ->
  let o := sector_offset d t sd sc in
  let o' := sector_offset d t' sd' sc' in
  0 <= o /\ o + 512 * n <= 512 * (num_tracks d * sides_of d * sectors_per_track d) <= 2147483648 /\
  ((t, sd) <> (t', sd') \/ sc + n <= sc' \/ sc' + n' <= sc -> o + 512 * n <= o' \/ o' + 512 * n' <= o).
Proof.
  intros Ha Hr Hi. cbv zeta. pose proof (reachable_ok _ _ _ _ _ _ _ _ _ Ha Hr) as K.
  destruct (lookup_lt_is_Some_2 (drives s) (Z.to_nat i)) as [d Hd]; [destruct K; lia|].
  unfold drive_of. rewrite (list_lookup_total_correct _ _ _ Hd).
  pose proof (Forall_lookup_1 _ _ _ _ (ok_geo _ _ K) Hd) as Hg. intros Ho Ho' Hn Hn'.
  destruct (offset_exact d t sd sc n) as (-> & ? & ? & ?); try done.
  destruct (offset_exact d t' sd' sc' n') as (-> & ? & ? & ?); try done.
  split_and!; try lia. intros Hne. destruct (decide ((t, sd) = (t', sd'))) as [[= -> ->]|Hd'].
  - unfold block_no in *. destruct Hne as [?|?]; [done|lia].
  - destruct (block_unique d t sd sc t' sd' sc' n n'); try done; lia.
Qed.
