(* ===== verification/FdcData.v ===== *)
(** * FdcData: floppy transfers as the guest programs them *)

From S2P Require Import Prelude StRam DiskOrder Acsi AcsiProto Fdd Fdc FdcProps.
From Stdlib Require Import ZArith Lia Bool List String.
From stdpp Require Import base list numbers relations.
Open Scope Z_scope.
Open Scope cint_scope.

Section Data.
Context {H : Type} `{DmaHw H} (pistorm_stram_phys_top : Z).
Implicit Types (s : ctrl H).
#[local] Abbreviation top := pistorm_stram_phys_top.

Definition poke (addr val size : Z) : ctrl H -> ctrl H := fdd_io_write true top addr val size.

(** A driver's sequence: the address, the sector count, the sector, the
    command.  Bit 8 of the mode is the direction. *)
Definition program (dir base n sec : Z) s : ctrl H :=
  let s := poke DMA_BASE_LOW (base .& 0xFF) 1 s in
  let s := poke DMA_BASE_MID ((base >> 8) .& 0xFF) 1 s in
  let s := poke DMA_BASE_HIGH ((base >> 16) .& 0xFF) 1 s in
  let s := poke FDC_DATA_REG n 2 (poke DMA_MODE_REG (dir .| 0x90) 2 s) in
  let s := poke FDC_DATA_REG sec 2 (poke DMA_MODE_REG (dir .| 0x84) 2 s) in
  poke DMA_MODE_REG (dir .| 0x80) 2 s.
Definition command_write (cmd : Z) : ctrl H -> ctrl H := poke FDC_DATA_REG cmd 2.
Definition guest_transfer (dir cmd base n sec : Z) s : ctrl H := command_write cmd (program dir base n sec s).
Definition DIR_WRITE := 0x100.
Definition DIR_READ := 0x000.

(** ** What programming the registers leaves alone *)
Definition mem_of s : Z -> Z := mirror (ram (chip_of s)).
Definition top_of_ram s : Z := stram_top (ram (chip_of s)).
Definition disk s := (drives s, tracks s, selected_drive s, selected_side s, mem_of s, top_of_ram s).
Definition regs s := (dma_mode s, sector_reg s, dma_sector_count s, dma_base_addr s).
Definition addr_reg s : Z := dma_addr (chip_of s).

Lemma bus_put_disk a v n s : disk (bus_put a v n s) = disk s.
Proof. reflexivity. Qed.
Lemma bus_put_regs a v n s : regs (bus_put a v n s) = regs s /\ addr_reg (bus_put a v n s) = addr_reg s.
Proof. done. Qed.

Lemma push_chunks_frame fuel : forall base len (c : chip H),
  ram (push_chunks fuel base len c) = ram c /\ dma_addr (push_chunks fuel base len c) = dma_addr c.
Proof.
  induction fuel as [|fuel IH]; intros base len c; cbn [push_chunks]; [done|]. case_match; [done|].
  by rewrite (proj1 (IH _ _ _)), (proj2 (IH _ _ _)).
Qed.

Lemma push_window_frame base n s :
  disk (hdc_push_window top base n s) = disk s /\ regs (hdc_push_window top base n s) = regs s /\
  addr_reg (hdc_push_window top base n s) = addr_reg s.
Proof.
  unfold hdc_push_window. cbv zeta. case_match; [done|]. set (k := Z.to_nat _). set (l := hdc_clamp _ _ _).
  destruct (push_chunks_frame k base l (chip_of s)) as [E1 E2].
  unfold disk, regs, addr_reg, mem_of, top_of_ram, chip_of in *. cbn. by rewrite E1, E2.
Qed.

Lemma note_count_frame v s :
  disk (hdc_note_sector_count top v s) = disk s /\ regs (hdc_note_sector_count top v s) = regs s /\
  addr_reg (hdc_note_sector_count top v s) = addr_reg s.
Proof.
  unfold hdc_note_sector_count. cbv zeta. set (s1 := {| s with hdc_count := _; hdc_count_fresh := _; prepushed := _ |}).
  assert (disk s1 = disk s /\ regs s1 = regs s /\ addr_reg s1 = addr_reg s) as (<- & <- & <-) by done.
  clearbody s1. case_match; [|done].
  by destruct (push_window_frame (dma_base_addr s1) (Z.min (v .& 255) HDC_MAX_SYNC_SECTORS) s1) as (<- & <- & <-).
Qed.

Lemma poke_mode v s : disk (poke DMA_MODE_REG v 2 s) = disk s /\ addr_reg (poke DMA_MODE_REG v 2 s) = addr_reg s /\
  regs (poke DMA_MODE_REG v 2 s) = (v .& 0xFFFF, sector_reg s, dma_sector_count s, dma_base_addr s).
Proof.
  change (poke DMA_MODE_REG v 2 s) with (bus_put DMA_MODE_REG v 2 (dma_write_addr DMA_MODE_REG v s)).
  unfold dma_write_addr. change (DMA_MODE_REG =? DMA_MODE_REG) with true. cbv zeta iota. by destruct (truth _).
Qed.

Lemma poke_count v s : screg s = true -> let s' := poke FDC_DATA_REG v 2 s in
  disk s' = disk s /\ addr_reg s' = dma_base_addr s /\ regs s' = (dma_mode s, sector_reg s, v .& 0xFF, dma_base_addr s).
Proof.
  intros Hm. cbv zeta. change (poke FDC_DATA_REG v 2 s) with (write_data_reg true top FDC_DATA_REG v 2 s).
  unfold write_data_reg. rewrite Hm. destruct (note_count_frame v s) as (E1 & [= E2 E3 E4 E5] & E6).
  set (s1 := hdc_note_sector_count top v s) in *. clearbody s1. unfold fdc_write_addr.
  replace (truth (dma_mode s1 .& DMA_MODE_SCREG)) with true by (by rewrite E2).
  unfold disk, regs, addr_reg in *. rewrite <- E1, <- E2, <- E3, <- E5. done.
Qed.

Lemma poke_fdc v s : screg s = false -> hdc_selected s = false ->
  exists s1, poke FDC_DATA_REG v 2 s = fdc_write_addr v s1 /\ disk s1 = disk s /\ regs s1 = regs s /\
    addr_reg s1 = addr_reg s /\ a_irq (ac (prt s1)) = false /\ (fdc_ok true s -> fdc_ok true s1).
Proof.
  intros E1 E2. change (poke FDC_DATA_REG v 2 s) with (write_data_reg true top FDC_DATA_REG v 2 s).
  unfold write_data_reg. rewrite E1, E2. eexists. split; [reflexivity|]. split_and!; try done.
  intros K. by apply (release_k _ s _ false false false), k_refl.
Qed.

Lemma poke_sector v s : screg s = false -> hdc_selected s = false -> fdc_reg_index s = 2 ->
  let s' := poke FDC_DATA_REG v 2 s in
  disk s' = disk s /\ addr_reg s' = addr_reg s /\ regs s' = (dma_mode s, v .& 0xFF, dma_sector_count s, dma_base_addr s).
Proof.
  intros E1 E2 E3. cbv zeta. destruct (poke_fdc v s E1 E2) as (s1 & -> & D & [= R1 R2 R3 R4] & A & _).
  unfold fdc_write_addr, screg, fdc_reg_index in *. rewrite R1, E1, E3. unfold disk, regs, addr_reg in *.
  by rewrite <- D, <- R1, <- R3, <- R4, <- A.
Qed.

(** ** The address *)
Lemma base_bytes b lo mid hi m : (hi .& m) = hi -> is_u8 lo -> is_u8 mid ->
  (((((b .& 0xFFFF00) .| lo) .& 0xFF00FF) .| (mid << 8)) .& 0x00FFFF) .| ((hi .& m) << 16)
  = hi * 65536 + mid * 256 + lo.
Proof.
  intros -> Hl Hm. rewrite !Z.land_lor_distr_l, <- !Z.land_assoc.
  change (0xFFFF00 .& (0xFF00FF .& 0x00FFFF)) with 0. rewrite Z.land_0_r, Z.lor_0_l.
  change (0xFF00FF .& 0x00FFFF) with (Z.ones 8). change 0x00FFFF with (Z.ones 16).
  rewrite !Z.land_ones by lia. unfold is_u8 in *.
  rewrite (Z.mod_small lo) by (change (2 ^ 8) with 256; lia).
  rewrite (Z.mod_small (mid << 8)) by (rewrite Z.shiftl_mul_pow2 by lia; change (2 ^ 8) with 256; change (2 ^ 16) with 65536; lia).
  rewrite (lor_shl_add mid lo 8) by (change (2 ^ 8) with 256; lia).
  rewrite lor_shl_add by (change (2 ^ 8) with 256; change (2 ^ 16) with 65536; lia).
  change (2 ^ 8) with 256; change (2 ^ 16) with 65536. lia.
Qed.

Lemma poke_base v s :
  let lo := poke DMA_BASE_LOW v 1 s in let mid := poke DMA_BASE_MID v 1 s in let hi := poke DMA_BASE_HIGH v 1 s in
  (disk lo = disk s /\ dma_base_addr lo = (dma_base_addr s .& 0xFFFF00) .| (v .& 0xFF)) /\
  (disk mid = disk s /\ dma_base_addr mid = (dma_base_addr s .& 0xFF00FF) .| ((v .& 0xFF) << 8)) /\
  (disk hi = disk s /\ dma_base_addr hi =
     (dma_base_addr s .& 0x00FFFF) .| (((v .& 0xFF) .& (if 0x400000 <? top_of_ram s then 0xFF else 0x3F)) << 16)).
Proof. by split_and!. Qed.

Lemma land_ff v : is_u8 v -> v .& 0xFF = v.
Proof. intros. change 0xFF with (Z.ones 8). rewrite Z.land_ones by lia. by apply Z.mod_small. Qed.

(** The address is one the DMA chip can hold. *)
Definition window_at (b n : Z) s : Prop := 0 <= b /\ b + n <= top_of_ram s /\ top_of_ram s <= 2 ^ 24.

Lemma base_written base n s : window_at base n s -> 0 < n ->
  let s' := poke DMA_BASE_HIGH ((base >> 16) .& 0xFF) 1
              (poke DMA_BASE_MID ((base >> 8) .& 0xFF) 1 (poke DMA_BASE_LOW (base .& 0xFF) 1 s)) in
  disk s' = disk s /\ dma_base_addr s' = base.
Proof.
  intros (B0 & B1 & B2) Hn. cbv zeta. change (2 ^ 24) with 16777216 in B2.
  destruct (poke_base (base .& 0xFF) s) as ((D1 & E1) & _ & _).
  set (s1 := poke DMA_BASE_LOW _ 1 s) in *. clearbody s1.
  destruct (poke_base ((base >> 8) .& 0xFF) s1) as (_ & (D2 & E2) & _).
  set (s2 := poke DMA_BASE_MID _ 1 s1) in *. clearbody s2.
  destruct (poke_base ((base >> 16) .& 0xFF) s2) as (_ & _ & (D3 & E3)).
  set (s3 := poke DMA_BASE_HIGH _ 1 s2) in *. clearbody s3.
  split; [by rewrite D3, D2|]. assert (top_of_ram s2 = top_of_ram s) as Et.
  { rewrite D1 in D2. by injection D2. }
  rewrite !land_ff in E1, E2, E3 by apply low_byte. rewrite E3, E2, E1, Et, base_bytes; [|..].
  - change 0xFF with (Z.ones 8). rewrite !Z.land_ones, !Z.shiftr_div_pow2 by lia.
    change (2 ^ 16) with (256 * 256). change (2 ^ 8) with 256. rewrite <- Z.div_div by lia.
    assert (base / 256 / 256 < 256) by (Z.div_mod_to_equations; lia). Z.div_mod_to_equations. lia.
  - rewrite Z.shiftr_div_pow2 by lia. change (2 ^ 16) with 65536. change 0xFF with (Z.ones 8).
    assert (base / 65536 < 256) by (Z.div_mod_to_equations; lia).
    assert (0 <= base / 65536) by (Z.div_mod_to_equations; lia).
    rewrite (Z.land_ones (base / 65536)), Z.mod_small by (change (2 ^ 8) with 256; lia).
    destruct (Z.ltb_spec 4194304 (top_of_ram s)); change 0x3F with (Z.ones 6); rewrite Z.land_ones by lia;
      apply Z.mod_small; change (2 ^ 8) with 256; change (2 ^ 6) with 64; [lia|].
    Z.div_mod_to_equations. lia.
  - apply low_byte.
  - apply low_byte.
Qed.

Lemma program_ready dir base n sec m s : dir = DIR_WRITE \/ dir = DIR_READ -> window_at base m s -> 0 < m ->
  is_u8 n -> is_u8 sec -> let s' := program dir base n sec s in
  disk s' = disk s /\ addr_reg s' = base /\ regs s' = (dir .| 0x80, sec, n, base) /\ (fdc_ok true s -> fdc_ok true s').
Proof.
  intros Hd Hw Hm Hn Hs. cbv zeta. split_and!; cycle 3.
  { intros K. eapply (proj1 (A := fdc_ok true _)). unfold program, poke. repeat apply fdd_io_write_k. by apply k_refl. }
  all: unfold program; cbv zeta; destruct (base_written base m s Hw Hm) as [D0 B0];
    set (s0 := poke DMA_BASE_HIGH _ _ _) in *; clearbody s0;
    destruct (poke_mode (dir .| 0x90) s0) as (D1 & A1 & R1);
    set (s1 := poke DMA_MODE_REG _ _ _) in *; clearbody s1; injection R1 as M1 S1 C1 B1;
    destruct (poke_count n s1) as (D2 & A2 & R2); [by unfold screg; rewrite M1; destruct Hd as [-> | ->]|];
    set (s2 := poke FDC_DATA_REG _ _ _) in *; clearbody s2; injection R2 as M2 S2 C2 B2;
    destruct (poke_mode (dir .| 0x84) s2) as (D3 & A3 & R3);
    set (s3 := poke DMA_MODE_REG _ _ _) in *; clearbody s3; injection R3 as M3 S3 C3 B3;
    (destruct (poke_sector sec s3) as (D4 & A4 & R4);
      [unfold screg, hdc_selected, fdc_reg_index; rewrite M3; by destruct Hd as [-> | ->]..|]);
    set (s4 := poke FDC_DATA_REG _ _ _) in *; clearbody s4; injection R4 as M4 S4 C4 B4;
    destruct (poke_mode (dir .| 0x80) s4) as (D5 & A5 & R5).
  - by rewrite D5, D4, D3, D2, D1.
  - by rewrite A5, A4, A3, A2, B1.
  - rewrite R5, S4, C4, C3, C2, B4, B3, B2, B1, B0, !land_ff by done. by destruct Hd as [-> | ->].
Qed.

(** ** Type II commands *)
Lemma not_top4 cmd e k : cmd .& 0xE0 = e -> (k .& 0xE0 =? e) = false -> (cmd .& 0xF0 =? k) = false.
Proof.
  intros <- Hk. apply Z.eqb_neq. intros <-. apply Z.eqb_neq in Hk. apply Hk.
  by rewrite <- Z.land_assoc.
Qed.

(** The state in which a Type II command moves its data. *)
Definition started (cmd : Z) s s1 : Prop :=
  disk s1 = disk s /\ sector_reg s1 = sector_reg s /\ dma_sector_count s1 = dma_sector_count s /\
  addr_reg s1 = addr_reg s /\ a_irq (ac (prt s1)) = false /\ command s1 = cmd /\
  (exists v, status s1 = start_status v) /\ dma_mode s1 = dma_mode s /\ (fdc_ok true s -> fdc_ok false s1).

Lemma type2_runs dir cmd s : dir = DIR_WRITE \/ dir = DIR_READ -> dma_mode s = dir .| 0x80 -> is_u8 cmd ->
  (cmd .& 0xE0 = 0xA0 \/ cmd .& 0xE0 = 0x80) ->
  exists s1, started cmd s s1 /\
    command_write cmd s = (if cmd .& 0xE0 =? 0xA0 then fdc_do_write_sectors s1 else fdc_do_read_sectors s1).
Proof.
  intros Hd Hm Hc Ht. destruct (poke_fdc cmd s) as (s1 & E & D & [= R1 R2 R3 R4] & A & I & K);
    [unfold screg, hdc_selected; rewrite Hm; by destruct Hd as [-> | ->]..|].
  unfold command_write. rewrite E. unfold fdc_write_addr, fdc_reg_index. rewrite R1, Hm.
  assert (truth ((dir .| 128) .& DMA_MODE_SCREG) = false /\ ((dir .| 128) >> 1) .& 3 = 0) as [-> ->]
    by (by destruct Hd as [-> | ->]).
  cbv zeta iota. rewrite land_ff by done. unfold fdc_exec_command.
  set (s2 := start_motor s1).
  assert (disk s2 = disk s1 /\ sector_reg s2 = sector_reg s1 /\ dma_sector_count s2 = dma_sector_count s1 /\
    addr_reg s2 = addr_reg s1 /\ ac (prt s2) = ac (prt s1) /\ dma_mode s2 = dma_mode s1 /\
    (fdc_ok true s1 -> fdc_ok true s2)) as (E1 & E2 & E3 & E4 & E5 & E7 & E6).
  { unfold s2. split_and!; try (unfold start_motor; cbv zeta; by case_match).
    intros K1. apply (start_motor_k s1), k_refl, K1. }
  clearbody s2. set (s3 := fdc_clear_irq _). exists s3. split.
  - unfold started. split_and!; try done.
    + by rewrite <- D, <- E1.
    + by rewrite <- R2, <- E2.
    + by rewrite <- R3, <- E3.
    + by rewrite <- A, <- E4.
    + rewrite <- I, <- E5. done.
    + by eexists.
    + by rewrite <- R1, <- E7.
    + intros K0. apply K, E6 in K0. apply (k_irq false s2), (start_k true), k_refl, K0.
  - clearbody s3. cbv zeta. destruct Ht as [Ht|Ht]; rewrite !(not_top4 _ _ _ Ht) by done; by rewrite Ht.
Qed.

Lemma status_good v : clr FDC_STATUS_BUSY (start_status v) .& 0x5D = 0.
Proof. unfold clr, start_status. unfold clr. rewrite <- !Z.land_assoc. apply Z.land_0_r. Qed.

(** A transfer of [n] sectors that the drive can serve. *)
Record servable (i n : Z) (img : list Z) s : Prop := mk_sv {
  sv_drive : 0 <= i < 2 /\ selected_drive s = i;
  sv_disk : disk_inserted (drive_of i s) = true /\ fd (drive_of i s) = Some img;
  sv_range : out_of_range (drive_of i s) (track_of i s) (selected_side s) (sector_reg s) n = false;
  sv_count : 1 <= n /\ dma_sector_count s = n;
  sv_image : 0 <= sector_offset (drive_of i s) (track_of i s) (selected_side s) (sector_reg s) /\
    sector_offset (drive_of i s) (track_of i s) (selected_side s) (sector_reg s) + n * 512 <= Z.of_nat (length img);
  sv_window : window_at (addr_reg s) (n * 512) s }.
Definition place (i : Z) s : Z := sector_offset (drive_of i s) (track_of i s) (selected_side s) (sector_reg s).

Context (memory_available : forall n (h : H), malloc_ok n h = true).

(** ** Errors *)
Lemma status_bad v bit : bit = FDC_STATUS_RECNF \/ bit = FDC_STATUS_WRTPROT ->
  clr FDC_STATUS_BUSY (start_status v .| bit) .& 0x5D = bit.
Proof.
  intros Hb. unfold clr, start_status. unfold clr. rewrite <- !Z.land_assoc, Z.land_lor_distr_l, <- !Z.land_assoc.
  rewrite Z.land_0_r. by destruct Hb as [-> | ->].
Qed.

Definition failed (bit : Z) s s' : Prop :=
  disk s' = disk s /\ status s' .& 0x5D = bit /\ dma_status (chip_of s') = 0.

Lemma fail_latched_failed bit cmd s s1 s2 : bit = FDC_STATUS_RECNF \/ bit = FDC_STATUS_WRTPROT ->
  started cmd s s1 -> disk s2 = disk s1 -> status s2 = status s1 -> failed bit s (fail_latched bit s2).
Proof.
  intros Hb (D & _ & _ & _ & _ & _ & [v V] & _) D2 V2. unfold failed. split_and!; [by rewrite <- D, <- D2| |done].
  change (status (fail_latched bit s2)) with (clr FDC_STATUS_BUSY (status s2 .| bit)). rewrite V2, V. by apply status_bad.
Qed.


Lemma ok_latched_frame s : disk (ok_latched s) = disk s /\ status (ok_latched s) = clr FDC_STATUS_BUSY (status s) /\
  sector_reg (ok_latched s) = sector_reg s.
Proof. done. Qed.

Lemma xfer_count_n n s : 1 <= n -> dma_sector_count s = n -> xfer_count s = n.
Proof. intros Hn E. unfold xfer_count, truth. rewrite E. destruct (Z.eqb_spec n 0); [lia|done]. Qed.

Lemma served_disk i n img s : servable i n img s -> no_disk (selected_drive s) s = false.
Proof.
  intros [[Hi ->] [Hd _] _ _ _ _]. unfold no_disk, no_drive, FDD_MAX_DRIVES. rewrite Hd.
  rewrite (proj2 (Z.ltb_ge _ _)), (proj2 (Z.leb_gt _ _)) by lia. done.
Qed.

Lemma read_sectors_spec i n img s : servable i n img s ->
  let s' := fdc_do_read_sectors s in
  disk s' = (drives s, tracks s, selected_drive s, selected_side s,
             block_put (mem_of s) (addr_reg s) (pread img (place i s) (n * 512)), top_of_ram s) /\
  status s' = clr FDC_STATUS_BUSY (status s).
Proof.
  intros S. pose proof (served_disk _ _ _ _ S) as Hd. assert (servable i n img (set_dma_status DMA_STATUS_OK s)) as S1
    by (destruct S; by split).
  destruct S as [[Hi Hsel] [Hin Hfd] Hr [Hn Hc] [Ho1 Ho2] (W1 & W2 & W3)].
  fold (place i s) in Ho1, Ho2. cbv zeta. unfold fdc_do_read_sectors. set (s1 := set_dma_status DMA_STATUS_OK s).
  fold s1 in S1. destruct S1 as [_ [Hin1 Hfd1] Hr1 [_ Hc1] _ _].
  assert (place i s1 = place i s /\ no_disk (selected_drive s1) s1 = false /\ disk s1 = disk s /\
    addr_reg s1 = addr_reg s /\ status s1 = status s) as (Ep & Hd1 & D1 & A1 & <-) by done.
  clearbody s1. cbv zeta. rewrite Hd1, memory_available, (xfer_count_n n) by done. cbn [negb].
  assert (selected_drive s1 = i) as -> by (injection D1; congruence).
  pose proof (pread_length img (place i s1) (n * 512)) as L. rewrite Ep in L. specialize (L ltac:(lia) ltac:(lia) ltac:(lia)).
  unfold fdd_image_read. rewrite Hfd1, Hin1, Hr1. cbn [negb orb]. fold (place i s1). unfold FDD_SECTOR_SIZE. rewrite Ep.
  rewrite (proj2 (Z.eqb_eq _ _)) by done. set (buf := pread img (place i s) (n * 512)) in *.
  set (s2 := on_chip _ s1). destruct (ok_latched_frame s2) as (-> & -> & _). split; [|done].
  destruct (to_stram_in (addr_reg s1) buf (ram (chip_of s1))) as [T1 T2].
  { by rewrite A1. } { rewrite A1, L. injection D1 as _ _ _ _ _ Et. unfold top_of_ram in *. lia. }
  { intros ->. cbn in L. lia. }
  assert (disk s2 = (drives s1, tracks s1, selected_drive s1, selected_side s1,
    mirror (pistorm_dma_to_stram (addr_reg s1) buf (ram (chip_of s1))),
    stram_top (pistorm_dma_to_stram (addr_reg s1) buf (ram (chip_of s1))))) as -> by done.
  rewrite T1, T2, A1. unfold disk, mem_of, top_of_ram in *. by injection D1 as -> -> -> -> -> ->.
Qed.

Context (host_writes : forall u o n (h : H), (pwrite_n u o n h).1 = n) `{!DmaHwLaws H}.

(** The image after the sectors of [s] have been written. *)
Definition after_write (i n : Z) (img : list Z) s : list Z :=
  img_put img (place i s) (block_get (mem_of s) (addr_reg s) (n * 512)).

Lemma image_write_spec i t sd sc n img buf s : disk_inserted (drive_of i s) = true -> fd (drive_of i s) = Some img ->
  write_protected (drive_of i s) = false -> out_of_range (drive_of i s) t sd sc n = false ->
  Z.of_nat (length buf) = n * 512 -> 0 < n -> exists s',
  fdd_image_write i t sd sc n buf s = (true, s') /\
  disk s' = (<[Z.to_nat i := {| (drive_of i s) with fd := Some (img_put img (sector_offset (drive_of i s) t sd sc) buf) |}]> (drives s),
             tracks s, selected_drive s, selected_side s, mem_of s, top_of_ram s) /\
  status s' = status s.
Proof.
  intros Hin Hfd Hwp Hr Hl Hn. unfold fdd_image_write. rewrite Hfd, Hin, Hwp, Hr. cbn [negb orb]. unfold pwrite.
  pose proof (host_writes i (sector_offset (drive_of i s) t sd sc) (Z.of_nat (length buf)) (hw (chip_of s))) as Hw.
  destruct (pwrite_n _ _ _ _) as [k h]. cbn in Hw. subst k. rewrite Hl, (proj2 (Z.ltb_lt _ _)) by lia.
  unfold FDD_SECTOR_SIZE. rewrite Z.eqb_refl. replace (Z.to_nat (n * 512)) with (length buf) by lia.
  rewrite firstn_all. eexists. split; [reflexivity|]. done.
Qed.

Lemma write_sectors_spec i n img s : servable i n img s -> write_protected (drive_of i s) = false ->
  let s' := fdc_do_write_sectors s in
  disk s' = (<[Z.to_nat i := {| (drive_of i s) with fd := Some (after_write i n img s) |}]> (drives s),
             tracks s, selected_drive s, selected_side s, mem_of s, top_of_ram s) /\
  status s' = clr FDC_STATUS_BUSY (status s).
Proof.
  intros S Hwp. pose proof (served_disk _ _ _ _ S) as Hd. assert (servable i n img (set_dma_status DMA_STATUS_OK s)) as S1
    by (destruct S; by split).
  destruct S as [[Hi Hsel] _ _ [Hn Hc] _ (W1 & W2 & W3)].
  cbv zeta. unfold fdc_do_write_sectors. set (s1 := set_dma_status DMA_STATUS_OK s).
  fold s1 in S1. destruct S1 as [_ [Hin1 Hfd1] Hr1 [_ Hc1] _ _].
  assert (after_write i n img s1 = after_write i n img s /\ no_disk (selected_drive s1) s1 = false /\ disk s1 = disk s /\
    addr_reg s1 = addr_reg s /\ status s1 = status s /\ write_protected (drive_of i s1) = false /\ drive_of i s1 = drive_of i s)
    as (<- & Hd1 & D1 & A1 & <- & Hw1 & <-) by done.
  clearbody s1. cbv zeta. rewrite Hd1, memory_available, (xfer_count_n n) by done. cbn [negb].
  assert (selected_drive s1 = i) as -> by (injection D1; congruence). rewrite Hw1. unfold FDD_SECTOR_SIZE.
  pose proof (fresh_length (n * 512) (hw (chip_of s1)) ltac:(lia)) as L. set (buf := fresh_bytes _ _) in *.
  assert (dma_copy_from_ram (dma_addr (chip_of s1)) buf (chip_of s1) = block_get (mem_of s1) (addr_reg s1) (n * 512)) as ->.
  { unfold dma_copy_from_ram. rewrite from_stram_in; [by rewrite L|fold (addr_reg s1); rewrite ?A1; try done..].
    - rewrite L. injection D1 as _ _ _ _ _ Et. unfold top_of_ram in *. lia.
    - intros E. rewrite E in L. cbn in L. lia. }
  destruct (image_write_spec i (track_of i s1) (selected_side s1) (sector_reg s1) n img
    (block_get (mem_of s1) (addr_reg s1) (n * 512)) s1) as (s2 & -> & D2 & E2); try done; [|lia|].
  { rewrite block_get_length; lia. }
  destruct (ok_latched_frame s2) as (-> & -> & _). rewrite D2, E2. split; [|done].
  unfold after_write, place, disk in *. rewrite Hw1. by injection D1 as -> -> -> -> -> ->.
Qed.

(** ** The round trip *)
Lemma disk_parts s s' : disk s' = disk s ->
  drives s' = drives s /\ tracks s' = tracks s /\ selected_drive s' = selected_drive s /\
  selected_side s' = selected_side s /\ mem_of s' = mem_of s /\ top_of_ram s' = top_of_ram s.
Proof. unfold disk. intros [=]. by split_and!. Qed.

(** A transfer asked for with the registers: the drive, the image and the
    place, before any register is written. *)
Record wanted (i n sec : Z) (img : list Z) s : Prop := mk_wanted {
  w_drive : 0 <= i < 2 /\ selected_drive s = i;
  w_disk : disk_inserted (drive_of i s) = true /\ fd (drive_of i s) = Some img;
  w_count : 1 <= n /\ is_u8 n /\ is_u8 sec;
  w_range : out_of_range (drive_of i s) (track_of i s) (selected_side s) sec n = false;
  w_image : 0 <= sector_offset (drive_of i s) (track_of i s) (selected_side s) sec /\
    sector_offset (drive_of i s) (track_of i s) (selected_side s) sec + n * 512 <= Z.of_nat (length img) }.

Lemma guest_transfer_eq dir cmd base n sec s :
  guest_transfer dir cmd base n sec s = command_write cmd (program dir base n sec s).
Proof. reflexivity. Qed.
#[local] Opaque guest_transfer command_write program.

Lemma transfer_started dir cmd base n sec i img s : dir = DIR_WRITE \/ dir = DIR_READ ->
  wanted i n sec img s -> window_at base (n * 512) s -> is_u8 cmd -> cmd .& 0xE0 = 0xA0 \/ cmd .& 0xE0 = 0x80 ->
  exists s1, guest_transfer dir cmd base n sec s =
      (if cmd .& 0xE0 =? 0xA0 then fdc_do_write_sectors s1 else fdc_do_read_sectors s1) /\
    servable i n img s1 /\ disk s1 = disk s /\ addr_reg s1 = base /\ sector_reg s1 = sec /\
    exists v, status s1 = start_status v.
Proof.
  intros Hd [Hi Hk (Hn & Hn8 & Hs8) Hr Him] Hw Hc Ht.
  destruct (program_ready dir base n sec (n * 512) s) as (D1 & A1 & R1 & _); try done; [lia|].
  rewrite guest_transfer_eq. set (s1 := program dir base n sec s) in *. clearbody s1. injection R1 as M1 S1 C1 B1.
  destruct (type2_runs dir cmd s1 Hd M1 Hc Ht) as (s2 & (D2 & S2 & C2 & A2 & _ & _ & V2 & _) & E).
  rewrite D1 in D2. exists s2. split; [exact E|]. rewrite A1 in A2. rewrite S1 in S2. split_and!; try done.
  destruct (disk_parts _ _ D2) as (P1 & P2 & P3 & P4 & P5 & P6).
  assert (drive_of i s2 = drive_of i s /\ track_of i s2 = track_of i s) as [Q1 Q2] by (unfold drive_of, track_of; by rewrite P1, P2).
  split; rewrite ?Q1, ?Q2, ?P3, ?P4, ?S2, ?A2, ?C2, ?C1; try done. by unfold window_at; rewrite P6.
Qed.

Lemma write_transfer i n sec img b c s : wanted i n sec img s -> write_protected (drive_of i s) = false ->
  window_at b (n * 512) s -> is_u8 c -> c .& 0xE0 = FDC_CMD_WRITE_SEC ->
  let s' := guest_transfer DIR_WRITE c b n sec s in
  let o := sector_offset (drive_of i s) (track_of i s) (selected_side s) sec in
  disk s' = (<[Z.to_nat i := {| (drive_of i s) with fd := Some (img_put img o (block_get (mem_of s) b (n * 512))) |}]> (drives s),
             tracks s, selected_drive s, selected_side s, mem_of s, top_of_ram s) /\ status s' .& 0x5D = 0.
Proof.
  intros Hwt Hwp Hw Hc1 Hc2. cbv zeta.
  destruct (transfer_started DIR_WRITE c b n sec i img s (or_introl eq_refl) Hwt Hw Hc1 (or_introl Hc2))
    as (s1 & -> & S1 & D1 & A1 & R1 & v1 & V1).
  destruct (disk_parts _ _ D1) as (P1 & P2 & P3 & P4 & P5 & P6).
  assert (drive_of i s1 = drive_of i s /\ track_of i s1 = track_of i s) as [Q1 Q2] by (unfold drive_of, track_of; by rewrite P1, P2).
  destruct (write_sectors_spec i n img s1 S1) as [D2 V2]; [by rewrite Q1|]. rewrite Hc2, Z.eqb_refl, V2, V1.
  split; [|apply status_good]. rewrite D2. unfold after_write, place.
  by rewrite Q1, Q2, P1, P2, P3, P4, P5, P6, R1, A1.
Qed.

Lemma read_transfer i n sec img b c s : wanted i n sec img s ->
  window_at b (n * 512) s -> is_u8 c -> c .& 0xE0 = 0x80 ->
  let s' := guest_transfer DIR_READ c b n sec s in
  let o := sector_offset (drive_of i s) (track_of i s) (selected_side s) sec in
  disk s' = (drives s, tracks s, selected_drive s, selected_side s,
             block_put (mem_of s) b (pread img o (n * 512)), top_of_ram s) /\ status s' .& 0x5D = 0.
Proof.
  intros Hwt Hw Hc1 Hc2. cbv zeta.
  destruct (transfer_started DIR_READ c b n sec i img s (or_intror eq_refl) Hwt Hw Hc1 (or_intror Hc2))
    as (s1 & -> & S1 & D1 & A1 & R1 & v1 & V1).
  destruct (disk_parts _ _ D1) as (P1 & P2 & P3 & P4 & P5 & P6).
  assert (drive_of i s1 = drive_of i s /\ track_of i s1 = track_of i s) as [Q1 Q2] by (unfold drive_of, track_of; by rewrite P1, P2).
  destruct (read_sectors_spec i n img s1 S1) as [D2 V2]. rewrite Hc2. change (0x80 =? 0xA0) with false. cbv iota.
  rewrite V2, V1. split; [|apply status_good]. rewrite D2. unfold place.
  by rewrite Q1, Q2, P1, P2, P3, P4, P5, P6, R1, A1.
Qed.

(** C16: a floppy remembers.  A driver that programs address, count, sector
    and command writes [n] sectors of RAM to the disk, and one that reads the
    same sectors finds them at the address it gave; no error bit is set, and
    every other block of the image, the other drive and the RAM outside the
    second buffer are as before. *)
Theorem floppy_write_read i n sec img b1 b2 wc rc s :
  fdc_ok true s -> wanted i n sec img s -> write_protected (drive_of i s) = false ->
  window_at b1 (n * 512) s -> window_at b2 (n * 512) s ->
  is_u8 wc -> wc .& 0xE0 = FDC_CMD_WRITE_SEC -> is_u8 rc -> rc .& 0xE0 = 0x80 ->
  let s1 := guest_transfer DIR_WRITE wc b1 n sec s in
  let s2 := guest_transfer DIR_READ rc b2 n sec s1 in
  let o := sector_offset (drive_of i s) (track_of i s) (selected_side s) sec in
  status s1 .& 0x5D = 0 /\ status s2 .& 0x5D = 0 /\
  block_get (mem_of s2) b2 (n * 512) = block_get (mem_of s) b1 (n * 512) /\
  (forall x, x < b2 \/ b2 + n * 512 <= x -> mem_of s2 x = mem_of s x) /\
  exists img', fd (drive_of i s2) = Some img' /\ length img' = length img /\
    (forall o' k, 0 <= o' -> o' + k <= o \/ o + n * 512 <= o' -> pread img' o' k = pread img o' k) /\
    drive_of (1 - i) s2 = drive_of (1 - i) s.
Proof.
  intros Hok Hwt Hwp Hw1 Hw2 Wc1 Wc2 Rc1 Rc2. cbv zeta.
  destruct (write_transfer i n sec img b1 wc s) as [D1 V1]; try assumption.
  set (s1 := guest_transfer DIR_WRITE _ _ _ _ s) in *. clearbody s1. injection D1 as F1 F2 F3 F4 F5 F6.
  pose proof Hwt as [[Hi Hs] [Hin Hfd] (Hn & Hn8 & Hs8) Hr [Ho1 Ho2]]. set (o := sector_offset _ _ _ sec) in *.
  set (buf := block_get (mem_of s) b1 (n * 512)) in *.
  assert (Z.of_nat (length buf) = n * 512) as Lb by (apply block_get_length; lia).
  set (img' := img_put img o buf) in *.
  assert (length img' = length img) as Li by (apply img_put_length; lia).
  assert (drive_of i s1 = {| (drive_of i s) with fd := Some img' |}) as Q.
  { unfold drive_of at 1. rewrite F1. apply list_lookup_total_insert_eq. destruct Hok. lia. }
  assert (track_of i s1 = track_of i s) as Qt by (unfold track_of in *; by rewrite F2).
  assert (sector_offset (drive_of i s1) (track_of i s1) (selected_side s1) sec = o) as Eo
    by (rewrite Q, Qt, F4; reflexivity).
  destruct (read_transfer i n sec img' b2 rc s1) as [D2 V2]; try assumption.
  { split; rewrite ?Qt, ?Eo, ?Li, ?F3, ?F4, ?Q; first [done | by split_and!]. }
  { unfold window_at in *. by rewrite F6. }
  rewrite Eo in D2. set (s2 := guest_transfer DIR_READ _ _ _ _ s1) in *. clearbody s2. injection D2 as G1 _ _ _ G5 _.
  assert (pread img' o (n * 512) = buf) as Eb by (rewrite <- Lb; apply pread_put_same; lia).
  rewrite Eb, F5 in G5. split_and!; [done|done| | |].
  - by rewrite G5, <- Lb, block_get_put.
  - intros x Hx. rewrite G5. apply block_put_out. lia.
  - exists img'. split_and!; [|done| |].
    + unfold drive_of in *. by rewrite G1, Q.
    + intros o' k Ho' Hd. apply pread_put_other; lia.
    + unfold drive_of. rewrite G1, F1, list_lookup_total_insert_ne; [done|lia].
Qed.
End Data.
