(* ===== verification/FdcIrq.v ===== *)
(** * FdcIrq: the completion interrupt of the floppy controller *)

From S2P Require Import Prelude StRam DiskOrder Acsi AcsiProto Fdd Fdc FdcProps FdcData.
From Stdlib Require Import ZArith Lia Bool List String.
From stdpp Require Import base list numbers relations.
Open Scope Z_scope.
Open Scope cint_scope.

Section Irq.
Context {H : Type} `{DmaHw H} (pistorm_stram_phys_top : Z).
Implicit Types (s : ctrl H).
#[local] Abbreviation top := pistorm_stram_phys_top.

(** ** A finished Type II command *)
Definition quiet_part s := (dma_mode s, selected_drive s, ac (prt s)).
Definition latched s s' : Prop := quiet_part s' = quiet_part s /\ irq_pending s' = true /\ irq_ready s' = false.

Lemma fail_latches bit s : latched s (fail_latched bit s).
Proof. done. Qed.
Lemma ok_latches s : latched s (ok_latched s).
Proof. done. Qed.
Lemma latched_from s s1 s' : quiet_part s1 = quiet_part s -> latched s1 s' -> latched s s'.
Proof. intros E [E' ?]. by split; [rewrite E', E|]. Qed.

Lemma read_latches s : latched s (fdc_do_read_sectors s).
Proof.
  unfold fdc_do_read_sectors. set (s1 := set_dma_status _ s). apply (latched_from _ s1); [done|]. clearbody s1. cbv zeta.
  destruct (no_disk _ _); [apply fail_latches|]. destruct (negb _); [apply fail_latches|].
  destruct (fdd_image_read _ _ _ _ _ _); [|apply fail_latches].
  set (s2 := on_chip _ s1). apply (latched_from _ s2); [done|]. apply ok_latches.
Qed.

Lemma write_latches s : latched s (fdc_do_write_sectors s).
Proof.
  unfold fdc_do_write_sectors. set (s1 := set_dma_status _ s). apply (latched_from _ s1); [done|]. clearbody s1. cbv zeta.
  destruct (no_disk _ _); [apply fail_latches|]. destruct (write_protected _); [apply fail_latches|].
  destruct (negb _); [apply fail_latches|].
  match goal with |- context [fdd_image_write ?a ?b ?c ?d ?e ?f s1] =>
    assert (quiet_part (fdd_image_write a b c d e f s1).2 = quiet_part s1) as E;
    [|destruct (fdd_image_write a b c d e f s1) as [[] s2]] end.
  - unfold fdd_image_write. destruct (fd _); [|done]. destruct (negb _ || _ || _); [done|].
    by destruct (pwrite _ _ _ _ _) as [[??]?].
  - apply (latched_from _ s2); [done|]. apply ok_latches.
  - apply (latched_from _ s2); [done|]. apply fail_latches.
Qed.

Lemma type2_latches dir cmd s : dir = DIR_WRITE \/ dir = DIR_READ -> dma_mode s = dir .| 0x80 -> is_u8 cmd ->
  (cmd .& 0xE0 = 0xA0 \/ cmd .& 0xE0 = 0x80) -> let s' := command_write top cmd s in
  dma_mode s' = dma_mode s /\ selected_drive s' = selected_drive s /\ a_irq (ac (prt s')) = false /\
  irq_pending s' = true /\ irq_ready s' = false.
Proof.
  intros Hd Hm Hc Ht. cbv zeta.
  destruct (type2_runs top dir cmd s Hd Hm Hc Ht) as (s1 & (D & _ & _ & _ & I & _ & _ & M & _) & ->).
  destruct (disk_parts _ _ D) as (_ & _ & P & _).
  assert (latched s1 (if cmd .& 0xE0 =? 0xA0 then fdc_do_write_sectors s1 else fdc_do_read_sectors s1)) as ([= L1 L2 L3] & ? & ?)
    by (case_match; [apply write_latches|apply read_latches]).
  rewrite L1, L2, L3. by split_and!.
Qed.

(** ** Polling *)

(** [g] is the port as the other sources drive it. *)
Definition poll (g : Z) s : Z * ctrl H := fdd_gpip true top g s.
Fixpoint polls (k : nat) (g : Z) s : ctrl H :=
  match k with O => s | S k => polls k g (poll g s).2 end.

Lemma poll_idle g s : a_irq (ac (prt s)) = false -> irq_pending s = false -> poll g s = (g, s).
Proof.
  intros Ha Hp. unfold poll, fdd_gpip, acsi_irq_active, acsi_of. rewrite Ha. unfold fdd_irq_active. rewrite Hp.
  by destruct (served s).
Qed.
Lemma poll_first g s : a_irq (ac (prt s)) = false -> served s = true -> irq_pending s = true -> irq_ready s = false ->
  poll g s = (g, {| s with irq_ready := true |}).
Proof.
  intros Ha Hs Hp Hr. unfold poll, fdd_gpip, acsi_irq_active, acsi_of. rewrite Ha, Hs. unfold fdd_irq_active. by rewrite Hp, Hr.
Qed.
Lemma poll_ready g s : a_irq (ac (prt s)) = false -> served s = true -> irq_pending s = true -> irq_ready s = true ->
  poll g s = (g .& 0xDF, s).
Proof.
  intros Ha Hs Hp Hr. unfold poll, fdd_gpip, acsi_irq_active, acsi_of. rewrite Ha, Hs. unfold fdd_irq_active. by rewrite Hp, Hr.
Qed.
Lemma polls_idle k g s : a_irq (ac (prt s)) = false -> irq_pending s = false -> polls k g s = s.
Proof. intros Ha Hp. induction k as [|k IH]; [done|]. cbn. by rewrite poll_idle. Qed.
Lemma polls_ready k g s : a_irq (ac (prt s)) = false -> served s = true -> irq_pending s = true -> irq_ready s = true ->
  polls k g s = s.
Proof. intros. induction k as [|k IH]; [done|]. cbn. by rewrite poll_ready. Qed.

Lemma still_served s s' : fdc_ok true s -> Forall2 same_medium (drives s) (drives s') ->
  selected_drive s' = selected_drive s -> served s = true -> served s' = true.
Proof.
  intros K M E Hs. unfold served in *. rewrite E. apply andb_true_iff in Hs as [H0' H1]. rewrite H0'.
  destruct (lookup_lt_is_Some_2 (drives s) (Z.to_nat (selected_drive s))) as [d Hd]; [destruct K; lia|].
  destruct (Forall2_lookup_l _ _ _ _ _ M Hd) as (d' & Hd' & []). unfold drive_of in *.
  rewrite (list_lookup_total_correct _ _ _ Hd) in H1. rewrite (list_lookup_total_correct _ _ _ Hd'). cbn. congruence.
Qed.

Lemma status_read_clears dir s : dir = DIR_WRITE \/ dir = DIR_READ -> dma_mode s = dir .| 0x80 ->
  a_irq (ac (prt s)) = false -> let s' := (fdd_io_read true top FDC_DATA_REG 2 s).2 in
  irq_pending s' = false /\ a_irq (ac (prt s')) = false.
Proof.
  intros Hd Hm Ha. cbv zeta. change (fdd_io_read true top FDC_DATA_REG 2 s) with (read_data_reg true top FDC_DATA_REG 2 s).
  unfold read_data_reg, screg, hdc_selected, fdc_read_addr, fdc_reg_index. rewrite Hm.
  assert (truth ((dir .| 128) .& DMA_MODE_SCREG) = false /\ truth ((dir .| 128) .& DMA_MODE_FDC_HDC) = false /\
    ((dir .| 128) >> 1) .& 3 = 0) as (-> & -> & ->) by (by destruct Hd as [-> | ->]).
  assert (prt (live_status s).2 = prt s) as E by (unfold live_status; cbv zeta; by repeat case_match).
  destruct (live_status s) as [v s1]. cbn [snd] in E |- *. change (prt (fdc_clear_irq s1)) with (prt s1). by rewrite E.
Qed.

End Irq.
