(* ===== verification/DiskDemo.v ===== *)
(** * DiskDemo: a machine with an ACSI disk and a floppy

    A host whose writes succeed, 64 KB of RAM, an ACSI disk of four sectors as
    target 0 and a single-track floppy in drive A; the theorems of the disk
    components applied to them. *)

From S2P Require Import Prelude StRam DiskOrder Acsi AcsiProps AcsiProto AcsiData Fdd Msa Fdc FdcProps FdcData FdcIrq.
From Stdlib Require Import ZArith Lia Bool List String.
From stdpp Require Import base list numbers relations.
Open Scope Z_scope.
Open Scope cint_scope.

(** ** The host: a clock, and a bus that floats high *)
#[export] Instance demo_host : DmaHw Z := {|
  ps_read_8 := fun _ t => (0xFF, t + 1);
  ps_read_16 := fun _ t => (0xFFFF, t + 1);
  ps_write_8 := fun _ _ t => t + 1;
  ps_write_16 := fun _ _ t => t + 1;
  ht_now_us := fun t => (t, t + 1);
  busy_wait := fun n t => t + n;
  pwrite_n := fun _ _ n t => (n, t + 1);
  malloc_ok := fun _ _ => true;
  fresh_bytes := fun n _ => replicate (Z.to_nat n) 0xE5 |}.

#[export] Instance demo_host_laws : DmaHwLaws Z.
Proof. split; intros; cbn; unfold is_u8, is_u16; rewrite ?length_replicate; lia. Qed.

Lemma demo_writes (u o n t : Z) : (pwrite_n u o n t).1 = n.
Proof. reflexivity. Qed.

Lemma demo_memory (n t : Z) : malloc_ok n t = true.
Proof. reflexivity. Qed.

Definition demo_ram : stram := mk_stram (fun a => u8 a) 0x10000 (fun _ => false) 0.
Definition demo_chip : chip Z := mk_chip 0 demo_ram 0x1000 DMA_STATUS_OK.

(** ** ACSI *)
Definition demo_open (path : string) : option (list Z) := Some (map u8 (seqZ 0 2048)).
Definition demo_order (id : Z) : Z := DISK_ORDER_NATIVE.
Definition demo_acsi : acsi := (acsi_attach demo_open demo_order "disk.img" acsi0).2.
Definition demo_port : port Z := mk_port demo_acsi demo_chip.

Lemma demo_acsi_inv : acsi_inv demo_acsi.
Proof. apply attach_inv, acsi0_inv. Qed.

Lemma demo_target_ok : target_ok (tgt demo_acsi !!! 0%nat).
Proof.
  change (tgt demo_acsi !!! 0%nat) with (new_target demo_order 0 "disk.img" (map u8 (seqZ 0 2048)) no_target).
  apply new_target_ok; [reflexivity|]. rewrite length_map, length_seqZ. lia.
Qed.

(** Twenty bytes to RAM: sixteen go out, four stay. *)
Lemma dma_out_stream_witness :
  let p := dma_out (seqZ 0 20) demo_port in
  dma_fifo (ac p) = [16; 17; 18; 19] /\ addr_of p = 0x1010 /\
  addr_of p = addr_of demo_port + Z.of_nat (length (sent demo_port (seqZ 0 20))).
Proof.
  split; [reflexivity|]. split; [reflexivity|].
  apply (dma_out_stream (seqZ 0 20) demo_port); [vm_compute; lia|]. repeat split; vm_compute; congruence.
Defined.

(** One byte of a READ(6) has arrived. *)
Lemma acsi_reachable_witness :
  let a := ac (acsi_cmd_byte 0x08 true demo_port).2 in
  owns a = true /\ phase a = PH_CDB /\ (acsi_status_read a).1 = 0x02.
Proof.
  split; [reflexivity|]. split; [reflexivity|].
  apply (acsi_reachable demo_open demo_order demo_chip (acsi_cmd_byte 0x08 true demo_port).2); [|reflexivity..].
  eapply rtc_l; [apply (step_attach demo_open demo_order (mk_port acsi0 demo_chip) "disk.img")|].
  apply rtc_once. apply step_byte. unfold is_u8. lia.
Defined.

(** The guest selects target 0 and writes sector 1. *)
Definition demo_selected : port Z := mk_port (start_cdb 0x0A demo_acsi) demo_chip.
Lemma demo_selected_inv : wf (ac demo_selected).
Proof.
  refine (proj1 (start_cdb_inv 0x0A demo_acsi (proj1 demo_acsi_inv) _)). vm_compute. by eexists.
Qed.
Lemma demo_selected_target : here demo_selected = tgt demo_acsi !!! 0%nat.
Proof. vm_compute. reflexivity. Qed.

Lemma write_confined_witness :
  sector (here (exec_write 1 1 demo_selected)) 3 = sector (here demo_selected) 3.
Proof.
  apply (write_confined 1 1 demo_selected); [apply demo_selected_inv| | |lia|lia| |].
  - vm_compute. congruence.
  - rewrite demo_selected_target. apply demo_target_ok.
  - vm_compute. intuition congruence.
  - right. left. lia.
Defined.

(** Sector 2 is written from $1000 and read to $2000. *)
Lemma acsi_write_read_witness :
  let flags := replicate 5 false in
  let p1 := (feed ((cdb6_head 0x0A 0, true) :: combine (cdb6_rest 2 1) flags) demo_port).2 in
  let '(st1, a1) := acsi_status_read (ac p1) in
  let p2 := at_addr 0x2000 (mk_port a1 (dc p1)) in
  let p3 := (feed ((cdb6_head 0x08 0, true) :: combine (cdb6_rest 2 1) flags) p2).2 in
  st1 = 0x00 /\ (acsi_status_read (ac p3)).1 = 0x00 /\
  block_get (mir p3) 0x2000 512 = block_get (mir demo_port) 0x1000 512.
Proof.
  apply (acsi_write_read demo_writes 0 2 1 (replicate 5 false) (replicate 5 false) 0x2000 demo_port);
    try reflexivity; try (by repeat split; vm_compute; congruence); try lia.
  - apply demo_acsi_inv.
  - apply demo_target_ok.
Defined.

(** ** A floppy *)
Definition floppy_open (path : string) (ro : bool) : option (list Z) := Some (map (fun i => u8 (i + 7)) (seqZ 0 4608)).
Definition floppy_msa (path : string) : msa_result := NotMsa.
Definition demo_mount (wp : bool) (s : ctrl Z) : ctrl Z :=
  on_mount (fun f => (fdd_insert_disk floppy_open floppy_msa 0 "a.st" wp f).2) s.

(** Power on, mount, and select drive A, side 0 through the PSG. *)
Definition demo_ctrl (wp : bool) : ctrl Z :=
  fdd_io_write true 0x10000 PSG_REG_WRITE 0x0500 2
    (fdd_io_write true 0x10000 PSG_REG_SELECT 0x0E00 2 (demo_mount wp (fdd_init true demo_acsi demo_ram 0))).

Definition demo_start : ctrl Z := fdd_init true demo_acsi demo_ram 0.
Lemma demo_run wp : rtc (fdc_step true 0x10000 floppy_open floppy_msa) demo_start (demo_ctrl wp).
Proof.
  unfold demo_ctrl, demo_mount. fold demo_start. generalize demo_start. intros s.
  eapply rtc_l; [right; apply (host_insert floppy_open floppy_msa 0 "a.st" wp s)|].
  generalize (on_mount (fun f => (fdd_insert_disk floppy_open floppy_msa 0 "a.st" wp f).2) s). intros s1.
  eapply rtc_l; [left; apply (guest_write true 0x10000 PSG_REG_SELECT 0x0E00 2 s1)|].
  apply rtc_once. left. apply guest_write.
Qed.
Lemma demo_ctrl_ok wp : fdc_ok true (demo_ctrl wp).
Proof. exact (reachable_ok _ _ _ _ _ _ _ _ _ demo_acsi_inv (demo_run wp)). Qed.


Lemma transfer_steps top dir cmd base n sec s : rtc (guest_step true top) s (guest_transfer top dir cmd base n sec s).
Proof.
  unfold guest_transfer, command_write, program, poke. cbv zeta.
  repeat (eapply rtc_r; [|apply guest_write]). apply rtc_refl.
Qed.

(** A write to a protected floppy. *)
Lemma media_safe_witness :
  fd (drive_of 0 (guest_transfer 0x10000 DIR_WRITE 0xA0 0x1000 2 3 (demo_ctrl true))) = fd (drive_of 0 (demo_ctrl true)).
Proof.
  apply (media_safe true 0x10000 floppy_open floppy_msa (demo_ctrl true) _ 0 (demo_ctrl_ok true) (transfer_steps _ _ _ _ _ _ _));
    [lia|left; reflexivity].
Defined.

Lemma image_layout_witness :
  let d := drive_of 0 (demo_ctrl false) in
  sector_offset d 0 0 9 = 4096 /\ sector_offset d 0 0 9 + 512 * 1 <= 512 * (num_tracks d * sides_of d * sectors_per_track d).
Proof.
  split; [reflexivity|].
  apply (image_layout true 0x10000 floppy_open floppy_msa true demo_acsi demo_ram 0 (demo_ctrl false) 0 0 0 9 1 0 0 1 8
    demo_acsi_inv (demo_run false)); (lia || reflexivity).
Defined.

Lemma demo_wanted : wanted 0 2 3 (map (fun i => u8 (i + 7)) (seqZ 0 4608)) (demo_ctrl false).
Proof.
  split; [split; [lia|reflexivity]|split; reflexivity|unfold is_u8; lia|reflexivity|].
  rewrite length_map, length_seqZ. split; [vm_compute; congruence|].
  change (sector_offset _ _ _ 3) with 1024. lia.
Qed.

(** Sectors 3 and 4 are written from $1000 and read to $4000. *)
Lemma floppy_write_read_witness :
  let s := demo_ctrl false in
  let s1 := guest_transfer 0x10000 DIR_WRITE 0xA0 0x1000 2 3 s in
  let s2 := guest_transfer 0x10000 DIR_READ 0x90 0x4000 2 3 s1 in
  status s1 .& 0x5D = 0 /\ block_get (mem_of s2) 0x4000 (2 * 512) = block_get (mem_of s) 0x1000 (2 * 512).
Proof.
  destruct (floppy_write_read 0x10000 demo_memory demo_writes 0 2 3 _ 0x1000 0x4000 0xA0 0x90
    (demo_ctrl false) (demo_ctrl_ok false) demo_wanted) as (H1 & _ & H3 & _);
    [reflexivity|unfold window_at; change (top_of_ram (demo_ctrl false)) with 0x10000; lia..|
     unfold is_u8; lia|reflexivity|unfold is_u8; lia|reflexivity|].
  split; [exact H1|exact H3].
Defined.

(** The guest writes the mode register and a read command. *)
Definition demo_read_mode : ctrl Z := fdd_io_write true 0x10000 DMA_MODE_REG 0x80 2 (demo_ctrl false).
Lemma demo_read_mode_ok : fdc_ok true demo_read_mode.
Proof. apply (fdd_io_write_k true 0x10000 (demo_ctrl false)), k_refl, demo_ctrl_ok. Qed.


(** A write command for the protected floppy. *)
Definition demo_write_mode : ctrl Z := fdd_io_write true 0x10000 DMA_MODE_REG 0x180 2 (demo_ctrl true).

(** An archive of one track of one sector, all $11: eight bytes. *)
Definition demo_archive : list Z := archive 1 1 0 0 [[0xE5; 0x11; 2; 0]].
Lemma msa_mounts_witness :
  let '(r, f) := fdd_insert_disk floppy_open (fun _ => msa_open_decoded true (Some demo_archive)) 0 "a.msa" false fdc0 in
  r = 0 /\ fd (get_drive 0 f) = Some (replicate 512 0x11) /\ write_protected (get_drive 0 f) = true /\
  disk_inserted (get_drive 0 f) = true.
Proof.
  apply (msa_mounts 1 1 0 0 [[0xE5; 0x11; 2; 0]] [replicate 512 0x11] floppy_open "a.msa" 0 false fdc0);
    unfold is_u16; try lia; try reflexivity; try (by repeat constructor).
  - constructor; [|constructor]. right. split; [by cbn|]. apply (enc_run 0x11 512 [] []); [unfold is_u16; lia|constructor].
Defined.
