(* ===== verification/PsTable.v ===== *)
(** * PsTable: the PSCTRL settings, data and descriptor table
    ([platforms/atari/psctrl/psctrl_settings.cpp], [psctrl_settings.h],
    [psctrl_tunables.c])

    The constants of the wire protocol, the state a setting can live in (the
    tunables, the boot shadow of the configuration) and the descriptor table
    itself, one list per tab of the dialog.  The function pointers of
    [struct ps_item] are the constructors of [ps_get_fn], [ps_set_fn] and
    [ps_apply_fn]; PsSettings gives each its body. *)

From S2P Require Import Prelude.
From Stdlib Require Import ZArith Lia Bool String Ascii.
From stdpp Require Import base list.
Open Scope Z_scope.
Open Scope cint_scope.
Open Scope string_scope.

(** ** Protocol constants ([psctrl_settings.h]) *)
Definition PS_R_OK := 0.
Definition PS_R_DEFER := 1.
Definition PS_R_RESTART := 2.
Definition PS_R_BOXBOOT := 3.
Definition PS_R_REJECT := -1.
Definition PS_R_BUSY := -2.

Definition PS_TAB_JIT := 0.
Definition PS_TAB_CPU := 1.
Definition PS_TAB_VIDEO := 2.
Definition PS_TAB_AUDIO := 3.
Definition PS_TAB_INPUT := 4.
Definition PS_TAB_STBOX := 5.
Definition PS_TAB_FLOPPY := 6.
Definition PS_TAB_NET := 7.
Definition PS_TAB_DEBUG := 8.
Definition PS_TAB_ADV := 9.

Definition PS_K_BOOL := 0.
Definition PS_K_ENUM := 1.
Definition PS_K_INT := 2.
Definition PS_K_STR := 3.
Definition PS_K_ACTION := 4.
Definition PS_K_INFO := 5.

Definition PS_C_LIVE := 0.
Definition PS_C_DEFER := 1.
Definition PS_C_BOOT := 2.
Definition PS_C_BOXBOOT := 3.
Definition PS_C_RO := 4.

Definition PS_U_NONE := 0.
Definition PS_U_MS := 1.
Definition PS_U_NS := 2.
Definition PS_U_CYC := 9.
Definition PS_U_X100 := 10.

Definition PS_F_NEWLINE := 2.
Definition PS_DESC_FIXED := 48.
Definition PS_SET_BASE := 256.
Definition PSCTRL_SET_API_VERSION := 1.

(** ** Where values live *)

(** The tunables of [psctrl_tunables.c] the table and the [debug] line name. *)
Inductive tunable :=
| pst_pissoff_mult | pst_drm_dirtyband | pst_drm_async | pst_fvdi_scale
| pst_blit_timed_ns | pst_ym_gain_x100 | pst_ym_lag_ms | pst_lmc | pst_audio_frames
| pst_mouse_thresh | pst_mouse_scale | pst_stbox_slice_cyc | pst_stbox_telemetry
| pst_ipl_confirm_ns | pst_vbl_refract_ns | pst_verbose
| pst_comp_constjump | pst_compnf | pst_compfpu | pst_fdd_mfp_irq
| pst_dbg_ipl_stats | pst_dbg_irq_stats | pst_dbg_mfp | pst_dbg_mfp_hub
| pst_dbg_blit_trace | pst_dbg_dmasnd | pst_dbg_acsi | pst_dbg_ide | pst_dbg_hostfs
| pst_dbg_gemdos | pst_dbg_stram | pst_dbg_net | pst_dbg_ikbd.

#[export] Instance tunable_eq_dec : EqDecision tunable.
Proof. solve_decision. Defined.

(** Their initial values. *)
Definition tunable_init (t : tunable) : Z :=
  match t with
  | pst_pissoff_mult => 1024 | pst_drm_dirtyband => 1 | pst_ym_gain_x100 => 100
  | pst_ym_lag_ms => 100 | pst_lmc => 1 | pst_audio_frames => 2048 | pst_mouse_scale => 1
  | pst_stbox_slice_cyc => 64 | pst_ipl_confirm_ns => 2000 | pst_vbl_refract_ns => 5000000
  | pst_comp_constjump => -1 | pst_compnf => -1 | pst_compfpu => -1 | pst_dbg_hostfs => -1
  | _ => 0
  end.

(** The fields of [struct emulator_config] the settings reach. *)
Record emulator_config := mk_conf {
  cpu_type : Z; cf_fpu : bool; cf_mmu : bool; cf_cpu_compatible : bool; cf_addr32 : bool;
  cf_stram_cache : bool; cf_stram_direct : bool; cf_native_hdmi : bool; cf_psvidel : bool;
  cf_falcon_dsp : bool; cf_ym2149 : bool; cf_dma_sound : bool; cf_network_enabled : bool;
  cf_ide : bool;
  monitor_force : Z; machine_kind : Z; kbd_mouse_div : Z; stbox_plane : Z;
  shifter_ste : bool; shifter_set : bool;
  blitter : bool; blitter_real : bool; blitter_set : bool;
  kbd_usb : bool; kbd_mode : Z; kbd_grab : bool;
  stram_size : Z; ttram : bool; ttram_size : Z;
  gfx_card : Z; gfx_driver : Z; network_irq_level : Z;
  jit_cache_set : bool; jit_cache : Z;
  rom_path : string; stbox_tos : string; fdd_img_path : string }.

(** [memset(&g_boot, 0, sizeof(g_boot))]. *)
Definition conf_zero : emulator_config :=
  mk_conf 0 false false false false false false false false false false false false false
    0 0 0 0 false false false false false false 0 false 0 false 0 0 0 0 false 0 "" "" "".

(** The fields [BOOT_BOOL] and [BOOT_INT] are instantiated with. *)
Inductive bool_field :=
| F_fpu | F_mmu | F_cpu_compatible | F_addr32 | F_stram_cache | F_stram_direct
| F_native_hdmi | F_psvidel | F_falcon_dsp | F_ym2149 | F_dma_sound | F_network_enabled | F_ide.
Inductive int_field := F_monitor_force | F_machine_kind | F_kbd_mouse_div | F_stbox_plane.

Definition bfield_get (f : bool_field) (c : emulator_config) : bool :=
  match f with
  | F_fpu => cf_fpu c | F_mmu => cf_mmu c | F_cpu_compatible => cf_cpu_compatible c
  | F_addr32 => cf_addr32 c | F_stram_cache => cf_stram_cache c | F_stram_direct => cf_stram_direct c
  | F_native_hdmi => cf_native_hdmi c | F_psvidel => cf_psvidel c | F_falcon_dsp => cf_falcon_dsp c
  | F_ym2149 => cf_ym2149 c | F_dma_sound => cf_dma_sound c
  | F_network_enabled => cf_network_enabled c | F_ide => cf_ide c
  end.

Definition bfield_set (f : bool_field) (v : bool) (c : emulator_config) : emulator_config :=
  match f with
  | F_fpu => {| c with cf_fpu := v |} | F_mmu => {| c with cf_mmu := v |}
  | F_cpu_compatible => {| c with cf_cpu_compatible := v |}
  | F_addr32 => {| c with cf_addr32 := v |} | F_stram_cache => {| c with cf_stram_cache := v |}
  | F_stram_direct => {| c with cf_stram_direct := v |}
  | F_native_hdmi => {| c with cf_native_hdmi := v |} | F_psvidel => {| c with cf_psvidel := v |}
  | F_falcon_dsp => {| c with cf_falcon_dsp := v |} | F_ym2149 => {| c with cf_ym2149 := v |}
  | F_dma_sound => {| c with cf_dma_sound := v |}
  | F_network_enabled => {| c with cf_network_enabled := v |} | F_ide => {| c with cf_ide := v |}
  end.

Definition ifield_get (f : int_field) (c : emulator_config) : Z :=
  match f with
  | F_monitor_force => monitor_force c | F_machine_kind => machine_kind c
  | F_kbd_mouse_div => kbd_mouse_div c | F_stbox_plane => stbox_plane c
  end.

Definition ifield_set (f : int_field) (v : Z) (c : emulator_config) : emulator_config :=
  match f with
  | F_monitor_force => {| c with monitor_force := v |} | F_machine_kind => {| c with machine_kind := v |}
  | F_kbd_mouse_div => {| c with kbd_mouse_div := v |} | F_stbox_plane => {| c with stbox_plane := v |}
  end.

(** ** Function pointers of an item *)
Inductive ps_get_fn :=
| gen_get
| bg_bool (f : bool_field) | bg_int (f : int_field)
| bg_shifter_ste | bg_cpu | bg_blitter | bg_kbd | bg_nograb | bg_stram | bg_ttram_size
| jg_power | jg_cache | jg_constjump | jg_compnf | jg_compfpu | jg_zero
| ig_temp | ig_cpu_run | ig_fpu_run | ig_thr
| fg_wp_a | fg_wp_b | sg_running | ag_frames | vg_card | vg_drv | ng_irq
| hg_hostfs | cg_dirty.

Inductive ps_set_fn :=
| gen_set
| bs_bool (f : bool_field) | bs_int (f : int_field)
| bs_shifter_ste | bs_cpu | bs_blitter | bs_kbd | bs_nograb | bs_stram | bs_ttram_size
| js_power | js_cache | js_constjump | js_compnf | js_compfpu | js_flush
| fs_wp_a | fs_wp_b | as_frames | vs_card | vs_drv | ns_irq | hs_hostfs.

Inductive ps_apply_fn := apply_ym | apply_mouse | apply_ipl.

#[export] Instance ps_get_fn_eq_dec : EqDecision ps_get_fn.
Proof. unfold EqDecision, Decision. decide equality; decide equality. Defined.
#[export] Instance ps_set_fn_eq_dec : EqDecision ps_set_fn.
Proof. unfold EqDecision, Decision. decide equality; decide equality. Defined.

Record ps_item := ITEM {
  name : string; title : string;
  tab : Z; kind : Z; klass : Z; unit_ : Z;
  imin : Z; imax : Z; step : Z;
  labels : option (list string); nenum : Z; iflags : Z;
  tgt : option tunable;
  iget : option ps_get_fn; iset : option ps_set_fn; iapply : option ps_apply_fn }.

Definition L_OFFON := Some ["off"; "on"].
Definition L_NOYES := Some ["no"; "yes"].
Definition L_machine := Some ["st"; "ste"; "megast"; "falcon"].
Definition L_cpu := Some ["68000"; "68010"; "68020"; "68030"; "68040"; "68060"].
Definition L_blitter := Some ["off"; "real chip"; "emulated"].
Definition L_shifter := Some ["st"; "ste"].
Definition L_monitor := Some ["auto"; "mono"; "colour"].
Definition L_stram := Some ["flat 4M"; "512K"; "1M"; "2M"; "4M"; "8M"; "14M"].
Definition L_ttram := Some ["off"; "16M"; "32M"; "64M"; "128M"; "256M"].
Definition L_cache := Some ["off"; "2048K"; "4096K"; "8192K"; "16384K"].
Definition L_kbd := Some ["disabled"; "usb auto"; "usb merge"; "usb standalone"].
Definition L_frames := Some ["512"; "1024"; "2048"; "4096"; "8192"].
Definition L_fvdiscale := Some ["fit"; "integer"; "stretch"; "fit_sharp"].
Definition L_dmasnd := Some ["off"; "verbose"; "summary"].
Definition L_hostfsd := Some ["follow cfg"; "off"; "on"].
Definition L_card := Some ["none"; "ET4000AX"; "ATI"; "Matrox"].
Definition L_driver := Some ["none"; "NOVA"; "XVDI"; "NVDI"; "fVDI"].

Definition LIVE_INT nm ti tab unit lo hi st tg ap :=
  ITEM nm ti tab PS_K_INT PS_C_LIVE unit lo hi st None 0 0 (Some tg) (Some gen_get) (Some gen_set) ap.
Definition LIVE_BOOL nm ti tab tg :=
  ITEM nm ti tab PS_K_BOOL PS_C_LIVE PS_U_NONE 0 1 1 L_OFFON 2 0 (Some tg) (Some gen_get) (Some gen_set) None.
Definition BOOT_B nm ti tab f :=
  ITEM nm ti tab PS_K_BOOL PS_C_BOOT PS_U_NONE 0 1 1 L_OFFON 2 0 None (Some (bg_bool f)) (Some (bs_bool f)) None.
Definition RO_INT nm ti tab unit g :=
  ITEM nm ti tab PS_K_INFO PS_C_RO unit 0 0 0 None 0 0 None g None None.

(** ** The table *)
Definition items_jit : list ps_item := [
  ITEM "jit_power" "JIT power" PS_TAB_JIT PS_K_INT PS_C_LIVE PS_U_NONE
    0 6 1 None 0 0 None (Some jg_power) (Some js_power) None;
  ITEM "jit_cache" "Translation cache" PS_TAB_JIT PS_K_ENUM PS_C_DEFER
    PS_U_NONE 0 4 1 L_cache 5 PS_F_NEWLINE None (Some jg_cache) (Some js_cache) None;
  ITEM "comp_constjump" "Follow constant jumps" PS_TAB_JIT PS_K_BOOL
    PS_C_DEFER PS_U_NONE 0 1 1 L_OFFON 2 0 (Some pst_comp_constjump) (Some jg_constjump) (Some js_constjump) None;
  ITEM "compnf" "Skip dead flags" PS_TAB_JIT PS_K_BOOL PS_C_DEFER
    PS_U_NONE 0 1 1 L_OFFON 2 0 (Some pst_compnf) (Some jg_compnf) (Some js_compnf) None;
  ITEM "compfpu" "Translate FPU" PS_TAB_JIT PS_K_BOOL PS_C_DEFER
    PS_U_NONE 0 1 1 L_OFFON 2 0 (Some pst_compfpu) (Some jg_compfpu) (Some js_compfpu) None;
  ITEM "jit_flush" "Flush cache now" PS_TAB_JIT PS_K_ACTION PS_C_DEFER
    PS_U_NONE 0 0 0 None 0 PS_F_NEWLINE None (Some jg_zero) (Some js_flush) None ].

Definition items_cpu : list ps_item := [
  ITEM "machine" "Machine" PS_TAB_CPU PS_K_ENUM PS_C_BOOT PS_U_NONE
    0 3 1 L_machine 4 0 None (Some (bg_int F_machine_kind)) (Some (bs_int F_machine_kind)) None;
  ITEM "cpu" "CPU" PS_TAB_CPU PS_K_ENUM PS_C_BOOT PS_U_NONE
    0 5 1 L_cpu 6 0 None (Some bg_cpu) (Some bs_cpu) None;
  BOOT_B "fpu" "FPU" PS_TAB_CPU F_fpu;
  BOOT_B "mmu" "MMU" PS_TAB_CPU F_mmu;
  BOOT_B "cpu_compatible" "Prefetch-accurate 68000" PS_TAB_CPU F_cpu_compatible;
  ITEM "shifter" "Shifter" PS_TAB_CPU PS_K_ENUM PS_C_BOOT PS_U_NONE
    0 1 1 L_shifter 2 0 None (Some bg_shifter_ste) (Some bs_shifter_ste) None;
  ITEM "blitter" "Blitter" PS_TAB_CPU PS_K_ENUM PS_C_BOOT PS_U_NONE
    0 2 1 L_blitter 3 0 None (Some bg_blitter) (Some bs_blitter) None;
  ITEM "stram_size" "ST-RAM" PS_TAB_CPU PS_K_ENUM PS_C_BOOT PS_U_NONE
    0 6 1 L_stram 7 PS_F_NEWLINE None (Some bg_stram) (Some bs_stram) None;
  ITEM "ttram" "TT-RAM" PS_TAB_CPU PS_K_ENUM PS_C_BOOT PS_U_NONE
    0 5 1 L_ttram 6 0 None (Some bg_ttram_size) (Some bs_ttram_size) None;
  BOOT_B "addr32" "32-bit addressing" PS_TAB_CPU F_addr32;
  BOOT_B "stram_cache" "ST-RAM cache" PS_TAB_CPU F_stram_cache;
  BOOT_B "stram_direct" "ST-RAM direct" PS_TAB_CPU F_stram_direct;
  ITEM "monitor" "Monitor detect" PS_TAB_CPU PS_K_ENUM PS_C_BOOT PS_U_NONE
    0 2 1 L_monitor 3 PS_F_NEWLINE None (Some (bg_int F_monitor_force)) (Some (bs_int F_monitor_force)) None;
  ITEM "rom" "TOS image" PS_TAB_CPU PS_K_STR PS_C_BOOT PS_U_NONE
    0 0 0 None 0 0 None (Some jg_zero) None None;
  LIVE_INT "blit_timed_ns" "Blitter bus cost (0 = instant)" PS_TAB_CPU
    PS_U_NS 0 2000 50 pst_blit_timed_ns None;
  RO_INT "cpu_running" "CPU now running" PS_TAB_CPU PS_U_NONE (Some ig_cpu_run);
  RO_INT "fpu_running" "FPU now running" PS_TAB_CPU PS_U_NONE (Some ig_fpu_run);
  RO_INT "soc_temp" "SoC temperature" PS_TAB_CPU PS_U_NONE (Some ig_temp);
  RO_INT "throttled" "Firmware throttle bits" PS_TAB_CPU PS_U_NONE (Some ig_thr) ].

Definition items_video : list ps_item := [
  LIVE_INT "vbl_refract_ns" "VBL refractory" PS_TAB_VIDEO PS_U_NS
    0 20000000 100000 pst_vbl_refract_ns (Some apply_ipl);
  LIVE_BOOL "drm_dirtyband" "DRM dirty band" PS_TAB_VIDEO pst_drm_dirtyband;
  ITEM "fvdi_scale" "fVDI scaling" PS_TAB_VIDEO PS_K_ENUM PS_C_LIVE
    PS_U_NONE 0 3 1 L_fvdiscale 4 0 (Some pst_fvdi_scale) (Some gen_get) (Some gen_set) None;
  ITEM "drm_async" "DRM async page flip" PS_TAB_VIDEO PS_K_BOOL PS_C_BOOT
    PS_U_NONE 0 1 1 L_OFFON 2 0 (Some pst_drm_async) (Some gen_get) (Some gen_set) None;
  BOOT_B "native_hdmi" "Native HDMI" PS_TAB_VIDEO F_native_hdmi;
  BOOT_B "psvidel" "Falcon Videl/SuperVidel" PS_TAB_VIDEO F_psvidel;
  ITEM "vga_card" "Graphics card" PS_TAB_VIDEO PS_K_ENUM PS_C_BOOT
    PS_U_NONE 0 3 1 L_card 4 PS_F_NEWLINE None (Some vg_card) (Some vs_card) None;
  ITEM "vga_driver" "Graphics driver" PS_TAB_VIDEO PS_K_ENUM PS_C_BOOT
    PS_U_NONE 0 4 1 L_driver 5 0 None (Some vg_drv) (Some vs_drv) None ].

Definition items_audio : list ps_item := [
  BOOT_B "ym2149" "YM2149" PS_TAB_AUDIO F_ym2149;
  BOOT_B "dma_sound" "STE DMA sound" PS_TAB_AUDIO F_dma_sound;
  BOOT_B "falcon_dsp" "Falcon DSP + sound" PS_TAB_AUDIO F_falcon_dsp;
  LIVE_INT "ym_gain" "YM gain" PS_TAB_AUDIO PS_U_X100 0 400 5 pst_ym_gain_x100 (Some apply_ym);
  LIVE_INT "ym_lag_ms" "YM lag" PS_TAB_AUDIO PS_U_MS 5 200 5 pst_ym_lag_ms (Some apply_ym);
  LIVE_BOOL "lmc" "LMC1992 shadow" PS_TAB_AUDIO pst_lmc;
  ITEM "audio_frames" "SDL buffer" PS_TAB_AUDIO PS_K_ENUM PS_C_BOOT
    PS_U_NONE 0 4 1 L_frames 5 0 (Some pst_audio_frames) (Some ag_frames) (Some as_frames) None ].

Definition items_input : list ps_item := [
  ITEM "kbd" "Keyboard source" PS_TAB_INPUT PS_K_ENUM PS_C_BOOT PS_U_NONE
    0 3 1 L_kbd 4 0 None (Some bg_kbd) (Some bs_kbd) None;
  ITEM "kbd_nograb" "Leave devices to the Pi console" PS_TAB_INPUT PS_K_BOOL
    PS_C_BOOT PS_U_NONE 0 1 1 L_NOYES 2 0 None (Some bg_nograb) (Some bs_nograb) None;
  ITEM "mousediv" "Host mouse divisor" PS_TAB_INPUT PS_K_INT PS_C_BOOT
    PS_U_NONE 1 16 1 None 0 0 None (Some (bg_int F_kbd_mouse_div)) (Some (bs_int F_kbd_mouse_div)) None;
  LIVE_INT "mouse_thresh" "IKBD threshold (0 = off)" PS_TAB_INPUT PS_U_NONE
    0 15 1 pst_mouse_thresh (Some apply_mouse);
  LIVE_INT "mouse_scale" "Delta scale" PS_TAB_INPUT PS_U_NONE 1 16 1 pst_mouse_scale (Some apply_mouse) ].

Definition items_stbox : list ps_item := [
  ITEM "stbox_tos" "Box TOS image" PS_TAB_STBOX PS_K_STR PS_C_BOXBOOT
    PS_U_NONE 0 0 0 None 0 0 None (Some jg_zero) None None;
  ITEM "stbox_plane" "DRM plane (0 = auto)" PS_TAB_STBOX PS_K_INT
    PS_C_BOXBOOT PS_U_NONE 0 128 1 None 0 0 None
    (Some (bg_int F_stbox_plane)) (Some (bs_int F_stbox_plane)) None;
  LIVE_INT "stbox_slice_cyc" "Admission slice" PS_TAB_STBOX PS_U_CYC 8 4096 8 pst_stbox_slice_cyc None;
  LIVE_BOOL "stbox_telemetry" "Telemetry" PS_TAB_STBOX pst_stbox_telemetry;
  RO_INT "stbox_running" "Box running" PS_TAB_STBOX PS_U_NONE (Some sg_running) ].

Definition items_floppy : list ps_item := [
  ITEM "floppy_a" "Drive A:" PS_TAB_FLOPPY PS_K_STR PS_C_LIVE PS_U_NONE
    0 0 0 None 0 0 None (Some jg_zero) None None;
  ITEM "floppy_b" "Drive B:" PS_TAB_FLOPPY PS_K_STR PS_C_LIVE PS_U_NONE
    0 0 0 None 0 0 None (Some jg_zero) None None;
  ITEM "floppy_a_wp" "A: write protect" PS_TAB_FLOPPY PS_K_BOOL PS_C_LIVE
    PS_U_NONE 0 1 1 L_OFFON 2 0 None (Some fg_wp_a) (Some fs_wp_a) None;
  ITEM "floppy_b_wp" "B: write protect" PS_TAB_FLOPPY PS_K_BOOL PS_C_LIVE
    PS_U_NONE 0 1 1 L_OFFON 2 0 None (Some fg_wp_b) (Some fs_wp_b) None;
  ITEM "floppy_eject_a" "Eject A:" PS_TAB_FLOPPY PS_K_ACTION PS_C_LIVE
    PS_U_NONE 0 0 0 None 0 PS_F_NEWLINE None (Some jg_zero) None None;
  ITEM "floppy_eject_b" "Eject B:" PS_TAB_FLOPPY PS_K_ACTION PS_C_LIVE
    PS_U_NONE 0 0 0 None 0 0 None (Some jg_zero) None None;
  ITEM "floppy_swap" "Swap A: <-> B:" PS_TAB_FLOPPY PS_K_ACTION PS_C_LIVE
    PS_U_NONE 0 0 0 None 0 0 None (Some jg_zero) None None ].

Definition items_net : list ps_item := [
  BOOT_B "network" "Network" PS_TAB_NET F_network_enabled;
  ITEM "network_irq" "IRQ level" PS_TAB_NET PS_K_INT PS_C_BOOT PS_U_NONE
    1 7 1 None 0 0 None (Some ng_irq) (Some ns_irq) None;
  BOOT_B "ide" "IDE" PS_TAB_NET F_ide;
  LIVE_BOOL "network_debug" "Network trace" PS_TAB_NET pst_dbg_net ].

Definition items_debug : list ps_item := [
  LIVE_INT "ipl_confirm_ns" "IPL confirm window" PS_TAB_DEBUG PS_U_NS
    0 10000 100 pst_ipl_confirm_ns (Some apply_ipl);
  LIVE_BOOL "verbose" "Verbose console" PS_TAB_DEBUG pst_verbose;
  LIVE_BOOL "ipl_stats" "IPL statistics" PS_TAB_DEBUG pst_dbg_ipl_stats;
  LIVE_BOOL "irq_stats" "IRQ statistics" PS_TAB_DEBUG pst_dbg_irq_stats;
  LIVE_BOOL "mfp_debug" "MFP trace" PS_TAB_DEBUG pst_dbg_mfp;
  LIVE_BOOL "mfp_hub_debug" "MFP hub trace" PS_TAB_DEBUG pst_dbg_mfp_hub;
  LIVE_BOOL "fdd_mfp_irq" "FDC MFP interrupt" PS_TAB_DEBUG pst_fdd_mfp_irq;
  LIVE_INT "blit_trace" "Blits to trace" PS_TAB_DEBUG PS_U_NONE 0 10000 10 pst_dbg_blit_trace None;
  ITEM "dmasnd_debug" "DMA sound trace" PS_TAB_DEBUG PS_K_ENUM PS_C_LIVE
    PS_U_NONE 0 2 1 L_dmasnd 3 0 (Some pst_dbg_dmasnd) (Some gen_get) (Some gen_set) None;
  LIVE_BOOL "acsi_debug" "ACSI trace" PS_TAB_DEBUG pst_dbg_acsi;
  LIVE_BOOL "ide_debug" "IDE trace" PS_TAB_DEBUG pst_dbg_ide;
  ITEM "hostfs_debug" "HOSTFS trace" PS_TAB_DEBUG PS_K_ENUM PS_C_LIVE
    PS_U_NONE 0 2 1 L_hostfsd 3 0 None None None None;
  LIVE_BOOL "gemdos_debug" "GEMDOS trace" PS_TAB_DEBUG pst_dbg_gemdos;
  LIVE_BOOL "stram_debug" "ST-RAM trace" PS_TAB_DEBUG pst_dbg_stram ].

Definition items_adv : list ps_item := [
  ITEM "save_cfg" "Save to .cfg" PS_TAB_ADV PS_K_ACTION PS_C_LIVE
    PS_U_NONE 0 0 0 None 0 0 None (Some jg_zero) None None;
  RO_INT "cfg_dirty" "Unsaved boot changes" PS_TAB_ADV PS_U_NONE None ].

Definition g_items : list ps_item :=
  (items_jit ++ items_cpu ++ items_video ++ items_audio ++ items_input ++ items_stbox ++
   items_floppy ++ items_net ++ items_debug ++ items_adv)%list.

Definition NITEMS : Z := Z.of_nat (length g_items).

(** [table_init]: the working copy, with the two accessors filled in. *)
Definition table_init (l : list ps_item) : list ps_item :=
  map (fun it =>
    if String.eqb (name it) "hostfs_debug" then {| it with iget := Some hg_hostfs; iset := Some hs_hostfs |}
    else if String.eqb (name it) "cfg_dirty" then {| it with iget := Some cg_dirty |}
    else it) l.
Definition g_live : list ps_item := table_init g_items.

(** First match in table order, [-1] when there is none. *)
Fixpoint index_from (i : Z) (nm : string) (l : list ps_item) : Z :=
  match l with
  | [] => -1
  | it :: l => if String.eqb (name it) nm then i else index_from (i + 1) nm l
  end.
Definition item_index (nm : string) : Z := index_from 0 nm g_items.
