(* ===== verification/PsSettings.v ===== *)
(** * PsSettings: reading and writing a PSCTRL setting
    ([platforms/atari/psctrl/psctrl_settings.cpp])

    The state behind the table of PsTable, the body of every getter and
    setter, the deferred queue and its drain at a JIT block boundary. *)

From S2P Require Import Prelude JitPrefs Fdd PsTable.
From Stdlib Require Import ZArith Lia Bool String Ascii.
From stdpp Require Import base list.
Open Scope Z_scope.
Open Scope cint_scope.

(** What the settings ask of the rest of the emulator. *)
Inductive ps_event :=
| Jit_request_cpu_exit
| Jit_flush_now
| Ym2149_settings_changed
| Kbd_usb_mouse_cfg_changed
| Guest_write (addr : Z) (bytes : list Z)
| Request_exit (restart : Z)
| Cfg_saved (path : string) (cfg : emulator_config).

(** The services the settings call: the running configuration and its file,
    the status sampler, the ST Box, path mapping, the configuration writer,
    host files, and guest strings. *)
Record host := mk_host {
  emulator_config_current : option emulator_config;
  emulator_config_path : option string;
  psctrl_getint : Z -> Z;
  stbox_is_running : bool;
  emulator_gemdos_to_host : string -> option string;
  config_file_save : string -> emulator_config -> Z;
  open_image : string -> bool -> option (list Z);
  msa_open_decoded : string -> msa_result;
  guest_read : Z -> string }.

Record ps := mk_ps {
  tun : tunable -> Z;
  ipl_confirm_ticks : Z; vbl_refract_ticks : Z; psctrl_cntfrq : Z;
  g_boot : emulator_config; g_boot_ready : bool; g_boot_dirty : Z;
  g_pend : list (Z * Z); psctrl_pending_armed : bool;
  g_cfg_loading : bool;
  jit : jitstate; pissoff_value : Z;
  fdcs : fdc; g_fddir : string;
  plog : list ps_event }.

Definition CYCLE_UNIT := 512.
Definition PEND_MAX : nat := 24.

Definition upd (t : tunable) (v : Z) (s : ps) : ps :=
  {| s with tun := fun u => if decide (u = t) then v else tun s u |}.
Definition say (e : ps_event) (s : ps) : ps := {| s with plog := (plog s ++ [e])%list |}.
Definition with_boot (g : emulator_config -> emulator_config) (s : ps) : ps :=
  {| s with g_boot := g (g_boot s) |}.
Definition dirty (s : ps) : ps := {| s with g_boot_dirty := 1 |}.
Definition b2i (b : bool) : Z := if b then 1 else 0.

(** The boot shadow is seeded once from the running configuration. *)
Definition boot_seed (h : host) (s : ps) : ps :=
  if g_boot_ready s then s
  else {| s with g_boot := default conf_zero (emulator_config_current h); g_boot_ready := true |}.

(** [psctrl_box_stbox_tos] and [psctrl_box_stbox_plane]: what the ST Box
    reads at its next start. *)
Definition psctrl_box_stbox_tos (s : ps) : option string :=
  if g_boot_ready s then Some (stbox_tos (g_boot s)) else None.
Definition psctrl_box_stbox_plane (s : ps) : option Z :=
  if g_boot_ready s then Some (stbox_plane (g_boot s)) else None.

(** Park a request for the next block boundary. *)
Definition defer (idx value : Z) (s : ps) : Z * ps :=
  if (PEND_MAX <=? length (g_pend s))%nat then (PS_R_REJECT, s)
  else (PS_R_DEFER, say Jit_request_cpu_exit
          {| s with g_pend := (g_pend s ++ [(idx, value)])%list; psctrl_pending_armed := true |}).

(** The ladders. *)
Definition stram_kb : list Z := [0; 512; 1024; 2048; 4096; 8192; 14336].
Definition ttram_mb : list Z := [0; 16; 32; 64; 128; 256].
Definition cache_kb : list Z := [0; 2048; 4096; 8192; 16384].
Definition frames_v : list Z := [512; 1024; 2048; 4096; 8192].

(** First index whose rung satisfies [ok], else [dflt]. *)
Fixpoint ladder_find (ok : Z -> bool) (l : list Z) (i dflt : Z) : Z :=
  match l with
  | [] => dflt
  | k :: l => if ok k then i else ladder_find ok l (i + 1) dflt
  end.

Definition rung (l : list Z) (v : Z) : Z := l !!! Z.to_nat v.

(** [while (m < mult && n < 6) { m <<= 1; n++; }]: at most five rounds. *)
Fixpoint power_loop (fuel : nat) (n m mult : Z) : Z :=
  match fuel with
  | O => n
  | S fuel => if (m <? mult) && (n <? 6) then power_loop fuel (n + 1) (m << 1) mult else n
  end.
Definition power_of_mult (mult : Z) : Z := power_loop 5 1 256 mult.

Definition psctrl_tunables_ipl_recalc (s : ps) : ps :=
  let f := if psctrl_cntfrq s =? 0 then 54000000 else psctrl_cntfrq s in
  {| s with ipl_confirm_ticks := u64 (u64 (tun s pst_ipl_confirm_ns) * f) / 1000000000;
            vbl_refract_ticks := u64 (u64 (tun s pst_vbl_refract_ns) * f) / 1000000000 |}.

Definition run_apply (a : ps_apply_fn) (s : ps) : ps :=
  match a with
  | apply_ym => say Ym2149_settings_changed s
  | apply_mouse => say Kbd_usb_mouse_cfg_changed s
  | apply_ipl => psctrl_tunables_ipl_recalc s
  end.

Section Settings.
Context (h : host).

(** ** Getters *)
Definition run_get (it : ps_item) (g : ps_get_fn) (s : ps) : Z * ps :=
  let seeded (f : emulator_config -> Z) := let s := boot_seed h s in (f (g_boot s), s) in
  let cur := currprefs (jit s) in
  match g with
  | gen_get => (match tgt it with Some t => tun s t | None => 0 end, s)
  | bg_bool f => seeded (fun b => b2i (bfield_get f b))
  | bg_int f => seeded (ifield_get f)
  | bg_shifter_ste => seeded (fun b => b2i (shifter_ste b))
  | bg_cpu => seeded cpu_type
  | bg_blitter => seeded (fun b => if negb (blitter b) then 0 else if blitter_real b then 1 else 2)
  | bg_kbd => seeded (fun b => if negb (kbd_usb b) then 0 else kbd_mode b + 1)
  | bg_nograb => seeded (fun b => if kbd_grab b then 0 else 1)
  | bg_stram => seeded (fun b => ladder_find (fun k => u32 (k * 1024) =? stram_size b) stram_kb 0 0)
  | bg_ttram_size => seeded (fun b =>
      let mb := if ttram b then ttram_size b / (1024 * 1024) else 0 in
      ladder_find (fun k => k =? mb) ttram_mb 0 0)
  | jg_power => (if cachesize cur =? 0 then 0 else power_of_mult (tun s pst_pissoff_mult), s)
  | jg_cache => (ladder_find (fun k => k =? cachesize cur) cache_kb 0 0, s)
  | jg_constjump => (b2i (comp_constjump cur), s)
  | jg_compnf => (b2i (compnf cur), s)
  | jg_compfpu => (b2i (compfpu cur), s)
  | jg_zero => (0, s)
  | ig_temp => (psctrl_getint h 64 / 1000, s)
  | ig_cpu_run => (s32 (psctrl_getint h 2), s)
  | ig_fpu_run => (s32 (psctrl_getint h 3), s)
  | ig_thr => (s32 (psctrl_getint h 70), s)
  | fg_wp_a => let '(_, _, wp, _) := fdd_query 0 (fdcs s) in (b2i wp, s)
  | fg_wp_b => let '(_, _, wp, _) := fdd_query 1 (fdcs s) in (b2i wp, s)
  | sg_running => (b2i (stbox_is_running h), s)
  | ag_frames => (ladder_find (fun k => k =? tun s pst_audio_frames) frames_v 0 2, s)
  | vg_card => seeded gfx_card
  | vg_drv => seeded gfx_driver
  | ng_irq => seeded network_irq_level
  | hg_hostfs => (if tun s pst_dbg_hostfs <? 0 then 0 else if truth (tun s pst_dbg_hostfs) then 2 else 1, s)
  | cg_dirty => (g_boot_dirty s, s)
  end.

(** ** Setters *)

(** Store into the shadow and mark it unsaved. *)
Definition boot_store (g : emulator_config -> emulator_config) (s : ps) : Z * ps :=
  (PS_R_RESTART, dirty (with_boot g (boot_seed h s))).

Definition set_power (v : Z) (s : ps) : Z * ps :=
  if (v <? 0) || (6 <? v) then (PS_R_REJECT, s)
  else if g_cfg_loading s then
    (PS_R_OK, if truth v then upd pst_pissoff_mult (256 << (v - 1)) s else s)
  else if v =? 0 then defer (item_index "jit_power") 0 s
  else if cachesize (currprefs (jit s)) =? 0 then defer (item_index "jit_power") v s
  else
    let s := upd pst_pissoff_mult (256 << (v - 1)) s in
    (PS_R_OK, {| s with pissoff_value := tun s pst_pissoff_mult * CYCLE_UNIT |}).

(** The three translation switches: the tunable now, the preference later. *)
Definition set_switch (t : tunable) (nm : string) (v : Z) (s : ps) : Z * ps :=
  let s := upd t (b2i (truth v)) s in
  if g_cfg_loading s then (PS_R_OK, s) else defer (item_index nm) (b2i (truth v)) s.

Definition run_set (it : ps_item) (f : ps_set_fn) (v : Z) (s : ps) : Z * ps :=
  let ranged (k : Z * ps) := if (v <? imin it) || (imax it <? v) then (PS_R_REJECT, s) else k in
  match f with
  | gen_set => ranged
      (let s := match tgt it with Some t => upd t v s | None => s end in
       (PS_R_OK, match iapply it with Some a => run_apply a s | None => s end))
  | bs_bool fl => boot_store (bfield_set fl (truth v)) s
  | bs_int fl =>
      (* the seed comes before the range check here *)
      let s' := boot_seed h s in
      if (v <? imin it) || (imax it <? v) then (PS_R_REJECT, s')
      else boot_store (ifield_set fl v) s'
  | bs_shifter_ste => boot_store (fun b => {| b with shifter_ste := truth v; shifter_set := true |}) s
  | bs_cpu => ranged (boot_store (fun b => {| b with cpu_type := u8 v |}) s)
  | bs_blitter => ranged (boot_store (fun b =>
      {| b with blitter := v != 0; blitter_real := v =? 1; blitter_set := true |}) s)
  | bs_kbd => ranged (boot_store (fun b =>
      {| b with kbd_usb := v != 0; kbd_mode := if 0 <? v then v - 1 else 0 |}) s)
  | bs_nograb => boot_store (fun b => {| b with kbd_grab := negb (truth v) |}) s
  | bs_stram => ranged (boot_store (fun b => {| b with stram_size := u32 (rung stram_kb v * 1024) |}) s)
  | bs_ttram_size => ranged (boot_store (fun b =>
      let on := rung ttram_mb v != 0 in
      {| b with ttram := on; ttram_size := u32 (rung ttram_mb v * 1024 * 1024);
                cf_addr32 := if on then true else cf_addr32 b |}) s)
  | js_power => set_power v s
  | js_cache => ranged
      (let s := with_boot (fun b => {| b with jit_cache := rung cache_kb v; jit_cache_set := true |}) (boot_seed h s) in
       defer (item_index "jit_cache") v s)
  | js_constjump => set_switch pst_comp_constjump "comp_constjump" v s
  | js_compnf => set_switch pst_compnf "compnf" v s
  | js_compfpu => set_switch pst_compfpu "compfpu" v s
  | js_flush => defer (item_index "jit_flush") 1 s
  | fs_wp_a => (PS_R_OK, {| s with fdcs := fdd_set_write_protect 0 (v != 0) (fdcs s) |})
  | fs_wp_b => (PS_R_OK, {| s with fdcs := fdd_set_write_protect 1 (v != 0) (fdcs s) |})
  | as_frames => ranged (PS_R_RESTART, upd pst_audio_frames (rung frames_v v) s)
  | vs_card => ranged (boot_store (fun b => {| b with gfx_card := v |}) s)
  | vs_drv => ranged (boot_store (fun b => {| b with gfx_driver := v |}) s)
  | ns_irq => ranged (boot_store (fun b => {| b with network_irq_level := u8 v |}) s)
  | hs_hostfs =>
      if (v <? 0) || (2 <? v) then (PS_R_REJECT, s)
      else (PS_R_OK, upd pst_dbg_hostfs (if v =? 0 then -1 else b2i (v =? 2)) s)
  end.

(** ** The deferred queue, drained outside compiled code *)

Definition with_prefs (g : jitprefs -> jitprefs) (s : ps) : ps :=
  let j := {| (jit s) with changed_prefs := g (changed_prefs (jit s)) |} in
  {| s with jit := (check_prefs_changed_comp false j).2 |}.

(** The name behind a queued index, empty when it is out of range. *)
Definition pend_name (idx : Z) : string :=
  match (if (0 <=? idx) && (idx <? NITEMS) then g_items !! Z.to_nat idx else None) with
  | Some it => name it | None => EmptyString end.

Definition apply_one (s : ps) (r : Z * Z) : ps :=
  let '(idx, v) := r in
  let nm := pend_name idx in
  if String.eqb nm "jit_power" then
    if v =? 0 then with_prefs (fun p => {| p with cachesize := 0 |}) s
    else
      let kb := match emulator_config_current h with
                | Some c => if jit_cache_set c && (0 <? jit_cache c) then jit_cache c else 8192
                | None => 8192 end in
      let s := with_prefs (fun p => {| p with cachesize := kb |}) s in
      if truth (cachesize (currprefs (jit s))) then
        let s := upd pst_pissoff_mult (256 << (v - 1)) s in
        {| s with pissoff_value := tun s pst_pissoff_mult * CYCLE_UNIT |}
      else s
  else if String.eqb nm "jit_cache" then
    let s := with_prefs (fun p => {| p with cachesize := rung cache_kb v |}) s in
    {| s with pissoff_value := if truth (cachesize (currprefs (jit s)))
                               then tun s pst_pissoff_mult * CYCLE_UNIT else 0 |}
  else if String.eqb nm "comp_constjump" then with_prefs (fun p => {| p with comp_constjump := truth v |}) s
  else if String.eqb nm "compnf" then with_prefs (fun p => {| p with compnf := truth v |}) s
  else if String.eqb nm "compfpu" then with_prefs (fun p => {| p with compfpu := truth v |}) s
  else if String.eqb nm "jit_flush" then say Jit_flush_now s
  else s.

Definition psctrl_apply_pending (s : ps) : ps :=
  if negb (psctrl_pending_armed s) then s
  else
    let q := g_pend s in
    fold_left apply_one q {| s with g_pend := []; psctrl_pending_armed := false |}.
End Settings.
