(* ===== verification/PsCall.v ===== *)
(** * PsCall: the PSCTRL sub-operations
    ([platforms/atari/psctrl/psctrl_settings.cpp])

    String settings, actions, the DESCRIBE wire record and the dispatcher the
    NatFeat handler calls. *)

From S2P Require Import Prelude JitPrefs Fdd PsTable PsSettings.
From Stdlib Require Import ZArith Lia Bool String Ascii.
From stdpp Require Import base list.
Open Scope Z_scope.
Open Scope cint_scope.

Definition PATH_MAX := 4096.

Definition slen (s : string) : Z := Z.of_nat (String.length s).
(** [snprintf(dst, n, "%s", s)]: at most [n - 1] characters are kept. *)
Definition trunc (n : nat) (s : string) : string := substring 0 (n - 1) s.
Definition bytes_of (s : string) : list Z := map (fun c => Z.of_nat (nat_of_ascii c)) (list_ascii_of_string s).
(** A C string in memory: its characters and the terminator. *)
Definition cstr (s : string) : list Z := (bytes_of s ++ [0])%list.

Fixpoint has_char (c : ascii) (s : string) : bool :=
  match s with
  | EmptyString => false
  | String d s => Ascii.eqb c d || has_char c s
  end.

(** Everything before the last [/] ([strrchr]), or the empty string. *)
Fixpoint dirname (s : string) : string :=
  match s with
  | EmptyString => EmptyString
  | String d s' => if has_char "/" s' then String d (dirname s') else EmptyString
  end.

Section Call.
Context (h : host).

Definition fddir_default (s : ps) : ps :=
  if negb (String.eqb (g_fddir s) "") then s
  else
    let dir := match emulator_config_current h with
               | Some c => if String.eqb (fdd_img_path c) "" then ""%string
                           else dirname (fdd_img_path c)
               | None => ""%string end in
    {| s with g_fddir := if String.eqb dir "" then "floppies"%string else dir |}.

(** ** String settings *)
Definition is_floppy (it : ps_item) : bool :=
  String.eqb (name it) "floppy_a" || String.eqb (name it) "floppy_b".
(** [it->name[7] == 'b']. *)
Definition floppy_drive (it : ps_item) : Z :=
  match String.get 7 (name it) with Some c => b2i (Ascii.eqb c "b") | None => 0 end.

Definition item_str (it : ps_item) (s : ps) : string * ps :=
  if String.eqb (name it) "rom" then let s := boot_seed h s in (rom_path (g_boot s), s)
  else if String.eqb (name it) "stbox_tos" then let s := boot_seed h s in (stbox_tos (g_boot s), s)
  else if is_floppy it then
    let '(present, path, _, _) := fdd_query (floppy_drive it) (fdcs s) in
    (if present <=? 0 then "(empty)"%string else path, s)
  else (""%string, s).

Definition setstr_map (v : string) : string := default v (emulator_gemdos_to_host h v).

Definition item_setstr (it : ps_item) (v : string) (s : ps) : Z * ps :=
  if String.eqb (name it) "rom" then
    let s := boot_seed h s in
    (PS_R_RESTART, dirty (with_boot (fun b => {| b with rom_path := trunc 256 (setstr_map v) |}) s))
  else if String.eqb (name it) "stbox_tos" then
    let s := boot_seed h s in
    (PS_R_BOXBOOT, dirty (with_boot (fun b => {| b with stbox_tos := trunc 256 (setstr_map v) |}) s))
  else if is_floppy it then
    let drive := floppy_drive it in
    let '(_, _, _, busy) := fdd_query drive (fdcs s) in
    if busy then (PS_R_BUSY, s)
    else
      let '(path, s) :=
        match emulator_gemdos_to_host h v with
        | Some p => (Some p, s)
        | None =>
          if has_char "/" v then (Some (trunc (Z.to_nat PATH_MAX) v), s)
          else
            let s := fddir_default s in
            if PATH_MAX <? slen (g_fddir s) + slen v + 2 then (None, s)
            else (Some (g_fddir s ++ "/" ++ v)%string, s)
        end in
      match path with
      | None => (PS_R_REJECT, s)
      | Some path =>
        let '(rc, f) := fdd_insert_disk (open_image h) (msa_open_decoded h) drive path false (fdcs s) in
        let s := {| s with fdcs := f |} in
        if rc != 0 then (PS_R_REJECT, s)
        else (PS_R_OK, {| s with fdcs := fdd_pulse_media drive (fdcs s) |})
      end
  else (PS_R_REJECT, s).

(** ** Actions *)
Definition save_config (s : ps) : Z * ps :=
  let s := boot_seed h s in
  match emulator_config_path h with
  | None => (PS_R_REJECT, s)
  | Some path =>
    if String.eqb path "" then (PS_R_REJECT, s)
    else if config_file_save h path (g_boot s) != 0 then (PS_R_REJECT, s)
    else (PS_R_OK, {| (say (Cfg_saved path (g_boot s)) s) with g_boot_dirty := 0 |})
  end.

Definition floppy_eject (drive : Z) (s : ps) : Z * ps :=
  let '(_, _, _, busy) := fdd_query drive (fdcs s) in
  if busy then (PS_R_BUSY, s)
  else (PS_R_OK, {| s with fdcs := fdd_pulse_media drive (fdd_eject_disk drive (fdcs s)) |}).

Definition floppy_swap (f : fdc) : Z * fdc :=
  let insert d p wp f := (fdd_insert_disk (open_image h) (msa_open_decoded h) d p wp f).2 in
  let '(_, _, _, busy) := fdd_query 0 f in
  if busy then (PS_R_BUSY, f) else
  let '(_, _, _, busy) := fdd_query 1 f in
  if busy then (PS_R_BUSY, f) else
  let '(ha, a, wpa, _) := fdd_query 0 f in
  let '(hb, b, wpb, _) := fdd_query 1 f in
  let f := fdd_eject_disk 1 (fdd_eject_disk 0 f) in
  let f := if 0 <? hb then insert 0 b wpb f else f in
  let f := if 0 <? ha then insert 1 a wpa f else f in
  (PS_R_OK, fdd_pulse_media 1 (fdd_pulse_media 0 f)).

Definition do_action (it : ps_item) (arg : Z) (s : ps) : Z * ps :=
  if String.eqb (name it) "jit_flush" then defer (item_index "jit_flush") 1 s
  else if String.eqb (name it) "floppy_eject_a" || String.eqb (name it) "floppy_eject_b" then
    floppy_eject (match String.get 13 (name it) with Some c => b2i (Ascii.eqb c "b") | None => 0 end) s
  else if String.eqb (name it) "floppy_swap" then
    let '(r, f) := floppy_swap (fdcs s) in (r, {| s with fdcs := f |})
  else if String.eqb (name it) "save_cfg" then save_config s
  else (PS_R_REJECT, s).

(** ** Reading a value *)
Definition psctrl_settings_owns (index : Z) : bool :=
  (PS_SET_BASE <=? index) && (index <? PS_SET_BASE + NITEMS).

Definition psctrl_settings_getint (index : Z) (s : ps) : Z * ps :=
  if negb (psctrl_settings_owns index) then (u32 (-1), s)
  else match g_live !! Z.to_nat (index - PS_SET_BASE) with
       | Some it => match iget it with
                    | None => (0, s)
                    | Some g => let '(v, s) := run_get h it g s in (u32 v, s)
                    end
       | None => (u32 (-1), s)
       end.

(** ** The DESCRIBE wire record *)
Definition put_be32 (v : Z) : list Z := [u8 (u32 v >> 24); u8 (u32 v >> 16); u8 (u32 v >> 8); u8 (u32 v)].
Definition put_be16 (v : Z) : list Z := [u8 (v >> 8); u8 v].

(** The labels, until the record would be full. *)
Fixpoint put_labels (n : nat) (ls : list string) (rec : list Z) : list Z :=
  match n, ls with
  | S n, l :: ls =>
    if 512 - 1 <=? Z.of_nat (length rec) + slen l + 1 then rec
    else put_labels n ls (rec ++ cstr l)%list
  | _, _ => rec
  end.

Definition put_title (t : string) (rec : list Z) : list Z :=
  if Z.of_nat (length rec) + slen t + 1 <? 512 then (rec ++ cstr t)%list else (rec ++ [0])%list.

(** The name field: [memset], then [snprintf] of the name into 24 bytes. *)
Definition put_name (nm : string) : list Z :=
  let b := bytes_of (trunc 24 nm) in (b ++ replicate (24 - length b) 0)%list.

Definition desc_record (it : ps_item) (value : Z) : list Z :=
  let fixed := (put_name (name it) ++ [u8 (tab it); u8 (kind it); u8 (klass it); u8 (nenum it)] ++
                put_be32 (imin it) ++ put_be32 (imax it) ++ put_be32 (step it) ++
                put_be16 (unit_ it) ++ put_be16 (iflags it) ++ put_be32 value)%list in
  put_title (title it)
    (match labels it with Some ls => put_labels (Z.to_nat (nenum it)) ls fixed | None => fixed end).

Definition describe (idx buf len : Z) (s : ps) : Z * ps :=
  if (NITEMS <=? idx) || (buf =? 0) || (len <? PS_DESC_FIXED + 2) then (u32 (-1), s)
  else match g_live !! Z.to_nat idx with
       | None => (u32 (-1), s)
       | Some it =>
         let '(value, s) := match iget it with Some g => run_get h it g s | None => (0, s) end in
         let rec := desc_record it value in
         let n := Z.min (Z.of_nat (length rec)) len in
         (n, say (Guest_write buf (take (Z.to_nat n) rec)) s)
       end.

(** ** The dispatcher *)
Inductive subop := GETSTR | SETINT | COUNT | DESCRIBE | SAVE | SETSTR | ACTION | LIST | SETAPI
                 | RESTART | SHUTDOWN | OTHER.
Definition subop_of (n : Z) : subop :=
  match n with
  | 3 => GETSTR | 4 => SETINT | 5 => COUNT | 6 => DESCRIBE | 7 => SAVE | 8 => SETSTR
  | 9 => ACTION | 10 => LIST | 11 => SETAPI | 12 => RESTART | 13 => SHUTDOWN | _ => OTHER
  end.

Definition with_item (p0 : Z) (s : ps) (k : ps_item -> Z * ps) : Z * ps :=
  if NITEMS <=? p0 then (u32 PS_R_REJECT, s)
  else match g_live !! Z.to_nat p0 with
       | Some it => let '(r, s) := k it in (u32 r, s)
       | None => (u32 PS_R_REJECT, s)
       end.

Definition psctrl_settings_call (op p0 p1 p2 p3 : Z) (s : ps) : Z * ps :=
  match subop_of op with
  | SETAPI => (PSCTRL_SET_API_VERSION, s)
  | RESTART => (PS_R_OK, say (Request_exit 1) s)
  | SHUTDOWN => (PS_R_OK, say (Request_exit 0) s)
  | COUNT => (NITEMS, s)
  | DESCRIBE => describe p0 p1 p2 s
  | GETSTR =>
    if (NITEMS <=? p0) || (p1 =? 0) || (p2 =? 0) then (u32 (-1), s)
    else with_item p0 s (fun it =>
      let '(v, s) := item_str it s in
      let n := Z.min (slen v + 1) p2 in
      (n - 1, say (Guest_write p1 (take (Z.to_nat n) (cstr v))) s))
  | SETSTR =>
    if (NITEMS <=? p0) || (p1 =? 0) then (u32 PS_R_REJECT, s)
    else with_item p0 s (fun it => item_setstr it (guest_read h p1) s)
  | SETINT => with_item p0 s (fun it =>
      match iset it with None => (PS_R_REJECT, s) | Some f => run_set h it f (s32 p1) s end)
  | ACTION => with_item p0 s (fun it => do_action it (s32 p1) s)
  | SAVE => let '(r, s) := save_config s in (u32 r, s)
  | LIST => (0, s)
  | OTHER => (u32 (-1), s)
  end.
End Call.
