(* ===== verification/PsProps.v ===== *)
(** * PsProps: what the PSCTRL settings promise

    Names identify items; a value written with SETINT reads back with GETINT,
    at once or after the deferred queue is drained; a refused write changes
    nothing; the deferred queue stays bounded and only ever holds requests the
    drain can apply; the DESCRIBE record decodes to the descriptor. *)

From S2P Require Import Prelude JitPrefs Fdd PsTable PsSettings PsCall.
From Stdlib Require Import ZArith Lia Bool String Ascii.
From stdpp Require Import base list.
Open Scope Z_scope.
Open Scope cint_scope.

(** ** The table *)

(** A boolean check of every row of a table, used row by row. *)
Lemma forallb_lookup {A} (f : A -> bool) l i x : forallb f l = true -> l !! i = Some x -> f x = true.
Proof. intros H E. eapply forallb_forall in H; [exact H|]. apply list_elem_of_In. by eapply list_elem_of_lookup_2. Qed.

Lemma imap_check : forallb (fun b => b) (imap (fun i it => item_index (name it) =? Z.of_nat i) g_items) = true.
Proof. vm_compute. reflexivity. Qed.

Lemma item_index_lookup i it : g_items !! i = Some it -> item_index (name it) = Z.of_nat i.
Proof.
  intros E. apply Z.eqb_eq. apply (forallb_lookup _ _ i _ imap_check). by rewrite list_lookup_imap, E.
Qed.

Lemma g_live_length : length g_live = length g_items.
Proof. reflexivity. Qed.

Lemma NITEMS_val : NITEMS = 77.
Proof. reflexivity. Qed.

(** ** Reading back what was written *)

(** The getter and setter of a row fit together. *)
Definition item_ok (it : ps_item) : bool :=
  let range lo hi := (lo <=? imin it) && (imax it <=? hi) in
  match iset it, iget it with
  | None, _ => true
  | Some gen_set, Some gen_get => match tgt it with Some _ => true | None => false end
  | Some (bs_bool f), Some (bg_bool g) => bool_decide (Some (bg_bool f) = Some (bg_bool g)) && range 0 1
  | Some (bs_int f), Some (bg_int g) => bool_decide (Some (bg_int f) = Some (bg_int g))
  | Some bs_shifter_ste, Some bg_shifter_ste => range 0 1
  | Some bs_cpu, Some bg_cpu => range 0 255
  | Some bs_blitter, Some bg_blitter => range 0 2
  | Some bs_kbd, Some bg_kbd => range 0 3
  | Some bs_nograb, Some bg_nograb => range 0 1
  | Some bs_stram, Some bg_stram => range 0 6
  | Some bs_ttram_size, Some bg_ttram_size => range 0 5
  | Some js_power, Some jg_power => range 0 6
  | Some js_cache, Some jg_cache => range 0 4
  | Some js_constjump, Some jg_constjump => range 0 1
  | Some js_compnf, Some jg_compnf => range 0 1
  | Some js_compfpu, Some jg_compfpu => range 0 1
  | Some js_flush, Some jg_zero => true
  | Some fs_wp_a, Some fg_wp_a => range 0 1
  | Some fs_wp_b, Some fg_wp_b => range 0 1
  | Some as_frames, Some ag_frames => range 0 4
  | Some vs_card, Some vg_card => true
  | Some vs_drv, Some vg_drv => true
  | Some ns_irq, Some ng_irq => range 0 255
  | Some hs_hostfs, Some hg_hostfs => range 0 2
  | _, _ => false
  end.

Lemma items_ok : forallb item_ok g_live = true.
Proof. vm_compute. reflexivity. Qed.

Lemma tun_upd t v s : tun (upd t v s) t = v.
Proof. cbn. by rewrite decide_True. Qed.

Lemma tun_apply a s t : tun (run_apply a s) t = tun s t.
Proof. by destruct a. Qed.

Lemma seed_ready h s : g_boot_ready (boot_seed h s) = true.
Proof. unfold boot_seed. by destruct (g_boot_ready s) eqn:E. Qed.

Lemma seed_seeded h s : g_boot_ready s = true -> boot_seed h s = s.
Proof. intros E. unfold boot_seed. by rewrite E. Qed.

(** After a store into the shadow, a getter sees the stored record. *)
Lemma boot_store_seed h g s : boot_seed h (boot_store h g s).2 = (boot_store h g s).2.
Proof. apply seed_seeded. cbn. apply seed_ready. Qed.

Lemma bfield_get_set f v c : bfield_get f (bfield_set f v c) = v.
Proof. by destruct f. Qed.
Lemma ifield_get_set f v c : ifield_get f (ifield_set f v c) = v.
Proof. by destruct f. Qed.

Lemma defer_result idx v s : (defer idx v s).1 = PS_R_DEFER \/ (defer idx v s).1 = PS_R_REJECT.
Proof. unfold defer. case_match; auto. Qed.

(** A deferred request is neither applied now nor kept for a restart. *)
Lemma defer_not_now idx v s r s' :
  defer idx v s = (r, s') -> r = PS_R_OK \/ r = PS_R_RESTART -> False.
Proof. intros E Hr. pose proof (defer_result idx v s) as Hd. rewrite E in Hd. cbn in Hd. by destruct Hd as [->| ->], Hr. Qed.

Lemma power_roundtrip v : 1 <= v <= 6 -> power_of_mult (256 << (v - 1)) = v.
Proof.
  intros Hv. assert (v = 1 \/ v = 2 \/ v = 3 \/ v = 4 \/ v = 5 \/ v = 6) as Hc by lia.
  repeat (destruct Hc as [->|Hc]; [reflexivity|]). by subst.
Qed.

(** A rung found again on its own ladder. *)
Definition ladder_ok (ok : Z -> Z -> bool) (l : list Z) (dflt : Z) : bool :=
  forallb (fun b => b) (imap (fun i k => ladder_find (ok k) l 0 dflt =? Z.of_nat i) l).

Lemma ladder_roundtrip ok l dflt v : ladder_ok ok l dflt = true -> 0 <= v < Z.of_nat (length l) ->
  ladder_find (ok (rung l v)) l 0 dflt = v.
Proof.
  intros H Hv. unfold rung.
  destruct (lookup_lt_is_Some_2 l (Z.to_nat v)) as [k Hk]; [lia|].
  rewrite (list_lookup_total_correct _ _ _ Hk).
  assert (E : (ladder_find (ok k) l 0 dflt =? Z.of_nat (Z.to_nat v)) = true).
  { apply (forallb_lookup _ _ (Z.to_nat v) _ H). by rewrite list_lookup_imap, Hk. }
  apply Z.eqb_eq in E. lia.
Qed.

(** The two-field ladder of the TT-RAM size. *)
Lemma ttram_roundtrip v : 0 <= v <= 5 ->
  ladder_find (fun k => k =? (if rung ttram_mb v != 0
                              then u32 (rung ttram_mb v * 1024 * 1024) / (1024 * 1024) else 0)) ttram_mb 0 0 = v.
Proof.
  intros Hv. assert (v = 0 \/ v = 1 \/ v = 2 \/ v = 3 \/ v = 4 \/ v = 5) as Hc by lia.
  repeat (destruct Hc as [->|Hc]; [vm_compute; reflexivity|]). by subst.
Qed.

Lemma b2i_01 v : 0 <= v <= 1 -> b2i (truth v) = v.
Proof. intros H. assert (v = 0 \/ v = 1) as [->| ->] by lia; done. Qed.

Ltac stored :=
  match goal with E : boot_store ?h ?g ?s = (?r, ?s') |- _ =>
    pose proof (boot_store_seed h g s) as Hs; rewrite E in Hs; cbn [snd] in Hs;
    cbn [run_get]; rewrite Hs; injection E as <- <-; cbn end.

(** A write that reports OK or RESTART is visible at once. *)
Lemma run_set_get h it f g v s :
  item_ok it = true -> iset it = Some f -> iget it = Some g ->
  imin it <= v <= imax it -> g_cfg_loading s = false ->
  let '(r, s') := run_set h it f v s in
  r = PS_R_OK \/ r = PS_R_RESTART -> (run_get h it g s').1 = v.
Proof.
  intros Hok Hf Hg Hv Hl. unfold item_ok in Hok. rewrite Hf, Hg in Hok.
  destruct (run_set h it f v s) as [r s'] eqn:E. intros Hr.
  assert (Hrange : (v <? imin it) || (imax it <? v) = false) by lia.
  destruct f, g; try discriminate Hok; cbn [run_set] in E; rewrite ?Hrange in E.
  all: try (stored; first [reflexivity | by rewrite u8_small by (unfold is_u8; lia)
                          | apply b2i_01; lia]).
  - (* generic live target *)
    destruct (tgt it) as [t|] eqn:Et; [|done]. injection E as <- <-. cbn. rewrite Et.
    destruct (iapply it); rewrite ?tun_apply; apply tun_upd.
  - apply andb_true_iff in Hok as [Hb Hok]. apply bool_decide_eq_true in Hb. injection Hb as ->.
    stored. rewrite bfield_get_set. apply b2i_01. lia.
  - apply bool_decide_eq_true in Hok. injection Hok as ->. stored. apply ifield_get_set.
  - stored. assert (v = 0 \/ v = 1 \/ v = 2) as [->|[->| ->]] by lia; done.
  - stored. destruct (Z.eqb_spec v 0) as [->|]; cbn; [done|]. rewrite (proj2 (Z.ltb_lt 0 v)); lia.
  - stored. assert (v = 0 \/ v = 1) as [->| ->] by lia; done.
  - stored. apply (ladder_roundtrip (fun k k' => u32 (k' * 1024) =? u32 (k * 1024)) stram_kb 0 v);
      [reflexivity|change (length stram_kb) with 7%nat; lia].
  - stored. apply ttram_roundtrip. lia.
  - (* JIT power *)
    unfold set_power in E. rewrite Hl in E.
    destruct ((v <? 0) || (6 <? v)) eqn:E6; [by destruct Hr; simplify_eq|].
    destruct (Z.eqb_spec v 0); [exfalso; by eapply defer_not_now|].
    destruct (cachesize (currprefs (jit s)) =? 0) eqn:Ec;
      [exfalso; by eapply defer_not_now|].
    injection E as <- <-. cbn. rewrite Ec. apply power_roundtrip. lia.
  - (* JIT cache and the switches: always deferred *)
    exfalso. by eapply defer_not_now.
  - exfalso. unfold set_switch in E. cbn [upd g_cfg_loading] in E. rewrite Hl in E. by eapply defer_not_now.
  - exfalso. unfold set_switch in E. cbn [upd g_cfg_loading] in E. rewrite Hl in E. by eapply defer_not_now.
  - exfalso. unfold set_switch in E. cbn [upd g_cfg_loading] in E. rewrite Hl in E. by eapply defer_not_now.
  - exfalso. by eapply defer_not_now.
  - injection E as <- <-. cbn. by assert (v = 0 \/ v = 1) as [->| ->] by lia.
  - injection E as <- <-. cbn. by assert (v = 0 \/ v = 1) as [->| ->] by lia.
  - injection E as <- <-. cbn [run_get fst]. rewrite tun_upd.
    apply (ladder_roundtrip (fun k k' => k' =? k) frames_v 2 v);
      [reflexivity|change (length frames_v) with 5%nat; lia].
  - assert (v = 0 \/ v = 1 \/ v = 2) as [->|[->| ->]] by lia; cbn in E; injection E as <- <-; reflexivity.
Qed.

(** The result codes a setter can return. *)
Lemma run_set_code h it f v s :
  In (run_set h it f v s).1 [PS_R_OK; PS_R_DEFER; PS_R_RESTART; PS_R_REJECT].
Proof.
  pose proof (fun idx w t => defer_result idx w t) as Hd.
  assert (HD : forall idx w t, In (defer idx w t).1 [PS_R_OK; PS_R_DEFER; PS_R_RESTART; PS_R_REJECT]).
  { intros. destruct (Hd idx w t) as [-> | ->]; cbn; auto. }
  destruct f; cbn [run_set]; unfold set_power, set_switch, boot_store;
    repeat (case_match; try apply HD); try apply HD; cbn; auto 10.
Qed.

Lemma code_u32 r k : In r [PS_R_OK; PS_R_DEFER; PS_R_RESTART; PS_R_REJECT] -> 0 <= k <= 2 -> u32 r = k -> r = k.
Proof. cbn. intros [<-|[<-|[<-|[<-|[]]]]]; vm_compute (u32 _); unfold PS_R_OK, PS_R_DEFER, PS_R_RESTART, PS_R_REJECT; lia. Qed.

(** SETINT and GETINT at the row of an index. *)
Lemma live_index i it : 0 <= i -> g_live !! Z.to_nat i = Some it -> (NITEMS <=? i) = false.
Proof.
  intros Hi E. apply lookup_lt_Some in E. rewrite g_live_length in E.
  unfold NITEMS. lia.
Qed.

Lemma call_setint h i p1 p2 p3 it s : 0 <= i -> g_live !! Z.to_nat i = Some it ->
  psctrl_settings_call h 4 i p1 p2 p3 s =
  let '(r, s') := match iset it with None => (PS_R_REJECT, s) | Some f => run_set h it f (s32 p1) s end in
  (u32 r, s').
Proof.
  intros Hi E. cbn [psctrl_settings_call subop_of]. unfold with_item.
  by rewrite (live_index i it), E.
Qed.

Lemma getint_row h i it g s : 0 <= i -> g_live !! Z.to_nat i = Some it -> iget it = Some g ->
  (psctrl_settings_getint h (PS_SET_BASE + i) s).1 = u32 (run_get h it g s).1.
Proof.
  intros Hi E Eg. unfold psctrl_settings_getint, psctrl_settings_owns.
  pose proof (live_index i it Hi E) as Hn. unfold PS_SET_BASE.
  destruct (Z.leb_spec 256 (256 + i)), (Z.ltb_spec (256 + i) (256 + NITEMS)); try lia. cbn [andb negb].
  replace (256 + i - 256) with i by lia. rewrite E, Eg. by destruct (run_get h it g s).
Qed.

Lemma row_ok i it : g_live !! i = Some it -> item_ok it = true.
Proof. apply (forallb_lookup _ _ _ _ items_ok). Qed.

Lemma row_get it f : item_ok it = true -> iset it = Some f -> exists g, iget it = Some g.
Proof. unfold item_ok. intros H E. rewrite E in H. destruct (iget it); [eauto|]. by destruct f. Qed.


(** ** Deferred values *)

Lemma pend_name_index nm :
  In nm ["jit_power"; "jit_cache"; "comp_constjump"; "compnf"; "compfpu"; "jit_flush"]%string ->
  pend_name (item_index nm) = nm.
Proof. cbn [In]. intros H. repeat (destruct H as [<-|H]; [vm_compute; reflexivity|]). done. Qed.

Lemma with_prefs_fields g s :
  let c := g (changed_prefs (jit s)) in
  let c' := currprefs (jit (with_prefs g s)) in
  cachesize c' = cachesize c /\ compnf c' = compnf c /\ comp_constjump c' = comp_constjump c /\
  compfpu c' = truth (cachesize c) || compfpu c.
Proof.
  cbn zeta. unfold with_prefs. cbn [jit].
  set (j := {| (jit s) with changed_prefs := _ |}).
  destruct (check_prefs_switches j) as [E _]. revert E.
  generalize (currprefs (check_prefs_changed_comp false j).2). intros p E.
  unfold switches in E. simplify_eq E. subst j. cbn. auto.
Qed.

(** Draining a queue that holds one request. *)
Lemma apply_deferred h idx v s r s' : g_pend s = [] -> defer idx v s = (r, s') -> r = PS_R_DEFER ->
  exists t, psctrl_apply_pending h s' = apply_one h t (idx, v) /\ jit t = jit s /\ tun t = tun s.
Proof.
  intros Hq E Hr. unfold defer in E. rewrite Hq in E. cbn in E. injection E as <- <-.
  eexists. split; [reflexivity|]. done.
Qed.

Lemma code_distinct : PS_R_OK <> PS_R_DEFER /\ PS_R_RESTART <> PS_R_DEFER /\ PS_R_REJECT <> PS_R_DEFER.
Proof. done. Qed.

Lemma set_power_deferred h it v s r s' :
  g_pend s = [] -> g_cfg_loading s = false -> 0 <= v <= 6 ->
  set_power v s = (r, s') -> r = PS_R_DEFER ->
  (run_get h it jg_power (psctrl_apply_pending h s')).1 = v.
Proof.
  intros Hq Hl Hv E Hr. unfold set_power in E. rewrite Hl in E.
  destruct ((v <? 0) || (6 <? v)) eqn:E6; [simplify_eq|].
  destruct (Z.eqb_spec v 0) as [->|Hv0].
  - destruct (apply_deferred h _ _ _ _ _ Hq E Hr) as (t & -> & Hj & Ht).
    unfold apply_one. rewrite pend_name_index by (cbn; auto). cbn [String.eqb Ascii.eqb Bool.eqb Z.eqb].
    cbn [run_get]. by rewrite (proj1 (with_prefs_fields _ _)).
  - destruct (cachesize (currprefs (jit s)) =? 0) eqn:Ec; [|simplify_eq].
    destruct (apply_deferred h _ _ _ _ _ Hq E Hr) as (t & -> & Hj & Ht).
    unfold apply_one. rewrite pend_name_index by (cbn; auto). cbn [String.eqb Ascii.eqb Bool.eqb].
    rewrite (proj2 (Z.eqb_neq v 0) Hv0). set (kb := match _ with Some _ => _ | None => 8192 end).
    assert (Hkb : truth kb = true).
    { subst kb. destruct (emulator_config_current h) as [c|]; [|done].
      destruct (jit_cache_set c), (Z.ltb_spec 0 (jit_cache c)); cbn; try done.
      unfold truth. lia. }
    pose proof (proj1 (with_prefs_fields (fun p => {| p with cachesize := kb |}) t)) as Hw.
    cbn [cachesize] in Hw. cbn zeta.
    generalize dependent (with_prefs (fun p => {| p with cachesize := kb |}) t). intros u Hw.
    rewrite Hw, Hkb. cbn [run_get jit upd]. rewrite Hw.
    assert ((kb =? 0) = false) as -> by (unfold truth in Hkb; lia).
    etransitivity; [|apply (power_roundtrip v); lia]. done.
Qed.

(** A switch, once drained, has the requested value; the FPU one is the
    exception that [check_prefs_changed_comp] makes. *)
Lemma set_switch_deferred h t nm v s r s' :
  In nm ["comp_constjump"; "compnf"; "compfpu"]%string ->
  g_pend s = [] -> g_cfg_loading s = false -> 0 <= v <= 1 ->
  set_switch t nm v s = (r, s') -> r = PS_R_DEFER ->
  let c := currprefs (jit (psctrl_apply_pending h s')) in
  (nm = "comp_constjump"%string -> b2i (comp_constjump c) = v) /\
  (nm = "compnf"%string -> b2i (compnf c) = v) /\
  (nm = "compfpu"%string -> compfpu c = truth (cachesize (changed_prefs (jit s))) || truth v).
Proof.
  intros Hn Hq Hl Hv E Hr. unfold set_switch in E. cbn [upd g_cfg_loading] in E. rewrite Hl in E.
  destruct (apply_deferred h _ _ (upd _ _ s) _ _ Hq E Hr) as (u & -> & Hj & _).
  unfold apply_one. rewrite pend_name_index by (cbn in Hn |- *; tauto).
  assert (Hb : truth (b2i (truth v)) = truth v) by (by destruct (truth v)). rewrite Hb.
  cbn [In] in Hn. destruct Hn as [<-|[<-|[<-|[]]]]; cbn [String.eqb Ascii.eqb Bool.eqb];
    split_and!; intros; try discriminate; cbn zeta.
  - destruct (with_prefs_fields (fun p => {| p with comp_constjump := truth v |}) u) as (_ & _ & -> & _).
    by apply b2i_01.
  - destruct (with_prefs_fields (fun p => {| p with compnf := truth v |}) u) as (_ & -> & _ & _).
    by apply b2i_01.
  - destruct (with_prefs_fields (fun p => {| p with compfpu := truth v |}) u) as (_ & _ & _ & ->).
    cbn. by rewrite Hj.
Qed.

Lemma run_set_deferred h it f g v s :
  item_ok it = true -> iset it = Some f -> iget it = Some g ->
  imin it <= v <= imax it -> g_cfg_loading s = false -> g_pend s = [] ->
  f <> js_compfpu -> f <> js_flush ->
  let '(r, s') := run_set h it f v s in
  r = PS_R_DEFER -> (run_get h it g (psctrl_apply_pending h s')).1 = v.
Proof.
  intros Hok Hf Hg Hv Hl Hq Hn1 Hn2. unfold item_ok in Hok. rewrite Hf, Hg in Hok.
  destruct (run_set h it f v s) as [r s'] eqn:E. intros Hr.
  assert (Hrange : (v <? imin it) || (imax it <? v) = false) by lia.
  destruct f, g; try discriminate Hok; try (by destruct Hn1); try (by destruct Hn2);
    cbn [run_set] in E; rewrite ?Hrange in E;
    try (unfold boot_store in E; simplify_eq; done).
  - apply (set_power_deferred h it v s r); auto. lia.
  - cbn zeta in E. match type of E with defer _ _ ?t = _ => assert (Hq' : g_pend t = []) end.
    { cbn. unfold boot_seed. by case_match. }
    destruct (apply_deferred h _ _ _ _ _ Hq' E Hr) as (t & -> & Hj & Ht).
    unfold apply_one. rewrite pend_name_index by (cbn; auto). cbn [String.eqb Ascii.eqb Bool.eqb].
    cbn [run_get jit]. rewrite (proj1 (with_prefs_fields _ _)). cbn [cachesize].
    apply (ladder_roundtrip (fun k k' => k' =? k) cache_kb 0 v);
      [reflexivity|change (length cache_kb) with 5%nat; lia].
  - destruct (set_switch_deferred h _ "comp_constjump" v s r s' ltac:(cbn; auto) Hq Hl ltac:(lia) E Hr) as (H & _ & _). by apply H.
  - destruct (set_switch_deferred h _ "compnf" v s r s' ltac:(cbn; auto) Hq Hl ltac:(lia) E Hr) as (_ & H & _). by apply H.
  - case_match; simplify_eq; done.
Qed.

(** The rows whose setter is one of the two exceptions. *)
Lemma deferred_rows : forallb (fun it =>
  match iset it with
  | Some js_compfpu => String.eqb (name it) "compfpu"
  | Some js_flush => kind it =? PS_K_ACTION
  | _ => true end) g_live = true.
Proof. vm_compute. reflexivity. Qed.

(** A deferred setting takes effect when the queue is drained: after
    SETINT answers DEFER and the JIT reaches the block boundary that runs
    [psctrl_apply_pending], GETINT reads the requested value (every row but
    the flush button and the FPU-translation switch). *)
Theorem deferred_getint h i p1 p2 p3 it s :
  0 <= i -> g_live !! Z.to_nat i = Some it -> is_u32 p1 ->
  imin it <= s32 p1 <= imax it -> g_cfg_loading s = false -> g_pend s = [] ->
  name it <> "compfpu"%string -> kind it <> PS_K_ACTION ->
  let '(r, s') := psctrl_settings_call h 4 i p1 p2 p3 s in
  r = PS_R_DEFER ->
  (psctrl_settings_getint h (PS_SET_BASE + i) (psctrl_apply_pending h s')).1 = p1.
Proof.
  intros Hi E Hp Hv Hl Hq Hn Hk. rewrite (call_setint h i p1 p2 p3 it s Hi E).
  destruct (iset it) as [f|] eqn:Ef; [|done].
  destruct (row_get it f (row_ok _ _ E) Ef) as [g Eg].
  pose proof (run_set_code h it f (s32 p1) s) as Hc.
  pose proof (forallb_lookup _ _ _ _ deferred_rows E) as Hd. cbn beta in Hd. rewrite Ef in Hd.
  assert (Hx : f <> js_compfpu /\ f <> js_flush)
    by (destruct f; split; try done; [apply String.eqb_eq in Hd|apply Z.eqb_eq in Hd]; done).
  pose proof (run_set_deferred h it f g (s32 p1) s (row_ok _ _ E) Ef Eg Hv Hl Hq (proj1 Hx) (proj2 Hx)) as Hrg.
  destruct (run_set h it f (s32 p1) s) as [r s']. cbn [fst] in Hc. intros Hr.
  rewrite (getint_row h i it g _ Hi E Eg), Hrg.
  - rewrite u32_s32. by apply u32_small.
  - apply (code_u32 _ _ Hc) in Hr; [done|unfold PS_R_DEFER; lia].
Qed.

(** The FPU-translation switch cannot be turned off while the JIT runs:
    SETINT of [compfpu] to 0 is accepted and deferred, and once drained the
    setting still reads 1. *)
Theorem compfpu_stays_on h i p1 p2 p3 s it :
  0 <= i -> g_live !! Z.to_nat i = Some it -> name it = "compfpu"%string ->
  0 <= s32 p1 <= 1 -> g_cfg_loading s = false -> g_pend s = [] ->
  cachesize (changed_prefs (jit s)) <> 0 ->
  let '(r, s') := psctrl_settings_call h 4 i p1 p2 p3 s in
  r = PS_R_DEFER /\ (psctrl_settings_getint h (PS_SET_BASE + i) (psctrl_apply_pending h s')).1 = 1.
Proof.
  intros Hi E Hn Hv Hl Hq Hc.
  assert (Hrow : iset it = Some js_compfpu /\ iget it = Some jg_compfpu).
  { assert (Hchk : forallb (fun it => negb (String.eqb (name it) "compfpu") ||
      bool_decide (iset it = Some js_compfpu /\ iget it = Some jg_compfpu)) g_live = true)
      by (vm_compute; reflexivity).
    pose proof (forallb_lookup _ _ _ _ Hchk E) as H. cbn beta in H. rewrite Hn in H.
    by apply bool_decide_eq_true in H. }
  destruct Hrow as [Ef Eg]. rewrite (call_setint h i p1 p2 p3 it s Hi E), Ef. cbn [run_set].
  destruct (set_switch pst_compfpu "compfpu" (s32 p1) s) as [r s'] eqn:Es.
  assert (Hr : r = PS_R_DEFER).
  { unfold set_switch in Es. cbn [upd g_cfg_loading] in Es. rewrite Hl in Es. unfold defer in Es.
    cbn [g_pend upd] in Es. rewrite Hq in Es. by injection Es as <- <-. }
  destruct (set_switch_deferred h _ "compfpu" _ _ _ _ ltac:(cbn; auto) Hq Hl Hv Es Hr) as (_ & _ & Hf).
  split; [by rewrite Hr|]. rewrite (getint_row h i it _ _ Hi E Eg). cbn [run_get fst].
  rewrite Hf by done.
  assert (truth (cachesize (changed_prefs (jit s))) = true) as -> by (unfold truth; lia). done.
Qed.

(** ** Refused writes *)

(** A SETINT that answers REJECT while the deferred queue has room
    leaves the settings as they were (at most the boot shadow has been seeded
    from the running configuration, which no reader can tell). *)
Lemma setint_reject h i p1 p2 p3 it s :
  0 <= i -> g_live !! Z.to_nat i = Some it -> (length (g_pend s) < PEND_MAX)%nat ->
  let '(r, s') := psctrl_settings_call h 4 i p1 p2 p3 s in
  r = u32 PS_R_REJECT -> s' = s \/ s' = boot_seed h s.
Proof.
  intros Hi E Hq. rewrite (call_setint h i p1 p2 p3 it s Hi E).
  destruct (iset it) as [f|] eqn:Ef; [|auto].
  assert (Hd : forall idx v t, length (g_pend t) = length (g_pend s) -> (defer idx v t).1 = PS_R_DEFER).
  { intros idx v t Ht. unfold defer. rewrite Ht. destruct (Nat.leb_spec PEND_MAX (length (g_pend s))); [lia|done]. }
  assert (Hseed : g_pend (boot_seed h s) = g_pend s) by (unfold boot_seed; by case_match).
  destruct (run_set h it f (s32 p1) s) as [r s'] eqn:Er. intros Hr.
  assert (Hrej : r = PS_R_REJECT).
  { pose proof (run_set_code h it f (s32 p1) s) as Hc. rewrite Er in Hc. cbn in Hc.
    destruct Hc as [<-|[<-|[<-|[<-|[]]]]]; done. }
  subst r. clear Hr.
  assert (Hdr : forall idx v t, length (g_pend t) = length (g_pend s) -> defer idx v t <> (PS_R_REJECT, s')).
  { intros idx v t Ht Ed. specialize (Hd idx v t Ht). by rewrite Ed in Hd. }
  destruct f; cbn [run_set] in Er; unfold set_power, set_switch, boot_store in Er;
    repeat (case_match; try (simplify_eq; by auto)); simplify_eq; auto;
    exfalso; eapply Hdr; try exact Er; cbn; rewrite ?Hseed; done.
Qed.

(** ** The deferred queue *)

(** The requests the drain knows how to apply. *)
Definition req_ok (r : Z * Z) : Prop :=
  let '(idx, v) := r in
  (idx = item_index "jit_power" /\ 0 <= v <= 6) \/
  (idx = item_index "jit_cache" /\ 0 <= v <= 4) \/
  (In idx [item_index "comp_constjump"; item_index "compnf"; item_index "compfpu"] /\ 0 <= v <= 1) \/
  (idx = item_index "jit_flush" /\ v = 1).

(** The queue fits its arrays, is armed exactly when it holds something, and
    holds only such requests. *)
Definition pend_ok (s : ps) : Prop :=
  (length (g_pend s) <= PEND_MAX)%nat /\
  psctrl_pending_armed s = negb (bool_decide (g_pend s = [])) /\
  Forall req_ok (g_pend s).

(** Two states with the same queue. *)
Definition same_queue (s t : ps) : Prop :=
  g_pend t = g_pend s /\ psctrl_pending_armed t = psctrl_pending_armed s.

Lemma pend_ok_same s t : same_queue s t -> pend_ok s -> pend_ok t.
Proof. intros [E1 E2]. unfold pend_ok. by rewrite E1, E2. Qed.

Lemma same_queue_seed h s : same_queue s (boot_seed h s).
Proof. unfold boot_seed, same_queue. by case_match. Qed.

Lemma pend_ok_seed h s : pend_ok s -> pend_ok (boot_seed h s).
Proof. apply pend_ok_same, same_queue_seed. Qed.

Lemma defer_pend_ok idx v s : req_ok (idx, v) -> pend_ok s -> pend_ok (defer idx v s).2.
Proof.
  intros Hr (Hl & Ha & Hf). unfold defer.
  destruct (Nat.leb_spec PEND_MAX (length (g_pend s))); [done|].
  unfold pend_ok. cbn [snd say g_pend psctrl_pending_armed]. split_and!.
  - rewrite length_app. cbn [length]. lia.
  - by destruct (g_pend s).
  - apply Forall_app; auto.
Qed.

Lemma run_set_pend_ok h it f v s : item_ok it = true -> iset it = Some f ->
  pend_ok s -> pend_ok (run_set h it f v s).2.
Proof.
  intros Hok Ef Hs. unfold item_ok in Hok. rewrite Ef in Hok.
  pose proof (pend_ok_seed h s Hs) as Hs'.
  assert (Hb : forall x, 0 <= b2i (truth x) <= 1) by (intros x; destruct (truth x); cbn; lia).
  destruct f; cbn [run_set]; unfold set_power, set_switch, boot_store;
    repeat case_match; try discriminate Hok;
    try (first [exact Hs | exact Hs' | by destruct (iapply it) as [[]|]]; fail);
    try (apply defer_pend_ok; [cbn; auto 10; fail|]; first [exact Hs|exact Hs']).
  - by destruct p0.
  - exact (pend_ok_seed h _ Hs').
  - apply defer_pend_ok; [cbn; left; lia|exact Hs].
  - apply defer_pend_ok; [cbn; left; lia|exact Hs].
  - apply defer_pend_ok; [cbn; right; left; lia|exact Hs'].
Qed.

Lemma run_get_same h it g s : same_queue s (run_get h it g s).2.
Proof.
  pose proof (same_queue_seed h s) as Hs.
  destruct g; cbn [run_get]; repeat case_match; try exact Hs; done.
Qed.

Lemma item_setstr_same h it v s : same_queue s (item_setstr h it v s).2.
Proof.
  pose proof (same_queue_seed h s) as Hs. unfold item_setstr, fddir_default.
  repeat (case_match; simplify_eq); try exact Hs; done.
Qed.

Lemma do_action_pend_ok h it arg s : pend_ok s -> pend_ok (do_action h it arg s).2.
Proof.
  intros Hs. pose proof (pend_ok_seed h s Hs) as Hs'. unfold do_action, floppy_eject, save_config.
  repeat (case_match; simplify_eq); try exact Hs; try exact Hs'.
  apply defer_pend_ok; [cbn; auto|exact Hs].
Qed.

(** Every entry point of the settings keeps the queue well formed. *)
Lemma call_pend_ok h op p0 p1 p2 p3 s : pend_ok s -> pend_ok (psctrl_settings_call h op p0 p1 p2 p3 s).2.
Proof.
  intros Hs. pose proof (pend_ok_seed h s Hs) as Hs'.
  unfold psctrl_settings_call. destruct (subop_of op); try exact Hs.
  - (* GETSTR *) case_match; [exact Hs|]. unfold with_item, item_str.
    repeat (case_match; simplify_eq); try exact Hs; exact Hs'.
  - (* SETINT *) unfold with_item. case_match; [exact Hs|]. case_match eqn:E; [|exact Hs].
    destruct (iset p) as [f|] eqn:Ef; [|exact Hs].
    pose proof (run_set_pend_ok h p f (s32 p1) s (row_ok _ _ E) Ef Hs) as Hr.
    by destruct (run_set h p f (s32 p1) s).
  - (* DESCRIBE *) unfold describe. case_match; [exact Hs|]. case_match; [|exact Hs].
    destruct (iget p) as [g|]; [|exact Hs].
    pose proof (run_get_same h p g s) as Hg. destruct (run_get h p g s) as [v t].
    exact (pend_ok_same s t Hg Hs).
  - (* SAVE *) unfold save_config. repeat case_match; simplify_eq; try exact Hs; exact Hs'.
  - (* SETSTR *) case_match; [exact Hs|]. unfold with_item. case_match; [exact Hs|].
    case_match; [|exact Hs]. pose proof (item_setstr_same h p (guest_read h p1) s) as Hg.
    destruct (item_setstr h p (guest_read h p1) s) as [v t]. exact (pend_ok_same s t Hg Hs).
  - (* ACTION *) unfold with_item. case_match; [exact Hs|]. case_match; [|exact Hs].
    pose proof (do_action_pend_ok h p (s32 p1) s Hs) as Ha. by destruct (do_action h p (s32 p1) s).
Qed.

Lemma apply_one_same h s r : same_queue s (apply_one h s r).
Proof. unfold apply_one. destruct r. repeat case_match; done. Qed.

Lemma apply_fold_same h q : forall s, same_queue s (fold_left (apply_one h) q s).
Proof.
  induction q as [|r q IH]; intros s; [done|]. cbn [fold_left].
  destruct (apply_one_same h s r) as [E1 E2], (IH (apply_one h s r)) as [E3 E4].
  split; congruence.
Qed.

(** Draining leaves the queue empty and disarmed. *)
Lemma drain_empty h s : pend_ok s ->
  let s' := psctrl_apply_pending h s in g_pend s' = [] /\ psctrl_pending_armed s' = false.
Proof.
  intros (_ & Ha & _). unfold psctrl_apply_pending.
  destruct (psctrl_pending_armed s) eqn:E; cbn [negb].
  - destruct (apply_fold_same h (g_pend s) {| s with g_pend := []; psctrl_pending_armed := false |}) as [-> ->].
    done.
  - destruct (g_pend s); [done|]. discriminate Ha.
Qed.

(** The life of the settings after start-up, as the CPU thread drives it. *)
Inductive ps_step (h : host) : ps -> ps -> Prop :=
| step_call op p0 p1 p2 p3 s : ps_step h s (psctrl_settings_call h op p0 p1 p2 p3 s).2
| step_getint i s : ps_step h s (psctrl_settings_getint h i s).2
| step_drain s : ps_step h s (psctrl_apply_pending h s).

Inductive ps_reach (h : host) (s0 : ps) : ps -> Prop :=
| reach_start : ps_reach h s0 s0
| reach_step s t : ps_reach h s0 s -> ps_step h s t -> ps_reach h s0 t.

(** However the guest calls the settings and whenever the JIT drains
    them, the deferred queue never outgrows its 24 slots, is armed exactly
    when something waits, and only holds requests whose index names a setting
    the drain handles with a value inside the tables it indexes. *)
Theorem queue_invariant h s0 s :
  g_pend s0 = [] -> psctrl_pending_armed s0 = false -> ps_reach h s0 s -> pend_ok s.
Proof.
  intros Hq Ha Hr. induction Hr as [|s t _ IH Hst].
  - unfold pend_ok. rewrite Hq, Ha. split_and!; [cbn; lia|done|constructor].
  - destruct Hst as [op p0 p1 p2 p3 s|i s|s].
    + by apply call_pend_ok.
    + unfold psctrl_settings_getint. repeat case_match; try exact IH. simplify_eq.
      match goal with E : run_get h ?it ?g s = _ |- _ => pose proof (run_get_same h it g s) as Hg; rewrite E in Hg end.
      exact (pend_ok_same _ _ Hg IH).
    + destruct (drain_empty h s IH) as [E1 E2]. unfold pend_ok. rewrite E1, E2.
      split_and!; [cbn; lia|done|constructor].
Qed.
