(* ===== verification/PsWire.v ===== *)
(** * PsWire: the DESCRIBE record decodes to the descriptor

    [psctrl_settings.h] documents the record as a fixed part of 48 bytes, the
    labels and the title; here is a decoder written from that description and
    the proof that every row of the table survives the trip. *)

From S2P Require Import Prelude JitPrefs Fdd PsTable PsSettings PsCall PsProps.
From Stdlib Require Import ZArith Lia Bool String Ascii.
From stdpp Require Import base list.
Open Scope Z_scope.
Open Scope cint_scope.

(** What the accessory extracts. *)
Record desc := mk_desc {
  d_name : list Z; d_tab : Z; d_kind : Z; d_class : Z; d_nenum : Z;
  d_min : Z; d_max : Z; d_step : Z; d_unit : Z; d_flags : Z; d_value : Z;
  d_labels : list (list Z); d_title : list Z }.

Definition get_be32 (r : list Z) (o : nat) : Z :=
  s32 ((r !!! o) * 16777216 + (r !!! (o + 1)%nat) * 65536 + (r !!! (o + 2)%nat) * 256 + r !!! (o + 3)%nat).
Definition get_be16 (r : list Z) (o : nat) : Z := (r !!! o) * 256 + r !!! (o + 1)%nat.

(** One NUL-terminated string, and what follows it. *)
Fixpoint get_cstr (r : list Z) : option (list Z * list Z) :=
  match r with
  | [] => None
  | b :: r => if b =? 0 then Some ([], r)
              else match get_cstr r with Some (s, r) => Some (b :: s, r) | None => None end
  end.

Fixpoint get_cstrs (n : nat) (r : list Z) : option (list (list Z) * list Z) :=
  match n with
  | O => Some ([], r)
  | S n => match get_cstr r with
           | Some (s, r) => match get_cstrs n r with Some (ss, r) => Some (s :: ss, r) | None => None end
           | None => None end
  end.

Definition decode (r : list Z) : option desc :=
  match get_cstr (take 24 r), get_cstrs (Z.to_nat (r !!! 27%nat)) (drop 48 r) with
  | Some (nm, _), Some (ls, r') =>
    match get_cstr r' with
    | Some (ti, _) =>
      Some (mk_desc nm (r !!! 24%nat) (r !!! 25%nat) (r !!! 26%nat) (r !!! 27%nat)
              (get_be32 r 28) (get_be32 r 32) (get_be32 r 36) (get_be16 r 40) (get_be16 r 42)
              (get_be32 r 44) ls ti)
    | None => None
    end
  | _, _ => None
  end.

(** The descriptor of a row with its current value. *)
Definition desc_of (it : ps_item) (v : Z) : desc :=
  mk_desc (bytes_of (name it)) (tab it) (kind it) (klass it) (nenum it)
    (imin it) (imax it) (step it) (unit_ it) (iflags it) (s32 v)
    (map bytes_of (default [] (labels it))) (bytes_of (title it)).

Lemma get_cstr_app b r : Forall (fun x => x <> 0) b -> get_cstr (b ++ 0 :: r) = Some (b, r).
Proof.
  induction 1 as [|x b Hx _ IH]; cbn; [done|]. rewrite (proj2 (Z.eqb_neq x 0) Hx), IH. done.
Qed.

Lemma get_cstrs_app ls r : Forall (fun l => Forall (fun x => x <> 0) (bytes_of l)) ls ->
  get_cstrs (length ls) (concat (map cstr ls) ++ r) = Some (map bytes_of ls, r).
Proof.
  induction 1 as [|l ls Hl _ IH]; [done|]. cbn [length get_cstrs map concat].
  unfold cstr at 1. rewrite <- !app_assoc. cbn [app]. rewrite get_cstr_app by done. by rewrite IH.
Qed.

Definition nul_free (s : string) : bool := forallb (fun x => x != 0) (bytes_of s).

Lemma nul_free_Forall s : nul_free s = true -> Forall (fun x => x <> 0) (bytes_of s).
Proof.
  intros H. apply Forall_forall. intros x Hx.
  eapply forallb_forall in H; [|by apply list_elem_of_In]. cbn in H. lia.
Qed.

(** The row fits the record: the name in 24 bytes, the numbers in their
    fields, the labels and the title in 512 bytes. *)
Definition row_fits (it : ps_item) : bool :=
  let ls := default [] (labels it) in
  (slen (name it) <=? 23) && nul_free (name it) && nul_free (title it) && forallb nul_free ls &&
  forallb (fun z => (0 <=? z) && (z <? 256)) [tab it; kind it; klass it; nenum it] &&
  forallb (fun z => (-2147483648 <=? z) && (z <? 2147483648)) [imin it; imax it; step it] &&
  forallb (fun z => (0 <=? z) && (z <? 65536)) [unit_ it; iflags it] &&
  (nenum it =? Z.of_nat (length ls)) &&
  (PS_DESC_FIXED + Z.of_nat (length (concat (map cstr ls))) + slen (title it) + 1 <? 511).

Lemma rows_fit : forallb row_fits g_live = true.
Proof. vm_compute. reflexivity. Qed.

Lemma bytes_of_length s : length (bytes_of s) = String.length s.
Proof. unfold bytes_of. rewrite length_map. induction s; cbn; congruence. Qed.

Lemma substring_full s n : (String.length s <= n)%nat -> substring 0 n s = s.
Proof.
  revert n. induction s as [|c s IH]; intros [|n] H; cbn in *; try done; [lia|].
  by rewrite IH by lia.
Qed.

Lemma put_labels_all ls : forall r,
  Z.of_nat (length r) + Z.of_nat (length (concat (map cstr ls))) < 511 ->
  put_labels (length ls) ls r = (r ++ concat (map cstr ls))%list.
Proof.
  induction ls as [|l ls IH]; intros r H; cbn [put_labels length map concat]; [by rewrite app_nil_r|].
  cbn [map concat] in H. rewrite length_app in H. unfold cstr at 1 in H.
  rewrite length_app, bytes_of_length in H. cbn [length] in H. unfold slen.
  destruct (Z.leb_spec (512 - 1) (Z.of_nat (length r) + Z.of_nat (String.length l) + 1)); [lia|].
  rewrite IH; [by rewrite <- app_assoc|]. unfold cstr at 1. rewrite !length_app, bytes_of_length. cbn [length]. lia.
Qed.

Definition fixed_part (it : ps_item) (value : Z) : list Z :=
  ([u8 (tab it); u8 (kind it); u8 (klass it); u8 (nenum it)] ++
   put_be32 (imin it) ++ put_be32 (imax it) ++ put_be32 (step it) ++
   put_be16 (unit_ it) ++ put_be16 (iflags it) ++ put_be32 value)%list.

(** The record of a row that fits. *)
Lemma desc_record_fits it v : row_fits it = true ->
  desc_record it v = (bytes_of (name it) ++ replicate (24 - String.length (name it)) 0 ++
    fixed_part it v ++ concat (map cstr (default [] (labels it))) ++ cstr (title it))%list.
Proof.
  unfold row_fits. rewrite !andb_true_iff. intros ((((((((Hn & _) & _) & _) & _) & _) & _) & Hne) & Hsz).
  apply Z.leb_le in Hn. apply Z.eqb_eq in Hne. apply Z.ltb_lt in Hsz. unfold slen, PS_DESC_FIXED in *.
  unfold desc_record, put_name, trunc. rewrite substring_full by lia.
  rewrite bytes_of_length. fold (fixed_part it v). rewrite <- !app_assoc.
  set (r := (bytes_of (name it) ++ replicate _ 0 ++ fixed_part it v)%list).
  assert (Hr : length r = 48%nat).
  { subst r. rewrite !length_app, length_replicate, bytes_of_length. cbn [length fixed_part app put_be32 put_be16]. lia. }
  assert (El : match labels it with Some ls => put_labels (Z.to_nat (nenum it)) ls r | None => r end =
          (r ++ concat (map cstr (default [] (labels it))))%list).
  { rewrite Hne, Nat2Z.id. destruct (labels it) as [ls|]; cbn [default from_option] in *; [|by rewrite app_nil_r].
    apply put_labels_all. lia. }
  rewrite El. unfold put_title, slen. rewrite length_app, Hr.
  destruct (Z.ltb_spec (Z.of_nat (48 + length (concat (map cstr (default [] (labels it))))) +
                        Z.of_nat (String.length (title it)) + 1) 512); [|lia].
  subst r. by rewrite <- !app_assoc.
Qed.

Lemma be32_bytes v : s32 (u8 (u32 v >> 24) * 16777216 + u8 (u32 v >> 16) * 65536 +
                          u8 (u32 v >> 8) * 256 + u8 (u32 v)) = s32 v.
Proof.
  rewrite !Z.shiftr_div_pow2 by lia. change (2 ^ 24) with 16777216.
  change (2 ^ 16) with 65536. change (2 ^ 8) with 256. word.
Qed.

Lemma be16_bytes v : is_u16 v -> u8 (v >> 8) * 256 + u8 v = v.
Proof. intros. rewrite Z.shiftr_div_pow2 by lia. change (2 ^ 8) with 256. unfold is_u16 in *. word. Qed.

(** The name field, then the fixed part, then the strings. *)
Lemma decode_parts (nm rest : list Z) (t k c n mi ma st un fl v : Z) ls ti :
  Forall (fun x => x <> 0) nm -> (length nm <= 23)%nat ->
  is_u8 t -> is_u8 k -> is_u8 c -> is_u8 n -> is_s32 mi -> is_s32 ma -> is_s32 st -> is_u16 un -> is_u16 fl ->
  get_cstrs (Z.to_nat n) rest = Some (ls, (ti ++ [0])%list) -> Forall (fun x => x <> 0) ti ->
  decode (nm ++ replicate (24 - length nm) 0 ++
    ([u8 t; u8 k; u8 c; u8 n] ++ put_be32 mi ++ put_be32 ma ++ put_be32 st ++
     put_be16 un ++ put_be16 fl ++ put_be32 v) ++ rest) =
  Some (mk_desc nm t k c n mi ma st un fl (s32 v) ls ti).
Proof.
  intros Hnm Hl Ht Hk Hc Hn Hmi Hma Hst Hun Hfl Hrest Hti. rewrite app_assoc.
  set (P := (nm ++ replicate (24 - length nm) 0)%list).
  assert (HP : length P = 24%nat) by (subst P; rewrite length_app, length_replicate; lia).
  assert (HnP : get_cstr P = Some (nm, replicate (23 - length nm) 0)).
  { subst P. replace (24 - length nm)%nat with (S (23 - length nm)) by lia. by apply get_cstr_app. }
  clearbody P. unfold decode.
  rewrite take_app_length' by lia. rewrite HnP.
  set (F := ([u8 t; u8 k; u8 c; u8 n] ++ _)%list).
  assert (Hd : drop 48 (P ++ F ++ rest) = rest).
  { rewrite app_assoc. apply drop_app_length'. rewrite length_app, HP. reflexivity. }
  rewrite Hd. clear Hd. subst F.
  do 24 (destruct P as [|? P]; [discriminate HP|]). destruct P; [|discriminate HP].
  unfold get_be32, get_be16.
  cbn [app drop put_be32 put_be16 lookup_total list_lookup_total Nat.add].
  rewrite !(u8_small t), !(u8_small k), !(u8_small c), !(u8_small n) by done.
  rewrite Hrest, (get_cstr_app ti []), !be32_bytes, !be16_bytes by done.
  by rewrite !(s32_small mi), !(s32_small ma), !(s32_small st) by done.
Qed.

Lemma decode_desc it v : row_fits it = true -> decode (desc_record it v) = Some (desc_of it v).
Proof.
  intros Hf. rewrite (desc_record_fits it v Hf). unfold row_fits in Hf.
  rewrite !andb_true_iff in Hf. cbn [forallb] in Hf. rewrite !andb_true_iff in Hf.
  destruct Hf as ((((((((Hn & Hz) & Ht) & Hls) & H8) & H32) & H16) & Hne) & Hsz).
  apply Z.leb_le in Hn. apply Z.eqb_eq in Hne. unfold slen in *.
  rewrite <- (bytes_of_length (name it)) in *. unfold fixed_part, desc_of.
  apply (decode_parts (bytes_of (name it)) (concat (map cstr (default [] (labels it))) ++ cstr (title it)));
    unfold is_u8, is_s32, is_u16; try lia; try (by apply nul_free_Forall).
  rewrite Hne, Nat2Z.id. apply get_cstrs_app.
  apply Forall_forall. intros l Hl. apply nul_free_Forall.
  rewrite forallb_forall in Hls. by apply Hls, list_elem_of_In.
Qed.

Lemma desc_record_length it v : row_fits it = true -> Z.of_nat (length (desc_record it v)) < 512.
Proof.
  intros Hf. rewrite (desc_record_fits it v Hf). unfold row_fits in Hf. rewrite !andb_true_iff in Hf.
  destruct Hf as ((((((((Hn & _) & _) & _) & _) & _) & _) & _) & Hsz).
  apply Z.leb_le in Hn. apply Z.ltb_lt in Hsz. unfold slen, PS_DESC_FIXED in *.
  rewrite !length_app, length_replicate, bytes_of_length.
  unfold cstr at 2. rewrite length_app, bytes_of_length.
  change (length (fixed_part it v)) with 24%nat. change (length [0]) with 1%nat. lia.
Qed.

Lemma plog_run_get h it g s : plog (run_get h it g s).2 = plog s.
Proof. destruct g; cbn [run_get]; unfold boot_seed; repeat case_match; done. Qed.

(** DESCRIBE into a buffer of at least 512 bytes writes one record,
    shorter than that and never truncated, from which the documented layout
    recovers the name, tab, kind, class, range, unit, flags, labels, title and
    current value of every row; a shorter buffer gets a prefix that fits it. *)
Theorem describe_decodes h i buf len p3 it s :
  0 <= i -> g_live !! Z.to_nat i = Some it -> buf <> 0 -> 50 <= len ->
  let value := match iget it with Some g => (run_get h it g s).1 | None => 0 end in
  let rec := desc_record it value in
  let '(n, s') := psctrl_settings_call h 6 i buf len p3 s in
  decode rec = Some (desc_of it value) /\
  n = Z.min (Z.of_nat (length rec)) len /\ Z.of_nat (length rec) < 512 /\
  plog s' = (plog s ++ [Guest_write buf (take (Z.to_nat n) rec)])%list /\
  (512 <= len -> plog s' = (plog s ++ [Guest_write buf rec])%list).
Proof.
  intros Hi E Hb Hl value rec. pose proof (forallb_lookup _ _ _ _ rows_fit E) as Hfit.
  pose proof (desc_record_length it value Hfit) as Hlen. fold rec in Hlen.
  unfold psctrl_settings_call. cbn [subop_of]. unfold describe.
  rewrite (live_index i it Hi E), (proj2 (Z.eqb_neq buf 0) Hb).
  destruct (Z.ltb_spec len (PS_DESC_FIXED + 2)); [unfold PS_DESC_FIXED in *; lia|]. cbn [orb]. rewrite E.
  assert (Hg : exists t, match iget it with Some g => run_get h it g s | None => (0, s) end = (value, t) /\
                         plog t = plog s).
  { subst value. destruct (iget it) as [g|]; [|by eexists].
    exists (run_get h it g s).2. split; [by destruct (run_get h it g s)|apply plog_run_get]. }
  destruct Hg as (t & -> & Ht). fold rec. cbn [plog say]. rewrite Ht.
  split_and!; try done; [by apply decode_desc|]. intros H512.
  rewrite Z.min_l by lia. by rewrite Nat2Z.id, firstn_all.
Qed.

(** ** Concrete runs *)
Definition host0 : host :=
  mk_host None (Some "pistorm.cfg"%string) (fun _ => 0) false (fun _ => None) (fun _ _ => 0)
    (fun _ _ => Some []) (fun _ => NotMsa) (fun _ => EmptyString).
Definition jp0 : jitprefs := mk_jp 8192 0 0 0 0 true false true true false false.
Definition ps0 : ps :=
  mk_ps tunable_init 0 0 0 conf_zero false 0 [] false false
    (mk_js jp0 jp0 0 0 true true 0 []) (1024 * 512) fdc0 EmptyString [].

(** The CPU row, at index 7. *)
Definition cpu_row : ps_item :=
  ITEM "cpu" "CPU" PS_TAB_CPU PS_K_ENUM PS_C_BOOT PS_U_NONE
    0 5 1 L_cpu 6 0 None (Some bg_cpu) (Some bs_cpu) None.

Lemma describe_decodes_witness :
  let value := match iget cpu_row with Some g => (run_get host0 cpu_row g ps0).1 | None => 0 end in
  let rec := desc_record cpu_row value in
  let '(n, s') := psctrl_settings_call host0 6 7 0x1000 512 0 ps0 in
  decode rec = Some (desc_of cpu_row value) /\
  n = Z.min (Z.of_nat (length rec)) 512 /\ Z.of_nat (length rec) < 512 /\
  plog s' = (plog ps0 ++ [Guest_write 0x1000 (take (Z.to_nat n) rec)])%list /\
  (512 <= 512 -> plog s' = (plog ps0 ++ [Guest_write 0x1000 rec])%list).
Proof.
  exact (describe_decodes host0 7 0x1000 512 0 cpu_row ps0 ltac:(lia) ltac:(vm_compute; reflexivity)
           ltac:(discriminate) ltac:(lia)).
Defined.


Lemma deferred_getint_witness :
  let '(r, s') := psctrl_settings_call host0 4 1 2 0 0 ps0 in
  r = PS_R_DEFER ->
  (psctrl_settings_getint host0 (PS_SET_BASE + 1) (psctrl_apply_pending host0 s')).1 = 2.
Proof.
  eapply (deferred_getint host0 1 2 0 0 _ ps0);
    [lia|reflexivity|word|vm_compute; split; discriminate|reflexivity|reflexivity|discriminate|discriminate].
Defined.

Lemma compfpu_stays_on_witness :
  let '(r, s') := psctrl_settings_call host0 4 4 0 0 0 ps0 in
  r = PS_R_DEFER /\ (psctrl_settings_getint host0 (PS_SET_BASE + 4) (psctrl_apply_pending host0 s')).1 = 1.
Proof.
  eapply (compfpu_stays_on host0 4 0 0 0 ps0);
    [lia|reflexivity|reflexivity|vm_compute; split; discriminate|reflexivity|reflexivity|discriminate].
Defined.

Lemma setint_reject_witness :
  let '(r, s') := psctrl_settings_call host0 4 7 9 0 0 ps0 in
  r = u32 PS_R_REJECT -> s' = ps0 \/ s' = boot_seed host0 ps0.
Proof. eapply (setint_reject host0 7 9 0 0 _ ps0); [lia|reflexivity|vm_compute; lia]. Defined.

Lemma queue_invariant_witness :
  pend_ok (psctrl_settings_call host0 9 5 0 0 0 (psctrl_settings_call host0 4 1 2 0 0 ps0).2).2.
Proof.
  apply (queue_invariant host0 ps0); [reflexivity|reflexivity|].
  eapply reach_step; [|apply step_call]. eapply reach_step; [apply reach_start|apply step_call].
Defined.
