(* ===== verification/PsFloppy.v ===== *)
(** * PsFloppy: the floppy controls of the settings dialog *)

From S2P Require Import Prelude JitPrefs Fdd PsTable PsSettings PsCall PsProps PsWire.
From Stdlib Require Import ZArith Lia Bool String Ascii.
From stdpp Require Import base list.
Open Scope Z_scope.
Open Scope cint_scope.

(** The image a drive holds can be mounted again: it is a plain image the host
    still opens, and its path fits the drive's buffer. *)
Definition remountable (h : host) (d : fdd_drive) : Prop :=
  disk_inserted d = true ->
  msa_open_decoded h (image_path d) = NotMsa /\
  (exists img, open_image h (image_path d) (write_protected d) = Some img) /\
  (String.length (image_path d) <= 255)%nat.

(** What the dialog shows of a drive. *)
Definition shown (d : fdd_drive) : bool * string * bool :=
  if disk_inserted d then (true, image_path d, write_protected d) else (false, EmptyString, false).

Lemma get_set_drive d v f : get_drive d (set_drive d v f) = v.
Proof. unfold get_drive, set_drive. by destruct (d =? 0). Qed.

Lemma get_set_other v f d e : 0 <= d <= 1 -> 0 <= e <= 1 -> d <> e ->
  get_drive e (set_drive d v f) = get_drive e f.
Proof.
  intros. unfold get_drive, set_drive.
  destruct (Z.eqb_spec d 0), (Z.eqb_spec e 0); try lia; done.
Qed.

Lemma good_drive d : 0 <= d <= 1 -> bad_drive d = false.
Proof. unfold bad_drive. lia. Qed.

(** Mounting a plain image that opens. *)
Lemma insert_plain h d path wp img f : 0 <= d <= 1 ->
  msa_open_decoded h path = NotMsa -> open_image h path wp = Some img -> (String.length path <= 255)%nat ->
  let f' := (fdd_insert_disk (open_image h) (msa_open_decoded h) d path wp f).2 in
  shown (get_drive d f') = (true, path, wp) /\
  (forall e, 0 <= e <= 1 -> e <> d -> get_drive e f' = get_drive e f) /\ fdc_busy f' = fdc_busy f.
Proof.
  intros Hd Hm Ho Hl. unfold fdd_insert_disk. rewrite (good_drive d Hd), Hm, Ho. cbn zeta.
  split_and!; [|intros; by apply get_set_other|unfold set_drive; by destruct (d =? 0)].
  cbn [snd]. rewrite get_set_drive. unfold shown. cbn. by rewrite substring_full.
Qed.

Lemma shown_pulse d f : 0 <= d <= 1 -> forall e, 0 <= e <= 1 ->
  shown (get_drive e (fdd_pulse_media d f)) = shown (get_drive e f).
Proof.
  intros Hd e He. unfold fdd_pulse_media. rewrite good_drive by done.
  destruct (decide (d = e)) as [->|]; [by rewrite get_set_drive|by rewrite get_set_other].
Qed.

Lemma query_busy d f : 0 <= d <= 1 -> exists a b c, fdd_query d f = (a, b, c, fdc_busy f).
Proof. intros. unfold fdd_query. rewrite good_drive by done. by do 3 eexists. Qed.

(** The optional mount a swap does on one side. *)
Lemma swap_mount h d (src : fdd_drive) f : 0 <= d <= 1 -> remountable h src ->
  shown (get_drive d f) = (false, EmptyString, false) ->
  let f' := if 0 <? Z.b2z (disk_inserted src)
            then (fdd_insert_disk (open_image h) (msa_open_decoded h) d
                    (if disk_inserted src then image_path src else EmptyString) (write_protected src) f).2
            else f in
  shown (get_drive d f') = shown src /\
  (forall e, 0 <= e <= 1 -> e <> d -> get_drive e f' = get_drive e f).
Proof.
  intros Hd Hr He. unfold shown at 2. destruct (disk_inserted src) eqn:E; cbn [Z.b2z Z.ltb Z.compare]; [|done].
  destruct (Hr E) as (Hm & [img Ho] & Hl).
  destruct (insert_plain h d _ _ img f Hd Hm Ho Hl) as (H1 & H2 & _). done.
Qed.

(** The swap button exchanges what the two drives show: after it, each
    drive reports the presence, path and write protection the other one had,
    whenever the images can still be opened. *)
Lemma floppy_swap_exchanges h f :
  fdc_busy f = false -> remountable h (drive_a f) -> remountable h (drive_b f) ->
  let '(r, f') := floppy_swap h f in
  r = PS_R_OK /\ shown (drive_a f') = shown (drive_b f) /\ shown (drive_b f') = shown (drive_a f).
Proof.
  intros Hb Ha Hbb. unfold floppy_swap.
  destruct (query_busy 0 f) as (a1 & a2 & a3 & E0); [lia|].
  destruct (query_busy 1 f) as (b1 & b2 & b3 & E1); [lia|]. rewrite E0, Hb, E1, Hb.
  unfold fdd_query in E0, E1. rewrite good_drive in E0, E1 by lia.
  injection E0 as <- <- <-. injection E1 as <- <- <-. cbn zeta.
  change (get_drive 0 f) with (drive_a f). change (get_drive 1 f) with (drive_b f).
  set (f0 := fdd_eject_disk 1 (fdd_eject_disk 0 f)).
  destruct (swap_mount h 0 (drive_b f) f0 ltac:(lia) Hbb eq_refl) as [A1 A2]. cbn zeta in A1, A2.
  set (f1 := if 0 <? Z.b2z (disk_inserted (drive_b f)) then _ else f0) in *. clearbody f1.
  assert (He : shown (get_drive 1 f1) = (false, EmptyString, false)) by (by rewrite A2 by lia).
  destruct (swap_mount h 1 (drive_a f) f1 ltac:(lia) Ha He) as [B1 B2]. cbn zeta in B1, B2.
  set (f2 := if 0 <? Z.b2z (disk_inserted (drive_a f)) then _ else f1) in *. clearbody f2.
  split; [done|].
  pose proof (fun e He => shown_pulse 1 (fdd_pulse_media 0 f2) ltac:(lia) e He) as P1.
  pose proof (fun e He => shown_pulse 0 f2 ltac:(lia) e He) as P0.
  split.
  - change (drive_a ?x) with (get_drive 0 x) at 1. rewrite P1, P0, B2 by lia. exact A1.
  - change (drive_b ?x) with (get_drive 1 x) at 1. rewrite P1, P0 by lia. exact B1.
Qed.

(** A refused mount is not a no-op: when the new image cannot be opened,
    SETSTR of a drive answers REJECT, but the drive's old image has already
    been closed while the drive still reports it as inserted. *)
Theorem refused_mount_closes h it v s :
  name it = "floppy_a"%string -> fdc_busy (fdcs s) = false ->
  emulator_gemdos_to_host h v = None -> has_char "/" v = true ->
  msa_open_decoded h (trunc 4096 v) = NotMsa -> open_image h (trunc 4096 v) false = None ->
  let '(r, s') := item_setstr h it v s in
  r = PS_R_REJECT /\ fd (drive_a (fdcs s')) = None /\ shown (drive_a (fdcs s')) = shown (drive_a (fdcs s)).
Proof.
  intros Hn Hb Hg Hs Hm Ho. unfold item_setstr, is_floppy, floppy_drive. rewrite Hn.
  cbn [String.eqb Ascii.eqb Bool.eqb orb String.get]. cbn [b2i].
  unfold fdd_query. change (bad_drive 0) with false. rewrite Hb, Hg, Hs. cbn iota.
  unfold fdd_insert_disk. change (bad_drive 0) with false. change (Z.to_nat PATH_MAX) with 4096%nat.
  rewrite Hm, Ho. done.
Qed.

Definition disk_in (path : string) (wp : bool) : fdd_drive :=
  mk_drive (Some []) path wp true false FDD_TYPE_DD 9 80 2 737280 1.
Definition fdc_ex : fdc := mk_fdc (disk_in "floppies/game.st" false) (disk_in "floppies/save.st" true) false.

Lemma floppy_swap_exchanges_witness :
  let '(r, f') := floppy_swap host0 fdc_ex in
  r = PS_R_OK /\ shown (drive_a f') = shown (drive_b fdc_ex) /\ shown (drive_b f') = shown (drive_a fdc_ex).
Proof.
  apply (floppy_swap_exchanges host0 fdc_ex); [reflexivity| |];
    intros _; split; [reflexivity|split; [exists []; reflexivity|vm_compute; lia]
                     |reflexivity|split; [exists []; reflexivity|vm_compute; lia]].
Defined.

(** A host on which no image opens. *)
Definition host_nofile : host := {| host0 with open_image := fun _ _ => None |}.
Definition floppy_a_row : ps_item :=
  ITEM "floppy_a" "Drive A:" PS_TAB_FLOPPY PS_K_STR PS_C_LIVE PS_U_NONE
    0 0 0 None 0 0 None (Some jg_zero) None None.
Definition ps_disk : ps := {| ps0 with fdcs := fdc_ex |}.

Lemma refused_mount_closes_witness :
  let '(r, s') := item_setstr host_nofile floppy_a_row "/tmp/missing.st" ps_disk in
  r = PS_R_REJECT /\ fd (drive_a (fdcs s')) = None /\
  shown (drive_a (fdcs s')) = shown (drive_a (fdcs ps_disk)).
Proof.
  apply (refused_mount_closes host_nofile floppy_a_row "/tmp/missing.st" ps_disk); reflexivity.
Defined.
