(* ===== verification/PsCfg.v ===== *)
(** * PsCfg: the settings as configuration-file keys
    ([platforms/atari/psctrl/psctrl_settings.cpp], the [.cfg] side)

    The descriptor table is also the list of keys the configuration writer
    emits and the loader hands back.  The main theorem is the round trip of a
    live tunable through its configuration line. *)

From S2P Require Import Prelude JitPrefs Fdd PsTable PsSettings PsCall PsProps PsWire.
From Stdlib Require Import ZArith Lia Bool String Ascii.
From stdpp Require Import base list.
Open Scope Z_scope.
Open Scope cint_scope.

Definition g_bootkeys : list string :=
  ["machine"; "cpu"; "fpu"; "mmu"; "cpu_compatible"; "shifter"; "blitter";
   "stram_size"; "ttram"; "addr32"; "stram_cache"; "stram_direct";
   "native_hdmi"; "psvidel"; "vga"; "monitor"; "ym2149"; "dma_sound"; "falcon_dsp";
   "ide"; "kbd"; "network"; "network_irq"; "rom"; "stbox_tos";
   "stbox_plane"; "jit_cache"; "cpu_speed"]%string.
Definition NBOOTKEYS : Z := Z.of_nat (length g_bootkeys).

Definition g_dbg : list (string * tunable) :=
  [("verbose", pst_verbose); ("ipl", pst_dbg_ipl_stats); ("irq", pst_dbg_irq_stats);
   ("mfp", pst_dbg_mfp); ("mfphub", pst_dbg_mfp_hub); ("dmasnd", pst_dbg_dmasnd);
   ("acsi", pst_dbg_acsi); ("ide", pst_dbg_ide); ("gemdos", pst_dbg_gemdos);
   ("stram", pst_dbg_stram); ("net", pst_dbg_net); ("ikbd", pst_dbg_ikbd);
   ("hostfs", pst_dbg_hostfs)]%string.

Definition item_is_cfg_tunable (it : ps_item) : bool :=
  if String.eqb (name it) "jit_power" then true
  else match tgt it with
  | None => false
  | Some t =>
    if (kind it =? PS_K_INFO) || (kind it =? PS_K_ACTION) then false
    else if existsb (fun d => bool_decide (d.2 = t)) g_dbg then false
    else if existsb (fun k => String.eqb k (name it)) g_bootkeys then false
    else true
  end.

Definition psctrl_settings_key_count : Z :=
  NBOOTKEYS + 1 + Z.of_nat (length (List.filter item_is_cfg_tunable g_live)).

(** [if (item_is_cfg_tunable(&g_live[i]) && idx-- == 0) return name]. *)
Fixpoint tunable_at (idx : Z) (l : list ps_item) : string :=
  match l with
  | [] => EmptyString
  | it :: l => if item_is_cfg_tunable it
               then if idx =? 0 then name it else tunable_at (idx - 1) l
               else tunable_at idx l
  end.

Definition psctrl_settings_key_at (idx : Z) : string :=
  if idx <? NBOOTKEYS then g_bootkeys !!! Z.to_nat idx
  else let idx := idx - NBOOTKEYS in
       if idx =? 0 then "debug"%string else tunable_at (idx - 1) g_live.

(** ** Numbers in text *)

Definition digit (d : Z) : ascii := ascii_of_nat (Z.to_nat (48 + d)).

(** The decimal digits of a non-negative number, in front of [acc]. *)
Fixpoint dec_digits (fuel : nat) (n : Z) (acc : string) : string :=
  match fuel with
  | O => acc
  | S fuel => let acc := String (digit (n mod 10)) acc in
              if n / 10 =? 0 then acc else dec_digits fuel (n / 10) acc
  end.
(** [%d]; ten digits are enough for an [int]. *)
Definition fmt_d (n : Z) : string :=
  if n <? 0 then String "-" (dec_digits 10 (- n) EmptyString) else dec_digits 10 n EmptyString.

Definition digit_val (c : ascii) : option Z :=
  let n := Z.of_nat (nat_of_ascii c) in
  if (48 <=? n) && (n <=? 57) then Some (n - 48)
  else if (97 <=? n) && (n <=? 122) then Some (n - 97 + 10)
  else if (65 <=? n) && (n <=? 90) then Some (n - 65 + 10)
  else None.

Fixpoint digits_val (base acc : Z) (s : string) : Z :=
  match s with
  | String c s => match digit_val c with
                  | Some d => if d <? base then digits_val base (acc * base + d) s else acc
                  | None => acc end
  | EmptyString => acc
  end.

Definition is_space (c : ascii) : bool :=
  let n := nat_of_ascii c in Nat.eqb n 32 || (Nat.leb 9 n && Nat.leb n 13).
Fixpoint skip_space (s : string) : string :=
  match s with String c s' => if is_space c then skip_space s' else s | EmptyString => s end.

Definition is_hex (s : string) : bool :=
  match s with String c _ => match digit_val c with Some d => d <? 16 | None => false end | EmptyString => false end.

(** The magnitude [strtol] reads with base 0: hexadecimal after [0x], octal
    after [0], decimal otherwise. *)
Definition strtol_mag (s : string) : Z :=
  match s with
  | String c s' =>
    if Ascii.eqb c "0" then
      match s' with
      | String x s'' => if (Ascii.eqb x "x" || Ascii.eqb x "X") && is_hex s''
                        then digits_val 16 0 s'' else digits_val 8 0 s
      | EmptyString => 0
      end
    else digits_val 10 0 s
  | EmptyString => 0
  end.

(** [(int)strtol(s, NULL, 0)]: saturating at [long], then cut to [int]. *)
Definition strtol_int (s : string) : Z :=
  let clamp z := Z.max (-9223372036854775808) (Z.min 9223372036854775807 z) in
  match skip_space s with
  | String c s' =>
    if Ascii.eqb c "-" then s32 (clamp (- strtol_mag s'))
    else if Ascii.eqb c "+" then s32 (clamp (strtol_mag s'))
    else s32 (clamp (strtol_mag (String c s')))
  | EmptyString => 0
  end.

(** [atoi]: decimal only. *)
Definition atoi (s : string) : Z :=
  match skip_space s with
  | String c s' => if Ascii.eqb c "-" then s32 (- digits_val 10 0 s')
                   else if Ascii.eqb c "+" then s32 (digits_val 10 0 s')
                   else s32 (digits_val 10 0 (String c s'))
  | EmptyString => 0
  end.

Definition lower_char (c : ascii) : ascii :=
  let n := nat_of_ascii c in if Nat.leb 65 n && Nat.leb n 90 then ascii_of_nat (n + 32) else c.
Fixpoint lower (s : string) : string :=
  match s with String c s => String (lower_char c) (lower s) | EmptyString => EmptyString end.
Definition strcaseeq (a b : string) : bool := String.eqb (lower a) (lower b).

(** ** Rendering a key *)
Fixpoint label_at (k : nat) (ls : list string) : string :=
  match ls with
  | [] => EmptyString
  | l :: ls => match k with O => l | S k => if String.eqb l "" then EmptyString else label_at k ls end
  end.

Definition find_row (key : string) : option ps_item :=
  List.find (fun it => String.eqb (name it) key && item_is_cfg_tunable it) g_live.

(** One flag of the [debug] line, with its separator. *)
Definition debug_flag (s : ps) (acc : string * bool) (d : string * tunable) : string * bool :=
  let '(out, any) := acc in
  let v := tun s d.2 in
  let level := if 1 <? v then String "=" (fmt_d v) else EmptyString in
  if v <=? 0 then acc
  else ((out ++ (if any then "," else " ") ++ d.1 ++ level)%string, true).

(** The line for a key, cut to the caller's buffer; [None] for a key that is
    not ours. *)
Definition psctrl_settings_render_key (h : host) (key : string) (n : nat) (s : ps) : option string * ps :=
  if String.eqb key "debug" then
    let '(out, any) := fold_left (debug_flag s) g_dbg ("debug"%string, false) in
    (Some (trunc n (if any then out else "debug none"%string)), s)
  else match find_row key with
  | None => (None, s)
  | Some it =>
    let '(v, s) := match iget it with Some g => run_get h it g s | None => (0, s) end in
    match labels it with
    | Some ls => if kind it =? PS_K_ENUM
                 then (Some (trunc n (key ++ " " ++ label_at (Z.to_nat v) ls)), s)
                 else (Some (trunc n (key ++ " " ++ fmt_d v)), s)
    | None => (Some (trunc n (key ++ " " ++ fmt_d v)), s)
    end
  end.

(** ** Loading a key *)
Definition loading (g : ps -> ps) (s : ps) : ps :=
  {| (g {| s with g_cfg_loading := true |}) with g_cfg_loading := false |}.

(** The first of the [n] labels that matches, ignoring case. *)
Fixpoint label_find (k : Z) (n : nat) (value : string) (ls : list string) : option Z :=
  match n, ls with
  | S n, l :: ls => if String.eqb l "" then None
                    else if strcaseeq l value then Some k else label_find (k + 1) n value ls
  | _, _ => None
  end.

Definition is_sep (c : ascii) : bool := Ascii.eqb c "," || Ascii.eqb c " " || Ascii.eqb c "009".
(** [strtok(p, ", \t")]: the maximal runs without separators. *)
Fixpoint strtok (cur s : string) : list string :=
  let flush := if String.eqb cur "" then [] else [cur] in
  match s with
  | EmptyString => flush
  | String c s => if is_sep c then (flush ++ strtok EmptyString s)%list
                  else strtok (cur ++ String c EmptyString)%string s
  end.

(** Split a token at its first [=]. *)
Fixpoint split_eq (s : string) : string * option string :=
  match s with
  | EmptyString => (EmptyString, None)
  | String c s => if Ascii.eqb c "=" then (EmptyString, Some s)
                  else let '(a, b) := split_eq s in (String c a, b)
  end.

Definition debug_token (s : ps) (tok : string) : ps :=
  let '(tag, eq) := split_eq tok in
  let v := match eq with Some r => atoi r | None => 1 end in
  fold_left (fun s d => if strcaseeq tag d.1 then upd d.2 v s else s) g_dbg s.

Definition debug_clear (s : ps) : ps :=
  fold_left (fun s d => upd d.2 (if decide (d.2 = pst_dbg_hostfs) then -1 else 0) s) g_dbg s.

Definition psctrl_settings_config_key (h : host) (key : option string) (value : option string) (s : ps) : Z * ps :=
  match key with
  | None => (0, s)
  | Some key =>
    if String.eqb key "debug" then
      let s := debug_clear s in
      match value with
      | None => (1, s)
      | Some v => if String.eqb v "" || strcaseeq v "none" then (1, s)
                  else (1, fold_left debug_token (strtok EmptyString (trunc 256 v)) s)
      end
    else match find_row key with
    | None => (0, s)
    | Some it =>
      let set k := match iset it with Some f => loading (fun s => (run_set h it f k s).2) s | None => s end in
      match value with
      | None => (1, s)
      | Some v =>
        match (if kind it =? PS_K_ENUM then
                 match labels it with Some ls => label_find 0 (Z.to_nat (nenum it)) v ls | None => None end
               else None) with
        | Some k => (1, set k)
        | None => (1, set (strtol_int v))
        end
      end
    end
  end.

(** ** Numbers survive printing and parsing *)

Lemma digit_val_digit d : 0 <= d < 10 -> digit_val (digit d) = Some d.
Proof.
  intros H. assert (d = 0 \/ d = 1 \/ d = 2 \/ d = 3 \/ d = 4 \/ d = 5 \/ d = 6 \/ d = 7 \/ d = 8 \/ d = 9) as Hd by lia.
  repeat (destruct Hd as [->|Hd]; [reflexivity|]). by subst.
Qed.

Lemma digits_dec fuel : forall n acc, 0 <= n < 10 ^ Z.of_nat fuel ->
  digits_val 10 0 (dec_digits fuel n acc) = digits_val 10 n acc.
Proof.
  induction fuel as [|fuel IH]; intros n acc Hn; [cbn in *; replace n with 0 by lia; done|].
  rewrite Nat2Z.inj_succ, Z.pow_succ_r in Hn by lia. cbn [dec_digits].
  assert (Hm : 0 <= n mod 10 < 10) by (apply Z.mod_pos_bound; lia).
  assert (Hstep : forall a, digits_val 10 a (String (digit (n mod 10)) acc) = digits_val 10 (a * 10 + n mod 10) acc).
  { intros a. cbn [digits_val]. rewrite digit_val_digit by done. by destruct (Z.ltb_spec (n mod 10) 10); [|lia]. }
  destruct (Z.eqb_spec (n / 10) 0).
  - rewrite Hstep. f_equal. Z.div_mod_to_equations; lia.
  - rewrite IH by (Z.div_mod_to_equations; lia). rewrite Hstep. f_equal. Z.div_mod_to_equations; lia.
Qed.

(** The first digit of a positive number is not zero. *)
Lemma dec_head fuel : forall n acc, 0 < n < 10 ^ Z.of_nat fuel ->
  exists d s, dec_digits fuel n acc = String (digit d) s /\ 1 <= d <= 9.
Proof.
  induction fuel as [|fuel IH]; intros n acc Hn; [cbn in *; lia|].
  rewrite Nat2Z.inj_succ, Z.pow_succ_r in Hn by lia. cbn [dec_digits].
  destruct (Z.eqb_spec (n / 10) 0).
  - do 2 eexists. split; [reflexivity|]. Z.div_mod_to_equations; lia.
  - apply IH. Z.div_mod_to_equations; lia.
Qed.

Lemma digit_plain d : 0 <= d <= 9 ->
  is_space (digit d) = false /\ Ascii.eqb (digit d) "-" = false /\ Ascii.eqb (digit d) "+" = false /\
  Ascii.eqb (digit d) "0" = (d =? 0).
Proof.
  intros H. assert (d = 0 \/ d = 1 \/ d = 2 \/ d = 3 \/ d = 4 \/ d = 5 \/ d = 6 \/ d = 7 \/ d = 8 \/ d = 9) as Hd by lia.
  repeat (destruct Hd as [->|Hd]; [auto|]). by subst.
Qed.

(** A positive [int] reads back through base 0. *)
Lemma strtol_mag_dec n : 0 < n < 10 ^ 10 -> strtol_mag (dec_digits 10 n EmptyString) = n.
Proof.
  intros Hn. destruct (dec_head 10 n EmptyString) as (d & s & E & Hd); [exact Hn|].
  pose proof (digits_dec 10 n EmptyString) as Hv. rewrite E in *. cbn [strtol_mag].
  destruct (digit_plain d ltac:(lia)) as (_ & _ & _ & ->).
  rewrite (proj2 (Z.eqb_neq d 0)) by lia. apply Hv. change (Z.of_nat 10) with 10. lia.
Qed.

Lemma strtol_fmt n : is_s32 n -> strtol_int (fmt_d n) = n.
Proof.
  intros Hn. unfold is_s32 in Hn. unfold fmt_d.
  destruct (Z.ltb_spec n 0).
  - unfold strtol_int. cbn [skip_space is_space]. change (is_space "-") with false. cbn iota.
    rewrite Ascii.eqb_refl, strtol_mag_dec by lia. rewrite Z.min_r, Z.max_r by lia.
    rewrite s32_small by (unfold is_s32; lia). lia.
  - destruct (decide (n = 0)) as [->|]; [reflexivity|].
    destruct (dec_head 10 n EmptyString) as (d & s & E & Hd); [change (10 ^ Z.of_nat 10) with 10000000000; lia|].
    pose proof (strtol_mag_dec n) as Hm. rewrite E in *. unfold strtol_int. cbn [skip_space].
    destruct (digit_plain d ltac:(lia)) as (-> & Hmi & Hpl & _). rewrite Hmi, Hpl, Hm by lia.
    rewrite Z.min_r, Z.max_r by lia. by apply s32_small.
Qed.

(** ** A key finds its row *)

Lemma live_name i it : g_live !! i = Some it -> item_index (name it) = Z.of_nat i.
Proof.
  unfold g_live, table_init. intros E. apply list_lookup_fmap_Some in E as (it' & -> & E).
  apply item_index_lookup in E. rewrite <- E. by repeat case_match.
Qed.

Lemma find_row_live i it : g_live !! i = Some it -> item_is_cfg_tunable it = true ->
  find_row (name it) = Some it.
Proof.
  intros E Ht. unfold find_row. destruct (List.find _ g_live) as [x|] eqn:F.
  - apply find_some in F as [Hx Hn]. apply andb_true_iff in Hn as [Hn _]. apply String.eqb_eq in Hn.
    apply list_elem_of_In, list_elem_of_lookup_1 in Hx as [j Hj].
    pose proof (live_name _ _ E). pose proof (live_name _ _ Hj). rewrite Hn in *.
    assert (i = j) as <- by lia. congruence.
  - exfalso. pose proof (find_none _ _ F it) as Hnone. cbn beta in Hnone. rewrite String.eqb_refl, Ht in Hnone.
    discriminate Hnone. apply list_elem_of_In. by eapply list_elem_of_lookup_2.
Qed.

(** The labels of an enumeration are found again, and every line fits. *)
Definition cfg_row_ok (it : ps_item) : bool :=
  (imin it >=? -2147483648) && (imax it <? 2147483648) && (slen (name it) <=? 23) &&
  negb (String.eqb (name it) "debug") &&
  (if kind it =? PS_K_ENUM then
     match labels it with
     | Some ls => (0 <=? imin it) && (imax it <? Z.of_nat (length ls)) &&
         forallb (fun k => match label_find 0 (Z.to_nat (nenum it)) (label_at k ls) ls with
                           | Some j => j =? Z.of_nat k | None => false end) (seq 0 (length ls)) &&
         forallb (fun l => slen l <=? 200) ls
     | None => false end
   else true).

Lemma cfg_rows_ok : forallb cfg_row_ok g_live = true.
Proof. vm_compute. reflexivity. Qed.

Lemma dec_length fuel : forall n acc, (String.length (dec_digits fuel n acc) <= fuel + String.length acc)%nat.
Proof.
  induction fuel as [|fuel IH]; intros n acc; cbn [dec_digits]; [lia|].
  case_match; [cbn; lia|]. etransitivity; [apply IH|]. cbn. lia.
Qed.

Lemma fmt_length n : (String.length (fmt_d n) <= 11)%nat.
Proof.
  unfold fmt_d. pose proof (dec_length 10 n EmptyString). pose proof (dec_length 10 (- n) EmptyString).
  case_match; cbn [String.length] in *; lia.
Qed.

Lemma append_length a b : String.length (a ++ b) = (String.length a + String.length b)%nat.
Proof. induction a as [|c a IH]; [done|]. change (S (String.length (a ++ b)) = S (String.length a + String.length b))%nat. by rewrite IH. Qed.

Lemma line_fits key v : (String.length key <= 23)%nat -> (String.length v <= 200)%nat ->
  trunc 256 (key ++ " " ++ v) = (key ++ " " ++ v)%string.
Proof. intros. apply substring_full. rewrite !append_length. cbn. lia. Qed.

(** The text a value is written as, and what the loader makes of it. *)
Definition cfg_text (it : ps_item) (v : Z) : string :=
  match labels it with
  | Some ls => if kind it =? PS_K_ENUM then label_at (Z.to_nat v) ls else fmt_d v
  | None => fmt_d v
  end.
Definition cfg_parse (it : ps_item) (t : string) : Z :=
  match (if kind it =? PS_K_ENUM then
           match labels it with Some ls => label_find 0 (Z.to_nat (nenum it)) t ls | None => None end
         else None) with
  | Some k => k | None => strtol_int t end.

Lemma label_at_in k ls : (k < length ls)%nat -> String.length (label_at k ls) = 0%nat \/ In (label_at k ls) ls.
Proof.
  revert k. induction ls as [|l ls IH]; intros [|k] Hk; cbn in *; try lia; auto.
  case_match; [by left|]. destruct (IH k ltac:(lia)); auto.
Qed.

Lemma cfg_text_parse it v : cfg_row_ok it = true -> imin it <= v <= imax it ->
  cfg_parse it (cfg_text it v) = v /\ (String.length (cfg_text it v) <= 200)%nat.
Proof.
  unfold cfg_row_ok. rewrite !andb_true_iff. intros ((((Hlo & Hhi) & _) & _) & He) Hv.
  assert (Hs : is_s32 v) by (unfold is_s32; lia).
  unfold cfg_text, cfg_parse. pose proof (fmt_length v).
  destruct (kind it =? PS_K_ENUM).
  - destruct (labels it) as [ls|]; [|done]. rewrite !andb_true_iff in He.
    destruct He as (((H0 & H1) & H2) & H3).
    rewrite forallb_forall in H2. specialize (H2 (Z.to_nat v)).
    rewrite in_seq in H2. specialize (H2 ltac:(lia)).
    apply Z.leb_le in H0. cbn beta in H2.
    split; [destruct (label_find _ _ _ _) as [j|]; [apply Z.eqb_eq in H2; lia|done]|].
    destruct (label_at_in (Z.to_nat v) ls ltac:(lia)) as [->|Hin]; [lia|].
    rewrite forallb_forall in H3. specialize (H3 _ Hin). unfold slen in H3. lia.
  - split; [|destruct (labels it); lia]. destruct (labels it); by apply strtol_fmt.
Qed.

(** A live tunable survives the configuration file: the line
    [psctrl_settings_render_key] writes for its key is the key and a text that
    [psctrl_settings_config_key], on any later state, turns back into the same
    value. *)
Theorem cfg_roundtrip h i it t s s2 :
  g_live !! i = Some it -> item_is_cfg_tunable it = true ->
  iset it = Some gen_set -> iget it = Some gen_get -> tgt it = Some t ->
  imin it <= tun s t <= imax it ->
  exists text,
    psctrl_settings_render_key h (name it) 256 s = (Some (name it ++ " " ++ text)%string, s) /\
    let '(known, s3) := psctrl_settings_config_key h (Some (name it)) (Some text) s2 in
    known = 1 /\ tun s3 t = tun s t /\ g_cfg_loading s3 = false.
Proof.
  intros E Ht Es Eg Et Hv. pose proof (forallb_lookup _ _ _ _ cfg_rows_ok E) as Hok.
  destruct (cfg_text_parse it _ Hok Hv) as [Hp Hl].
  unfold cfg_row_ok in Hok. rewrite !andb_true_iff in Hok. destruct Hok as (((_ & Hn) & Hd) & _).
  apply negb_true_iff in Hd. unfold slen in Hn.
  exists (cfg_text it (tun s t)). split.
  - unfold psctrl_settings_render_key. rewrite Hd, (find_row_live i it E Ht), Eg. cbn [run_get]. rewrite Et.
    rewrite <- (line_fits (name it) (cfg_text it (tun s t))) by lia.
    unfold cfg_text. by repeat case_match.
  - unfold psctrl_settings_config_key. rewrite Hd, (find_row_live i it E Ht), Es.
    unfold cfg_parse in Hp.
    assert (Hset : forall k, k = tun s t ->
      let s3 := loading (fun s0 => (run_set h it gen_set k s0).2) s2 in
      tun s3 t = tun s t /\ g_cfg_loading s3 = false).
    { intros k ->. unfold loading. cbn [run_set].
      assert ((tun s t <? imin it) || (imax it <? tun s t) = false) as -> by lia.
      rewrite Et. cbn [snd tun g_cfg_loading]. split; [|done].
      destruct (iapply it); rewrite ?tun_apply; apply tun_upd. }
    repeat case_match; split; auto.
Qed.

Definition ym_gain_row : ps_item :=
  LIVE_INT "ym_gain" "YM gain" PS_TAB_AUDIO PS_U_X100 0 400 5 pst_ym_gain_x100 (Some apply_ym).

Lemma cfg_roundtrip_witness :
  exists text,
    psctrl_settings_render_key host0 (name ym_gain_row) 256 ps0 = (Some (name ym_gain_row ++ " " ++ text)%string, ps0) /\
    let '(known, s3) := psctrl_settings_config_key host0 (Some (name ym_gain_row)) (Some text) ps0 in
    known = 1 /\ tun s3 pst_ym_gain_x100 = tun ps0 pst_ym_gain_x100 /\ g_cfg_loading s3 = false.
Proof.
  apply (cfg_roundtrip host0 36 ym_gain_row pst_ym_gain_x100 ps0 ps0); try (vm_compute; reflexivity).
  vm_compute. split; discriminate.
Defined.

(** All keys, in the order the writer asks for them. *)
Definition all_keys : list string :=
  map (fun k => psctrl_settings_key_at (Z.of_nat k)) (seq 0 (Z.to_nat psctrl_settings_key_count)).

(** The key enumeration is sound: every index below
    [psctrl_settings_key_count] has a non-empty key, no key appears twice, and
    the keys that are neither boot keys nor the [debug] line are exactly the
    names of the rows stored as tunables. *)
Lemma keys_distinct :
  NoDup all_keys /\ Forall (fun k => k <> EmptyString) all_keys /\
  drop (S (length g_bootkeys)) all_keys = map name (List.filter item_is_cfg_tunable g_live).
Proof.
  split; [apply (bool_decide_unpack _); vm_compute; exact I|].
  split; [apply (bool_decide_unpack _); vm_compute; exact I|vm_compute; reflexivity].
Qed.
