(* ===== verification/DosNames.v ===== *)
(** * DosNames: 8.3 names and DOS dates ([platforms/atari/network/hostdos.cpp])

    Names are lists of bytes.  [valid83] and [trunc83] are the two views of a
    TOS name, [mangle] makes one from any host name, [match83] is the FCB
    pattern match of Fsfirst. *)

From S2P Require Import Prelude.
From Stdlib Require Import ZArith Lia Bool String Ascii.
From stdpp Require Import base list.
Open Scope Z_scope.
Open Scope cint_scope.

Definition bytes := list Z.
(** A literal as bytes. *)
Definition B (s : string) : bytes := map (fun c => Z.of_nat (nat_of_ascii c)) (list_ascii_of_string s).

Definition DOT := 46.
Definition isdigit (c : Z) : bool := (48 <=? c) && (c <=? 57).
Definition islower (c : Z) : bool := (97 <=? c) && (c <=? 122).
Definition isupper (c : Z) : bool := (65 <=? c) && (c <=? 90).
Definition isalnum (c : Z) : bool := isdigit c || islower c || isupper c.
Definition toupper (c : Z) : Z := if islower c then c - 32 else c.

(** Split at the first occurrence of [c]; [None] when there is none. *)
Fixpoint split_first (c : Z) (l : bytes) : bytes * option bytes :=
  match l with
  | [] => ([], None)
  | x :: l => if x =? c then ([], Some l)
              else let '(a, b) := split_first c l in (x :: a, b)
  end.

(** Split at the last occurrence ([rfind]). *)
Definition split_last (c : Z) (l : bytes) : bytes * option bytes :=
  match split_first c (reverse l) with
  | (_, None) => (l, None)
  | (b, Some a) => (reverse a, Some (reverse b))
  end.

Definition tos_char_ok (c : Z) : bool :=
  if isalnum c then c <? 0x80
  else existsb (Z.eqb c) (B "_-!#$%&'()@^`{}~") && (c != 0).

Definition valid83 (n : bytes) : bool :=
  let '(base, e) := split_first DOT n in
  let ext := default [] e in
  if (length base =? 0)%nat || (8 <? length base)%nat || (3 <? length ext)%nat then false
  else if (match e with Some [] => true | _ => false end) then false
  else forallb tos_char_ok base && forallb tos_char_ok ext.

Definition upper (s : bytes) : bytes := map toupper s.

(** [ext.empty() ? base : base + "." + ext]. *)
Definition join83 (base ext : bytes) : bytes :=
  match ext with [] => base | _ => base ++ DOT :: ext end.

Definition trunc83 (inn : bytes) : bytes :=
  if bool_decide (inn = B ".") || bool_decide (inn = B "..") then inn
  else
    let '(base, e) := split_first DOT (upper inn) in
    let ext := match e with Some x => (split_first DOT x).1 | None => [] end in
    join83 (take 8 base) (take 3 ext).

Definition sanitize (s : bytes) : bytes :=
  flat_map (fun c => if (c =? 32) || (c =? DOT) then []
                     else [if tos_char_ok c then toupper c else 95]) s.

(** Decimal digits of a non-negative number ([%d]); six are enough below one
    million. *)
Fixpoint decimal (fuel : nat) (n : Z) (acc : bytes) : bytes :=
  match fuel with
  | O => acc
  | S fuel => let acc := (48 + n mod 10) :: acc in
              if n / 10 =? 0 then acc else decimal fuel (n / 10) acc
  end.

Definition suffix (n : Z) : bytes := 126 :: decimal 6 n [].

Definition mangle (host : bytes) (n : Z) : bytes :=
  let '(base, ext) :=
    match split_last DOT host with
    | (_, None) => (host, [])
    | ([], Some _) => (host, [])
    | (b, Some e) => (b, e)
    end in
  let base := sanitize base in
  let ext := sanitize ext in
  let base := match base with [] => B "_" | _ => base end in
  let suf := suffix n in
  join83 (take (8 - length suf) base ++ suf) (take 3 ext).

(** One field of the FCB: padded with blanks, ['*'] fills with ['?']. *)
Fixpoint fcb_field (n : nat) (s : bytes) : bytes :=
  match n with
  | O => []
  | S n' => match s with
            | [] => 32 :: fcb_field n' []
            | c :: s => if c =? 42 then replicate (S n') 63 else c :: fcb_field n' s
            end
  end.

Definition fcb (n : bytes) : bytes :=
  let '(base, e) := split_first DOT n in fcb_field 8 base ++ fcb_field 3 (default [] e).

Definition match83 (pat name : bytes) : bool :=
  if bool_decide (name = B ".") || bool_decide (name = B "..") then
    bool_decide (pat = B "*.*") || bool_decide (pat = name)
  else forallb (fun pn => (pn.1 =? 63) || (pn.1 =? pn.2)) (zip (fcb (upper pat)) (fcb name)).

Definition has_wild (s : bytes) : bool := existsb (fun c => (c =? 42) || (c =? 63)) s.

(** ** Dates *)

(** The broken-down local time ([struct tm]). *)
Record tm := mk_tm { tm_year : Z; tm_mon : Z; tm_mday : Z; tm_hour : Z; tm_min : Z; tm_sec : Z }.

Definition dos_time (t : tm) : Z :=
  u16 ((tm_hour t << 11) .| (tm_min t << 5) .| (tm_sec t / 2)).

Definition dos_date (t : tm) : Z :=
  let y := tm_year t - 80 in
  let y := if y <? 0 then 0 else y in
  let y := if 127 <? y then 127 else y in
  u16 ((y << 9) .| ((tm_mon t + 1) << 5) .| tm_mday t).

(** The time [from_dos] hands to [mktime]. *)
Definition from_dos (time date : Z) : tm :=
  mk_tm (((date >> 9) .& 0x7F) + 80) (((date >> 5) .& 0x0F) - 1) (date .& 0x1F)
        ((time >> 11) .& 0x1F) ((time >> 5) .& 0x3F) ((time .& 0x1F) * 2).

Definition tm_ok (t : tm) : Prop :=
  0 <= tm_mon t <= 11 /\ 1 <= tm_mday t <= 31 /\ 0 <= tm_hour t <= 23 /\
  0 <= tm_min t <= 59 /\ 0 <= tm_sec t <= 60.

#[export] Instance tm_ok_dec t : Decision (tm_ok t).
Proof. unfold tm_ok. apply _. Defined.

(** Bit fields packed side by side. *)
Lemma pack3 a b c : 0 <= b < 64 -> 0 <= c < 32 ->
  ((a << 11) .| (b << 5) .| c) = a * 2048 + b * 32 + c.
Proof.
  intros Hb Hc. rewrite <- Z.lor_assoc, (Z.lor_comm (b << 5) c), lor_shl_add by lia.
  rewrite Z.lor_comm, lor_shl_add by lia. change (2 ^ 5) with 32. change (2 ^ 11) with 2048. lia.
Qed.

Lemma pack3d a b c : 0 <= b < 16 -> 0 <= c < 32 ->
  ((a << 9) .| (b << 5) .| c) = a * 512 + b * 32 + c.
Proof.
  intros Hb Hc. rewrite <- Z.lor_assoc, (Z.lor_comm (b << 5) c), lor_shl_add by lia.
  rewrite Z.lor_comm, lor_shl_add by lia. change (2 ^ 5) with 32. change (2 ^ 9) with 512. lia.
Qed.

(** Packing a time stamp and unpacking it gives the same date and time,
    the seconds rounded down to even and the year clamped to 1980-2107. *)
Lemma dos_date_roundtrip t :
  tm_ok t ->
  from_dos (dos_time t) (dos_date t) =
  mk_tm (Z.max 80 (Z.min 207 (tm_year t))) (tm_mon t) (tm_mday t) (tm_hour t) (tm_min t) (tm_sec t / 2 * 2).
Proof.
  intros (Hmo & Hd & Hh & Hm & Hs). unfold from_dos, dos_time, dos_date. cbn zeta.
  set (y := if 127 <? _ then _ else _).
  assert (Hy : 0 <= y <= 127 /\ y + 80 = Z.max 80 (Z.min 207 (tm_year t))).
  { subst y. destruct (Z.ltb_spec (tm_year t - 80) 0);
      [change (127 <? 0) with false; lia|destruct (Z.ltb_spec 127 (tm_year t - 80)); lia]. }
  clearbody y. assert (Hs2 : 0 <= tm_sec t / 2 < 32) by (Z.div_mod_to_equations; lia).
  rewrite pack3, pack3d by lia. rewrite !u16_small by (unfold is_u16; lia).
  change 0x7F with (Z.ones 7). change 0x0F with (Z.ones 4). change 0x1F with (Z.ones 5).
  change 0x3F with (Z.ones 6). rewrite !Z.land_ones, !Z.shiftr_div_pow2 by lia.
  destruct Hy as [Hy0 Hy1]. rewrite <- Hy1.
  f_equal; try f_equal; Z.div_mod_to_equations; lia.
Qed.

Lemma dos_date_roundtrip_witness :
  from_dos (dos_time (mk_tm 126 9 26 13 45 59)) (dos_date (mk_tm 126 9 26 13 45 59)) =
  mk_tm (Z.max 80 (Z.min 207 126)) 9 26 13 45 (59 / 2 * 2).
Proof. apply (dos_date_roundtrip (mk_tm 126 9 26 13 45 59)). apply (bool_decide_unpack _). vm_compute. exact I. Defined.

(** ** Characters *)

(** What separators, wild cards, blanks and dots have in common: they are not
    TOS name characters. *)
Definition special (c : Z) : bool := existsb (Z.eqb c) (B ".\/*? :") || (c =? 0).

Lemma ok_not_special c : tos_char_ok c = true -> special c = false.
Proof.
  unfold tos_char_ok. destruct (isalnum c) eqn:E.
  - intros _. unfold isalnum, isdigit, islower, isupper in E.
    assert (Hr : 48 <= c <= 57 \/ 65 <= c <= 90 \/ 97 <= c <= 122) by lia.
    unfold special. cbn [existsb B map list_ascii_of_string].
    repeat match goal with |- context [c =? ?k] => let v := eval vm_compute in k in
      change k with v; rewrite (proj2 (Z.eqb_neq c v)) by lia end. done.
  - intros H. apply andb_true_iff in H as [H _]. apply existsb_exists in H as (x & Hin & Hx).
    apply Z.eqb_eq in Hx. subst x. cbn in Hin.
    repeat (destruct Hin as [<-|Hin]; [vm_compute; reflexivity|]). done.
Qed.

Lemma special_neq c d : special d = true -> tos_char_ok c = true -> c <> d.
Proof. intros Hd Hc ->. apply ok_not_special in Hc. congruence. Qed.

Lemma toupper_ok c : tos_char_ok c = true -> tos_char_ok (toupper c) = true.
Proof.
  intros H. unfold toupper. destruct (islower c) eqn:E; [|done].
  unfold tos_char_ok, isalnum, isdigit, islower, isupper in *.
  destruct (Z.leb_spec 97 c), (Z.leb_spec c 122); try discriminate E.
  assert ((65 <=? c - 32) && (c - 32 <=? 90) = true) as -> by lia.
  rewrite orb_true_r. lia.
Qed.

Lemma toupper_idem c : toupper (toupper c) = toupper c.
Proof. unfold toupper, islower. repeat case_match; try done; lia. Qed.

Lemma toupper_not_lower c : islower (toupper c) = false.
Proof. unfold toupper, islower. case_match; lia. Qed.

Lemma toupper_id c : islower c = false -> toupper c = c.
Proof. unfold toupper. by intros ->. Qed.

(** ** Base and extension *)

Definition ok_name (s : bytes) : Prop := Forall (fun c => tos_char_ok c = true) s.
(** The parts of a valid name. *)
Definition parts83 (base ext : bytes) : Prop :=
  (1 <= length base <= 8)%nat /\ (length ext <= 3)%nat /\ ok_name base /\ ok_name ext.

Lemma split_first_none c l : Forall (fun x => x <> c) l -> split_first c l = (l, None).
Proof. induction 1 as [|x l Hx _ IH]; [done|]. cbn. by rewrite (proj2 (Z.eqb_neq x c) Hx), IH. Qed.

Lemma split_first_at c a b : Forall (fun x => x <> c) a -> split_first c (a ++ c :: b) = (a, Some b).
Proof.
  induction 1 as [|x l Hx _ IH]; cbn; [by rewrite Z.eqb_refl|].
  by rewrite (proj2 (Z.eqb_neq x c) Hx), IH.
Qed.

Lemma split_first_inv c l : match split_first c l with
  | (a, Some b) => l = a ++ c :: b /\ Forall (fun x => x <> c) a
  | (a, None) => l = a /\ Forall (fun x => x <> c) a end.
Proof.
  induction l as [|x l IH]; cbn; [done|].
  destruct (Z.eqb_spec x c) as [->|Hne]; [done|].
  destruct (split_first c l) as [a [b|]], IH as [-> H]; auto.
Qed.

Lemma ok_no_dot s : ok_name s -> Forall (fun x => x <> DOT) s.
Proof. intros H. eapply Forall_impl; [exact H|]. cbn. intros c Hc. by eapply special_neq. Qed.

Lemma split_join base ext : ok_name base ->
  split_first DOT (join83 base ext) = (base, match ext with [] => None | _ => Some ext end).
Proof.
  intros H. apply ok_no_dot in H. destruct ext; cbn; [by apply split_first_none|by apply split_first_at].
Qed.

Lemma ok_forallb s : forallb tos_char_ok s = true <-> ok_name s.
Proof.
  unfold ok_name. rewrite forallb_forall, Forall_forall. by setoid_rewrite list_elem_of_In.
Qed.

Lemma valid83_join base ext : parts83 base ext -> valid83 (join83 base ext) = true.
Proof.
  intros ((Hb1 & Hb8) & He & Hb & Hx). unfold valid83. rewrite split_join by done.
  rewrite (proj2 (ok_forallb base) Hb).
  assert (Hl : (length base =? 0)%nat || (8 <? length base)%nat = false).
  { apply orb_false_iff. split; [apply Nat.eqb_neq; lia|apply Nat.ltb_ge; lia]. }
  rewrite Hl. destruct ext as [|c ext]; [done|].
  change (default [] (Some (c :: ext))) with (c :: ext). rewrite (proj2 (ok_forallb _) Hx). assert ((3 <? length (c :: ext))%nat = false) as -> by (apply Nat.ltb_ge; done).
  done.
Qed.

Lemma valid83_parts n : valid83 n = true -> exists base ext, parts83 base ext /\ n = join83 base ext.
Proof.
  unfold valid83. pose proof (split_first_inv DOT n) as Hs.
  destruct (split_first DOT n) as [base e]. destruct (_ || _) eqn:E1; [done|].
  destruct (match e with Some [] => true | _ => false end) eqn:E2; [done|].
  intros H. apply andb_true_iff in H as [Hb Hx].
  apply orb_false_iff in E1 as [E1 E3]. apply orb_false_iff in E1 as [E0 E8].
  apply Nat.eqb_neq in E0. apply Nat.ltb_ge in E8, E3.
  exists base, (default [] e). split.
  - split_and!; try done; try lia; by apply ok_forallb.
  - destruct e as [[|c ext]|]; [done| |]; destruct Hs as [-> _]; done.
Qed.

Lemma upper_join base ext : upper (join83 base ext) = join83 (upper base) (upper ext).
Proof. destruct ext; [done|]. unfold upper, join83. rewrite map_app. done. Qed.

Lemma upper_ok s : ok_name s -> ok_name (upper s).
Proof. intros H. unfold upper. apply Forall_fmap. eapply Forall_impl; [exact H|]. apply toupper_ok. Qed.

Lemma upper_length s : length (upper s) = length s.
Proof. apply length_map. Qed.

Lemma parts83_upper base ext : parts83 base ext -> parts83 (upper base) (upper ext).
Proof. intros (H1 & H2 & H3 & H4). split_and!; rewrite ?upper_length; try lia; by apply upper_ok. Qed.

(** Upper-casing keeps a name valid. *)
Lemma valid83_upper n : valid83 n = true -> valid83 (upper n) = true.
Proof.
  intros H. apply valid83_parts in H as (b & e & Hp & ->). rewrite upper_join.
  by apply valid83_join, parts83_upper.
Qed.

Lemma upper_idem s : upper (upper s) = upper s.
Proof. unfold upper. rewrite map_map. apply map_ext. apply toupper_idem. Qed.

Lemma valid83_not_dots n : valid83 n = true -> n <> B "." /\ n <> B "..".
Proof. intros H. split; intros ->; discriminate H. Qed.

(** Truncation leaves a valid upper-case name alone. *)
Lemma trunc83_id n : valid83 n = true -> upper n = n -> trunc83 n = n.
Proof.
  intros H Hu. destruct (valid83_not_dots n H) as [H1 H2]. unfold trunc83.
  rewrite !bool_decide_eq_false_2 by done. cbn [orb]. rewrite Hu.
  apply valid83_parts in H as (b & e & ((_ & Hb8) & He & Hb & Hx) & ->).
  rewrite split_join by done.
  destruct e as [|c e]; [by rewrite take_ge by lia|].
  rewrite (split_first_none DOT (c :: e)) by (by apply ok_no_dot). cbn [fst].
  by rewrite !take_ge by lia.
Qed.

(** ** Mangled names *)

Definition is_digit_char (c : Z) : Prop := 48 <= c <= 57.

Lemma decimal_digits fuel : forall n acc, Forall is_digit_char acc -> 0 <= n -> Forall is_digit_char (decimal fuel n acc).
Proof.
  induction fuel as [|fuel IH]; intros n acc Ha Hn; cbn [decimal]; [done|].
  assert (Hd : Forall is_digit_char ((48 + n mod 10) :: acc)).
  { constructor; [|done]. unfold is_digit_char. Z.div_mod_to_equations; lia. }
  case_match; [done|]. apply IH; [done|]. Z.div_mod_to_equations; lia.
Qed.

Lemma decimal_length fuel : forall n acc k, 0 <= n < 10 ^ Z.of_nat k -> (1 <= k)%nat ->
  (length (decimal fuel n acc) <= k + length acc)%nat.
Proof.
  induction fuel as [|fuel IH]; intros n acc k Hn Hk; cbn [decimal]; [lia|].
  destruct (Z.eqb_spec (n / 10) 0); [cbn [length]; lia|].
  destruct k as [|[|k]]; [lia| |].
  - exfalso. change (10 ^ Z.of_nat 1) with 10 in Hn. Z.div_mod_to_equations; lia.
  - etransitivity; [apply (IH _ _ (S k)); [|lia]|cbn [length]; lia].
    rewrite (Nat2Z.inj_succ (S k)), Z.pow_succ_r in Hn by lia. Z.div_mod_to_equations; lia.
Qed.

(** The value of a digit string. *)
Definition dval (a : Z) (l : bytes) : Z := fold_left (fun a c => a * 10 + (c - 48)) l a.

Lemma dval_decimal fuel : forall n acc, 0 <= n < 10 ^ Z.of_nat fuel -> dval 0 (decimal fuel n acc) = dval n acc.
Proof.
  induction fuel as [|fuel IH]; intros n acc Hn; cbn [decimal]; [cbn in Hn; by replace n with 0 by lia|].
  rewrite Nat2Z.inj_succ, Z.pow_succ_r in Hn by lia.
  destruct (Z.eqb_spec (n / 10) 0).
  - unfold dval. cbn [fold_left]. f_equal. Z.div_mod_to_equations; lia.
  - rewrite IH by (Z.div_mod_to_equations; lia). unfold dval. cbn [fold_left]. f_equal.
    Z.div_mod_to_equations; lia.
Qed.

Lemma decimal_inj n m : 0 <= n < 1000000 -> 0 <= m < 1000000 -> decimal 6 n [] = decimal 6 m [] -> n = m.
Proof.
  intros Hn Hm E. pose proof (dval_decimal 6 n [] Hn) as En. pose proof (dval_decimal 6 m [] Hm) as Em.
  rewrite E in En. cbn in En, Em. congruence.
Qed.

Lemma digits_ok l : Forall is_digit_char l -> ok_name l /\ upper l = l.
Proof.
  intros H. split.
  - eapply Forall_impl; [exact H|]. unfold is_digit_char. intros c Hc. unfold tos_char_ok, isalnum, isdigit.
    assert ((48 <=? c) && (c <=? 57) = true) as -> by lia. cbn [orb]. lia.
  - induction H as [|c l Hc _ IH]; [done|].
    change (toupper c :: upper l = c :: l). rewrite IH. f_equal. apply toupper_id.
    unfold is_digit_char, islower in *. lia.
Qed.

Lemma suffix_ok n : 0 <= n < 100000 ->
  ok_name (suffix n) /\ upper (suffix n) = suffix n /\ (2 <= length (suffix n) <= 6)%nat.
Proof.
  intros Hn. unfold suffix.
  destruct (digits_ok (decimal 6 n [])) as [H1 H2]; [by apply decimal_digits; [|lia]|].
  split_and!.
  - constructor; [reflexivity|done].
  - cbn [upper map] in *. f_equal. exact H2.
  - cbn [length]. assert (1 <= length (decimal 6 n []))%nat; [|lia].
    cbn [decimal]. repeat case_match; cbn; lia.
  - cbn [length]. pose proof (decimal_length 6 n [] 5 Hn ltac:(lia)) as H. cbn [length] in H. lia.
Qed.

Lemma sanitize_ok s : ok_name (sanitize s) /\ upper (sanitize s) = sanitize s.
Proof.
  induction s as [|c s [IH1 IH2]]; [by split; [constructor|]|].
  change (sanitize (c :: s)) with
    ((if (c =? 32) || (c =? DOT) then [] else [if tos_char_ok c then toupper c else 95]) ++ sanitize s).
  destruct ((c =? 32) || (c =? DOT)); [done|]. cbn [app].
  assert (Hc : tos_char_ok (if tos_char_ok c then toupper c else 95) = true /\
               islower (if tos_char_ok c then toupper c else 95) = false).
  { destruct (tos_char_ok c) eqn:E; [|done]. split; [by apply toupper_ok|apply toupper_not_lower]. }
  destruct Hc as [Hc1 Hc2]. split; [by constructor|].
  unfold upper in *. cbn [map]. by rewrite IH2, toupper_id.
Qed.

Lemma ok_take n s : ok_name s -> ok_name (take n s).
Proof. apply Forall_take. Qed.

Lemma upper_app a b : upper (a ++ b) = upper a ++ upper b.
Proof. apply map_app. Qed.

Lemma upper_take n s : upper s = s -> upper (take n s) = take n s.
Proof. intros H. unfold upper in *. rewrite <- firstn_map, H. done. Qed.

(** The base and extension [mangle] starts from. *)
Definition mangle_parts (host : bytes) : bytes * bytes :=
  let '(base, ext) :=
    match split_last DOT host with
    | (_, None) => (host, [])
    | ([], Some _) => (host, [])
    | (b, Some e) => (b, e)
    end in
  (match sanitize base with [] => B "_" | s => s end, take 3 (sanitize ext)).

Lemma mangle_eq host n :
  mangle host n = join83 (take (8 - length (suffix n)) (mangle_parts host).1 ++ suffix n) (mangle_parts host).2.
Proof. unfold mangle, mangle_parts. repeat case_match; simplify_eq; done. Qed.

Lemma mangle_parts_ok host : let '(b, e) := mangle_parts host in
  ok_name b /\ upper b = b /\ ok_name e /\ upper e = e /\ (length e <= 3)%nat.
Proof.
  unfold mangle_parts.
  match goal with |- context [let '(_, _) := ?p in (_, take 3 _)] => destruct p as [base ext] end.
  destruct (sanitize_ok base) as [H1 H2], (sanitize_ok ext) as [H3 H4].
  split_and!.
  - destruct (sanitize base); [by repeat constructor|done].
  - by destruct (sanitize base).
  - by apply ok_take.
  - by apply upper_take.
  - rewrite length_take. lia.
Qed.

(** Every mangled name is a valid upper-case 8.3 name. *)
Lemma mangle_valid host n : 0 <= n < 100000 -> valid83 (mangle host n) = true /\ upper (mangle host n) = mangle host n.
Proof.
  intros Hn. rewrite mangle_eq. pose proof (mangle_parts_ok host) as Hp.
  destruct (mangle_parts host) as [b e], Hp as (Hb & Hbu & He & Heu & Hel). cbn [fst snd].
  destruct (suffix_ok n Hn) as (Hs & Hsu & Hsl). split.
  - apply valid83_join. split_and!; try done.
    + rewrite length_app, length_take. lia.
    + rewrite length_app, length_take. lia.
    + apply Forall_app. split; [by apply ok_take|done].
  - rewrite upper_join, upper_app, upper_take, Hsu, Heu; done.
Qed.

(** Two names of one file differ in their counter. *)
Lemma split_first_tilde a d : Forall is_digit_char d -> split_first 126 (reverse (a ++ 126 :: d)) = (reverse d, Some (reverse a)).
Proof.
  intros H. rewrite reverse_app, reverse_cons, <- app_assoc. cbn [app]. apply split_first_at.
  apply Forall_reverse. eapply Forall_impl; [exact H|]. unfold is_digit_char. intros; lia.
Qed.

Lemma join83_inj a b e : join83 a e = join83 b e -> a = b.
Proof. destruct e; [done|]. apply app_inv_tail. Qed.

Lemma mangle_inj host n m : 0 <= n < 100000 -> 0 <= m < 100000 -> mangle host n = mangle host m -> n = m.
Proof.
  intros Hn Hm. rewrite !mangle_eq. intros E. apply join83_inj in E.
  unfold suffix at 2 4 in E.
  assert (Hdn : Forall is_digit_char (decimal 6 n [])) by (by apply decimal_digits; [|lia]).
  assert (Hdm : Forall is_digit_char (decimal 6 m [])) by (by apply decimal_digits; [|lia]).
  apply (f_equal (fun l => split_first 126 (reverse l))) in E.
  rewrite !split_first_tilde in E by done. injection E as E _.
  apply (f_equal reverse) in E. rewrite !reverse_involutive in E.
  apply decimal_inj; [lia|lia|done].
Qed.
