(* ===== verification/DosDir.v ===== *)
(** * DosDir: host directories as TOS directories
    ([platforms/atari/network/hostdos.cpp])

    The map of a host directory to TOS names ([map_dir]), its cache, and the
    path resolution built on it.  The host file system is reached through the
    [HostFS] interface. *)

From S2P Require Import Prelude DosNames.
From Stdlib Require Import ZArith Lia Bool String Permutation.
From stdpp Require Import base list gmap.
Open Scope Z_scope.
Open Scope cint_scope.

(** ** The host file system, as far as names go *)
Inductive ftype := S_REG | S_DIR | S_OTHER.
#[export] Instance ftype_eq_dec : EqDecision ftype.
Proof. solve_decision. Defined.

(** [struct stat]: type, permission bits, size, modification time (ns, and
    broken down as local time). *)
Record stat_t := mk_stat { st_type : ftype; st_mode : Z; st_size : Z; st_mtim : Z; st_tm : tm }.

Class HostFS (W : Type) := {
  h_stat : W -> bytes -> option stat_t;
  h_readdir : W -> bytes -> option (list bytes) }.

(** What POSIX promises of [readdir]: names are not empty, contain no slash,
    and do not repeat within one directory. *)
Class HostFSLaws (W : Type) `{HostFS W} := {
  readdir_name : forall w d l nm, h_readdir w d = Some l -> In nm l -> nm <> [] /\ ~ In 47 nm;
  readdir_nodup : forall w d l, h_readdir w d = Some l -> NoDup l }.

(** ** Error codes *)
Definition E_OK := 0.
Definition ERROR := -1.
Definition EWRPRO := -13.
Definition EFILNF := -33.
Definition EPTHNF := -34.
Definition ENHNDL := -35.
Definition EACCDN := -36.
Definition EIHNDL := -37.
Definition ENSMEM := -39.
Definition EDRIVE := -46.
Definition ENSAME := -48.
Definition ENMFIL := -49.
Definition ERANGE_T := -64.
Definition EPLFMT := -66.

Inductive res (A : Type) := Ok (a : A) | Err (e : Z).
Arguments Ok {A}. Arguments Err {A}.

Record ent := mk_ent { tos : bytes; host : bytes }.

(** [std::string::operator<]: bytes compared as unsigned characters. *)
Fixpoint bytes_leb (a b : bytes) : bool :=
  match a, b with
  | [], _ => true
  | _ :: _, [] => false
  | x :: a, y :: b => if x <? y then true else if x =? y then bytes_leb a b else false
  end.

(** [std::sort] with a key. *)
Fixpoint insert_by {A} (key : A -> bytes) (x : A) (l : list A) : list A :=
  match l with
  | [] => [x]
  | y :: l' => if bytes_leb (key x) (key y) then x :: l else y :: insert_by key x l'
  end.
Definition sort_by {A} (key : A -> bytes) (l : list A) : list A := foldr (insert_by key) [] l.

Definition mem (x : bytes) (l : list bytes) : bool := existsb (fun y => bool_decide (y = x)) l.

(** First pass: names that are 8.3 already keep their upper-cased form, the
    first of a case-insensitive clash wins.  Returns the entries, the names
    taken and the host names left over. *)
Fixpoint pass1 (names : list bytes) (taken : list bytes) : list ent * list bytes * list bytes :=
  match names with
  | [] => ([], taken, [])
  | nm :: names =>
    let t := upper nm in
    if valid83 nm && negb (mem t taken)
    then let '(out, taken, rest) := pass1 names (t :: taken) in (mk_ent t nm :: out, taken, rest)
    else let '(out, taken, rest) := pass1 names taken in (out, taken, nm :: rest)
  end.

(** [for (int n = 1; n < 100000; n++)]: the first free mangled name. *)
Fixpoint free_name (fuel : nat) (nm : bytes) (n : Z) (taken : list bytes) : option bytes :=
  match fuel with
  | O => None
  | S fuel => let t := mangle nm n in
              if mem t taken then free_name fuel nm (n + 1) taken else Some t
  end.
Definition MANGLE_MAX : nat := Z.to_nat 99999.

(** Second pass: the rest, in order. *)
Fixpoint pass2 (rest : list bytes) (taken : list bytes) : list ent :=
  match rest with
  | [] => []
  | nm :: rest => match free_name MANGLE_MAX nm 1 taken with
                  | Some t => mk_ent t nm :: pass2 rest (t :: taken)
                  | None => pass2 rest taken
                  end
  end.

Definition build_map (names : list bytes) : list ent :=
  let '(out, taken, rest) := pass1 (sort_by id names) [] in
  sort_by host (out ++ pass2 rest taken).

Definition dcache := gmap bytes (Z * list ent).

Section Dir.
Context {W : Type} `{HostFS W} (w : W).

Definition path_join (dir nm : bytes) : bytes := dir ++ 47 :: nm.

(** Dot-files, dangling links and special files are hidden. *)
Definition visible (dir nm : bytes) : bool :=
  if match nm with c :: _ => c =? DOT | [] => false end then false
  else match h_stat w (path_join dir nm) with
       | Some st => bool_decide (st_type st = S_REG) || bool_decide (st_type st = S_DIR)
       | None => false
       end.

Definition map_dir (cache : dcache) (dir : bytes) : option (list ent) * dcache :=
  match h_stat w dir with
  | None => (None, cache)
  | Some st =>
    if bool_decide (st_type st <> S_DIR) then (None, cache)
    else
      let fresh :=
        match h_readdir w dir with
        | None => (None, cache)
        | Some raw =>
          let m := build_map (List.filter (visible dir) raw) in
          let cache := if (32 <=? size cache)%nat then ∅ else cache in
          (Some m, <[dir := (st_mtim st, m)]> cache)
        end in
      match cache !! dir with
      | Some (mt, m) => if mt =? st_mtim st then (Some m, cache) else fresh
      | None => fresh
      end
  end.

Definition find_tos (t : bytes) (m : list ent) : option ent := List.find (fun e => bool_decide (tos e = t)) m.

Definition lookup_ent (cache : dcache) (dir t : bytes) : option ent * dcache :=
  let '(m, cache) := map_dir cache dir in
  (match m with Some m => find_tos t m | None => None end, cache).

(** ** Drives and paths *)
Record drive := mk_hdrive { d_enabled : bool; d_readonly : bool; d_path : bytes }.

(** [while (r.size() > 1 && r.back() == '/') r.pop_back()]. *)
Fixpoint strip_slashes (r : bytes) : bytes :=   (* on the reversed path *)
  match r with
  | c :: ((_ :: _) as r') => if c =? 47 then strip_slashes r' else r
  | _ => r
  end.
Definition root_of (d : drive) : bytes := reverse (strip_slashes (reverse (d_path d))).

(** The pieces of a path between back- and forward slashes, empty ones
    included. *)
Fixpoint split_seps (s : bytes) : list bytes :=
  match s with
  | [] => [[]]
  | c :: s => if (c =? 92) || (c =? 47) then [] :: split_seps s
              else match split_seps s with p :: ps => (c :: p) :: ps | [] => [[c]] end
  end.

(** One component: skipped, up one level, or down with its 8.3 name. *)
Definition parse_step (c : list bytes) (comp : bytes) : list bytes :=
  if bool_decide (comp = []) || bool_decide (comp = B ".") then c
  else if bool_decide (comp = B "..") then removelast c
  else c ++ [trunc83 comp].

Definition parse (cwd : list bytes) (gem : bytes) : list bytes :=
  let s := match gem with _ :: 58 :: s => s | _ => gem end in
  let start := match s with
               | [] => cwd
               | c :: _ => if (c =? 92) || (c =? 47) then [] else cwd
               end in
  fold_left parse_step (split_seps s) start.

(** Host directory behind a list of components. *)
Fixpoint walk (cache : dcache) (h : bytes) (c : list bytes) : res bytes * dcache :=
  match c with
  | [] => (Ok h, cache)
  | x :: c =>
    match lookup_ent cache h x with
    | (None, cache) => (Err EPTHNF, cache)
    | (Some e, cache) =>
      let h := path_join h (host e) in
      match h_stat w h with
      | Some st => if bool_decide (st_type st = S_DIR) then walk cache h c else (Err EPTHNF, cache)
      | None => (Err EPTHNF, cache)
      end
    end
  end.

(** [resolve] after parsing. *)
Definition resolve_comps (cache : dcache) (d : drive) (c : list bytes) : res (bytes * stat_t) * dcache :=
  match c with
  | [] => (match h_stat w (root_of d) with Some st => Ok (root_of d, st) | None => Err EPTHNF end, cache)
  | _ =>
    match walk cache (root_of d) (removelast c) with
    | (Err e, cache) => (Err e, cache)
    | (Ok dir, cache) =>
      match lookup_ent cache dir (List.last c []) with
      | (None, cache) => (Err EFILNF, cache)
      | (Some e, cache) =>
        let hp := path_join dir (host e) in
        (match h_stat w hp with Some st => Ok (hp, st) | None => Err EFILNF end, cache)
      end
    end
  end.

Definition resolve (cache : dcache) (d : drive) (cwd : list bytes) (gem : bytes) : res (bytes * stat_t) * dcache :=
  resolve_comps cache d (parse cwd gem).

(** Parent, leaf and same-named entry of something about to be created. *)
Definition resolve_new (cache : dcache) (d : drive) (cwd : list bytes) (gem : bytes)
    : res (bytes * bytes * option bytes) * dcache :=
  match parse cwd gem with
  | [] => (Err EACCDN, cache)
  | c =>
    match walk cache (root_of d) (removelast c) with
    | (Err e, cache) => (Err e, cache)
    | (Ok dir, cache) =>
      let leaf := List.last c [] in
      if bool_decide (leaf = B ".") || bool_decide (leaf = B "..") || has_wild leaf then (Err EACCDN, cache)
      else let '(e, cache) := lookup_ent cache dir leaf in
           (Ok (dir, leaf, match e with Some e => Some (path_join dir (host e)) | None => None end), cache)
    end
  end.
End Dir.

(** ** The directory map *)

Lemma insert_by_perm {A} (key : A -> bytes) x l : insert_by key x l ≡ₚ x :: l.
Proof.
  induction l as [|y l IH]; cbn; [done|]. case_match; [done|].
  rewrite IH. apply Permutation_swap.
Qed.

Lemma sort_by_perm {A} (key : A -> bytes) l : sort_by key l ≡ₚ l.
Proof. unfold sort_by. induction l as [|x l IH]; cbn; [done|]. by rewrite insert_by_perm, IH. Qed.

Lemma mem_spec x l : mem x l = true <-> In x l.
Proof.
  unfold mem. rewrite existsb_exists. split.
  - intros (y & Hy & E). apply bool_decide_eq_true in E. by subst.
  - intros Hx. exists x. split; [done|]. by apply bool_decide_eq_true.
Qed.

Lemma mem_false x l : mem x l = false -> ~ In x l.
Proof. intros E Hin. apply mem_spec in Hin. congruence. Qed.

Lemma pass1_spec names : forall taken, NoDup taken ->
  let '(out, taken', rest) := pass1 names taken in
  map host out ++ rest ≡ₚ names /\ map tos out ++ taken ≡ₚ taken' /\ NoDup taken' /\
  Forall (fun e => valid83 (host e) = true /\ tos e = upper (host e)) out.
Proof.
  induction names as [|nm names IH]; intros taken Hn; [by split_and!; try constructor|].
  cbn [pass1]. destruct (valid83 nm && negb (mem (upper nm) taken)) eqn:E.
  - apply andb_true_iff in E as [Hv Hm]. apply negb_true_iff, mem_false in Hm.
    assert (Hn' : NoDup (upper nm :: taken)) by (constructor; [by rewrite list_elem_of_In|done]).
    specialize (IH (upper nm :: taken) Hn'). destruct (pass1 names (upper nm :: taken)) as [[out taken'] rest].
    destruct IH as (H1 & H2 & H3 & H4). cbn [map app]. split_and!.
    + by constructor.
    + cbn [tos]. rewrite <- H2. by rewrite Permutation_middle.
    + done.
    + by constructor.
  - specialize (IH taken Hn). destruct (pass1 names taken) as [[out taken'] rest].
    destruct IH as (H1 & H2 & H3 & H4). split_and!; try done.
    rewrite <- Permutation_middle. by constructor.
Qed.

Lemma free_name_some fuel : forall nm n taken t, free_name fuel nm n taken = Some t ->
  (exists k, n <= k < n + Z.of_nat fuel /\ t = mangle nm k) /\ ~ In t taken.
Proof.
  induction fuel as [|fuel IH]; intros nm n taken t E; [done|]. cbn [free_name] in E.
  destruct (mem (mangle nm n) taken) eqn:Em.
  - destruct (IH _ _ _ _ E) as [(k & Hk & ->) Ht]. split; [|done]. exists k. split; [lia|done].
  - injection E as <-. split; [exists n; split; [lia|done]|by apply mem_false].
Qed.

Lemma free_name_none fuel : forall nm n taken, free_name fuel nm n taken = None ->
  forall k, n <= k < n + Z.of_nat fuel -> In (mangle nm k) taken.
Proof.
  induction fuel as [|fuel IH]; intros nm n taken E k Hk; [lia|]. cbn [free_name] in E.
  destruct (mem (mangle nm n) taken) eqn:Em; [|done]. apply mem_spec in Em.
  destruct (decide (k = n)) as [->|]; [done|]. apply (IH _ _ _ E). lia.
Qed.

(** Fewer names taken than counters to try: one is free. *)
Lemma free_name_total nm taken : (length taken < MANGLE_MAX)%nat -> free_name MANGLE_MAX nm 1 taken <> None.
Proof.
  intros Hl E. pose proof (free_name_none _ _ _ _ E) as Hall.
  set (cand := map (fun i => mangle nm (Z.of_nat i)) (seq 1 MANGLE_MAX)).
  assert (Hmax : Z.of_nat MANGLE_MAX = 99999) by (unfold MANGLE_MAX; lia).
  assert (Hincl : incl cand taken).
  { intros t Ht. subst cand. apply in_map_iff in Ht as (i & <- & Hi). apply in_seq in Hi. apply Hall. lia. }
  assert (Hnd : List.NoDup cand).
  { subst cand. apply NoDup_ListNoDup. apply NoDup_fmap_2_strong; [|apply NoDup_seq].
    intros i j Hi Hj Eij. apply elem_of_seq in Hi, Hj. apply mangle_inj in Eij; lia. }
  pose proof (NoDup_incl_length Hnd Hincl) as Hle. subst cand. rewrite length_map, length_seq in Hle. lia.
Qed.

Lemma pass2_spec rest : forall taken, NoDup taken ->
  let out := pass2 rest taken in
  NoDup (map tos out ++ taken) /\ map host out ⊆+ rest /\
  Forall (fun e => exists n, 1 <= n < 100000 /\ tos e = mangle (host e) n) out /\
  ((length taken + length rest <= MANGLE_MAX)%nat -> map host out = rest).
Proof.
  induction rest as [|nm rest IH]; intros taken Hn; [by split_and!; try constructor|].
  cbn [pass2]. destruct (free_name MANGLE_MAX nm 1 taken) as [t|] eqn:E.
  - apply free_name_some in E as [(k & Hk & Ht) Hnt].
    assert (Hn' : NoDup (t :: taken)) by (constructor; [by rewrite list_elem_of_In|done]).
    destruct (IH (t :: taken) Hn') as (H1 & H2 & H3 & H4). cbn [map app length]. split_and!.
    + cbn [tos]. by rewrite Permutation_middle.
    + by constructor.
    + constructor; [|done]. exists k. split; [unfold MANGLE_MAX in Hk; lia|done].
    + intros Hl. cbn [host]. f_equal. apply H4. cbn [length]. lia.
  - destruct (IH taken Hn) as (H1 & H2 & H3 & H4). split_and!; try done.
    + by constructor.
    + intros Hl. exfalso. apply (free_name_total nm taken); [cbn [length] in Hl; lia|done].
Qed.

(** What [build_map] promises of the entries of a directory. *)
Definition map_ok (names : list bytes) (m : list ent) : Prop :=
  NoDup (map tos m) /\ map host m ⊆+ names /\
  Forall (fun e => valid83 (tos e) = true /\ upper (tos e) = tos e) m /\
  ((length names <= MANGLE_MAX)%nat -> map host m ≡ₚ names).

Lemma map_perm {A B} (f : A -> B) l l' : l ≡ₚ l' -> map f l ≡ₚ map f l'.
Proof. apply Permutation_map. Qed.

Lemma build_map_ok names : map_ok names (build_map names).
Proof.
  unfold build_map. pose proof (pass1_spec (sort_by id names) [] ltac:(constructor)) as H1.
  destruct (pass1 (sort_by id names) []) as [[out taken] rest]. destruct H1 as (P1 & P2 & P3 & P4).
  rewrite app_nil_r in P2. rewrite (sort_by_perm id) in P1.
  destruct (pass2_spec rest taken P3) as (Q1 & Q2 & Q3 & Q4).
  pose proof (sort_by_perm host (out ++ pass2 rest taken)) as S. unfold map_ok. split_and!.
  - rewrite (map_perm tos _ _ S), map_app, Permutation_app_comm, P2. exact Q1.
  - rewrite (map_perm host _ _ S), map_app, <- P1. by apply submseteq_app.
  - rewrite S. apply Forall_app. split.
    + eapply Forall_impl; [exact P4|]. cbn beta. intros e [Hv ->]. split; [by apply valid83_upper|apply upper_idem].
    + eapply Forall_impl; [exact Q3|]. cbn beta. intros e (n & Hn & ->). apply mangle_valid. lia.
  - intros Hl. rewrite (map_perm host _ _ S), map_app, Q4; [exact P1|].
    rewrite <- (Permutation_length P2), length_map.
    apply Permutation_length in P1. rewrite length_app, length_map in P1. lia.
Qed.

(** The TOS view of a host directory is sound and complete: every entry
    has a valid upper-case 8.3 name, no two entries share one, every entry
    stands for a different visible host file, and (below 100000 files) every
    visible host file has an entry. *)
Theorem map_dir_names {W} `{HostFSLaws W} (w : W) dir raw st :
  h_stat w dir = Some st -> st_type st = S_DIR -> h_readdir w dir = Some raw ->
  let names := List.filter (visible w dir) raw in
  exists m cache, map_dir w ∅ dir = (Some m, cache) /\
    NoDup (map tos m) /\ NoDup (map host m) /\
    Forall (fun e => valid83 (tos e) = true /\ upper (tos e) = tos e /\ In (host e) names) m /\
    ((length names <= MANGLE_MAX)%nat -> map host m ≡ₚ names).
Proof.
  intros Hst Hd Hr names. unfold map_dir. rewrite Hst, Hd, bool_decide_eq_false_2 by auto.
  change ((∅ : dcache) !! dir) with (@None (Z * list ent)). rewrite Hr. do 2 eexists. split; [reflexivity|].
  destruct (build_map_ok names) as (H1 & H2 & H3 & H4). fold names. split_and!; try done.
  - apply submseteq_Permutation in H2 as [k Hk].
    assert (Hn : NoDup names).
    { subst names. apply NoDup_ListNoDup, List.NoDup_filter, NoDup_ListNoDup. by eapply readdir_nodup. }
    rewrite Hk in Hn. by apply NoDup_app in Hn as [Hn _].
  - apply Forall_forall. intros e He. rewrite Forall_forall in H3. destruct (H3 e He) as [Hv Hu].
    split_and!; try done. apply list_elem_of_In. eapply elem_of_submseteq; [|exact H2]. by apply list_elem_of_fmap_2.
Qed.

(** ** The cache is transparent *)
Section Coherent.
Context {W : Type} `{HostFSLaws W} (w : W).

(** The map a directory would get without a cache. *)
Definition fresh_map (dir : bytes) : option (list ent) := (map_dir w ∅ dir).1.

(** A cached map whose time stamp is current is the one that would be built. *)
Definition coherent (cache : dcache) : Prop :=
  forall dir mt m st, cache !! dir = Some (mt, m) -> h_stat w dir = Some st -> st_type st = S_DIR ->
    mt = st_mtim st -> fresh_map dir = Some m.

Lemma coherent_empty : coherent ∅.
Proof. intros dir mt m st E. discriminate E. Qed.

Lemma fresh_map_eq dir : fresh_map dir =
  match h_stat w dir with
  | Some st => if bool_decide (st_type st <> S_DIR) then None
               else match h_readdir w dir with
                    | Some raw => Some (build_map (List.filter (visible w dir) raw)) | None => None end
  | None => None end.
Proof. unfold fresh_map, map_dir. repeat case_match; try done; by simplify_map_eq. Qed.

Lemma map_dir_coherent cache dir : coherent cache ->
  (map_dir w cache dir).1 = fresh_map dir /\ coherent (map_dir w cache dir).2.
Proof.
  intros Hc. pose proof (fresh_map_eq dir) as Hf. unfold map_dir.
  destruct (h_stat w dir) as [st|] eqn:Es; [|done].
  destruct (bool_decide (st_type st <> S_DIR)) eqn:Ed; [done|]. apply bool_decide_eq_false in Ed.
  assert (Hdir : st_type st = S_DIR) by (destruct (decide (st_type st = S_DIR)); [done|tauto]).
  set (fresh := match h_readdir w dir with None => _ | Some raw => _ end).
  assert (Hfr : fresh.1 = fresh_map dir /\ coherent fresh.2).
  { subst fresh. destruct (h_readdir w dir) as [raw|]; [|done]. cbn [fst snd]. split; [done|].
    intros dir' mt m st' E Es' Hd' Hmt. apply lookup_insert_Some in E as [[<- E]|[Hne E]].
    - injection E as <- <-. exact Hf.
    - case_match; [discriminate E|]. by eapply Hc. }
  destruct (cache !! dir) as [[mt m]|] eqn:Ec; [|done].
  destruct (Z.eqb_spec mt (st_mtim st)); [|done]. split; [|done]. symmetry. by eapply Hc.
Qed.

Definition lookup_fresh (dir t : bytes) : option ent :=
  match fresh_map dir with Some m => find_tos t m | None => None end.

Lemma lookup_coherent cache dir t : coherent cache ->
  (lookup_ent w cache dir t).1 = lookup_fresh dir t /\ coherent (lookup_ent w cache dir t).2.
Proof.
  intros Hc. unfold lookup_ent, lookup_fresh. destruct (map_dir_coherent cache dir Hc) as [<- Hc'].
  by destruct (map_dir w cache dir).
Qed.

(** What a hit in a directory map says of the host name. *)
Definition safe_comp (c : bytes) : Prop := c <> [] /\ hd 0 c <> DOT /\ ~ In 47 c.

Lemma fresh_safe dir m e : fresh_map dir = Some m -> In e m -> safe_comp (host e).
Proof.
  rewrite fresh_map_eq. intros E He. destruct (h_stat w dir) as [st|]; [|done].
  case_match; [done|]. destruct (h_readdir w dir) as [l|] eqn:Er; [|done]. injection E as <-.
  destruct (build_map_ok (List.filter (visible w dir) l)) as (_ & Hsub & _).
  assert (Hin : In (host e) (List.filter (visible w dir) l)).
  { apply list_elem_of_In. eapply elem_of_submseteq; [|exact Hsub].
    apply list_elem_of_fmap_2, list_elem_of_In, He. }
  apply filter_In in Hin as [Hin Hv]. destruct (readdir_name _ _ _ _ Er Hin) as [Hne Hs].
  split_and!; try done. unfold visible in Hv. destruct (host e) as [|c h]; [done|].
  cbn. intros ->. by rewrite Z.eqb_refl in Hv.
Qed.

Lemma find_tos_in t m e : find_tos t m = Some e -> In e m /\ tos e = t.
Proof. intros E. apply find_some in E as [Hin E]. split; [done|]. by apply bool_decide_eq_true in E. Qed.

Lemma lookup_safe cache dir t e : coherent cache -> (lookup_ent w cache dir t).1 = Some e -> safe_comp (host e).
Proof.
  intros Hc. destruct (lookup_coherent cache dir t Hc) as [-> _]. unfold lookup_fresh.
  destruct (fresh_map dir) as [m|] eqn:Em; [|done]. intros E. apply find_tos_in in E as [Hin _].
  by eapply fresh_safe.
Qed.

(** ** Paths stay under the root of the drive *)
Definition confined (root p : bytes) : Prop :=
  exists cs, Forall safe_comp cs /\ p = root ++ concat (map (cons 47) cs).

Lemma confined_root root : confined root root.
Proof. exists []. split; [constructor|]. by rewrite app_nil_r. Qed.

Lemma confined_join root p c : confined root p -> safe_comp c -> confined root (path_join p c).
Proof.
  intros (cs & Hcs & ->) Hc. exists (cs ++ [c]). split; [by apply Forall_app; auto|].
  unfold path_join. rewrite map_app, concat_app, <- app_assoc. cbn [map concat]. by rewrite app_nil_r.
Qed.

Lemma walk_confined root c : forall cache h, coherent cache -> confined root h ->
  coherent (walk w cache h c).2 /\ forall dir, (walk w cache h c).1 = Ok dir -> confined root dir.
Proof.
  induction c as [|x c IH]; intros cache h Hc Hh; cbn [walk].
  - split; [done|]. cbn. by intros dir [= <-].
  - destruct (lookup_coherent cache h x Hc) as [_ Hc1]. pose proof (lookup_safe cache h x) as Hs.
    destruct (lookup_ent w cache h x) as [[e|] cache1]; cbn [fst snd] in *; [|done].
    specialize (Hs e Hc eq_refl). pose proof (confined_join _ _ _ Hh Hs) as Hj.
    destruct (h_stat w (path_join h (host e))) as [st|]; [|done].
    destruct (bool_decide (st_type st = S_DIR)); [|done]. by apply IH.
Qed.

(** C9: no GEMDOS path leaves the exported directory: whatever the guest
    passes, a resolved host path is the root of the drive followed by names
    that are not empty, contain no slash and do not start with a dot, and it
    exists. *)
Theorem resolve_confined cache d cwd gem hp st cache' :
  coherent cache -> resolve w cache d cwd gem = (Ok (hp, st), cache') ->
  confined (root_of d) hp /\ h_stat w hp = Some st /\ coherent cache'.
Proof.
  unfold resolve, resolve_comps. intros Hc E.
  destruct (parse cwd gem) as [|x l].
  { destruct (h_stat w (root_of d)) eqn:Es; [|done]. simplify_eq. auto using confined_root. }
  destruct (walk_confined (root_of d) (removelast (x :: l)) cache _ Hc (confined_root _)) as [Hc1 Hw].
  destruct (walk w cache (root_of d) (removelast (x :: l))) as [[dir|e] cache1]; [|done]. cbn [fst snd] in *.
  specialize (Hw dir eq_refl). set (t := List.last (x :: l) []) in *.
  destruct (lookup_coherent cache1 dir t Hc1) as [_ Hc2]. pose proof (lookup_safe cache1 dir t) as Hs.
  destruct (lookup_ent w cache1 dir t) as [[e|] cache2]; [|done]. cbn [fst snd] in *.
  specialize (Hs e Hc1 eq_refl).
  destruct (h_stat w (path_join dir (host e))) eqn:Es; [|done]. simplify_eq.
  split_and!; [by apply confined_join|done|done].
Qed.

(** ** Parsed components *)

(** A component: no separators, not a dot or two. *)
Definition comp_ok (c : bytes) : Prop := ~ In 47 c /\ ~ In 92 c /\ c <> B "." /\ c <> B "..".

Lemma split_seps_no_sep s : Forall (fun c => ~ In 47 c /\ ~ In 92 c) (split_seps s).
Proof.
  induction s as [|c s IH]; cbn [split_seps]; [by repeat constructor; intros []|].
  destruct ((c =? 92) || (c =? 47)) eqn:E; [constructor; [by split; intros []|done]|].
  destruct (split_seps s) as [|p ps].
  - constructor; [|constructor]. split; intros [->|[]]; discriminate E.
  - apply Forall_cons in IH as [[H1 H2] IH]. constructor; [|done].
    split; intros [->|Hin]; try done; discriminate E.
Qed.

Lemma toupper_sep c k : toupper c = k -> islower k = false -> k < 65 \/ 90 < k -> c = k.
Proof. unfold toupper, islower. intros <- Hl Hk. case_match; [lia|done]. Qed.

Lemma upper_in c s : In c (upper s) -> islower c = false -> c < 65 \/ 90 < c -> In c s.
Proof. unfold upper. intros Hin Hl Hk. apply in_map_iff in Hin as (x & Hx & Hin). by rewrite <- (toupper_sep x c Hx Hl Hk). Qed.

Lemma take_in {A} (x : A) n l : In x (take n l) -> In x l.
Proof. intros Hin. apply list_elem_of_In in Hin. apply list_elem_of_In. by eapply elem_of_take in Hin as (i & Hi & _); eapply list_elem_of_lookup_2. Qed.

Lemma join83_dots b e : Forall (fun x => x <> DOT) b -> Forall (fun x => x <> DOT) e ->
  join83 b e <> B "." /\ join83 b e <> B "..".
Proof.
  intros Hb He. destruct e as [|x e]; cbn [join83].
  - split; intros ->; by apply Forall_cons in Hb as [Hb _].
  - apply Forall_cons in He as [He _].
    split; intros E; destruct b as [|y [|z b]]; try discriminate E; injection E as E; try done.
    by apply Forall_cons in Hb as [Hb _].
Qed.

(** Cutting a component to 8.3 adds no separator and makes no dots. *)
Lemma trunc83_comp c : ~ In 47 c -> ~ In 92 c -> c <> B "." -> c <> B ".." -> comp_ok (trunc83 c).
Proof.
  intros H47 H92 Hd1 Hd2. unfold trunc83. rewrite !bool_decide_eq_false_2 by done. cbn [orb].
  pose proof (split_first_inv DOT (upper c)) as Hs.
  destruct (split_first DOT (upper c)) as [base eo].
  set (ext := match eo with Some x => (split_first DOT x).1 | None => [] end).
  assert (Hsub : (forall x, In x base -> In x (upper c)) /\ (forall x, In x ext -> In x (upper c)) /\
                 Forall (fun x => x <> DOT) base /\ Forall (fun x => x <> DOT) ext).
  { subst ext. destruct eo as [x|]; destruct Hs as [-> Hb].
    - pose proof (split_first_inv DOT x) as Hx. destruct (split_first DOT x) as [a [b|]]; cbn [fst];
        destruct Hx as [-> Ha]; split_and!; try done; intros y Hy; apply in_or_app; auto;
        right; right; try (apply in_or_app; auto); auto.
    - split_and!; try done; constructor. }
  destruct Hsub as (Hb & He & Hbd & Hed). clearbody ext.
  assert (Hin : forall k, k = 47 \/ k = 92 -> In k (join83 (take 8 base) (take 3 ext)) -> In k c).
  { intros k Hk Hj. assert (Hu : In k (upper c)).
    { destruct (take 3 ext) eqn:E3; cbn [join83] in Hj.
      - by apply Hb, (take_in _ 8).
      - apply in_app_or in Hj as [Hj|[Hj|Hj]]; [by apply Hb, (take_in _ 8)|unfold DOT in Hj; lia|].
        rewrite <- E3 in Hj. by apply He, (take_in _ 3). }
    apply upper_in; [done|destruct Hk as [-> | ->]; done|lia]. }
  assert (Hnd : Forall (fun x => x <> DOT) (take 8 base)) by (by apply Forall_take).
  assert (Hne : Forall (fun x => x <> DOT) (take 3 ext)) by (by apply Forall_take).
  destruct (join83_dots _ _ Hnd Hne). split_and!; auto.
Qed.

Lemma removelast_In {A} (x : A) l : In x (removelast l) -> In x l.
Proof.
  induction l as [|y [|z l] IH]; [done|intros []|]. intros [->|Hx]; [by left|right; by apply IH].
Qed.

Lemma parse_step_ok c comp : Forall comp_ok c -> ~ In 47 comp -> ~ In 92 comp -> Forall comp_ok (parse_step c comp).
Proof.
  intros Hc H47 H92. unfold parse_step.
  case_bool_decide as E0; [done|]. cbn [orb]. case_bool_decide as E1; [done|]. case_bool_decide as E2.
  - apply Forall_forall. intros x Hx. rewrite Forall_forall in Hc. apply Hc, list_elem_of_In.
    apply removelast_In. by apply list_elem_of_In.
  - apply Forall_app. split; [done|]. constructor; [by apply trunc83_comp|constructor].
Qed.

Lemma parse_ok cwd gem : Forall comp_ok cwd -> Forall comp_ok (parse cwd gem).
Proof.
  intros Hcwd. unfold parse. set (s := match gem with _ :: 58 :: _ => _ | _ => _ end). clearbody s.
  assert (Hs : Forall comp_ok (match s with [] => cwd | c :: _ => if (c =? 92) || (c =? 47) then [] else cwd end)).
  { destruct s as [|c s]; [done|]. case_match; [constructor|done]. }
  revert Hs. generalize (match s with [] => cwd | c :: _ => if (c =? 92) || (c =? 47) then [] else cwd end).
  pose proof (split_seps_no_sep s) as Hsep. induction Hsep as [|c l [H47 H92] _ IH]; intros c0 Hc0; [done|].
  cbn [fold_left]. apply IH. by apply parse_step_ok.
Qed.

(** Creation stays confined too: the parent folder [resolve_new] returns
    lies under the root of the drive, and the new leaf is no path: it has no
    separator, no wild card, and is neither a dot nor two. *)
Theorem resolve_new_confined cache d cwd gem dir leaf ex cache' :
  coherent cache -> Forall comp_ok cwd ->
  resolve_new w cache d cwd gem = (Ok (dir, leaf, ex), cache') ->
  confined (root_of d) dir /\ comp_ok leaf /\ has_wild leaf = false /\
  (forall p, ex = Some p -> confined (root_of d) p) /\ coherent cache'.
Proof.
  unfold resolve_new. intros Hc Hcwd E. pose proof (parse_ok cwd gem Hcwd) as Hp.
  destruct (parse cwd gem) as [|x l] eqn:Epar; [done|].
  destruct (walk_confined (root_of d) (removelast (x :: l)) cache _ Hc (confined_root _)) as [Hc1 Hw].
  destruct (walk w cache (root_of d) (removelast (x :: l))) as [[dir0|e] cache1]; [|done]. cbn [fst snd] in *.
  specialize (Hw dir0 eq_refl).
  assert (Hleaf : comp_ok (List.last (x :: l) [])).
  { rewrite Forall_forall in Hp. apply Hp. rewrite (app_removelast_last [] (l := x :: l)) at 2 by done.
    apply elem_of_app. right. by apply list_elem_of_singleton. }
  set (t := List.last (x :: l) []) in *.
  destruct (bool_decide (t = B ".") || bool_decide (t = B "..") || has_wild t) eqn:Ew; [done|].
  apply orb_false_iff in Ew as [_ Ew].
  destruct (lookup_coherent cache1 dir0 t Hc1) as [_ Hc2]. pose proof (lookup_safe cache1 dir0 t) as Hs.
  destruct (lookup_ent w cache1 dir0 t) as [eo cache2]. cbn [fst snd] in *. simplify_eq.
  split_and!; try done. intros p Hpp. destruct eo as [e|]; [|done]. simplify_eq.
  apply confined_join; [done|]. by apply Hs.
Qed.

(** ** Whatever is listed can be opened *)

Definition listed (cs : list bytes) : Prop := Forall (fun c => valid83 c = true /\ upper c = c) cs.
(** The absolute GEMDOS path of a list of names. *)
Definition gem_path (cs : list bytes) : bytes := concat (map (cons 92) cs).

Lemma valid83_chars n : valid83 n = true -> Forall (fun c => special c = false \/ c = DOT) n /\ n <> [].
Proof.
  intros Hv. apply valid83_parts in Hv as (b & e & ((Hb1 & _) & _ & Hb & He) & ->).
  assert (Hok : forall s, ok_name s -> Forall (fun c => special c = false \/ c = DOT) s).
  { intros s Hs. eapply Forall_impl; [exact Hs|]. intros c Hc. left. by apply ok_not_special. }
  split.
  - destruct e; cbn [join83]; [auto|]. apply Forall_app. split; [auto|]. constructor; [by right|auto].
  - destruct b; [cbn in Hb1; lia|]. by destruct e.
Qed.

Lemma split_seps_cons c rest : Forall (fun x => special x = false \/ x = DOT) c ->
  split_seps (c ++ 92 :: rest) = c :: split_seps rest.
Proof.
  induction 1 as [|x c Hx _ IH]; cbn [app split_seps]; [done|].
  assert ((x =? 92) || (x =? 47) = false) as ->.
  { destruct Hx as [Hx | ->]; [|done]. apply orb_false_iff. split; apply Z.eqb_neq; intros ->; discriminate Hx. }
  by rewrite IH.
Qed.

Lemma split_seps_last c : Forall (fun x => special x = false \/ x = DOT) c -> split_seps c = [c].
Proof.
  induction 1 as [|x c Hx _ IH]; cbn [split_seps]; [done|].
  assert ((x =? 92) || (x =? 47) = false) as ->.
  { destruct Hx as [Hx | ->]; [|done]. apply orb_false_iff. split; apply Z.eqb_neq; intros ->; discriminate Hx. }
  by rewrite IH.
Qed.

Lemma split_gem_path cs : cs <> [] -> listed cs -> split_seps (gem_path cs) = [] :: cs.
Proof.
  intros Hne Hl. induction Hl as [|c cs [Hv _] Hl IH]; [done|]. cbn [gem_path map concat app split_seps].
  destruct (valid83_chars c Hv) as [Hc _]. f_equal.
  destruct cs as [|c2 cs]; [cbn; rewrite app_nil_r; by apply split_seps_last|].
  specialize (IH ltac:(done)). cbn [map concat app]. rewrite split_seps_cons by done. f_equal.
  unfold gem_path in IH. cbn [map concat app split_seps] in IH. by injection IH as IH.
Qed.

Lemma parse_gem_path cwd cs : cs <> [] -> listed cs -> parse cwd (gem_path cs) = cs.
Proof.
  intros Hne Hl. pose proof (split_gem_path cs Hne Hl) as Hs. unfold parse.
  assert (E : (match gem_path cs with _ :: 58 :: s => s | _ => gem_path cs end) = gem_path cs /\
              exists r, gem_path cs = 92 :: r).
  { destruct cs as [|c cs]; [done|]. inversion Hl as [|? ? [Hv _] _]; subst.
    destruct (valid83_chars c Hv) as [Hc Hcne]. destruct c as [|x c]; [done|].
    inversion Hc as [|? ? Hx _]; subst. cbn [gem_path map concat app]. split; [|eauto].
    assert (x <> 58) by (destruct Hx as [Hx | ->]; [intros ->; discriminate Hx|done]).
    destruct x as [|q|q]; try done. do 6 (destruct q as [q|q|]; try done). }
  destruct E as [-> [r Er]]. rewrite Hs, Er. cbn [Z.eqb Pos.eqb orb fold_left].
  change (parse_step [] []) with (@nil bytes).
  clear - Hl. change cs with ([] ++ cs) at 2. generalize (@nil bytes) as acc.
  induction Hl as [|c cs [Hv Hu] _ IH]; intros acc; cbn [fold_left]; [by rewrite app_nil_r|].
  destruct (valid83_not_dots c Hv). destruct (valid83_chars c Hv) as [_ Hcne].
  unfold parse_step at 2. rewrite !bool_decide_eq_false_2 by done. cbn [orb].
  rewrite trunc83_id, IH, <- app_assoc by done. done.
Qed.

(** The entry is the only one with its name. *)
Lemma find_tos_self m e : NoDup (map tos m) -> In e m -> find_tos (tos e) m = Some e.
Proof.
  intros Hn Hin. unfold find_tos. induction m as [|x m IH]; [done|]. cbn [List.find].
  cbn [map] in Hn. apply NoDup_cons in Hn as [Hx Hn].
  destruct Hin as [->|Hin]; [by rewrite bool_decide_eq_true_2|].
  rewrite bool_decide_eq_false_2; [by apply IH|].
  intros E. apply Hx. rewrite E. by apply list_elem_of_fmap_2, list_elem_of_In.
Qed.

Lemma walk_independent c : forall c1 c2 h, coherent c1 -> coherent c2 ->
  (walk w c1 h c).1 = (walk w c2 h c).1 /\ coherent (walk w c1 h c).2.
Proof.
  induction c as [|x c IH]; intros c1 c2 h H1 H2; cbn [walk]; [done|].
  destruct (lookup_coherent c1 h x H1) as [E1 K1], (lookup_coherent c2 h x H2) as [E2 K2].
  destruct (lookup_ent w c1 h x) as [o1 d1], (lookup_ent w c2 h x) as [o2 d2]. cbn [fst snd] in *.
  rewrite <- E2 in E1. subst o2. destruct o1 as [e|]; [|done].
  destruct (h_stat w (path_join h (host e))); [|done]. case_match; [|done]. by apply IH.
Qed.

(** Whatever a directory listing shows can be opened: if a list of
    shown names leads to the folder [dir], then the GEMDOS path made of them
    and of any entry shown in [dir] resolves to that entry's host file,
    whatever the state of the cache. *)
Theorem listed_resolves cache d cwd cs dir m e st :
  coherent cache -> listed cs -> (walk w ∅ (root_of d) cs).1 = Ok dir ->
  fresh_map dir = Some m -> In e m -> h_stat w (path_join dir (host e)) = Some st ->
  (resolve w cache d cwd (gem_path (cs ++ [tos e]))).1 = Ok (path_join dir (host e), st).
Proof.
  intros Hc Hl Hw Hm He Hst. pose proof Hm as Hm'. rewrite fresh_map_eq in Hm'.
  assert (Hok : exists names, map_ok names m).
  { destruct (h_stat w dir); [|done]. case_match; [done|]. destruct (h_readdir w dir); [|done].
    injection Hm' as <-. eexists. apply build_map_ok. }
  destruct Hok as (names & Hnd & _ & Hv & _).
  assert (Hle : listed (cs ++ [tos e])).
  { apply Forall_app. split; [done|]. constructor; [|constructor]. rewrite Forall_forall in Hv.
    apply Hv. by apply list_elem_of_In. }
  unfold resolve. rewrite parse_gem_path by (done || by destruct cs). unfold resolve_comps.
  destruct (cs ++ [tos e]) as [|y l] eqn:E; [by destruct cs|]. rewrite <- E, removelast_last, List.last_last.
  destruct (walk_independent cs cache ∅ (root_of d) Hc coherent_empty) as [Ew Hc1].
  rewrite Hw in Ew. destruct (walk w cache (root_of d) cs) as [r cache1]. cbn [fst snd] in *. subst r.
  destruct (lookup_coherent cache1 dir (tos e) Hc1) as [El _]. unfold lookup_fresh in El.
  rewrite Hm, find_tos_self in El by done. destruct (lookup_ent w cache1 dir (tos e)) as [o cache2].
  cbn [fst] in El. subst o. by rewrite Hst.
Qed.
End Coherent.

(** ** A concrete file system *)

(** Paths with their [stat] and, for folders, their names. *)
Definition afs := list (bytes * (stat_t * list bytes)).
Definition name_ok (nm : bytes) : bool := negb (bool_decide (nm = [])) && negb (existsb (Z.eqb 47) nm).
Definition afs_find (w : afs) (p : bytes) : option (stat_t * list bytes) :=
  option_map snd (List.find (fun x => bool_decide (x.1 = p)) w).

#[export] Instance afs_fs : HostFS afs := {|
  h_stat := fun w p => option_map fst (afs_find w p);
  h_readdir := fun w p => option_map (fun x => List.filter name_ok (remove_dups x.2)) (afs_find w p) |}.

#[export] Instance afs_laws : HostFSLaws afs.
Proof.
  split; cbn; intros w d l.
  - intros nm E Hin. destruct (afs_find w d) as [x|]; [|done]. injection E as <-.
    apply filter_In in Hin as [_ Hn]. unfold name_ok in Hn. apply andb_true_iff in Hn as [H1 H2].
    apply negb_true_iff in H1, H2. apply bool_decide_eq_false in H1. split; [done|].
    intros H47. assert (existsb (Z.eqb 47) nm = true); [|congruence].
    apply existsb_exists. exists 47. by rewrite Z.eqb_refl.
  - intros E. destruct (afs_find w d) as [x|]; [|done]. injection E as <-.
    apply NoDup_ListNoDup, List.NoDup_filter, NoDup_ListNoDup, NoDup_remove_dups.
Qed.

Definition tm_ex : tm := mk_tm 126 9 26 13 45 58.
Definition st_dir : stat_t := mk_stat S_DIR 0x1ED 4096 1 tm_ex.
Definition st_file : stat_t := mk_stat S_REG 0x1A4 1000 1 tm_ex.
(** A share with a long name, a clash of case, a dot-file and a folder. *)
Definition afs_ex : afs :=
  [(B "/srv/st", (st_dir, [B "Long File Name.text"; B "readme.txt"; B "README.TXT"; B ".hidden"; B "SUB"]));
   (B "/srv/st/Long File Name.text", (st_file, [])); (B "/srv/st/readme.txt", (st_file, []));
   (B "/srv/st/README.TXT", (st_file, [])); (B "/srv/st/.hidden", (st_file, []));
   (B "/srv/st/SUB", (st_dir, [B "a.b.c"])); (B "/srv/st/SUB/a.b.c", (st_file, []))].
Definition drive_ex : drive := mk_hdrive true false (B "/srv/st/").

Lemma map_dir_names_witness :
  let names := List.filter (visible afs_ex (B "/srv/st"))
                 [B "Long File Name.text"; B "readme.txt"; B "README.TXT"; B ".hidden"; B "SUB"] in
  exists m cache, map_dir afs_ex ∅ (B "/srv/st") = (Some m, cache) /\
    NoDup (map tos m) /\ NoDup (map host m) /\
    Forall (fun e => valid83 (tos e) = true /\ upper (tos e) = tos e /\ In (host e) names) m /\
    ((length names <= MANGLE_MAX)%nat -> map host m ≡ₚ names).
Proof.
  apply (map_dir_names afs_ex (B "/srv/st")
           [B "Long File Name.text"; B "readme.txt"; B "README.TXT"; B ".hidden"; B "SUB"] st_dir);
    vm_compute; reflexivity.
Defined.

Lemma resolve_confined_witness :
  confined (root_of drive_ex) (B "/srv/st/SUB/a.b.c") /\
  h_stat afs_ex (B "/srv/st/SUB/a.b.c") = Some st_file /\
  coherent afs_ex (resolve afs_ex ∅ drive_ex [] (B "S:\..\.\SUB\AB~1.C")).2.
Proof.
  apply (resolve_confined afs_ex ∅ drive_ex [] (B "S:\..\.\SUB\AB~1.C")); [apply coherent_empty|].
  etransitivity; [apply surjective_pairing|]. f_equal.
Defined.

Lemma resolve_new_confined_witness :
  confined (root_of drive_ex) (B "/srv/st/SUB") /\ comp_ok (B "NEWNAME.TXT") /\
  has_wild (B "NEWNAME.TXT") = false /\
  (forall p, @None bytes = Some p -> confined (root_of drive_ex) p) /\
  coherent afs_ex (resolve_new afs_ex ∅ drive_ex [B "SUB"] (B "..\sub\NewName.txtx")).2.
Proof.
  eapply (resolve_new_confined afs_ex ∅ drive_ex [B "SUB"] (B "..\sub\NewName.txtx")).
  - apply coherent_empty.
  - constructor; [|constructor]. split_and!; try done; vm_compute; intuition discriminate.
  - etransitivity; [apply surjective_pairing|]. f_equal.
Defined.

Lemma listed_resolves_witness :
  (resolve afs_ex ∅ drive_ex [] (gem_path ([B "SUB"] ++ [B "AB~1.C"]))).1 =
  Ok (path_join (B "/srv/st/SUB") (B "a.b.c"), st_file).
Proof.
  apply (listed_resolves afs_ex ∅ drive_ex [] [B "SUB"] (B "/srv/st/SUB") [mk_ent (B "AB~1.C") (B "a.b.c")]
           (mk_ent (B "AB~1.C") (B "a.b.c")) st_file).
  - apply coherent_empty.
  - constructor; [split; vm_compute; reflexivity|constructor].
  - vm_compute. reflexivity.
  - vm_compute. reflexivity.
  - left. reflexivity.
  - vm_compute. reflexivity.
Defined.
