(* ===== verification/DosCalls.v ===== *)
(** * DosCalls: the GEMDOS calls on a host drive
    ([platforms/atari/network/hostdos.cpp])

    Handle and search tables, the file and directory calls, program loading,
    and the NatFeat entry points.  Host system calls are the [HostIO]
    interface, guest memory is the [Bus] of Cpu. *)

From S2P Require Import Prelude Flags Cpu DosNames DosDir.
From Stdlib Require Import ZArith Lia Bool String.
From stdpp Require Import base list gmap.
Open Scope Z_scope.
Open Scope cint_scope.

(** ** Host system calls *)
Inductive errno := ENOENT | ENOTDIR | EACCES | EPERM | EEXIST | ENOTEMPTY | EISDIR | EROFS
                 | EMFILE | ENFILE | ENOMEM | EXDEV | EOTHER.
Inductive oflag := O_RDONLY | O_WRONLY | O_RDWR | O_CREATE (* O_RDWR|O_CREAT|O_TRUNC, 0644 *).
Inductive hres (A : Type) := Done (a : A) | HErr (e : errno).
Arguments Done {A}. Arguments HErr {A}.

Class HostIO (W : Type) `{HostFS W} := {
  h_open : bytes -> oflag -> W -> hres Z * W;
  h_close : Z -> W -> W;
  h_read : Z -> Z -> W -> hres (list Z) * W;
  h_write : Z -> list Z -> W -> hres Z * W;
  h_fstat : W -> Z -> option stat_t;
  h_tell : W -> Z -> Z;
  h_seek : Z -> Z -> W -> bool * W;
  h_fchmod : Z -> Z -> W -> W;
  h_futimens : Z -> tm -> W -> hres () * W;
  h_unlink : bytes -> W -> hres () * W;
  h_mkdir : bytes -> W -> hres () * W;
  h_rmdir : bytes -> W -> hres () * W;
  h_rename : bytes -> bytes -> W -> hres () * W;
  h_chmod : bytes -> Z -> W -> hres () * W;
  h_statvfs : W -> bytes -> option (Z * Z * Z);   (* blocks, available, fragment size *)
  h_slurp : W -> bytes -> hres bytes              (* fopen and fread to the end *) }.

Definition errno_tos (e : errno) (dflt : Z) : Z :=
  match e with
  | ENOENT => dflt
  | ENOTDIR => EPTHNF
  | EACCES | EPERM | EEXIST | ENOTEMPTY | EISDIR => EACCDN
  | EROFS => EWRPRO
  | EMFILE | ENFILE => ENHNDL
  | ENOMEM => ENSMEM
  | EXDEV => ENSAME
  | EOTHER => ERROR
  end.

(** ** State *)
Definition HOSTDOS_API_VERSION := 1.
Definition HOSTDOS_PASS := 0x80000000.
Definition HOSTDOS_PEXEC := 0x80000001.
Definition HOSTDOS_HANDLE_BASE := 64.
Definition HOSTDOS_MAX_FILES : nat := 32.
Definition HOSTDOS_DTA_MAGIC := 0x48444F53.
Definition NDRIVES := 26.
Definition MAX_SEARCHES : nat := 32.
Definition MAX_PRG_BYTES := 64 << 20.

Definition FA_RDONLY := 0x01.
Definition FA_LABEL := 0x08.
Definition FA_DIR := 0x10.

Record hfile := mk_hfile { used : bool; f_fd : Z; f_drive : Z; canwrite : bool; owner : Z; f_path : bytes }.
Definition hfile0 : hfile := mk_hfile false 0 0 false 0 [].

Record hit := mk_hit { hit_name : bytes; hit_attr : Z; hit_time : Z; hit_date : Z; hit_size : Z }.
Record search := mk_search { s_id : Z; s_hits : list hit; s_pos : nat }.
Definition search0 : search := mk_search 0 [] 0.

Record pend := mk_pend { p_valid : bool; p_path : bytes;
  p_tlen : Z; p_dlen : Z; p_blen : Z; p_slen : Z; p_flags : Z; p_absflag : Z }.
Definition pend0 : pend := mk_pend false [] 0 0 0 0 0 0.

Record dos := mk_dos {
  g_drives : list drive; g_cwd : list (list bytes); g_dcache : dcache;
  g_files : list hfile; g_search : list search; g_next_search : Z;
  g_pexec : pend; g_mint : bool;
  g_mem_set : bool   (* both callbacks of [g_mem] are there *) }.

Record sys (W M : Type) := mk_sys { sw : W; sm : M; sd : dos }.
Arguments mk_sys {W M}. Arguments sw {W M}. Arguments sm {W M}. Arguments sd {W M}.

Definition no_drive : drive := mk_hdrive false false [].
Definition drive_of (k : dos) (d : Z) : drive := default no_drive (g_drives k !! Z.to_nat d).
Definition cwd_of (k : dos) (d : Z) : list bytes := default [] (g_cwd k !! Z.to_nat d).
Definition drive_ok (k : dos) (d : Z) : bool :=
  (0 <=? d) && (d <? NDRIVES) && d_enabled (drive_of k d) && negb (bool_decide (d_path (drive_of k d) = [])).
Definition drive_ro (k : dos) (d : Z) : bool := d_readonly (drive_of k d).
Definition is_dir (st : stat_t) : bool := bool_decide (st_type st = S_DIR).
(** No write permission bit: TOS's read-only attribute. *)
Definition is_ro (st : stat_t) : bool := negb (is_dir st) && ((st_mode st .& 0x92) =? 0).

(** *** Handles *)
Definition file_of (k : dos) (h : Z) : option hfile :=
  let i := h - HOSTDOS_HANDLE_BASE in
  if (i <? 0) || (Z.of_nat HOSTDOS_MAX_FILES <=? i) then None
  else match g_files k !! Z.to_nat i with Some f => if used f then Some f else None | None => None end.

Fixpoint free_slot (l : list hfile) (i : nat) : option nat :=
  match l with
  | [] => None
  | f :: l => if used f then free_slot l (S i) else Some i
  end.

(** *** Search slots: a free one, else the oldest. *)
Fixpoint pick_search (l : list search) (i best : nat) (bestid : Z) : nat :=
  match l with
  | [] => best
  | x :: l => if s_id x =? 0 then i
              else if s_id x <? bestid then pick_search l (S i) i (s_id x)
              else pick_search l (S i) best bestid
  end.
Definition search_slot (l : list search) : nat :=
  match l with [] => 0%nat | x :: _ => pick_search l 0 0 (s_id x) end.

Section Calls.
Context {W M : Type} `{HostIO W} `{Bus M}.
Implicit Types (s : sys W M) (m : M).

(** *** Guest memory *)
Definition rd16 m a : Z := get_byte m a * 256 + get_byte m (a + 1).
Definition rd32 m a : Z :=
  get_byte m a * 16777216 + get_byte m (a + 1) * 65536 + get_byte m (a + 2) * 256 + get_byte m (a + 3).
(** A byte block, lowest address first. *)
Fixpoint wr_bytes (a : Z) (l : list Z) m : M :=
  match l with [] => m | b :: l => wr_bytes (a + 1) l (put_byte a b m) end.
Definition be32 (v : Z) : list Z := [u8 (v >> 24); u8 (v >> 16); u8 (v >> 8); u8 v].
Definition be16 (v : Z) : list Z := [u8 (v >> 8); u8 v].
Definition wr32 a v m : M := wr_bytes a (be32 v) m.
Definition wr16 a v m : M := wr_bytes a (be16 v) m.
Definition wrzero a n m : M := wr_bytes a (replicate (Z.to_nat n) 0) m.
Fixpoint rd_chars (n : nat) m a : bytes :=
  match n with
  | O => []
  | S n => let c := get_byte m a in if c =? 0 then [] else c :: rd_chars n m (a + 1)
  end.
Definition rdstr m a : bytes := if a =? 0 then [] else rd_chars 256 m a.
Definition rd_bytes m a (n : nat) : list Z := map (fun i => get_byte m (a + Z.of_nat i)) (seq 0 n).

(** *** State plumbing *)
Definition with_dos (g : dos -> dos) s : sys W M := {| s with sd := g (sd s) |}.
Definition with_mem (g : M -> M) s : sys W M := {| s with sm := g (sm s) |}.
Definition dcache_drop : sys W M -> sys W M := with_dos (fun k => {| k with g_dcache := ∅ |}).

Definition file_new (fd d : Z) (w : bool) (own : Z) (path : bytes) s : Z * sys W M :=
  match free_slot (g_files (sd s)) 0 with
  | Some i => (HOSTDOS_HANDLE_BASE + Z.of_nat i,
      with_dos (fun k => {| k with g_files := <[i := mk_hfile true fd d w own path]> (g_files k) |}) s)
  | None => (ENHNDL, {| s with sw := h_close fd (sw s) |})
  end.

(** Close slot [i]. *)
Definition file_close (i : nat) s : sys W M :=
  match g_files (sd s) !! i with
  | Some f =>
    let s := if used f && (0 <=? f_fd f) then {| s with sw := h_close (f_fd f) (sw s) |} else s in
    with_dos (fun k => {| k with g_files := <[i := {| f with used := false; f_fd := -1; f_path := [] |}]> (g_files k) |}) s
  | None => s
  end.

Definition close_all s : sys W M := fold_left (fun s i => file_close i s) (seq 0 HOSTDOS_MAX_FILES) s.

Definition reset_all s : sys W M :=
  with_dos (fun k => {| k with
      g_search := map (fun x => {| x with s_id := 0; s_hits := [] |}) (g_search k);
      g_cwd := map (fun _ => []) (g_cwd k);
      g_pexec := {| (g_pexec k) with p_valid := false |};
      g_dcache := ∅ |}) (close_all s).

(** Resolution through the state's cache. *)
Definition st_resolve (d : Z) (name : bytes) s : res (bytes * stat_t) * sys W M :=
  let k := sd s in
  let '(r, c) := resolve (sw s) (g_dcache k) (drive_of k d) (cwd_of k d) name in
  (r, with_dos (fun k => {| k with g_dcache := c |}) s).
Definition st_resolve_new (d : Z) (name : bytes) s : res (bytes * bytes * option bytes) * sys W M :=
  let k := sd s in
  let '(r, c) := resolve_new (sw s) (g_dcache k) (drive_of k d) (cwd_of k d) name in
  (r, with_dos (fun k => {| k with g_dcache := c |}) s).

(** ** Searches *)
Definition make_hit (nm : bytes) (st : stat_t) : hit :=
  mk_hit nm ((if is_dir st then FA_DIR else 0) .| (if is_ro st then FA_RDONLY else 0))
    (dos_time (st_tm st)) (dos_date (st_tm st))
    (if is_dir st then 0 else if 0x7FFFFFFF <? st_size st then 0x7FFFFFFF else u32 (st_size st)).

(** The 44 bytes of a DTA. *)
Definition dta_bytes (id : Z) (h : hit) : list Z :=
  be32 HOSTDOS_DTA_MAGIC ++ be32 id ++ replicate 13 0 ++ [u8 (hit_attr h)] ++ be16 (hit_time h) ++
  be16 (hit_date h) ++ be32 (hit_size h) ++
  (let n := take 13 (hit_name h) in n ++ replicate (14 - length n) 0).
Definition dta_fill (dta id : Z) (h : hit) : sys W M -> sys W M := with_mem (wr_bytes dta (dta_bytes id h)).

(** The entries of the listing that match. *)
Fixpoint list_hits (w : W) (dir pat : bytes) (attr : Z) (l : list ent) : list hit :=
  match l with
  | [] => []
  | e :: l =>
    let rest := list_hits w dir pat attr l in
    if negb (match83 pat (tos e)) then rest
    else match h_stat w (path_join dir (host e)) with
         | None => rest
         | Some st => if is_dir st && negb (truth (attr .& FA_DIR)) then rest
                      else make_hit (tos e) st :: rest
         end
  end.

(** All hits, the dot entries of a subfolder first. *)
Definition fs_hits (w : W) (dir pat : bytes) (attr : Z) (depth : nat) (mo : option (list ent)) : list hit :=
  match h_stat w dir with
  | Some st => if (1 <? depth)%nat && truth (attr .& FA_DIR) then
                 (if match83 pat (B ".") then [make_hit (B ".") st] else []) ++
                 (if match83 pat (B "..") then [make_hit (B "..") st] else [])
               else []
  | None => []
  end ++ match mo with Some l => list_hits w dir pat attr l | None => [] end.

Definition do_fsfirst (d a dta : Z) s : Z * sys W M :=
  let spec := rdstr (sm s) (rd32 (sm s) (a + 2)) in
  let attr := rd16 (sm s) (a + 6) in
  if dta =? 0 then (EFILNF, s)
  else if (attr .& 0xFF) =? FA_LABEL then (EFILNF, s)
  else match parse (cwd_of (sd s) d) spec with
  | [] => (EFILNF, s)
  | c =>
    match walk (sw s) (g_dcache (sd s)) (root_of (drive_of (sd s) d)) (removelast c) with
    | (Err e, cache) => (e, with_dos (fun k => {| k with g_dcache := cache |}) s)
    | (Ok dir, cache) =>
      let pat := List.last c [] in
      let i := search_slot (g_search (sd s)) in
      let '(mo, cache) := map_dir (sw s) cache dir in
      let hits := fs_hits (sw s) dir pat attr (length c) mo in
      let s := with_dos (fun k => {| k with g_dcache := cache |}) s in
      match hits with
      | [] => (EFILNF, with_dos (fun k => {| k with g_search := <[i := mk_search 0 [] 0]> (g_search k) |}) s)
      | h :: _ =>
        let id := g_next_search (sd s) in
        let next := u32 (id + 1) in
        let s := with_dos (fun k => {| k with
                   g_search := <[i := mk_search id hits 1]> (g_search k);
                   g_next_search := if next =? 0 then 1 else next |}) s in
        (0, dta_fill dta id h s)
      end
    end
  end.

(** The first slot with this search id. *)
Fixpoint find_search (id : Z) (l : list search) (i : nat) : option (nat * search) :=
  match l with
  | [] => None
  | x :: l => if (s_id x =? id) && (id != 0) then Some (i, x) else find_search id l (S i)
  end.

Definition do_fsnext (dta : Z) s : Z * sys W M :=
  if (dta =? 0) || (rd32 (sm s) dta != HOSTDOS_DTA_MAGIC) then (ENMFIL, s)
  else
    let id := rd32 (sm s) (dta + 4) in
    match find_search id (g_search (sd s)) 0 with
    | None => (ENMFIL, s)
    | Some (i, x) =>
      match s_hits x !! s_pos x with
      | None => (ENMFIL, with_dos (fun k => {| k with g_search := <[i := {| x with s_id := 0; s_hits := [] |}]> (g_search k) |}) s)
      | Some h =>
        let s := with_dos (fun k => {| k with g_search := <[i := {| x with s_pos := S (s_pos x) |}]> (g_search k) |}) s in
        (0, dta_fill dta id h s)
      end
    end.

(** ** Files *)
Definition do_fopen (d a bp : Z) s : Z * sys W M :=
  let name := rdstr (sm s) (rd32 (sm s) (a + 2)) in
  let mode := rd16 (sm s) (a + 6) .& 3 in
  match st_resolve d name s with
  | (Err e, s) => (e, s)
  | (Ok (hp, st), s) =>
    if is_dir st then (EFILNF, s)
    else if (mode != 0) && drive_ro (sd s) d then (EWRPRO, s)
    else
      let fl := if mode =? 0 then O_RDONLY else if mode =? 1 then O_WRONLY else O_RDWR in
      match h_open hp fl (sw s) with
      | (HErr e, w) => (errno_tos e EFILNF, {| s with sw := w |})
      | (Done fd, w) => file_new fd d (mode != 0) bp hp {| s with sw := w |}
      end
  end.

Definition do_fcreate (d a bp : Z) s : Z * sys W M :=
  let name := rdstr (sm s) (rd32 (sm s) (a + 2)) in
  let attr := rd16 (sm s) (a + 6) in
  if truth (attr .& (FA_LABEL .| FA_DIR)) then (EACCDN, s)
  else if drive_ro (sd s) d then (EWRPRO, s)
  else match st_resolve_new d name s with
  | (Err e, s) => (e, s)
  | (Ok (dir, leaf, ex), s) =>
    let hp := default (path_join dir leaf) ex in
    if match ex with
       | Some _ => match h_stat (sw s) hp with Some st => is_dir st || is_ro st | None => false end
       | None => false end
    then (EACCDN, s)
    else match h_open hp O_CREATE (sw s) with
    | (HErr e, w) => (errno_tos e EPTHNF, {| s with sw := w |})
    | (Done fd, w) =>
      let w := if truth (attr .& FA_RDONLY) then h_fchmod fd 0x124 w else w in
      file_new fd d true bp hp (dcache_drop {| s with sw := w |})
    end
  end.

Definition arg_handle m a : Z := s16 (rd16 m a).

Definition do_fclose (a : Z) s : Z * sys W M :=
  let h := arg_handle (sm s) (a + 2) in
  match file_of (sd s) h with
  | None => (EIHNDL, s)
  | Some _ => (0, file_close (Z.to_nat (h - HOSTDOS_HANDLE_BASE)) s)
  end.

(** The chunked loops; every round but the last moves at least one byte, so
    [count] rounds are enough. *)
Fixpoint fread_loop (fuel : nat) (fd buf count total : Z) s : Z * sys W M :=
  match fuel with
  | O => (s32 total, s)
  | S fuel =>
    if total <? count then
      match h_read fd (Z.min (count - total) 65536) (sw s) with
      | (HErr _, w) => (if truth total then s32 total else ERROR, {| s with sw := w |})
      | (Done [], w) => (s32 total, {| s with sw := w |})
      | (Done l, w) => fread_loop fuel fd buf count (total + Z.of_nat (length l))
                         (with_mem (wr_bytes (u32 (buf + total)) l) {| s with sw := w |})
      end
    else (s32 total, s)
  end.

Definition do_fread (a : Z) s : Z * sys W M :=
  let h := arg_handle (sm s) (a + 2) in
  let count := rd32 (sm s) (a + 4) in
  let buf := rd32 (sm s) (a + 8) in
  match file_of (sd s) h with
  | None => (EIHNDL, s)
  | Some f => fread_loop (Z.to_nat count) (f_fd f) buf count 0 s
  end.

Fixpoint fwrite_loop (fuel : nat) (fd buf count total : Z) s : Z * sys W M :=
  match fuel with
  | O => (s32 total, s)
  | S fuel =>
    if total <? count then
      let want := Z.min (count - total) 65536 in
      match h_write fd (rd_bytes (sm s) (u32 (buf + total)) (Z.to_nat want)) (sw s) with
      | (HErr e, w) => (if truth total then s32 total else errno_tos e EACCDN, {| s with sw := w |})
      | (Done put, w) =>
        let s := {| s with sw := w |} in
        if put <? want then (s32 (total + put), s) else fwrite_loop fuel fd buf count (total + put) s
      end
    else (s32 total, s)
  end.

Definition do_fwrite (a : Z) s : Z * sys W M :=
  let h := arg_handle (sm s) (a + 2) in
  let count := rd32 (sm s) (a + 4) in
  let buf := rd32 (sm s) (a + 8) in
  match file_of (sd s) h with
  | None => (EIHNDL, s)
  | Some f => if negb (canwrite f) then (EACCDN, s)
              else fwrite_loop (Z.to_nat count) (f_fd f) buf count 0 s
  end.

Definition do_fseek (a : Z) s : Z * sys W M :=
  let off := s32 (rd32 (sm s) (a + 2)) in
  let mode := rd16 (sm s) (a + 8) in
  match file_of (sd s) (arg_handle (sm s) (a + 6)) with
  | None => (EIHNDL, s)
  | Some f =>
    match h_fstat (sw s) (f_fd f) with
    | None => (ERROR, s)
    | Some st =>
      let base := if mode =? 0 then 0 else if mode =? 1 then h_tell (sw s) (f_fd f)
                  else if mode =? 2 then st_size st else -1 in
      if base <? 0 then (ERROR, s)
      else
        let pos := base + off in
        if (pos <? 0) || (st_size st <? pos) then (ERANGE_T, s)
        else let '(ok, w) := h_seek (f_fd f) pos (sw s) in
             (if ok then s32 pos else ERROR, {| s with sw := w |})
    end
  end.

Definition do_fdatime (a : Z) s : Z * sys W M :=
  let tp := rd32 (sm s) (a + 2) in
  let wflag := rd16 (sm s) (a + 8) in
  match file_of (sd s) (arg_handle (sm s) (a + 6)) with
  | None => (EIHNDL, s)
  | Some f =>
    if truth wflag then
      if drive_ro (sd s) (f_drive f) then (EWRPRO, s)
      else match h_futimens (f_fd f) (from_dos (rd16 (sm s) tp) (rd16 (sm s) (tp + 2))) (sw s) with
           | (HErr e, w) => (errno_tos e EACCDN, {| s with sw := w |})
           | (Done _, w) => (0, {| s with sw := w |})
           end
    else match h_fstat (sw s) (f_fd f) with
         | None => (ERROR, s)
         | Some st => (0, with_mem (fun m => wr16 (tp + 2) (dos_date (st_tm st)) (wr16 tp (dos_time (st_tm st)) m)) s)
         end
  end.

(** ** Names *)

(** The end of a call that changes a directory. *)
Definition finish (dflt : Z) (r : hres () * W) s : Z * sys W M :=
  match r with
  | (HErr e, w) => (errno_tos e dflt, {| s with sw := w |})
  | (Done _, w) => (0, dcache_drop {| s with sw := w |})
  end.

Definition do_fdelete (d a : Z) s : Z * sys W M :=
  match st_resolve d (rdstr (sm s) (rd32 (sm s) (a + 2))) s with
  | (Err e, s) => (e, s)
  | (Ok (hp, st), s) =>
    if is_dir st then (EFILNF, s)
    else if drive_ro (sd s) d then (EWRPRO, s)
    else if is_ro st then (EACCDN, s)
    else finish EFILNF (h_unlink hp (sw s)) s
  end.

Definition do_dcreate (d a : Z) s : Z * sys W M :=
  if drive_ro (sd s) d then (EWRPRO, s)
  else match st_resolve_new d (rdstr (sm s) (rd32 (sm s) (a + 2))) s with
  | (Err e, s) => (e, s)
  | (Ok (_, _, Some _), s) => (EACCDN, s)
  | (Ok (dir, leaf, None), s) => finish EPTHNF (h_mkdir (path_join dir leaf) (sw s)) s
  end.

Definition do_ddelete (d a : Z) s : Z * sys W M :=
  let name := rdstr (sm s) (rd32 (sm s) (a + 2)) in
  let c := parse (cwd_of (sd s) d) name in
  match st_resolve d name s with
  | (Err _, s) => (EPTHNF, s)
  | (Ok (hp, st), s) =>
    if negb (is_dir st) || bool_decide (c = []) then (EPTHNF, s)
    else if drive_ro (sd s) d then (EWRPRO, s)
    else finish EPTHNF (h_rmdir hp (sw s)) s
  end.

Definition do_frename (d a : Z) s : Z * sys W M :=
  let oldn := rdstr (sm s) (rd32 (sm s) (a + 4)) in
  let newn := rdstr (sm s) (rd32 (sm s) (a + 8)) in
  if match newn with c :: 58 :: _ => (toupper c - 65) != d | _ => false end then (ENSAME, s)
  else match st_resolve d oldn s with
  | (Err e, s) => (e, s)
  | (Ok (hp, _), s) =>
    if drive_ro (sd s) d then (EWRPRO, s)
    else match st_resolve_new d newn s with
    | (Err e, s) => (e, s)
    | (Ok (_, _, Some _), s) => (EACCDN, s)
    | (Ok (dir, leaf, None), s) => finish EPTHNF (h_rename hp (path_join dir leaf) (sw s)) s
    end
  end.

Definition do_fattrib (d a : Z) s : Z * sys W M :=
  let wflag := rd16 (sm s) (a + 6) in
  let attr := rd16 (sm s) (a + 8) in
  match st_resolve d (rdstr (sm s) (rd32 (sm s) (a + 2))) s with
  | (Err e, s) => (e, s)
  | (Ok (hp, st), s) =>
    let cur := (if is_dir st then FA_DIR else 0) .| (if is_ro st then FA_RDONLY else 0) in
    if wflag =? 0 then (cur, s)
    else if drive_ro (sd s) d then (EWRPRO, s)
    else if is_dir st then (cur, s)
    else
      let m := st_mode st .& 0xFFF in
      let m := if truth (attr .& FA_RDONLY) then m .& Z.lnot 0x92 else m .| 0x80 in
      match h_chmod hp m (sw s) with
      | (HErr e, w) => (errno_tos e EACCDN, {| s with sw := w |})
      | (Done _, w) => (if truth (attr .& FA_RDONLY) then FA_RDONLY else 0, {| s with sw := w |})
      end
  end.

Definition do_dsetpath (d a : Z) s : Z * sys W M :=
  let name := rdstr (sm s) (rd32 (sm s) (a + 2)) in
  if match name with [] => true | [_; c] => c =? 58 | _ => false end then (0, s)
  else
    let c := parse (cwd_of (sd s) d) name in
    match st_resolve d name s with
    | (Err _, s) => (EPTHNF, s)
    | (Ok (_, st), s) =>
      if negb (is_dir st) then (EPTHNF, s)
      else (0, with_dos (fun k => {| k with g_cwd := <[Z.to_nat d := c]> (g_cwd k) |}) s)
    end.

Definition do_dgetpath (d a : Z) s : Z * sys W M :=
  let buf := rd32 (sm s) (a + 2) in
  let p := take 127 (concat (map (cons 92) (cwd_of (sd s) d))) in
  (0, with_mem (wr_bytes buf (p ++ [0])) s).

Definition do_dfree (d a : Z) s : Z * sys W M :=
  let buf := rd32 (sm s) (a + 2) in
  let secsiz := 512 in
  let clsiz := 2 in
  let clbytes := secsiz * clsiz in
  let maxcl := 0x7FFFFFFF / clbytes in
  let '(total, avail) :=
    match h_statvfs (sw s) (root_of (drive_of (sd s) d)) with
    | Some (blocks, bavail, frsize) => (u64 (blocks * frsize) / clbytes, u64 (bavail * frsize) / clbytes)
    | None => (0, 0)
    end in
  let total := if maxcl <? total then maxcl else total in
  let avail := if total <? avail then total else avail in
  let avail := if drive_ro (sd s) d then 0 else avail in
  (0, with_mem (fun m => wr32 (buf + 12) clsiz (wr32 (buf + 8) secsiz (wr32 (buf + 4) total (wr32 buf avail m)))) s).

(** ** Programs *)
Definition be32_at (l : list Z) (o : nat) : Z :=
  l !!! o * 16777216 + l !!! (o + 1)%nat * 65536 + l !!! (o + 2)%nat * 256 + l !!! (o + 3)%nat.
Definition be16_at (l : list Z) (o : nat) : Z := l !!! o * 256 + l !!! (o + 1)%nat.

Definition do_pexec (d a : Z) s : Z * sys W M :=
  let mode := rd16 (sm s) (a + 2) in
  if (mode != 0) && (mode != 3) then (s32 HOSTDOS_PASS, s)
  else match st_resolve d (rdstr (sm s) (rd32 (sm s) (a + 4))) s with
  | (Err e, s) => (e, s)
  | (Ok (hp, st), s) =>
    if is_dir st then (EFILNF, s)
    else match h_slurp (sw s) hp with
    | HErr e => (errno_tos e EFILNF, s)
    | Done file =>
      let h := take 28 file in
      if negb (length h =? 28)%nat || (h !!! 0%nat != 0x60) || (h !!! 1%nat != 0x1A) then (EPLFMT, s)
      else (s32 HOSTDOS_PEXEC,
            with_dos (fun k => {| k with g_pexec :=
              mk_pend true hp (be32_at h 2) (be32_at h 6) (be32_at h 10) (be32_at h 14) (be32_at h 22) (be16_at h 26) |}) s)
    end
  end.

(** Add [tbase] to the long at [off] of the image. *)
Definition patch (tbase off : Z) (im : list Z) : option (list Z) :=
  if (Z.of_nat (length im) <? off + 4) || truth (off .& 1) then None
  else let o := Z.to_nat off in
       Some (take o im ++ be32 (u32 (be32_at im o + tbase)) ++ drop (o + 4) im).

(** The offset bytes after the first fixup. *)
Fixpoint reloc (tbase pos : Z) (l : list Z) (im : list Z) : option (list Z) :=
  match l with
  | [] => Some im
  | b :: l =>
    if b =? 0 then Some im
    else if b =? 1 then reloc tbase (pos + 254) l im
    else match patch tbase (pos + b) im with
         | None => None
         | Some im => reloc tbase (pos + b) l im
         end
  end.

(** The whole relocation of image [im] of [file], whose table starts at [ro]. *)
Definition relocate (tbase ro absflag : Z) (file im : list Z) : option (list Z) :=
  if (absflag =? 0) && (ro + 4 <=? Z.of_nat (length file)) then
    let pos := be32_at file (Z.to_nat ro) in
    if truth pos then
      match patch tbase pos im with
      | None => None
      | Some im => reloc tbase pos (drop (Z.to_nat (ro + 4)) file) im
      end
    else Some im
  else Some im.

(** Reads of 64 KB until the end, or until past 128 MB. *)
Definition FILE_MAX := 2049 * 65536.
Definition read_chunks (all : bytes) : bytes :=
  if Z.of_nat (length all) <=? FILE_MAX then all else take (Z.to_nat FILE_MAX) all.

Definition do_load (bp : Z) s : Z * sys W M :=
  let p := g_pexec (sd s) in
  if negb (p_valid p) then (EPLFMT, s)
  else
    let s := with_dos (fun k => {| k with g_pexec := {| p with p_valid := false |} |}) s in
    let lowtpa := rd32 (sm s) bp in
    let hitpa := rd32 (sm s) (bp + 4) in
    let img := p_tlen p + p_dlen p in
    let need := 0x100 + img + p_blen p in
    if (MAX_PRG_BYTES <? img) || (hitpa <? lowtpa + need) then (ENSMEM, s)
    else match h_slurp (sw s) (p_path p) with
    | HErr _ => (EFILNF, s)
    | Done all =>
      let file := read_chunks all in
      if Z.of_nat (length file) <? 28 + img then (EPLFMT, s)
      else
        let tbase := u32 (lowtpa + 0x100) in
        match relocate tbase (28 + img + p_slen p) (p_absflag p) file (take (Z.to_nat img) (drop 28 file)) with
        | None => (EPLFMT, s)
        | Some im =>
          let bbase := u32 (tbase + img) in
          let clear := if truth (p_flags p .& 1) then p_blen p else u32 (hitpa - bbase) in
          (0, with_mem (fun m =>
                wr32 (bp + 28) (p_blen p) (wr32 (bp + 24) bbase (wr32 (bp + 20) (p_dlen p)
                (wr32 (bp + 16) (u32 (tbase + p_tlen p)) (wr32 (bp + 12) (p_tlen p) (wr32 (bp + 8) tbase
                (wrzero bbase clear (wr_bytes tbase im m)))))))) s)
        end
    end.

(** ** Dispatch *)
Definition dispatch (a d bp dta : Z) s : Z * sys W M :=
  let fn := rd16 (sm s) a in
  if fn =? 0x3E then do_fclose a s
  else if fn =? 0x3F then do_fread a s
  else if fn =? 0x40 then do_fwrite a s
  else if fn =? 0x42 then do_fseek a s
  else if fn =? 0x57 then do_fdatime a s
  else if fn =? 0x4F then do_fsnext dta s
  else if negb (drive_ok (sd s) d) then (s32 HOSTDOS_PASS, s)
  else if fn =? 0x36 then do_dfree d a s
  else if fn =? 0x39 then do_dcreate d a s
  else if fn =? 0x3A then do_ddelete d a s
  else if fn =? 0x3B then do_dsetpath d a s
  else if fn =? 0x3C then do_fcreate d a bp s
  else if fn =? 0x3D then do_fopen d a bp s
  else if fn =? 0x41 then do_fdelete d a s
  else if fn =? 0x43 then do_fattrib d a s
  else if fn =? 0x47 then do_dgetpath d a s
  else if fn =? 0x4B then do_pexec d a s
  else if fn =? 0x4E then do_fsfirst d a dta s
  else if fn =? 0x56 then do_frename d a s
  else (s32 HOSTDOS_PASS, s).

(** ** Entry points *)
(** [mem]: the argument, [Some true] when it has both callbacks. *)
Definition hostdos_init (drives : option (list drive)) (mem : option bool) s : sys W M :=
  with_dos (fun k => {| k with
      g_drives := default (replicate (Z.to_nat NDRIVES) no_drive) drives;
      g_mem_set := default (g_mem_set k) mem;
      g_mint := false |}) (reset_all s).

Definition hostdos_note_mint s : sys W M :=
  with_dos (fun k => {| k with g_mint := true |}) (if g_mint (sd s) then s else reset_all s).

Definition HOSTDOS_OP_VERSION := 0.
Definition HOSTDOS_OP_INSTALL := 1.
Definition HOSTDOS_OP_DISPATCH := 2.
Definition HOSTDOS_OP_PTERM := 3.
Definition HOSTDOS_OP_PRGFLAGS := 4.
Definition HOSTDOS_OP_LOAD := 5.

Definition drive_bits (k : dos) : Z :=
  fold_left (fun bits i => if drive_ok k (Z.of_nat i) then bits .| (1 << Z.of_nat i) else bits)
    (seq 0 (Z.to_nat NDRIVES)) 0.

Definition pterm_step (bp : Z) (i : nat) s : sys W M :=
  match g_files (sd s) !! i with
  | Some f => if used f && (owner f =? bp) then file_close i s else s
  | None => s
  end.
Definition pterm (bp : Z) s : sys W M :=
  fold_left (fun s i => pterm_step bp i s) (seq 0 HOSTDOS_MAX_FILES) s.

Definition hostdos_call (subid p0 p1 p2 p3 : Z) s : Z * sys W M :=
  if negb (g_mem_set (sd s)) then (u32 EDRIVE, s)
  else if subid =? HOSTDOS_OP_VERSION then (HOSTDOS_API_VERSION, s)
  else if subid =? HOSTDOS_OP_INSTALL then
    let s := with_dos (fun k => {| k with g_mint := false |}) (reset_all s) in (drive_bits (sd s), s)
  else if subid =? HOSTDOS_OP_DISPATCH then
    if g_mint (sd s) then (HOSTDOS_PASS, s)
    else let '(r, s) := dispatch p0 (s32 p1) p2 p3 s in (u32 r, s)
  else if subid =? HOSTDOS_OP_PTERM then (0, pterm p0 s)
  else if subid =? HOSTDOS_OP_PRGFLAGS then
    (if p_valid (g_pexec (sd s)) then p_flags (g_pexec (sd s)) else 0, s)
  else if subid =? HOSTDOS_OP_LOAD then let '(r, s) := do_load p0 s in (u32 r, s)
  else (u32 ERROR, s).

(** A GEMDOS path with its drive letter to a host path of fewer than [outsz] bytes. *)
Definition hostdos_gemdos_to_host (gem : bytes) (outsz : Z) s : option bytes * sys W M :=
  match gem with
  | c :: 58 :: _ =>
    let d := toupper c - 65 in
    if negb (drive_ok (sd s) d) then (None, s)
    else match st_resolve d gem s with
    | (Err _, s) => (None, s)
    | (Ok (hp, _), s) => (if outsz <? Z.of_nat (length hp) + 1 then None else Some hp, s)
    end
  | _ => (None, s)
  end.
End Calls.
