(* ===== verification/DosProps.v ===== *)
(** * DosProps: what the GEMDOS engine guarantees
    ([platforms/atari/network/hostdos.cpp])

    Read-only drives, the life of a file handle, directory searches, and
    program loading, over the calls of DosCalls. *)

From S2P Require Import Prelude Flags Cpu DosNames DosDir DosCalls.
From Stdlib Require Import ZArith Lia Bool String Sorted.
From stdpp Require Import base list gmap.
Open Scope Z_scope.
Open Scope cint_scope.

(** Case analysis of a call down to its results. *)
Ltac branches :=
  repeat match goal with
  | |- context [match ?x with _ => _ end] => destruct x eqn:?; simplify_eq/=
  end.

(** ** Read-only drives *)

(** The file contents a host call may touch: POSIX says that opening for
    reading, closing, reading and seeking leave them alone. *)
Class ReadOnlyLaws (W : Type) `{HostIO W} {C : Type} (content : W -> C) := {
  open_rdonly : forall p w, content (h_open p O_RDONLY w).2 = content w;
  close_same : forall fd w, content (h_close fd w) = content w;
  read_same : forall fd n w, content (h_read fd n w).2 = content w;
  seek_same : forall fd n w, content (h_seek fd n w).2 = content w }.

(** A handle open for writing lies on a writable drive. *)
Definition handle_ok (k : dos) (f : hfile) : Prop :=
  used f = true -> canwrite f = true -> drive_ro k (f_drive f) = false.
Definition handles_ok (k : dos) : Prop := Forall (handle_ok k) (g_files k).

Lemma file_of_in k h f : file_of k h = Some f -> In f (g_files k) /\ used f = true.
Proof.
  unfold file_of. case_match; [done|]. case_match eqn:Hl; [|done]. case_match; [|done].
  intros [= <-]. split; [|done]. by eapply list_elem_of_In, list_elem_of_lookup_2.
Qed.

Section ReadOnly.
Context {W M : Type} `{HostIO W} `{Bus M} {C : Type} (content : W -> C) `{!ReadOnlyLaws W content}.
Implicit Types (s : sys W M).

(** A call that leaves contents, drives and handles alone. *)
Definition quiet s s' : Prop :=
  content (sw s') = content (sw s) /\ g_drives (sd s') = g_drives (sd s) /\ g_files (sd s') = g_files (sd s).
(** A call that leaves drives and handles alone. *)
Definition steady s s' : Prop := g_drives (sd s') = g_drives (sd s) /\ g_files (sd s') = g_files (sd s).
(** A call that keeps the handle invariant. *)
Definition keeps s s' : Prop :=
  g_drives (sd s') = g_drives (sd s) /\ (handles_ok (sd s) -> handles_ok (sd s')).

Lemma quiet_refl s : quiet s s.
Proof. by repeat split. Qed.
Lemma quiet_trans s1 s2 s3 : quiet s1 s2 -> quiet s2 s3 -> quiet s1 s3.
Proof. unfold quiet. intuition congruence. Qed.
Lemma steady_keeps s s' : steady s s' -> keeps s s'.
Proof.
  intros [Hd Hf]. split; [done|]. unfold handles_ok, handle_ok, drive_ro, drive_of.
  by rewrite Hd, Hf.
Qed.
Lemma quiet_steady s s' : quiet s s' -> steady s s'.
Proof. unfold quiet, steady. tauto. Qed.

Lemma st_resolve_quiet d nm s r s' : st_resolve d nm s = (r, s') -> quiet s s'.
Proof. unfold st_resolve. case_match. intros [= _ <-]. by repeat split. Qed.
Lemma st_resolve_new_quiet d nm s r s' : st_resolve_new d nm s = (r, s') -> quiet s s'.
Proof. unfold st_resolve_new. case_match. intros [= _ <-]. by repeat split. Qed.

Lemma drive_ro_steady s s' d : steady s s' -> drive_ro (sd s') d = drive_ro (sd s) d.
Proof. intros [Hd _]. unfold drive_ro, drive_of. by rewrite Hd. Qed.

(** The leaves of a call: a state updated in parts, after at most two
    resolutions. *)
Ltac use_resolves :=
  repeat match goal with
  | E : st_resolve _ _ _ = (_, _) |- _ => apply st_resolve_quiet in E
  | E : st_resolve_new _ _ _ = (_, _) |- _ => apply st_resolve_new_quiet in E
  end.
Ltac leaf := use_resolves; unfold quiet, steady, with_dos, with_mem, dcache_drop, dta_fill in *; cbn in *;
  intuition (congruence || eauto).

Lemma fread_loop_quiet fuel fd buf count : forall total s, quiet s (fread_loop fuel fd buf count total s).2.
Proof.
  induction fuel as [|fuel IH]; intros total s; cbn [fread_loop]; [apply quiet_refl|].
  case_match; [|apply quiet_refl].
  pose proof (read_same fd (Z.min (count - total) 65536) (sw s)) as Hr.
  destruct (h_read _ _ _) as [[[|b l]|e] w]; [leaf| |leaf].
  eapply quiet_trans; [|apply IH]. leaf.
Qed.

Lemma fwrite_loop_steady fuel fd buf count : forall total s, steady s (fwrite_loop fuel fd buf count total s).2.
Proof.
  induction fuel as [|fuel IH]; intros total s; cbn [fwrite_loop]; [done|].
  case_match; [|done]. destruct (h_write _ _ _) as [[put|e] w]; [|done].
  case_match; [done|]. match goal with |- steady _ (_ ?s1).2 => destruct (IH (total + put) s1) end.
  by split.
Qed.

(** *** Calls that never change a drive *)
Lemma do_fsfirst_quiet d a dta s : quiet s (do_fsfirst d a dta s).2.
Proof. unfold do_fsfirst. branches; leaf. Qed.
Lemma do_fsnext_quiet dta s : quiet s (do_fsnext dta s).2.
Proof. unfold do_fsnext. branches; leaf. Qed.
Lemma do_fread_quiet a s : quiet s (do_fread a s).2.
Proof. unfold do_fread. case_match; [apply fread_loop_quiet|apply quiet_refl]. Qed.
Lemma do_fseek_quiet a s : quiet s (do_fseek a s).2.
Proof.
  unfold do_fseek. do 2 (case_match; [|leaf]).
  match goal with |- context [h_seek ?fd ?p ?w] => pose proof (seek_same fd p w); destruct (h_seek fd p w) end.
  repeat (case_match; try leaf).
Qed.
Lemma do_dsetpath_quiet d a s : quiet s (do_dsetpath d a s).2.
Proof. unfold do_dsetpath. branches; leaf. Qed.
Lemma do_dgetpath_quiet d a s : quiet s (do_dgetpath d a s).2.
Proof. leaf. Qed.
Lemma do_dfree_quiet d a s : quiet s (do_dfree d a s).2.
Proof. unfold do_dfree. branches; leaf. Qed.
Lemma do_pexec_quiet d a s : quiet s (do_pexec d a s).2.
Proof. unfold do_pexec. branches; leaf. Qed.
Lemma do_load_quiet bp s : quiet s (do_load bp s).2.
Proof. unfold do_load. branches; leaf. Qed.

(** *** Calls that change handles *)
Definition same_content s s' : Prop := content (sw s') = content (sw s).

Lemma file_new_keeps fd d wr own p s : (wr = true -> drive_ro (sd s) d = false) ->
  keeps s (file_new fd d wr own p s).2.
Proof.
  intros Hw. unfold file_new. case_match; [|by split].
  split; [done|]. intros Hk. unfold handles_ok in *; cbn. apply Forall_insert; [exact Hk|].
  intros _; exact Hw.
Qed.
Lemma file_new_content fd d wr own p s : same_content s (file_new fd d wr own p s).2.
Proof. unfold file_new. case_match; [done|]. apply close_same. Qed.

Lemma file_close_keeps i s : keeps s (file_close i s).
Proof.
  unfold file_close. case_match; [|by split].
  split; [by case_match|]. intros Hk. case_match; unfold handles_ok in *; cbn;
    (apply Forall_insert; [exact Hk|]; by intros ?).
Qed.
Lemma file_close_content i s : same_content s (file_close i s).
Proof.
  unfold file_close, same_content. case_match; [|done]. cbn.
  case_match; cbn; [apply close_same|done].
Qed.

Lemma keeps_trans s1 s2 s3 : keeps s1 s2 -> keeps s2 s3 -> keeps s1 s3.
Proof. unfold keeps. intuition congruence. Qed.
Lemma keeps_refl s : keeps s s.
Proof. by split. Qed.

(** A fold of closing steps keeps what each step keeps. *)
Lemma fold_keeps (g : nat -> sys W M -> sys W M) l :
  (forall i s, keeps s (g i s) /\ same_content s (g i s)) ->
  forall s, keeps s (fold_left (fun s i => g i s) l s) /\ same_content s (fold_left (fun s i => g i s) l s).
Proof.
  intros Hg. induction l as [|i l IH]; intros s; cbn; [by split|].
  destruct (Hg i s) as [K1 C1], (IH (g i s)) as [K2 C2]. split; [by eapply keeps_trans|].
  unfold same_content in *. congruence.
Qed.

Lemma close_all_keeps s : keeps s (close_all s) /\ same_content s (close_all s).
Proof. apply (fold_keeps file_close). auto using file_close_keeps, file_close_content. Qed.

Lemma reset_all_keeps s : keeps s (reset_all s) /\ same_content s (reset_all s).
Proof.
  unfold reset_all. destruct (close_all_keeps s) as [K C1]. revert K C1.
  generalize (close_all s) as t. intros t K C1.
  split; [|exact C1]. eapply keeps_trans; [exact K|]. by split.
Qed.

Lemma pterm_keeps bp s : keeps s (pterm bp s) /\ same_content s (pterm bp s).
Proof.
  apply (fold_keeps (pterm_step bp)). intros i t. unfold pterm_step.
  repeat case_match; (split; [apply file_close_keeps || apply keeps_refl|apply file_close_content || done]).
Qed.

Lemma do_fclose_keeps a s : keeps s (do_fclose a s).2 /\ same_content s (do_fclose a s).2.
Proof. unfold do_fclose. case_match; [split; [apply file_close_keeps|apply file_close_content]|by split]. Qed.

(** *** Calls that may change a drive *)
Lemma do_fopen_keeps d a bp s : keeps s (do_fopen d a bp s).2.
Proof.
  unfold do_fopen. destruct (st_resolve _ _ _) as [r s'] eqn:E. apply st_resolve_quiet, quiet_steady in E.
  destruct r as [[hp st]|]; [|by apply steady_keeps].
  case_match; [by apply steady_keeps|]. case_match eqn:Hm; [by apply steady_keeps|].
  destruct (h_open _ _ _) as [[fd|e] w]; [|apply steady_keeps; leaf].
  apply (keeps_trans _ {| s' with sw := w |}); [apply steady_keeps; exact E|]. apply file_new_keeps. cbn.
  intros Hw. by rewrite Hw in Hm.
Qed.
Lemma do_fopen_ro d a bp s : drive_ro (sd s) d = true -> same_content s (do_fopen d a bp s).2.
Proof.
  intros Hro. unfold do_fopen. destruct (st_resolve _ _ _) as [r s'] eqn:E. apply st_resolve_quiet in E.
  rewrite <- (drive_ro_steady _ _ d (quiet_steady _ _ E)) in Hro. destruct E as [E _].
  destruct r as [[hp st]|]; [|done]. case_match; [done|]. rewrite Hro.
  destruct (rd16 _ _ .& 3 =? 0) eqn:Hm; cbn; [|done].
  pose proof (open_rdonly hp (sw s')) as Ho. destruct (h_open _ _ _) as [[fd|e] w]; cbn in Ho;
    unfold same_content in *; cbn; [|congruence].
  rewrite file_new_content. cbn. congruence.
Qed.

Lemma do_fcreate_keeps d a bp s : keeps s (do_fcreate d a bp s).2.
Proof.
  unfold do_fcreate. case_match; [apply keeps_refl|]. case_match eqn:Hro; [apply keeps_refl|].
  destruct (st_resolve_new _ _ _) as [r s'] eqn:E. apply st_resolve_new_quiet, quiet_steady in E.
  destruct r as [[[dir lf] ex]|]; [|by apply steady_keeps].
  case_match; [by apply steady_keeps|].
  destruct (h_open _ _ _) as [[fd|e] w]; [|apply steady_keeps; leaf].
  rewrite <- (drive_ro_steady _ _ d E) in Hro.
  eapply keeps_trans; [apply steady_keeps; exact E|]. eapply keeps_trans; [|by apply file_new_keeps].
  by split.
Qed.

Lemma finish_steady dflt r s : steady s (finish dflt r s).2.
Proof. unfold finish. by repeat case_match. Qed.

(** The name calls leave the handles alone, and on a read-only drive the
    contents too. *)
Definition name_call (g : sys W M -> Z * sys W M) d s : Prop :=
  steady s (g s).2 /\ (drive_ro (sd s) d = true -> same_content s (g s).2).

Ltac by_finish := match goal with |- context [finish ?e ?r ?t] => pose proof (finish_steady e r t) end.
Ltac name_call :=
  unfold name_call, same_content; split; intros; branches; try by_finish; use_resolves;
  repeat match goal with E : quiet _ ?s, R : drive_ro (sd ?s) ?d = _ |- _ =>
    rewrite (drive_ro_steady _ _ d (quiet_steady _ _ E)) in R end;
  leaf.

Lemma do_fdelete_name d a s : name_call (do_fdelete d a) d s.
Proof. unfold do_fdelete. name_call. Qed.
Lemma do_dcreate_name d a s : name_call (do_dcreate d a) d s.
Proof. unfold do_dcreate. name_call. Qed.
Lemma do_ddelete_name d a s : name_call (do_ddelete d a) d s.
Proof. unfold do_ddelete. name_call. Qed.
Lemma do_frename_name d a s : name_call (do_frename d a) d s.
Proof. unfold do_frename. name_call. Qed.
Lemma do_fattrib_name d a s : name_call (do_fattrib d a) d s.
Proof. unfold do_fattrib. name_call. Qed.

Lemma do_fwrite_steady a s : steady s (do_fwrite a s).2.
Proof. unfold do_fwrite. repeat case_match; by try apply fwrite_loop_steady. Qed.
Lemma do_fdatime_steady a s : steady s (do_fdatime a s).2.
Proof. unfold do_fdatime. branches; leaf. Qed.

(** The drive a GEMDOS call acts on: that of its handle, or the one its path
    names. *)
Definition target_drive s a d : Z :=
  let fn := rd16 (sm s) a in
  if (fn =? 0x40) || (fn =? 0x57) then
    let h := arg_handle (sm s) (if fn =? 0x40 then a + 2 else a + 6) in
    match file_of (sd s) h with Some f => f_drive f | None => d end
  else d.

Lemma do_fwrite_ro a s : handles_ok (sd s) ->
  (forall f, file_of (sd s) (arg_handle (sm s) (a + 2)) = Some f -> drive_ro (sd s) (f_drive f) = true) ->
  same_content s (do_fwrite a s).2.
Proof.
  intros Hk Hro. unfold do_fwrite. destruct (file_of _ _) as [f|] eqn:Hf; [|done].
  specialize (Hro f eq_refl). apply file_of_in in Hf as [Hi Hu].
  apply list_elem_of_In in Hi. unfold handles_ok in Hk. rewrite Forall_forall in Hk. specialize (Hk f Hi Hu).
  destruct (canwrite f); [|done]. by rewrite Hk in Hro.
Qed.
Lemma do_fdatime_ro a s :
  (forall f, file_of (sd s) (arg_handle (sm s) (a + 6)) = Some f -> drive_ro (sd s) (f_drive f) = true) ->
  same_content s (do_fdatime a s).2.
Proof.
  intros Hro. unfold do_fdatime. destruct (file_of _ _) as [f|] eqn:Hf; [|done].
  rewrite (Hro f eq_refl). repeat case_match; done.
Qed.

(** Run through the dispatch table. *)
Ltac per_call tac :=
  repeat match goal with |- context [if ?c then _ else _] => destruct c eqn:?; [by tac|] end; by tac.

Lemma dispatch_keeps a d bp dta s : keeps s (dispatch a d bp dta s).2.
Proof.
  unfold dispatch.
  per_call ltac:(first
    [ apply keeps_refl | apply do_fclose_keeps | apply do_fopen_keeps | apply do_fcreate_keeps
    | apply steady_keeps; first [ apply do_fwrite_steady | apply do_fdatime_steady
      | apply (do_fdelete_name d a s) | apply (do_dcreate_name d a s) | apply (do_ddelete_name d a s)
      | apply (do_frename_name d a s) | apply (do_fattrib_name d a s)
      | apply quiet_steady; first [ apply do_fread_quiet | apply do_fseek_quiet | apply do_fsnext_quiet
        | apply do_dfree_quiet | apply do_dsetpath_quiet | apply do_dgetpath_quiet | apply do_pexec_quiet
        | apply do_fsfirst_quiet ]]]).
Qed.

Lemma quiet_content s s' : quiet s s' -> same_content s s'.
Proof. by intros []. Qed.

Lemma dispatch_ro a d bp dta s : handles_ok (sd s) -> drive_ro (sd s) (target_drive s a d) = true ->
  same_content s (dispatch a d bp dta s).2.
Proof.
  intros Hk. unfold target_drive, dispatch.
  destruct (rd16 (sm s) a =? 0x40) eqn:E40; cbn.
  { apply Z.eqb_eq in E40. rewrite E40. cbn. intros Hro. apply do_fwrite_ro; [done|].
    intros f Hf. by rewrite Hf in Hro. }
  destruct (rd16 (sm s) a =? 0x57) eqn:E57; cbn.
  { apply Z.eqb_eq in E57. rewrite E57. cbn. intros Hro. apply do_fdatime_ro.
    intros f Hf. by rewrite Hf in Hro. }
  intros Hro.
  per_call ltac:(first
    [ done | apply do_fclose_keeps | apply do_fopen_ro
    | unfold do_fcreate; rewrite Hro; case_match; done
    | apply (do_fdelete_name d a s) | apply (do_dcreate_name d a s) | apply (do_ddelete_name d a s)
    | apply (do_frename_name d a s) | apply (do_fattrib_name d a s)
    | apply quiet_content; first [ apply do_fread_quiet | apply do_fseek_quiet | apply do_fsnext_quiet
        | apply do_dfree_quiet | apply do_dsetpath_quiet | apply do_dgetpath_quiet | apply do_pexec_quiet
        | apply do_fsfirst_quiet ]]).
Qed.

(** C11: a read-only drive is read-only.  In every state where handles open
    for writing lie on writable drives, every HOSTDOS call keeps that
    invariant, and a call leaves the host's file contents unchanged unless it
    is a GEMDOS call on a writable drive - that of its handle, or the one its
    path names. *)
Theorem ro_drive_safe subid p0 p1 p2 p3 s :
  handles_ok (sd s) ->
  let s' := (hostdos_call subid p0 p1 p2 p3 s).2 in
  handles_ok (sd s') /\
  ((subid = HOSTDOS_OP_DISPATCH -> drive_ro (sd s) (target_drive s p0 (s32 p1)) = true) ->
   content (sw s') = content (sw s)).
Proof.
  intros Hk. unfold hostdos_call.
  do 2 (case_match; [by split|]).
  case_match. { destruct (reset_all_keeps s) as [[_ K] C1]. revert K C1. generalize (reset_all s) as t.
    intros t K C1. split; [by apply K|intros _; exact C1]. }
  case_match eqn:Hsub.
  { apply Z.eqb_eq in Hsub. case_match; [by split|].
    pose proof (dispatch_keeps p0 (s32 p1) p2 p3 s) as [_ K].
    pose proof (dispatch_ro p0 (s32 p1) p2 p3 s Hk) as R.
    destruct (dispatch _ _ _ _ _) as [r s']. split; [by apply K|]. intros Hro. by apply R, Hro. }
  case_match. { destruct (pterm_keeps p0 s) as [[_ K] C1]. revert K C1. generalize (pterm p0 s) as t.
    intros t K C1. split; [by apply K|intros _; exact C1]. }
  case_match; [by split|].
  case_match; [|by split]. pose proof (do_load_quiet p0 s) as Q. destruct (do_load p0 s) as [r s'].
  split; [by apply (steady_keeps _ _ (quiet_steady _ _ Q))|]. intros _. apply Q.
Qed.
End ReadOnly.

(** ** File handles *)

Section Handles.
Context {W M : Type} `{HostIO W} `{Bus M}.
Implicit Types (s : sys W M).

Lemma free_slot_some l : forall i j, free_slot l i = Some j ->
  exists n f, j = (i + n)%nat /\ l !! n = Some f /\ used f = false /\
    (forall m g, (m < n)%nat -> l !! m = Some g -> used g = true).
Proof.
  induction l as [|x l IH]; intros i j; cbn; [done|]. destruct (used x) eqn:Hu.
  - intros (n & f & -> & Hl & Hf & Hm)%IH. exists (S n), f. repeat split; [lia|done|done|].
    intros [|m] g Hlt Hg; [by simplify_eq/=|]. eapply Hm; [|exact Hg]. lia.
  - intros [= <-]. exists 0%nat, x. repeat split; [lia|done|]. intros m g ?; lia.
Qed.

(** [file_of] as a lookup in the handle table. *)
Lemma file_of_slot k h : length (g_files k) = HOSTDOS_MAX_FILES -> HOSTDOS_HANDLE_BASE <= h ->
  file_of k h = match g_files k !! Z.to_nat (h - HOSTDOS_HANDLE_BASE) with
                | Some f => if used f then Some f else None | None => None end.
Proof.
  intros Hl Hh. unfold file_of. destruct (Z.ltb_spec (h - HOSTDOS_HANDLE_BASE) 0); [lia|].
  destruct (Z.leb_spec (Z.of_nat HOSTDOS_MAX_FILES) (h - HOSTDOS_HANDLE_BASE)); cbn; [|done].
  rewrite lookup_ge_None_2; [done|]. rewrite Hl. lia.
Qed.
Lemma file_of_low k h : h < HOSTDOS_HANDLE_BASE -> file_of k h = None.
Proof. intros. unfold file_of. destruct (Z.ltb_spec (h - HOSTDOS_HANDLE_BASE) 0); [done|lia]. Qed.

(** What opening a file does to the handle table. *)
Definition opened (k k' : dos) (r : Z) (f : hfile) : Prop :=
  file_of k r = None /\ file_of k' r = Some f /\
  (forall h, HOSTDOS_HANDLE_BASE <= h < r -> file_of k h <> None) /\
  (forall h, h <> r -> file_of k' h = file_of k h).

Lemma file_new_opened fd d wr own p s r s' :
  length (g_files (sd s)) = HOSTDOS_MAX_FILES ->
  file_new fd d wr own p s = (r, s') -> 0 <= r -> opened (sd s) (sd s') r (mk_hfile true fd d wr own p).
Proof.
  intros Hl. unfold file_new. destruct (free_slot _ _) as [j|] eqn:Hs; intros [= <- <-] Hr; [|done].
  apply free_slot_some in Hs as (n & f & -> & Hn & Hu & Hlow). cbn [Nat.add].
  assert (n < HOSTDOS_MAX_FILES)%nat by (rewrite <- Hl; by eapply lookup_lt_Some).
  assert (Hx : Z.to_nat (HOSTDOS_HANDLE_BASE + Z.of_nat n - HOSTDOS_HANDLE_BASE) = n) by lia.
  split; [|split; [|split]].
  - rewrite file_of_slot by (done || lia). by rewrite Hx, Hn, Hu.
  - rewrite file_of_slot by (cbn; rewrite ?length_insert; done || lia). cbn.
    rewrite Hx, list_lookup_insert_eq by lia. done.
  - intros h Hh. rewrite file_of_slot by (done || lia).
    destruct (lookup_lt_is_Some_2 (g_files (sd s)) (Z.to_nat (h - HOSTDOS_HANDLE_BASE))) as [g Hg]; [lia|].
    rewrite Hg, (Hlow (Z.to_nat (h - HOSTDOS_HANDLE_BASE)) g) by (done || lia). done.
  - intros h Hne. destruct (Z.ltb_spec h HOSTDOS_HANDLE_BASE).
    + by rewrite !file_of_low by done.
    + rewrite !file_of_slot by (cbn; rewrite ?length_insert; done || lia). cbn.
      rewrite list_lookup_insert_ne by lia. done.
Qed.

(** Only the handle table matters to [opened]. *)
Lemma opened_files k k' k2 r f : g_files k = g_files k2 -> opened k k' r f -> opened k2 k' r f.
Proof. unfold opened, file_of. intros <-. done. Qed.

Lemma errno_tos_neg e dflt : dflt < 0 -> errno_tos e dflt < 0.
Proof. by destruct e. Qed.

Lemma walk_err (w : W) c : forall cache h e cache', walk w cache h c = (Err e, cache') -> e < 0.
Proof.
  induction c as [|x c IH]; intros cache h e cache'; cbn; [done|].
  repeat case_match; intros; simplify_eq/=; eauto; done.
Qed.
Lemma st_resolve_err d nm s e s' : st_resolve d nm s = (Err e, s') -> e < 0.
Proof.
  unfold st_resolve, resolve, resolve_comps. repeat case_match; intros; simplify_eq/=; try done.
  all: by eapply walk_err.
Qed.
Lemma st_resolve_new_err d nm s e s' : st_resolve_new d nm s = (Err e, s') -> e < 0.
Proof.
  unfold st_resolve_new, resolve_new. repeat case_match; intros; simplify_eq/=; try done.
  all: by eapply walk_err.
Qed.
Lemma st_resolve_files d nm s r s' : st_resolve d nm s = (r, s') -> g_files (sd s') = g_files (sd s).
Proof. unfold st_resolve. case_match. by intros [= _ <-]. Qed.
Lemma st_resolve_new_files d nm s r s' : st_resolve_new d nm s = (r, s') -> g_files (sd s') = g_files (sd s).
Proof. unfold st_resolve_new. case_match. by intros [= _ <-]. Qed.

(** The chunked loops never run out of rounds: one more changes nothing. *)
Lemma fread_rounds fuel fd buf count : forall total s, count - total <= Z.of_nat fuel ->
  fread_loop (S fuel) fd buf count total s = fread_loop fuel fd buf count total s.
Proof.
  induction fuel as [|fuel IH]; intros total s Hf.
  - cbn. destruct (Z.ltb_spec total count); [lia|done].
  - remember (S fuel) as f1. cbn [fread_loop]. subst f1. cbn [fread_loop].
    case_match; [|done]. destruct (h_read _ _ _) as [[[|b l]|e] w]; [done| |done].
    apply IH. cbn [length]. lia.
Qed.
Lemma fwrite_rounds fuel fd buf count : forall total s, count - total <= Z.of_nat fuel ->
  fwrite_loop (S fuel) fd buf count total s = fwrite_loop fuel fd buf count total s.
Proof.
  induction fuel as [|fuel IH]; intros total s Hf.
  - cbn. destruct (Z.ltb_spec total count); [lia|done].
  - remember (S fuel) as f1. cbn [fwrite_loop]. subst f1. cbn [fwrite_loop].
    destruct (Z.ltb_spec total count); [|done].
    destruct (h_write _ _ _) as [[put|e] w]; [|done].
    destruct (Z.ltb_spec put (Z.min (count - total) 65536)); [done|]. apply IH. lia.
Qed.

(** A successful [Fopen] or [Fcreate] returns a new handle: the lowest
    one not in use, belonging to the calling process and the drive of the
    call, and no other handle changes.  Failures return negative codes, so a
    non-negative result is always such a handle. *)
Lemma open_new_handle d a bp s r s' :
  length (g_files (sd s)) = HOSTDOS_MAX_FILES ->
  do_fopen d a bp s = (r, s') \/ do_fcreate d a bp s = (r, s') -> 0 <= r ->
  exists f, owner f = bp /\ f_drive f = d /\ opened (sd s) (sd s') r f.
Proof.
  intros Hl [Ho|Hc] Hr.
  - revert Ho. unfold do_fopen. destruct (st_resolve _ _ _) as [[[hp st]|e] s1] eqn:E;
      [|intros [= <- <-]; apply st_resolve_err in E; lia].
    apply st_resolve_files in E. repeat (case_match; [intros [= <- <-]; done|]).
    destruct (h_open _ _ _) as [[fd|e] w]; [|intros [= <- <-]; by pose proof (errno_tos_neg e EFILNF eq_refl); lia].
    intros Hn. eapply file_new_opened in Hn; [|cbn; congruence|done].
    eexists; split; [|split; [|eapply opened_files; [|exact Hn]]]; [done|done|by cbn].
  - revert Hc. unfold do_fcreate. repeat (case_match; [intros [= <- <-]; done|]).
    destruct (st_resolve_new _ _ _) as [[[[dir lf] ex]|e] s1] eqn:E;
      [|intros [= <- <-]; apply st_resolve_new_err in E; lia].
    apply st_resolve_new_files in E. case_match; [intros [= <- <-]; done|].
    destruct (h_open _ _ _) as [[fd|e] w]; [|intros [= <- <-]; by pose proof (errno_tos_neg e EPTHNF eq_refl); lia].
    intros Hn. eapply file_new_opened in Hn; [|cbn; congruence|done].
    eexists; split; [|split; [|eapply opened_files; [|exact Hn]]]; [done|done|by cbn].
Qed.

(** *** Sweeps: closing the handles that satisfy [q] *)
Definition closed (f : hfile) : hfile := {| f with used := false; f_fd := -1; f_path := [] |}.
Definition close_if (q : hfile -> bool) (f : hfile) : hfile := if q f then closed f else f.
Definition close_fd_if (q : hfile -> bool) (w : W) (f : hfile) : W :=
  if q f && used f && (0 <=? f_fd f) then h_close (f_fd f) w else w.
Definition sweep_step (q : hfile -> bool) (i : nat) s : sys W M :=
  match g_files (sd s) !! i with
  | Some f => if q f then file_close i s else s
  | None => s
  end.

Lemma sweep_prefix q s n : (n <= length (g_files (sd s)))%nat ->
  let t := fold_left (fun s i => sweep_step q i s) (seq 0 n) s in
  g_files (sd t) = map (close_if q) (take n (g_files (sd s))) ++ drop n (g_files (sd s)) /\
  sw t = fold_left (close_fd_if q) (take n (g_files (sd s))) (sw s).
Proof.
  induction n as [|n IH]; intros Hn t; [done|].
  unfold t. rewrite seq_S, fold_left_app. cbn [fold_left Nat.add].
  destruct IH as [IF IW]; [lia|]. set (t' := fold_left _ (seq 0 n) s) in *. clearbody t'. clear t.
  destruct (lookup_lt_is_Some_2 (g_files (sd s)) n) as [f Hf]; [lia|].
  assert (Hlen : length (map (close_if q) (take n (g_files (sd s)))) = n)
    by (rewrite length_map, length_take; lia).
  assert (Ht : g_files (sd t') !! n = Some f).
  { rewrite IF, lookup_app_r, Hlen by lia. rewrite lookup_drop, Nat.sub_diag, Nat.add_0_r. done. }
  rewrite (take_S_r _ _ _ Hf), map_app, fold_left_app, <- app_assoc. cbn [map fold_left app].
  rewrite <- IW. rewrite (drop_S _ _ _ Hf) in IF.
  unfold sweep_step, close_if, close_fd_if. rewrite Ht. destruct (q f) eqn:Hq; cbn [andb].
  - unfold file_close. rewrite Ht. cbn.
    assert (Hi : forall x, <[n:=x]> (g_files (sd t')) =
      map (close_if q) (take n (g_files (sd s))) ++ x :: drop (S n) (g_files (sd s))).
    { intros x. rewrite IF, insert_app_r_alt by lia. by rewrite Hlen, Nat.sub_diag. }
    split; destruct (used f && (0 <=? f_fd f)); cbn; done || apply Hi.
  - by rewrite IF.
Qed.

Lemma sweep_all q s (g : nat -> sys W M -> sys W M) : (forall i t, g i t = sweep_step q i t) ->
  length (g_files (sd s)) = HOSTDOS_MAX_FILES ->
  let t := fold_left (fun s i => g i s) (seq 0 HOSTDOS_MAX_FILES) s in
  g_files (sd t) = map (close_if q) (g_files (sd s)) /\
  sw t = fold_left (close_fd_if q) (g_files (sd s)) (sw s).
Proof.
  intros Hg Hl. rewrite <- Hl.
  assert (E : forall l s, fold_left (fun s i => g i s) l s = fold_left (fun s i => sweep_step q i s) l s).
  { induction l as [|i l IH]; intros u; cbn; [done|]. by rewrite Hg. }
  cbv zeta. rewrite E.
  pose proof (sweep_prefix q s (length (g_files (sd s))) (le_n _)) as P. cbv zeta in P.
  rewrite firstn_all, drop_all, app_nil_r in P. exact P.
Qed.

(** After [hostdos_init] no handle is open, so the invariant of the read-only
    theorem holds for whatever drives it is given. *)
Lemma init_handles_ok drives mem s : length (g_files (sd s)) = HOSTDOS_MAX_FILES ->
  handles_ok (sd (hostdos_init drives mem s)).
Proof.
  intros Hl. destruct (sweep_all (fun _ => true) s file_close) as [HF _]; [|done|].
  { intros i t. unfold sweep_step. case_match eqn:E; [done|]. unfold file_close. by rewrite E. }
  unfold hostdos_init, reset_all, close_all. revert HF. generalize (fold_left (fun s i => file_close i s) (seq 0 HOSTDOS_MAX_FILES) s).
  intros t HF. unfold handles_ok. cbn. rewrite HF. change (map ?g ?l) with (g <$> l).
  apply Forall_fmap, Forall_true. by intros f ?.
Qed.

Definition owned_by (bp : Z) (f : hfile) : bool := used f && (owner f =? bp).

Lemma pterm_all bp s : length (g_files (sd s)) = HOSTDOS_MAX_FILES ->
  g_files (sd (pterm bp s)) = map (close_if (owned_by bp)) (g_files (sd s)) /\
  sw (pterm bp s) = fold_left (close_fd_if (owned_by bp)) (g_files (sd s)) (sw s).
Proof. apply (sweep_all (owned_by bp) s (pterm_step bp)). done. Qed.

(** When a process ends, exactly its handles are closed: [PTERM] leaves
    a handle readable if and only if it belongs to another process, and it
    closes the descriptors of the handles it drops, in table order, and no
    other host state. *)
Lemma pterm_closes_owned bp p1 p2 p3 s :
  g_mem_set (sd s) = true -> length (g_files (sd s)) = HOSTDOS_MAX_FILES ->
  let s' := (hostdos_call HOSTDOS_OP_PTERM bp p1 p2 p3 s).2 in
  (forall h, file_of (sd s') h =
     match file_of (sd s) h with
     | Some f => if owner f =? bp then None else Some f
     | None => None end) /\
  sw s' = fold_left (close_fd_if (owned_by bp)) (g_files (sd s)) (sw s).
Proof.
  intros Hg Hl s'.
  assert (Hs : s' = pterm bp s) by (unfold s', hostdos_call; by rewrite Hg). rewrite Hs. clear s' Hs.
  destruct (pterm_all bp s Hl) as [HF HW]. revert HF HW. generalize (pterm bp s). intros t HF HW. split; [|exact HW]. intros h. destruct (Z.ltb_spec h HOSTDOS_HANDLE_BASE).
  { by rewrite !file_of_low by done. }
  rewrite !file_of_slot by (rewrite ?HF, ?length_map; done). rewrite HF.
  change (map ?g ?l) with (g <$> l). rewrite list_lookup_fmap.
  destruct (g_files (sd s) !! _) as [f|]; cbn; [|done].
  unfold close_if, owned_by. destruct (used f) eqn:Hu; cbn; [|by rewrite Hu].
  destruct (owner f =? bp); cbn; [done|by rewrite Hu].
Qed.
End Handles.

(** ** Guest memory blocks *)
Section Memory.
Context {W M : Type} `{HostIO W} `{BusLaws M}.
Implicit Types (m : M).

Lemma wr_bytes_get l : forall a m b, Z.of_nat (length l) <= 2 ^ 32 ->
  get_byte (wr_bytes a l m) b =
  match l !! Z.to_nat (u32 (b - a)) with Some v => u8 v | None => get_byte m b end.
Proof.
  induction l as [|v l IH]; intros a m b Hl; [done|]. cbn [wr_bytes]. cbn [length] in Hl.
  rewrite IH, get_put_byte by lia. replace (u32 a =? u32 b) with (u32 (b - a) =? 0).
  2: { destruct (Z.eqb_spec (u32 (b - a)) 0), (Z.eqb_spec (u32 a) (u32 b)); try done; exfalso; word. }
  destruct (Z.eqb_spec (u32 (b - a)) 0) as [E|E].
  - rewrite E. cbn. replace (u32 (b - (a + 1))) with (2 ^ 32 - 1) by word.
    rewrite (proj2 (lookup_ge_None l _)) by lia. done.
  - pose proof (u32_range (b - a)) as Hr. unfold is_u32 in Hr.
    replace (u32 (b - (a + 1))) with (u32 (b - a) - 1) by word.
    replace (Z.to_nat (u32 (b - a))) with (S (Z.to_nat (u32 (b - a) - 1))) by lia. done.
Qed.

Lemma wr_bytes_rd a l m : Z.of_nat (length l) <= 2 ^ 32 -> rd_bytes (wr_bytes a l m) a (length l) = map u8 l.
Proof.
  intros Hl. apply list_eq. intros i. unfold rd_bytes.
  change (map ?g ?k) with (g <$> k). rewrite !list_lookup_fmap.
  destruct (decide (i < length l)%nat) as [Hi|Hi].
  - rewrite lookup_seq_lt by done. cbn. rewrite wr_bytes_get by done.
    replace (Z.to_nat (u32 (a + Z.of_nat i - a))) with i by (rewrite u32_small; unfold is_u32; lia).
    destruct (lookup_lt_is_Some_2 l i Hi) as [v Hv]. by rewrite Hv.
  - rewrite lookup_seq_ge, (proj2 (lookup_ge_None l i)) by lia. done.
Qed.

Lemma be32_val v : is_u32 v ->
  u8 (u8 (v >> 24)) * 16777216 + u8 (u8 (v >> 16)) * 65536 + u8 (u8 (v >> 8)) * 256 + u8 (u8 v) = v.
Proof. intros. rewrite !u8_u8, !Z.shiftr_div_pow2 by lia. change (2 ^ 24) with 16777216. change (2 ^ 16) with 65536. change (2 ^ 8) with 256. word. Qed.

Lemma u8_get m a : u8 (get_byte m a) = get_byte m a.
Proof. apply u8_small, get_byte_range. Qed.

(** A long read back from a written block that holds it at offset [o]. *)
Lemma rd32_block a l m o v : is_u32 v -> Z.of_nat (length l) <= 2 ^ 32 -> take 4 (drop o l) = be32 v ->
  rd32 (wr_bytes a l m) (a + Z.of_nat o) = v.
Proof.
  intros Hv Hl Ht.
  assert (Hk : forall k, (k < 4)%nat -> l !! (o + k)%nat = be32 v !! k).
  { intros k Hk. by rewrite <- Ht, lookup_take_lt, lookup_drop by lia. }
  assert (Ho : (o + 3 < length l)%nat).
  { apply lookup_lt_is_Some. rewrite Hk by lia. done. }
  unfold rd32. rewrite !wr_bytes_get by done. rewrite <- !Z.add_assoc.
  replace (a + Z.of_nat o - a) with (Z.of_nat (o + 0)) by lia.
  replace (a + (Z.of_nat o + 1) - a) with (Z.of_nat (o + 1)) by lia.
  replace (a + (Z.of_nat o + 2) - a) with (Z.of_nat (o + 2)) by lia.
  replace (a + (Z.of_nat o + 3) - a) with (Z.of_nat (o + 3)) by lia.
  rewrite !u32_small by (unfold is_u32; lia). rewrite !Nat2Z.id, !Hk by lia. cbn.
  rewrite !Z.add_assoc. by apply be32_val.
Qed.
End Memory.

(** ** Directory searches *)
Section Search.
Context {W M : Type} `{HostIO W} `{BusLaws M}.
Implicit Types (s : sys W M).

(** [Fsnext] until it reports no more files: the DTA after each call. *)
Fixpoint fsnext_run (fuel : nat) (dta : Z) s : option (list (list Z)) :=
  match fuel with
  | O => None
  | S fuel =>
    let '(r, s) := do_fsnext dta s in
    if r =? 0 then match fsnext_run fuel dta s with
                   | Some l => Some (rd_bytes (sm s) dta 44 :: l)
                   | None => None end
    else if r =? ENMFIL then Some [] else None
  end.

Lemma fsnext_run_S fuel dta s : fsnext_run (S fuel) dta s =
  let '(r, s) := do_fsnext dta s in
  if r =? 0 then match fsnext_run fuel dta s with
                 | Some l => Some (rd_bytes (sm s) dta 44 :: l)
                 | None => None end
  else if r =? ENMFIL then Some [] else None.
Proof. done. Qed.

Lemma dta_bytes_length id h : length (dta_bytes id h) = 44%nat.
Proof.
  unfold dta_bytes. cbn zeta. rewrite !length_app, !length_replicate, length_take. cbn [length be32 be16]. lia.
Qed.

Lemma dta_head id h a (m : M) : is_u32 id ->
  rd32 (wr_bytes a (dta_bytes id h) m) a = HOSTDOS_DTA_MAGIC /\
  rd32 (wr_bytes a (dta_bytes id h) m) (a + 4) = id.
Proof.
  intros Hid. split.
  - rewrite <- (Z.add_0_r a) at 2. apply (rd32_block a _ m 0); [by split| |done].
    by rewrite dta_bytes_length.
  - apply (rd32_block a _ m 4); [done| |done]. by rewrite dta_bytes_length.
Qed.

Lemma find_search_at id l i x : id <> 0 ->
  l !! i = Some x -> s_id x = id ->
  (forall j y, j <> i -> l !! j = Some y -> s_id y <> id) ->
  forall n, find_search id l n = Some ((n + i)%nat, x).
Proof.
  intros Hid. revert i. induction l as [|z l IH]; intros i Hi Hx Hu n; [done|]. cbn.
  destruct i as [|i]; cbn in Hi.
  - injection Hi as ->. rewrite Hx, Z.eqb_refl. apply Z.eqb_neq in Hid. rewrite Hid. cbn. by rewrite Nat.add_0_r.
  - assert (Hz : s_id z <> id) by (apply (Hu 0%nat); done). apply Z.eqb_neq in Hz. rewrite Hz. cbn.
    rewrite (IH i) by (try done; intros j y Hj; apply (Hu (S j) y); lia). f_equal. f_equal. lia.
Qed.

(** Search [id] sits alone in slot [i]. *)
Definition search_at s (i : nat) (id : Z) (x : search) : Prop :=
  g_search (sd s) !! i = Some x /\ s_id x = id /\
  forall j y, j <> i -> g_search (sd s) !! j = Some y -> s_id y <> id.

Lemma fsnext_from s dta i id x : dta <> 0 -> 0 < id < 2 ^ 32 -> search_at s i id x ->
  rd32 (sm s) dta = HOSTDOS_DTA_MAGIC -> rd32 (sm s) (dta + 4) = id ->
  fsnext_run (S (length (s_hits x) - s_pos x)) dta s = Some (map (fun h => map u8 (dta_bytes id h)) (drop (s_pos x) (s_hits x))).
Proof.
  intros Hd Hid Hs Hm Hi. remember (length (s_hits x) - s_pos x)%nat as n eqn:Hn.
  revert s x Hs Hm Hi Hn. induction n as [|n IH]; intros s x Hs Hm Hi Hn.
  all: destruct Hs as (Hsl & Hsid & Hu); rewrite fsnext_run_S; unfold do_fsnext;
    apply Z.eqb_neq in Hd as Hd'; rewrite Hd', Hm, Hi; cbn -[find_search fsnext_run HOSTDOS_DTA_MAGIC rd_bytes wr_bytes dta_bytes];
    rewrite (find_search_at id _ i x) by (done || lia); cbn -[fsnext_run rd_bytes wr_bytes dta_bytes].
  - rewrite (proj2 (lookup_ge_None (s_hits x) (s_pos x))) by lia. rewrite drop_ge by lia. done.
  - destruct (lookup_lt_is_Some_2 (s_hits x) (s_pos x)) as [h Hh]; [lia|]. rewrite Hh. cbn -[fsnext_run rd_bytes wr_bytes dta_bytes].
    destruct (dta_head id h dta (sm s)) as [H1' H2']; [unfold is_u32; lia|].
    rewrite (IH _ {| x with s_pos := S (s_pos x) |}); [|split; [|split]|exact H1'|exact H2'|cbn; lia].
    + cbn -[rd_bytes wr_bytes dta_bytes]. rewrite (drop_S _ _ _ Hh). cbn -[rd_bytes wr_bytes dta_bytes]. f_equal. f_equal.
      rewrite <- (dta_bytes_length id h). apply wr_bytes_rd. by rewrite dta_bytes_length.
    + cbn. apply list_lookup_insert_eq. by eapply lookup_lt_Some.
    + done.
    + cbn. intros j y Hj. rewrite list_lookup_insert_ne by done. by apply Hu.
Qed.

Lemma pick_search_bound l : forall i best bid n, (i + length l <= n)%nat -> (best < n)%nat -> (pick_search l i best bid < n)%nat.
Proof.
  induction l as [|x l IH]; intros i best bid n Hl Hb; cbn; [done|]. cbn in Hl.
  repeat case_match; [lia|apply IH; lia..].
Qed.
Lemma search_slot_bound l : l <> [] -> (search_slot l < length l)%nat.
Proof. destruct l as [|x l]; [done|]. intros _. apply pick_search_bound; cbn; lia. Qed.

End Search.

(** ** Program loading *)

(** The offsets a relocation table names, and their patches in order. *)
Fixpoint fixups (pos : Z) (l : list Z) : list Z :=
  match l with
  | [] => []
  | b :: l => if b =? 0 then [] else if b =? 1 then fixups (pos + 254) l else (pos + b) :: fixups (pos + b) l
  end.
Definition table_fixups (ro absflag : Z) (file : list Z) : list Z :=
  if (absflag =? 0) && (ro + 4 <=? Z.of_nat (length file)) then
    let pos := be32_at file (Z.to_nat ro) in
    if truth pos then pos :: fixups pos (drop (Z.to_nat (ro + 4)) file) else []
  else [].
Fixpoint patch_all (tbase : Z) (offs : list Z) (im : list Z) : option (list Z) :=
  match offs with
  | [] => Some im
  | o :: offs => match patch tbase o im with None => None | Some im => patch_all tbase offs im end
  end.

Lemma reloc_patches tbase l : forall pos im, reloc tbase pos l im = patch_all tbase (fixups pos l) im.
Proof.
  induction l as [|b l IH]; intros pos im; cbn; [done|]. repeat (case_match; [done || apply IH|]).
  cbn. case_match; [apply IH|done].
Qed.
Lemma relocate_patches tbase ro absflag file im :
  relocate tbase ro absflag file im = patch_all tbase (table_fixups ro absflag file) im.
Proof.
  unfold relocate, table_fixups. case_match; [|done]. case_match; [|done]. cbn.
  case_match; [apply reloc_patches|done].
Qed.

Lemma be32_at_lookup l l' o : (forall k, (k < 4)%nat -> l !! (o + k)%nat = l' !! (o + k)%nat) -> be32_at l o = be32_at l' o.
Proof.
  intros E. unfold be32_at. rewrite !list_lookup_total_alt.
  rewrite <- (Nat.add_0_r o) at 1 5. rewrite !E by lia. done.
Qed.

Lemma patch_spec tbase off im im' : 0 <= off -> patch tbase off im = Some im' ->
  off + 4 <= Z.of_nat (length im) /\ length im' = length im /\
  be32_at im' (Z.to_nat off) = u32 (be32_at im (Z.to_nat off) + tbase) /\
  (forall j, ~ (off <= Z.of_nat j < off + 4) -> im' !! j = im !! j).
Proof.
  intros H0 Hp. unfold patch in Hp. destruct (Z.ltb_spec (Z.of_nat (length im)) (off + 4)) as [|Hl]; [done|].
  cbn -[be32 be32_at] in Hp. case_match; [done|]. injection Hp as <-.
  set (o := Z.to_nat off). set (v := u32 _).
  assert (Ht : length (take o im) = o) by (rewrite length_take; lia).
  split; [lia|]. split; [|split].
  - rewrite length_app, length_take. cbn [length be32 app]. rewrite length_drop. lia.
  - unfold be32_at at 1. rewrite !list_lookup_total_alt, !lookup_app_r, Ht by lia.
    replace (o - o)%nat with 0%nat by lia. replace (o + 1 - o)%nat with 1%nat by lia.
    replace (o + 2 - o)%nat with 2%nat by lia. replace (o + 3 - o)%nat with 3%nat by lia. cbn.
    transitivity (u8 (u8 (v >> 24)) * 16777216 + u8 (u8 (v >> 16)) * 65536 + u8 (u8 (v >> 8)) * 256 + u8 (u8 v)).
    { by rewrite !u8_u8. }
    apply be32_val, u32_range.
  - intros j Hj. destruct (decide (j < o)%nat).
    + rewrite lookup_app_l, lookup_take_lt by lia. done.
    + rewrite lookup_app_r, Ht by lia. change (_ :: _ :: _ :: _ :: ?l) with (be32 v ++ l).
      rewrite lookup_app_r by (cbn [length be32]; lia). rewrite lookup_drop. f_equal. cbn [length be32]. lia.
Qed.

(** Fixups in order that do not overlap. *)
Definition spaced (offs : list Z) : Prop := StronglySorted (fun a b => a + 4 <= b) offs.

Lemma patch_all_spec tbase offs : forall im im', Forall (fun o => 0 <= o) offs -> spaced offs ->
  patch_all tbase offs im = Some im' ->
  length im' = length im /\
  (forall o, In o offs -> be32_at im' (Z.to_nat o) = u32 (be32_at im (Z.to_nat o) + tbase)) /\
  (forall j, Forall (fun o => ~ (o <= Z.of_nat j < o + 4)) offs -> im' !! j = im !! j).
Proof.
  induction offs as [|o offs IH]; intros im im' Hp Hs; cbn; [by intros [= <-]|].
  apply Forall_cons in Hp as [Ho Hp]. apply StronglySorted_inv in Hs as [Hs Hf].
  destruct (patch tbase o im) as [im1|] eqn:E; [|done]. intros Hr.
  apply patch_spec in E as (Hl & Hn & Hv & Hk); [|done].
  destruct (IH im1 im' Hp Hs Hr) as (Hn' & Hv' & Hk'). rewrite Forall_forall in Hf, Hp. split; [congruence|]. split.
  - intros x [<-|Hx].
    + rewrite <- Hv. apply be32_at_lookup. intros k Hk4. apply Hk', Forall_forall.
      intros y Hy. specialize (Hf y Hy). lia.
    + rewrite (Hv' x Hx). f_equal. f_equal. apply be32_at_lookup. intros k Hk4. apply Hk.
      apply list_elem_of_In in Hx. specialize (Hf x Hx). specialize (Hp x Hx). lia.
  - intros j Hj. apply Forall_cons in Hj as [Hj1 Hj2]. rewrite Hk', Hk by done. done.
Qed.

Lemma fixups_ge l : forall pos, Forall is_u8 l -> Forall (fun o => pos <= o) (fixups pos l).
Proof.
  induction l as [|b l IH]; intros pos Hl; cbn; [done|]. apply Forall_cons in Hl as [Hb Hl].
  unfold is_u8 in Hb. case_match; [done|].
  assert (Hmono : forall k, 0 <= k -> Forall (fun o => pos <= o) (fixups (pos + k) l)).
  { intros k Hk. eapply Forall_impl; [apply IH, Hl|]. cbn. lia. }
  case_match; [apply Hmono; lia|]. constructor; [lia|apply Hmono; lia].
Qed.

Lemma is_u8_total l o : Forall is_u8 l -> is_u8 (l !!! o).
Proof.
  intros Hl. rewrite list_lookup_total_alt. destruct (l !! o) as [v|] eqn:E; [|by split].
  rewrite Forall_forall in Hl. by eapply Hl, list_elem_of_lookup_2.
Qed.

Lemma table_fixups_nonneg ro absflag file : Forall is_u8 file -> Forall (fun o => 0 <= o) (table_fixups ro absflag file).
Proof.
  intros Hf. unfold table_fixups. repeat (case_match; [|done]).
  assert (Hp : 0 <= be32_at file (Z.to_nat ro)).
  { unfold be32_at. pose proof (fun o => is_u8_total file o Hf) as Hb. unfold is_u8 in Hb.
    pose proof (Hb (Z.to_nat ro)). pose proof (Hb (Z.to_nat ro + 1)%nat).
    pose proof (Hb (Z.to_nat ro + 2)%nat). pose proof (Hb (Z.to_nat ro + 3)%nat). lia. }
  constructor; [done|]. eapply Forall_impl; [apply fixups_ge; by apply Forall_drop|]. cbn. lia.
Qed.

Lemma patch_all_length tbase offs : forall im im', Forall (fun o => 0 <= o) offs ->
  patch_all tbase offs im = Some im' -> length im' = length im.
Proof.
  induction offs as [|o offs IH]; intros im im' Hp; cbn; [by intros [= <-]|].
  apply Forall_cons in Hp as [Ho Hp]. destruct (patch tbase o im) eqn:E; [|done].
  intros Hr%IH; [|done]. apply patch_spec in E as (_ & Hn & _); congruence.
Qed.

(** Relocation adds the load address to exactly the longs the table
    names.  If the program's fixups do not overlap, an accepted image has the
    original's length, every fixup long is the original plus [tbase] modulo
    2^32, and every byte outside the fixups is the original's. *)
Lemma relocate_spec tbase ro absflag file im im' :
  Forall is_u8 file -> spaced (table_fixups ro absflag file) ->
  relocate tbase ro absflag file im = Some im' ->
  length im' = length im /\
  (forall o, In o (table_fixups ro absflag file) ->
     be32_at im' (Z.to_nat o) = u32 (be32_at im (Z.to_nat o) + tbase)) /\
  (forall j, Forall (fun o => ~ (o <= Z.of_nat j < o + 4)) (table_fixups ro absflag file) -> im' !! j = im !! j).
Proof.
  intros Hf Hs. rewrite relocate_patches. apply patch_all_spec; [by apply table_fixups_nonneg|done].
Qed.

Section Load.
Context {W M : Type} `{HostIO W} `{BusLaws M}.
Implicit Types (s : sys W M) (m : M).

Lemma wr_bytes_other a l m b : Z.of_nat (length l) <= u32 (b - a) -> get_byte (wr_bytes a l m) b = get_byte m b.
Proof.
  intros Hl. pose proof (u32_range (b - a)) as Hr. unfold is_u32 in Hr.
  rewrite wr_bytes_get by lia. rewrite lookup_ge_None_2 by lia. done.
Qed.
Lemma wr_bytes_in a l m i v : Z.of_nat (length l) <= 2 ^ 32 -> l !! i = Some v ->
  get_byte (wr_bytes a l m) (a + Z.of_nat i) = u8 v.
Proof.
  intros Hl Hv. pose proof (lookup_lt_Some _ _ _ Hv). rewrite wr_bytes_get by done.
  replace (u32 (a + Z.of_nat i - a)) with (Z.of_nat i) by (rewrite u32_small; unfold is_u32; lia).
  by rewrite Nat2Z.id, Hv.
Qed.
Lemma rd32_wr32 a v m : is_u32 v -> rd32 (wr32 a v m) a = v.
Proof. intros. rewrite <- (Z.add_0_r a) at 2. by apply (rd32_block a (be32 v) m 0). Qed.
Lemma rd32_wr32_other a b v m : 4 <= u32 (b - a) <= 2 ^ 32 - 4 -> rd32 (wr32 a v m) b = rd32 m b.
Proof.
  intros Hd. unfold rd32, wr32.
  rewrite !wr_bytes_other; [done|..]; change (Z.of_nat (length (be32 v))) with 4; word.
Qed.

(** The basepage fields, bytes 8 to 31. *)
Definition wr_basepage (bp tbase tlen dbase dlen bbase blen : Z) m : M :=
  wr32 (bp + 28) blen (wr32 (bp + 24) bbase (wr32 (bp + 20) dlen
  (wr32 (bp + 16) dbase (wr32 (bp + 12) tlen (wr32 (bp + 8) tbase m))))).

Lemma wr_basepage_other bp t tl d dl b bl m x : ~ (8 <= u32 (x - bp) < 32) ->
  get_byte (wr_basepage bp t tl d dl b bl m) x = get_byte m x.
Proof.
  intros Hx. unfold wr_basepage, wr32. pose proof (u32_range (x - bp)).
  rewrite !wr_bytes_other; [done|..]; change (Z.of_nat (length (be32 ?v))) with 4; word.
Qed.

Lemma wr_basepage_fields bp t tl d dl b bl m :
  is_u32 t -> is_u32 tl -> is_u32 d -> is_u32 dl -> is_u32 b -> is_u32 bl ->
  let m' := wr_basepage bp t tl d dl b bl m in
  rd32 m' (bp + 8) = t /\ rd32 m' (bp + 12) = tl /\ rd32 m' (bp + 16) = d /\
  rd32 m' (bp + 20) = dl /\ rd32 m' (bp + 24) = b /\ rd32 m' (bp + 28) = bl.
Proof.
  intros. unfold m', wr_basepage.
  repeat split; repeat (rewrite rd32_wr32_other by word); by apply rd32_wr32.
Qed.

Definition pend_ok (p : pend) : Prop := is_u32 (p_tlen p) /\ is_u32 (p_dlen p) /\ is_u32 (p_blen p).

Lemma read_chunks_u8 all : Forall is_u8 all -> Forall is_u8 (read_chunks all).
Proof. intros. unfold read_chunks. case_match; [done|by apply Forall_take]. Qed.

(** The memory a successful load leaves, and what it checked on the way. *)
Lemma do_load_inv bp s s' :
  let p := g_pexec (sd s) in
  let lowtpa := rd32 (sm s) bp in
  let hitpa := rd32 (sm s) (bp + 4) in
  let img := p_tlen p + p_dlen p in
  pend_ok p -> do_load bp s = (0, s') ->
  exists all im,
    img <= MAX_PRG_BYTES /\ lowtpa + (256 + img + p_blen p) <= hitpa /\
    h_slurp (sw s) (p_path p) = Done all /\ 28 + img <= Z.of_nat (length (read_chunks all)) /\
    relocate (u32 (lowtpa + 256)) (28 + img + p_slen p) (p_absflag p) (read_chunks all)
      (take (Z.to_nat img) (drop 28 (read_chunks all))) = Some im /\
    let bbase := u32 (u32 (lowtpa + 256) + img) in
    let clear := if truth (p_flags p .& 1) then p_blen p else u32 (hitpa - bbase) in
    sm s' = wr_basepage bp (u32 (lowtpa + 256)) (p_tlen p) (u32 (u32 (lowtpa + 256) + p_tlen p)) (p_dlen p)
              bbase (p_blen p) (wrzero bbase clear (wr_bytes (u32 (lowtpa + 256)) im (sm s))).
Proof.
  intros p lowtpa hitpa img (Ht & Hd & Hb). unfold do_load. fold p.
  destruct (p_valid p); cbn [negb]; [|done]. cbn [sm sw sd with_dos].
  fold lowtpa hitpa. fold img. destruct (_ || _) eqn:Hc; [done|].
  apply orb_false_iff in Hc as [Hc1%Z.ltb_ge Hc2%Z.ltb_ge].
  destruct (h_slurp _ _) as [all|]; [|done].
  destruct (Z.ltb_spec (Z.of_nat (length (read_chunks all))) (28 + img)); [done|].
  destruct (relocate _ _ _ _ _) as [im|] eqn:Hr; [|done]. intros [= <-]. exists all, im. done.
Qed.

Lemma rd32_range m a : is_u32 (rd32 m a).
Proof.
  unfold rd32. pose proof (get_byte_range m a). pose proof (get_byte_range m (a + 1)).
  pose proof (get_byte_range m (a + 2)). pose proof (get_byte_range m (a + 3)). unfold is_u8, is_u32 in *. lia.
Qed.

(** What the guest finds after a load: the relocated text and data right
    after the basepage, a zero BSS, the basepage's six segment fields, all of
    it below [hitpa], and every other byte unchanged. *)
Definition loaded bp (p : pend) (hitpa : Z) s m' : Prop :=
  let img := p_tlen p + p_dlen p in
  let tbase := bp + 256 in
  bp + 256 + img + p_blen p <= hitpa /\
  (exists all im,
     h_slurp (sw s) (p_path p) = Done all /\
     relocate tbase (28 + img + p_slen p) (p_absflag p) (read_chunks all)
       (take (Z.to_nat img) (drop 28 (read_chunks all))) = Some im /\ Z.of_nat (length im) = img /\
     (forall i v, im !! i = Some v -> get_byte m' (tbase + Z.of_nat i) = u8 v)) /\
  (forall b, tbase + img <= b < tbase + img + p_blen p -> get_byte m' b = 0) /\
  (rd32 m' (bp + 8) = tbase /\ rd32 m' (bp + 12) = p_tlen p /\
   rd32 m' (bp + 16) = tbase + p_tlen p /\ rd32 m' (bp + 20) = p_dlen p /\
   rd32 m' (bp + 24) = tbase + img /\ rd32 m' (bp + 28) = p_blen p) /\
  (forall b, is_u32 b -> ~ (bp + 8 <= b < bp + 32) -> ~ (tbase <= b < hitpa) -> get_byte m' b = get_byte (sm s) b).

Lemma load_ok bp s s' :
  let p := g_pexec (sd s) in
  pend_ok p -> rd32 (sm s) bp = bp ->
  (forall all, h_slurp (sw s) (p_path p) = Done all -> Forall is_u8 all) ->
  do_load bp s = (0, s') -> loaded bp p (rd32 (sm s) (bp + 4)) s (sm s').
Proof.
  intros p Hp Hbp Hall Hload. set (hitpa := rd32 (sm s) (bp + 4)).
  unfold loaded. set (img := p_tlen p + p_dlen p). cbv zeta. set (tbase := bp + 256).
  destruct (do_load_inv bp s s' Hp Hload) as (all & im & Hmax & Hfit & Hsl & Hlen & Hrel & Hm).
  fold p in Hm, Hrel, Hlen, Hfit, Hmax, Hsl. fold img in Hm, Hrel, Hlen, Hfit, Hmax. fold hitpa in Hm, Hfit.
  rewrite Hbp in Hfit, Hrel, Hm. destruct Hp as (Ht & Hd & Hb). fold p in Ht, Hd, Hb.
  pose proof (rd32_range (sm s) bp) as Hr1. rewrite Hbp in Hr1.
  pose proof (rd32_range (sm s) (bp + 4)) as Hr2. fold hitpa in Hr2.
  assert (Himg : img = p_tlen p + p_dlen p) by done. clearbody img hitpa.
  unfold is_u32 in *. assert (Etb : u32 (bp + 256) = tbase) by (apply u32_small; unfold is_u32; lia).
  rewrite Etb in Hrel, Hm. rewrite !(u32_small (tbase + _)) in Hm by (unfold is_u32; lia).
  assert (Himl : Z.of_nat (length im) = img).
  { rewrite relocate_patches in Hrel. apply patch_all_length in Hrel.
    - rewrite Hrel, length_take, length_drop. lia.
    - apply table_fixups_nonneg, read_chunks_u8, Hall, Hsl. }
  cbv zeta in Hm. set (clear := if truth _ then _ else _) in Hm.
  assert (Hcl : p_blen p <= clear /\ tbase + img + clear <= hitpa).
  { unfold clear. case_match; [lia|]. rewrite u32_small by (unfold is_u32; lia). lia. }
  assert (Hmb : Z.of_nat (length (replicate (Z.to_nat clear) 0)) = clear) by (rewrite length_replicate; lia).
  clearbody clear. unfold MAX_PRG_BYTES in Hmax. unfold wrzero in Hm.
  split; [lia|]. split; [|split; [|split]].
  - exists all, im. repeat split; try done. intros i v Hi. pose proof (lookup_lt_Some _ _ _ Hi).
    rewrite Hm, wr_basepage_other, wr_bytes_other by (rewrite ?Hmb; word). apply wr_bytes_in; [lia|done].
  - intros b Hbb. rewrite Hm, wr_basepage_other by word.
    replace b with (tbase + img + Z.of_nat (Z.to_nat (b - (tbase + img)))) by lia.
    rewrite (wr_bytes_in _ _ _ _ 0); [done|lia|]. apply lookup_replicate. split; [done|lia].
  - rewrite Hm. apply wr_basepage_fields; unfold is_u32; lia.
  - intros b Hb1 Hb2 Hb3. rewrite Hm, wr_basepage_other, !wr_bytes_other by (rewrite ?Hmb, ?Himl; word). done.
Qed.

End Load.
