(* ===== verification/DosHost.v ===== *)
(** * DosHost: a concrete host for the GEMDOS engine
    ([platforms/atari/network/hostdos.cpp])

    A small file server that discharges the [HostIO] interface (regular files
    with contents and descriptors, on a tree that cannot be restructured), and
    runs of the engine on it. *)

From S2P Require Import Prelude Flags Cpu DosNames DosDir DosCalls DosProps.
From Stdlib Require Import ZArith Lia Bool String Sorted.
From stdpp Require Import base list gmap.
Open Scope Z_scope.
Open Scope cint_scope.

Record hostw := mk_hostw {
  hw_fs : afs; hw_data : list (bytes * bytes);
  hw_open : list (Z * (bytes * Z));   (* descriptor, path, position *)
  hw_next : Z }.

#[export] Instance hostw_fs : HostFS hostw := {|
  h_stat := fun w p => h_stat (hw_fs w) p;
  h_readdir := fun w p => h_readdir (hw_fs w) p |}.

Definition assoc {K A} `{EqDecision K} (k : K) (l : list (K * A)) : option A :=
  option_map snd (List.find (fun x => bool_decide (x.1 = k)) l).
Definition assoc_set {K A} `{EqDecision K} (k : K) (a : A) (l : list (K * A)) : list (K * A) :=
  (k, a) :: List.filter (fun x => negb (bool_decide (x.1 = k))) l.

Definition hw_openf (p : bytes) (fl : oflag) (w : hostw) : hres Z * hostw :=
  let new w := (Done (hw_next w), {| w with hw_open := (hw_next w, (p, 0)) :: hw_open w; hw_next := hw_next w + 1 |}) in
  match fl with
  | O_CREATE => new {| w with hw_data := assoc_set p [] (hw_data w) |}
  | _ => match assoc p (hw_data w) with Some _ => new w | None => (HErr ENOENT, w) end
  end.
Definition hw_read (fd n : Z) (w : hostw) : hres (list Z) * hostw :=
  match assoc fd (hw_open w) with
  | None => (HErr EOTHER, w)
  | Some (p, pos) =>
    let l := take (Z.to_nat n) (drop (Z.to_nat pos) (default [] (assoc p (hw_data w)))) in
    (Done l, {| w with hw_open := assoc_set fd (p, pos + Z.of_nat (length l)) (hw_open w) |})
  end.
Definition hw_write (fd : Z) (l : list Z) (w : hostw) : hres Z * hostw :=
  match assoc fd (hw_open w) with
  | None => (HErr EOTHER, w)
  | Some (p, pos) =>
    let c := default [] (assoc p (hw_data w)) in
    let o := Z.to_nat pos in
    (Done (Z.of_nat (length l)),
     {| w with hw_data := assoc_set p (take o c ++ l ++ drop (o + length l) c) (hw_data w);
               hw_open := assoc_set fd (p, pos + Z.of_nat (length l)) (hw_open w) |})
  end.
Definition hw_seek (fd n : Z) (w : hostw) : bool * hostw :=
  match assoc fd (hw_open w) with
  | None => (false, w)
  | Some (p, _) => (true, {| w with hw_open := assoc_set fd (p, n) (hw_open w) |})
  end.

#[export] Instance hostw_io : HostIO hostw := {|
  h_open := hw_openf;
  h_close := fun fd w => {| w with hw_open := List.filter (fun x => negb (x.1 =? fd)) (hw_open w) |};
  h_read := hw_read;
  h_write := hw_write;
  h_fstat := fun w fd =>
    match assoc fd (hw_open w) with
    | Some (p, _) => option_map (fun st => {| st with st_size := Z.of_nat (length (default [] (assoc p (hw_data w)))) |})
                       (h_stat (hw_fs w) p)
    | None => None end;
  h_tell := fun w fd => match assoc fd (hw_open w) with Some (_, pos) => pos | None => -1 end;
  h_seek := hw_seek;
  h_fchmod := fun _ _ w => w;
  h_futimens := fun _ _ w => (HErr EROFS, w);
  h_unlink := fun _ w => (HErr EROFS, w);
  h_mkdir := fun _ w => (HErr EROFS, w);
  h_rmdir := fun _ w => (HErr EROFS, w);
  h_rename := fun _ _ w => (HErr EROFS, w);
  h_chmod := fun _ _ w => (HErr EROFS, w);
  h_statvfs := fun _ _ => Some (1000, 500, 4096);
  h_slurp := fun w p => match assoc p (hw_data w) with Some c => Done c | None => HErr ENOENT end |}.

#[export] Instance hostw_ro : ReadOnlyLaws hostw hw_data.
Proof.
  split; cbn; intros; try done.
  - unfold hw_openf. by case_match.
  - unfold hw_read. by repeat case_match.
  - unfold hw_seek. by repeat case_match.
Qed.

(** ** A run *)

(** PROG.PRG: eight bytes of text, four of data, one fixup at offset 2. *)
Definition prg : bytes :=
  [0x60; 0x1A; 0;0;0;8; 0;0;0;4; 0;0;0;16; 0;0;0;0; 0;0;0;0; 0;0;0;1; 0;0;
   0x20; 0x7C; 0;0;0;8; 0x4E; 0x75; 1;2;3;4; 0;0;0;2; 0].
Definition tree : afs :=
  [(B "/srv/st/SUB", (st_dir, [B "a.b.c"; B "prog.prg"])); (B "/srv/st/SUB/prog.prg", (st_file, []))] ++ afs_ex.
Definition world0 : hostw :=
  mk_hostw tree [(B "/srv/st/readme.txt", B "hello"); (B "/srv/st/SUB/prog.prg", prg)] [] 3.

Definition drives (ro : bool) : list drive :=
  <[18%nat := mk_hdrive true ro (B "/srv/st/")]> (replicate 26 no_drive).
Definition dos0 (ro : bool) : dos :=
  mk_dos (drives ro) (replicate 26 []) ∅ (replicate HOSTDOS_MAX_FILES hfile0)
    (replicate MAX_SEARCHES search0) 1 pend0 false true.

(** Argument blocks at 0x100, a path at 0x200. *)
Definition mem_path (fn arg : Z) (path : bytes) : gmap Z Z :=
  wr_bytes 0x100 (be16 fn ++ be32 0x200 ++ be16 arg) (wr_bytes 0x200 (path ++ [0]) ∅).

Definition sys0 (ro : bool) (m : gmap Z Z) : sys hostw (gmap Z Z) := mk_sys world0 m (dos0 ro).

Lemma dos0_handles ro : handles_ok (dos0 ro).
Proof. apply Forall_replicate. by intros ?. Qed.

(** Creating a file on the read-only share. *)
Definition s_ro : sys hostw (gmap Z Z) := sys0 true (mem_path 0x3C 0 (B "S:\README.TXT")).

Lemma ro_drive_safe_witness :
  (hostdos_call HOSTDOS_OP_DISPATCH 0x100 18 0x3000 0x2000 s_ro).1 = u32 EWRPRO /\
  hw_data (sw (hostdos_call HOSTDOS_OP_DISPATCH 0x100 18 0x3000 0x2000 s_ro).2) = hw_data world0.
Proof.
  split; [vm_compute; reflexivity|].
  apply (ro_drive_safe hw_data HOSTDOS_OP_DISPATCH 0x100 18 0x3000 0x2000 s_ro).
  - apply dos0_handles.
  - intros _. vm_compute. reflexivity.
Defined.

(** Opening a file, twice. *)
Definition s_open : sys hostw (gmap Z Z) := sys0 false (mem_path 0x3D 0 (B "S:\SUB\PROG.PRG")).

Lemma open_new_handle_witness :
  exists f, owner f = 0x3000 /\ f_drive f = 18 /\
    opened (sd s_open) (sd (do_fopen 18 0x100 0x3000 s_open).2) 64 f.
Proof.
  apply (open_new_handle 18 0x100 0x3000 s_open 64 (do_fopen 18 0x100 0x3000 s_open).2).
  - vm_compute. reflexivity.
  - left. etransitivity; [apply surjective_pairing|]. f_equal; try (vm_compute; reflexivity).
  - discriminate.
Defined.

Definition s_two : sys hostw (gmap Z Z) :=
  (do_fopen 18 0x100 0x4000 (do_fopen 18 0x100 0x3000 s_open).2).2.

Lemma pterm_closes_owned_witness :
  let s' := (hostdos_call HOSTDOS_OP_PTERM 0x3000 0 0 0 s_two).2 in
  file_of (sd s') 64 = None /\ option_map owner (file_of (sd s') 65) = Some 0x4000 /\
  map fst (hw_open (sw s')) = [4].
Proof.
  intros s'. destruct (pterm_closes_owned 0x3000 0 0 0 s_two) as [Hf Hw]; [vm_compute; reflexivity..|].
  split; [|split].
  - unfold s'. rewrite Hf. vm_compute. reflexivity.
  - unfold s'. rewrite Hf. vm_compute. reflexivity.
  - unfold s'. rewrite Hw. vm_compute. reflexivity.
Defined.

(** Listing a subfolder. *)
Definition s_find : sys hostw (gmap Z Z) := sys0 false (mem_path 0x4E 0x10 (B "S:\SUB\*.*")).
Definition s_found : sys hostw (gmap Z Z) := (do_fsfirst 18 0x100 0x2000 s_find).2.


(** The dot entries, then the two files. *)
Example fs_run_names :
  option_map (map (fun d => take 13 (drop 30 d))) (fsnext_run 4 0x2000 s_found) =
  Some [B ".." ++ replicate 11 0; B "AB~1.C" ++ replicate 7 0; B "PROG.PRG" ++ replicate 5 0].
Proof. vm_compute. reflexivity. Qed.

(** Loading PROG.PRG at 0x10000 in a TPA that ends at 0x11000. *)
Definition s_pexec : sys hostw (gmap Z Z) :=
  sys0 false (wr_bytes 0x100 (be16 0x4B ++ be16 3 ++ be32 0x200)
    (wr_bytes 0x10000 (be32 0x10000 ++ be32 0x11000) (wr_bytes 0x200 (B "S:\SUB\PROG.PRG" ++ [0]) ∅))).
Definition s_load : sys hostw (gmap Z Z) := (do_pexec 18 0x100 s_pexec).2.

Lemma relocate_spec_witness :
  exists im', relocate 0x10100 40 0 prg (take 12 (drop 28 prg)) = Some im' /\
    be32_at im' 2 = 0x10108 /\ im' !! 8%nat = Some 1.
Proof.
  eexists. split; [vm_compute; reflexivity|].
  match goal with |- be32_at ?l _ = _ /\ _ =>
    destruct (relocate_spec 0x10100 40 0 prg (take 12 (drop 28 prg)) l) as (_ & Hf & Ho) end.
  - repeat constructor; done.
  - repeat constructor.
  - vm_compute. reflexivity.
  - split; [exact (Hf 2 (or_introl eq_refl))|].
    rewrite Ho; [vm_compute; reflexivity|]. repeat constructor. vm_compute. intuition discriminate.
Defined.

